(* ===== verification/_CoqProject ===== *)
-Q . S2P
Prelude.v
Monad.v
Hw.v
Mem.v
Words.v
LibcMem.v
LibcStr.v
Uart.v
Printf.v
Exception.v
Vmm.v
Kernel.v
Boot.v
Ex25.v
Ex20.v
Net.v
Netboot.v
Loader.v
Ex05.v
Atoi.v
Gfx.v
Monitor.v
MonitorLine.v
MonitorRun.v
Threads.v
Preempt.v
Mandel.v
Client.v
Download.v
Host.v
Deploy.v
Protocol.v
Devicetree.v
