(* ===== verification/Prelude.v ===== *)
(** * os-workshop, verified

    The repository is a small operating system for a 32-bit RISC-V machine (an
    FPGA board and QEMU): a C library, device drivers, a boot loader that takes
    programs over the network, a boot monitor, a kernel with virtual memory and
    user programs, threads, graphics, and examples that grow into these parts.
    This library models the C code and the assembly code around it, and proves
    what makes each part correct.

    ** How the code is modelled

    The machine is RV32: [int], [long] and pointers have 32 bits, [char] is
    unsigned, memory is little-endian and a misaligned word access traps.  A
    machine word is a [Z] and every wrap-around is written out ([u32], [s32],
    Prelude).  A pointer is an address; memory is a finite map from addresses to
    bytes (Mem), and what is not in it faults.

    A function is a computation in the monad of Monad: it returns a value and a
    new state ([Ok]), runs into undefined behaviour or a trap ([Fault]), or
    enters one of the program's own endless loops ([Halt]).  A loop is [loop]; it
    has fuel for [2 ^ loop_bits] iterations with [loop_bits = 33], more than a
    32-bit counter or the number of addresses allows, and a theorem that says
    what a function returns is at the same time the theorem that all of its
    loops end, that it touches mapped and aligned memory only and that no signed
    addition overflows.

    Library routines work on any state with a memory ([HasMem]) or a console
    ([HasUart], [MemUart] for both); the state records of the components are
    instances.  The other interfaces are [EthTx], what the network stack relies
    on from the Ethernet driver (Netboot is an instance), [UdpClient], the
    receiver of datagrams, [Os] and [Host], the system calls of the host,
    [Descriptors], the laws of its descriptors, and [BootNode] and [LanNode], what
    the boot client relies on from the boot loader (Download and Deploy are
    instances).  Privileged instructions are recorded in order (Hw).

    A comment [src/file:first-last] before a definition names the code it
    translates.

    ** The files

    - Prelude, Monad, Hw, Mem, Words: machine integers, the monad and its loop
      rule, privileged operations, memory, runs of words.
    - LibcMem, LibcStr (libc/src/string): every routine.  memcpy, memmove, memset
      and strncpy write what they should and nothing else, with the exact
      conditions; strtok splits a string into its tokens.
    - Atoi (libc/src/atoi.c, ctype.c): strtoul against a specification of the
      grammar with saturation; the exact overflow of atoi; reading back what
      printf wrote.
    - Uart (hw/src/debug-io.c): the bytes leave in order, for any schedule of the
      transmitter.
    - Printf (libc/src/printf.c, hw/src/debug-printf.c): the format engine refines
      [render], the meaning of directives; the bounds of vsnprintf.
    - Exception (hw/src/print-exception.c): the reports, to the character; the
      cause by a table of the architecture's causes, the registers where the trap
      entry stores them.
    - Vmm, Kernel, Boot (xos/src): the page tables refine the Sv32 page walk, which
      also decides whether the kernel may write to the program's pages; the
      memory map of the kernel from the linker's symbols; traps save and restore
      every register; system calls; and, composed from these, the boot from
      [start] to the first instruction of the user program.
    - Net (net/ipv6.c), Netboot, Loader (boot/netboot.c): which frames are reacted
      to, the answers to pings and neighbour solicitations, UDP replies with valid
      checksums; the boot protocol from the frame in the MAC to the bytes in RAM.
      The MAC is a queue of polls that find nothing and of frames, each in a
      receive slot, whose address the driver has to compute;
      a session of the loader from [start] to the program it was sent.
    - Ex05 (example/ex05-ethernet.c): another client of the same stack.
    - Client, Host (tools/netboot.c): the host side of the protocol, over a network
      with addresses, ports and connected sockets that loses and delays messages;
      the arguments, the search for the node and
      [main], and that it gives back every descriptor.  Download, Deploy: both
      sides together, for one file and from the command line to the program
      running on the node.  Protocol: whatever happens, the client sends nothing
      but well-formed messages.
    - Gfx (libgfx/src): drawing writes exactly the pixels of its shape; the text
      terminal refines a grid of characters.
    - Monitor, MonitorLine, MonitorRun (boot/console.c, boot/boot.c,
      boot/helpers.S): line editing refines an abstract editor, a line is run as
      its words, every command returns with the machine as it was but for the CSRs
      a trap at a dumped address writes (mepc among them, which entry.S reloads
      from its frame); every character received is handled once, in order.
    - Threads (example/ex10-threads-cooperative.c, hw/src/context-switch.S): the
      ring of threads, creation, exit, and that every thread gets its turn.
    - Preempt (example/ex11-threads-preemptive.c, hw/src/trap-entry-single-stack.S):
      threads switched by the timer interrupt; an interrupted thread goes on with
      the registers, the mode and the interrupt state it had, and its turn comes.
    - Mandel (misc/mandelbrot.c, misc/mandelbrot-fb.c, xos/usr/mandelbrot.c and the
      threads of examples 10 and 11): the text version prints what the reference
      prints, and the renderers stay inside the surface without signed overflow.
    - Devicetree (misc/devicetree.c): the walk prints the tree that was flattened;
      a line that does not fit into the 127 bytes of a call of xprintf is cut.

    ** Parameters

    The linker's addresses, uninitialised stack memory ([garbage], [txt0], ...),
    the font, the schedule of devices, the network and the host's system calls.

    ** Idealised

    - [exit] of the host program is [Halt]: it does not come back.
    - The host's clock (uint64_t milliseconds) is an unbounded integer.
    - The page walk takes a leaf that is writable but not readable, which the
      architecture reserves and the programs never write, for a leaf.
    - A trap handler's own stack frame is not in memory; the frame the entry code
      builds is.

    ** Not modelled

    The vendored font and hash (external/), linker scripts and makefiles, reset
    code, device headers beyond the constants in use, the parts of printf.c that
    are compiled out, and the one-device demos: they are listed in the manifest with the reason. *)

From Stdlib Require Export ZArith Lia Btauto.
From stdpp Require Export strings.
From stdpp Require Export base gmap list numbers.

Create Rewrite HintDb masks.
Create Rewrite HintDb push_length.
Create HintDb bytes.

#[export] Set Default Goal Selector "!".

Open Scope Z_scope.

(** ** Machine integers: the unsigned and signed views of the low bits of a [Z] *)

Definition u8 (z : Z) : Z := z mod 0x100.
Definition u16 (z : Z) : Z := z mod 0x10000.
Definition u32 (z : Z) : Z := z mod 0x100000000.
Definition u64 (z : Z) : Z := z mod 0x10000000000000000.

Definition s8 (z : Z) : Z := (z + 0x80) mod 0x100 - 0x80.
Definition s16 (z : Z) : Z := (z + 0x8000) mod 0x10000 - 0x8000.
Definition s32 (z : Z) : Z := (z + 0x80000000) mod 0x100000000 - 0x80000000.

Definition is_u8 (z : Z) : Prop := 0 <= z < 0x100.
Definition is_u16 (z : Z) : Prop := 0 <= z < 0x10000.
Definition is_u32 (z : Z) : Prop := 0 <= z < 0x100000000.
Definition is_s32 (z : Z) : Prop := -0x80000000 <= z < 0x80000000.

#[export] Instance is_u8_dec z : Decision (is_u8 z).
Proof. unfold is_u8. apply _. Defined.
#[export] Instance is_u16_dec z : Decision (is_u16 z).
Proof. unfold is_u16. apply _. Defined.
#[export] Instance is_u32_dec z : Decision (is_u32 z).
Proof. unfold is_u32. apply _. Defined.
#[export] Instance is_s32_dec z : Decision (is_s32 z).
Proof. unfold is_s32. apply _. Defined.

(** [zify]-style arithmetic: unfold the views and let [lia] see the divisions. *)
Ltac zarith :=
  unfold u8, u16, u32, u64, s8, s16, s32, is_u8, is_u16, is_u32, is_s32 in *;
  Z.to_euclidean_division_equations; lia.

Lemma u8_range z : 0 <= u8 z < 0x100.
Proof. zarith. Qed.
Lemma u16_range z : 0 <= u16 z < 0x10000.
Proof. zarith. Qed.
Lemma u32_range z : 0 <= u32 z < 0x100000000.
Proof. zarith. Qed.
Lemma s8_range z : -0x80 <= s8 z < 0x80.
Proof. zarith. Qed.
Lemma s32_range z : -0x80000000 <= s32 z < 0x80000000.
Proof. zarith. Qed.

Lemma u8_small z : is_u8 z -> u8 z = z.
Proof. apply Z.mod_small. Qed.
Lemma u16_small z : is_u16 z -> u16 z = z.
Proof. apply Z.mod_small. Qed.
Lemma u32_small z : is_u32 z -> u32 z = z.
Proof. apply Z.mod_small. Qed.
Lemma s32_small z : is_s32 z -> s32 z = z.
Proof. zarith. Qed.

(** ** Lists *)

Lemma split_at {A} (n : nat) (l : list A) :
  (n <= length l)%nat -> exists l1 l2, l = l1 ++ l2 /\ length l1 = n.
Proof.
  intros Hn. exists (take n l), (drop n l). rewrite take_drop, length_take. split; [done|lia].
Qed.

(** ** Bit masks as divisions *)

Lemma land_mask x m k : 0 <= k -> m = Z.ones k -> Z.land x m = x mod 2 ^ k.
Proof. intros Hk ->. by apply Z.land_ones. Qed.

Lemma land_3 x : Z.land x 3 = x mod 4.
Proof. by apply (land_mask x 3 2). Qed.
Lemma land_1 x : Z.land x 1 = x mod 2.
Proof. by apply (land_mask x 1 1). Qed.
Lemma land_FF x : Z.land x 0xFF = x mod 0x100.
Proof. by apply (land_mask x 0xFF 8). Qed.
Lemma land_3FF x : Z.land x 0x3FF = x mod 0x400.
Proof. by apply (land_mask x 0x3FF 10). Qed.
Lemma land_FFF x : Z.land x 0xFFF = x mod 0x1000.
Proof. by apply (land_mask x 0xFFF 12). Qed.
Lemma land_FFFF x : Z.land x 0xFFFF = x mod 0x10000.
Proof. by apply (land_mask x 0xFFFF 16). Qed.
Lemma land_3FFFFF x : Z.land x 0x3FFFFF = x mod 0x400000.
Proof. by apply (land_mask x 0x3FFFFF 22). Qed.

#[export] Hint Rewrite land_3 land_1 land_FF land_3FF land_FFF land_FFFF land_3FFFFF : masks.

(** A value below [2 ^ k] has no bit at or above position [k]. *)
Lemma testbit_above x k i : 0 <= x < 2 ^ k -> 0 <= k <= i -> Z.testbit x i = false.
Proof.
  intros Hx Hi. destruct (decide (x = 0)) as [->|]; [apply Z.bits_0|].
  apply Z.bits_above_log2; [lia|].
  apply Z.log2_lt_pow2; [lia|]. apply (Z.lt_le_trans _ (2 ^ k)); [lia|].
  apply Z.pow_le_mono_r; lia.
Qed.

(** Clearing the low [k] bits of a 32-bit word. *)
Lemma land_high x m k :
  0 <= k <= 32 -> m = Z.shiftl (Z.ones (32 - k)) k -> is_u32 x ->
  Z.land x m = x - x mod 2 ^ k.
Proof.
  intros Hk -> Hx.
  assert (x - x mod 2 ^ k = Z.shiftl (Z.shiftr x k) k) as ->.
  { rewrite Z.shiftl_mul_pow2, Z.shiftr_div_pow2 by lia.
    rewrite (Z.mul_comm (x / 2 ^ k)).
    pose proof (Z.div_mod x (2 ^ k)). lia. }
  apply Z.bits_inj'. intros i Hi.
  rewrite Z.land_spec, !Z.shiftl_spec by lia.
  destruct (decide (i < k)).
  { rewrite (Z.testbit_neg_r (Z.ones _)), (Z.testbit_neg_r (Z.shiftr _ _)) by lia. btauto. }
  rewrite Z.shiftr_spec by lia. replace (i - k + k) with i by lia.
  rewrite Z.testbit_ones_nonneg by lia.
  destruct (Z.ltb_spec (i - k) (32 - k)); [btauto|].
  rewrite (testbit_above x 32 i) by (unfold is_u32 in *; lia). done.
Qed.

(** ** Flag tests *)

(** [flags & f] as a condition *)
Definition has (f flags : Z) : bool := negb (Z.land flags f =? 0).

Lemma has_lor f a b : has f (Z.lor a b) = has f a || has f b.
Proof.
  unfold has. rewrite Z.land_lor_distr_l.
  destruct (Z.eqb_spec (Z.land a f) 0) as [->|Ha], (Z.eqb_spec (Z.land b f) 0) as [->|Hb];
    cbn [negb orb]; rewrite ?Z.lor_0_l; [done|by rewrite (proj2 (Z.eqb_neq _ _) Hb)| |];
    apply negb_true_iff, Z.eqb_neq; rewrite Z.lor_eq_0_iff; tauto.
Qed.

Lemma has_lor_flag f g a : has (Z.lor f g) a = has f a || has g a.
Proof.
  pose proof (has_lor a f g) as H. unfold has in *. by rewrite !(Z.land_comm a).
Qed.

(** [|] of values with no bit in common is [+]. *)
Lemma lor_add a b : Z.land a b = 0 -> Z.lor a b = a + b.
Proof. intros H. by rewrite Z.add_nocarry_lxor, Z.lxor_lor. Qed.

Lemma lor_low a b k : 0 <= k -> 0 <= b < 2 ^ k -> a mod 2 ^ k = 0 -> Z.lor a b = a + b.
Proof.
  intros Hk Hb Ha. apply lor_add. apply Z.bits_inj'. intros i Hi.
  rewrite Z.land_spec, Z.bits_0. destruct (decide (i < k)).
  - rewrite <- (Z.land_ones a k Hk) in Ha.
    rewrite <- (Z.land_spec), <- (andb_true_r (Z.testbit (Z.land a b) i)).
    replace true with (Z.testbit (Z.ones k) i)
      by (rewrite Z.testbit_ones_nonneg by lia; apply Z.ltb_lt; lia).
    rewrite <- Z.land_spec, (Z.land_comm a b), <- Z.land_assoc, Ha, Z.land_0_r.
    apply Z.bits_0.
  - rewrite (testbit_above b k i) by lia. btauto.
Qed.

(** ** Little-endian byte strings *)

Fixpoint le_bytes (n : nat) (v : Z) : list Z :=
  match n with
  | O => []
  | S n' => u8 v :: le_bytes n' (v / 0x100)
  end.

Fixpoint le_val (l : list Z) : Z :=
  match l with
  | [] => 0
  | b :: l' => b + 0x100 * le_val l'
  end.

Abbreviation bytes l := (Forall is_u8 l).

Lemma length_le_bytes n v : length (le_bytes n v) = n.
Proof. revert v. induction n; intros; cbn; [done | by f_equal]. Qed.

Lemma le_bytes_u8 n v : bytes (le_bytes n v).
Proof.
  revert v. induction n; intros; cbn; constructor; [apply u8_range | done].
Qed.

Lemma le_bytes_val l n : length l = n -> bytes l -> le_bytes n (le_val l) = l.
Proof.
  intros <-. induction 1 as [|b l Hb Hl IH]; cbn; [done|]. unfold is_u8 in *.
  f_equal; [zarith|]. replace ((b + 0x100 * le_val l) / 0x100) with (le_val l); [done|zarith].
Qed.

Lemma le_val_bytes n v : le_val (le_bytes n v) = v mod 0x100 ^ Z.of_nat n.
Proof.
  revert v. induction n as [|n IH]; intros; cbn [le_bytes le_val]; [by rewrite Z.mod_1_r|].
  rewrite IH, Nat2Z.inj_succ, Z.pow_succ_r by lia.
  rewrite Z.rem_mul_r by lia. unfold u8. lia.
Qed.

Lemma le_val_range l : bytes l -> 0 <= le_val l < 0x100 ^ Z.of_nat (length l).
Proof.
  induction 1 as [|b l Hb Hl IH]; cbn [le_val length]; [lia|].
  rewrite Nat2Z.inj_succ, Z.pow_succ_r by lia. unfold is_u8 in *. lia.
Qed.

#[export] Hint Rewrite length_le_bytes : push_length.
#[export] Hint Resolve le_bytes_u8 : bytes.

(** ** String literals, as the bytes the compiler puts in rodata (without the NUL) *)

Definition str (s : string) : list Z :=
  map (fun c => Z.of_nat (Ascii.nat_of_ascii c)) (String.list_ascii_of_string s).
Arguments str s%_stdpp_scope : simpl never.
