(* ===== verification/Monad.v ===== *)
(** * Effects: the outcome monad and C loops

    A C function that touches state of type [S] and returns an [A] is an
    [M S A]: it either returns ([Ok]), performs an undefined or trapping
    operation ([Fault]: an access outside mapped memory, a misaligned word
    access, a signed overflow), enters one of the program's own [for (;;) ;]
    loops ([Halt], with the state it keeps for ever), or is a loop that did not
    finish within [2 ^ loop_bits] iterations ([NoFuel]).

    A C loop is [loop body x]: [x] is the tuple of locals the loop carries,
    [body] runs one iteration and either goes on ([inl]) or leaves the loop
    ([inr]).  [loop_bits] is 33, so the bound is above the number of addresses
    of a 32-bit machine; [loop_runs] is the rule that turns "this many
    iterations lead to this outcome" into the value of the loop, and every
    theorem about a loop goes through it, so every such theorem is also a
    termination theorem. *)

From S2P Require Import Prelude.

Inductive outcome (S A : Type) : Type :=
| Ok (a : A) (s : S)
| Fault
| Halt (s : S)
| NoFuel.
Arguments Ok {S A} a s.
Arguments Fault {S A}.
Arguments Halt {S A} s.
Arguments NoFuel {S A}.

Definition M (S A : Type) : Type := S -> outcome S A.

Definition ret {S A} (a : A) : M S A := fun s => Ok a s.

Definition bind {S A B} (c : M S A) (k : A -> M S B) : M S B := fun s =>
  match c s with
  | Ok a s' => k a s'
  | Fault => Fault
  | Halt s' => Halt s'
  | NoFuel => NoFuel
  end.

Definition fault {S A} : M S A := fun _ => Fault.
Definition nofuel {S A} : M S A := fun _ => NoFuel.

(** [for (;;) ;] *)
Definition spin {S A} : M S A := fun s => Halt s.

Definition get {S} : M S S := fun s => Ok s s.
Definition put {S} (s : S) : M S unit := fun _ => Ok tt s.
Definition modify {S} (f : S -> S) : M S unit := fun s => Ok tt (f s).
Definition gets {S A} (f : S -> A) : M S A := fun s => Ok (f s) s.

Declare Scope prog_scope.
Delimit Scope prog_scope with prog.
Notation "x <- c ;; k" := (bind c (fun x => k))
  (at level 100, c at next level, right associativity) : prog_scope.
Notation "c ;; k" := (bind c (fun _ => k))
  (at level 100, right associativity) : prog_scope.
Notation "'let*' pat := c 'in' k" := (bind c (fun x => match x with pat => k end))
  (at level 10, pat pattern, c at level 100, k at level 200) : prog_scope.
Open Scope prog_scope.

(** A signed 32-bit result: the operation is undefined when it does not fit. *)
Definition int32 {S} (z : Z) : M S Z := if decide (is_s32 z) then ret z else fault.

(** ** Loops *)

Fixpoint iter2 {S X R} (n : nat) (body : X -> M S (X + R)) (x : X) : M S (X + R) :=
  match n with
  | O => body x
  | S n' =>
    r <- iter2 n' body x ;;
    match r with
    | inl x' => iter2 n' body x'
    | inr r' => ret (inr r')
    end
  end.

Definition loop_bits : nat := 33.

Definition loop {S X R} (body : X -> M S (X + R)) (x : X) : M S R :=
  r <- iter2 loop_bits body x ;;
  match r with
  | inl _ => nofuel
  | inr r' => ret r'
  end.

(** ** Equations of the monad *)

Lemma bind_ok {S A B} (c : M S A) (k : A -> M S B) s a s' :
  c s = Ok a s' -> bind c k s = k a s'.
Proof. unfold bind. by intros ->. Qed.

Lemma bind_halt {S A B} (c : M S A) (k : A -> M S B) s s' :
  c s = Halt s' -> bind c k s = Halt s'.
Proof. unfold bind. by intros ->. Qed.

Lemma bind_assoc {S A B C} (c : M S A) (f : A -> M S B) (g : B -> M S C) s :
  bind (bind c f) g s = bind c (fun a => bind (f a) g) s.
Proof. unfold bind. by destruct (c s). Qed.

(** Only the outcome of the first call matters. *)
Lemma bind_cong {S A B} (c c' : M S A) (k : A -> M S B) s : c s = c' s -> bind c k s = bind c' k s.
Proof. unfold bind. by intros ->. Qed.

Lemma bind_ret {S A B} (a : A) (k : A -> M S B) s : bind (ret a) k s = k a s.
Proof. done. Qed.

Lemma int32_ok {S} z (s : S) : is_s32 z -> int32 z s = Ok z s.
Proof. intros. unfold int32. by rewrite decide_True. Qed.

Lemma int32_fault {S} z (s : S) : ~ is_s32 z -> int32 z s = Fault.
Proof. intros. unfold int32. by rewrite decide_False. Qed.

(** ** The loop rule *)

Section loops.
Context {S X R : Type} (body : X -> M S (X + R)).

(** [runs k x s o]: from locals [x] and state [s] the body goes on [k] times
    and then leaves the loop with outcome [o]. *)
Inductive runs : nat -> X -> S -> outcome S R -> Prop :=
| runs_done x s r s' :
    body x s = Ok (inr r) s' -> runs 0 x s (Ok r s')
| runs_halt x s s' :
    body x s = Halt s' -> runs 0 x s (Halt s')
| runs_fault x s :
    body x s = Fault -> runs 0 x s Fault
| runs_step k x s x' s' o :
    body x s = Ok (inl x') s' -> runs k x' s' o -> runs (Datatypes.S k) x s o.

Fixpoint steps (n : nat) (x : X) : M S (X + R) :=
  match n with
  | O => ret (inl x)
  | Datatypes.S n' =>
    r <- body x ;;
    match r with inl x' => steps n' x' | inr r' => ret (inr r') end
  end.

Lemma steps_add a b x s :
  steps (a + b) x s =
  (r <- steps a x ;; match r with inl x' => steps b x' | inr r' => ret (inr r') end) s.
Proof.
  revert x s. induction a as [|a IH]; intros x s; [done|].
  cbn [Nat.add steps]. rewrite bind_assoc. unfold bind.
  destruct (body x s) as [[x'|r'] s' | | |]; [apply IH | done..].
Qed.

Lemma iter2_steps n x s : iter2 n body x s = steps (2 ^ n) x s.
Proof.
  revert x s. induction n as [|n IH]; intros x s.
  - cbn. unfold bind. by destruct (body x s) as [[x'|r'] s' | | |].
  - cbn [iter2]. replace (2 ^ Datatypes.S n)%nat with (2 ^ n + 2 ^ n)%nat
      by (cbn [Nat.pow]; lia).
    rewrite steps_add. unfold bind. rewrite IH.
    destruct (steps (2 ^ n) x s) as [[x'|r'] s' | | |]; [apply IH | done..].
Qed.

Lemma runs_steps k x s o j :
  runs k x s o -> (k < j)%nat ->
  match o with
  | Ok r s' => steps j x s = Ok (inr r) s'
  | Halt s' => steps j x s = Halt s'
  | Fault => steps j x s = Fault
  | NoFuel => False
  end.
Proof.
  intros H. revert j. induction H as [x s r s' E|x s s' E|x s E|k x s x' s' o E H IH];
    intros [|j] Hj; try lia; cbn [steps]; unfold bind; rewrite E; [done..|].
  apply IH. lia.
Qed.

Lemma loop_runs k x s o :
  runs k x s o -> Z.of_nat k < 2 ^ 33 -> loop body x s = o.
Proof.
  intros H Hk. unfold loop, bind at 1. rewrite iter2_steps.
  assert (k < 2 ^ loop_bits)%nat as Hlt.
  { apply Nat2Z.inj_lt. rewrite Nat2Z.inj_pow. exact Hk. }
  apply (runs_steps _ _ _ _ _ H) in Hlt.
  destruct o; [by rewrite Hlt | by rewrite Hlt | by rewrite Hlt | done].
Qed.
End loops.

(** ** Programs that keep a part of the state, and programs that do the same *)

(** Whatever [c] does, it does not change what [f] reads. *)
Definition keeps {S A B} (f : S -> B) (c : M S A) : Prop :=
  forall s a s', c s = Ok a s' -> f s' = f s.

Section keeps.
Context {S B : Type} (f : S -> B).

Lemma keeps_ret {A} (a : A) : keeps f (ret a).
Proof. by intros s a' s' [= _ <-]. Qed.

Lemma keeps_halt {A} (c : M S A) : (forall s a s', c s <> Ok a s') -> keeps f c.
Proof. intros H s a s' E. by destruct (H s a s'). Qed.

Lemma keeps_gets {A} (g : S -> A) : keeps f (gets g).
Proof. by intros s a s' [= _ <-]. Qed.

Lemma keeps_modify (g : S -> S) : (forall s, f (g s) = f s) -> keeps f (modify g).
Proof. intros H s a s' [= _ <-]. apply H. Qed.

Lemma keeps_bind {A C} (c : M S A) (k : A -> M S C) :
  keeps f c -> (forall a, keeps f (k a)) -> keeps f (bind c k).
Proof.
  intros Hc Hk s a s'. unfold bind. destruct (c s) as [x s1| | |] eqn:E; [|done..].
  intros E'. rewrite (Hk _ _ _ _ E'). by apply Hc in E.
Qed.

Lemma keeps_loop {X R} (body : X -> M S (X + R)) x : (forall x, keeps f (body x)) -> keeps f (loop body x).
Proof.
  intros H. unfold loop. apply keeps_bind; [|by intros []; [apply keeps_halt|apply keeps_ret]].
  revert x. induction loop_bits as [|n IH]; intros x; cbn [iter2]; [done|].
  apply keeps_bind; [done|]. intros []; [done|apply keeps_ret].
Qed.
End keeps.

(** Whenever [c] returns, [c'] returns the same in the same state. *)
Definition refines {S A} (c c' : M S A) : Prop :=
  forall s a s', c s = Ok a s' -> c' s = Ok a s'.

#[export] Instance refines_preorder {S A} : PreOrder (@refines S A).
Proof. split; [by intros c s a s'|]. intros c d e H1 H2 s a s' H. by apply H2, H1. Qed.

Lemma refines_bind {S A B} (c c' : M S A) (k k' : A -> M S B) :
  refines c c' -> (forall a, refines (k a) (k' a)) -> refines (bind c k) (bind c' k').
Proof.
  intros Hc Hk s b s'. unfold bind. destruct (c s) as [a s1| | |] eqn:E; [|done..].
  rewrite (Hc _ _ _ E). apply Hk.
Qed.

(** Loops whose bodies do the same for the locals [I] that occur. *)
Lemma refines_loop {S X R} (I : X -> Prop) (body body' : X -> M S (X + R)) :
  (forall x, I x -> refines (body x) (body' x)) ->
  (forall x s x' s', I x -> body x s = Ok (inl x') s' -> I x') ->
  forall x, I x -> refines (loop body x) (loop body' x).
Proof.
  intros Hb HI x Hx. unfold loop.
  assert (forall n x, I x -> refines (iter2 n body x) (iter2 n body' x) /\
    forall s x' s', iter2 n body x s = Ok (inl x') s' -> I x') as H.
  { clear x Hx. induction n as [|n IH]; intros x Hx; cbn [iter2].
    - split; [by apply Hb|]. intros s x' s'. by apply HI.
    - destruct (IH x Hx) as [H1 H2]. split.
      + intros s r s'. unfold bind. destruct (iter2 n body x s) as [[x1|r1] s1| | |] eqn:E; [..|done|done|done];
          rewrite (H1 _ _ _ E); [|done]. by apply (IH x1 (H2 _ _ _ E)).
      + intros s x' s'. unfold bind. destruct (iter2 n body x s) as [[x1|r1] s1| | |] eqn:E; [|done..].
        apply (IH x1 (H2 _ _ _ E)). }
  apply refines_bind; [by apply H|]. by intros [].
Qed.

#[global] Opaque loop_bits.

(** [keeps] by the shape of the program, with the lemmas of the database [keeps]
    for its calls. *)
Create HintDb keeps.
#[export] Hint Constants Opaque : keeps.
#[export] Hint Resolve keeps_ret keeps_gets keeps_modify : keeps.

Ltac keep :=
  repeat (lazymatch goal with
  | |- keeps _ (bind _ _) => apply keeps_bind
  | |- keeps _ (loop _ _) => apply keeps_loop
  | |- keeps _ (match ?x with _ => _ end) => destruct x
  | |- keeps _ (if ?x then _ else _) => destruct x
  | |- keeps _ _ => solve [auto with keeps]
  | |- forall _, _ => intros ?
  end).

(** Run the next call of the program, whose outcome is an equation [H]. *)
Ltac step H := rewrite (bind_ok _ _ _ _ _ H).
Ltac run_ret := rewrite ?bind_assoc, ?bind_ret.

(** Name the body of the loop in the goal. *)
Ltac name_body b :=
  match goal with
  | |- context [loop ?f _] => set (b := f)
  | |- context [runs ?f _ _ _ _] => set (b := f)
  end.
