(* ===== verification/Hw.v ===== *)
(** * Privileged operations

    What a program does to the machine beyond memory and devices: control and
    status register accesses, TLB flushes and mode changes, recorded in the
    order they are issued in the state of the component that issues them. *)

From S2P Require Import Prelude.

Inductive hwop : Type :=
| TlbFlush
| CsrWrite (csr v : Z)
| CsrSet (csr v : Z)
| CsrClr (csr v : Z)
| Sret (frame : list Z)        (* return to user mode with these registers *)
| Mret (a0 a1 pc sp : Z).      (* leave machine mode *)
