(* ===== verification/Mem.v ===== *)
(** * Memory: the byte-addressed store

    Memory is a finite map from addresses to bytes; what is not in the map is
    not backed by RAM or a device and faults.  Words are little-endian and
    RV32 traps on a misaligned word access, so [load_le]/[store_le] fault there
    too: a theorem that a routine returns [Ok] is also the theorem that it
    touches mapped, aligned addresses only.

    [HasMem S] is the interface between the library routines, which are
    programs over any state with a memory in it, and the components, whose
    state records implement it. *)

From S2P Require Import Prelude Monad.

Abbreviation mem := (gmap Z Z).

Class HasMem (S : Type) := {
  mem_of : S -> mem;
  with_mem : mem -> S -> S;
  mem_of_with m s : mem_of (with_mem m s) = m;
  with_mem_with m m' s : with_mem m (with_mem m' s) = with_mem m s;
  with_mem_of s : with_mem (mem_of s) s = s;
}.

#[export] Instance mem_HasMem : HasMem mem :=
  {| mem_of := id; with_mem := fun m _ => m;
     mem_of_with := fun _ _ => eq_refl; with_mem_with := fun _ _ _ => eq_refl;
     with_mem_of := fun _ => eq_refl |}.

Fixpoint read_bytes (m : mem) (a : Z) (n : nat) : option (list Z) :=
  match n with
  | O => Some []
  | S n' =>
    match m !! a, read_bytes m (a + 1) n' with
    | Some b, Some l => Some (b :: l)
    | _, _ => None
    end
  end.

Fixpoint write_bytes (m : mem) (a : Z) (l : list Z) : mem :=
  match l with
  | [] => m
  | b :: l' => write_bytes (<[a := b]> m) (a + 1) l'
  end.

(** The bytes [l] are stored from address [a] on. *)
Definition bytes_at (m : mem) (a : Z) (l : list Z) : Prop :=
  bytes l /\ read_bytes m a (length l) = Some l.

(** Every address of [a, a + n) is backed by memory. *)
Definition mapped (m : mem) (a : Z) (n : Z) : Prop :=
  is_Some (read_bytes m a (Z.to_nat n)).

#[export] Instance bytes_at_dec m a l : Decision (bytes_at m a l).
Proof. unfold bytes_at. apply _. Defined.
#[export] Instance mapped_dec m a n : Decision (mapped m a n).
Proof. unfold mapped. apply _. Defined.

Definition poke {S} `{HasMem S} (s : S) (a : Z) (l : list Z) : S :=
  with_mem (write_bytes (mem_of s) a l) s.

(** Loads and stores of [n]-byte little-endian words. *)
Definition load_le {S} `{HasMem S} (n : nat) (a : Z) : M S Z := fun s =>
  if a mod Z.of_nat n =? 0 then
    match read_bytes (mem_of s) a n with
    | Some l => Ok (le_val l) s
    | None => Fault
    end
  else Fault.

Definition store_le {S} `{HasMem S} (n : nat) (a v : Z) : M S unit := fun s =>
  if a mod Z.of_nat n =? 0 then
    match read_bytes (mem_of s) a n with
    | Some _ => Ok tt (poke s a (le_bytes n v))
    | None => Fault
    end
  else Fault.

Abbreviation load8 := (load_le 1).
Abbreviation load16 := (load_le 2).
Abbreviation load32 := (load_le 4).
Abbreviation store8 := (store_le 1).
Abbreviation store16 := (store_le 2).
Abbreviation store32 := (store_le 4).

(** ** Reading *)

Lemma read_bytes_lookup m a n l :
  read_bytes m a n = Some l <->
  length l = n /\ (forall i, (i < n)%nat -> m !! (a + Z.of_nat i) = l !! i).
Proof.
  revert a l. induction n as [|n IH]; intros a l; cbn [read_bytes].
  { split; [intros [= <-]; split; [done|lia] | intros [Hl _]; by destruct l]. }
  split.
  - destruct (m !! a) as [b|] eqn:Hb; [|done].
    destruct (read_bytes m (a + 1) n) as [l'|] eqn:Hl'; [|done]. intros [= <-].
    apply IH in Hl' as [Hlen Hlk]. split; [cbn; lia|]. intros [|i] Hi.
    { by rewrite Z.add_0_r. }
    rewrite Nat2Z.inj_succ. replace (a + Z.succ (Z.of_nat i)) with (a + 1 + Z.of_nat i) by lia.
    apply Hlk. lia.
  - intros [Hlen Hlk]. destruct l as [|b l]; [done|]. cbn in Hlen.
    pose proof (Hlk 0%nat ltac:(lia)) as H0. rewrite Z.add_0_r in H0. cbn in H0. rewrite H0.
    rewrite (proj2 (IH (a + 1) l)); [done|]. split; [lia|]. intros i Hi.
    specialize (Hlk (Datatypes.S i) ltac:(lia)). rewrite Nat2Z.inj_succ in Hlk. cbn in Hlk.
    by replace (a + 1 + Z.of_nat i) with (a + Z.succ (Z.of_nat i)) by lia.
Qed.

Lemma bytes_at_lookup m a l :
  bytes_at m a l <->
  bytes l /\ (forall i, (i < length l)%nat -> m !! (a + Z.of_nat i) = l !! i).
Proof.
  unfold bytes_at. rewrite read_bytes_lookup. tauto.
Qed.

Lemma bytes_at_bytes m a l : bytes_at m a l -> bytes l.
Proof. by intros []. Qed.

Lemma bytes_at_nil m a : bytes_at m a [].
Proof. by split. Qed.

Lemma bytes_at_app m a l1 l2 :
  bytes_at m a (l1 ++ l2) <->
  bytes_at m a l1 /\ bytes_at m (a + Z.of_nat (length l1)) l2.
Proof.
  rewrite !bytes_at_lookup, Forall_app, length_app. split.
  - intros [[H1 H2] H]. split; (split; [done|]).
    + intros i Hi. rewrite H by lia. by apply lookup_app_l.
    + intros i Hi. rewrite <- Z.add_assoc, <- Nat2Z.inj_add, H by lia.
      rewrite lookup_app_r by lia. f_equal. lia.
  - intros [[H1 Hl1] [H2 Hl2]]. split; [done|]. intros i Hi.
    destruct (decide (i < length l1)%nat).
    + rewrite lookup_app_l by lia. by apply Hl1.
    + rewrite lookup_app_r by lia. rewrite <- Hl2 by lia. f_equal. lia.
Qed.

Lemma bytes_at_cons m a b l :
  bytes_at m a (b :: l) <-> is_u8 b /\ m !! a = Some b /\ bytes_at m (a + 1) l.
Proof.
  unfold bytes_at. cbn [length read_bytes]. rewrite Forall_cons_iff. split.
  - intros [[Hb Hl] H]. destruct (m !! a) as [b'|]; [|done].
    destruct (read_bytes m (a + 1) (length l)); [|done]. by simplify_eq.
  - intros (Hb & -> & Hl & Hr). by rewrite Hr.
Qed.

Lemma bytes_at_unique m a l1 l2 :
  bytes_at m a l1 -> bytes_at m a l2 -> length l1 = length l2 -> l1 = l2.
Proof. intros [_ H1] [_ H2] E. rewrite E in H1. congruence. Qed.

Lemma mapped_lookup m a n :
  mapped m a n <-> (forall i, a <= i < a + n -> is_Some (m !! i)).
Proof.
  unfold mapped. split.
  - intros [l H] i Hi. apply read_bytes_lookup in H as [Hlen H].
    specialize (H (Z.to_nat (i - a)) ltac:(lia)).
    rewrite Z2Nat.id in H by lia. replace (a + (i - a)) with i in H by lia. rewrite H.
    apply lookup_lt_is_Some_2. lia.
  - intros H. destruct (decide (0 <= n)); [|replace (Z.to_nat n) with 0%nat by lia; by eexists].
    assert (forall k b, a <= b -> b + Z.of_nat k <= a + n -> is_Some (read_bytes m b k)) as Hg.
    { induction k as [|k IH]; intros b Hb Hk; [by eexists|]. cbn [read_bytes].
      destruct (H b ltac:(lia)) as [x ->]. destruct (IH (b + 1)) as [l' ->]; [lia..|]. by eexists. }
    apply Hg; lia.
Qed.

Lemma mapped_sub m a n b k : mapped m a n -> a <= b -> b + k <= a + n -> mapped m b k.
Proof. rewrite !mapped_lookup. intros H Ha Hb i Hi. apply H. lia. Qed.

Lemma bytes_at_mapped m a l n : bytes_at m a l -> n = Z.of_nat (length l) -> mapped m a n.
Proof. intros [_ H] ->. unfold mapped. rewrite Nat2Z.id. by eexists. Qed.

(** ** Writing *)

Lemma lookup_write_bytes m a l i :
  write_bytes m a l !! i =
  if decide (a <= i < a + Z.of_nat (length l)) then l !! Z.to_nat (i - a) else m !! i.
Proof.
  revert m a. induction l as [|b l IH]; intros m a; cbn [write_bytes length].
  { rewrite decide_False by lia. done. }
  rewrite IH. repeat case_decide; try lia.
  - replace (Z.to_nat (i - a)) with (Datatypes.S (Z.to_nat (i - (a + 1)))) by lia. done.
  - assert (i = a) as -> by lia. rewrite lookup_insert_eq, Z.sub_diag. done.
  - rewrite lookup_insert_ne by lia. done.
Qed.

Lemma write_bytes_app m a l1 l2 :
  write_bytes (write_bytes m a l1) (a + Z.of_nat (length l1)) l2 = write_bytes m a (l1 ++ l2).
Proof.
  revert m a. induction l1 as [|b l1 IH]; intros m a; cbn [write_bytes length app].
  { by rewrite Z.add_0_r. }
  rewrite <- IH. f_equal. lia.
Qed.

Lemma write_bytes_over m a l1 l2 :
  length l1 = length l2 -> write_bytes (write_bytes m a l1) a l2 = write_bytes m a l2.
Proof.
  intros Hl. apply map_eq. intros i. rewrite !lookup_write_bytes.
  repeat case_decide; try lia; done.
Qed.

Lemma write_bytes_comm m a l1 b l2 :
  a + Z.of_nat (length l1) <= b \/ b + Z.of_nat (length l2) <= a ->
  write_bytes (write_bytes m a l1) b l2 = write_bytes (write_bytes m b l2) a l1.
Proof.
  intros Hd. apply map_eq. intros i. rewrite !lookup_write_bytes.
  repeat case_decide; try lia; done.
Qed.

Lemma write_bytes_id m a l : bytes_at m a l -> write_bytes m a l = m.
Proof.
  rewrite bytes_at_lookup. intros [_ H]. apply map_eq. intros i.
  rewrite lookup_write_bytes. case_decide; [|done].
  rewrite <- H by lia. f_equal. lia.
Qed.

Lemma bytes_at_write m a l : bytes l -> bytes_at (write_bytes m a l) a l.
Proof.
  intros Hl. apply bytes_at_lookup. split; [done|]. intros i Hi.
  rewrite lookup_write_bytes. rewrite decide_True by lia. f_equal. lia.
Qed.

Lemma bytes_at_write_other m a l b l' :
  a + Z.of_nat (length l) <= b \/ b + Z.of_nat (length l') <= a ->
  bytes_at m b l' -> bytes_at (write_bytes m a l) b l'.
Proof.
  intros Hd. rewrite !bytes_at_lookup. intros [Hb H]. split; [done|]. intros i Hi.
  rewrite lookup_write_bytes, decide_False by lia. by apply H.
Qed.

(** Overwriting inside a known string. *)
Lemma bytes_at_write_mid m a l1 l2 l2' l3 :
  length l2 = length l2' -> bytes l2' -> bytes_at m a (l1 ++ l2 ++ l3) ->
  bytes_at (write_bytes m (a + Z.of_nat (length l1)) l2') a (l1 ++ l2' ++ l3).
Proof.
  intros Hlen Hb. rewrite !bytes_at_app. intros (H1 & H2 & H3). rewrite <- Hlen.
  split_and!.
  - apply bytes_at_write_other; [lia|done].
  - by apply bytes_at_write.
  - apply bytes_at_write_other; [lia|done].
Qed.

Lemma mapped_write m a l b n : mapped m b n -> mapped (write_bytes m a l) b n.
Proof.
  rewrite !mapped_lookup. intros H i Hi. rewrite lookup_write_bytes.
  case_decide; [apply lookup_lt_is_Some_2; lia | by apply H].
Qed.

Create HintDb mem.
#[export] Hint Resolve mapped_write bytes_at_bytes : mem.

(** ** States *)

Section states.
Context {S : Type} `{!HasMem S}.

Lemma mem_of_poke s a l : mem_of (poke s a l) = write_bytes (mem_of s) a l.
Proof. apply mem_of_with. Qed.

Lemma poke_poke s a l1 l2 :
  poke (poke s a l1) (a + Z.of_nat (length l1)) l2 = poke s a (l1 ++ l2).
Proof.
  unfold poke. rewrite mem_of_with, with_mem_with, write_bytes_app. done.
Qed.

Lemma poke_app s a b l1 l2 :
  b = a + Z.of_nat (length l1) -> poke (poke s a l1) b l2 = poke s a (l1 ++ l2).
Proof. intros ->. apply poke_poke. Qed.

(** Writing downwards: the lower part is written second. *)
Lemma poke_app_down s a b l1 l2 :
  b = a + Z.of_nat (length l1) -> poke (poke s b l2) a l1 = poke s a (l1 ++ l2).
Proof.
  intros ->. rewrite <- poke_poke. unfold poke. rewrite !mem_of_with, !with_mem_with.
  f_equal. apply write_bytes_comm. lia.
Qed.

Lemma poke_nil s a : poke s a [] = s.
Proof. apply with_mem_of. Qed.

Lemma poke_over s a l1 l2 : length l1 = length l2 -> poke (poke s a l1) a l2 = poke s a l2.
Proof.
  intros. unfold poke. rewrite mem_of_with, with_mem_with, write_bytes_over; done.
Qed.

Lemma poke_id s a l : bytes_at (mem_of s) a l -> poke s a l = s.
Proof. intros. unfold poke. rewrite write_bytes_id by done. apply with_mem_of. Qed.

Lemma load_ok n a l s :
  bytes_at (mem_of s) a l -> length l = n -> a mod Z.of_nat n = 0 ->
  load_le n a s = Ok (le_val l) s.
Proof.
  intros [_ H] <- Ha. unfold load_le. rewrite Ha. cbn [Z.eqb]. by rewrite H.
Qed.

Lemma load8_ok a b s : bytes_at (mem_of s) a [b] -> load8 a s = Ok b s.
Proof.
  intros H. rewrite (load_ok 1 a [b]); [|done|done|apply Z.mod_1_r].
  cbn. f_equal. lia.
Qed.

Lemma load8_at a l (i : nat) b s :
  bytes_at (mem_of s) a l -> l !! i = Some b -> load8 (a + Z.of_nat i) s = Ok b s.
Proof.
  intros H Hb. apply load8_ok. apply list_elem_of_split_length in Hb as (l1 & l2 & -> & ->).
  rewrite bytes_at_app in H. destruct H as [_ H]. rewrite bytes_at_cons in H.
  apply bytes_at_cons. destruct H as (? & ? & ?).
  split; [done|split; [done|apply bytes_at_nil]].
Qed.

Lemma store_ok n a v s :
  mapped (mem_of s) a (Z.of_nat n) -> a mod Z.of_nat n = 0 ->
  store_le n a v s = Ok tt (poke s a (le_bytes n v)).
Proof.
  unfold mapped. rewrite Nat2Z.id. intros [l Hl] Ha. unfold store_le.
  rewrite Ha. cbn [Z.eqb]. by rewrite Hl.
Qed.

Lemma store8_ok a v s :
  mapped (mem_of s) a 1 -> store8 a v s = Ok tt (poke s a [u8 v]).
Proof. intros H. apply (store_ok 1); [done|apply Z.mod_1_r]. Qed.
End states.

Create Rewrite HintDb mem.
#[export] Hint Rewrite @mem_of_poke @mem_of_with @with_mem_with @with_mem_of : mem.

(** ** Words *)

(** The word at [a], as a pure function of the memory. *)
Definition word (m : mem) (a : Z) : Z := from_option le_val 0 (read_bytes m a 4).

Lemma load32_ok {S} `{HasMem S} a (s : S) :
  mapped (mem_of s) a 4 -> a mod 4 = 0 -> load32 a s = Ok (word (mem_of s) a) s.
Proof.
  intros [l Hl] Ha. unfold load_le, word. change (Z.of_nat 4) with 4.
  rewrite Ha. cbn [Z.eqb]. change (Z.to_nat 4) with 4%nat in Hl. by rewrite Hl.
Qed.

Lemma read_bytes_agree m m' a n :
  (forall i, a <= i < a + Z.of_nat n -> m' !! i = m !! i) -> read_bytes m' a n = read_bytes m a n.
Proof.
  revert a. induction n as [|n IH]; intros a H; [done|]. cbn [read_bytes].
  rewrite H, IH by (intros; try apply H; lia). done.
Qed.

Lemma word_agree m m' a : (forall i, a <= i < a + 4 -> m' !! i = m !! i) -> word m' a = word m a.
Proof. intros H. unfold word. by rewrite (read_bytes_agree m). Qed.

Lemma word_write_other m a l b :
  a + Z.of_nat (length l) <= b \/ b + 4 <= a -> word (write_bytes m a l) b = word m b.
Proof. intros Hd. apply word_agree. intros i Hi. by rewrite lookup_write_bytes, decide_False by lia. Qed.

Lemma word_bytes_at m a l : bytes_at m a l -> length l = 4%nat -> word m a = le_val l.
Proof. intros [_ H] Hl. rewrite Hl in H. unfold word. by rewrite H. Qed.

(** A word store, seen by an aligned word load. *)
Lemma word_write m a v b :
  a mod 4 = 0 -> b mod 4 = 0 ->
  word (write_bytes m a (le_bytes 4 v)) b = if decide (a = b) then u32 v else word m b.
Proof.
  intros Ha Hb. case_decide as E.
  - subst b. rewrite (word_bytes_at _ _ (le_bytes 4 v)).
    + apply (le_val_bytes 4).
    + apply bytes_at_write, le_bytes_u8.
    + apply length_le_bytes.
  - apply word_write_other. rewrite length_le_bytes. zarith.
Qed.

Lemma word_write_zeros m a n b :
  a <= b -> b + 4 <= a + Z.of_nat n -> word (write_bytes m a (replicate n 0)) b = 0.
Proof.
  intros H1 H2. rewrite (word_bytes_at _ _ [0; 0; 0; 0]); [done| |done].
  apply bytes_at_lookup. split; [by repeat constructor|]. intros i Hi. cbn [length] in Hi.
  rewrite lookup_write_bytes, length_replicate, decide_True by lia.
  rewrite lookup_replicate_2 by lia. do 4 (destruct i as [|i]; [done|]). lia.
Qed.

(** Outside [a, a + n) the two memories agree. *)
Definition same_except (m m' : mem) (a n : Z) : Prop :=
  forall b, ~ (a <= b < a + n) -> m' !! b = m !! b.

Lemma same_except_write m a l : same_except m (write_bytes m a l) a (Z.of_nat (length l)).
Proof. intros b Hb. by rewrite lookup_write_bytes, decide_False by lia. Qed.

(** A concrete memory holding [l] at [a], for closed examples. *)
Definition mem_lit (a : Z) (l : list Z) : mem := write_bytes ∅ a l.

Lemma mapped_mem_lit a l b n : a = b -> Z.of_nat (length l) = n -> mapped (mem_lit a l) b n.
Proof.
  intros <- <-. apply mapped_lookup. intros i Hi. unfold mem_lit.
  rewrite lookup_write_bytes, decide_True by lia. apply lookup_lt_is_Some_2. lia.
Qed.

(** Closed decidable goals, by evaluation. *)
Ltac by_decide := apply (bool_decide_unpack _); vm_compute; exact I.
