(* ===== verification/Words.v ===== *)
(** * Sequences of words in memory

    Saved register frames and thread contexts are runs of 32-bit words; these
    are the loops that store and load them, and what they do to memory. *)

From S2P Require Import Prelude Monad Mem.

(** A run of [sw]/[lw] at consecutive offsets. *)
Fixpoint load_words {S} `{HasMem S} (a : Z) (n : nat) : M S (list Z) :=
  match n with
  | O => ret []
  | S n' => w <- load32 a ;; ws <- load_words (a + 4) n' ;; ret (w :: ws)
  end.

Fixpoint store_words {S} `{HasMem S} (a : Z) (ws : list Z) : M S unit :=
  match ws with
  | [] => ret tt
  | w :: ws' => store32 a w ;; store_words (a + 4) ws'
  end.

(** The words [ws] are stored from [a] on. *)
Definition words_at (m : mem) (a : Z) (ws : list Z) : Prop :=
  forall i w, ws !! i = Some w -> mapped m (a + 4 * Z.of_nat i) 4 /\ word m (a + 4 * Z.of_nat i) = w.

Lemma words_at_cons m a w ws :
  words_at m a (w :: ws) <-> mapped m a 4 /\ word m a = w /\ words_at m (a + 4) ws.
Proof.
  unfold words_at. split.
  - intros H. destruct (H 0%nat w eq_refl) as [H1 H2]. rewrite Z.add_0_r in *. split_and!; try done.
    intros i v Hi. specialize (H (Datatypes.S i) v Hi).
    by replace (a + 4 + 4 * Z.of_nat i) with (a + 4 * Z.of_nat (Datatypes.S i)) by lia.
  - intros (H1 & H2 & H) [|i] v Hi; cbn in Hi.
    + rewrite Z.add_0_r. by simplify_eq.
    + specialize (H i v Hi). by replace (a + 4 * Z.of_nat (Datatypes.S i)) with (a + 4 + 4 * Z.of_nat i) by lia.
Qed.

#[export] Instance words_at_dec m a ws : Decision (words_at m a ws).
Proof.
  revert a. induction ws as [|w ws IH]; intros a; [by left|].
  destruct (decide (mapped m a 4 /\ word m a = w)) as [H|H]; [destruct (IH (a + 4)) as [H'|H']|].
  - left. apply words_at_cons. tauto.
  - right. intros E. apply words_at_cons in E. tauto.
  - right. intros E. apply words_at_cons in E. tauto.
Defined.

Section words.
Context {S : Type} `{!HasMem S}.

Lemma store_words_at (s : S) a ws :
  Forall is_u32 ws -> a mod 4 = 0 -> mapped (mem_of s) a (4 * Z.of_nat (length ws)) ->
  exists m, store_words a ws s = Ok tt (with_mem m s) /\ words_at m a ws /\
    same_except (mem_of s) m a (4 * Z.of_nat (length ws)) /\
    (forall b n, mapped (mem_of s) b n -> mapped m b n).
Proof.
  intros Hws. revert a s. induction Hws as [|w ws Hw Hws IH]; intros a s Ha Hm; cbn [store_words].
  { exists (mem_of s). split; [by rewrite with_mem_of|split; [done|split; done]]. }
  cbn [length] in Hm.
  assert (mapped (mem_of s) a 4) as Hm4 by (eapply mapped_sub; [exact Hm|lia..]).
  step (store_ok 4 a w s Hm4 Ha). set (s1 := poke s a (le_bytes 4 w)).
  destruct (IH (a + 4) s1) as (m & E & Hw' & Hab & Hmm); [zarith| |].
  { unfold s1. rewrite mem_of_poke. apply mapped_write. eapply mapped_sub; [exact Hm|lia..]. }
  assert (mem_of s1 = write_bytes (mem_of s) a (le_bytes 4 w)) as Es1 by apply mem_of_poke.
  rewrite Es1 in Hab, Hmm. exists m.
  split; [rewrite E; unfold s1, poke; by rewrite with_mem_with|split; [|split]].
  - apply words_at_cons. split; [by apply Hmm, mapped_write|split; [|done]].
    rewrite (word_agree (mem_of s1)) by (rewrite Es1; intros i Hi; apply Hab; lia).
    rewrite Es1, word_write, decide_True by done. by apply u32_small.
  - intros b Hb. cbn [length] in Hb. rewrite Hab by lia.
    rewrite lookup_write_bytes, decide_False; [done|]. rewrite length_le_bytes. lia.
  - intros b n Hbn. by apply Hmm, mapped_write.
Qed.

Lemma load_words_at (s : S) a ws :
  a mod 4 = 0 -> words_at (mem_of s) a ws -> load_words a (length ws) s = Ok ws s.
Proof.
  revert a. induction ws as [|w ws IH]; intros a Ha Hw; cbn [load_words length]; [done|].
  apply words_at_cons in Hw as (Hm & Hw & Hws). step (load32_ok a s Hm Ha).
  step (IH (a + 4) ltac:(zarith) Hws). by rewrite Hw.
Qed.

End words.

(** A word of the frame is overwritten. *)
Lemma words_at_write m a ws i v :
  words_at m a ws -> a mod 4 = 0 -> is_u32 v -> (i < length ws)%nat ->
  words_at (write_bytes m (a + 4 * Z.of_nat i) (le_bytes 4 v)) a (<[i := v]> ws).
Proof.
  intros Hw Ha Hv Hi j w Hj.
  rewrite word_write by zarith. rewrite list_lookup_insert in Hj. case_decide as E.
  - destruct E as [-> _]. simplify_eq. destruct (lookup_lt_is_Some_2 ws j Hi) as [x Hx].
    destruct (Hw j x Hx) as [Hm _]. rewrite decide_True by done.
    split; [by apply mapped_write|by apply u32_small].
  - destruct (Hw j w Hj) as [Hm Hwj]. split; [by apply mapped_write|].
    rewrite decide_False; [done|]. intros E'. assert (i = j) by lia. tauto.
Qed.

Section word.
Context {S : Type} `{!HasMem S}.

Lemma store_word_at (s : S) a ws i v :
  words_at (mem_of s) a ws -> a mod 4 = 0 -> is_u32 v -> (i < length ws)%nat ->
  exists m, store32 (a + 4 * Z.of_nat i) v s = Ok tt (with_mem m s) /\
    words_at m a (<[i := v]> ws) /\ same_except (mem_of s) m a (4 * Z.of_nat (length ws)) /\
    (forall b n, mapped (mem_of s) b n -> mapped m b n).
Proof.
  intros Hws Ha Hv Hi. destruct (lookup_lt_is_Some_2 ws i Hi) as [x Hx]. destruct (Hws i x Hx) as [Hm _].
  exists (write_bytes (mem_of s) (a + 4 * Z.of_nat i) (le_bytes 4 v)). split; [|split; [|split]].
  - by rewrite (store_ok 4) by (done || zarith).
  - by apply words_at_write.
  - intros b Hb. apply same_except_write. rewrite length_le_bytes. lia.
  - intros b n. apply mapped_write.
Qed.

Lemma load_word_at (s : S) a ws i :
  words_at (mem_of s) a ws -> (i < length ws)%nat -> a mod 4 = 0 ->
  load32 (a + 4 * Z.of_nat i) s = Ok (nth i ws 0) s.
Proof.
  intros Hws Hi Ha. destruct (lookup_lt_is_Some_2 ws i Hi) as [x Hx]. destruct (Hws i x Hx) as [Hm Hw].
  rewrite load32_ok by (done || zarith). rewrite (nth_lookup_Some _ _ _ _ Hx). by f_equal.
Qed.
End word.

Lemma words_at_app m a l1 l2 :
  words_at m a (l1 ++ l2) <-> words_at m a l1 /\ words_at m (a + 4 * Z.of_nat (length l1)) l2.
Proof.
  revert a. induction l1 as [|w l1 IH]; intros a; cbn [app length].
  - rewrite Z.mul_0_r, Z.add_0_r. split; [|tauto]. intros H. split; [|done]. by intros i w Hi.
  - rewrite !words_at_cons, IH. replace (a + 4 * Z.of_nat (S (length l1))) with (a + 4 + 4 * Z.of_nat (length l1)) by lia.
    tauto.
Qed.

(** Memory that changes elsewhere. *)
Lemma words_at_agree m m' a ws :
  words_at m a ws -> (forall b, a <= b < a + 4 * Z.of_nat (length ws) -> m' !! b = m !! b) ->
  (forall b n, mapped m b n -> mapped m' b n) -> words_at m' a ws.
Proof.
  intros Hw H Hm i w Hi. destruct (Hw i w Hi) as [H1 H2]. split; [by apply Hm|]. rewrite <- H2.
  apply lookup_lt_Some in Hi. apply word_agree. intros b Hb. apply H. lia.
Qed.
