(* ===== verification/LibcMem.v ===== *)
(** * libc: the memory routines (libc/src/string/mem*.c)

    Compiled for RV32: [long] and [size_t] are 32 bits wide, so [lsize] is 4.
    A pointer is its address; [(long)p] is [s32 p].  The copy and fill loops of
    the C code differ only in the width of the access they make, so each of
    [copy_up], [copy_down] and [fill] is one loop with that width as a
    parameter ([*d++ = *s++] is [copy_up 1], the word loop is [copy_up 4]). *)

From S2P Require Import Prelude Monad Mem.

Definition lsize : Z := 4.
Definition lmask : Z := lsize - 1.

Section code.
Context {S : Type} `{!HasMem S}.

(* src/libc/src/string/memcpy.c:39-46 *)
Definition copy_up (w : nat) (d s len : Z) : M S (Z * Z) :=
  loop (fun '(d, s, len) =>
    if len >? 0 then
      v <- load_le w s ;;
      store_le w d v ;;
      ret (inl (d + Z.of_nat w, s + Z.of_nat w, len - 1))
    else ret (inr (d, s))) (d, s, len).

(* src/libc/src/string/memmove.c:61-68 *)
Definition copy_down (w : nat) (d s len : Z) : M S (Z * Z) :=
  loop (fun '(d, s, len) =>
    if len >? 0 then
      v <- load_le w (s - Z.of_nat w) ;;
      store_le w (d - Z.of_nat w) v ;;
      ret (inl (d - Z.of_nat w, s - Z.of_nat w, len - 1))
    else ret (inr (d, s))) (d, s, len).

(* src/libc/src/string/memcpy.c:31-48 *)
Definition copy_forward (d s count : Z) : M S unit :=
  let* (d, s, count) :=
    (if negb (Z.land (Z.lor (s32 d) (s32 s)) lmask =? 0) then
       let len :=
         if negb (Z.land (Z.lxor (s32 d) (s32 s)) lmask =? 0) || (count <? lsize)
         then s32 count
         else s32 (lsize - Z.land (s32 d) lmask) in
       let count := u32 (count - len) in
       let* (d, s) := copy_up 1 d s len in
       ret (d, s, count)
     else ret (d, s, count)) in
  let* (d, s) := copy_up 4 d s (s32 (count / lsize)) in
  copy_up 1 d s (s32 (Z.land count lmask)) ;;
  ret tt.

(* src/libc/src/string/memcpy.c:23-51 *)
Definition memcpy (dest src count : Z) : M S Z :=
  if (count =? 0) || (dest =? src) then ret dest
  else copy_forward dest src count ;; ret dest.

(* src/libc/src/string/memmove.c:51-70 *)
Definition copy_backward (d s count : Z) : M S unit :=
  let d := d + count in
  let s := s + count in
  let* (d, s, count) :=
    (if negb (Z.land (Z.lor (s32 d) (s32 s)) lmask =? 0) then
       let len :=
         if negb (Z.land (Z.lxor (s32 d) (s32 s)) lmask =? 0) || (count <=? lsize)
         then s32 count
         else s32 (Z.land (s32 d) lmask) in
       let count := u32 (count - len) in
       let* (d, s) := copy_down 1 d s len in
       ret (d, s, count)
     else ret (d, s, count)) in
  let* (d, s) := copy_down 4 d s (s32 (count / lsize)) in
  copy_down 1 d s (s32 (Z.land count lmask)) ;;
  ret tt.

(* src/libc/src/string/memmove.c:22-74 *)
Definition memmove (dest src count : Z) : M S Z :=
  if (count =? 0) || (dest =? src) then ret dest
  else if s32 dest <? s32 src then copy_forward dest src count ;; ret dest
  else copy_backward dest src count ;; ret dest.

(* src/libc/src/string/memset.c:29-44 *)
Definition fill (w : nat) (xs v len : Z) : M S Z :=
  loop (fun '(xs, len) =>
    if len >? 0 then
      store_le w xs v ;;
      ret (inl (xs + Z.of_nat w, len - 1))
    else ret (inr xs)) (xs, len).

(* src/libc/src/string/memset.c:16-47 *)
Definition memset (s c count : Z) : M S Z :=
  let xs := s in
  let len := Z.land (u32 (- s)) (lsize - 1) in
  let cc := Z.land c 0xff in
  let* (xs, count) :=
    (if count >? len then
       let count := count - len in
       let cc := Z.lor cc (u32 (Z.shiftl cc 8)) in
       let cc := Z.lor cc (u32 (Z.shiftl cc 16)) in
       xs <- fill 1 xs c len ;;
       xs <- fill 4 xs cc (count / lsize) ;;
       ret (xs, Z.land count (lsize - 1))
     else ret (xs, count)) in
  fill 1 xs c count ;;
  ret s.

(* src/libc/src/string/memcmp.c:15-24 *)
Definition memcmp (cs ct count : Z) : M S Z :=
  loop (fun '(su1, su2, count, res) =>
    if 0 <? count then
      x <- load8 su1 ;;
      y <- load8 su2 ;;
      let res := s8 (x - y) in
      if negb (res =? 0) then ret (inr res)
      else ret (inl (su1 + 1, su2 + 1, count - 1, res))
    else ret (inr res)) (cs, ct, count, 0).

(* src/libc/src/string/memchr.c:15-28 *)
Definition memchr (buf c len : Z) : M S Z :=
  let x := Z.land c 0xff in
  loop (fun i =>
    if i <? len then
      b <- load8 (buf + i) ;;
      if b =? x then ret (inr (buf + i)) else ret (inl (i + 1))
    else ret (inr 0)) 0.
End code.

(** ** Copying *)

Section copy.
Context {S : Type} `{!HasMem S}.

(** An upward copy is right when the destination does not start inside the
    source: what is still to be read is never overwritten. *)
Lemma copy_up_ok w k d s l (st : S) :
  (0 < w)%nat -> length l = (w * k)%nat -> Z.of_nat k < 2 ^ 33 ->
  bytes_at (mem_of st) s l -> mapped (mem_of st) d (Z.of_nat (length l)) ->
  d mod Z.of_nat w = 0 -> s mod Z.of_nat w = 0 ->
  d <= s \/ s + Z.of_nat (length l) <= d ->
  copy_up w d s (Z.of_nat k) st =
  Ok (d + Z.of_nat (length l), s + Z.of_nat (length l)) (poke st d l).
Proof.
  intros Hw Hl Hk Hs Hd Ad As Hfwd. unfold copy_up.
  apply (loop_runs _ k); [|done]. clear Hk.
  revert d s l st Hl Hs Hd Ad As Hfwd.
  induction k as [|k IH]; intros d s l st Hl Hs Hd Ad As Hfwd.
  { assert (l = []) as -> by (apply nil_length_inv; lia). cbn [length Z.of_nat].
    rewrite !Z.add_0_r, poke_nil. by constructor. }
  destruct (split_at w l) as (l1 & l2 & -> & Hl1); [lia|].
  rewrite length_app in Hl, Hd, Hfwd |- *.
  apply bytes_at_app in Hs as [Hs1 Hs2]. rewrite Hl1 in *.
  assert (bytes l1) as Hb1 by (eapply bytes_at_bytes, Hs1).
  eapply (runs_step _ _ _ _ (d + Z.of_nat w, s + Z.of_nat w, Z.of_nat k) (poke st d l1)).
  - rewrite (proj2 (Z.gtb_lt _ _)) by lia.
    step (load_ok w s l1 st Hs1 Hl1 As).
    assert (mapped (mem_of st) d (Z.of_nat w)) as Hdw by (eapply mapped_sub; [exact Hd|lia..]).
    step (store_ok w d (le_val l1) st Hdw Ad).
    rewrite (le_bytes_val l1 w Hl1 Hb1). unfold ret. repeat f_equal. lia.
  - replace (d + Z.of_nat (w + length l2)) with (d + Z.of_nat w + Z.of_nat (length l2)) by lia.
    replace (s + Z.of_nat (w + length l2)) with (s + Z.of_nat w + Z.of_nat (length l2)) by lia.
    rewrite <- poke_poke, Hl1.
    apply IH.
    + lia.
    + rewrite mem_of_poke. apply bytes_at_write_other; [lia|done].
    + rewrite mem_of_poke. apply mapped_write. eapply mapped_sub; [exact Hd|lia..].
    + rewrite <- Zplus_mod_idemp_l, Ad, Z.add_0_l. by apply Z_mod_same_full.
    + rewrite <- Zplus_mod_idemp_l, As, Z.add_0_l. by apply Z_mod_same_full.
    + lia.
Qed.

(** A downward copy, given the ends of the two regions, is right when the
    destination does not end inside the source. *)
Lemma copy_down_ok w k d s l (st : S) :
  (0 < w)%nat -> length l = (w * k)%nat -> Z.of_nat k < 2 ^ 33 ->
  bytes_at (mem_of st) (s - Z.of_nat (length l)) l ->
  mapped (mem_of st) (d - Z.of_nat (length l)) (Z.of_nat (length l)) ->
  d mod Z.of_nat w = 0 -> s mod Z.of_nat w = 0 ->
  s <= d \/ d <= s - Z.of_nat (length l) ->
  copy_down w d s (Z.of_nat k) st =
  Ok (d - Z.of_nat (length l), s - Z.of_nat (length l)) (poke st (d - Z.of_nat (length l)) l).
Proof.
  intros Hw Hl Hk Hs Hd Ad As Hbwd. unfold copy_down.
  apply (loop_runs _ k); [|done]. clear Hk.
  revert d s l st Hl Hs Hd Ad As Hbwd.
  induction k as [|k IH]; intros d s l st Hl Hs Hd Ad As Hbwd.
  { assert (l = []) as -> by (apply nil_length_inv; lia). cbn [length Z.of_nat].
    rewrite !Z.sub_0_r, poke_nil. by constructor. }
  destruct (split_at (w * k) l) as (l1 & l2 & -> & Hl1); [lia|].
  rewrite length_app in Hl, Hd, Hbwd, Hs |- *.
  assert (length l2 = w) as Hl2 by lia.
  apply bytes_at_app in Hs as [Hs1 Hs2]. rewrite Hl2 in *.
  replace (s - Z.of_nat (length l1 + w) + Z.of_nat (length l1)) with (s - Z.of_nat w) in Hs2 by lia.
  assert (bytes l2) as Hb2 by (eapply bytes_at_bytes, Hs2).
  assert ((d - Z.of_nat w) mod Z.of_nat w = 0) as Ad'
    by (rewrite <- Zminus_mod_idemp_l, Ad, <- Zminus_mod_idemp_r, Z_mod_same_full; done).
  assert ((s - Z.of_nat w) mod Z.of_nat w = 0) as As'
    by (rewrite <- Zminus_mod_idemp_l, As, <- Zminus_mod_idemp_r, Z_mod_same_full; done).
  eapply (runs_step _ _ _ _ (d - Z.of_nat w, s - Z.of_nat w, Z.of_nat k)
            (poke st (d - Z.of_nat w) l2)).
  - rewrite (proj2 (Z.gtb_lt _ _)) by lia.
    step (load_ok w _ l2 st Hs2 Hl2 As').
    assert (mapped (mem_of st) (d - Z.of_nat w) (Z.of_nat w)) as Hdw
      by (eapply mapped_sub; [exact Hd|lia..]).
    step (store_ok w _ (le_val l2) st Hdw Ad').
    rewrite (le_bytes_val l2 w Hl2 Hb2). unfold ret. repeat f_equal. lia.
  - replace (d - Z.of_nat (length l1 + w)) with (d - Z.of_nat w - Z.of_nat (length l1)) in * by lia.
    replace (s - Z.of_nat (length l1 + w)) with (s - Z.of_nat w - Z.of_nat (length l1)) in * by lia.
    rewrite <- (poke_app_down _ _ (d - Z.of_nat w)) by lia.
    apply IH.
    + lia.
    + rewrite mem_of_poke. apply bytes_at_write_other; [lia|done].
    + rewrite mem_of_poke. apply mapped_write. eapply mapped_sub; [exact Hd|lia..].
    + done.
    + done.
    + lia.
Qed.
End copy.

Lemma land_lor_3 x y : Z.land (Z.lor (s32 x) (s32 y)) lmask = 0 <-> x mod 4 = 0 /\ y mod 4 = 0.
Proof.
  change lmask with 3. rewrite Z.land_lor_distr_l, Z.lor_eq_0_iff, !land_3. zarith.
Qed.

Lemma land_lxor_3 x y : Z.land (Z.lxor (s32 x) (s32 y)) lmask = 0 <-> x mod 4 = y mod 4.
Proof.
  change lmask with 3.
  assert (Z.land (Z.lxor (s32 x) (s32 y)) 3 = Z.lxor (Z.land (s32 x) 3) (Z.land (s32 y) 3)) as ->.
  { apply Z.bits_inj'. intros i Hi. rewrite !Z.land_spec, !Z.lxor_spec, !Z.land_spec. btauto. }
  rewrite Z.lxor_eq_0_iff, !land_3. zarith.
Qed.

Lemma s32_mod4 x : s32 x mod 4 = x mod 4.
Proof. zarith. Qed.

Section copy_spec.
Context {S : Type} `{!HasMem S}.

(** Once the pointers are word aligned (or nothing is left) the word loop and
    the closing byte loop copy the rest. *)
Lemma copy_up_tail d s l (st : S) n :
  n = Z.of_nat (length l) -> n < 2 ^ 31 ->
  bytes_at (mem_of st) s l -> mapped (mem_of st) d n ->
  (n = 0 \/ d mod 4 = 0 /\ s mod 4 = 0) -> d <= s \/ s + n <= d ->
  (let* (d, s) := copy_up 4 d s (s32 (n / lsize)) in
   copy_up 1 d s (s32 (Z.land n lmask)) ;; ret tt) st = Ok tt (poke st d l).
Proof.
  intros Hlen Hn Hs Hd Hal Hfwd. change lsize with 4. change lmask with 3. rewrite land_3.
  rewrite !s32_small by zarith.
  destruct (split_at (4 * Z.to_nat (n / 4)) l) as (l1 & l2 & -> & Hl1); [zarith|].
  rewrite length_app in Hlen. apply bytes_at_app in Hs as [Hs1 Hs2].
  assert (Z.of_nat (length l1) = 4 * (n / 4)) as Hz1 by zarith.
  assert (Z.of_nat (length l2) = n mod 4) as Hz2 by zarith.
  assert (copy_up 4 d s (n / 4) st =
          Ok (d + Z.of_nat (length l1), s + Z.of_nat (length l1)) (poke st d l1)) as E1.
  { destruct Hal as [Hz|[Ad As]].
    - assert (l1 = []) as -> by (apply nil_length_inv; zarith).
      replace (n / 4) with (Z.of_nat 0) by zarith.
      unfold copy_up. rewrite poke_nil. cbn [length Z.of_nat]. rewrite !Z.add_0_r.
      apply (loop_runs _ 0); [|done]. by constructor.
    - replace (n / 4) with (Z.of_nat (Z.to_nat (n / 4))) by zarith.
      apply copy_up_ok; [lia|done|zarith|done| |done|done|lia].
      eapply mapped_sub; [exact Hd|lia..]. }
  step E1. replace (n mod 4) with (Z.of_nat (length l2)).
  assert (bytes_at (mem_of (poke st d l1)) (s + Z.of_nat (length l1)) l2) as Hs2'.
  { rewrite mem_of_poke. apply bytes_at_write_other; [lia|done]. }
  assert (mapped (mem_of (poke st d l1)) (d + Z.of_nat (length l1)) (Z.of_nat (length l2))) as Hd2.
  { rewrite mem_of_poke. apply mapped_write. eapply mapped_sub; [exact Hd|lia..]. }
  assert (copy_up 1 (d + Z.of_nat (length l1)) (s + Z.of_nat (length l1))
            (Z.of_nat (length l2)) (poke st d l1) = Ok (d + Z.of_nat (length l1) + Z.of_nat (length l2),
            s + Z.of_nat (length l1) + Z.of_nat (length l2)) (poke st d (l1 ++ l2))) as E2.
  { rewrite <- poke_poke.
    apply copy_up_ok; [lia|lia|lia|done|done|apply Z.mod_1_r..|lia]. }
  step E2. done.
Qed.

Lemma copy_forward_ok d s l (st : S) n :
  n = Z.of_nat (length l) -> 0 < n < 2 ^ 31 ->
  bytes_at (mem_of st) s l -> mapped (mem_of st) d n ->
  d <= s \/ s + n <= d ->
  copy_forward d s n st = Ok tt (poke st d l).
Proof.
  intros Hn Hn31 Hs Hd Hfwd. unfold copy_forward.
  destruct (Z.eqb_spec (Z.land (Z.lor (s32 d) (s32 s)) lmask) 0) as [Hal|Hmis]; cbn [negb].
  { rewrite land_lor_3 in Hal. rewrite bind_ret.
    apply copy_up_tail; [done|lia|done|done|by right|done]. }
  rewrite land_lor_3 in Hmis.
  set (h := if _ || _ then s32 n else _).
  assert (0 <= h <= n /\ (n - h = 0 \/ (d + h) mod 4 = 0 /\ (s + h) mod 4 = 0)) as [Hh Hrest].
  { unfold h. change lsize with 4. change lmask with 3. rewrite (land_3 (s32 d)), s32_mod4.
    destruct (Z.eqb_spec (Z.land (Z.lxor (s32 d) (s32 s)) 3) 0) as [Hx|Hx];
      cbn [negb orb]; [|rewrite s32_small by zarith; lia].
    apply land_lxor_3 in Hx.
    destruct (Z.ltb_spec n 4); rewrite s32_small by zarith; [lia|zarith]. }
  clearbody h. clear Hmis.
  destruct (split_at (Z.to_nat h) l) as (l1 & l2 & -> & Hl1); [lia|].
  rewrite length_app in Hn. apply bytes_at_app in Hs as [Hs1 Hs2].
  replace h with (Z.of_nat (length l1)) in * by lia.
  assert (copy_up 1 d s (Z.of_nat (length l1)) st =
          Ok (d + Z.of_nat (length l1), s + Z.of_nat (length l1)) (poke st d l1)) as E1.
  { apply copy_up_ok; [lia|lia|lia|done| |apply Z.mod_1_r..|lia].
    eapply mapped_sub; [exact Hd|lia..]. }
  rewrite bind_assoc. step E1. rewrite bind_ret.
  rewrite u32_small by zarith. rewrite <- poke_poke.
  apply copy_up_tail; [lia|lia| | |done|lia].
  - rewrite mem_of_poke. apply bytes_at_write_other; [lia|done].
  - rewrite mem_of_poke. apply mapped_write. eapply mapped_sub; [exact Hd|lia..].
Qed.
End copy_spec.

Section copy_down_spec.
Context {S : Type} `{!HasMem S}.

(** The same two closing loops, downwards; [d] and [s] are the ends. *)
Lemma copy_down_tail d s l (st : S) n :
  n = Z.of_nat (length l) -> n < 2 ^ 31 ->
  bytes_at (mem_of st) (s - n) l -> mapped (mem_of st) (d - n) n ->
  (n = 0 \/ d mod 4 = 0 /\ s mod 4 = 0) -> s <= d \/ d <= s - n ->
  (let* (d, s) := copy_down 4 d s (s32 (n / lsize)) in
   copy_down 1 d s (s32 (Z.land n lmask)) ;; ret tt) st = Ok tt (poke st (d - n) l).
Proof.
  intros Hlen Hn Hs Hd Hal Hbwd. change lsize with 4. change lmask with 3. rewrite land_3.
  rewrite !s32_small by zarith.
  destruct (split_at (Z.to_nat (n mod 4)) l) as (l1 & l2 & -> & Hl1); [zarith|].
  rewrite length_app in Hlen. apply bytes_at_app in Hs as [Hs1 Hs2].
  assert (Z.of_nat (length l1) = n mod 4) as Hz1 by zarith.
  assert (Z.of_nat (length l2) = 4 * (n / 4)) as Hz2 by zarith.
  replace (s - n + Z.of_nat (length l1)) with (s - Z.of_nat (length l2)) in Hs2 by lia.
  assert (copy_down 4 d s (n / 4) st =
          Ok (d - Z.of_nat (length l2), s - Z.of_nat (length l2))
             (poke st (d - Z.of_nat (length l2)) l2)) as E1.
  { destruct Hal as [Hz|[Ad As]].
    - assert (l2 = []) as -> by (apply nil_length_inv; zarith).
      replace (n / 4) with (Z.of_nat 0) by zarith.
      unfold copy_down. rewrite poke_nil. cbn [length Z.of_nat]. rewrite !Z.sub_0_r.
      apply (loop_runs _ 0); [|done]. by constructor.
    - replace (n / 4) with (Z.of_nat (Z.to_nat (n / 4))) by zarith.
      apply copy_down_ok; [lia|lia|zarith|done| |done|done|lia].
      eapply mapped_sub; [exact Hd|lia..]. }
  step E1. replace (n mod 4) with (Z.of_nat (length l1)).
  set (d' := d - Z.of_nat (length l2)) in *. set (s' := s - Z.of_nat (length l2)) in *.
  assert (copy_down 1 d' s' (Z.of_nat (length l1)) (poke st d' l2) =
          Ok (d' - Z.of_nat (length l1), s' - Z.of_nat (length l1))
             (poke st (d' - Z.of_nat (length l1)) (l1 ++ l2))) as E2.
  { rewrite <- (poke_app_down _ _ d') by lia.
    replace (s - n) with (s' - Z.of_nat (length l1)) in Hs1 by lia.
    replace (d - n) with (d' - Z.of_nat (length l1)) in Hd by lia.
    apply copy_down_ok; [lia|lia|lia| | |apply Z.mod_1_r..|lia].
    - rewrite mem_of_poke. apply bytes_at_write_other; [lia|done].
    - rewrite mem_of_poke. apply mapped_write. eapply mapped_sub; [exact Hd|lia..]. }
  step E2. unfold ret. do 2 f_equal. lia.
Qed.

Lemma copy_backward_ok d s l (st : S) n :
  n = Z.of_nat (length l) -> 0 < n < 2 ^ 31 ->
  bytes_at (mem_of st) s l -> mapped (mem_of st) d n ->
  s <= d \/ d + n <= s ->
  copy_backward d s n st = Ok tt (poke st d l).
Proof.
  intros Hn Hn31 Hs Hd Hbwd. unfold copy_backward.
  replace (poke st d l) with (poke st (d + n - n) l) by (f_equal; lia).
  replace s with (s + n - n) in Hs by lia. replace d with (d + n - n) in Hd by lia.
  assert (s + n <= d + n \/ d + n <= s + n - n) as Hb by lia. clear Hbwd.
  revert Hs Hd Hb. generalize (d + n) (s + n). clear d s. intros d s Hs Hd Hb. cbn zeta.
  destruct (Z.eqb_spec (Z.land (Z.lor (s32 d) (s32 s)) lmask) 0) as [Hal|Hmis]; cbn [negb].
  { rewrite land_lor_3 in Hal. rewrite bind_ret.
    apply copy_down_tail; [done|lia|done|done|by right|done]. }
  set (h := if _ || _ then s32 n else _).
  assert (0 <= h <= n /\ (n - h = 0 \/ (d - h) mod 4 = 0 /\ (s - h) mod 4 = 0)) as [Hh Hrest].
  { unfold h. change lsize with 4. change lmask with 3. rewrite (land_3 (s32 d)), s32_mod4.
    destruct (Z.eqb_spec (Z.land (Z.lxor (s32 d) (s32 s)) 3) 0) as [Hx|Hx];
      cbn [negb orb]; [|rewrite s32_small by zarith; lia].
    apply land_lxor_3 in Hx.
    destruct (Z.leb_spec n 4); rewrite s32_small by zarith; [lia|zarith]. }
  clearbody h. clear Hmis.
  destruct (split_at (Z.to_nat (n - h)) l) as (l1 & l2 & -> & Hl1); [lia|].
  rewrite length_app in Hn. apply bytes_at_app in Hs as [Hs1 Hs2].
  replace (s - n + Z.of_nat (length l1)) with (s - Z.of_nat (length l2)) in Hs2 by lia.
  replace h with (Z.of_nat (length l2)) in * by lia.
  set (d' := d - Z.of_nat (length l2)) in *. set (s' := s - Z.of_nat (length l2)) in *.
  assert (copy_down 1 d s (Z.of_nat (length l2)) st = Ok (d', s') (poke st d' l2)) as E1.
  { apply copy_down_ok; [lia|lia|lia|done| |apply Z.mod_1_r..|lia].
    eapply mapped_sub; [exact Hd|lia..]. }
  rewrite bind_assoc. step E1. rewrite bind_ret.
  rewrite u32_small by zarith. rewrite <- (poke_app_down _ _ d') by lia.
  replace (d - n) with (d' - (n - Z.of_nat (length l2))) in * by lia.
  replace (s - n) with (s' - (n - Z.of_nat (length l2))) in * by lia.
  apply copy_down_tail; [lia|lia| | |done|lia].
  - rewrite mem_of_poke. apply bytes_at_write_other; [lia|done].
  - rewrite mem_of_poke. apply mapped_write. eapply mapped_sub; [exact Hd|lia..].
Qed.

(** [memcpy] as clients use it. *)
Lemma memcpy_ok dest src n l (st : S) :
  n = Z.of_nat (length l) -> n < 2 ^ 31 ->
  bytes_at (mem_of st) src l -> mapped (mem_of st) dest n ->
  dest <= src \/ src + n <= dest ->
  memcpy dest src n st = Ok dest (poke st dest l).
Proof.
  intros Hn Hn31 Hs Hd Hfwd. unfold memcpy.
  destruct (Z.eqb_spec n 0) as [H0|H0]; cbn [orb].
  { assert (l = []) as -> by (apply nil_length_inv; lia). by rewrite poke_nil. }
  destruct (Z.eqb_spec dest src) as [->|Hne]; cbn [orb]; [by rewrite poke_id|].
  by step (copy_forward_ok dest src l st n Hn ltac:(lia) Hs Hd Hfwd).
Qed.

(** The test [(long)d < (long)s] of [memmove] orders two addresses as signed
    numbers: it is the address order within one half of the address space. *)
Lemma memmove_ok dest src n l (st : S) :
  n = Z.of_nat (length l) -> n < 2 ^ 31 ->
  0 <= dest < 2 ^ 32 -> 0 <= src < 2 ^ 32 ->
  bytes_at (mem_of st) src l -> mapped (mem_of st) dest n ->
  (dest < 2 ^ 31 <-> src < 2 ^ 31) \/ dest + n <= src \/ src + n <= dest ->
  memmove dest src n st = Ok dest (poke st dest l).
Proof.
  intros Hn Hn31 Rd Rs Hs Hd Hhalf. unfold memmove.
  destruct (Z.eqb_spec n 0) as [H0|H0]; cbn [orb].
  { assert (l = []) as -> by (apply nil_length_inv; lia). by rewrite poke_nil. }
  destruct (Z.eqb_spec dest src) as [->|Hne]; cbn [orb]; [by rewrite poke_id|].
  destruct (Z.ltb_spec (s32 dest) (s32 src)) as [Hlt|Hge].
  - assert (dest <= src \/ src + n <= dest) as Hfwd by zarith.
    by step (copy_forward_ok dest src l st n Hn ltac:(lia) Hs Hd Hfwd).
  - assert (src <= dest \/ dest + n <= src) as Hbwd by zarith.
    by step (copy_backward_ok dest src l st n Hn ltac:(lia) Hs Hd Hbwd).
Qed.
End copy_down_spec.

(** ** Filling *)

Lemma le_bytes_splat b :
  is_u8 b ->
  let cc := Z.lor b (u32 (Z.shiftl b 8)) in
  le_bytes 4 (Z.lor cc (u32 (Z.shiftl cc 16))) = [b; b; b; b].
Proof.
  intros Hb cc. unfold is_u8 in Hb.
  assert (cc = b * 0x101) as Hcc.
  { unfold cc. rewrite Z.shiftl_mul_pow2, Z.lor_comm by lia.
    rewrite (lor_low _ _ 8) by zarith. zarith. }
  assert (Z.lor cc (u32 (Z.shiftl cc 16)) = b * 0x1010101) as ->.
  { rewrite Hcc, Z.shiftl_mul_pow2, Z.lor_comm by lia.
    rewrite (lor_low _ _ 16) by zarith. zarith. }
  cbn [le_bytes]. clear cc Hcc. repeat f_equal; zarith.
Qed.

Section fill_spec.
Context {S : Type} `{!HasMem S}.

Lemma fill_ok w k xs v c (st : S) :
  (0 < w)%nat -> Z.of_nat k < 2 ^ 33 -> le_bytes w v = replicate w c ->
  mapped (mem_of st) xs (Z.of_nat (w * k)) -> xs mod Z.of_nat w = 0 ->
  fill w xs v (Z.of_nat k) st =
  Ok (xs + Z.of_nat (w * k)) (poke st xs (replicate (w * k) c)).
Proof.
  intros Hw Hk Hv Hd Ax. unfold fill. apply (loop_runs _ k); [|done]. clear Hk.
  revert xs st Hd Ax. induction k as [|k IH]; intros xs st Hd Ax.
  { rewrite Nat.mul_0_r. cbn [replicate Z.of_nat]. rewrite Z.add_0_r, poke_nil. by constructor. }
  eapply (runs_step _ _ _ _ (xs + Z.of_nat w, Z.of_nat k) (poke st xs (replicate w c))).
  - rewrite (proj2 (Z.gtb_lt _ _)) by lia.
    assert (mapped (mem_of st) xs (Z.of_nat w)) as Hdw by (eapply mapped_sub; [exact Hd|lia..]).
    step (store_ok w xs v st Hdw Ax). rewrite Hv. unfold ret. repeat f_equal. lia.
  - replace (w * Datatypes.S k)%nat with (w + w * k)%nat in * by lia.
    rewrite replicate_add.
    replace (xs + Z.of_nat (w + w * k)) with (xs + Z.of_nat w + Z.of_nat (w * k)) by lia.
    rewrite <- (poke_app _ _ (xs + Z.of_nat w)) by (rewrite length_replicate; lia).
    apply IH.
    + rewrite mem_of_poke. apply mapped_write. eapply mapped_sub; [exact Hd|lia..].
    + rewrite <- Zplus_mod_idemp_l, Ax, Z.add_0_l. by apply Z_mod_same_full.
Qed.

Lemma fill1_ok xs v n (st : S) :
  0 <= n < 2 ^ 32 -> mapped (mem_of st) xs n ->
  fill 1 xs v n st = Ok (xs + n) (poke st xs (replicate (Z.to_nat n) (u8 v))).
Proof.
  intros Hn Hd. pose proof (fill_ok 1 (Z.to_nat n) xs v (u8 v) st) as H.
  rewrite Nat.mul_1_l, Z2Nat.id in H by lia.
  apply H; [lia|lia|done|done|apply Z.mod_1_r].
Qed.

Lemma memset_ok s c n (st : S) :
  0 <= n < 2 ^ 32 -> mapped (mem_of st) s n ->
  memset s c n st = Ok s (poke st s (replicate (Z.to_nat n) (u8 c))).
Proof.
  intros Hn Hd. unfold memset. change (lsize - 1) with 3. change lsize with 4.
  rewrite !land_3, land_FF. change (c mod 256) with (u8 c).
  set (h := u32 (- s) mod 4). assert (0 <= h < 4 /\ (s + h) mod 4 = 0) as [Hh Ah] by (unfold h; zarith).
  clearbody h. destruct (Z.gtb_spec n h) as [Hgt|Hle].
  2: { rewrite bind_ret. by step (fill1_ok s c n st Hn Hd). }
  rewrite bind_assoc.
  assert (mapped (mem_of st) s h) as Hd1 by (eapply mapped_sub; [exact Hd|lia..]).
  step (fill1_ok s c h st ltac:(lia) Hd1). rewrite bind_assoc.
  set (st1 := poke st s _).
  assert (forall a k, s <= a -> a + k <= s + n -> mapped (mem_of st1) a k) as Hm1.
  { intros a k Ha Hk. unfold st1. rewrite mem_of_poke. apply mapped_write.
    eapply mapped_sub; [exact Hd|lia..]. }
  assert (mapped (mem_of st1) (s + h) (Z.of_nat (4 * Z.to_nat ((n - h) / 4)))) as Hm4
    by (apply Hm1; zarith).
  assert (Z.of_nat (Z.to_nat ((n - h) / 4)) < 2 ^ 33) as Hk by zarith.
  pose proof (fill_ok 4 (Z.to_nat ((n - h) / 4)) (s + h) _ (u8 c) st1 ltac:(lia) Hk
    (le_bytes_splat (u8 c) (u8_range c)) Hm4 Ah) as E2.
  rewrite Z2Nat.id in E2 by zarith.
  step E2. rewrite bind_ret. set (st2 := poke st1 _ _).
  assert (mapped (mem_of st2) (s + h + Z.of_nat (4 * Z.to_nat ((n - h) / 4))) ((n - h) mod 4)) as Hm2.
  { unfold st2. rewrite mem_of_poke. apply mapped_write, Hm1; zarith. }
  step (fill1_ok _ c ((n - h) mod 4) st2 ltac:(zarith) Hm2).
  unfold st2, st1, ret. f_equal.
  rewrite !poke_app by (rewrite ?length_app, ?length_replicate; zarith).
  f_equal. rewrite <- !replicate_add. f_equal. zarith.
Qed.
End fill_spec.

(** ** Comparing and searching *)

(** What [memcmp] computes: the first difference of two bytes, cut to a
    [signed char]. *)
Fixpoint first_diff (l1 l2 : list Z) : Z :=
  match l1, l2 with
  | x :: l1', y :: l2' => if s8 (x - y) =? 0 then first_diff l1' l2' else s8 (x - y)
  | _, _ => 0
  end.

Lemma s8_sub_0 x y : is_u8 x -> is_u8 y -> s8 (x - y) = 0 <-> x = y.
Proof. zarith. Qed.

Lemma first_diff_0 l1 l2 :
  length l1 = length l2 -> bytes l1 -> bytes l2 -> first_diff l1 l2 = 0 <-> l1 = l2.
Proof.
  revert l2. induction l1 as [|x l1 IH]; intros [|y l2] Hl H1 H2; try done.
  apply Forall_cons_iff in H1 as [Hx H1], H2 as [Hy H2]. cbn.
  pose proof (s8_sub_0 x y Hx Hy).
  destruct (Z.eqb_spec (s8 (x - y)) 0) as [E|E].
  - rewrite IH by (done || (cbn in Hl; lia)). split; [intros ->; f_equal; tauto | congruence].
  - split; [done|]. intros [= -> ->]. tauto.
Qed.

Fixpoint find_byte (x : Z) (l : list Z) : option nat :=
  match l with
  | [] => None
  | b :: l' => if b =? x then Some 0%nat else Datatypes.S <$> find_byte x l'
  end.

Lemma find_byte_Some x l i :
  find_byte x l = Some i <-> l !! i = Some x /\ (forall j, (j < i)%nat -> l !! j <> Some x).
Proof.
  revert i. induction l as [|b l IH]; intros i; cbn.
  { split; [done|]. intros [H _]. done. }
  destruct (Z.eqb_spec b x) as [->|Hne].
  - split.
    + intros [= <-]. split; [done|]. intros j Hj. lia.
    + intros [_ H]. destruct i; [done|]. by destruct (H 0%nat ltac:(lia)).
  - destruct i as [|i].
    + split; [by destruct (find_byte x l)|]. intros [[= ->] _]. done.
    + rewrite fmap_Some. split.
      * intros (k & Hk & [= ->]). apply IH in Hk as [Hk Hmin]. split; [done|].
        intros [|j] Hj; cbn; [congruence|]. apply Hmin. lia.
      * intros [Hi Hmin]. exists i. split; [|done]. apply IH. split; [done|].
        intros j Hj. apply (Hmin (Datatypes.S j)). lia.
Qed.

Lemma find_byte_None x l : find_byte x l = None <-> x ∉ l.
Proof.
  induction l as [|b l IH]; cbn; [split; [intros _; apply not_elem_of_nil|done]|].
  rewrite not_elem_of_cons. destruct (Z.eqb_spec b x) as [->|Hne].
  - split; [done|]. by intros [].
  - rewrite fmap_None, IH. intuition congruence.
Qed.

Section compare_spec.
Context {S : Type} `{!HasMem S}.

Lemma memcmp_ok cs ct n l1 l2 (st : S) :
  n = Z.of_nat (length l1) -> length l1 = length l2 -> n < 2 ^ 33 ->
  bytes_at (mem_of st) cs l1 -> bytes_at (mem_of st) ct l2 ->
  memcmp cs ct n st = Ok (first_diff l1 l2) st.
Proof.
  intros -> Hl Hn H1 H2. unfold memcmp.
  assert (exists k, (k <= length l1)%nat /\
    runs (fun '(su1, su2, count, res) =>
      if 0 <? count then
        x <- load8 su1 ;;
        y <- load8 su2 ;;
        let res := s8 (x - y) in
        if negb (res =? 0) then ret (inr res)
        else ret (inl (su1 + 1, su2 + 1, count - 1, res))
      else ret (inr res)) k (cs, ct, Z.of_nat (length l1), 0) st (Ok (first_diff l1 l2) st))
    as (k & Hk & Hr).
  2: { by apply (loop_runs _ k); [|lia]. }
  clear Hn. revert cs ct l2 Hl H1 H2.
  induction l1 as [|x l1 IH]; intros cs ct [|y l2] Hl H1 H2; try done.
  { exists 0%nat. split; [lia|]. by constructor. }
  apply bytes_at_cons in H1 as (Hx & H1 & Ht1), H2 as (Hy & H2 & Ht2).
  assert (load8 cs st = Ok x st) as Ex
    by (apply load8_ok, bytes_at_cons; split; [done|split; [done|apply bytes_at_nil]]).
  assert (load8 ct st = Ok y st) as Ey
    by (apply load8_ok, bytes_at_cons; split; [done|split; [done|apply bytes_at_nil]]).
  cbn [first_diff]. destruct (Z.eqb_spec (s8 (x - y)) 0) as [E|E].
  - destruct (IH (cs + 1) (ct + 1) l2 ltac:(cbn in Hl; lia) Ht1 Ht2) as (k & Hk & Hr).
    exists (Datatypes.S k). split; [cbn; lia|].
    eapply runs_step; [|exact Hr]. cbn [length]. rewrite (proj2 (Z.ltb_lt _ _)) by lia.
    step Ex. step Ey. rewrite E. cbn. unfold ret. repeat f_equal. lia.
  - exists 0%nat. split; [lia|]. apply runs_done.
    cbn [length]. rewrite (proj2 (Z.ltb_lt _ _)) by lia. step Ex. step Ey.
    cbn zeta. by rewrite (proj2 (Z.eqb_neq _ _) E).
Qed.

Lemma memchr_ok buf c l (st : S) n :
  n = Z.of_nat (length l) -> n < 2 ^ 33 -> bytes_at (mem_of st) buf l ->
  memchr buf c n st =
  Ok (match find_byte (u8 c) l with Some i => buf + Z.of_nat i | None => 0 end) st.
Proof.
  intros -> Hn Hb. unfold memchr. rewrite land_FF. change (c mod 256) with (u8 c).
  name_body body.
  assert (forall l2 l1 : list Z, l = l1 ++ l2 ->
    exists k, (k <= length l2)%nat /\ runs body k (Z.of_nat (length l1)) st
      (Ok (match find_byte (u8 c) l2 with
           | Some i => buf + Z.of_nat (length l1 + i) | None => 0 end) st)) as Hg.
  { induction l2 as [|b l2 IH]; intros l1 Hl.
    { exists 0%nat. split; [lia|]. apply runs_done. unfold body.
      rewrite (proj2 (Z.ltb_ge _ _)); [done|]. rewrite Hl, length_app. cbn. lia. }
    assert ((Z.of_nat (length l1) <? Z.of_nat (length l)) = true) as Hlt
      by (apply Z.ltb_lt; rewrite Hl, length_app; cbn; lia).
    assert (load8 (buf + Z.of_nat (length l1)) st = Ok b st) as Eb.
    { eapply load8_at; [exact Hb|]. rewrite Hl. by apply list_lookup_middle. }
    cbn [find_byte]. destruct (Z.eqb_spec b (u8 c)) as [E|E].
    - exists 0%nat. split; [lia|]. apply runs_done. unfold body. rewrite Hlt. step Eb.
      rewrite (proj2 (Z.eqb_eq _ _) E). by rewrite Nat.add_0_r.
    - destruct (IH (l1 ++ [b])) as (k & Hk & Hr); [by rewrite <- app_assoc|].
      exists (Datatypes.S k). split; [cbn; lia|].
      eapply runs_step.
      { unfold body at 1. rewrite Hlt. step Eb. by rewrite (proj2 (Z.eqb_neq _ _) E). }
      rewrite length_app in Hr. cbn [length] in Hr.
      replace (Z.of_nat (length l1 + 1)) with (Z.of_nat (length l1) + 1) in Hr by lia.
      destruct (find_byte (u8 c) l2) as [i|]; cbn; [|exact Hr].
      by replace (length l1 + Datatypes.S i)%nat with (length l1 + 1 + i)%nat by lia. }
  destruct (Hg l [] eq_refl) as (k & Hk & Hr).
  apply (loop_runs _ k); [exact Hr|lia].
Qed.
End compare_spec.

(** ** Properties *)

Section properties.
Context {S : Type} `{!HasMem S}.

(** [memcpy] terminates without touching an unmapped or misaligned
    address, returns [dest], makes the [n] bytes at [dest] equal to the source
    bytes and changes nothing else, for every relative alignment of the two
    pointers, when the regions do not overlap or the destination is the lower
    of the two, and [n] fits an [int]. *)
Theorem memcpy_correct dest src n l (st : S) :
  n = Z.of_nat (length l) -> n < 2 ^ 31 ->
  bytes_at (mem_of st) src l -> mapped (mem_of st) dest n ->
  dest <= src \/ src + n <= dest ->
  exists st', memcpy dest src n st = Ok dest st' /\
    st' = with_mem (mem_of st') st /\
    bytes_at (mem_of st') dest l /\ same_except (mem_of st) (mem_of st') dest n.
Proof.
  intros Hn Hn31 Hs Hd Hfwd. exists (poke st dest l).
  split; [by apply memcpy_ok|]. rewrite mem_of_poke. split; [done|]. split.
  - apply bytes_at_write. eauto with mem.
  - rewrite Hn. apply same_except_write.
Qed.

(** C39: [memmove] copies the original source bytes to [dest] even when the two
    regions overlap, in either direction, as long as overlapping regions lie in
    one half of the address space (the code compares the pointers as signed
    [long]s). *)
Theorem memmove_correct dest src n l (st : S) :
  n = Z.of_nat (length l) -> n < 2 ^ 31 ->
  0 <= dest < 2 ^ 32 -> 0 <= src < 2 ^ 32 ->
  bytes_at (mem_of st) src l -> mapped (mem_of st) dest n ->
  (dest < 2 ^ 31 <-> src < 2 ^ 31) \/ dest + n <= src \/ src + n <= dest ->
  exists st', memmove dest src n st = Ok dest st' /\
    st' = with_mem (mem_of st') st /\
    bytes_at (mem_of st') dest l /\ same_except (mem_of st) (mem_of st') dest n.
Proof.
  intros Hn Hn31 Rd Rs Hs Hd Hhalf. exists (poke st dest l).
  split; [by apply memmove_ok|]. rewrite mem_of_poke. split; [done|]. split.
  - apply bytes_at_write. eauto with mem.
  - rewrite Hn. apply same_except_write.
Qed.

(** [memset] fills exactly [n] bytes with the low byte of [c], whatever the
    alignment of [s] and the size of [n], and returns [s]. *)
Theorem memset_correct s c n (st : S) :
  0 <= n < 2 ^ 32 -> mapped (mem_of st) s n ->
  exists st', memset s c n st = Ok s st' /\ st' = with_mem (mem_of st') st /\
    (forall a, s <= a < s + n -> mem_of st' !! a = Some (u8 c)) /\
    same_except (mem_of st) (mem_of st') s n.
Proof.
  intros Hn Hd. exists (poke st s (replicate (Z.to_nat n) (u8 c))).
  split; [by apply memset_ok|]. rewrite mem_of_poke. split; [done|]. split.
  - intros a Ha. rewrite lookup_write_bytes, length_replicate, decide_True by lia.
    apply lookup_replicate. split; [done|lia].
  - pose proof (same_except_write (mem_of st) s (replicate (Z.to_nat n) (u8 c))) as H.
    rewrite length_replicate, Z2Nat.id in H by lia. exact H.
Qed.

(** [memcmp] reads the two regions only, leaves the state alone, and
    returns 0 exactly when they hold the same bytes; otherwise it returns the
    difference of the first two bytes that differ, cut to a [signed char]. *)
Theorem memcmp_correct cs ct n l1 l2 (st : S) :
  n = Z.of_nat (length l1) -> length l1 = length l2 -> n < 2 ^ 33 ->
  bytes_at (mem_of st) cs l1 -> bytes_at (mem_of st) ct l2 ->
  exists r, memcmp cs ct n st = Ok r st /\ (r = 0 <-> l1 = l2) /\
    (forall p x y t1 t2, l1 = p ++ x :: t1 -> l2 = p ++ y :: t2 -> x <> y -> r = s8 (x - y)).
Proof.
  intros Hn Hl Hn33 H1 H2. exists (first_diff l1 l2).
  split; [by apply memcmp_ok|].
  split; [apply first_diff_0; [done|eapply bytes_at_bytes, H1|eapply bytes_at_bytes, H2]|].
  intros p x y t1 t2 -> -> Hxy.
  apply bytes_at_bytes in H1. apply bytes_at_bytes in H2.
  clear Hn Hl Hn33. induction p as [|b p IH]; cbn [app first_diff] in *;
    apply Forall_cons_iff in H1 as [Hx H1], H2 as [Hy H2].
  - pose proof (s8_sub_0 x y Hx Hy). destruct (Z.eqb_spec (s8 (x - y)) 0); [tauto|done].
  - rewrite Z.sub_diag. cbn. by apply IH.
Qed.
End properties.

Lemma memcpy_correct_witness :
  exists st', memcpy (S:=mem) 0x2001 0x1003 11 (write_bytes (mem_lit 0x1000 (seqZ 0 32)) 0x2000 (replicate 16 7))
              = Ok 0x2001 st' /\
    st' = with_mem (mem_of st') (write_bytes (mem_lit 0x1000 (seqZ 0 32)) 0x2000 (replicate 16 7)) /\
    bytes_at (mem_of st') 0x2001 (seqZ 3 11) /\
    same_except (mem_of (write_bytes (mem_lit 0x1000 (seqZ 0 32)) 0x2000 (replicate 16 7))) (mem_of st') 0x2001 11.
Proof. apply memcpy_correct; [reflexivity|lia|by_decide|by_decide|lia]. Defined.

Lemma memmove_correct_witness :
  exists st', memmove (S:=mem) 0x1003 0x1001 9 (mem_lit 0x1000 (seqZ 0 32)) = Ok 0x1003 st' /\
    st' = with_mem (mem_of st') (mem_lit 0x1000 (seqZ 0 32)) /\
    bytes_at (mem_of st') 0x1003 (seqZ 1 9) /\
    same_except (mem_of (mem_lit 0x1000 (seqZ 0 32))) (mem_of st') 0x1003 9.
Proof. apply memmove_correct; [reflexivity|lia|lia|lia|by_decide|by_decide|lia]. Defined.

Lemma memset_correct_witness :
  exists st', memset (S:=mem) 0x1001 0x1ee 14 (mem_lit 0x1000 (seqZ 0 32)) = Ok 0x1001 st' /\
    st' = with_mem (mem_of st') (mem_lit 0x1000 (seqZ 0 32)) /\
    (forall a, 0x1001 <= a < 0x1001 + 14 -> mem_of st' !! a = Some (u8 0x1ee)) /\
    same_except (mem_of (mem_lit 0x1000 (seqZ 0 32))) (mem_of st') 0x1001 14.
Proof. apply memset_correct; [lia|by_decide]. Defined.

Lemma memcmp_correct_witness :
  exists r, memcmp (S:=mem) 0x1000 0x1004 3 (mem_lit 0x1000 [1; 2; 3; 4; 1; 2; 200]) =
            Ok r (mem_lit 0x1000 [1; 2; 3; 4; 1; 2; 200]) /\
    (r = 0 <-> [1; 2; 3] = [1; 2; 200]) /\
    (forall p x y t1 t2, [1; 2; 3] = p ++ x :: t1 -> [1; 2; 200] = p ++ y :: t2 ->
       x <> y -> r = s8 (x - y)).
Proof. apply memcmp_correct; [reflexivity|reflexivity|lia|by_decide|by_decide]. Defined.

(** The signed comparison of addresses makes [memmove] copy upwards across the
    middle of the address space, where the copy must go down. *)
Example memmove_across_halves :
  (memmove (S:=mem) 0x80000000 0x7fffffff 3 (mem_lit 0x7fffffff [1; 2; 3; 4])) =
  Ok 0x80000000 (mem_lit 0x7fffffff [1; 1; 1; 1]).
Proof. vm_compute. reflexivity. Qed.

(** The cut to [signed char] reverses the order of bytes more than 127 apart. *)
Example memcmp_order :
  (memcmp (S:=mem) 0x1000 0x1001 1 (mem_lit 0x1000 [0; 200])) =
  Ok 56 (mem_lit 0x1000 [0; 200]).
Proof. vm_compute. reflexivity. Qed.
