(* ===== verification/LibcStr.v ===== *)
(** * libc: the string routines (libc/src/string/str*.c)

    [char] is unsigned on RISC-V, so a character is a byte 0..255.  A pointer
    result is the address, [NULL] is 0.  [strtok] keeps its position in the
    file-scope variable [___strtok]: its state is a pair of the client's state
    and that pointer. *)

From S2P Require Import Prelude Monad Mem LibcMem.

#[export] Program Instance prod_HasMem {S T} `{HasMem S} : HasMem (S * T) :=
  {| mem_of s := mem_of s.1; with_mem m s := (with_mem m s.1, s.2) |}.
Next Obligation. intros. cbn. apply mem_of_with. Qed.
Next Obligation. intros. cbn. by rewrite with_mem_with. Qed.
Next Obligation. intros S T H [s t]. cbn. by rewrite with_mem_of. Qed.

Section code.
Context {S : Type} `{!HasMem S}.

(* src/libc/src/string/strlen.c:15-25 *)
Definition strlen (s : Z) : M S Z :=
  loop (fun i =>
    c <- load8 (s + i) ;;
    if negb (c =? 0) then ret (inl (u32 (i + 1))) else ret (inr i)) 0.

(* src/libc/src/string/strnlen.c:15-22 *)
Definition strnlen (s count : Z) : M S Z :=
  loop (fun '(sc, count) =>
    let count' := u32 (count - 1) in
    if count =? 0 then ret (inr (sc - s))
    else
      c <- load8 sc ;;
      if negb (c =? 0) then ret (inl (sc + 1, count')) else ret (inr (sc - s))) (s, count).

(** [while ( *dest) dest++;] *)
(* src/libc/src/string/strcat.c:19-20 *)
Definition skip_to_nul (dest : Z) : M S Z :=
  loop (fun dest =>
    c <- load8 dest ;;
    if negb (c =? 0) then ret (inl (dest + 1)) else ret (inr dest)) dest.

(** [while (( *dest++ = *src++) != 0) ;] *)
(* src/libc/src/string/strcpy.c:19-20 *)
Definition copy_str (dest src : Z) : M S unit :=
  loop (fun '(dest, src) =>
    c <- load8 src ;;
    store8 dest c ;;
    if negb (c =? 0) then ret (inl (dest + 1, src + 1)) else ret (inr tt)) (dest, src).

(* src/libc/src/string/strcpy.c:15-22 *)
Definition strcpy (dest src : Z) : M S Z := copy_str dest src ;; ret dest.

(* src/libc/src/string/strcat.c:15-25 *)
Definition strcat (dest src : Z) : M S Z :=
  d <- skip_to_nul dest ;;
  copy_str d src ;;
  ret dest.

(* src/libc/src/string/strncpy.c:15-26 *)
Definition strncpy (dest src count : Z) : M S Z :=
  let* (i, d) :=
    loop (fun '(i, d, s) =>
      if i <? count then
        c <- load8 s ;;
        store8 d c ;;
        if negb (c =? 0) then ret (inl (i + 1, d + 1, s + 1)) else ret (inr (i, d + 1))
      else ret (inr (i, d))) (0, dest, src) in
  loop (fun '(i, d) =>
    if i <? count then store8 d 0 ;; ret (inl (i + 1, d + 1))
    else ret (inr tt)) (i, d) ;;
  ret dest.

(* src/libc/src/string/strncat.c:15-31 *)
Definition strncat (dest src count : Z) : M S Z :=
  (if count >? 0 then
     d <- skip_to_nul dest ;;
     loop (fun '(d, s, count) =>
       c <- load8 s ;;
       store8 d c ;;
       if negb (c =? 0) then
         if count - 1 =? 0 then store8 (d + 1) 0 ;; ret (inr tt)
         else ret (inl (d + 1, s + 1, count - 1))
       else ret (inr tt)) (d, src, count)
   else ret tt) ;;
  ret dest.

(* src/libc/src/string/strcmp.c:15-25 *)
Definition strcmp (cs ct : Z) : M S Z :=
  loop (fun '(cs, ct) =>
    x <- load8 cs ;;
    y <- load8 ct ;;
    let res := s8 (x - y) in
    if negb (res =? 0) then ret (inr res)
    else
      x' <- load8 cs ;;
      if x' =? 0 then ret (inr res) else ret (inl (cs + 1, ct + 1))) (cs, ct).

(* src/libc/src/string/strncmp.c:15-26 *)
Definition strncmp (cs ct count : Z) : M S Z :=
  loop (fun '(cs, ct, count, res) =>
    if count >? 0 then
      x <- load8 cs ;;
      y <- load8 ct ;;
      let res := s8 (x - y) in
      if negb (res =? 0) then ret (inr res)
      else
        x' <- load8 cs ;;
        if x' =? 0 then ret (inr res) else ret (inl (cs + 1, ct + 1, count - 1, res))
    else ret (inr res)) (cs, ct, count, 0).

(* src/libc/src/string/strchr.c:15-21 *)
Definition strchr (s c : Z) : M S Z :=
  loop (fun s =>
    x <- load8 s ;;
    if negb (x =? u8 c) then
      y <- load8 s ;;
      if y =? 0 then ret (inr 0) else ret (inl (s + 1))
    else ret (inr s)) s.

(* src/libc/src/string/strrchr.c:15-29 *)
Definition strrchr (s c : Z) : M S Z :=
  loop (fun '(s, last) =>
    x <- load8 s ;;
    if negb (x =? 0) then
      let last := if x =? c then s else last in
      ret (inl (s + 1, last))
    else ret (inr last)) (s, if negb (c =? 0) then 0 else s).

(** The inner loop of [strspn] and [strpbrk]: step through the set [a] until
    its end or a character equal to the one at [p]; the result is the pointer
    the loop stops at. *)
(* src/libc/src/string/strspn.c:22-25 *)
Definition scan_set (p a : Z) : M S Z :=
  loop (fun a =>
    y <- load8 a ;;
    if negb (y =? 0) then
      x <- load8 p ;;
      if x =? y then ret (inr a) else ret (inl (a + 1))
    else ret (inr a)) a.

(* src/libc/src/string/strspn.c:15-32 *)
Definition strspn (s accept : Z) : M S Z :=
  loop (fun '(p, count) =>
    x <- load8 p ;;
    if negb (x =? 0) then
      a <- scan_set p accept ;;
      y <- load8 a ;;
      if y =? 0 then ret (inr count) else ret (inl (p + 1, u32 (count + 1)))
    else ret (inr count)) (s, 0).

(* src/libc/src/string/strpbrk.c:15-28 *)
Definition strpbrk (cs ct : Z) : M S Z :=
  loop (fun sc1 =>
    x <- load8 sc1 ;;
    if negb (x =? 0) then
      sc2 <- scan_set sc1 ct ;;
      y <- load8 sc2 ;;
      if negb (y =? 0) then ret (inr sc1) else ret (inl (sc1 + 1))
    else ret (inr 0)) cs.

(* src/libc/src/string/strstr.c:15-30 *)
Definition strstr (s1 s2 : Z) : M S Z :=
  l2 <- strlen s2 ;;
  let l2 := s32 l2 in
  if l2 =? 0 then ret s1
  else
    l1 <- strlen s1 ;;
    loop (fun '(s1, l1) =>
      if l1 >=? l2 then
        r <- memcmp s1 s2 (u32 l2) ;;
        if r =? 0 then ret (inr s1) else ret (inl (s1 + 1, l1 - 1))
      else ret (inr 0)) (s1, s32 l1).
End code.

(* src/libc/src/string/strtok.c:17-35 *)
Definition strtok {S} `{!HasMem S} (s ct : Z) : M (S * Z) Z :=
  saved <- gets snd ;;
  let set_saved p := modify (fun st => (st.1, p)) in
  let sbegin := if negb (s =? 0) then s else saved in
  if sbegin =? 0 then ret 0
  else
    n <- strspn sbegin ct ;;
    let sbegin := sbegin + n in
    c <- load8 sbegin ;;
    if c =? 0 then set_saved 0 ;; ret 0
    else
      send <- strpbrk sbegin ct ;;
      send <- (if negb (send =? 0) then
                 e <- load8 send ;;
                 if negb (e =? 0) then store8 send 0 ;; ret (send + 1) else ret send
               else ret send) ;;
      set_saved send ;;
      ret sbegin.

(** ** Strings in memory *)

(** The C string [s] (its characters, none of them NUL) is stored at [a]. *)
Definition cstr_at (m : mem) (a : Z) (s : list Z) : Prop :=
  bytes_at m a (s ++ [0]) /\ Forall (fun c => c <> 0) s.

#[export] Instance cstr_at_dec m a s : Decision (cstr_at m a s).
Proof. unfold cstr_at. apply _. Defined.

Lemma cstr_at_cons m a c s :
  cstr_at m a (c :: s) <-> is_u8 c /\ c <> 0 /\ m !! a = Some c /\ cstr_at m (a + 1) s.
Proof.
  unfold cstr_at. cbn [app]. rewrite bytes_at_cons, Forall_cons_iff. tauto.
Qed.

Lemma cstr_at_app m a s1 s2 :
  cstr_at m a (s1 ++ s2) <->
  bytes_at m a s1 /\ Forall (fun c => c <> 0) s1 /\ cstr_at m (a + Z.of_nat (length s1)) s2.
Proof. unfold cstr_at. rewrite <- app_assoc, bytes_at_app, Forall_app. tauto. Qed.

Lemma cstr_at_write_other m a l b s :
  a + Z.of_nat (length l) <= b \/ b + Z.of_nat (length s) < a ->
  cstr_at m b s -> cstr_at (write_bytes m a l) b s.
Proof.
  intros Hd [Hb Hs]. split; [|done]. apply bytes_at_write_other; [|done].
  rewrite length_app. cbn. lia.
Qed.

Lemma cstr_at_bytes m a s : cstr_at m a s -> bytes s.
Proof. intros [H _]. apply bytes_at_bytes, Forall_app in H. by destruct H. Qed.

Section load.
Context {S : Type} `{!HasMem S}.

Lemma load8_lookup a b (st : S) : mem_of st !! a = Some b -> is_u8 b -> load8 a st = Ok b st.
Proof.
  intros H Hb. apply load8_ok, bytes_at_cons. split; [done|split; [done|apply bytes_at_nil]].
Qed.

Lemma load8_hd a s (st : S) : cstr_at (mem_of st) a s -> load8 a st = Ok (hd 0 s) st.
Proof.
  intros H. destruct s as [|c s].
  - apply load8_ok. by destruct H.
  - apply cstr_at_cons in H as (? & ? & ? & _). by apply load8_lookup.
Qed.

Lemma load8_nth a s (i : nat) (st : S) :
  cstr_at (mem_of st) a s -> (i <= length s)%nat ->
  load8 (a + Z.of_nat i) st = Ok (nth i s 0) st.
Proof.
  intros [H _] Hi. eapply load8_at; [exact H|].
  destruct (decide (i < length s)%nat).
  - rewrite lookup_app_l by done. destruct (lookup_lt_is_Some_2 s i ltac:(done)) as [x Hx].
    by rewrite nth_lookup, Hx.
  - replace i with (length s) by lia. rewrite nth_overflow by lia.
    by apply list_lookup_middle.
Qed.

(** What [printf] reads through a [%s] argument. *)
Definition c_string (s : Z) : M S (list Z) :=
  loop (fun '(l, s) =>
    c <- load8 s ;;
    if c =? 0 then ret (inr l) else ret (inl (l ++ [c], s + 1))) ([], s).

Lemma c_string_ok w a (s : S) : cstr_at (mem_of s) a w -> Z.of_nat (length w) < 2 ^ 32 ->
  c_string a s = Ok w s.
Proof.
  intros Hw Hl. unfold c_string. name_body body. apply (loop_runs _ (length w)); [|lia]. clear Hl.
  enough (forall p, runs body (length w) (p, a) s (Ok (p ++ w) s)) as H by apply (H []).
  revert a Hw. induction w as [|c w IH]; intros a Hw p; cbn [length].
  - rewrite app_nil_r. apply runs_done. unfold body. by step (load8_hd a [] s Hw).
  - pose proof (proj1 (cstr_at_cons _ _ _ _) Hw) as (_ & Hc & _ & Hw').
    eapply runs_step; [|replace (p ++ c :: w) with ((p ++ [c]) ++ w) by (by rewrite <- app_assoc); by apply IH].
    unfold body. step (load8_hd a (c :: w) s Hw). cbn [hd]. by rewrite (proj2 (Z.eqb_neq _ _) Hc).
Qed.
End load.

Ltac eqb_true := rewrite (proj2 (Z.eqb_eq _ _)) by (done || lia).
Ltac eqb_false := rewrite (proj2 (Z.eqb_neq _ _)) by (done || lia).

Section lengths.
Context {S : Type} `{!HasMem S}.

Lemma strlen_ok a s (st : S) :
  cstr_at (mem_of st) a s -> Z.of_nat (length s) < 2 ^ 32 ->
  strlen a st = Ok (Z.of_nat (length s)) st.
Proof.
  intros Hs Hlen. unfold strlen. apply (loop_runs _ (length s)); [|lia].
  name_body body.
  assert (forall s2 s1, s = s1 ++ s2 ->
    runs body (length s2) (Z.of_nat (length s1)) st (Ok (Z.of_nat (length s)) st)) as Hg;
    [|by apply (Hg s [])].
  induction s2 as [|c s2 IH]; intros s1 E; cbn [length].
  - apply runs_done. unfold body. rewrite app_nil_r in E. subst s1.
    step (load8_nth a s (length s) st Hs ltac:(lia)). rewrite nth_overflow by lia. done.
  - assert (cstr_at (mem_of st) (a + Z.of_nat (length s1)) (c :: s2)) as Hc
      by (rewrite E, cstr_at_app in Hs; tauto).
    eapply runs_step; [|apply (IH (s1 ++ [c])); by rewrite <- app_assoc].
    unfold body. step (load8_hd _ _ st Hc). apply cstr_at_cons in Hc as (_ & Hc & _).
    cbn [hd]. eqb_false. cbn [negb].
    rewrite u32_small, length_app by (apply (f_equal length) in E; rewrite length_app in E;
      cbn in E; zarith). cbn [length]. unfold ret. do 2 f_equal. lia.
Qed.

Lemma strnlen_ok a s n (st : S) :
  cstr_at (mem_of st) a s -> 0 <= n < 2 ^ 32 ->
  strnlen a n st = Ok (Z.min n (Z.of_nat (length s))) st.
Proof.
  intros Hs Hn. unfold strnlen. name_body body.
  assert (forall s b n, cstr_at (mem_of st) b s -> 0 <= n < 2 ^ 32 ->
    exists k : nat, Z.of_nat k <= n /\ runs body k (b, n) st
      (Ok (b - a + Z.min n (Z.of_nat (length s))) st)) as Hg.
  2: { destruct (Hg s a n Hs Hn) as (k & Hk & Hr). rewrite Z.sub_diag in Hr.
       apply (loop_runs _ k); [exact Hr|lia]. }
  clear s n Hs Hn. induction s as [|c s IH]; intros b n Hs Hn.
  - exists 0%nat. split; [lia|]. apply runs_done. unfold body.
    replace (Z.min n (Z.of_nat (length []))) with 0 by (cbn; lia). rewrite Z.add_0_r.
    destruct (Z.eqb_spec n 0); [done|]. by step (load8_hd _ _ st Hs).
  - destruct (decide (n = 0)) as [->|Hn0].
    { exists 0%nat. split; [lia|]. apply runs_done. unfold body. cbn [Z.eqb].
      unfold ret. do 2 f_equal. cbn [length]. lia. }
    pose proof (proj1 (cstr_at_cons _ _ _ _) Hs) as (_ & Hc & _ & Ht).
    destruct (IH (b + 1) (n - 1) Ht ltac:(lia)) as (k & Hk & Hr).
    exists (Datatypes.S k). split; [lia|]. eapply runs_step.
    + unfold body. eqb_false. step (load8_hd _ _ st Hs). cbn [hd]. eqb_false. cbn [negb].
      by rewrite u32_small by zarith.
    + replace (b - a + _) with (b + 1 - a + Z.min (n - 1) (Z.of_nat (length s)))
        by (cbn [length]; lia). exact Hr.
Qed.

Lemma skip_to_nul_ok a s (st : S) :
  cstr_at (mem_of st) a s -> Z.of_nat (length s) < 2 ^ 32 ->
  skip_to_nul a st = Ok (a + Z.of_nat (length s)) st.
Proof.
  intros Hs Hlen. unfold skip_to_nul. apply (loop_runs _ (length s)); [|lia]. clear Hlen.
  revert a Hs. induction s as [|c s IH]; intros a Hs; cbn [length].
  - apply runs_done. step (load8_hd _ _ st Hs). cbn. by rewrite Z.add_0_r.
  - pose proof (proj1 (cstr_at_cons _ _ _ _) Hs) as (_ & Hc & _ & Ht).
    eapply runs_step.
    + step (load8_hd _ _ st Hs). cbn [hd]. eqb_false. cbn [negb]. reflexivity.
    + replace (a + Z.of_nat (Datatypes.S (length s))) with (a + 1 + Z.of_nat (length s)) by lia.
      by apply IH.
Qed.
End lengths.

(** ** Copying strings *)

Section copies.
Context {S : Type} `{!HasMem S}.

Lemma store8_byte a v (st : S) :
  mapped (mem_of st) a 1 -> is_u8 v -> store8 a v st = Ok tt (poke st a [v]).
Proof. intros H Hv. rewrite store8_ok by done. by rewrite u8_small. Qed.

Lemma copy_str_ok d src s (st : S) :
  cstr_at (mem_of st) src s -> Z.of_nat (length s) < 2 ^ 32 ->
  mapped (mem_of st) d (Z.of_nat (length s) + 1) ->
  d <= src \/ src + Z.of_nat (length s) < d ->
  copy_str d src st = Ok tt (poke st d (s ++ [0])).
Proof.
  intros Hs Hlen Hd Hfwd. unfold copy_str. apply (loop_runs _ (length s)); [|lia]. clear Hlen.
  revert d src st Hs Hd Hfwd. induction s as [|c s IH]; intros d src st Hs Hd Hfwd; cbn [length] in *.
  - apply runs_done. step (load8_hd _ _ st Hs). cbn [hd].
    by step (store8_byte d 0 st Hd ltac:(zarith)).
  - pose proof (proj1 (cstr_at_cons _ _ _ _) Hs) as (Hu & Hc & _ & Ht).
    assert (mapped (mem_of st) d 1) as Hd1 by (eapply mapped_sub; [exact Hd|lia..]).
    eapply runs_step.
    + step (load8_hd _ _ st Hs). cbn [hd]. step (store8_byte d c st Hd1 Hu).
      eqb_false. reflexivity.
    + cbn [app]. rewrite <- (poke_app st d (d + 1) [c] (s ++ [0])) by done.
      apply IH.
      * rewrite mem_of_poke. apply cstr_at_write_other; [cbn; lia|done].
      * rewrite mem_of_poke. apply mapped_write. eapply mapped_sub; [exact Hd|lia..].
      * lia.
Qed.

(** Copying the characters of [s] in the first loop of [strncpy], whatever
    happens next. *)
Lemma strncpy_chars n s k i d src (st : S) o :
  let body := fun '(i, d, s) =>
    if i <? n then
      c <- load8 s ;;
      store8 d c ;;
      if negb (c =? 0) then ret (inl (i + 1, d + 1, s + 1)) else ret (inr (i, d + 1))
    else ret (inr (i, d)) in
  bytes_at (mem_of st) src s -> Forall (fun c => c <> 0) s ->
  i + Z.of_nat (length s) <= n -> mapped (mem_of st) d (Z.of_nat (length s)) ->
  d <= src \/ src + Z.of_nat (length s) <= d ->
  runs body k (i + Z.of_nat (length s), d + Z.of_nat (length s), src + Z.of_nat (length s))
    (poke st d s) o ->
  runs body (length s + k) (i, d, src) st o.
Proof.
  intros body. revert i d src st.
  induction s as [|c s IH]; intros i d src st Hs Hnz Hi Hd Hfwd Hr; cbn [length] in *.
  { by rewrite !Z.add_0_r, poke_nil in Hr. }
  apply Forall_cons_iff in Hnz as [Hc Hnz]. apply bytes_at_cons in Hs as (Hu & Hl & Ht).
  assert (mapped (mem_of st) d 1) as Hd1 by (eapply mapped_sub; [exact Hd|lia..]).
  eapply runs_step.
  - unfold body at 1. rewrite (proj2 (Z.ltb_lt _ _)) by lia.
    step (load8_lookup _ _ st Hl Hu). step (store8_byte d c st Hd1 Hu). eqb_false. reflexivity.
  - apply IH; [|done|lia| |lia|].
    + rewrite mem_of_poke. apply bytes_at_write_other; [cbn; lia|done].
    + rewrite mem_of_poke. apply mapped_write. eapply mapped_sub; [exact Hd|lia..].
    + rewrite (poke_app st d (d + 1) [c]) by done. cbn [app].
      by replace (i + 1 + Z.of_nat (length s)) with (i + Z.of_nat (Datatypes.S (length s))) by lia;
      replace (d + 1 + Z.of_nat (length s)) with (d + Z.of_nat (Datatypes.S (length s))) by lia;
      replace (src + 1 + Z.of_nat (length s)) with (src + Z.of_nat (Datatypes.S (length s))) by lia.
Qed.

Lemma strncpy_pad n i d (st : S) :
  0 <= n - i < 2 ^ 33 -> mapped (mem_of st) d (n - i) ->
  loop (fun '(i, d) => if i <? n then store8 d 0 ;; ret (inl (i + 1, d + 1)) else ret (inr tt))
    (i, d) st = Ok tt (poke st d (replicate (Z.to_nat (n - i)) 0)).
Proof.
  intros Hn Hd. apply (loop_runs _ (Z.to_nat (n - i))); [|lia].
  remember (Z.to_nat (n - i)) as k eqn:Hk. revert i d st Hn Hd Hk.
  induction k as [|k IH]; intros i d st Hn Hd Hk; cbn [replicate].
  { rewrite poke_nil. apply runs_done. by rewrite (proj2 (Z.ltb_ge _ _)) by lia. }
  assert (mapped (mem_of st) d 1) as Hd1 by (eapply mapped_sub; [exact Hd|lia..]).
  eapply runs_step.
  - rewrite (proj2 (Z.ltb_lt _ _)) by lia. step (store8_byte d 0 st Hd1 ltac:(zarith)). reflexivity.
  - change (0 :: replicate k 0) with ([0] ++ replicate k 0).
    rewrite <- (poke_app st d (d + 1) [0]) by done. apply IH; [lia| |lia].
    rewrite mem_of_poke. apply mapped_write. eapply mapped_sub; [exact Hd|lia..].
Qed.

(** What [strncpy] writes: a source of [n] characters or more is cut to [n];
    a shorter one is copied with its NUL and then [n - length s] further zeros
    follow, because the loop that copies the NUL does not count it. *)
Definition strncpy_bytes (s : list Z) (n : Z) : list Z :=
  if decide (Z.of_nat (length s) < n)
  then (s ++ [0]) ++ replicate (Z.to_nat (n - Z.of_nat (length s))) 0
  else take (Z.to_nat n) s.

Lemma strncpy_ok d src s n (st : S) :
  cstr_at (mem_of st) src s -> 0 <= n < 2 ^ 32 ->
  mapped (mem_of st) d (Z.of_nat (length (strncpy_bytes s n))) ->
  d <= src \/ src + Z.of_nat (length s) < d ->
  strncpy d src n st = Ok d (poke st d (strncpy_bytes s n)).
Proof.
  intros Hs Hn Hd Hfwd. unfold strncpy, strncpy_bytes in *. case_decide as Hlt.
  - rewrite length_app, length_replicate, length_app in Hd. cbn [length] in Hd.
    assert (Hs' := Hs). rewrite <- (app_nil_r s), cstr_at_app in Hs'.
    destruct Hs' as (Hb & Hnz & Hend).
    assert (mapped (mem_of st) (d + Z.of_nat (length s)) 1) as Hd1
      by (eapply mapped_sub; [exact Hd|lia..]).
    set (len := Z.of_nat (length s)) in *.
    rewrite (bind_ok _ _ _ (len, d + len + 1) (poke st d (s ++ [0]))).
    + assert (mapped (mem_of (poke st d (s ++ [0]))) (d + len + 1) (n - len)) as Hd2.
      { rewrite mem_of_poke. apply mapped_write. eapply mapped_sub; [exact Hd|lia..]. }
      step (strncpy_pad n len (d + len + 1) _ ltac:(lia) Hd2). unfold ret. f_equal.
      apply poke_app. rewrite length_app. cbn. lia.
    + apply (loop_runs _ (length s + 0)); [|lia].
      apply strncpy_chars; [done|done|lia| |lia|].
      { eapply mapped_sub; [exact Hd|lia..]. }
      apply runs_done. rewrite Z.add_0_l. fold len. rewrite (proj2 (Z.ltb_lt _ _)) by lia.
      assert (cstr_at (mem_of (poke st d s)) (src + len) []) as Hend'.
      { rewrite mem_of_poke. apply cstr_at_write_other; [cbn [length]; lia|done]. }
      step (load8_hd _ _ _ Hend'). cbn [hd].
      assert (mapped (mem_of (poke st d s)) (d + len) 1) as Hd1'
        by (rewrite mem_of_poke; by apply mapped_write).
      step (store8_byte (d + len) 0 _ Hd1' ltac:(zarith)). cbn [Z.eqb negb].
      by rewrite poke_app by done.
  - destruct (split_at (Z.to_nat n) s) as (s1 & s2 & -> & Hl1); [lia|].
    rewrite take_app_length' in * by done. rewrite length_app in Hlt, Hfwd.
    apply cstr_at_app in Hs as (Hb & Hnz & _).
    rewrite (bind_ok _ _ _ (n, d + n) (poke st d s1)).
    + assert (mapped (mem_of (poke st d s1)) (d + n) (n - n)) as Hd2.
      { apply mapped_lookup. lia. }
      step (strncpy_pad n n (d + n) _ ltac:(lia) Hd2). rewrite Z.sub_diag. cbn [Z.to_nat replicate].
      by rewrite poke_nil.
    + apply (loop_runs _ (length s1 + 0)); [|lia].
      apply strncpy_chars; [done|done|lia|done|lia|].
      apply runs_done. rewrite (proj2 (Z.ltb_ge _ _)) by lia. unfold ret. do 3 f_equal; lia.
Qed.
End copies.

(** ** Comparing strings *)

Section compare.
Context {S : Type} `{!HasMem S}.

(** A comparison of strings is the comparison of their bytes, NUL included. *)
Lemma strcmp_ok cs ct s1 s2 (st : S) :
  cstr_at (mem_of st) cs s1 -> cstr_at (mem_of st) ct s2 ->
  Z.of_nat (length s1) < 2 ^ 32 ->
  strcmp cs ct st = Ok (first_diff (s1 ++ [0]) (s2 ++ [0])) st.
Proof.
  intros H1 H2 Hlen. unfold strcmp. name_body body.
  assert (exists k, (k <= length s1)%nat /\
    runs body k (cs, ct) st (Ok (first_diff (s1 ++ [0]) (s2 ++ [0])) st)) as (k & Hk & Hr).
  2: { apply (loop_runs _ k); [exact Hr|lia]. }
  clear Hlen. revert cs ct s2 H1 H2. induction s1 as [|x s1 IH]; intros cs ct s2 H1 H2.
  - exists 0%nat. split; [lia|]. apply runs_done. unfold body.
    step (load8_hd _ _ st H1). step (load8_hd _ _ st H2). destruct s2 as [|y s2].
    { change (s8 (hd 0 [] - hd 0 [])) with 0. cbn [Z.eqb negb].
      by step (load8_hd _ _ st H1). }
    apply cstr_at_cons in H2 as (Hy & Hy0 & _). cbn [hd app first_diff].
    assert (s8 (0 - y) <> 0) as Hne by (pose proof (s8_sub_0 0 y ltac:(zarith) Hy); lia).
    by rewrite (proj2 (Z.eqb_neq _ _) Hne).
  - pose proof (proj1 (cstr_at_cons _ _ _ _) H1) as (Hx & Hx0 & _ & Ht1).
    assert (forall y, is_u8 y -> s8 (x - y) <> 0 \/ x = y) as Hxy
      by (intros y Hy; pose proof (s8_sub_0 x y Hx Hy); lia).
    destruct s2 as [|y s2].
    { exists 0%nat. split; [lia|]. apply runs_done. unfold body.
      step (load8_hd _ _ st H1). step (load8_hd _ _ st H2). cbn [hd app first_diff].
      destruct (Hxy 0 ltac:(zarith)) as [E|E]; [|lia]. by rewrite (proj2 (Z.eqb_neq _ _) E). }
    pose proof (proj1 (cstr_at_cons _ _ _ _) H2) as (Hy & Hy0 & _ & Ht2).
    cbn [app first_diff]. destruct (Z.eqb_spec (s8 (x - y)) 0) as [E|E].
    + destruct (IH (cs + 1) (ct + 1) s2 Ht1 Ht2) as (k & Hk & Hr).
      exists (Datatypes.S k). split; [cbn; lia|]. eapply runs_step; [|exact Hr].
      unfold body. step (load8_hd _ _ st H1). step (load8_hd _ _ st H2).
      cbn [hd]. rewrite E. cbn [Z.eqb negb]. step (load8_hd _ _ st H1). cbn [hd].
      eqb_false. done.
    + exists 0%nat. split; [lia|]. apply runs_done. unfold body.
      step (load8_hd _ _ st H1). step (load8_hd _ _ st H2). cbn [hd].
      cbn zeta. by rewrite (proj2 (Z.eqb_neq _ _) E).
Qed.

Lemma strncmp_ok cs ct s1 s2 n (st : S) :
  cstr_at (mem_of st) cs s1 -> cstr_at (mem_of st) ct s2 ->
  0 <= n < 2 ^ 32 ->
  strncmp cs ct n st =
  Ok (first_diff (take (Z.to_nat n) (s1 ++ [0])) (take (Z.to_nat n) (s2 ++ [0]))) st.
Proof.
  intros H1 H2 Hn. unfold strncmp. name_body body.
  assert (forall s1 s2 cs ct m, cstr_at (mem_of st) cs s1 -> cstr_at (mem_of st) ct s2 ->
    exists k, (k <= m)%nat /\ runs body k (cs, ct, Z.of_nat m, 0) st
      (Ok (first_diff (take m (s1 ++ [0])) (take m (s2 ++ [0]))) st)) as Hg.
  2: { destruct (Hg s1 s2 cs ct (Z.to_nat n) H1 H2) as (k & Hk & Hr).
       rewrite Z2Nat.id in Hr by lia. apply (loop_runs _ k); [exact Hr|lia]. }
  clear cs ct s1 s2 n H1 H2 Hn. intros s1 s2 cs ct m. revert cs ct s1 s2.
  induction m as [|m IH]; intros cs ct s1 s2 H1 H2.
  { exists 0%nat. split; [lia|]. by apply runs_done. }
  assert (Hgt : (Z.of_nat (Datatypes.S m) >? 0) = true) by (apply Z.gtb_lt; lia).
  assert (is_u8 (hd 0 s1) /\ is_u8 (hd 0 s2)) as [Hx Hy].
  { apply cstr_at_bytes in H1, H2.
    split; [destruct H1|destruct H2]; cbn; (zarith || done). }
  pose proof (s8_sub_0 _ _ Hx Hy) as Hxy.
  destruct (decide (hd 0 s1 = hd 0 s2)) as [E|E].
  - destruct (decide (hd 0 s1 = 0)) as [E0|E0].
    + exists 0%nat. split; [lia|]. apply runs_done. unfold body. rewrite Hgt.
      step (load8_hd _ _ st H1). step (load8_hd _ _ st H2).
      rewrite <- E, Z.sub_diag. change (s8 0) with 0. cbn [Z.eqb negb]. step (load8_hd _ _ st H1). rewrite E0.
      destruct s1 as [|x s1]; [|apply cstr_at_cons in H1; cbn in E0; tauto].
      destruct s2 as [|y s2]; [|apply cstr_at_cons in H2; cbn in E; rewrite <- E in H2; tauto].
      by destruct m.
    + destruct s1 as [|x s1]; [done|]. destruct s2 as [|y s2]; [cbn in E0, E; done|].
      cbn [hd] in *. subst y.
      pose proof (proj1 (cstr_at_cons _ _ _ _) H1) as (_ & _ & _ & Ht1).
      pose proof (proj1 (cstr_at_cons _ _ _ _) H2) as (_ & _ & _ & Ht2).
      destruct (IH (cs + 1) (ct + 1) s1 s2 Ht1 Ht2) as (k & Hk & Hr).
      exists (Datatypes.S k). split; [lia|]. eapply runs_step.
      * unfold body. rewrite Hgt. step (load8_hd _ _ st H1). step (load8_hd _ _ st H2).
        cbn [hd]. rewrite Z.sub_diag. change (s8 0) with 0. cbn [Z.eqb negb]. step (load8_hd _ _ st H1). cbn [hd].
        eqb_false. reflexivity.
      * replace (Z.of_nat (Datatypes.S m) - 1) with (Z.of_nat m) by lia.
        cbn [app take first_diff]. rewrite Z.sub_diag. exact Hr.
  - exists 0%nat. split; [lia|]. apply runs_done. unfold body. rewrite Hgt.
    step (load8_hd _ _ st H1). step (load8_hd _ _ st H2).
    assert (s8 (hd 0 s1 - hd 0 s2) <> 0) as Hne by tauto.
    rewrite (proj2 (Z.eqb_neq _ _) Hne). cbn [negb]. unfold ret. f_equal.
    destruct s1, s2; cbn [hd app take first_diff] in *;
      first [done | by rewrite (proj2 (Z.eqb_neq _ _) Hne)].
Qed.
End compare.

(** ** Searching strings *)

(** The last index of [c] in [s]. *)
Fixpoint find_last (c : Z) (s : list Z) : option nat :=
  match s with
  | [] => None
  | x :: s' =>
    match find_last c s' with
    | Some i => Some (Datatypes.S i)
    | None => if x =? c then Some 0%nat else None
    end
  end.

(** The length of the longest prefix of characters satisfying [p]. *)
Fixpoint span (p : Z -> bool) (s : list Z) : nat :=
  match s with
  | [] => 0
  | x :: s' => if p x then Datatypes.S (span p s') else 0
  end.

Definition inb (set : list Z) (x : Z) : bool := bool_decide (x ∈ set).

Section search.
Context {S : Type} `{!HasMem S}.

Lemma strchr_ok a c s (st : S) :
  cstr_at (mem_of st) a s -> Z.of_nat (length s) < 2 ^ 32 ->
  strchr a c st = Ok (match find_byte (u8 c) (s ++ [0]) with
                      | Some i => a + Z.of_nat i | None => 0 end) st.
Proof.
  intros Hs Hlen. unfold strchr. name_body body.
  assert (exists k, (k <= length s)%nat /\ runs body k a st
    (Ok (match find_byte (u8 c) (s ++ [0]) with
         | Some i => a + Z.of_nat i | None => 0 end) st)) as (k & Hk & Hr).
  2: { apply (loop_runs _ k); [exact Hr|lia]. }
  clear Hlen. revert a Hs. induction s as [|x s IH]; intros a Hs.
  - exists 0%nat. split; [lia|]. apply runs_done. unfold body. step (load8_hd _ _ st Hs).
    cbn [hd app find_byte]. destruct (Z.eqb_spec 0 (u8 c)); cbn [negb].
    + unfold ret. do 2 f_equal. cbn. lia.
    + by step (load8_hd _ _ st Hs).
  - pose proof (proj1 (cstr_at_cons _ _ _ _) Hs) as (_ & Hx0 & _ & Ht).
    cbn [app find_byte]. destruct (Z.eqb_spec x (u8 c)) as [E|E].
    + exists 0%nat. split; [lia|]. apply runs_done. unfold body. step (load8_hd _ _ st Hs).
      cbn [hd]. rewrite (proj2 (Z.eqb_eq _ _) E). cbn. unfold ret. do 2 f_equal. lia.
    + destruct (IH (a + 1) Ht) as (k & Hk & Hr). exists (Datatypes.S k). split; [cbn; lia|].
      eapply runs_step.
      * unfold body at 1. step (load8_hd _ _ st Hs). cbn [hd]. rewrite (proj2 (Z.eqb_neq _ _) E).
        cbn [negb]. step (load8_hd _ _ st Hs). cbn [hd]. eqb_false. reflexivity.
      * destruct (find_byte (u8 c) (s ++ [0])) as [i|]; cbn [fmap option_fmap option_map]; [|exact Hr].
        by replace (a + Z.of_nat (Datatypes.S i)) with (a + 1 + Z.of_nat i) by lia.
Qed.

Lemma strrchr_ok a c s (st : S) :
  cstr_at (mem_of st) a s -> Z.of_nat (length s) < 2 ^ 32 ->
  strrchr a c st = Ok (match find_last c s with
                       | Some i => a + Z.of_nat i
                       | None => if c =? 0 then a else 0 end) st.
Proof.
  intros Hs Hlen. unfold strrchr. apply (loop_runs _ (length s)); [|lia]. clear Hlen.
  replace (if negb (c =? 0) then 0 else a) with (if c =? 0 then a else 0) by (by destruct (c =? 0)).
  generalize (if c =? 0 then a else 0). revert a Hs.
  induction s as [|x s IH]; intros a Hs last; cbn [length].
  - apply runs_done. by step (load8_hd _ _ st Hs).
  - pose proof (proj1 (cstr_at_cons _ _ _ _) Hs) as (_ & Hx0 & _ & Ht). eapply runs_step.
    + step (load8_hd _ _ st Hs). cbn [hd]. eqb_false. reflexivity.
    + cbn [find_last]. specialize (IH (a + 1) Ht (if x =? c then a else last)).
      destruct (find_last c s) as [i|].
      * by replace (a + Z.of_nat (Datatypes.S i)) with (a + 1 + Z.of_nat i) by lia.
      * destruct (x =? c); [|exact IH]. cbn. by rewrite Z.add_0_r.
Qed.

(** The inner loop stops at a character of the set when there is one there. *)
Lemma scan_set_ok p a x set (st : S) :
  mem_of st !! p = Some x -> is_u8 x -> cstr_at (mem_of st) a set ->
  Z.of_nat (length set) < 2 ^ 32 ->
  exists r y, scan_set p a st = Ok r st /\ load8 r st = Ok y st /\
    (y =? 0) = negb (inb set x).
Proof.
  intros Hp Hx Ha Hlen. unfold scan_set. name_body body.
  assert (exists k r y, (k <= length set)%nat /\ runs body k a st (Ok r st) /\
    load8 r st = Ok y st /\ (y =? 0) = negb (inb set x)) as (k & r & y & Hk & Hr & Hy & E).
  2: { exists r, y. split; [|done]. apply (loop_runs _ k); [exact Hr|lia]. }
  clear Hlen. unfold inb. revert a Ha. induction set as [|z set IH]; intros a Ha.
  - exists 0%nat, a, 0. split; [lia|]. split; [|split; [exact (load8_hd _ _ st Ha)|]].
    + apply runs_done. unfold body. by step (load8_hd _ _ st Ha).
    + by rewrite bool_decide_eq_false_2 by apply not_elem_of_nil.
  - pose proof (proj1 (cstr_at_cons _ _ _ _) Ha) as (_ & Hz0 & _ & Ht).
    destruct (Z.eqb_spec x z) as [<-|Hne].
    + exists 0%nat, a, x. split; [lia|]. split; [|split; [exact (load8_hd _ _ st Ha)|]].
      * apply runs_done. unfold body. step (load8_hd _ _ st Ha). cbn [hd]. eqb_false. cbn [negb].
        step (load8_lookup _ _ st Hp Hx). by rewrite Z.eqb_refl.
      * rewrite bool_decide_eq_true_2 by (left; done). by eqb_false.
    + destruct (IH (a + 1) Ht) as (k & r & y & Hk & Hr & Hy & E).
      exists (Datatypes.S k), r, y. split; [cbn; lia|]. split; [|split; [done|]].
      * eapply runs_step; [|exact Hr]. unfold body. step (load8_hd _ _ st Ha). cbn [hd].
        eqb_false. cbn [negb]. step (load8_lookup _ _ st Hp Hx). by eqb_false.
      * rewrite E. f_equal. apply bool_decide_ext. rewrite elem_of_cons. tauto.
Qed.

Lemma strspn_ok a acc s set (st : S) :
  cstr_at (mem_of st) a s -> cstr_at (mem_of st) acc set ->
  Z.of_nat (length s) < 2 ^ 32 -> Z.of_nat (length set) < 2 ^ 32 ->
  strspn a acc st = Ok (Z.of_nat (span (inb set) s)) st.
Proof.
  intros Hs Ha Hlen Hset. unfold strspn. name_body body.
  assert (forall s p c, cstr_at (mem_of st) p s -> 0 <= c -> c + Z.of_nat (length s) < 2 ^ 32 ->
    exists k, (k <= length s)%nat /\
      runs body k (p, c) st (Ok (c + Z.of_nat (span (inb set) s)) st)) as Hg.
  2: { destruct (Hg s a 0 Hs ltac:(lia) ltac:(lia)) as (k & Hk & Hr).
       apply (loop_runs _ k); [exact Hr|lia]. }
  clear s a Hs Hlen. induction s as [|x s IH]; intros p c Hs Hc Hlen.
  - exists 0%nat. split; [lia|]. apply runs_done. unfold body. step (load8_hd _ _ st Hs).
    cbn [hd span]. by rewrite Z.add_0_r.
  - pose proof (proj1 (cstr_at_cons _ _ _ _) Hs) as (Hx & Hx0 & Hp & Ht).
    destruct (scan_set_ok p acc x set st Hp Hx Ha Hset) as (r & y & Er & Ey & E).
    cbn [span]. destruct (inb set x); cbn [negb] in E.
    + cbn [length] in Hlen. destruct (IH (p + 1) (c + 1) Ht ltac:(lia) ltac:(lia)) as (k & Hk & Hr).
      exists (Datatypes.S k). split; [cbn; lia|]. eapply runs_step.
      * unfold body. step (load8_hd _ _ st Hs). cbn [hd]. eqb_false. cbn [negb].
        step Er. step Ey. rewrite E. by rewrite u32_small by zarith.
      * by replace (c + Z.of_nat (Datatypes.S (span (inb set) s)))
          with (c + 1 + Z.of_nat (span (inb set) s)) by lia.
    + exists 0%nat. split; [lia|]. apply runs_done. unfold body. step (load8_hd _ _ st Hs).
      cbn [hd]. eqb_false. cbn [negb]. step Er. step Ey. rewrite E. by rewrite Z.add_0_r.
Qed.

Lemma strpbrk_ok a ct s set (st : S) :
  cstr_at (mem_of st) a s -> cstr_at (mem_of st) ct set ->
  Z.of_nat (length s) < 2 ^ 32 -> Z.of_nat (length set) < 2 ^ 32 ->
  strpbrk a ct st =
  Ok (let n := span (fun x => negb (inb set x)) s in
      if decide (n < length s)%nat then a + Z.of_nat n else 0) st.
Proof.
  intros Hs Ha Hlen Hset. unfold strpbrk. name_body body.
  assert (exists k, (k <= length s)%nat /\ runs body k a st
    (Ok (let n := span (fun x => negb (inb set x)) s in
         if decide (n < length s)%nat then a + Z.of_nat n else 0) st)) as (k & Hk & Hr).
  2: { apply (loop_runs _ k); [exact Hr|lia]. }
  clear Hlen. revert a Hs. induction s as [|x s IH]; intros a Hs.
  - exists 0%nat. split; [lia|]. apply runs_done. unfold body. by step (load8_hd _ _ st Hs).
  - pose proof (proj1 (cstr_at_cons _ _ _ _) Hs) as (Hx & Hx0 & Hp & Ht).
    destruct (scan_set_ok a ct x set st Hp Hx Ha Hset) as (r & y & Er & Ey & E).
    cbn [span]. destruct (inb set x); cbn [negb] in E |- *.
    + exists 0%nat. split; [lia|]. apply runs_done. unfold body. step (load8_hd _ _ st Hs).
      cbn [hd]. eqb_false. cbn [negb]. step Er. step Ey. rewrite E. cbn [negb].
      rewrite decide_True by (cbn; lia). cbn. by rewrite Z.add_0_r.
    + destruct (IH (a + 1) Ht) as (k & Hk & Hr). exists (Datatypes.S k). split; [cbn; lia|].
      eapply runs_step.
      * unfold body. step (load8_hd _ _ st Hs). cbn [hd]. eqb_false. cbn [negb].
        step Er. step Ey. by rewrite E.
      * cbn zeta in Hr |- *. cbn [length]. repeat case_decide; try lia; [|exact Hr].
        replace (a + Z.of_nat (Datatypes.S _))
          with (a + 1 + Z.of_nat (span (fun x => negb (inb set x)) s)) by lia.
        exact Hr.
Qed.
End search.

(** ** Appending, substrings, tokens *)

(** The first position from which [s2] is a prefix of the rest of [s1]. *)
Fixpoint find_sub (s2 s1 : list Z) : option nat :=
  if decide (take (length s2) s1 = s2) then Some 0%nat
  else match s1 with
       | [] => None
       | _ :: s1' => Datatypes.S <$> find_sub s2 s1'
       end.

Section append.
Context {S : Type} `{!HasMem S}.

Lemma strcat_ok d src s1 s2 (st : S) :
  cstr_at (mem_of st) d s1 -> cstr_at (mem_of st) src s2 ->
  Z.of_nat (length s1) < 2 ^ 32 -> Z.of_nat (length s2) < 2 ^ 32 ->
  mapped (mem_of st) d (Z.of_nat (length s1 + length s2) + 1) ->
  d + Z.of_nat (length s1) <= src \/ src + Z.of_nat (length s2) < d ->
  strcat d src st = Ok d (poke st (d + Z.of_nat (length s1)) (s2 ++ [0])).
Proof.
  intros H1 H2 L1 L2 Hd Hdis. unfold strcat. step (skip_to_nul_ok d s1 st H1 L1).
  assert (mapped (mem_of st) (d + Z.of_nat (length s1)) (Z.of_nat (length s2) + 1)) as Hd2
    by (eapply mapped_sub; [exact Hd|lia..]).
  by step (copy_str_ok _ src s2 st H2 L2 Hd2 ltac:(lia)).
Qed.

Lemma strncat_ok d src s1 s2 n (st : S) :
  cstr_at (mem_of st) d s1 -> cstr_at (mem_of st) src s2 ->
  Z.of_nat (length s1) < 2 ^ 32 -> 0 < n < 2 ^ 32 ->
  mapped (mem_of st) d (Z.of_nat (length s1) + Z.min n (Z.of_nat (length s2)) + 1) ->
  d + Z.of_nat (length s1) + n < src \/ src + Z.of_nat (length s2) < d ->
  strncat d src n st =
  Ok d (poke st (d + Z.of_nat (length s1)) (take (Z.to_nat n) s2 ++ [0])).
Proof.
  intros H1 H2 L1 Hn Hd Hdis. unfold strncat. rewrite (proj2 (Z.gtb_lt _ _)) by lia.
  rewrite bind_assoc. step (skip_to_nul_ok d s1 st H1 L1). name_body body.
  assert (forall s2 d src n st, cstr_at (mem_of st) src s2 -> 0 < n ->
    mapped (mem_of st) d (Z.min n (Z.of_nat (length s2)) + 1) ->
    d + n < src \/ src + Z.of_nat (length s2) < d ->
    exists k : nat, Z.of_nat k <= n /\ runs body k (d, src, n) st
      (Ok tt (poke st d (take (Z.to_nat n) s2 ++ [0])))) as Hg.
  2: { destruct (Hg s2 (d + Z.of_nat (length s1)) src n st H2 ltac:(lia)) as (k & Hk & Hr).
       - eapply mapped_sub; [exact Hd|lia..].
       - lia.
       - by step (loop_runs _ _ _ _ _ Hr ltac:(lia)). }
  clear d src s1 s2 n st H1 H2 L1 Hn Hd Hdis.
  induction s2 as [|c s2 IH]; intros d src n st Hs Hn Hd Hdis.
  - exists 0%nat. split; [lia|]. apply runs_done. unfold body. step (load8_hd _ _ st Hs). cbn [hd].
    assert (mapped (mem_of st) d 1) as Hd1 by (eapply mapped_sub; [exact Hd|cbn; lia..]).
    step (store8_byte d 0 st Hd1 ltac:(zarith)). by rewrite take_nil.
  - pose proof (proj1 (cstr_at_cons _ _ _ _) Hs) as (Hu & Hc & _ & Ht). cbn [length] in *.
    assert (mapped (mem_of st) d 1) as Hd1 by (eapply mapped_sub; [exact Hd|lia..]).
    replace (Z.to_nat n) with (Datatypes.S (Z.to_nat (n - 1))) by lia. cbn [take app].
    change (c :: ?l) with ([c] ++ l).
    assert (forall l, mapped (mem_of (poke st d l)) (d + 1)
      (Z.min (n - 1) (Z.of_nat (length s2)) + 1)) as Hd2.
    { intros l. rewrite mem_of_poke. apply mapped_write. eapply mapped_sub; [exact Hd|lia..]. }
    destruct (Z.eqb_spec (n - 1) 0) as [E|E].
    + exists 0%nat. split; [lia|]. apply runs_done. unfold body. step (load8_hd _ _ st Hs). cbn [hd].
      step (store8_byte d c st Hd1 Hu). eqb_false. cbn [negb]. rewrite (proj2 (Z.eqb_eq _ _) E).
      assert (mapped (mem_of (poke st d [c])) (d + 1) 1) as Hd3
        by (eapply mapped_sub; [apply Hd2|lia..]).
      step (store8_byte (d + 1) 0 _ Hd3 ltac:(zarith)). rewrite E. cbn [Z.to_nat take app].
      by rewrite (poke_app st d (d + 1) [c]) by done.
    + destruct (IH (d + 1) (src + 1) (n - 1) (poke st d [c])) as (k & Hk & Hr).
      { rewrite mem_of_poke. apply cstr_at_write_other; [cbn; lia|done]. }
      { lia. } { apply Hd2. } { lia. }
      rewrite (poke_app st d (d + 1) [c]) in Hr by done.
      exists (Datatypes.S k). split; [lia|]. eapply runs_step; [|exact Hr].
      unfold body. step (load8_hd _ _ st Hs). cbn [hd]. step (store8_byte d c st Hd1 Hu).
      eqb_false. cbn [negb]. by rewrite (proj2 (Z.eqb_neq _ _) E).
Qed.

Lemma strstr_ok a b s1 s2 (st : S) :
  cstr_at (mem_of st) a s1 -> cstr_at (mem_of st) b s2 ->
  Z.of_nat (length s1) < 2 ^ 31 -> Z.of_nat (length s2) < 2 ^ 31 ->
  strstr a b st = Ok (match find_sub s2 s1 with Some i => a + Z.of_nat i | None => 0 end) st.
Proof.
  intros H1 H2 L1 L2. unfold strstr. step (strlen_ok b s2 st H2 ltac:(lia)).
  rewrite s32_small by zarith.
  destruct (Z.eqb_spec (Z.of_nat (length s2)) 0) as [E|E].
  { assert (s2 = []) as -> by (apply nil_length_inv; lia). 
    assert (find_sub [] s1 = Some 0%nat) as -> by by destruct s1; cbn; rewrite decide_True.
    by rewrite Z.add_0_r. }
  step (strlen_ok a s1 st H1 ltac:(lia)). rewrite s32_small, u32_small by zarith.
  name_body body.
  assert (exists k, (k <= length s1)%nat /\ runs body k (a, Z.of_nat (length s1)) st
    (Ok (match find_sub s2 s1 with Some i => a + Z.of_nat i | None => 0 end) st))
    as (k & Hk & Hr).
  2: { apply (loop_runs _ k); [exact Hr|lia]. }
  destruct H2 as [Hb _]. apply bytes_at_app in Hb as [Hb _]. clear L1.
  revert a H1. induction s1 as [|x s1 IH]; intros a H1.
  - exists 0%nat. split; [lia|]. apply runs_done. unfold body.
    rewrite Z.geb_leb, (proj2 (Z.leb_gt _ _)) by (cbn; lia). cbn [find_sub].
    rewrite decide_False; [done|]. destruct s2; [done|]. done.
  - set (s := x :: s1) in *.
    pose proof (proj1 (cstr_at_cons _ _ _ _) H1) as (_ & _ & _ & Ht).
    assert (length (take (length s2) s) = length s2 <-> (length s2 <= length s)%nat) as Hlt
      by (rewrite length_take; lia).
    destruct (decide (length s2 <= length s)%nat) as [Hle|Hgt].
    + assert (exists p q, s = p ++ q /\ length p = length s2) as (p & q & Es & Hp)
        by (apply split_at; done).
      assert (take (length s2) s = p) as Etake by (rewrite Es, <- Hp; apply take_app_length).
      assert (memcmp a b (Z.of_nat (length s2)) st = Ok (first_diff p s2) st) as Em.
      { apply memcmp_ok; [lia|done|lia| |done]. rewrite Es, cstr_at_app in H1. by destruct H1. }
      assert (first_diff p s2 = 0 <-> p = s2) as Hz.
      { apply first_diff_0; [done| |eapply bytes_at_bytes, Hb].
        apply cstr_at_bytes in H1. rewrite Es in H1. by apply Forall_app in H1 as []. }
      change (find_sub s2 s) with (if decide (take (length s2) s = s2) then Some 0%nat
        else Datatypes.S <$> find_sub s2 s1). rewrite Etake. case_decide as Eq.
      * exists 0%nat. split; [lia|]. apply runs_done. unfold body.
        rewrite Z.geb_leb, (proj2 (Z.leb_le _ _)) by lia. step Em.
        rewrite (proj2 (Z.eqb_eq _ _)) by tauto. by rewrite Z.add_0_r.
      * destruct (IH (a + 1) Ht) as (k & Hk & Hr). exists (Datatypes.S k). split; [cbn; lia|].
        eapply runs_step.
        -- unfold body at 1. rewrite Z.geb_leb, (proj2 (Z.leb_le _ _)) by lia. step Em.
           rewrite (proj2 (Z.eqb_neq _ _)) by tauto. reflexivity.
        -- replace (Z.of_nat (length s) - 1) with (Z.of_nat (length s1)) by (cbn; lia).
           destruct (find_sub s2 s1) as [i|]; cbn [fmap option_fmap option_map]; [|exact Hr].
           by replace (a + Z.of_nat (Datatypes.S i)) with (a + 1 + Z.of_nat i) by lia.
    + exists 0%nat. split; [lia|]. apply runs_done. unfold body.
      rewrite Z.geb_leb, (proj2 (Z.leb_gt _ _)) by lia.
      assert (forall s, (length s < length s2)%nat -> find_sub s2 s = None) as Hnone.
      { clear. induction s as [|y s IH]; intros Hs; cbn [find_sub];
          (rewrite decide_False; [|intros He; apply (f_equal length) in He;
             rewrite length_take in He; cbn in *; lia]); [done|].
        by rewrite IH by (cbn in Hs; lia). }
      by rewrite Hnone by lia.
Qed.
End append.

Lemma span_app p s1 s2 :
  Forall (fun x => p x = true) s1 -> (forall x, head s2 = Some x -> p x = false) ->
  span p (s1 ++ s2) = length s1.
Proof.
  intros H1 H2. induction H1 as [|x s1 Hx _ IH]; cbn.
  - destruct s2 as [|y s2]; [done|]. cbn. by rewrite (H2 y).
  - by rewrite Hx, IH.
Qed.

Lemma span_split p s :
  exists s1 s2, s = s1 ++ s2 /\ span p s = length s1 /\
    Forall (fun x => p x = true) s1 /\ (forall x, head s2 = Some x -> p x = false).
Proof.
  induction s as [|x s (s1 & s2 & -> & Hn & H1 & H2)]; cbn.
  { exists [], []. split_and!; done. }
  destruct (p x) eqn:Hx.
  - exists (x :: s1), s2. rewrite Hn. split_and!; [done..| |done]. by constructor.
  - exists [], (x :: s1 ++ s2). split_and!; [done..|]. by intros y [= <-].
Qed.

Section token.
Context {S : Type} `{!HasMem S}.
Variables (ct : Z) (set : list Z).

Definition is_sep (x : Z) : Prop := inb set x = true.
Definition no_sep (x : Z) : Prop := inb set x = false.

(** One call: [p] is where it starts, the argument or the saved position. *)
Lemma strtok_next s p saved (seps tok rest : list Z) (st : S) :
  (s = p \/ s = 0 /\ saved = p) -> 0 < p ->
  cstr_at (mem_of st) p (seps ++ tok ++ rest) -> cstr_at (mem_of st) ct set ->
  Z.of_nat (length (seps ++ tok ++ rest)) < 2 ^ 32 -> Z.of_nat (length set) < 2 ^ 32 ->
  Forall is_sep seps -> Forall no_sep tok -> tok <> [] ->
  (forall x, head rest = Some x -> is_sep x) ->
  strtok s ct (st, saved) =
  Ok (p + Z.of_nat (length seps))
     (match rest with
      | [] => (st, 0)
      | _ => (poke st (p + Z.of_nat (length (seps ++ tok))) [0],
              p + Z.of_nat (length (seps ++ tok)) + 1)
      end).
Proof.
  intros Hp Hp0 Hs Hct Hlen Hset Hseps Htok Hne Hrest. unfold strtok.
  unfold gets, bind at 1. cbn [snd].
  assert ((if negb (s =? 0) then s else saved) = p) as ->.
  { destruct Hp as [->|[-> ->]]; [by eqb_false|done]. }
  eqb_false.
  assert (Hs' : cstr_at (mem_of (st, saved)) p (seps ++ tok ++ rest)) by done.
  assert (Hct' : cstr_at (mem_of (st, saved)) ct set) by done.
  step (strspn_ok p ct _ set (st, saved) Hs' Hct' Hlen Hset).
  assert (span (inb set) (seps ++ tok ++ rest) = length seps) as ->.
  { apply span_app; [done|]. intros x Hx. destruct tok as [|t tok]; [done|].
    injection Hx as <-. by apply Forall_cons_iff in Htok as []. }
  apply cstr_at_app in Hs' as (_ & _ & Hs2). rewrite !length_app in Hlen.
  set (b := p + Z.of_nat (length seps)) in *.
  step (load8_hd b _ (st, saved) Hs2).
  assert (hd 0 (tok ++ rest) <> 0) as Hnz.
  { destruct tok as [|t tok]; [done|]. cbn [app hd] in *. apply cstr_at_cons in Hs2. tauto. }
  rewrite (proj2 (Z.eqb_neq _ _) Hnz).
  assert (Z.of_nat (length (tok ++ rest)) < 2 ^ 32) as Hl2 by (rewrite length_app; lia).
  step (strpbrk_ok b ct _ set (st, saved) Hs2 Hct' Hl2 Hset).
  assert (span (fun x => negb (inb set x)) (tok ++ rest) = length tok) as Hsp.
  { apply span_app.
    - eapply Forall_impl; [|exact Htok]. unfold no_sep. by intros x ->.
    - intros x Hx. unfold is_sep in Hrest. by rewrite (Hrest x Hx). }
  cbn zeta. rewrite Hsp, !length_app. destruct rest as [|x rest].
  { rewrite decide_False by (cbn; lia). cbn [Z.eqb negb]. by rewrite bind_ret. }
  rewrite decide_True by (cbn; lia). eqb_false. cbn [negb].
  apply cstr_at_app in Hs2 as (_ & _ & Hs3).
  set (e := b + Z.of_nat (length tok)) in *.
  rewrite bind_assoc. step (load8_hd e _ (st, saved) Hs3). cbn [hd].
  pose proof (proj1 (cstr_at_cons _ _ _ _) Hs3) as (_ & Hx0 & Hlk & _). eqb_false. cbn [negb].
  assert (mapped (mem_of (st, saved)) e 1) as He.
  { apply mapped_lookup. intros i Hi. replace i with e by lia. by eexists. }
  rewrite bind_assoc. step (store8_byte e 0 (st, saved) He ltac:(zarith)). rewrite bind_ret.
  replace (p + Z.of_nat (length seps + length tok)) with e by lia. done.
Qed.

Lemma strtok_end s p saved (seps : list Z) (st : S) :
  (s = p \/ s = 0 /\ saved = p) -> 0 < p ->
  cstr_at (mem_of st) p seps -> cstr_at (mem_of st) ct set ->
  Z.of_nat (length seps) < 2 ^ 32 -> Z.of_nat (length set) < 2 ^ 32 ->
  Forall is_sep seps ->
  strtok s ct (st, saved) = Ok 0 (st, 0).
Proof.
  intros Hp Hp0 Hs Hct Hlen Hset Hseps. unfold strtok.
  unfold gets, bind at 1. cbn [snd].
  assert ((if negb (s =? 0) then s else saved) = p) as ->.
  { destruct Hp as [->|[-> ->]]; [by eqb_false|done]. }
  eqb_false.
  assert (Hs' : cstr_at (mem_of (st, saved)) p seps) by done.
  assert (Hct' : cstr_at (mem_of (st, saved)) ct set) by done.
  step (strspn_ok p ct _ set (st, saved) Hs' Hct' Hlen Hset).
  assert (span (inb set) seps = length seps) as ->.
  { rewrite <- (app_nil_r seps) at 1. by apply span_app. }
  step (load8_nth p seps (length seps) (st, saved) Hs' ltac:(lia)).
  rewrite nth_overflow by lia. done.
Qed.

Lemma strtok_null saved (st : S) : saved = 0 -> strtok 0 ct (st, saved) = Ok 0 (st, saved).
Proof. by intros ->. Qed.

(** The calls a client makes: the string first, then [NULL] until [NULL]
    comes back; the results in order. *)
Definition strtok_all (s : Z) : M (S * Z) (list Z) :=
  loop (fun '(arg, acc) =>
    r <- strtok arg ct ;;
    if r =? 0 then ret (inr acc) else ret (inl (0, acc ++ [r]))) (s, []).

(** [splits str toks]: [str] is the sequence of its maximal separator-free
    pieces [toks], given with their offsets. *)
Inductive splits : Z -> list Z -> list (Z * list Z) -> Prop :=
| splits_end p seps : Forall is_sep seps -> splits p seps []
| splits_last p seps tok :
    Forall is_sep seps -> Forall no_sep tok -> tok <> [] ->
    splits p (seps ++ tok) [(p + Z.of_nat (length seps), tok)]
| splits_next p seps tok x rest toks :
    Forall is_sep seps -> Forall no_sep tok -> tok <> [] -> is_sep x ->
    splits (p + Z.of_nat (length (seps ++ tok)) + 1) rest toks ->
    splits p (seps ++ tok ++ x :: rest) ((p + Z.of_nat (length seps), tok) :: toks).

Lemma strtok_all_runs p str toks s saved acc (st : S) :
  splits p str toks ->
  (s = p \/ s = 0 /\ saved = p) -> 0 < p ->
  cstr_at (mem_of st) p str -> cstr_at (mem_of st) ct set ->
  ct + Z.of_nat (length set) < p \/ p + Z.of_nat (length str) < ct ->
  Z.of_nat (length str) < 2 ^ 32 -> Z.of_nat (length set) < 2 ^ 32 ->
  exists k st', (k <= length str + 1)%nat /\
    runs (fun '(arg, acc) =>
      r <- strtok arg ct ;;
      if r =? 0 then ret (inr acc) else ret (inl (0, acc ++ [r]))) k (s, acc) (st, saved)
      (Ok (acc ++ toks.*1) (st', 0)) /\
    same_except (mem_of st) (mem_of st') p (Z.of_nat (length str)) /\
    Forall (fun '(a, tok) => cstr_at (mem_of st') a tok) toks.
Proof.
  intros Hsp. revert s saved acc st.
  induction Hsp as [p seps Hseps|p seps tok Hseps Htok Hne|p seps tok x rest toks Hseps Htok Hne Hx Hsp IH];
    intros s saved acc st Hp Hp0 Hs Hct Hdis Hlen Hset.
  - exists 0%nat, st. split; [lia|]. split; [|by split].
    apply runs_done. step (strtok_end s p saved seps st Hp Hp0 Hs Hct Hlen Hset Hseps).
    cbn. by rewrite app_nil_r.
  - exists 1%nat, st. split; [destruct tok; [done|]; rewrite length_app; cbn; lia|].
    assert (Hs' := Hs). rewrite <- (app_nil_r tok) in Hs, Hlen.
    split; [|split; [done|]].
    + eapply runs_step.
      * step (strtok_next s p saved seps tok [] st Hp Hp0 Hs Hct Hlen Hset Hseps Htok Hne ltac:(done)).
        eqb_false. reflexivity.
      * apply runs_done. by step (strtok_null 0 st eq_refl).
    + apply Forall_singleton. apply cstr_at_app in Hs' as (_ & _ & Hs'). done.
  - destruct (IH 0 (p + Z.of_nat (length (seps ++ tok)) + 1) (acc ++ [p + Z.of_nat (length seps)])
      (poke st (p + Z.of_nat (length (seps ++ tok))) [0])) as (k & st' & Hk & Hr & Hex & Hall).
    { by right. } { lia. }
    { rewrite mem_of_poke. apply cstr_at_write_other; [cbn; lia|].
      rewrite app_assoc in Hs. apply cstr_at_app in Hs as (_ & _ & Hs).
      by apply cstr_at_cons in Hs as (_ & _ & _ & Hs). }
    { rewrite mem_of_poke. rewrite !length_app in *. cbn [length] in *.
      apply cstr_at_write_other; [cbn [length]; lia|done]. }
    { rewrite !length_app in *. cbn [length] in *. lia. }
    { rewrite !length_app in Hlen. cbn [length] in Hlen. lia. }
    { done. }
    assert (Z.of_nat (length (seps ++ tok ++ x :: rest)) =
            Z.of_nat (length (seps ++ tok)) + 1 + Z.of_nat (length rest)) as Hl
      by (rewrite !length_app; cbn; lia).
    exists (Datatypes.S k), st'. split; [rewrite !length_app; cbn; lia|]. split; [|split].
    + eapply runs_step.
      * step (strtok_next s p saved seps tok (x :: rest) st Hp Hp0 Hs Hct Hlen Hset Hseps Htok Hne
          ltac:(intros y [= <-]; done)). eqb_false. reflexivity.
      * rewrite <- app_assoc in Hr. exact Hr.
    + intros b Hb. rewrite Hex by lia. rewrite mem_of_poke, lookup_write_bytes.
      cbn [length]. by rewrite decide_False by lia.
    + constructor; [|done].
      assert (Htk : bytes_at (mem_of st) (p + Z.of_nat (length seps)) tok /\ Forall (fun c => c <> 0) tok).
      { apply cstr_at_app in Hs as (_ & _ & Hs). apply cstr_at_app in Hs as (? & ? & _). done. }
      destruct Htk as [Htk Hnz]. split; [|done]. rewrite length_app in Hex.
      apply bytes_at_lookup. split.
      { apply Forall_app. split; [eapply bytes_at_bytes, Htk|]. by repeat constructor. }
      intros i Hi. rewrite length_app in Hi. cbn in Hi.
      rewrite Hex by lia. rewrite mem_of_poke, lookup_write_bytes. cbn [length].
      rewrite ?length_app. apply bytes_at_lookup in Htk as [_ Htk]. case_decide.
      * rewrite lookup_app_r by lia. f_equal. lia.
      * rewrite lookup_app_l by lia. apply Htk. lia.
Qed.
End token.

#[export] Instance is_sep_dec set x : Decision (is_sep set x).
Proof. unfold is_sep. apply _. Defined.
#[export] Instance no_sep_dec set x : Decision (no_sep set x).
Proof. unfold no_sep. apply _. Defined.

(** ** Properties *)

Lemma first_diff_str s1 s2 :
  bytes s1 -> bytes s2 -> Forall (fun c => c <> 0) s1 -> Forall (fun c => c <> 0) s2 ->
  first_diff (s1 ++ [0]) (s2 ++ [0]) = 0 <-> s1 = s2.
Proof.
  intros H1. revert s2. induction H1 as [|x s1 Hx H1 IH]; intros s2 H2 N1 N2.
  - destruct s2 as [|y s2]; [done|]. cbn.
    apply Forall_cons_iff in H2 as [Hy H2], N2 as [Ny N2].
    pose proof (s8_sub_0 0 y ltac:(zarith) Hy). rewrite (proj2 (Z.eqb_neq _ _)) by lia.
    split; [lia|done].
  - apply Forall_cons_iff in N1 as [Nx N1]. destruct s2 as [|y s2].
    { cbn. pose proof (s8_sub_0 x 0 Hx ltac:(zarith)). rewrite (proj2 (Z.eqb_neq _ _)) by lia.
      split; [lia|done]. }
    apply Forall_cons_iff in H2 as [Hy H2], N2 as [Ny N2]. cbn.
    pose proof (s8_sub_0 x y Hx Hy). destruct (Z.eqb_spec (s8 (x - y)) 0) as [E|E].
    + rewrite IH by done. split; [intros ->; f_equal; tauto|congruence].
    + split; [done|]. intros [= -> ->]. tauto.
Qed.

Lemma find_sub_spec s2 s1 :
  match find_sub s2 s1 with
  | Some i => (exists t, drop i s1 = s2 ++ t) /\
              (forall j t, (j < i)%nat -> drop j s1 <> s2 ++ t)
  | None => forall p t, s1 <> p ++ s2 ++ t
  end.
Proof.
  induction s1 as [|x s1 IH]; cbn [find_sub].
  - case_decide as E.
    + split; [|lia]. exists []. rewrite take_nil in E. subst. by rewrite app_nil_r.
    + intros p t Hp. symmetry in Hp. apply app_nil in Hp as [_ Hp].
      apply app_nil in Hp as [-> _]. by destruct E.
  - case_decide as E.
    + split; [|lia]. exists (drop (length s2) (x :: s1)). change (drop 0 (x :: s1)) with (x :: s1).
      rewrite <- (take_drop (length s2) (x :: s1)) at 1. by rewrite E.
    + assert (forall t, x :: s1 <> s2 ++ t) as Hno.
      { intros t Ht. apply E. rewrite Ht. apply take_app_length. }
      destruct (find_sub s2 s1) as [i|]; cbn [fmap option_fmap option_map].
      * destruct IH as [[t Ht] Hmin]. split; [by exists t|].
        intros [|j] t' Hj; cbn; [apply Hno|]. apply Hmin. lia.
      * intros [|y p] t Hp; [by apply (Hno t)|]. injection Hp as -> Hp. by apply (IH p t).
Qed.

Section properties.
Context {S : Type} `{!HasMem S}.

(** [strcat] leaves the concatenation of the two strings at [dest],
    returns [dest], and writes nothing but the copied string and its NUL. *)
Theorem strcat_correct d src s1 s2 (st : S) :
  cstr_at (mem_of st) d s1 -> cstr_at (mem_of st) src s2 ->
  Z.of_nat (length s1) < 2 ^ 32 -> Z.of_nat (length s2) < 2 ^ 32 ->
  mapped (mem_of st) d (Z.of_nat (length s1 + length s2) + 1) ->
  d + Z.of_nat (length s1) <= src \/ src + Z.of_nat (length s2) < d ->
  exists st', strcat d src st = Ok d st' /\ st' = with_mem (mem_of st') st /\
    cstr_at (mem_of st') d (s1 ++ s2) /\
    same_except (mem_of st) (mem_of st') (d + Z.of_nat (length s1)) (Z.of_nat (length s2) + 1).
Proof.
  intros H1 H2 L1 L2 Hd Hdis. exists (poke st (d + Z.of_nat (length s1)) (s2 ++ [0])).
  split; [by apply (strcat_ok _ _ s1 s2)|]. rewrite mem_of_poke. split; [done|]. split.
  - destruct H1 as [H1 N1], H2 as [H2 N2]. apply bytes_at_app in H1 as [H1 _].
    apply cstr_at_app. split; [|split; [done|]].
    + apply bytes_at_write_other; [lia|done].
    + split; [|done]. apply bytes_at_write. eapply bytes_at_bytes, H2.
  - intros b Hb. rewrite lookup_write_bytes, length_app. cbn [length]. by rewrite decide_False by lia.
Qed.

(** [strcmp] and [strncmp] return 0 exactly when the two strings (for
    [strncmp], their first [n] characters) are equal, and change nothing. *)
Theorem strcmp_correct cs ct s1 s2 n (st : S) :
  cstr_at (mem_of st) cs s1 -> cstr_at (mem_of st) ct s2 ->
  Z.of_nat (length s1) < 2 ^ 32 -> 0 <= n < 2 ^ 32 ->
  (exists r, strcmp cs ct st = Ok r st /\ (r = 0 <-> s1 = s2)) /\
  (exists r, strncmp cs ct n st = Ok r st /\
     (r = 0 <-> take (Z.to_nat n) s1 = take (Z.to_nat n) s2)).
Proof.
  intros H1 H2 L1 Hn.
  assert (H1' := H1). assert (H2' := H2). destruct H1' as [B1 N1], H2' as [B2 N2].
  apply bytes_at_bytes, Forall_app in B1 as [B1 _], B2 as [B2 _].
  split; [exists (first_diff (s1 ++ [0]) (s2 ++ [0])); split;
    [by apply strcmp_ok|by apply first_diff_str]|].
  eexists. split; [by apply strncmp_ok|].
  assert (forall m, first_diff (take m (s1 ++ [0])) (take m (s2 ++ [0])) = 0 <-> take m s1 = take m s2)
    as Hg; [|apply Hg].
  clear H1 H2 L1 Hn. revert s2 B2 N2. induction B1 as [|x s1 Hx B1 IH]; intros s2 B2 N2 m.
  - destruct m as [|m]; [done|]. destruct s2 as [|y s2]; [cbn; destruct m; done|].
    apply Forall_cons_iff in B2 as [Hy B2], N2 as [Ny N2]. cbn.
    pose proof (s8_sub_0 0 y ltac:(zarith) Hy). rewrite (proj2 (Z.eqb_neq _ _)) by lia.
    split; [lia|done].
  - apply Forall_cons_iff in N1 as [Nx N1]. destruct m as [|m]; [done|]. destruct s2 as [|y s2].
    { cbn. pose proof (s8_sub_0 x 0 Hx ltac:(zarith)). rewrite (proj2 (Z.eqb_neq _ _)) by lia.
      split; [lia|done]. }
    apply Forall_cons_iff in B2 as [Hy B2], N2 as [Ny N2]. cbn.
    pose proof (s8_sub_0 x y Hx Hy). destruct (Z.eqb_spec (s8 (x - y)) 0) as [E|E].
    + rewrite IH by done. split; [intros ->; f_equal; tauto|congruence].
    + split; [done|]. intros Heq. injection Heq as -> _. tauto.
Qed.

(** [strncpy] of a source of at least [n] characters writes its first [n];
    of a shorter source it writes the string, zeros up to [n], and one zero
    more: the byte at [dest + n] is overwritten. *)
Theorem strncpy_writes d src s n (st : S) :
  cstr_at (mem_of st) src s -> 0 <= n < 2 ^ 32 ->
  mapped (mem_of st) d (n + 1) ->
  d <= src \/ src + Z.of_nat (length s) < d ->
  exists st', strncpy d src n st = Ok d st' /\
    (n <= Z.of_nat (length s) ->
       bytes_at (mem_of st') d (take (Z.to_nat n) s) /\
       same_except (mem_of st) (mem_of st') d n) /\
    (Z.of_nat (length s) < n ->
       cstr_at (mem_of st') d s /\
       (forall a, d + Z.of_nat (length s) <= a <= d + n -> mem_of st' !! a = Some 0) /\
       same_except (mem_of st) (mem_of st') d (n + 1)).
Proof.
  intros Hs Hn Hd Hfwd. exists (poke st d (strncpy_bytes s n)).
  assert (Hl : Z.of_nat (length (strncpy_bytes s n)) <= n + 1).
  { unfold strncpy_bytes. case_decide; rewrite ?length_app, ?length_replicate, ?length_take;
      cbn [length]; lia. }
  split. { apply strncpy_ok; [done|done| |done]. eapply mapped_sub; [exact Hd|lia..]. }
  destruct Hs as [Hb Hnz]. apply bytes_at_bytes, Forall_app in Hb as [Hb H0].
  rewrite mem_of_poke. unfold strncpy_bytes. split; intros Hlen.
  - rewrite decide_False by lia. split; [by apply bytes_at_write, Forall_take|].
    intros b Hnb. rewrite lookup_write_bytes, length_take, decide_False by lia. done.
  - rewrite decide_True by lia. split; [|split].
    + split; [|done]. assert (bytes_at (write_bytes (mem_of st) d ((s ++ [0]) ++
        replicate (Z.to_nat (n - Z.of_nat (length s))) 0)) d ((s ++ [0]) ++
        replicate (Z.to_nat (n - Z.of_nat (length s))) 0)) as Hw.
      { apply bytes_at_write. apply Forall_app. split; [by apply Forall_app|].
        apply Forall_replicate. zarith. }
      by apply bytes_at_app in Hw as [].
    + intros a Ha. rewrite lookup_write_bytes, !length_app, length_replicate. cbn [length].
      rewrite decide_True by lia. rewrite <- app_assoc, lookup_app_r by lia.
      change ([0] ++ replicate ?k 0) with (replicate (Datatypes.S k) 0).
      apply lookup_replicate. split; [done|lia].
    + intros b Hnb. rewrite lookup_write_bytes, !length_app, length_replicate. cbn [length].
      by rewrite decide_False by lia.
Qed.

(** [strstr] returns the address of the first occurrence of the second
    string in the first, and [NULL] exactly when there is none. *)
Theorem strstr_correct a b s1 s2 (st : S) :
  cstr_at (mem_of st) a s1 -> cstr_at (mem_of st) b s2 -> 0 < a ->
  Z.of_nat (length s1) < 2 ^ 31 -> Z.of_nat (length s2) < 2 ^ 31 ->
  (exists i : nat, strstr a b st = Ok (a + Z.of_nat i) st /\
     (exists t, drop i s1 = s2 ++ t) /\ (forall j t, (j < i)%nat -> drop j s1 <> s2 ++ t)) \/
  (strstr a b st = Ok 0 st /\ forall p t, s1 <> p ++ s2 ++ t).
Proof.
  intros H1 H2 Ha L1 L2. rewrite (strstr_ok a b s1 s2) by done.
  pose proof (find_sub_spec s2 s1) as Hf.
  destruct (find_sub s2 s1) as [i|]; [left; exists i | right]; done.
Qed.

(** Calling [strtok] with a string and then with [NULL] until it answers
    [NULL] yields, in order, the addresses of the maximal separator-free pieces
    of the string; each is NUL-terminated in the final memory, and nothing
    outside the string is written. *)
Theorem strtok_tokens ct set p str toks saved (st : S) :
  splits set p str toks -> 0 < p ->
  cstr_at (mem_of st) p str -> cstr_at (mem_of st) ct set ->
  ct + Z.of_nat (length set) < p \/ p + Z.of_nat (length str) < ct ->
  Z.of_nat (length str) < 2 ^ 32 -> Z.of_nat (length set) < 2 ^ 32 ->
  exists st', strtok_all ct p (st, saved) = Ok toks.*1 (st', 0) /\
    Forall (fun '(a, tok) => cstr_at (mem_of st') a tok) toks /\
    same_except (mem_of st) (mem_of st') p (Z.of_nat (length str)).
Proof.
  intros Hsp Hp Hs Hct Hdis Hl1 Hl2.
  destruct (strtok_all_runs ct set p str toks p saved [] st Hsp (or_introl eq_refl)
    Hp Hs Hct Hdis Hl1 Hl2) as (k & st' & Hk & Hr & Hex & Hall).
  exists st'. split; [|done]. apply (loop_runs _ k); [exact Hr|lia].
Qed.
End properties.

(** "foo" at 0x100, "ba," at 0x200, "foo,,ba" at 0x300, "," at 0x400. *)
Definition ex_mem : mem :=
  write_bytes (write_bytes (write_bytes (mem_lit 0x100 ([102; 111; 111; 0] ++ replicate 12 7))
    0x200 [98; 97; 44; 0]) 0x300 [102; 111; 111; 44; 44; 98; 97; 0]) 0x400 [44; 0].

Lemma strcat_correct_witness :
  exists st', strcat (S:=mem) 0x100 0x200 ex_mem = Ok 0x100 st' /\ st' = with_mem (mem_of st') ex_mem /\
    cstr_at (mem_of st') 0x100 ([102; 111; 111] ++ [98; 97; 44]) /\
    same_except (mem_of ex_mem) (mem_of st') (0x100 + Z.of_nat (length [102; 111; 111]))
      (Z.of_nat (length [98; 97; 44]) + 1).
Proof. apply strcat_correct; [by_decide|by_decide|cbn; lia|cbn; lia|by_decide|cbn; lia]. Defined.

Lemma strcmp_correct_witness :
  (exists r, strcmp (S:=mem) 0x100 0x300 ex_mem = Ok r ex_mem /\
     (r = 0 <-> [102; 111; 111] = [102; 111; 111; 44; 44; 98; 97])) /\
  (exists r, strncmp (S:=mem) 0x100 0x300 3 ex_mem = Ok r ex_mem /\
     (r = 0 <-> take (Z.to_nat 3) [102; 111; 111] = take (Z.to_nat 3) [102; 111; 111; 44; 44; 98; 97])).
Proof. apply strcmp_correct; [by_decide|by_decide|cbn; lia|lia]. Defined.

Lemma strncpy_writes_witness :
  exists st', strncpy (S:=mem) 0x104 0x200 5 ex_mem = Ok 0x104 st' /\
    (5 <= Z.of_nat (length [98; 97; 44]) ->
       bytes_at (mem_of st') 0x104 (take (Z.to_nat 5) [98; 97; 44]) /\
       same_except (mem_of ex_mem) (mem_of st') 0x104 5) /\
    (Z.of_nat (length [98; 97; 44]) < 5 ->
       cstr_at (mem_of st') 0x104 [98; 97; 44] /\
       (forall a, 0x104 + Z.of_nat (length [98; 97; 44]) <= a <= 0x104 + 5 -> mem_of st' !! a = Some 0) /\
       same_except (mem_of ex_mem) (mem_of st') 0x104 (5 + 1)).
Proof. apply strncpy_writes; [by_decide|lia|by_decide|cbn; lia]. Defined.

Lemma strstr_correct_witness :
  (exists i : nat, strstr (S:=mem) 0x300 0x400 ex_mem = Ok (0x300 + Z.of_nat i) ex_mem /\
     (exists t, drop i [102; 111; 111; 44; 44; 98; 97] = [44] ++ t) /\
     (forall j t, (j < i)%nat -> drop j [102; 111; 111; 44; 44; 98; 97] <> [44] ++ t)) \/
  (strstr (S:=mem) 0x300 0x400 ex_mem = Ok 0 ex_mem /\
   forall p t, [102; 111; 111; 44; 44; 98; 97] <> p ++ [44] ++ t).
Proof. apply strstr_correct; [by_decide|by_decide|lia|cbn; lia|cbn; lia]. Defined.

Lemma strtok_tokens_witness :
  exists st', strtok_all (S:=mem) 0x400 0x300 (ex_mem, 0) =
      Ok [(0x300, [102; 111; 111]); (0x305, [98; 97])].*1 (st', 0) /\
    Forall (fun '(a, tok) => cstr_at (mem_of st') a tok) [(0x300, [102; 111; 111]); (0x305, [98; 97])] /\
    same_except (mem_of ex_mem) (mem_of st') 0x300
      (Z.of_nat (length [102; 111; 111; 44; 44; 98; 97])).
Proof.
  apply (strtok_tokens 0x400 [44]); [|lia|by_decide|by_decide|cbn; lia|cbn; lia|cbn; lia].
  apply (splits_next [44] 0x300 [] [102; 111; 111] 44 [44; 98; 97]);
    [by_decide|by_decide|done|reflexivity|].
  apply (splits_last [44] 0x304 [44] [98; 97]); [by_decide|by_decide|done].
Defined.

(** [strrchr (s, 0)] answers the start of the string, not its end. *)
Example strrchr_nul : strrchr (S:=mem) 0x100 0 ex_mem = Ok 0x100 ex_mem.
Proof. vm_compute. reflexivity. Qed.
