(* ===== verification/Uart.v ===== *)
(** * Debug console: the LiteX UART (hw/src/debug-io.c)

    The transmitter holds one byte: it is full for some polls after a write and
    a byte written while it is full is lost.  How long it stays full is up to
    the hardware, so [u_stalls] is an arbitrary list: its head is the number of
    polls (a 32-bit count) for which [TXFULL] still reads as one, and each
    write starts the next entry.  [HasUart] is what a component whose state
    contains the console offers; [xputc_ok] and [xputs_ok] are what the console
    promises it: whatever the stalls, exactly the bytes asked for leave the
    machine, in order, with a carriage return before every newline. *)

From S2P Require Import Prelude Monad Mem LibcStr.

Record uart := { u_stalls : list Z; u_out : list Z }.

Class HasUart (S : Type) := {
  uart_of : S -> uart;
  with_uart : uart -> S -> S;
  uart_of_with u s : uart_of (with_uart u s) = u;
  with_uart_with u u' s : with_uart u (with_uart u' s) = with_uart u s;
  with_uart_of s : with_uart (uart_of s) s = s;
}.

#[export] Instance uart_HasUart : HasUart uart :=
  {| uart_of := id; with_uart := fun u _ => u;
     uart_of_with := fun _ _ => eq_refl; with_uart_with := fun _ _ _ => eq_refl;
     with_uart_of := fun _ => eq_refl |}.

(** A local variable next to a state with a console. *)
#[export] Program Instance snd_HasUart {T S} `{HasUart S} : HasUart (T * S) :=
  {| uart_of s := uart_of s.2; with_uart u s := (s.1, with_uart u s.2) |}.
Next Obligation. intros. cbn. apply uart_of_with. Qed.
Next Obligation. intros. cbn. by rewrite with_uart_with. Qed.
Next Obligation. intros T S H [t s]. cbn. by rewrite with_uart_of. Qed.

(** Polls for which the transmitter is still full. *)
Definition u_wait (u : uart) : Z := u32 (hd 0 (u_stalls u)).

(** What sending [l] does to the device. *)
Definition sent (l : list Z) (u : uart) : uart :=
  {| u_stalls := drop (length l) (u_stalls u); u_out := u_out u ++ l |}.

Definition emit {S} `{HasUart S} (l : list Z) (s : S) : S := with_uart (sent l (uart_of s)) s.

Section code.
Context {S : Type} `{!HasUart S}.

(* src/hw/src/debug-io.c:11-11 uart_rd *)
Definition uart_rd_TXFULL : M S Z := fun s =>
  let u := uart_of s in
  if 0 <? u_wait u then
    Ok 1 (with_uart {| u_stalls := (u_wait u - 1) :: tl (u_stalls u); u_out := u_out u |} s)
  else Ok 0 s.

(* src/hw/src/debug-io.c:12-12 uart_wr *)
Definition uart_wr_TX (v : Z) : M S unit := fun s =>
  let u := uart_of s in
  if 0 <? u_wait u then Ok tt s (* overrun: the byte is lost *)
  else Ok tt (with_uart (sent [u8 v] u) s).

(* src/hw/src/debug-io.c:16-16 xputc *)
Definition uart_drain : M S unit :=
  loop (fun _ : unit =>
    full <- uart_rd_TXFULL ;;
    if negb (full =? 0) then ret (inl tt) else ret (inr tt)) tt.

(* src/hw/src/debug-io.c:14-21 *)
Definition xputc (c : Z) : M S unit :=
  (if c =? 10 then uart_drain ;; uart_wr_TX 13 else ret tt) ;;
  uart_drain ;;
  uart_wr_TX c.

(* src/hw/src/debug-io.c:23-27 *)
Definition xputs `{!HasMem S} (s : Z) : M S unit :=
  loop (fun s =>
    c <- load8 s ;;
    if negb (c =? 0) then xputc c ;; ret (inl (s + 1)) else ret (inr tt)) s.

(* src/hw/src/debug-io.c:29-31 *)
Definition xgetc : M S Z := ret (-1).
End code.

(** The bytes one character puts on the wire. *)
Definition wire1 (c : Z) : list Z := if c =? 10 then [13; 10] else [u8 c].
Definition wire (l : list Z) : list Z := concat (map wire1 l).

Lemma wire_app l1 l2 : wire (l1 ++ l2) = wire l1 ++ wire l2.
Proof. unfold wire. by rewrite map_app, concat_app. Qed.

Section facts.
Context {S : Type} `{!HasUart S}.

Lemma sent_sent l1 l2 u : sent l2 (sent l1 u) = sent (l1 ++ l2) u.
Proof. unfold sent. cbn. by rewrite drop_drop, length_app, <- app_assoc. Qed.

Lemma emit_emit l1 l2 (s : S) : emit l2 (emit l1 s) = emit (l1 ++ l2) s.
Proof. unfold emit. by rewrite uart_of_with, with_uart_with, sent_sent. Qed.

Lemma emit_nil (s : S) : emit [] s = s.
Proof.
  unfold emit, sent. cbn. rewrite app_nil_r. rewrite drop_0.
  destruct (uart_of s) as [st out] eqn:E. cbn. rewrite <- E. apply with_uart_of.
Qed.

Lemma uart_of_emit l (s : S) : uart_of (emit l s) = sent l (uart_of s).
Proof. apply uart_of_with. Qed.

(** The transmitter of [s], no longer full. *)
Definition drained (s : S) : S :=
  let u := uart_of s in
  if decide (u_wait u = 0) then s
  else with_uart {| u_stalls := 0 :: tl (u_stalls u); u_out := u_out u |} s.

Lemma uart_drain_ok (s : S) : uart_drain s = Ok tt (drained s).
Proof.
  unfold uart_drain.
  assert (0 <= u_wait (uart_of s) < 0x100000000) as Hw by apply u32_range.
  apply (loop_runs _ (Z.to_nat (u_wait (uart_of s)))); [|lia].
  name_body body. remember (Z.to_nat (u_wait (uart_of s))) as k eqn:Hk.
  revert s Hw Hk. induction k as [|k IH]; intros s Hw Hk.
  - assert (u_wait (uart_of s) = 0) as E by lia. unfold drained. rewrite decide_True by done.
    apply runs_done. unfold body, bind, uart_rd_TXFULL. by rewrite E.
  - assert (0 < u_wait (uart_of s)) as E by lia.
    set (s' := with_uart {| u_stalls := (u_wait (uart_of s) - 1) :: tl (u_stalls (uart_of s));
                            u_out := u_out (uart_of s) |} s).
    assert (u_wait (uart_of s') = u_wait (uart_of s) - 1) as E'.
    { unfold s'. rewrite uart_of_with. unfold u_wait at 1. cbn [u_stalls hd]. apply u32_small. unfold is_u32. lia. }
    assert (drained s = drained s') as ->.
    { unfold drained. rewrite E', decide_False by lia. case_decide.
      - unfold s'. by rewrite H.
      - unfold s'. by rewrite with_uart_with, uart_of_with. }
    eapply runs_step; [|apply IH; lia].
    unfold body, bind, uart_rd_TXFULL. rewrite (proj2 (Z.ltb_lt _ _) E). done.
Qed.

Lemma uart_wr_drained v (s : S) : uart_wr_TX v (drained s) = Ok tt (emit [u8 v] s).
Proof.
  unfold uart_wr_TX, drained, emit. case_decide as E.
  - by rewrite E.
  - rewrite uart_of_with. unfold u_wait at 1. cbn [u_stalls hd]. cbn [Z.ltb Z.compare].
    rewrite with_uart_with. unfold sent. cbn. by destruct (u_stalls (uart_of s)).
Qed.

Lemma xputc_ok c (s : S) : xputc c s = Ok tt (emit (wire1 c) s).
Proof.
  unfold xputc, wire1. destruct (Z.eqb_spec c 10) as [->|].
  - rewrite bind_assoc. step (uart_drain_ok s). step (uart_wr_drained 13 s).
    step (uart_drain_ok (emit [u8 13] s)). rewrite uart_wr_drained, emit_emit. done.
  - rewrite bind_ret. step (uart_drain_ok s). by rewrite uart_wr_drained.
Qed.
End facts.

(** The console and the memory are different parts of the state. *)
Class MemUart (S : Type) `{HasMem S} `{HasUart S} :=
  mem_of_with_uart u (s : S) : mem_of (with_uart u s) = mem_of s.

#[export] Instance prod_MemUart {T S} `{HasMem T} `{HasUart S} : MemUart (T * S).
Proof. intros u s. done. Qed.

Section strings.
Context {S : Type} `{!HasMem S} `{!HasUart S} `{!MemUart S}.

Lemma mem_of_emit l (s : S) : mem_of (emit l s) = mem_of s.
Proof. apply mem_of_with_uart. Qed.

Lemma xputs_ok a l (s : S) :
  cstr_at (mem_of s) a l -> Z.of_nat (length l) < 2 ^ 32 ->
  xputs a s = Ok tt (emit (wire l) s).
Proof.
  intros Hs Hl. unfold xputs. apply (loop_runs _ (length l)); [|lia].
  clear Hl. revert a s Hs. induction l as [|c l IH]; intros a s Hs; cbn [length].
  - rewrite emit_nil. apply runs_done.
    step (load8_hd a [] s Hs). done.
  - pose proof (proj1 (cstr_at_cons _ _ _ _) Hs) as (_ & Hc & _ & Hs').
    eapply runs_step.
    + step (load8_hd a (c :: l) s Hs). cbn [hd]. rewrite (proj2 (Z.eqb_neq _ _) Hc). cbn [negb].
      step (xputc_ok c s). done.
    + change (wire (c :: l)) with (wire1 c ++ wire l). rewrite <- emit_emit. apply IH.
      by rewrite mem_of_emit.
Qed.
End strings.

(** [xputs] of a C string of any length below 2^32 returns, whatever the
    transmitter's stalls, with exactly the string's bytes appended to what the
    UART has sent (a carriage return before every newline), no byte lost to an
    overrun, and the memory unchanged. *)
Theorem xputs_sends {S} `{MemUart S} a l (s : S) :
  cstr_at (mem_of s) a l -> Z.of_nat (length l) < 2 ^ 32 ->
  exists s', xputs a s = Ok tt s' /\
    u_out (uart_of s') = u_out (uart_of s) ++ wire l /\ mem_of s' = mem_of s.
Proof.
  intros Hs Hl. eexists. split; [by apply xputs_ok|].
  by rewrite uart_of_emit, mem_of_emit.
Qed.

Lemma xputs_sends_witness :
  exists s', xputs 0x1000 (mem_lit 0x1000 [72; 10; 0], {| u_stalls := [3; 0; 7]; u_out := [1] |})
             = Ok tt s' /\
    u_out (uart_of s') = [1; 72; 13; 10] /\ mem_of s' = mem_lit 0x1000 [72; 10; 0].
Proof.
  destruct (xputs_sends 0x1000 [72; 10]
    (mem_lit 0x1000 [72; 10; 0], {| u_stalls := [3; 0; 7]; u_out := [1] |})) as (s' & E & O & Em).
  - by_decide.
  - done.
  - exists s'. split; [exact E|]. split; [exact O | exact Em].
Defined.

Lemma emit_wire_app {S} `{HasUart S} l1 l2 (s : S) : emit (wire (l1 ++ l2)) s = emit (wire l2) (emit (wire l1) s).
Proof. by rewrite wire_app, emit_emit. Qed.

(** A counting loop whose iterations only print. *)
Lemma loop_emits {S} `{HasUart S} (P : S -> Prop) (body : Z -> M S (Z + unit)) (txt : Z -> list Z) n :
  0 <= n < 2 ^ 33 ->
  (forall i s, 0 <= i < n -> P s -> body i s = Ok (inl (i + 1)) (emit (wire (txt i)) s) /\ P (emit (wire (txt i)) s)) ->
  (forall s, P s -> body n s = Ok (inr tt) s) ->
  forall s, P s -> loop body 0 s = Ok tt (emit (wire (concat (map txt (seqZ 0 n)))) s).
Proof.
  intros Hn Hb Hend s Hs. apply (loop_runs body (Z.to_nat n)); [|lia].
  assert (forall k i s, 0 <= i -> i + Z.of_nat k = n -> P s ->
    runs body k i s (Ok tt (emit (wire (concat (map txt (seqZ i (n - i))))) s))) as H';
    [|specialize (H' (Z.to_nat n) 0 s ltac:(lia) ltac:(lia) Hs); by rewrite Z.sub_0_r in H'].
  clear s Hs. induction k as [|k IH]; intros i s Hi Hk Hs.
  - replace (n - i) with 0 by lia. cbn. rewrite emit_nil. apply runs_done. replace i with n by lia. by apply Hend.
  - destruct (Hb i s ltac:(lia) Hs) as [E Hs']. eapply runs_step; [exact E|].
    rewrite (seqZ_cons i (n - i)) by lia. cbn [map concat]. rewrite wire_app, <- emit_emit.
    replace (Z.pred (n - i)) with (n - (i + 1)) by lia. change (Z.succ i) with (i + 1). apply IH; [lia|lia|done].
Qed.
