(* ===== verification/Printf.v ===== *)
(** * libc: formatted output (libc/src/printf.c, hw/src/debug-printf.c)

    Built without [WITH_PRINTF_FP] and [WITH_PRINTF_LL], as the project's
    makefiles build it: [x_ull_t] is the 32-bit [unsigned long] and the floating
    point conversions are not compiled.

    A format string is the list of its bytes; reading past its end reads the
    terminating NUL.  A variadic argument is a register-sized value, a 64-bit
    value or a character pointer ([None] for the null pointer).  Fetching an
    argument of the wrong kind, or one that was not passed, is a [Fault].  The
    output function is a parameter of the engine, as in C.

    The specification is [render]: a format built from literals and directives
    is rendered directive by directive by [render_directive], which says what
    each conversion means ([digits] are the digits of a number in a base,
    [justify] the padding) without the engine's flags, buffers and loops. *)

From S2P Require Import Prelude Monad Mem LibcStr Uart.

Inductive va : Type :=
| VaWord (z : Z)
| VaLongLong (z : Z)
| VaStr (s : option (list Z)).

Definition LONGFLAG := 0x00000001.
Definition LONGLONGFLAG := 0x00000002.
Definition HALFFLAG := 0x00000004.
Definition HALFHALFFLAG := 0x00000008.
Definition SIZETFLAG := 0x00000010.
Definition INTMAXFLAG := 0x00000020.
Definition PTRDIFFFLAG := 0x00000040.
Definition ALTFLAG := 0x00000080.
Definition CAPSFLAG := 0x00000100.
Definition SHOWSIGNFLAG := 0x00000200.
Definition SIGNEDFLAG := 0x00000400.
Definition LEFTFORMATFLAG := 0x00000800.
Definition LEADZEROFLAG := 0x00001000.
Definition BLANKPOSFLAG := 0x00002000.

(** The bytes of a C string up to its NUL. *)
Fixpoint until_nul (l : list Z) : list Z :=
  match l with
  | [] => []
  | c :: l' => if c =? 0 then [] else c :: until_nul l'
  end.

Section numbers.
Context {S : Type}.

(** [buf[--pos] = c]: the buffer is its part from [pos] on. *)
Definition push (pos c : Z) (l : list Z) : M S (Z * list Z) :=
  if 0 <? pos then ret (pos - 1, u8 c :: l) else fault.

(* src/libc/src/printf.c:114-145 *)
Definition longlong_to_string (n len flag : Z) : M S (list Z * Z) :=
  let pos := len in
  let negative := has SIGNEDFLAG flag && (s32 n <? 0) in
  let n := if negative then u32 (- n) else n in
  let* (pos, buf) := push pos 0 [] in
  let* (n, pos, buf) := loop (fun '(n, pos, buf) =>
    if n >=? 10 then
      let digit := n mod 10 in
      let n := n / 10 in
      let* (pos, buf) := push pos (digit + 48) buf in
      ret (inl (n, pos, buf))
    else ret (inr (n, pos, buf))) (n, pos, buf) in
  let* (pos, buf) := push pos (n + 48) buf in
  let signchar :=
    if negative then 45
    else if has SHOWSIGNFLAG flag then 43
    else if has BLANKPOSFLAG flag then 32
    else 0 in
  ret (buf, signchar).

(* src/libc/src/printf.c:147-147 *)
Definition hextable : list Z := str "0123456789abcdef".
(* src/libc/src/printf.c:148-148 *)
Definition hextable_caps : list Z := str "0123456789ABCDEF".

(* src/libc/src/printf.c:150-163 *)
Definition longlong_to_hexstring (u len flag : Z) : M S (list Z) :=
  let pos := len in
  let table := if has CAPSFLAG flag then hextable_caps else hextable in
  let* (pos, buf) := push pos 0 [] in
  loop (fun '(u, pos, buf) =>
    let digit := u mod 16 in
    let u := u / 16 in
    let* (pos, buf) := push pos (nth (Z.to_nat digit) table 0) buf in
    if negb (u =? 0) then ret (inl (u, pos, buf)) else ret (inr buf)) (u, pos, buf).

(** The promoted argument of an integer conversion: a word for every length
    but [ll] and [j]. *)
Definition va_word (ap : list va) : M S (Z * list va) :=
  match ap with VaWord z :: ap' => ret (z, ap') | _ => fault end.
Definition va_longlong (ap : list va) : M S (Z * list va) :=
  match ap with VaLongLong z :: ap' => ret (z, ap') | _ => fault end.
Definition va_str (ap : list va) : M S (option (list Z) * list va) :=
  match ap with VaStr s :: ap' => ret (s, ap') | _ => fault end.

(* src/libc/src/printf.c:493-500 *)
Definition va_signed (flags : Z) (ap : list va) : M S (Z * list va) :=
  if has LONGLONGFLAG flags then let* (z, ap) := va_longlong ap in ret (u32 z, ap)
  else
    if negb (has LONGFLAG flags) && negb (has HALFHALFFLAG flags) && negb (has HALFFLAG flags)
       && has INTMAXFLAG flags
    then let* (z, ap) := va_longlong ap in ret (u32 z, ap)
    else
      let* (z, ap) := va_word ap in
      ret (u32 (if has LONGFLAG flags then s32 z
                else if has HALFHALFFLAG flags then s8 z
                else if has HALFFLAG flags then s16 z
                else s32 z), ap).

(* src/libc/src/printf.c:505-512 *)
Definition va_unsigned (flags : Z) (ap : list va) : M S (Z * list va) :=
  if has LONGLONGFLAG flags then let* (z, ap) := va_longlong ap in ret (u32 z, ap)
  else
    if negb (has LONGFLAG flags) && negb (has HALFHALFFLAG flags) && negb (has HALFFLAG flags)
       && negb (has SIZETFLAG flags) && has INTMAXFLAG flags
    then let* (z, ap) := va_longlong ap in ret (u32 z, ap)
    else
      let* (z, ap) := va_word ap in
      ret (if has LONGFLAG flags then u32 z
           else if has HALFHALFFLAG flags then u8 z
           else if has HALFFLAG flags then u16 z
           else u32 z, ap).
End numbers.

(* src/libc/src/printf.c:418-422 _printf_engine *)
Fixpoint scan_literal (fmt : list Z) : list Z * Z * list Z :=
  match fmt with
  | [] => ([], 0, [])
  | c :: fmt' =>
    if c =? 0 then ([], 0, fmt')
    else if c =? 37 then ([], 37, fmt')
    else let '(lit, c', rest) := scan_literal fmt' in (c :: lit, c', rest)
  end.

(* src/libc/src/printf.c:431-490 _printf_engine *)
Fixpoint next_format (fmt : list Z) (flags format_num : Z) : Z * list Z * Z * Z :=
  match fmt with
  | [] => (0, [], flags, format_num)
  | c :: fmt' =>
    if (48 <=? c) && (c <=? 57) then
      let flags := if (c =? 48) && (format_num =? 0) then Z.lor flags LEADZEROFLAG else flags in
      next_format fmt' flags (u32 (u32 (format_num * 10) + (c - 48)))
    else if c =? 46 then next_format fmt' flags format_num
    else if c =? 45 then next_format fmt' (Z.lor flags LEFTFORMATFLAG) format_num
    else if c =? 43 then next_format fmt' (Z.lor flags SHOWSIGNFLAG) format_num
    else if c =? 32 then next_format fmt' (Z.lor flags BLANKPOSFLAG) format_num
    else if c =? 35 then next_format fmt' (Z.lor flags ALTFLAG) format_num
    else if c =? 108 then
      let flags := if has LONGFLAG flags then Z.lor flags LONGLONGFLAG else flags in
      next_format fmt' (Z.lor flags LONGFLAG) format_num
    else if c =? 104 then
      let flags := if has HALFFLAG flags then Z.lor flags HALFHALFFLAG else flags in
      next_format fmt' (Z.lor flags HALFFLAG) format_num
    else if c =? 122 then next_format fmt' (Z.lor flags SIZETFLAG) format_num
    else if c =? 106 then next_format fmt' (Z.lor flags INTMAXFLAG) format_num
    else if c =? 116 then next_format fmt' (Z.lor flags PTRDIFFFLAG) format_num
    else (c, fmt', flags, format_num)
  end.

Section engine.
Context {S : Type} `{!HasMem S} (out : list Z -> M S Z).

(** [OUTPUT_STRING]: an error of the output function leaves the engine with
    that error ([inr]); otherwise go on with [err] and the new count. *)
(* src/libc/src/printf.c:406-406 OUTPUT_STRING *)
Definition OUTPUT_STRING {X} (l : list Z) (cw : Z) (k : Z -> Z -> M S (X + Z)) : M S (X + Z) :=
  err <- out l ;;
  if err <? 0 then ret (inr err) else k err (u32 (cw + err)).

(* src/libc/src/printf.c:407-407 OUTPUT_CHAR *)
Definition OUTPUT_CHAR {X} (c cw : Z) (k : Z -> M S (X + Z)) : M S (X + Z) :=
  OUTPUT_STRING [c] cw (fun _ => k).

(** [for (; format_num > lim; format_num--) OUTPUT_CHAR(c);] *)
(* src/libc/src/printf.c:604-605 _printf_engine *)
Definition pad {X} (c lim format_num cw : Z) (k : Z -> M S (X + Z)) : M S (X + Z) :=
  r <- loop (fun '(format_num, cw) =>
         if format_num >? lim then
           r <- OUTPUT_CHAR c cw (fun cw => ret (inl cw)) ;;
           match r with
           | inl cw => ret (inl (format_num - 1, cw))
           | inr err => ret (inr (inr err))
           end
         else ret (inr (inl cw))) (format_num, cw) ;;
  match r with inl cw => k cw | inr err => ret (inr err) end.

(* src/libc/src/printf.c:580-613 _output_string *)
Definition output_string {X} (s : list Z) (flags format_num signchar cw : Z)
    (k : Z -> M S (X + Z)) : M S (X + Z) :=
  let s := until_nul s in
  let string_len := Z.of_nat (length s) in
  if has LEFTFORMATFLAG flags then
    OUTPUT_STRING s cw (fun err cw => pad 32 err format_num cw k)
  else
    let format_num := if negb (signchar =? 0) && (format_num >? 0) then format_num - 1 else format_num in
    let sign (b : bool) cw k := if b && negb (signchar =? 0) then OUTPUT_CHAR signchar cw k else k cw in
    sign (has LEADZEROFLAG flags) cw (fun cw =>
    pad (if has LEADZEROFLAG flags then 48 else 32) string_len format_num cw (fun cw =>
    sign (negb (has LEADZEROFLAG flags)) cw (fun cw =>
    OUTPUT_STRING s cw (fun _ cw => k cw)))).

(* src/libc/src/printf.c:538-550 _printf_engine *)
Definition store_count (flags ptr cw : Z) : M S unit :=
  if has LONGLONGFLAG flags then store_le 8 ptr cw
  else if has LONGFLAG flags then store32 ptr cw
  else if has HALFHALFFLAG flags then store8 ptr cw
  else if has HALFFLAG flags then store16 ptr cw
  else store32 ptr cw.

(* src/libc/src/printf.c:521-536 _printf_engine *)
Definition convert_hex {X} (flags format_num cw : Z) (ap : list va)
    (k : list va -> Z -> M S (X + Z)) : M S (X + Z) :=
  let* (n, ap) := va_unsigned flags ap in
  s <- longlong_to_hexstring n 32 flags ;;
  if has ALTFLAG flags then
    OUTPUT_CHAR 48 cw (fun cw =>
    OUTPUT_CHAR (if has CAPSFLAG flags then 88 else 120) cw (fun cw =>
    output_string s flags format_num 0 cw (k ap)))
  else output_string s flags format_num 0 cw (k ap).

(* src/libc/src/printf.c:437-577 _printf_engine *)
Definition convert (c flags format_num cw : Z) (ap : list va) (fmt : list Z)
    : M S ((list Z * list va * Z) + Z) :=
  let continue ap cw := ret (inl (fmt, ap, cw)) in
  let hex flags := convert_hex flags format_num cw ap continue in
  if c =? 37 then OUTPUT_CHAR 37 cw (continue ap)
  else if c =? 99 then
    let* (uc, ap) := va_word ap in
    OUTPUT_CHAR (u8 uc) cw (continue ap)
  else if c =? 115 then
    let* (s, ap) := va_str ap in
    let s := match s with Some s => s | None => str "<null>" end in
    output_string s (Z.land flags (Z.lnot LEADZEROFLAG)) format_num 0 cw (continue ap)
  else if (c =? 105) || (c =? 100) then
    let* (n, ap) := va_signed flags ap in
    let flags := Z.lor flags SIGNEDFLAG in
    let* (s, signchar) := longlong_to_string n 32 flags in
    output_string s flags format_num signchar cw (continue ap)
  else if c =? 117 then
    let* (n, ap) := va_unsigned flags ap in
    let* (s, signchar) := longlong_to_string n 32 flags in
    output_string s flags format_num signchar cw (continue ap)
  else if c =? 112 then hex (Z.lor flags (Z.lor LONGFLAG ALTFLAG))
  else if c =? 88 then hex (Z.lor flags CAPSFLAG)
  else if c =? 120 then hex flags
  else if c =? 110 then
    let* (ptr, ap) := va_word ap in
    store_count flags ptr cw ;;
    continue ap cw
  else
    OUTPUT_CHAR 37 cw (fun cw => OUTPUT_CHAR c cw (continue ap)).

(** One turn of [for (;;)]; [inr] is what [exit:] returns. *)
(* src/libc/src/printf.c:409-436 _printf_engine *)
Definition engine_turn : list Z * list va * Z -> M S ((list Z * list va * Z) + Z) :=
  fun '(fmt, ap, cw) =>
    let '(lit, c, fmt) := scan_literal fmt in
    OUTPUT_STRING lit cw (fun _ cw =>
      if c =? 0 then ret (inr (s32 cw))
      else
        let '(c, fmt, flags, format_num) := next_format fmt 0 0 in
        if c =? 0 then ret (inr (s32 cw))
        else convert c flags format_num cw ap fmt).

(* src/libc/src/printf.c:392-622 *)
Definition _printf_engine (fmt : list Z) (ap : list va) : M S Z :=
  loop engine_turn (fmt, ap, 0).
End engine.

Section output.
Context {S : Type} `{!HasMem S}.

(* src/libc/src/printf.c:59-73 *)
Definition _vsnprintf_output (outstr len : Z) (l : list Z) : M (S * Z) Z :=
  let* (l, count) := loop (fun '(l, count) =>
    match l with
    | [] => ret (inr (l, count))
    | c :: l' =>
      pos <- gets snd ;;
      (if pos <? len then
         store8 (outstr + pos) c ;;
         modify (fun s => (s.1, pos + 1))
       else ret tt) ;;
      ret (inl (l', u32 (count + 1)))
    end) (l, 0) in
  ret (s32 count).

(* src/libc/src/printf.c:75-89 *)
Definition vsnprintf (s len : Z) (fmt : list Z) (ap : list va) : M S Z := fun st =>
  match (wlen <- _printf_engine (_vsnprintf_output s len) fmt ap ;;
         pos <- gets snd ;;
         (if pos >=? len then store8 (u32 (s + (len - 1))) 0 else store8 (s + wlen) 0) ;;
         ret wlen) (st, 0) with
  | Ok w st' => Ok w st'.1
  | Fault => Fault
  | Halt st' => Halt st'.1
  | NoFuel => NoFuel
  end.

(* src/libc/src/printf.c:38-47 *)
Definition snprintf (s len : Z) (fmt : list Z) (ap : list va) : M S Z := vsnprintf s len fmt ap.

Definition INT_MAX : Z := 0x7FFFFFFF.

(* src/libc/src/printf.c:49-51 *)
Definition vsprintf (s : Z) (fmt : list Z) (ap : list va) : M S Z := vsnprintf s INT_MAX fmt ap.

(* src/libc/src/printf.c:27-36 *)
Definition sprintf (s : Z) (fmt : list Z) (ap : list va) : M S Z := vsprintf s fmt ap.
End output.

(** [char msg[128]] is a local array: 128 bytes of memory of its own, next to
    the caller's state. *)
Definition msg : Z := 0x100.

(* src/hw/src/debug-printf.c:18-22 *)
Definition vxprintf {S} `{!HasUart S} (fmt : list Z) (ap : list va) : M S unit := fun s =>
  match (_ <- vsnprintf msg 128 fmt ap ;; xputs msg) (mem_lit msg (replicate 128 0), s) with
  | Ok _ s' => Ok tt s'.2
  | Fault => Fault
  | Halt s' => Halt s'.2
  | NoFuel => NoFuel
  end.

(* src/hw/src/debug-printf.c:9-16 *)
Definition xprintf {S} `{!HasUart S} (fmt : list Z) (ap : list va) : M S unit := vxprintf fmt ap.

Example xprintf_ex :
  xprintf (str "a %-4d|%05x %s%c" ++ [10]) [VaWord (-7); VaWord 255; VaStr None; VaWord 33]
    {| u_stalls := []; u_out := [] |}
  = Ok tt {| u_stalls := []; u_out := str "a 7   |000ff <null>!" ++ [13; 10] |}.
Proof. vm_compute. reflexivity. Qed.

(** ** The specification: digits, padding, directives *)

(** The digits of [n] in base [b], most significant first ([f] bounds their number). *)
Fixpoint digits_f (f : nat) (b n : Z) : list Z :=
  match f with
  | O => [n]
  | S f' => if n <? b then [n] else digits_f f' b (n / b) ++ [n mod b]
  end.
Definition digits (b n : Z) : list Z := digits_f 64 b n.
Arguments digits : simpl never.

(** The number a list of digits denotes. *)
Definition digits_val (b : Z) (l : list Z) : Z := fold_left (fun v d => v * b + d) l 0.

Lemma digits_val_snoc b l d : digits_val b (l ++ [d]) = digits_val b l * b + d.
Proof. unfold digits_val. by rewrite fold_left_app. Qed.

Lemma digits_f_val f b n : 1 < b -> digits_val b (digits_f f b n) = n.
Proof.
  intros Hb. revert n. induction f as [|f IH]; intros n; cbn [digits_f]; [done|].
  destruct (Z.ltb_spec n b); [done|]. rewrite digits_val_snoc, IH.
  pose proof (Z.div_mod n b). lia.
Qed.

Lemma digits_f_range f b n :
  1 < b -> 0 <= n < b ^ (Z.of_nat f + 1) -> Forall (fun d => 0 <= d < b) (digits_f f b n).
Proof.
  intros Hb. revert n. induction f as [|f IH]; intros n Hn; cbn [digits_f].
  { constructor; [|done]. rewrite Z.add_0_l, Z.pow_1_r in Hn. done. }
  destruct (Z.ltb_spec n b); [by constructor; [lia|]|].
  apply Forall_app. split.
  - apply IH. rewrite Nat2Z.inj_succ, Z.add_succ_l, Z.pow_succ_r in Hn by lia.
    split; [apply Z.div_pos; lia | apply Z.div_lt_upper_bound; lia].
  - constructor; [|done]. apply Z.mod_pos_bound. lia.
Qed.

Lemma digits_f_length f b n k :
  1 < b -> (1 <= k)%nat -> 0 <= n < b ^ Z.of_nat k -> (length (digits_f f b n) <= k)%nat.
Proof.
  intros Hb. revert n k. induction f as [|f IH]; intros n k Hk Hn; cbn [digits_f]; [cbn; lia|].
  destruct (Z.ltb_spec n b); [cbn; lia|]. rewrite length_app. cbn [length].
  destruct k as [|k]; [lia|]. rewrite Nat2Z.inj_succ, Z.pow_succ_r in Hn by lia.
  destruct (decide (k = 0)%nat) as [->|]; [cbn in Hn; lia|].
  specialize (IH (n / b) k ltac:(lia)).
  enough (length (digits_f f b (n / b)) <= k)%nat by lia. apply IH.
  split; [apply Z.div_pos; lia | apply Z.div_lt_upper_bound; lia].
Qed.

(** More fuel than digits does not matter. *)
Lemma digits_f_fuel f f' b n :
  1 < b -> 0 <= n < b ^ (Z.of_nat f + 1) -> (f <= f')%nat -> digits_f f' b n = digits_f f b n.
Proof.
  intros Hb. revert n f'. induction f as [|f IH]; intros n f' Hn Hf; cbn [digits_f].
  { rewrite Z.add_0_l, Z.pow_1_r in Hn. destruct f'; cbn [digits_f]; [done|].
    destruct (Z.ltb_spec n b); [done|lia]. }
  destruct f' as [|f']; [lia|]. cbn [digits_f].
  destruct (Z.ltb_spec n b); [done|]. f_equal. apply IH; [|lia].
  rewrite Nat2Z.inj_succ, Z.add_succ_l, Z.pow_succ_r in Hn by lia.
  split; [apply Z.div_pos; lia | apply Z.div_lt_upper_bound; lia].
Qed.

Lemma pow_64 b : 10 <= b -> 0x100000000 <= b ^ 64.
Proof.
  intros. transitivity (10 ^ 64); [apply Z.leb_le; by vm_compute|].
  apply Z.pow_le_mono_l. lia.
Qed.

Lemma digits_f_S f b n :
  digits_f (S f) b n = if n <? b then [n] else digits_f f b (n / b) ++ [n mod b].
Proof. done. Qed.

Lemma digits_eq b n :
  10 <= b -> is_u32 n -> digits b n = if n <? b then [n] else digits b (n / b) ++ [n mod b].
Proof.
  intros Hb Hn. unfold digits at 1. rewrite (digits_f_S 63).
  destruct (n <? b); [reflexivity|]. apply (f_equal (fun l => l ++ [n mod b])).
  symmetry. apply (digits_f_fuel 63 64); [lia| |lia]. pose proof (pow_64 b Hb).
  split; [apply Z.div_pos; unfold is_u32 in *; lia|].
  apply Z.div_lt_upper_bound; [lia|]. change (Z.of_nat 63 + 1) with 64.
  unfold is_u32 in *. nia.
Qed.

Lemma digits_val_digits b n : 10 <= b -> digits_val b (digits b n) = n.
Proof. intros. apply digits_f_val. lia. Qed.

Lemma digits_range b n :
  10 <= b -> is_u32 n -> Forall (fun d => 0 <= d < b) (digits b n).
Proof.
  intros Hb Hn. apply digits_f_range; [lia|]. change (Z.of_nat 64 + 1) with 65.
  change 65 with (Z.succ 64). rewrite Z.pow_succ_r by lia.
  pose proof (pow_64 b Hb). unfold is_u32 in *. nia.
Qed.

Lemma digits_length b n :
  10 <= b -> is_u32 n -> (1 <= length (digits b n) <= 10)%nat.
Proof.
  intros Hb Hn. split.
  - unfold digits. rewrite (digits_f_S 63). destruct (n <? b); [cbn; lia|].
    rewrite length_app. cbn [length]. lia.
  - apply digits_f_length; [lia..|]. change (Z.of_nat 10) with 10. unfold is_u32 in *.
    assert (10 ^ 10 <= b ^ 10) by (apply Z.pow_le_mono_l; lia). lia.
Qed.

(** The characters of the digits. *)
Definition dec (n : Z) : list Z := map (fun d => d + 48) (digits 10 n).
Definition hexchar (caps : bool) (d : Z) : Z :=
  if d <? 10 then d + 48 else d - 10 + (if caps then 65 else 97).
Definition hex (caps : bool) (n : Z) : list Z := map (hexchar caps) (digits 16 n).

Definition spaces (n : Z) : list Z := replicate (Z.to_nat n) 32.
Definition zeros (n : Z) : list Z := replicate (Z.to_nat n) 48.

(** How a converted argument fills its field.  The sign is not part of a
    left-justified field: this is what the code does, see [left_sign_lost]. *)
Definition justify (left zero : bool) (width : Z) (sign s : list Z) : list Z :=
  let room := width - Z.of_nat (length sign) - Z.of_nat (length s) in
  if left then s ++ spaces (width - Z.of_nat (length s))
  else if zero then sign ++ zeros room ++ s
  else spaces room ++ sign ++ s.

Inductive conversion : Type :=
| CPercent | CChar | CString | CDecimal | CUnsigned | CHex (caps : bool) | CPointer.

Record directive : Type := {
  d_left : bool;      (* - *)
  d_plus : bool;      (* + *)
  d_space : bool;     (* blank *)
  d_alt : bool;       (* # *)
  d_zero : bool;      (* 0 *)
  d_width : Z;
  d_conv : conversion;
}.

Definition conversion_char (c : conversion) : Z :=
  match c with
  | CPercent => 37 | CChar => 99 | CString => 115 | CDecimal => 100 | CUnsigned => 117
  | CHex caps => if caps then 88 else 120 | CPointer => 112
  end.

Definition opt (b : bool) (c : Z) : list Z := if b then [c] else [].

(** How a directive is written in a format string (after its [%]). *)
Definition unparse_directive (d : directive) : list Z :=
  opt (d_left d) 45 ++ opt (d_plus d) 43 ++ opt (d_space d) 32 ++ opt (d_alt d) 35 ++
  opt (d_zero d) 48 ++ (if d_width d =? 0 then [] else dec (d_width d)) ++
  [conversion_char (d_conv d)].

Definition sign_of (d : directive) (negative : bool) : list Z :=
  if negative then [45] else if d_plus d then [43] else if d_space d then [32] else [].

(** What a directive prints, and the arguments it leaves. *)
Definition render_directive (d : directive) (ap : list va) : option (list Z * list va) :=
  let field zero sign s := justify (d_left d) (zero && d_zero d) (d_width d) sign s in
  match d_conv d, ap with
  | CPercent, _ => Some ([37], ap)
  | CChar, VaWord z :: ap => Some ([u8 z], ap)
  | CString, VaStr s :: ap => Some (field false [] (from_option until_nul (str "<null>") s), ap)
  | CDecimal, VaWord z :: ap => Some (field true (sign_of d (s32 z <? 0)) (dec (Z.abs (s32 z))), ap)
  | CUnsigned, VaWord z :: ap => Some (field true (sign_of d false) (dec (u32 z)), ap)
  | CHex caps, VaWord z :: ap =>
    Some ((if d_alt d then [48; if caps then 88 else 120] else []) ++ field true [] (hex caps (u32 z)), ap)
  | CPointer, VaWord z :: ap => Some ([48; 120] ++ field true [] (hex false (u32 z)), ap)
  | _, _ => None
  end.

(** A format: literals, each followed by a directive, and a last literal. *)
Fixpoint unparse (ds : list (list Z * directive)) (last : list Z) : list Z :=
  match ds with
  | [] => last
  | (lit, d) :: ds' => lit ++ [37] ++ unparse_directive d ++ unparse ds' last
  end.

Fixpoint render (ds : list (list Z * directive)) (last : list Z) (ap : list va) : option (list Z) :=
  match ds with
  | [] => Some last
  | (lit, d) :: ds' =>
    match render_directive d ap with
    | Some (txt, ap') => option_map (fun rest => lit ++ txt ++ rest) (render ds' last ap')
    | None => None
    end
  end.

(** A literal holds no [%] and no NUL. *)
Definition literal (l : list Z) : Prop := Forall (fun c => c <> 37 /\ c <> 0) l.

#[export] Instance literal_dec l : Decision (literal l).
Proof. unfold literal. apply _. Defined.

Definition well_formed (ds : list (list Z * directive)) (last : list Z) : Prop :=
  Forall (fun p => literal p.1 /\ is_u32 (d_width p.2)) ds /\ literal last.

#[export] Instance well_formed_dec ds last : Decision (well_formed ds last).
Proof. unfold well_formed. apply _. Defined.

(** ** Numbers *)

Section number_facts.
Context {S : Type}.

Lemma push_ok pos c l (s : S) : 0 < pos -> push pos c l s = Ok (pos - 1, u8 c :: l) s.
Proof. intros. unfold push. by rewrite (proj2 (Z.ltb_lt _ _)). Qed.

Lemma dec_unfold n : is_u32 n ->
  dec n = if n <? 10 then [n + 48] else dec (n / 10) ++ [n mod 10 + 48].
Proof.
  intros Hn. unfold dec. rewrite digits_eq by done.
  destruct (n <? 10); [done|]. by rewrite map_app.
Qed.

Lemma hex_unfold caps n : is_u32 n ->
  hex caps n = if n <? 16 then [hexchar caps n] else hex caps (n / 16) ++ [hexchar caps (n mod 16)].
Proof.
  intros Hn. unfold hex. rewrite digits_eq by done.
  destruct (n <? 16); [done|]. by rewrite map_app.
Qed.

Lemma hextable_nth (caps : bool) d :
  0 <= d < 16 -> u8 (nth (Z.to_nat d) (if caps then hextable_caps else hextable) 0) = hexchar caps d.
Proof.
  intros Hd.
  assert (forallb (fun d => (u8 (nth (Z.to_nat d) (if caps then hextable_caps else hextable) 0)
                              =? hexchar caps d)) (map Z.of_nat (seq 0 16)) = true) as H
    by by destruct caps.
  rewrite forallb_forall in H. apply Z.eqb_eq, H, in_map_iff.
  exists (Z.to_nat d). split; [lia|]. apply in_seq. lia.
Qed.

(** [n] as [longlong_to_string] prints it. *)
Definition magnitude (n flag : Z) : Z :=
  if has SIGNEDFLAG flag && (s32 n <? 0) then u32 (- n) else n.
Definition signchar_of (n flag : Z) : Z :=
  if has SIGNEDFLAG flag && (s32 n <? 0) then 45
  else if has SHOWSIGNFLAG flag then 43 else if has BLANKPOSFLAG flag then 32 else 0.

Lemma length_dec n : is_u32 n -> (1 <= length (dec n) <= 10)%nat.
Proof. intros. unfold dec. rewrite length_map. by apply digits_length. Qed.
Lemma length_hex caps n : is_u32 n -> (1 <= length (hex caps n) <= 10)%nat.
Proof. intros. unfold hex. rewrite length_map. by apply digits_length. Qed.

Lemma digits_cons b n : 10 <= b -> is_u32 n -> exists d l, digits b n = d :: l /\ 0 <= d < b.
Proof.
  intros Hb Hn. pose proof (digits_length b n Hb Hn) as Hl. pose proof (digits_range b n Hb Hn) as Hr.
  destruct (digits b n) as [|d l]; [cbn [length] in Hl; lia|]. exists d, l. by inversion Hr.
Qed.

Lemma u32_div n b : 1 < b -> is_u32 n -> is_u32 (n / b).
Proof.
  intros Hb [Hn1 Hn2]. split; [by apply Z.div_pos; lia|]. apply Z.div_lt_upper_bound; nia.
Qed.

(** The loop that pushes all digits but the first. *)
Lemma push_digits_ok (k : nat) m pos b (s : S) :
  is_u32 m -> length (digits 10 m) = (k + 1)%nat -> Z.of_nat k <= pos ->
  runs (fun '(n, pos, buf) =>
    if n >=? 10 then
      let digit := n mod 10 in
      let n := n / 10 in
      let* (pos, buf) := push pos (digit + 48) buf in
      ret (inl (n, pos, buf))
    else ret (inr (n, pos, buf))) k (m, pos, b) s
    (Ok (hd 0 (digits 10 m), pos - Z.of_nat k, tl (dec m) ++ b) s).
Proof.
  revert m pos b. induction k as [|k IH]; intros m pos b Hm Hl Hp.
  - destruct (Z.ltb_spec m 10) as [Hlt|Hge].
    + assert (digits 10 m = [m]) as E
        by (rewrite digits_eq by done; by rewrite (proj2 (Z.ltb_lt _ _) Hlt)).
      unfold dec. rewrite E. cbn [hd map tl app]. rewrite Z.sub_0_r. apply runs_done.
      by rewrite Z.geb_leb, (proj2 (Z.leb_gt _ _) Hlt).
    + rewrite digits_eq, (proj2 (Z.ltb_ge _ _) Hge), length_app in Hl by done. cbn [length] in Hl.
      pose proof (digits_length 10 (m / 10) ltac:(lia) (u32_div m 10 ltac:(lia) Hm)).
      lia.
  - destruct (Z.ltb_spec m 10) as [Hlt|Hge].
    { rewrite digits_eq, (proj2 (Z.ltb_lt _ _) Hlt) in Hl by done. cbn [length] in Hl. lia. }
    pose proof (u32_div m 10 ltac:(lia) Hm) as Hm'.
    assert (digits 10 m = digits 10 (m / 10) ++ [m mod 10]) as E
      by (rewrite digits_eq at 1 by done; by rewrite (proj2 (Z.ltb_ge _ _) Hge)).
    rewrite E, length_app in Hl. cbn [length] in Hl.
    destruct (digits_cons 10 (m / 10) ltac:(lia) Hm') as (d & l & E' & _).
    eapply runs_step.
    + cbn beta iota. rewrite Z.geb_leb, (proj2 (Z.leb_le _ _) Hge). cbn zeta.
      step (push_ok pos (m mod 10 + 48) b s ltac:(lia)). done.
    + specialize (IH (m / 10) (pos - 1) (u8 (m mod 10 + 48) :: b) Hm' ltac:(lia) ltac:(lia)).
      assert (hd 0 (digits 10 m) = hd 0 (digits 10 (m / 10))) as -> by by rewrite E, E'.
      assert (tl (dec m) ++ b = tl (dec (m / 10)) ++ u8 (m mod 10 + 48) :: b) as ->.
      { unfold dec. rewrite E, E', map_app. cbn [map app tl]. rewrite <- app_assoc.
        rewrite u8_small by zarith. done. }
      replace (pos - Z.of_nat (Datatypes.S k)) with (pos - 1 - Z.of_nat k) by lia. exact IH.
Qed.

Lemma longlong_to_string_ok n len flag (s : S) :
  is_u32 n -> 11 <= len ->
  longlong_to_string n len flag s =
  Ok (dec (magnitude n flag) ++ [0], signchar_of n flag) s.
Proof.
  intros Hn Hlen. unfold longlong_to_string, signchar_of.
  fold (magnitude n flag). set (m := magnitude n flag).
  assert (is_u32 m) as Hm by (unfold m, magnitude; destruct (_ && _); [apply u32_range|done]).
  pose proof (digits_length 10 m ltac:(lia) Hm) as Hl.
  step (push_ok len 0 [] s ltac:(lia)). cbn zeta. change (u8 0) with 0.
  assert (length (digits 10 m) = (length (digits 10 m) - 1) + 1)%nat as Hl' by lia.
  pose proof (push_digits_ok (length (digits 10 m) - 1) m (len - 1) [0] s Hm Hl' ltac:(lia)) as E.
  apply loop_runs in E; [|lia]. step E. clear E.
  destruct (digits_cons 10 m ltac:(lia) Hm) as (d & l & E & Hd).
  step (push_ok (len - 1 - Z.of_nat (length (digits 10 m) - 1)) (hd 0 (digits 10 m) + 48)
          (tl (dec m) ++ [0]) s ltac:(lia)).
  unfold dec. rewrite E. cbn [hd map tl]. rewrite u8_small by zarith. done.
Qed.

Lemma longlong_to_hexstring_ok u len flag (s : S) :
  is_u32 u -> 11 <= len ->
  longlong_to_hexstring u len flag s = Ok (hex (has CAPSFLAG flag) u ++ [0]) s.
Proof.
  intros Hu Hlen. unfold longlong_to_hexstring. set (caps := has CAPSFLAG flag).
  step (push_ok len 0 [] s ltac:(lia)). cbn zeta. change (u8 0) with 0.
  pose proof (length_hex caps u Hu) as Hl.
  remember (length (hex caps u) - 1)%nat as k eqn:Hk.
  apply (loop_runs _ k); [|lia]. name_body body.
  assert (Z.of_nat k < len - 1) as Hp by lia. assert (length (hex caps u) = k + 1)%nat as Hl' by lia.
  revert Hu Hl' Hp. generalize (len - 1) as pos, [0] as b. clear Hk Hl Hlen len. revert u.
  induction k as [|k IH]; intros u pos b Hu Hl Hp.
  - rewrite hex_unfold in Hl |- * by done. destruct (Z.ltb_spec u 16) as [Hlt|Hge].
    + apply runs_done. unfold body. step (push_ok pos (nth (Z.to_nat (u mod 16))
        (if caps then hextable_caps else hextable) 0) b s ltac:(lia)).
      rewrite hextable_nth by (apply Z.mod_pos_bound; lia). unfold is_u32 in Hu.
      rewrite Z.mod_small, Z.div_small by lia. done.
    + rewrite length_app in Hl. cbn [length] in Hl.
      pose proof (length_hex caps (u / 16) (u32_div u 16 ltac:(lia) Hu)). lia.
  - rewrite hex_unfold in Hl |- * by done. destruct (Z.ltb_spec u 16) as [Hlt|Hge]; [cbn [length] in Hl; lia|].
    rewrite length_app in Hl. cbn [length] in Hl. rewrite <- app_assoc.
    eapply runs_step; [|apply IH; [by apply u32_div|lia|]].
    + unfold body. step (push_ok pos (nth (Z.to_nat (u mod 16))
        (if caps then hextable_caps else hextable) 0) b s ltac:(lia)).
      rewrite hextable_nth by (apply Z.mod_pos_bound; lia).
      rewrite (proj2 (Z.eqb_neq (u / 16) 0)); [done|].
      assert (1 <= u / 16) by (apply Z.div_le_lower_bound; lia). lia.
    + lia.
Qed.
End number_facts.

(** ** Parsing a format *)

Lemma next_format_digit c rest flags n :
  48 <= c <= 57 -> next_format (c :: rest) flags n =
  next_format rest (if (c =? 48) && (n =? 0) then Z.lor flags LEADZEROFLAG else flags)
    (u32 (u32 (n * 10) + (c - 48))).
Proof. intros Hc. cbn [next_format]. by rewrite !(proj2 (Z.leb_le _ _)) by lia. Qed.

Lemma next_format_dec w flags rest :
  is_u32 w -> w <> 0 -> next_format (dec w ++ rest) flags 0 = next_format rest flags w.
Proof.
  intros Hw. revert rest. pattern w. revert w Hw.
  enough (forall k : nat, forall w, is_u32 w -> w < Z.of_nat k -> forall rest, w <> 0 ->
    next_format (dec w ++ rest) flags 0 = next_format rest flags w) as H.
  { intros w Hw rest. apply (H (Z.to_nat w + 1)%nat); [done|]. unfold is_u32 in *. lia. }
  induction k as [|k IH]; intros w Hw Hk rest Hnz; [unfold is_u32 in *; lia|].
  rewrite dec_unfold by done. destruct (Z.ltb_spec w 10) as [Hlt|Hge].
  - cbn [app]. rewrite next_format_digit by (unfold is_u32 in *; lia).
    rewrite (proj2 (Z.eqb_neq (w + 48) 48)) by lia. cbn [andb].
    f_equal. zarith.
  - rewrite <- app_assoc. rewrite IH; [|by apply u32_div|zarith|zarith].
    cbn [app]. rewrite next_format_digit by zarith.
    rewrite (proj2 (Z.eqb_neq (w / 10) 0)), andb_false_r by zarith. f_equal. zarith.
Qed.

Definition flag_if (b : bool) (f : Z) (flags : Z) : Z := if b then Z.lor flags f else flags.

Definition flags_of (d : directive) : Z :=
  flag_if (d_zero d) LEADZEROFLAG (flag_if (d_alt d) ALTFLAG (flag_if (d_space d) BLANKPOSFLAG
    (flag_if (d_plus d) SHOWSIGNFLAG (flag_if (d_left d) LEFTFORMATFLAG 0)))).

Lemma next_format_conversion c rest flags n :
  next_format (conversion_char c :: rest) flags n = (conversion_char c, rest, flags, n).
Proof. destruct c as [| | | | |[]|]; done. Qed.

Lemma next_format_directive d rest :
  is_u32 (d_width d) ->
  next_format (unparse_directive d ++ rest) 0 0 =
  (conversion_char (d_conv d), rest, flags_of d, d_width d).
Proof.
  intros Hw. destruct d as [le pl sp al ze w c]. cbn [d_width] in Hw.
  unfold unparse_directive, flags_of.
  cbn [d_left d_plus d_space d_alt d_zero d_width d_conv].
  set (tail := (if w =? 0 then [] else dec w) ++ [conversion_char c]).
  assert (forall flags, next_format (tail ++ rest) flags 0 = (conversion_char c, rest, flags, w)) as Ht.
  { intros flags. unfold tail. destruct (Z.eqb_spec w 0) as [->|].
    - apply next_format_conversion.
    - rewrite <- app_assoc, next_format_dec by done. apply next_format_conversion. }
  clearbody tail. rewrite <- !app_assoc.
  destruct le, pl, sp, al, ze; cbn [opt app flag_if];
    cbn [next_format Z.leb Z.eqb Z.compare Pos.compare Pos.compare_cont Pos.eqb andb];
    change (u32 (u32 (0 * 10) + (48 - 48))) with 0; apply Ht.
Qed.

Lemma scan_literal_percent lit rest :
  literal lit -> scan_literal (lit ++ 37 :: rest) = (lit, 37, rest).
Proof.
  induction 1 as [|c lit [H1 H2] _ IH]; [done|]. cbn [app scan_literal].
  rewrite (proj2 (Z.eqb_neq _ _) H1), (proj2 (Z.eqb_neq _ _) H2), IH. done.
Qed.

Lemma scan_literal_end lit : literal lit -> scan_literal lit = (lit, 0, []).
Proof.
  induction 1 as [|c lit [H1 H2] _ IH]; [done|]. cbn [scan_literal].
  rewrite (proj2 (Z.eqb_neq _ _) H1), (proj2 (Z.eqb_neq _ _) H2), IH. done.
Qed.

(** The flag word of a directive, flag by flag. *)
Lemma has_left d : has LEFTFORMATFLAG (flags_of d) = d_left d.
Proof. by destruct d as [[] [] [] [] [] ? ?]. Qed.
Lemma has_zero d : has LEADZEROFLAG (flags_of d) = d_zero d.
Proof. by destruct d as [[] [] [] [] [] ? ?]. Qed.
Lemma has_plus d : has SHOWSIGNFLAG (flags_of d) = d_plus d.
Proof. by destruct d as [[] [] [] [] [] ? ?]. Qed.
Lemma has_space d : has BLANKPOSFLAG (flags_of d) = d_space d.
Proof. by destruct d as [[] [] [] [] [] ? ?]. Qed.
Lemma has_alt d : has ALTFLAG (flags_of d) = d_alt d.
Proof. by destruct d as [[] [] [] [] [] ? ?]. Qed.
Lemma has_none d :
  has (Z.lor LONGFLAG (Z.lor LONGLONGFLAG (Z.lor HALFFLAG (Z.lor HALFHALFFLAG
    (Z.lor SIZETFLAG (Z.lor INTMAXFLAG (Z.lor PTRDIFFFLAG (Z.lor CAPSFLAG SIGNEDFLAG))))))))
    (flags_of d) = false.
Proof. by destruct d as [[] [] [] [] [] ? ?]. Qed.

Lemma has_length_none f d :
  In f [LONGFLAG; LONGLONGFLAG; HALFFLAG; HALFHALFFLAG; SIZETFLAG; INTMAXFLAG; PTRDIFFFLAG;
        CAPSFLAG; SIGNEDFLAG] -> has f (flags_of d) = false.
Proof.
  pose proof (has_none d) as H. rewrite !has_lor_flag, !orb_false_iff in H. cbn [In].
  intuition (subst; done).
Qed.

(** ** The engine *)

(** The count of characters written, after [l]. *)
Definition adv (l : list Z) (cw : Z) : Z := u32 (cw + Z.of_nat (length l)).

Lemma adv_adv l1 l2 cw : adv l2 (adv l1 cw) = adv (l1 ++ l2) cw.
Proof. unfold adv. rewrite length_app. zarith. Qed.
Lemma adv_u32 l cw : is_u32 (adv l cw).
Proof. apply u32_range. Qed.
Lemma adv_nil cw : is_u32 cw -> adv [] cw = cw.
Proof. intros. unfold adv. cbn. rewrite Z.add_0_r. by apply u32_small. Qed.

Section engine_facts.
Context {S : Type} `{!HasMem S} (out : list Z -> M S Z).

(** The output function accepts everything: in the states of [I] it takes the
    string it is given, and answers its length. *)
Context (I : S -> Prop) (sink : list Z -> S -> S).
Context (sink_nil : forall s, I s -> sink [] s = s).
Context (sink_app : forall l1 l2 s, I s -> sink l2 (sink l1 s) = sink (l1 ++ l2) s).
Context (sink_I : forall l s, I s -> I (sink l s)).
Context (out_ok : forall l s, I s -> Z.of_nat (length l) < 2 ^ 31 ->
  out l s = Ok (Z.of_nat (length l)) (sink l s)).

Lemma OUTPUT_STRING_ok {X} l cw (k : Z -> Z -> M S (X + Z)) s :
  I s -> Z.of_nat (length l) < 2 ^ 31 ->
  OUTPUT_STRING out l cw k s = k (Z.of_nat (length l)) (adv l cw) (sink l s).
Proof.
  intros HI Hl. unfold OUTPUT_STRING. step (out_ok l s HI Hl).
  by rewrite (proj2 (Z.ltb_ge _ _)) by lia.
Qed.

Lemma pad_ok {X} c lim n cw (k : Z -> M S (X + Z)) s :
  I s -> n - lim < 2 ^ 32 -> is_u32 cw ->
  let l := replicate (Z.to_nat (n - lim)) c in
  pad out c lim n cw k s = k (adv l cw) (sink l s).
Proof.
  intros HI Hn Hcw l. unfold pad.
  match goal with |- context [loop ?f _] => set (body := f) end.
  assert (loop body (n, cw) s = Ok (inl (adv l cw)) (sink l s)) as E; [|by step E].
  apply (loop_runs _ (Z.to_nat (n - lim))); [|lia]. unfold l. clear l.
  remember (Z.to_nat (n - lim)) as j eqn:Hj. clear Hn.
  revert n cw s HI Hcw Hj. induction j as [|j IH]; intros n cw s HI Hcw Hj.
  - cbn [replicate]. rewrite sink_nil, adv_nil by done. apply runs_done. unfold body.
    by rewrite Z.gtb_ltb, (proj2 (Z.ltb_ge lim n)) by lia.
  - eapply (runs_step _ _ _ _ (n - 1, adv [c] cw) (sink [c] s)).
    + unfold body. rewrite (proj2 (Z.gtb_lt n lim)) by lia.
      unfold OUTPUT_CHAR. unfold bind at 1. by rewrite OUTPUT_STRING_ok by (done || (cbn; lia)).
    + cbn [replicate]. change (c :: replicate j c) with ([c] ++ replicate j c).
      rewrite <- sink_app, <- adv_adv by done.
      apply IH; [by apply sink_I | apply adv_u32 | lia].
Qed.

Lemma OUTPUT_CHAR_ok {X} c cw (k : Z -> M S (X + Z)) s :
  I s -> OUTPUT_CHAR out c cw k s = k (adv [c] cw) (sink [c] s).
Proof. intros. unfold OUTPUT_CHAR. by rewrite OUTPUT_STRING_ok by (done || (cbn; lia)). Qed.

Definition sign_text (signchar : Z) : list Z := if signchar =? 0 then [] else [signchar].

Lemma length_justify left zero w sign s :
  (length s <= length (justify left zero w sign s))%nat.
Proof.
  unfold justify, spaces, zeros. destruct left, zero; rewrite ?length_app, ?length_replicate; lia.
Qed.

Lemma until_nul_snoc l : Forall (fun c => c <> 0) l -> until_nul (l ++ [0]) = l.
Proof.
  induction 1 as [|c l Hc _ IH]; [done|]. cbn [app until_nul].
  by rewrite (proj2 (Z.eqb_neq _ _) Hc), IH.
Qed.

Lemma until_nul_dec n : is_u32 n -> until_nul (dec n ++ [0]) = dec n.
Proof.
  intros Hn. apply until_nul_snoc, Forall_map. eapply Forall_impl; [|by apply (digits_range 10)].
  cbn. lia.
Qed.

Lemma until_nul_hex caps n : is_u32 n -> until_nul (hex caps n ++ [0]) = hex caps n.
Proof.
  intros Hn. apply until_nul_snoc, Forall_map. eapply Forall_impl; [|by apply (digits_range 16)].
  intros d Hd. cbn in *. unfold hexchar. destruct (Z.ltb_spec d 10), caps; lia.
Qed.

Lemma va_signed_ok d z ap (s : S) :
  va_signed (flags_of d) (VaWord z :: ap) s = Ok (u32 (s32 z), ap) s.
Proof. unfold va_signed. by rewrite !has_length_none by (cbn; tauto). Qed.

Lemma va_unsigned_ok flags z ap (s : S) :
  Forall (fun f => has f flags = false) [LONGLONGFLAG; HALFHALFFLAG; HALFFLAG; INTMAXFLAG] ->
  va_unsigned flags (VaWord z :: ap) s = Ok (u32 z, ap) s.
Proof.
  rewrite !Forall_cons_iff. intros (H1 & H2 & H3 & H4 & _). unfold va_unsigned.
  rewrite H1, H2, H3, H4, !andb_false_r. by destruct (has LONGFLAG flags).
Qed.

(** The magnitude and sign of a signed argument. *)
Lemma magnitude_signed d z :
  let flags := Z.lor (flags_of d) SIGNEDFLAG in
  magnitude (u32 (s32 z)) flags = Z.abs (s32 z) /\
  sign_text (signchar_of (u32 (s32 z)) flags) = sign_of d (s32 z <? 0).
Proof.
  intros flags. unfold magnitude, signchar_of, flags. rewrite !has_lor, has_plus, has_space.
  change (has SIGNEDFLAG SIGNEDFLAG) with true. change (has SHOWSIGNFLAG SIGNEDFLAG) with false.
  change (has BLANKPOSFLAG SIGNEDFLAG) with false. rewrite orb_true_r, !orb_false_r. cbn [andb].
  replace (s32 (u32 (s32 z))) with (s32 z) by zarith. unfold sign_of.
  destruct (Z.ltb_spec (s32 z) 0); [split; [zarith|done]|].
  split; [zarith|]. by destruct (d_plus d), (d_space d).
Qed.

Lemma magnitude_unsigned d n :
  magnitude n (flags_of d) = n /\ sign_text (signchar_of n (flags_of d)) = sign_of d false.
Proof.
  unfold magnitude, signchar_of. rewrite has_length_none by (cbn; tauto). cbn [andb].
  rewrite has_plus, has_space. split; [done|]. by destruct d as [? [] [] ? ? ? ?].
Qed.

Lemma output_string_ok {X} s flags w sc cw (k : Z -> M S (X + Z)) st :
  I st -> Z.of_nat (length (until_nul s)) < 2 ^ 31 -> is_u32 w -> is_u32 cw ->
  let l := justify (has LEFTFORMATFLAG flags) (has LEADZEROFLAG flags) w (sign_text sc) (until_nul s) in
  output_string out s flags w sc cw k st = k (adv l cw) (sink l st).
Proof.
  intros HI Hl Hw Hcw l. unfold output_string, l, justify. clear l.
  set (u := until_nul s) in *. clearbody u. unfold is_u32 in Hw.
  destruct (has LEFTFORMATFLAG flags).
  { rewrite OUTPUT_STRING_ok, pad_ok by (done || (by apply sink_I) || apply adv_u32 || lia).
    by rewrite adv_adv, sink_app. }
  unfold sign_text, spaces, zeros.
  destruct (Z.eqb_spec sc 0) as [->|Hsc].
  - cbn [negb andb length app]. rewrite !andb_false_r.
    rewrite pad_ok by (done || lia). rewrite OUTPUT_STRING_ok by (try apply sink_I; done).
    rewrite adv_adv, sink_app, Z.sub_0_r by done. by destruct (has LEADZEROFLAG flags).
  - cbn [negb andb length]. set (w' := if w >? 0 then w - 1 else w).
    assert (Z.to_nat (w - Z.of_nat 1 - Z.of_nat (length u)) = Z.to_nat (w' - Z.of_nat (length u))) as ->
      by (unfold w'; destruct (Z.gtb_spec w 0); lia).
    assert (w' - Z.of_nat (length u) < 2 ^ 32) as Hw' by (unfold w'; destruct (w >? 0); lia).
    destruct (has LEADZEROFLAG flags); cbn [negb andb].
    + rewrite OUTPUT_CHAR_ok by done. rewrite pad_ok by (done || (by apply sink_I) || apply adv_u32).
      rewrite OUTPUT_STRING_ok by (try apply sink_I; try apply sink_I; done).
      rewrite !adv_adv, !sink_app by (try apply sink_I; done). done.
    + rewrite pad_ok by done. rewrite OUTPUT_CHAR_ok by (by apply sink_I).
      rewrite OUTPUT_STRING_ok by (try apply sink_I; try apply sink_I; done).
      rewrite !adv_adv, !sink_app by (try apply sink_I; done). done.
Qed.

(** The engine after a directive's [%]: it prints what [render_directive] says. *)
Lemma field_ok {X} s u flags left zero w sc sign cw (k : Z -> M S (X + Z)) st txt :
  until_nul s = u -> has LEFTFORMATFLAG flags = left -> has LEADZEROFLAG flags = zero ->
  sign_text sc = sign -> txt = justify left zero w sign u -> Z.of_nat (length txt) < 2 ^ 31 ->
  I st -> is_u32 w -> is_u32 cw ->
  output_string out s flags w sc cw k st = k (adv txt cw) (sink txt st).
Proof.
  intros <- <- <- <- -> Hl HI Hw Hcw. apply output_string_ok; try done.
  pose proof (length_justify (has LEFTFORMATFLAG flags) (has LEADZEROFLAG flags) w (sign_text sc)
    (until_nul s)). lia.
Qed.

(** [case 'x':] *)
Lemma convert_hex_ok {X} flags caps alt d z ap cw (k : list va -> Z -> M S (X + Z)) st txt :
  has CAPSFLAG flags = caps -> has ALTFLAG flags = alt ->
  has LEFTFORMATFLAG flags = d_left d -> has LEADZEROFLAG flags = d_zero d ->
  Forall (fun f => has f flags = false) [LONGLONGFLAG; HALFHALFFLAG; HALFFLAG; INTMAXFLAG] ->
  txt = (if alt then [48; if caps then 88 else 120] else []) ++
        justify (d_left d) (d_zero d) (d_width d) [] (hex caps (u32 z)) ->
  Z.of_nat (length txt) < 2 ^ 31 -> is_u32 (d_width d) -> I st -> is_u32 cw ->
  convert_hex out flags (d_width d) cw (VaWord z :: ap) k st = k ap (adv txt cw) (sink txt st).
Proof.
  intros Hc Ha Hle Hz Hf -> Hl Hw HI Hcw. unfold convert_hex.
  step (va_unsigned_ok flags z ap st Hf).
  step (longlong_to_hexstring_ok (u32 z) 32 flags st (u32_range z) ltac:(lia)). rewrite Hc, Ha.
  pose proof (until_nul_hex caps (u32 z) (u32_range z)) as Hn. rewrite length_app in Hl. destruct alt.
  - rewrite !OUTPUT_CHAR_ok by (try apply sink_I; done).
    rewrite (field_ok _ _ _ _ _ _ 0 [] _ _ _ _ Hn Hle Hz eq_refl eq_refl);
      [|lia|do 2 apply sink_I; done|done|apply adv_u32].
    rewrite !adv_adv, !sink_app by (repeat apply sink_I; done). done.
  - apply (field_ok _ _ _ _ _ _ 0 [] _ _ _ _ Hn Hle Hz eq_refl eq_refl); [lia|done..].
Qed.

(** The length modifiers, none of which a directive has. *)
Lemma no_length d extra :
  In extra [0; CAPSFLAG; Z.lor LONGFLAG ALTFLAG] ->
  Forall (fun f => has f (Z.lor (flags_of d) extra) = false)
    [LONGLONGFLAG; HALFHALFFLAG; HALFFLAG; INTMAXFLAG].
Proof.
  intros He. repeat constructor; rewrite has_lor, has_length_none by (cbn; tauto); cbn in He;
    by intuition subst.
Qed.

Lemma convert_ok d ap ap' txt rest cw st :
  render_directive d ap = Some (txt, ap') -> Z.of_nat (length txt) < 2 ^ 31 ->
  is_u32 (d_width d) -> I st -> is_u32 cw ->
  convert out (conversion_char (d_conv d)) (flags_of d) (d_width d) cw ap rest st =
  Ok (inl (rest, ap', adv txt cw)) (sink txt st).
Proof.
  intros Hr Ht Hw HI Hcw.
  unfold render_directive in Hr. unfold convert.
  destruct (d_conv d) as [| | | | |caps|]; cbn [conversion_char].
  - cbn. injection Hr as <- <-. by rewrite OUTPUT_CHAR_ok.
  - cbn. destruct ap as [|[z| |] ap]; try done. injection Hr as <- <-.
    cbn [va_word]. rewrite bind_ret. by rewrite OUTPUT_CHAR_ok.
  - cbn. destruct ap as [|[| |s] ap]; try done. injection Hr as <- <-.
    cbn [va_str]. rewrite bind_ret.
    erewrite field_ok; [reflexivity| | | |reflexivity|reflexivity|done..].
    + by destruct s.
    + by destruct d as [[] [] [] [] [] ? ?].
    + by destruct d as [[] [] [] [] [] ? ?].
  - cbn [Z.eqb orb Pos.eqb]. destruct ap as [|[z| |] ap]; try done. injection Hr as <- <-.
    step (va_signed_ok d z ap st).
    destruct (magnitude_signed d z) as [Hm Hs].
    step (longlong_to_string_ok (u32 (s32 z)) 32 (Z.lor (flags_of d) SIGNEDFLAG) st (u32_range _) ltac:(lia)).
    rewrite Hm. erewrite field_ok; [reflexivity| |rewrite has_lor, has_left; apply orb_false_r|rewrite has_lor, has_zero; apply orb_false_r| | |done..].
    + apply until_nul_dec. unfold is_u32. pose proof (s32_range z). lia.
    + exact Hs.
    + done.
  - cbn [Z.eqb orb Pos.eqb]. destruct ap as [|[z| |] ap]; try done. injection Hr as <- <-.
    rewrite (bind_ok _ _ _ _ _ (va_unsigned_ok (flags_of d) z ap st ltac:(rewrite <- (Z.lor_0_r (flags_of d)); apply no_length; cbn; tauto))).
    destruct (magnitude_unsigned d (u32 z)) as [Hm Hs].
    step (longlong_to_string_ok (u32 z) 32 (flags_of d) st (u32_range _) ltac:(lia)).
    rewrite Hm. erewrite field_ok; [reflexivity| |apply has_left|apply has_zero|exact Hs|done..].
    apply until_nul_dec, u32_range.
  - destruct ap as [|[z| |] ap]; [by destruct caps| |by destruct caps..]. injection Hr as <- <-.
    destruct caps; cbn [Z.eqb orb Pos.eqb].
    + erewrite (convert_hex_ok _ true (d_alt d) d); [reflexivity| | | | | |reflexivity|done..];
        [..|apply no_length; cbn; tauto];
        rewrite ?has_lor, ?has_left, ?has_zero, ?has_alt; try apply orb_false_r. apply orb_true_r.
    + rewrite <- (Z.lor_0_r (flags_of d)).
      erewrite (convert_hex_ok _ false (d_alt d) d); [reflexivity| | | | | |reflexivity|done..];
        [..|apply no_length; cbn; tauto];
        rewrite Z.lor_0_r, ?has_left, ?has_zero, ?has_alt, ?has_length_none by (cbn; tauto); done.
  - destruct ap as [|[z| |] ap]; [done| |done..]. injection Hr as <- <-. cbn [Z.eqb orb Pos.eqb].
    erewrite (convert_hex_ok _ false true d); [reflexivity| | | | | |reflexivity|done..];
      [..|apply no_length; cbn; tauto];
      rewrite ?has_lor, ?has_left, ?has_zero, ?has_alt, ?has_length_none by (cbn; tauto);
      try apply orb_false_r; try apply orb_true_r; done.
Qed.

Lemma engine_ok ds last ap txt st :
  well_formed ds last -> render ds last ap = Some txt ->
  Z.of_nat (length txt) < 2 ^ 31 -> Z.of_nat (length ds) < 2 ^ 32 -> I st ->
  _printf_engine out (unparse ds last) ap st = Ok (Z.of_nat (length txt)) (sink txt st).
Proof.
  intros [Hds Hlast] Hr Ht Hn HI. unfold _printf_engine.
  apply (loop_runs _ (length ds)); [|lia]. clear Hn.
  replace (Z.of_nat (length txt)) with (s32 (adv txt 0)) by (unfold adv; zarith).
  assert (is_u32 0) as Hcw by zarith. revert Hcw. generalize 0 as cw.
  revert ap txt st Hr Ht HI. induction Hds as [|[lit d] ds [Hlit Hw] Hds IH];
    intros ap txt st Hr Ht HI cw Hcw; cbn [render unparse length] in *.
  - injection Hr as <-. apply runs_done. unfold engine_turn.
    rewrite scan_literal_end, OUTPUT_STRING_ok by done. done.
  - destruct (render_directive d ap) as [[t ap']|] eqn:Hd; [|done].
    destruct (render ds last ap') as [rest|] eqn:Hrest; [|done]. injection Hr as <-.
    rewrite !length_app in Ht.
    eapply runs_step.
    + unfold engine_turn. cbn [app]. rewrite scan_literal_percent by done.
      rewrite OUTPUT_STRING_ok by (done || lia). cbn [Z.eqb].
      rewrite next_format_directive by done.
      assert ((conversion_char (d_conv d) =? 0) = false) as -> by by destruct (d_conv d) as [| | | | |[]|].
      apply (convert_ok d ap ap' t); [done|lia|done|by apply sink_I|apply adv_u32].
    + rewrite sink_app by done. replace (adv (lit ++ t ++ rest) cw) with (adv rest (adv t (adv lit cw)))
        by (by rewrite !adv_adv).
      assert (sink (lit ++ t ++ rest) st = sink rest (sink (lit ++ t) st)) as ->
        by (by rewrite sink_app, <- app_assoc).
      apply IH; [done|lia|by apply sink_I|apply adv_u32].
Qed.
End engine_facts.

(** ** vsnprintf and xprintf *)

Section vsnprintf_facts.
Context {S : Type} `{!HasMem S} (outstr len : Z).

(** Invariant and effect of [_vsnprintf_output]: the position stays within the
    buffer, and the string goes to the buffer as far as it fits. *)
Definition buffer_inv (st : S * Z) : Prop :=
  mapped (mem_of st.1) outstr len /\ 0 <= st.2 <= len.

Definition fitting (pos : Z) (l : list Z) : list Z := map u8 (take (Z.to_nat (len - pos)) l).

Definition buffer_sink (l : list Z) (st : S * Z) : S * Z :=
  (poke st.1 (outstr + st.2) (fitting st.2 l), st.2 + Z.of_nat (length (fitting st.2 l))).

Lemma buffer_sink_nil st : buffer_inv st -> buffer_sink [] st = st.
Proof.
  intros _. destruct st as [s pos]. unfold buffer_sink, fitting. rewrite take_nil.
  cbn. by rewrite poke_nil, Z.add_0_r.
Qed.

Lemma length_fitting pos l : length (fitting pos l) = (Z.to_nat (len - pos) `min` length l)%nat.
Proof. unfold fitting. by rewrite length_map, length_take. Qed.

Lemma fitting_app pos l1 l2 :
  fitting pos (l1 ++ l2) =
  fitting pos l1 ++ fitting (pos + Z.of_nat (length (fitting pos l1))) l2.
Proof.
  rewrite length_fitting. unfold fitting. rewrite take_app, map_app. do 3 f_equal. lia.
Qed.

Lemma buffer_sink_app l1 l2 st :
  buffer_inv st -> buffer_sink l2 (buffer_sink l1 st) = buffer_sink (l1 ++ l2) st.
Proof.
  intros _. destruct st as [s pos]. unfold buffer_sink. cbn [fst snd].
  rewrite fitting_app, length_app. rewrite Z.add_assoc, poke_poke.
  f_equal. lia.
Qed.

Lemma buffer_sink_inv l st : buffer_inv st -> buffer_inv (buffer_sink l st).
Proof.
  intros [Hm Hp]. split; cbn [buffer_sink fst snd].
  - rewrite mem_of_poke. by apply mapped_write.
  - rewrite length_fitting. lia.
Qed.

Lemma vsnprintf_output_ok l st :
  buffer_inv st -> Z.of_nat (length l) < 2 ^ 31 ->
  _vsnprintf_output outstr len l st = Ok (Z.of_nat (length l)) (buffer_sink l st).
Proof.
  intros HI Hl. unfold _vsnprintf_output.
  match goal with |- context [loop ?f _] => set (body := f) end.
  assert (forall l count st, buffer_inv st -> 0 <= count -> count + Z.of_nat (length l) < 2 ^ 31 ->
    runs body (length l) (l, count) st
      (Ok ([], count + Z.of_nat (length l)) (buffer_sink l st))) as H.
  { clear. intros l. induction l as [|c l IH]; intros count st HI Hc Hl; cbn [length].
    - rewrite buffer_sink_nil, Z.add_0_r by done. by apply runs_done.
    - cbn [length] in Hl. eapply (runs_step _ _ _ _ (l, u32 (count + 1)) (buffer_sink [c] st)).
      + destruct st as [s pos], HI as [Hm Hp]. cbn [fst snd] in Hm, Hp.
        unfold body, buffer_sink, fitting. cbn [fst snd].
        unfold gets at 1. unfold bind at 1. cbn [snd].
        destruct (Z.ltb_spec pos len).
        * assert (mapped (mem_of (s, pos)) (outstr + pos) 1) as Hb
            by (eapply mapped_sub; [exact Hm|lia..]).
          rewrite bind_assoc. step (store8_ok (outstr + pos) c (s, pos) Hb).
          replace (Z.to_nat (len - pos)) with (1 + Z.to_nat (len - pos - 1))%nat by lia.
          cbn [Nat.add take]. by rewrite take_nil.
        * replace (len - pos) with 0 by lia. cbn. by rewrite poke_nil, Z.add_0_r.
      + change (c :: l) with ([c] ++ l). rewrite <- buffer_sink_app by done.
        rewrite u32_small by zarith.
        replace (count + Z.of_nat (Datatypes.S (length l))) with (count + 1 + Z.of_nat (length l)) by lia.
        apply IH; [by apply buffer_sink_inv|lia..]. }
  rewrite (bind_ok _ _ _ _ _ (loop_runs _ _ _ _ _ (H l 0 st HI ltac:(lia) ltac:(lia)) ltac:(lia))).
  unfold ret. by rewrite s32_small by zarith.
Qed.

End vsnprintf_facts.

Lemma vsnprintf_ok {S} `{HasMem S} s len ds last ap txt (st : S) :
  well_formed ds last -> render ds last ap = Some txt ->
  Z.of_nat (length txt) < 2 ^ 31 -> Z.of_nat (length ds) < 2 ^ 32 ->
  0 < len -> 0 <= s -> s + len <= 2 ^ 32 -> mapped (mem_of st) s len ->
  vsnprintf s len (unparse ds last) ap st =
  Ok (Z.of_nat (length txt)) (poke st s (map u8 (take (Z.to_nat (len - 1)) txt) ++ [0])).
Proof.
  intros Hwf Hr Ht Hn Hlen Hs Hsl Hm. unfold vsnprintf.
  assert (buffer_inv s len (st, 0)) as HI by (split; [done|cbn; lia]).
  pose proof (buffer_sink_inv s len txt (st, 0) HI) as [Hm' _].
  rewrite (bind_ok _ _ _ _ _ (engine_ok (_vsnprintf_output s len) (buffer_inv s len) (buffer_sink s len)
    (buffer_sink_nil s len) (buffer_sink_app s len) (buffer_sink_inv s len)
    (vsnprintf_output_ok s len) ds last ap txt (st, 0) Hwf Hr Ht Hn HI)).
  set (st1 := buffer_sink s len txt (st, 0)) in *.
  assert (snd st1 = Z.of_nat (length (fitting len 0 txt))) as Hpos by done.
  assert (fst st1 = poke st s (fitting len 0 txt)) as Hst1 by (cbn; by rewrite Z.add_0_r).
  destruct st1 as [s1 pos]. cbn [fst snd] in *. subst pos s1.
  unfold gets at 1. unfold bind at 1. cbn [snd]. rewrite length_fitting, Z.sub_0_r.
  set (txt1 := map u8 (take (Z.to_nat (len - 1)) txt)).
  assert (length txt1 = Z.to_nat (len - 1) `min` length txt)%nat as Htxt1
    by (unfold txt1; by rewrite length_map, length_take).
  assert (forall a (p : Z), s <= a < s + len ->
    store8 a 0 (poke st s (fitting len 0 txt), p) =
    Ok tt (poke (poke st s (fitting len 0 txt)) a [0], p)) as Hmp.
  { intros a p Ha. etransitivity; [apply (store8_ok (S := S * Z) a 0 (poke st s (fitting len 0 txt), p))|done].
    eapply mapped_sub; [exact Hm'|lia..]. }
  rewrite Z.geb_leb. destruct (Z.leb_spec len (Z.of_nat (Z.to_nat len `min` length txt)%nat)) as [Hge|Hlt].
  - rewrite u32_small by (unfold is_u32; lia).
    rewrite (bind_ok _ _ _ _ _ (Hmp (s + (len - 1)) _ ltac:(lia))). unfold ret. f_equal.
    assert (exists x, fitting len 0 txt = txt1 ++ [x]) as [x ->].
    { exists (u8 (nth (Z.to_nat (len - 1)) txt 0)). unfold txt1, fitting. rewrite Z.sub_0_r.
      replace (Z.to_nat len) with (Datatypes.S (Z.to_nat (len - 1))) by lia.
      rewrite (take_S_r _ _ (nth (Z.to_nat (len - 1)) txt 0)), map_app; [done|].
      destruct (nth_lookup_or_length txt (Z.to_nat (len - 1)) 0); [done|lia]. }
    rewrite <- (poke_app st s (s + (len - 1)) txt1 [x]) by lia.
    rewrite poke_over by done. apply poke_app. lia.
  - rewrite (bind_ok _ _ _ _ _ (Hmp (s + Z.of_nat (length txt)) _ ltac:(lia))). unfold ret. f_equal.
    assert (fitting len 0 txt = txt1) as ->
      by (unfold fitting, txt1; by rewrite Z.sub_0_r, !take_ge by lia).
    apply poke_app. lia.
Qed.

Lemma cstr_until_nul m a l : bytes_at m a (l ++ [0]) -> cstr_at m a (until_nul l).
Proof.
  revert a. induction l as [|c l IH]; intros a H; cbn [until_nul].
  - by split.
  - cbn [app] in H. apply bytes_at_cons in H as (Hc & Hm & H). case_match eqn:E.
    + apply Z.eqb_eq in E as ->. split; [|done]. by apply bytes_at_cons.
    + apply Z.eqb_neq in E. apply cstr_at_cons. auto.
Qed.

(** What a call prints: at most 127 bytes, up to the first NUL. *)
Definition printed (txt : list Z) : list Z := until_nul (map u8 (take 127 txt)).

Lemma map_u8_bytes l : bytes (map u8 l).
Proof. apply Forall_map. apply Forall_true. intros x. apply u8_range. Qed.

Lemma length_until_nul l : (length (until_nul l) <= length l)%nat.
Proof. induction l as [|c l IH]; cbn [until_nul length]; [done|]. case_match; cbn; lia. Qed.

Lemma vxprintf_ok {S} `{HasUart S} ds last ap txt (s : S) :
  well_formed ds last -> render ds last ap = Some txt ->
  Z.of_nat (length txt) < 2 ^ 31 -> Z.of_nat (length ds) < 2 ^ 32 ->
  vxprintf (unparse ds last) ap s = Ok tt (emit (wire (printed txt)) s).
Proof.
  intros Hwf Hr Ht Hn. unfold vxprintf. set (st := (mem_lit msg (replicate 128 0), s)).
  assert (mapped (mem_of st) msg 128) as Hm by by_decide.
  set (l := map u8 (take 127 txt)).
  assert (vsnprintf msg 128 (unparse ds last) ap st =
    Ok (Z.of_nat (length txt)) (poke st msg (l ++ [0]))) as E
    by (apply vsnprintf_ok; done).
  rewrite (bind_ok _ _ _ _ _ E).
  assert (cstr_at (mem_of (poke st msg (l ++ [0]))) msg (until_nul l)) as Hs.
  { apply cstr_until_nul. rewrite mem_of_poke. apply bytes_at_write. apply Forall_app.
    split; [apply map_u8_bytes|by repeat constructor]. }
  rewrite (xputs_ok msg (until_nul l)); [done|done|].
  pose proof (length_until_nul l). unfold l in *. rewrite length_map, length_take in *. lia.
Qed.

Lemma printed_short l :
  (length l <= 127)%nat -> Forall (fun c => 0 < c < 256) l -> printed l = l.
Proof.
  intros Hl Hc. unfold printed. rewrite take_ge by done. clear Hl.
  induction Hc as [|c l Hc _ IH]; [done|]. cbn [map until_nul].
  rewrite u8_small by (unfold is_u8; lia). by rewrite (proj2 (Z.eqb_neq c 0)), IH by lia.
Qed.

Lemma dec_chars n : is_u32 n -> Forall (fun c => 48 <= c < 58) (dec n).
Proof.
  intros Hn. apply Forall_map. eapply Forall_impl; [|by apply (digits_range 10)]. cbn. lia.
Qed.

Lemma hex_chars caps n : is_u32 n -> Forall (fun c => 48 <= c < 103) (hex caps n).
Proof.
  intros Hn. apply Forall_map. eapply Forall_impl; [|by apply (digits_range 16)]. cbn. intros d Hd.
  unfold hexchar. destruct (Z.ltb_spec d 10), caps; lia.
Qed.

(** *** Messages whose arguments are numbers *)

#[export] Instance conversion_eq_dec : EqDecision conversion.
Proof. solve_decision. Defined.
#[export] Instance directive_eq_dec : EqDecision directive.
Proof. solve_decision. Defined.

Definition numeric (p : list Z * directive) : Prop :=
  literal p.1 /\ (length p.1 <= 100)%nat /\ 0 <= d_width p.2 <= 20 /\
  match d_conv p.2 with CDecimal | CUnsigned | CHex _ | CPointer => True | _ => False end.

#[export] Instance numeric_dec p : Decision (numeric p).
Proof.
  unfold numeric. assert (Decision (match d_conv p.2 with
    CDecimal | CUnsigned | CHex _ | CPointer => True | _ => False end)) by (destruct (d_conv p.2); apply _).
  apply _.
Defined.

Lemma justify_short left zero w sign l :
  0 <= w <= 20 -> (length sign <= 1)%nat -> (length l <= 20)%nat ->
  (length (justify left zero w sign l) <= 50)%nat.
Proof.
  intros Hw Hs Hl. unfold justify, spaces, zeros. destruct left, zero;
    rewrite ?length_app, ?length_replicate; lia.
Qed.

Lemma render_numeric p v ap : numeric p ->
  exists txt, render_directive p.2 (VaWord v :: ap) = Some (txt, ap) /\ (length txt <= 60)%nat.
Proof.
  intros (_ & _ & Hw & Hc). unfold render_directive.
  assert (forall b, (length (sign_of p.2 b) <= 1)%nat) as Hs
    by (intros b; unfold sign_of; destruct b, (d_plus p.2), (d_space p.2); cbn; lia).
  pose proof (length_dec (u32 v) (u32_range v)).
  pose proof (length_dec (Z.abs (s32 v)) ltac:(pose proof (s32_range v); unfold is_u32; lia)).
  pose proof (fun c => length_hex c (u32 v) (u32_range v)) as Hh.
  destruct (d_conv p.2) as [| | | | |caps|]; try done; eexists; (split; [reflexivity|]).
  - pose proof (justify_short (d_left p.2) (true && d_zero p.2) (d_width p.2) (sign_of p.2 (s32 v <? 0))
      (dec (Z.abs (s32 v))) Hw (Hs _) ltac:(lia)). lia.
  - pose proof (justify_short (d_left p.2) (true && d_zero p.2) (d_width p.2) (sign_of p.2 false)
      (dec (u32 v)) Hw (Hs _) ltac:(lia)). lia.
  - specialize (Hh caps). pose proof (justify_short (d_left p.2) (true && d_zero p.2) (d_width p.2) []
      (hex caps (u32 v)) Hw ltac:(cbn; lia) ltac:(lia)). rewrite length_app. destruct (d_alt p.2); cbn [length]; lia.
  - specialize (Hh false). pose proof (justify_short (d_left p.2) (true && d_zero p.2) (d_width p.2) []
      (hex false (u32 v)) Hw ltac:(cbn; lia) ltac:(lia)). rewrite length_app. cbn [length]. lia.
Qed.

Lemma render_numerics ds last vs : Forall numeric ds -> length vs = length ds ->
  exists txt, render ds last (map VaWord vs) = Some txt /\
    (length txt <= length last + 200 * length ds)%nat.
Proof.
  intros Hd. revert vs. induction Hd as [|[lt d] ds Hn _ IH]; intros [|v vs] Hlen; try done.
  - exists last. split; [done|]. lia.
  - cbn [length] in Hlen. destruct (IH vs) as (txt & E & L); [lia|].
    destruct (render_numeric (lt, d) v (map VaWord vs) Hn) as (t1 & E1 & L1). destruct Hn as (_ & Hl & _).
    cbn [fst snd] in *. exists (lt ++ t1 ++ txt). cbn [render map]. rewrite E1, E. split; [done|].
    rewrite !length_app. cbn [length]. lia.
Qed.

(** Whatever the numbers, a message is printed and the call returns. *)
Lemma numbers_printed {S} `{HasUart S} ds last vs (s : S) :
  Forall numeric ds -> literal last -> (length last <= 100)%nat -> (length ds <= 100)%nat ->
  length vs = length ds ->
  exists out, xprintf (unparse ds last) (map VaWord vs) s = Ok tt (emit out s).
Proof.
  intros Hd Hl Hll Hdl Hv. destruct (render_numerics ds last vs Hd Hv) as (txt & E & L).
  eexists. unfold xprintf. apply (vxprintf_ok ds last _ txt); [|done|lia|lia]. split; [|done].
  eapply Forall_impl; [|exact Hd]. intros p (Hp & _ & Hw & _). split; [done|]. unfold is_u32. lia.
Qed.

(** *** Short lines *)

(** [%0wx] *)
Definition hexw (w : Z) : directive :=
  {| d_left := false; d_plus := false; d_space := false; d_alt := false; d_zero := true;
     d_width := w; d_conv := CHex false |}.
Definition hex_field (w v : Z) : list Z := justify false true w [] (hex false (u32 v)).

Lemma hex_field_ok w v : 0 <= w <= 9 ->
  (length (hex_field w v) <= 10)%nat /\ Forall (fun c => 48 <= c < 103) (hex_field w v).
Proof.
  intros Hw. pose proof (length_hex false (u32 v) (u32_range v)). unfold hex_field, justify, zeros.
  split; [rewrite !length_app, length_replicate; cbn [length]; lia|].
  apply Forall_app. split; [done|]. apply Forall_app. split; [apply Forall_replicate; lia|].
  by apply hex_chars, u32_range.
Qed.

Definition plain (l : list Z) : Prop := Forall (fun c => 0 < c < 256 /\ c <> 37) l.

#[export] Instance plain_dec l : Decision (plain l).
Proof. unfold plain. apply _. Defined.

Lemma plain_literal l : plain l -> literal l.
Proof. apply Forall_impl. lia. Qed.

Lemma plain_until l : plain l -> until_nul l = l.
Proof.
  induction 1 as [|c l Hc _ IH]; cbn [until_nul]; [done|]. by rewrite (proj2 (Z.eqb_neq c 0)), IH by lia.
Qed.

Lemma spaces_none n : n <= 0 -> spaces n = [].
Proof. intros Hn. unfold spaces. by replace (Z.to_nat n) with 0%nat by lia. Qed.

Section prints.
Context {S : Type} `{!HasUart S}.

(** A text that fits the buffer comes out as it is. *)
Lemma xprintf_text ds last ap txt (s : S) :
  well_formed ds last -> render ds last ap = Some txt -> (length txt <= 127)%nat -> (length ds <= 127)%nat ->
  Forall (fun c => 0 < c < 256) txt ->
  xprintf (unparse ds last) ap s = Ok tt (emit (wire txt) s).
Proof.
  intros Hwf Hr Ht Hd Hc. unfold xprintf. rewrite (vxprintf_ok ds last ap txt s Hwf Hr) by lia.
  by rewrite printed_short.
Qed.

Lemma xprintf_hex w pre post v (s : S) :
  0 <= w <= 9 -> plain pre -> plain post -> (length pre <= 40)%nat -> (length post <= 40)%nat ->
  xprintf (unparse [(pre, hexw w)] post) [VaWord v] s =
  Ok tt (emit (wire (pre ++ hex_field w v ++ post)) s).
Proof.
  intros Hw Hpre Hpost Lpre Lpost. destruct (hex_field_ok w v Hw) as [Hl Hc]. unfold xprintf.
  rewrite (vxprintf_ok [(pre, hexw w)] post [VaWord v] (pre ++ hex_field w v ++ post) s).
  - rewrite printed_short; [done| |].
    + rewrite !length_app. lia.
    + rewrite !Forall_app. split; [|split]; (eapply Forall_impl; [|eassumption]); cbn; lia.
  - split; [|by apply plain_literal]. repeat constructor; [by apply plain_literal|cbn; unfold is_u32; lia..].
  - done.
  - rewrite !length_app. lia.
  - cbn. lia.
Qed.

Lemma xprintf_plain l (s : S) : plain l -> (length l <= 127)%nat ->
  xprintf l [] s = Ok tt (emit (wire l) s).
Proof.
  intros Hl Hlen. unfold xprintf.
  rewrite (vxprintf_ok [] l [] l s); [|by split; [constructor|apply plain_literal]|done|lia|cbn; lia].
  rewrite printed_short; [done|done|]. eapply Forall_impl; [|exact Hl]. cbn. lia.
Qed.

(** A string argument: something is printed. *)
Lemma xprintf_str ds last ap txt (s : S) :
  well_formed ds last -> render ds last ap = Some txt -> (length txt <= 1000)%nat -> (length ds <= 1000)%nat ->
  exists out, xprintf (unparse ds last) ap s = Ok tt (emit out s).
Proof. intros. eexists. unfold xprintf. apply vxprintf_ok; [done|done|lia|lia]. Qed.
End prints.

(** Labels, each followed by a word in eight digits. *)
Fixpoint hex_line (labels : list (list Z)) (vs : list Z) : list Z :=
  match labels, vs with
  | l :: labels', v :: vs' => l ++ hex_field 8 v ++ hex_line labels' vs'
  | _, _ => []
  end.

Lemma hex_line_ok labels vs : Forall plain labels -> length labels = length vs ->
  (length (hex_line labels vs) <= length (concat labels) + 10 * length vs)%nat /\
  Forall (fun c => 0 < c < 256) (hex_line labels vs).
Proof.
  intros H. revert vs. induction H as [|l labels Hl _ IH]; intros [|v vs] Hlen; try done; cbn [hex_line concat].
  destruct (IH vs ltac:(by injection Hlen)) as [IH1 IH2]. destruct (hex_field_ok 8 v ltac:(lia)) as [Hf1 Hf2].
  rewrite !length_app. cbn [length] in *. split; [lia|]. rewrite !Forall_app. split; [|split; [|done]].
  - eapply Forall_impl; [|exact Hl]. cbn. lia.
  - eapply Forall_impl; [|exact Hf2]. cbn. lia.
Qed.

Lemma render_hexes labels vs ds last ap txt : length labels = length vs -> render ds last ap = Some txt ->
  render (map (fun l => (l, hexw 8)) labels ++ ds) last (map VaWord vs ++ ap) = Some (hex_line labels vs ++ txt).
Proof.
  revert vs. induction labels as [|l labels IH]; intros [|v vs] E Hr; try done.
  cbn [map app render render_directive hexw d_conv]. rewrite (IH vs) by (done || by injection E).
  cbn [option_map hex_line d_alt d_zero d_left d_width andb]. unfold hex_field. by rewrite <- !app_assoc.
Qed.

(** Such a line, with something after it. *)
Lemma xprintf_hexes_then {S} `{!HasUart S} labels ds last vs ap txt (s : S) :
  Forall plain labels -> well_formed ds last -> length labels = length vs -> render ds last ap = Some txt ->
  Forall (fun c => 0 < c < 256) txt ->
  (length (concat labels) + 10 * length vs + length txt <= 127)%nat -> (length ds <= 10)%nat ->
  xprintf (unparse (map (fun l => (l, hexw 8)) labels ++ ds) last) (map VaWord vs ++ ap) s =
  Ok tt (emit (wire (hex_line labels vs ++ txt)) s).
Proof.
  intros Hl [Hw1 Hw2] Hlen Hr Hc Ht Hd. destruct (hex_line_ok labels vs Hl Hlen) as [H1 H2].
  apply xprintf_text.
  - split; [|done]. apply Forall_app. split; [|done]. apply Forall_map. eapply Forall_impl; [|exact Hl].
    cbn. intros l Hpl. split; [by apply plain_literal|unfold is_u32; lia].
  - by apply render_hexes.
  - rewrite length_app. lia.
  - rewrite length_app, length_map. lia.
  - apply Forall_app. split; done.
Qed.

Lemma xprintf_hexes {S} `{!HasUart S} labels post vs (s : S) :
  Forall plain labels -> plain post -> length labels = length vs ->
  (length (concat labels) + 10 * length vs + length post <= 127)%nat ->
  xprintf (unparse (map (fun l => (l, hexw 8)) labels) post) (map VaWord vs) s =
  Ok tt (emit (wire (hex_line labels vs ++ post)) s).
Proof.
  intros Hl Hp Hlen Ht. rewrite <- (app_nil_r (map _ labels)), <- (app_nil_r (map VaWord vs)).
  apply xprintf_hexes_then; [done|split; [done|by apply plain_literal]|done|done| |lia|cbn; lia].
  eapply Forall_impl; [|exact Hp]. cbn. lia.
Qed.

(** ** The properties *)

Lemma digits_f_head f b n : 1 < b -> n <> 0 -> 0 <= n -> hd 0 (digits_f f b n) <> 0.
Proof.
  intros Hb. revert n. induction f as [|f IH]; intros n Hn Hp; cbn [digits_f]; [done|].
  destruct (Z.ltb_spec n b); [done|].
  assert (1 <= n / b) by (apply Z.div_le_lower_bound; lia).
  specialize (IH (n / b) ltac:(lia) ltac:(lia)).
  by destruct (digits_f f b (n / b)).
Qed.

(** [longlong_to_string] prints the magnitude of a 32-bit number in a
    buffer of eleven bytes or more without ever leaving the buffer: the text is
    decimal digits only, has no leading zero, reads back as the number, and
    the sign character is a minus exactly for a negative signed argument. *)
Theorem longlong_to_string_decimal {S} n len flag (s : S) :
  is_u32 n -> 11 <= len ->
  exists l sc, longlong_to_string n len flag s = Ok (l ++ [0], sc) s /\
    Forall (fun c => 48 <= c <= 57) l /\ (length l <= 10)%nat /\
    let v := if has SIGNEDFLAG flag then Z.abs (s32 n) else n in
    fold_left (fun v c => v * 10 + (c - 48)) l 0 = v /\
    (l = [48] \/ hd 48 l <> 48) /\
    (sc = 45 <-> has SIGNEDFLAG flag = true /\ s32 n < 0).
Proof.
  intros Hn Hlen. do 2 eexists. split; [by apply longlong_to_string_ok|].
  set (m := magnitude n flag).
  assert (m = if has SIGNEDFLAG flag then Z.abs (s32 n) else n) as Hv.
  { unfold m, magnitude. destruct (has SIGNEDFLAG flag); cbn [andb]; [|done].
    destruct (Z.ltb_spec (s32 n) 0); zarith. }
  assert (is_u32 m) as Hm by (rewrite Hv; destruct (has _ _); zarith).
  split; [|split; [by apply length_dec|]]. 
  - apply Forall_map. eapply Forall_impl; [|by apply (digits_range 10)]. cbn. lia.
  - cbn zeta. rewrite <- Hv. split; [|split].
    + rewrite <- (digits_val_digits 10 m) at 2 by lia. unfold dec, digits_val.
      generalize (digits 10 m) as l, 0 as v. induction l as [|d l IH]; intros v; [done|].
      cbn [map fold_left]. rewrite IH. f_equal. lia.
    + destruct (decide (m = 0)) as [->|Hnz]; [by left|]. right.
      pose proof (digits_f_head 64 10 m ltac:(lia) Hnz ltac:(unfold is_u32 in Hm; lia)) as Hh.
      destruct (digits_cons 10 m ltac:(lia) Hm) as (d & l & E & _). unfold digits in E.
      unfold dec, digits. rewrite E in *. cbn in *. lia.
    + unfold signchar_of. destruct (has SIGNEDFLAG flag); cbn [andb].
      * destruct (Z.ltb_spec (s32 n) 0); [tauto|]. split; [|lia].
        destruct (has SHOWSIGNFLAG flag), (has BLANKPOSFLAG flag); done.
      * split; [|intros [? _]; done].
        destruct (has SHOWSIGNFLAG flag), (has BLANKPOSFLAG flag); done.
Qed.

Lemma longlong_to_string_decimal_witness :
  exists l sc, longlong_to_string 0xFFFFFF85 32 SIGNEDFLAG tt = Ok (l ++ [0], sc) tt /\
    Forall (fun c => 48 <= c <= 57) l /\ (length l <= 10)%nat /\
    fold_left (fun v c => v * 10 + (c - 48)) l 0 = 123 /\
    (l = [48] \/ hd 48 l <> 48) /\ (sc = 45 <-> true = true /\ -123 < 0).
Proof. apply (longlong_to_string_decimal 0xFFFFFF85 32 SIGNEDFLAG tt); by_decide. Defined.

(** C27: [vsnprintf] of a format made of literals and directives returns the
    length of the whole rendering, stores its first [len - 1] bytes and a
    terminating NUL in the buffer, and changes nothing else; no access leaves
    the [len] bytes of the buffer. *)
Theorem vsnprintf_correct {S} `{HasMem S} s len ds last ap txt (st : S) :
  well_formed ds last -> render ds last ap = Some txt ->
  Z.of_nat (length txt) < 2 ^ 31 -> Z.of_nat (length ds) < 2 ^ 32 ->
  0 < len -> 0 <= s -> s + len <= 2 ^ 32 -> mapped (mem_of st) s len ->
  exists st', vsnprintf s len (unparse ds last) ap st = Ok (Z.of_nat (length txt)) st' /\
    bytes_at (mem_of st') s (map u8 (take (Z.to_nat (len - 1)) txt) ++ [0]) /\
    same_except (mem_of st) (mem_of st') s len.
Proof.
  intros. eexists. split; [by apply vsnprintf_ok|]. rewrite mem_of_poke. split.
  - apply bytes_at_write. apply Forall_app. split; [apply map_u8_bytes|by repeat constructor].
  - intros b Hb. apply same_except_write. rewrite length_app, length_map, length_take. cbn. lia.
Qed.

Definition demo : list (list Z * directive) :=
  [(str "pc=", {| d_left := false; d_plus := false; d_space := false; d_alt := false; d_zero := true;
                  d_width := 8; d_conv := CHex true |});
   (str " n=", {| d_left := false; d_plus := true; d_space := false; d_alt := false; d_zero := false;
                  d_width := 5; d_conv := CDecimal |})].

Lemma vsnprintf_correct_witness :
  exists st', vsnprintf 0x200 16 (str "pc=%08X n=%+5d;") [VaWord 0xBEEF; VaWord 42]
                (mem_lit 0x200 (replicate 16 7)) = Ok 20 st' /\
    bytes_at st' 0x200 (str "pc=0000BEEF n= " ++ [0]) /\
    same_except (mem_lit 0x200 (replicate 16 7)) st' 0x200 16.
Proof.
  destruct (vsnprintf_correct (S := mem) 0x200 16 demo (str ";") [VaWord 0xBEEF; VaWord 42]
    (str "pc=0000BEEF n=  +42;") (mem_lit 0x200 (replicate 16 7))) as (st' & E & B & X);
    [by_decide|by vm_compute..|by_decide|].
  exists st'. split; [|split; [exact B | exact X]].
  exact E.
Defined.

(** C11: [xprintf] prints on the console the first 127 bytes, up to a NUL, of
    what the format and arguments render to, whatever the transmitter's
    stalls, and changes nothing but the console. *)
Theorem xprintf_prints {S} `{HasUart S} ds last ap txt (s : S) :
  well_formed ds last -> render ds last ap = Some txt ->
  Z.of_nat (length txt) < 2 ^ 31 -> Z.of_nat (length ds) < 2 ^ 32 ->
  xprintf (unparse ds last) ap s =
  Ok tt (with_uart (sent (wire (until_nul (map u8 (take 127 txt)))) (uart_of s)) s).
Proof. intros. by apply vxprintf_ok. Qed.

Lemma xprintf_prints_witness :
  xprintf (str "pc=%08X n=%+5d;") [VaWord 0xBEEF; VaWord (-42)]
    {| u_stalls := [2; 9]; u_out := [] |} =
  Ok tt {| u_stalls := []; u_out := str "pc=0000BEEF n=  -42;" |}.
Proof.
  exact (xprintf_prints demo (str ";") [VaWord 0xBEEF; VaWord (-42)] (str "pc=0000BEEF n=  -42;")
    {| u_stalls := [2; 9]; u_out := [] |} ltac:(by_decide) ltac:(by vm_compute) ltac:(by vm_compute)
    ltac:(by vm_compute)).
Defined.

(** A left-justified number loses its sign: [%-5d] of -42 prints [42]. *)
Example left_sign_lost :
  xprintf (str "[%-5d]") [VaWord (-42)] {| u_stalls := []; u_out := [] |} =
  Ok tt {| u_stalls := []; u_out := str "[42   ]" |}.
Proof. vm_compute. reflexivity. Qed.

(** With a length of zero [vsnprintf] stores a NUL in front of the buffer. *)
Example vsnprintf_len_0 :
  vsnprintf (S := mem) 0x101 0 (str "x") [] (mem_lit 0x100 [1; 2]) = Ok 1 (mem_lit 0x100 [0; 2]).
Proof. vm_compute. reflexivity. Qed.
