(* ===== verification/Exception.v ===== *)
(** * Exception reports (hw/src/print-exception.c)

    What the supervisor and machine exception handlers print: the cause, the
    mode and the registers of the saved frame, over any state with a memory and
    a console.  The trap CSRs are an argument.

    The specification does not read the code's tables: [cause_said] comes from
    the causes of the architecture, [frame_reg] from the offsets at which the
    trap entry stores the registers. *)

From S2P Require Import Prelude Monad Mem Words LibcStr Uart Printf.

Definition nl : list Z := [10].

(** What the trap CSRs hold when the exception handler reads them. *)
Record trap_csrs := { sstatus : Z; scause : Z; stval : Z }.

(* src/hw/src/print-exception.c:9-31 *)
Definition cause_name (n : Z) : list Z :=
  if negb (Z.land n 0x80000000 =? 0) then str "Interrupt"
  else
    match Z.land n 0x7FFFFFFF with
    | 0 => str "Instruction Address Misaligned"
    | 1 => str "Instruction Address Fault"
    | 2 => str "Illegal Instruction"
    | 3 => str "Breakpoint"
    | 4 => str "Load Address Misaligned"
    | 5 => str "Load Address Fault"
    | 6 => str "Store Address Misaligned"
    | 7 => str "Store Address Fault"
    | 8 => str "User Mode ECALL"
    | 9 => str "Supervisor Mode ECALL"
    | 11 => str "Machine Mode ECALL"
    | 12 => str "Instruction Page Fault"
    | 13 => str "Load Page Fault"
    | 15 => str "Store Page Fault"
    | _ => str "Unknown"
    end.

(* src/hw/src/print-exception.c:33-40 *)
Definition mode_name (n : Z) : list Z :=
  match n with
  | 0 => str "User"
  | 1 => str "Supervisor"
  | 3 => str "Machine Mode"
  | _ => str "???"
  end.

(** The frame's words by register (hw/context.h). *)
(* src/hw/inc/hw/context.h:59-93 *)
Definition ef_order : list string :=
  ["ra"; "t0"; "t1"; "t2"; "t3"; "t4"; "t5"; "t6"; "a0"; "a1"; "a2"; "a3"; "a4"; "a5"; "a6"; "a7";
   "pc"; "sp"; "gp"; "tp"; "s0"; "s1"; "s2"; "s3"; "s4"; "s5"; "s6"; "s7"; "s8"; "s9"; "s10"; "s11"].

Fixpoint index_of (r : string) (l : list string) : Z :=
  match l with
  | [] => 0
  | r' :: l' => if decide (r = r') then 0 else 1 + index_of r l'
  end.

Section report.
Context {S : Type} `{!HasMem S} `{!HasUart S} `{!MemUart S}.

(** [ef->r] *)
Definition ef_get (ef : Z) (r : string) : M S Z := load32 (ef + 4 * index_of r ef_order).

Fixpoint ef_gets (ef : Z) (rs : list string) : M S (list va) :=
  match rs with
  | [] => ret []
  | r :: rs' => v <- ef_get ef r ;; vs <- ef_gets ef rs' ;; ret (VaWord v :: vs)
  end.

Definition print_row (fmt : list Z) (ef : Z) (rs : list string) (more : list Z) : M S unit :=
  vs <- ef_gets ef rs ;;
  xprintf (fmt ++ nl) (vs ++ map VaWord more).

(* src/hw/src/print-exception.c:42-59 *)
Definition xprint_regs (ef xstatus xcause xtval : Z) : M S unit :=
  print_row (str "pc %08x ra %08x sp %08x gp %08x  xstatus %08x") ef ["pc"; "ra"; "sp"; "gp"] [xstatus] ;;
  print_row (str "tp %08x t0 %08x t1 %08x t2 %08x  xcause  %08x") ef ["tp"; "t0"; "t1"; "t2"] [xcause] ;;
  print_row (str "fp %08x s1 %08x a0 %08x a1 %08x  xtval   %08x") ef ["s0"; "s1"; "a0"; "a1"] [xtval] ;;
  print_row (str "a2 %08x a3 %08x a4 %08x a5 %08x") ef ["a2"; "a3"; "a4"; "a5"] [] ;;
  print_row (str "a6 %08x a7 %08x s2 %08x s3 %08x") ef ["a6"; "a7"; "s2"; "s3"] [] ;;
  print_row (str "s4 %08x s5 %08x s6 %08x s7 %08x") ef ["s4"; "s5"; "s6"; "s7"] [] ;;
  print_row (str "s8 %08x s9 %08x 10 %08x 11 %08x") ef ["s8"; "s9"; "s10"; "s11"] [] ;;
  print_row (str "t3 %08x t4 %08x t5 %08x t6 %08x") ef ["t3"; "t4"; "t5"; "t6"] [].

(* src/hw/src/print-exception.c:70-77 *)
Definition xprint_s_exception (c : trap_csrs) (ef : Z) : M S unit :=
  xprintf (str "** %s (in %s mode)" ++ nl ++ nl)
    [VaStr (Some (cause_name (scause c)));
     VaStr (Some (mode_name (Z.land (Z.shiftr (sstatus c) 8) 1)))] ;;
  xprint_regs ef (sstatus c) (scause c) (stval c).

(** The machine mode CSRs. *)
Record mach_csrs := { mstatus : Z; mcause : Z; mtval : Z }.

(* src/hw/src/print-exception.c:61-69 *)
Definition xprint_m_exception (c : mach_csrs) (ef : Z) : M S unit :=
  xprintf (str "** %s (in %s mode)" ++ nl ++ nl)
    [VaStr (Some (cause_name (mcause c)));
     VaStr (Some (mode_name (Z.land (Z.shiftr (mstatus c) 11) 3)))] ;;
  xprint_regs ef (mstatus c) (mcause c) (mtval c).
End report.

(** ** What the report says *)

(** The causes of the architecture (the table of [mcause] in the privileged
    specification), by what they are: their numbers, and how the report calls
    them. *)
Inductive access := Fetch | Load | Store.
Inductive mode := User | Supervisor | Machine.
Inductive trap_cause :=
| Misaligned (a : access)
| Access_fault (a : access)
| Page_fault (a : access)
| Illegal
| Break
| Ecall (m : mode).

Definition access_index (a : access) : Z := match a with Fetch => 0 | Load => 1 | Store => 2 end.
Definition cause_number (c : trap_cause) : Z :=
  match c with
  | Misaligned Fetch => 0
  | Access_fault Fetch => 1
  | Illegal => 2
  | Break => 3
  | Misaligned a => 2 + 2 * access_index a
  | Access_fault a => 3 + 2 * access_index a
  | Ecall User => 8
  | Ecall Supervisor => 9
  | Ecall Machine => 11
  | Page_fault Store => 15
  | Page_fault a => 12 + access_index a
  end.

Definition access_text (a : access) : list Z :=
  match a with Fetch => str "Instruction" | Load => str "Load" | Store => str "Store" end.
Definition mode_text (m : mode) : list Z :=
  match m with User => str "User" | Supervisor => str "Supervisor" | Machine => str "Machine" end.
Definition cause_text (c : trap_cause) : list Z :=
  match c with
  | Misaligned a => access_text a ++ str " Address Misaligned"
  | Access_fault a => access_text a ++ str " Address Fault"
  | Page_fault a => access_text a ++ str " Page Fault"
  | Illegal => str "Illegal Instruction"
  | Break => str "Breakpoint"
  | Ecall m => mode_text m ++ str " Mode ECALL"
  end.

Definition all_causes : list trap_cause :=
  [Illegal; Break] ++ map Misaligned [Fetch; Load; Store] ++ map Access_fault [Fetch; Load; Store] ++
  map Page_fault [Fetch; Load; Store] ++ map Ecall [User; Supervisor; Machine].

(** What is said of the cause register [n]: its top bit marks an interrupt. *)
Definition cause_said (n : Z) : list Z :=
  if Z.testbit n 31 then str "Interrupt"
  else from_option cause_text (str "Unknown") (find (fun c => cause_number c =? n mod 2 ^ 31) all_causes).

(** Where the trap entry (boot/entry.S, hw/src/trap-entry-*.S) stores each
    register in the frame. *)
Definition entry_offset : list (string * Z) :=
  [("ra", 0x00); ("t0", 0x04); ("t1", 0x08); ("t2", 0x0C); ("t3", 0x10); ("t4", 0x14); ("t5", 0x18);
   ("t6", 0x1C); ("a0", 0x20); ("a1", 0x24); ("a2", 0x28); ("a3", 0x2C); ("a4", 0x30); ("a5", 0x34);
   ("a6", 0x38); ("a7", 0x3C); ("pc", 0x40); ("sp", 0x44); ("gp", 0x48); ("tp", 0x4C); ("s0", 0x50);
   ("s1", 0x54); ("s2", 0x58); ("s3", 0x5C); ("s4", 0x60); ("s5", 0x64); ("s6", 0x68); ("s7", 0x6C);
   ("s8", 0x70); ("s9", 0x74); ("s10", 0x78); ("s11", 0x7C)].

(** The word of register [r] in the frame [ws]. *)
Definition frame_reg (ws : list Z) (r : string) : Z :=
  from_option (fun e => nth (Z.to_nat (e.2 / 4)) ws 0) 0
    (find (fun e => bool_decide (e.1 = r)) entry_offset).

Lemma frame_reg_index ws r : r ∈ ef_order -> frame_reg ws r = nth (Z.to_nat (index_of r ef_order)) ws 0.
Proof.
  assert (Forall (fun r => option_map (fun e => e.2 / 4) (find (fun e => bool_decide (e.1 = r)) entry_offset) =
    Some (index_of r ef_order)) ef_order) as H by by_decide.
  rewrite Forall_lookup in H. intros Hr. destruct (list_elem_of_lookup_1 _ _ Hr) as [k Hk].
  specialize (H k r Hk). cbv beta in H. unfold frame_reg. destruct (find _ entry_offset) as [e|]; [|done].
  cbn [option_map from_option] in *. by injection H as ->.
Qed.

(** A line of the report: labels, each with the value of a register, and then
    perhaps a label with the value of a CSR. *)
Definition report_line (ws : list Z) (labels : list string) (rs : list string) (more : list Z) : list Z :=
  hex_line (map str labels) (map (frame_reg ws) rs ++ more) ++ nl.

Definition report (ws : list Z) (xstatus xcause xtval : Z) : list Z :=
  report_line ws ["pc "; " ra "; " sp "; " gp "; "  xstatus "] ["pc"; "ra"; "sp"; "gp"] [xstatus] ++
  report_line ws ["tp "; " t0 "; " t1 "; " t2 "; "  xcause  "] ["tp"; "t0"; "t1"; "t2"] [xcause] ++
  report_line ws ["fp "; " s1 "; " a0 "; " a1 "; "  xtval   "] ["s0"; "s1"; "a0"; "a1"] [xtval] ++
  report_line ws ["a2 "; " a3 "; " a4 "; " a5 "] ["a2"; "a3"; "a4"; "a5"] [] ++
  report_line ws ["a6 "; " a7 "; " s2 "; " s3 "] ["a6"; "a7"; "s2"; "s3"] [] ++
  report_line ws ["s4 "; " s5 "; " s6 "; " s7 "] ["s4"; "s5"; "s6"; "s7"] [] ++
  report_line ws ["s8 "; " s9 "; " 10 "; " 11 "] ["s8"; "s9"; "s10"; "s11"] [] ++
  report_line ws ["t3 "; " t4 "; " t5 "; " t6 "] ["t3"; "t4"; "t5"; "t6"] [].

Definition report_head (cause mode : list Z) : list Z :=
  str "** " ++ cause ++ str " (in " ++ mode ++ str " mode)" ++ nl ++ nl.

(** The names the code gives are those of the table. *)
Lemma top_bit n : negb (Z.land n 0x80000000 =? 0) = Z.testbit n 31.
Proof.
  change 0x80000000 with (2 ^ 31). rewrite Z.land_comm, <- (Z.mul_1_l (2 ^ 31)), <- Z.shiftl_mul_pow2 by lia.
  destruct (Z.testbit n 31) eqn:E.
  - apply negb_true_iff, Z.eqb_neq. intros H. apply (f_equal (fun z => Z.testbit z 31)) in H.
    rewrite Z.land_spec, E in H. discriminate H.
  - apply negb_false_iff, Z.eqb_eq, Z.bits_inj'. intros i Hi. rewrite Z.land_spec, Z.shiftl_spec, Z.bits_0 by done.
    destruct (Z.lt_trichotomy i 31) as [H|[->|H]]; [by rewrite (Z.testbit_neg_r 1) by lia|by rewrite E, andb_comm|].
    by rewrite (Z.bits_above_log2 1) by (cbn; lia).
Qed.

Lemma cause_unknown n m : Z.testbit n 31 = false -> Z.land n 0x7FFFFFFF = m -> 16 <= m ->
  cause_name n = str "Unknown".
Proof.
  intros E Em Hm. unfold cause_name. rewrite top_bit, E, Em.
  destruct m as [|p|p]; [lia| |lia]. do 4 (destruct p as [p|p|]; [| |lia]); reflexivity.
Qed.

Lemma cause_number_range c : 0 <= cause_number c < 16.
Proof. by destruct c as [[]|[]|[]| | |[]]. Qed.

Lemma cause_name_said n : cause_name n = cause_said n.
Proof.
  destruct (Z.testbit n 31) eqn:E; [unfold cause_name, cause_said; by rewrite top_bit, E|].
  assert (Z.land n 0x7FFFFFFF = n mod 2 ^ 31) as Em by (change 0x7FFFFFFF with (Z.ones 31); by rewrite Z.land_ones by lia).
  pose proof (Z.mod_pos_bound n (2 ^ 31) ltac:(lia)) as Hb.
  destruct (decide (n mod 2 ^ 31 < 16)) as [Hm|Hm].
  - assert (Forall (fun m => cause_name m = cause_said m) (seqZ 0 16)) as H by by_decide.
    rewrite Forall_lookup in H. specialize (H (Z.to_nat (n mod 2 ^ 31)) (n mod 2 ^ 31)).
    rewrite lookup_seqZ in H. specialize (H ltac:(lia)). cbv beta in H.
    unfold cause_name, cause_said in *. rewrite !top_bit in *. rewrite E, Em.
    rewrite (Z.mod_small (n mod 2 ^ 31)) in H by lia. change 0x7FFFFFFF with (Z.ones 31) in H.
    rewrite Z.land_ones, (Z.mod_small (n mod 2 ^ 31)) in H by lia.
    rewrite Z.mod_pow2_bits_high in H by lia. exact H.
  - rewrite (cause_unknown n _ E Em) by lia. unfold cause_said. rewrite E.
    destruct (find _ all_causes) as [c|] eqn:Ef; [|done]. apply find_some in Ef as [_ Ef]. apply Z.eqb_eq in Ef.
    pose proof (cause_number_range c). lia.
Qed.

(** The mode a trap to supervisor mode came from ([sstatus.SPP]). *)
Definition spp_said (status : Z) : list Z := mode_text (if Z.testbit status 8 then Supervisor else User).

Lemma mode_name_said status : mode_name (Z.land (Z.shiftr status 8) 1) = spp_said status.
Proof.
  unfold spp_said. change 1 with (Z.ones 1) at 1. rewrite Z.land_ones by lia. rewrite Z.testbit_eqb by lia.
  rewrite Z.shiftr_div_pow2 by lia. change (2 ^ 1) with 2.
  pose proof (Z.mod_pos_bound (status / 2 ^ 8) 2 ltac:(lia)).
  destruct (Z.eqb_spec ((status / 2 ^ 8) mod 2) 1) as [->|]; [done|].
  by replace ((status / 2 ^ 8) mod 2) with 0 by lia.
Qed.

Section report_ok.
Context {S : Type} `{!HasMem S} `{!HasUart S} `{!MemUart S}.
Context (ef : Z) (ws : list Z) (Hef : ef mod 4 = 0) (Hlen : length ws = 32%nat).

Lemma ef_get_ok r (s : S) :
  r ∈ ef_order -> words_at (mem_of s) ef ws -> ef_get ef r s = Ok (frame_reg ws r) s.
Proof.
  intros Hr Hw. unfold ef_get. rewrite frame_reg_index by done.
  assert (0 <= index_of r ef_order < 32) as Hi.
  { assert (Forall (fun r => 0 <= index_of r ef_order < 32) ef_order) as H by by_decide.
    rewrite Forall_lookup in H. destruct (list_elem_of_lookup_1 _ _ Hr) as [k Hk]. exact (H k r Hk). }
  destruct (lookup_lt_is_Some_2 ws (Z.to_nat (index_of r ef_order)) ltac:(lia)) as [x Hx].
  destruct (Hw _ x Hx) as [Hm Hv]. rewrite Z2Nat.id in Hm, Hv by lia.
  rewrite (nth_lookup_Some _ _ _ _ Hx), <- Hv. apply load32_ok; [done|zarith].
Qed.

Lemma ef_gets_words rs (s : S) : Forall (fun r => r ∈ ef_order) rs -> words_at (mem_of s) ef ws ->
  ef_gets ef rs s = Ok (map VaWord (map (frame_reg ws) rs)) s.
Proof.
  intros Hrs Hw. induction Hrs as [|r rs Hr _ IH]; cbn [ef_gets map]; [done|].
  step (ef_get_ok r s Hr Hw). by step IH.
Qed.

Lemma print_row_ok fmt rs more labels (s : S) :
  fmt ++ nl = unparse (map (fun l => (l, hexw 8)) (map str labels)) nl ->
  Forall (fun r => r ∈ ef_order) rs -> Forall plain (map str labels) ->
  length labels = (length rs + length more)%nat ->
  (length (concat (map str labels)) + 10 * (length rs + length more) + 1 <= 127)%nat ->
  words_at (mem_of s) ef ws ->
  print_row fmt ef rs more s = Ok tt (emit (wire (report_line ws labels rs more)) s).
Proof.
  intros Hf Hrs Hl Hn Ht Hw. unfold print_row, report_line. step (ef_gets_words rs s Hrs Hw). rewrite Hf.
  rewrite <- map_app. apply xprintf_hexes; [done|by_decide| |]; rewrite length_app, !length_map; [done|exact Ht].
Qed.

Lemma words_emit l (s : S) : words_at (mem_of s) ef ws -> words_at (mem_of (emit l s)) ef ws.
Proof. by rewrite mem_of_emit. Qed.

(** Run [print_row] for the next line of the report. *)
#[local] Ltac row_ok fmt rs more labels s :=
  exact (print_row_ok fmt rs more labels s ltac:(vm_compute; reflexivity) ltac:(by_decide)
    ltac:(by_decide) eq_refl ltac:(vm_compute; lia) ltac:(rewrite ?mem_of_emit; assumption)).

#[local] Ltac row :=
  lazymatch goal with
  | |- bind (print_row ?fmt _ ?rs ?more) _ ?s = Ok _ (emit (wire (report_line _ ?labels _ _ ++ _)) _) =>
    erewrite bind_ok by row_ok fmt rs more labels s; rewrite wire_app, <- emit_emit
  | |- print_row ?fmt _ ?rs ?more ?s = Ok _ (emit (wire (report_line _ ?labels _ _)) _) =>
    row_ok fmt rs more labels s
  end.

Lemma xprint_regs_ok xstatus xcause xtval (s : S) :
  words_at (mem_of s) ef ws ->
  xprint_regs ef xstatus xcause xtval s = Ok tt (emit (wire (report ws xstatus xcause xtval)) s).
Proof. intros Hw. unfold xprint_regs, report. do 8 row. Qed.

(** The first line. *)
Lemma report_head_ok cause mode (s : S) :
  plain cause -> plain mode -> (length cause + length mode <= 100)%nat ->
  xprintf (str "** %s (in %s mode)" ++ nl ++ nl) [VaStr (Some cause); VaStr (Some mode)] s =
  Ok tt (emit (wire (report_head cause mode)) s).
Proof.
  intros Hc Hm Hl. set (d := {| d_left := false; d_plus := false; d_space := false; d_alt := false;
    d_zero := false; d_width := 0; d_conv := CString |}).
  change (str "** %s (in %s mode)" ++ nl ++ nl)
    with (unparse [(str "** ", d); (str " (in ", d)] (str " mode)" ++ nl ++ nl)).
  apply xprintf_text; [by_decide| | |cbn; lia|].
  - subst d. cbn [render render_directive d_conv from_option option_map]. unfold justify, report_head.
    cbn [d_left d_zero d_width]. rewrite !plain_until by done.
    by rewrite !spaces_none by (cbn [length]; lia).
  - unfold report_head. rewrite !length_app. change (length (str "** ")) with 3%nat.
    change (length (str " (in ")) with 5%nat. change (length (str " mode)")) with 6%nat. cbn [length nl]. lia.
  - unfold report_head. rewrite !Forall_app. split_and!; try (by apply (bool_decide_unpack _));
      (eapply Forall_impl; [|eassumption]); cbn; lia.
Qed.

Lemma cause_plain n : plain (cause_name n) /\ (length (cause_name n) <= 40)%nat.
Proof.
  unfold cause_name. destruct (negb _); [split; [by_decide|vm_compute; lia]|].
  destruct (Z.land n 0x7FFFFFFF) as [|p|p]; [split; [by_decide|vm_compute; lia]| |split; [by_decide|vm_compute; lia]].
  do 4 (try destruct p as [p|p|]); split; first [by_decide | vm_compute; lia].
Qed.

Lemma mode_plain n : plain (mode_name n) /\ (length (mode_name n) <= 40)%nat.
Proof.
  unfold mode_name. destruct n as [|p|p]; [split; [by_decide|vm_compute; lia]| |split; [by_decide|vm_compute; lia]].
  do 2 (try destruct p as [p|p|]); split; first [by_decide | vm_compute; lia].
Qed.

Lemma s_exception_ok c (s : S) :
  words_at (mem_of s) ef ws ->
  xprint_s_exception c ef s =
  Ok tt (emit (wire (report_head (cause_said (scause c)) (spp_said (sstatus c)) ++
                     report ws (sstatus c) (scause c) (stval c))) s).
Proof.
  intros Hw. unfold xprint_s_exception. rewrite <- cause_name_said, <- mode_name_said.
  destruct (cause_plain (scause c)) as [Hc Hcl].
  destruct (mode_plain (Z.land (Z.shiftr (sstatus c) 8) 1)) as [Hm Hml].
  step (report_head_ok _ _ s Hc Hm ltac:(lia)). rewrite wire_app, <- emit_emit. by apply xprint_regs_ok, words_emit.
Qed.

Lemma m_exception_ok c (s : S) :
  words_at (mem_of s) ef ws ->
  xprint_m_exception c ef s =
  Ok tt (emit (wire (report_head (cause_said (mcause c)) (mode_name (Z.land (Z.shiftr (mstatus c) 11) 3)) ++
                     report ws (mstatus c) (mcause c) (mtval c))) s).
Proof.
  intros Hw. unfold xprint_m_exception. rewrite <- cause_name_said.
  destruct (cause_plain (mcause c)) as [Hc Hcl].
  destruct (mode_plain (Z.land (Z.shiftr (mstatus c) 11) 3)) as [Hm Hml].
  step (report_head_ok _ _ s Hc Hm ltac:(lia)). rewrite wire_app, <- emit_emit. by apply xprint_regs_ok, words_emit.
Qed.
End report_ok.

(** ** The property *)

(** C26: the supervisor exception report: with a register frame of 32 words
    saved at [ef], [xprint_s_exception] prints what the cause is (by the table of
    causes [cause_said], an interrupt or an unknown cause included), the mode
    the exception came from ([sstatus.SPP]) and the value of every register of
    the frame, where the trap entry stored it, and of the three CSRs, each at
    its label in eight hexadecimal digits; it returns, and changes nothing but the console. *)
Theorem exception_reported {S} `{!HasMem S} `{!HasUart S} `{!MemUart S} c ef ws (s : S) :
  ef mod 4 = 0 -> length ws = 32%nat -> words_at (mem_of s) ef ws ->
  xprint_s_exception c ef s =
  Ok tt (emit (wire (report_head (cause_said (scause c))
      (if Z.testbit (sstatus c) 8 then str "Supervisor" else str "User") ++
    report ws (sstatus c) (scause c) (stval c))) s).
Proof.
  intros Hef Hlen Hw. rewrite (s_exception_ok ef ws Hef Hlen c s Hw). unfold spp_said, mode_text.
  by destruct (Z.testbit (sstatus c) 8).
Qed.

Definition demo_frame : list Z := map (fun i => 0x100 * Z.of_nat i + 0xA0) (seq 0 32).
Definition demo_report_state : mem * uart :=
  (mem_lit 0x1000 (concat (map (le_bytes 4) demo_frame)), {| u_stalls := [3]; u_out := [] |}).

Lemma exception_reported_witness :
  xprint_s_exception {| sstatus := 0x100; scause := 13; stval := 0xBAD |} 0x1000 demo_report_state =
  Ok tt (emit (wire (str "** Load Page Fault (in Supervisor mode)" ++ nl ++ nl ++
    str "pc 000010a0 ra 000000a0 sp 000011a0 gp 000012a0  xstatus 00000100" ++ nl ++
    str "tp 000013a0 t0 000001a0 t1 000002a0 t2 000003a0  xcause  0000000d" ++ nl ++
    str "fp 000014a0 s1 000015a0 a0 000008a0 a1 000009a0  xtval   00000bad" ++ nl ++
    str "a2 00000aa0 a3 00000ba0 a4 00000ca0 a5 00000da0" ++ nl ++
    str "a6 00000ea0 a7 00000fa0 s2 000016a0 s3 000017a0" ++ nl ++
    str "s4 000018a0 s5 000019a0 s6 00001aa0 s7 00001ba0" ++ nl ++
    str "s8 00001ca0 s9 00001da0 10 00001ea0 11 00001fa0" ++ nl ++
    str "t3 000004a0 t4 000005a0 t5 000006a0 t6 000007a0" ++ nl)) demo_report_state).
Proof.
  rewrite (exception_reported {| sstatus := 0x100; scause := 13; stval := 0xBAD |} 0x1000 demo_frame
    demo_report_state) by by_decide.
  by vm_compute.
Defined.
