(* ===== verification/Vmm.v ===== *)
(** * X/OS virtual memory manager (xos/src/vmm.c, xos/src/kernel.h)

    [kernel] is the state of the X/OS kernel: RAM (addressed by kernel virtual
    address, the direct map at [KVA_BASE]), the console, the globals of vmm.c
    and kernel.c, and the privileged operations issued so far, in order.

    The specification of a page table is the Sv32 page walk, [walk]: what
    physical address and which flags the MMU gives a virtual address.
    [pt_inv] is the invariant of the tables the manager builds, and the
    theorems say what each operation does to [walk]. *)

From S2P Require Import Prelude Monad Hw Mem LibcMem LibcStr Uart Printf.

Record kernel := {
  k_mem : mem;
  k_uart : uart;
  pa_top : Z;
  pa_bottom : Z;
  kpgdir : Z;
  k_hw : list hwop;
}.

#[export] Program Instance kernel_HasMem : HasMem kernel :=
  {| mem_of := k_mem;
     with_mem m s := {| k_mem := m; k_uart := k_uart s; pa_top := pa_top s;
                        pa_bottom := pa_bottom s; kpgdir := kpgdir s; k_hw := k_hw s |} |}.
Next Obligation. done. Qed.
Next Obligation. done. Qed.
Next Obligation. by intros []. Qed.

#[export] Program Instance kernel_HasUart : HasUart kernel :=
  {| uart_of := k_uart;
     with_uart u s := {| k_mem := k_mem s; k_uart := u; pa_top := pa_top s;
                         pa_bottom := pa_bottom s; kpgdir := kpgdir s; k_hw := k_hw s |} |}.
Next Obligation. done. Qed.
Next Obligation. done. Qed.
Next Obligation. by intros []. Qed.

#[export] Instance kernel_MemUart : MemUart kernel.
Proof. intros u s. done. Qed.

Definition set_pa (bottom top : Z) (s : kernel) : kernel :=
  {| k_mem := k_mem s; k_uart := k_uart s; pa_top := top; pa_bottom := bottom;
     kpgdir := kpgdir s; k_hw := k_hw s |}.
Definition set_kpgdir (p : Z) (s : kernel) : kernel :=
  {| k_mem := k_mem s; k_uart := k_uart s; pa_top := pa_top s; pa_bottom := pa_bottom s;
     kpgdir := p; k_hw := k_hw s |}.
Definition hw_op (op : hwop) (s : kernel) : kernel :=
  {| k_mem := k_mem s; k_uart := k_uart s; pa_top := pa_top s; pa_bottom := pa_bottom s;
     kpgdir := kpgdir s; k_hw := k_hw s ++ [op] |}.

(** ** Constants *)

(* src/hw/inc/hw/riscv.h:156-156 *)
Definition PTE_V := 0x001.
(* src/hw/inc/hw/riscv.h:157-157 *)
Definition PTE_R := 0x002.
(* src/hw/inc/hw/riscv.h:158-158 *)
Definition PTE_W := 0x004.
(* src/hw/inc/hw/riscv.h:159-159 *)
Definition PTE_X := 0x008.
(* src/hw/inc/hw/riscv.h:160-160 *)
Definition PTE_U := 0x010.
(* src/hw/inc/hw/riscv.h:162-162 *)
Definition PTE_A := 0x040.
(* src/hw/inc/hw/riscv.h:163-163 *)
Definition PTE_D := 0x080.

(* src/xos/src/kernel.h:13-13 *)
Definition PAGE_SIZE := 4096.
(* src/xos/src/kernel.h:15-15 *)
Definition KVA_BASE := 0xC0000000.
(* src/xos/src/kernel.h:16-16 *)
Definition KPA_BASE := 0x40000000.

(* src/xos/inc/xos/status.h:8-8 *)
Definition XOS_OK := 0x0000.
(* src/xos/inc/xos/status.h:31-31 *)
Definition XOS_ERR_NOT_SUPPORTED := 0x0083.
(* src/xos/inc/xos/status.h:37-37 *)
Definition XOS_ERR_CONFLICT := 0x0085.
(* src/xos/inc/xos/status.h:44-44 *)
Definition XOS_ERR_BAD_PARAM := 0x0040.
(* src/xos/inc/xos/status.h:62-62 *)
Definition XOS_ERR_BAD_SYSCALL := 0x0046.

(* src/xos/src/kernel.h:38-38 *)
Definition USER_RW := Z.lor PTE_D (Z.lor PTE_A (Z.lor PTE_U (Z.lor PTE_R (Z.lor PTE_W PTE_V)))).
(* src/xos/src/kernel.h:39-39 *)
Definition USER_RX := Z.lor PTE_D (Z.lor PTE_A (Z.lor PTE_U (Z.lor PTE_R (Z.lor PTE_X PTE_V)))).
(* src/xos/src/kernel.h:40-40 *)
Definition USER_RWX := Z.lor PTE_D (Z.lor PTE_A (Z.lor PTE_U (Z.lor PTE_R (Z.lor PTE_W (Z.lor PTE_X PTE_V))))).
(* src/xos/src/kernel.h:42-42 *)
Definition KERNEL_RO := Z.lor PTE_D (Z.lor PTE_A (Z.lor PTE_R PTE_V)).
(* src/xos/src/kernel.h:43-43 *)
Definition KERNEL_RW := Z.lor PTE_D (Z.lor PTE_A (Z.lor PTE_R (Z.lor PTE_W PTE_V))).
(* src/xos/src/kernel.h:44-44 *)
Definition KERNEL_RX := Z.lor PTE_D (Z.lor PTE_A (Z.lor PTE_R (Z.lor PTE_X PTE_V))).

(** ** Operations *)

(* src/xos/src/kernel.h:21-23 *)
Definition pa_to_kva (pa : Z) : Z := u32 (pa + (KVA_BASE - KPA_BASE)).
(* src/xos/src/kernel.h:24-26 *)
Definition kva_to_pa (kva : Z) : Z := u32 (kva - (KVA_BASE - KPA_BASE)).

(* src/xos/src/kernel.c:171-174 *)
Definition panic {A} (msg : list Z) : M kernel A :=
  xprintf ([10] ++ str "** kernel panic: %s **" ++ [10]) [VaStr (Some msg)] ;;
  spin.

(* src/hw/inc/hw/intrinsics.h:80-82 *)
Definition tlb_flush_all : M kernel unit := modify (hw_op TlbFlush).

(* src/xos/src/vmm.c:11-14 *)
Definition vmm_init (start end_ : Z) : M kernel unit := modify (set_pa start end_).

(* src/xos/src/vmm.c:16-23 *)
Definition ppage_alloc_z : M kernel Z :=
  s <- get ;;
  (if pa_top s =? pa_bottom s then panic (str "out of physical pages") else ret tt) ;;
  modify (fun s => set_pa (pa_bottom s) (u32 (pa_top s - PAGE_SIZE)) s) ;;
  top <- gets pa_top ;;
  memset (pa_to_kva top) 0 PAGE_SIZE ;;
  gets pa_top.

(* src/xos/src/vmm.c:25-27 *)
Definition kpage_alloc_z : M kernel Z :=
  pa <- ppage_alloc_z ;;
  ret (pa_to_kva pa).

(* src/xos/src/vmm.c:29-29 *)
Definition PTE_PA (pte : Z) : Z := u32 (Z.shiftl (Z.land pte 0xFFFFFC00) 2).

(* src/xos/src/vmm.c:31-61 *)
Definition vm_map_4k (pdir va pa flags : Z) : M kernel Z :=
  let idx1 := Z.shiftr va 22 in
  let idx0 := Z.land (Z.shiftr va 12) 0x3FF in
  if negb (Z.land va 0x00000FFF =? 0) || negb (Z.land pa 0x00000FFF =? 0) then
    ret XOS_ERR_BAD_PARAM
  else
    let map_in ptbl :=
      pte <- load32 (ptbl + 4 * idx0) ;;
      if has PTE_V pte then ret 0xFFFFFFFF (* -1: 4KB page already here *)
      else
        store32 (ptbl + 4 * idx0)
          (Z.lor (Z.shiftr (Z.land pa 0xFFFFF000) 2) (Z.land flags 0x3FF)) ;;
        tlb_flush_all ;;
        ret XOS_OK in
    pte <- load32 (pdir + 4 * idx1) ;;
    if has PTE_V pte then
      if has (Z.lor PTE_X (Z.lor PTE_W PTE_R)) pte then ret XOS_ERR_CONFLICT
      else map_in (pa_to_kva (PTE_PA pte))
    else
      ptbl_pa <- ppage_alloc_z ;;
      store32 (pdir + 4 * idx1) (Z.lor (Z.shiftr ptbl_pa 2) PTE_V) ;;
      map_in (pa_to_kva ptbl_pa).

(* src/xos/src/vmm.c:63-78 *)
Definition vm_map_4m (pdir va pa flags : Z) : M kernel Z :=
  let idx1 := Z.shiftr va 22 in
  if negb (Z.land va 0x003FFFFF =? 0) || negb (Z.land pa 0x003FFFFF =? 0) then
    ret XOS_ERR_BAD_PARAM
  else
    pte <- load32 (pdir + 4 * idx1) ;;
    if has PTE_V pte then ret XOS_ERR_CONFLICT
    else
      store32 (pdir + 4 * idx1)
        (Z.lor (Z.shiftr (Z.land pa 0xFFFFF000) 2) (Z.land flags 0x3FF)) ;;
      tlb_flush_all ;;
      ret XOS_OK.

(** ** The Sv32 page walk *)

Definition entry (m : mem) (pdir i : Z) : Z := word m (pdir + 4 * i).

(** A leaf is readable or executable; a valid entry that is neither, and not
    writable, points to the next level. *)
Definition leaf (pte : Z) : bool := has PTE_R pte || has PTE_X pte.
Definition is_ptr (pte : Z) : bool := has PTE_V pte && negb (leaf pte) && negb (has PTE_W pte).
Definition table (pte : Z) : Z := pa_to_kva (PTE_PA pte).

(** The physical address and the flags of [va], or a page fault. *)
Definition walk (m : mem) (pdir va : Z) : option (Z * Z) :=
  let pte1 := entry m pdir (va / 0x400000) in
  if has PTE_V pte1 && leaf pte1 then
    (* a megapage must be aligned *)
    if PTE_PA pte1 mod 0x400000 =? 0 then Some (PTE_PA pte1 + va mod 0x400000, pte1 mod 0x400)
    else None
  else if is_ptr pte1 then
    let pte0 := entry m (table pte1) (va / 0x1000 mod 0x400) in
    if has PTE_V pte0 && leaf pte0 then Some (PTE_PA pte0 + va mod 0x1000, pte0 mod 0x400)
    else None
  else None.

(** A page of RAM at kernel address [a]. *)
Definition page_ok (m : mem) (a : Z) : Prop :=
  0 <= a < 0x100000000 /\ a mod 0x1000 = 0 /\ mapped m a 0x1000.

(** The tables of [pdir] are pages of RAM, no two the same, and none of them is
    among the pages the allocator still has. *)
Record pt_inv (s : kernel) (pdir : Z) : Prop := {
  pt_root : page_ok (k_mem s) pdir;
  pt_table i : 0 <= i < 0x400 -> is_ptr (entry (k_mem s) pdir i) = true ->
    page_ok (k_mem s) (table (entry (k_mem s) pdir i)) /\
    table (entry (k_mem s) pdir i) <> pdir;
  pt_distinct i j : 0 <= i < 0x400 -> 0 <= j < 0x400 -> i <> j ->
    is_ptr (entry (k_mem s) pdir i) = true -> is_ptr (entry (k_mem s) pdir j) = true ->
    table (entry (k_mem s) pdir i) <> table (entry (k_mem s) pdir j);
  pt_range : 0 <= pa_bottom s <= pa_top s /\ pa_top s < 0x100000000 /\
    pa_bottom s mod 0x1000 = 0 /\ pa_top s mod 0x1000 = 0;
  pt_free p : pa_bottom s <= p < pa_top s -> p mod 0x1000 = 0 ->
    page_ok (k_mem s) (pa_to_kva p) /\ pa_to_kva p <> pdir;
  pt_free_table p i : pa_bottom s <= p < pa_top s -> p mod 0x1000 = 0 ->
    0 <= i < 0x400 -> is_ptr (entry (k_mem s) pdir i) = true ->
    table (entry (k_mem s) pdir i) <> pa_to_kva p;
}.

(** ** Page table entries *)

Lemma pages_aligned va : Z.land va 0x00000FFF = va mod 0x1000.
Proof. apply land_FFF. Qed.

Lemma idx1_eq va : Z.shiftr va 22 = va / 0x400000.
Proof. by rewrite Z.shiftr_div_pow2. Qed.

Lemma idx0_eq va : Z.land (Z.shiftr va 12) 0x3FF = va / 0x1000 mod 0x400.
Proof. by rewrite land_3FF, Z.shiftr_div_pow2. Qed.

(** The entry that maps [pa] with [flags]. *)
Lemma pte_value pa flags :
  is_u32 pa -> pa mod 0x1000 = 0 ->
  Z.lor (Z.shiftr (Z.land pa 0xFFFFF000) 2) (Z.land flags 0x3FF) = pa / 4 + flags mod 0x400.
Proof.
  intros Hu Ha. rewrite land_3FF, Z.shiftr_div_pow2 by lia.
  rewrite (land_high pa 0xFFFFF000 12) by (lia || done).
  change (2 ^ 12) with 0x1000. change (2 ^ 2) with 4. rewrite Ha, Z.sub_0_r.
  apply (lor_low _ _ 10); [lia| |]; change (2 ^ 10) with 0x400; zarith.
Qed.

Lemma ptr_value pa :
  is_u32 pa -> pa mod 0x1000 = 0 -> Z.lor (Z.shiftr pa 2) PTE_V = pa / 4 + 1.
Proof.
  intros Hu Ha. rewrite Z.shiftr_div_pow2 by lia. change (2 ^ 2) with 4.
  apply (lor_low _ _ 10); [lia| |]; change (2 ^ 10) with 0x400; unfold PTE_V; zarith.
Qed.

(** The two fields of such an entry. *)
Section pte.
Context (pa f : Z) (Hu : is_u32 pa) (Ha : pa mod 0x1000 = 0) (Hf : 0 <= f < 0x400).

Lemma pte_u32 : is_u32 (pa / 4 + f).
Proof. zarith. Qed.

Lemma PTE_PA_value : PTE_PA (pa / 4 + f) = pa.
Proof.
  unfold PTE_PA. rewrite (land_high _ 0xFFFFFC00 10) by (lia || done || apply pte_u32).
  change (2 ^ 10) with 0x400. rewrite Z.shiftl_mul_pow2 by lia. change (2 ^ 2) with 4. zarith.
Qed.

Lemma pte_flags : (pa / 4 + f) mod 0x400 = f.
Proof. zarith. Qed.
End pte.

(** A flag test sees the low ten bits only. *)
Lemma has_low f x : 0 <= f < 0x400 -> has f x = has f (x mod 0x400).
Proof.
  intros Hf. unfold has. do 2 f_equal.
  rewrite <- land_3FF, <- Z.land_assoc. f_equal. symmetry. rewrite Z.land_comm, land_3FF.
  by apply Z.mod_small.
Qed.

Lemma leaf_low x : leaf x = leaf (x mod 0x400).
Proof. unfold leaf. by rewrite !(has_low _ x) by (unfold PTE_R, PTE_X; lia). Qed.

Lemma is_ptr_low x : is_ptr x = is_ptr (x mod 0x400).
Proof.
  unfold is_ptr. rewrite leaf_low. by rewrite !(has_low _ x) by (unfold PTE_V, PTE_W; lia).
Qed.

Lemma not_leaf_not_ptr pte :
  has PTE_V pte = true -> has (Z.lor PTE_X (Z.lor PTE_W PTE_R)) pte = negb (is_ptr pte).
Proof.
  intros Hv. unfold is_ptr, leaf. rewrite Hv, !has_lor_flag. btauto.
Qed.

Lemma not_V_not_ptr pte : has PTE_V pte = false -> is_ptr pte = false.
Proof. intros Hv. unfold is_ptr. by rewrite Hv. Qed.

Lemma is_ptr_0 : is_ptr 0 = false.
Proof. done. Qed.

Lemma has_0 f : has f 0 = false.
Proof. unfold has. by rewrite Z.land_0_l. Qed.

(** Kernel and physical addresses. *)
Lemma pa_to_kva_page p : is_u32 p -> p mod 0x1000 = 0 -> pa_to_kva p mod 0x1000 = 0.
Proof. intros. unfold pa_to_kva, KVA_BASE, KPA_BASE. zarith. Qed.

Lemma pa_to_kva_inj p q : is_u32 p -> is_u32 q -> pa_to_kva p = pa_to_kva q -> p = q.
Proof. unfold pa_to_kva, KVA_BASE, KPA_BASE. zarith. Qed.

Lemma kva_to_pa_to_kva a : is_u32 a -> pa_to_kva (kva_to_pa a) = a.
Proof. unfold pa_to_kva, kva_to_pa, KVA_BASE, KPA_BASE. zarith. Qed.

(** ** Frames of the walk *)

Lemma index_range va : is_u32 va -> 0 <= va / 0x400000 < 0x400.
Proof. zarith. Qed.

Lemma index0_range va : 0 <= va / 0x1000 mod 0x400 < 0x400.
Proof. zarith. Qed.

Lemma entry_mapped m a i : page_ok m a -> 0 <= i < 0x400 -> mapped m (a + 4 * i) 4.
Proof. intros (_ & _ & H) Hi. eapply mapped_sub; [exact H|lia..]. Qed.

Lemma entry_aligned m a i : page_ok m a -> (a + 4 * i) mod 4 = 0.
Proof. intros (_ & H & _). zarith. Qed.

Lemma page_ok_write m a l b : page_ok m a -> page_ok (write_bytes m b l) a.
Proof. intros (? & ? & ?). split; [done|split; [done|by apply mapped_write]]. Qed.

(** A store into one page is not seen in another. *)
Lemma entry_write_other_page m a b i j l :
  a mod 0x1000 = 0 -> b mod 0x1000 = 0 -> a <> b -> 0 <= i < 0x400 ->
  0 <= j -> j + Z.of_nat (length l) <= 0x1000 ->
  entry (write_bytes m (b + j) l) a i = entry m a i.
Proof. intros. unfold entry. apply word_write_other. zarith. Qed.

Lemma entry_write m a i j v :
  a mod 0x1000 = 0 -> is_u32 v ->
  entry (write_bytes m (a + 4 * j) (le_bytes 4 v)) a i = if decide (i = j) then v else entry m a i.
Proof.
  intros Ha Hv. unfold entry. rewrite word_write by zarith. rewrite (u32_small v) by done.
  repeat case_decide; lia || done.
Qed.

(** Same page of virtual addresses. *)
Lemma same_page va va' :
  va' / 0x1000 = va / 0x1000 <->
  va' / 0x400000 = va / 0x400000 /\ va' / 0x1000 mod 0x400 = va / 0x1000 mod 0x400.
Proof.
  change 0x400000 with (0x1000 * 0x400). rewrite <- !Z.div_div by lia.
  pose proof (Z.div_mod (va / 0x1000) 0x400). pose proof (Z.div_mod (va' / 0x1000) 0x400).
  split; [by intros ->|]. lia.
Qed.

(** ** The invariant *)

(** Writes that leave the entries of the directory alone keep the invariant. *)
Lemma pt_inv_same s s' pdir :
  pt_inv s pdir -> pa_top s' = pa_top s -> pa_bottom s' = pa_bottom s ->
  (forall i, 0 <= i < 0x400 -> entry (k_mem s') pdir i = entry (k_mem s) pdir i) ->
  (forall a, page_ok (k_mem s) a -> page_ok (k_mem s') a) -> pt_inv s' pdir.
Proof.
  intros [Hr Ht Hd Hra Hf Hft] E1 E2 He Hm. constructor.
  - auto.
  - intros i Hi. rewrite He by done. intros Hp. destruct (Ht i Hi Hp). auto.
  - intros i j Hi Hj. rewrite !He by done. auto.
  - by rewrite E1, E2.
  - intros p. rewrite E1, E2. intros Hp Ha. destruct (Hf p Hp Ha). auto.
  - intros p i. rewrite E1, E2. intros Hp Ha Hi. rewrite He by done. auto.
Qed.

Lemma walk_same m m' pdir va :
  is_u32 va ->
  entry m' pdir (va / 0x400000) = entry m pdir (va / 0x400000) ->
  (is_ptr (entry m pdir (va / 0x400000)) = true ->
   entry m' (table (entry m pdir (va / 0x400000))) (va / 0x1000 mod 0x400) =
   entry m (table (entry m pdir (va / 0x400000))) (va / 0x1000 mod 0x400)) ->
  walk m' pdir va = walk m pdir va.
Proof.
  intros Hva E1 E2. unfold walk. rewrite E1. destruct (_ && _); [done|].
  destruct (is_ptr _); [|done]. by rewrite E2.
Qed.

(** Nothing is mapped at [va]. *)
Definition vacant (m : mem) (pdir va : Z) : Prop :=
  let e := entry m pdir (va / 0x400000) in
  has PTE_V e = false \/
  (is_ptr e = true /\ has PTE_V (entry m (table e) (va / 0x1000 mod 0x400)) = false).

(** A page at kernel address [a] that somebody else holds: it is not the
    directory, not a table, and not among the pages the allocator has. *)
Definition held (s : kernel) (pdir a : Z) : Prop :=
  a mod 0x1000 = 0 /\ a <> pdir /\
  (forall i, 0 <= i < 0x400 -> is_ptr (entry (k_mem s) pdir i) = true -> table (entry (k_mem s) pdir i) <> a) /\
  (forall p, pa_bottom s <= p < pa_top s -> p mod 0x1000 = 0 -> pa_to_kva p <> a).

Definition same_bytes (m m' : mem) (a : Z) : Prop := forall b, a <= b < a + 0x1000 -> m' !! b = m !! b.

(** Pages that are held stay so, with their contents. *)
Definition keeps_pages (pdir : Z) (s s' : kernel) : Prop :=
  forall a, held s pdir a -> held s' pdir a /\ same_bytes (k_mem s) (k_mem s') a.

#[export] Instance keeps_pages_preorder pdir : PreOrder (keeps_pages pdir).
Proof.
  split; [done|]. intros s1 s2 s3 H1 H2 a Ha. destruct (H1 a Ha) as [Ha2 B1]. destruct (H2 a Ha2) as [Ha3 B2].
  split; [done|]. intros b Hb. rewrite (B2 b Hb). by apply B1.
Qed.

Lemma same_bytes_write m a t j l :
  a mod 0x1000 = 0 -> t mod 0x1000 = 0 -> a <> t -> 0 <= j -> j + Z.of_nat (length l) <= 0x1000 ->
  same_bytes m (write_bytes m (t + j) l) a.
Proof. intros Ha Ht Hne Hj Hl b Hb. rewrite lookup_write_bytes, decide_False; [done|]. zarith. Qed.

(** A change of the state that leaves the directory alone and writes other pages. *)
Lemma keeps_pages_same pdir s s' :
  (forall i, 0 <= i < 0x400 -> entry (k_mem s') pdir i = entry (k_mem s) pdir i) ->
  pa_top s' = pa_top s -> pa_bottom s' = pa_bottom s ->
  (forall a, held s pdir a -> same_bytes (k_mem s) (k_mem s') a) -> keeps_pages pdir s s'.
Proof.
  intros He Et Eb Hb a Ha. split; [|by apply Hb]. destruct Ha as (H1 & H2 & H3 & H4).
  split; [done|]. split; [done|]. split.
  - intros i Hi. rewrite He by done. by apply H3.
  - intros p. rewrite Et, Eb. apply H4.
Qed.

(** What mapping the page of [va] does to the rest: one page is taken if there
    was no table, the other directory entries stay, and so do the holes and the
    pages of others. *)
Record map_effect (s s' : kernel) (pdir va : Z) : Prop := {
  me_uart : k_uart s' = k_uart s;
  me_kpgdir : kpgdir s' = kpgdir s;
  me_bottom : pa_bottom s' = pa_bottom s;
  me_top : pa_top s' =
    pa_top s - (if is_ptr (entry (k_mem s) pdir (va / 0x400000)) then 0 else 0x1000);
  me_ptr : is_ptr (entry (k_mem s') pdir (va / 0x400000)) = true;
  me_dir i : 0 <= i < 0x400 -> i <> va / 0x400000 ->
    entry (k_mem s') pdir i = entry (k_mem s) pdir i;
  me_vacant va' : is_u32 va' -> va' / 0x1000 <> va / 0x1000 ->
    vacant (k_mem s) pdir va' -> vacant (k_mem s') pdir va';
  me_pages : keeps_pages pdir s s';
}.

(** Fill the slot of [va] in the table its directory entry points to. *)
Section slot.
Context (s : kernel) (pdir va pa flags : Z).
Context (Hinv : pt_inv s pdir) (Hva : is_u32 va) (Hva0 : va mod 0x1000 = 0).
Context (Hpa : is_u32 pa) (Hpa0 : pa mod 0x1000 = 0).
Context (Hleaf : leaf flags = true) (HV : has PTE_V flags = true).

Let e := entry (k_mem s) pdir (va / 0x400000).
Let idx0 := va / 0x1000 mod 0x400.
Let pte := pa / 4 + flags mod 0x400.
Context (He : is_ptr e = true).
Let m' := write_bytes (k_mem s) (table e + 4 * idx0) (le_bytes 4 pte).
Let s' := hw_op TlbFlush (poke s (table e + 4 * idx0) (le_bytes 4 pte)).

Lemma slot_table : page_ok (k_mem s) (table e) /\ table e <> pdir.
Proof. apply (pt_table s pdir Hinv); [by apply index_range|done]. Qed.

Lemma slot_dir i : 0 <= i < 0x400 -> entry m' pdir i = entry (k_mem s) pdir i.
Proof.
  intros Hi. destruct slot_table as [(_ & Ht & _) Hne]. destruct (pt_root s pdir Hinv) as (_ & Hr & _).
  pose proof (index0_range va).
  apply entry_write_other_page; [done|done|by apply not_eq_sym|done| |rewrite length_le_bytes];
    unfold idx0; lia.
Qed.

Lemma slot_inv : pt_inv s' pdir.
Proof.
  apply (pt_inv_same s); [done..| |].
  - exact slot_dir.
  - intros a. apply page_ok_write.
Qed.

Lemma slot_walk va' :
  is_u32 va' ->
  walk (k_mem s') pdir va' =
  if decide (va' / 0x1000 = va / 0x1000) then Some (pa + va' mod 0x1000, flags mod 0x400)
  else walk (k_mem s) pdir va'.
Proof.
  intros Hva'. change (k_mem s') with m'. destruct slot_table as [(Hte & Ht & Htm) Hne].
  pose proof (index0_range va) as Hi0. pose proof (index0_range va') as Hi0'.
  pose proof (index_range va Hva). pose proof (index_range va' Hva').
  assert (0 <= flags mod 0x400 < 0x400) as Hf by (apply Z.mod_pos_bound; lia).
  assert (forall j, entry m' (table e) j = if decide (j = idx0) then pte else entry (k_mem s) (table e) j)
    as Hslot by (intros j; apply entry_write; [done|by apply pte_u32]).
  case_decide as Hp; rewrite same_page in Hp.
  - destruct Hp as [E1 E2]. unfold walk. rewrite E1, E2, slot_dir by done. fold e.
    assert (has PTE_V e && leaf e = false) as ->.
    { unfold is_ptr in He. destruct (has PTE_V e), (leaf e); done. }
    rewrite He, Hslot, decide_True by done.
    rewrite has_low, leaf_low by (unfold PTE_V; lia). unfold pte.
    rewrite pte_flags, PTE_PA_value by done.
    rewrite <- has_low, <- leaf_low by (unfold PTE_V; lia). by rewrite HV, Hleaf.
  - apply walk_same; [done|by apply slot_dir|]. intros Hptr.
    destruct (decide (va' / 0x400000 = va / 0x400000)) as [E|E].
    + rewrite E in *. fold e. rewrite Hslot. case_decide; [|done]. exfalso. apply Hp. auto.
    + apply entry_write_other_page; [| done | | done | unfold idx0; lia |].
      * by destruct (pt_table s pdir Hinv _ H0 Hptr) as [(_ & ? & _) _].
      * apply (pt_distinct s pdir Hinv); done.
      * rewrite length_le_bytes. unfold idx0. lia.
Qed.

Lemma slot_effect : map_effect s s' pdir va.
Proof.
  pose proof (index_range va Hva) as Hi. pose proof (index0_range va) as Hi0.
  destruct slot_table as [(Hte & Ht & Htm) Hne].
  assert (forall j, entry m' (table e) j = if decide (j = idx0) then pte else entry (k_mem s) (table e) j)
    as Hslot.
  { intros j. apply entry_write; [done|apply pte_u32; [done..|]; apply Z.mod_pos_bound; lia]. }
  constructor; try done.
  - fold e. rewrite He. cbn. lia.
  - change (k_mem s') with m'. by rewrite slot_dir.
  - intros i Hi' _. by apply slot_dir.
  - intros va' Hva' Hp. rewrite same_page in Hp. unfold vacant.
    pose proof (index_range va' Hva') as Hi'. pose proof (index0_range va') as Hi0'.
    change (k_mem s') with m'. rewrite slot_dir by done.
    intros [HV'|[Hptr Hv]]; [by left|]. right. split; [done|]. rewrite <- Hv. f_equal.
    destruct (decide (va' / 0x400000 = va / 0x400000)) as [E|E].
    + rewrite E in *. fold e. rewrite Hslot. case_decide; [|done]. exfalso. apply Hp. auto.
    + apply entry_write_other_page; [| done | | done | unfold idx0; lia |].
      * by destruct (pt_table s pdir Hinv _ Hi' Hptr) as [(_ & ? & _) _].
      * apply (pt_distinct s pdir Hinv); done.
      * rewrite length_le_bytes. unfold idx0. lia.
  - apply keeps_pages_same; [exact slot_dir|done..|]. intros a (Ha & _ & Ha2 & _).
    apply same_bytes_write; [done..| | |rewrite length_le_bytes]; [|unfold idx0; lia..].
    apply not_eq_sym, Ha2; [by apply index_range|done].
Qed.
End slot.

(** ** The physical page allocator *)

Definition panic_text (msg : list Z) : list Z := [10] ++ str "** kernel panic: " ++ msg ++ str " **" ++ [10].

Lemma panic_ok {A} msg (s : kernel) :
  Forall (fun c => c <> 0) msg -> (length msg < 1000)%nat ->
  panic (A := A) msg s = Halt (emit (wire (printed (panic_text msg))) s).
Proof.
  intros Hm Hl. unfold panic, xprintf.
  set (ds := [([10] ++ str "** kernel panic: ",
    {| d_left := false; d_plus := false; d_space := false; d_alt := false; d_zero := false;
       d_width := 0; d_conv := CString |})]).
  change ([10] ++ str "** kernel panic: %s **" ++ [10]) with (unparse ds (str " **" ++ [10])).
  assert (until_nul msg = msg) as Hu.
  { induction Hm as [|c l Hc _ IH]; [done|]. cbn [until_nul].
    rewrite (proj2 (Z.eqb_neq _ _) Hc), IH; [done|]. cbn in Hl. lia. }
  assert (render ds (str " **" ++ [10]) [VaStr (Some msg)] = Some (panic_text msg)) as Hr.
  { unfold ds. cbn [render render_directive d_conv from_option option_map].
    unfold justify. cbn [d_left d_width andb]. rewrite Hu.
    unfold spaces. cbn [length d_width].
    by replace (Z.to_nat (0 - Z.of_nat 0 - Z.of_nat (length msg))) with 0%nat by lia. }
  assert (Z.of_nat (length (panic_text msg)) < 2 ^ 31) as Hlen.
  { unfold panic_text. rewrite !length_app. cbn [length]. change (length (str "** kernel panic: ")) with 17%nat.
    change (length (str " **")) with 3%nat. lia. }
  assert (well_formed ds (str " **" ++ [10])) as Hwf by by_decide.
  by step (vxprintf_ok ds _ _ _ s Hwf Hr Hlen ltac:(cbn; lia)).
Qed.

(** The state after taking the top page. *)
Definition page_taken (s : kernel) : kernel :=
  let p := pa_top s - 0x1000 in
  poke (set_pa (pa_bottom s) p s) (pa_to_kva p) (replicate 0x1000 0).

Lemma ppage_alloc_z_ok s :
  pa_top s <> pa_bottom s -> 0x1000 <= pa_top s < 0x100000000 ->
  mapped (k_mem s) (pa_to_kva (pa_top s - 0x1000)) 0x1000 ->
  ppage_alloc_z s = Ok (pa_top s - 0x1000) (page_taken s).
Proof.
  intros Hne Ht Hm. unfold ppage_alloc_z. unfold get at 1, bind at 1.
  rewrite (proj2 (Z.eqb_neq _ _) Hne). rewrite bind_ret. unfold modify at 1, bind at 1.
  unfold gets at 1, bind at 1. cbn [pa_top set_pa].
  change PAGE_SIZE with 0x1000. rewrite u32_small by (unfold is_u32; lia).
  set (s1 := set_pa _ _ s).
  assert (mapped (mem_of s1) (pa_to_kva (pa_top s - 0x1000)) 0x1000) as Hm1 by exact Hm.
  step (memset_ok (pa_to_kva (pa_top s - 0x1000)) 0 0x1000 s1 ltac:(lia) Hm1). done.
Qed.

Lemma ppage_alloc_z_empty s :
  pa_top s = pa_bottom s ->
  ppage_alloc_z s = Halt (emit (wire (printed (panic_text (str "out of physical pages")))) s).
Proof.
  intros He. unfold ppage_alloc_z. unfold get at 1, bind at 1. rewrite He, Z.eqb_refl.
  unfold bind at 1. rewrite panic_ok; [done|by repeat constructor|by vm_compute; lia].
Qed.

(** Give the directory a fresh, empty table for [va]. *)
Section fresh_table.
Context (s : kernel) (pdir va : Z).
Context (Hinv : pt_inv s pdir) (Hva : is_u32 va).
Context (Hpages : pa_bottom s < pa_top s).
Context (HnV : has PTE_V (entry (k_mem s) pdir (va / 0x400000)) = false).

Let p := pa_top s - 0x1000.
Let idx1 := va / 0x400000.
Let s1 := page_taken s.
Definition table_added : kernel := poke (page_taken s) (pdir + 4 * idx1) (le_bytes 4 (p / 4 + 1)).
Let s2 := table_added.

Lemma fresh_page : pa_bottom s <= p < pa_top s /\ p mod 0x1000 = 0 /\ is_u32 p.
Proof. clear Hva. destruct (pt_range s pdir Hinv) as (? & ? & ? & ?). unfold p. zarith. Qed.

Lemma fresh_kva : page_ok (k_mem s) (pa_to_kva p) /\ pa_to_kva p <> pdir.
Proof. destruct fresh_page as (? & ? & ?). by apply (pt_free s pdir Hinv). Qed.

Lemma fresh_page_ok a : page_ok (k_mem s) a -> page_ok (k_mem s2) a.
Proof. intros Ha. apply page_ok_write, page_ok_write, Ha. Qed.

(** Zeroing the fresh page is not seen in the directory or in a table. *)
Lemma fresh_zero_other a i :
  a mod 0x1000 = 0 -> a <> pa_to_kva p -> 0 <= i < 0x400 ->
  entry (k_mem s1) a i = entry (k_mem s) a i.
Proof.
  intros Ha Hne Hi. destruct fresh_kva as [(_ & Hk & _) _].
  change (k_mem s1) with (write_bytes (k_mem s) (pa_to_kva p) (replicate 0x1000 0)).
  replace (pa_to_kva p) with (pa_to_kva p + 0) by lia.
  by apply entry_write_other_page; rewrite ?length_replicate.
Qed.

Lemma fresh_dir i :
  0 <= i < 0x400 ->
  entry (k_mem s2) pdir i = if decide (i = idx1) then p / 4 + 1 else entry (k_mem s) pdir i.
Proof.
  intros Hi. destruct (pt_root s pdir Hinv) as (_ & Hr & _). destruct fresh_kva as [_ Hk].
  destruct fresh_page as (_ & Hp0 & Hp).
  change (k_mem s2) with (write_bytes (k_mem s1) (pdir + 4 * idx1) (le_bytes 4 (p / 4 + 1))).
  rewrite entry_write by (done || apply pte_u32; (done || lia)).
  case_decide; [done|]. apply fresh_zero_other; [done|by apply not_eq_sym|done].
Qed.

Lemma fresh_other a i :
  a mod 0x1000 = 0 -> a <> pa_to_kva p -> a <> pdir -> 0 <= i < 0x400 ->
  entry (k_mem s2) a i = entry (k_mem s) a i.
Proof.
  intros Ha H1 H2 Hi. destruct (pt_root s pdir Hinv) as (_ & Hr & _).
  pose proof (index_range va Hva).
  change (k_mem s2) with (write_bytes (k_mem s1) (pdir + 4 * idx1) (le_bytes 4 (p / 4 + 1))).
  rewrite entry_write_other_page; [by apply fresh_zero_other|done..| |rewrite length_le_bytes];
    unfold idx1; lia.
Qed.

Lemma fresh_empty i : 0 <= i < 0x400 -> entry (k_mem s2) (pa_to_kva p) i = 0.
Proof.
  intros Hi. destruct fresh_kva as [(_ & Hk & _) Hne]. destruct (pt_root s pdir Hinv) as (_ & Hr & _).
  pose proof (index_range va Hva).
  change (k_mem s2) with (write_bytes (k_mem s1) (pdir + 4 * idx1) (le_bytes 4 (p / 4 + 1))).
  rewrite entry_write_other_page; [|done..| |rewrite length_le_bytes]; [|unfold idx1; lia..].
  change (k_mem s1) with (write_bytes (k_mem s) (pa_to_kva p) (replicate 0x1000 0)).
  unfold entry. apply word_write_zeros; lia.
Qed.

Lemma fresh_ptr : is_ptr (p / 4 + 1) = true /\ table (p / 4 + 1) = pa_to_kva p.
Proof.
  destruct fresh_page as (_ & Hp0 & Hp). split.
  - by rewrite is_ptr_low, pte_flags by (done || lia).
  - unfold table. by rewrite PTE_PA_value by (done || lia).
Qed.

Lemma fresh_inv : pt_inv s2 pdir.
Proof.
  destruct fresh_page as (Hp & Hp0 & Hpu), fresh_kva as [Hk Hne], fresh_ptr as [Hptr Htab].
  destruct (pt_range s pdir Hinv) as (Hb & Hu & Hb0 & Ht0).
  constructor.
  - apply fresh_page_ok, (pt_root s pdir Hinv).
  - intros i Hi. rewrite fresh_dir by done. case_decide.
    + intros _. rewrite Htab. split; [by apply fresh_page_ok|done].
    + intros Hi'. destruct (pt_table s pdir Hinv i Hi Hi'). auto using fresh_page_ok.
  - intros i j Hi Hj Hij. rewrite !fresh_dir by done.
    repeat case_decide; subst; try done; intros H1 H2; rewrite ?Htab.
    + apply not_eq_sym. by apply (pt_free_table s pdir Hinv).
    + by apply (pt_free_table s pdir Hinv).
    + by apply (pt_distinct s pdir Hinv).
  - cbn. fold p. zarith.
  - cbn [pa_bottom pa_top]. intros q Hq Hq0. change (pa_top s2) with p in Hq.
    change (pa_bottom s2) with (pa_bottom s) in Hq.
    destruct (pt_free s pdir Hinv q ltac:(lia) Hq0). auto using fresh_page_ok.
  - intros q i Hq Hq0 Hi. change (pa_top s2) with p in Hq. change (pa_bottom s2) with (pa_bottom s) in Hq.
    rewrite fresh_dir by done. case_decide.
    + intros _. rewrite Htab. intros E. apply pa_to_kva_inj in E; unfold is_u32 in *; lia.
    + intros Hi'. apply (pt_free_table s pdir Hinv); [lia|done..].
Qed.

Lemma fresh_walk va' : is_u32 va' -> walk (k_mem s2) pdir va' = walk (k_mem s) pdir va'.
Proof.
  intros Hva'. pose proof (index_range va' Hva') as Hi. pose proof (index0_range va') as Hi0.
  destruct fresh_ptr as [Hptr Htab]. destruct fresh_page as (Hp & Hp0 & Hpu).
  destruct (decide (va' / 0x400000 = idx1)) as [E|E].
  - unfold walk. rewrite fresh_dir, decide_True by done.
    rewrite E. unfold idx1. rewrite HnV, (not_V_not_ptr (entry (k_mem s) pdir (va / 0x400000))) by done. rewrite Hptr, Htab, fresh_empty by done.
    assert (leaf (p / 4 + 1) = false) as -> by by rewrite leaf_low, pte_flags by (done || lia).
    by rewrite andb_false_r, has_0.
  - apply walk_same; [done| |].
    + by rewrite fresh_dir, decide_False by done.
    + intros Hp'. destruct (pt_table s pdir Hinv _ Hi Hp') as [(_ & Ht & _) Hne].
      apply fresh_other; try done. by apply (pt_free_table s pdir Hinv).
Qed.

Lemma fresh_vacant va' : is_u32 va' -> vacant (k_mem s) pdir va' -> vacant (k_mem s2) pdir va'.
Proof.
  intros Hva'. pose proof (index_range va' Hva') as Hi. pose proof (index0_range va') as Hi0.
  destruct fresh_ptr as [Hptr Htab]. unfold vacant. rewrite fresh_dir by done. case_decide as E.
  - intros _. right. by rewrite Hptr, Htab, fresh_empty, has_0.
  - intros [HV|[Hp Hv]]; [by left|]. right. split; [done|]. rewrite <- Hv. f_equal.
    destruct (pt_table s pdir Hinv _ Hi Hp) as [(_ & Ht & _) Hne].
    destruct fresh_page as (Hpr & Hp0 & Hpu).
    apply fresh_other; try done. by apply (pt_free_table s pdir Hinv).
Qed.

Lemma taken_bytes a : held s pdir a -> same_bytes (k_mem s) (k_mem s1) a.
Proof.
  intros (Ha & _ & _ & Hf). destruct fresh_kva as [(_ & Hk & _) _]. destruct fresh_page as (Hp & Hp0 & _).
  change (k_mem s1) with (write_bytes (k_mem s) (pa_to_kva p) (replicate 0x1000 0)).
  replace (pa_to_kva p) with (pa_to_kva p + 0) by lia.
  apply same_bytes_write; [done|done| |lia|by rewrite length_replicate]. by apply not_eq_sym, Hf.
Qed.

Lemma fresh_pages : keeps_pages pdir s s2.
Proof.
  destruct fresh_page as (Hp & Hp0 & Hpu), fresh_ptr as [Hptr Htab]. destruct (pt_root s pdir Hinv) as (_ & Hr & _).
  pose proof (index_range va Hva) as Hi. intros a Hh. pose proof (taken_bytes a Hh) as Hb. destruct Hh as (H1 & H2 & H3 & H4).
  split; [split; [done|split; [done|split]]|].
  - intros i Hi'. rewrite fresh_dir by done. case_decide; [|by apply H3]. intros _. rewrite Htab. by apply H4.
  - intros q Hq. change (pa_top s2) with p in Hq. change (pa_bottom s2) with (pa_bottom s) in Hq. apply H4. lia.
  - intros b Hb'. rewrite <- (Hb b Hb'). change (k_mem s2) with (write_bytes (k_mem s1) (pdir + 4 * idx1) (le_bytes 4 (p / 4 + 1))).
    apply (same_bytes_write (k_mem s1) a); [done|done|done|unfold idx1; lia|rewrite length_le_bytes; unfold idx1; lia|done].
Qed.
End fresh_table.

(** ** vm_map_4k and vm_map_4m *)

(** A page can be mapped at [va]: nothing is there, and if a table is needed
    there is a page for it. *)
Definition slot_free (s : kernel) (pdir va : Z) : Prop :=
  vacant (k_mem s) pdir va /\
  (has PTE_V (entry (k_mem s) pdir (va / 0x400000)) = false -> pa_bottom s < pa_top s).

Section map.
Context (s : kernel) (pdir va pa flags : Z).
Context (Hinv : pt_inv s pdir) (Hva : is_u32 va) (Hpa : is_u32 pa).

Let e := entry (k_mem s) pdir (va / 0x400000).

Lemma load_dir : load32 (pdir + 4 * (va / 0x400000)) s = Ok e s.
Proof.
  pose proof (pt_root s pdir Hinv) as Hr. pose proof (index_range va Hva) as Hi.
  rewrite load32_ok; [done|by apply entry_mapped|by eapply entry_aligned].
Qed.

Lemma load_slot s2 t :
  page_ok (k_mem s2) t ->
  load32 (t + 4 * (va / 0x1000 mod 0x400)) s2 = Ok (entry (k_mem s2) t (va / 0x1000 mod 0x400)) s2.
Proof.
  intros Ht. pose proof (index0_range va) as Hi.
  rewrite load32_ok; [done|by apply entry_mapped|by eapply entry_aligned].
Qed.

Lemma store_slot s2 t v :
  page_ok (k_mem s2) t ->
  store32 (t + 4 * (va / 0x1000 mod 0x400)) v s2 =
  Ok tt (poke s2 (t + 4 * (va / 0x1000 mod 0x400)) (le_bytes 4 v)).
Proof.
  intros Ht. pose proof (index0_range va) as Hi.
  apply store_ok; [by apply entry_mapped|by eapply entry_aligned].
Qed.

Lemma store_dir s2 v :
  page_ok (k_mem s2) pdir ->
  store32 (pdir + 4 * (va / 0x400000)) v s2 = Ok tt (poke s2 (pdir + 4 * (va / 0x400000)) (le_bytes 4 v)).
Proof.
  intros Ht. pose proof (index_range va Hva) as Hi.
  apply store_ok; [by apply entry_mapped|by eapply entry_aligned].
Qed.

Lemma vm_map_4k_ok :
  va mod 0x1000 = 0 -> pa mod 0x1000 = 0 -> leaf flags = true -> has PTE_V flags = true ->
  slot_free s pdir va ->
  exists s', vm_map_4k pdir va pa flags s = Ok XOS_OK s' /\ pt_inv s' pdir /\
    k_hw s' = k_hw s ++ [TlbFlush] /\ map_effect s s' pdir va /\
    forall va', is_u32 va' ->
      walk (k_mem s') pdir va' =
      if decide (va' / 0x1000 = va / 0x1000) then Some (pa + va' mod 0x1000, flags mod 0x400)
      else walk (k_mem s) pdir va'.
Proof.
  intros Hva0 Hpa0 Hl HV Hfree. unfold vm_map_4k.
  rewrite pages_aligned, pages_aligned, Hva0, Hpa0, idx1_eq, idx0_eq, pte_value by done.
  cbn [Z.eqb negb orb]. step load_dir. pose proof (index_range va Hva) as Hi.
  pose proof (index0_range va) as Hi0. unfold slot_free, vacant in Hfree. fold e in Hfree.
  destruct Hfree as [[HnV|[Hptr Hslot]] Hpages]; [specialize (Hpages HnV)|clear Hpages]; cycle 1.
  - assert (has PTE_V e = true) as HVe by (unfold is_ptr in Hptr; by destruct (has PTE_V e)).
    rewrite HVe, not_leaf_not_ptr, Hptr by done. cbn [negb].
    destruct (pt_table s pdir Hinv _ Hi Hptr) as [Ht _]. fold e in Ht.
    change (pa_to_kva (PTE_PA e)) with (table e).
    step (load_slot s (table e) Ht). rewrite Hslot.
    step (store_slot s (table e) (pa / 4 + flags mod 0x400) Ht).
    eexists. split; [reflexivity|]. split; [by apply slot_inv|]. split; [done|].
    split; [by apply slot_effect|]. intros va' Hva'. by apply slot_walk.
  - rewrite HnV. destruct (fresh_page s pdir va Hinv Hpages) as (Hp & Hp0 & Hpu).
    destruct (fresh_kva s pdir va Hinv Hpages) as [(Hk1 & Hk2 & Hk3) Hkne].
    destruct (pt_range s pdir Hinv) as (Hb & Hu & _ & _).
    assert (ppage_alloc_z s = Ok (pa_top s - 0x1000) (page_taken s)) as Ea
      by (apply ppage_alloc_z_ok; [lia|unfold is_u32 in *; lia|done]).
    step Ea. set (p := pa_top s - 0x1000) in *. rewrite ptr_value by done.
    assert (page_ok (k_mem (page_taken s)) pdir) as Hpd by (apply page_ok_write, (pt_root s pdir Hinv)).
    step (store_dir (page_taken s) (p / 4 + 1) Hpd).
    change (poke (page_taken s) (pdir + 4 * (va / 0x400000)) (le_bytes 4 (p / 4 + 1)))
      with (table_added s pdir va). set (s2 := table_added s pdir va).
    assert (page_ok (k_mem s2) (pa_to_kva p)) as Ht
      by by apply page_ok_write, page_ok_write.
    step (load_slot s2 (pa_to_kva p) Ht).
    rewrite (fresh_empty s pdir va Hinv Hva Hpages) by done. rewrite has_0.
    step (store_slot s2 (pa_to_kva p) (pa / 4 + flags mod 0x400) Ht).
    pose proof (fresh_inv s pdir va Hinv Hva Hpages) as Hinv2. fold s2 in Hinv2.
    destruct (fresh_ptr s pdir va Hinv Hpages) as [Hptr Htab]. fold p in Hptr, Htab.
    pose proof (fresh_dir s pdir va Hinv Hpages _ Hi) as Hdir. rewrite decide_True in Hdir by done.
    fold s2 p in Hdir. rewrite <- Htab. rewrite <- Hdir.
    eexists. split; [reflexivity|].
    assert (is_ptr (entry (k_mem s2) pdir (va / 0x400000)) = true) as Hptr2 by by rewrite Hdir.
    split; [by apply slot_inv|]. split; [done|]. split.
    + pose proof (slot_effect s2 pdir va pa flags Hinv2 Hva Hpa Hpa0 Hptr2) as [U K B T P D V G].
      set (s' := hw_op _ _) in *. constructor.
      * etransitivity; [exact U|reflexivity].
      * etransitivity; [exact K|reflexivity].
      * etransitivity; [exact B|reflexivity].
      * rewrite T, Hptr2. fold e. rewrite (not_V_not_ptr e HnV).
        change (pa_top s2) with (pa_top s - 0x1000). lia.
      * exact P.
      * intros i Hi' Hne. rewrite D by done. unfold s2. rewrite fresh_dir by done. by rewrite decide_False.
      * intros va' Hva' Hne Hvac. apply V; [done|done|]. by apply fresh_vacant.
      * exact (transitivity (R := keeps_pages pdir) (fresh_pages s pdir va Hinv Hva Hpages) G).
    + intros va' Hva'. rewrite slot_walk by done. case_decide; [done|]. by apply fresh_walk.
Qed.

Lemma vm_map_4k_out_of_pages :
  va mod 0x1000 = 0 -> pa mod 0x1000 = 0 -> has PTE_V e = false -> pa_top s = pa_bottom s ->
  vm_map_4k pdir va pa flags s =
  Halt (emit (wire (printed (panic_text (str "out of physical pages")))) s).
Proof.
  intros Hva0 Hpa0 HnV Hp. unfold vm_map_4k.
  rewrite pages_aligned, pages_aligned, Hva0, Hpa0, idx1_eq by done.
  cbn [Z.eqb negb orb]. step load_dir. rewrite HnV.
  apply bind_halt. by apply ppage_alloc_z_empty.
Qed.

Lemma vm_map_4k_unaligned :
  va mod 0x1000 <> 0 \/ pa mod 0x1000 <> 0 ->
  vm_map_4k pdir va pa flags s = Ok XOS_ERR_BAD_PARAM s.
Proof.
  intros H. unfold vm_map_4k. rewrite !pages_aligned.
  destruct (Z.eqb_spec (va mod 0x1000) 0), (Z.eqb_spec (pa mod 0x1000) 0); try done. lia.
Qed.

Lemma vm_map_4k_megapage :
  va mod 0x1000 = 0 -> pa mod 0x1000 = 0 -> has PTE_V e = true -> is_ptr e = false ->
  vm_map_4k pdir va pa flags s = Ok XOS_ERR_CONFLICT s.
Proof.
  intros Hva0 Hpa0 HV Hp. unfold vm_map_4k. rewrite !pages_aligned, Hva0, Hpa0, idx1_eq.
  cbn [Z.eqb negb orb]. step load_dir. by rewrite HV, not_leaf_not_ptr, Hp.
Qed.

Lemma vm_map_4k_taken :
  va mod 0x1000 = 0 -> pa mod 0x1000 = 0 -> is_ptr e = true ->
  has PTE_V (entry (k_mem s) (table e) (va / 0x1000 mod 0x400)) = true ->
  vm_map_4k pdir va pa flags s = Ok 0xFFFFFFFF s.
Proof.
  intros Hva0 Hpa0 Hptr HV. unfold vm_map_4k. rewrite !pages_aligned, Hva0, Hpa0, idx1_eq, idx0_eq.
  cbn [Z.eqb negb orb]. step load_dir.
  assert (has PTE_V e = true) as HVe by (unfold is_ptr in Hptr; by destruct (has PTE_V e)).
  rewrite HVe, not_leaf_not_ptr, Hptr by done. cbn [negb].
  destruct (pt_table s pdir Hinv _ (index_range va Hva) Hptr) as [Ht _]. fold e in Ht.
  change (pa_to_kva (PTE_PA e)) with (table e). step (load_slot s (table e) Ht). by rewrite HV.
Qed.
End map.

(** The same for a megapage: no page is taken. *)
Record mega_effect (s s' : kernel) (pdir va : Z) : Prop := {
  ge_uart : k_uart s' = k_uart s;
  ge_kpgdir : kpgdir s' = kpgdir s;
  ge_bottom : pa_bottom s' = pa_bottom s;
  ge_top : pa_top s' = pa_top s;
  ge_dir i : i <> va / 0x400000 -> entry (k_mem s') pdir i = entry (k_mem s) pdir i;
  ge_vacant va' : is_u32 va' -> va' / 0x400000 <> va / 0x400000 ->
    vacant (k_mem s) pdir va' -> vacant (k_mem s') pdir va';
  ge_pages : keeps_pages pdir s s';
}.

Section map_4m.
Context (s : kernel) (pdir va pa flags : Z).
Context (Hinv : pt_inv s pdir) (Hva : is_u32 va) (Hpa : is_u32 pa).

Let e := entry (k_mem s) pdir (va / 0x400000).

Lemma vm_map_4m_unaligned :
  va mod 0x400000 <> 0 \/ pa mod 0x400000 <> 0 ->
  vm_map_4m pdir va pa flags s = Ok XOS_ERR_BAD_PARAM s.
Proof.
  intros H. unfold vm_map_4m. rewrite !land_3FFFFF.
  destruct (Z.eqb_spec (va mod 0x400000) 0), (Z.eqb_spec (pa mod 0x400000) 0); try done. lia.
Qed.

Lemma vm_map_4m_taken :
  va mod 0x400000 = 0 -> pa mod 0x400000 = 0 -> has PTE_V e = true ->
  vm_map_4m pdir va pa flags s = Ok XOS_ERR_CONFLICT s.
Proof.
  intros Hva0 Hpa0 HV. unfold vm_map_4m. rewrite !land_3FFFFF, Hva0, Hpa0, idx1_eq.
  cbn [Z.eqb negb orb]. step (load_dir s pdir va Hinv Hva). fold e. by rewrite HV.
Qed.

Lemma vm_map_4m_ok :
  va mod 0x400000 = 0 -> pa mod 0x400000 = 0 -> leaf flags = true -> has PTE_V flags = true ->
  has PTE_V e = false ->
  exists s', vm_map_4m pdir va pa flags s = Ok XOS_OK s' /\ pt_inv s' pdir /\
    k_hw s' = k_hw s ++ [TlbFlush] /\ mega_effect s s' pdir va /\
    forall va', is_u32 va' ->
      walk (k_mem s') pdir va' =
      if decide (va' / 0x400000 = va / 0x400000) then Some (pa + va' mod 0x400000, flags mod 0x400)
      else walk (k_mem s) pdir va'.
Proof.
  intros Hva0 Hpa0 Hl HV HnV. unfold vm_map_4m.
  rewrite !land_3FFFFF, Hva0, Hpa0, idx1_eq, pte_value by (done || zarith).
  cbn [Z.eqb negb orb]. step (load_dir s pdir va Hinv Hva). fold e. rewrite HnV.
  pose proof (pt_root s pdir Hinv) as Hr. pose proof (index_range va Hva) as Hi.
  set (pte := pa / 4 + flags mod 0x400).
  step (store_dir pdir va Hva s pte Hr).
  assert (0 <= flags mod 0x400 < 0x400) as Hf by (apply Z.mod_pos_bound; lia).
  assert (pa mod 0x1000 = 0) as Hpa1 by zarith.
  assert (leaf pte = true) as Hlp by (unfold pte; by rewrite leaf_low, pte_flags, <- leaf_low).
  assert (has PTE_V pte = true) as HVp
    by (unfold pte; by rewrite has_low, pte_flags, <- has_low by (done || unfold PTE_V; lia)).
  assert (is_ptr pte = false) as Hpp by (unfold is_ptr; rewrite Hlp; btauto).
  set (s' := hw_op TlbFlush (poke s (pdir + 4 * (va / 0x400000)) (le_bytes 4 pte))).
  assert (forall i, entry (k_mem s') pdir i =
    if decide (i = va / 0x400000) then pte else entry (k_mem s) pdir i) as He
    by (intros i; apply entry_write; [by destruct Hr as (_ & ? & _)|by apply pte_u32]).
  assert (forall va', is_u32 va' -> va' / 0x400000 <> va / 0x400000 ->
    is_ptr (entry (k_mem s) pdir (va' / 0x400000)) = true ->
    entry (k_mem s') (table (entry (k_mem s) pdir (va' / 0x400000))) (va' / 0x1000 mod 0x400) =
    entry (k_mem s) (table (entry (k_mem s) pdir (va' / 0x400000))) (va' / 0x1000 mod 0x400)) as Hoth.
  { intros va' Hva' Hne Hp. pose proof (index_range va' Hva') as Hi'. pose proof (index0_range va').
    destruct (pt_table s pdir Hinv _ Hi' Hp) as [(_ & ? & _) ?]. destruct Hr as (_ & ? & _).
    apply entry_write_other_page; try done; [lia|rewrite length_le_bytes; lia]. }
  exists s'. split; [reflexivity|]. split; [|split; [done|split]].
  - destruct Hinv as [_ Ht Hd Hra Hf' Hft]. constructor.
    + by apply page_ok_write.
    + intros i Hi'. rewrite He. case_decide; [by rewrite Hpp|]. intros Hp.
      destruct (Ht i Hi' Hp). split; [by apply page_ok_write|done].
    + intros i j Hi' Hj Hij. rewrite !He. repeat case_decide; rewrite ?Hpp; try done. by apply Hd.
    + exact Hra.
    + intros p Hp Hp0. destruct (Hf' p Hp Hp0). split; [by apply page_ok_write|done].
    + intros p i Hp Hp0 Hi'. rewrite He. case_decide; [by rewrite Hpp|]. by apply Hft.
  - constructor; try done.
    + intros i Hne. by rewrite He, decide_False.
    + intros va' Hva' Hne. unfold vacant. rewrite He, decide_False by done.
      intros [?|[Hp Hv]]; [by left|right]. split; [done|]. by rewrite Hoth.
    + intros a (H1 & H2 & H3 & H4). split; [split; [done|split; [done|split; [|exact H4]]]|].
      * intros i Hi'. rewrite He. case_decide; [by rewrite Hpp|]. by apply H3.
      * destruct Hr as (_ & Hr0 & _).
        apply (same_bytes_write (k_mem s) a pdir); [done|done|done|lia|rewrite length_le_bytes; lia].
  - intros va' Hva'. case_decide as E.
    + unfold walk. rewrite E, He, decide_True, HVp, Hlp by done. cbn [andb].
      unfold pte. rewrite PTE_PA_value, pte_flags, Hpa0 by done. done.
    + apply walk_same; [done|by rewrite He, decide_False|]. by apply Hoth.
Qed.
End map_4m.

(** ** A fresh page directory *)

(** The allocator's pages are RAM in the direct map. *)
Definition ram_ok (s : kernel) : Prop :=
  0 <= pa_bottom s <= pa_top s /\ pa_top s <= 0x80000000 /\
  pa_bottom s mod 0x1000 = 0 /\ pa_top s mod 0x1000 = 0 /\
  mapped (k_mem s) (pa_bottom s + 0x80000000) (pa_top s - pa_bottom s).

#[export] Instance ram_ok_dec s : Decision (ram_ok s).
Proof. unfold ram_ok. apply _. Defined.

Lemma pa_to_kva_direct p : 0 <= p < 0x80000000 -> pa_to_kva p = p + 0x80000000.
Proof. unfold pa_to_kva, KVA_BASE, KPA_BASE. zarith. Qed.

Lemma page_taken_ram s :
  ram_ok s -> pa_bottom s < pa_top s -> ram_ok (page_taken s).
Proof.
  intros (H1 & H2 & H3 & H4 & H5) Hp. unfold ram_ok.
  change (pa_top (page_taken s)) with (pa_top s - 0x1000).
  change (pa_bottom (page_taken s)) with (pa_bottom s).
  split; [zarith|split; [lia|split; [done|split; [zarith|]]]].
  apply mapped_write. eapply mapped_sub; [exact H5|zarith..].
Qed.

Lemma kpage_alloc_z_ok s :
  ram_ok s -> pa_bottom s < pa_top s ->
  let pdir := pa_top s - 0x1000 + 0x80000000 in
  kpage_alloc_z s = Ok pdir (page_taken s) /\ pt_inv (page_taken s) pdir /\
  forall va, is_u32 va -> entry (k_mem (page_taken s)) pdir (va / 0x400000) = 0.
Proof.
  intros Hram Hp pdir. pose proof (page_taken_ram s Hram Hp) as Hram'.
  destruct Hram as (H1 & H2 & H3 & H4 & H5).
  assert (pa_to_kva (pa_top s - 0x1000) = pdir) as Ek by (apply pa_to_kva_direct; zarith).
  assert (mapped (k_mem s) pdir 0x1000) as Hm by (eapply mapped_sub; [exact H5|unfold pdir; zarith..]).
  assert (forall i, 0 <= i < 0x400 -> entry (k_mem (page_taken s)) pdir i = 0) as H0.
  { intros i Hi. change (k_mem (page_taken s)) with
      (write_bytes (k_mem s) (pa_to_kva (pa_top s - 0x1000)) (replicate 0x1000 0)).
    unfold entry. rewrite Ek. apply word_write_zeros; lia. }
  assert (forall a, page_ok (k_mem s) a -> page_ok (k_mem (page_taken s)) a) as Hpo
    by (intros a; apply page_ok_write).
  split; [|split].
  - unfold kpage_alloc_z. rewrite <- Ek in Hm.
    assert (ppage_alloc_z s = Ok (pa_top s - 0x1000) (page_taken s)) as E
      by (apply ppage_alloc_z_ok; [lia|zarith|done]).
    step E. by rewrite Ek.
  - assert (page_ok (k_mem s) pdir) as Hpd by (split; [unfold pdir; zarith|split; [unfold pdir; zarith|done]]).
    constructor.
    + by apply Hpo.
    + intros i Hi. rewrite H0, is_ptr_0 by done. intros E. discriminate E.
    + intros i j Hi Hj Hij. rewrite H0, is_ptr_0 by done. intros E. discriminate E.
    + destruct Hram' as (R1 & R2 & R3 & R4 & _).
      exact (conj R1 (conj (Z.le_lt_trans _ _ 0x100000000 R2 eq_refl) (conj R3 R4))).
    + intros p Hpr Hp0. change (pa_top (page_taken s)) with (pa_top s - 0x1000) in Hpr.
      change (pa_bottom (page_taken s)) with (pa_bottom s) in Hpr.
      rewrite pa_to_kva_direct by lia. split; [|unfold pdir; lia].
      apply Hpo. split; [lia|split; [zarith|]]. eapply mapped_sub; [exact H5|zarith..].
    + intros p i _ _ Hi. rewrite H0, is_ptr_0 by done. intros E. discriminate E.
  - intros va Hva. apply H0. by apply index_range.
Qed.

(** ** The properties *)

(** C13: [vm_map_4k] on a free slot maps exactly the page of [va]: afterwards
    the page walk of every address of that page gives [pa] with the flags asked
    for, and the walk of every other address is what it was; the TLB is flushed
    and the tables stay well formed, also when a new table had to be allocated. *)
Theorem vm_map_4k_maps s pdir va pa flags :
  pt_inv s pdir -> is_u32 va -> is_u32 pa -> va mod 0x1000 = 0 -> pa mod 0x1000 = 0 ->
  leaf flags = true -> has PTE_V flags = true -> slot_free s pdir va ->
  exists s', vm_map_4k pdir va pa flags s = Ok XOS_OK s' /\ pt_inv s' pdir /\
    k_hw s' = k_hw s ++ [TlbFlush] /\
    forall va', is_u32 va' ->
      walk (k_mem s') pdir va' =
      if decide (va' / 0x1000 = va / 0x1000) then Some (pa + va' mod 0x1000, flags mod 0x400)
      else walk (k_mem s) pdir va'.
Proof.
  intros Hi Hva Hpa Hva0 Hpa0 Hl HV Hf.
  destruct (vm_map_4k_ok s pdir va pa flags Hi Hva Hpa Hva0 Hpa0 Hl HV Hf)
    as (s' & E & Hi' & Hh & _ & Hw). eauto 6.
Qed.

(** A kernel with four free pages at 0x41000000. *)
Definition small_kernel : kernel :=
  {| k_mem := mem_lit 0xC1000000 (replicate (Z.to_nat 0x4000) 7);
     k_uart := {| u_stalls := []; u_out := [] |};
     pa_top := 0x41004000; pa_bottom := 0x41000000; kpgdir := 0; k_hw := [] |}.

Lemma small_kernel_ram : ram_ok small_kernel.
Proof.
  split; [done|split; [done|split; [done|split; [done|]]]].
  apply mapped_mem_lit; [done|]. by rewrite length_replicate, Z2Nat.id.
Qed.

(** Its state once the top page is an empty directory. *)
Lemma small_kernel_dir :
  pt_inv (page_taken small_kernel) 0xC1003000 /\
  forall va, is_u32 va -> entry (k_mem (page_taken small_kernel)) 0xC1003000 (va / 0x400000) = 0.
Proof. by apply (kpage_alloc_z_ok small_kernel small_kernel_ram). Qed.

Lemma vm_map_4k_maps_witness :
  exists s', vm_map_4k 0xC1003000 0x10000000 0x41005000 USER_RWX (page_taken small_kernel)
             = Ok XOS_OK s' /\ pt_inv s' 0xC1003000 /\
    k_hw s' = [TlbFlush] /\
    forall va', is_u32 va' ->
      walk (k_mem s') 0xC1003000 va' =
      if decide (va' / 0x1000 = 0x10000000 / 0x1000) then Some (0x41005000 + va' mod 0x1000, USER_RWX mod 0x400)
      else walk (k_mem (page_taken small_kernel)) 0xC1003000 va'.
Proof.
  destruct small_kernel_dir as [Hi H0].
  refine (vm_map_4k_maps (page_taken small_kernel) 0xC1003000 0x10000000 0x41005000 USER_RWX
    Hi _ _ eq_refl eq_refl eq_refl eq_refl _); [by_decide|by_decide|].
  split; [left|done]. by rewrite H0 by by_decide.
Defined.

(** C38: when [vm_map_4k] cannot map the page it says why and changes nothing:
    a misaligned address is a bad parameter, a megapage in the way is a
    conflict, a page already mapped there is -1; and when a table is needed and
    no page is left the kernel panics, after printing the message. *)
Theorem vm_map_4k_refuses s pdir va pa flags :
  pt_inv s pdir -> is_u32 va -> is_u32 pa ->
  let e := entry (k_mem s) pdir (va / 0x400000) in
  let aligned := va mod 0x1000 = 0 /\ pa mod 0x1000 = 0 in
  (~ aligned -> vm_map_4k pdir va pa flags s = Ok XOS_ERR_BAD_PARAM s) /\
  (aligned -> has PTE_V e = true -> is_ptr e = false ->
     vm_map_4k pdir va pa flags s = Ok XOS_ERR_CONFLICT s) /\
  (aligned -> is_ptr e = true ->
     has PTE_V (entry (k_mem s) (table e) (va / 0x1000 mod 0x400)) = true ->
     vm_map_4k pdir va pa flags s = Ok 0xFFFFFFFF s) /\
  (aligned -> has PTE_V e = false -> pa_top s = pa_bottom s ->
     vm_map_4k pdir va pa flags s =
     Halt (emit (wire ([10] ++ str "** kernel panic: out of physical pages **" ++ [10])) s)).
Proof.
  intros Hinv Hva Hpa e aligned. unfold aligned. split; [|split; [|split]].
  - intros H. apply vm_map_4k_unaligned. lia.
  - intros [H1 H2]. by apply vm_map_4k_megapage.
  - intros [H1 H2]. by apply vm_map_4k_taken.
  - intros [H1 H2] HnV Hp. rewrite vm_map_4k_out_of_pages by done. do 2 f_equal.
Qed.

Lemma vm_map_4k_refuses_witness :
  vm_map_4k 0xC1003000 0x10000800 0x41005000 USER_RWX (page_taken small_kernel)
  = Ok XOS_ERR_BAD_PARAM (page_taken small_kernel).
Proof.
  destruct small_kernel_dir as [Hi H0].
  refine (proj1 (vm_map_4k_refuses (page_taken small_kernel) 0xC1003000 0x10000800 0x41005000
    USER_RWX Hi _ _) _); [by_decide|by_decide|]. by intros [E _].
Defined.

(** [vm_map_4m] on an empty directory entry maps exactly the megapage of
    [va], every other address walks as before, and the tables stay well
    formed; otherwise it refuses (misalignment is a bad parameter, an entry in
    use a conflict) and changes nothing. *)
Theorem vm_map_4m_maps s pdir va pa flags :
  pt_inv s pdir -> is_u32 va -> is_u32 pa ->
  leaf flags = true -> has PTE_V flags = true ->
  let free := has PTE_V (entry (k_mem s) pdir (va / 0x400000)) = false in
  let aligned := va mod 0x400000 = 0 /\ pa mod 0x400000 = 0 in
  (~ aligned -> vm_map_4m pdir va pa flags s = Ok XOS_ERR_BAD_PARAM s) /\
  (aligned -> ~ free -> vm_map_4m pdir va pa flags s = Ok XOS_ERR_CONFLICT s) /\
  (aligned -> free ->
   exists s', vm_map_4m pdir va pa flags s = Ok XOS_OK s' /\ pt_inv s' pdir /\
     k_hw s' = k_hw s ++ [TlbFlush] /\
     forall va', is_u32 va' ->
       walk (k_mem s') pdir va' =
       if decide (va' / 0x400000 = va / 0x400000) then Some (pa + va' mod 0x400000, flags mod 0x400)
       else walk (k_mem s) pdir va').
Proof.
  intros Hinv Hva Hpa Hl HV free aligned. unfold aligned, free. split; [|split].
  - intros H. apply vm_map_4m_unaligned. lia.
  - intros [H1 H2] Hf. apply vm_map_4m_taken; [done..|]. by apply not_false_is_true.
  - intros [H1 H2] Hf.
    destruct (vm_map_4m_ok s pdir va pa flags Hinv Hva Hpa H1 H2 Hl HV Hf)
      as (s' & E & Hi' & Hh & _ & Hw). eauto 6.
Qed.

Lemma vm_map_4m_maps_witness :
  exists s', vm_map_4m 0xC1003000 0xF0000000 0xF0000000 KERNEL_RW (page_taken small_kernel)
             = Ok XOS_OK s' /\ pt_inv s' 0xC1003000 /\
    k_hw s' = [TlbFlush] /\
    forall va', is_u32 va' ->
      walk (k_mem s') 0xC1003000 va' =
      if decide (va' / 0x400000 = 0xF0000000 / 0x400000)
      then Some (0xF0000000 + va' mod 0x400000, KERNEL_RW mod 0x400)
      else walk (k_mem (page_taken small_kernel)) 0xC1003000 va'.
Proof.
  destruct small_kernel_dir as [Hi H0].
  refine (proj2 (proj2 (vm_map_4m_maps (page_taken small_kernel) 0xC1003000 0xF0000000 0xF0000000
    KERNEL_RW Hi _ _ eq_refl eq_refl)) _ _); [by_decide|by_decide|by split|].
  by rewrite H0 by by_decide.
Defined.

(** [ppage_alloc_z] hands out the page just below the last one and zeroes
    it, touching nothing else, so the pages it returns are distinct; it never
    leaves the range it was given, and when the range is used up it prints the
    panic message and stops. *)
Theorem ppage_alloc_z_fresh s :
  ram_ok s ->
  (pa_bottom s < pa_top s ->
   exists s' p, ppage_alloc_z s = Ok p s' /\ ram_ok s' /\
     p = pa_top s' /\ pa_top s' = pa_top s - 0x1000 /\ pa_bottom s' = pa_bottom s /\
     (forall a, pa_to_kva p <= a < pa_to_kva p + 0x1000 -> k_mem s' !! a = Some 0) /\
     same_except (k_mem s) (k_mem s') (pa_to_kva p) 0x1000) /\
  (pa_top s = pa_bottom s ->
   ppage_alloc_z s =
   Halt (emit (wire ([10] ++ str "** kernel panic: out of physical pages **" ++ [10])) s)).
Proof.
  intros Hram. pose proof Hram as (H1 & H2 & H3 & H4 & H5). split.
  - intros Hp. exists (page_taken s), (pa_top s - 0x1000).
    assert (pa_to_kva (pa_top s - 0x1000) = pa_top s - 0x1000 + 0x80000000) as Ek
      by (apply pa_to_kva_direct; zarith).
    split; [|split; [by apply page_taken_ram|split; [done|split; [done|split; [done|]]]]].
    + apply ppage_alloc_z_ok; [lia|zarith|]. rewrite Ek. eapply mapped_sub; [exact H5|zarith..].
    + rewrite Ek. change (k_mem (page_taken s)) with
        (write_bytes (k_mem s) (pa_to_kva (pa_top s - 0x1000)) (replicate 0x1000 0)). rewrite Ek. split.
      * intros a Ha. rewrite lookup_write_bytes, length_replicate, decide_True by lia.
        apply lookup_replicate. split; [done|lia].
      * intros b Hb. apply same_except_write. by rewrite length_replicate.
  - intros Hp. rewrite ppage_alloc_z_empty by done. do 2 f_equal.
Qed.

Lemma ppage_alloc_z_fresh_witness :
  exists s' p, ppage_alloc_z small_kernel = Ok p s' /\ ram_ok s' /\
     p = pa_top s' /\ pa_top s' = 0x41003000 /\ pa_bottom s' = 0x41000000 /\
     (forall a, pa_to_kva p <= a < pa_to_kva p + 0x1000 -> k_mem s' !! a = Some 0) /\
     same_except (k_mem small_kernel) (k_mem s') (pa_to_kva p) 0x1000.
Proof. by apply (ppage_alloc_z_fresh small_kernel small_kernel_ram). Defined.
