(* ===== verification/Kernel.v ===== *)
(** * The X/OS kernel (xos/src/kernel.c, xos/src/entry.S)

    [start] builds the kernel's page directory and switches to it,
    [start_user_program] gives the user program its pages, and the system calls
    and trap handlers follow.  The symbols of the linker script
    (make/common.ram.ld) are the record [image].

    The theorem about [start] is the memory map itself: [kernel_map] says what
    every virtual address translates to, from the symbols alone. *)

From S2P Require Import Prelude Monad Hw Mem Words LibcMem LibcStr Uart Printf Exception Vmm.

(** The symbols the linker script defines. *)
(* src/xos/src/kernel.c:80-86 *)
Record image := {
  text_start : Z;
  rodata_start : Z;
  data_start : Z;
  bss_start : Z;
  bss_end : Z;
  image_end : Z;
  memory_top : Z;
  extra_start : Z;
  extra_end : Z;
  trap_entry_at : Z;
}.

(* src/hw/inc/hw/platform.h:9-9 *)
Definition FRAMEBUFFER_BASE := 0x40C00000.
(* src/xos/src/kernel.c:29-29 *)
Definition FRAMEBUFFER_SIZE := 640 * 480 * 2.

(* src/hw/inc/hw/riscv.h:16-16 *)
Definition CSR_SSTATUS := 0x100.
(* src/hw/inc/hw/riscv.h:18-18 *)
Definition CSR_STVEC := 0x105.
(* src/hw/inc/hw/riscv.h:28-28 *)
Definition CSR_SATP := 0x180.
(* src/hw/inc/hw/riscv.h:22-22 *)
Definition CSR_SSCRATCH := 0x140.
(* src/hw/inc/hw/riscv.h:23-23 *)
Definition CSR_SEPC := 0x141.
(* src/hw/inc/hw/riscv.h:31-31 *)
Definition SATP_MODE_SV32 := 0x80000000.
(* src/hw/inc/hw/riscv.h:81-81 *)
Definition SSTATUS_SUM := 0x00040000.
(* src/hw/inc/hw/riscv.h:84-84 *)
Definition SSTATUS_SPP := 0x00000100.
(* src/hw/inc/hw/riscv.h:123-123 *)
Definition EXCn_ECALL_UMODE := 8.

(* src/hw/inc/hw/intrinsics.h:26-27 *)
Definition csr_write (csr v : Z) : M kernel unit := modify (hw_op (CsrWrite csr v)).
(* src/hw/inc/hw/intrinsics.h:32-33 *)
Definition csr_set (csr v : Z) : M kernel unit := modify (hw_op (CsrSet csr v)).
(* src/hw/inc/hw/intrinsics.h:35-36 *)
Definition csr_clr (csr v : Z) : M kernel unit := modify (hw_op (CsrClr csr v)).

(** ** Entering user mode *)

(** Offsets into the frame. *)
Definition EF_A0 := 0x20.
Definition EF_PC := 0x40.
Definition EF_SP := 0x44.

(** [trap_exit]: restore the frame at [sp] and leave the kernel. *)
(* src/xos/src/entry.S:68-118 trap_exit *)
Definition trap_exit {A} (sp tp : Z) : M kernel A :=
  csr_write CSR_SSCRATCH tp ;;
  pc <- load32 (sp + EF_PC) ;;
  csr_write CSR_SEPC pc ;;
  frame <- load_words sp 32 ;;
  modify (hw_op (Sret frame)) ;;
  spin.

(* src/xos/src/entry.S:161-165 *)
Definition user_mode_entry {A} (ef : Z) : M kernel A := trap_exit ef (ef + 32 * 4).

(** ** Starting the user program *)

(* src/xos/src/kernel.c:31-38 *)
Definition map_framebuffer (pgdir : Z) : M kernel unit :=
  let pa := FRAMEBUFFER_BASE in
  let va := 0x20000000 in
  loop (fun n =>
    if n <? FRAMEBUFFER_SIZE then
      vm_map_4k pgdir (va + n) (pa + n) USER_RW ;;
      ret (inl (n + PAGE_SIZE))
    else ret (inr tt)) 0.

(** [vm_map_4k(kpgdir, va, ppage_alloc_z(), flags)] *)
(* src/xos/src/kernel.c:47-47 start_user_program *)
Definition map_user_page (va flags : Z) : M kernel unit :=
  pa <- ppage_alloc_z ;;
  pdir <- gets kpgdir ;;
  vm_map_4k pdir va pa flags ;;
  ret tt.

(** Is [sstatus.SUM] set, after these instructions?  It is clear before any. *)
Definition sum_step (on : bool) (op : hwop) : bool :=
  match op with
  | CsrWrite r v => if r =? CSR_SSTATUS then has SSTATUS_SUM v else on
  | CsrSet r v => if (r =? CSR_SSTATUS) && has SSTATUS_SUM v then true else on
  | CsrClr r v => if (r =? CSR_SSTATUS) && has SSTATUS_SUM v then false else on
  | _ => on
  end.
Definition sum_on (ops : list hwop) : bool := fold_left sum_step ops false.

(** [memcpy] to user addresses: the destination goes through the page table,
    which must allow the write; the pages of user mode are the supervisor's to
    write only while [sstatus.SUM] is set. *)
(* src/xos/src/kernel.c:61-61 start_user_program *)
Definition copy_to_user (dst src n : Z) : M kernel unit :=
  loop (fun i =>
    if i <? n then
      b <- load8 (src + i) ;;
      s <- get ;;
      match walk (k_mem s) (kpgdir s) (dst + i) with
      | Some (pa, flags) =>
        if has PTE_W flags && (negb (has PTE_U flags) || sum_on (k_hw s))
        then store8 (pa_to_kva pa) b ;; ret (inl (i + 1)) else fault
      | None => fault
      end
    else ret (inr tt)) 0.

(* src/xos/src/kernel.c:24-27 *)
Definition sizeof_kstack_top_t := 32 * 4 + 8 * 4.

(* src/xos/src/kernel.c:40-78 *)
Definition start_user_program {A} (img : image) : M kernel A :=
  let user_start := 0x10000000 in
  let user_stack := 0x10400000 in
  xprintf (str "user.bin %u bytes" ++ nl) [VaWord (u32 (extra_end img - extra_start img))] ;;
  map_user_page (user_start + 0 * PAGE_SIZE) USER_RWX ;;
  map_user_page (user_start + 1 * PAGE_SIZE) USER_RWX ;;
  map_user_page (user_start + 2 * PAGE_SIZE) USER_RWX ;;
  map_user_page (user_start + 3 * PAGE_SIZE) USER_RWX ;;
  map_user_page (user_stack - 1 * PAGE_SIZE) USER_RW ;;
  pdir <- gets kpgdir ;;
  map_framebuffer pdir ;;
  csr_set CSR_SSTATUS SSTATUS_SUM ;;
  copy_to_user user_start (extra_start img) (extra_end img - extra_start img) ;;
  csr_clr CSR_SSTATUS SSTATUS_SUM ;;
  page <- kpage_alloc_z ;;
  let kst := page + PAGE_SIZE - sizeof_kstack_top_t in
  store32 (kst + EF_PC) user_start ;;
  store32 (kst + EF_SP) user_stack ;;
  csr_clr CSR_SSTATUS SSTATUS_SPP ;;
  xprintf (nl ++ str "[ starting user mode program ]" ++ nl ++ nl) [] ;;
  user_mode_entry kst.

(** ** start *)

(** [while (va < end) { vm_map_4k(kpgdir, va, kva_to_pa(va), flags); va += PAGE_SIZE; }] *)
(* src/xos/src/kernel.c:118-121 start *)
Definition map_4k_until (end_ flags va : Z) : M kernel Z :=
  loop (fun va =>
    if va <? end_ then
      pdir <- gets kpgdir ;;
      vm_map_4k pdir va (kva_to_pa va) flags ;;
      ret (inl (va + PAGE_SIZE))
    else ret (inr va)) va.

(* src/xos/src/kernel.c:134-137 start *)
Definition map_4m_until (end_ flags va : Z) : M kernel Z :=
  loop (fun va =>
    if va <? end_ then
      pdir <- gets kpgdir ;;
      vm_map_4m pdir va (kva_to_pa va) flags ;;
      ret (inl (va + 4 * 1024 * 1024))
    else ret (inr va)) va.

(* src/xos/src/kernel.c:109-139 start *)
Definition build_kernel_map (img : image) : M kernel unit :=
  vmm_init (kva_to_pa (image_end img)) (u32 (kva_to_pa (memory_top img) - 2 * PAGE_SIZE)) ;;
  page <- kpage_alloc_z ;;
  modify (set_kpgdir page) ;;
  va <- map_4k_until (rodata_start img) KERNEL_RX (text_start img) ;;
  va <- map_4k_until (data_start img) KERNEL_RO va ;;
  let end_ := Z.land (u32 (image_end img + 0x003FFFFF)) 0xFFC00000 in
  va <- map_4k_until end_ KERNEL_RW va ;;
  va <- map_4m_until (memory_top img) KERNEL_RW va ;;
  pdir <- gets kpgdir ;;
  vm_map_4m pdir 0xF0000000 0xF0000000 KERNEL_RW ;;
  ret tt.

(* src/xos/src/kernel.c:88-145 *)
Definition start {A} (img : image) : M kernel A :=
  let size a b := VaWord (u32 (b - a)) in
  xprintf (str "X/OS Kernel v0.1" ++ nl ++ nl) [] ;;
  xprintf (str "text   %p %u" ++ nl) [VaWord (text_start img); size (text_start img) (rodata_start img)] ;;
  xprintf (str "rodata %p %u" ++ nl) [VaWord (rodata_start img); size (rodata_start img) (data_start img)] ;;
  xprintf (str "data   %p %u" ++ nl) [VaWord (data_start img); size (data_start img) (bss_start img)] ;;
  xprintf (str "bss    %p %u" ++ nl) [VaWord (bss_start img); size (bss_start img) (bss_end img)] ;;
  xprintf (str "free   %p %u" ++ nl) [VaWord (image_end img); size (image_end img) (memory_top img)] ;;
  xprintf (str "memtop %p" ++ nl) [VaWord (memory_top img)] ;;
  csr_write CSR_STVEC (trap_entry_at img) ;;
  build_kernel_map img ;;
  pdir <- gets kpgdir ;;
  csr_write CSR_SATP (Z.lor SATP_MODE_SV32 (Z.shiftr (kva_to_pa pdir) 12)) ;;
  tlb_flush_all ;;
  start_user_program img.

(** ** System calls and traps *)

(* src/xos/src/kernel.c:147-149 *)
Definition sys_thread_create (out entry arg : Z) : M kernel Z := ret XOS_ERR_NOT_SUPPORTED.

(* src/xos/src/kernel.c:151-153 *)
Definition sys_xputc (ch : Z) : M kernel unit := xputc ch.

(* src/xos/src/kernel.c:155-158 *)
Definition sys_exit (n : Z) : M kernel unit :=
  xprintf (nl ++ str "[ user exit (status %d) ]" ++ nl) [VaWord n] ;;
  spin.

(* src/xos/src/kernel.c:160-161 *)
Definition interrupt_handler : M kernel unit := ret tt.

(* src/xos/src/kernel.c:164-169 *)
Definition exception_handler {A} (c : trap_csrs) (ef : Z) : M kernel A :=
  xprintf (nl ++ str "** SUPERVISOR EXCEPTION **" ++ nl) [] ;;
  xprint_s_exception c ef ;;
  xprintf (nl ++ str "HALT" ++ nl) [] ;;
  spin.

(** [SYSCALL_COUNT] and the table of entry.S; a void function leaves whatever
    [a0] holds, [junk]. *)
(* src/xos/inc/xos/syscall-tmpl.h:4-8 *)
Definition syscall_table (junk a0 a1 a2 : Z) : list (M kernel Z) :=
  [(sys_exit a0 ;; ret junk); (sys_xputc a0 ;; ret junk); sys_thread_create a0 a1 a2].

(* src/xos/src/entry.S:135-159 *)
Definition syscall_entry {A} (junk sp t0 a0 a1 a2 : Z) : M kernel A :=
  let tp := sp + 32 * 4 in
  match syscall_table junk a0 a1 a2 !! Z.to_nat t0 with
  | Some fn =>
    r <- fn ;;
    store32 (sp + EF_A0) r ;;
    pc <- load32 (sp + EF_PC) ;;
    store32 (sp + EF_PC) (u32 (pc + 4)) ;;
    trap_exit sp tp
  | None =>
    store32 (sp + EF_A0) XOS_ERR_BAD_SYSCALL ;;
    trap_exit sp tp
  end.

(** From the saved frame on: interrupts return at once, a user-mode [ecall] is
    a system call, every other exception is reported and the kernel halts. *)
(* src/xos/src/entry.S:61-69 *)
Definition trap_dispatch {A} (c : trap_csrs) (junk sp t0 a0 a1 a2 : Z) : M kernel A :=
  if s32 (scause c) >=? 0 then
    if Z.land (scause c) 0xFF =? EXCn_ECALL_UMODE then syscall_entry junk sp t0 a0 a1 a2
    else exception_handler c sp
  else interrupt_handler ;; trap_exit sp (sp + 32 * 4).

(** A trap taken in user mode with the registers [regs] (in [ef_order]; [pc] is
    what the hardware put in [sepc], [sp] the user's, which the swap left in
    [sscratch]) while [sscratch] held the kernel stack top [ksp]. *)
(* src/xos/src/entry.S:8-59 trap_entry *)
Definition trap_entry {A} (c : trap_csrs) (junk ksp : Z) (regs : list Z) : M kernel A :=
  let reg r := nth (Z.to_nat (index_of r ef_order)) regs 0 in
  let sp := ksp - 32 * 4 in
  store_words sp regs ;;
  trap_dispatch c junk sp (reg "t0") (reg "a0") (reg "a1") (reg "a2").

(** ** Ranges of pages *)

(** The pages [map_4k_until] will still need for tables, up to [fin]. *)
Definition need (s : kernel) (pdir va fin : Z) : Z :=
  if va <? fin then
    (fin - 1) / 0x400000 - va / 0x400000 +
    (if is_ptr (entry (k_mem s) pdir (va / 0x400000)) then 0 else 1)
  else 0.

(** What mapping the pages of [lo, hi), each [off] above its physical page, does. *)
Record range_effect (s s' : kernel) (pdir off lo hi flags : Z) : Prop := {
  re_inv : pt_inv s' pdir;
  re_kpgdir : kpgdir s' = kpgdir s;
  re_uart : k_uart s' = k_uart s;
  re_bottom : pa_bottom s' = pa_bottom s;
  re_top : pa_top s' <= pa_top s;
  re_hw : exists n, k_hw s' = k_hw s ++ replicate n TlbFlush;
  re_walk a : is_u32 a ->
    walk (k_mem s') pdir a =
    if decide (lo <= a < hi) then Some (a - off, flags mod 0x400)
    else walk (k_mem s) pdir a;
  re_vacant a : is_u32 a -> ~ (lo <= a < hi) ->
    vacant (k_mem s) pdir a -> vacant (k_mem s') pdir a;
  re_dir i : 0 <= i < 0x400 -> (forall a, lo <= a < hi -> a / 0x400000 <> i) ->
    entry (k_mem s') pdir i = entry (k_mem s) pdir i;
  re_pages : keeps_pages pdir s s';
}.

Lemma range_effect_nil s pdir off lo flags : pt_inv s pdir -> range_effect s s pdir off lo lo flags.
Proof.
  intros Hi. constructor; try done.
  - exists 0%nat. by rewrite app_nil_r.
  - intros a _. by rewrite decide_False by lia.
Qed.

Lemma kva_direct va : 0x80000000 <= va < 0x100000000 -> kva_to_pa va = va - 0x80000000.
Proof. unfold kva_to_pa, KVA_BASE, KPA_BASE. zarith. Qed.

(** One page more at the low end. *)
Lemma range_effect_cons s s1 s' pdir off lo hi flags :
  0 <= lo -> lo + 0x1000 <= hi -> hi <= 0x100000000 -> lo mod 0x1000 = 0 ->
  k_hw s1 = k_hw s ++ [TlbFlush] -> map_effect s s1 pdir lo ->
  (forall a, is_u32 a -> walk (k_mem s1) pdir a =
     if decide (a / 0x1000 = lo / 0x1000) then Some (lo - off + a mod 0x1000, flags mod 0x400)
     else walk (k_mem s) pdir a) ->
  range_effect s1 s' pdir off (lo + 0x1000) hi flags -> range_effect s s' pdir off lo hi flags.
Proof.
  intros Hlo Hlh Hhi Ha0 Hh [Mu Mk Mb Mt Mp Md Mv Mg] Hw [Ri Rk Ru Rb Rt [n Rh] Rw Rv Rd Rg].
  constructor.
  - done.
  - congruence.
  - congruence.
  - congruence.
  - rewrite Mt in Rt. destruct (is_ptr _); lia.
  - exists (Datatypes.S n). by rewrite Rh, Hh, <- app_assoc.
  - intros a Ha. rewrite Rw, Hw by done. unfold is_u32 in *.
    repeat case_decide; try done; try zarith. do 2 f_equal. zarith.
  - intros a Ha Hr Hvac. apply Rv; [done|lia|]. apply Mv; [done|zarith|done].
  - intros i Hi Hr. rewrite Rd by (done || intros; apply Hr; lia). apply Md; [done|].
    apply not_eq_sym, Hr. lia.
  - exact (transitivity (R := keeps_pages pdir) Mg Rg).
Qed.

(** A page that is mapped pays for its table. *)
Lemma need_step s s1 pdir va fin :
  map_effect s s1 pdir va -> 0 <= va -> va < fin -> fin <= 0x100000000 ->
  pa_top s - 0x1000 * need s pdir va fin <= pa_top s1 - 0x1000 * need s1 pdir (va + 0x1000) fin.
Proof.
  intros [_ _ _ Mt Mp _ _ _] Hva Hf Hf'. unfold need. rewrite Mt, (proj2 (Z.ltb_lt va fin)) by done.
  destruct (Z.ltb_spec (va + 0x1000) fin) as [Hlt|Hge].
  - destruct (decide ((va + 0x1000) / 0x400000 = va / 0x400000)) as [E|E].
    + rewrite E, Mp. destruct (is_ptr _); lia.
    + assert ((va + 0x1000) / 0x400000 = va / 0x400000 + 1) as -> by zarith.
      destruct (is_ptr (entry (k_mem s) pdir (va / 0x400000))),
        (is_ptr (entry (k_mem s1) pdir (va / 0x400000 + 1))); lia.
  - destruct (is_ptr (entry (k_mem s) pdir (va / 0x400000))); zarith.
Qed.

Lemma need_none s pdir fin : need s pdir fin fin = 0.
Proof. unfold need. by rewrite Z.ltb_irrefl. Qed.

Lemma need_page s pdir va fin :
  pa_bottom s <= pa_top s - 0x1000 * need s pdir va fin -> va < fin ->
  has PTE_V (entry (k_mem s) pdir (va / 0x400000)) = false -> pa_bottom s < pa_top s.
Proof.
  unfold need. intros Hp Hf HV. rewrite (proj2 (Z.ltb_lt _ _) Hf), (not_V_not_ptr _ HV) in Hp.
  assert (va / 0x400000 <= (fin - 1) / 0x400000) by zarith. lia.
Qed.

(** A loop whose body maps the page at [va] and goes on with the next one, up
    to [hi]; [at_] is the loop's local for an address. *)
Section map_loop.
Context {X R : Type} (body : X -> M kernel (X + R)) (at_ : Z -> X) (r : R).
Context (pdir off flags lo hi fin : Z).
Context (Hbody : forall s s1 va, lo <= va < hi -> kpgdir s = pdir ->
  vm_map_4k pdir va (va - off) flags s = Ok XOS_OK s1 -> body (at_ va) s = Ok (inl (at_ (va + 0x1000))) s1).
Context (Hlast : forall s, body (at_ hi) s = Ok (inr r) s).
Context (Hl : leaf flags = true) (HV : has PTE_V flags = true).
Context (Hlo : 0 <= lo) (Hfin : hi <= fin <= 0x100000000) (Hhi0 : hi mod 0x1000 = 0).
Context (Hoff : off mod 0x1000 = 0 /\ off <= lo /\ hi - off <= 0x100000000).

Lemma map_loop_runs (k : nat) s va :
  hi = va + 0x1000 * Z.of_nat k -> kpgdir s = pdir -> pt_inv s pdir -> lo <= va ->
  (forall a, va <= a < hi -> vacant (k_mem s) pdir a) ->
  pa_bottom s <= pa_top s - 0x1000 * need s pdir va fin ->
  exists s', runs body k (at_ va) s (Ok r s') /\ range_effect s s' pdir off va hi flags /\
    pa_top s - 0x1000 * need s pdir va fin <= pa_top s' - 0x1000 * need s' pdir hi fin.
Proof.
  revert s va. induction k as [|k IH]; intros s va Hhi Hk Hinv Hva Hvac Hpages.
  - assert (hi = va) as <- by lia. exists s. split; [|split; [by apply range_effect_nil|lia]].
    by apply runs_done.
  - assert (is_u32 va) as Hu by (unfold is_u32; lia).
    assert (is_u32 (va - off)) as Hpu by (unfold is_u32 in *; lia).
    destruct (vm_map_4k_ok s pdir va (va - off) flags Hinv Hu Hpu ltac:(zarith) ltac:(zarith) Hl HV)
      as (s1 & E & Hinv1 & Hh & Me & Hw).
    { split; [apply Hvac; lia|]. eapply need_page; [exact Hpages|lia]. }
    pose proof (need_step s s1 pdir va fin Me ltac:(lia) ltac:(lia) ltac:(lia)) as Hn1.
    destruct (IH s1 (va + 0x1000)) as (s' & Hr & He & Hn).
    + lia.
    + by rewrite (me_kpgdir _ _ _ _ Me).
    + done.
    + lia.
    + intros a Ha. apply (me_vacant _ _ _ _ Me); [unfold is_u32; lia|zarith|apply Hvac; lia].
    + rewrite (me_bottom _ _ _ _ Me). lia.
    + exists s'. split; [|split; [|lia]].
      * eapply runs_step; [|exact Hr]. apply Hbody; [lia|done|exact E].
      * apply (range_effect_cons s s1 s' pdir off va hi flags); done || lia || zarith.
Qed.

Lemma map_loop_ok s va :
  kpgdir s = pdir -> pt_inv s pdir -> lo <= va <= hi -> va mod 0x1000 = 0 ->
  (forall a, va <= a < hi -> vacant (k_mem s) pdir a) ->
  pa_bottom s <= pa_top s - 0x1000 * need s pdir va fin ->
  exists s', loop body (at_ va) s = Ok r s' /\ range_effect s s' pdir off va hi flags /\
    pa_top s - 0x1000 * need s pdir va fin <= pa_top s' - 0x1000 * need s' pdir hi fin.
Proof.
  intros Hk Hinv Hva Hva0 Hvac Hpages.
  destruct (map_loop_runs (Z.to_nat ((hi - va) / 0x1000)) s va) as (s' & Hr & He & Hn); try done;
    [zarith|lia|].
  exists s'. split; [|done]. apply (loop_runs _ _ _ _ _ Hr). zarith.
Qed.
End map_loop.

Lemma map_4k_until_ok s pdir fin hi flags va :
  kpgdir s = pdir -> pt_inv s pdir -> leaf flags = true -> has PTE_V flags = true ->
  0x80000000 <= va <= hi -> hi <= fin -> fin <= 0x100000000 ->
  va mod 0x1000 = 0 -> hi mod 0x1000 = 0 ->
  (forall a, va <= a < hi -> vacant (k_mem s) pdir a) ->
  pa_bottom s <= pa_top s - 0x1000 * need s pdir va fin ->
  exists s', map_4k_until hi flags va s = Ok hi s' /\ range_effect s s' pdir 0x80000000 va hi flags /\
    pa_top s - 0x1000 * need s pdir va fin <= pa_top s' - 0x1000 * need s' pdir hi fin.
Proof.
  intros Hk Hinv Hl HV Hva Hhf Hfin Hva0 Hhi0 Hvac Hpages.
  apply (map_loop_ok _ (fun a => a) hi pdir 0x80000000 flags va hi fin); try done || lia.
  - intros s0 s1 a Ha Hk0 E. rewrite (proj2 (Z.ltb_lt _ _)) by lia.
    unfold gets, bind at 1. rewrite Hk0, kva_direct by lia. by step E.
  - intros s0. by rewrite Z.ltb_irrefl.
  - split; [done|lia].
Qed.

(** One megapage more. *)
Lemma range_effect_mega s s1 s' pdir off lo hi flags :
  0 <= lo -> lo + 0x400000 <= hi -> hi <= 0x100000000 -> lo mod 0x400000 = 0 ->
  k_hw s1 = k_hw s ++ [TlbFlush] -> mega_effect s s1 pdir lo ->
  (forall a, is_u32 a -> walk (k_mem s1) pdir a =
     if decide (a / 0x400000 = lo / 0x400000) then Some (lo - off + a mod 0x400000, flags mod 0x400)
     else walk (k_mem s) pdir a) ->
  range_effect s1 s' pdir off (lo + 0x400000) hi flags -> range_effect s s' pdir off lo hi flags.
Proof.
  intros Hlo Hlh Hhi Ha0 Hh [Mu Mk Mb Mt Md Mv Mg] Hw [Ri Rk Ru Rb Rt [n Rh] Rw Rv Rd Rg].
  constructor.
  - done.
  - congruence.
  - congruence.
  - congruence.
  - rewrite Mt in Rt. exact Rt.
  - exists (Datatypes.S n). by rewrite Rh, Hh, <- app_assoc.
  - intros a Ha. rewrite Rw, Hw by done. unfold is_u32 in *.
    repeat case_decide; try done; try zarith. do 2 f_equal. zarith.
  - intros a Ha Hr Hvac. apply Rv; [done|lia|]. apply Mv; [done|zarith|done].
  - intros i Hi Hr. rewrite Rd by (done || intros; apply Hr; lia). apply Md.
    apply not_eq_sym, Hr. lia.
  - exact (transitivity (R := keeps_pages pdir) Mg Rg).
Qed.

Lemma map_4m_until_ok s pdir hi flags va :
  kpgdir s = pdir -> pt_inv s pdir -> leaf flags = true -> has PTE_V flags = true ->
  0x80000000 <= va <= hi -> hi <= 0x100000000 ->
  va mod 0x400000 = 0 -> hi mod 0x400000 = 0 ->
  (forall a, va <= a < hi -> has PTE_V (entry (k_mem s) pdir (a / 0x400000)) = false) ->
  exists s', map_4m_until hi flags va s = Ok hi s' /\
    range_effect s s' pdir 0x80000000 va hi flags /\ pa_top s' = pa_top s.
Proof.
  intros Hk Hinv Hl HV Hva Hfin Hva0 Hhi0 Hvac. unfold map_4m_until.
  match goal with |- context [loop ?f _] => set (body := f) end.
  enough (forall k : nat, forall s va, hi = va + 0x400000 * Z.of_nat k ->
    kpgdir s = pdir -> pt_inv s pdir -> 0x80000000 <= va -> va mod 0x400000 = 0 ->
    (forall a, va <= a < hi -> has PTE_V (entry (k_mem s) pdir (a / 0x400000)) = false) ->
    exists s', runs body k va s (Ok hi s') /\
      range_effect s s' pdir 0x80000000 va hi flags /\ pa_top s' = pa_top s) as H.
  { destruct (H (Z.to_nat ((hi - va) / 0x400000)) s va) as (s' & Hr & He); try done; [zarith|lia|].
    exists s'. split; [|done]. apply (loop_runs _ _ _ _ _ Hr). zarith. }
  clear s va Hk Hinv Hva Hva0 Hvac.
  induction k as [|k IH]; intros s va Hhi Hk Hinv Hva Hva0 Hvac.
  - assert (hi = va) as -> by lia. exists s. split; [|split; [by apply range_effect_nil|done]].
    apply runs_done. unfold body. by rewrite Z.ltb_irrefl.
  - assert (is_u32 va) as Hu by (unfold is_u32; lia).
    assert (is_u32 (va - 0x80000000)) as Hpu by (unfold is_u32 in *; lia).
    destruct (vm_map_4m_ok s pdir va (va - 0x80000000) flags Hinv Hu Hpu Hva0 ltac:(zarith) Hl HV)
      as (s1 & E & Hinv1 & Hh & Me & Hw); [apply Hvac; lia|].
    destruct (IH s1 (va + 0x400000)) as (s' & Hr & He & Ht).
    + lia.
    + by rewrite (ge_kpgdir _ _ _ _ Me).
    + done.
    + lia.
    + zarith.
    + intros a Ha. rewrite (ge_dir _ _ _ _ Me) by zarith. apply Hvac. lia.
    + exists s'. split; [|split; [|by rewrite Ht, (ge_top _ _ _ _ Me)]].
      * eapply runs_step; [|exact Hr]. unfold body. rewrite (proj2 (Z.ltb_lt _ _)) by lia.
        unfold gets, bind at 1. rewrite Hk, kva_direct by lia. by step E.
      * apply (range_effect_mega s s1 s' pdir 0x80000000 va hi flags); done || lia.
Qed.

(** ** What has been mapped so far *)

(** The tables of [pdir] translate as [f] says and have nothing else in them,
    and since [s0] only they and the allocator have changed. *)
Record map_state (s0 s : kernel) (pdir : Z) (f : Z -> option (Z * Z)) : Prop := {
  ms_inv : pt_inv s pdir;
  ms_kpgdir : kpgdir s = pdir;
  ms_uart : k_uart s = k_uart s0;
  ms_bottom : pa_bottom s = pa_bottom s0;
  ms_top : pa_top s <= pa_top s0;
  ms_hw : exists n, k_hw s = k_hw s0 ++ replicate n TlbFlush;
  ms_walk a : is_u32 a -> walk (k_mem s) pdir a = f a;
  ms_vacant a : is_u32 a -> f a = None -> vacant (k_mem s) pdir a;
  ms_dir i : 0 <= i < 0x400 -> (forall a, a / 0x400000 = i -> f a = None) ->
    entry (k_mem s) pdir i = 0;
  ms_pages : keeps_pages pdir s0 s;
}.

(** [f] with the pages of [lo, hi) put over it. *)
Definition over (f : Z -> option (Z * Z)) (off lo hi flags a : Z) : option (Z * Z) :=
  if decide (lo <= a < hi) then Some (a - off, flags mod 0x400) else f a.

Lemma map_state_range s0 s s' pdir f off lo hi flags :
  map_state s0 s pdir f -> range_effect s s' pdir off lo hi flags ->
  map_state s0 s' pdir (over f off lo hi flags).
Proof.
  intros [Si Sk Su Sb St [n Sh] Sw Sv Sd Sg] [Ri Rk Ru Rb Rt [n' Rh] Rw Rv Rd Rg].
  constructor; try congruence.
  - lia.
  - exists (n + n')%nat. by rewrite Rh, Sh, <- app_assoc, replicate_add.
  - intros a Ha. rewrite Rw by done. unfold over. case_decide; [done|]. by apply Sw.
  - intros a Ha. unfold over. case_decide; [done|]. intros Hf. apply Rv; [done..|]. by apply Sv.
  - intros i Hi Hf. rewrite Rd; [apply Sd; [done|]|done|].
    + intros a Ha. specialize (Hf a Ha). unfold over in Hf. by case_decide.
    + intros a Ha E. specialize (Hf a E). unfold over in Hf. by rewrite decide_True in Hf.
  - exact (transitivity (R := keeps_pages pdir) Sg Rg).
Qed.

Lemma map_state_ext s0 s pdir f g :
  map_state s0 s pdir f -> (forall a, f a = g a) -> map_state s0 s pdir g.
Proof.
  intros [Si Sk Su Sb St Sh Sw Sv Sd Sg] E. constructor; try done.
  - intros a Ha. by rewrite <- E, Sw.
  - intros a Ha Hg. apply Sv; [done|by rewrite E].
  - intros i Hi Hg. apply Sd; [done|]. intros a Ha. rewrite E. by apply Hg.
Qed.

Lemma map_state_empty s pdir :
  kpgdir s = pdir -> pt_inv s pdir -> (forall i, 0 <= i < 0x400 -> entry (k_mem s) pdir i = 0) ->
  map_state s s pdir (fun _ => None).
Proof.
  intros Hk Hi H0. constructor; try done.
  - exists 0%nat. by rewrite app_nil_r.
  - intros a Ha. unfold walk. by rewrite H0, has_0, is_ptr_0 by by apply index_range.
  - intros a Ha _. left. by rewrite H0, has_0 by by apply index_range.
  - intros i Hi' _. by apply H0.
Qed.

(** The two loops and the single megapage, on such a state. *)
Section map_state_ops.
Context (s0 s : kernel) (pdir : Z) (f : Z -> option (Z * Z)) (Hs : map_state s0 s pdir f).
Context (flags : Z) (Hl : leaf flags = true) (HV : has PTE_V flags = true).

Lemma map_4k_until_state fin hi va :
  0x80000000 <= va <= hi -> hi <= fin -> fin <= 0x100000000 -> va mod 0x1000 = 0 -> hi mod 0x1000 = 0 ->
  (forall a, va <= a < hi -> f a = None) ->
  pa_bottom s <= pa_top s - 0x1000 * need s pdir va fin ->
  exists s', map_4k_until hi flags va s = Ok hi s' /\
    map_state s0 s' pdir (over f 0x80000000 va hi flags) /\
    pa_top s - 0x1000 * need s pdir va fin <= pa_top s' - 0x1000 * need s' pdir hi fin.
Proof.
  intros Hva Hhf Hfin Hva0 Hhi0 Hf Hp.
  destruct (map_4k_until_ok s pdir fin hi flags va (ms_kpgdir _ _ _ _ Hs) (ms_inv _ _ _ _ Hs) Hl HV
    Hva Hhf Hfin Hva0 Hhi0) as (s' & E & He & Hn); [|done|].
  - intros a Ha. apply (ms_vacant _ _ _ _ Hs); [unfold is_u32; lia|by apply Hf].
  - exists s'. split; [done|]. split; [|done]. by apply (map_state_range s0 s).
Qed.

Lemma map_4m_until_state hi va :
  0x80000000 <= va <= hi -> hi <= 0x100000000 -> va mod 0x400000 = 0 -> hi mod 0x400000 = 0 ->
  (forall a, va <= a < hi -> f a = None) ->
  exists s', map_4m_until hi flags va s = Ok hi s' /\
    map_state s0 s' pdir (over f 0x80000000 va hi flags) /\ pa_top s' = pa_top s.
Proof.
  intros Hva Hhi Hva0 Hhi0 Hf.
  destruct (map_4m_until_ok s pdir hi flags va (ms_kpgdir _ _ _ _ Hs) (ms_inv _ _ _ _ Hs) Hl HV
    Hva Hhi Hva0 Hhi0) as (s' & E & He & Ht).
  - intros a Ha. rewrite (ms_dir _ _ _ _ Hs), has_0; [done|zarith|].
    intros b Hb. apply Hf. zarith.
  - exists s'. split; [done|]. split; [|done]. by apply (map_state_range s0 s).
Qed.

Lemma vm_map_4m_state va pa :
  is_u32 va -> is_u32 pa -> va mod 0x400000 = 0 -> pa mod 0x400000 = 0 ->
  (forall a, va <= a < va + 0x400000 -> f a = None) ->
  exists s', vm_map_4m pdir va pa flags s = Ok XOS_OK s' /\
    map_state s0 s' pdir (over f (va - pa) va (va + 0x400000) flags) /\ pa_top s' = pa_top s.
Proof.
  intros Hva Hpa Hva0 Hpa0 Hf.
  destruct (vm_map_4m_ok s pdir va pa flags (ms_inv _ _ _ _ Hs) Hva Hpa Hva0 Hpa0 Hl HV)
    as (s' & E & I & Hh & Me & Hw).
  - rewrite (ms_dir _ _ _ _ Hs), has_0; [done|zarith|]. intros b Hb. apply Hf. zarith.
  - exists s'. split; [done|]. split; [|apply (ge_top _ _ _ _ Me)]. apply (map_state_range s0 s); [done|].
    apply (range_effect_mega s s' s' pdir (va - pa) va _ flags); try done; [|zarith| |].
    + zarith.
    + intros a Ha. rewrite Hw by done. by replace (va - (va - pa)) with pa by lia.
    + by apply range_effect_nil.
Qed.
End map_state_ops.

(** ** The kernel's memory map *)

(** What the linker script guarantees (make/kernel.ram.ld, make/common.ram.ld):
    page-aligned sections in order below a top of memory that is a multiple of
    4MB, and enough RAM after the image for the tables of the image, the
    directory, the boot stack and the boot directory. *)
Definition image_top (img : image) : Z := (image_end img + 0x3FFFFF) / 0x400000 * 0x400000.

Definition image_ok (img : image) : Prop :=
  0x80000000 <= text_start img <= rodata_start img /\
  rodata_start img <= data_start img <= image_end img /\
  text_start img mod 0x1000 = 0 /\ rodata_start img mod 0x1000 = 0 /\
  data_start img mod 0x1000 = 0 /\ image_end img mod 0x1000 = 0 /\
  memory_top img mod 0x400000 = 0 /\ memory_top img <= 0xF0000000 /\
  image_end img +
    0x1000 * (image_top img / 0x400000 - text_start img / 0x400000 + 4) <= memory_top img.

#[export] Instance image_ok_dec img : Decision (image_ok img).
Proof. unfold image_ok. apply _. Defined.

(** What each virtual address translates to: text is executable and not
    writable, rodata neither, the rest of RAM writable and not executable, all
    of it at the physical address of the direct map; the first 4MB of MMIO are
    mapped to themselves; nothing else is mapped. *)
Definition kernel_map (img : image) (a : Z) : option (Z * Z) :=
  if decide (text_start img <= a < rodata_start img) then Some (a - 0x80000000, KERNEL_RX)
  else if decide (rodata_start img <= a < data_start img) then Some (a - 0x80000000, KERNEL_RO)
  else if decide (data_start img <= a < memory_top img) then Some (a - 0x80000000, KERNEL_RW)
  else if decide (0xF0000000 <= a < 0xF0400000) then Some (a, KERNEL_RW)
  else None.

Lemma image_top_mask img :
  image_ok img -> Z.land (u32 (image_end img + 0x3FFFFF)) 0xFFC00000 = image_top img.
Proof.
  intros (? & ? & ? & ? & ? & ? & ? & ? & ?). unfold image_top in *.
  rewrite u32_small by zarith.
  rewrite (land_high _ 0xFFC00000 22) by (lia || done || zarith).
  change (2 ^ 22) with 0x400000. zarith.
Qed.

Lemma image_top_range img :
  image_ok img -> image_end img <= image_top img <= memory_top img /\ image_top img mod 0x400000 = 0 /\
    memory_top img <= 0xF0000000.
Proof. intros (? & ? & ? & ? & ? & ? & ? & ? & ?). unfold image_top in *. zarith. Qed.

(** The state [vmm_init] and the allocation of the directory lead to. *)
Definition dir_made (img : image) (s : kernel) : kernel :=
  let s0 := set_pa (image_end img - 0x80000000) (memory_top img - 0x80000000 - 0x2000) s in
  set_kpgdir (memory_top img - 0x3000) (page_taken s0).

Lemma set_kpgdir_inv s pdir p : pt_inv s pdir -> pt_inv (set_kpgdir p s) pdir.
Proof. intros H. by apply (pt_inv_same s). Qed.

Lemma set_kpgdir_entry s pdir p i : entry (k_mem (set_kpgdir p s)) pdir i = entry (k_mem s) pdir i.
Proof. done. Qed.

Lemma dir_made_ok img s :
  image_ok img -> mapped (k_mem s) (image_end img) (memory_top img - 0x2000 - image_end img) ->
  (vmm_init (kva_to_pa (image_end img)) (u32 (kva_to_pa (memory_top img) - 2 * PAGE_SIZE)) ;;
   page <- kpage_alloc_z ;;
   modify (set_kpgdir page)) s = Ok tt (dir_made img s) /\
  pt_inv (dir_made img s) (memory_top img - 0x3000) /\
  forall i, 0 <= i < 0x400 -> entry (k_mem (dir_made img s)) (memory_top img - 0x3000) i = 0.
Proof.
  intros (H1 & H2 & H3 & H4 & H5 & H6 & H7 & H8 & H9) Hm.
  assert (image_end img + 0x4000 <= memory_top img) as Hr by (unfold image_top in H9; zarith).
  rewrite !kva_direct, u32_small by (unfold PAGE_SIZE; zarith).
  change (2 * PAGE_SIZE) with 0x2000.
  set (s0 := set_pa (image_end img - 0x80000000) (memory_top img - 0x80000000 - 0x2000) s).
  assert (ram_ok s0) as Hram.
  { split; [cbn; lia|split; [cbn; lia|split; [cbn; zarith|split; [cbn; zarith|]]]].
    cbn. eapply mapped_sub; [exact Hm|lia..]. }
  destruct (kpage_alloc_z_ok s0 Hram ltac:(cbn; lia)) as (E & Hinv & H0).
  change (pa_top s0) with (memory_top img - 0x80000000 - 0x2000) in *.
  replace (memory_top img - 0x80000000 - 0x2000 - 0x1000 + 0x80000000)
    with (memory_top img - 0x3000) in * by lia.
  split; [|split].
  - unfold dir_made. fold s0. generalize dependent (page_taken s0). intros s1 E _ _.
    unfold vmm_init, modify at 1, bind at 1. fold s0. by step E.
  - unfold dir_made. fold s0. apply set_kpgdir_inv. exact Hinv.
  - intros i Hi. specialize (H0 (i * 0x400000) ltac:(zarith)).
    rewrite Z.div_mul in H0 by lia. unfold dir_made. fold s0. rewrite set_kpgdir_entry. exact H0.
Qed.

Lemma bind_assoc3 {A B C D} (c : M kernel A) (d : M kernel B) (e : B -> M kernel C)
    (k : M kernel D) s :
  ((c ;; x <- d ;; e x) ;; k) s = (c ;; x <- d ;; e x ;; k) s.
Proof. unfold bind. destruct (c s) as [? s1 | | |]; [|done..]. by destruct (d s1). Qed.

(** The tables the image needs, one for each 4MB. *)
Definition image_tables (img : image) : Z := image_top img / 0x400000 - text_start img / 0x400000.

(** The loops of [start], one after the other. *)
Lemma build_kernel_map_runs img s :
  image_ok img -> mapped (k_mem s) (image_end img) (memory_top img - 0x2000 - image_end img) ->
  exists s1 s2 s3 s4 s',
    map_4k_until (rodata_start img) KERNEL_RX (text_start img) (dir_made img s) = Ok (rodata_start img) s1 /\
    map_4k_until (data_start img) KERNEL_RO (rodata_start img) s1 = Ok (data_start img) s2 /\
    map_4k_until (image_top img) KERNEL_RW (data_start img) s2 = Ok (image_top img) s3 /\
    map_4m_until (memory_top img) KERNEL_RW (image_top img) s3 = Ok (memory_top img) s4 /\
    kpgdir s4 = memory_top img - 0x3000 /\
    vm_map_4m (memory_top img - 0x3000) 0xF0000000 0xF0000000 KERNEL_RW s4 = Ok XOS_OK s' /\
    map_state (dir_made img s) s' (memory_top img - 0x3000) (kernel_map img) /\
    memory_top img - 0x80003000 - 0x1000 * image_tables img <= pa_top s'.
Proof.
  intros Hok Hm. destruct (dir_made_ok img s Hok Hm) as (_ & Hinv0 & H0).
  destruct (image_top_range img Hok) as ([Ht1 Ht3] & Ht2 & _).
  destruct Hok as (H1 & H2 & H3 & H4 & H5 & H6 & H7 & H8 & H9). fold (image_tables img) in H9.
  set (top := image_top img) in *. set (pdir := memory_top img - 0x3000) in *.
  assert (kpgdir (dir_made img s) = pdir /\ pa_bottom (dir_made img s) = image_end img - 0x80000000 /\
    pa_top (dir_made img s) = memory_top img - 0x80000000 - 0x2000 - 0x1000)
    as (K0 & B0 & T0) by (split; [reflexivity|split; reflexivity]).
  generalize dependent (dir_made img s). intros s0 Hinv0 H0 K0 B0 T0.
  assert (need s0 pdir (text_start img) top <= image_tables img) as Hn0.
  { unfold need, image_tables. rewrite H0, is_ptr_0 by zarith.
    destruct (Z.ltb_spec (text_start img) top); subst top; zarith. }
  pose proof (map_state_empty s0 pdir K0 Hinv0 H0) as S0.
  destruct (map_4k_until_state s0 s0 pdir _ S0 KERNEL_RX eq_refl eq_refl top (rodata_start img) (text_start img))
    as (s1 & E1 & S1 & N1); [lia..|done|done|done|lia|].
  destruct (map_4k_until_state s0 s1 pdir _ S1 KERNEL_RO eq_refl eq_refl top (data_start img) (rodata_start img))
    as (s2 & E2 & S2 & N2); [lia..|done|done| |rewrite (ms_bottom _ _ _ _ S1); lia|].
  { intros a Ha. unfold over. by rewrite decide_False by lia. }
  destruct (map_4k_until_state s0 s2 pdir _ S2 KERNEL_RW eq_refl eq_refl top top (data_start img))
    as (s3 & E3 & S3 & N3); [lia..|done|zarith| |rewrite (ms_bottom _ _ _ _ S2); lia|].
  { intros a Ha. unfold over. by rewrite !decide_False by lia. }
  destruct (map_4m_until_state s0 s3 pdir _ S3 KERNEL_RW eq_refl eq_refl (memory_top img) top)
    as (s4 & E4 & S4 & T4); [lia..|done|done| |].
  { intros a Ha. unfold over. by rewrite !decide_False by lia. }
  destruct (vm_map_4m_state s0 s4 pdir _ S4 KERNEL_RW eq_refl eq_refl 0xF0000000 0xF0000000)
    as (s5 & E5 & S5 & T5); [by_decide|by_decide|done|done| |].
  { intros a Ha. unfold over. by rewrite !decide_False by lia. }
  exists s1, s2, s3, s4, s5. do 4 (split; [done|]). split; [apply (ms_kpgdir _ _ _ _ S4)|]. split; [done|].
  split; [|rewrite need_none in N3; lia].
  apply (map_state_ext _ _ _ _ _ S5). intros a. unfold over, kernel_map.
  clear - H1 H2 H8 Ht1 Ht3. repeat case_decide; try done; try lia; do 2 f_equal; lia.
Qed.

Lemma build_kernel_map_ok img s :
  image_ok img -> mapped (k_mem s) (image_end img) (memory_top img - 0x2000 - image_end img) ->
  exists s', build_kernel_map img s = Ok tt s' /\
    map_state (dir_made img s) s' (memory_top img - 0x3000) (kernel_map img) /\
    memory_top img - 0x80003000 - 0x1000 * image_tables img <= pa_top s'.
Proof.
  intros Hok Hm. destruct (dir_made_ok img s Hok Hm) as (E0 & _).
  destruct (build_kernel_map_runs img s Hok Hm) as (s1 & s2 & s3 & s4 & s' & E1 & E2 & E3 & E4 & K4 & E5 & H).
  exists s'. split; [|exact H]. unfold build_kernel_map. rewrite image_top_mask by done.
  rewrite <- bind_assoc3. step E0. step E1. step E2. step E3. step E4.
  unfold gets, bind at 1. rewrite K4. by step E5.
Qed.

(** ** Trap frames *)

Lemma store_words_ok (s : kernel) a ws :
  Forall is_u32 ws -> a mod 4 = 0 -> mapped (k_mem s) a (4 * Z.of_nat (length ws)) ->
  exists m, store_words a ws s = Ok tt (with_mem m s) /\ words_at m a ws /\
    same_except (k_mem s) m a (4 * Z.of_nat (length ws)) /\
    (forall b n, mapped (k_mem s) b n -> mapped m b n).
Proof. intros H Ha Hm. exact (store_words_at s a ws H Ha Hm). Qed.

Lemma load_words_ok (s : kernel) a ws :
  a mod 4 = 0 -> words_at (k_mem s) a ws -> load_words a (length ws) s = Ok ws s.
Proof. intros Ha Hw. change (words_at (mem_of s) a ws) in Hw. by apply load_words_at. Qed.

(** What leaving the kernel does: the frame [ws] goes to the registers. *)
Definition left_kernel (s : kernel) (tp : Z) (ws : list Z) : kernel :=
  hw_op (Sret ws) (hw_op (CsrWrite CSR_SEPC (nth 16 ws 0)) (hw_op (CsrWrite CSR_SSCRATCH tp) s)).

Lemma trap_exit_ok {A} sp tp ws (s : kernel) :
  sp mod 4 = 0 -> words_at (k_mem s) sp ws -> length ws = 32%nat ->
  trap_exit (A := A) sp tp s = Halt (left_kernel s tp ws).
Proof.
  intros Hsp Hws Hl. unfold trap_exit, csr_write, modify. unfold bind at 1.
  set (s1 := hw_op _ s). destruct (lookup_lt_is_Some_2 ws 16 ltac:(lia)) as [pc Hpc].
  destruct (Hws 16%nat pc Hpc) as [Hm Hw].
  step (load32_ok (sp + EF_PC) s1 Hm ltac:(unfold EF_PC; zarith)). unfold bind at 1.
  set (s2 := hw_op _ s1). rewrite <- Hl.
  step (load_words_ok s2 sp ws Hsp Hws). unfold bind, spin, left_kernel. do 2 f_equal.
  unfold s2. do 2 f_equal. change (word (mem_of s1) (sp + EF_PC)) with (word (k_mem s) (sp + 4 * Z.of_nat 16)). rewrite Hw.
  symmetry. by apply nth_lookup_Some.
Qed.

Lemma left_kernel_hw s tp ws :
  k_hw (left_kernel s tp ws) =
  k_hw s ++ [CsrWrite CSR_SSCRATCH tp; CsrWrite CSR_SEPC (nth 16 ws 0); Sret ws].
Proof. unfold left_kernel. cbn [k_hw hw_op]. by rewrite <- !app_assoc. Qed.

Section traps.
Context (c : trap_csrs) (junk ksp : Z) (regs : list Z) (s : kernel).
Context (Hregs : Forall is_u32 regs) (Hlen : length regs = 32%nat).
Context (Hksp : ksp mod 4 = 0) (Hmap : mapped (k_mem s) (ksp - 128) 128).

(** The registers are saved below the kernel stack top, and the rest of the
    memory is untouched. *)
Lemma trap_saved {A} :
  exists m, trap_entry (A := A) c junk ksp regs s =
    trap_dispatch c junk (ksp - 128) (nth 1 regs 0) (nth 8 regs 0) (nth 9 regs 0) (nth 10 regs 0)
      (with_mem m s) /\
    words_at m (ksp - 128) regs /\ same_except (k_mem s) m (ksp - 128) 128.
Proof.
  destruct (store_words_ok s (ksp - 128) regs Hregs ltac:(zarith)) as (m & E & Hw & Hs & _).
  { by rewrite Hlen. }
  rewrite Hlen in Hs. exists m. split; [|done]. unfold trap_entry. by step E.
Qed.
End traps.

(** Overwrite word [i] of a frame of 32. *)
Lemma store_frame (s : kernel) sp ws i v :
  words_at (k_mem s) sp ws -> length ws = 32%nat -> sp mod 4 = 0 -> is_u32 v -> (i < 32)%nat ->
  exists m, store32 (sp + 4 * Z.of_nat i) v s = Ok tt (with_mem m s) /\
    words_at m sp (<[i := v]> ws) /\ same_except (k_mem s) m sp 128.
Proof.
  intros Hws Hl Hsp Hv Hi. change (words_at (mem_of s) sp ws) in Hws.
  destruct (store_word_at s sp ws i v Hws Hsp Hv ltac:(lia)) as (m & E & W & S & _).
  rewrite Hl in S. by exists m.
Qed.

Lemma load_frame (s : kernel) sp ws i :
  words_at (k_mem s) sp ws -> (i < length ws)%nat -> sp mod 4 = 0 ->
  load32 (sp + 4 * Z.of_nat i) s = Ok (nth i ws 0) s.
Proof. intros Hw Hi Hsp. change (words_at (mem_of s) sp ws) in Hw. by apply load_word_at. Qed.

(** The system call leaves [a0 := r], [pc := pc + 4] in the frame. *)
Definition returned (r : Z) (regs : list Z) : list Z :=
  <[16%nat := u32 (nth 16 regs 0 + 4)]> (<[8%nat := r]> regs).

Lemma syscall_return {A} (fn : M kernel Z) sp regs r s s1 :
  fn s = Ok r s1 -> k_mem s1 = k_mem s -> is_u32 r -> sp mod 4 = 0 -> length regs = 32%nat ->
  words_at (k_mem s) sp regs ->
  exists m, (r <- fn ;; store32 (sp + EF_A0) r ;; pc <- load32 (sp + EF_PC) ;;
    store32 (sp + EF_PC) (u32 (pc + 4)) ;; trap_exit (A := A) sp (sp + 32 * 4)) s =
    Halt (left_kernel (with_mem m s1) (sp + 128) (returned r regs)) /\
    same_except (k_mem s) m sp 128.
Proof.
  intros Efn Hmem Hr Hsp Hlen Hws. step Efn. rewrite <- Hmem in *.
  change (sp + EF_A0) with (sp + 4 * Z.of_nat 8). change (sp + EF_PC) with (sp + 4 * Z.of_nat 16).
  destruct (store_frame s1 sp regs 8 r Hws Hlen Hsp Hr ltac:(lia)) as (m2 & E2 & Hws2 & Hs2).
  set (s2 := with_mem m2 s1) in E2. step E2. set (regs2 := <[8%nat := r]> regs) in *.
  assert (words_at (k_mem s2) sp regs2) as Hws2' by exact Hws2.
  assert (length regs2 = 32%nat) as Hlen2 by (unfold regs2; by rewrite length_insert).
  step (load_frame s2 sp regs2 16 Hws2' ltac:(lia) Hsp).
  assert (nth 16 regs2 0 = nth 16 regs 0) as ->
    by (unfold regs2; by rewrite !nth_lookup, list_lookup_insert_ne).
  set (pc := u32 (nth 16 regs 0 + 4)).
  destruct (store_frame s2 sp regs2 16 pc Hws2' Hlen2 Hsp (u32_range _) ltac:(lia))
    as (m3 & E3 & Hws3 & Hs3).
  step E3. exists m3. split.
  - rewrite (trap_exit_ok sp _ (returned r regs)); [done|done|done|].
    unfold returned. by rewrite !length_insert.
  - intros b Hb. rewrite Hs3 by done. by apply Hs2.
Qed.

Lemma returned_pc r regs :
  length regs = 32%nat -> nth 16 (returned r regs) 0 = u32 (nth 16 regs 0 + 4).
Proof.
  intros Hl. unfold returned. rewrite !nth_lookup, list_lookup_insert_eq; [done|].
  rewrite length_insert, Hl. lia.
Qed.

Lemma u_out_emit l (s : kernel) : u_out (k_uart (emit l s)) = u_out (k_uart s) ++ l.
Proof. done. Qed.

(** [sys_exit] prints and stops. *)
Definition exit_text (n : Z) : list Z :=
  [10] ++ str "[ user exit (status " ++ (if s32 n <? 0 then [45] else []) ++
  dec (Z.abs (s32 n)) ++ str ") ]" ++ [10].

Lemma sys_exit_ok n (s : kernel) :
  sys_exit n s = Halt (emit (wire (exit_text n)) s).
Proof.
  unfold sys_exit. set (ds := [(nl ++ str "[ user exit (status ",
    {| d_left := false; d_plus := false; d_space := false; d_alt := false; d_zero := false;
       d_width := 0; d_conv := CDecimal |})]).
  change (nl ++ str "[ user exit (status %d) ]" ++ nl) with (unparse ds (str ") ]" ++ nl)).
  assert (is_u32 (Z.abs (s32 n))) as Hn by zarith.
  pose proof (length_dec _ Hn) as Hd. pose proof (dec_chars _ Hn) as Hc.
  assert (xprintf (unparse ds (str ") ]" ++ nl)) [VaWord n] s = Ok tt (emit (wire (exit_text n)) s)) as E.
  { apply xprintf_text; [by_decide| | |cbn; lia|].
    - unfold ds. cbn [render render_directive d_conv option_map]. unfold justify, exit_text.
      cbn [d_left d_zero d_width andb]. unfold sign_of. cbn [d_plus d_space]. unfold spaces.
      replace (Z.to_nat _) with 0%nat by (destruct (s32 n <? 0); cbn [length]; lia).
      destruct (s32 n <? 0); cbn [replicate app]; by rewrite <- ?app_assoc.
    - unfold exit_text. rewrite !length_app. change (length (str "[ user exit (status ")) with 20%nat.
      change (length (str ") ]")) with 3%nat. destruct (s32 n <? 0); cbn [length]; lia.
    - unfold exit_text. rewrite !Forall_app. split; [by repeat constructor|].
      split; [by apply (bool_decide_unpack _)|]. split; [destruct (s32 n <? 0); by repeat constructor|].
      split; [|split; [by apply (bool_decide_unpack _)|by repeat constructor]].
      eapply Forall_impl; [|exact Hc]. cbn. lia. }
  by step E.
Qed.

(** ** The properties *)

(** C5: [start] builds the memory map of the linker script: from any RAM
    contents, with an image the linker script allows, every virtual address
    afterwards translates as [kernel_map] says - text executable and not
    writable, read-only data neither, the rest of RAM writable and not
    executable, all at its direct-map physical address, the MMIO megapage to
    itself, and nothing else mapped; all the loops end, no allocation fails,
    and nothing is printed. *)
Theorem build_kernel_map_correct img s :
  image_ok img -> mapped (k_mem s) (image_end img) (memory_top img - 0x2000 - image_end img) ->
  exists s', build_kernel_map img s = Ok tt s' /\ pt_inv s' (kpgdir s') /\ k_uart s' = k_uart s /\
    forall a, is_u32 a -> walk (k_mem s') (kpgdir s') a = kernel_map img a.
Proof.
  intros Hok Hm. destruct (build_kernel_map_ok img s Hok Hm) as (s' & E & [I K U _ _ _ W _ _ _] & _).
  exists s'. by rewrite K.
Qed.

Definition small_image : image :=
  {| text_start := 0xC0008000; rodata_start := 0xC000C000; data_start := 0xC000E000;
     bss_start := 0xC000E100; bss_end := 0xC000F000; image_end := 0xC000F000;
     memory_top := 0xC0400000; extra_start := 0xC000C100; extra_end := 0xC000D000;
     trap_entry_at := 0xC0009000 |}.

Definition small_ram : kernel :=
  {| k_mem := mem_lit 0xC000F000 (replicate (Z.to_nat 0x3EF000) 7);
     k_uart := {| u_stalls := []; u_out := [] |};
     pa_top := 0; pa_bottom := 0; kpgdir := 0; k_hw := [] |}.

Lemma small_ram_mapped :
  mapped (k_mem small_ram) (image_end small_image)
    (memory_top small_image - 0x2000 - image_end small_image).
Proof. apply mapped_mem_lit; [done|]. by rewrite length_replicate, Z2Nat.id. Qed.

Lemma build_kernel_map_correct_witness :
  exists s', build_kernel_map small_image small_ram = Ok tt s' /\ pt_inv s' (kpgdir s') /\
    k_uart s' = k_uart small_ram /\
    forall a, is_u32 a -> walk (k_mem s') (kpgdir s') a = kernel_map small_image a.
Proof. apply build_kernel_map_correct; [by_decide | exact small_ram_mapped]. Defined.

(** C9: a trap frame round trip: an interrupt taken in user mode saves the 32
    registers below the kernel stack top and returns with every register as it
    was, at the interrupted instruction, with the kernel stack top back in
    [sscratch]; the console and the memory outside the frame are untouched. *)
Theorem interrupt_transparent c junk ksp regs s :
  Forall is_u32 regs -> length regs = 32%nat -> ksp mod 4 = 0 ->
  mapped (k_mem s) (ksp - 128) 128 -> s32 (scause c) < 0 ->
  exists s', trap_entry (A := unit) c junk ksp regs s = Halt s' /\
    k_hw s' = k_hw s ++ [CsrWrite CSR_SSCRATCH ksp; CsrWrite CSR_SEPC (nth 16 regs 0); Sret regs] /\
    k_uart s' = k_uart s /\ same_except (k_mem s) (k_mem s') (ksp - 128) 128.
Proof.
  intros Hr Hl Hk Hm Hc.
  destruct (trap_saved c junk ksp regs s Hr Hl Hk Hm (A := unit)) as (m & E & Hw & Hs).
  eexists. split; [|split; [|split]].
  - rewrite E. unfold trap_dispatch. rewrite Z.geb_leb, (proj2 (Z.leb_gt _ _)) by lia.
    unfold interrupt_handler. rewrite bind_ret. apply trap_exit_ok; [zarith|exact Hw|exact Hl].
  - rewrite left_kernel_hw. by replace (ksp - 128 + 32 * 4) with ksp by lia.
  - done.
  - done.
Qed.

Definition trap_regs : list Z := map (fun i => Z.of_nat i * 0x1111) (seq 0 32).
Definition trap_kernel : kernel :=
  {| k_mem := mem_lit 0xC1FFF000 (replicate 256 0); k_uart := {| u_stalls := []; u_out := [] |};
     pa_top := 0; pa_bottom := 0; kpgdir := 0; k_hw := [] |}.

Lemma interrupt_transparent_witness :
  exists s', trap_entry (A := unit) {| sstatus := 0; scause := 0x80000009; stval := 0 |} 0
      0xC1FFF0F0 trap_regs trap_kernel = Halt s' /\
    k_hw s' = [CsrWrite CSR_SSCRATCH 0xC1FFF0F0; CsrWrite CSR_SEPC 0x11110; Sret trap_regs] /\
    k_uart s' = k_uart trap_kernel /\
    same_except (k_mem trap_kernel) (k_mem s') (0xC1FFF0F0 - 128) 128.
Proof.
  apply (interrupt_transparent {| sstatus := 0; scause := 0x80000009; stval := 0 |} 0 0xC1FFF0F0
    trap_regs trap_kernel); by_decide.
Defined.

(** A trap that is an environment call from user mode. *)
Definition user_ecall (c : trap_csrs) : Prop :=
  0 <= s32 (scause c) /\ Z.land (scause c) 0xFF = EXCn_ECALL_UMODE.

(** C21: system calls by number ([t0]).  [exit] prints the status and the kernel
    stops, never returning to user mode.  [xputc] sends its argument to the
    console and [thread_create] answers "not supported", both returning to the
    instruction after the [ecall] with every register but [a0] preserved (for
    the void [xputc] [a0] is whatever the C function left there).  A number
    outside the table puts "bad system call" in [a0] but returns to the
    [ecall] itself, which will trap again. *)
Theorem syscall_dispatch c junk ksp regs s :
  Forall is_u32 regs -> length regs = 32%nat -> ksp mod 4 = 0 ->
  mapped (k_mem s) (ksp - 128) 128 -> user_ecall c -> is_u32 junk ->
  let t0 := nth 1 regs 0 in
  let a0 := nth 8 regs 0 in
  let pc := nth 16 regs 0 in
  exists s', trap_entry (A := unit) c junk ksp regs s = Halt s' /\
    same_except (k_mem s) (k_mem s') (ksp - 128) 128 /\
    let out l := u_out (k_uart s') = u_out (k_uart s) ++ l in
    let returns pc ws :=
      k_hw s' = k_hw s ++ [CsrWrite CSR_SSCRATCH ksp; CsrWrite CSR_SEPC pc; Sret ws] in
    if t0 =? 0 then
      out (wire ([10] ++ str "[ user exit (status " ++
                 (if s32 a0 <? 0 then [45] else []) ++ dec (Z.abs (s32 a0)) ++ str ") ]" ++ [10])) /\
      k_hw s' = k_hw s
    else if t0 =? 1 then out (wire1 a0) /\ returns (u32 (pc + 4)) (returned junk regs)
    else if t0 =? 2 then out [] /\ returns (u32 (pc + 4)) (returned XOS_ERR_NOT_SUPPORTED regs)
    else out [] /\ returns pc (<[8%nat := XOS_ERR_BAD_SYSCALL]> regs).
Proof.
  intros Hr Hl Hk Hm [Hc1 Hc2] Hj t0 a0 pc.
  destruct (trap_saved c junk ksp regs s Hr Hl Hk Hm (A := unit)) as (m & E & Hw & Hs).
  rewrite E. fold t0 a0. unfold trap_dispatch. rewrite Z.geb_leb, (proj2 (Z.leb_le _ _)) by lia.
  rewrite Hc2, Z.eqb_refl. unfold syscall_entry. set (s1 := with_mem m s).
  assert (words_at (k_mem s1) (ksp - 128) regs) as Hw1 by exact Hw.
  assert (same_except (k_mem s) (k_mem s1) (ksp - 128) 128) as Hs1 by exact Hs.
  assert ((ksp - 128) mod 4 = 0) as Hsp by zarith.
  assert (0 <= t0) as Ht0.
  { destruct (lookup_lt_is_Some_2 regs 1 ltac:(lia)) as [x Hx]. unfold t0.
    rewrite (nth_lookup_Some _ _ _ _ Hx). rewrite Forall_lookup in Hr. by destruct (Hr 1%nat x Hx). }
  destruct (Z.eqb_spec t0 0) as [H0|H0]; [|destruct (Z.eqb_spec t0 1) as [H1|H1];
    [|destruct (Z.eqb_spec t0 2) as [H2|H2]]].
  - rewrite H0. cbn [Z.to_nat lookup list_lookup syscall_table].
    eexists. split.
    { apply bind_halt, bind_halt, sys_exit_ok. }
    split; [exact Hs1|]. split; [exact (u_out_emit _ s1)|done].
  - rewrite H1. change (syscall_table junk a0 (nth 9 regs 0) (nth 10 regs 0) !! Z.to_nat 1)
      with (Some (sys_xputc a0 ;; ret junk)).
    assert ((sys_xputc a0 ;; ret junk) s1 = Ok junk (emit (wire1 a0) s1)) as Ex
      by (unfold sys_xputc; by step (xputc_ok a0 s1)).
    destruct (syscall_return (A := unit) _ (ksp - 128) regs junk s1 _ Ex eq_refl Hj Hsp Hl Hw1)
      as (m' & Er & Hs'). rewrite Er. eexists. split; [reflexivity|]. split.
    { intros b Hb. etransitivity; [by apply Hs'|by apply Hs1]. }
    split; [exact (u_out_emit _ s1)|]. rewrite left_kernel_hw, returned_pc by done.
    by replace (ksp - 128 + 128) with ksp by lia.
  - rewrite H2. change (syscall_table junk a0 (nth 9 regs 0) (nth 10 regs 0) !! Z.to_nat 2)
      with (Some (sys_thread_create a0 (nth 9 regs 0) (nth 10 regs 0))).
    destruct (syscall_return (A := unit) (sys_thread_create a0 (nth 9 regs 0) (nth 10 regs 0))
      (ksp - 128) regs XOS_ERR_NOT_SUPPORTED s1 s1 eq_refl eq_refl ltac:(by_decide) Hsp Hl Hw1)
      as (m' & Er & Hs'). rewrite Er. eexists. split; [reflexivity|]. split.
    { intros b Hb. etransitivity; [by apply Hs'|by apply Hs1]. }
    split; [by rewrite app_nil_r|]. rewrite left_kernel_hw, returned_pc by done.
    by replace (ksp - 128 + 128) with ksp by lia.
  - assert (syscall_table junk a0 (nth 9 regs 0) (nth 10 regs 0) !! Z.to_nat t0 = None) as ->
      by (apply lookup_ge_None_2; cbn; lia).
    change (ksp - 128 + EF_A0) with (ksp - 128 + 4 * Z.of_nat 8).
    destruct (store_frame s1 (ksp - 128) regs 8 XOS_ERR_BAD_SYSCALL Hw1 Hl Hsp ltac:(by_decide) ltac:(lia))
      as (m' & Est & Hw' & Hs'). step Est. eexists. split.
    { apply trap_exit_ok; [done|exact Hw'|by rewrite length_insert]. }
    split. { intros b Hb. etransitivity; [by apply Hs'|by apply Hs1]. }
    split; [by rewrite app_nil_r|]. rewrite left_kernel_hw, !nth_lookup, list_lookup_insert_ne by done.
    unfold pc. rewrite nth_lookup. by replace (ksp - 128 + 32 * 4) with ksp by lia.
Qed.

Lemma syscall_dispatch_witness :
  exists s', trap_entry (A := unit) {| sstatus := 0; scause := 8; stval := 0 |} 77
      0xC1FFF0F0 (<[1%nat := 1]> trap_regs) trap_kernel = Halt s' /\
    same_except (k_mem trap_kernel) (k_mem s') (0xC1FFF0F0 - 128) 128 /\
    u_out (k_uart s') = [0x88] /\
    k_hw s' = [CsrWrite CSR_SSCRATCH 0xC1FFF0F0; CsrWrite CSR_SEPC 0x11114;
               Sret (returned 77 (<[1%nat := 1]> trap_regs))].
Proof.
  destruct (syscall_dispatch {| sstatus := 0; scause := 8; stval := 0 |} 77 0xC1FFF0F0
    (<[1%nat := 1]> trap_regs) trap_kernel) as (s' & E & S & O & H); [by_decide..|].
  exists s'. split; [exact E|]. split; [exact S|]. split; [exact O | exact H].
Defined.
