(* ===== verification/Boot.v ===== *)
(** * Booting X/OS (xos/src/kernel.c [start], [start_user_program]; entry.S)

    The whole path from the entry of the kernel to the first instruction of the
    user program, composed from the pieces of Kernel.v and Vmm.v.  The
    specification is [boot_map], what every virtual address translates to when
    user mode is entered, and [user_byte], what a user program reads through
    that translation.

    Two facts about pages carry the proofs.  A page the allocator has handed
    out is [held] (Vmm.v): nothing the memory manager does later touches it.
    And a program may write to held pages without the translation changing. *)

From S2P Require Import Prelude Monad Hw Mem Words LibcMem LibcStr Uart Printf Exception Vmm Kernel.

(** What the program sees at the virtual address [a]. *)
Definition user_byte (m : mem) (pdir a : Z) : option Z :=
  match walk m pdir a with
  | Some (pa, _) => m !! pa_to_kva pa
  | None => None
  end.

(** ** Taking a page from the allocator *)

Lemma taken_rest s :
  pa_top (page_taken s) = pa_top s - 0x1000 /\ pa_bottom (page_taken s) = pa_bottom s /\
  kpgdir (page_taken s) = kpgdir s /\ k_uart (page_taken s) = k_uart s /\
  k_hw (page_taken s) = k_hw s.
Proof. exact (conj eq_refl (conj eq_refl (conj eq_refl (conj eq_refl eq_refl)))). Qed.

Section taken.
Context (s : kernel) (pdir : Z) (Hinv : pt_inv s pdir) (Hp : pa_bottom s < pa_top s).

Let p := pa_top s - 0x1000.
Let s1 := page_taken s.

Lemma taken_page : pa_bottom s <= p < pa_top s /\ p mod 0x1000 = 0 /\ is_u32 p.
Proof. exact (fresh_page s pdir 0 Hinv Hp). Qed.

Lemma taken_kva : page_ok (k_mem s) (pa_to_kva p) /\ pa_to_kva p <> pdir.
Proof. exact (fresh_kva s pdir 0 Hinv Hp). Qed.

Lemma taken_entry a i :
  a mod 0x1000 = 0 -> a <> pa_to_kva p -> 0 <= i < 0x400 -> entry (k_mem s1) a i = entry (k_mem s) a i.
Proof. exact (fresh_zero_other s pdir 0 Hinv Hp a i). Qed.

Lemma taken_dir i : 0 <= i < 0x400 -> entry (k_mem s1) pdir i = entry (k_mem s) pdir i.
Proof.
  destruct taken_kva as [_ Hk]. destruct (pt_root s pdir Hinv) as (_ & Hr & _).
  apply taken_entry; [done|by apply not_eq_sym].
Qed.

Lemma taken_alloc : ppage_alloc_z s = Ok p s1.
Proof.
  destruct taken_page as (H1 & H2 & H3), taken_kva as [(_ & _ & Hm) _].
  destruct (pt_range s pdir Hinv) as (Hb & Hu & Hb0 & Ht0).
  apply ppage_alloc_z_ok; [lia|unfold p, is_u32 in *; lia|exact Hm].
Qed.

Lemma taken_page_ok a : page_ok (k_mem s) a -> page_ok (k_mem s1) a.
Proof. apply page_ok_write. Qed.

Lemma taken_inv : pt_inv s1 pdir.
Proof.
  destruct taken_page as (H1 & H2 & H3). destruct (pt_range s pdir Hinv) as (Hb & Hu & Hb0 & Ht0).
  constructor.
  - apply taken_page_ok, (pt_root s pdir Hinv).
  - intros i Hi. rewrite taken_dir by done. intros Hi'.
    destruct (pt_table s pdir Hinv i Hi Hi'). auto using taken_page_ok.
  - intros i j Hi Hj Hij. rewrite !taken_dir by done. by apply (pt_distinct s pdir Hinv).
  - change (pa_top s1) with p. change (pa_bottom s1) with (pa_bottom s). unfold p in *. lia.
  - intros q Hq Hq0. change (pa_top s1) with p in Hq. change (pa_bottom s1) with (pa_bottom s) in Hq.
    destruct (pt_free s pdir Hinv q ltac:(lia) Hq0). auto using taken_page_ok.
  - intros q i Hq Hq0 Hi. change (pa_top s1) with p in Hq. change (pa_bottom s1) with (pa_bottom s) in Hq.
    rewrite taken_dir by done. apply (pt_free_table s pdir Hinv); [lia|done..].
Qed.

(** The slot of [va] in its table is not in the page taken. *)
Lemma taken_slot va : is_u32 va -> is_ptr (entry (k_mem s) pdir (va / 0x400000)) = true ->
  let t := table (entry (k_mem s) pdir (va / 0x400000)) in
  entry (k_mem s1) t (va / 0x1000 mod 0x400) = entry (k_mem s) t (va / 0x1000 mod 0x400).
Proof.
  intros Hva Hptr t. pose proof (index_range va Hva) as Hi. destruct taken_page as (H1 & H2 & H3).
  destruct (pt_table s pdir Hinv _ Hi Hptr) as [(_ & Ht & _) _].
  apply taken_entry; [done| |apply index0_range]. by apply (pt_free_table s pdir Hinv).
Qed.

Lemma taken_walk va : is_u32 va -> walk (k_mem s1) pdir va = walk (k_mem s) pdir va.
Proof.
  intros Hva. apply walk_same; [done|by apply taken_dir, index_range|]. by apply taken_slot.
Qed.

Lemma taken_vacant va : is_u32 va -> vacant (k_mem s) pdir va -> vacant (k_mem s1) pdir va.
Proof.
  intros Hva. unfold vacant. rewrite taken_dir by by apply index_range.
  intros [H|[Hptr H]]; [by left|right]. split; [done|]. by rewrite taken_slot.
Qed.

Lemma taken_keeps : keeps_pages pdir s s1.
Proof.
  destruct taken_page as (H1 & H2 & H3). intros a Ha.
  pose proof (taken_bytes s pdir 0 Hinv Hp a Ha) as Hb. split; [|exact Hb].
  destruct Ha as (A1 & A2 & A3 & A4). split; [done|split; [done|split]].
  - intros i Hi. rewrite taken_dir by done. by apply A3.
  - intros q Hq. change (pa_top s1) with p in Hq. change (pa_bottom s1) with (pa_bottom s) in Hq.
    apply A4. lia.
Qed.

(** Nobody else has the page, and it is zero. *)
Lemma taken_held : held s1 pdir (pa_to_kva p).
Proof.
  destruct taken_page as (H1 & H2 & H3), taken_kva as [(Hk1 & Hk2 & Hk3) Hk].
  split; [done|split; [done|split]].
  - intros i Hi. rewrite taken_dir by done. by apply (pt_free_table s pdir Hinv).
  - intros q Hq Hq0. change (pa_top s1) with p in Hq. intros E.
    destruct (pt_range s pdir Hinv) as (Hb & Hu & _ & _). change (pa_bottom s1) with (pa_bottom s) in Hq.
    apply pa_to_kva_inj in E; unfold is_u32 in *; lia.
Qed.

Lemma taken_zero b : pa_to_kva p <= b < pa_to_kva p + 0x1000 -> k_mem s1 !! b = Some 0.
Proof.
  intros Hb. change (k_mem s1) with (write_bytes (k_mem s) (pa_to_kva p) (replicate 0x1000 0)).
  rewrite lookup_write_bytes, length_replicate, decide_True by lia.
  apply lookup_replicate. split; [done|lia].
Qed.
End taken.

Lemma map_state_taken s0 s pdir f :
  map_state s0 s pdir f -> pa_bottom s < pa_top s -> map_state s0 (page_taken s) pdir f.
Proof.
  intros [Si Sk Su Sb St Sh Sw Sv Sd Sg] Hp.
  pose proof (taken_inv s pdir Si Hp) as Hi. pose proof (taken_walk s pdir Si Hp) as Hw.
  pose proof (taken_vacant s pdir Si Hp) as Hv. pose proof (taken_dir s pdir Si Hp) as Hd.
  pose proof (taken_keeps s pdir Si Hp) as Hg.
  destruct (taken_rest s) as (Et & Eb & Ek & Eu & Eh). generalize dependent (page_taken s). intros s1 Hi Hw Hv Hd Hg Et Eb Ek Eu Eh. constructor; try congruence.
  - lia.
  - destruct Sh as [n Sh]. exists n. congruence.
  - intros a Ha. rewrite Hw by done. by apply Sw.
  - intros a Ha Hf. apply Hv; [done|]. by apply Sv.
  - intros i Hi' Hf. rewrite Hd by done. by apply Sd.
  - exact (transitivity (R := keeps_pages pdir) Sg Hg).
Qed.

(** ** Pages of the user program *)

(** The pages at the physical addresses [ps] are held, and zero. *)
Definition zeroed (s : kernel) (pdir : Z) (ps : list Z) : Prop :=
  Forall (fun p => held s pdir (pa_to_kva p) /\
    forall b, pa_to_kva p <= b < pa_to_kva p + 0x1000 -> k_mem s !! b = Some 0) ps.

Lemma zeroed_keeps s s' pdir ps : keeps_pages pdir s s' -> zeroed s pdir ps -> zeroed s' pdir ps.
Proof.
  intros H. apply Forall_impl. intros p [Hh Hz]. destruct (H _ Hh) as [Hh' Hb]. split; [done|].
  intros b Hb'. rewrite (Hb b Hb'). by apply Hz.
Qed.

(** What the table of [va] still costs. *)
Definition table_cost (s : kernel) (pdir va : Z) : Z :=
  if is_ptr (entry (k_mem s) pdir (va / 0x400000)) then 0 else 0x1000.

Section user_page.
Context (s0 s : kernel) (pdir : Z) (f : Z -> option (Z * Z)) (Hs : map_state s0 s pdir f).
Context (va flags : Z) (Hl : leaf flags = true) (HV : has PTE_V flags = true).
Context (Hva : is_u32 va) (Hva0 : va mod 0x1000 = 0).
Context (Hf : forall a, va <= a < va + 0x1000 -> f a = None).
Context (Hpages : pa_bottom s + 0x1000 + table_cost s pdir va <= pa_top s).

Let p := pa_top s - 0x1000.

Lemma map_user_page_ok :
  exists s', map_user_page va flags s = Ok tt s' /\
    map_state s0 s' pdir (over f (va - p) va (va + 0x1000) flags) /\
    pa_top s' = p - table_cost s pdir va /\ table_cost s' pdir va = 0 /\
    keeps_pages pdir s s' /\ zeroed s' pdir [p].
Proof.
  pose proof (ms_inv _ _ _ _ Hs) as Hinv. pose proof (index_range va Hva) as Hi.
  assert (0 <= table_cost s pdir va) as Hc0 by (unfold table_cost; destruct (is_ptr _); lia).
  assert (pa_bottom s < pa_top s) as Hp by lia.
  pose proof (map_state_taken s0 s pdir f Hs Hp) as Hs1.
  pose proof (taken_alloc s pdir Hinv Hp) as Ea. fold p in Ea.
  destruct (taken_page s pdir Hinv Hp) as (_ & Hp0 & Hpu). fold p in Hp0, Hpu.
  assert (table_cost (page_taken s) pdir va = table_cost s pdir va) as Hc
    by (unfold table_cost; by rewrite (taken_dir s pdir Hinv Hp)).
  assert (zeroed (page_taken s) pdir [p]) as Hz.
  { constructor; [|done]. split; [exact (taken_held s pdir Hinv Hp)|exact (taken_zero s)]. }
  pose proof (taken_keeps s pdir Hinv Hp) as Hg1.
  destruct (taken_rest s) as (Et & Eb & _). fold p in Et.
  generalize dependent (page_taken s). intros s1 Hs1 Ea Hc Hz Hg1 Et Eb.
  destruct (vm_map_4k_ok s1 pdir va p flags (ms_inv _ _ _ _ Hs1) Hva Hpu Hva0 Hp0 Hl HV)
    as (s2 & E & Hi2 & Hh & Me & Hw).
  { split; [apply (ms_vacant _ _ _ _ Hs1); [done|apply Hf; lia]|]. intros HnV.
    rewrite Et, Eb. revert Hpages. rewrite <- Hc. unfold table_cost. rewrite (not_V_not_ptr _ HnV). lia. }
  exists s2. split; [|split; [|split; [|split; [|split]]]].
  - unfold map_user_page. step Ea. unfold gets, bind at 1. rewrite (ms_kpgdir _ _ _ _ Hs1). by step E.
  - apply (map_state_range s0 s1); [done|].
    apply (range_effect_cons s1 s2 s2 pdir (va - p) va _ flags); try done || lia.
    + unfold is_u32 in Hva. lia.
    + clear - Hva Hva0. zarith.
    + intros a Ha. rewrite Hw by done. by replace (va - (va - p)) with p by lia.
    + by apply range_effect_nil.
  - rewrite (me_top _ _ _ _ Me), Et. unfold table_cost in Hc. rewrite Hc. reflexivity.
  - unfold table_cost. by rewrite (me_ptr _ _ _ _ Me).
  - exact (transitivity (R := keeps_pages pdir) Hg1 (me_pages _ _ _ _ Me)).
  - exact (zeroed_keeps _ _ _ _ (me_pages _ _ _ _ Me) Hz).
Qed.
End user_page.

(** The framebuffer: 150 pages in one table. *)
Lemma map_framebuffer_ok s0 s pdir f :
  map_state s0 s pdir f -> (forall a, a / 0x400000 = 0x80 -> f a = None) ->
  pa_bottom s + 0x1000 <= pa_top s ->
  exists s', map_framebuffer pdir s = Ok tt s' /\
    map_state s0 s' pdir (over f (0x20000000 - FRAMEBUFFER_BASE) 0x20000000 0x20096000 USER_RW) /\
    pa_top s - 0x1000 <= pa_top s' /\ keeps_pages pdir s s'.
Proof.
  intros Hs Hf Hp. unfold map_framebuffer. name_body body.
  assert (need s pdir 0x20000000 0x20096000 = 1) as Hn.
  { unfold need. change (0x20000000 / 0x400000) with 0x80.
    rewrite (ms_dir _ _ _ _ Hs 0x80) by (lia || exact Hf). reflexivity. }
  destruct (map_loop_ok body (fun a => a - 0x20000000) tt pdir (0x20000000 - FRAMEBUFFER_BASE) USER_RW
    0x20000000 0x20096000 0x20096000) with (s := s) (va := 0x20000000) as (s' & E & He & Hb).
  - intros s2 s3 a Ha Hk E. unfold body. rewrite (proj2 (Z.ltb_lt _ _)) by (unfold FRAMEBUFFER_SIZE; lia).
    replace (0x20000000 + (a - 0x20000000)) with a by lia.
    replace (FRAMEBUFFER_BASE + (a - 0x20000000)) with (a - (0x20000000 - FRAMEBUFFER_BASE)) by lia.
    step E. unfold ret, PAGE_SIZE. do 2 f_equal. lia.
  - by intros s2.
  - done.
  - done.
  - lia.
  - lia.
  - done.
  - done.
  - apply (ms_kpgdir _ _ _ _ Hs).
  - apply (ms_inv _ _ _ _ Hs).
  - lia.
  - done.
  - intros a Ha. apply (ms_vacant _ _ _ _ Hs); [unfold is_u32; lia|apply Hf; zarith].
  - rewrite Hn. lia.
  - exists s'. rewrite Hn, need_none in Hb. split; [exact E|]. split; [by apply (map_state_range s0 s)|].
    split; [lia|]. exact (re_pages _ _ _ _ _ _ _ He).
Qed.

(** ** Writes to held pages *)

(** [m] differs from the memory of [s] on held pages only. *)
Definition off_held (s : kernel) (pdir : Z) (m : mem) : Prop :=
  forall b, ~ held s pdir (b - b mod 0x1000) -> m !! b = k_mem s !! b.

Section off_held.
Context (s : kernel) (pdir : Z) (Hinv : pt_inv s pdir).
Context (m : mem) (Hm : off_held s pdir m).
Context (Hdom : forall b, is_Some (k_mem s !! b) -> is_Some (m !! b)).

Lemma off_held_entry a i :
  a mod 0x1000 = 0 -> ~ held s pdir a -> 0 <= i < 0x400 -> entry m a i = entry (k_mem s) a i.
Proof.
  clear Hinv Hdom. intros Ha Hh Hi. apply word_agree. intros b Hb. apply Hm.
  replace (b - b mod 0x1000) with a; [done|]. clear - Ha Hi Hb. zarith.
Qed.

Lemma off_held_dir i : 0 <= i < 0x400 -> entry m pdir i = entry (k_mem s) pdir i.
Proof.
  destruct (pt_root s pdir Hinv) as (_ & Hr & _). apply off_held_entry; [done|]. by intros (_ & H & _).
Qed.

Lemma off_held_slot va : is_u32 va -> is_ptr (entry (k_mem s) pdir (va / 0x400000)) = true ->
  let t := table (entry (k_mem s) pdir (va / 0x400000)) in
  entry m t (va / 0x1000 mod 0x400) = entry (k_mem s) t (va / 0x1000 mod 0x400).
Proof.
  intros Hva Hptr t. pose proof (index_range va Hva) as Hi.
  destruct (pt_table s pdir Hinv _ Hi Hptr) as [(_ & Ht & _) _].
  apply off_held_entry; [done| |apply index0_range]. intros (_ & _ & H & _). by apply (H _ Hi Hptr).
Qed.

Lemma off_held_walk va : is_u32 va -> walk m pdir va = walk (k_mem s) pdir va.
Proof. intros Hva. apply walk_same; [done|by apply off_held_dir, index_range|]. by apply off_held_slot. Qed.

Lemma off_held_mapped a n : mapped (k_mem s) a n -> mapped m a n.
Proof. rewrite !mapped_lookup. intros H i Hi. by apply Hdom, H. Qed.

Lemma off_held_state s0 f : map_state s0 s pdir f -> map_state (with_mem m s) (with_mem m s) pdir f.
Proof.
  intros [_ Sk _ _ _ _ Sw Sv Sd _]. constructor; try done.
  - apply (pt_inv_same s); [done..|exact off_held_dir|]. intros a (H1 & H2 & H3).
    split; [done|split; [done|]]. by apply off_held_mapped.
  - exists 0%nat. by rewrite app_nil_r.
  - intros va Hva. rewrite <- Sw by done. by apply off_held_walk.
  - intros va Hva Hf. unfold vacant. change (k_mem (with_mem m s)) with m.
    rewrite off_held_dir by by apply index_range.
    destruct (Sv va Hva Hf) as [H|[Hptr H]]; [by left|right]. split; [done|]. by rewrite off_held_slot.
  - intros i Hi Hf. change (k_mem (with_mem m s)) with m. rewrite off_held_dir by done. by apply Sd.
Qed.

Lemma off_held_held a : held s pdir a -> held (with_mem m s) pdir a.
Proof.
  intros (H1 & H2 & H3 & H4). split; [done|split; [done|split; [|done]]].
  intros i Hi. change (k_mem (with_mem m s)) with m. rewrite off_held_dir by done. by apply H3.
Qed.
End off_held.

(** ** The copy of the program *)

Lemma sum_on_set ops : sum_on (ops ++ [CsrSet CSR_SSTATUS SSTATUS_SUM]) = true.
Proof. unfold sum_on. by rewrite fold_left_app. Qed.

Section copy.
Context (s : kernel) (pdir : Z) (Hinv : pt_inv s pdir) (Hk : kpgdir s = pdir).
Context (dst src : Z) (l : list Z) (phys : Z -> Z).
Let n := Z.of_nat (length l).
Context (Hdst : forall i, 0 <= i < n -> is_u32 (dst + i) /\
  exists fl, walk (k_mem s) pdir (dst + i) = Some (phys i, fl) /\ has PTE_W fl = true).
Context (Hheld : forall i, 0 <= i < n -> mapped (k_mem s) (pa_to_kva (phys i)) 1 /\
  held s pdir (pa_to_kva (phys i) - pa_to_kva (phys i) mod 0x1000)).
Context (Hinj : forall i j, 0 <= i < n -> 0 <= j < n -> pa_to_kva (phys i) = pa_to_kva (phys j) -> i = j).
Context (Hsrc : bytes_at (k_mem s) src l).
Context (Hdisj : forall i j, 0 <= i < n -> 0 <= j < n -> pa_to_kva (phys i) <> src + j).
Context (Hsum : sum_on (k_hw s) = true).

(** The memory once [k] bytes are copied. *)
Definition copied (k : Z) (m : mem) : Prop :=
  (forall i, 0 <= i < k -> m !! pa_to_kva (phys i) = l !! Z.to_nat i) /\
  (forall b, (forall i, 0 <= i < k -> pa_to_kva (phys i) <> b) -> m !! b = k_mem s !! b).

Lemma copied_off_held k m : k <= n -> copied k m -> off_held s pdir m.
Proof.
  intros Hkn [_ H] b Hb. apply H. intros i Hi <-. apply Hb, Hheld. lia.
Qed.

Lemma copied_dom k m : 0 <= k <= n -> copied k m -> forall b, is_Some (k_mem s !! b) -> is_Some (m !! b).
Proof.
  intros Hkn [H1 H2] b Hb.
  assert ((exists i, 0 <= i < k /\ pa_to_kva (phys i) = b) \/ (forall i, 0 <= i < k -> pa_to_kva (phys i) <> b))
    as [(i & Hi & <-)|Hno].
  { clear - Hkn. revert Hkn. generalize n. intros n' [H0 _]. revert k H0. apply natlike_ind.
    - right. lia.
    - intros k Hk [(i & Hi & E)|Hno]; [left; exists i; split; [lia|done]|].
      destruct (decide (pa_to_kva (phys k) = b)) as [E|E]; [left; exists k; split; [lia|done]|].
      right. intros i Hi. destruct (decide (i = k)) as [->|]; [done|]. apply Hno. lia. }
  - rewrite H1 by done. apply lookup_lt_is_Some_2. unfold n in Hkn. lia.
  - by rewrite H2.
Qed.

Lemma copied_step k m b : 0 <= k < n -> copied k m -> l !! Z.to_nat k = Some b ->
  copied (k + 1) (write_bytes m (pa_to_kva (phys k)) [b]).
Proof.
  intros Hk' [H1 H2] Hb. split.
  - intros i Hi. rewrite lookup_write_bytes. cbn [length]. case_decide as E.
    + assert (i = k) as -> by (apply Hinj; lia). by rewrite Z.sub_diag, Hb.
    + apply H1. destruct (decide (i = k)) as [->|]; lia.
  - intros a Ha. rewrite lookup_write_bytes. cbn [length]. rewrite decide_False.
    + apply H2. intros i Hi. apply Ha. lia.
    + specialize (Ha k ltac:(lia)). lia.
Qed.

(** One iteration. *)
Lemma copy_body_ok k m b :
  0 <= k < n -> copied k m -> l !! Z.to_nat k = Some b ->
  (b <- load8 (src + k) ;;
   s' <- get ;;
   match walk (k_mem s') (kpgdir s') (dst + k) with
   | Some (pa, flags) =>
     if has PTE_W flags && (negb (has PTE_U flags) || sum_on (k_hw s'))
     then store8 (pa_to_kva pa) b ;; ret (inl (k + 1)) else fault
   | None => fault
   end) (with_mem m s) =
  Ok (A := Z + unit) (inl (k + 1)) (with_mem (write_bytes m (pa_to_kva (phys k)) [b]) s).
Proof.
  intros Hk' Hc Hb. assert (k <= n) as Hkn by lia.
  pose proof (copied_off_held k m Hkn Hc) as Hoff. pose proof (copied_dom k m ltac:(lia) Hc) as Hdom.
  apply bytes_at_lookup in Hsrc as [Hu8 Hlk].
  assert (load8 (src + k) (with_mem m s) = Ok b (with_mem m s)) as El.
  { apply load8_ok, bytes_at_lookup. split.
    - constructor; [|done]. rewrite Forall_lookup in Hu8. exact (Hu8 _ _ Hb).
    - intros [|i] Hi; [|cbn in Hi; lia]. rewrite Z.add_0_r. change (mem_of (with_mem m s)) with m.
      rewrite (proj2 Hc) by (intros i Hi'; apply Hdisj; lia).
      specialize (Hlk (Z.to_nat k) ltac:(unfold n in *; lia)). rewrite Z2Nat.id in Hlk by lia. by rewrite Hlk. }
  step El. unfold get, bind at 1. change (k_mem (with_mem m s)) with m.
  change (kpgdir (with_mem m s)) with (kpgdir s). rewrite Hk.
  destruct (Hdst k Hk') as [Hu (fl & Hw & HW)].
  rewrite (off_held_walk s pdir Hinv m Hoff) by done. rewrite Hw, HW.
  change (k_hw (with_mem m s)) with (k_hw s). rewrite Hsum, orb_true_r. cbn [andb].
  destruct (Hheld k Hk') as [Hmap _].
  assert (mapped (mem_of (with_mem m s)) (pa_to_kva (phys k)) 1) as Hmap' by by apply (off_held_mapped s m Hdom).
  step (store8_ok (pa_to_kva (phys k)) b (with_mem m s) Hmap').
  unfold ret, poke. rewrite with_mem_with. change (mem_of (with_mem m s)) with m.
  rewrite u8_small; [done|]. rewrite Forall_lookup in Hu8. exact (Hu8 _ _ Hb).
Qed.

Lemma copy_to_user_ok : n < 2 ^ 33 ->
  exists m, copy_to_user dst src n s = Ok tt (with_mem m s) /\ copied n m.
Proof.
  intros Hn. unfold copy_to_user. name_body body.
  enough (forall (k : nat) i m, i + Z.of_nat k = n -> 0 <= i -> copied i m ->
    exists m', runs body k i (with_mem m s) (Ok tt (with_mem m' s)) /\ copied n m') as H.
  { destruct (H (length l) 0 (k_mem s)) as (m & Hr & Hc); [lia|lia|by split; [lia|]|].
    exists m. split; [|done]. rewrite <- (with_mem_of s) at 1. apply (loop_runs _ _ _ _ _ Hr). done. }
  induction k as [|k IH]; intros i m Hi Hi0 Hc.
  - exists m. assert (i = n) as -> by lia. split; [|done]. apply runs_done. unfold body. by rewrite Z.ltb_irrefl.
  - destruct (lookup_lt_is_Some_2 l (Z.to_nat i)) as [b Hb]; [unfold n in *; lia|].
    destruct (IH (i + 1) (write_bytes m (pa_to_kva (phys i)) [b])) as (m' & Hr & Hc');
      [lia|lia|apply copied_step; [lia|done|done]|].
    exists m'. split; [|done]. eapply runs_step; [|exact Hr]. unfold body.
    rewrite (proj2 (Z.ltb_lt _ _)) by lia. by apply copy_body_ok; [lia|..].
Qed.
End copy.

(** ** The address space of the user program *)

(** The pages come from the top of the free memory [top] downwards; the second
    one is the page table of the program. *)
Definition user_page (top k : Z) : Z := top - 0x1000 - (if k =? 0 then 0 else 0x1000 * (k + 1)).

(** The physical address of byte [i] of the program. *)
Definition user_phys (top i : Z) : Z := user_page top (i / 0x1000) + i mod 0x1000.

(** 16KB for the program, one page of stack and the framebuffer, over [f]. *)
Definition user_map (f : Z -> option (Z * Z)) (top a : Z) : option (Z * Z) :=
  if decide (0x10000000 <= a < 0x10004000) then Some (user_phys top (a - 0x10000000), USER_RWX)
  else if decide (0x103FF000 <= a < 0x10400000) then Some (user_page top 4 + a mod 0x1000, USER_RW)
  else if decide (0x20000000 <= a < 0x20096000) then Some (FRAMEBUFFER_BASE + (a - 0x20000000), USER_RW)
  else f a.

Definition user_pages (top : Z) : list Z := map (user_page top) [0; 1; 2; 3; 4].

Lemma user_map_over f top a :
  over (over (over (over (over (over f
    (0x10000000 - user_page top 0) 0x10000000 0x10001000 USER_RWX)
    (0x10001000 - user_page top 1) 0x10001000 0x10002000 USER_RWX)
    (0x10002000 - user_page top 2) 0x10002000 0x10003000 USER_RWX)
    (0x10003000 - user_page top 3) 0x10003000 0x10004000 USER_RWX)
    (0x103FF000 - user_page top 4) 0x103FF000 0x10400000 USER_RW)
    (0x20000000 - FRAMEBUFFER_BASE) 0x20000000 0x20096000 USER_RW a = user_map f top a.
Proof.
  unfold user_map, over. change (USER_RWX mod 0x400) with USER_RWX. change (USER_RW mod 0x400) with USER_RW.
  destruct (decide (0x10000000 <= a < 0x10004000)) as [Ha|Ha].
  - assert (exists k, (k = 0 \/ k = 1 \/ k = 2 \/ k = 3) /\ (a - 0x10000000) / 0x1000 = k) as (k & Hk & E)
      by (eexists; split; [|reflexivity]; zarith).
    assert (user_phys top (a - 0x10000000) = a - (0x10000000 + 0x1000 * k - user_page top k)) as ->.
    { unfold user_phys. rewrite E. zarith. }
    repeat case_decide; try (exfalso; lia).
    all: assert (k = 0 \/ k = 1 \/ k = 2 \/ k = 3) as [-> |[-> |[-> | ->]]] by done; try done; exfalso; zarith.
  - repeat case_decide; try done; try lia; do 2 f_equal; zarith.
Qed.

Section user_space.
Context (s0 s : kernel) (pdir : Z) (f : Z -> option (Z * Z)) (Hs : map_state s0 s pdir f).
Context (Hf : forall a, 0x10000000 <= a < 0x10400000 -> f a = None).
Context (Hf' : forall a, 0x20000000 <= a < 0x20400000 -> f a = None).
Context (Hp : pa_bottom s + 0x7000 <= pa_top s).
Let top := pa_top s.

(** One more page of the program; its table is there. *)
Lemma next_page s' g ps va flags :
  map_state s0 s' pdir g -> keeps_pages pdir s s' -> zeroed s' pdir ps ->
  table_cost s' pdir va = 0 -> pa_bottom s + 0x1000 <= pa_top s' ->
  leaf flags = true -> has PTE_V flags = true ->
  is_u32 va -> va mod 0x1000 = 0 -> (forall a, va <= a < va + 0x1000 -> g a = None) ->
  exists s2, map_user_page va flags s' = Ok tt s2 /\
    map_state s0 s2 pdir (over g (va - (pa_top s' - 0x1000)) va (va + 0x1000) flags) /\
    pa_top s2 = pa_top s' - 0x1000 /\ table_cost s2 pdir va = 0 /\
    keeps_pages pdir s s2 /\ zeroed s2 pdir (ps ++ [pa_top s' - 0x1000]).
Proof.
  intros S' G Z Hc Hb Hl HV Hva Hva0 Hg.
  assert (pa_bottom s' = pa_bottom s) as Eb by (by rewrite (ms_bottom _ _ _ _ S'), (ms_bottom _ _ _ _ Hs)).
  destruct (map_user_page_ok s0 s' pdir g S' va flags Hl HV Hva Hva0 Hg) as (s2 & E & S2 & T2 & C2 & G2 & Z2);
    [lia|]. rewrite Hc in T2. exists s2. split; [done|]. split; [exact S2|]. split; [lia|]. split; [done|].
  split; [exact (transitivity (R := keeps_pages pdir) G G2)|].
  apply Forall_app. split; [exact (zeroed_keeps _ _ _ _ G2 Z)|exact Z2].
Qed.

Lemma user_space_ok :
  exists s1 s2 s3 s4 s5 s6,
    map_user_page (0x10000000 + 0 * PAGE_SIZE) USER_RWX s = Ok tt s1 /\
    map_user_page (0x10000000 + 1 * PAGE_SIZE) USER_RWX s1 = Ok tt s2 /\
    map_user_page (0x10000000 + 2 * PAGE_SIZE) USER_RWX s2 = Ok tt s3 /\
    map_user_page (0x10000000 + 3 * PAGE_SIZE) USER_RWX s3 = Ok tt s4 /\
    map_user_page (0x10400000 - 1 * PAGE_SIZE) USER_RW s4 = Ok tt s5 /\
    kpgdir s5 = pdir /\ map_framebuffer pdir s5 = Ok tt s6 /\
    map_state s0 s6 pdir (user_map f top) /\ top - 0x7000 <= pa_top s6 /\
    zeroed s6 pdir (user_pages top) /\ keeps_pages pdir s s6.
Proof.
  assert (table_cost s pdir 0x10000000 = 0x1000) as C0.
  { unfold table_cost. change (0x10000000 / 0x400000) with 0x40. rewrite (ms_dir _ _ _ _ Hs 0x40); [done|lia|].
    intros a Ha. apply Hf. zarith. }
  destruct (map_user_page_ok s0 s pdir f Hs 0x10000000 USER_RWX) as (s1 & E1 & S1 & T1 & C1 & G1 & Z1);
    [done..|by_decide|done|intros; apply Hf; lia|lia|]. rewrite C0 in T1.
  destruct (next_page s1 _ _ 0x10001000 USER_RWX S1 G1 Z1 C1) as (s2 & E2 & S2 & T2 & C2 & G2 & Z2);
    [lia|done|done|by_decide|done|intros a Ha; unfold over; rewrite !decide_False by lia; apply Hf; lia|].
  destruct (next_page s2 _ _ 0x10002000 USER_RWX S2 G2 Z2 C2) as (s3 & E3 & S3 & T3 & C3 & G3 & Z3);
    [lia|done|done|by_decide|done|intros a Ha; unfold over; rewrite !decide_False by lia; apply Hf; lia|].
  destruct (next_page s3 _ _ 0x10003000 USER_RWX S3 G3 Z3 C3) as (s4 & E4 & S4 & T4 & C4 & G4 & Z4);
    [lia|done|done|by_decide|done|intros a Ha; unfold over; rewrite !decide_False by lia; apply Hf; lia|].
  destruct (next_page s4 _ _ 0x103FF000 USER_RW S4 G4 Z4 C4) as (s5 & E5 & S5 & T5 & C5 & G5 & Z5);
    [lia|done|done|by_decide|done|intros a Ha; unfold over; rewrite !decide_False by lia; apply Hf; lia|].
  destruct (map_framebuffer_ok s0 s5 pdir _ S5) as (s6 & E6 & S6 & T6 & G6).
  { intros a Ha. unfold over. rewrite !decide_False by zarith. apply Hf'. zarith. }
  { rewrite (ms_bottom _ _ _ _ S5), <- (ms_bottom _ _ _ _ Hs). lia. }
  assert (pa_top s - 0x1000 = user_page top 0 /\ pa_top s1 - 0x1000 = user_page top 1 /\
    pa_top s2 - 0x1000 = user_page top 2 /\ pa_top s3 - 0x1000 = user_page top 3 /\
    pa_top s4 - 0x1000 = user_page top 4) as (P0 & P1 & P2 & P3 & P4)
    by (rewrite T4, T3, T2, T1; unfold user_page, top; cbn [Z.eqb]; lia).
  rewrite P0, P1, P2, P3, P4 in S6. rewrite P0, P1, P2, P3, P4 in Z5.
  exists s1, s2, s3, s4, s5, s6. do 5 (split; [assumption|]). split; [apply (ms_kpgdir _ _ _ _ S5)|].
  split; [done|]. split; [|split; [lia|split]].
  - apply (map_state_ext _ _ _ _ _ S6). intros a. rewrite <- user_map_over. reflexivity.
  - exact (zeroed_keeps _ _ _ _ G6 Z5).
  - exact (transitivity (R := keeps_pages pdir) G5 G6).
Qed.
End user_space.

(** ** The program in its pages *)

Lemma map_state_rebase s0 s s' pdir f :
  map_state s0 s pdir f -> k_mem s' = k_mem s -> kpgdir s' = kpgdir s ->
  pa_top s' = pa_top s -> pa_bottom s' = pa_bottom s -> map_state s' s' pdir f.
Proof.
  intros [Si Sk _ _ _ _ Sw Sv Sd _] Em Ek Et Eb. constructor; rewrite ?Em; try done; try congruence.
  - apply (pt_inv_same s); [done..| |]; rewrite Em; by intros.
  - exists 0%nat. by rewrite app_nil_r.
Qed.

Lemma held_rebase s s' pdir a :
  held s pdir a -> k_mem s' = k_mem s -> pa_top s' = pa_top s -> pa_bottom s' = pa_bottom s ->
  held s' pdir a.
Proof. unfold held. intros H -> -> ->. exact H. Qed.

(** The program's bytes, zeros after them up to 16KB, and an empty stack. *)
Definition program_at (m : mem) (top : Z) (prog : list Z) : Prop :=
  (forall i, 0 <= i < 0x4000 -> m !! pa_to_kva (user_phys top i) = Some (nth (Z.to_nat i) prog 0)) /\
  (forall i, 0 <= i < 0x1000 -> m !! pa_to_kva (user_page top 4 + i) = Some 0).

Definition page_of (a : Z) : Z := a - a mod 0x1000.

(** Where the pages lie; [top] is in the direct map. *)
Section pages.
Context (top : Z) (Htop : 0x7000 <= top <= 0x80000000) (Htop0 : top mod 0x1000 = 0).

Lemma user_page_kva k i : 0 <= k <= 4 -> 0 <= i < 0x1000 ->
  pa_to_kva (user_page top k + i) = user_page top k + 0x80000000 + i /\
  pa_to_kva (user_page top k) = user_page top k + 0x80000000 /\
  user_page top k mod 0x1000 = 0.
Proof.
  intros Hk Hi. assert (0 <= user_page top k < 0x80000000 - 0x1000 + 1 /\ user_page top k mod 0x1000 = 0) as [H H0].
  { unfold user_page. destruct (Z.eqb_spec k 0); zarith. }
  rewrite !pa_to_kva_direct by lia. split; [lia|done].
Qed.

Lemma user_page_in k : 0 <= k <= 4 -> user_page top k ∈ user_pages top.
Proof.
  intros Hk. apply list_elem_of_fmap. exists k. split; [done|].
  assert (k = 0 \/ k = 1 \/ k = 2 \/ k = 3 \/ k = 4) as Hk' by lia.
  destruct Hk' as [-> |[-> |[-> |[-> | ->]]]]; by_decide.
Qed.

Lemma user_phys_kva i : 0 <= i < 0x4000 ->
  pa_to_kva (user_phys top i) = user_phys top i + 0x80000000 /\
  page_of (pa_to_kva (user_phys top i)) = pa_to_kva (user_page top (i / 0x1000)) /\
  0 <= i / 0x1000 <= 3.
Proof.
  intros Hi. assert (0 <= i / 0x1000 <= 3) as Hk by zarith.
  destruct (user_page_kva (i / 0x1000) (i mod 0x1000)) as (E1 & E2 & E3); [lia|zarith|].
  unfold user_phys, page_of. rewrite E1, E2. split; [lia|]. split; [|done]. clear E1 E2.
  revert E3. generalize (user_page top (i / 0x1000)). intros q Hq. zarith.
Qed.

Lemma user_phys_inj i j : 0 <= i < 0x4000 -> 0 <= j < 0x4000 ->
  pa_to_kva (user_phys top i) = pa_to_kva (user_phys top j) -> i = j.
Proof.
  intros Hi Hj. destruct (user_phys_kva i Hi) as (-> & _ & Hi'), (user_phys_kva j Hj) as (-> & _ & Hj').
  unfold user_phys, user_page. destruct (Z.eqb_spec (i / 0x1000) 0), (Z.eqb_spec (j / 0x1000) 0); zarith.
Qed.

Lemma program_at_same m m' prog :
  (forall k b, 0 <= k <= 4 -> pa_to_kva (user_page top k) <= b < pa_to_kva (user_page top k) + 0x1000 ->
    m' !! b = m !! b) ->
  program_at m top prog -> program_at m' top prog.
Proof.
  intros H [H1 H2]. split.
  - intros i Hi. destruct (user_phys_kva i Hi) as (_ & Ep & Hk). rewrite <- (H1 i Hi).
    apply (H (i / 0x1000)); [lia|]. rewrite <- Ep. unfold page_of. clear. zarith.
  - intros i Hi. rewrite <- (H2 i Hi). destruct (user_page_kva 4 i ltac:(lia) Hi) as (E1 & E2 & _).
    by apply (H 4); lia.
Qed.
End pages.

(** The copy fills the pages of the program. *)
Section program.
Context (s : kernel) (pdir top : Z) (f : Z -> option (Z * Z)) (prog : list Z) (src : Z).
Context (Hs : map_state s s pdir (user_map f top)).
Context (Htop : 0x7000 <= top <= 0x80000000) (Htop0 : top mod 0x1000 = 0).
Context (Hz : zeroed s pdir (user_pages top)).
Context (Hprog : bytes_at (k_mem s) src prog) (Hlen : (length prog <= Z.to_nat 0x4000)%nat).
Context (Hsrc : forall j k, 0 <= j < Z.of_nat (length prog) -> 0 <= k <= 4 ->
  page_of (src + j) <> pa_to_kva (user_page top k)).

Lemma program_zero k : 0 <= k <= 4 ->
  held s pdir (pa_to_kva (user_page top k)) /\
  forall b, pa_to_kva (user_page top k) <= b < pa_to_kva (user_page top k) + 0x1000 -> k_mem s !! b = Some 0.
Proof.
  intros Hk. unfold zeroed in Hz. rewrite Forall_forall in Hz.
  apply Hz, list_elem_of_In. by apply user_page_in.
Qed.

Lemma program_phys i : 0 <= i < 0x4000 ->
  held s pdir (page_of (pa_to_kva (user_phys top i))) /\ k_mem s !! pa_to_kva (user_phys top i) = Some 0.
Proof.
  intros Hi. destruct (user_phys_kva top Htop Htop0 i Hi) as (E & Ep & Hk). rewrite Ep.
  destruct (program_zero (i / 0x1000) ltac:(lia)) as [Hh Hb]. split; [done|]. apply Hb. rewrite <- Ep.
  unfold page_of. zarith.
Qed.

Lemma program_mapped i : 0 <= i < 0x4000 -> mapped (k_mem s) (pa_to_kva (user_phys top i)) 1.
Proof.
  intros Hi. destruct (program_phys i Hi) as [_ Hb]. apply mapped_lookup. intros b Hb'.
  replace b with (pa_to_kva (user_phys top i)) by lia. by eexists.
Qed.

Let n := Z.of_nat (length prog).

Lemma copied_program_at m : copied s prog (user_phys top) n m -> program_at m top prog.
Proof.
  assert (n <= 0x4000) as Hn by (unfold n; lia). intros [H1 H2]. split.
  - intros i Hi. destruct (decide (i < n)) as [Hlt|Hge].
    + rewrite H1 by lia. destruct (lookup_lt_is_Some_2 prog (Z.to_nat i)) as [b Hb]; [unfold n in Hlt; lia|].
      by rewrite Hb, (nth_lookup_Some _ _ _ _ Hb).
    + rewrite H2.
      * rewrite nth_overflow by (unfold n in Hge; lia). by apply program_phys.
      * intros j Hj E. apply user_phys_inj in E; [lia|done..|lia|done].
  - intros i Hi. rewrite H2.
    + apply (program_zero 4); [lia|]. destruct (user_page_kva top Htop Htop0 4 i) as (E1 & E2 & _); lia.
    + intros j Hj E. destruct (user_phys_kva top Htop Htop0 j ltac:(lia)) as (E1 & _ & Hk).
      destruct (user_page_kva top Htop Htop0 4 i) as (E2 & _); [lia..|]. rewrite E1, E2 in E.
      unfold user_phys, user_page in E. cbn [Z.eqb] in E. destruct (Z.eqb_spec (j / 0x1000) 0); zarith.
Qed.

Lemma program_copied : sum_on (k_hw s) = true ->
  exists m, copy_to_user 0x10000000 src n s = Ok tt (with_mem m s) /\
    program_at m top prog /\ map_state (with_mem m s) (with_mem m s) pdir (user_map f top) /\
    (forall a, held s pdir a -> held (with_mem m s) pdir a).
Proof.
  intros Hsum. pose proof (ms_inv _ _ _ _ Hs) as Hinv. assert (n <= 0x4000) as Hn by (unfold n; lia).
  assert (forall i, 0 <= i < n -> mapped (k_mem s) (pa_to_kva (user_phys top i)) 1 /\
    held s pdir (page_of (pa_to_kva (user_phys top i)))) as Hpages.
  { intros i Hi. split; [by apply program_mapped; lia|]. by apply program_phys; lia. }
  destruct (copy_to_user_ok s pdir Hinv (ms_kpgdir _ _ _ _ Hs) 0x10000000 src prog (user_phys top))
    as (m & E & Hc).
  - intros i Hi. split; [unfold is_u32; lia|]. exists USER_RWX. split; [|done].
    rewrite (ms_walk _ _ _ _ Hs) by (unfold is_u32; lia). unfold user_map. rewrite decide_True by lia.
    by replace (0x10000000 + i - 0x10000000) with i by lia.
  - exact Hpages.
  - intros i j Hi Hj. apply user_phys_inj; done || lia.
  - done.
  - intros i j Hi Hj Eij. destruct (user_phys_kva top Htop Htop0 i ltac:(lia)) as (_ & Ep & Hk).
    rewrite Eij in Ep. by apply (Hsrc j (i / 0x1000) Hj ltac:(lia)).
  - done.
  - lia.
  - pose proof (copied_off_held s pdir prog (user_phys top) Hpages n m ltac:(unfold n; lia) Hc) as Hoff.
    pose proof (copied_dom s prog (user_phys top) n m ltac:(unfold n; lia) Hc) as Hdom.
    exists m. split; [exact E|]. split; [by apply copied_program_at|]. split.
    + exact (off_held_state s pdir Hinv m Hoff Hdom s _ Hs).
    + exact (off_held_held s pdir Hinv m Hoff).
Qed.
End program.

(** ** The kernel stack of the program *)

Lemma words_at_zero m a n :
  (forall b, a <= b < a + 4 * Z.of_nat n -> m !! b = Some 0) -> words_at m a (replicate n 0).
Proof.
  intros H i w Hi. apply lookup_replicate in Hi as [-> Hi].
  assert (bytes_at m (a + 4 * Z.of_nat i) [0; 0; 0; 0]) as Hb.
  { apply bytes_at_lookup. split; [by repeat constructor|]. intros j Hj. cbn in Hj.
    rewrite H by lia. by destruct j as [|[|[|[|]]]]; [..|lia]. }
  split; [by eapply bytes_at_mapped|]. by rewrite (word_bytes_at _ _ [0; 0; 0; 0]).
Qed.

(** The registers user mode starts with, in the order of the frame. *)
Definition user_frame : list Z := <[17%nat := 0x10400000]> (<[16%nat := 0x10000000]> (replicate 32 0)).

Section kstack.
Context (s : kernel) (pdir : Z) (f : Z -> option (Z * Z)) (Hs : map_state s s pdir f).
Context (Hp : pa_bottom s < pa_top s).

Let page := pa_to_kva (pa_top s - 0x1000).
Let kst := page + PAGE_SIZE - sizeof_kstack_top_t.

Lemma kstack_ok :
  exists s1 m1 m, kpage_alloc_z s = Ok page s1 /\
    store32 (kst + EF_PC) 0x10000000 s1 = Ok tt (with_mem m1 s1) /\
    store32 (kst + EF_SP) 0x10400000 (with_mem m1 s1) = Ok tt (with_mem m s1) /\
    k_uart s1 = k_uart s /\ k_hw s1 = k_hw s /\
    kst mod 4 = 0 /\ words_at m kst user_frame /\
    (forall a, is_u32 a -> walk m pdir a = f a) /\
    (forall a b, held s pdir a -> a <= b < a + 0x1000 -> m !! b = k_mem s !! b) /\
    (forall a, held s pdir a -> held (with_mem m s1) pdir a).
Proof.
  pose proof (ms_inv _ _ _ _ Hs) as Hinv.
  destruct (taken_kva s pdir Hinv Hp) as [(_ & Hk0 & _) _]. fold page in Hk0.
  assert (kst mod 4 = 0 /\ page <= kst /\ kst + 128 <= page + 0x1000) as (Ha & Hlo & Hhi)
    by (unfold kst, PAGE_SIZE, sizeof_kstack_top_t; zarith).
  pose proof (taken_alloc s pdir Hinv Hp) as Ea. pose proof (map_state_taken s s pdir f Hs Hp) as Hs1.
  pose proof (taken_held s pdir Hinv Hp) as Hh. fold page in Hh. pose proof (taken_zero s) as Hz. fold page in Hz.
  pose proof (taken_keeps s pdir Hinv Hp) as Hg. destruct (taken_rest s) as (_ & _ & _ & Eu & Eh).
  assert (forall a, held s pdir a -> a <> page) as Hne.
  { intros a (_ & _ & _ & H4) ->. destruct (taken_page s pdir Hinv Hp) as (H1 & H2 & _).
    exact (H4 _ H1 H2 eq_refl). }
  assert (kpage_alloc_z s = Ok page (page_taken s)) as Ek by (unfold kpage_alloc_z; by step Ea).
  clear Ea. generalize dependent (page_taken s). intros s1 Hs1 Hh Hz Hg Eu Eh Ek.
  assert (words_at (k_mem s1) kst (replicate 32 0)) as W0 by (apply words_at_zero; intros b Hb; apply Hz; lia).
  destruct (store_frame s1 kst _ 16 0x10000000 W0 ltac:(done) Ha ltac:(by_decide) ltac:(lia)) as (m1 & E1 & W1 & X1).
  assert (words_at (k_mem (with_mem m1 s1)) kst (<[16%nat := 0x10000000]> (replicate 32 0))) as W1' by exact W1.
  destruct (store_frame (with_mem m1 s1) kst _ 17 0x10400000 W1' ltac:(by rewrite length_insert) Ha
    ltac:(by_decide) ltac:(lia)) as (m & E2 & W2 & X2).
  change (k_mem (with_mem m1 s1)) with m1 in X2. rewrite with_mem_with in E2.
  exists s1, m1, m. split; [exact Ek|]. split; [exact E1|]. split; [exact E2|].
  split; [exact Eu|]. split; [exact Eh|]. split; [exact Ha|]. split; [exact W2|].
  assert (forall b, ~ (kst <= b < kst + 128) -> m !! b = k_mem s1 !! b) as Hm
    by (intros b Hb; by rewrite (X2 b Hb), (X1 b Hb)).
  assert (off_held s1 pdir m) as Hoff.
  { intros b Hb. apply Hm. intros Hb'. apply Hb. replace (b - b mod 0x1000) with page; [done|].
    clear - Hk0 Hlo Hhi Hb'. zarith. }
  split; [|split].
  - intros a Hu. rewrite <- (ms_walk _ _ _ _ Hs1) by done.
    exact (off_held_walk s1 pdir (ms_inv _ _ _ _ Hs1) m Hoff a Hu).
  - intros a b Ha' Hb. destruct (Hg a Ha') as [(Ha0 & _) Hsame]. rewrite <- (Hsame b Hb). apply Hm.
    specialize (Hne a Ha'). clear - Ha0 Hk0 Hlo Hhi Hb Hne. zarith.
  - intros a Ha'. destruct (Hg a Ha') as [Hh' _].
    exact (off_held_held s1 pdir (ms_inv _ _ _ _ Hs1) m Hoff a Hh').
Qed.
End kstack.

(** ** What is printed *)

(** [%u] and [%p] *)
Definition udec : directive :=
  {| d_left := false; d_plus := false; d_space := false; d_alt := false; d_zero := false;
     d_width := 0; d_conv := CUnsigned |}.
Definition pointer : directive :=
  {| d_left := false; d_plus := false; d_space := false; d_alt := false; d_zero := false;
     d_width := 0; d_conv := CPointer |}.

Definition pointer_text (v : Z) : list Z := str "0x" ++ hex false v.

(** A number without padding is its digits. *)
Lemma justify_none l : (1 <= length l)%nat -> justify false false 0 [] l = l.
Proof. intros Hl. unfold justify. cbn [length app]. rewrite spaces_none by lia. done. Qed.

Lemma render_udec v : is_u32 v -> render_directive udec [VaWord v] = Some (dec v, []).
Proof.
  intros Hv. pose proof (length_dec v Hv) as Hl. cbn [render_directive udec d_conv d_left d_zero d_width andb].
  unfold sign_of. cbn [d_plus d_space]. rewrite u32_small, justify_none by (done || lia). done.
Qed.

Lemma render_pointer v ap : is_u32 v -> render_directive pointer (VaWord v :: ap) = Some (pointer_text v, ap).
Proof.
  intros Hv. pose proof (length_hex false v Hv) as Hl.
  cbn [render_directive pointer d_conv d_left d_zero d_width andb].
  by rewrite u32_small, justify_none by (done || lia).
Qed.

Lemma dec_text v : is_u32 v -> (length (dec v) <= 10)%nat /\ Forall (fun c => 0 < c < 256) (dec v).
Proof.
  intros Hv. split; [apply length_dec, Hv|]. eapply Forall_impl; [|by apply dec_chars]. cbn. lia.
Qed.

Lemma pointer_chars v : is_u32 v ->
  (length (pointer_text v) <= 12)%nat /\ Forall (fun c => 0 < c < 256) (pointer_text v).
Proof.
  intros Hv. unfold pointer_text. rewrite length_app. pose proof (length_hex false v Hv).
  change (length (str "0x")) with 2%nat. split; [lia|]. apply Forall_app. split; [by_decide|].
  eapply Forall_impl; [|by apply hex_chars]. cbn. lia.
Qed.

Lemma plain_chars l : plain l -> Forall (fun c => 0 < c < 256) l.
Proof. apply Forall_impl. lia. Qed.

Section lines.
Context {S : Type} `{!HasUart S}.
Context (l : list Z) (Hl : plain l) (Hlen : (length l <= 40)%nat).

(** A label, an address and a size. *)
Lemma xprintf_size a v (s : S) : is_u32 a -> is_u32 v ->
  xprintf (unparse [(l, pointer); ([32], udec)] [10]) [VaWord a; VaWord v] s =
  Ok tt (emit (wire (l ++ pointer_text a ++ [32] ++ dec v ++ [10])) s).
Proof.
  intros Ha Hv. destruct (dec_text v Hv) as [L1 C1], (pointer_chars a Ha) as [L2 C2]. apply xprintf_text.
  - split; [|by_decide]. constructor; [split; [by apply plain_literal|by_decide]|by_decide].
  - cbn [render]. rewrite render_pointer, render_udec by done. reflexivity.
  - rewrite !length_app. cbn [length]. lia.
  - cbn. lia.
  - rewrite !Forall_app. pose proof (plain_chars l Hl). split_and!; try done; by repeat constructor.
Qed.

Lemma xprintf_address a (s : S) : is_u32 a ->
  xprintf (unparse [(l, pointer)] [10]) [VaWord a] s = Ok tt (emit (wire (l ++ pointer_text a ++ [10])) s).
Proof.
  intros Ha. destruct (pointer_chars a Ha) as [L2 C2]. apply xprintf_text.
  - split; [|by_decide]. constructor; [split; [by apply plain_literal|by_decide]|done].
  - cbn [render]. by rewrite render_pointer.
  - rewrite !length_app. cbn [length]. lia.
  - cbn. lia.
  - rewrite !Forall_app. pose proof (plain_chars l Hl). split_and!; try done; by repeat constructor.
Qed.

Lemma xprintf_count last v (s : S) : is_u32 v -> plain last -> (length last <= 40)%nat ->
  xprintf (unparse [(l, udec)] last) [VaWord v] s = Ok tt (emit (wire (l ++ dec v ++ last)) s).
Proof.
  intros Hv Hp Hlast. destruct (dec_text v Hv) as [L1 C1]. apply xprintf_text.
  - split; [|by apply plain_literal]. constructor; [split; [by apply plain_literal|by_decide]|done].
  - cbn [render]. by rewrite render_udec.
  - rewrite !length_app. lia.
  - cbn. lia.
  - rewrite !Forall_app. pose proof (plain_chars l Hl). split_and!; try done. by apply plain_chars.
Qed.
End lines.

(** ** start_user_program *)

Lemma keeps_pages_rebase s s' pdir :
  k_mem s' = k_mem s -> pa_top s' = pa_top s -> pa_bottom s' = pa_bottom s -> keeps_pages pdir s s'.
Proof. intros Em Et Eb. apply keeps_pages_same; [by rewrite Em|done|done|]. intros a _ b _. by rewrite Em. Qed.

(** Text in held pages is still there. *)
Lemma bytes_at_keeps s s' pdir a l :
  keeps_pages pdir s s' -> (forall j, 0 <= j < Z.of_nat (length l) -> held s pdir (page_of (a + j))) ->
  bytes_at (k_mem s) a l -> bytes_at (k_mem s') a l.
Proof.
  intros Hk Hh. rewrite !bytes_at_lookup. intros [Hl H]. split; [done|]. intros i Hi. rewrite <- H by done.
  destruct (Hk _ (Hh (Z.of_nat i) ltac:(lia))) as [_ Hb]. apply Hb. unfold page_of. clear. zarith.
Qed.

Definition program_text (n : Z) : list Z :=
  str "user.bin " ++ dec n ++ str " bytes" ++ nl ++ nl ++ str "[ starting user mode program ]" ++ nl ++ nl.

Section start_user.
Context (img : image) (s : kernel) (pdir : Z) (f : Z -> option (Z * Z)) (prog : list Z).
Context (Hs : map_state s s pdir f).
Context (Hf : forall a, 0x10000000 <= a < 0x10400000 -> f a = None).
Context (Hf' : forall a, 0x20000000 <= a < 0x20400000 -> f a = None).
Context (Hp : pa_bottom s + 0x8000 <= pa_top s) (Htop : pa_top s <= 0x80000000).
Let n := Z.of_nat (length prog).
Context (Hn : (length prog <= Z.to_nat 0x4000)%nat).
Context (Hprog : bytes_at (k_mem s) (extra_start img) prog).
Context (Hsrc : forall j, 0 <= j < n -> held s pdir (page_of (extra_start img + j))).

(** Up to the copy: the program is in its pages. *)
Lemma program_loaded :
  exists s1 s2 s3 s4 s5 s6 m,
    map_user_page (0x10000000 + 0 * PAGE_SIZE) USER_RWX s = Ok tt s1 /\
    map_user_page (0x10000000 + 1 * PAGE_SIZE) USER_RWX s1 = Ok tt s2 /\
    map_user_page (0x10000000 + 2 * PAGE_SIZE) USER_RWX s2 = Ok tt s3 /\
    map_user_page (0x10000000 + 3 * PAGE_SIZE) USER_RWX s3 = Ok tt s4 /\
    map_user_page (0x10400000 - 1 * PAGE_SIZE) USER_RW s4 = Ok tt s5 /\
    kpgdir s5 = pdir /\ map_framebuffer pdir s5 = Ok tt s6 /\
    let s7 := hw_op (CsrSet CSR_SSTATUS SSTATUS_SUM) s6 in
    copy_to_user 0x10000000 (extra_start img) n s7 = Ok tt (with_mem m s7) /\
    k_uart s6 = k_uart s /\ (exists k, k_hw s6 = k_hw s ++ replicate k TlbFlush) /\
    pa_bottom s6 < pa_top s6 /\ program_at m (pa_top s) prog /\
    map_state (with_mem m s7) (with_mem m s7) pdir (user_map f (pa_top s)) /\
    forall k, 0 <= k <= 4 -> held (with_mem m s7) pdir (pa_to_kva (user_page (pa_top s) k)).
Proof.
  pose proof (ms_inv _ _ _ _ Hs) as Hinv. destruct (pt_range s pdir Hinv) as (Hb & _ & _ & Ht0).
  destruct (user_space_ok s s pdir f Hs Hf Hf' ltac:(lia))
    as (s1 & s2 & s3 & s4 & s5 & s6 & E1 & E2 & E3 & E4 & E5 & K5 & E6 & S6 & T6 & Z6 & G6).
  set (s7 := hw_op (CsrSet CSR_SSTATUS SSTATUS_SUM) s6).
  pose proof (map_state_rebase s s6 s7 pdir _ S6 eq_refl eq_refl eq_refl eq_refl) as S7.
  pose proof (keeps_pages_rebase s6 s7 pdir eq_refl eq_refl eq_refl) as G7.
  pose proof (zeroed_keeps _ _ _ _ G7 Z6) as Z7.
  pose proof (transitivity (R := keeps_pages pdir) G6 G7) as G.
  destruct (program_copied s7 pdir (pa_top s) f prog (extra_start img) S7) as (m & E7 & P7 & S8 & H8);
    [lia|done|done|by apply (bytes_at_keeps s s7 pdir)|done| | |].
  { intros j k Hj Hk. destruct (Hsrc j Hj) as (_ & _ & _ & H4). apply not_eq_sym, H4;
      unfold user_page; destruct (Z.eqb_spec k 0); clear - Hp Hb Ht0 Hk; zarith. }
  { by rewrite (eq_refl : k_hw s7 = k_hw s6 ++ [CsrSet CSR_SSTATUS SSTATUS_SUM]), sum_on_set. }
  exists s1, s2, s3, s4, s5, s6, m. do 7 (split; [assumption|]). split; [exact E7|].
  split; [exact (ms_uart _ _ _ _ S6)|]. split; [exact (ms_hw _ _ _ _ S6)|].
  split; [rewrite (ms_bottom _ _ _ _ S6); lia|]. split; [exact P7|]. split; [exact S8|].
  intros k Hk. apply H8. exact (proj1 (program_zero s7 pdir (pa_top s) Z7 k Hk)).
Qed.
End start_user.

Definition start_text : list Z := nl ++ str "[ starting user mode program ]" ++ nl ++ nl.

(** The way out of the kernel, with the stack at [kst]. *)
Lemma enter_user_ok {A} kst (s : kernel) :
  kst mod 4 = 0 -> words_at (k_mem s) kst user_frame ->
  (csr_clr CSR_SSTATUS SSTATUS_SPP ;; xprintf start_text [] ;; user_mode_entry (A := A) kst) s =
  Halt (left_kernel (emit (wire start_text) (hw_op (CsrClr CSR_SSTATUS SSTATUS_SPP) s)) (kst + 128) user_frame).
Proof.
  intros Hk Hw. unfold csr_clr, modify, bind at 1. set (s1 := hw_op _ s).
  assert (xprintf start_text [] s1 = Ok tt (emit (wire start_text) s1)) as E by (apply xprintf_plain; by_decide).
  step E. set (s2 := emit _ s1). assert (words_at (k_mem s2) kst user_frame) as Hw2 by exact Hw.
  exact (trap_exit_ok kst (kst + 32 * 4) user_frame s2 Hk Hw2 eq_refl).
Qed.

Section start_user_program.
Context (img : image) (s : kernel) (pdir : Z) (f : Z -> option (Z * Z)) (prog : list Z).
Context (Hs : map_state s s pdir f).
Context (Hf : forall a, 0x10000000 <= a < 0x10400000 -> f a = None).
Context (Hf' : forall a, 0x20000000 <= a < 0x20400000 -> f a = None).
Context (Hp : pa_bottom s + 0x8000 <= pa_top s) (Htop : pa_top s <= 0x80000000).
Let n := Z.of_nat (length prog).
Context (Hext : extra_end img - extra_start img = n) (Hn : (length prog <= Z.to_nat 0x4000)%nat).
Context (Hprog : bytes_at (k_mem s) (extra_start img) prog).
Context (Hsrc : forall j, 0 <= j < n -> held s pdir (page_of (extra_start img + j))).

Lemma start_user_program_ok {A} :
  exists s' k ksp, start_user_program (A := A) img s = Halt s' /\
    k_uart s' = sent (wire (program_text n)) (k_uart s) /\
    k_hw s' = k_hw s ++ replicate k TlbFlush ++
      [CsrSet CSR_SSTATUS SSTATUS_SUM; CsrClr CSR_SSTATUS SSTATUS_SUM; CsrClr CSR_SSTATUS SSTATUS_SPP;
       CsrWrite CSR_SSCRATCH ksp; CsrWrite CSR_SEPC 0x10000000; Sret user_frame] /\
    ksp mod 4 = 0 /\ words_at (k_mem s') (ksp - 128) user_frame /\
    (forall a, is_u32 a -> walk (k_mem s') pdir a = user_map f (pa_top s) a) /\
    program_at (k_mem s') (pa_top s) prog /\
    forall k, 0 <= k <= 4 -> held s' pdir (pa_to_kva (user_page (pa_top s) k)).
Proof.
  destruct (pt_range s pdir (ms_inv _ _ _ _ Hs)) as (Hb & _ & _ & Ht0).
  assert (is_u32 n) as Hnu by (unfold n, is_u32; lia).
  set (t1 := str "user.bin " ++ dec n ++ str " bytes" ++ nl). set (sA := emit (wire t1) s).
  assert (xprintf (str "user.bin %u bytes" ++ nl) [VaWord (u32 (extra_end img - extra_start img))] s = Ok tt sA) as EA.
  { rewrite Hext, u32_small by done. by apply (xprintf_count (str "user.bin ")); [by_decide|by_decide|done|by_decide|by_decide]. }
  destruct (program_loaded img sA pdir f prog (map_state_rebase s s sA pdir f Hs eq_refl eq_refl eq_refl eq_refl)
    Hf Hf' Hp Htop Hn Hprog) as (s1 & s2 & s3 & s4 & s5 & s6 & m & E1 & E2 & E3 & E4 & E5 & K5 & E6 & E7 &
      U6 & [k Hhw] & P6 & P7 & S8 & H8).
  { intros j Hj. exact (held_rebase s sA pdir _ (Hsrc j Hj) eq_refl eq_refl eq_refl). }
  fold n in E7. set (s7 := hw_op (CsrSet CSR_SSTATUS SSTATUS_SUM) s6) in *.
  set (s9 := hw_op (CsrClr CSR_SSTATUS SSTATUS_SUM) (with_mem m s7)).
  pose proof (map_state_rebase _ _ s9 pdir _ S8 eq_refl eq_refl eq_refl eq_refl) as S9.
  destruct (kstack_ok s9 pdir _ S9 P6) as (s10 & m1 & m2 & E10 & E11 & E12 & U10 & W10 & Hk & Hw & Hwalk & Hsame & Hh).
  assert (forall k, 0 <= k <= 4 -> held s9 pdir (pa_to_kva (user_page (pa_top s) k))) as H9
    by (intros j Hj; exact (held_rebase (with_mem m s7) s9 pdir _ (H8 j Hj) eq_refl eq_refl eq_refl)).
  set (kst := pa_to_kva (pa_top s9 - 0x1000) + PAGE_SIZE - sizeof_kstack_top_t) in *.
  set (s11 := hw_op (CsrClr CSR_SSTATUS SSTATUS_SPP) (with_mem m2 s10)).
  exists (left_kernel (emit (wire start_text) s11) (kst + 128) user_frame), k, (kst + 128).
  split; [|split; [|split; [|split; [|split; [|split; [|split]]]]]].
  - unfold start_user_program. step EA. step E1. step E2. step E3. step E4. step E5.
    unfold gets, bind at 1. rewrite K5. step E6. unfold csr_set, modify, bind at 1. fold s7.
    rewrite Hext. step E7. unfold csr_clr at 1, modify, bind at 1. fold s9. step E10. step E11. step E12.
    exact (enter_user_ok kst (with_mem m2 s10) Hk Hw).
  - change (k_uart (left_kernel (emit (wire start_text) s11) (kst + 128) user_frame))
      with (sent (wire start_text) (k_uart s10)).
    rewrite U10. change (k_uart s9) with (k_uart s6). rewrite U6.
    change (k_uart sA) with (sent (wire t1) (k_uart s)).
    rewrite sent_sent, <- wire_app. unfold program_text, start_text, t1. by rewrite <- !app_assoc.
  - rewrite left_kernel_hw. change (k_hw (emit (wire start_text) s11)) with (k_hw s10 ++ [CsrClr CSR_SSTATUS SSTATUS_SPP]).
    rewrite W10. change (k_hw s9) with ((k_hw s6 ++ [CsrSet CSR_SSTATUS SSTATUS_SUM]) ++ [CsrClr CSR_SSTATUS SSTATUS_SUM]).
    rewrite Hhw. change (k_hw sA) with (k_hw s). by rewrite <- !app_assoc.
  - clear - Hk. zarith.
  - replace (kst + 128 - 128) with kst by lia. exact Hw.
  - exact Hwalk.
  - apply (program_at_same (pa_top s) ltac:(lia) Ht0 m); [|exact P7]. intros j b Hj Hb'.
    exact (Hsame _ b (H9 j Hj) Hb').
  - intros j Hj. exact (held_rebase _ _ pdir _ (Hh _ (H9 j Hj)) eq_refl eq_refl eq_refl).
Qed.
End start_user_program.

(** ** start *)

(** What the linker script and the build guarantee for a boot: the image of
    Kernel.v, a program of at most 16KB embedded in it, and pages for the
    tables of the image, the five pages of the program, its two tables and its
    kernel stack besides the three at the top. *)
Definition boot_ok (img : image) : Prop :=
  image_ok img /\
  data_start img <= bss_start img <= bss_end img /\ bss_end img <= image_end img /\
  text_start img <= extra_start img /\ extra_end img <= image_end img /\
  0 <= extra_end img - extra_start img <= 0x4000 /\ is_u32 (trap_entry_at img) /\
  image_end img + 0x1000 * (image_tables img + 11) <= memory_top img.

#[export] Instance boot_ok_dec img : Decision (boot_ok img).
Proof. unfold boot_ok. apply _. Defined.

Definition section_text (label : list Z) (a b : Z) : list Z :=
  label ++ pointer_text a ++ [32] ++ dec (b - a) ++ nl.

Definition boot_text (img : image) : list Z :=
  str "X/OS Kernel v0.1" ++ nl ++ nl ++
  section_text (str "text   ") (text_start img) (rodata_start img) ++
  section_text (str "rodata ") (rodata_start img) (data_start img) ++
  section_text (str "data   ") (data_start img) (bss_start img) ++
  section_text (str "bss    ") (bss_start img) (bss_end img) ++
  section_text (str "free   ") (image_end img) (memory_top img) ++
  str "memtop " ++ pointer_text (memory_top img) ++ nl.

(** The pages of the image, before the tables are built. *)
Lemma dir_made_held img s a :
  image_ok img -> mapped (k_mem s) (image_end img) (memory_top img - 0x2000 - image_end img) ->
  text_start img <= a < image_end img ->
  held (dir_made img s) (memory_top img - 0x3000) (page_of a) /\
  forall b, b < image_end img -> k_mem (dir_made img s) !! b = k_mem s !! b.
Proof.
  intros Hok Hm Ha. destruct (dir_made_ok img s Hok Hm) as (_ & _ & H0).
  destruct Hok as (H1 & H2 & H3 & H4 & H5 & H6 & H7 & H8 & H9).
  assert (image_end img <= memory_top img - 0x4000) as Hr by (unfold image_top in H9; zarith).
  assert (pa_bottom (dir_made img s) = image_end img - 0x80000000 /\
    pa_top (dir_made img s) = memory_top img - 0x80000000 - 0x2000 - 0x1000) as (B0 & T0) by (split; reflexivity).
  assert (k_mem (dir_made img s) = write_bytes (k_mem s)
    (pa_to_kva (memory_top img - 0x80000000 - 0x2000 - 0x1000)) (replicate 0x1000 0)) as Em by reflexivity.
  rewrite pa_to_kva_direct in Em by lia.
  assert (page_of a <= a /\ page_of a mod 0x1000 = 0) as [Hpa Hpa0] by (unfold page_of; clear; zarith).
  generalize dependent (dir_made img s). intros s1 H0 B0 T0 Em. split.
  - split; [done|]. split; [lia|]. split.
    + intros i Hi. by rewrite H0.
    + intros p. rewrite B0, T0. intros Hp _. rewrite pa_to_kva_direct by lia. lia.
  - intros b Hb. rewrite Em. rewrite lookup_write_bytes, decide_False by lia. done.
Qed.

(** The lines [start] prints first. *)
Lemma boot_text_ok {A} img (s : kernel) (rest : M kernel A) :
  boot_ok img ->
  (let size a b := VaWord (u32 (b - a)) in
   xprintf (str "X/OS Kernel v0.1" ++ nl ++ nl) [] ;;
   xprintf (str "text   %p %u" ++ nl) [VaWord (text_start img); size (text_start img) (rodata_start img)] ;;
   xprintf (str "rodata %p %u" ++ nl) [VaWord (rodata_start img); size (rodata_start img) (data_start img)] ;;
   xprintf (str "data   %p %u" ++ nl) [VaWord (data_start img); size (data_start img) (bss_start img)] ;;
   xprintf (str "bss    %p %u" ++ nl) [VaWord (bss_start img); size (bss_start img) (bss_end img)] ;;
   xprintf (str "free   %p %u" ++ nl) [VaWord (image_end img); size (image_end img) (memory_top img)] ;;
   xprintf (str "memtop %p" ++ nl) [VaWord (memory_top img)] ;;
   rest) s = rest (emit (wire (boot_text img)) s).
Proof.
  intros (Hok & B1 & B2 & B3 & B4 & B5 & _). destruct (image_top_range img Hok) as ([Ht1 Ht2] & _ & Ht3).
  destruct Hok as (H1 & H2 & _). cbn zeta.
  assert (forall l a b (s : kernel), plain l -> (length l <= 40)%nat -> is_u32 a -> is_u32 (b - a) ->
    xprintf (unparse [(l, pointer); ([32], udec)] [10]) [VaWord a; VaWord (u32 (b - a))] s =
    Ok tt (emit (wire (section_text l a b)) s)) as Hsize.
  { intros l a b s' Hl Hlen Ha Hb. rewrite u32_small by done. by apply xprintf_size. }
  assert (forall a, 0x80000000 <= a <= memory_top img -> is_u32 a) as Hu by (unfold is_u32; lia).
  step (xprintf_plain (str "X/OS Kernel v0.1" ++ nl ++ nl) s ltac:(by_decide) ltac:(by_decide)).
  erewrite bind_ok by (apply (Hsize (str "text   ")); [by_decide|by_decide|apply Hu; lia|unfold is_u32; lia]).
  erewrite bind_ok by (apply (Hsize (str "rodata ")); [by_decide|by_decide|apply Hu; lia|unfold is_u32; lia]).
  erewrite bind_ok by (apply (Hsize (str "data   ")); [by_decide|by_decide|apply Hu; lia|unfold is_u32; lia]).
  erewrite bind_ok by (apply (Hsize (str "bss    ")); [by_decide|by_decide|apply Hu; lia|unfold is_u32; lia]).
  erewrite bind_ok by (apply (Hsize (str "free   ")); [by_decide|by_decide|apply Hu; lia|unfold is_u32; lia]).
  erewrite bind_ok by (apply (xprintf_address (str "memtop ")); [by_decide|by_decide|apply Hu; lia]).
  rewrite !emit_emit, <- !wire_app. reflexivity.
Qed.

Lemma kernel_map_low img a : image_ok img -> a < 0x80000000 -> kernel_map img a = None.
Proof.
  intros (H1 & H2 & _) Ha. unfold kernel_map. by rewrite !decide_False by lia.
Qed.

(** The translation when user mode is entered. *)
Definition boot_map (img : image) (top a : Z) : option (Z * Z) := user_map (kernel_map img) top a.

(** The directory and the [satp] that selects it. *)
Definition boot_dir (img : image) : Z := memory_top img - 0x3000.
Definition boot_satp (img : image) : Z := SATP_MODE_SV32 + (boot_dir img - 0x80000000) / 0x1000.

Lemma boot_satp_ok img : image_ok img ->
  Z.lor SATP_MODE_SV32 (Z.shiftr (kva_to_pa (boot_dir img)) 12) = boot_satp img.
Proof.
  intros Hok. destruct (image_top_range img Hok) as ([Ht1 Ht2] & _ & Ht3).
  destruct Hok as (H1 & H2 & _ & _ & _ & _ & _ & _ & H9). unfold image_top in *.
  assert (0x80000000 <= boot_dir img < 0x100000000) as Hd by (unfold boot_dir; zarith).
  rewrite kva_direct, Z.shiftr_div_pow2 by lia. change (2 ^ 12) with 0x1000.
  unfold boot_satp. apply (lor_low _ _ 20); [lia| |done]. change (2 ^ 20) with 0x100000. zarith.
Qed.

(** C1: the kernel boots.  From any RAM contents with the program in the image,
    [start] prints its banner, builds the translation [boot_map] - the kernel's
    own map, 16KB for the program, its stack and the framebuffer, and nothing
    else - switches to it, and leaves the kernel for the first instruction of
    the program: [satp] is the new directory, the user registers are zero but
    [pc] and [sp], [sscratch] is the top of a kernel stack that holds the trap
    frame.  What the program sees there is its own bytes, zeros after them and
    a zeroed stack; its pages are not the directory, no page table and not
    among the pages the allocator has left.  Every loop on the way ends, no
    access faults and no allocation fails. *)
Theorem kernel_boots img prog s :
  boot_ok img -> bytes_at (k_mem s) (extra_start img) prog ->
  Z.of_nat (length prog) = extra_end img - extra_start img ->
  mapped (k_mem s) (image_end img) (memory_top img - 0x2000 - image_end img) ->
  let pdir := boot_dir img in
  exists s' top j k ksp, start (A := unit) img s = Halt s' /\
    u_out (k_uart s') = u_out (k_uart s) ++ wire (boot_text img ++ program_text (Z.of_nat (length prog))) /\
    k_hw s' = k_hw s ++ [CsrWrite CSR_STVEC (trap_entry_at img)] ++ replicate j TlbFlush ++
      [CsrWrite CSR_SATP (boot_satp img); TlbFlush] ++ replicate k TlbFlush ++
      [CsrSet CSR_SSTATUS SSTATUS_SUM; CsrClr CSR_SSTATUS SSTATUS_SUM; CsrClr CSR_SSTATUS SSTATUS_SPP;
       CsrWrite CSR_SSCRATCH ksp; CsrWrite CSR_SEPC 0x10000000; Sret user_frame] /\
    ksp mod 4 = 0 /\ words_at (k_mem s') (ksp - 128) user_frame /\
    (forall a, is_u32 a -> walk (k_mem s') pdir a = boot_map img top a) /\
    (forall i, 0 <= i < 0x4000 ->
       user_byte (k_mem s') pdir (0x10000000 + i) = Some (nth (Z.to_nat i) prog 0)) /\
    (forall i, 0 <= i < 0x1000 -> user_byte (k_mem s') pdir (0x103FF000 + i) = Some 0) /\
    (forall k, 0 <= k <= 4 -> held s' pdir (pa_to_kva (user_page top k))) /\
    image_end img - 0x80000000 + 0x8000 <= top <= memory_top img - 0x80003000.
Proof.
  intros Hboot Hprog Hlen Hm pdir. pose proof Hboot as (Hok & _ & _ & B3 & B4 & B5 & B6 & B7).
  destruct (image_top_range img Hok) as (_ & _ & Htop).
  set (s1 := hw_op (CsrWrite CSR_STVEC (trap_entry_at img)) (emit (wire (boot_text img)) s)).
  destruct (build_kernel_map_ok img s1 Hok Hm) as (s2 & E2 & S2 & T2). fold (boot_dir img) pdir in S2.
  assert (pa_bottom s2 = image_end img - 0x80000000) as Eb by (rewrite (ms_bottom _ _ _ _ S2); reflexivity).
  assert (pa_top s2 <= memory_top img - 0x80003000) as Ht.
  { pose proof (ms_top _ _ _ _ S2) as H. change (pa_top (dir_made img s1))
      with (memory_top img - 0x80000000 - 0x2000 - 0x1000) in H. lia. }
  assert (forall j, 0 <= j < Z.of_nat (length prog) -> held (dir_made img s1) pdir (page_of (extra_start img + j)))
    as Hh1 by (intros j Hj; apply (dir_made_held img s1); [done|done|lia]).
  assert (bytes_at (k_mem (dir_made img s1)) (extra_start img) prog) as Hp1.
  { apply bytes_at_lookup. apply bytes_at_lookup in Hprog as [Hu Hl]. split; [done|]. intros i Hi.
    rewrite (proj2 (dir_made_held img s1 (extra_start img + Z.of_nat i) Hok Hm ltac:(lia))) by lia. by apply Hl. }
  set (s3 := hw_op TlbFlush (hw_op (CsrWrite CSR_SATP (boot_satp img)) s2)).
  pose proof (map_state_rebase _ s2 s3 pdir _ S2 eq_refl eq_refl eq_refl eq_refl) as S3.
  destruct (start_user_program_ok img s3 pdir (kernel_map img) prog S3) with (A := unit)
    as (s' & k & ksp & E & U & W & K0 & K1 & Hw & [P1 P2] & Hh).
  { intros a Ha. by apply kernel_map_low; [|lia]. }
  { intros a Ha. by apply kernel_map_low; [|lia]. }
  { change (pa_bottom s2 + 0x8000 <= pa_top s2). lia. }
  { change (pa_top s2 <= 0x80000000). lia. }
  { lia. }
  { lia. }
  { exact (bytes_at_keeps _ s2 pdir _ _ (ms_pages _ _ _ _ S2) Hh1 Hp1). }
  { intros j Hj. exact (held_rebase s2 s3 pdir _ (proj1 (ms_pages _ _ _ _ S2 _ (Hh1 j Hj))) eq_refl eq_refl eq_refl). }
  change (pa_top s3) with (pa_top s2) in *. set (top := pa_top s2) in *.
  destruct (ms_hw _ _ _ _ S2) as [j Hj].
  exists s', top, j, k, ksp. split; [|split; [|split; [|split; [|split; [|split; [|split; [|split; [|split]]]]]]]].
  - unfold start. rewrite boot_text_ok by done. unfold csr_write at 1, modify, bind at 1. fold s1. step E2.
    unfold gets, bind at 1. rewrite (ms_kpgdir _ _ _ _ S2). unfold pdir. rewrite boot_satp_ok by done.
    exact E.
  - rewrite U. change (k_uart s3) with (k_uart s2). rewrite (ms_uart _ _ _ _ S2).
    change (k_uart (dir_made img s1)) with (sent (wire (boot_text img)) (k_uart s)).
    rewrite sent_sent, <- wire_app. reflexivity.
  - rewrite W. change (k_hw s3) with ((k_hw s2 ++ [CsrWrite CSR_SATP (boot_satp img)]) ++ [TlbFlush]).
    rewrite Hj. change (k_hw (dir_made img s1)) with (k_hw s ++ [CsrWrite CSR_STVEC (trap_entry_at img)]).
    by rewrite <- !app_assoc.
  - exact K0.
  - exact K1.
  - exact Hw.
  - intros i Hi. unfold user_byte. rewrite Hw by (unfold is_u32; lia). unfold user_map.
    rewrite decide_True by lia. replace (0x10000000 + i - 0x10000000) with i by lia. by apply P1.
  - intros i Hi. unfold user_byte. rewrite Hw by (unfold is_u32; lia). unfold user_map.
    rewrite decide_False, decide_True by lia. replace ((0x103FF000 + i) mod 0x1000) with i by zarith. by apply P2.
  - exact Hh.
  - lia.
Qed.

(** The image of Kernel.v with a program in it. *)
Definition small_program : list Z := replicate (Z.to_nat 0xF00) 0x13.

Definition boot_ram : kernel := poke small_ram (extra_start small_image) small_program.

Lemma small_program_bytes : bytes small_program.
Proof. unfold small_program. apply Forall_replicate. by_decide. Qed.

Lemma boot_map_start img top : boot_map img top 0x10000000 = Some (top - 0x1000, USER_RWX).
Proof.
  unfold boot_map, user_map. rewrite decide_True by lia. unfold user_phys, user_page.
  change ((0x10000000 - 0x10000000) / 0x1000) with 0. cbn [Z.eqb].
  change ((0x10000000 - 0x10000000) mod 0x1000) with 0. do 2 f_equal. lia.
Qed.

Lemma kernel_boots_witness :
  exists s' top j k ksp, start (A := unit) small_image boot_ram = Halt s' /\
    u_out (k_uart s') = wire (boot_text small_image ++ program_text 0xF00) /\
    k_hw s' = [CsrWrite CSR_STVEC 0xC0009000] ++ replicate j TlbFlush ++
      [CsrWrite CSR_SATP 0x800403FD; TlbFlush] ++ replicate k TlbFlush ++
      [CsrSet CSR_SSTATUS SSTATUS_SUM; CsrClr CSR_SSTATUS SSTATUS_SUM; CsrClr CSR_SSTATUS SSTATUS_SPP;
       CsrWrite CSR_SSCRATCH ksp; CsrWrite CSR_SEPC 0x10000000; Sret user_frame] /\
    walk (k_mem s') 0xC03FD000 0x10000000 = Some (top - 0x1000, USER_RWX) /\
    user_byte (k_mem s') 0xC03FD000 0x10000000 = Some 0x13.
Proof.
  destruct (kernel_boots small_image small_program boot_ram) as
    (s' & top & j & k & ksp & E & U & W & _ & _ & Hw & Hp & _).
  - by_decide.
  - apply bytes_at_write, small_program_bytes.
  - unfold small_program. rewrite length_replicate. by vm_compute.
  - apply mapped_write, small_ram_mapped.
  - exists s', top, j, k, ksp. split; [exact E|]. split; [exact U|]. split; [exact W|].
    change (boot_dir small_image) with 0xC03FD000 in Hw, Hp. split.
    + rewrite (Hw 0x10000000 ltac:(by_decide)). apply boot_map_start.
    + specialize (Hp 0 ltac:(lia)). rewrite Z.add_0_r in Hp. rewrite Hp. by vm_compute.
Defined.
