(* ===== verification/Ex25.v ===== *)
(** * The kernel example (example/ex25-kernel.c, hw/src/trap-entry-dual-stack.S)

    The first version of the X/OS kernel, on the same state as [Vmm] and
    [Kernel]: its [ppage_next] is [pa_top] and its [pdir] is [kpgdir]; it has no
    lower bound for the page allocator, so [pa_bottom] is a variable of X/OS that
    nothing here reads.  [map_page] and [map_page_4m] do what [vm_map_4k] and
    [vm_map_4m] do wherever those return ([map_page_same], [map_page_4m_same]),
    and with that the whole kernel map is X/OS's ([build_map_same]): the theorem
    about X/OS's memory map holds for this kernel, too.  System calls are a C
    switch here, in the exception handler. *)

From S2P Require Import Prelude Monad Hw Mem Words LibcMem LibcStr Uart Printf Exception Vmm Kernel.

(** ** Pages and mappings *)

(* src/example/ex25-kernel.c:32-36 *)
Definition alloc_ppage : M kernel Z :=
  modify (fun s => set_pa (pa_bottom s) (u32 (pa_top s - PAGE_SIZE)) s) ;;
  p <- gets pa_top ;;
  memset (pa_to_kva p) 0 PAGE_SIZE ;;
  gets pa_top.

(* src/example/ex25-kernel.c:50-80 *)
Definition map_page (va pa flags : Z) : M kernel Z :=
  let idx1 := Z.shiftr va 22 in
  let idx0 := Z.land (Z.shiftr va 12) 0x3FF in
  let map_in ptbl :=
    pte <- load32 (ptbl + 4 * idx0) ;;
    if has PTE_V pte then ret 0xFFFFFFFF (* -1 *)
    else
      store32 (ptbl + 4 * idx0) (Z.lor (Z.shiftr (Z.land pa 0xFFFFF000) 2) (Z.land flags 0x3FF)) ;;
      tlb_flush_all ;;
      ret 0 in
  pdir <- gets kpgdir ;;
  pte <- load32 (pdir + 4 * idx1) ;;
  if has PTE_V pte then
    if has (Z.lor PTE_X (Z.lor PTE_W PTE_R)) pte then ret 0xFFFFFFFF (* -1 *)
    else map_in (pa_to_kva (PTE_PA pte))
  else
    ptbl_pa <- alloc_ppage ;;
    pdir <- gets kpgdir ;;
    store32 (pdir + 4 * idx1) (Z.lor (Z.shiftr ptbl_pa 2) PTE_V) ;;
    map_in (pa_to_kva ptbl_pa).

(* src/example/ex25-kernel.c:82-94 *)
Definition map_page_4m (va pa flags : Z) : M kernel Z :=
  let idx1 := Z.shiftr va 22 in
  pdir <- gets kpgdir ;;
  pte <- load32 (pdir + 4 * idx1) ;;
  if has PTE_V pte then ret 0xFFFFFFFF (* -1 *)
  else
    pdir <- gets kpgdir ;;
    store32 (pdir + 4 * idx1) (Z.lor (Z.shiftr (Z.land pa 0xFFFFF000) 2) (Z.land flags 0x3FF)) ;;
    tlb_flush_all ;;
    ret 0.

(** ** Traps *)

(** The caller-saved registers, [pc] and [sp] come from the frame at [sp]; the
    others are [callee]. *)
(* src/hw/src/trap-entry-dual-stack.S:71-102 *)
Definition trap_exit {A} (sp : Z) (callee : list Z) : M kernel A :=
  csr_write CSR_SSCRATCH (u32 (sp + 32 * 4)) ;;
  pc <- load32 (sp + EF_PC) ;;
  csr_write CSR_SEPC pc ;;
  ws <- load_words sp 16 ;;
  usp <- load32 (sp + EF_SP) ;;
  modify (hw_op (Sret (ws ++ [pc; usp] ++ callee))) ;;
  spin.

(* src/hw/src/trap-entry-dual-stack.S:128-144 *)
Definition exception_exit {A} (sp : Z) : M kernel A :=
  callee <- load_words (sp + 0x48) 14 ;;
  trap_exit sp callee.

(* src/hw/src/trap-entry-dual-stack.S:147-149 *)
Definition user_mode_entry {A} (ef : Z) : M kernel A := exception_exit ef.

(* src/example/ex25-syscalls.h:3-3 *)
Definition SYS_EXIT := 0.
(* src/example/ex25-syscalls.h:4-4 *)
Definition SYS_XPUTC := 1.

Definition EF_T0 := 4.

(* src/example/ex25-kernel.c:213-214 *)
Definition interrupt_handler : M kernel unit := ret tt.

(* src/example/ex25-kernel.c:217-240 *)
Definition exception_handler (c : trap_csrs) (ef : Z) : M kernel unit :=
  if scause c =? EXCn_ECALL_UMODE then
    t0 <- load32 (ef + EF_T0) ;;
    if t0 =? SYS_EXIT then
      a0 <- load32 (ef + EF_A0) ;;
      xprintf (nl ++ str "[ user exit (status %d) ]" ++ nl) [VaWord a0] ;;
      spin
    else if t0 =? SYS_XPUTC then
      a0 <- load32 (ef + EF_A0) ;;
      xputc a0 ;;
      pc <- load32 (ef + EF_PC) ;;
      store32 (ef + EF_PC) (u32 (pc + 4))
    else
      t0 <- load32 (ef + EF_T0) ;;
      xprintf (nl ++ str "[ invalid syscall %u ]" ++ nl) [VaWord t0] ;;
      spin
  else
    xprintf (nl ++ str "** SUPERVISOR EXCEPTION **" ++ nl) [] ;;
    xprint_s_exception c ef ;;
    xprintf (nl ++ str "HALT" ++ nl) [] ;;
    spin.

(** A trap taken in user mode with the registers [regs] (in [ef_order]; [pc] is
    what the hardware put in [sepc], [sp] the user's, which the swap left in
    [sscratch]) while [sscratch] held the kernel stack top [ksp]. *)
(* src/hw/src/trap-entry-dual-stack.S:30-125 *)
Definition trap_entry {A} (c : trap_csrs) (ksp : Z) (regs : list Z) : M kernel A :=
  let sp := ksp - 32 * 4 in
  store_words sp (take 18 regs) ;;
  if s32 (scause c) >=? 0 then
    store_words (sp + 0x48) (drop 18 regs) ;;
    exception_handler c sp ;;
    exception_exit sp
  else
    interrupt_handler ;;
    trap_exit sp (drop 18 regs).

(** ** Starting up *)

(** [map_page(va, alloc_ppage(), flags)] *)
(* src/example/ex25-kernel.c:111-111 start_user_program *)
Definition map_user_page (va flags : Z) : M kernel unit :=
  pa <- alloc_ppage ;;
  map_page va pa flags ;;
  ret tt.

(* src/example/ex25-kernel.c:104-140 *)
Definition start_user_program {A} (img : image) : M kernel A :=
  let user_start := 0x10000000 in
  let user_stack := 0x10400000 in
  xprintf (str "user.bin %u bytes" ++ nl) [VaWord (u32 (extra_end img - extra_start img))] ;;
  map_user_page (user_start + 0 * PAGE_SIZE) USER_RWX ;;
  map_user_page (user_start + 1 * PAGE_SIZE) USER_RWX ;;
  map_user_page (user_start + 2 * PAGE_SIZE) USER_RWX ;;
  map_user_page (user_start + 3 * PAGE_SIZE) USER_RWX ;;
  map_user_page (user_stack - 1 * PAGE_SIZE) USER_RW ;;
  csr_set CSR_SSTATUS SSTATUS_SUM ;;
  copy_to_user user_start (extra_start img) (extra_end img - extra_start img) ;;
  csr_clr CSR_SSTATUS SSTATUS_SUM ;;
  page <- alloc_ppage ;;
  let ef := pa_to_kva (u32 (page + PAGE_SIZE - 32 * 4)) in
  store32 (ef + EF_PC) user_start ;;
  store32 (ef + EF_SP) user_stack ;;
  csr_clr CSR_SSTATUS SSTATUS_SPP ;;
  xprintf (nl ++ str "[ starting user mode program ]" ++ nl ++ nl) [] ;;
  user_mode_entry ef.

(** [while (va < end) { map_page((vaddr_t) va, kva_to_pa(va), flags); va += PAGE_SIZE; }] *)
(* src/example/ex25-kernel.c:183-186 start *)
Definition map_until (end_ flags va : Z) : M kernel Z :=
  loop (fun va =>
    if va <? end_ then
      map_page va (kva_to_pa va) flags ;;
      ret (inl (va + PAGE_SIZE))
    else ret (inr va)) va.

(* src/example/ex25-kernel.c:199-202 start *)
Definition map_mega_until (end_ flags va : Z) : M kernel Z :=
  loop (fun va =>
    if va <? end_ then
      map_page_4m va (kva_to_pa va) flags ;;
      ret (inl (va + 4 * 1024 * 1024))
    else ret (inr va)) va.

(* src/example/ex25-kernel.c:172-204 start *)
Definition build_map (img : image) : M kernel unit :=
  modify (fun s => set_pa (pa_bottom s) (u32 (kva_to_pa (memory_top img) - 2 * PAGE_SIZE)) s) ;;
  page <- alloc_ppage ;;
  modify (set_kpgdir (pa_to_kva page)) ;;
  va <- map_until (rodata_start img) KERNEL_RX (text_start img) ;;
  va <- map_until (data_start img) KERNEL_RO va ;;
  let end_ := Z.land (u32 (image_end img + 0x003FFFFF)) 0xFFC00000 in
  va <- map_until end_ KERNEL_RW va ;;
  va <- map_mega_until (memory_top img) KERNEL_RW va ;;
  map_page_4m 0xF0000000 0xF0000000 KERNEL_RW ;;
  ret tt.

(* src/example/ex25-kernel.c:154-211 *)
Definition start {A} (img : image) : M kernel A :=
  let size a b := VaWord (u32 (b - a)) in
  xprintf (str "Example 25 - kernel" ++ nl ++ nl) [] ;;
  xprintf (str "text   %p %u" ++ nl) [VaWord (text_start img); size (text_start img) (rodata_start img)] ;;
  xprintf (str "rodata %p %u" ++ nl) [VaWord (rodata_start img); size (rodata_start img) (data_start img)] ;;
  xprintf (str "data   %p %u" ++ nl) [VaWord (data_start img); size (data_start img) (bss_start img)] ;;
  xprintf (str "bss    %p %u" ++ nl) [VaWord (bss_start img); size (bss_start img) (bss_end img)] ;;
  xprintf (str "free   %p %u" ++ nl) [VaWord (image_end img); size (image_end img) (memory_top img)] ;;
  xprintf (str "memtop %p" ++ nl) [VaWord (memory_top img)] ;;
  csr_write CSR_STVEC (trap_entry_at img) ;;
  build_map img ;;
  pdir <- gets kpgdir ;;
  csr_write CSR_SATP (Z.lor SATP_MODE_SV32 (Z.shiftr (kva_to_pa pdir) 12)) ;;
  tlb_flush_all ;;
  start_user_program img.

(** ** The same mappings *)

(** Wherever the page allocator of X/OS has a page, this one takes the same. *)
Lemma alloc_ppage_same s pa s' : ppage_alloc_z s = Ok pa s' -> alloc_ppage s = Ok pa s'.
Proof.
  unfold ppage_alloc_z, get, bind at 1. destruct (pa_top s =? pa_bottom s).
  - unfold bind at 1. unfold panic, spin, bind at 1. by destruct (xprintf _ _ s).
  - rewrite bind_ret. done.
Qed.

Lemma load32_keeps {B} (f : kernel -> B) a : keeps f (load32 a).
Proof.
  intros s x s'. unfold load_le. destruct (a mod _ =? 0); [|discriminate].
  destruct (read_bytes _ a 4); [|discriminate]. by injection 1 as _ <-.
Qed.

Lemma store_le_keeps w a v : keeps kpgdir (store_le w a v : M kernel unit).
Proof.
  intros s x s'. unfold store_le. destruct (a mod _ =? 0); [|discriminate].
  destruct (read_bytes _ a w); [|discriminate]. by intros [= _ <-].
Qed.

#[local] Hint Resolve load32_keeps store_le_keeps : keeps.

Lemma fill_keeps w xs v len : keeps kpgdir (fill w xs v len : M kernel Z).
Proof. unfold fill. keep. Qed.
#[local] Hint Resolve fill_keeps : keeps.

Lemma memset_keeps a c n : keeps kpgdir (memset a c n : M kernel Z).
Proof. unfold memset. keep. Qed.
#[local] Hint Resolve memset_keeps : keeps.

Lemma alloc_ppage_keeps : keeps kpgdir alloc_ppage.
Proof. unfold alloc_ppage. keep. Qed.

(** [-1] for every one of X/OS's status codes but [XOS_OK]. *)
Definition old_status (st : Z) : Z := if st =? XOS_OK then 0 else 0xFFFFFFFF.

Lemma map_page_same va pa flags :
  va mod 0x1000 = 0 -> pa mod 0x1000 = 0 ->
  refines (pdir <- gets kpgdir ;; st <- vm_map_4k pdir va pa flags ;; ret (old_status st))
    (map_page va pa flags).
Proof.
  intros Hv Hp. unfold vm_map_4k, map_page. rewrite !pages_aligned, Hv, Hp. cbn [Z.eqb negb orb].
  set (idx1 := Z.shiftr va 22). set (idx0 := Z.land (Z.shiftr va 12) 0x3FF).
  set (v := Z.lor (Z.shiftr (Z.land pa 0xFFFFF000) 2) (Z.land flags 0x3FF)).
  set (new := fun ptbl => (pte <- load32 (ptbl + 4 * idx0) ;; if has PTE_V pte then ret 0xFFFFFFFF
    else store32 (ptbl + 4 * idx0) v ;; tlb_flush_all ;; ret 0) : M kernel Z).
  set (old := fun ptbl => (pte <- load32 (ptbl + 4 * idx0) ;; if has PTE_V pte then ret 0xFFFFFFFF
    else store32 (ptbl + 4 * idx0) v ;; tlb_flush_all ;; ret XOS_OK) : M kernel Z).
  assert (forall ptbl, refines (st <- old ptbl ;; ret (old_status st)) (new ptbl)) as Hin.
  { intros ptbl s st s'. unfold old, new. rewrite bind_assoc. unfold bind at 1.
    destruct (load32 _ s) as [pte s1| | |] eqn:E; [|done..]. step E. destruct (has PTE_V pte); [done|].
    rewrite bind_assoc. unfold bind at 1. destruct (store32 _ v s1) as [[] s2| | |] eqn:E2; [|done..].
    by step E2. }
  intros s st s'. rewrite (bind_ok (gets kpgdir) _ s (kpgdir s) s eq_refl).
  rewrite (bind_ok (gets kpgdir) _ s (kpgdir s) s eq_refl), bind_assoc. unfold bind at 1.
  destruct (load32 (kpgdir s + 4 * idx1) s) as [pte s1| | |] eqn:E; [|done..]. step E.
  assert (kpgdir s1 = kpgdir s) as Hk1 by exact (load32_keeps kpgdir _ _ _ _ E).
  destruct (has PTE_V pte); [destruct (has _ pte); [done|apply Hin]|].
  rewrite bind_assoc. unfold bind at 1. destruct (ppage_alloc_z s1) as [p s2| | |] eqn:E2; [|done..].
  apply alloc_ppage_same in E2. step E2. rewrite (bind_ok (gets kpgdir) _ s2 (kpgdir s) s2).
  2: { unfold gets. by rewrite (alloc_ppage_keeps _ _ _ E2), Hk1. }
  rewrite bind_assoc. unfold bind at 1. destruct (store32 _ _ s2) as [[] s3| | |] eqn:E3; [|done..].
  step E3. apply Hin.
Qed.

Lemma map_page_4m_same va pa flags :
  va mod 0x400000 = 0 -> pa mod 0x400000 = 0 ->
  refines (pdir <- gets kpgdir ;; st <- vm_map_4m pdir va pa flags ;; ret (old_status st))
    (map_page_4m va pa flags).
Proof.
  intros Hv Hp s st s'. unfold vm_map_4m, map_page_4m.
  change 0x003FFFFF with (Z.ones 22). rewrite !Z.land_ones by done. change (2 ^ 22) with 0x400000.
  rewrite Hv, Hp. cbn [Z.eqb negb orb].
  rewrite !(bind_ok (gets kpgdir) _ s (kpgdir s) s eq_refl), bind_assoc. unfold bind at 1.
  destruct (load32 (kpgdir s + _) s) as [pte s1| | |] eqn:E; [|done..]. step E.
  destruct (has PTE_V pte); [done|].
  rewrite (bind_ok (gets kpgdir) _ s1 (kpgdir s) s1)
    by (unfold gets; by rewrite (load32_keeps kpgdir _ _ _ _ E)).
  rewrite bind_assoc. unfold bind at 1. destruct (store32 _ _ s1) as [[] s2| | |] eqn:E2; [|done..].
  by step E2.
Qed.

(** A caller that ignores the status sees no difference. *)
Lemma status_ignored {A} (c : Z -> M kernel Z) (c' : M kernel Z) (k : M kernel A) :
  refines (pdir <- gets kpgdir ;; st <- c pdir ;; ret (old_status st)) c' ->
  refines (pdir <- gets kpgdir ;; c pdir ;; k) (c' ;; k).
Proof.
  intros H s a s' E. unfold gets, bind at 1 in E. unfold bind at 1 in E.
  destruct (c (kpgdir s) s) as [st s1| | |] eqn:E1; [|done..].
  assert (c' s = Ok (old_status st) s1) as E' by (apply H; unfold gets, bind at 1; by step E1).
  by step E'.
Qed.

Lemma kva_to_pa_mod va k : (k = 0x1000 \/ k = 0x400000) -> va mod k = 0 -> kva_to_pa va mod k = 0.
Proof. unfold kva_to_pa, KVA_BASE, KPA_BASE. intros [-> | ->]; zarith. Qed.

Lemma map_until_same end_ flags va :
  va mod 0x1000 = 0 -> refines (map_4k_until end_ flags va) (map_until end_ flags va).
Proof.
  apply (refines_loop (fun va => va mod 0x1000 = 0)).
  - intros x Hx. destruct (x <? end_); [|done]. apply status_ignored, map_page_same; [done|].
    apply kva_to_pa_mod; auto.
  - intros x s x' s' Hx. destruct (x <? end_); [|done]. unfold gets, bind at 1. unfold bind.
    destruct (vm_map_4k _ _ _ _ s); [|done..]. intros [= <- _]. unfold PAGE_SIZE. zarith.
Qed.

Lemma map_mega_until_same end_ flags va :
  va mod 0x400000 = 0 -> refines (map_4m_until end_ flags va) (map_mega_until end_ flags va).
Proof.
  apply (refines_loop (fun va => va mod 0x400000 = 0)).
  - intros x Hx. destruct (x <? end_); [|done]. apply status_ignored, map_page_4m_same; [done|].
    apply kva_to_pa_mod; auto.
  - intros x s x' s' Hx. destruct (x <? end_); [|done]. unfold gets, bind at 1. unfold bind.
    destruct (vm_map_4m _ _ _ _ s); [|done..]. intros [= <- _]. zarith.
Qed.

(** From the state with X/OS's lower bound, which this kernel does not read, the
    two boots build the same tables. *)
Definition bounded (img : image) (s : kernel) : kernel := set_pa (kva_to_pa (image_end img)) (pa_top s) s.

Lemma build_map_dir img s :
  image_ok img -> mapped (k_mem s) (image_end img) (memory_top img - 0x2000 - image_end img) ->
  forall A (k : M kernel A),
  (modify (fun s => set_pa (pa_bottom s) (u32 (kva_to_pa (memory_top img) - 2 * PAGE_SIZE)) s) ;;
   page <- alloc_ppage ;; modify (set_kpgdir (pa_to_kva page)) ;; k) (bounded img s) = k (dir_made img s).
Proof.
  intros Hok Hm A k. destruct (dir_made_ok img s Hok Hm) as (E & _). revert E.
  generalize (dir_made img s). intros s' E. unfold modify at 1, bind at 1.
  change (set_pa (pa_bottom (bounded img s)) ?t (bounded img s))
    with (set_pa (kva_to_pa (image_end img)) t s).
  unfold vmm_init in E. unfold modify at 1, bind at 1 in E. revert E. generalize (set_pa (kva_to_pa (image_end img))
    (u32 (kva_to_pa (memory_top img) - 2 * PAGE_SIZE)) s). intros s0 E.
  unfold kpage_alloc_z in E. rewrite bind_assoc in E. unfold bind at 1 in E.
  destruct (ppage_alloc_z s0) as [p s1| | |] eqn:Ep; [|done..].
  step (alloc_ppage_same _ _ _ Ep). unfold modify, bind at 1. by injection E as <-.
Qed.

Lemma build_map_same img s :
  image_ok img -> mapped (k_mem s) (image_end img) (memory_top img - 0x2000 - image_end img) ->
  build_map img (bounded img s) = build_kernel_map img s.
Proof.
  intros Hok Hm. destruct (build_kernel_map_ok img s Hok Hm) as (s' & E & _). rewrite E.
  destruct (dir_made_ok img s Hok Hm) as (E0 & _).
  destruct (build_kernel_map_runs img s Hok Hm) as (s1 & s2 & s3 & s4 & s5 & E1 & E2 & E3 & E4 & K4 & E5 & _).
  assert (s5 = s') as ->.
  { revert E. unfold build_kernel_map. rewrite image_top_mask by done. rewrite <- bind_assoc3.
    step E0. step E1. step E2. step E3. step E4. unfold gets, bind at 1. rewrite K4. step E5.
    by injection 1. }
  destruct Hok as (H1 & H2 & H3 & H4 & H5 & H6 & H7 & H8 & H9).
  unfold build_map. rewrite build_map_dir by done. rewrite image_top_mask by done.
  step (map_until_same _ _ _ H3 _ _ _ E1). step (map_until_same _ _ _ H4 _ _ _ E2).
  step (map_until_same _ _ _ H5 _ _ _ E3).
  assert (image_top img mod 0x400000 = 0) as Ht by (unfold image_top; zarith).
  step (map_mega_until_same _ _ _ Ht _ _ _ E4).
  assert (map_page_4m 0xF0000000 0xF0000000 KERNEL_RW s4 = Ok (old_status XOS_OK) s') as E6.
  { apply map_page_4m_same; [done..|]. unfold gets, bind at 1. rewrite K4. by step E5. }
  by step E6.
Qed.

(** ** Traps *)

Section frames.
Context {A : Type} (sp : Z) (regs : list Z).
Context (Hsp : sp mod 4 = 0) (Hu : is_u32 (sp + 128)) (Hlen : length regs = 32%nat).

Lemma regs_split : take 18 regs = take 16 regs ++ [nth 16 regs 0; nth 17 regs 0].
Proof.
  assert (forall i, (i < 32)%nat -> regs !! i = Some (nth i regs 0)) as H
    by (intros i Hi; destruct (lookup_lt_is_Some_2 regs i ltac:(lia)) as [x Hx];
        by rewrite (nth_lookup_Some _ _ _ _ Hx)).
  by rewrite (take_S_r _ _ _ (H 17%nat ltac:(lia))), (take_S_r _ _ _ (H 16%nat ltac:(lia))), <- app_assoc.
Qed.

Lemma first_words m i : words_at m sp (take 18 regs) -> (i < 18)%nat ->
  forall t : kernel, k_mem t = m -> load32 (sp + 4 * Z.of_nat i) t = Ok (nth i regs 0) t.
Proof.
  intros Hw Hi t <-. rewrite (load_frame t sp _ i Hw) by (rewrite ?length_take; done || lia).
  by rewrite !nth_lookup, lookup_take_lt.
Qed.

(** Leaving with the callee-saved registers in the machine's registers and the
    others in the frame restores them all. *)
Lemma frame_left s :
  words_at (k_mem s) sp (take 18 regs) ->
  trap_exit (A := A) sp (drop 18 regs) s = Halt (left_kernel s (sp + 128) regs).
Proof.
  intros Hw. unfold trap_exit, Kernel.csr_write, modify. unfold bind at 1. change (32 * 4) with 128.
  rewrite u32_small by done. set (s1 := hw_op _ s).
  change (sp + EF_PC) with (sp + 4 * Z.of_nat 16). change (sp + EF_SP) with (sp + 4 * Z.of_nat 17).
  step (first_words _ 16 Hw ltac:(lia) s1 eq_refl). unfold bind at 1.
  set (s2 := hw_op _ s1). assert (length (take 16 regs) = 16%nat) as Hws by (rewrite length_take; lia).
  assert (load_words sp 16 s2 = Ok (take 16 regs) s2) as El.
  { rewrite <- Hws at 1. apply load_words_ok; [done|]. change (k_mem s2) with (k_mem s).
    rewrite regs_split in Hw. by apply words_at_app in Hw as [Hw _]. }
  step El. step (first_words _ 17 Hw ltac:(lia) s2 eq_refl).
  unfold bind, spin, left_kernel, modify. by rewrite app_assoc, <- regs_split, take_drop.
Qed.

Lemma exception_left s :
  words_at (k_mem s) sp regs -> exception_exit (A := A) sp s = Halt (left_kernel s (sp + 128) regs).
Proof.
  intros Hw. unfold exception_exit. assert (length (drop 18 regs) = 14%nat) as Hc by (rewrite length_drop; lia).
  rewrite <- (take_drop 18 regs) in Hw. apply words_at_app in Hw as [Hw1 Hw2].
  rewrite length_take, Hlen in Hw2.
  assert (load_words (sp + 0x48) 14 s = Ok (drop 18 regs) s) as El
    by (rewrite <- Hc at 1; apply load_words_ok; [zarith|exact Hw2]).
  step El. by apply frame_left.
Qed.
End frames.

(** What the exception handler prints for a number that is no system call. *)
Definition invalid_text (n : Z) : list Z := [10] ++ str "[ invalid syscall " ++ dec n ++ str " ]" ++ [10].

Lemma invalid_ok n (s : kernel) :
  is_u32 n -> xprintf (nl ++ str "[ invalid syscall %u ]" ++ nl) [VaWord n] s = Ok tt (emit (wire (invalid_text n)) s).
Proof.
  intros Hn. set (ds := [(nl ++ str "[ invalid syscall ",
    {| d_left := false; d_plus := false; d_space := false; d_alt := false; d_zero := false;
       d_width := 0; d_conv := CUnsigned |})]).
  change (nl ++ str "[ invalid syscall %u ]" ++ nl) with (unparse ds (str " ]" ++ nl)).
  pose proof (length_dec _ Hn) as Hd. pose proof (dec_chars _ Hn) as Hc.
  apply xprintf_text; [by_decide| | |cbn; lia|].
  - unfold ds. cbn [render render_directive d_conv option_map]. unfold justify, invalid_text.
    cbn [d_left d_zero d_width andb]. unfold sign_of, spaces. cbn [d_plus d_space].
    rewrite (u32_small n) by done. replace (Z.to_nat _) with 0%nat by (cbn [length]; lia).
    cbn [replicate app]. by rewrite <- ?app_assoc.
  - unfold invalid_text. rewrite !length_app. change (length (str "[ invalid syscall ")) with 18%nat.
    change (length (str " ]")) with 2%nat. cbn [length]. lia.
  - unfold invalid_text. rewrite !Forall_app.
    split; [by repeat constructor|]. split; [by apply (bool_decide_unpack _)|].
    split; [|split; [by apply (bool_decide_unpack _)|by repeat constructor]].
    eapply Forall_impl; [|exact Hc]. cbn. lia.
Qed.

(** The two halves of the frame, stored one after the other. *)
Lemma trap_frame (c : trap_csrs) ksp regs (s : kernel) :
  Forall is_u32 regs -> length regs = 32%nat -> ksp mod 4 = 0 -> mapped (k_mem s) (ksp - 128) 128 ->
  exists m1 m2,
    store_words (ksp - 128) (take 18 regs) s = Ok tt (with_mem m1 s) /\
    same_except (k_mem s) m1 (ksp - 128) 128 /\
    words_at m1 (ksp - 128) (take 18 regs) /\
    store_words (ksp - 128 + 0x48) (drop 18 regs) (with_mem m1 s) = Ok tt (with_mem m2 s) /\
    same_except (k_mem s) m2 (ksp - 128) 128 /\
    words_at m2 (ksp - 128) regs.
Proof.
  intros Hr Hl Hk Hm. rewrite <- (take_drop 18 regs), Forall_app in Hr. destruct Hr as [Hr1 Hr2].
  assert (length (take 18 regs) = 18%nat) as Hl1 by (rewrite length_take; lia).
  assert (length (drop 18 regs) = 14%nat) as Hl2 by (rewrite length_drop; lia).
  destruct (store_words_ok s (ksp - 128) (take 18 regs) Hr1 ltac:(zarith)) as (m1 & E1 & W1 & S1 & M1).
  { rewrite Hl1. eapply mapped_sub; [exact Hm|lia..]. }
  rewrite Hl1 in S1. change (4 * Z.of_nat 18) with 0x48 in S1. set (s1 := with_mem m1 s).
  destruct (store_words_ok s1 (ksp - 128 + 0x48) (drop 18 regs) Hr2 ltac:(zarith)) as (m2 & E2 & W2 & S2 & M2).
  { rewrite Hl2. apply M1. eapply mapped_sub; [exact Hm|lia..]. }
  rewrite Hl2 in S2. change (4 * Z.of_nat 14) with 56 in S2. change (k_mem s1) with m1 in *.
  exists m1, m2. split; [exact E1|]. split; [intros b Hb; apply S1; lia|]. split; [done|]. split; [exact E2|]. split.
  - intros b Hb. rewrite S2 by lia. apply S1. lia.
  - rewrite <- (take_drop 18 regs). apply words_at_app. rewrite Hl1. split; [|exact W2].
    eapply words_at_agree; [exact W1| |exact M2]. intros b Hb. rewrite Hl1 in Hb. apply S2. lia.
Qed.

(** ** The properties *)

(** C14: the kernel of example 25 and X/OS build the same memory map: from the
    same RAM and any image the linker script allows, example 25's [start] leaves
    the very state X/OS's leaves - the same page tables in the same pages, the
    same TLB flushes - so every virtual address translates as [kernel_map]
    says (text executable and not writable, read-only data neither, the rest of
    RAM writable, the first 4MB of MMIO to itself, nothing else). *)
Theorem build_map_is_xos_map img s :
  image_ok img -> mapped (k_mem s) (image_end img) (memory_top img - 0x2000 - image_end img) ->
  build_map img (bounded img s) = build_kernel_map img s /\
  exists s', build_map img (bounded img s) = Ok tt s' /\
    forall a, is_u32 a -> walk (k_mem s') (kpgdir s') a = kernel_map img a.
Proof.
  intros Hok Hm. rewrite build_map_same by done. split; [done|].
  destruct (build_kernel_map_ok img s Hok Hm) as (s' & E & [_ K _ _ _ _ W _ _ _] & _).
  exists s'. by rewrite K.
Qed.

Lemma build_map_is_xos_map_witness :
  build_map small_image (bounded small_image small_ram) = build_kernel_map small_image small_ram /\
  exists s', build_map small_image (bounded small_image small_ram) = Ok tt s' /\
    forall a, is_u32 a -> walk (k_mem s') (kpgdir s') a = kernel_map small_image a.
Proof. apply build_map_is_xos_map; [by_decide | exact small_ram_mapped]. Defined.

(** C34: a trap from user mode, interrupt or system call: the registers are saved
    below the kernel stack top and nothing else in memory changes.  An interrupt
    returns with all 32 registers as they were.  [SYS_EXIT] prints the status
    and the kernel stops; [SYS_XPUTC] sends its argument to the console and
    returns to the instruction after the [ecall] with every other register
    preserved; any other number is reported and the kernel stops. *)
Theorem user_trap_correct c ksp regs s :
  Forall is_u32 regs -> length regs = 32%nat -> ksp mod 4 = 0 -> is_u32 ksp ->
  mapped (k_mem s) (ksp - 128) 128 -> s32 (scause c) < 0 \/ scause c = EXCn_ECALL_UMODE ->
  let t0 := nth 1 regs 0 in
  let a0 := nth 8 regs 0 in
  let pc := nth 16 regs 0 in
  exists s', trap_entry (A := unit) c ksp regs s = Halt s' /\
    same_except (k_mem s) (k_mem s') (ksp - 128) 128 /\
    let out l := u_out (k_uart s') = u_out (k_uart s) ++ l in
    let returns pc ws :=
      k_hw s' = k_hw s ++ [CsrWrite CSR_SSCRATCH ksp; CsrWrite CSR_SEPC pc; Sret ws] in
    if s32 (scause c) <? 0 then out [] /\ returns pc regs
    else if t0 =? SYS_EXIT then
      out (wire ([10] ++ str "[ user exit (status " ++
                 (if s32 a0 <? 0 then [45] else []) ++ dec (Z.abs (s32 a0)) ++ str ") ]" ++ [10])) /\
      k_hw s' = k_hw s
    else if t0 =? SYS_XPUTC then
      out (wire1 a0) /\ returns (u32 (pc + 4)) (<[16%nat := u32 (pc + 4)]> regs)
    else out (wire ([10] ++ str "[ invalid syscall " ++ dec t0 ++ str " ]" ++ [10])) /\ k_hw s' = k_hw s.
Proof.
  intros Hr Hl Hk Hu Hm Hc t0 a0 pc.
  destruct (trap_frame c ksp regs s Hr Hl Hk Hm) as (m1 & m2 & E1 & S1 & W1 & E2 & S2 & W2).
  unfold trap_entry. change (32 * 4) with 128. set (sp := ksp - 128) in *. step E1.
  assert (sp mod 4 = 0) as Hsp by (unfold sp; zarith).
  assert (sp + 128 = ksp) as Hsk by (unfold sp; lia).
  assert (is_u32 (sp + 128)) as Hsu by (by rewrite Hsk).
  rewrite Z.geb_leb. destruct (Z.ltb_spec (s32 (scause c)) 0) as [Hi|Hi].
  { rewrite (proj2 (Z.leb_gt _ _)) by lia. unfold interrupt_handler. rewrite bind_ret.
    eexists. split; [exact (frame_left sp regs Hsp Hsu Hl (with_mem m1 s) W1)|].
    split; [exact S1|]. rewrite left_kernel_hw, Hsk. split; [by rewrite app_nil_r|done]. }
  rewrite (proj2 (Z.leb_le _ _)) by lia. destruct Hc as [Hc|Hc]; [lia|]. step E2.
  set (s2 := with_mem m2 s). unfold exception_handler. rewrite Hc. cbn [Z.eqb EXCn_ECALL_UMODE Pos.eqb].
  pose proof (fun i Hi => load_frame s2 sp regs i W2 Hi Hsp) as Hld.
  change (sp + EF_T0) with (sp + 4 * Z.of_nat 1). change (sp + EF_A0) with (sp + 4 * Z.of_nat 8).
  change (sp + EF_PC) with (sp + 4 * Z.of_nat 16). rewrite bind_assoc. step (Hld 1%nat ltac:(lia)). fold t0.
  destruct (t0 =? SYS_EXIT).
  { rewrite bind_assoc. step (Hld 8%nat ltac:(lia)). fold a0. eexists. split.
    { apply bind_halt. exact (sys_exit_ok a0 s2). }
    split; [exact S2|]. split; [exact (u_out_emit _ s2)|done]. }
  destruct (t0 =? SYS_XPUTC).
  - rewrite bind_assoc. step (Hld 8%nat ltac:(lia)). fold a0. rewrite bind_assoc. step (xputc_ok a0 s2).
    set (s3 := emit (wire1 a0) s2).
    assert (words_at (k_mem s3) sp regs) as W3 by exact W2.
    rewrite bind_assoc. step (load_frame s3 sp regs 16 W3 ltac:(lia) Hsp). fold pc.
    destruct (store_frame s3 sp regs 16 (u32 (pc + 4)) W3 Hl Hsp (u32_range _) ltac:(lia)) as (m4 & E4 & W4 & S4).
    step E4. eexists. split.
    { apply exception_left; [done..|by rewrite length_insert|exact W4]. }
    split; [intros b Hb; rewrite S4 by done; by apply S2|].
    split; [exact (u_out_emit _ s2)|]. rewrite left_kernel_hw, Hsk, nth_lookup, list_lookup_insert_eq by lia. done.
  - rewrite bind_assoc. step (Hld 1%nat ltac:(lia)). fold t0.
    assert (is_u32 t0) as Ht0.
    { destruct (lookup_lt_is_Some_2 regs 1 ltac:(lia)) as [x Hx]. unfold t0.
      rewrite (nth_lookup_Some _ _ _ _ Hx). rewrite Forall_lookup in Hr. by apply (Hr 1%nat x Hx). }
    rewrite bind_assoc. step (invalid_ok t0 s2 Ht0). eexists. split; [reflexivity|].
    split; [exact S2|]. split; [exact (u_out_emit _ s2)|done].
Qed.

Lemma user_trap_correct_witness :
  exists s', trap_entry (A := unit) {| sstatus := 0; scause := 8; stval := 0 |}
      0xC1FFF0F0 (<[1%nat := 1]> trap_regs) trap_kernel = Halt s' /\
    same_except (k_mem trap_kernel) (k_mem s') (0xC1FFF0F0 - 128) 128 /\
    u_out (k_uart s') = [0x88] /\
    k_hw s' = [CsrWrite CSR_SSCRATCH 0xC1FFF0F0; CsrWrite CSR_SEPC 0x11114;
               Sret (<[16%nat := 0x11114]> (<[1%nat := 1]> trap_regs))].
Proof.
  destruct (user_trap_correct {| sstatus := 0; scause := 8; stval := 0 |} 0xC1FFF0F0
    (<[1%nat := 1]> trap_regs) trap_kernel) as (s' & E & S & O & H); [by_decide..|by right|].
  exists s'. split; [exact E|]. split; [exact S|]. split; [exact O | exact H].
Defined.
