(* ===== verification/Ex20.v ===== *)
(** * The MMU example (example/ex20-mmu.c)

    [mmu_demo] is its state: physical memory, the console, [alloc_top], the two
    variables that tell the exception handler which fault to step over, the
    privileged operations issued, and [satp] (0: no translation).  The MMU is
    the [translate] of the privileged specification; what it does with the
    accessed and dirty bits is the processor's choice, and the comment in
    [start] names the three choices: [cpu_kind].

    Registers are not part of the state.  What a trap finds in them is an
    argument, [regs_at], by the address that faulted, as is the stack pointer at
    the trap, [sp], and the value of [sstatus], [status].  The code, its variables and its stack are in memory that is
    mapped to itself with all permissions and both bits set, so their accesses
    are those of physical memory; only [rd32], [wr32] and the call to 0x777000,
    which the program makes to see what the MMU does, go through [translate]. *)

From S2P Require Import Prelude Monad Hw Mem Words LibcMem LibcStr Uart Printf Exception Vmm Kernel.

Record mmu_demo := {
  d_mem : mem;
  d_uart : uart;
  alloc_top : Z;
  expect_cause : Z;
  expect_addr : Z;
  satp : Z;
  d_hw : list hwop;
}.

#[export] Program Instance demo_HasMem : HasMem mmu_demo :=
  {| mem_of := d_mem;
     with_mem m s := {| d_mem := m; d_uart := d_uart s; alloc_top := alloc_top s; expect_cause := expect_cause s;
                        expect_addr := expect_addr s; satp := satp s; d_hw := d_hw s |} |}.
Next Obligation. done. Qed.
Next Obligation. done. Qed.
Next Obligation. by intros []. Qed.

#[export] Program Instance demo_HasUart : HasUart mmu_demo :=
  {| uart_of := d_uart;
     with_uart u s := {| d_mem := d_mem s; d_uart := u; alloc_top := alloc_top s; expect_cause := expect_cause s;
                         expect_addr := expect_addr s; satp := satp s; d_hw := d_hw s |} |}.
Next Obligation. done. Qed.
Next Obligation. done. Qed.
Next Obligation. by intros []. Qed.

#[export] Instance demo_MemUart : MemUart mmu_demo.
Proof. intros u s. done. Qed.

Definition with_top (top : Z) (s : mmu_demo) : mmu_demo :=
  {| d_mem := d_mem s; d_uart := d_uart s; alloc_top := top; expect_cause := expect_cause s;
     expect_addr := expect_addr s; satp := satp s; d_hw := d_hw s |}.
Definition with_expect (cause addr : Z) (s : mmu_demo) : mmu_demo :=
  {| d_mem := d_mem s; d_uart := d_uart s; alloc_top := alloc_top s; expect_cause := cause;
     expect_addr := addr; satp := satp s; d_hw := d_hw s |}.
Definition did (op : hwop) (s : mmu_demo) : mmu_demo :=
  {| d_mem := d_mem s; d_uart := d_uart s; alloc_top := alloc_top s; expect_cause := expect_cause s;
     expect_addr := expect_addr s; satp := match op with CsrWrite r v => if r =? CSR_SATP then v else satp s | _ => satp s end;
     d_hw := d_hw s ++ [op] |}.

(** ** The MMU *)

Inductive access := Read | Write | Execute.

(** What is done about clear accessed and dirty bits: a page fault; setting
    them; nothing. *)
Inductive cpu_kind := Faults | Sets | Ignores.

Definition wants (x : access) : Z := match x with Read => PTE_R | Write => PTE_W | Execute => PTE_X end.

(** The bits an access has to find, or set. *)
Definition marks (x : access) : Z := match x with Write => Z.lor PTE_A PTE_D | _ => PTE_A end.

(** The bits [b] are all set. *)
Definition all_set (b pte : Z) : bool := Z.land pte b =? b.

(** A leaf entry [pte] met by an access [x]: what the processor leaves there. *)
Definition leaf_access (k : cpu_kind) (x : access) (pte : Z) : option Z :=
  if negb (has (wants x) pte) then None
  else if all_set (marks x) pte then Some pte
  else match k with Faults => None | Sets => Some (Z.lor pte (marks x)) | Ignores => Some pte end.

(** The walk: the address of the entry that maps [va], what the access leaves in
    it, and the physical address. *)
Definition translate (k : cpu_kind) (x : access) (m : mem) (root va : Z) : option (Z * Z * Z) :=
  let a1 := root + 4 * Z.shiftr va 22 in
  let e1 := word m a1 in
  if negb (has PTE_V e1) then None
  else if leaf e1 then
    if negb (Z.land (Z.shiftr e1 10) 0x3FF =? 0) then None (* a misaligned megapage *)
    else match leaf_access k x e1 with
         | Some e => Some (a1, e, Z.shiftl (Z.shiftr e1 20) 22 + Z.land va 0x3FFFFF)
         | None => None
         end
  else if has PTE_W e1 then None
  else
    let a0 := Z.shiftl (Z.shiftr e1 10) 12 + 4 * Z.land (Z.shiftr va 12) 0x3FF in
    let e0 := word m a0 in
    if negb (has PTE_V e0 && leaf e0) then None
    else match leaf_access k x e0 with
         | Some e => Some (a0, e, Z.shiftl (Z.shiftr e0 10) 12 + Z.land va 0xFFF)
         | None => None
         end.

(** ** The program *)

(* src/hw/inc/hw/riscv.h:126-128 *)
Definition EXCn_INSTR_PAGE_FAULT := 12.
Definition EXCn_LOAD_PAGE_FAULT := 13.
Definition EXCn_STORE_PAGE_FAULT := 15.

(* src/hw/inc/hw/intrinsics.h:26-27 *)
Definition csr_write (csr v : Z) : M mmu_demo unit := modify (did (CsrWrite csr v)).

(* src/example/ex20-mmu.c:65-70 *)
Definition alloc_page : M mmu_demo Z :=
  modify (fun s => with_top (u32 (alloc_top s - 4096)) s) ;;
  gets alloc_top.

(* src/example/ex20-mmu.c:26-29 *)
Definition read32_safe (addr : Z) : M mmu_demo Z := load32 addr.

(** [bits]: the characters of the flags, bit 9 first. *)
(* src/example/ex20-mmu.c:32-36 dump_pte *)
Definition pte_bits (pte : Z) : M mmu_demo (list Z) :=
  loop (fun '(n, bits) =>
    if n <? 10 then
      ret (inl (n + 1,
        <[Z.to_nat (9 - n) :=
          if negb (Z.land pte (Z.shiftl 1 n) =? 0) then nth (Z.to_nat n) (str "vrwxugad01") 0 else 45 (* - *)]> bits))
    else ret (inr (<[10%nat := 0]> bits))) (0, replicate 11 0).

(* src/example/ex20-mmu.c:31-39 *)
Definition dump_pte (addr vaddr pte sz : Z) : M mmu_demo unit :=
  bits <- pte_bits pte ;;
  xprintf (str "%08x %08x %08x0 %08x %s" ++ nl)
    [VaWord addr; VaWord vaddr; VaWord (Z.shiftr (Z.land pte 0xFFFFFC00) 2); VaWord sz; VaStr (Some bits)].

(* src/example/ex20-mmu.c:41-47 *)
Definition dump_mmu0 (ptbl vaddr : Z) : M mmu_demo unit :=
  loop (fun n =>
    if n <? 1024 then
      let addr := u32 (ptbl + n * 4) in
      pte <- read32_safe addr ;;
      dump_pte addr (Z.lor vaddr (u32 (Z.shiftl n 12))) pte (4 * 1024) ;;
      ret (inl (n + 1))
    else ret (inr tt)) 0.

(* src/example/ex20-mmu.c:49-63 *)
Definition dump_mmu (ptbl : Z) : M mmu_demo unit :=
  xprintf (str "pte addr vaddr    paddr     size     flags" ++ nl) [] ;;
  xprintf (str "-------- -------- --------- -------- ----------" ++ nl) [] ;;
  loop (fun n =>
    if n <? 1024 then
      let addr := u32 (ptbl + n * 4) in
      pte <- read32_safe addr ;;
      (if has PTE_V pte then
         dump_pte addr (u32 (Z.shiftl n 22)) pte (4 * 1024 * 1024) ;;
         if negb (has (Z.lor PTE_X (Z.lor PTE_W PTE_R)) pte) then
           dump_mmu0 (u32 (Z.shiftl (Z.land pte 0xFFFFFC00) 2)) (u32 (Z.shiftl n 22))
         else ret tt
       else ret tt) ;;
      ret (inl (n + 1))
    else ret (inr tt)) 0.

(* src/example/ex20-mmu.c:137-151 *)
Definition exception_handler (c : trap_csrs) (ef : Z) : M mmu_demo unit :=
  xprintf (nl ++ str "** SUPERVISOR EXCEPTION **" ++ nl) [] ;;
  xprint_s_exception c ef ;;
  s <- get ;;
  if (expect_cause s =? scause c) && (expect_addr s =? stval c) then
    pc <- load32 (ef + EF_PC) ;;
    store32 (ef + EF_PC) (u32 (pc + 4)) ;;
    xprintf nl []
  else
    xprintf (nl ++ str "HALT" ++ nl) [] ;;
    spin.

Section demo.
Context (k : cpu_kind) (regs_at : Z -> list Z) (status sp junk trap_entry_at : Z).

(** A page fault in supervisor mode: the frame is saved below [sp], and the
    program goes on behind the instruction that faulted when the handler has
    moved [pc] there. *)
Definition page_fault (cause addr : Z) : M mmu_demo unit :=
  let ef := sp - 32 * 4 in
  store_words ef (regs_at addr) ;;
  exception_handler {| sstatus := status; scause := cause; stval := addr |} ef ;;
  pc <- load32 (ef + EF_PC) ;;
  if pc =? u32 (nth 16 (regs_at addr) 0 + 4) then ret tt else fault.

(** The physical address of [va] for an access [x], or a page fault. *)
Definition mmu (x : access) (va : Z) : M mmu_demo (option Z) :=
  s <- get ;;
  if satp s =? 0 then ret (Some va)
  else
    match translate k x (d_mem s) (Z.shiftl (Z.land (satp s) 0x3FFFFF) 12) va with
    | Some (a, e, pa) => store32 a e ;; ret (Some pa)
    | None => ret None
    end.

(* src/example/ex20-mmu.c:17-19 *)
Definition wr32 (addr val : Z) : M mmu_demo unit :=
  pa <- mmu Write addr ;;
  match pa with
  | Some pa => store32 pa val
  | None => page_fault EXCn_STORE_PAGE_FAULT addr
  end.

(** A load that faulted and is stepped over leaves its register as it was. *)
(* src/example/ex20-mmu.c:20-24 *)
Definition rd32 (addr : Z) : M mmu_demo Z :=
  pa <- mmu Read addr ;;
  match pa with
  | Some pa => load32 pa
  | None => page_fault EXCn_LOAD_PAGE_FAULT addr ;; ret junk
  end.

(** [fn()] with [fn] the address [addr]. *)
(* src/example/ex20-mmu.c:131-131 start *)
Definition call_at (addr : Z) : M mmu_demo unit :=
  pa <- mmu Execute addr ;;
  match pa with
  | Some _ => fault
  | None => page_fault EXCn_INSTR_PAGE_FAULT addr
  end.

(** The page table of [start]. *)
(* src/example/ex20-mmu.c:82-95 start *)
Definition build_table : M mmu_demo Z :=
  pt1 <- alloc_page ;;
  memset pt1 0 4096 ;;
  loop (fun phys =>
    if phys <? 0x42000000 then
      store32 (pt1 + 4 * Z.shiftr phys 22)
        (Z.lor (Z.lor (Z.lor (Z.lor (Z.lor (Z.lor (Z.shiftr phys 2) PTE_D) PTE_A) PTE_X) PTE_W) PTE_R) PTE_V) ;;
      ret (inl (u32 (phys + 0x00400000)))
    else ret (inr tt)) 0x40000000 ;;
  pte <- load32 (pt1 + 4 * Z.shiftr 0x41800000 22) ;;
  store32 (pt1 + 4 * Z.shiftr 0x41800000 22) (Z.land pte (u32 (Z.lnot (Z.lor PTE_A PTE_D)))) ;;
  store32 (pt1 + 4 * Z.shiftr 0xF0000000 22)
    (Z.lor (Z.lor (Z.lor (Z.lor (Z.lor (Z.shiftr 0xF0000000 2) PTE_D) PTE_A) PTE_W) PTE_R) PTE_V) ;;
  ret pt1.

(** [xprintf("PTE for vaddr 41800000 is %08x\n", rd32((uintptr_t) &pt1[0x41800000 >> 22]))] *)
(* src/example/ex20-mmu.c:111-111 start *)
Definition show_pte (pt1 : Z) : M mmu_demo unit :=
  v <- rd32 (pt1 + 4 * Z.shiftr 0x41800000 22) ;;
  xprintf (str "PTE for vaddr 41800000 is %08x" ++ nl) [VaWord v].

(* src/example/ex20-mmu.c:75-132 *)
Definition start : M mmu_demo unit :=
  xprintf (str "Example 20 - MMU" ++ nl ++ nl) [] ;;
  csr_write CSR_STVEC trap_entry_at ;;
  pt1 <- build_table ;;
  dump_mmu pt1 ;;
  csr_write CSR_SATP (Z.lor SATP_MODE_SV32 (Z.shiftr pt1 12)) ;;
  modify (did TlbFlush) ;;
  xprintf (nl ++ str "[ mmu enabled ]" ++ nl ++ nl) [] ;;
  show_pte pt1 ;;
  xprintf (str "[ read from 0x41800000 ]" ++ nl) [] ;;
  rd32 0x41800000 ;;
  show_pte pt1 ;;
  xprintf (str "[ write to 0x41800000 ]" ++ nl) [] ;;
  wr32 0x41800000 17 ;;
  show_pte pt1 ;;
  modify (with_expect EXCn_STORE_PAGE_FAULT 0) ;;
  wr32 0 42 ;;
  modify (with_expect EXCn_LOAD_PAGE_FAULT 0x100000) ;;
  rd32 0x100000 ;;
  call_at 0x777000.

(* src/example/ex20-mmu.c:134-135 *)
Definition interrupt_handler : M mmu_demo unit := ret tt.
End demo.

(** ** The page table dump *)

Definition flag_char (pte n : Z) : Z :=
  if Z.testbit pte n then nth (Z.to_nat n) (str "vrwxugad01") 0 else 45.

(** Bit 9 first, a dash for a clear bit. *)
Definition flags_text (pte : Z) : list Z := map (flag_char pte) [9; 8; 7; 6; 5; 4; 3; 2; 1; 0].

(** A line of the dump; the physical address, of 34 bits, has nine digits. *)
Definition pte_line (addr vaddr pte sz : Z) : list Z :=
  hex_line [[]; [32]; [32]; str "0 "] [addr; vaddr; Z.shiftr (Z.land pte 0xFFFFFC00) 2; sz] ++
  [32] ++ flags_text pte ++ nl.

Lemma flag_char_eq pte n : 0 <= n ->
  (if negb (Z.land pte (Z.shiftl 1 n) =? 0) then nth (Z.to_nat n) (str "vrwxugad01") 0 else 45) = flag_char pte n.
Proof.
  intros Hn. unfold flag_char. rewrite Z.shiftl_1_l.
  destruct (Z.testbit pte n) eqn:E; destruct (Z.eqb_spec (Z.land pte (2 ^ n)) 0) as [E'|E']; try done; exfalso.
  - apply (f_equal (fun z => Z.testbit z n)) in E'. rewrite Z.land_spec, E, Z.pow2_bits_true, Z.bits_0 in E' by done. done.
  - apply E', Z.bits_inj'. intros i Hi. rewrite Z.land_spec, Z.bits_0, Z.pow2_bits_eqb by done.
    destruct (Z.eqb_spec n i) as [<-|]; [by rewrite E|by rewrite andb_false_r].
Qed.

Lemma pte_bits_ok pte s : pte_bits pte s = Ok (flags_text pte ++ [0]) s.
Proof.
  unfold pte_bits. name_body b. apply (loop_runs b 10); [|lia].
  assert (forall n bits, 0 <= n < 10 -> b (n, bits) s =
    Ok (inl (n + 1, <[Z.to_nat (9 - n) := flag_char pte n]> bits)) s) as Hb.
  { intros n bits Hn. unfold b. rewrite (proj2 (Z.ltb_lt n 10)) by lia. by rewrite flag_char_eq by lia. }
  do 10 (eapply runs_step; [apply Hb; lia|]). by apply runs_done.
Qed.

Lemma flags_plain pte : plain (flags_text pte).
Proof.
  unfold flags_text. assert (forall n, 0 <= n < 10 -> 0 < flag_char pte n < 256 /\ flag_char pte n <> 37) as H.
  { intros n Hn. unfold flag_char. destruct (Z.testbit pte n); [|lia].
    assert (Forall (fun c => 0 < c < 256 /\ c <> 37) (str "vrwxugad01")) as F by by_decide.
    rewrite Forall_lookup in F. destruct (lookup_lt_is_Some_2 (str "vrwxugad01") (Z.to_nat n)) as [x Hx]; [change (length (str "vrwxugad01")) with 10%nat; lia|].
    rewrite (nth_lookup_Some _ _ _ _ Hx). exact (F _ _ Hx). }
  cbn [map]. repeat (constructor; [apply H; lia|]). constructor.
Qed.

Lemma dump_pte_ok addr vaddr pte sz s :
  dump_pte addr vaddr pte sz s = Ok tt (emit (wire (pte_line addr vaddr pte sz)) s).
Proof.
  unfold dump_pte. step (pte_bits_ok pte s). pose proof (flags_plain pte) as Hp.
  set (d := {| d_left := false; d_plus := false; d_space := false; d_alt := false;
    d_zero := false; d_width := 0; d_conv := CString |}).
  change (str "%08x %08x %08x0 %08x %s" ++ nl)
    with (unparse (map (fun l => (l, hexw 8)) [[]; [32]; [32]; str "0 "] ++ [([32], d)]) nl).
  apply (xprintf_hexes_then _ _ _ [addr; vaddr; Z.shiftr (Z.land pte 0xFFFFFC00) 2; sz] [_] ([32] ++ flags_text pte ++ nl));
    [by_decide|by_decide|done| | |vm_compute; lia|cbn; lia].
  - subst d. cbn [render render_directive d_conv from_option option_map]. unfold justify. cbn [d_left d_zero d_width].
    assert (until_nul (flags_text pte ++ [0]) = flags_text pte) as ->.
    { clear - Hp. induction Hp as [|c l Hc _ IH]; [done|]. cbn [app until_nul].
      by rewrite (proj2 (Z.eqb_neq c 0)), IH by lia. }
    rewrite spaces_none by (unfold flags_text; cbn [map length]; lia). done.
  - repeat (apply Forall_app; split); [by_decide| |by_decide]. eapply Forall_impl; [|exact Hp]. cbn. lia.
Qed.

(** What the dump says of entry [n] of the directory at [ptbl]: nothing when it
    is not valid, a line, and after it the 1024 entries of the table it points
    to, valid or not. *)
Definition table_lines (m : mem) (ptbl vaddr : Z) : list Z :=
  concat (map (fun n => pte_line (ptbl + n * 4) (Z.lor vaddr (n * 0x1000)) (word m (ptbl + 4 * n)) (4 * 1024)) (seqZ 0 1024)).

Definition dir_lines (m : mem) (ptbl n : Z) : list Z :=
  let pte := word m (ptbl + 4 * n) in
  if has PTE_V pte then
    pte_line (ptbl + n * 4) (n * 0x400000) pte (4 * 1024 * 1024) ++
    if has (Z.lor PTE_X (Z.lor PTE_W PTE_R)) pte then [] else table_lines m (PTE_PA pte) (n * 0x400000)
  else [].

Definition dump_text (m : mem) (ptbl : Z) : list Z :=
  str "pte addr vaddr    paddr     size     flags" ++ nl ++
  str "-------- -------- --------- -------- ----------" ++ nl ++
  concat (map (dir_lines m ptbl) (seqZ 0 1024)).

(** Directory and tables are pages of memory. *)
Definition page (m : mem) (a : Z) : Prop := mapped m a 4096 /\ a mod 4096 = 0 /\ 0 <= a < 2 ^ 32.

Definition tables_ok (m : mem) (ptbl : Z) : Prop :=
  page m ptbl /\
  forall n, 0 <= n < 1024 -> let pte := word m (ptbl + 4 * n) in
    has PTE_V pte = true -> has (Z.lor PTE_X (Z.lor PTE_W PTE_R)) pte = false -> page m (PTE_PA pte).

Lemma page_load m a n (s : mmu_demo) : page m a -> d_mem s = m -> 0 <= n < 1024 ->
  u32 (a + n * 4) = a + n * 4 /\ read32_safe (a + n * 4) s = Ok (word m (a + 4 * n)) s.
Proof.
  intros (Hm & Ha & Hr) <- Hn. split; [apply u32_small; unfold is_u32; zarith|].
  rewrite (Z.mul_comm 4 n). assert (mapped (mem_of s) (a + n * 4) 4) as Hm' by (eapply mapped_sub; [exact Hm|lia..]).
  exact (load32_ok (a + n * 4) s Hm' ltac:(zarith)).
Qed.

Lemma dump_mmu0_ok ptbl vaddr s : page (d_mem s) ptbl ->
  dump_mmu0 ptbl vaddr s = Ok tt (emit (wire (table_lines (d_mem s) ptbl vaddr)) s).
Proof.
  intros Hp. unfold dump_mmu0, table_lines. name_body b.
  apply (loop_emits (fun t => d_mem t = d_mem s) b
    (fun n => pte_line (ptbl + n * 4) (Z.lor vaddr (n * 0x1000)) (word (d_mem s) (ptbl + 4 * n)) (4 * 1024)));
    [lia| | |done].
  - intros n t Hn Ht. split; [|done]. destruct (page_load _ _ n t Hp Ht Hn) as [E1 E2].
    unfold b. rewrite (proj2 (Z.ltb_lt n 1024)) by lia. cbv zeta. rewrite E1. step E2.
    rewrite Z.shiftl_mul_pow2 by lia. rewrite (u32_small (n * 2 ^ 12)) by (unfold is_u32; lia). change (2 ^ 12) with 0x1000.
    by erewrite bind_ok by apply dump_pte_ok.
  - intros t Ht. reflexivity.
Qed.

Lemma dump_mmu_ok ptbl s : tables_ok (d_mem s) ptbl ->
  dump_mmu ptbl s = Ok tt (emit (wire (dump_text (d_mem s) ptbl)) s).
Proof.
  intros [Hp Ht]. unfold dump_mmu, dump_text.
  assert (forall l t, plain (str l ++ nl) -> (length (str l ++ nl) <= 127)%nat ->
    xprintf (str l ++ nl) [] t = Ok tt (emit (wire (str l ++ nl)) (t : mmu_demo))) as Hline
    by (intros l t ? ?; by apply xprintf_plain).
  set (l1 := "pte addr vaddr    paddr     size     flags"%string).
  set (l2 := "-------- -------- --------- -------- ----------"%string).
  rewrite (app_assoc (str l1)), (app_assoc (str l2)), emit_wire_app.
  step (Hline l1 s ltac:(by_decide) ltac:(vm_compute; lia)). set (s1 := emit (wire (str l1 ++ nl)) s).
  rewrite emit_wire_app. step (Hline l2 s1 ltac:(by_decide) ltac:(vm_compute; lia)).
  set (s2 := emit (wire (str l2 ++ nl)) s1). name_body b.
  apply (loop_emits (fun t => d_mem t = d_mem s) b (dir_lines (d_mem s) ptbl)); [lia| | |done].
  - intros n t Hn Hm. split; [|done]. destruct (page_load _ _ n t Hp Hm Hn) as [E1 E2].
    unfold b, dir_lines. rewrite (proj2 (Z.ltb_lt n 1024)) by lia. cbv zeta. rewrite E1. step E2.
    specialize (Ht n Hn). cbv zeta in Ht. revert Ht. generalize (word (d_mem s) (ptbl + 4 * n)). intros pte Ht.
    destruct (has PTE_V pte); [|by rewrite bind_ret, emit_nil].
    rewrite !Z.shiftl_mul_pow2 by lia. rewrite (u32_small (n * 2 ^ 22)) by (unfold is_u32; lia).
    rewrite bind_assoc. step (dump_pte_ok (ptbl + n * 4) (n * 0x400000) pte (4 * 1024 * 1024) t).
    destruct (has (Z.lor PTE_X (Z.lor PTE_W PTE_R)) pte); cbn [negb]; [by rewrite app_nil_r, bind_ret|].
    rewrite emit_wire_app. set (t1 := emit (wire (pte_line _ _ _ _)) t).
    assert (page (d_mem t1) (PTE_PA pte)) as Hp1 by (change (d_mem t1) with (d_mem t); rewrite Hm; by apply Ht).
    unfold PTE_PA in *. rewrite Z.shiftl_mul_pow2 in Hp1 |- * by lia. step (dump_mmu0_ok _ (n * 0x400000) t1 Hp1).
    change (d_mem t1) with (d_mem t). by rewrite Hm.
  - intros t Hm. reflexivity.
Qed.

(** ** The page table of the example *)

Definition pt1 := 0x403FF000.

(** The directory at [pt1] has the entries [T]. *)
Definition entries (m : mem) (T : Z -> Z) : Prop :=
  mapped m pt1 4096 /\ forall i, 0 <= i < 1024 -> word m (pt1 + 4 * i) = T i.

Definition upd (T : Z -> Z) (j v i : Z) : Z := if i =? j then v else T i.

(** Only the directory changes. *)
Definition stays (m m' : mem) : Prop :=
  same_except m m' pt1 4096 /\ forall a n, mapped m a n -> mapped m' a n.

#[export] Instance stays_preorder : PreOrder stays.
Proof.
  split; [by split|]. intros m1 m2 m3 [H1 M1] [H2 M2]. split; [|auto].
  intros b Hb. rewrite (H2 b Hb). by apply H1.
Qed.

Lemma load_entry T j m (s : mmu_demo) : d_mem s = m -> entries m T -> 0 <= j < 1024 ->
  load32 (pt1 + 4 * j) s = Ok (T j) s.
Proof.
  intros <- [Hm HT] Hj. rewrite <- HT by done. unfold pt1 in *.
  assert (mapped (mem_of s) (0x403FF000 + 4 * j) 4) as Hm' by (eapply mapped_sub; [exact Hm|lia..]).
  exact (load32_ok _ s Hm' ltac:(zarith)).
Qed.

Lemma store_entry T j v m0 (s : mmu_demo) : d_mem s = m0 -> entries m0 T -> 0 <= j < 1024 -> is_u32 v ->
  exists m, store32 (pt1 + 4 * j) v s = Ok tt (with_mem m s) /\ entries m (upd T j v) /\ stays m0 m.
Proof.
  intros <- [Hm HT] Hj Hv. exists (write_bytes (d_mem s) (pt1 + 4 * j) (le_bytes 4 v)). split; [|split; [split|split]].
  - assert (mapped (mem_of s) (pt1 + 4 * j) 4) as Hm' by (eapply mapped_sub; [exact Hm|lia..]).
    exact (store_ok 4 (pt1 + 4 * j) v s Hm' ltac:(unfold pt1; zarith)).
  - by apply mapped_write.
  - intros i Hi. rewrite word_write by (unfold pt1; zarith). unfold upd. rewrite u32_small by done.
    destruct (Z.eqb_spec i j) as [->|]; [by rewrite decide_True|]. rewrite decide_False by lia. by apply HT.
  - intros b Hb. rewrite lookup_write_bytes, length_le_bytes, decide_False by lia. done.
  - intros a n. apply mapped_write.
Qed.

(** A megapage of RAM: [D|A|X|W|R|V] at its own address. *)
Definition ram_pte (i : Z) : Z := i * 0x100000 + 0xCF.

Definition ram_map (n : Z) (i : Z) : Z := if (0x100 <=? i) && (i <? 0x100 + n) then ram_pte i else 0.

(** Everything of RAM, without [D|A] for the page at 0x41800000, and the device
    registers, which are not executable. *)
Definition demo_map (i : Z) : Z :=
  if i =? 0x3C0 then 0x3C0 * 0x100000 + 0xC7
  else if i =? 0x106 then 0x106 * 0x100000 + 0x0F
  else ram_map 8 i.

Lemma entries_ext m T T' : (forall i, 0 <= i < 1024 -> T i = T' i) -> entries m T -> entries m T'.
Proof. intros H [Hm HT]. split; [done|]. intros i Hi. rewrite HT by done. by apply H. Qed.

Lemma cleared m n : mapped m pt1 4096 -> Z.of_nat n = 4096 ->
  entries (write_bytes m pt1 (replicate n 0)) (ram_map 0) /\ stays m (write_bytes m pt1 (replicate n 0)).
Proof.
  intros Hm Hn. split; [split|split].
  - by apply mapped_write.
  - intros i Hi. unfold ram_map.
    replace ((0x100 <=? i) && (i <? 0x100 + 0)) with false by (symmetry; apply andb_false_iff; rewrite Z.leb_gt, Z.ltb_ge; lia).
    apply word_write_zeros; lia.
  - intros b Hb. by rewrite lookup_write_bytes, length_replicate, decide_False by lia.
  - intros a k. apply mapped_write.
Qed.

Lemma build_table_ok s :
  alloc_top s = 0x40400000 -> mapped (d_mem s) pt1 4096 ->
  exists m, build_table s = Ok pt1 (with_mem m (with_top pt1 s)) /\ entries m demo_map /\ stays (d_mem s) m.
Proof.
  intros Ht Hm. unfold build_table, alloc_page. rewrite bind_assoc. unfold modify at 1, bind at 1.
  rewrite Ht. change (u32 (0x40400000 - 4096)) with pt1. set (s0 := with_top pt1 s).
  unfold gets at 1, bind at 1. change (alloc_top s0) with pt1.
  assert (exists m1, memset pt1 0 4096 s0 = Ok pt1 (with_mem m1 s0) /\ entries m1 (ram_map 0) /\ stays (d_mem s) m1)
    as (m1 & E1 & He1 & Hs1).
  { assert (mem_of s0 = d_mem s) as Em by reflexivity.
    assert (mapped (mem_of s0) pt1 4096) as Hm0 by (rewrite Em; exact Hm).
    pose proof (memset_ok pt1 0 4096 s0 ltac:(lia) Hm0) as E1.
    assert (Z.of_nat (Z.to_nat 4096) = 4096) as Hn by (apply Z2Nat.id; lia).
    revert E1 Hn. generalize (Z.to_nat 4096). intros n E1 Hn. destruct (cleared (d_mem s) n Hm Hn) as [He Hs].
    eexists. split; [exact E1|]. split; [exact He|exact Hs]. }
  step E1. name_body b.
  assert (forall k j m, 0 <= j -> j + Z.of_nat k = 8 -> entries m (ram_map j) ->
    exists m', runs b k (0x40000000 + j * 0x400000) (with_mem m s0) (Ok tt (with_mem m' s0)) /\
      entries m' (ram_map 8) /\ stays m m') as Hloop.
  { induction k as [|k IH]; intros j m Hj Hk He.
    - assert (j = 8) as -> by lia. exists m. split; [by apply runs_done|done].
    - assert (0x100 + j = Z.shiftr (0x40000000 + j * 0x400000) 22) as Ej
        by (rewrite Z.shiftr_div_pow2 by lia; zarith).
      assert (Z.lor (Z.lor (Z.lor (Z.lor (Z.lor (Z.lor (Z.shiftr (0x40000000 + j * 0x400000) 2) PTE_D) PTE_A) PTE_X) PTE_W) PTE_R) PTE_V =
        ram_pte (0x100 + j)) as Ev.
      { clear - Hj Hk. assert (j = 0 \/ j = 1 \/ j = 2 \/ j = 3 \/ j = 4 \/ j = 5 \/ j = 6 \/ j = 7) as H by lia.
        destruct H as [-> | [-> | [-> | [-> | [-> | [-> | [-> | ->]]]]]]]; vm_compute; reflexivity. }
      destruct (store_entry (ram_map j) (0x100 + j) (ram_pte (0x100 + j)) m (with_mem m s0) ltac:(done) He ltac:(lia)
        ltac:(unfold ram_pte, is_u32; lia)) as (m2 & E2 & He2 & Hs2).
      destruct (IH (j + 1) m2) as (m3 & E3 & He3 & Hs3); [lia|lia| |].
      { eapply entries_ext; [|exact He2]. intros i Hi. unfold upd, ram_map.
        destruct (Z.eqb_spec i (0x100 + j)) as [Ei|Ei], (Z.leb_spec 0x100 i), (Z.ltb_spec i (0x100 + j)),
          (Z.ltb_spec i (0x100 + (j + 1))); cbn [andb]; try done; try lia. by rewrite Ei. }
      exists m3. split; [|split; [done|by etransitivity]]. eapply runs_step; [|exact E3].
      unfold b. rewrite (proj2 (Z.ltb_lt _ _)) by lia. rewrite <- Ej, Ev. step E2.
      rewrite u32_small by (unfold is_u32; lia). 
      by replace (0x40000000 + (j + 1) * 0x400000) with (0x40000000 + j * 0x400000 + 0x00400000) by lia. }
  destruct (Hloop 8%nat 0 m1 ltac:(lia) ltac:(lia) He1) as (m2 & E2 & He2 & Hs2).
  apply loop_runs in E2; [|lia]. step E2. change (Z.shiftr 0x41800000 22) with 0x106. change (Z.shiftr 0xF0000000 22) with 0x3C0.
  step (load_entry (ram_map 8) 0x106 m2 (with_mem m2 s0) ltac:(done) He2 ltac:(lia)).
  change (Z.land (ram_map 8 0x106) _) with (0x106 * 0x100000 + 0x0F).
  destruct (store_entry (ram_map 8) 0x106 (0x106 * 0x100000 + 0x0F) m2 (with_mem m2 s0) ltac:(done) He2 ltac:(lia) ltac:(by_decide))
    as (m3 & E3 & He3 & Hs3). step E3.
  change (Z.lor _ PTE_V) with (0x3C0 * 0x100000 + 0xC7).
  destruct (store_entry _ 0x3C0 (0x3C0 * 0x100000 + 0xC7) m3 (with_mem m3 s0) ltac:(done) He3 ltac:(lia) ltac:(by_decide))
    as (m4 & E4 & He4 & Hs4). step E4. exists m4. split; [done|]. split; [done|].
  by rewrite Hs1, Hs2, Hs3.
Qed.

(** The dump of the example's table. *)
Definition demo_listing : list Z := concat (map (fun n =>
  if has PTE_V (demo_map n) then pte_line (pt1 + n * 4) (n * 0x400000) (demo_map n) (4 * 1024 * 1024) else [])
  (seqZ 0 1024)).

Lemma demo_listing_text : demo_listing =
  str "403ff400 40000000 040000000 00400000 --da--xwrv" ++ nl ++
  str "403ff404 40400000 040400000 00400000 --da--xwrv" ++ nl ++
  str "403ff408 40800000 040800000 00400000 --da--xwrv" ++ nl ++
  str "403ff40c 40c00000 040c00000 00400000 --da--xwrv" ++ nl ++
  str "403ff410 41000000 041000000 00400000 --da--xwrv" ++ nl ++
  str "403ff414 41400000 041400000 00400000 --da--xwrv" ++ nl ++
  str "403ff418 41800000 041800000 00400000 ------xwrv" ++ nl ++
  str "403ff41c 41c00000 041c00000 00400000 --da--xwrv" ++ nl ++
  str "403fff00 f0000000 0f0000000 00400000 --da---wrv" ++ nl.
Proof. by vm_compute. Qed.

(** Every entry is empty or a megapage, [demo_map i] being its own. *)
Lemma demo_map_cases i : 0 <= i < 1024 ->
  demo_map i = 0 \/ has PTE_V (demo_map i) = true /\ has (Z.lor PTE_X (Z.lor PTE_W PTE_R)) (demo_map i) = true.
Proof.
  intros Hi. assert (forallb (fun i => (demo_map i =? 0) ||
    has PTE_V (demo_map i) && has (Z.lor PTE_X (Z.lor PTE_W PTE_R)) (demo_map i)) (seqZ 0 1024) = true) as F
    by (vm_compute; reflexivity).
  rewrite forallb_forall in F. specialize (F i ltac:(apply list_elem_of_In, elem_of_seqZ; lia)).
  apply orb_true_iff in F as [F|F]; [left; by apply Z.eqb_eq|right; by apply andb_true_iff].
Qed.

Lemma demo_dump m : entries m demo_map ->
  tables_ok m pt1 /\
  dump_text m pt1 = str "pte addr vaddr    paddr     size     flags" ++ nl ++
    str "-------- -------- --------- -------- ----------" ++ nl ++ demo_listing.
Proof.
  intros [Hm HT]. split; [split|].
  - split; [done|]. unfold pt1. zarith.
  - intros n Hn pte Hv Hl. unfold pte in *. rewrite HT in Hv, Hl by done.
    destruct (demo_map_cases n Hn) as [E|[_ E]]; [by rewrite E in Hv|congruence].
  - unfold dump_text, demo_listing. do 4 f_equal. f_equal. apply map_ext_in. intros n Hn.
    apply list_elem_of_In, elem_of_seqZ in Hn. unfold dir_lines. rewrite HT by lia.
    destruct (demo_map_cases n ltac:(lia)) as [->|[-> ->]]; [done|by rewrite app_nil_r].
Qed.

(** ** The faults *)

Section runs.
Context (k : cpu_kind) (regs_at : Z -> list Z) (status sp junk trap_entry_at : Z).

(** The frame below [sp] is in memory, apart from the page table and from the
    word the example reads and writes. *)
Definition stack_ok (m : mem) : Prop :=
  mapped m (sp - 128) 128 /\ sp mod 4 = 0 /\
  (sp <= pt1 \/ pt1 + 4096 <= sp - 128).

Definition regs_ok : Prop := forall a, length (regs_at a) = 32%nat /\ Forall is_u32 (regs_at a).

Context (Hregs : regs_ok).

(** Translation is on, and the entry of 0x41800000 is [v]. *)
Record world (v : Z) (s : mmu_demo) : Prop := {
  w_satp : satp s = Z.lor SATP_MODE_SV32 (Z.shiftr pt1 12);
  w_table : entries (d_mem s) (upd demo_map 0x106 v);
  w_stack : stack_ok (d_mem s);
  w_word : mapped (d_mem s) 0x41800000 4;
}.

Definition out (s : mmu_demo) : list Z := u_out (d_uart s).

(** What a fault prints. *)
Definition fault_text (cause addr : Z) : list Z :=
  nl ++ str "** SUPERVISOR EXCEPTION **" ++ nl ++
  report_head (cause_said cause) (spp_said status) ++ report (regs_at addr) status cause addr.

Definition halt_text : list Z := nl ++ str "HALT" ++ nl.

Lemma entries_outside m m' T : entries m T -> same_except m m' (sp - 128) 128 ->
  (forall a n, mapped m a n -> mapped m' a n) -> stack_ok m -> entries m' T.
Proof.
  intros [Hm HT] Hs Hmm (_ & _ & Hd). split; [by apply Hmm|]. intros i Hi. rewrite <- HT by done.
  apply word_agree. intros b Hb. apply Hs. lia.
Qed.

Lemma world_outside v s m' : world v s -> same_except (d_mem s) m' (sp - 128) 128 ->
  (forall a n, mapped (d_mem s) a n -> mapped m' a n) -> world v (with_mem m' s).
Proof.
  intros [H1 H2 H3 H4] Hs Hmm. split; [done| | |by apply Hmm].
  - by apply (entries_outside (d_mem s)).
  - destruct H3 as (H31 & H32 & H33). split; [by apply Hmm|done].
Qed.

(** A fault: stepped over when it is the one expected, the end otherwise. *)
Lemma page_fault_ok cause addr v s : world v s ->
  if (expect_cause s =? cause) && (expect_addr s =? addr) then
    exists s', page_fault regs_at status sp cause addr s = Ok tt s' /\ world v s' /\
      out s' = out s ++ wire (fault_text cause addr ++ nl) /\
      expect_cause s' = expect_cause s /\ expect_addr s' = expect_addr s
  else
    exists s', page_fault regs_at status sp cause addr s = Halt s' /\
      out s' = out s ++ wire (fault_text cause addr ++ halt_text).
Proof.
  intros W. destruct (Hregs addr) as [Hl Hr]. destruct (w_stack v s W) as (Hm & Hsp & Hd).
  set (ws := regs_at addr) in *. assert ((sp - 128) mod 4 = 0) as Ha by zarith.
  assert (mapped (mem_of s) (sp - 128) (4 * Z.of_nat (length ws))) as Hm' by (rewrite Hl; exact Hm).
  destruct (store_words_at s (sp - 128) ws Hr Ha Hm') as (m1 & E1 & W1 & S1 & M1). rewrite Hl in S1.
  unfold page_fault. change (sp - 32 * 4) with (sp - 128). fold ws.
  set (s1 := with_mem m1 s) in E1. unfold exception_handler.
  set (c := {| sstatus := status; scause := cause; stval := addr |}).
  assert (forall l t, plain l -> (length l <= 127)%nat -> xprintf l [] t = Ok tt (emit (wire l) (t : mmu_demo))) as Hp
    by (intros; by apply xprintf_plain).
  set (l1 := nl ++ str "** SUPERVISOR EXCEPTION **" ++ nl).
  set (s2 := emit (wire l1) s1). set (rep := report_head (cause_said cause) (spp_said status) ++ report ws status cause addr).
  assert (xprint_s_exception c (sp - 128) s2 = Ok tt (emit (wire rep) s2)) as E2
    by (exact (s_exception_ok (sp - 128) ws Ha Hl c s2 W1)).
  set (s3 := emit (wire rep) s2) in E2.
  assert (forall t, emit (wire t) s3 = emit (wire (fault_text cause addr ++ t)) s1) as Hout.
  { intros t. unfold s3, s2. rewrite <- !emit_wire_app. unfold l1, rep, fault_text. fold ws. by rewrite <- !app_assoc. }
  assert (forall t, out (emit (wire t) s3) = out s ++ wire (fault_text cause addr ++ t)) as Hout'
    by (intros t; by rewrite Hout).
  change (expect_cause s) with (expect_cause s3). change (expect_addr s) with (expect_addr s3).
  destruct ((expect_cause s3 =? cause) && (expect_addr s3 =? addr)) eqn:Ex.
  - assert (words_at (mem_of s3) (sp - 128) ws) as W3 by exact W1.
    pose proof (load_word_at s3 (sp - 128) ws 16 W3 ltac:(lia) Ha) as E3.
    destruct (store_word_at s3 (sp - 128) ws 16 (u32 (nth 16 ws 0 + 4)) W3 Ha (u32_range _) ltac:(lia))
      as (m4 & E4 & W4 & S4 & M4).
    rewrite Hl in S4. change (mem_of s3) with m1 in S4, M4. set (s4 := with_mem m4 s3) in E4.
    set (s5 := emit (wire nl) s4). assert (words_at (mem_of s5) (sp - 128) (<[16%nat := u32 (nth 16 ws 0 + 4)]> ws)) as W5 by exact W4.
    pose proof (load_word_at s5 (sp - 128) _ 16 W5 ltac:(rewrite length_insert; lia) Ha) as E6.
    rewrite nth_lookup, list_lookup_insert_eq in E6 by lia.
    exists s5. split; [|split].
    + step E1. rewrite !bind_assoc. step (Hp l1 s1 ltac:(by_decide) ltac:(vm_compute; lia)). rewrite bind_assoc. step E2.
      rewrite bind_assoc. unfold get, bind at 1. cbn [scause stval c]. rewrite Ex. rewrite bind_assoc. change (sp - 128 + EF_PC) with (sp - 128 + 4 * Z.of_nat 16).
      step E3. rewrite bind_assoc. step E4. step (Hp nl s4 ltac:(by_decide) ltac:(vm_compute; lia)). step E6.
      cbn [default]. by rewrite Z.eqb_refl.
    + change s5 with (with_mem m4 (emit (wire nl) s3)). assert (world v (emit (wire nl) s3)) as W6.
      { change (world v (with_mem m1 (emit (wire nl) (emit (wire rep) (emit (wire l1) s))))).
        apply world_outside; [by destruct W|exact S1|exact M1]. }
      apply world_outside; [exact W6|exact S4|exact M4].
    + split; [apply Hout'|done].
  - exists (emit (wire halt_text) s3). split; [|apply Hout'].
    step E1. rewrite !bind_assoc. step (Hp l1 s1 ltac:(by_decide) ltac:(vm_compute; lia)). rewrite bind_assoc. step E2.
    rewrite bind_assoc. unfold get, bind at 1. cbn [scause stval c]. rewrite Ex. rewrite bind_assoc.
    by step (Hp halt_text s3 ltac:(by_decide) ltac:(vm_compute; lia)).
Qed.

(** ** Accesses through the table *)

Abbreviation table v := (upd demo_map 0x106 v).

Lemma table_root v s : world v s -> satp s <> 0 /\ Z.shiftl (Z.land (satp s) 0x3FFFFF) 12 = pt1.
Proof. intros W. by rewrite (w_satp v s W). Qed.

(** What a megapage entry [e1] does with an access. *)
Definition mega (x : access) (va e1 : Z) : option (Z * Z * Z) :=
  if negb (has PTE_V e1) then None
  else if negb (Z.land (Z.shiftr e1 10) 0x3FF =? 0) then None
  else match leaf_access k x e1 with
       | Some e => Some (pt1 + 4 * Z.shiftr va 22, e, Z.shiftl (Z.shiftr e1 20) 22 + Z.land va 0x3FFFFF)
       | None => None
       end.

Lemma translate_mega x va e1 m T : entries m T -> 0 <= Z.shiftr va 22 < 1024 -> T (Z.shiftr va 22) = e1 ->
  has PTE_V e1 = false \/ leaf e1 = true -> translate k x m pt1 va = mega x va e1.
Proof.
  intros [_ HT] Hi He Hl. unfold translate, mega. rewrite HT, He by done.
  destruct (has PTE_V e1); [|done]. cbn [negb]. destruct Hl as [?| ->]; done.
Qed.

(** An access that hits leaves [e] in entry [j], after which 0x41800000 has [v']. *)
Lemma mmu_hit x va e1 j e v v' s :
  world v s -> 0 <= Z.shiftr va 22 < 1024 -> table v (Z.shiftr va 22) = e1 -> leaf e1 = true ->
  mega x va e1 = Some (pt1 + 4 * j, e, va) -> 0 <= j < 1024 -> is_u32 e ->
  (forall i, upd (table v) j e i = table v' i) ->
  exists m, mmu k x va s = Ok (Some va) (with_mem m s) /\ world v' (with_mem m s).
Proof.
  intros W Hi He Hl Hg Hj Hu Hv. destruct (table_root v s W) as [H0 Hroot].
  destruct (store_entry (table v) j e (d_mem s) s eq_refl (w_table v s W) Hj Hu) as (m & E & He' & [Hs Hm]).
  exists m. split.
  - unfold mmu, get, bind at 1. rewrite (proj2 (Z.eqb_neq _ _) H0), Hroot.
    rewrite (translate_mega x va e1 _ _ (w_table v s W) Hi He (or_intror Hl)), Hg. by step E.
  - destruct W as [W1 W2 (W31 & W32 & W33) W4]. split; [done| |split; [by apply Hm|done]|by apply Hm].
    by apply (entries_ext _ (upd (table v) j e)).
Qed.

Lemma mmu_miss x va e1 v s :
  world v s -> 0 <= Z.shiftr va 22 < 1024 -> table v (Z.shiftr va 22) = e1 -> has PTE_V e1 = false \/ leaf e1 = true ->
  mega x va e1 = None -> mmu k x va s = Ok None s.
Proof.
  intros W Hi He Hl Hg. destruct (table_root v s W) as [H0 Hroot]. unfold mmu, get, bind at 1.
  by rewrite (proj2 (Z.eqb_neq _ _) H0), Hroot, (translate_mega x va e1 _ _ (w_table v s W) Hi He Hl), Hg.
Qed.

Definition pte_text (v : Z) : list Z := hex_line [str "PTE for vaddr 41800000 is "] [v] ++ nl.

Lemma world_emit l v s : world v s -> world v (emit l s).
Proof. by intros [W1 W2 W3 W4]. Qed.

Lemma show_pte_ok v s : world v s ->
  exists m, show_pte k regs_at status sp junk pt1 s = Ok tt (emit (wire (pte_text v)) (with_mem m s)) /\
    world v (with_mem m s).
Proof.
  intros W. change (Z.shiftr 0x41800000 22) with 0x106.
  destruct (mmu_hit Read (pt1 + 4 * 0x106) (ram_pte 0x100) 0x100 (ram_pte 0x100) v v s W) as (m & E & W');
    [vm_compute; split; congruence|reflexivity|reflexivity|by destruct k|lia|by_decide| |].
  { intros i. unfold upd. destruct (Z.eqb_spec i 0x100) as [->|]; done. }
  exists m. split; [|done]. unfold show_pte, rd32. rewrite bind_assoc. change (Z.shiftr 0x41800000 22) with 0x106. step E.
  step (load_entry (table v) 0x106 m (with_mem m s) ltac:(done) (w_table v _ W') ltac:(lia)).
  change (table v 0x106) with v.
  apply (xprintf_hexes [str "PTE for vaddr 41800000 is "] nl [v]); [by_decide|by_decide|done|vm_compute; lia].
Qed.

(** ** The whole run *)

Definition banner : list Z := str "Example 20 - MMU" ++ nl ++ nl.
Definition enabled_text : list Z := nl ++ str "[ mmu enabled ]" ++ nl ++ nl.
Definition dump_head : list Z :=
  str "pte addr vaddr    paddr     size     flags" ++ nl ++
  str "-------- -------- --------- -------- ----------" ++ nl.

(** What the entry of 0x41800000 is after the read and after the write, on a
    processor that does not fault. *)
Definition pte_clear := 0x1060000F.
Definition after_read := match k with Sets => 0x1060004F | _ => pte_clear end.
Definition after_write := match k with Sets => 0x106000CF | _ => pte_clear end.

(** The end of the run: three faults, of which the handler steps over two. *)
Definition faults_text : list Z :=
  fault_text EXCn_STORE_PAGE_FAULT 0 ++ nl ++ fault_text EXCn_LOAD_PAGE_FAULT 0x100000 ++ nl ++
  fault_text EXCn_INSTR_PAGE_FAULT 0x777000 ++ halt_text.

Definition run_text : list Z :=
  banner ++ dump_head ++ demo_listing ++ enabled_text ++ pte_text pte_clear ++
  str "[ read from 0x41800000 ]" ++ nl ++
  match k with
  | Faults => fault_text EXCn_LOAD_PAGE_FAULT 0x41800000 ++ halt_text
  | _ =>
    pte_text after_read ++ str "[ write to 0x41800000 ]" ++ nl ++ pte_text after_write ++ faults_text
  end.

Lemma line_ok l (s : mmu_demo) : plain l -> (length l <= 127)%nat -> xprintf l [] s = Ok tt (emit (wire l) s).
Proof. intros. by apply xprintf_plain. Qed.

Lemma out_emit l s : out (emit (wire l) s) = out s ++ wire l.
Proof. done. Qed.

Lemma world_expect v s cause addr : world v s -> world v (with_expect cause addr s).
Proof. by intros [W1 W2 W3 W4]. Qed.

(** An access to an address nothing maps, which the handler expects. *)
Lemma miss_expected x va cause v s : world v s -> 0 <= Z.shiftr va 22 < 0x100 ->
  mmu k x va (with_expect cause va s) = Ok None (with_expect cause va s) /\
  exists s', page_fault regs_at status sp cause va (with_expect cause va s) = Ok tt s' /\ world v s' /\
    out s' = out s ++ wire (fault_text cause va ++ nl) /\ expect_cause s' = cause /\ expect_addr s' = va.
Proof.
  intros W Hi. pose proof (world_expect v s cause va W) as W'.
  assert (table v (Z.shiftr va 22) = 0) as H0.
  { unfold upd, demo_map, ram_map. rewrite !(proj2 (Z.eqb_neq _ _)) by lia. by rewrite (proj2 (Z.leb_gt _ _)) by lia. }
  split; [by apply (mmu_miss x va 0 v); [|lia| |left|]|].
  pose proof (page_fault_ok cause va v _ W') as H. cbn [expect_cause expect_addr with_expect] in H.
  by rewrite !Z.eqb_refl in H.
Qed.

(** From the write on: the three faults. *)
Lemma faults_run v s : world v s ->
  exists s', (modify (with_expect EXCn_STORE_PAGE_FAULT 0) ;;
    wr32 k regs_at status sp 0 42 ;;
    modify (with_expect EXCn_LOAD_PAGE_FAULT 0x100000) ;;
    rd32 k regs_at status sp junk 0x100000 ;;
    call_at k regs_at status sp 0x777000) s = Halt s' /\ out s' = out s ++ wire faults_text.
Proof.
  intros W. destruct (miss_expected Write 0 EXCn_STORE_PAGE_FAULT v s W ltac:(by_decide)) as (E1 & s1 & E2 & W1 & O1 & _).
  destruct (miss_expected Read 0x100000 EXCn_LOAD_PAGE_FAULT v s1 W1 ltac:(by_decide)) as (E3 & s2 & E4 & W2 & O2 & Hx1 & Hx2).
  assert (mmu k Execute 0x777000 s2 = Ok None s2) as E5.
  { apply (mmu_miss Execute 0x777000 0 v); [done|by_decide|reflexivity|by left|reflexivity]. }
  pose proof (page_fault_ok EXCn_INSTR_PAGE_FAULT 0x777000 v s2 W2) as H.
  rewrite Hx1, Hx2 in H. cbn [Z.eqb Pos.eqb andb] in H. destruct H as (s3 & E6 & O3).
  exists s3. split.
  - unfold modify at 1, bind at 1. unfold wr32. rewrite bind_assoc. step E1. step E2.
    unfold modify at 1, bind at 1. unfold rd32. rewrite bind_assoc. step E3. rewrite bind_assoc. step E4. rewrite bind_ret.
    unfold call_at. by step E5.
  - rewrite O3, O2, O1. unfold faults_text. rewrite !wire_app, <- !app_assoc. done.
Qed.

(** The store that succeeds. *)
Lemma write_word v x s : world v s ->
  exists m, store32 0x41800000 x s = Ok tt (with_mem m s) /\ world v (with_mem m s).
Proof.
  intros [W1 [Hm HT] (W31 & W32 & W33) W4].
  assert (mapped (mem_of s) 0x41800000 (Z.of_nat 4)) as Hw by exact W4.
  pose proof (store_ok 4 0x41800000 x s Hw eq_refl) as E. unfold poke in E. change (mem_of s) with (d_mem s) in E.
  assert (forall a n, mapped (d_mem s) a n -> mapped (write_bytes (d_mem s) 0x41800000 (le_bytes 4 x)) a n) as Hmm
    by (intros a n; apply mapped_write).
  assert (forall i, 0 <= i < 1024 -> word (write_bytes (d_mem s) 0x41800000 (le_bytes 4 x)) (pt1 + 4 * i) = table v i) as Hword.
  { intros i Hi. rewrite word_write by (unfold pt1; zarith). rewrite decide_False by (unfold pt1; lia). by apply HT. }
  revert E Hmm Hword. generalize (write_bytes (d_mem s) 0x41800000 (le_bytes 4 x)). intros m E Hmm Hword.
  exists m. split; [exact E|]. split; [exact W1|split; [exact (Hmm _ _ Hm)|exact Hword]| |exact (Hmm _ _ W4)].
  split; [exact (Hmm _ _ W31)|split; [exact W32|exact W33]].
Qed.

(** After the page table is shown: the read, the write and the faults. *)
Lemma accesses_run s : world pte_clear s -> expect_cause s = 0 ->
  exists s', (show_pte k regs_at status sp junk pt1 ;;
    xprintf (str "[ read from 0x41800000 ]" ++ nl) [] ;;
    rd32 k regs_at status sp junk 0x41800000 ;;
    show_pte k regs_at status sp junk pt1 ;;
    xprintf (str "[ write to 0x41800000 ]" ++ nl) [] ;;
    wr32 k regs_at status sp 0x41800000 17 ;;
    show_pte k regs_at status sp junk pt1 ;;
    modify (with_expect EXCn_STORE_PAGE_FAULT 0) ;;
    wr32 k regs_at status sp 0 42 ;;
    modify (with_expect EXCn_LOAD_PAGE_FAULT 0x100000) ;;
    rd32 k regs_at status sp junk 0x100000 ;;
    call_at k regs_at status sp 0x777000) s = Halt s' /\
  out s' = out s ++ wire (pte_text pte_clear ++ str "[ read from 0x41800000 ]" ++ nl ++
    match k with
    | Faults => fault_text EXCn_LOAD_PAGE_FAULT 0x41800000 ++ halt_text
    | _ => pte_text after_read ++ str "[ write to 0x41800000 ]" ++ nl ++ pte_text after_write ++ faults_text
    end).
Proof.
  intros W Hx. destruct (show_pte_ok pte_clear s W) as (m1 & E1 & W1). step E1.
  set (s1 := emit (wire (pte_text pte_clear)) (with_mem m1 s)). set (l1 := str "[ read from 0x41800000 ]" ++ nl).
  step (line_ok l1 s1 ltac:(by_decide) ltac:(vm_compute; lia)). set (s2 := emit (wire l1) s1).
  assert (world pte_clear s2) as W2 by (do 2 apply world_emit; exact W1).
  assert (out s2 = out s ++ wire (pte_text pte_clear) ++ wire l1) as O2
    by (unfold s2, s1; by rewrite !out_emit, <- app_assoc).
  assert (k = Faults \/ k <> Faults) as [Hk|Hk] by (destruct k; [by left|by right|by right]).
  - assert (mmu k Read 0x41800000 s2 = Ok None s2) as E2.
    { apply (mmu_miss Read 0x41800000 pte_clear pte_clear);
        [exact W2|by_decide|reflexivity|by right|unfold mega; by rewrite Hk]. }
    pose proof (page_fault_ok EXCn_LOAD_PAGE_FAULT 0x41800000 pte_clear s2 W2) as H.
    change (expect_cause s2) with (expect_cause s) in H. rewrite Hx in H. cbn [Z.eqb EXCn_LOAD_PAGE_FAULT andb] in H.
    destruct H as (s3 & E3 & O3). exists s3. split.
    + unfold rd32 at 1. rewrite bind_assoc. step E2. by apply bind_halt, bind_halt.
    + rewrite O3, O2. unfold l1. rewrite Hk, !wire_app, <- !app_assoc. done.
  - destruct (mmu_hit Read 0x41800000 pte_clear 0x106 after_read pte_clear after_read s2 W2) as (m3 & E3 & W3);
      [by_decide|reflexivity|reflexivity|unfold mega, after_read; by destruct k|lia|unfold after_read; destruct k; by_decide| |].
    { intros i. unfold upd. by destruct (i =? 0x106). }
    set (s3 := with_mem m3 s2) in *. destruct (show_pte_ok after_read s3 W3) as (m4 & E4 & W4).
    set (s4 := emit (wire (pte_text after_read)) (with_mem m4 s3)). set (l2 := str "[ write to 0x41800000 ]" ++ nl).
    set (s5 := emit (wire l2) s4).
    assert (world after_read s5) as W5 by (do 2 apply world_emit; exact W4).
    destruct (mmu_hit Write 0x41800000 after_read 0x106 after_write after_read after_write s5 W5) as (m6 & E6 & W6);
      [by_decide|reflexivity|unfold after_read; by destruct k|unfold mega, after_read, after_write; by destruct k|lia|
       unfold after_write; destruct k; by_decide| |].
    { intros i. unfold upd. by destruct (i =? 0x106). }
    set (s6 := with_mem m6 s5) in *. destruct (write_word after_write 17 s6 W6) as (m7 & E7 & W7).
    destruct (show_pte_ok after_write (with_mem m7 s6) W7) as (m8 & E8 & W8).
    set (s8 := emit (wire (pte_text after_write)) (with_mem m8 (with_mem m7 s6))).
    destruct (faults_run after_write s8 ltac:(apply world_emit; exact W8)) as (s9 & E9 & O9).
    exists s9. split.
    + unfold rd32 at 1. rewrite bind_assoc. step E3. pose proof (w_word _ _ W3) as Hw.
      step (load32_ok 0x41800000 s3 Hw eq_refl). step E4.
      step (line_ok l2 s4 ltac:(by_decide) ltac:(vm_compute; lia)). fold s5. unfold wr32 at 1. rewrite bind_assoc.
      step E6. step E7. step E8. exact E9.
    + rewrite O9. unfold s8. rewrite out_emit.
      change (out (with_mem m8 (with_mem m7 s6))) with ((out s2 ++ wire (pte_text after_read)) ++ wire l2).
      rewrite O2. unfold l1, l2.
      assert (forall A (x y : A), match k with Faults => x | _ => y end = y) as Hy by (intros; by destruct k).
      rewrite Hy, !wire_app, <- !app_assoc. done.
Qed.

Lemma start_run s :
  alloc_top s = 0x40400000 -> satp s = 0 -> expect_cause s = 0 ->
  mapped (d_mem s) pt1 4096 -> stack_ok (d_mem s) -> mapped (d_mem s) 0x41800000 4 ->
  exists s', start k regs_at status sp junk trap_entry_at s = Halt s' /\ out s' = out s ++ wire run_text.
Proof.
  intros Ht Hsatp Hx Hm (Hs1 & Hs2 & Hs3) Hw. unfold start.
  step (line_ok banner s ltac:(by_decide) ltac:(vm_compute; lia)). unfold csr_write, modify at 1, bind at 1.
  set (s1 := did _ (emit _ s)).
  assert (d_mem s1 = d_mem s /\ out s1 = out s ++ wire banner /\ expect_cause s1 = 0 /\ alloc_top s1 = 0x40400000)
    as (M1 & O1 & X1 & T1) by (split; [done|split; [done|split; [exact Hx|exact Ht]]]).
  clearbody s1. rewrite <- M1 in *. destruct (build_table_ok s1 T1 Hm) as (m2 & E2 & He & Hst & Hmm). step E2.
  set (s2 := with_mem m2 (with_top pt1 s1)). destruct (demo_dump m2 He) as [Htab Hdump].
  assert (tables_ok (d_mem s2) pt1) as Htab2 by exact Htab. step (dump_mmu_ok pt1 s2 Htab2).
  change (d_mem s2) with m2. rewrite Hdump. unfold modify at 1, bind at 1. unfold modify at 1, bind at 1.
  set (dump := _ ++ nl ++ _ ++ nl ++ demo_listing). set (s3 := did TlbFlush _).
  step (line_ok enabled_text s3 ltac:(by_decide) ltac:(vm_compute; lia)). set (s4 := emit (wire enabled_text) s3).
  assert (world pte_clear s4) as W4.
  { apply world_emit. split.
    - done.
    - change (d_mem s3) with m2. apply (entries_ext m2 demo_map); [|exact He]. intros i Hi. unfold upd.
      destruct (Z.eqb_spec i 0x106) as [->|]; done.
    - change (d_mem s3) with m2. split; [by apply Hmm|done].
    - change (d_mem s3) with m2. by apply Hmm. }
  destruct (accesses_run s4 W4 X1) as (s5 & E5 & O5). exists s5. split; [exact E5|].
  rewrite O5. change (out s4) with ((out s1 ++ wire dump) ++ wire enabled_text). rewrite O1. unfold run_text, dump, dump_head.
  rewrite !wire_app, <- !app_assoc. done.
Qed.
End runs.

(** ** The properties *)

(** C16: the MMU example runs to its end as its comments say.  It prints the dump
    of a table that maps the 32MB of RAM and the device registers to themselves,
    turns translation on, shows the entry of 0x41800000 before the read, after
    the read and after the write - with the accessed and dirty bits as this kind
    of processor leaves them - takes the store fault at 0 and the load fault at
    0x100000, which its handler steps over, and stops at the fetch fault at
    0x777000, each fault reported with its cause, its address and the registers.
    On a processor that faults when the bits are clear it stops at the read. *)
Theorem example_runs k regs_at status sp junk trap_entry_at s :
  regs_ok regs_at -> alloc_top s = 0x40400000 -> satp s = 0 -> expect_cause s = 0 ->
  mapped (d_mem s) pt1 4096 -> stack_ok sp (d_mem s) -> mapped (d_mem s) 0x41800000 4 ->
  exists s', start k regs_at status sp junk trap_entry_at s = Halt s' /\
    u_out (d_uart s') = u_out (d_uart s) ++ wire (run_text k regs_at status).
Proof. intros. by apply start_run. Qed.

Definition run_mem : mem :=
  write_bytes (write_bytes (mem_lit pt1 (replicate (Z.to_nat 4096) 7)) 0x404FFF80 (replicate 128 1)) 0x41800000 [1; 2; 3; 4].
Definition run_state : mmu_demo :=
  {| d_mem := run_mem; d_uart := {| u_stalls := [1; 0; 2]; u_out := [] |}; alloc_top := 0x40400000;
     expect_cause := 0; expect_addr := 0; satp := 0; d_hw := [] |}.

Lemma example_runs_witness :
  exists s', start Sets (fun a => <[16%nat := 0x40001234]> demo_frame) 0x100 0x40500000 5 0x40000100 run_state = Halt s' /\
    u_out (d_uart s') = wire (banner ++ dump_head ++ demo_listing ++ enabled_text ++
      str "PTE for vaddr 41800000 is 1060000f" ++ nl ++
      str "[ read from 0x41800000 ]" ++ nl ++
      str "PTE for vaddr 41800000 is 1060004f" ++ nl ++
      str "[ write to 0x41800000 ]" ++ nl ++
      str "PTE for vaddr 41800000 is 106000cf" ++ nl ++
      faults_text (fun a => <[16%nat := 0x40001234]> demo_frame) 0x100).
Proof.
  assert (exists s', start Sets (fun a => <[16%nat := 0x40001234]> demo_frame) 0x100 0x40500000 5 0x40000100 run_state = Halt s' /\
    u_out (d_uart s') = u_out (d_uart run_state) ++ wire (run_text Sets (fun a => <[16%nat := 0x40001234]> demo_frame) 0x100))
    as (s' & E & O).
  { apply example_runs; [|reflexivity|reflexivity|reflexivity| | |].
    - intros a. split; by_decide.
    - do 2 apply mapped_write. apply mapped_mem_lit; [done|]. by rewrite length_replicate, Z2Nat.id.
    - split; [|split; [done|right; by_decide]]. apply mapped_write.
      eapply bytes_at_mapped; [apply bytes_at_write; by repeat constructor|done].
    - eapply bytes_at_mapped; [apply bytes_at_write; by repeat constructor|done]. }
  exists s'. split; [exact E|]. rewrite O. change (u_out (d_uart run_state)) with (@nil Z). cbn [app].
  apply (f_equal wire). vm_compute. reflexivity.
Defined.

(** C30: the page table dump: for any directory in memory whose pointers lead to
    tables in memory, [dump_mmu] prints one line for each valid entry of the
    directory and, after an entry that points to a table, one for each of its
    1024 entries; a line gives the address of the entry, the virtual address it
    maps, its full 34-bit physical address, its size and its flags; nothing but
    the console changes. *)
Theorem page_table_dumped ptbl s :
  tables_ok (d_mem s) ptbl -> dump_mmu ptbl s = Ok tt (emit (wire (dump_text (d_mem s) ptbl)) s).
Proof. apply dump_mmu_ok. Qed.

Definition dump_state : mmu_demo :=
  {| d_mem := write_bytes (mem_lit 0x80000000 (replicate (Z.to_nat 8192) 0)) 0x80000008 (le_bytes 4 0x20000401);
     d_uart := {| u_stalls := []; u_out := [] |}; alloc_top := 0; expect_cause := 0; expect_addr := 0; satp := 0; d_hw := [] |}.

Lemma dump_mapped a : 0x80000000 <= a <= 0x80001000 -> mapped (d_mem dump_state) a 4096.
Proof.
  intros Ha. unfold dump_state. cbn [d_mem]. apply mapped_write. apply (mapped_sub _ 0x80000000 8192); [|lia|lia].
  apply mapped_mem_lit; [done|]. by rewrite length_replicate, Z2Nat.id.
Qed.

Lemma dump_words n : 0 <= n < 1024 ->
  word (d_mem dump_state) (0x80000000 + 4 * n) = if decide (0x80000008 = 0x80000000 + 4 * n) then 0x20000401 else 0.
Proof.
  intros Hn. unfold dump_state. cbn [d_mem]. rewrite word_write by zarith. case_decide; [done|].
  apply word_write_zeros; lia.
Qed.

Lemma page_table_dumped_witness :
  dump_mmu 0x80000000 dump_state = Ok tt (emit (wire (dump_text (d_mem dump_state) 0x80000000)) dump_state).
Proof.
  apply page_table_dumped. split; [split; [apply dump_mapped; lia|by_decide]|].
  intros n Hn pte Hv _. unfold pte in *. rewrite (dump_words n Hn) in Hv |- *. case_decide; [|done].
  split; [apply dump_mapped; by_decide|by_decide].
Defined.
