(* ===== verification/Net.v ===== *)
(** * The IPv6 stack (net/ipv6.c, net/inc/net/ipv6.h)

    One frame is handled at a time, in place: [rxbuf] is the receive buffer
    (two bytes of padding, then the Ethernet frame), a pointer into it is its
    offset, and the handlers that turn a request into its reply overwrite it.
    The buffer the transmit functions build a frame in is an uninitialised
    local array: its contents are the parameter [garbage], and the theorems
    show that none of it is sent.  Every access outside a buffer is a [Fault].

    [eth_tx] and [pkt_rx_udp] are provided by the program around the stack:
    [EthTx] says what the stack may rely on, [UdpClient] is unconstrained. *)

From S2P Require Import Prelude Monad Hw Mem LibcMem LibcStr Uart Printf.

(** The Ethernet MAC.  The frame memory of the two transmit slots, the registers
    the driver sets, and the frames sent so far; after a start the reader is
    busy for some polls (the head of [e_stalls]).  [e_rx] is what the receiver
    will see, in order: a received frame - the slot it is in, what is in the
    slot, and its length - stays until its event is acknowledged; [Quiet] is a
    poll that finds nothing. *)
Inductive rx_event : Type :=
| Quiet
| Frame (slot : Z) (contents : list Z) (len : Z).

Record ethdev := {
  e_sram : list Z;
  e_regs : gmap Z Z;
  e_stalls : list Z;
  e_rx : list rx_event;
  e_sent : list (list Z);
}.

Record node := {
  ifc_mac : list Z;
  ifc_ll_ip6 : list Z;
  mcast_ns_ip6 : list Z;
  m_ifc_mac : list Z;
  m_ns_mac : list Z;
  rxbuf : list Z;
  txslot : Z;
  n_eth : ethdev;
  n_mem : mem;            (* RAM outside the program *)
  n_uart : uart;
  n_hw : list hwop;
}.

#[export] Program Instance node_HasMem : HasMem node :=
  {| mem_of := n_mem;
     with_mem m s := {| ifc_mac := ifc_mac s; ifc_ll_ip6 := ifc_ll_ip6 s;
       mcast_ns_ip6 := mcast_ns_ip6 s; m_ifc_mac := m_ifc_mac s; m_ns_mac := m_ns_mac s;
       rxbuf := rxbuf s; txslot := txslot s; n_eth := n_eth s; n_mem := m; n_uart := n_uart s; n_hw := n_hw s |} |}.
Next Obligation. done. Qed.
Next Obligation. done. Qed.
Next Obligation. by intros []. Qed.

#[export] Program Instance node_HasUart : HasUart node :=
  {| uart_of := n_uart;
     with_uart u s := {| ifc_mac := ifc_mac s; ifc_ll_ip6 := ifc_ll_ip6 s;
       mcast_ns_ip6 := mcast_ns_ip6 s; m_ifc_mac := m_ifc_mac s; m_ns_mac := m_ns_mac s;
       rxbuf := rxbuf s; txslot := txslot s; n_eth := n_eth s; n_mem := n_mem s; n_uart := u; n_hw := n_hw s |} |}.
Next Obligation. done. Qed.
Next Obligation. done. Qed.
Next Obligation. by intros []. Qed.

#[export] Instance node_MemUart : MemUart node.
Proof. intros u s. done. Qed.

(** The frames sent so far. *)
Definition n_tx (s : node) : list (list Z) := e_sent (n_eth s).

Definition set_tx (slot : Z) (e : ethdev) (s : node) : node :=
  {| ifc_mac := ifc_mac s; ifc_ll_ip6 := ifc_ll_ip6 s; mcast_ns_ip6 := mcast_ns_ip6 s;
     m_ifc_mac := m_ifc_mac s; m_ns_mac := m_ns_mac s; rxbuf := rxbuf s; txslot := slot;
     n_eth := e; n_mem := n_mem s; n_uart := n_uart s; n_hw := n_hw s |}.

Definition set_rxbuf (b : list Z) (s : node) : node :=
  {| ifc_mac := ifc_mac s; ifc_ll_ip6 := ifc_ll_ip6 s; mcast_ns_ip6 := mcast_ns_ip6 s;
     m_ifc_mac := m_ifc_mac s; m_ns_mac := m_ns_mac s; rxbuf := b; txslot := txslot s;
     n_eth := n_eth s; n_mem := n_mem s; n_uart := n_uart s; n_hw := n_hw s |}.

(** ** Constants (net/inc/net/ipv6.h) *)

(* src/net/inc/net/ipv6.h:9-10 *)
Definition ETH_ADDR_LEN := 6.
Definition IP6_ADDR_LEN := 16.
(* src/net/inc/net/ipv6.h:12-12 *)
Definition ETH_HDR_LEN := 14.
(* src/net/inc/net/ipv6.h:13-13 *)
Definition IP6_HDR_LEN := 40.
(* src/net/inc/net/ipv6.h:14-14 *)
Definition UDP_HDR_LEN := 8.
(* src/net/inc/net/ipv6.h:15-15 *)
Definition ICMP_HDR_LEN := 4.
(* src/net/inc/net/ipv6.h:16-16 *)
Definition NDP_HDR_LEN := 24.
(* src/net/inc/net/ipv6.h:22-22 *)
Definition ETH_TYPE_IP6 := 0x86DD.
(* src/net/inc/net/ipv6.h:25-25 *)
Definition IP_HDR_UDP := 17.
(* src/net/inc/net/ipv6.h:26-26 *)
Definition IP_HDR_ICMP := 58.
(* src/net/inc/net/ipv6.h:28-28 *)
Definition ICMP_ECHO_REQUEST := 128.
(* src/net/inc/net/ipv6.h:29-29 *)
Definition ICMP_ECHO_REPLY := 129.
(* src/net/inc/net/ipv6.h:30-30 *)
Definition ICMP_NDP_N_SOLICIT := 135.
(* src/net/inc/net/ipv6.h:31-31 *)
Definition ICMP_NDP_N_ADVERTISE := 136.
(* src/net/inc/net/ipv6.h:34-34 *)
Definition NDP_N_TGT_LL_ADDR := 2.
(* src/net/ipv6.c:64-64 *)
Definition NETBUF_MAX := 1536.

(** ** Layout: the offsets of the header structures *)

(** [eth_hdr_t], from the start of a buffer. *)
(* src/net/inc/net/ipv6.h:44-49 eth_hdr_t *)
Definition ETH_DST := 2.
Definition ETH_SRC := 8.
Definition ETH_TYPE := 14.
Definition sizeof_eth_hdr_t := 16.
(** [ip6_hdr_t] *)
(* src/net/inc/net/ipv6.h:51-58 ip6_hdr_t *)
Definition IP6_BITS := 0.
Definition IP6_LENGTH := 4.
Definition IP6_NEXT_HEADER := 6.
Definition IP6_HOP_LIMIT := 7.
Definition IP6_SRC := 8.
Definition IP6_DST := 24.
Definition sizeof_ip6_hdr_t := 40.
(** [udp_hdr_t] *)
(* src/net/inc/net/ipv6.h:60-65 udp_hdr_t *)
Definition UDP_SRC_PORT := 0.
Definition UDP_DST_PORT := 2.
Definition UDP_LENGTH := 4.
Definition UDP_CHECKSUM := 6.
Definition sizeof_udp_hdr_t := 8.
(** [icmp_hdr_t] and [ndp_hdr_t] *)
(* src/net/inc/net/ipv6.h:67-71 icmp_hdr_t *)
Definition ICMP_TYPE := 0.
Definition ICMP_CODE := 1.
Definition ICMP_CHECKSUM := 2.
Definition sizeof_icmp_hdr_t := 4.
(* src/net/inc/net/ipv6.h:73-80 ndp_hdr_t *)
Definition NDP_TARGET := 8.
Definition sizeof_ndp_hdr_t := 24.

(* src/net/inc/net/ipv6.h:91-95 ntohs *)
Definition bswap16 (v : Z) : Z := u8 v * 0x100 + u8 (v / 0x100).
Abbreviation htons := bswap16.
Abbreviation ntohs := bswap16.

(** ** Buffers *)

(** [n] bytes at [off], when they are all inside. *)
Definition slice (b : list Z) (off n : Z) : option (list Z) :=
  if (0 <=? off) && (0 <=? n) && (off + n <=? Z.of_nat (length b))
  then Some (take (Z.to_nat n) (drop (Z.to_nat off) b)) else None.

Definition splice (b : list Z) (off : Z) (l : list Z) : list Z :=
  take (Z.to_nat off) b ++ l ++ drop (Z.to_nat off + length l) b.

Definition bget {S} (b : list Z) (off n : Z) : M S (list Z) := fun s =>
  match slice b off n with Some l => Ok l s | None => Fault end.

Definition bput {S} (b : list Z) (off : Z) (l : list Z) : M S (list Z) := fun s =>
  match slice b off (Z.of_nat (length l)) with Some _ => Ok (splice b off l) s | None => Fault end.

Definition rx_get (off n : Z) : M node (list Z) := b <- gets rxbuf ;; bget b off n.
Definition rx_get16 (off : Z) : M node Z := l <- rx_get off 2 ;; ret (le_val l).
Definition rx_get8 (off : Z) : M node Z := l <- rx_get off 1 ;; ret (le_val l).
Definition rx_put (off : Z) (l : list Z) : M node unit :=
  b <- gets rxbuf ;;
  b <- bput b off l ;;
  modify (set_rxbuf b).

(** ** Addresses *)

Definition byte (l : list Z) (i : nat) : Z := nth i l 0.

(* src/net/ipv6.c:25-38 *)
Definition ip6lla_from_ethmac (mac : list Z) : list Z :=
  let ip := replicate 16 0 in
  let ip := <[0%nat := 0xFE]> ip in
  let ip := <[1%nat := 0x80]> ip in
  let ip := <[8%nat := Z.lxor (byte mac 0) 2]> ip in
  let ip := <[9%nat := byte mac 1]> ip in
  let ip := <[10%nat := byte mac 2]> ip in
  let ip := <[11%nat := 0xFF]> ip in
  let ip := <[12%nat := 0xFE]> ip in
  let ip := <[13%nat := byte mac 3]> ip in
  let ip := <[14%nat := byte mac 4]> ip in
  let ip := <[15%nat := byte mac 5]> ip in
  ip.

(* src/net/ipv6.c:41-52 *)
Definition ip6ns_from_ethmac (ip : list Z) (mac : list Z) : list Z :=
  (* w[0], w[1] and w[2] are cleared *)
  let ip := splice ip 0 (replicate 12 0) in
  let ip := <[0%nat := 0xFF]> ip in
  let ip := <[1%nat := 0x02]> ip in
  let ip := <[11%nat := 0x01]> ip in
  let ip := <[12%nat := 0xFF]> ip in
  let ip := <[13%nat := byte mac 3]> ip in
  let ip := <[14%nat := byte mac 4]> ip in
  let ip := <[15%nat := byte mac 5]> ip in
  ip.

(* src/net/ipv6.c:55-62 *)
Definition ethmac_from_ip6mc (ip : list Z) : list Z :=
  [0x33; 0x33; byte ip 12; byte ip 13; byte ip 14; byte ip 15].

(* src/net/ipv6.c:88-90 *)
Definition mcast_ll_ip6 : list Z := [0xFF; 0x02] ++ replicate 13 0 ++ [0x01].

(* src/net/ipv6.c:102-102 *)
Definition m_ll_mac : list Z := [0; 0; 0x33; 0x33; 0; 0; 0; 1].

(* src/net/ipv6.c:74-101 ifc_mac *)
Definition net_boot (rx : list Z) (e : ethdev) (m : mem) (u : uart) : node :=
  {| ifc_mac := [0x72; 0x72; 0xaa; 0xbb; 0xcc; 0xdd];
     ifc_ll_ip6 := [0xFE; 0x80; 0; 0; 0; 0; 0; 0; 0x70; 0x72; 0xaa; 0xff; 0xfe; 0xbb; 0xcc; 0xdd];
     mcast_ns_ip6 := [0xFF; 0x02; 0; 0; 0; 0; 0; 0; 0; 0; 0; 0x01; 0xff; 0xbb; 0xcc; 0xdd];
     m_ifc_mac := [0; 0; 0x72; 0x72; 0xaa; 0xbb; 0xcc; 0xdd];
     m_ns_mac := [0; 0; 0x33; 0x33; 0xff; 0xbb; 0xcc; 0xdd];
     rxbuf := rx; txslot := 0; n_eth := e; n_mem := m; n_uart := u; n_hw := [] |}.

(* src/net/ipv6.c:104-115 *)
Definition net_init (mac : list Z) : M node unit :=
  modify (fun s =>
    let mac := take 6 mac in
    let ns := ip6ns_from_ethmac (mcast_ns_ip6 s) mac in
    {| ifc_mac := splice (ifc_mac s) 0 mac;
       m_ifc_mac := splice (m_ifc_mac s) 2 mac;
       ifc_ll_ip6 := ip6lla_from_ethmac mac;
       mcast_ns_ip6 := ns;
       m_ns_mac := splice (m_ns_mac s) 2 (ethmac_from_ip6mc ns);
       rxbuf := rxbuf s; txslot := txslot s; n_eth := n_eth s; n_mem := n_mem s; n_uart := n_uart s; n_hw := n_hw s |}).

(** ** Checksums *)

Section checksum.
Context {S : Type}.

(* src/net/ipv6.c:118-131 *)
Definition checksum (b : list Z) (data len sum : Z) : M S Z :=
  let* (data, len, sum) := loop (fun '(data, len, sum) =>
    if len >? 1 then
      w <- bget b data 2 ;;
      ret (inl (data + 2, len - 2, u32 (sum + le_val w)))
    else ret (inr (data, len, sum))) (data, len, sum) in
  sum <- (if negb (len =? 0) then
            w <- bget b data 2 ;;
            ret (u32 (sum + Z.land (le_val w) 0xFF))
          else ret sum) ;;
  loop (fun sum =>
    if sum >? 0xFFFF then ret (inl (u32 (Z.land sum 0xFFFF + Z.shiftr sum 16)))
    else ret (inr sum)) sum.

(* src/net/ipv6.c:137-144 *)
Definition checksum_ip6 (b : list Z) (hdr len : Z) : M S Z :=
  nh <- bget b (hdr + IP6_NEXT_HEADER) 1 ;;
  sum <- checksum b (hdr + IP6_LENGTH) 2 (htons (le_val nh)) ;;
  sum <- checksum b (hdr + IP6_SRC) (u32 (len + 32)) sum ;;
  ret (if sum =? 0xffff then sum else u32 (Z.lnot sum)).
End checksum.

(** ** The program around the stack *)

(** The slot to use next is one of the two. *)
Definition tx_ok (s : node) : Prop :=
  (txslot s = 0 \/ txslot s = 1) /\ length (e_sram (n_eth s)) = 4096%nat.

#[export] Instance tx_ok_dec s : Decision (tx_ok s).
Proof. unfold tx_ok. apply _. Defined.

(** Only the transmitter changed; received frames still wait. *)
Definition only_tx (s s' : node) : Prop :=
  s' = set_tx (txslot s') (n_eth s') s /\ e_rx (n_eth s') = e_rx (n_eth s).

Class EthTx := {
  eth_tx : list Z -> M node unit;
  eth_tx_sends l s : Z.of_nat (length l) <= 1534 -> tx_ok s ->
    exists s', eth_tx l s = Ok tt s' /\ n_tx s' = n_tx s ++ [l] /\ tx_ok s' /\ only_tx s s';
}.

(** The handler of a datagram: where its data starts in the receive buffer, how
    long it is, the port, and whether it came by multicast. *)
Class UdpClient := pkt_rx_udp : Z -> Z -> Z -> Z -> M node unit.

(** ** Transmission *)

(** The data of a reply: part of the receive buffer, or a local object. *)
Definition payload : Type := Z + list Z.
Definition payload_get (d : payload) (len : Z) : M node (list Z) :=
  match d with inl off => rx_get off len | inr l => bget l 0 len end.

Section stack.
Context `{!EthTx, !UdpClient} (garbage : list Z).

Definition sizeof_udp6_pkt_t := sizeof_eth_hdr_t + sizeof_ip6_hdr_t + sizeof_udp_hdr_t.
(* src/net/ipv6.c:278-279 MAX_UDP_PAYLOAD *)
Definition MAX_UDP_PAYLOAD := NETBUF_MAX - sizeof_udp6_pkt_t.

Definition le16 (v : Z) : list Z := le_bytes 2 v.
Definition le32 (v : Z) : list Z := le_bytes 4 v.

(* src/net/ipv6.c:281-311 *)
Definition net_tx_udp_reply (replyto : Z) (data : payload) (len port : Z) : M node unit :=
  let rx := replyto - sizeof_udp6_pkt_t in
  let ip6 := sizeof_eth_hdr_t in
  let udp := ip6 + sizeof_ip6_hdr_t in
  if len >? MAX_UDP_PAYLOAD then ret tt
  else
    let tx := garbage in
    rx_src <- rx_get (rx + ETH_SRC) 6 ;;
    tx <- bput tx ETH_DST rx_src ;;
    mac <- gets ifc_mac ;;
    tx <- bput tx ETH_SRC mac ;;
    tx <- bput tx ETH_TYPE (le16 (htons ETH_TYPE_IP6)) ;;
    tx <- bput tx (ip6 + IP6_BITS) (le32 0x00000060) ;;
    tx <- bput tx (ip6 + IP6_LENGTH) (le16 (htons (UDP_HDR_LEN + len))) ;;
    tx <- bput tx (ip6 + IP6_NEXT_HEADER) [IP_HDR_UDP] ;;
    tx <- bput tx (ip6 + IP6_HOP_LIMIT) [255] ;;
    ll <- gets ifc_ll_ip6 ;;
    tx <- bput tx (ip6 + IP6_SRC) ll ;;
    rx_ip <- rx_get (rx + ip6 + IP6_SRC) 16 ;;
    tx <- bput tx (ip6 + IP6_DST) rx_ip ;;
    tx <- bput tx (udp + UDP_SRC_PORT) (le16 (htons port)) ;;
    rx_port <- rx_get (rx + udp + UDP_SRC_PORT) 2 ;;
    tx <- bput tx (udp + UDP_DST_PORT) rx_port ;;
    tx <- bput tx (udp + UDP_LENGTH) (le16 (htons (len + UDP_HDR_LEN))) ;;
    tx <- bput tx (udp + UDP_CHECKSUM) (le16 0) ;;
    data <- payload_get data len ;;
    tx <- bput tx (udp + sizeof_udp_hdr_t) data ;;
    sum <- checksum_ip6 tx ip6 (len + UDP_HDR_LEN) ;;
    tx <- bput tx (udp + UDP_CHECKSUM) (le16 sum) ;;
    frame <- bget tx 2 (ETH_HDR_LEN + IP6_HDR_LEN + UDP_HDR_LEN + len) ;;
    eth_tx frame.

Definition sizeof_ip6_pkt_t := sizeof_eth_hdr_t + sizeof_ip6_hdr_t.
(* src/net/ipv6.c:319-320 MAX_IP6_PAYLOAD *)
Definition MAX_IP6_PAYLOAD := NETBUF_MAX - sizeof_ip6_pkt_t.

(* src/net/ipv6.c:322-350 *)
Definition net_tx_ip6_reply (replyto : Z) (data : payload) (len type chk_off : Z) : M node unit :=
  let rx := replyto - sizeof_ip6_pkt_t in
  let ip6 := sizeof_eth_hdr_t in
  if len >? MAX_IP6_PAYLOAD then ret tt
  else
    let tx := garbage in
    rx_src <- rx_get (rx + ETH_SRC) 6 ;;
    tx <- bput tx ETH_DST rx_src ;;
    mac <- gets ifc_mac ;;
    tx <- bput tx ETH_SRC mac ;;
    tx <- bput tx ETH_TYPE (le16 (htons ETH_TYPE_IP6)) ;;
    tx <- bput tx (ip6 + IP6_BITS) (le32 0x00000060) ;;
    tx <- bput tx (ip6 + IP6_LENGTH) (le16 (htons len)) ;;
    tx <- bput tx (ip6 + IP6_NEXT_HEADER) [u8 type] ;;
    tx <- bput tx (ip6 + IP6_HOP_LIMIT) [255] ;;
    ll <- gets ifc_ll_ip6 ;;
    tx <- bput tx (ip6 + IP6_SRC) ll ;;
    rx_ip <- rx_get (rx + ip6 + IP6_SRC) 16 ;;
    tx <- bput tx (ip6 + IP6_DST) rx_ip ;;
    data <- payload_get data len ;;
    tx <- bput tx (ip6 + sizeof_ip6_hdr_t) data ;;
    sum <- checksum_ip6 tx ip6 len ;;
    tx <- bput tx (ip6 + sizeof_ip6_hdr_t + chk_off) (le16 sum) ;;
    frame <- bget tx 2 (ETH_HDR_LEN + IP6_HDR_LEN + len) ;;
    eth_tx frame.

(** ** Reception *)

(* src/net/ipv6.c:146-160 *)
Definition net_rx_udp6 (data dlen mcast : Z) : M node unit :=
  if dlen <? sizeof_udp_hdr_t then xprintf (str "UPD6: runt" ++ [10]) []
  else
    port <- rx_get16 (data + UDP_DST_PORT) ;;
    let port := ntohs port in
    len <- rx_get16 (data + UDP_LENGTH) ;;
    let len := ntohs len in
    if (len <? sizeof_udp_hdr_t) || (len >? dlen) then
      xprintf (str "UDP6: badlen %u (dlen %u)" ++ [10]) [VaWord len; VaWord dlen]
    else pkt_rx_udp (data + sizeof_udp_hdr_t) (len - sizeof_udp_hdr_t) port mcast.

(* src/net/ipv6.c:162-209 *)
Definition net_rx_icmp6 (data dlen mcast : Z) : M node unit :=
  if dlen <? sizeof_icmp_hdr_t then xprintf (str "ICMP6 runt" ++ [10]) []
  else
    type <- rx_get8 (data + ICMP_TYPE) ;;
    if type =? ICMP_NDP_N_SOLICIT then
      code <- (if dlen <? sizeof_ndp_hdr_t then ret 1 else rx_get8 (data + ICMP_CODE)) ;;
      if (dlen <? sizeof_ndp_hdr_t) || negb (code =? 0) then ret tt
      else
        target <- rx_get (data + NDP_TARGET) 16 ;;
        ll <- gets ifc_ll_ip6 ;;
        if decide (target <> ll) then ret tt (* not for us *)
        else
          mac <- gets ifc_mac ;;
          let reply :=
            [ICMP_NDP_N_ADVERTISE; 0] ++ le16 0 ++ le32 0x60 ++ ll ++
            [NDP_N_TGT_LL_ADDR; 1] ++ mac in
          net_tx_ip6_reply data (inr reply) 32 IP_HDR_ICMP ICMP_CHECKSUM
    else if type =? ICMP_ECHO_REQUEST then
      rx_put (data + ICMP_TYPE) [ICMP_ECHO_REPLY] ;;
      rx_put (data + ICMP_CHECKSUM) (le16 0) ;;
      net_tx_ip6_reply data (inl data) dlen IP_HDR_ICMP ICMP_CHECKSUM
    else
      code <- rx_get8 (data + ICMP_CODE) ;;
      xprintf (str "ICMP ? %u %u %s" ++ [10])
        [VaWord type; VaWord code; VaStr (Some (if negb (mcast =? 0) then str "M" else []))].

(* src/net/ipv6.c:212-239 *)
Definition net_rx_ip6 (data len mcast : Z) : M node unit :=
  dst <- rx_get (data + IP6_DST) 16 ;;
  s <- get ;;
  if negb (mcast =? 0) && (bool_decide (dst <> mcast_ll_ip6) && bool_decide (dst <> mcast_ns_ip6 s)) then
    xprintf (str "IP6: MA ?" ++ [10]) []
  else if (mcast =? 0) && bool_decide (dst <> ifc_ll_ip6 s) then
    xprintf (str "IP6: UA ?" ++ [10]) []
  else
    nh <- rx_get8 (data + IP6_NEXT_HEADER) ;;
    if nh =? IP_HDR_ICMP then
      net_rx_icmp6 (data + sizeof_ip6_hdr_t) (u32 (len - sizeof_ip6_hdr_t)) mcast
    else if nh =? IP_HDR_UDP then
      net_rx_udp6 (data + sizeof_ip6_hdr_t) (u32 (len - sizeof_ip6_hdr_t)) mcast
    else xprintf (str "IP6: HDR %u ?" ++ [10]) [VaWord nh].

(* src/net/ipv6.c:241-269 *)
Definition net_rx_eth (data len : Z) : M node unit :=
  if len <? 60 then xprintf (str "ETH runt" ++ [10]) []
  else
    type <- rx_get16 (data + ETH_TYPE) ;;
    if negb (type =? htons ETH_TYPE_IP6) then ret tt
    else
      w <- rx_get data 8 ;;
      s <- get ;;
      let ip6 mcast := net_rx_ip6 (data + sizeof_eth_hdr_t) (len - sizeof_eth_hdr_t) mcast in
      if bool_decide (w = m_ifc_mac s) then ip6 0
      else if bool_decide (w = m_ns_mac s) then ip6 1
      else if bool_decide (w = m_ll_mac) then ip6 1
      else
        dst <- rx_get (data + ETH_DST) 6 ;;
        xprintf (str "ETH ? %02x %02x %02x %02x %02x %02x" ++ [10]) (map VaWord dst).
End stack.

(** ** The Internet checksum *)

(** The sum of the 16-bit words of [l] as memory holds them (an odd last byte
    counts as a word with a zero byte), and the end-around-carry fold. *)
Fixpoint words_sum (l : list Z) : Z :=
  match l with
  | [] => 0
  | [a] => a
  | a :: b :: l' => a + 0x100 * b + words_sum l'
  end.

Definition fold16 (x : Z) : Z := if x =? 0 then 0 else (x - 1) mod 0xFFFF + 1.

Lemma list_two_ind {A} (P : list A -> Prop) :
  P [] -> (forall a, P [a]) -> (forall a b l, P l -> P (a :: b :: l)) -> forall l, P l.
Proof.
  intros H0 H1 H2 l. enough (P l /\ forall a, P (a :: l)) as [? _] by done.
  induction l as [|b l [IH1 IH2]]; split; auto.
Qed.

Lemma words_sum_range l :
  bytes l -> 0 <= words_sum l <= 0xFFFF * ((Z.of_nat (length l) + 1) / 2).
Proof.
  intros Hl. assert (forall k : nat, forall l, (length l <= k)%nat -> bytes l ->
    0 <= words_sum l <= 0xFFFF * ((Z.of_nat (length l) + 1) / 2)) as H; [|by apply (H (length l))].
  clear l Hl. induction k as [|k IH]; intros l Hk Hl.
  { assert (l = []) as -> by (apply nil_length_inv; lia).
    cbn [words_sum length]. change ((Z.of_nat 0 + 1) / 2) with 0. lia. }
  destruct l as [|a [|b l]]; [apply (IH []); [cbn; lia|done]| |].
  - inversion Hl as [|? ? Ha _]; subst. unfold is_u8 in Ha. cbn [words_sum length].
    change ((Z.of_nat 1 + 1) / 2) with 1. lia.
  - inversion Hl as [|? ? Ha Hl']; subst. inversion Hl' as [|? ? Hb Hl'']; subst.
    specialize (IH l). cbn [length] in *. specialize (IH ltac:(lia) Hl''). unfold is_u8 in *.
    cbn [words_sum]. assert ((Z.of_nat (Datatypes.S (Datatypes.S (length l))) + 1) / 2 =
      (Z.of_nat (length l) + 1) / 2 + 1) as -> by zarith. lia.
Qed.

Lemma words_sum_app l1 l2 :
  Nat.even (length l1) = true -> words_sum (l1 ++ l2) = words_sum l1 + words_sum l2.
Proof.
  revert l2. induction l1 as [|a|a b l IH] using list_two_ind; intros l2 He.
  - done.
  - discriminate He.
  - cbn [app words_sum]. rewrite IH; [lia|]. exact He.
Qed.

Lemma words_sum_le16 v : is_u16 v -> words_sum (le16 v) = v.
Proof. intros. unfold le16. cbn. zarith. Qed.

Section checksum_facts.
Context {S : Type}.

Lemma slice_some b off n l1 l2 l3 :
  b = l1 ++ l2 ++ l3 -> off = Z.of_nat (length l1) -> n = Z.of_nat (length l2) ->
  slice b off n = Some l2.
Proof.
  intros -> -> ->. unfold slice. rewrite !length_app.
  rewrite !(proj2 (Z.leb_le _ _)) by lia. cbn [andb]. rewrite !Nat2Z.id.
  by rewrite drop_app_length, take_app_length.
Qed.

Lemma bget_ok b off n l1 l2 l3 (s : S) :
  b = l1 ++ l2 ++ l3 -> off = Z.of_nat (length l1) -> n = Z.of_nat (length l2) ->
  bget b off n s = Ok l2 s.
Proof. intros. unfold bget. by erewrite slice_some. Qed.

Lemma fold_step x : 0xFFFF < x -> is_u32 x ->
  u32 (Z.land x 0xFFFF + Z.shiftr x 16) < x /\
  is_u32 (u32 (Z.land x 0xFFFF + Z.shiftr x 16)) /\
  fold16 (u32 (Z.land x 0xFFFF + Z.shiftr x 16)) = fold16 x.
Proof.
  intros Hx Hu. rewrite land_FFFF, Z.shiftr_div_pow2 by lia. change (2 ^ 16) with 0x10000.
  rewrite u32_small by zarith. split; [zarith|]. split; [zarith|].
  unfold fold16. rewrite !(proj2 (Z.eqb_neq _ _)) by zarith. f_equal.
  replace (x - 1) with (x mod 0x10000 + x / 0x10000 - 1 + x / 0x10000 * 0xFFFF) by zarith.
  by rewrite Z.mod_add.
Qed.

Lemma fold16_range x : 0 <= x -> 0 <= fold16 x <= 0xFFFF.
Proof. intros. unfold fold16. destruct (x =? 0); zarith. Qed.

Lemma fold_loop_ok x (s : S) : is_u32 x ->
  loop (fun sum =>
    if sum >? 0xFFFF then ret (inl (u32 (Z.land sum 0xFFFF + Z.shiftr sum 16)))
    else ret (inr sum)) x s = Ok (fold16 x) s.
Proof.
  intros Hx. name_body body.
  enough (forall n : nat, forall x, is_u32 x -> x < Z.of_nat n ->
    exists k : nat, (k < n)%nat /\ runs body k x s (Ok (fold16 x) s)) as H.
  { destruct (H (Z.to_nat (x + 1)) x Hx) as (k & Hk & Hr); [unfold is_u32 in *; lia|].
    apply (loop_runs _ k); [exact Hr|unfold is_u32 in *; lia]. }
  clear x Hx. induction n as [|n IH]; intros x Hx Hn; [unfold is_u32 in *; lia|].
  destruct (decide (0xFFFF < x)) as [Hgt|Hle].
  - destruct (fold_step x Hgt Hx) as (Hlt & Hu & Hf).
    destruct (IH _ Hu ltac:(lia)) as (k & Hk & Hr).
    exists (Datatypes.S k). split; [lia|]. eapply runs_step; [|rewrite <- Hf; exact Hr].
    unfold body. by rewrite (proj2 (Z.gtb_lt _ _)) by lia.
  - exists 0%nat. split; [lia|]. replace (fold16 x) with x.
    + apply runs_done. unfold body. by rewrite Z.gtb_ltb, (proj2 (Z.ltb_ge _ _)) by lia.
    + unfold fold16. destruct (Z.eqb_spec x 0); [done|]. unfold is_u32 in Hx. rewrite Z.mod_small; lia.
Qed.

(** The checksum loop adds up the words of the data, in a buffer that goes on
    for at least a byte after data of odd length. *)
Lemma checksum_words_ok b l1 l l3 data r sum (s : S) :
  b = l1 ++ l ++ l3 -> data = Z.of_nat (length l1) -> Nat.even (length l) = true ->
  bytes l -> 0 <= r <= 1 -> 0 <= sum -> sum + 0x10000 * Z.of_nat (length l) < 2 ^ 32 ->
  runs (fun '(data, len, sum) =>
    if len >? 1 then
      w <- bget b data 2 ;;
      ret (inl (data + 2, len - 2, u32 (sum + le_val w)))
    else ret (inr (data, len, sum))) (length l / 2) (data, Z.of_nat (length l) + r, sum) s
    (Ok (data + Z.of_nat (length l), r, sum + words_sum l) s).
Proof.
  match goal with |- context [runs ?f _ _ _ _] => set (body := f) end.
  revert l1 data sum. induction l as [|a|a c l IH] using list_two_ind;
    intros l1 data sum Hb Hd He Hl Hr Hs Hov.
  - apply runs_done. unfold body. cbn [length words_sum]. change (Z.of_nat 0) with 0.
    rewrite Z.gtb_ltb, (proj2 (Z.ltb_ge _ _)) by lia. unfold ret.
    by rewrite Z.add_0_l, !Z.add_0_r.
  - discriminate He.
  - cbn [length] in Hov. rewrite !Nat2Z.inj_succ in Hov.
    apply Forall_cons_iff in Hl as [Ha Hl]. apply Forall_cons_iff in Hl as [Hc Hl].
    assert ((length (a :: c :: l) / 2)%nat = Datatypes.S (length l / 2)) as ->.
    { cbn [length]. change (Datatypes.S (Datatypes.S (length l))) with (1 * 2 + length l)%nat.
      by rewrite Nat.div_add_l. }
    eapply runs_step.
    + unfold body. cbn [length]. rewrite (proj2 (Z.gtb_lt _ _)) by lia.
      rewrite (bind_ok _ _ _ _ _ (bget_ok b data 2 l1 [a; c] (l ++ l3) s Hb Hd eq_refl)).
      cbn [le_val]. reflexivity.
    + replace (Z.of_nat (Datatypes.S (Datatypes.S (length l))) + r - 2)
        with (Z.of_nat (length l) + r) by lia.
      replace (data + Z.of_nat (length (a :: c :: l))) with (data + 2 + Z.of_nat (length l))
        by (cbn [length]; lia).
      unfold is_u8 in Ha, Hc. rewrite u32_small by (unfold is_u32; lia). cbn [words_sum].
      replace (sum + (a + 256 * c + words_sum l)) with (sum + (a + 256 * (c + 256 * 0)) + words_sum l) by lia.
      apply (IH (l1 ++ [a; c])); [by rewrite Hb, <- app_assoc|rewrite length_app; cbn; lia|exact He|done|done|lia|lia].
Qed.

Lemma checksum_ok b data len sum l1 l l3 (s : S) :
  b = l1 ++ l ++ l3 -> data = Z.of_nat (length l1) -> len = Z.of_nat (length l) ->
  bytes l -> (Nat.even (length l) = false -> l3 <> [] /\ bytes l3) ->
  0 <= sum -> sum + 0x10000 * (len + 1) < 2 ^ 32 ->
  checksum b data len sum s = Ok (fold16 (sum + words_sum l)) s.
Proof.
  intros Hb Hd Hlen Hl Hodd Hs Hov. unfold checksum.
  assert (is_u32 (sum + words_sum l)) as Hu.
  { pose proof (words_sum_range l Hl). unfold is_u32. rewrite <- Hlen in *. zarith. }
  destruct (Nat.even (length l)) eqn:He.
  - pose proof (checksum_words_ok b l1 l l3 data 0 sum s Hb Hd He Hl ltac:(lia) Hs ltac:(lia)) as Hr.
    rewrite Z.add_0_r, <- Hlen in Hr.
    apply loop_runs in Hr; [|pose proof (Nat.Div0.div_le_upper_bound (length l) 2 (length l)); lia].
    step Hr. cbn [Z.eqb negb]. rewrite bind_ret. by apply fold_loop_ok.
  - destruct (Hodd eq_refl) as [Hne Hl3]. destruct l3 as [|y l3]; [done|].
    apply Forall_cons_iff in Hl3 as [Hy _].
    destruct (exists_last (l := l)) as (le & a & ->); [by intros ->|].
    rewrite length_app in He, Hlen. cbn [length] in He, Hlen. rewrite Nat.even_add in He.
    assert (Nat.even (length le) = true) as He' by (by destruct (Nat.even (length le))).
    apply Forall_app in Hl as [Hle Ha]. apply Forall_cons_iff in Ha as [Ha _].
    rewrite words_sum_app in Hu |- * by done. cbn [words_sum] in *.
    rewrite <- app_assoc in Hb.
    pose proof (checksum_words_ok b l1 le ([a] ++ y :: l3) data 1 sum s Hb Hd He' Hle ltac:(lia) Hs
      ltac:(lia)) as Hr.
    assert (Z.of_nat (length le) + 1 = len) as E by lia. rewrite E in Hr.
    apply loop_runs in Hr; [|pose proof (Nat.Div0.div_le_upper_bound (length le) 2 (length le)); lia].
    step Hr. cbn [Z.eqb negb]. rewrite bind_assoc.
    rewrite (bind_ok _ _ _ _ _ (bget_ok b (data + Z.of_nat (length le)) 2 (l1 ++ le) [a; y] l3 s
      ltac:(by rewrite Hb, <- app_assoc) ltac:(rewrite length_app; lia) eq_refl)).
    rewrite bind_ret. cbn [le_val]. rewrite land_FF. unfold is_u8 in Ha, Hy.
    replace ((a + 256 * (y + 256 * 0)) mod 256) with a by zarith.
    rewrite u32_small by (unfold is_u32 in *; lia).
    rewrite <- Z.add_assoc. by apply fold_loop_ok.
Qed.
End checksum_facts.

(** What makes a checksum right: the fold of everything it covers is 0xFFFF. *)
Lemma fold16_add a b : 0 <= a -> 0 <= b -> fold16 (fold16 a + b) = fold16 (a + b).
Proof.
  intros Ha Hb. unfold fold16 at 2. destruct (Z.eqb_spec a 0) as [->|Hne]; [done|].
  unfold fold16. rewrite !(proj2 (Z.eqb_neq _ 0)) by zarith. f_equal.
  replace ((a - 1) mod 0xFFFF + 1 + b - 1) with ((a - 1) mod 0xFFFF + b) by lia.
  rewrite Zplus_mod_idemp_l. f_equal. lia.
Qed.

(** The value [checksum_ip6] stores, for data whose words sum to [t]. *)
Definition chk16 (t : Z) : Z :=
  u16 (if fold16 t =? 0xFFFF then fold16 t else u32 (Z.lnot (fold16 t))).

Lemma chk16_valid t : 0 < t -> fold16 (t + chk16 t) = 0xFFFF.
Proof.
  intros Ht. unfold chk16, Z.lnot, u16, u32. pose proof (fold16_range t ltac:(lia)) as Hr.
  assert (fold16 t mod 0xFFFF = t mod 0xFFFF /\ 0 < fold16 t) as [Hm Hp].
  { unfold fold16. rewrite (proj2 (Z.eqb_neq _ _)) by lia. split; [|zarith].
    rewrite Zplus_mod_idemp_l. f_equal. lia. }
  set (f := fold16 t) in *. clearbody f.
  set (c := (if f =? 0xFFFF then f else Z.pred (- f) mod 0x100000000) mod 0x10000).
  assert (c = if f =? 0xFFFF then 0xFFFF else 0xFFFF - f) as Hc
    by (unfold c; destruct (Z.eqb_spec f 0xFFFF); zarith).
  clearbody c. unfold fold16. rewrite (proj2 (Z.eqb_neq _ _)) by (destruct (f =? 0xFFFF); lia).
  destruct (Z.eqb_spec f 0xFFFF); subst c; zarith.
Qed.

(** ** Frames as lists of fields *)

Definition total (lay : list nat) : nat := foldr Nat.add 0%nat lay.
Definition laid (lay : list nat) (fs : list (list Z)) : Prop := map length fs = lay.

Lemma length_concat_laid (fs : list (list Z)) : length (concat fs) = total (map (@length Z) fs).
Proof. induction fs as [|f fs IH]; cbn; [done|]. rewrite length_app, IH. done. Qed.

Lemma split_layout lay g : length g = total lay -> exists fs, concat fs = g /\ laid lay fs.
Proof.
  revert g. induction lay as [|n lay IH]; intros g Hg.
  - exists []. by apply nil_length_inv in Hg as ->.
  - cbn in Hg. destruct (IH (drop n g)) as (fs & E & Hl); [rewrite length_drop; unfold total in *; lia|].
    exists (take n g :: fs). cbn. rewrite E, take_drop. split; [done|].
    unfold laid in *. cbn. rewrite Hl, length_take. f_equal. lia.
Qed.

Lemma laid_prefix lay fs i : laid lay fs -> length (concat (take i fs)) = total (take i lay).
Proof. intros <-. rewrite length_concat_laid. f_equal. by rewrite firstn_map. Qed.

Lemma splice_middle a b c off l :
  off = Z.of_nat (length a) -> length l = length b -> splice (a ++ b ++ c) off l = a ++ l ++ c.
Proof.
  intros -> Hl. unfold splice. rewrite Nat2Z.id, take_app_length. do 2 f_equal.
  rewrite Hl, <- length_app, app_assoc. by rewrite drop_app_length.
Qed.

Section fields.
Context {S : Type} (lay : list nat).

Lemma bput_laid fs i off l (s : S) :
  laid lay fs -> lay !! i = Some (length l) -> off = Z.of_nat (total (take i lay)) ->
  bput (concat fs) off l s = Ok (concat (<[i := l]> fs)) s /\ laid lay (<[i := l]> fs).
Proof.
  intros Hl Hi Hoff. pose proof (laid_prefix lay fs i Hl) as Hp.
  unfold laid in Hl. rewrite <- Hl in Hi.
  change (map length fs !! i) with ((@length Z <$> fs) !! i) in Hi.
  rewrite list_lookup_fmap in Hi. destruct (fs !! i) as [old|] eqn:Eo; [|done].
  cbn in Hi. injection Hi as Hi. split.
  - rewrite <- (take_drop_middle fs i old Eo) at 1. rewrite insert_take_drop by (by apply lookup_lt_is_Some; eexists).
    rewrite !concat_app. cbn [concat]. unfold bput.
    rewrite (slice_some _ off _ (concat (take i fs)) old (concat (drop (Datatypes.S i) fs)))
      by (done || rewrite ?Hp; congruence). f_equal.
    apply splice_middle; congruence.
  - unfold laid. rewrite <- Hl.
    change (@length Z <$> <[i := l]> fs = @length Z <$> fs). rewrite list_fmap_insert. apply list_insert_id. rewrite list_lookup_fmap, Eo. cbn. by f_equal.
Qed.

Lemma split_fields (fs : list (list Z)) i k :
  concat fs = concat (take i fs) ++ concat (take k (drop i fs)) ++ concat (drop (i + k) fs).
Proof.
  rewrite <- !concat_app. f_equal. rewrite <- drop_drop, take_drop. by rewrite take_drop.
Qed.

Lemma bget_laid fs i k off n (s : S) :
  laid lay fs -> off = Z.of_nat (total (take i lay)) ->
  n = Z.of_nat (total (take k (drop i lay))) ->
  bget (concat fs) off n s = Ok (concat (take k (drop i fs))) s.
Proof.
  intros Hl -> ->. eapply bget_ok; [apply (split_fields fs i k)| |].
  - by rewrite (laid_prefix lay).
  - f_equal. symmetry. apply laid_prefix. unfold laid in *. by rewrite <- Hl, <- skipn_map.
Qed.
End fields.

(** Store field [i] of the frame being built. *)
Ltac put_field i :=
  match goal with
  | L : laid ?lay ?fs |- context [bind (bput (concat ?fs) ?off ?l) _ ?st] =>
    let E := fresh "E" in let L' := fresh "L" in
    destruct (bput_laid lay fs i off l st L) as [E L'];
      [cbn; congruence | reflexivity |]; step E; clear E L; cbn [insert list_insert] in L' |- *
  end.

Lemma rx_get_ok off n l (s : node) : slice (rxbuf s) off n = Some l -> rx_get off n s = Ok l s.
Proof. intros H. unfold rx_get, gets, bind, bget. by rewrite H. Qed.

Lemma slice_length b off n l : slice b off n = Some l -> Z.of_nat (length l) = n.
Proof.
  unfold slice. destruct (_ && _) eqn:E; [|done]. intros [= <-].
  rewrite !andb_true_iff, !Z.leb_le in E. rewrite length_take, length_drop. lia.
Qed.

Lemma slice_bytes b off n l : bytes b -> slice b off n = Some l -> bytes l.
Proof.
  unfold slice. intros Hb. destruct (_ && _); [|done]. intros [= <-].
  by apply Forall_take, Forall_drop.
Qed.

(** The big-endian 16-bit field. *)
Definition be16 (v : Z) : list Z := [u8 (v / 0x100); u8 v].

Lemma le16_htons v : le16 (htons v) = be16 v.
Proof.
  unfold le16, be16, bswap16. cbn [le_bytes].
  assert (u8 (u8 v * 0x100 + u8 (v / 0x100)) = u8 (v / 0x100)) as -> by zarith.
  assert (u8 ((u8 v * 0x100 + u8 (v / 0x100)) / 0x100) = u8 v) as -> by zarith.
  done.
Qed.

Lemma be16_bytes v : bytes (be16 v).
Proof. by repeat constructor; apply u8_range. Qed.

(** The IPv6 pseudo-header (RFC 8200, 8.1) and what a receiver checks. *)
Definition pseudo_header (src dst : list Z) (len nh : Z) : list Z :=
  src ++ dst ++ [0; 0] ++ be16 len ++ [0; 0; 0; nh].

Definition checksum_valid (src dst : list Z) (nh : Z) (payload : list Z) : Prop :=
  fold16 (words_sum (pseudo_header src dst (Z.of_nat (length payload)) nh ++ payload)) = 0xFFFF.

#[export] Instance checksum_valid_dec src dst nh p : Decision (checksum_valid src dst nh p).
Proof. unfold checksum_valid. apply _. Defined.

Lemma even_16 (l : list Z) : length l = 16%nat -> Nat.even (length l) = true.
Proof. by intros ->. Qed.

Lemma words_sum_pseudo src dst len nh payload :
  length src = 16%nat -> length dst = 16%nat ->
  words_sum (pseudo_header src dst len nh ++ payload) =
  nh * 0x100 + words_sum (be16 len) + words_sum (src ++ dst ++ payload).
Proof.
  intros Hs Hd. unfold pseudo_header. rewrite <- !app_assoc.
  rewrite !words_sum_app by (rewrite ?Hs, ?Hd; done). cbn [words_sum be16 app]. lia.
Qed.

(** The interface's addresses have the right size. *)
Definition addresses_ok (s : node) : Prop :=
  length (ifc_mac s) = 6%nat /\ length (ifc_ll_ip6 s) = 16%nat /\
  bytes (ifc_mac s) /\ bytes (ifc_ll_ip6 s).

#[export] Instance addresses_ok_dec s : Decision (addresses_ok s).
Proof. unfold addresses_ok. apply _. Defined.

(** The Ethernet and IPv6 headers of every frame sent. *)
Definition eth_ip6_header (dst_mac src_mac src_ip dst_ip : list Z) (len nh : Z) : list Z :=
  dst_mac ++ src_mac ++ [0x86; 0xDD] ++
  [0x60; 0; 0; 0] ++ be16 len ++ [nh; 255] ++ src_ip ++ dst_ip.

(** The checksum routine on a frame whose IPv6 header starts at offset 16. *)
Lemma checksum_ip6_ok pre l16 nh hop addrs payload post (st : node) :
  length pre = 20%nat -> length l16 = 2%nat -> length addrs = 32%nat ->
  bytes l16 -> bytes addrs -> bytes payload -> is_u8 nh ->
  (length payload <= 1480)%nat -> (Nat.even (length payload) = false -> post <> []) -> bytes post ->
  checksum_ip6 (pre ++ l16 ++ [nh; hop] ++ addrs ++ payload ++ post) 16
    (Z.of_nat (length payload)) st =
  Ok (let f := fold16 (nh * 0x100 + words_sum l16 + words_sum (addrs ++ payload)) in
      if f =? 0xffff then f else u32 (Z.lnot f)) st.
Proof.
  intros Hpre H16 Haddr B16 Baddr Bpay Hnh Hlen Hpost Bpost. unfold checksum_ip6.
  set (b := pre ++ l16 ++ [nh; hop] ++ addrs ++ payload ++ post).
  assert (bget b (16 + IP6_NEXT_HEADER) 1 st = Ok [nh] st) as E1.
  { apply (bget_ok _ _ _ (pre ++ l16) [nh] (hop :: addrs ++ payload ++ post));
      [unfold b; by rewrite <- !app_assoc|rewrite length_app, Hpre, H16; done|done]. }
  step E1. cbn [le_val]. replace (nh + 256 * 0) with nh by lia.
  assert (htons nh = nh * 0x100) as -> by (unfold bswap16, is_u8 in *; zarith).
  pose proof (words_sum_range l16 B16) as R16. rewrite H16 in R16. change ((Z.of_nat 2 + 1) / 2) with 1 in R16.
  unfold is_u8 in Hnh.
  assert (checksum b (16 + IP6_LENGTH) 2 (nh * 0x100) st =
    Ok (fold16 (nh * 0x100 + words_sum l16)) st) as E2.
  { apply (checksum_ok _ _ _ _ pre l16 ([nh; hop] ++ addrs ++ payload ++ post));
      [done|by rewrite Hpre|by rewrite H16|done|by rewrite H16|lia|lia]. }
  step E2. rewrite u32_small by (unfold is_u32; lia).
  pose proof (fold16_range (nh * 0x100 + words_sum l16) ltac:(lia)) as Rf.
  assert (checksum b (16 + IP6_SRC) (Z.of_nat (length payload) + 32)
    (fold16 (nh * 0x100 + words_sum l16)) st =
    Ok (fold16 (fold16 (nh * 0x100 + words_sum l16) + words_sum (addrs ++ payload))) st) as E3.
  { apply (checksum_ok _ _ _ _ (pre ++ l16 ++ [nh; hop]) (addrs ++ payload) post).
    - unfold b. by rewrite <- !app_assoc.
    - rewrite !length_app, Hpre, H16. done.
    - rewrite length_app, Haddr. lia.
    - by apply Forall_app.
    - rewrite length_app, Haddr, Nat.even_add. intros He. split; [|done]. apply Hpost.
      by destruct (Nat.even (length payload)).
    - lia.
    - lia. }
  step E3. rewrite fold16_add; [done|lia|].
  apply words_sum_range. by apply Forall_app.
Qed.

Lemma bytes_concat_nth fs i : bytes (concat fs) -> bytes (nth i fs []).
Proof.
  revert i. induction fs as [|f fs IH]; intros [|i] H; try done; apply Forall_app in H as [? ?]; cbn; auto.
Qed.

(** The checksum field counts as the value stored in it. *)
Lemma words_sum_field a c b :
  Nat.even (length a) = true -> is_u16 c ->
  words_sum (a ++ le16 c ++ b) = words_sum (a ++ le16 0 ++ b) + c.
Proof.
  intros Ha Hc. rewrite !words_sum_app by done. rewrite !words_sum_le16 by (done || zarith). lia.
Qed.

Lemma chk16_u16 t : is_u16 (chk16 t).
Proof. apply u16_range. Qed.

Lemma le16_u16 v : le16 (u16 v) = le16 v.
Proof.
  unfold le16. cbn [le_bytes]. assert (u8 (u16 v) = u8 v) as -> by zarith.
  assert (u8 (u16 v / 0x100) = u8 (v / 0x100)) as -> by zarith. done.
Qed.

(** The same on a reply: nothing of the bytes around it counts. *)
Lemma reply_checksum pad dst mac ll ip nh payload rest (st : node) :
  length pad = 2%nat -> length dst = 6%nat -> length mac = 6%nat ->
  length ll = 16%nat -> length ip = 16%nat -> bytes ll -> bytes ip -> bytes payload -> is_u8 nh ->
  (length payload + length rest = 1480)%nat -> bytes rest ->
  let n := Z.of_nat (length payload) in
  let t := nh * 0x100 + words_sum (be16 n) + words_sum (ll ++ ip ++ payload) in
  exists sum, le16 sum = le16 (chk16 t) /\
    checksum_ip6 (concat [pad; dst; mac; be16 ETH_TYPE_IP6; le32 96; be16 n; [nh]; [255]; ll; ip;
      payload; rest]) sizeof_eth_hdr_t n st = Ok sum st.
Proof.
  intros Hpad Hdst Hmac Hll Hip Bll Bip Bp Hnh Hlen Brest n t.
  exists (if fold16 t =? 0xffff then fold16 t else u32 (Z.lnot (fold16 t))).
  split; [unfold chk16; by rewrite le16_u16|].
  replace (concat _) with ((pad ++ dst ++ mac ++ be16 ETH_TYPE_IP6 ++ le32 96) ++ be16 n ++
    [nh; 255] ++ (ll ++ ip) ++ payload ++ rest) by (cbn [concat]; by rewrite app_nil_r, <- !app_assoc).
  unfold t. rewrite (app_assoc ll ip payload). apply checksum_ip6_ok; try done.
  - by rewrite !length_app, Hpad, Hdst, Hmac.
  - by rewrite length_app, Hll, Hip.
  - apply be16_bytes.
  - by apply Forall_app.
  - lia.
  - intros He ->. cbn in Hlen. replace (length payload) with 1480%nat in He by lia. discriminate He.
Qed.

(** The stored checksum makes the packet one that a receiver accepts. *)
Lemma stored_valid ll ip nh a b :
  length ll = 16%nat -> length ip = 16%nat -> bytes ll -> bytes ip -> bytes a -> bytes b ->
  Nat.even (length a) = true -> 0 < nh ->
  let payload c := a ++ le16 c ++ b in
  let t := nh * 0x100 + words_sum (be16 (Z.of_nat (length (payload 0)))) +
           words_sum (ll ++ ip ++ payload 0) in
  checksum_valid ll ip nh (payload (chk16 t)).
Proof.
  intros Hll Hip Bll Bip Ba Bb Hev Hnh payload t. unfold checksum_valid.
  rewrite words_sum_pseudo by done.
  assert (length (payload (chk16 t)) = length (payload 0)) as -> by (unfold payload; by rewrite !length_app).
  unfold payload at 2. rewrite !app_assoc, <- (app_assoc _ (le16 _)).
  rewrite words_sum_field; [|rewrite !length_app, Hll, Hip; exact Hev|apply chk16_u16].
  rewrite <- !app_assoc. change (a ++ le16 0 ++ b) with (payload 0). rewrite Z.add_assoc. fold t.
  apply chk16_valid. unfold t.
  pose proof (words_sum_range (be16 (Z.of_nat (length (payload 0)))) (be16_bytes _)).
  assert (bytes (ll ++ ip ++ payload 0)) as B
    by (unfold payload; rewrite !Forall_app; repeat split; (done || apply le_bytes_u8)).
  pose proof (words_sum_range _ B). lia.
Qed.

Section replies.
Context `{!EthTx} (garbage : list Z) (Hgarbage : length garbage = 1536%nat) (Hgb : bytes garbage).
Context (s : node) (Haddr : addresses_ok s) (Htx : tx_ok s) (Hrx : bytes (rxbuf s)).

(** What is sent in reply to the UDP datagram whose payload is at [replyto]. *)
Definition udp_header (sport dport : list Z) (len chk : Z) : list Z :=
  sport ++ dport ++ be16 len ++ le16 chk.

Lemma net_tx_udp_reply_ok replyto data len port rx_src rx_ip rx_port d :
  slice (rxbuf s) (replyto - 64 + 8) 6 = Some rx_src ->
  slice (rxbuf s) (replyto - 64 + 24) 16 = Some rx_ip ->
  slice (rxbuf s) (replyto - 64 + 56) 2 = Some rx_port ->
  payload_get data len s = Ok d s -> Z.of_nat (length d) = len -> bytes d -> len <= 1472 ->
  exists s' chk,
    net_tx_udp_reply garbage replyto data len port s = Ok tt s' /\ only_tx s s' /\ tx_ok s' /\
    let udp := udp_header (be16 port) rx_port (len + 8) chk ++ d in
    n_tx s' = n_tx s ++
      [eth_ip6_header rx_src (ifc_mac s) (ifc_ll_ip6 s) rx_ip (len + 8) 17 ++ udp] /\
    checksum_valid (ifc_ll_ip6 s) rx_ip 17 udp.
Proof.
  intros Hsrc Hip Hport Hdata Hlen Hd Hmax. destruct Haddr as (Hm6 & Hl16 & Hmb & Hlb).
  pose proof (slice_length _ _ _ _ Hsrc) as Lsrc. pose proof (slice_length _ _ _ _ Hip) as Lip.
  pose proof (slice_length _ _ _ _ Hport) as Lport.
  assert (length rx_src = 6%nat) as Lsrc' by lia. assert (length rx_ip = 16%nat) as Lip' by lia.
  assert (length rx_port = 2%nat) as Lport' by lia. clear Lsrc Lip Lport.
  pose proof (slice_bytes _ _ _ _ Hrx Hip) as Bip. pose proof (slice_bytes _ _ _ _ Hrx Hport) as Bport.
  unfold net_tx_udp_reply. rewrite Z.gtb_ltb, (proj2 (Z.ltb_ge _ _)) by done.
  destruct (split_layout [2; 6; 6; 2; 4; 2; 1; 1; 16; 16; 2; 2; 2; 2; length d; 1472 - length d]%nat
    garbage) as (fs & Hfs & L).
  { rewrite Hgarbage. cbn. lia. }
  assert (bytes (nth 15 fs [])) as Hrest by (apply bytes_concat_nth; by rewrite Hfs).
  rewrite <- Hfs. clear Hfs.
  do 16 (destruct fs as [|? fs]; [done|]). destruct fs; [|done]. cbn [nth] in Hrest.
  assert (rx_get (replyto - sizeof_udp6_pkt_t + sizeof_eth_hdr_t + IP6_SRC) 16 s = Ok rx_ip s) as Eip.
  { apply rx_get_ok. rewrite <- Hip. f_equal. change sizeof_udp6_pkt_t with 64.
    change sizeof_eth_hdr_t with 16. unfold IP6_SRC. lia. }
  assert (rx_get (replyto - sizeof_udp6_pkt_t + (sizeof_eth_hdr_t + sizeof_ip6_hdr_t) + UDP_SRC_PORT)
    2 s = Ok rx_port s) as Eport.
  { apply rx_get_ok. rewrite <- Hport. f_equal. change sizeof_udp6_pkt_t with 64.
    change (sizeof_eth_hdr_t + sizeof_ip6_hdr_t) with 56. unfold UDP_SRC_PORT. lia. }
  step (rx_get_ok _ _ _ s Hsrc). put_field 1%nat.
  unfold gets at 1. unfold bind at 1. put_field 2%nat. rewrite le16_htons. put_field 3%nat.
  put_field 4%nat. rewrite le16_htons. put_field 5%nat. put_field 6%nat. put_field 7%nat.
  unfold gets at 1. unfold bind at 1. put_field 8%nat. step Eip. put_field 9%nat.
  rewrite le16_htons. put_field 10%nat. step Eport. put_field 11%nat. rewrite le16_htons.
  put_field 12%nat. put_field 13%nat. step Hdata. put_field 14%nat.
  replace (UDP_HDR_LEN + len) with (len + UDP_HDR_LEN) in * by lia. change UDP_HDR_LEN with 8 in *.
  set (a := be16 port ++ rx_port ++ be16 (len + 8)).
  assert (length a = 6%nat) as La by (unfold a; by rewrite !length_app, Lport').
  assert (bytes a) as Ba by (unfold a; rewrite !Forall_app; repeat split; (apply be16_bytes || done)).
  assert (Z.of_nat (length (a ++ le16 0 ++ d)) = len + 8) as Lu
    by (rewrite !length_app, La; cbn [length le16 le_bytes]; lia).
  assert (length l = 2%nat /\ length l14 = (1472 - length d)%nat) as [Ll0 Ll14]
    by (split; [exact (f_equal (fun x => nth 0 x 0%nat) L)|exact (f_equal (fun x => nth 15 x 0%nat) L)]).
  destruct (reply_checksum l rx_src (ifc_mac s) (ifc_ll_ip6 s) rx_ip 17 (a ++ le16 0 ++ d) l14 s)
    as (sum & Hsum & Ec); try done.
  { rewrite !Forall_app. repeat split; (apply le_bytes_u8 || done). }
  { lia. }
  rewrite Lu in Ec. unfold a in Ec. cbn [concat] in Ec. rewrite <- !app_assoc in Ec.
  step Ec. put_field 13%nat. rewrite Hsum in *. clear Ec Hsum sum.
  step (bget_laid _ _ 1 14 2 (ETH_HDR_LEN + IP6_HDR_LEN + 8 + len) s L0 eq_refl
    ltac:(cbn; rewrite <- Hlen; unfold ETH_HDR_LEN, IP6_HDR_LEN; lia)).
  set (t := 17 * 0x100 + _ + _). cbn [take drop concat]. rewrite app_nil_r.
  set (frame := _ ++ _).
  destruct (eth_tx_sends frame s) as (s' & -> & Hs'); [|done|].
  { unfold frame. rewrite !length_app. cbn [length be16 le16 le32 le_bytes]. lia. }
  exists s', (chk16 t). split; [done|]. destruct Hs' as (Hsent & Hok & Honly).
  split; [done|]. split; [done|]. split.
  - rewrite Hsent. unfold frame, eth_ip6_header, udp_header. by rewrite <- !app_assoc.
  - replace (udp_header _ _ _ _ ++ d) with (a ++ le16 (chk16 t) ++ d)
      by (unfold a, udp_header; by rewrite <- !app_assoc).
    apply stored_valid; try done. by rewrite La.
Qed.

Lemma net_tx_ip6_reply_ok replyto data len type chk_off rx_src rx_ip a b :
  slice (rxbuf s) (replyto - 56 + 8) 6 = Some rx_src ->
  slice (rxbuf s) (replyto - 56 + 24) 16 = Some rx_ip ->
  payload_get data len s = Ok (a ++ le16 0 ++ b) s -> bytes a -> bytes b ->
  Z.of_nat (length (a ++ le16 0 ++ b)) = len -> len <= 1480 ->
  Z.of_nat (length a) = chk_off -> Nat.even (length a) = true -> 0 < type < 0x100 ->
  exists s' chk,
    net_tx_ip6_reply garbage replyto data len type chk_off s = Ok tt s' /\ only_tx s s' /\ tx_ok s' /\
    let payload := a ++ le16 chk ++ b in
    n_tx s' = n_tx s ++
      [eth_ip6_header rx_src (ifc_mac s) (ifc_ll_ip6 s) rx_ip len type ++ payload] /\
    checksum_valid (ifc_ll_ip6 s) rx_ip type payload.
Proof.
  intros Hsrc Hip Hdata Ba Bb Hlen Hmax Hoff Hev Htype. destruct Haddr as (Hm6 & Hl16 & Hmb & Hlb).
  pose proof (slice_length _ _ _ _ Hsrc) as Lsrc. pose proof (slice_length _ _ _ _ Hip) as Lip.
  assert (length rx_src = 6%nat) as Lsrc' by lia. assert (length rx_ip = 16%nat) as Lip' by lia.
  clear Lsrc Lip. pose proof (slice_bytes _ _ _ _ Hrx Hip) as Bip.
  unfold net_tx_ip6_reply. rewrite Z.gtb_ltb, (proj2 (Z.ltb_ge _ _)) by done.
  set (d := a ++ le16 0 ++ b) in *.
  assert (bytes d) as Bd by (unfold d; rewrite !Forall_app; repeat split; (done || apply le_bytes_u8)).
  destruct (split_layout [2; 6; 6; 2; 4; 2; 1; 1; 16; 16; length d; 1480 - length d]%nat
    garbage) as (fs & Hfs & L).
  { rewrite Hgarbage. cbn. lia. }
  assert (bytes (nth 11 fs [])) as Hrest by (apply bytes_concat_nth; by rewrite Hfs).
  rewrite <- Hfs. clear Hfs.
  do 12 (destruct fs as [|? fs]; [done|]). destruct fs; [|done]. cbn [nth] in Hrest.
  assert (rx_get (replyto - sizeof_ip6_pkt_t + sizeof_eth_hdr_t + IP6_SRC) 16 s = Ok rx_ip s) as Eip.
  { apply rx_get_ok. rewrite <- Hip. f_equal. change sizeof_ip6_pkt_t with 56.
    change sizeof_eth_hdr_t with 16. unfold IP6_SRC. lia. }
  step (rx_get_ok _ _ _ s Hsrc). put_field 1%nat.
  unfold gets at 1. unfold bind at 1. put_field 2%nat. rewrite le16_htons. put_field 3%nat.
  put_field 4%nat. rewrite le16_htons. put_field 5%nat.
  rewrite (u8_small type) by (unfold is_u8; lia). put_field 6%nat. put_field 7%nat.
  unfold gets at 1. unfold bind at 1. put_field 8%nat. step Eip. put_field 9%nat.
  step Hdata. put_field 10%nat.
  assert (length l = 2%nat /\ length l10 = (1480 - length d)%nat) as [Ll0 Ll10]
    by (split; [exact (f_equal (fun x => nth 0 x 0%nat) L)|exact (f_equal (fun x => nth 11 x 0%nat) L)]).
  destruct (reply_checksum l rx_src (ifc_mac s) (ifc_ll_ip6 s) rx_ip type d l10 s)
    as (sum & Hsum & Ec); try done.
  { unfold is_u8. lia. }
  { lia. }
  rewrite Hlen in Ec, Hsum. step Ec. clear Ec.
  replace (concat _) with (concat [l; rx_src; ifc_mac s; be16 ETH_TYPE_IP6; le32 96; be16 len; [type];
    [255]; ifc_ll_ip6 s; rx_ip; a; le16 0; b; l10])
    by (cbn [concat]; unfold d; by rewrite <- !(app_assoc _ _ (l10 ++ []))).
  assert (laid [2; 6; 6; 2; 4; 2; 1; 1; 16; 16; length a; 2; length b; 1480 - length d]%nat
    [l; rx_src; ifc_mac s; be16 ETH_TYPE_IP6; le32 96; be16 len; [type];
     [255]; ifc_ll_ip6 s; rx_ip; a; le16 0; b; l10]) as L'
    by (unfold laid; cbn [map]; by rewrite Ll0, Lsrc', Hm6, Hl16, Lip', Ll10).
  destruct (bput_laid _ _ 11 (sizeof_eth_hdr_t + sizeof_ip6_hdr_t + chk_off) (le16 sum) s L')
    as [E L0]; [done| |].
  { cbn. change sizeof_eth_hdr_t with 16. change sizeof_ip6_hdr_t with 40. lia. }
  step E. clear E L L'. cbn [insert list_insert] in L0 |- *.
  rewrite Hsum in *. clear Hsum sum. set (t := type * 0x100 + _ + _) in *.
  assert (len = Z.of_nat (length a) + 2 + Z.of_nat (length b)) as Elen
    by (rewrite <- Hlen; unfold d; rewrite !length_app; cbn [length le16 le_bytes]; lia).
  step (bget_laid _ _ 1 12 2 (ETH_HDR_LEN + IP6_HDR_LEN + len) s L0 eq_refl
    ltac:(cbn; rewrite Elen; unfold ETH_HDR_LEN, IP6_HDR_LEN; lia)).
  cbn [take drop concat]. rewrite app_nil_r. set (frame := _ ++ _).
  destruct (eth_tx_sends frame s) as (s' & -> & Hs'); [|done|].
  { unfold frame. rewrite !length_app. cbn [length be16 le16 le32 le_bytes]. lia. }
  exists s', (chk16 t). split; [done|]. destruct Hs' as (Hsent & Hok & Honly).
  split; [done|]. split; [done|]. split.
  - rewrite Hsent. unfold frame, eth_ip6_header. by rewrite <- !app_assoc.
  - unfold t. rewrite <- Hlen. apply stored_valid; try done. lia.
Qed.
End replies.

(** ** Frames that arrive *)

(** An Ethernet frame with an IPv6 header; [f_payload] includes any padding. *)
Record frame6 := {
  f_dmac : list Z;
  f_smac : list Z;
  f_type : list Z;
  f_bits : list Z;
  f_iplen : list Z;
  f_nh : Z;
  f_hop : Z;
  f_sip : list Z;
  f_dip : list Z;
  f_payload : list Z;
}.

Definition frame_fields (f : frame6) : list (list Z) :=
  [f_dmac f; f_smac f; f_type f; f_bits f; f_iplen f; [f_nh f]; [f_hop f]; f_sip f; f_dip f; f_payload f].

Definition frame_ok (f : frame6) : Prop :=
  map length (frame_fields f) = [6; 6; 2; 4; 2; 1; 1; 16; 16; length (f_payload f)]%nat /\
  bytes (concat (frame_fields f)).

#[export] Instance frame_ok_dec f : Decision (frame_ok f).
Proof. unfold frame_ok. apply _. Defined.

(** [f] is in the receive buffer, at its place. *)
Definition received (f : frame6) (s : node) : Prop :=
  exists rest, rxbuf s = [0; 0] ++ concat (frame_fields f) ++ rest /\ bytes rest.

Lemma slice_laid lay fs i k off n :
  laid lay fs -> off = Z.of_nat (total (take i lay)) ->
  n = Z.of_nat (total (take k (drop i lay))) ->
  slice (concat fs) off n = Some (concat (take k (drop i fs))).
Proof.
  intros L Ho Hn. pose proof (bget_laid (S := unit) lay fs i k off n tt L Ho Hn) as E.
  unfold bget in E. destruct (slice _ _ _); [congruence|done].
Qed.

(** The receive buffer as a list of fields: padding, the frame, the rest. *)
Lemma received_laid f s : frame_ok f -> received f s -> exists rest,
  rxbuf s = concat ([0; 0] :: frame_fields f ++ [rest]) /\ bytes rest /\
  laid [2; 6; 6; 2; 4; 2; 1; 1; 16; 16; length (f_payload f); length rest]%nat
    ([0; 0] :: frame_fields f ++ [rest]).
Proof.
  intros [Hl _] (rest & Hr & Hb). exists rest. split; [|split; [done|]].
  - rewrite Hr. cbn [concat]. rewrite concat_app. cbn [concat]. by rewrite app_nil_r.
  - unfold laid. cbn [map]. rewrite map_app, Hl. done.
Qed.

Lemma received_bytes f s : frame_ok f -> received f s -> bytes (rxbuf s).
Proof.
  intros [_ Hb] (rest & -> & Hr). rewrite !Forall_app. split; [|done]. by repeat constructor.
Qed.

(** What the interface is set up for. *)
Definition link_local (mac : list Z) : list Z :=
  [0xFE; 0x80; 0; 0; 0; 0; 0; 0; Z.lxor (byte mac 0) 2; byte mac 1; byte mac 2; 0xFF;
   0xFE; byte mac 3; byte mac 4; byte mac 5].
Definition solicited_node (mac : list Z) : list Z :=
  [0xFF; 0x02; 0; 0; 0; 0; 0; 0; 0; 0; 0; 1; 0xFF; byte mac 3; byte mac 4; byte mac 5].
Definition solicited_mac (mac : list Z) : list Z :=
  [0x33; 0x33; 0xFF; byte mac 3; byte mac 4; byte mac 5].

Definition interface_ok (s : node) : Prop :=
  length (ifc_mac s) = 6%nat /\ bytes (ifc_mac s) /\
  ifc_ll_ip6 s = link_local (ifc_mac s) /\ mcast_ns_ip6 s = solicited_node (ifc_mac s) /\
  m_ifc_mac s = [0; 0] ++ ifc_mac s /\ m_ns_mac s = [0; 0] ++ solicited_mac (ifc_mac s).

#[export] Instance interface_ok_dec s : Decision (interface_ok s).
Proof. unfold interface_ok. apply _. Defined.

Lemma byte_u8 l i : bytes l -> is_u8 (byte l i).
Proof.
  intros H. unfold byte. destruct (nth_in_or_default i l 0) as [Hin| ->]; [|by_decide].
  rewrite List.Forall_forall in H. by apply H.
Qed.

Lemma lxor_u8 a b : is_u8 a -> is_u8 b -> is_u8 (Z.lxor a b).
Proof.
  unfold is_u8. intros Ha Hb. assert (0 <= Z.lxor a b) by (apply Z.lxor_nonneg; lia).
  split; [done|]. destruct (decide (Z.lxor a b = 0)) as [->|]; [done|].
  change 0x100 with (2 ^ 8). apply Z.log2_lt_pow2; [lia|].
  pose proof (Z.log2_lxor a b ltac:(lia) ltac:(lia)).
  pose proof (Z.log2_le_mono a 255 ltac:(lia)). pose proof (Z.log2_le_mono b 255 ltac:(lia)).
  change (Z.log2 255) with 7 in *. lia.
Qed.

Lemma interface_addresses s : interface_ok s -> addresses_ok s.
Proof.
  intros (Hl & Hb & Hll & _). unfold addresses_ok. rewrite Hll.
  split; [done|]. split; [done|]. split; [done|].
  unfold link_local. repeat constructor; try done; try (by apply byte_u8).
  all: apply lxor_u8; [by apply byte_u8|done].
Qed.

(** Which frames are for this node: the delivery as multicast or not. *)
Definition ip6_for_us (s : node) (mcast : Z) (dip : list Z) : bool :=
  if mcast =? 0 then bool_decide (dip = link_local (ifc_mac s))
  else bool_decide (dip = mcast_ll_ip6 \/ dip = solicited_node (ifc_mac s)).

Definition rx_mcast (s : node) (f : frame6) : option Z :=
  let deliver mcast := if ip6_for_us s mcast (f_dip f) then Some mcast else None in
  if decide (f_dmac f = ifc_mac s) then deliver 0
  else if decide (f_dmac f = solicited_mac (ifc_mac s) \/ f_dmac f = [0x33; 0x33; 0; 0; 0; 1]) then deliver 1
  else None.

Definition accepts (s : node) (f : frame6) : option Z :=
  if decide (f_type f = [0x86; 0xDD]) then rx_mcast s f else None.

Section reception.
Context `{!EthTx, !UdpClient} (garbage : list Z).

(** A field of the frame that is [k] fields from field [i] on. *)
Lemma rx_fields f s i k off n l :
  frame_ok f -> received f s ->
  (i + k <= 10)%nat ->
  off = Z.of_nat (total (take i [2; 6; 6; 2; 4; 2; 1; 1; 16; 16]%nat)) ->
  n = Z.of_nat (total (take k (drop i [2; 6; 6; 2; 4; 2; 1; 1; 16; 16]%nat))) ->
  concat (take k (drop i ([0; 0] :: frame_fields f))) = l ->
  slice (rxbuf s) off n = Some l.
Proof.
  intros Hf Hr Hik -> -> <-. destruct (received_laid f s Hf Hr) as (rest & -> & _ & L).
  rewrite (slice_laid _ _ i k _ _ L).
  - rewrite app_comm_cons, !drop_app_le, !take_app_le; [done|..];
      rewrite ?length_drop; cbn [length frame_fields]; lia.
  - change [2; 6; 6; 2; 4; 2; 1; 1; 16; 16; length (f_payload f); length rest]%nat
      with ([2; 6; 6; 2; 4; 2; 1; 1; 16; 16] ++ [length (f_payload f); length rest])%nat.
    rewrite take_app_le by (cbn; lia). done.
  - change [2; 6; 6; 2; 4; 2; 1; 1; 16; 16; length (f_payload f); length rest]%nat
      with ([2; 6; 6; 2; 4; 2; 1; 1; 16; 16] ++ [length (f_payload f); length rest])%nat.
    rewrite drop_app_le by (cbn; lia). rewrite take_app_le by (rewrite length_drop; cbn; lia). done.
Qed.

(** Part of the payload. *)
Lemma rx_payload f s off n l1 l l2 :
  frame_ok f -> received f s -> f_payload f = l1 ++ l ++ l2 ->
  off = 56 + Z.of_nat (length l1) -> n = Z.of_nat (length l) ->
  slice (rxbuf s) off n = Some l.
Proof.
  intros Hf Hr Hp -> ->. destruct (received_laid f s Hf Hr) as (rest & -> & _ & L).
  pose proof (laid_prefix _ _ 10 L) as H10. set (pre := concat (take 10 _)) in H10.
  eapply (slice_some _ _ _ (pre ++ l1) l (l2 ++ rest)).
  - unfold pre, frame_fields. cbn [take app concat]. rewrite Hp, ?app_nil_r, <- !app_assoc. cbn [app]. by rewrite <- ?app_assoc.
  - rewrite length_app, H10. cbn. lia.
  - done.
Qed.

(** A diagnostic message goes to the console and nowhere else. *)
Lemma message_ok ds last ap txt (s : node) :
  well_formed ds last -> render ds last ap = Some txt ->
  Z.of_nat (length txt) < 2 ^ 31 -> Z.of_nat (length ds) < 2 ^ 32 ->
  exists out, xprintf (unparse ds last) ap s = Ok tt (emit out s).
Proof. intros. eexists. unfold xprintf. by apply vxprintf_ok. Qed.

Lemma plain_message fmt (s : node) :
  well_formed [] fmt -> Z.of_nat (length fmt) < 2 ^ 31 ->
  exists out, xprintf fmt [] s = Ok tt (emit out s).
Proof. intros Hwf Hl. by apply (message_ok [] fmt [] fmt s). Qed.

(** [%02x] of a byte *)
Definition hex2 : directive :=
  {| d_left := false; d_plus := false; d_space := false; d_alt := false; d_zero := true;
     d_width := 2; d_conv := CHex false |}.

Definition rx_dispatch (nh dlen mcast : Z) : M node unit :=
  if nh =? IP_HDR_ICMP then net_rx_icmp6 garbage 56 dlen mcast
  else if nh =? IP_HDR_UDP then net_rx_udp6 56 dlen mcast
  else xprintf (str "IP6: HDR %u ?" ++ [10]) [VaWord nh].

Ltac rx_field i k :=
  eapply (rx_fields _ _ i k); [eassumption|eassumption|cbn; lia|done|done|cbn; rewrite ?app_nil_r; done].

Lemma net_rx_ip6_ok f s mcast len :
  interface_ok s -> frame_ok f -> received f s -> 40 <= len < 2 ^ 32 -> mcast = 0 \/ mcast = 1 ->
  if ip6_for_us s mcast (f_dip f) then net_rx_ip6 garbage 16 len mcast s = rx_dispatch (f_nh f) (len - 40) mcast s
  else exists out, net_rx_ip6 garbage 16 len mcast s = Ok tt (emit out s).
Proof.
  intros (Hlm & _ & Hll & Hns & _) Hf Hr Hlen Hm.
  assert (rx_get (16 + IP6_DST) 16 s = Ok (f_dip f) s) as E1
    by (apply rx_get_ok; rx_field 9%nat 1%nat).
  assert (rx_get8 (16 + IP6_NEXT_HEADER) s = Ok (f_nh f) s) as E2.
  { unfold rx_get8. erewrite bind_ok; [|apply rx_get_ok; rx_field 6%nat 1%nat].
    unfold ret. f_equal. cbn [le_val]. lia. }
  unfold net_rx_ip6. step E1. rewrite !(bind_ok get _ s s s eq_refl), Hll, Hns.
  assert ((f_nh <- rx_get8 (16 + IP6_NEXT_HEADER) ;;
    if f_nh =? IP_HDR_ICMP then net_rx_icmp6 garbage (16 + sizeof_ip6_hdr_t) (u32 (len - sizeof_ip6_hdr_t)) mcast
    else if f_nh =? IP_HDR_UDP then net_rx_udp6 (16 + sizeof_ip6_hdr_t) (u32 (len - sizeof_ip6_hdr_t)) mcast
    else xprintf (str "IP6: HDR %u ?" ++ [10]) [VaWord f_nh]) s =
    rx_dispatch (f_nh f) (len - 40) mcast s) as E3.
  { step E2. unfold rx_dispatch. change sizeof_ip6_hdr_t with 40.
    by rewrite u32_small by (unfold is_u32; lia). }
  unfold ip6_for_us. destruct Hm as [-> | ->]; cbn [Z.eqb negb andb].
  - destruct (bool_decide_reflect (f_dip f = link_local (ifc_mac s))) as [E|E].
    + by rewrite (bool_decide_eq_false_2 (f_dip f <> _)) by tauto.
    + rewrite (bool_decide_eq_true_2 (f_dip f <> _)) by done. apply plain_message; [by_decide|done].
  - destruct (bool_decide_reflect (f_dip f = mcast_ll_ip6 \/ f_dip f = solicited_node (ifc_mac s))) as [E|E].
    + rewrite (proj2 (andb_false_iff _ _)); [done|].
      destruct E; [left|right]; apply bool_decide_eq_false_2; tauto.
    + rewrite !(bool_decide_eq_true_2 (f_dip f <> _)) by tauto. apply plain_message; [by_decide|done].
Qed.

Lemma hex2_short b : is_u32 b -> (length (justify false true 2 [] (hex false b)) <= 20)%nat.
Proof.
  intros Hb. pose proof (digits_length 16 b ltac:(lia) Hb). unfold justify, hex, zeros.
  rewrite !length_app, length_replicate, length_map. cbn [length]. lia.
Qed.

Lemma unknown_mac_message (m : list Z) (s : node) :
  length m = 6%nat -> bytes m ->
  exists out, xprintf (str "ETH ? %02x %02x %02x %02x %02x %02x" ++ [10]) (map VaWord m) s =
    Ok tt (emit out s).
Proof.
  intros Hm Hb. do 6 (destruct m as [|? m]; [done|]). destruct m; [|done].
  repeat match goal with H : Forall _ (_ :: _) |- _ => apply Forall_cons_iff in H as [? H] end.
  assert (forall z, is_u8 z -> u32 z = z) as Hu by (intros; unfold is_u8 in *; zarith).
  change (str "ETH ? %02x %02x %02x %02x %02x %02x" ++ [10]) with
    (unparse [(str "ETH ? ", hex2); ([32], hex2); ([32], hex2); ([32], hex2); ([32], hex2); ([32], hex2)] [10]).
  cbn [map]. eapply message_ok; [by_decide| | |cbn; lia].
  - cbn [render render_directive hex2 d_conv d_alt d_left d_zero d_width andb app option_map].
    reflexivity.
  - rewrite !Hu by done. repeat (rewrite length_app; cbn [length]). change (length (str "ETH ? ")) with 6%nat.
    repeat match goal with H : is_u8 ?z |- _ =>
      pose proof (hex2_short z ltac:(unfold is_u8, is_u32 in *; lia)); clear H end.
    lia.
Qed.

Lemma le16_type a b : is_u8 a -> is_u8 b -> (le_val [a; b] =? htons ETH_TYPE_IP6) = bool_decide ([a; b] = [0x86; 0xDD]).
Proof.
  intros Ha Hb. change (htons ETH_TYPE_IP6) with 0xDD86. cbn [le_val]. unfold is_u8 in *.
  destruct (Z.eqb_spec (a + 256 * (b + 256 * 0)) 0xDD86) as [E|E]; symmetry.
  - apply bool_decide_eq_true_2. repeat f_equal; lia.
  - apply bool_decide_eq_false_2. intros [= -> ->]. lia.
Qed.

Lemma padded_eq (l1 l2 : list Z) : bool_decide ([0; 0] ++ l1 = [0; 0] ++ l2) = bool_decide (l1 = l2).
Proof. apply bool_decide_ext. split; [by intros [=]|by intros ->]. Qed.

Lemma net_rx_eth_ok f s len :
  interface_ok s -> frame_ok f -> received f s ->
  len = 56 + Z.of_nat (length (f_payload f)) -> 60 <= len < 2 ^ 32 ->
  match accepts s f with
  | Some mcast => net_rx_eth garbage 0 len s = rx_dispatch (f_nh f) (len - 56) mcast s
  | None => exists out, net_rx_eth garbage 0 len s = Ok tt (emit out s)
  end.
Proof.
  intros Hi Hf Hr Hl Hlen. pose proof Hf as [Hlf Hbf]. unfold frame_fields in Hlf. cbn [map] in Hlf.
  injection Hlf as Ld Ls Lt _ _ _ _. cbn [frame_fields concat] in Hbf.
  repeat match goal with H : bytes (_ ++ _) |- _ => apply Forall_app in H as [? H] end.
  assert (rx_get (0 + ETH_TYPE) 2 s = Ok (f_type f) s) as E1 by (apply rx_get_ok; rx_field 3%nat 1%nat).
  assert (rx_get 0 8 s = Ok ([0; 0] ++ f_dmac f) s) as E2 by (apply rx_get_ok; rx_field 0%nat 2%nat).
  assert (rx_get (0 + ETH_DST) 6 s = Ok (f_dmac f) s) as E3 by (apply rx_get_ok; rx_field 1%nat 1%nat).
  unfold net_rx_eth, rx_get16. rewrite (proj2 (Z.ltb_ge _ _)) by lia. rewrite bind_assoc. step E1.
  rewrite bind_ret. destruct (f_type f) as [|a [|b []]] eqn:Et; try done.
  repeat match goal with H : bytes (_ :: _) |- _ => apply Forall_cons_iff in H as [? H] end.
  rewrite le16_type by done. unfold accepts. rewrite Et.
  case_bool_decide as E; cbn [negb]; [|rewrite decide_False by done; exists []; by rewrite emit_nil].
  rewrite decide_True by done. step E2. rewrite !(bind_ok get _ s s s eq_refl). unfold rx_mcast.
  pose proof Hi as (_ & _ & Hll & Hns & Hmi & Hmn). rewrite Hmi, Hmn.
  change m_ll_mac with ([0; 0] ++ [0x33; 0x33; 0; 0; 0; 1]). change sizeof_eth_hdr_t with 16.
  assert (forall mcast, mcast = 0 \/ mcast = 1 -> if ip6_for_us s mcast (f_dip f)
    then net_rx_ip6 garbage 16 (len - 16) mcast s = rx_dispatch (f_nh f) (len - 56) mcast s
    else exists out, net_rx_ip6 garbage 16 (len - 16) mcast s = Ok tt (emit out s)) as Hip.
  { intros mcast Hm. replace (len - 56) with (len - 16 - 40) by lia. apply net_rx_ip6_ok; [done..|lia|done]. }
  change (0 + 16) with 16.
  rewrite !padded_eq.
  destruct (decide (f_dmac f = ifc_mac s)) as [Ed|Ed].
  - rewrite bool_decide_eq_true_2 by done. specialize (Hip 0 ltac:(by left)).
    by destruct (ip6_for_us s 0 (f_dip f)).
  - rewrite bool_decide_eq_false_2 by done. case_decide as Em.
    + specialize (Hip 1 ltac:(by right)).
      destruct (bool_decide_reflect (f_dmac f = solicited_mac (ifc_mac s))) as [E4|E4];
        [|rewrite bool_decide_eq_true_2 by tauto]; by destruct (ip6_for_us s 1 (f_dip f)).
    + rewrite !bool_decide_eq_false_2 by tauto. step E3. by apply unknown_mac_message.
Qed.

(** ** Handling a delivered packet *)

Ltac each_byte := repeat apply Forall_cons_2; first [assumption | apply Forall_nil_2 | by_decide].

Definition with_payload (p : list Z) (f : frame6) : frame6 :=
  {| f_dmac := f_dmac f; f_smac := f_smac f; f_type := f_type f; f_bits := f_bits f;
     f_iplen := f_iplen f; f_nh := f_nh f; f_hop := f_hop f; f_sip := f_sip f; f_dip := f_dip f;
     f_payload := p |}.

Lemma frame_ok_with f p : frame_ok f -> bytes p -> frame_ok (with_payload p f).
Proof.
  intros [Hl Hb] Hp. unfold frame_ok, frame_fields in *. cbn [with_payload map
    f_dmac f_smac f_type f_bits f_iplen f_nh f_hop f_sip f_dip f_payload concat] in *.
  repeat match goal with H : bytes (_ ++ _) |- _ => apply Forall_app in H as [? H] end.
  split; [|rewrite !Forall_app; by repeat split].
  injection Hl as ? ? ? ? ? ? ?. by repeat f_equal.
Qed.

Lemma rx_put_ok f s l1 l l2 l' off :
  frame_ok f -> received f s -> f_payload f = l1 ++ l ++ l2 ->
  off = 56 + Z.of_nat (length l1) -> length l' = length l ->
  exists b, rx_put off l' s = Ok tt (set_rxbuf b s) /\
    received (with_payload (l1 ++ l' ++ l2) f) (set_rxbuf b s).
Proof.
  intros Hf Hr Hp Ho Hl. destruct Hf as [Hlf Hbf]. destruct Hr as (rest & Hr & Hb).
  set (pre := [0; 0] ++ concat (take 9 (frame_fields f)) ++ l1).
  set (pre0 := concat (take 9 (frame_fields f))).
  assert (length pre0 = 54%nat) as L0.
  { unfold pre0. rewrite length_concat_laid. rewrite <- firstn_map, Hlf. done. }
  assert (rxbuf s = pre ++ l ++ l2 ++ rest) as E.
  { rewrite Hr. unfold pre, frame_fields. cbn [take concat]. rewrite Hp.
    rewrite ?app_nil_r, <- !app_assoc. done. }
  assert (Z.of_nat (length pre) = off) as Lp.
  { unfold pre. fold pre0. rewrite !length_app, L0. cbn [length]. lia. }
  exists (pre ++ l' ++ l2 ++ rest). split.
  - unfold rx_put, gets, bind at 1, bput. rewrite E.
    rewrite (bind_ok _ _ s (pre ++ l' ++ l2 ++ rest) s); [done|].
    rewrite (slice_some _ off _ pre l (l2 ++ rest)) by (done || (rewrite Hl; done)).
    by rewrite (splice_middle pre l (l2 ++ rest)).
  - exists rest. split; [|done]. cbn [rxbuf set_rxbuf]. unfold pre, frame_fields.
    cbn [take concat with_payload f_dmac f_smac f_type f_bits f_iplen f_nh f_hop f_sip f_dip f_payload].
    rewrite ?app_nil_r, <- !app_assoc. done.
Qed.

Lemma frame_src f s : frame_ok f -> received f s ->
  slice (rxbuf s) (56 - 56 + 8) 6 = Some (f_smac f) /\ slice (rxbuf s) (56 - 56 + 24) 16 = Some (f_sip f).
Proof. intros Hf Hr. split; [rx_field 2%nat 1%nat|rx_field 8%nat 1%nat]. Qed.

Context (Hgarbage : length garbage = 1536%nat) (Hgb : bytes garbage).

Lemma echo_ok f s mcast c1 c2 code body :
  interface_ok s -> tx_ok s -> frame_ok f -> received f s ->
  f_payload f = [128; code; c1; c2] ++ body -> (length body <= 1476)%nat ->
  exists s' chk, net_rx_icmp6 garbage 56 (Z.of_nat (length (f_payload f))) mcast s = Ok tt s' /\
    n_uart s' = n_uart s /\ interface_ok s' /\ tx_ok s' /\
    let reply := [129; code] ++ le16 chk ++ body in
    n_tx s' = n_tx s ++ [eth_ip6_header (f_smac f) (ifc_mac s) (ifc_ll_ip6 s) (f_sip f)
      (Z.of_nat (length (f_payload f))) 58 ++ reply] /\
    checksum_valid (ifc_ll_ip6 s) (f_sip f) 58 reply.
Proof.
  intros Hi Htx Hf Hr Hp Hl.
  assert (bytes (f_payload f)) as Bp.
  { destruct Hf as [_ Hb]. unfold frame_fields in Hb. cbn [concat] in Hb.
    repeat match goal with H : bytes (_ ++ _) |- _ => apply Forall_app in H as [? H] end. done. }
  rewrite Hp in Bp. apply Forall_app in Bp as [Bh Bb].
  repeat match goal with H : Forall _ (_ :: _) |- _ => apply Forall_cons_iff in H as [? H] end.
  assert (length (f_payload f) = (4 + length body)%nat) as Lp by (by rewrite Hp).
  unfold net_rx_icmp6. rewrite (proj2 (Z.ltb_ge _ _)) by (change sizeof_icmp_hdr_t with 4; lia).
  assert (rx_get8 (56 + ICMP_TYPE) s = Ok 128 s) as E1.
  { unfold rx_get8. rewrite (bind_ok _ _ _ [128] s); [done|]. apply rx_get_ok.
    by apply (rx_payload f s _ _ [] [128] ([code; c1; c2] ++ body)). }
  step E1. cbn [Z.eqb Pos.eqb ICMP_NDP_N_SOLICIT ICMP_ECHO_REQUEST].
  destruct (rx_put_ok f s [] [128] ([code; c1; c2] ++ body) [ICMP_ECHO_REPLY] (56 + ICMP_TYPE))
    as (b1 & E2 & Hr1); [done..|].
  step E2. set (f1 := with_payload _ f) in Hr1. set (s1 := set_rxbuf b1 s) in *.
  assert (frame_ok f1) as Hf1.
  { apply frame_ok_with; [done|]. cbn [app]. each_byte. }
  destruct (rx_put_ok f1 s1 [129; code] [c1; c2] body (le16 0) (56 + ICMP_CHECKSUM))
    as (b2 & E3 & Hr2); [done..|].
  step E3. set (f2 := with_payload _ f1) in Hr2. set (s2 := set_rxbuf b2 s1) in *.
  assert (frame_ok f2) as Hf2.
  { apply frame_ok_with; [done|]. cbn [app]. each_byte. }
  destruct (frame_src f2 s2 Hf2 Hr2) as [Hsrc Hsip].
  destruct (net_tx_ip6_reply_ok garbage Hgarbage Hgb s2 (interface_addresses s2 Hi) Htx
    (received_bytes f2 s2 Hf2 Hr2) 56 (inl 56) (Z.of_nat (length (f_payload f))) IP_HDR_ICMP
    ICMP_CHECKSUM (f_smac f) (f_sip f) [129; code] body Hsrc Hsip) as (s' & chk & E & Honly & Hok & Hs');
    [|each_byte|done|by rewrite Lp|lia|done|done|done|].
  { apply rx_get_ok, (rx_payload f2 s2 _ _ [] _ []); [done|done|by rewrite app_nil_r|done|by rewrite Lp]. }
  exists s', chk. split; [exact E|]. destruct Honly as [Honly _]. rewrite Honly. done.
Qed.

Lemma solicit_ok f s mcast c1 c2 fl target opts :
  interface_ok s -> tx_ok s -> frame_ok f -> received f s ->
  f_payload f = [135; 0; c1; c2] ++ fl ++ target ++ opts -> length fl = 4%nat -> length target = 16%nat ->
  if decide (target = ifc_ll_ip6 s) then
    exists s' chk, net_rx_icmp6 garbage 56 (Z.of_nat (length (f_payload f))) mcast s = Ok tt s' /\
      only_tx s s' /\ tx_ok s' /\
      let reply := [136; 0] ++ le16 chk ++ [0x60; 0; 0; 0] ++ ifc_ll_ip6 s ++ [2; 1] ++ ifc_mac s in
      n_tx s' = n_tx s ++ [eth_ip6_header (f_smac f) (ifc_mac s) (ifc_ll_ip6 s) (f_sip f) 32 58 ++ reply] /\
      checksum_valid (ifc_ll_ip6 s) (f_sip f) 58 reply
  else net_rx_icmp6 garbage 56 (Z.of_nat (length (f_payload f))) mcast s = Ok tt s.
Proof.
  intros Hi Htx Hf Hr Hp Hfl Ht.
  assert (Z.of_nat (length (f_payload f)) = 24 + Z.of_nat (length opts)) as ->
    by (rewrite Hp, !length_app, Hfl, Ht; cbn [length]; lia).
  pose proof (interface_addresses s Hi) as (Hlm & Hll & Bm & Bll).
  assert (forall i x l1 l2, f_payload f = l1 ++ [x] ++ l2 -> i = Z.of_nat (length l1) ->
    rx_get8 (56 + i) s = Ok x s) as Hb.
  { intros i x l1 l2 Hx ->. unfold rx_get8. rewrite (bind_ok _ _ _ [x] s).
    - unfold ret. f_equal. cbn [le_val]. lia.
    - by apply rx_get_ok, (rx_payload f s _ _ l1 [x] l2). }
  assert (rx_get (56 + NDP_TARGET) 16 s = Ok target s) as Et.
  { apply rx_get_ok, (rx_payload f s _ _ ([135; 0; c1; c2] ++ fl) target opts); [done|done| | |].
    - by rewrite Hp, <- !app_assoc.
    - rewrite length_app, Hfl. done.
    - by rewrite Ht. }
  unfold net_rx_icmp6. rewrite (proj2 (Z.ltb_ge _ _)) by (change sizeof_icmp_hdr_t with 4; lia).
  step (Hb ICMP_TYPE 135 [] ([0; c1; c2] ++ fl ++ target ++ opts) Hp eq_refl).
  cbn [Z.eqb Pos.eqb ICMP_NDP_N_SOLICIT]. rewrite (proj2 (Z.ltb_ge _ _)) by (change sizeof_ndp_hdr_t with 24; lia).
  step (Hb ICMP_CODE 0 [135] ([c1; c2] ++ fl ++ target ++ opts) Hp eq_refl). cbn [orb negb Z.eqb].
  step Et. rewrite (bind_ok _ _ s (ifc_ll_ip6 s) s) by done.
  destruct (decide (target = ifc_ll_ip6 s)) as [->|Hne]; [|by rewrite decide_True].
  rewrite decide_False by tauto. rewrite (bind_ok _ _ s (ifc_mac s) s) by done.
  set (rest := le32 0x60 ++ ifc_ll_ip6 s ++ [2; 1] ++ ifc_mac s).
  assert (length rest = 28%nat) as Lr by (unfold rest; rewrite !length_app, Hlm, Hll; done).
  destruct (frame_src f s Hf Hr) as [Hsrc Hsip].
  destruct (net_tx_ip6_reply_ok garbage Hgarbage Hgb s (interface_addresses s Hi) Htx
    (received_bytes f s Hf Hr) 56 (inr ([136; 0] ++ le16 0 ++ rest)) 32 IP_HDR_ICMP
    ICMP_CHECKSUM (f_smac f) (f_sip f) [136; 0] rest Hsrc Hsip) as (s' & chk & E & Honly & Hok & Hs');
    [|each_byte| | |done..|].
  - cbn [payload_get]. apply (bget_ok _ _ _ [] _ []); [by rewrite app_nil_r|done|].
    rewrite !length_app, Lr. done.
  - unfold rest. rewrite !Forall_app. split; [apply le_bytes_u8|]. split; [done|]. split; [each_byte|done].
  - rewrite !length_app, Lr. done.
  - exists s', chk. split; [exact E|]. done.
Qed.

Lemma udp_ok f s mcast sport p1 p2 chk data extra :
  frame_ok f -> received f s ->
  f_payload f = sport ++ [p1; p2] ++ be16 (8 + Z.of_nat (length data)) ++ chk ++ data ++ extra ->
  length sport = 2%nat -> length chk = 2%nat -> (length data <= 1472)%nat ->
  net_rx_udp6 56 (Z.of_nat (length (f_payload f))) mcast s =
    pkt_rx_udp 64 (Z.of_nat (length data)) (p1 * 0x100 + p2) mcast s /\
  slice (rxbuf s) 64 (Z.of_nat (length data)) = Some data.
Proof.
  clear Hgarbage Hgb. intros Hf Hr Hp Hsp Hchk Hl.
  assert (is_u8 p1 /\ is_u8 p2) as [H1 H2].
  { destruct Hf as [_ Hb]. unfold frame_fields in Hb. rewrite Hp in Hb. cbn [concat] in Hb.
    rewrite !Forall_app, !Forall_cons_iff in Hb. tauto. }
  assert (Z.of_nat (length (f_payload f)) = 8 + Z.of_nat (length data) + Z.of_nat (length extra)) as ->
    by (rewrite Hp, !length_app, Hsp, Hchk; cbn [length be16]; lia).
  split.
  - assert (rx_get16 (56 + UDP_DST_PORT) s = Ok (p1 + 0x100 * p2) s) as E1.
    { unfold rx_get16. rewrite (bind_ok _ _ s [p1; p2] s).
      - unfold ret. f_equal. cbn [le_val]. lia.
      - apply rx_get_ok, (rx_payload f s _ _ sport [p1; p2] _ Hf Hr Hp); [by rewrite Hsp|done]. }
    assert (rx_get16 (56 + UDP_LENGTH) s = Ok (bswap16 (8 + Z.of_nat (length data))) s) as E2.
    { unfold rx_get16. rewrite (bind_ok _ _ s (be16 (8 + Z.of_nat (length data))) s).
      - unfold ret. f_equal. unfold be16, bswap16. cbn [le_val]. lia.
      - apply rx_get_ok. eapply (rx_payload f s _ _ (sport ++ [p1; p2])); [done|done| | |done].
        + rewrite Hp, <- app_assoc. done.
        + by rewrite length_app, Hsp. }
    unfold net_rx_udp6. rewrite (proj2 (Z.ltb_ge _ _)) by (change sizeof_udp_hdr_t with 8; lia).
    step E1. step E2. change sizeof_udp_hdr_t with 8.
    assert (ntohs (p1 + 0x100 * p2) = p1 * 0x100 + p2) as -> by (unfold bswap16; zarith).
    assert (ntohs (bswap16 (8 + Z.of_nat (length data))) = 8 + Z.of_nat (length data)) as ->
      by (unfold bswap16; zarith).
    rewrite (proj2 (orb_false_iff _ _))
      by (split; [apply Z.ltb_ge|rewrite Z.gtb_ltb; apply Z.ltb_ge]; lia).
    f_equal. lia.
  - eapply (rx_payload f s _ _ (sport ++ [p1; p2] ++ be16 (8 + Z.of_nat (length data)) ++ chk) data extra);
      [done|done| | |done].
    + by rewrite Hp, <- !app_assoc.
    + rewrite !length_app, Hsp, Hchk. done.
Qed.
End reception.

(** ** The properties *)

Section properties.
Context `{!EthTx, !UdpClient} (garbage : list Z) (Hgarbage : length garbage = 1536%nat) (Hgb : bytes garbage).

(** [net_init] sets up, from any state of the interface, the EUI-64
    link-local address, the solicited-node address and both match words for the
    given MAC address; it touches nothing else. *)
Theorem net_init_addresses mac s :
  interface_ok s -> (6 <= length mac)%nat -> bytes mac ->
  exists s', net_init mac s = Ok tt s' /\ interface_ok s' /\ ifc_mac s' = take 6 mac /\
    rxbuf s' = rxbuf s /\ txslot s' = txslot s /\ n_eth s' = n_eth s /\ n_mem s' = n_mem s /\
    n_uart s' = n_uart s /\ n_hw s' = n_hw s.
Proof.
  clear Hgarbage Hgb. intros (Hl & Hb & Hll & Hns & Hmi & Hmn) Hm Bm.
  assert (length (take 6 mac) = 6%nat) as Lm by (rewrite length_take; lia).
  assert (bytes (take 6 mac)) as Bt by (by apply Forall_take).
  unfold net_init, modify. set (m := take 6 mac) in *. clearbody m. clear Hm Bm.
  do 6 (destruct m as [|? m]; [done|]). destruct m; [|done].
  destruct s as [im ll ns mi mn rx slot e mm u]. cbn [ifc_mac ifc_ll_ip6 mcast_ns_ip6 m_ifc_mac m_ns_mac] in *.
  subst ll ns mi mn. do 6 (destruct im as [|? im]; [done|]). destruct im; [|done].
  eexists. split; [reflexivity|]. by split.
Qed.

(** Which frames the stack reacts to.  A frame of at least 60 bytes that is
    not IPv6, or not addressed to one of the interface's three MAC addresses
    with a matching IPv6 destination, never reaches a protocol handler: nothing
    is transmitted, no datagram is delivered, and the state changes in nothing
    but diagnostics on the console. *)
Theorem net_rx_eth_filters f s :
  interface_ok s -> frame_ok f -> received f s -> (4 <= length (f_payload f) < 1480)%nat ->
  accepts s f = None ->
  exists out, net_rx_eth garbage 0 (56 + Z.of_nat (length (f_payload f))) s = Ok tt (emit out s).
Proof.
  clear Hgarbage Hgb. intros Hi Hf Hr Hl Ha. pose proof (net_rx_eth_ok garbage f s _ Hi Hf Hr eq_refl ltac:(lia)) as Hok.
  by rewrite Ha in Hok.
Qed.

(** C22: ping.  An ICMPv6 echo request for this node is answered with exactly
    one frame: back to the sender's MAC and IPv6 addresses, from this node's,
    an echo reply that carries the same identifier, sequence number and data,
    with a checksum the receiver accepts (RFC 4443), whatever the uninitialised
    frame buffer held; the console is silent. *)
Theorem ping_answered f s mcast c1 c2 code body :
  interface_ok s -> tx_ok s -> frame_ok f -> received f s -> accepts s f = Some mcast ->
  f_nh f = 58 -> f_payload f = [128; code; c1; c2] ++ body -> (length body <= 1476)%nat ->
  exists s' chk, net_rx_eth garbage 0 (56 + Z.of_nat (length (f_payload f))) s = Ok tt s' /\
    n_uart s' = n_uart s /\ interface_ok s' /\ tx_ok s' /\
    let reply := [129; code] ++ le16 chk ++ body in
    n_tx s' = n_tx s ++ [eth_ip6_header (f_smac f) (ifc_mac s) (link_local (ifc_mac s)) (f_sip f)
      (Z.of_nat (length (f_payload f))) 58 ++ reply] /\
    checksum_valid (link_local (ifc_mac s)) (f_sip f) 58 reply.
Proof.
  intros Hi Htx Hf Hr Ha Hnh Hp Hl. assert (length (f_payload f) = 4 + length body)%nat as Lp by (by rewrite Hp).
  pose proof (net_rx_eth_ok garbage f s _ Hi Hf Hr eq_refl ltac:(lia)) as Hok. rewrite Ha in Hok.
  rewrite Hok, Hnh. unfold rx_dispatch. cbn [Z.eqb Pos.eqb IP_HDR_ICMP].
  replace (56 + Z.of_nat (length (f_payload f)) - 56) with (Z.of_nat (length (f_payload f))) by lia.
  pose proof Hi as (_ & _ & Hll & _). rewrite <- Hll. by apply (echo_ok _ Hgarbage Hgb _ _ mcast c1 c2).
Qed.

(** Neighbour discovery.  A solicitation for this node's link-local address
    is answered with exactly one solicited, overriding advertisement of the
    node's MAC address with a valid checksum (RFC 4861); a solicitation for
    another address changes nothing at all. *)
Theorem solicitation_answered f s mcast c1 c2 fl target opts :
  interface_ok s -> tx_ok s -> frame_ok f -> received f s -> accepts s f = Some mcast ->
  f_nh f = 58 -> f_payload f = [135; 0; c1; c2] ++ fl ++ target ++ opts ->
  length fl = 4%nat -> length target = 16%nat -> (length opts < 1456)%nat ->
  let ll := link_local (ifc_mac s) in
  if decide (target = ll) then
    exists s' chk, net_rx_eth garbage 0 (56 + Z.of_nat (length (f_payload f))) s = Ok tt s' /\
      only_tx s s' /\ tx_ok s' /\
      let reply := [136; 0] ++ le16 chk ++ [0x60; 0; 0; 0] ++ ll ++ [2; 1] ++ ifc_mac s in
      n_tx s' = n_tx s ++ [eth_ip6_header (f_smac f) (ifc_mac s) ll (f_sip f) 32 58 ++ reply] /\
      checksum_valid ll (f_sip f) 58 reply
  else net_rx_eth garbage 0 (56 + Z.of_nat (length (f_payload f))) s = Ok tt s.
Proof.
  intros Hi Htx Hf Hr Ha Hnh Hp Hfl Ht Hl ll.
  assert (length (f_payload f) = 24 + length opts)%nat as Lp
    by (rewrite Hp, !length_app, Hfl, Ht; cbn [length]; lia).
  pose proof (net_rx_eth_ok garbage f s _ Hi Hf Hr eq_refl ltac:(lia)) as Hok. rewrite Ha in Hok.
  rewrite Hok, Hnh. unfold rx_dispatch. cbn [Z.eqb Pos.eqb IP_HDR_ICMP].
  replace (56 + Z.of_nat (length (f_payload f)) - 56) with (Z.of_nat (length (f_payload f))) by lia.
  pose proof Hi as (_ & _ & Hll & _). unfold ll. rewrite <- Hll.
  by apply (solicit_ok _ Hgarbage Hgb _ _ mcast c1 c2 fl target opts).
Qed.

(** C15: a UDP reply arrives.  The frame [net_tx_udp_reply] sends in answer to
    the datagram at [replyto] carries a valid checksum, and a node with the
    addresses the datagram came from that receives it hands exactly the reply's
    data, on the datagram's source port, to its client. *)
Theorem udp_reply_arrives replyto d len port a rx_src rx_ip p1 p2 data :
  interface_ok a -> tx_ok a -> bytes (rxbuf a) ->
  slice (rxbuf a) (replyto - 64 + 8) 6 = Some rx_src ->
  slice (rxbuf a) (replyto - 64 + 24) 16 = Some rx_ip ->
  slice (rxbuf a) (replyto - 64 + 56) 2 = Some [p1; p2] ->
  payload_get d len a = Ok data a -> Z.of_nat (length data) = len -> bytes data -> len <= 1472 ->
  exists a' frame, net_tx_udp_reply garbage replyto d len port a = Ok tt a' /\ only_tx a a' /\ tx_ok a' /\
    n_tx a' = n_tx a ++ [frame] /\
    checksum_valid (ifc_ll_ip6 a) rx_ip 17 (drop 54 frame) /\
    forall b rest, interface_ok b -> ifc_mac b = rx_src -> ifc_ll_ip6 b = rx_ip ->
      rxbuf b = [0; 0] ++ frame ++ rest -> bytes rest ->
      net_rx_eth garbage 0 (2 + Z.of_nat (length frame)) b =
        pkt_rx_udp 64 len (p1 * 0x100 + p2) 0 b /\
      slice (rxbuf b) 64 len = Some data.
Proof.
  intros Hi Htx Hrx Hsrc Hip Hp Hdata Hlen Hd Hmax.
  pose proof (interface_addresses a Hi) as Haddr.
  destruct (net_tx_udp_reply_ok garbage Hgarbage Hgb a Haddr Htx Hrx replyto d len port rx_src rx_ip [p1; p2]
    data Hsrc Hip Hp Hdata Hlen Hd Hmax) as (a' & chk & E & Honly & Hok & Hsent & Hv).
  destruct Haddr as (Lm & Ll & Bm & Bl).
  pose proof (slice_length _ _ _ _ Hsrc) as Lsrc. pose proof (slice_length _ _ _ _ Hip) as Lip.
  pose proof (slice_bytes _ _ _ _ Hrx Hsrc) as Bsrc. pose proof (slice_bytes _ _ _ _ Hrx Hip) as Bip.
  pose proof (slice_bytes _ _ _ _ Hrx Hp) as Bp.
  set (udp := udp_header (be16 port) [p1; p2] (len + 8) chk ++ data) in *.
  assert (bytes udp) as Budp.
  { unfold udp, udp_header. rewrite !Forall_app. repeat split; (done || apply be16_bytes || apply le_bytes_u8). }
  exists a'. eexists. split; [exact E|]. split; [done|]. split; [done|]. split; [exact Hsent|]. split.
  { unfold eth_ip6_header. rewrite !app_assoc, <- (app_assoc _ _ udp). rewrite !app_assoc.
    rewrite drop_app_length'; [exact Hv|]. rewrite !length_app, Lm, Ll. cbn [length be16]. lia. }
  intros b rest Hib Hmac Hll Hb Brest.
  set (f := {| f_dmac := rx_src; f_smac := ifc_mac a; f_type := [0x86; 0xDD]; f_bits := [0x60; 0; 0; 0];
    f_iplen := be16 (len + 8); f_nh := 17; f_hop := 255; f_sip := ifc_ll_ip6 a; f_dip := rx_ip;
    f_payload := udp |}).
  assert (eth_ip6_header rx_src (ifc_mac a) (ifc_ll_ip6 a) rx_ip (len + 8) 17 ++ udp = concat (frame_fields f)) as Ef.
  { unfold frame_fields, eth_ip6_header. cbn [concat f f_dmac f_smac f_type f_bits f_iplen f_nh f_hop f_sip f_dip f_payload].
    by rewrite app_nil_r, <- !app_assoc. }
  rewrite Ef in *.
  assert (frame_ok f) as Hf.
  { unfold frame_ok, frame_fields. cbn [map concat f f_dmac f_smac f_type f_bits f_iplen f_nh f_hop f_sip f_dip f_payload].
    split; [rewrite Lm, Ll; repeat f_equal; lia|].
    rewrite !Forall_app. repeat split; (done || apply be16_bytes || (by apply (bool_decide_unpack _))). }
  assert (received f b) as Hrb by (by exists rest).
  assert (f_payload f = be16 port ++ [p1; p2] ++ be16 (8 + Z.of_nat (length data)) ++ le16 chk ++ data ++ []) as Hpay.
  { cbn [f f_payload]. unfold udp, udp_header. rewrite app_nil_r, <- !app_assoc, Hlen. by rewrite (Z.add_comm len). }
  assert (length (concat (frame_fields f)) = 54 + length (f_payload f))%nat as Lf.
  { rewrite <- Ef, length_app. unfold eth_ip6_header. rewrite !length_app, Lm, Ll. cbn [length be16 f f_payload]. lia. }
  assert (Z.of_nat (length (f_payload f)) = 8 + len) as Lp.
  { rewrite Hpay, !length_app. cbn [length be16 le16 le_bytes]. lia. }
  pose proof Hib as (_ & _ & Hllb & _).
  pose proof (net_rx_eth_ok garbage f b _ Hib Hf Hrb eq_refl ltac:(lia)) as Hrx_b.
  assert (accepts b f = Some 0) as Ha.
  { unfold accepts, rx_mcast, ip6_for_us. cbn [f f_type f_dmac f_dip]. rewrite decide_True by done.
    rewrite decide_True by done. cbn [Z.eqb]. rewrite bool_decide_eq_true_2; [done|congruence]. }
  rewrite Ha in Hrx_b. rewrite Lf. replace (2 + Z.of_nat (54 + length (f_payload f)))
    with (56 + Z.of_nat (length (f_payload f))) by lia.
  rewrite Hrx_b. unfold rx_dispatch. cbn [f f_nh Z.eqb Pos.eqb IP_HDR_ICMP IP_HDR_UDP]. fold f.
  replace (56 + Z.of_nat (length (f_payload f)) - 56) with (Z.of_nat (length (f_payload f))) by lia.
  rewrite <- Hlen in Hmax |- *. apply (udp_ok f b 0 (be16 port) p1 p2 (le16 chk) data []);
    [done|done|exact Hpay|done|done|lia].
Qed.
End properties.

(** A client to try the stack with: the wire never stalls and a datagram's data
    is sent back. *)
Definition echo_tx (l : list Z) : M node unit :=
  modify (fun s => let e := n_eth s in set_tx (Z.lxor (txslot s) 1)
    {| e_sram := e_sram e; e_regs := e_regs e; e_stalls := e_stalls e;
       e_rx := e_rx e; e_sent := e_sent e ++ [l] |} s).

#[local] Program Instance echo_eth : EthTx := {| eth_tx := echo_tx |}.
Next Obligation.
  intros l s _ Hs. eexists. split; [unfold echo_tx, modify; reflexivity|].
  split; [done|]. split; [|done]. unfold tx_ok in *. destruct Hs as [[-> | ->] ?]; split; auto.
Qed.

#[local] Instance silent_client : UdpClient := fun _ _ _ _ => ret tt.

Definition stack_garbage : list Z := replicate 1536 0xAA.

Definition idle_eth : ethdev :=
  {| e_sram := replicate 4096 0; e_regs := ∅; e_stalls := []; e_rx := []; e_sent := [] |}.

(** The default interface with [f] in its receive buffer. *)
Definition node_with (f : frame6) : node :=
  net_boot ([0; 0] ++ concat (frame_fields f) ++ replicate 64 0) idle_eth ∅
    {| u_stalls := []; u_out := [] |}.

Lemma node_with_received f : received f (node_with f).
Proof. exists (replicate 64 0). split; [done|]. apply Forall_replicate. by_decide. Qed.

Definition peer_mac : list Z := [0x52; 0x54; 0; 1; 2; 3].
Definition node_mac : list Z := [0x72; 0x72; 0xaa; 0xbb; 0xcc; 0xdd].

Definition frame_to (dmac dip : list Z) (nh : Z) (payload : list Z) : frame6 :=
  {| f_dmac := dmac; f_smac := peer_mac; f_type := [0x86; 0xDD]; f_bits := [0x60; 0; 0; 0];
     f_iplen := be16 (Z.of_nat (length payload)); f_nh := nh; f_hop := 64;
     f_sip := link_local peer_mac; f_dip := dip; f_payload := payload |}.

Definition ping_frame : frame6 :=
  frame_to node_mac (link_local node_mac) 58 ([128; 0; 0x12; 0x34] ++ [0; 1; 0; 2; 104; 105; 33]).

Lemma net_init_addresses_witness :
  exists s', net_init [0x42; 0x42; 0x10; 0x20; 0x30; 0x40] (node_with ping_frame) = Ok tt s' /\
    interface_ok s' /\ ifc_mac s' = [0x42; 0x42; 0x10; 0x20; 0x30; 0x40].
Proof.
  destruct (net_init_addresses [0x42; 0x42; 0x10; 0x20; 0x30; 0x40] (node_with ping_frame))
    as (s' & E & Hi & Hm & _); [by_decide|cbn; lia|by_decide|].
  exists s'. split; [exact E|]. split; [exact Hi|exact Hm].
Defined.

Lemma net_rx_eth_filters_witness :
  let f := frame_to node_mac (link_local peer_mac) 58 [128; 0; 0; 0] in
  exists out, net_rx_eth stack_garbage 0 60 (node_with f) = Ok tt (emit out (node_with f)).
Proof.
  apply (net_rx_eth_filters stack_garbage (frame_to node_mac (link_local peer_mac) 58 [128; 0; 0; 0]));
    [by_decide|by_decide|apply node_with_received|cbn; lia|reflexivity].
Defined.

Lemma ping_answered_witness :
  exists s' chk, net_rx_eth stack_garbage 0 67 (node_with ping_frame) = Ok tt s' /\
    let reply := [129; 0] ++ le16 chk ++ [0; 1; 0; 2; 104; 105; 33] in
    n_tx s' = [eth_ip6_header peer_mac node_mac (link_local node_mac) (link_local peer_mac) 11 58 ++ reply] /\
    checksum_valid (link_local node_mac) (link_local peer_mac) 58 reply.
Proof.
  destruct (ping_answered stack_garbage eq_refl ltac:(by apply Forall_replicate; by_decide)
    ping_frame (node_with ping_frame) 0 0x12 0x34 0 [0; 1; 0; 2; 104; 105; 33])
    as (s' & chk & E & _ & _ & _ & Hs);
    [by_decide|by_decide|by_decide|apply node_with_received|reflexivity|reflexivity|reflexivity|cbn; lia|].
  exists s', chk. split; [exact E|exact Hs].
Defined.

Definition solicit_frame : frame6 :=
  frame_to (solicited_mac node_mac) (solicited_node node_mac) 58
    ([135; 0; 0; 0] ++ [0; 0; 0; 0] ++ link_local node_mac ++ [1; 1] ++ peer_mac).

Lemma solicitation_answered_witness :
  exists s' chk, net_rx_eth stack_garbage 0 88 (node_with solicit_frame) = Ok tt s' /\
    let reply := [136; 0] ++ le16 chk ++ [0x60; 0; 0; 0] ++ link_local node_mac ++ [2; 1] ++ node_mac in
    n_tx s' = [eth_ip6_header peer_mac node_mac (link_local node_mac) (link_local peer_mac) 32 58 ++ reply] /\
    checksum_valid (link_local node_mac) (link_local peer_mac) 58 reply.
Proof.
  pose proof (solicitation_answered stack_garbage eq_refl ltac:(by apply Forall_replicate; by_decide)
    solicit_frame (node_with solicit_frame) 1 0 0 [0; 0; 0; 0] (link_local node_mac) ([1; 1] ++ peer_mac))
    as H.
  rewrite decide_True in H by reflexivity.
  destruct H as (s' & chk & E & _ & _ & Hs);
    [by_decide|by_decide|by_decide|apply node_with_received|reflexivity|reflexivity|reflexivity|reflexivity
    |reflexivity|cbn; lia|].
  exists s', chk. split; [exact E|exact Hs].
Defined.

Definition datagram_frame : frame6 :=
  frame_to node_mac (link_local node_mac) 17 ([0x30; 0x39] ++ [0xE4; 0xCC] ++ be16 12 ++ [0; 0] ++ [1; 2; 3; 4]).

Lemma udp_reply_arrives_witness :
  exists a' frame,
    net_tx_udp_reply stack_garbage 64 (inl 64) 4 0xE4CC (node_with datagram_frame) = Ok tt a' /\
    n_tx a' = [frame] /\
    forall b rest, interface_ok b -> ifc_mac b = peer_mac -> ifc_ll_ip6 b = link_local peer_mac ->
      rxbuf b = [0; 0] ++ frame ++ rest -> bytes rest ->
      net_rx_eth stack_garbage 0 (2 + Z.of_nat (length frame)) b = pkt_rx_udp 64 4 0x3039 0 b /\
      slice (rxbuf b) 64 4 = Some [1; 2; 3; 4].
Proof.
  destruct (udp_reply_arrives stack_garbage eq_refl ltac:(by apply Forall_replicate; by_decide)
    64 (inl 64) 4 0xE4CC (node_with datagram_frame) peer_mac (link_local peer_mac) 0x30 0x39 [1; 2; 3; 4])
    as (a' & frame & E & _ & _ & Hs & _ & Hb); [by_decide|by_decide|by_decide|reflexivity..|by_decide|lia|].
  exists a', frame. split; [exact E|]. split; [exact Hs|exact Hb].
Defined.
