(* ===== verification/Netboot.v ===== *)
(** * The network boot loader (boot/netboot.c, tools/netboot.h)

    The Ethernet driver is the [EthTx] the IPv6 stack runs on, and the boot
    protocol its [UdpClient].  The device registers the driver only writes are
    kept by offset in [e_regs]; the ones with behaviour (ready, start, the
    receive event) act on the device's queues.  The messages live in the receive
    buffer; what a WRITE command stores goes to RAM outside the program. *)

From S2P Require Import Prelude Monad Hw Mem LibcMem LibcStr Uart Printf Net.

(** ** Constants *)

(* src/tools/netboot.h:8-8 *)
Definition NB_PORT_QUERY := 58571.
(* src/tools/netboot.h:9-9 *)
Definition NB_PORT_CTRL := 58572.
(* src/tools/netboot.h:13-13 *)
Definition NB_MAGIC := 0x1e5dae11.
(* src/tools/netboot.h:16-16 *)
Definition NB_CMD_QUERY := 0x56a938e6.
(* src/tools/netboot.h:17-17 *)
Definition NB_CMD_WRITE := 0x7b639621.
(* src/tools/netboot.h:19-19 *)
Definition NB_CMD_EXEC := 0xbdb9a844.
(* src/tools/netboot.h:22-22 *)
Definition NB_CMD_STATUS := 0x9e68e03b.
(* src/tools/netboot.h:27-27 *)
Definition NB_OK := 0.
(* src/tools/netboot.h:28-28 *)
Definition NB_ERR_BADCMD := 1.
(* src/tools/netboot.h:31-31 *)
Definition NB_MSG_MIN := 16.
(* src/tools/netboot.h:32-32 *)
Definition NB_MSG_MAX := 16 + 1024.
(* src/tools/netboot.h:33-33 *)
Definition NB_DATA_MAX := 1024.

(** [netboot_msg_t] *)
(* src/tools/netboot.h:35-44 netboot_msg_t *)
Definition MSG_MAGIC := 0.
Definition MSG_CMD := 4.
Definition MSG_SEQ := 8.
Definition MSG_ARG := 12.
Definition MSG_DB := 16.

(* src/hw/inc/hw/litex.h:69-69 *)
Definition WR_SLOT := 0x000.
(* src/hw/inc/hw/litex.h:70-70 *)
Definition WR_LEN := 0x004.
(* src/hw/inc/hw/litex.h:73-73 *)
Definition WR_EV_PENDING := 0x010.
(* src/hw/inc/hw/litex.h:74-74 *)
Definition WR_EV_ENABLE := 0x014.
(* src/hw/inc/hw/litex.h:77-77 *)
Definition RD_START := 0x018.
(* src/hw/inc/hw/litex.h:78-78 *)
Definition RD_READY := 0x01C.
(* src/hw/inc/hw/litex.h:80-80 *)
Definition RD_SLOT := 0x024.
(* src/hw/inc/hw/litex.h:81-81 *)
Definition RD_LEN := 0x028.
(* src/hw/inc/hw/litex.h:83-83 *)
Definition RD_EV_PENDING := 0x030.
(* src/hw/inc/hw/litex.h:84-84 *)
Definition RD_EV_ENABLE := 0x034.

(* src/hw/inc/hw/platform.h:12-12 *)
Definition ETHMAC_SRAM_BASE := 0xE0000000.
(* src/hw/inc/hw/platform.h:13-13 *)
Definition ETHMAC_SLOT_SIZE := 0x800.
(* src/hw/inc/hw/platform.h:14-14 *)
Definition ETHMAC_RX_SLOTS := 2.

(* src/hw/inc/hw/riscv.h:42-42 *)
Definition CSR_MSTATUS := 0x300.
(* src/hw/inc/hw/riscv.h:52-52 *)
Definition CSR_MEPC := 0x341.
(* src/hw/inc/hw/riscv.h:76-76 *)
Definition MSTATUS_MPP_SHIFT := 11.
(* src/hw/inc/hw/riscv.h:95-95 *)
Definition PRIV_S := 1.

(** ** The state *)

Definition set_eth (e : ethdev) (s : node) : node := set_tx (txslot s) e s.

Definition node_hw (op : hwop) : M node unit :=
  modify (fun s =>
    {| ifc_mac := ifc_mac s; ifc_ll_ip6 := ifc_ll_ip6 s; mcast_ns_ip6 := mcast_ns_ip6 s;
       m_ifc_mac := m_ifc_mac s; m_ns_mac := m_ns_mac s; rxbuf := rxbuf s; txslot := txslot s;
       n_eth := n_eth s; n_mem := n_mem s; n_uart := n_uart s; n_hw := n_hw s ++ [op] |}).

(** Store to RAM outside the program. *)
Definition ram_write (a : Z) (l : list Z) : M node unit := fun s =>
  if decide (mapped (n_mem s) a (Z.of_nat (length l))) then Ok tt (poke s a l) else Fault.

(** A library routine that works on the receive buffer. *)
Definition in_rxbuf {A} (c : M mem A) : M node A := fun s =>
  match c (mem_lit 0 (rxbuf s)) with
  | Ok a m =>
    match read_bytes m 0 (length (rxbuf s)) with
    | Some b => Ok a (set_rxbuf b s)
    | None => Fault
    end
  | Fault | Halt _ => Fault
  | NoFuel => NoFuel
  end.

(** ** The Ethernet driver *)

Definition e_wait (e : ethdev) : Z := u32 (hd 0 (e_stalls e)).

(* src/boot/netboot.c:25-25 eth_rd *)
Definition eth_rd (reg : Z) : M node Z := fun s =>
  let e := n_eth s in
  if reg =? RD_READY then
    if 0 <? e_wait e then
      Ok 0 (set_eth {| e_sram := e_sram e; e_regs := e_regs e; e_stalls := (e_wait e - 1) :: tl (e_stalls e);
                       e_rx := e_rx e; e_sent := e_sent e |} s)
    else Ok 1 s
  else
    match e_rx e with
    | [] => Ok (default 0 (e_regs e !! reg)) s
    | Quiet :: q =>
      if reg =? WR_EV_PENDING then
        Ok 0 (set_eth {| e_sram := e_sram e; e_regs := e_regs e; e_stalls := e_stalls e; e_rx := q; e_sent := e_sent e |} s)
      else Ok (default 0 (e_regs e !! reg)) s
    | Frame slot _ len :: _ =>
      Ok (if reg =? WR_EV_PENDING then 1 else if reg =? WR_SLOT then slot
          else if reg =? WR_LEN then len else default 0 (e_regs e !! reg)) s
    end.

(** The slot of an acknowledged frame is free again. *)
Definition release (q : list rx_event) : list rx_event :=
  match q with Frame _ _ _ :: q' => q' | _ => q end.

(** The frame memory of the device: two receive slots of 2048 bytes from
    0xE0000000 on, and the two transmit slots after them. *)

(** The frame a start sends: [RD_LEN] bytes of the slot [RD_SLOT]. *)
Definition tx_frame (e : ethdev) : option (list Z) :=
  slice (e_sram e) (0x800 * Z.land (default 0 (e_regs e !! RD_SLOT)) 1)
    (default 0 (e_regs e !! RD_LEN)).

(* src/boot/netboot.c:26-26 eth_wr *)
Definition eth_wr (reg v : Z) : M node unit := fun s =>
  let e := n_eth s in
  if reg =? RD_START then
    if 0 <? e_wait e then Ok tt s (* still sending: the start is lost *)
    else
      match tx_frame e with
      | Some frame =>
        Ok tt (set_eth {| e_sram := e_sram e; e_regs := e_regs e; e_stalls := tl (e_stalls e);
                          e_rx := e_rx e; e_sent := e_sent e ++ [frame] |} s)
      | None => Fault
      end
  else if reg =? WR_EV_PENDING then
    Ok tt (set_eth {| e_sram := e_sram e; e_regs := e_regs e; e_stalls := e_stalls e;
                      e_rx := if Z.land v 1 =? 0 then e_rx e else release (e_rx e); e_sent := e_sent e |} s)
  else
    Ok tt (set_eth {| e_sram := e_sram e; e_regs := <[reg := v]> (e_regs e); e_stalls := e_stalls e;
                      e_rx := e_rx e; e_sent := e_sent e |} s).

(** Store to the frame memory: the transmit slots follow the receive slots. *)
Definition sram_put (a : Z) (l : list Z) : M node unit :=
  e <- gets n_eth ;;
  b <- bput (e_sram e) (a - (0xE0000000 + 0x800 * 2)) l ;;
  modify (set_eth {| e_sram := b; e_regs := e_regs e; e_stalls := e_stalls e; e_rx := e_rx e;
                     e_sent := e_sent e |}).

(** What is in a receive slot: the first frame it has got that is not yet
    acknowledged.  What is in a slot without one is not known. *)
Fixpoint slot_contents (q : list rx_event) (n : Z) : option (list Z) :=
  match q with
  | [] => None
  | Quiet :: q' => slot_contents q' n
  | Frame slot b _ :: q' => if slot =? n then Some b else slot_contents q' n
  end.

(** Load [n] bytes from the frame memory of the receive slots. *)
Definition sram_get (a n : Z) : M node (list Z) :=
  e <- gets n_eth ;;
  let off := a - 0xE0000000 in
  if (0 <=? off) && (off <? 0x800 * 2) then
    match slot_contents (e_rx e) (off / 0x800) with
    | Some b => bget b (off mod 0x800) n
    | None => fault
    end
  else fault.

(* src/boot/netboot.c:28-31 *)
Definition halt_peripherals : M node unit :=
  eth_wr WR_EV_ENABLE 0 ;;
  eth_wr RD_EV_ENABLE 0.

(* src/boot/netboot.c:112-112 eth_tx *)
Definition eth_drain : M node unit :=
  loop (fun _ : unit =>
    ready <- eth_rd RD_READY ;;
    if negb (ready =? 1) then ret (inl tt) else ret (inr tt)) tt.

(* src/boot/netboot.c:109-121 eth_tx *)
Definition eth_tx_code (txb : list Z) : M node unit :=
  let txlen := Z.of_nat (length txb) in
  if txlen >? 1534 then ret tt
  else
    eth_drain ;;
    slot <- gets txslot ;;
    sram_put (ETHMAC_SRAM_BASE + ETHMAC_SLOT_SIZE * (ETHMAC_RX_SLOTS + slot)) txb ;;
    eth_wr RD_SLOT slot ;;
    eth_wr RD_LEN txlen ;;
    eth_wr RD_START 1 ;;
    modify (fun s => set_tx (Z.lxor (txslot s) 1) (n_eth s) s).

(* src/boot/netboot.c:123-135 *)
Definition eth_init : M node unit :=
  eth_wr WR_EV_ENABLE 0 ;;
  eth_wr RD_EV_ENABLE 0 ;;
  eth_wr WR_EV_PENDING 1 ;;
  eth_wr RD_EV_PENDING 1 ;;
  modify (fun s => set_tx 0 (n_eth s) s) ;;
  slot <- gets txslot ;;
  eth_wr RD_SLOT slot ;;
  eth_wr WR_EV_ENABLE 1 ;;
  eth_wr RD_EV_ENABLE 1.

(** ** The driver implements [EthTx] *)

Definition eth_drained (s : node) : node :=
  let e := n_eth s in
  if decide (e_wait e = 0) then s
  else set_eth {| e_sram := e_sram e; e_regs := e_regs e; e_stalls := 0 :: tl (e_stalls e);
                  e_rx := e_rx e; e_sent := e_sent e |} s.

Lemma eth_drain_ok s : eth_drain s = Ok tt (eth_drained s).
Proof.
  unfold eth_drain. assert (0 <= e_wait (n_eth s) < 0x100000000) as Hw by apply u32_range.
  apply (loop_runs _ (Z.to_nat (e_wait (n_eth s)))); [|lia].
  name_body body. remember (Z.to_nat (e_wait (n_eth s))) as k eqn:Hk.
  revert s Hw Hk. induction k as [|k IH]; intros s Hw Hk.
  - assert (e_wait (n_eth s) = 0) as E by lia. unfold eth_drained. rewrite decide_True by done.
    apply runs_done. unfold body, bind, eth_rd. cbn [Z.eqb Pos.eqb RD_READY]. by rewrite E.
  - assert (0 < e_wait (n_eth s)) as E by lia. unfold eth_drained. rewrite decide_False by lia.
    set (s' := set_eth {| e_sram := e_sram (n_eth s); e_regs := e_regs (n_eth s);
      e_stalls := (e_wait (n_eth s) - 1) :: tl (e_stalls (n_eth s));
      e_rx := e_rx (n_eth s); e_sent := e_sent (n_eth s) |} s).
    assert (e_wait (n_eth s') = e_wait (n_eth s) - 1) as E'
      by (unfold e_wait at 1; cbn; apply u32_small; unfold is_u32; lia).
    eapply (runs_step _ _ _ _ tt s').
    + unfold body, bind, eth_rd. cbn [Z.eqb Pos.eqb RD_READY]. by rewrite (proj2 (Z.ltb_lt _ _) E).
    + specialize (IH s' ltac:(lia) ltac:(lia)). unfold eth_drained in IH.
      case_decide as Hz; [|exact IH]. unfold s' in IH at 2. by rewrite E' in Hz; rewrite Hz in IH.
Qed.

(** What [eth_tx] does to the device. *)
Definition transmitted (l : list Z) (s : node) : node :=
  let e := n_eth s in
  set_tx (Z.lxor (txslot s) 1)
    {| e_sram := splice (e_sram e) (0x800 * txslot s) l;
       e_regs := <[RD_LEN := Z.of_nat (length l)]> (<[RD_SLOT := txslot s]> (e_regs e));
       e_stalls := tl (e_stalls e); e_rx := e_rx e; e_sent := e_sent e ++ [l] |} s.

Lemma length_splice b off l :
  0 <= off -> off + Z.of_nat (length l) <= Z.of_nat (length b) -> length (splice b off l) = length b.
Proof.
  intros H0 H1. unfold splice. rewrite !length_app, length_take, length_drop. lia.
Qed.

Lemma slice_splice b off l :
  0 <= off -> off + Z.of_nat (length l) <= Z.of_nat (length b) ->
  slice (splice b off l) off (Z.of_nat (length l)) = Some l.
Proof.
  intros H0 H1. eapply slice_some; [reflexivity| |done]. rewrite length_take. lia.
Qed.

Lemma lookup_splice_ne b off l i :
  0 <= off -> off + Z.of_nat (length l) <= Z.of_nat (length b) ->
  Z.of_nat i < off \/ off + Z.of_nat (length l) <= Z.of_nat i -> splice b off l !! i = b !! i.
Proof.
  intros H0 H1 Hi. unfold splice. destruct (decide (Z.of_nat i < off)).
  - rewrite lookup_app_l by (rewrite length_take; lia). apply lookup_take_lt. lia.
  - rewrite lookup_app_r, lookup_app_r by (rewrite length_take; lia).
    rewrite length_take, lookup_drop. f_equal. lia.
Qed.

Lemma eth_tx_transmits l s :
  Z.of_nat (length l) <= 1534 -> tx_ok s -> eth_tx_code l s = Ok tt (transmitted l s).
Proof.
  intros Hl [Hslot Hsram]. unfold eth_tx_code. rewrite Z.gtb_ltb, (proj2 (Z.ltb_ge _ _)) by lia.
  step (eth_drain_ok s).
  destruct s as [im ll ns mi mn rx slot [sram regs stalls rxq sent] m u h].
  unfold transmitted. cbn [txslot n_eth e_sram e_regs e_stalls e_rx e_sent] in *.
  assert (exists st, eth_drained (Build_node im ll ns mi mn rx slot (Build_ethdev sram regs stalls rxq sent) m u h) =
    Build_node im ll ns mi mn rx slot (Build_ethdev sram regs st rxq sent) m u h /\
    tl st = tl stalls /\ u32 (hd 0 st) = 0) as (st & -> & <- & Hst).
  { unfold eth_drained, e_wait. cbn [n_eth e_stalls]. case_decide; eexists; split; [reflexivity|done|reflexivity|done]. }
  assert (0 <= 0x800 * slot <= 2048) as Hb by lia.
  assert (forall s : node, bput sram (ETHMAC_SRAM_BASE + ETHMAC_SLOT_SIZE * (ETHMAC_RX_SLOTS + slot) - (0xE0000000 + 0x800 * 2)) l s =
    Ok (splice sram (0x800 * slot) l) s) as Eb.
  { intros s. unfold ETHMAC_SRAM_BASE, ETHMAC_SLOT_SIZE, ETHMAC_RX_SLOTS.
    replace (_ - _) with (0x800 * slot) by lia. unfold bput, slice.
    rewrite !(proj2 (Z.leb_le _ _)) by lia. done. }
  assert (tx_frame {| e_sram := splice sram (0x800 * slot) l;
    e_regs := <[RD_LEN := Z.of_nat (length l)]> (<[RD_SLOT := slot]> regs);
    e_stalls := st; e_rx := rxq; e_sent := sent |} = Some l) as Ef.
  { unfold tx_frame. cbn [e_sram e_regs]. rewrite lookup_insert_ne, !lookup_insert_eq by done. cbn [from_option id].
    replace (Z.land slot 1) with slot by (destruct Hslot as [-> | ->]; done).
    apply slice_splice; lia. }
  unfold sram_put, gets, modify, bind. cbn [txslot n_eth e_sram]. rewrite Eb.
  unfold eth_wr, e_wait.
  cbn [set_eth set_tx ifc_mac ifc_ll_ip6 mcast_ns_ip6 m_ifc_mac m_ns_mac rxbuf txslot n_eth n_mem n_uart n_hw
    e_sram e_regs e_stalls e_rx e_sent Z.eqb Pos.eqb RD_SLOT RD_LEN RD_START WR_EV_PENDING].
  rewrite Hst. cbn [Z.ltb Z.compare].
  cbn [set_eth set_tx n_eth]. rewrite Ef. done.
Qed.

#[export] Program Instance netboot_eth : EthTx := {| eth_tx := eth_tx_code |}.
Next Obligation.
  intros l s Hl Hok. exists (transmitted l s). split; [by apply eth_tx_transmits|].
  split; [done|]. destruct Hok as [Hslot Hsram]. split; [|done]. split.
  - destruct Hslot as [E | E]; cbn [transmitted set_tx txslot]; rewrite E; [by right|by left].
  - cbn [transmitted set_tx n_eth e_sram]. rewrite length_splice; [done|lia..].
Qed.

(** The receive path below a client of the stack. *)
Section receive.
Context `{!UdpClient} (garbage : list Z).

Definition frame_to_stack (rxb rxlen : Z) : M node unit :=
  if rxlen >? 1534 then ret tt
  else
    frame <- sram_get rxb rxlen ;;
    rx_put 2 frame ;;
    net_rx_eth garbage 0 (u32 (rxlen + 2)).

Definition poll_frame : M node unit :=
  pending <- eth_rd WR_EV_PENDING ;;
  if negb (Z.land pending 1 =? 0) then
    slot <- eth_rd WR_SLOT ;;
    let rxb := u32 (ETHMAC_SRAM_BASE + ETHMAC_SLOT_SIZE * slot) in
    len <- eth_rd WR_LEN ;;
    frame_to_stack rxb len ;;
    eth_wr WR_EV_PENDING 1
  else ret tt.
End receive.

(** ** The boot protocol *)

Definition msg_get (off : Z) : M node Z := l <- rx_get off 4 ;; ret (le_val l).
Definition msg_put (off v : Z) : M node unit := rx_put off (le32 v).

(* src/boot/netboot.c:33-33 *)
Definition nodename : list Z := str "device".

(* src/boot/entry.S:116-120 *)
Definition exit_mode_m {A} (a0 a1 pc sp : Z) : M node A :=
  node_hw (CsrWrite CSR_MEPC pc) ;;
  node_hw (Mret a0 a1 pc sp) ;;
  spin.

Section loader.
Context (garbage : list Z).

(* src/boot/netboot.c:35-41 *)
Definition query_reply (replyto : Z) : M node unit :=
  len <- in_rxbuf (snprintf (replyto + MSG_DB) NB_DATA_MAX (str "name=%s") [VaStr (Some nodename)]) ;;
  msg_put (replyto + MSG_CMD) NB_CMD_STATUS ;;
  msg_put (replyto + MSG_ARG) NB_OK ;;
  net_tx_udp_reply garbage replyto (inl replyto) (u32 (NB_MSG_MIN + len + 1)) NB_PORT_CTRL.

(** The short reply of every other command. *)
Definition status_reply (data status : Z) : M node unit :=
  msg_put (data + MSG_CMD) NB_CMD_STATUS ;;
  msg_put (data + MSG_ARG) status ;;
  net_tx_udp_reply garbage data (inl data) NB_MSG_MIN NB_PORT_CTRL.

(* src/boot/netboot.c:43-96 pkt_rx_udp *)
Definition netboot_rx_udp (data len port mcast : Z) : M node unit :=
  if (len <? NB_MSG_MIN) || (len >? NB_MSG_MAX) then ret tt
  else
    magic <- msg_get (data + MSG_MAGIC) ;;
    if negb (magic =? NB_MAGIC) then ret tt
    else if port =? NB_PORT_QUERY then
      let nlen := Z.of_nat (length nodename) in
      cmd <- msg_get (data + MSG_CMD) ;;
      if negb (cmd =? NB_CMD_QUERY) then ret tt
      else if negb (len =? nlen + NB_MSG_MIN) then ret tt
      else
        name <- rx_get (data + MSG_DB) nlen ;;
        if decide (name <> nodename) then ret tt else query_reply data
    else if negb (port =? NB_PORT_CTRL) then ret tt
    else
      cmd <- msg_get (data + MSG_CMD) ;;
      if cmd =? NB_CMD_QUERY then
        xputc 81 ;;
        query_reply data
      else if cmd =? NB_CMD_WRITE then
        xputc 46 ;;
        addr <- msg_get (data + MSG_ARG) ;;
        db <- rx_get (data + MSG_DB) (len - NB_MSG_MIN) ;;
        ram_write addr db ;;
        status_reply data NB_OK
      else if cmd =? NB_CMD_EXEC then
        xputc 33 ;;
        entry <- msg_get (data + MSG_ARG) ;;
        status_reply data NB_OK ;;
        node_hw (CsrWrite CSR_MSTATUS (Z.shiftl PRIV_S MSTATUS_MPP_SHIFT)) ;;
        xprintf ([10; 10] ++ str "[ execution starts at 0x%08x ]" ++ [10; 10]) [VaWord entry] ;;
        exit_mode_m 0 0 entry 0
      else
        xputc 69 ;;
        status_reply data NB_ERR_BADCMD.

#[local] Instance netboot_client : UdpClient := netboot_rx_udp.

(* src/boot/netboot.c:100-104 *)
Definition eth_rx (rxb rxlen : Z) : M node unit :=
  if rxlen >? 1534 then ret tt
  else
    frame <- sram_get rxb rxlen ;;
    rx_put 2 frame ;;
    net_rx_eth garbage 0 (u32 (rxlen + 2)).

(* src/boot/netboot.c:137-144 *)
Definition eth_handle_rx : M node unit :=
  pending <- eth_rd WR_EV_PENDING ;;
  if negb (Z.land pending 1 =? 0) then
    slot <- eth_rd WR_SLOT ;;
    let rxb := u32 (ETHMAC_SRAM_BASE + ETHMAC_SLOT_SIZE * slot) in
    len <- eth_rd WR_LEN ;;
    eth_rx rxb len ;;
    eth_wr WR_EV_PENDING 1
  else ret tt.

(* src/boot/netboot.c:146-153 *)
Definition netboot : M node unit :=
  net_init [0x42; 0x42; 0x10; 0x20; 0x30; 0x40] ;;
  eth_init ;;
  loop (fun _ : unit => eth_handle_rx ;; ret (inl tt)) tt.
End loader.

(** ** Messages and replies *)

Definition message (cmd : Z) (seq : list Z) (arg : Z) (db : list Z) : list Z :=
  le32 NB_MAGIC ++ le32 cmd ++ seq ++ le32 arg ++ db.

(** A UDP payload to port [port]; [hd] is the length and the checksum. *)
Definition datagram (sport : list Z) (port : Z) (hd data extra : list Z) : list Z :=
  sport ++ be16 port ++ hd ++ data ++ extra.

(** [f] carries this message. *)
Record is_message (f : frame6) (sport : list Z) (port cmd : Z) (seq : list Z) (arg : Z)
    (db : list Z) : Prop := {
  m_frame : frame_ok f;
  m_udp : f_nh f = 17;
  m_payload : exists hd extra, length hd = 4%nat /\
    f_payload f = datagram sport port hd (message cmd seq arg db) extra;
  m_sport : length sport = 2%nat;
  m_seq : length seq = 4%nat;
  m_db : (length db <= 1024)%nat;
  m_cmd : is_u32 cmd;
  m_arg : is_u32 arg;
}.

(** It is in the receive buffer. *)
Definition carries (f : frame6) (s : node) (sport : list Z) (port cmd : Z) (seq : list Z) (arg : Z)
    (db : list Z) : Prop :=
  is_message f sport port cmd seq arg db /\ received f s.

(** The frame of a reply to the sender of [f]. *)
Definition reply_frame (s : node) (f : frame6) (sport : list Z) (chk : Z) (data : list Z) : list Z :=
  let len := Z.of_nat (length data) + 8 in
  eth_ip6_header (f_smac f) (ifc_mac s) (ifc_ll_ip6 s) (f_sip f) len 17 ++
  udp_header (be16 NB_PORT_CTRL) sport len chk ++ data.

(** [s'] is [s] after one reply of [data] to the sender of [f]. *)
Definition replied (s s' : node) (f : frame6) (sport data : list Z) : Prop :=
  exists chk, n_tx s' = n_tx s ++ [reply_frame s f sport chk data] /\
    checksum_valid (ifc_ll_ip6 s) (f_sip f) 17
      (udp_header (be16 NB_PORT_CTRL) sport (Z.of_nat (length data) + 8) chk ++ data).


Lemma length_datagram sport port hd data extra :
  length sport = 2%nat -> length hd = 4%nat ->
  length (datagram sport port hd data extra) = (8 + length data + length extra)%nat.
Proof. intros H1 H2. unfold datagram. rewrite !length_app, H1, H2. cbn [length be16]. lia. Qed.

Lemma length_message cmd seq arg db :
  length seq = 4%nat -> length (message cmd seq arg db) = (16 + length db)%nat.
Proof. intros H. unfold message. rewrite !length_app, H. done. Qed.

(** Part of the message. *)
Lemma msg_slice f s sport port cmd seq arg db off n a b c :
  carries f s sport port cmd seq arg db -> message cmd seq arg db = a ++ b ++ c ->
  off = 64 + Z.of_nat (length a) -> n = Z.of_nat (length b) ->
  slice (rxbuf s) off n = Some b.
Proof.
  intros C Hm -> ->. destruct (m_payload _ _ _ _ _ _ _ (proj1 C)) as (chk & extra & Hchk & Hp).
  pose proof (m_sport _ _ _ _ _ _ _ (proj1 C)) as Hsp.
  eapply (rx_payload f s _ _ (sport ++ be16 port ++ chk ++ a) b (c ++ extra));
    [apply C|apply C| | |done].
  - rewrite Hp. unfold datagram. rewrite Hm. by rewrite <- !app_assoc.
  - rewrite !length_app, Hsp, Hchk. cbn [length be16]. lia.
Qed.

Lemma msg_get_ok f s sport port cmd seq arg db off a b c :
  carries f s sport port cmd seq arg db -> message cmd seq arg db = a ++ b ++ c ->
  off = 64 + Z.of_nat (length a) -> length b = 4%nat -> msg_get off s = Ok (le_val b) s.
Proof.
  intros C Hm Ho Hb. unfold msg_get. rewrite (bind_ok _ _ s b s); [done|].
  apply rx_get_ok. eapply msg_slice; [exact C|exact Hm|exact Ho|by rewrite Hb].
Qed.

Lemma le32_val v : is_u32 v -> le_val (le32 v) = v.
Proof. intros H. unfold le32. rewrite le_val_bytes. apply Z.mod_small. exact H. Qed.

(** Replace the command or the argument in place. *)
Lemma msg_put_ok f s sport port cmd seq arg db off v a b c cmd' arg' :
  carries f s sport port cmd seq arg db -> message cmd seq arg db = a ++ b ++ c ->
  message cmd' seq arg' db = a ++ le32 v ++ c ->
  off = 64 + Z.of_nat (length a) -> length b = 4%nat -> is_u32 cmd' -> is_u32 arg' ->
  exists buf f', msg_put off v s = Ok tt (set_rxbuf buf s) /\
    carries f' (set_rxbuf buf s) sport port cmd' seq arg' db /\
    f_smac f' = f_smac f /\ f_sip f' = f_sip f.
Proof.
  intros C Hm Hm' -> Hb Hc Ha. destruct (m_payload _ _ _ _ _ _ _ (proj1 C)) as (chk & extra & Hchk & Hp).
  pose proof (m_sport _ _ _ _ _ _ _ (proj1 C)) as Hsp. pose proof (m_frame _ _ _ _ _ _ _ (proj1 C)) as Hf.
  set (pre := sport ++ be16 port ++ chk ++ a).
  assert (f_payload f = pre ++ b ++ c ++ extra) as Hp1.
  { rewrite Hp. unfold datagram, pre. rewrite Hm. by rewrite <- !app_assoc. }
  assert (bytes (f_payload f)) as Bp.
  { destruct Hf as [_ Hbf]. unfold frame_fields in Hbf. cbn [concat] in Hbf.
    rewrite !Forall_app in Hbf. tauto. }
  destruct (rx_put_ok f s pre b (c ++ extra) (le32 v) (64 + Z.of_nat (length a)) Hf
    (proj2 C) Hp1) as (buf & E & Hr).
  { unfold pre. rewrite !length_app, Hsp, Hchk. cbn [length be16]. lia. }
  { by rewrite Hb. }
  exists buf, (with_payload (pre ++ le32 v ++ c ++ extra) f). split; [exact E|].
  split; [|done]. destruct C as [[_ C1 _ C2 C3 C4 C5 C6] _]. split; [|exact Hr]. split; try done.
  - apply frame_ok_with; [done|]. rewrite Hp1 in Bp. rewrite !Forall_app in Bp |- *.
    split; [tauto|]. split; [apply le_bytes_u8|tauto].
  - exists chk, extra. split; [done|]. cbn [with_payload f_payload]. unfold datagram, pre.
    rewrite Hm'. by rewrite <- !app_assoc.
Qed.

Lemma frame_src64 f s sport port cmd seq arg db : carries f s sport port cmd seq arg db ->
  slice (rxbuf s) (64 - 64 + 8) 6 = Some (f_smac f) /\ slice (rxbuf s) (64 - 64 + 24) 16 = Some (f_sip f) /\
  slice (rxbuf s) (64 - 64 + 56) 2 = Some sport.
Proof.
  intros C. destruct (frame_src f s (m_frame _ _ _ _ _ _ _ (proj1 C)) (proj2 C)) as [H1 H2].
  split; [exact H1|]. split; [exact H2|].
  destruct (m_payload _ _ _ _ _ _ _ (proj1 C)) as (chk & extra & Hchk & Hp).
  eapply (rx_payload f s _ _ [] sport); [apply C|apply C|exact Hp|done|by rewrite (m_sport _ _ _ _ _ _ _ (proj1 C))].
Qed.

Section protocol.
Context (garbage : list Z) (Hgarbage : length garbage = 1536%nat) (Hgb : bytes garbage).

(** Replying with the first [n] bytes of the message. *)
Lemma reply_ok f s sport port cmd seq arg db len data rest :
  carries f s sport port cmd seq arg db -> interface_ok s -> tx_ok s ->
  message cmd seq arg db = data ++ rest -> len = Z.of_nat (length data) ->
  exists s', net_tx_udp_reply garbage 64 (inl 64) len NB_PORT_CTRL s = Ok tt s' /\ only_tx s s' /\
    tx_ok s' /\ replied s s' f sport data.
Proof.
  intros C Hi Htx Hm Hlen. destruct (frame_src64 _ _ _ _ _ _ _ _ C) as (H1 & H2 & H3).
  pose proof (received_bytes f s (m_frame _ _ _ _ _ _ _ (proj1 C)) (proj2 C)) as Brx.
  assert (slice (rxbuf s) 64 len = Some data) as Hd
    by (eapply (msg_slice _ _ _ _ _ _ _ _ _ _ [] data rest); [exact C|exact Hm|done|done]).
  pose proof (length_message cmd seq arg db (m_seq _ _ _ _ _ _ _ (proj1 C))) as Lm. rewrite Hm, length_app in Lm.
  pose proof (m_db _ _ _ _ _ _ _ (proj1 C)) as Ldb.
  destruct (net_tx_udp_reply_ok garbage Hgarbage Hgb s (interface_addresses s Hi) Htx Brx 64 (inl 64) len
    NB_PORT_CTRL (f_smac f) (f_sip f) sport data H1 H2 H3) as (s' & chk & E & Ho & Hok & Hs' & Hv);
    [by apply rx_get_ok|done|by eapply slice_bytes|lia|].
  exists s'. split; [exact E|]. split; [done|]. split; [done|]. exists chk.
  unfold reply_frame. rewrite <- Hlen. done.
Qed.

(** Only the receive buffer and the transmitter changed. *)
Definition only_net (s s' : node) : Prop :=
  n_mem s' = n_mem s /\ n_uart s' = n_uart s /\ n_hw s' = n_hw s /\ e_rx (n_eth s') = e_rx (n_eth s) /\
  ifc_mac s' = ifc_mac s /\ (interface_ok s -> interface_ok s').

Lemma only_tx_net s s' : only_tx s s' -> only_net s s'.
Proof.
  intros [Ho Hq]. split; [by rewrite Ho|]. split; [by rewrite Ho|]. split; [by rewrite Ho|].
  split; [exact Hq|]. split; [by rewrite Ho|]. rewrite Ho. by intros.
Qed.

(** The receive buffer as the program leaves it: two bytes of padding, a frame. *)
Definition buffer_ready (s : node) : Prop :=
  exists old, rxbuf s = [0; 0] ++ old /\ length old = 1534%nat /\ bytes old.

Lemma msg_put_length off v s s' : msg_put off v s = Ok tt s' -> length (rxbuf s') = length (rxbuf s).
Proof.
  unfold msg_put, rx_put, gets, modify, bind, bput, slice.
  destruct ((0 <=? off) && _ && _) eqn:E; [|done]. intros H. injection H as <-.
  cbn [set_rxbuf rxbuf]. apply length_splice; lia.
Qed.

Lemma received_ready f s : frame_ok f -> received f s -> length (rxbuf s) = 1536%nat -> buffer_ready s.
Proof.
  intros [_ Hf] (rest & E & Hr) Hl. exists (concat (frame_fields f) ++ rest). split; [exact E|].
  rewrite E in Hl. cbn [app length] in Hl. split; [lia|]. by apply Forall_app.
Qed.

Lemma status_reply_ok f s sport port cmd seq arg db status :
  carries f s sport port cmd seq arg db -> interface_ok s -> tx_ok s -> is_u32 status ->
  exists s', status_reply garbage 64 status s = Ok tt s' /\
    only_net s s' /\ tx_ok s' /\ replied s s' f sport (message NB_CMD_STATUS seq status []) /\
    (length (rxbuf s) = 1536%nat -> buffer_ready s').
Proof.
  intros C Hi Htx Hst. unfold status_reply. pose proof (m_seq _ _ _ _ _ _ _ (proj1 C)) as Lseq.
  destruct (msg_put_ok f s sport port cmd seq arg db (64 + MSG_CMD) NB_CMD_STATUS (le32 NB_MAGIC) (le32 cmd)
    (seq ++ le32 arg ++ db) NB_CMD_STATUS arg C eq_refl eq_refl eq_refl eq_refl)
    as (b1 & f1 & E1 & C1 & S1 & I1); [by_decide|apply C|].
  step E1. set (s1 := set_rxbuf b1 s) in *.
  destruct (msg_put_ok f1 s1 sport port NB_CMD_STATUS seq arg db (64 + MSG_ARG) status
    (le32 NB_MAGIC ++ le32 NB_CMD_STATUS ++ seq) (le32 arg) db NB_CMD_STATUS status C1)
    as (b2 & f2 & E2 & C2 & S2 & I2);
    [by unfold message; rewrite <- !app_assoc|by unfold message; rewrite <- !app_assoc| |done|apply C1|done|].
  { rewrite !length_app, Lseq. done. }
  step E2. set (s2 := set_rxbuf b2 s1) in *.
  destruct (reply_ok f2 s2 sport port NB_CMD_STATUS seq status db NB_MSG_MIN
    (message NB_CMD_STATUS seq status []) db C2 Hi Htx) as (s' & E & Ho & Hok & Hr).
  { unfold message. by rewrite app_nil_r, <- !app_assoc. }
  { by rewrite length_message. }
  exists s'. split; [exact E|]. split; [exact (only_tx_net s2 s' Ho)|]. split; [done|]. split.
  - destruct Hr as (chk & Hsent & Hv). exists chk. unfold reply_frame in *. by rewrite <- S1, <- I1, <- S2, <- I2.
  - intros Hl. apply msg_put_length in E1, E2. destruct Ho as [Ho _]. unfold buffer_ready. rewrite Ho.
    destruct C2 as [C2 R2]. apply (received_ready f2 s2); [apply C2|exact R2|congruence].
Qed.

(** ** From the device to the handler *)

(** The next frame the device has for [s] is [f]. *)
Record incoming (f : frame6) (s : node) (q : list rx_event) : Prop := {
  i_frame : frame_ok f;
  i_payload : (4 <= length (f_payload f) <= 1480)%nat;
  i_rx : exists slot junk, 0 <= slot < 2 /\ e_rx (n_eth s) =
    Frame slot (concat (frame_fields f) ++ junk) (54 + Z.of_nat (length (f_payload f))) :: q;
  i_buf : buffer_ready s;
}.

Lemma length_frame f : frame_ok f -> length (concat (frame_fields f)) = (54 + length (f_payload f))%nat.
Proof. intros [Hl _]. by rewrite length_concat_laid, Hl. Qed.

(** The bytes at the address the driver computes are those in the slot. *)
Lemma sram_get_ok slot n frame junk s : 0 <= slot < 2 ->
  slot_contents (e_rx (n_eth s)) slot = Some (frame ++ junk) -> n = Z.of_nat (length frame) ->
  sram_get (u32 (ETHMAC_SRAM_BASE + ETHMAC_SLOT_SIZE * slot)) n s = Ok frame s.
Proof.
  clear Hgarbage Hgb. intros Hs Hc ->.
  rewrite u32_small by (unfold is_u32, ETHMAC_SRAM_BASE, ETHMAC_SLOT_SIZE; lia).
  unfold sram_get, gets, bind at 1. cbv zeta.
  replace (ETHMAC_SRAM_BASE + ETHMAC_SLOT_SIZE * slot - 0xE0000000) with (slot * 0x800)
    by (unfold ETHMAC_SRAM_BASE, ETHMAC_SLOT_SIZE; lia).
  rewrite (proj2 (Z.leb_le _ _)), (proj2 (Z.ltb_lt _ _)) by lia.
  rewrite Z.div_mul, Z.mod_mul, Hc by done. cbn [andb]. by apply (bget_ok _ _ _ [] _ junk).
Qed.

(** Whatever the client: one poll puts the frame into the buffer, hands it to the
    stack and frees the slot. *)
Lemma incoming_polled `{!UdpClient} f s q :
  incoming f s q -> exists buf,
    poll_frame garbage s = (net_rx_eth garbage 0 (56 + Z.of_nat (length (f_payload f))) ;; eth_wr WR_EV_PENDING 1)
      (set_rxbuf buf s) /\
    received f (set_rxbuf buf s) /\ length buf = 1536%nat.
Proof.
  clear Hgarbage Hgb. intros [Hf Hl (slot & junk & Hslot & Hq) (old & Hrx & Hold & Bold)]. pose proof (length_frame f Hf) as Lf.
  destruct (split_at (54 + length (f_payload f)) old) as (old1 & old2 & Eo & Ho1); [lia|].
  exists ([0; 0] ++ concat (frame_fields f) ++ old2). split.
  - unfold poll_frame.
    assert (forall r, eth_rd r s = Ok (if r =? RD_READY then if 0 <? e_wait (n_eth s) then 0 else 1 else
      if r =? WR_EV_PENDING then 1 else if r =? WR_SLOT then slot
      else if r =? WR_LEN then 54 + Z.of_nat (length (f_payload f)) else default 0 (e_regs (n_eth s) !! r)) s \/
      r = RD_READY) as Hrd.
    { intros r. unfold eth_rd. destruct (Z.eqb_spec r RD_READY); [by right|left]. by rewrite Hq. }
    destruct (Hrd WR_EV_PENDING) as [E1|?]; [|done]. step E1. change (negb (Z.land _ 1 =? 0)) with true. cbn iota.
    destruct (Hrd WR_SLOT) as [E3|?]; [|done]. step E3.
    change (if WR_SLOT =? RD_READY then _ else _) with slot. cbv zeta.
    destruct (Hrd WR_LEN) as [E2|?]; [|done]. step E2.
    change (if WR_LEN =? RD_READY then _ else _) with (54 + Z.of_nat (length (f_payload f))).
    unfold frame_to_stack. rewrite Z.gtb_ltb, (proj2 (Z.ltb_ge _ _)) by lia. rewrite bind_assoc.
    rewrite (bind_ok _ _ s (concat (frame_fields f)) s)
      by (apply (sram_get_ok _ _ _ junk); [done|by rewrite Hq; cbn [slot_contents]; rewrite Z.eqb_refl|by rewrite Lf, Nat2Z.inj_add]).
    rewrite bind_assoc. rewrite (bind_ok _ _ s tt (set_rxbuf ([0; 0] ++ concat (frame_fields f) ++ old2) s)).
    + rewrite u32_small by (unfold is_u32; lia). do 2 f_equal. lia.
    + unfold rx_put, gets, bind, bput. rewrite Hrx, Eo.
      rewrite (slice_some _ 2 _ [0; 0] old1 old2) by (done || by rewrite Lf, Ho1).
      unfold modify. by rewrite (splice_middle [0; 0] old1 old2) by (done || by rewrite Lf, Ho1).
  - split.
    + exists old2. split; [done|]. rewrite Eo in Bold. by apply Forall_app in Bold as [_ ?].
    + rewrite Eo, length_app in Hold. rewrite !length_app, Lf. cbn [length]. lia.
Qed.

Lemma incoming_received f s q :
  incoming f s q -> exists buf,
    eth_handle_rx garbage s =
      (@net_rx_eth netboot_eth (netboot_client garbage) garbage 0 (56 + Z.of_nat (length (f_payload f))) ;; eth_wr WR_EV_PENDING 1)
        (set_rxbuf buf s) /\
    received f (set_rxbuf buf s) /\ length buf = 1536%nat.
Proof. exact (@incoming_polled (netboot_client garbage) f s q). Qed.

(** A well-formed message for this node reaches the protocol handler. *)
Lemma message_dispatched f s sport port cmd seq arg db mcast chk extra :
  interface_ok s -> accepts s f = Some mcast ->
  carries f s sport port cmd seq arg db -> is_u16 port ->
  let msg := message cmd seq arg db in
  f_payload f = datagram sport port (be16 (8 + Z.of_nat (length msg)) ++ chk) msg extra ->
  length chk = 2%nat -> (length (f_payload f) <= 1480)%nat ->
  @net_rx_eth netboot_eth (netboot_client garbage) garbage 0 (56 + Z.of_nat (length (f_payload f))) s =
  netboot_rx_udp garbage 64 (Z.of_nat (length msg)) port mcast s.
Proof.
  clear Hgarbage Hgb. intros Hi Ha [Cm Cr] Hport msg Hp Hchk Hl.
  pose proof (length_message cmd seq arg db (m_seq _ _ _ _ _ _ _ Cm)) as Lm. fold msg in Lm.
  pose proof (m_frame _ _ _ _ _ _ _ Cm) as Hf. pose proof (m_sport _ _ _ _ _ _ _ Cm) as Hsp.
  assert (length (f_payload f) = 8 + length msg + length extra)%nat as Lp.
  { rewrite Hp, length_datagram; [done|done|]. by rewrite length_app, Hchk. }
  pose proof (@net_rx_eth_ok netboot_eth (netboot_client garbage) garbage f s _ Hi Hf Cr eq_refl ltac:(lia)) as Hok.
  rewrite Ha in Hok. rewrite Hok, (m_udp _ _ _ _ _ _ _ Cm). unfold rx_dispatch.
  cbn [Z.eqb Pos.eqb IP_HDR_ICMP IP_HDR_UDP].
  replace (56 + Z.of_nat (length (f_payload f)) - 56) with (Z.of_nat (length (f_payload f))) by lia.
  unfold datagram in Hp. rewrite <- app_assoc in Hp. pose proof (m_db _ _ _ _ _ _ _ Cm) as Hdb.
  destruct (@udp_ok (netboot_client garbage) f s mcast sport (u8 (port / 0x100)) (u8 port) chk msg extra)
    as [-> _]; [done|done|exact Hp|done|done|lia|].
  unfold pkt_rx_udp, netboot_client. f_equal. zarith.
Qed.

(** The handler on a message to the control port, up to the command. *)
Lemma control_ok f s sport cmd seq arg db mcast :
  carries f s sport NB_PORT_CTRL cmd seq arg db ->
  netboot_rx_udp garbage 64 (Z.of_nat (length (message cmd seq arg db))) NB_PORT_CTRL mcast s =
  (if cmd =? NB_CMD_QUERY then xputc 81 ;; query_reply garbage 64
   else if cmd =? NB_CMD_WRITE then
     xputc 46 ;; ram_write arg db ;; status_reply garbage 64 NB_OK
   else if cmd =? NB_CMD_EXEC then
     xputc 33 ;;
     status_reply garbage 64 NB_OK ;;
     node_hw (CsrWrite CSR_MSTATUS 0x800) ;;
     xprintf ([10; 10] ++ str "[ execution starts at 0x%08x ]" ++ [10; 10]) [VaWord arg] ;;
     exit_mode_m 0 0 arg 0
   else xputc 69 ;; status_reply garbage 64 NB_ERR_BADCMD) s.
Proof.
  clear Hgarbage Hgb. intros C. pose proof (m_seq _ _ _ _ _ _ _ (proj1 C)) as Hseq.
  pose proof (length_message cmd seq arg db Hseq) as Lm.
  pose proof (m_db _ _ _ _ _ _ _ (proj1 C)) as Hdb.
  unfold netboot_rx_udp. rewrite Lm. rewrite (proj2 (orb_false_iff _ _))
    by (rewrite Z.gtb_ltb; unfold NB_MSG_MIN, NB_MSG_MAX; split; apply Z.ltb_ge; lia).
  assert (msg_get (64 + MSG_MAGIC) s = Ok NB_MAGIC s) as E1.
  { rewrite (msg_get_ok f s sport NB_PORT_CTRL cmd seq arg db _ [] (le32 NB_MAGIC) (le32 cmd ++ seq ++ le32 arg ++ db));
      [by rewrite le32_val by by_decide|exact C|done..]. }
  assert (msg_get (64 + MSG_CMD) s = Ok cmd s) as E2.
  { rewrite (msg_get_ok f s sport NB_PORT_CTRL cmd seq arg db _ (le32 NB_MAGIC) (le32 cmd) (seq ++ le32 arg ++ db));
      [by rewrite le32_val by apply C|exact C|done..]. }
  assert (forall l, msg_get (64 + MSG_ARG) (emit l s) = Ok arg (emit l s)) as E3.
  { intros l. rewrite (msg_get_ok f (emit l s) sport NB_PORT_CTRL cmd seq arg db _
      (le32 NB_MAGIC ++ le32 cmd ++ seq) (le32 arg) db);
      [by rewrite le32_val by apply C|exact C| | |done].
    - unfold message. by rewrite <- !app_assoc.
    - rewrite !length_app, Hseq. done. }
  assert (forall l, rx_get (64 + MSG_DB) (Z.of_nat (16 + length db) - NB_MSG_MIN) (emit l s) = Ok db (emit l s)) as E4.
  { intros l. apply rx_get_ok. apply (msg_slice f (emit l s) sport NB_PORT_CTRL cmd seq arg db _ _
      (le32 NB_MAGIC ++ le32 cmd ++ seq ++ le32 arg) db []); [exact C| | |].
    - unfold message. by rewrite <- !app_assoc, app_nil_r.
    - rewrite !length_app, Hseq. done.
    - unfold NB_MSG_MIN. lia. }
  step E1. rewrite Z.eqb_refl. cbn [negb Z.eqb Pos.eqb NB_PORT_CTRL NB_PORT_QUERY]. step E2.
  destruct (cmd =? NB_CMD_QUERY); [done|]. destruct (cmd =? NB_CMD_WRITE).
  { do 2 step (xputc_ok 46 s). step (E3 (wire1 46)). by step (E4 (wire1 46)). }
  destruct (cmd =? NB_CMD_EXEC); [|done]. do 2 step (xputc_ok 33 s). by step (E3 (wire1 33)).
Qed.

Lemma query_ok f s sport seq arg mcast :
  carries f s sport NB_PORT_QUERY NB_CMD_QUERY seq arg nodename ->
  netboot_rx_udp garbage 64 22 NB_PORT_QUERY mcast s = query_reply garbage 64 s.
Proof.
  clear Hgarbage Hgb. intros C. pose proof (m_seq _ _ _ _ _ _ _ (proj1 C)) as Hseq. unfold netboot_rx_udp.
  change ((22 <? NB_MSG_MIN) || (22 >? NB_MSG_MAX)) with false. cbn iota.
  rewrite (bind_ok _ _ s NB_MAGIC s).
  2: { rewrite (msg_get_ok f s sport NB_PORT_QUERY NB_CMD_QUERY seq arg nodename _ [] (le32 NB_MAGIC)
      (le32 NB_CMD_QUERY ++ seq ++ le32 arg ++ nodename));
      [by rewrite le32_val by by_decide|exact C|done..]. }
  change (negb (NB_MAGIC =? NB_MAGIC)) with false. change (NB_PORT_QUERY =? NB_PORT_QUERY) with true. cbn iota.
  rewrite (bind_ok _ _ s NB_CMD_QUERY s).
  2: { rewrite (msg_get_ok f s sport NB_PORT_QUERY NB_CMD_QUERY seq arg nodename _ (le32 NB_MAGIC)
      (le32 NB_CMD_QUERY) (seq ++ le32 arg ++ nodename));
      [by rewrite le32_val by by_decide|exact C|done..]. }
  change (negb (NB_CMD_QUERY =? NB_CMD_QUERY)) with false. change (negb (22 =? _)) with false. cbn iota.
  rewrite (bind_ok _ _ s nodename s); [by rewrite decide_False by tauto|].
  apply rx_get_ok. apply (msg_slice f s sport NB_PORT_QUERY NB_CMD_QUERY seq arg nodename _ _
    (le32 NB_MAGIC ++ le32 NB_CMD_QUERY ++ seq ++ le32 arg) nodename []); [exact C| | |done].
  - unfold message. by rewrite <- !app_assoc, app_nil_r.
  - rewrite !length_app, Hseq. done.
Qed.

Lemma free_slot_ok s : eth_wr WR_EV_PENDING 1 s =
  Ok tt (set_eth {| e_sram := e_sram (n_eth s); e_regs := e_regs (n_eth s); e_stalls := e_stalls (n_eth s);
                    e_rx := release (e_rx (n_eth s)); e_sent := e_sent (n_eth s) |} s).
Proof. done. Qed.

(** ** The query reply *)

Lemma read_splice b off l :
  0 <= off -> off + Z.of_nat (length l) <= Z.of_nat (length b) ->
  read_bytes (write_bytes (mem_lit 0 b) off l) 0 (length b) = Some (splice b off l).
Proof.
  clear Hgarbage Hgb. intros H0 H1. apply read_bytes_lookup. split; [by apply length_splice|].
  intros i Hi. rewrite Z.add_0_l, lookup_write_bytes. case_decide as Hd.
  - unfold splice. rewrite lookup_app_r by (rewrite length_take; lia).
    rewrite length_take. rewrite lookup_app_l by lia. f_equal. lia.
  - rewrite lookup_splice_ne by lia. unfold mem_lit. rewrite lookup_write_bytes, decide_True by lia.
    f_equal. lia.
Qed.

(** The reply's text, with its NUL. *)
Definition name_text : list Z := str "name=device" ++ [0].

Lemma query_text_ok (s : node) :
  length (rxbuf s) = 1536%nat ->
  in_rxbuf (snprintf (64 + MSG_DB) NB_DATA_MAX (str "name=%s") [VaStr (Some nodename)]) s =
  Ok 11 (set_rxbuf (splice (rxbuf s) 80 name_text) s).
Proof.
  clear Hgarbage Hgb. intros Hl. unfold in_rxbuf, snprintf.
  set (ds := [(str "name=", {| d_left := false; d_plus := false; d_space := false; d_alt := false;
    d_zero := false; d_width := 0; d_conv := CString |})]).
  change (str "name=%s") with (unparse ds []).
  assert (mapped (mem_of (mem_lit 0 (rxbuf s))) (64 + MSG_DB) NB_DATA_MAX) as Hm.
  { apply mapped_lookup. intros i Hi. change (64 + MSG_DB) with 80 in Hi. unfold NB_DATA_MAX in Hi.
    change (mem_of (mem_lit 0 (rxbuf s))) with (mem_lit 0 (rxbuf s)).
    unfold mem_lit. rewrite lookup_write_bytes, decide_True by lia. apply lookup_lt_is_Some_2. lia. }
  rewrite (vsnprintf_ok (64 + MSG_DB) NB_DATA_MAX ds [] [VaStr (Some nodename)] (str "name=device")
    (mem_lit 0 (rxbuf s))); [|by_decide|reflexivity|done|done|done|done|done|exact Hm].
  change (map u8 _ ++ [0]) with name_text.
  change (poke (mem_lit 0 (rxbuf s)) (64 + MSG_DB) name_text)
    with (write_bytes (mem_lit 0 (rxbuf s)) 80 name_text).
  rewrite read_splice; [done|done|]. rewrite Hl. done.
Qed.

Lemma query_reply_ok f s sport port cmd seq arg db :
  carries f s sport port cmd seq arg db -> interface_ok s -> tx_ok s -> length (rxbuf s) = 1536%nat ->
  exists s', query_reply garbage 64 s = Ok tt s' /\ only_net s s' /\ tx_ok s' /\
    replied s s' f sport (message NB_CMD_STATUS seq NB_OK name_text) /\ buffer_ready s'.
Proof.
  intros C Hi Htx Hl. unfold query_reply. step (query_text_ok s Hl).
  set (s1 := set_rxbuf (splice (rxbuf s) 80 name_text) s).
  assert (exists f', carries f' s1 sport port cmd seq arg name_text /\
    f_smac f' = f_smac f /\ f_sip f' = f_sip f) as (f1 & C1 & S1 & I1).
  { pose proof (m_frame _ _ _ _ _ _ _ (proj1 C)) as Hf. pose proof (length_frame f Hf) as Lf.
    destruct C as [[_ C1 (hd & extra & Hhd & Hp) C2 C3 C4 C5 C6] (rest & Hr & Br)].
    set (pre := sport ++ be16 port ++ hd ++ le32 NB_MAGIC ++ le32 cmd ++ seq ++ le32 arg).
    set (fixed := concat (take 9 (frame_fields f))).
    assert (length pre = 24%nat) as Lpre by (unfold pre; rewrite !length_app, C2, Hhd, C3; done).
    assert (length fixed = 54%nat) as Lfix.
    { unfold fixed. rewrite length_concat_laid, <- firstn_map. destruct Hf as [-> _]. done. }
    assert (f_payload f = pre ++ db ++ extra) as Hpre
      by (rewrite Hp; unfold datagram, message, pre; by rewrite <- !app_assoc).
    assert (concat (frame_fields f) = fixed ++ f_payload f) as Hcat
      by (unfold fixed, frame_fields; cbn [take concat]; by rewrite !app_nil_r, <- !app_assoc).
    assert (Forall is_u8 (fixed ++ pre ++ db ++ extra)) as Bf
      by (rewrite <- Hpre, <- Hcat; apply Hf).
    rewrite !Forall_app in Bf.
    assert (rxbuf s = ([0; 0] ++ fixed ++ pre) ++ (db ++ extra ++ rest)) as E
      by (rewrite Hr, Hcat, Hpre; by rewrite <- !app_assoc).
    destruct (split_at 12 (db ++ extra ++ rest)) as (t1 & t2 & Et & Lt1).
    { rewrite E, !length_app, Lpre, Lfix in Hl. rewrite !length_app. cbn [length] in Hl. lia. }
    assert (bytes t2) as Bt.
    { assert (bytes (db ++ extra ++ rest)) as Ball by (rewrite !Forall_app; tauto).
      rewrite Et in Ball. by apply Forall_app in Ball as [_ ?]. }
    exists (with_payload (pre ++ name_text) f). split; [|done]. split.
    - split; try done.
      + apply frame_ok_with; [done|]. apply Forall_app. split; [tauto|by_decide].
      + exists hd, []. split; [done|]. cbn [with_payload f_payload]. unfold datagram, message, pre.
        by rewrite app_nil_r, <- !app_assoc.
      + change (length name_text) with 12%nat. lia.
    - exists t2. split; [|done]. cbn [s1 set_rxbuf rxbuf]. rewrite E, Et.
      rewrite (splice_middle ([0; 0] ++ fixed ++ pre) t1 t2)
        by (rewrite ?Lt1, ?length_app, ?Lfix, ?Lpre; done).
      unfold fixed, frame_fields. cbn [take concat with_payload f_dmac f_smac f_type f_bits f_iplen f_nh
        f_hop f_sip f_dip f_payload]. by rewrite !app_nil_r, <- !app_assoc. }
  destruct (msg_put_ok f1 s1 sport port cmd seq arg name_text (64 + MSG_CMD) NB_CMD_STATUS (le32 NB_MAGIC)
    (le32 cmd) (seq ++ le32 arg ++ name_text) NB_CMD_STATUS arg C1 eq_refl eq_refl eq_refl eq_refl)
    as (b1 & f2 & E1 & C2 & S2 & I2); [by_decide|apply C1|].
  step E1. set (s2 := set_rxbuf b1 s1) in *. pose proof (m_seq _ _ _ _ _ _ _ (proj1 C)) as Lseq.
  destruct (msg_put_ok f2 s2 sport port NB_CMD_STATUS seq arg name_text (64 + MSG_ARG) NB_OK
    (le32 NB_MAGIC ++ le32 NB_CMD_STATUS ++ seq) (le32 arg) name_text NB_CMD_STATUS NB_OK C2)
    as (b2 & f3 & E2 & C3 & S3 & I3);
    [by unfold message; rewrite <- !app_assoc|by unfold message; rewrite <- !app_assoc| |done|apply C2|by_decide|].
  { rewrite !length_app, Lseq. done. }
  step E2. set (s3 := set_rxbuf b2 s2) in *. change (u32 (NB_MSG_MIN + 11 + 1)) with 28.
  destruct (reply_ok f3 s3 sport port NB_CMD_STATUS seq NB_OK name_text 28
    (message NB_CMD_STATUS seq NB_OK name_text) [] C3 Hi Htx) as (s' & E & Ho & Hok & Hr).
  { by rewrite app_nil_r. }
  { by rewrite length_message. }
  exists s'. split; [exact E|]. split; [exact (only_tx_net s3 s' Ho)|]. split; [done|].
  split.
  - destruct Hr as (chk & Hsent & Hv). exists chk.
    unfold reply_frame in *. rewrite <- S1, <- I1, <- S2, <- I2, <- S3, <- I3. done.
  - apply msg_put_length in E1, E2. destruct Ho as [Ho _]. unfold buffer_ready. rewrite Ho.
    destruct C3 as [C3 R3]. apply (received_ready f3 s3); [apply C3|exact R3|].
    rewrite E2, E1. cbn [s1 set_rxbuf rxbuf]. rewrite length_splice; [exact Hl|lia|]. rewrite Hl. by change (length name_text) with 12%nat.
Qed.
End protocol.



(** ** The properties *)

Section properties.
Context (garbage : list Z) (Hgarbage : length garbage = 1536%nat) (Hgb : bytes garbage).

(** The transmit driver.  However long the MAC stays busy, a frame of at
    most 1534 bytes is sent exactly as given and the slots alternate: the frame
    is in the slot that was next, the other slot - from which the MAC may still
    be sending - is not touched.  A longer frame is dropped without a trace. *)
Theorem eth_tx_double_buffer l s :
  tx_ok s ->
  if decide (Z.of_nat (length l) <= 1534) then
    exists s', eth_tx_code l s = Ok tt s' /\ n_tx s' = n_tx s ++ [l] /\ only_tx s s' /\ tx_ok s' /\
      txslot s' = 1 - txslot s /\
      slice (e_sram (n_eth s')) (0x800 * txslot s) (Z.of_nat (length l)) = Some l /\
      slice (e_sram (n_eth s')) (0x800 * txslot s') 0x800 = slice (e_sram (n_eth s)) (0x800 * txslot s') 0x800
  else eth_tx_code l s = Ok tt s.
Proof.
  clear Hgarbage Hgb. intros Hok. case_decide as Hl.
  - exists (transmitted l s). rewrite eth_tx_transmits by done. destruct Hok as [Hs Hlen].
    assert (txslot (transmitted l s) = 1 - txslot s) as Et
      by (cbn [transmitted set_tx txslot]; destruct Hs as [-> | ->]; done).
    assert (length (e_sram (n_eth (transmitted l s))) = 4096%nat) as Hlen'
      by (cbn [transmitted set_tx n_eth e_sram]; rewrite length_splice; lia).
    split; [done|]. split; [done|]. split; [done|]. split; [split; [lia|done]|]. split; [done|]. split.
    + cbn [transmitted set_tx n_eth e_sram]. apply slice_splice; lia.
    + unfold slice. rewrite Hlen', Hlen. destruct (_ && _); [|done]. f_equal. rewrite Et.
      cbn [transmitted set_tx n_eth e_sram]. apply list_eq. intros i.
      destruct (decide (i < Z.to_nat 0x800)%nat); [|by rewrite !lookup_take_ge by lia].
      rewrite !lookup_take_lt, !lookup_drop by lia. apply lookup_splice_ne; lia.
  - unfold eth_tx_code. by rewrite (proj2 (Z.gtb_lt _ _)) by lia.
Qed.

(** The run of a WRITE message. *)
Lemma write_served f s q mcast sport seq addr db chk extra :
  interface_ok s -> tx_ok s -> incoming f s q -> accepts s f = Some mcast ->
  is_message f sport NB_PORT_CTRL NB_CMD_WRITE seq addr db ->
  let msg := message NB_CMD_WRITE seq addr db in
  f_payload f = datagram sport NB_PORT_CTRL (be16 (8 + Z.of_nat (length msg)) ++ chk) msg extra ->
  length chk = 2%nat -> mapped (n_mem s) addr (Z.of_nat (length db)) ->
  exists s', eth_handle_rx garbage s = Ok tt s' /\
    n_mem s' = write_bytes (n_mem s) addr db /\ n_uart s' = sent [46] (n_uart s) /\
    replied s s' f sport (message NB_CMD_STATUS seq NB_OK []) /\
    e_rx (n_eth s') = q /\ n_hw s' = n_hw s /\ interface_ok s' /\ tx_ok s' /\
    buffer_ready s' /\ ifc_mac s' = ifc_mac s.
Proof.
  intros Hi Htx Hin Ha Hm msg Hp Hchk Hmap.
  destruct (incoming_received garbage f s q Hin) as (buf & E & Hr & Lbuf). rewrite E. clear E.
  set (s1 := set_rxbuf buf s) in *.
  assert (carries f s1 sport NB_PORT_CTRL NB_CMD_WRITE seq addr db) as C by done.
  pose proof (message_dispatched garbage f s1 sport NB_PORT_CTRL NB_CMD_WRITE seq addr db mcast chk extra Hi Ha C
    ltac:(by_decide) Hp Hchk ltac:(apply Hin)) as E1.
  unfold bind at 1. rewrite E1. rewrite (control_ok garbage f s1 sport NB_CMD_WRITE seq addr db mcast C).
  change (NB_CMD_WRITE =? NB_CMD_QUERY) with false. change (NB_CMD_WRITE =? NB_CMD_WRITE) with true. cbn iota.
  step (xputc_ok 46 s1). set (s2 := emit (wire1 46) s1).
  assert (ram_write addr db s2 = Ok tt (poke s2 addr db)) as E2 by (unfold ram_write; by rewrite decide_True).
  step E2. set (s3 := poke s2 addr db).
  assert (carries f s3 sport NB_PORT_CTRL NB_CMD_WRITE seq addr db) as C3 by exact C.
  destruct (status_reply_ok garbage Hgarbage Hgb f s3 sport NB_PORT_CTRL NB_CMD_WRITE seq addr db NB_OK C3 Hi Htx
    ltac:(by_decide)) as (s4 & E4 & (M & U & Hw & Q & Mac & I) & T & R & B).
  rewrite E4, free_slot_ok. eexists. split; [reflexivity|].
  split; [exact M|]. split; [exact U|]. split; [exact R|]. split.
  { cbn [set_eth set_tx n_eth e_rx]. rewrite Q. destruct Hin as [_ _ (slot & junk & _ & Hq) _].
    change (e_rx (n_eth s3)) with (e_rx (n_eth s)). by rewrite Hq. }
  split; [exact Hw|]. split; [exact (I Hi)|]. split; [exact T|]. split; [exact (B Lbuf)|exact Mac].
Qed.

(** The run of a query. *)
Lemma query_served f s q mcast sport seq arg chk extra :
  interface_ok s -> tx_ok s -> incoming f s q -> accepts s f = Some mcast ->
  is_message f sport NB_PORT_QUERY NB_CMD_QUERY seq arg nodename ->
  let msg := message NB_CMD_QUERY seq arg nodename in
  f_payload f = datagram sport NB_PORT_QUERY (be16 (8 + Z.of_nat (length msg)) ++ chk) msg extra ->
  length chk = 2%nat ->
  exists s', eth_handle_rx garbage s = Ok tt s' /\ n_mem s' = n_mem s /\ n_uart s' = n_uart s /\
    replied s s' f sport (message NB_CMD_STATUS seq NB_OK name_text) /\
    e_rx (n_eth s') = q /\ n_hw s' = n_hw s /\ interface_ok s' /\ tx_ok s' /\
    buffer_ready s' /\ ifc_mac s' = ifc_mac s.
Proof.
  intros Hi Htx Hin Ha Hm msg Hp Hchk.
  destruct (incoming_received garbage f s q Hin) as (buf & E & Hr & Lbuf). rewrite E. clear E.
  set (s1 := set_rxbuf buf s) in *. pose proof (m_seq _ _ _ _ _ _ _ Hm) as Lseq.
  assert (carries f s1 sport NB_PORT_QUERY NB_CMD_QUERY seq arg nodename) as C by done.
  pose proof (message_dispatched garbage f s1 sport NB_PORT_QUERY NB_CMD_QUERY seq arg nodename mcast chk extra
    Hi Ha C ltac:(by_decide) Hp Hchk ltac:(apply Hin)) as E1.
  unfold bind at 1. rewrite E1, length_message by done. change (Z.of_nat (16 + length nodename)) with 22.
  rewrite (query_ok garbage f s1 sport seq arg mcast C).
  destruct (query_reply_ok garbage Hgarbage Hgb f s1 sport NB_PORT_QUERY NB_CMD_QUERY seq arg nodename C Hi Htx
    Lbuf) as (s4 & E4 & (M & U & Hw & Q & Mac & I) & T & R & B).
  rewrite E4, free_slot_ok. eexists. split; [reflexivity|].
  split; [exact M|]. split; [exact U|]. split; [exact R|]. split.
  { cbn [set_eth set_tx n_eth e_rx]. rewrite Q. destruct Hin as [_ _ (slot & junk & _ & Hq) _].
    change (e_rx (n_eth s1)) with (e_rx (n_eth s)). by rewrite Hq. }
  split; [exact Hw|]. split; [exact (I Hi)|]. split; [exact T|]. split; [exact B|exact Mac].
Qed.

(** C4: WRITE over the network.  When the next frame the MAC has received is a
    well-formed WRITE message for this node's control port, one round of the
    receive loop stores exactly the message's data at the message's address -
    every other byte of memory is as it was -, prints a dot, answers the sender
    with one STATUS message that repeats the sequence number and says OK, with
    a valid checksum, and hands the receive slot back to the MAC. *)
Theorem netboot_write f s q mcast sport seq addr db chk extra :
  interface_ok s -> tx_ok s -> incoming f s q -> accepts s f = Some mcast ->
  is_message f sport NB_PORT_CTRL NB_CMD_WRITE seq addr db ->
  let msg := message NB_CMD_WRITE seq addr db in
  f_payload f = datagram sport NB_PORT_CTRL (be16 (8 + Z.of_nat (length msg)) ++ chk) msg extra ->
  length chk = 2%nat -> mapped (n_mem s) addr (Z.of_nat (length db)) ->
  exists s', eth_handle_rx garbage s = Ok tt s' /\
    n_mem s' = write_bytes (n_mem s) addr db /\ n_uart s' = sent [46] (n_uart s) /\
    replied s s' f sport (message NB_CMD_STATUS seq NB_OK []) /\
    e_rx (n_eth s') = q /\ n_hw s' = n_hw s /\ interface_ok s' /\ tx_ok s'.
Proof.
  intros Hi Htx Hin Ha Hm msg Hp Hchk Hmap.
  destruct (write_served f s q mcast sport seq addr db chk extra Hi Htx Hin Ha Hm Hp Hchk Hmap)
    as (s' & E & M & U & R & Q & Hw & I & T & _).
  by exists s'.
Qed.

Definition exec_text (entry : Z) : list Z :=
  [10; 10] ++ str "[ execution starts at 0x" ++ justify false true 8 [] (hex false entry) ++ str " ]" ++ [10; 10].

Lemma exec_text_ok entry (s : node) :
  is_u32 entry ->
  xprintf ([10; 10] ++ str "[ execution starts at 0x%08x ]" ++ [10; 10]) [VaWord entry] s =
  Ok tt (emit (wire (exec_text entry)) s).
Proof.
  clear Hgarbage Hgb. intros He. unfold xprintf.
  set (ds := [([10; 10] ++ str "[ execution starts at 0x",
    {| d_left := false; d_plus := false; d_space := false; d_alt := false; d_zero := true;
       d_width := 8; d_conv := CHex false |})]).
  change ([10; 10] ++ str "[ execution starts at 0x%08x ]" ++ [10; 10]) with (unparse ds (str " ]" ++ [10; 10])).
  assert (render ds (str " ]" ++ [10; 10]) [VaWord entry] = Some (exec_text entry)) as Hr.
  { unfold ds. cbn [render render_directive d_conv d_alt d_left d_zero d_width andb app option_map].
    rewrite (u32_small entry He). reflexivity. }
  pose proof (digits_length 16 entry ltac:(lia) He) as Hd.
  assert (length (justify false true 8 [] (hex false entry)) <= 18)%nat as Hj.
  { unfold justify, hex, zeros. rewrite !length_app, length_replicate, length_map. cbn [length]. lia. }
  assert (length (exec_text entry) <= 127)%nat as Hlen.
  { unfold exec_text. rewrite !length_app. change (length (str "[ execution starts at 0x")) with 24%nat.
    change (length (str " ]")) with 2%nat. cbn [length]. lia. }
  assert (well_formed ds (str " ]" ++ [10; 10])) as Hwf by by_decide.
  rewrite (vxprintf_ok ds _ _ _ s Hwf Hr ltac:(lia) ltac:(cbn; lia)).
  rewrite printed_short; [done|done|]. unfold exec_text. rewrite !Forall_app.
  split; [by repeat constructor|]. split; [by apply (bool_decide_unpack _)|]. split.
  - unfold justify. rewrite !Forall_app. split; [done|]. split; [apply Forall_replicate; lia|].
    eapply Forall_impl; [|by apply hex_chars]. cbn. lia.
  - split; [by apply (bool_decide_unpack _)|by repeat constructor].
Qed.

(** The run of EXEC. *)
Lemma exec_served f s q mcast sport seq entry db chk extra :
  interface_ok s -> tx_ok s -> incoming f s q -> accepts s f = Some mcast ->
  is_message f sport NB_PORT_CTRL NB_CMD_EXEC seq entry db ->
  let msg := message NB_CMD_EXEC seq entry db in
  f_payload f = datagram sport NB_PORT_CTRL (be16 (8 + Z.of_nat (length msg)) ++ chk) msg extra ->
  length chk = 2%nat ->
  exists s', eth_handle_rx garbage s = Halt s' /\ n_mem s' = n_mem s /\ ifc_mac s' = ifc_mac s /\
    n_uart s' = sent ([33] ++ wire (exec_text entry)) (n_uart s) /\
    replied s s' f sport (message NB_CMD_STATUS seq NB_OK []) /\
    n_hw s' = n_hw s ++ [CsrWrite CSR_MSTATUS 0x800; CsrWrite CSR_MEPC entry; Mret 0 0 entry 0].
Proof.
  intros Hi Htx Hin Ha Hm msg Hp Hchk.
  destruct (incoming_received garbage f s q Hin) as (buf & E & Hr & Lbuf). rewrite E. clear E.
  set (s1 := set_rxbuf buf s) in *.
  assert (carries f s1 sport NB_PORT_CTRL NB_CMD_EXEC seq entry db) as C by done.
  pose proof (message_dispatched garbage f s1 sport NB_PORT_CTRL NB_CMD_EXEC seq entry db mcast chk extra Hi Ha C
    ltac:(by_decide) Hp Hchk ltac:(apply Hin)) as E1.
  rewrite (control_ok garbage f s1 sport NB_CMD_EXEC seq entry db mcast C) in E1.
  change (NB_CMD_EXEC =? NB_CMD_QUERY) with false in E1. change (NB_CMD_EXEC =? NB_CMD_WRITE) with false in E1.
  change (NB_CMD_EXEC =? NB_CMD_EXEC) with true in E1. cbn iota in E1.
  rewrite (bind_ok _ _ _ _ _ (xputc_ok 33 s1)) in E1. set (s2 := emit (wire1 33) s1) in *.
  assert (carries f s2 sport NB_PORT_CTRL NB_CMD_EXEC seq entry db) as C2 by exact C.
  destruct (status_reply_ok garbage Hgarbage Hgb f s2 sport NB_PORT_CTRL NB_CMD_EXEC seq entry db NB_OK C2 Hi Htx
    ltac:(by_decide)) as (s4 & E4 & (M & U & Hw & _ & Mac & _) & _ & R & _).
  rewrite (bind_ok _ _ _ _ _ E4) in E1.
  unfold node_hw at 1 in E1. unfold bind at 1 in E1. unfold modify at 1 in E1.
  rewrite (bind_ok _ _ _ _ _ (exec_text_ok entry _ (m_arg _ _ _ _ _ _ _ Hm))) in E1.
  eexists. split; [apply bind_halt; rewrite E1; reflexivity|].
  split; [exact M|]. split; [exact Mac|]. split; [|split; [exact R|]].
  - transitivity (sent (wire (exec_text entry)) (n_uart s4)); [done|]. rewrite U.
    change (n_uart s2) with (sent (wire1 33) (n_uart s)). by rewrite sent_sent.
  - transitivity (((n_hw s4 ++ [CsrWrite CSR_MSTATUS 0x800]) ++
      [CsrWrite CSR_MEPC entry]) ++ [Mret 0 0 entry 0]); [done|]. rewrite Hw, <- !app_assoc. done.
Qed.

(** EXEC over the network.  The node first acknowledges, then says on the
    console where it goes, selects supervisor mode as the mode to return to and
    leaves machine mode for good, to exactly the address the message names, with
    both argument registers and the stack pointer zero; memory is untouched. *)
Theorem netboot_exec f s q mcast sport seq entry db chk extra :
  interface_ok s -> tx_ok s -> incoming f s q -> accepts s f = Some mcast ->
  is_message f sport NB_PORT_CTRL NB_CMD_EXEC seq entry db ->
  let msg := message NB_CMD_EXEC seq entry db in
  f_payload f = datagram sport NB_PORT_CTRL (be16 (8 + Z.of_nat (length msg)) ++ chk) msg extra ->
  length chk = 2%nat ->
  exists s', eth_handle_rx garbage s = Halt s' /\ n_mem s' = n_mem s /\
    n_uart s' = sent ([33] ++ wire (exec_text entry)) (n_uart s) /\
    replied s s' f sport (message NB_CMD_STATUS seq NB_OK []) /\
    n_hw s' = n_hw s ++ [CsrWrite CSR_MSTATUS 0x800; CsrWrite CSR_MEPC entry; Mret 0 0 entry 0].
Proof.
  intros Hi Htx Hin Ha Hm msg Hp Hchk.
  destruct (exec_served f s q mcast sport seq entry db chk extra Hi Htx Hin Ha Hm Hp Hchk)
    as (s' & E & M & _ & U & R & Hw).
  by exists s'.
Qed.

(** C37: everything else is ignored.  A datagram that is too short or too long,
    or does not start with the protocol's magic number, or is not for one of the
    two ports, or comes to the query port without being a query for this node's
    name, changes nothing: no reply, no store, no output. *)
Theorem netboot_ignores data len port mcast s magic cmd name :
  slice (rxbuf s) data 4 = Some magic -> slice (rxbuf s) (data + 4) 4 = Some cmd ->
  slice (rxbuf s) (data + 16) 6 = Some name ->
  len < 16 \/ 1040 < len \/ le_val magic <> NB_MAGIC \/
  (port <> NB_PORT_QUERY /\ port <> NB_PORT_CTRL) \/
  (port = NB_PORT_QUERY /\ (le_val cmd <> NB_CMD_QUERY \/ len <> 22 \/ name <> nodename)) ->
  netboot_rx_udp garbage data len port mcast s = Ok tt s.
Proof.
  clear Hgarbage Hgb. intros Hm Hc Hn H. unfold netboot_rx_udp, msg_get.
  destruct ((len <? NB_MSG_MIN) || (len >? NB_MSG_MAX)) eqn:El; [done|].
  rewrite orb_false_iff, Z.gtb_ltb, !Z.ltb_ge in El. unfold NB_MSG_MIN, NB_MSG_MAX in El.
  rewrite bind_assoc. rewrite (bind_ok _ _ _ _ _ (rx_get_ok (data + MSG_MAGIC) 4 magic s
    ltac:(by replace (data + MSG_MAGIC) with data by (unfold MSG_MAGIC; lia)))). rewrite bind_ret.
  destruct (Z.eqb_spec (le_val magic) NB_MAGIC) as [Em|]; [|done]. cbn [negb].
  destruct (Z.eqb_spec port NB_PORT_QUERY) as [Ep|Ep].
  - rewrite bind_assoc, (bind_ok _ _ _ _ _ (rx_get_ok (data + MSG_CMD) 4 cmd s Hc)), bind_ret.
    destruct (Z.eqb_spec (le_val cmd) NB_CMD_QUERY) as [Ec|]; [|done]. cbn [negb].
    change (Z.of_nat (length nodename)) with 6.
    destruct (Z.eqb_spec len (6 + NB_MSG_MIN)) as [Eq|]; [|done]. cbn [negb].
    rewrite (bind_ok _ _ _ _ _ (rx_get_ok (data + MSG_DB) 6 name s Hn)).
    case_decide as Hd; [done|]. exfalso. unfold NB_MSG_MIN in Eq.
    destruct H as [?|[?|[?|[[? ?]|[? [?|[?|?]]]]]]]; (done || lia).
  - destruct (Z.eqb_spec port NB_PORT_CTRL) as [Ec|]; [|done]. exfalso.
    destruct H as [?|[?|[?|[[? ?]|[? ?]]]]]; (done || lia).
Qed.

(** Discovery.  A query for this node's name on the query port - the one the
    host multicasts - is answered, silently, with one STATUS message that
    repeats the sequence number and carries the text [name=device] with its
    NUL, whatever the receive buffer held behind the query. *)
Theorem netboot_query f s q mcast sport seq arg chk extra :
  interface_ok s -> tx_ok s -> incoming f s q -> accepts s f = Some mcast ->
  is_message f sport NB_PORT_QUERY NB_CMD_QUERY seq arg nodename ->
  let msg := message NB_CMD_QUERY seq arg nodename in
  f_payload f = datagram sport NB_PORT_QUERY (be16 (8 + Z.of_nat (length msg)) ++ chk) msg extra ->
  length chk = 2%nat ->
  exists s', eth_handle_rx garbage s = Ok tt s' /\ n_mem s' = n_mem s /\ n_uart s' = n_uart s /\
    replied s s' f sport (message NB_CMD_STATUS seq NB_OK (str "name=device" ++ [0])) /\
    e_rx (n_eth s') = q /\ n_hw s' = n_hw s /\ interface_ok s' /\ tx_ok s'.
Proof.
  intros Hi Htx Hin Ha Hm msg Hp Hchk.
  destruct (query_served f s q mcast sport seq arg chk extra Hi Htx Hin Ha Hm Hp Hchk)
    as (s' & E & M & U & R & Q & Hw & I & T & _).
  by exists s'.
Qed.
End properties.

(** ** Instances *)

(** A node with [f] waiting in the MAC, 64 bytes of RAM and a busy transmitter. *)
Definition boot_node (f : frame6) : node :=
  net_boot (replicate 1536 0)
    {| e_sram := replicate 4096 0; e_regs := ∅; e_stalls := [3; 5];
       e_rx := [Frame 1 (concat (frame_fields f) ++ [0; 0; 0; 0]) (54 + Z.of_nat (length (f_payload f)))];
       e_sent := [] |}
    (mem_lit 0x40100000 (replicate 64 0)) {| u_stalls := [2]; u_out := [] |}.

Lemma boot_node_incoming f :
  frame_ok f -> (4 <= length (f_payload f) <= 1480)%nat -> incoming f (boot_node f) [].
Proof.
  intros Hf Hl. split; [done|done| |].
  - by exists 1, [0; 0; 0; 0].
  - exists (replicate 1534 0). split; [done|]. split; [done|]. apply Forall_replicate. by_decide.
Qed.

(** A message from the peer, as it arrives. *)
Definition msg_frame (port cmd : Z) (seq : list Z) (arg : Z) (db : list Z) : frame6 :=
  let msg := message cmd seq arg db in
  frame_to node_mac (link_local node_mac) 17
    (datagram [0x30; 0x39] port (be16 (8 + Z.of_nat (length msg)) ++ [0xBE; 0xEF]) msg []).

Lemma msg_frame_ok port cmd seq arg db :
  frame_ok (msg_frame port cmd seq arg db) -> length seq = 4%nat -> (length db <= 1024)%nat ->
  is_u32 cmd -> is_u32 arg ->
  is_message (msg_frame port cmd seq arg db) [0x30; 0x39] port cmd seq arg db.
Proof.
  intros Hf Hs Hd Hc Ha. split; try done.
  by eexists (be16 (8 + Z.of_nat (length (message cmd seq arg db))) ++ [0xBE; 0xEF]), [].
Qed.

Lemma eth_tx_double_buffer_witness :
  let s := boot_node (msg_frame NB_PORT_CTRL NB_CMD_WRITE [1; 0; 0; 0] 0x40100000 [7]) in
  exists s', eth_tx_code [1; 2; 3] s = Ok tt s' /\ n_tx s' = [[1; 2; 3]] /\ txslot s' = 1.
Proof.
  pose proof (eth_tx_double_buffer [1; 2; 3]
    (boot_node (msg_frame NB_PORT_CTRL NB_CMD_WRITE [1; 0; 0; 0] 0x40100000 [7]))) as H.
  rewrite decide_True in H by by_decide.
  destruct H as (s' & E & Hs & _ & _ & Ht & _); [by_decide|].
  exists s'. split; [exact E|]. split; [exact Hs|exact Ht].
Defined.

Definition write_frame : frame6 :=
  msg_frame NB_PORT_CTRL NB_CMD_WRITE [9; 0; 0; 0] 0x40100010 [0xDE; 0xAD; 0xBE; 0xEF].

Lemma netboot_write_witness :
  exists s', eth_handle_rx stack_garbage (boot_node write_frame) = Ok tt s' /\
    n_mem s' = write_bytes (n_mem (boot_node write_frame)) 0x40100010 [0xDE; 0xAD; 0xBE; 0xEF] /\
    n_uart s' = {| u_stalls := []; u_out := [46] |} /\
    replied (boot_node write_frame) s' write_frame [0x30; 0x39] (message NB_CMD_STATUS [9; 0; 0; 0] NB_OK []) /\
    e_rx (n_eth s') = [].
Proof.
  destruct (netboot_write stack_garbage eq_refl ltac:(by apply Forall_replicate; by_decide)
    write_frame (boot_node write_frame) [] 0 [0x30; 0x39] [9; 0; 0; 0] 0x40100010 [0xDE; 0xAD; 0xBE; 0xEF]
    [0xBE; 0xEF] []) as (s' & E & M & U & R & Q & _);
    [by_decide|by_decide|apply boot_node_incoming; [by_decide|by_decide]|reflexivity
    |apply msg_frame_ok; [by_decide|reflexivity|by_decide|by_decide|by_decide]|reflexivity|reflexivity|by_decide|].
  exists s'. split; [exact E|]. split; [exact M|]. split; [exact U|]. split; [exact R|exact Q].
Defined.

Definition exec_frame : frame6 := msg_frame NB_PORT_CTRL NB_CMD_EXEC [10; 0; 0; 0] 0x40100000 [].

Lemma netboot_exec_witness :
  exists s', eth_handle_rx stack_garbage (boot_node exec_frame) = Halt s' /\
    n_hw s' = [CsrWrite CSR_MSTATUS 0x800; CsrWrite CSR_MEPC 0x40100000; Mret 0 0 0x40100000 0].
Proof.
  destruct (netboot_exec stack_garbage eq_refl ltac:(by apply Forall_replicate; by_decide)
    exec_frame (boot_node exec_frame) [] 0 [0x30; 0x39] [10; 0; 0; 0] 0x40100000 []
    [0xBE; 0xEF] []) as (s' & E & _ & _ & _ & Hw);
    [by_decide|by_decide|apply boot_node_incoming; [by_decide|by_decide]|reflexivity
    |apply msg_frame_ok; [by_decide|reflexivity|by_decide|by_decide|by_decide]|reflexivity|reflexivity|].
  exists s'. split; [exact E|exact Hw].
Defined.

Lemma netboot_ignores_witness :
  let s := node_with (msg_frame 80 NB_CMD_WRITE [9; 0; 0; 0] 0x40100010 [1; 2; 3; 4; 5; 6]) in
  netboot_rx_udp stack_garbage 64 22 80 0 s = Ok tt s.
Proof.
  apply (netboot_ignores stack_garbage 64 22 80 0
    (node_with (msg_frame 80 NB_CMD_WRITE [9; 0; 0; 0] 0x40100010 [1; 2; 3; 4; 5; 6]))
    (le32 NB_MAGIC) (le32 NB_CMD_WRITE) [1; 2; 3; 4; 5; 6]); [reflexivity..|].
  right. right. right. left. split; by_decide.
Defined.

Definition query_frame : frame6 := msg_frame NB_PORT_QUERY NB_CMD_QUERY [1; 0; 0; 0] 0 nodename.

Lemma netboot_query_witness :
  exists s', eth_handle_rx stack_garbage (boot_node query_frame) = Ok tt s' /\
    replied (boot_node query_frame) s' query_frame [0x30; 0x39]
      (message NB_CMD_STATUS [1; 0; 0; 0] NB_OK (str "name=device" ++ [0])).
Proof.
  destruct (netboot_query stack_garbage eq_refl ltac:(by apply Forall_replicate; by_decide)
    query_frame (boot_node query_frame) [] 0 [0x30; 0x39] [1; 0; 0; 0] 0 [0xBE; 0xEF] [])
    as (s' & E & _ & _ & R & _);
    [by_decide|by_decide|apply boot_node_incoming; [by_decide|by_decide]|reflexivity
    |apply msg_frame_ok; [by_decide|reflexivity|by_decide|by_decide|by_decide]|reflexivity|reflexivity|].
  exists s'. split; [exact E|exact R].
Defined.
