(* ===== verification/Loader.v ===== *)
(** * The network boot loader as a program (boot/netboot.c)

    [start] of the loader around the protocol of Netboot.v: the machine-mode
    set-up and the receive loop, up to the program it was sent; and the handler
    that reports machine exceptions.  A session is the list of what arrives. *)

From S2P Require Import Prelude Monad Hw Mem Words LibcMem LibcStr Uart Printf Exception Net Netboot.

(* src/hw/inc/hw/riscv.h:44-44 *)
Definition CSR_MEDELEG := 0x302.
(* src/hw/inc/hw/riscv.h:45-45 *)
Definition CSR_MIDELEG := 0x303.
(* src/hw/inc/hw/riscv.h:47-47 *)
Definition CSR_MTVEC := 0x305.
(* src/hw/inc/hw/riscv.h:51-51 *)
Definition CSR_MSCRATCH := 0x340.
(* src/hw/inc/hw/riscv.h:64-64 *)
Definition CSR_PMPCFG (n : Z) := 0x3A0 + n.
(* src/hw/inc/hw/riscv.h:65-65 *)
Definition CSR_PMPADDR (n : Z) := 0x3B0 + n.
(* src/hw/inc/hw/riscv.h:106-106 *)
Definition INTb_SVC_SW := Z.shiftl 1 1.
(* src/hw/inc/hw/riscv.h:108-108 *)
Definition INTb_SVC_TIMER := Z.shiftl 1 5.
(* src/hw/inc/hw/riscv.h:110-110 *)
Definition INTb_SVC_EXTERN := Z.shiftl 1 9.
(* src/hw/inc/hw/riscv.h:148-148 *)
Definition PMP_CFG_A_TOR := Z.shiftl 1 3.
(* src/hw/inc/hw/riscv.h:151-151 *)
Definition PMP_CFG_X := Z.shiftl 1 2.
(* src/hw/inc/hw/riscv.h:152-152 *)
Definition PMP_CFG_W := Z.shiftl 1 1.
(* src/hw/inc/hw/riscv.h:153-153 *)
Definition PMP_CFG_R := Z.shiftl 1 0.
(* src/hw/inc/hw/platform.h:8-8 *)
Definition DRAM_BASE := 0x40000000.
(* src/hw/inc/hw/platform.h:11-11 *)
Definition BOOTLOADER_SIZE := 0x8000.
(* src/boot/netboot.c:21-21 *)
Definition SVC_ENTRY := DRAM_BASE + BOOTLOADER_SIZE.
(* src/boot/netboot.c:163-163 *)
Definition INT_LIST := Z.lor (Z.lor INTb_SVC_SW INTb_SVC_TIMER) INTb_SVC_EXTERN.
(* src/boot/netboot.c:165-165 *)
Definition EXC_LIST := 0xFFFF.

(** ** The code *)

Section code.
Context (garbage : list Z) (mvendorid mach_exception_entry : Z).

(* src/boot/netboot.c:155-160 *)
Definition mach_exception_handler {S} `{!HasMem S} `{!HasUart S} `{!MemUart S} (c : mach_csrs) (ef : Z) : M S unit :=
  xprintf (nl ++ str "** MACHINE EXCEPTION **" ++ nl) [] ;;
  xprint_m_exception c ef ;;
  xprintf (nl ++ str "HALT" ++ nl) [] ;;
  spin.

(** [mvendorid] is what the CSR of this name holds. *)
(* src/boot/netboot.c:167-190 *)
Definition start : M node unit :=
  xprintf (nl ++ str "** Frobozz Magic (Network) Bootloader v0.2 **" ++ nl ++ nl) [] ;;
  let qemu := mvendorid =? 0 in
  node_hw (CsrWrite CSR_MTVEC mach_exception_entry) ;;
  node_hw (CsrWrite CSR_MSCRATCH SVC_ENTRY) ;;
  (if qemu then
     node_hw (CsrWrite (CSR_PMPCFG 0) (Z.lor (Z.lor (Z.lor PMP_CFG_A_TOR PMP_CFG_X) PMP_CFG_W) PMP_CFG_R)) ;;
     node_hw (CsrWrite (CSR_PMPADDR 0) 0xFFFFFFFF)
   else ret tt) ;;
  node_hw (CsrSet CSR_MIDELEG INT_LIST) ;;
  node_hw (CsrSet CSR_MEDELEG EXC_LIST) ;;
  netboot garbage.
End code.

(** ** Sessions *)

Definition loader_mac : list Z := [0x42; 0x42; 0x10; 0x20; 0x30; 0x40].

(** [f] is for a loader with this address. *)
Definition for_loader (f : frame6) : Prop :=
  exists mcast, forall s, ifc_mac s = loader_mac -> accepts s f = Some mcast.

(** [f] holds the message in a datagram. *)
Record holds (f : frame6) (sport : list Z) (port cmd : Z) (seq : list Z) (arg : Z) (db : list Z) : Prop := {
  h_for : for_loader f;
  h_message : is_message f sport port cmd seq arg db;
  h_len : (length (f_payload f) <= 1480)%nat;
  h_payload : exists chk extra, length chk = 2%nat /\
    let msg := message cmd seq arg db in
    f_payload f = datagram sport port (be16 (8 + Z.of_nat (length msg)) ++ chk) msg extra;
}.

(** What the loader sees before the program is started: data, queries, frames
    for others, and polls that find nothing. *)
Inductive arrival :=
| Data (f : frame6) (sport seq : list Z) (addr : Z) (db : list Z)
| Asked (f : frame6) (sport seq : list Z) (arg : Z)
| Other (f : frame6)
| Silence.

Definition arrival_frame (a : arrival) : option frame6 :=
  match a with Data f _ _ _ _ | Asked f _ _ _ | Other f => Some f | Silence => None end.

Definition arrival_ok (m : mem) (a : arrival) : Prop :=
  match a with
  | Data f sport seq addr db =>
    holds f sport NB_PORT_CTRL NB_CMD_WRITE seq addr db /\ mapped m addr (Z.of_nat (length db))
  | Asked f sport seq arg => holds f sport NB_PORT_QUERY NB_CMD_QUERY seq arg Netboot.nodename
  | Other f => frame_ok f /\ (4 <= length (f_payload f) <= 1480)%nat /\
      forall s, ifc_mac s = loader_mac -> accepts s f = None
  | Silence => True
  end.

(** What it does to the memory, what it prints, how many answers it gets. *)
Definition stored (m : mem) (a : arrival) : mem :=
  match a with Data _ _ _ addr db => write_bytes m addr db | _ => m end.

Definition shown (a : arrival) : list Z := match a with Data _ _ _ _ _ => [46] | _ => [] end.
Definition answers (a : arrival) : nat := match a with Other _ | Silence => 0 | _ => 1 end.
Definition is_other (a : arrival) : Prop := match a with Other _ => True | _ => False end.

(** The MAC has received [f]: the slot, the bytes in it and their number. *)
Definition entry (f : frame6) (e : rx_event) : Prop :=
  exists slot junk, 0 <= slot < 2 /\
    e = Frame slot (concat (frame_fields f) ++ junk) (54 + Z.of_nat (length (f_payload f))).

Definition event (a : arrival) (e : rx_event) : Prop :=
  match arrival_frame a with Some f => entry f e | None => e = Quiet end.

Section session.
Context (garbage : list Z) (Hgarbage : length garbage = 1536%nat) (Hgb : bytes garbage).

Definition loader_ready (s : node) : Prop :=
  interface_ok s /\ tx_ok s /\ buffer_ready s /\ ifc_mac s = loader_mac.

Lemma holds_incoming f sport port cmd seq arg db s q e :
  holds f sport port cmd seq arg db -> loader_ready s -> entry f e -> e_rx (n_eth s) = e :: q ->
  incoming f s q.
Proof.
  clear Hgarbage Hgb. intros [_ Hm Hl (chk & extra & Hchk & Hp)] (_ & _ & Hb & _) (slot & junk & Hslot & ->) Hq.
  split; [apply Hm| |by exists slot, junk|exact Hb]. split; [|exact Hl]. rewrite Hp.
  rewrite length_datagram; [lia|apply Hm|]. by rewrite length_app, Hchk.
Qed.

Lemma replied_one s s' f sport data : replied s s' f sport data -> length (n_tx s') = S (length (n_tx s)).
Proof. clear Hgarbage Hgb. intros (chk & -> & _). rewrite length_app. cbn. lia. Qed.

Lemma other_handled f s q e :
  frame_ok f -> (4 <= length (f_payload f) <= 1480)%nat -> accepts s f = None -> loader_ready s ->
  entry f e -> e_rx (n_eth s) = e :: q ->
  exists out s', eth_handle_rx garbage s = Ok tt s' /\ loader_ready s' /\ n_mem s' = n_mem s /\
    n_uart s' = sent out (n_uart s) /\ n_tx s' = n_tx s /\ e_rx (n_eth s') = q /\ n_hw s' = n_hw s.
Proof.
  intros Hf Hl Ha (Hi & Ht & Hb & Hmac) (slot & junk & Hslot & ->) Hq.
  assert (incoming f s q) as Hin by (split; [done|done|by exists slot, junk|done]).
  destruct (incoming_received garbage f s q Hin) as (buf & E & Hr & Lbuf). rewrite E. clear E.
  set (s1 := set_rxbuf buf s) in *.
  pose proof (@net_rx_eth_ok netboot_eth (netboot_client garbage) garbage f s1 _ Hi Hf Hr eq_refl ltac:(lia)) as Hok.
  change (accepts s1 f) with (accepts s f) in Hok. rewrite Ha in Hok. destruct Hok as (out & Hok). step Hok.
  rewrite free_slot_ok. exists out. eexists. split; [reflexivity|]. split; [|split; [done|split; [done|split; [done|]]]].
  - split; [exact Hi|]. split; [exact Ht|]. split; [|exact Hmac]. by apply (received_ready garbage Hgarbage f s1).
  - split; [|done]. change (release (e_rx (n_eth s)) = q). by rewrite Hq.
Qed.

Lemma sent_nil u : sent [] u = u.
Proof. clear. destruct u. unfold sent. cbn. by rewrite app_nil_r, drop_0. Qed.

(** A poll that finds nothing. *)
Lemma quiet_polled s q : e_rx (n_eth s) = Quiet :: q ->
  let e := n_eth s in
  let s' := set_eth {| e_sram := e_sram e; e_regs := e_regs e; e_stalls := e_stalls e; e_rx := q; e_sent := e_sent e |} s in
  eth_handle_rx garbage s = Ok tt s' /\ e_rx (n_eth s') = q.
Proof.
  clear Hgarbage Hgb. intros Hq e s'. split; [|done]. unfold eth_handle_rx.
  assert (eth_rd WR_EV_PENDING s = Ok 0 s') as E by (unfold eth_rd; cbv zeta; rewrite Hq; reflexivity).
  by step E.
Qed.

(** One arrival, one turn. *)
Lemma arrival_handled a s q e :
  arrival_ok (n_mem s) a -> loader_ready s -> event a e -> e_rx (n_eth s) = e :: q ->
  exists out s', eth_handle_rx garbage s = Ok tt s' /\ loader_ready s' /\ n_mem s' = stored (n_mem s) a /\
    n_uart s' = sent out (n_uart s) /\ (~ is_other a -> out = shown a) /\
    length (n_tx s') = (length (n_tx s) + answers a)%nat /\ e_rx (n_eth s') = q /\ n_hw s' = n_hw s.
Proof.
  intros Ha Hs He Hq. pose proof Hs as (Hi & Ht & Hb & Hmac).
  destruct a as [f sport seq addr db|f sport seq arg|f|]; unfold event in He; cbn [arrival_frame] in He.
  - destruct Ha as [Hh Hmap]. pose proof (holds_incoming _ _ _ _ _ _ _ s q e Hh Hs He Hq) as Hin.
    destruct Hh as [[mcast Hfor] Hm _ (chk & extra & Hchk & Hp)].
    destruct (write_served garbage Hgarbage Hgb f s q mcast sport seq addr db chk extra Hi Ht Hin (Hfor s Hmac) Hm Hp
      Hchk Hmap) as (s' & E & M & U & R & Q & Hw & I & T & B & Mac).
    exists [46], s'. split; [exact E|]. split; [split; [done|split; [done|split; [done|congruence]]]|].
    split; [done|]. split; [done|]. split; [done|]. split; [|done]. rewrite (replied_one _ _ _ _ _ R). cbn. lia.
  - cbn in Ha. pose proof (holds_incoming _ _ _ _ _ _ _ s q e Ha Hs He Hq) as Hin.
    destruct Ha as [[mcast Hfor] Hm _ (chk & extra & Hchk & Hp)].
    destruct (query_served garbage Hgarbage Hgb f s q mcast sport seq arg chk extra Hi Ht Hin (Hfor s Hmac) Hm Hp Hchk)
      as (s' & E & M & U & R & Q & Hw & I & T & B & Mac).
    exists [], s'. split; [exact E|]. split; [split; [done|split; [done|split; [done|congruence]]]|].
    split; [done|]. split; [|split; [done|]]; [by rewrite U, sent_nil|].
    split; [|done]. rewrite (replied_one _ _ _ _ _ R). cbn. lia.
  - destruct Ha as (Hf & Hl & Hno).
    destruct (other_handled f s q e Hf Hl (Hno s Hmac) Hs He Hq) as (out & s' & E & R & M & U & T & Q & Hw).
    exists out, s'. split; [exact E|]. split; [exact R|]. split; [exact M|]. split; [exact U|].
    split; [by intros []|]. split; [|done]. rewrite T. cbn. lia.
  - subst e. destruct (quiet_polled s q Hq) as (E & Q). eexists [], _. split; [exact E|].
    split; [exact Hs|]. split; [done|]. split; [by rewrite sent_nil|]. split; [done|]. split; [by rewrite Nat.add_0_r|]. by split.
Qed.

(** The whole session, up to the frame that starts the program. *)
Lemma session_runs items : forall es last f sport seq pc db s,
  loader_ready s -> Forall (arrival_ok (n_mem s)) items -> Forall2 event items es ->
  holds f sport NB_PORT_CTRL NB_CMD_EXEC seq pc db -> entry f last -> e_rx (n_eth s) = es ++ [last] ->
  exists out s', runs (fun _ : unit => eth_handle_rx garbage ;; ret (inl tt)) (length items) tt s (Halt s' : outcome node unit) /\
    n_mem s' = fold_left stored items (n_mem s) /\
    n_uart s' = sent (out ++ [33] ++ wire (exec_text pc)) (n_uart s) /\
    (Forall (fun a => ~ is_other a) items -> out = concat (map shown items)) /\
    length (n_tx s') = (length (n_tx s) + sum_list (map answers items) + 1)%nat /\
    n_hw s' = n_hw s ++ [CsrWrite CSR_MSTATUS 0x800; CsrWrite CSR_MEPC pc; Mret 0 0 pc 0].
Proof.
  induction items as [|a items IH]; intros es last f sport seq pc db s Hs Hok He Hx Hl Hq.
  - apply Forall2_nil_inv_l in He as ->. pose proof (holds_incoming _ _ _ _ _ _ _ s [] last Hx Hs Hl Hq) as Hin.
    destruct Hs as (Hi & Ht & Hb & Hmac). destruct Hx as [[mcast Hfor] Hm _ (chk & extra & Hchk & Hp)].
    destruct (exec_served garbage Hgarbage Hgb f s [] mcast sport seq pc db chk extra Hi Ht Hin (Hfor s Hmac) Hm Hp Hchk)
      as (s' & E & M & _ & U & R & Hw).
    exists [], s'. split; [apply runs_halt; by rewrite (bind_halt _ _ _ _ E)|].
    split; [done|]. split; [done|]. split; [done|]. split; [|done]. rewrite (replied_one _ _ _ _ _ R). cbn. lia.
  - apply Forall_cons_iff in Hok as [Ha Hok]. apply Forall2_cons_inv_l in He as (e & es' & Hae & He & ->).
    destruct (arrival_handled a s (es' ++ [last]) e Ha Hs Hae Hq) as (out1 & s1 & E & Hs1 & M & U & Ho & T & Q & Hw).
    destruct (IH es' last f sport seq pc db s1 Hs1) as (out & s' & R & M' & U' & Ho' & T' & Hw'); [|done..|].
    { rewrite M. eapply Forall_impl; [|exact Hok]. intros b Hb. destruct a as [? ? ? addr d| | |]; [|done..].
      destruct b as [? ? ? addr' d'| | |]; [|done..]. destruct Hb as [Hb1 Hb2]. split; [done|]. cbn. by apply mapped_write. }
    exists (out1 ++ out), s'. split; [eapply runs_step; [by step E|exact R]|].
    split; [by rewrite M', M|]. split; [by rewrite U', U, sent_sent, <- app_assoc|].
    split; [|split; [rewrite T', T; cbn; lia|by rewrite Hw', Hw]].
    intros Hno. apply Forall_cons_iff in Hno as [Hn Hno]. by rewrite (Ho Hn), (Ho' Hno).
Qed.

(** ** Start-up *)

Lemma eth_init_ok s : exists regs,
  eth_init s = Ok tt (set_tx 0 {| e_sram := e_sram (n_eth s); e_regs := regs; e_stalls := e_stalls (n_eth s);
    e_rx := release (e_rx (n_eth s)); e_sent := e_sent (n_eth s) |} s).
Proof. clear Hgarbage Hgb. eexists. unfold eth_init, eth_wr, modify, gets, bind. cbn. reflexivity. Qed.

Definition greeting : list Z := nl ++ str "** Frobozz Magic (Network) Bootloader v0.2 **" ++ nl ++ nl.

(** The machine-mode set-up: the trap vector and its stack, under QEMU (vendor 0)
    access to all memory, and the delegation of traps. *)
Definition set_up (mvendorid mach_exception_entry : Z) : list hwop :=
  [CsrWrite 0x305 mach_exception_entry; CsrWrite 0x340 0x40008000] ++
  (if mvendorid =? 0 then [CsrWrite 0x3A0 0x0F; CsrWrite 0x3B0 0xFFFFFFFF] else []) ++
  [CsrSet 0x303 0x222; CsrSet 0x302 0xFFFF].

Definition with_hw (ops : list hwop) (s : node) : node :=
  {| ifc_mac := ifc_mac s; ifc_ll_ip6 := ifc_ll_ip6 s; mcast_ns_ip6 := mcast_ns_ip6 s;
     m_ifc_mac := m_ifc_mac s; m_ns_mac := m_ns_mac s; rxbuf := rxbuf s; txslot := txslot s;
     n_eth := n_eth s; n_mem := n_mem s; n_uart := n_uart s; n_hw := n_hw s ++ ops |}.

Lemma with_hw_app a b s : with_hw b (with_hw a s) = with_hw (a ++ b) s.
Proof. clear. unfold with_hw. cbn. by rewrite app_assoc. Qed.

Lemma hw_bind {A} op (k : M node A) s : (node_hw op ;; k) s = k (with_hw [op] s).
Proof. done. Qed.

Lemma start_ok mvendorid entry_point s :
  start garbage mvendorid entry_point s = netboot garbage (with_hw (set_up mvendorid entry_point) (emit (wire greeting) s)).
Proof.
  clear Hgarbage Hgb. unfold start. step (xprintf_plain greeting s ltac:(by_decide) ltac:(by_decide)).
  cbv zeta. rewrite !hw_bind. unfold set_up. destruct (mvendorid =? 0).
  - rewrite bind_assoc, !hw_bind, !with_hw_app. done.
  - rewrite bind_ret, !hw_bind, !with_hw_app. done.
Qed.

(** C3: the loader, from [start] to the program.  The loader greets, sets up
    machine mode and takes its address; if the MAC holds a frame already, its
    first one is dropped unseen.  Then it handles what it finds, at every poll
    nothing or a frame: data messages are stored, queries answered, frames for
    others ignored.  When a message to start a program comes, the memory holds
    exactly the data that was sent, in order; every message has had one answer;
    the console shows a dot for each data message and nothing for a query; and
    the processor leaves machine mode for a program in supervisor mode at the
    address of the last message, with traps delegated to it. *)
Theorem loader_session mvendorid entry_point items es last f sport seq pc db s :
  interface_ok s -> length (e_sram (n_eth s)) = 4096%nat -> buffer_ready s ->
  release (e_rx (n_eth s)) = es ++ [last] ->
  Forall2 event items es -> Forall (arrival_ok (n_mem s)) items ->
  entry f last -> holds f sport NB_PORT_CTRL NB_CMD_EXEC seq pc db ->
  Z.of_nat (length items) < 2 ^ 33 ->
  exists out s', start garbage mvendorid entry_point s = Halt s' /\
    n_mem s' = fold_left stored items (n_mem s) /\
    n_uart s' = sent (wire greeting ++ out ++ [33] ++ wire (exec_text pc)) (n_uart s) /\
    (Forall (fun a => ~ is_other a) items -> out = concat (map shown items)) /\
    length (n_tx s') = (length (n_tx s) + sum_list (map answers items) + 1)%nat /\
    n_hw s' = n_hw s ++ set_up mvendorid entry_point ++
      [CsrWrite CSR_MSTATUS 0x800; CsrWrite CSR_MEPC pc; Mret 0 0 pc 0].
Proof.
  intros Hi Hsram Hb Hq He Hok Hl Hx Hn. rewrite start_ok.
  set (s1 := with_hw (set_up mvendorid entry_point) (emit (wire greeting) s)).
  unfold netboot. destruct (net_init_addresses loader_mac s1) as (s2 & E2 & I2 & Mac & Rx & Tx & Eth & M & U & Hw);
    [exact Hi|by_decide|by_decide|].
  rewrite (bind_ok (net_init _) _ s1 tt s2) by exact E2.
  destruct (eth_init_ok s2) as (regs & E3). step E3. set (s3 := set_tx 0 _ s2).
  assert (loader_ready s3) as R3.
  { split; [exact I2|]. split; [split; [by left|by cbn; rewrite Eth]|]. split; [|exact Mac].
    destruct Hb as (old & Ho). exists old. change (rxbuf s3) with (rxbuf s2). by rewrite Rx. }
  destruct (session_runs items es last f sport seq pc db s3 R3) as (out & s' & R & M' & U' & Ho & T & Hw');
    [by change (n_mem s3) with (n_mem s2); rewrite M|exact He|exact Hx|exact Hl|by cbn; rewrite Eth; cbn|].
  exists out, s'. split; [by apply (loop_runs _ _ _ _ _ R)|].
  split; [rewrite M'; change (n_mem s3) with (n_mem s2); by rewrite M|].
  split; [rewrite U'; change (n_uart s3) with (n_uart s2); rewrite U|].
  { change (n_uart s1) with (sent (wire greeting) (n_uart s)). by rewrite sent_sent. }
  split; [exact Ho|]. split.
  - rewrite T. do 2 f_equal. unfold n_tx. cbn. by rewrite Eth.
  - rewrite Hw'. change (n_hw s3) with (n_hw s2). rewrite Hw. unfold s1. cbn [with_hw n_hw]. by rewrite <- app_assoc.
Qed.
End session.

(** ** Machine exceptions *)

(** The handler prints the report between two lines and stops. *)
Lemma mach_exception_reported {S} `{!HasMem S} `{!HasUart S} `{!MemUart S} c ef ws (s : S) :
  ef mod 4 = 0 -> length ws = 32%nat -> words_at (mem_of s) ef ws ->
  mach_exception_handler c ef s = Halt (emit (wire ((nl ++ str "** MACHINE EXCEPTION **" ++ nl) ++
    (report_head (cause_said (mcause c)) (mode_name (Z.land (Z.shiftr (mstatus c) 11) 3)) ++
     report ws (mstatus c) (mcause c) (mtval c)) ++ (nl ++ str "HALT" ++ nl))) s).
Proof.
  intros Hef Hlen Hw. unfold mach_exception_handler.
  step (xprintf_plain (nl ++ str "** MACHINE EXCEPTION **" ++ nl) s ltac:(by_decide) ltac:(by_decide)).
  step (m_exception_ok ef ws Hef Hlen c (emit (wire (nl ++ str "** MACHINE EXCEPTION **" ++ nl)) s)
    (words_emit ef ws _ s Hw)).
  step (xprintf_plain (nl ++ str "HALT" ++ nl) (emit (wire (report_head (cause_said (mcause c))
      (mode_name (Z.land (Z.shiftr (mstatus c) 11) 3)) ++ report ws (mstatus c) (mcause c) (mtval c)))
    (emit (wire (nl ++ str "** MACHINE EXCEPTION **" ++ nl)) s)) ltac:(by_decide) ltac:(by_decide)).
  unfold spin. by rewrite !emit_emit, !wire_app.
Qed.

(** ** An instance *)

(** A frame for the loader. *)
Definition loader_frame (dmac dip : list Z) (port cmd : Z) (seq : list Z) (arg : Z) (db : list Z) : frame6 :=
  let msg := message cmd seq arg db in
  frame_to dmac dip 17 (datagram [0x30; 0x39] port (be16 (8 + Z.of_nat (length msg)) ++ [0xBE; 0xEF]) msg []).

Definition asked_frame : frame6 :=
  loader_frame [0x33; 0x33; 0; 0; 0; 1] mcast_ll_ip6 NB_PORT_QUERY NB_CMD_QUERY [1; 0; 0; 0] 0 Netboot.nodename.
Definition data_frame : frame6 :=
  loader_frame loader_mac (link_local loader_mac) NB_PORT_CTRL NB_CMD_WRITE [2; 0; 0; 0] 0x40100010 [0xDE; 0xAD].
Definition start_frame : frame6 :=
  loader_frame loader_mac (link_local loader_mac) NB_PORT_CTRL NB_CMD_EXEC [3; 0; 0; 0] 0x40100010 [].
(** For the address the node has before [net_init]. *)
Definition other_frame : frame6 := frame_to node_mac (link_local node_mac) 58 [128; 0; 0; 0].

Definition received_entry (f : frame6) : rx_event :=
  Frame 1 (concat (frame_fields f) ++ [0; 0; 0; 0]) (54 + Z.of_nat (length (f_payload f))).

Lemma received_entry_ok f : entry f (received_entry f).
Proof. by exists 1, [0; 0; 0; 0]. Qed.

Lemma loader_frame_holds dmac dip port cmd seq arg db :
  let f := loader_frame dmac dip port cmd seq arg db in
  for_loader f -> frame_ok f -> length seq = 4%nat -> (length db <= 1024)%nat -> is_u32 cmd -> is_u32 arg ->
  holds f [0x30; 0x39] port cmd seq arg db.
Proof.
  intros f Hfor Hf Hs Hd Hc Ha.
  assert (length (message cmd seq arg db) = 16 + length db)%nat as Lm by (by apply length_message).
  split; [exact Hfor| | |by exists [0xBE; 0xEF], []].
  - split; try done. by eexists (be16 (8 + Z.of_nat (length (message cmd seq arg db))) ++ [0xBE; 0xEF]), [].
  - change (f_payload f) with (datagram [0x30; 0x39] port
      (be16 (8 + Z.of_nat (length (message cmd seq arg db))) ++ [0xBE; 0xEF]) (message cmd seq arg db) []).
    rewrite length_datagram, Lm by done. cbn [length]. lia.
Qed.

(** Whether the loader takes a frame depends only on the address. *)
Lemma accepts_mac s s' f : ifc_mac s = ifc_mac s' -> accepts s f = accepts s' f.
Proof. intros E. unfold accepts, rx_mcast, ip6_for_us. by rewrite E. Qed.

Definition loader_node : node :=
  set_tx 0 {| e_sram := replicate 4096 0; e_regs := ∅; e_stalls := [3; 5];
    e_rx := [received_entry other_frame; Quiet; received_entry asked_frame; Quiet; Quiet; received_entry data_frame;
      received_entry other_frame; received_entry start_frame]; e_sent := [] |}
    (boot_node other_frame).

(** The same node with the loader's address. *)
Definition addressed_node : node :=
  match net_init loader_mac loader_node with Ok _ s => s | _ => loader_node end.

Lemma for_loader_frame f mcast : accepts addressed_node f = Some mcast -> for_loader f.
Proof. intros E. exists mcast. intros s Hs. rewrite <- E. by apply accepts_mac. Qed.

Definition session_items : list arrival :=
  [Silence; Asked asked_frame [0x30; 0x39] [1; 0; 0; 0] 0; Silence; Silence; Data data_frame [0x30; 0x39] [2; 0; 0; 0] 0x40100010 [0xDE; 0xAD];
   Other other_frame].

Lemma session_items_ok : Forall (arrival_ok (n_mem loader_node)) session_items.
Proof.
  apply Forall_cons_2; [done|]. apply Forall_cons_2; [|do 2 (apply Forall_cons_2; [done|]);
    apply Forall_cons_2; [split; [|by_decide]|apply Forall_cons_2; [split; [by_decide|split; [by_decide|]]|by constructor]]].
  - apply loader_frame_holds; [by apply (for_loader_frame asked_frame 1)|by_decide..].
  - apply loader_frame_holds; [by apply (for_loader_frame data_frame 0)|by_decide..].
  - intros s Hs. by rewrite (accepts_mac s addressed_node).
Qed.

Lemma loader_session_witness : exists s', start stack_garbage 0 0x40000100 loader_node = Halt s' /\
  n_mem s' = write_bytes (n_mem loader_node) 0x40100010 [0xDE; 0xAD] /\
  length (n_tx s') = 3%nat /\
  n_hw s' = set_up 0 0x40000100 ++ [CsrWrite CSR_MSTATUS 0x800; CsrWrite CSR_MEPC 0x40100010; Mret 0 0 0x40100010 0].
Proof.
  destruct (loader_session stack_garbage eq_refl ltac:(by apply Forall_replicate; by_decide) 0 0x40000100
    session_items [Quiet; received_entry asked_frame; Quiet; Quiet; received_entry data_frame; received_entry other_frame]
    (received_entry start_frame) start_frame [0x30; 0x39] [3; 0; 0; 0] 0x40100010 [] loader_node)
    as (out & s' & E & M & U & _ & T & H).
  - by_decide.
  - by_decide.
  - exists (replicate 1534 0). split; [done|]. split; [done|]. apply Forall_replicate. by_decide.
  - reflexivity.
  - repeat (apply Forall2_cons; [first [apply received_entry_ok|done]|]). by constructor.
  - exact session_items_ok.
  - apply received_entry_ok.
  - apply loader_frame_holds; [by apply (for_loader_frame start_frame 0)|by_decide|done|by_decide|by_decide|by_decide].
  - by_decide.
  - exists s'. split; [exact E|]. split; [exact M|]. split; [exact T|exact H].
Defined.
