(* ===== verification/Ex05.v ===== *)
(** * The Ethernet example (example/ex05-ethernet.c)

    A second client of the network stack, with a copy of the loader's driver:
    every datagram, on any port, is shown on the console and answered with a
    fixed text.  The state is the loader's node. *)

From S2P Require Import Prelude Monad Hw Mem Words LibcMem LibcStr Uart Printf Exception Net Netboot.

(* src/hw/inc/hw/riscv.h:18-18 *)
Definition CSR_STVEC := 0x105.

Definition multipass : list Z := str "multipass" ++ [0].

(** [rxbuf_at] is the address of the receive buffer; [trap_entry_at] that of the
    trap entry. *)
Section code.
Context (garbage : list Z) (rxbuf_at trap_entry_at : Z).

(* src/example/ex05-ethernet.c:19-19 *)
Definition interrupt_handler : M node unit := xputc 64.

(** The driver is the loader's, line by line. *)
(* src/example/ex05-ethernet.c:36-48 eth_tx *)
Definition eth_tx_ex05 (txb : list Z) : M node unit :=
  let txlen := Z.of_nat (length txb) in
  if txlen >? 1534 then ret tt
  else
    eth_drain ;;
    slot <- gets txslot ;;
    sram_put (ETHMAC_SRAM_BASE + ETHMAC_SLOT_SIZE * (ETHMAC_RX_SLOTS + slot)) txb ;;
    eth_wr RD_SLOT slot ;;
    eth_wr RD_LEN txlen ;;
    eth_wr RD_START 1 ;;
    modify (fun s => set_tx (Z.lxor (txslot s) 1) (n_eth s) s).

(* src/example/ex05-ethernet.c:50-62 eth_init *)
Definition eth_init_ex05 : M node unit :=
  eth_wr WR_EV_ENABLE 0 ;;
  eth_wr RD_EV_ENABLE 0 ;;
  eth_wr WR_EV_PENDING 1 ;;
  eth_wr RD_EV_PENDING 1 ;;
  modify (fun s => set_tx 0 (n_eth s) s) ;;
  slot <- gets txslot ;;
  eth_wr RD_SLOT slot ;;
  eth_wr WR_EV_ENABLE 1 ;;
  eth_wr RD_EV_ENABLE 1.

#[export] Instance ex05_eth : EthTx := {| eth_tx := eth_tx_ex05; eth_tx_sends := @eth_tx_sends netboot_eth |}.

(* src/example/ex05-ethernet.c:21-24 *)
Definition pkt_rx_udp (data len port mcast : Z) : M node unit :=
  xprintf (str "UDP %u: %p(%u) %s" ++ nl)
    [VaWord port; VaWord (rxbuf_at + data); VaWord len; VaStr (Some (if mcast =? 0 then [] else str "M"))] ;;
  net_tx_udp_reply garbage data (inr multipass) 10 port.

#[local] Instance ex05_client : UdpClient := pkt_rx_udp.

(* src/example/ex05-ethernet.c:28-32 eth_rx *)
Definition eth_rx_ex05 (rxb rxlen : Z) : M node unit :=
  if rxlen >? 1534 then ret tt
  else
    frame <- sram_get rxb rxlen ;;
    rx_put 2 frame ;;
    net_rx_eth garbage 0 (u32 (rxlen + 2)).

(** One turn of the loop. *)
(* src/example/ex05-ethernet.c:85-90 start *)
Definition turn : M node unit :=
  pending <- eth_rd WR_EV_PENDING ;;
  if negb (Z.land pending 1 =? 0) then
    slot <- eth_rd WR_SLOT ;;
    let rxb := u32 (ETHMAC_SRAM_BASE + ETHMAC_SLOT_SIZE * slot) in
    len <- eth_rd WR_LEN ;;
    eth_rx_ex05 rxb len ;;
    eth_wr WR_EV_PENDING 1
  else ret tt.

(* src/example/ex05-ethernet.c:64-92 *)
Definition start : M node unit :=
  xprintf (str "Example 05 - Ethernet" ++ nl ++ nl) [] ;;
  node_hw (CsrWrite CSR_STVEC trap_entry_at) ;;
  net_init [0x42; 0x42; 0x10; 0x20; 0x30; 0x40] ;;
  eth_init_ex05 ;;
  loop (fun _ : unit => turn ;; ret (inl tt)) tt.

(* src/example/ex05-ethernet.c:95-100 *)
Definition exception_handler {S} `{!HasMem S} `{!HasUart S} `{!MemUart S} (c : trap_csrs) (ef : Z) : M S unit :=
  xprintf (nl ++ str "** SUPERVISOR EXCEPTION **" ++ nl) [] ;;
  xprint_s_exception c ef ;;
  xprintf (nl ++ str "HALT" ++ nl) [] ;;
  spin.

(** ** What it does *)

(** The line for a datagram. *)
Definition udp_line (port addr len mcast : Z) : list Z :=
  str "UDP " ++ dec port ++ str ": 0x" ++ hex false addr ++ str "(" ++ dec len ++ str ") " ++
  (if mcast =? 0 then [] else str "M") ++ nl.

Lemma udp_line_ok port addr len mcast (s : node) :
  is_u32 port -> is_u32 addr -> is_u32 len ->
  xprintf (str "UDP %u: %p(%u) %s" ++ nl)
    [VaWord port; VaWord addr; VaWord len; VaStr (Some (if mcast =? 0 then [] else str "M"))] s =
  Ok tt (emit (wire (udp_line port addr len mcast)) s).
Proof.
  intros Hp Ha Hl. set (d c := {| d_left := false; d_plus := false; d_space := false; d_alt := false;
    d_zero := false; d_width := 0; d_conv := c |}).
  change (str "UDP %u: %p(%u) %s" ++ nl) with
    (unparse [(str "UDP ", d CUnsigned); (str ": ", d CPointer); (str "(", d CUnsigned); (str ") ", d CString)] nl).
  pose proof (length_dec port Hp). pose proof (length_dec len Hl). pose proof (length_hex false addr Ha).
  assert (Forall (fun c => 0 < c < 256) (udp_line port addr len mcast)) as Hc.
  { unfold udp_line. rewrite !Forall_app. pose proof (dec_chars port Hp). pose proof (dec_chars len Hl).
    pose proof (hex_chars false addr Ha).
    assert (forall lo hi l, Forall (fun c => lo <= c < hi) l -> 0 < lo -> hi <= 256 -> Forall (fun c => 0 < c < 256) l) as Hw
      by (intros lo hi l Hx Hlo Hhi; eapply List.Forall_impl; [|exact Hx]; cbn; lia).
    split_and!; [by_decide|by eapply Hw|by_decide|by eapply Hw|by_decide|by eapply Hw|by_decide| |by_decide].
    destruct (mcast =? 0); by_decide. }
  apply xprintf_text; [by_decide| | |by_decide|exact Hc].
  - unfold d. cbn [render render_directive d_conv d_left d_zero d_width andb from_option option_map].
    unfold justify, sign_of. cbn [d_left d_zero d_width d_plus d_space].
    rewrite !spaces_none by lia. rewrite !u32_small by done.
    unfold udp_line. change (str ": 0x") with (str ": " ++ [48; 120]).
    destruct (mcast =? 0); by rewrite <- !app_assoc.
  - unfold udp_line. rewrite !length_app. change (length (str "UDP ")) with 4%nat.
    change (length (str ": 0x")) with 4%nat. change (length (str "(")) with 1%nat. change (length (str ") ")) with 2%nat.
    change (length nl) with 1%nat. destruct (mcast =? 0); [cbn [length]|change (length (str "M")) with 1%nat]; lia.
Qed.

Context (Hgarbage : length garbage = 1536%nat) (Hgb : bytes garbage) (Hat : 0 <= rxbuf_at /\ rxbuf_at + 64 < 2 ^ 32).

Lemma turn_polls : turn = @poll_frame ex05_client garbage.
Proof. done. Qed.

(** The driver does what the loader's does. *)
Lemma driver_same : eth_tx_ex05 = eth_tx_code /\ eth_init_ex05 = eth_init.
Proof. done. Qed.

(** The client, on a datagram in the buffer. *)
Lemma pkt_rx_udp_ok f s sport port hd data extra mcast :
  interface_ok s -> tx_ok s -> frame_ok f -> received f s -> is_u16 port -> (length data <= 1472)%nat ->
  f_payload f = datagram sport port hd data extra -> length sport = 2%nat ->
  exists s' c, pkt_rx_udp 64 (Z.of_nat (length data)) port mcast s = Ok tt s' /\
    n_tx s' = n_tx s ++ [eth_ip6_header (f_smac f) (ifc_mac s) (ifc_ll_ip6 s) (f_sip f) 18 17 ++
      udp_header (be16 port) sport 18 c ++ multipass] /\
    checksum_valid (ifc_ll_ip6 s) (f_sip f) 17 (udp_header (be16 port) sport 18 c ++ multipass) /\
    only_tx (emit (wire (udp_line port (rxbuf_at + 64) (Z.of_nat (length data)) mcast)) s) s' /\ tx_ok s'.
Proof.
  intros Hi Ht Hf Hr Hport Hl Hp Hsp. unfold pkt_rx_udp.
  step (udp_line_ok port (rxbuf_at + 64) (Z.of_nat (length data)) mcast s ltac:(unfold is_u16, is_u32 in *; lia)
    ltac:(unfold is_u32; lia) ltac:(unfold is_u32; lia)).
  set (s1 := emit _ s). destruct (frame_src f s Hf Hr) as [H1 H2].
  assert (slice (rxbuf s) (64 - 64 + 56) 2 = Some sport) as H3.
  { eapply (rx_payload f s _ _ [] sport); [exact Hf|exact Hr|exact Hp|done|by rewrite Hsp]. }
  destruct (net_tx_udp_reply_ok garbage Hgarbage Hgb s1 (interface_addresses s Hi) Ht (received_bytes f s Hf Hr) 64
    (inr multipass) 10 port (f_smac f) (f_sip f) sport multipass H1 H2 H3) as (s' & c & E & Ho & Hok & Hs' & Hv);
    [done|done|by_decide|done|].
  exists s', c. split; [exact E|]. split; [exact Hs'|]. split; [exact Hv|]. split; [exact Ho|exact Hok].
Qed.

(** C23: the multipass.  When the next frame the MAC has received carries a
    datagram for this node, to any port, one turn of the loop shows a line with
    the port, the place and length of the data and whether it was multicast, and
    sends exactly one frame: to the sender, from the port the datagram was for
    to the port it came from, with the text [multipass] and its NUL and a valid
    checksum.  Memory is untouched and the node is ready for the next frame. *)
Theorem datagram_answered f s q mcast sport port chk data extra :
  interface_ok s -> tx_ok s -> incoming f s q -> accepts s f = Some mcast -> f_nh f = 17 -> is_u16 port ->
  f_payload f = datagram sport port (be16 (8 + Z.of_nat (length data)) ++ chk) data extra ->
  length sport = 2%nat -> length chk = 2%nat ->
  exists s' c, turn s = Ok tt s' /\
    n_tx s' = n_tx s ++ [eth_ip6_header (f_smac f) (ifc_mac s) (ifc_ll_ip6 s) (f_sip f) 18 17 ++
      udp_header (be16 port) sport 18 c ++ multipass] /\
    checksum_valid (ifc_ll_ip6 s) (f_sip f) 17 (udp_header (be16 port) sport 18 c ++ multipass) /\
    n_uart s' = sent (wire (udp_line port (rxbuf_at + 64) (Z.of_nat (length data)) mcast)) (n_uart s) /\
    n_mem s' = n_mem s /\ e_rx (n_eth s') = q /\ interface_ok s' /\ tx_ok s' /\ buffer_ready s'.
Proof.
  intros Hi Ht Hin Ha Hnh Hport Hp Hsp Hchk. rewrite turn_polls.
  destruct (@incoming_polled garbage ex05_client f s q Hin) as (buf & E & Hr & Lbuf). rewrite E. clear E.
  set (s1 := set_rxbuf buf s) in *. pose proof (i_frame _ _ _ Hin) as Hf. pose proof (i_payload _ _ _ Hin) as Hl.
  assert (length (f_payload f) = 8 + length data + length extra)%nat as Lp
    by (rewrite Hp, length_datagram; [done|done|by rewrite length_app, Hchk]).
  pose proof (@net_rx_eth_ok netboot_eth ex05_client garbage f s1 _ Hi Hf Hr eq_refl ltac:(lia)) as Hok.
  change (accepts s1 f) with (accepts s f) in Hok. rewrite Ha, Hnh in Hok.
  destruct (pkt_rx_udp_ok f s1 sport port (be16 (8 + Z.of_nat (length data)) ++ chk) data extra mcast Hi Ht Hf Hr
    Hport ltac:(lia) Hp Hsp) as (s2 & c & E2 & Htx & Hv & [Ho Hq] & Hok2).
  assert (net_rx_eth garbage 0 (56 + Z.of_nat (length (f_payload f))) s1 = Ok tt s2) as E3.
  { etransitivity; [exact Hok|]. unfold rx_dispatch. cbn [Z.eqb Pos.eqb IP_HDR_ICMP IP_HDR_UDP].
    replace (56 + Z.of_nat (length (f_payload f)) - 56) with (Z.of_nat (length (f_payload f))) by lia.
    unfold datagram in Hp. rewrite <- app_assoc in Hp.
    destruct (@udp_ok ex05_client f s1 mcast sport (u8 (port / 0x100)) (u8 port) chk data extra) as [-> _];
      [done|done|exact Hp|done|done|lia|].
    replace (u8 (port / 0x100) * 0x100 + u8 port) with port by zarith. exact E2. }
  set (line := wire (udp_line port (rxbuf_at + 64) (Z.of_nat (length data)) mcast)) in *.
  assert (n_uart s2 = sent line (n_uart s) /\ n_mem s2 = n_mem s /\ interface_ok s2 /\ buffer_ready s2)
    as (U2 & M2 & I2 & B2).
  { rewrite Ho. split; [done|]. split; [done|]. split; [exact Hi|]. exact (received_ready garbage Hgarbage f s1 Hf Hr Lbuf). }
  step E3. rewrite free_slot_ok. eexists _, c. split; [reflexivity|].
  split; [exact Htx|]. split; [exact Hv|]. split; [exact U2|]. split; [exact M2|]. split.
  { cbn [set_eth set_tx n_eth e_rx]. destruct Hin as [_ _ (slot & junk & _ & Hrx) _]. rewrite Hq.
    change (release (e_rx (n_eth s)) = q). by rewrite Hrx. }
  split; [exact I2|]. split; [exact Hok2|exact B2].
Qed.
End code.

(** The exception handler prints the report between two lines and stops. *)
Lemma exception_halts {S} `{!HasMem S} `{!HasUart S} `{!MemUart S} c ef ws (s : S) :
  ef mod 4 = 0 -> length ws = 32%nat -> words_at (mem_of s) ef ws ->
  exception_handler c ef s = Halt (emit (wire ((nl ++ str "** SUPERVISOR EXCEPTION **" ++ nl) ++
    (report_head (cause_said (scause c)) (spp_said (sstatus c)) ++
     report ws (sstatus c) (scause c) (stval c)) ++ (nl ++ str "HALT" ++ nl))) s).
Proof.
  intros Hef Hlen Hw. unfold exception_handler.
  step (xprintf_plain (nl ++ str "** SUPERVISOR EXCEPTION **" ++ nl) s ltac:(by_decide) ltac:(by_decide)).
  step (s_exception_ok ef ws Hef Hlen c (emit (wire (nl ++ str "** SUPERVISOR EXCEPTION **" ++ nl)) s)
    (words_emit ef ws _ s Hw)).
  step (xprintf_plain (nl ++ str "HALT" ++ nl) (emit (wire (report_head (cause_said (scause c))
      (spp_said (sstatus c)) ++ report ws (sstatus c) (scause c) (stval c)))
    (emit (wire (nl ++ str "** SUPERVISOR EXCEPTION **" ++ nl)) s)) ltac:(by_decide) ltac:(by_decide)).
  unfold spin. by rewrite !emit_emit, !wire_app.
Qed.

(** ** An instance *)

Definition hello_frame : frame6 :=
  frame_to node_mac (link_local node_mac) 17 (datagram [0x30; 0x39] 7 (be16 11 ++ [0xBE; 0xEF]) [1; 2; 3] []).

Lemma datagram_answered_witness : exists s', turn stack_garbage 0x40020000 (boot_node hello_frame) = Ok tt s' /\
  length (n_tx s') = 1%nat /\
  n_uart s' = {| u_stalls := []; u_out := str "UDP 7: 0x40020040(3) " ++ [13; 10] |}.
Proof.
  destruct (datagram_answered stack_garbage 0x40020000 eq_refl ltac:(by apply Forall_replicate; by_decide)
    ltac:(by_decide) hello_frame (boot_node hello_frame) [] 0 [0x30; 0x39] 7 [0xBE; 0xEF] [1; 2; 3] [])
    as (s' & c & E & T & _ & U & _);
    [by_decide|by_decide|apply boot_node_incoming; by_decide|reflexivity|reflexivity|by_decide|reflexivity..|].
  exists s'. split; [exact E|]. split; [by rewrite T|]. rewrite U. vm_compute. reflexivity.
Defined.
