(* ===== verification/Atoi.v ===== *)
(** * Character classes and number parsing (libc/src/ctype.c, libc/src/atoi.c)

    [char] is unsigned on this machine, [int] and [long] are 32 bits.  A signed
    accumulation that leaves [int] is undefined ([Fault]); the unsigned ones
    wrap, and [strtoul] saturates and reports it in [errno], which is the second
    component of its state (the error numbers are parameters: [errno.h] is not
    part of this C library's sources).  [parse_strtoul] is the specification of [strtoul]
    on the characters of the string. *)

From S2P Require Import Prelude Monad Mem LibcMem LibcStr Uart Printf.

(** ** Character classes *)

(* src/libc/src/ctype.c:10-12 *)
Definition isblank (c : Z) : Z := Z.b2z ((c =? 32) || (c =? 9)).
(* src/libc/src/ctype.c:14-16 *)
Definition isspace (c : Z) : Z :=
  Z.b2z ((c =? 32) || (c =? 12) || (c =? 10) || (c =? 13) || (c =? 9) || (c =? 11)).
(* src/libc/src/ctype.c:18-20 *)
Definition islower (c : Z) : Z := Z.b2z ((c >=? 97) && (c <=? 122)).
(* src/libc/src/ctype.c:22-24 *)
Definition isupper (c : Z) : Z := Z.b2z ((c >=? 65) && (c <=? 90)).
(* src/libc/src/ctype.c:26-28 *)
Definition isdigit (c : Z) : Z := Z.b2z ((c >=? 48) && (c <=? 57)).
(* src/libc/src/ctype.c:30-32 *)
Definition isalpha (c : Z) : Z := Z.b2z (negb (isupper c =? 0) || negb (islower c =? 0)).
(* src/libc/src/ctype.c:34-36 *)
Definition isalnum (c : Z) : Z := Z.b2z (negb (isalpha c =? 0) || negb (isdigit c =? 0)).
(* src/libc/src/ctype.c:38-40 *)
Definition isxdigit (c : Z) : Z :=
  Z.b2z (negb (isdigit c =? 0) || ((c >=? 97) && (c <=? 102)) || ((c >=? 65) && (c <=? 70))).
(* src/libc/src/ctype.c:42-44 *)
Definition isgraph (c : Z) : Z := Z.b2z ((c >? 32) && (c <? 0x7f)).
(* src/libc/src/ctype.c:46-48 *)
Definition iscntrl (c : Z) : Z := Z.b2z ((c <? 32) || (c =? 0x7f)).
(* src/libc/src/ctype.c:50-52 *)
Definition isprint (c : Z) : Z := Z.b2z ((c >=? 0x20) && (c <? 0x7f)).
(* src/libc/src/ctype.c:54-56 *)
Definition ispunct (c : Z) : Z := Z.b2z (negb (isgraph c =? 0) && (isalnum c =? 0)).
(* src/libc/src/ctype.c:58-62 *)
Definition tolower (c : Z) : Z := if (c >=? 65) && (c <=? 90) then c + (97 - 65) else c.
(* src/libc/src/ctype.c:64-68 *)
Definition toupper (c : Z) : Z := if (c >=? 97) && (c <=? 122) then c + (65 - 97) else c.

(** ** Number parsing *)

(* src/libc/src/atoi.c:20-29 *)
Definition hexval (c : Z) : Z :=
  if (c >=? 48) && (c <=? 57) then c - 48
  else if (c >=? 97) && (c <=? 102) then c - 97 + 10
  else if (c >=? 65) && (c <=? 70) then c - 65 + 10
  else 0.

Definition ULONG_MAX := 0xFFFFFFFF.

Section code.
Context {S : Type} `{!HasMem S}.

(** [while ( *num && ok( *num)) value = next(value, *num++);] *)
Definition accumulate (ok : Z -> Z) (next : Z -> Z -> M S Z) (num value : Z) : M S Z :=
  loop (fun '(num, value) =>
    c <- load8 num ;;
    if negb (c =? 0) && negb (ok c =? 0) then
      value <- next value c ;;
      ret (inl (num + 1, value))
    else ret (inr value)) (num, value).

(** [num[0] == '0' && num[1] == 'x'] *)
Definition has_0x (num : Z) : M S bool :=
  c <- load8 num ;;
  if c =? 48 then c <- load8 (num + 1) ;; ret (c =? 120) else ret false.

(* src/libc/src/atoi.c:47-70 *)
Definition atol (num : Z) : M S Z :=
  hex <- has_0x num ;;
  if hex : bool then
    accumulate isxdigit (fun value c =>
      v <- int32 (value * 16) ;; int32 (v + hexval c)) (num + 2) 0
  else
    c <- load8 num ;;
    let neg := c =? 45 in
    value <- accumulate isdigit (fun value c =>
      v <- int32 (value * 10) ;; v <- int32 (v + c) ;; int32 (v - 48))
      (if neg then num + 1 else num) 0 ;;
    if neg then int32 (- value) else ret value.

(* src/libc/src/atoi.c:31-37 *)
Definition atoi (num : Z) : M S Z := atol num.

(* src/libc/src/atoi.c:72-86 *)
Definition atoul (num : Z) : M S Z :=
  hex <- has_0x num ;;
  if hex : bool then
    accumulate isxdigit (fun value c => ret (u32 (value * 16 + hexval c))) (num + 2) 0
  else
    accumulate isdigit (fun value c => ret (u32 (value * 10 + c - 48))) num 0.

(* src/libc/src/atoi.c:39-45 *)
Definition atoui (num : Z) : M S Z := atoul num.

(* src/libc/src/atoi.c:88-102 *)
Definition atoull (num : Z) : M S Z :=
  hex <- has_0x num ;;
  if hex : bool then
    accumulate isxdigit (fun value c => ret (u64 (value * 16 + hexval c))) (num + 2) 0
  else
    accumulate isdigit (fun value c => ret (u64 (value * 10 + c - 48))) num 0.
End code.

(** The value of a character as a digit, -1 for none. *)
(* src/libc/src/atoi.c:136-145 strtoul *)
Definition digit_value (c : Z) : Z :=
  if (c >=? 65) && (c <=? 90) then c - 65 + 10
  else if (c >=? 97) && (c <=? 122) then c - 97 + 10
  else if (c >=? 48) && (c <=? 57) then c - 48
  else -1.

Section strtoul.
Context {S : Type} `{!HasMem S} (EINVAL ERANGE : Z).

Definition set_errno (e : Z) : M (S * Z) unit := fun st => Ok tt (st.1, e).

(* src/libc/src/atoi.c:134-165 strtoul *)
Definition strtoul_digits (endptr base nptr : Z) : M (S * Z) Z :=
  loop (fun '(nptr, r) =>
    c <- load8 nptr ;;
    let v := digit_value c in
    if (v <? 0) || (v >=? base) then
      (if negb (endptr =? 0) then store32 endptr nptr else ret tt) ;;
      ret (inr r)
    else
      let new_ret := u32 (r * base) in
      if negb (new_ret / base =? r) || (u32 (new_ret + v) <? new_ret) || (r =? ULONG_MAX) then
        set_errno ERANGE ;;
        ret (inl (nptr + 1, ULONG_MAX))
      else ret (inl (nptr + 1, u32 (new_ret + v)))) (nptr, 0).

(* src/libc/src/atoi.c:104-172 *)
Definition strtoul (nptr endptr base : Z) : M (S * Z) Z :=
  if (base <? 0) || (base =? 1) || (base >? 36) then set_errno EINVAL ;; ret 0
  else
    nptr <- loop (fun nptr =>
      c <- load8 nptr ;;
      if negb (isspace c =? 0) then ret (inl (nptr + 1)) else ret (inr nptr)) nptr ;;
    c <- load8 nptr ;;
    let '(neg, nptr) := if c =? 43 then (false, nptr + 1) else if c =? 45 then (true, nptr + 1) else (false, nptr) in
    hex <- (if (base =? 0) || (base =? 16) then has_0x nptr else ret false) ;;
    c <- load8 nptr ;;
    let '(base, nptr) :=
      if hex : bool then (16, nptr + 2)
      else if (base =? 0) && (c =? 48) then (8, nptr + 1)
      else if base =? 0 then (10, nptr)
      else (base, nptr) in
    r <- strtoul_digits endptr base nptr ;;
    ret (if neg && negb (r =? ULONG_MAX) then u32 (- r) else r).
End strtoul.

(** ** Scanning digits *)

Lemma b2z_eq0 b : negb (Z.b2z b =? 0) = b.
Proof. by destruct b. Qed.

(** The value of a list of digits, the most significant first. *)
Definition number (b : Z) (l : list Z) : Z := digits_val b l.

Lemma digits_val_acc b l v : fold_left (fun v d => v * b + d) l v = v * b ^ Z.of_nat (length l) + digits_val b l.
Proof.
  unfold digits_val. revert v. induction l as [|d l IH]; intros v; cbn [fold_left length]; [lia|].
  rewrite IH, (IH (0 * b + d)), Nat2Z.inj_succ, Z.pow_succ_r by lia. lia.
Qed.

Lemma digits_val_nonneg b l : 0 <= b -> Forall (fun d => 0 <= d) l -> 0 <= digits_val b l.
Proof.
  intros Hb Hl. unfold digits_val. assert (forall v, 0 <= v -> 0 <= fold_left (fun v d => v * b + d) l v) as H;
    [|by apply H].
  induction Hl as [|d l Hd _ IH]; intros v Hv; cbn [fold_left]; [done|]. apply IH. nia.
Qed.

Section scanning.
Context {S : Type} `{!HasMem S}.

(** Scanning [ds], whose characters the test accepts, up to one it does not:
    the value is what folding [next] gives, if every step is defined. *)
Lemma accumulate_ok ok next f num ds rest v0 (st : S) :
  cstr_at (mem_of st) num (ds ++ rest) -> Forall (fun c => ok c <> 0) ds ->
  (forall x, head rest = Some x -> ok x = 0) -> Z.of_nat (length ds) < 2 ^ 32 ->
  (forall ds1 c ds2, ds = ds1 ++ c :: ds2 ->
     next (fold_left f ds1 v0) c st = Ok (f (fold_left f ds1 v0) c) st) ->
  accumulate ok next num v0 st = Ok (fold_left f ds v0) st.
Proof.
  intros Hs Hok Hrest Hlen Hnext. unfold accumulate. apply (loop_runs _ (length ds)); [|lia]. clear Hlen.
  revert num v0 Hs Hnext. induction Hok as [|c ds Hc _ IH]; intros num v0 Hs Hnext; cbn [length fold_left].
  - apply runs_done. cbn [app] in Hs. step (load8_hd _ _ st Hs). destruct rest as [|x rest]; cbn [hd].
    + done.
    + rewrite (Hrest x eq_refl). cbn [Z.eqb negb]. by rewrite andb_false_r.
  - cbn [app] in Hs. pose proof (proj1 (cstr_at_cons _ _ _ _) Hs) as (_ & Hc0 & _ & Ht).
    eapply runs_step; [|apply IH; [exact Ht|]].
    + step (load8_hd _ _ st Hs). cbn [hd]. rewrite !(proj2 (Z.eqb_neq _ 0)) by done. cbn [negb andb].
      step (Hnext [] c ds eq_refl). reflexivity.
    + intros ds1 c' ds2 E. apply (Hnext (c :: ds1) c' ds2). by rewrite E.
Qed.

Lemma has_0x_ok num s (st : S) :
  cstr_at (mem_of st) num s ->
  has_0x num st = Ok (match s with 48 :: 120 :: _ => true | _ => false end) st.
Proof.
  intros Hs. unfold has_0x. step (load8_hd _ _ st Hs). destruct s as [|c s]; [done|]. cbn [hd].
  destruct (Z.eqb_spec c 48) as [->|Hc].
  - apply cstr_at_cons in Hs as (_ & _ & _ & Hs). step (load8_hd _ _ st Hs).
    destruct s as [|d s]; [done|]. cbn [hd]. unfold ret. f_equal.
  - unfold ret. f_equal. by repeat case_match.
Qed.
End scanning.

(** ** Decimal numbers *)

(** The characters of decimal digits. *)
Definition digit_chars (ds : list Z) : list Z := map (fun d => d + 48) ds.
Definition decimal (ds : list Z) : Prop := Forall (fun d => 0 <= d < 10) ds.

#[export] Instance decimal_dec ds : Decision (decimal ds).
Proof. unfold decimal. apply _. Defined.

(** The number ends: what follows is not a digit. *)
Definition ends (test : Z -> Z) (rest : list Z) : Prop := forall x, head rest = Some x -> test x = 0.

#[export] Instance ends_dec test rest : Decision (ends test rest).
Proof.
  destruct rest as [|x rest]; [left; by intros x|].
  destruct (decide (test x = 0)) as [E|E]; [left; by intros y [= <-]|right; intros H; by apply E, H].
Defined.

Lemma isdigit_digit d : 0 <= d < 10 -> isdigit (d + 48) <> 0.
Proof.
  intros Hd. unfold isdigit. rewrite Z.geb_leb, !(proj2 (Z.leb_le _ _)) by lia. done.
Qed.

Lemma isdigit_chars ds : decimal ds -> Forall (fun c => isdigit c <> 0) (digit_chars ds).
Proof. intros H. apply Forall_map. eapply Forall_impl; [|exact H]. intros d Hd. by apply isdigit_digit. Qed.

Lemma fold_digit_chars f g ds (v : Z) :
  (forall v d, f v (d + 48) = g v d) -> fold_left f (digit_chars ds) v = fold_left g ds v.
Proof. intros Hfg. revert v. induction ds as [|d ds IH]; intros v; [done|]. cbn. by rewrite Hfg, IH. Qed.

Lemma fold_digits_mono ds v : decimal ds -> 0 <= v -> v <= fold_left (fun v d => v * 10 + d) ds v.
Proof.
  intros Hds. revert v. induction Hds as [|d ds Hd _ IH]; intros v Hv; cbn [fold_left]; [lia|].
  specialize (IH (v * 10 + d) ltac:(lia)). lia.
Qed.

Section decimal.
Context {S : Type} `{!HasMem S}.

Definition atol_step : Z -> Z -> M S Z := fun value c =>
  v <- int32 (value * 10) ;; v <- int32 (v + c) ;; int32 (v - 48).

Lemma atol_step_ok v d (st : S) : 0 <= v -> 0 <= d < 10 ->
  atol_step v (d + 48) st = if decide (v * 10 + d + 48 <= INT_MAX) then Ok (v * 10 + d) st else Fault.
Proof.
  intros Hv Hd. unfold atol_step, INT_MAX. case_decide as Hle.
  - step (int32_ok (v * 10) st ltac:(unfold is_s32; lia)).
    step (int32_ok (v * 10 + (d + 48)) st ltac:(unfold is_s32; lia)).
    rewrite int32_ok by (unfold is_s32; lia). f_equal. lia.
  - destruct (decide (is_s32 (v * 10))) as [Ha|Ha].
    + step (int32_ok (v * 10) st Ha). unfold bind. rewrite int32_fault; [done|]. unfold is_s32 in *. lia.
    + unfold bind. by rewrite int32_fault.
Qed.

(** The signed accumulation is defined as long as the number is at most
    [INT_MAX - 48]; a larger one overflows on the way. *)
Lemma atol_digits num ds rest (st : S) :
  cstr_at (mem_of st) num (digit_chars ds ++ rest) -> decimal ds -> ends isdigit rest -> ds <> [] ->
  Z.of_nat (length ds) < 2 ^ 32 ->
  accumulate isdigit atol_step num 0 st =
  if decide (digits_val 10 ds + 48 <= INT_MAX) then Ok (digits_val 10 ds) st else Fault.
Proof.
  intros Hs Hds Hrest Hne Hlen. unfold accumulate, digits_val.
  name_body body.
  enough (forall v num, 0 <= v -> cstr_at (mem_of st) num (digit_chars ds ++ rest) ->
    exists k o, (k <= length ds)%nat /\ runs body k (num, v) st o /\
    o = if decide (fold_left (fun v d => v * 10 + d) ds v + 48 <= INT_MAX)
        then Ok (fold_left (fun v d => v * 10 + d) ds v) st else Fault) as Hg.
  { destruct (Hg 0 num ltac:(lia) Hs) as (k & o & Hk & Hr & ->). apply (loop_runs _ k); [exact Hr|lia]. }
  clear Hlen num Hs.
  induction Hds as [|d ds Hd Hds IH]; intros v num Hv Hs; [done|]. cbn [fold_left length].
  cbn [digit_chars map app] in Hs. pose proof (proj1 (cstr_at_cons _ _ _ _) Hs) as (_ & Hc0 & _ & Ht).
  assert (body (num, v) st = if decide (v * 10 + d + 48 <= INT_MAX)
    then Ok (inl (num + 1, v * 10 + d)) st else Fault) as Hb.
  { unfold body. step (load8_hd _ _ st Hs). cbn [hd].
    rewrite !(proj2 (Z.eqb_neq _ 0)) by (done || by apply isdigit_digit). cbn [negb andb].
    unfold bind at 1. rewrite atol_step_ok by done. by case_decide. }
  pose proof (fold_digits_mono ds (v * 10 + d) Hds ltac:(lia)) as Hmono.
  destruct (decide (v * 10 + d + 48 <= INT_MAX)) as [Hle|Hgt].
  - destruct ds as [|d' ds].
    + cbn [fold_left]. rewrite decide_True by done. do 2 eexists. split; [|split; [|reflexivity]].
      2: { eapply runs_step; [exact Hb|]. apply runs_done. unfold body.
           cbn [digit_chars map app] in Ht. step (load8_hd _ _ st Ht). destruct rest as [|x rest]; [done|].
           cbn [hd]. rewrite (Hrest x eq_refl). cbn [Z.eqb negb]. by rewrite andb_false_r. }
      done.
    + destruct (IH ltac:(done) (v * 10 + d) (num + 1) ltac:(lia) Ht) as (k & o & Hk & Hr & Ho).
      exists (Datatypes.S k), o. split; [cbn [length] in *; lia|]. split; [|exact Ho].
      by eapply runs_step.
  - exists 0%nat, Fault. split; [lia|]. split; [by apply runs_fault|]. by rewrite decide_False by lia.
Qed.
End decimal.

(** ** [strtoul] *)

(** The characters [cs] are digits in base [b]. *)
Definition digits_in (b : Z) (cs : list Z) : Prop := Forall (fun c => 0 <= digit_value c < b) cs.
(** The next character is not. *)
Definition ends_in (b : Z) (rest : list Z) : Prop :=
  forall x, head (rest ++ [0]) = Some x -> digit_value x < 0 \/ b <= digit_value x.

Section strtoul_facts.
Context {S : Type} `{!HasMem S} (EINVAL ERANGE : Z).

(** The saturated value and the error number for a number [v]. *)
Definition saturated (v e : Z) : Z * Z := (Z.min v ULONG_MAX, if v >? ULONG_MAX then ERANGE else e).

Lemma saturate_step b v d e :
  2 <= b <= 36 -> 0 <= v -> 0 <= d < b ->
  let r := (saturated v e).1 in
  let new_ret := u32 (r * b) in
  let over := negb (new_ret / b =? r) || (u32 (new_ret + d) <? new_ret) || (r =? ULONG_MAX) in
  (if over then (ULONG_MAX, ERANGE) else (u32 (new_ret + d), (saturated v e).2)) = saturated (v * b + d) e.
Proof.
  intros Hb Hv Hd r new_ret over. unfold saturated. unfold saturated in r. cbn [fst snd] in *.
  destruct (Z.gtb_spec v ULONG_MAX) as [Hgt|Hle]; unfold ULONG_MAX in *.
  - assert (over = true) as ->.
    { unfold over. replace (r =? 0xFFFFFFFF) with true; [by rewrite orb_true_r|].
      symmetry. apply Z.eqb_eq. lia. }
    rewrite (proj2 (Z.gtb_lt _ _)) by nia. f_equal. nia.
  - assert (r = v) as Hr by lia. clearbody r. subst r.
    destruct (Z.eqb_spec v 0xFFFFFFFF) as [->|Hne].
    + unfold over. rewrite orb_true_r. rewrite (proj2 (Z.gtb_lt _ _)) by nia. f_equal. nia.
    + destruct (decide (v * b < 0x100000000)) as [Hlt|Hge].
      * assert (new_ret = v * b) as En by (unfold new_ret; apply u32_small; unfold is_u32; nia).
        assert (new_ret / b = v) as Ed by (rewrite En; by apply Z.div_mul; lia).
        destruct (decide (v * b + d <= 0xFFFFFFFF)) as [Hok|Hov].
        -- assert (u32 (new_ret + d) = v * b + d) as Eu by (rewrite En; apply u32_small; unfold is_u32; nia).
           assert (over = false) as ->.
           { unfold over. rewrite Ed, Z.eqb_refl, Eu, (proj2 (Z.ltb_ge _ _)) by lia. done. }
           rewrite Eu. rewrite Z.gtb_ltb, (proj2 (Z.ltb_ge _ _)) by lia. f_equal. lia.
        -- assert (over = true) as ->.
           { unfold over. replace (u32 (new_ret + d) <? new_ret) with true; [by rewrite orb_true_r|].
             symmetry. apply Z.ltb_lt. rewrite En. unfold u32.
             replace (v * b + d) with (v * b + d - 0x100000000 + 1 * 0x100000000) by lia.
             rewrite Z.mod_add, Z.mod_small by lia. lia. }
           rewrite (proj2 (Z.gtb_lt _ _)) by lia. f_equal. lia.
      * assert (over = true) as ->.
        { unfold over. replace (new_ret / b =? v) with false; [done|]. symmetry. apply Z.eqb_neq.
          intros E. assert (new_ret <= v * b - 0x100000000).
          { unfold new_ret, u32. assert (0 <= v * b) by nia. Z.to_euclidean_division_equations. nia. }
          assert (new_ret / b < v); [|lia]. apply Z.div_lt_upper_bound; lia. }
        rewrite (proj2 (Z.gtb_lt _ _)) by lia. f_equal. lia.
Qed.

(** The end pointer, when one is wanted. *)
Definition set_end (endptr v : Z) (st : S * Z) : S * Z :=
  if endptr =? 0 then st else poke st endptr (le_bytes 4 v).

Definition end_ok (endptr : Z) (st : S) : Prop :=
  endptr = 0 \/ (mapped (mem_of st) endptr 4 /\ endptr mod 4 = 0).

Definition step_fold (b : Z) (v c : Z) : Z := v * b + digit_value c.

Lemma strtoul_digits_ok endptr b a cs rest (st : S) e :
  cstr_at (mem_of st) a (cs ++ rest) -> digits_in b cs -> ends_in b rest -> 2 <= b <= 36 ->
  Z.of_nat (length cs) < 2 ^ 32 -> end_ok endptr st ->
  let v := digits_val b (map digit_value cs) in
  strtoul_digits ERANGE endptr b a (st, e) =
  Ok (Z.min v ULONG_MAX) (set_end endptr (a + Z.of_nat (length cs)) (st, if v >? ULONG_MAX then ERANGE else e)).
Proof.
  intros Hs Hcs Hrest Hb Hlen Hend. unfold strtoul_digits. cbv zeta. name_body body.
  assert (forall v0 a, 0 <= v0 -> cstr_at (mem_of st) a (cs ++ rest) ->
    let v := fold_left (step_fold b) cs v0 in
    runs body (length cs) (a, (saturated v0 e).1) (st, (saturated v0 e).2)
      (Ok (saturated v e).1 (set_end endptr (a + Z.of_nat (length cs)) (st, (saturated v e).2)))) as Hg.
  { clear a Hs Hlen. induction Hcs as [|c cs Hc _ IH]; intros v0 a Hv Hs; cbn [length fold_left app] in *.
    - apply runs_done. unfold body. rewrite (bind_ok _ _ _ (hd 0 rest) (st, (saturated v0 e).2))
        by (by apply load8_hd).
      assert ((digit_value (hd 0 rest) <? 0) || (digit_value (hd 0 rest) >=? b) = true) as ->.
      { apply orb_true_iff. rewrite Z.geb_leb, Z.ltb_lt, Z.leb_le. apply Hrest. by destruct rest. }
      rewrite Z.add_0_r. unfold set_end. destruct (Z.eqb_spec endptr 0) as [He|He]; [done|].
      cbn [negb]. destruct Hend as [?|[Hm Ha]]; [done|].
      assert (mapped (mem_of (st, (saturated v0 e).2)) endptr (Z.of_nat 4)) as Hm' by exact Hm.
      by step (store_ok 4 endptr a (st, (saturated v0 e).2) Hm' Ha).
    - pose proof (proj1 (cstr_at_cons _ _ _ _) Hs) as (_ & Hc0 & _ & Ht).
      eapply runs_step.
      + unfold body. rewrite (bind_ok _ _ _ (hd 0 (c :: cs ++ rest)) (st, (saturated v0 e).2))
          by (by apply load8_hd).
        cbn [hd]. rewrite (proj2 (orb_false_iff _ _))
          by (rewrite Z.geb_leb; split; [apply Z.ltb_ge|apply Z.leb_gt]; lia).
        pose proof (saturate_step b v0 (digit_value c) e Hb Hv Hc) as Hst. cbv zeta in Hst.
        instantiate (1 := (st, (saturated (step_fold b v0 c) e).2)).
        instantiate (1 := (a + 1, (saturated (step_fold b v0 c) e).1)).
        unfold step_fold. rewrite <- Hst. destruct (_ || _); done.
      + replace (a + Z.of_nat (Datatypes.S (length cs))) with (a + 1 + Z.of_nat (length cs)) by lia.
        apply IH; [unfold step_fold; nia|exact Ht]. }
  specialize (Hg 0 a ltac:(lia) Hs). cbv zeta in Hg. unfold digits_val.
  replace (fold_left (fun v d => v * b + d) (map digit_value cs) 0) with (fold_left (step_fold b) cs 0).
  { apply (loop_runs _ (length cs)); [exact Hg|lia]. }
  clear. generalize 0. induction cs as [|c cs IH]; intros v; [done|]. cbn. apply IH.
Qed.

Lemma cstr_at_drop m a s n : cstr_at m a s -> (n <= length s)%nat -> cstr_at m (a + Z.of_nat n) (drop n s).
Proof.
  intros Hs Hn. rewrite <- (take_drop n s) in Hs. apply cstr_at_app in Hs as (_ & _ & Hs).
  rewrite length_take in Hs. by replace (n `min` length s)%nat with n in Hs by lia.
Qed.

Definition is_digit_in (b c : Z) : bool := (0 <=? digit_value c) && (digit_value c <? b).

(** What [strtoul] reads in the characters [s]: the sign, the radix, the
    digits, and how many characters that takes. *)
Definition parse_strtoul (base : Z) (s : list Z) : bool * Z * list Z * nat :=
  let n0 := span (fun c => negb (isspace c =? 0)) s in
  let s1 := drop n0 s in
  let '(neg, n1) :=
    match s1 with 43 :: _ => (false, 1%nat) | 45 :: _ => (true, 1%nat) | _ => (false, 0%nat) end in
  let s2 := drop n1 s1 in
  let zx := match s2 with 48 :: 120 :: _ => true | _ => false end in
  let '(b, n2) :=
    if ((base =? 0) || (base =? 16)) && zx then (16, 2%nat)
    else if (base =? 0) && (hd 0 s2 =? 48) then (8, 1%nat)
    else if base =? 0 then (10, 0%nat)
    else (base, 0%nat) in
  let s3 := drop n2 s2 in
  let k := span (is_digit_in b) s3 in
  (neg, b, map digit_value (take k s3), (n0 + n1 + n2 + k)%nat).

Lemma skip_spaces_ok a s (st : S * Z) :
  cstr_at (mem_of st) a s -> Z.of_nat (length s) < 2 ^ 32 ->
  loop (fun nptr => c <- load8 nptr ;;
    if negb (isspace c =? 0) then ret (inl (nptr + 1)) else ret (inr nptr)) a st =
  Ok (a + Z.of_nat (span (fun c => negb (isspace c =? 0)) s)) st.
Proof.
  intros Hs Hlen. name_body body.
  enough (forall a, cstr_at (mem_of st) a s ->
    exists k, (k <= length s)%nat /\
    runs body k a st (Ok (a + Z.of_nat (span (fun c => negb (isspace c =? 0)) s)) st)) as Hg.
  { destruct (Hg a Hs) as (k & Hk & Hr). apply (loop_runs _ k); [exact Hr|lia]. }
  clear a Hs Hlen. induction s as [|c s IH]; intros a Hs; cbn [span].
  - exists 0%nat. split; [done|]. apply runs_done. unfold body. step (load8_hd _ _ st Hs).
    cbn. by rewrite Z.add_0_r.
  - destruct (negb (isspace c =? 0)) eqn:Ec.
    + pose proof (proj1 (cstr_at_cons _ _ _ _) Hs) as (_ & _ & _ & Ht). destruct (IH _ Ht) as (k & Hk & Hr).
      exists (Datatypes.S k). split; [cbn; lia|]. eapply runs_step.
      * unfold body. step (load8_hd _ _ st Hs). cbn [hd]. by rewrite Ec.
      * replace (a + Z.of_nat (Datatypes.S _)) with
          (a + 1 + Z.of_nat (span (fun c => negb (isspace c =? 0)) s)) by lia. exact Hr.
    + exists 0%nat. split; [lia|]. apply runs_done. unfold body. step (load8_hd _ _ st Hs).
      cbn [hd]. rewrite Ec, Z.add_0_r. done.
Qed.

Lemma length_span p s : (span p s <= length s)%nat.
Proof. induction s as [|c s IH]; cbn; [done|]. destruct (p c); lia. Qed.

Lemma span_digits b s :
  digits_in b (take (span (is_digit_in b) s) s) /\ ends_in b (drop (span (is_digit_in b) s) s).
Proof.
  destruct (span_split (is_digit_in b) s) as (s1 & s2 & -> & -> & H1 & H2).
  rewrite take_app_length, drop_app_length. split.
  - eapply Forall_impl; [|exact H1]. intros c Hc. unfold is_digit_in in Hc.
    by rewrite andb_true_iff, Z.leb_le, Z.ltb_lt in Hc.
  - intros x Hx. destruct s2 as [|y s2]; cbn in Hx; injection Hx as <-; [left; done|].
    specialize (H2 y eq_refl). unfold is_digit_in in H2.
    rewrite andb_false_iff, Z.leb_gt, Z.ltb_ge in H2. lia.
Qed.
End strtoul_facts.

(** ** Reading back what [printf] writes *)

Lemma fold_u32 b (val : Z -> Z) cs v :
  fold_left (fun v c => u32 (v * b + val c)) cs (u32 v) = u32 (fold_left (fun v c => v * b + val c) cs v).
Proof.
  revert v. induction cs as [|c cs IH]; intros v; [done|]. cbn [fold_left].
  rewrite <- IH. f_equal. unfold u32. rewrite <- (Zplus_mod_idemp_l (v * b)), <- Zmult_mod_idemp_l.
  by rewrite Zplus_mod_idemp_l.
Qed.

Lemma isxdigit_hexchar d : 0 <= d < 16 -> isxdigit (hexchar false d) <> 0 /\ hexval (hexchar false d) = d.
Proof.
  intros Hd. assert (forallb (fun d => negb (isxdigit (hexchar false d) =? 0) && (hexval (hexchar false d) =? d))
    (seqZ 0 16) = true) as H by (vm_compute; reflexivity).
  rewrite List.forallb_forall in H. specialize (H d). rewrite andb_true_iff, Z.eqb_eq, negb_true_iff, Z.eqb_neq in H.
  apply H. apply list_elem_of_In, elem_of_seqZ. lia.
Qed.

Section readback.
Context {S : Type} `{!HasMem S}.

Lemma ends_nil test : ends test [].
Proof. by intros x. Qed.

Lemma atoul_dec a n (st : S) :
  cstr_at (mem_of st) a (dec n) -> is_u32 n -> atoul a st = Ok n st.
Proof.
  intros Hs Hn. pose proof (digits_range 10 n ltac:(lia) Hn) as Hr.
  pose proof (digits_length 10 n ltac:(lia) Hn) as Hl. unfold atoul.
  rewrite (bind_ok _ _ _ _ _ (has_0x_ok a _ st Hs)).
  assert (match dec n with 48 :: 120 :: _ => true | _ => false end = false) as ->.
  { unfold dec. destruct (digits 10 n) as [|d1 [|d2 l]]; [done|cbn; by repeat case_match|].
    apply Forall_cons_iff in Hr as [_ Hr]. apply Forall_cons_iff in Hr as [Hr _]. cbn.
    repeat case_match; try done. lia. }
  cbn iota. rewrite <- (app_nil_r (dec n)) in Hs.
  rewrite (accumulate_ok _ _ (fun v c => u32 (v * 10 + c - 48)) a (dec n) [] 0 st Hs);
    [|by apply isdigit_chars|apply ends_nil|unfold dec; rewrite length_map; lia|done].
  f_equal. unfold dec. change (map (fun d => d + 48) (digits 10 n)) with (digit_chars (digits 10 n)).
  rewrite (fold_digit_chars _ (fun v d => u32 (v * 10 + id d))) by (intros v d; unfold id; f_equal; lia).
  change 0 with (u32 0) at 1. rewrite fold_u32. unfold id.
  change (fold_left _ _ 0) with (digits_val 10 (digits 10 n)).
  rewrite digits_val_digits by lia. by apply u32_small.
Qed.

Lemma atoul_hex a n (st : S) :
  cstr_at (mem_of st) a (str "0x" ++ hex false n) -> is_u32 n -> atoul a st = Ok n st.
Proof.
  intros Hs Hn. pose proof (digits_range 16 n ltac:(lia) Hn) as Hr.
  pose proof (digits_length 16 n ltac:(lia) Hn) as Hl. unfold atoul.
  rewrite (bind_ok _ _ _ _ _ (has_0x_ok a _ st Hs)). change (str "0x") with [48; 120] in *. cbn [app] in *.
  apply cstr_at_cons in Hs as (_ & _ & _ & Hs). apply cstr_at_cons in Hs as (_ & _ & _ & Hs).
  replace (a + 1 + 1) with (a + 2) in Hs by lia. rewrite <- (app_nil_r (hex false n)) in Hs.
  rewrite (accumulate_ok _ _ (fun v c => u32 (v * 16 + hexval c)) (a + 2) (hex false n) [] 0 st Hs);
    [|apply Forall_map; eapply Forall_impl; [|exact Hr]; intros d Hd; by apply isxdigit_hexchar
     |apply ends_nil|unfold hex; rewrite length_map; lia|done].
  f_equal. change 0 with (u32 0) at 1. rewrite (fold_u32 16 hexval).
  replace (fold_left (fun v c => v * 16 + hexval c) (hex false n) 0) with (digits_val 16 (digits 16 n)).
  { rewrite digits_val_digits by lia. by apply u32_small. }
  clear Hl Hs. unfold digits_val, hex. generalize 0. induction Hr as [|d l Hd _ IH]; intros v; [done|].
  cbn [map fold_left]. rewrite (proj2 (isxdigit_hexchar d Hd)). apply IH.
Qed.

(** The text [snprintf] leaves for one directive. *)
Lemma snprintf_text buf len d z txt (st : S) :
  is_u32 (d_width d) -> render_directive d [VaWord z] = Some (txt, []) ->
  Forall (fun c => 0 < c < 256) txt -> (length txt < 127)%nat -> Z.of_nat (length txt) < len -> 0 <= buf -> buf + len <= 2 ^ 32 ->
  mapped (mem_of st) buf len ->
  exists st', snprintf buf len (37 :: unparse_directive d) [VaWord z] st = Ok (Z.of_nat (length txt)) st' /\
    cstr_at (mem_of st') buf txt.
Proof.
  intros Hw Hr Hc Hshort Hlen Hb Hbl Hm. unfold snprintf.
  replace (37 :: unparse_directive d) with (unparse [([], d)] []) by (cbn; by rewrite app_nil_r).
  rewrite (vsnprintf_ok buf len [([], d)] [] [VaWord z] txt st);
    [|split; [apply Forall_singleton; split; [cbn; apply Forall_nil_2|exact Hw]|apply Forall_nil_2]|cbn [render]; rewrite Hr; cbn; by rewrite app_nil_r
     |lia|done|lia|done|done|exact Hm].
  eexists. split; [reflexivity|]. rewrite mem_of_poke. rewrite take_ge by lia.
  assert (map u8 txt = txt) as ->.
  { clear - Hc. induction Hc as [|c txt Hc _ IH]; [done|]. cbn. rewrite IH. f_equal. apply u8_small. unfold is_u8. lia. }
  split.
  - apply bytes_at_write. apply Forall_app. split; [|by_decide].
    eapply Forall_impl; [|exact Hc]. unfold is_u8. cbn. lia.
  - eapply Forall_impl; [|exact Hc]. cbn. lia.
Qed.
End readback.

(** ** The properties *)

(** C40: [strtoul] on every string: it skips the white space, takes the sign and
    the radix prefix, and reads the longest run of digits of the radix, storing
    where it stopped when asked to.  The value is the number the digits denote;
    a number above [ULONG_MAX] gives [ULONG_MAX] and [ERANGE] - also when the
    32-bit product wraps around to something plausible - and a minus sign
    negates modulo 2^32 unless the value saturated.  The loop always ends. *)
Theorem strtoul_correct {S} `{HasMem S} EINVAL ERANGE nptr endptr base s (st : S) e :
  cstr_at (mem_of st) nptr s -> Z.of_nat (length s) < 2 ^ 32 -> base = 0 \/ 2 <= base <= 36 ->
  end_ok endptr st ->
  let '(neg, b, ds, n) := parse_strtoul base s in
  let v := digits_val b ds in
  strtoul EINVAL ERANGE nptr endptr base (st, e) =
  Ok (if neg && (v <? ULONG_MAX) then u32 (- v) else Z.min v ULONG_MAX)
     (set_end endptr (nptr + Z.of_nat n) (st, if v >? ULONG_MAX then ERANGE else e)).
Proof.
  intros Hs Hlen Hbase Hend. unfold parse_strtoul, strtoul.
  set (n0 := span _ s). pose proof (length_span (fun c => negb (isspace c =? 0)) s) as Hn0. fold n0 in Hn0.
  assert ((base <? 0) || (base =? 1) || (base >? 36) = false) as ->
    by (rewrite !orb_false_iff, Z.gtb_ltb, !Z.ltb_ge, Z.eqb_neq; lia).
  rewrite (bind_ok _ _ _ _ _ (skip_spaces_ok nptr s (st, e) Hs Hlen)). fold n0.
  pose proof (cstr_at_drop _ _ _ n0 Hs Hn0) as Hs1. set (s1 := drop n0 s) in *.
  assert (length s1 <= length s)%nat as L1 by (unfold s1; rewrite length_drop; lia).
  set (a1 := nptr + Z.of_nat n0) in *.
  rewrite (bind_ok _ _ (st, e) (hd 0 s1) (st, e)) by (by apply load8_hd).
  set (sg := match s1 with 43 :: _ => (false, 1%nat) | 45 :: _ => (true, 1%nat) | _ => (false, 0%nat) end).
  assert ((if hd 0 s1 =? 43 then (false, a1 + 1) else if hd 0 s1 =? 45 then (true, a1 + 1) else (false, a1)) =
    (sg.1, a1 + Z.of_nat sg.2) /\ (sg.2 <= length s1)%nat) as [-> Hsg].
  { unfold sg. destruct s1 as [|c s1']; cbn [hd]; [cbn; split; [f_equal; lia|lia]|].
    destruct (Z.eqb_spec c 43) as [->|]; [split; [done|cbn; lia]|].
    destruct (Z.eqb_spec c 45) as [->|]; [split; [done|cbn; lia]|].
    repeat case_match; try done; cbn; split; (lia || f_equal; lia). }
  destruct sg as [neg n1]. cbn [fst snd] in *.
  pose proof (cstr_at_drop _ _ _ n1 Hs1 Hsg) as Hs2. set (s2 := drop n1 s1) in *.
  assert (length s2 <= length s)%nat as L2 by (unfold s2; rewrite length_drop; lia).
  set (a2 := a1 + Z.of_nat n1) in *.
  set (zx := match s2 with 48 :: 120 :: _ => true | _ => false end).
  rewrite (bind_ok _ _ (st, e) (((base =? 0) || (base =? 16)) && zx) (st, e))
    by (destruct (_ || _); [by rewrite (has_0x_ok a2 s2)|done]).
  rewrite (bind_ok _ _ (st, e) (hd 0 s2) (st, e)) by (by apply load8_hd).
  set (rx := if ((base =? 0) || (base =? 16)) && zx then (16, 2%nat)
    else if (base =? 0) && (hd 0 s2 =? 48) then (8, 1%nat)
    else if base =? 0 then (10, 0%nat) else (base, 0%nat)).
  assert ((if ((base =? 0) || (base =? 16)) && zx then (16, a2 + 2)
    else if (base =? 0) && (hd 0 s2 =? 48) then (8, a2 + 1)
    else if base =? 0 then (10, a2) else (base, a2)) = (rx.1, a2 + Z.of_nat rx.2) /\
    (rx.2 <= length s2)%nat /\ 2 <= rx.1 <= 36) as (-> & Hrx & Hb).
  { unfold rx. destruct (((base =? 0) || (base =? 16)) && zx) eqn:E1.
    - apply andb_true_iff in E1 as [_ E1]. split; [done|]. split; [|cbn; lia]. unfold zx in E1.
      destruct s2 as [|c1 [|c2 s2']]; cbn; [done|by repeat case_match|lia].
    - destruct ((base =? 0) && (hd 0 s2 =? 48)) eqn:E2.
      + split; [done|]. split; [|cbn; lia]. destruct s2; [by rewrite andb_false_r in E2|cbn; lia].
      + destruct (Z.eqb_spec base 0); cbn; (split; [f_equal; lia|lia]). }
  destruct rx as [b n2]. cbn [fst snd] in *.
  pose proof (cstr_at_drop _ _ _ n2 Hs2 Hrx) as Hs3. set (s3 := drop n2 s2) in *.
  set (k := span (is_digit_in b) s3). pose proof (span_digits b s3) as [Hcs Hrest]. fold k in Hcs, Hrest.
  pose proof (length_span (is_digit_in b) s3) as Hk. fold k in Hk.
  assert (length s3 <= length s2)%nat as L3 by (unfold s3; rewrite length_drop; lia).
  assert (length (take k s3) = k) as Lk by (rewrite length_take; lia).
  rewrite <- (take_drop k s3) in Hs3.
  step (strtoul_digits_ok ERANGE endptr b _ _ _ st e Hs3 Hcs Hrest Hb ltac:(lia) Hend).
  rewrite Lk. unfold ret. f_equal; [|f_equal; lia].
  set (v := digits_val b (map digit_value (take k s3))). unfold ULONG_MAX.
  destruct neg; cbn [andb]; [|done].
  destruct (Z.ltb_spec v 0xFFFFFFFF).
  - rewrite Z.min_l by lia. by rewrite (proj2 (Z.eqb_neq _ _)) by lia.
  - rewrite Z.min_r by lia. done.
Qed.

(** The signed decimal parser [atoi]/[atol].  An optionally signed run of
    digits gives its number as long as it is at most [INT_MAX - 48]: above that
    the accumulation [value * 10 + c - '0'] overflows [int] - so the 48 largest
    representable numbers cannot be parsed either. *)
Theorem atoi_decimal {S} `{HasMem S} num (neg : bool) ds rest (st : S) :
  cstr_at (mem_of st) num ((if neg then [45] else []) ++ digit_chars ds ++ rest) ->
  decimal ds -> ds <> [] -> ends isdigit rest -> Z.of_nat (length ds) < 2 ^ 32 ->
  neg = true \/ ds <> [0] \/ head rest <> Some 120 ->
  atoi num st =
  if decide (digits_val 10 ds <= INT_MAX - 48)
  then Ok (if neg then - digits_val 10 ds else digits_val 10 ds) st else Fault.
Proof.
  intros Hs Hds Hne Hrest Hlen Hx. unfold atoi, atol.
  assert (match (if neg then [45] else []) ++ digit_chars ds ++ rest with 48 :: 120 :: _ => true | _ => false end
    = false) as Hno.
  { destruct neg; [done|]. destruct ds as [|d [|d' ds]]; [done| |].
    - cbn. destruct rest as [|x rest]; [by repeat case_match|]. cbn in Hx.
      repeat case_match; try done. exfalso. destruct Hx as [?|[?|Hx]]; [done| |by apply Hx; congruence].
      match goal with E : d + 48 = 48 |- _ => assert (d = 0) by lia; by subst d end.
    - inversion Hds as [|? ? _ Hds']; subst. inversion Hds' as [|? ? Hd' _]; subst. cbn.
      repeat case_match; try done. lia. }
  rewrite (bind_ok _ _ _ _ _ (has_0x_ok num _ st Hs)), Hno. cbn iota.
  rewrite (bind_ok _ _ _ _ _ (load8_hd num _ st Hs)).
  assert (forall a, cstr_at (mem_of st) a (digit_chars ds ++ rest) ->
    accumulate isdigit atol_step a 0 st =
    if decide (digits_val 10 ds <= INT_MAX - 48) then Ok (digits_val 10 ds) st else Fault) as Hacc.
  { intros a Ha. rewrite (atol_digits a ds rest st Ha Hds Hrest Hne Hlen).
    repeat case_decide; (done || lia). }
  unfold atol_step in Hacc.
  assert (0 <= digits_val 10 ds) as Hpos.
  { apply digits_val_nonneg; [lia|]. eapply Forall_impl; [|exact Hds]. cbn. lia. }
  destruct neg; cbn [app hd] in Hs |- *.
  - apply cstr_at_cons in Hs as (_ & _ & _ & Hs). change (45 =? 45) with true. cbn iota.
    unfold bind at 1. rewrite (Hacc _ Hs). case_decide; [|done].
    apply int32_ok. unfold is_s32, INT_MAX in *. lia.
  - destruct ds as [|d ds]; [done|]. cbn [digit_chars map app hd].
    inversion Hds as [|? ? Hd _]; subst. rewrite (proj2 (Z.eqb_neq (d + 48) 45)) by lia.
    unfold bind at 1. rewrite (Hacc _ Hs). by case_decide.
Qed.

(** Numbers survive printing and parsing: what [snprintf] writes for [%u]
    or for [%p], into any buffer with room for it, [atoul] reads back as the
    same 32-bit number. *)
Theorem atoul_reads_printed {S} `{HasMem S} buf len n (pointer : bool) (st : S) :
  is_u32 n -> 13 <= len -> 0 <= buf -> buf + len <= 2 ^ 32 -> mapped (mem_of st) buf len ->
  exists st' w, snprintf buf len (if pointer then str "%p" else str "%u") [VaWord n] st = Ok w st' /\
    atoul buf st' = Ok n st'.
Proof.
  intros Hn Hlen Hb Hbl Hm.
  set (d := {| d_left := false; d_plus := false; d_space := false; d_alt := false; d_zero := false;
    d_width := 0; d_conv := if pointer then CPointer else CUnsigned |}).
  assert (justify false false 0 [] (dec n) = dec n /\ justify false false 0 [] (hex false n) = hex false n)
    as [Jd Jh].
  { unfold justify, spaces. split; replace (Z.to_nat _) with 0%nat by (cbn [length]; lia); done. }
  destruct (snprintf_text buf len d n (if pointer then str "0x" ++ hex false n else dec n) st)
    as (st' & E & Hs); [by_decide| | | | |done|done|exact Hm|].
  - unfold d, render_directive. cbn [d_conv d_left d_zero d_width]. rewrite (u32_small n Hn).
    destruct pointer; cbn [andb]; [by rewrite Jh|]. unfold sign_of. cbn [d_plus d_space]. by rewrite Jd.
  - destruct pointer.
    + apply Forall_app. split; [by_decide|]. eapply Forall_impl; [|by apply hex_chars]. cbn. lia.
    + eapply Forall_impl; [|by apply dec_chars]. cbn. lia.
  - pose proof (length_dec n Hn). pose proof (length_hex false n Hn).
    destruct pointer; [rewrite length_app; change (length (str "0x")) with 2%nat|]; lia.
  - pose proof (length_dec n Hn). pose proof (length_hex false n Hn).
    destruct pointer; [rewrite length_app; change (length (str "0x")) with 2%nat|]; lia.
  - exists st', (Z.of_nat (length (if pointer then str "0x" ++ hex false n else dec n))).
    split; [destruct pointer; exact E|].
    destruct pointer; [by apply atoul_hex|by apply atoul_dec].
Qed.

(** ** Instances *)

Definition text_mem (s : list Z) : mem := write_bytes (mem_lit 0x1000 (replicate 64 7)) 0x1000 (s ++ [0]).

Lemma strtoul_correct_witness :
  strtoul (S := mem) 22 34 0x1000 0x1020 0 (text_mem (str " -0x1Fz"), 5) =
  Ok 0xFFFFFFE1 (set_end 0x1020 0x1006 (text_mem (str " -0x1Fz"), 5)).
Proof.
  apply (strtoul_correct 22 34 0x1000 0x1020 0 (str " -0x1Fz") (text_mem (str " -0x1Fz")) 5);
    [by_decide|by_decide|by left|right; by_decide].
Defined.

Lemma atoi_decimal_witness :
  atoi (S := mem) 0x1000 (text_mem (str "-2147483599,")) = Ok (-2147483599) (text_mem (str "-2147483599,")) /\
  atoi (S := mem) 0x1000 (text_mem (str "2147483600")) = Fault.
Proof.
  split.
  - apply (atoi_decimal 0x1000 true [2; 1; 4; 7; 4; 8; 3; 5; 9; 9] (str ",") (text_mem (str "-2147483599,")));
      [by_decide|by_decide|done|by_decide|by_decide|by left].
  - apply (atoi_decimal 0x1000 false [2; 1; 4; 7; 4; 8; 3; 6; 0; 0] [] (text_mem (str "2147483600")));
      [by_decide|by_decide|done|by_decide|by_decide|by (right; left)].
Defined.

Lemma atoul_reads_printed_witness :
  exists st' w, snprintf (S := mem) 0x1000 16 (str "%p") [VaWord 0xDEADBEEF] (text_mem []) = Ok w st' /\
    atoul 0x1000 st' = Ok 0xDEADBEEF st'.
Proof. apply (atoul_reads_printed 0x1000 16 0xDEADBEEF true (text_mem [])); by_decide. Defined.
