(* ===== verification/Gfx.v ===== *)
(** * Graphics: surfaces and the text terminal (libgfx/src/gfx.c, txt.c)

    A [surface] is [gfx_surface_t]; its four function pointers are [fn]s, each
    either the routine for an unknown pixel format ([Fn0], which draws nothing)
    or the one for RGB565 ([Fn16]).  The font [vga_rom_16] is any table of
    bytes.  Drawing goes to the frame buffer in memory, a 16-bit store a pixel.

    [paints gs f m m'] is the specification the routines share: the memory
    [m'] shows the colours [f] at the pixels where [f] is defined, and every
    other byte is as in [m].  [shows] says what a terminal displays: the grid
    of characters whose glyphs are on the screen.  [txt_puts] and [txt_printf]
    refine the terminal [type_char] on that grid. *)

From S2P Require Import Prelude Monad Mem LibcStr Printf.

Inductive fn : Type := Fn0 | Fn16.

(* src/libgfx/inc/gfx/gfx.h:10-25 gfx_surface *)
Record surface := {
  width : Z; height : Z; stride : Z; pixels : Z;
  pixfmt : Z; fgcolor : Z; bgcolor : Z; reserved : Z;
  plot : fn; hline : fn; putc : fn; color : fn;
}.

(* src/libgfx/inc/gfx/gfx.h:27-27 *)
Definition PIXFMT_RGB565 : Z := 0x03000565.
(* src/libgfx/inc/gfx/gfx.h:68-68 *)
Definition C_BLACK : Z := 0.
(* src/libgfx/inc/gfx/gfx.h:69-69 *)
Definition C_WHITE : Z := 0x00FFFFFF.
(* src/hw/inc/hw/platform.h:9-9 *)
Definition FRAMEBUFFER_BASE : Z := 0x40c00000.
(* src/libgfx/src/gfx.c:14-14 *)
Definition CH_WIDTH : Z := 8.
(* src/libgfx/src/gfx.c:15-15 *)
Definition CH_HEIGHT : Z := 16.

(* src/libgfx/src/gfx.c:18-18 *)
Definition color0 (gs : surface) (c : Z) : Z := 0.

(* src/libgfx/src/gfx.c:24-28 *)
Definition color16 (gs : surface) (c : Z) : Z :=
  Z.lor (Z.lor (Z.land (Z.shiftr c 3) 0x1F)
               (Z.shiftl (Z.land (Z.shiftr c 10) 0x3F) 5))
        (Z.shiftl (Z.land (Z.shiftr c 19) 0x1F) 11).

(* src/libgfx/inc/gfx/gfx.h:44-46 *)
Definition gfx_color (gs : surface) (argb8888 : Z) : Z :=
  match color gs with Fn0 => color0 gs argb8888 | Fn16 => color16 gs argb8888 end.

Definition with_fns (gs : surface) (f : fn) : surface :=
  {| width := width gs; height := height gs; stride := stride gs; pixels := pixels gs;
     pixfmt := pixfmt gs; fgcolor := fgcolor gs; bgcolor := bgcolor gs; reserved := reserved gs;
     plot := f; hline := f; putc := f; color := f |}.

Definition with_colors (gs : surface) (fg bg : Z) : surface :=
  {| width := width gs; height := height gs; stride := stride gs; pixels := pixels gs;
     pixfmt := pixfmt gs; fgcolor := fg; bgcolor := bg; reserved := reserved gs;
     plot := plot gs; hline := hline gs; putc := putc gs; color := color gs |}.

(* src/libgfx/src/gfx.c:72-87 *)
Definition gfx_init (gs : surface) : surface :=
  if pixfmt gs =? PIXFMT_RGB565 then with_fns gs Fn16 else with_fns gs Fn0.

(* src/libgfx/src/gfx.c:89-98 *)
Definition gfx_init_display (gs : surface) : surface :=
  let gs := gfx_init {| width := 640; height := 480; stride := 640; pixels := FRAMEBUFFER_BASE;
    pixfmt := PIXFMT_RGB565; fgcolor := fgcolor gs; bgcolor := bgcolor gs; reserved := reserved gs;
    plot := plot gs; hline := hline gs; putc := putc gs; color := color gs |} in
  with_colors gs (gfx_color gs C_WHITE) (gfx_color gs C_BLACK).

(* src/libgfx/src/gfx.c:100-103 *)
Definition gfx_setcolor (gs : surface) (fg_argb8888 bg_argb8888 : Z) : surface :=
  with_colors gs (gfx_color gs fg_argb8888) (gfx_color gs bg_argb8888).

Section code.
Context {S : Type} `{!HasMem S}.

(** The font: [CH_ROM[i]]. *)
Variable vga_rom_16 : Z -> Z.

(* src/libgfx/src/gfx.c:19-19 *)
Definition plot0 (gs : surface) (x y pxl : Z) : M S unit := ret tt.
(* src/libgfx/src/gfx.c:20-20 *)
Definition hline0 (gs : surface) (x0 y x1 pxl : Z) : M S unit := ret tt.
(* src/libgfx/src/gfx.c:21-21 *)
Definition putc0 (gs : surface) (x y c : Z) : M S unit := ret tt.

(* src/libgfx/src/gfx.c:30-35 *)
Definition plot16 (gs : surface) (x y pxl : Z) : M S unit :=
  if (x >=? width gs) || (y >=? height gs) then ret tt
  else store16 (u32 (pixels gs + 2 * u32 (x + u32 (y * stride gs)))) pxl.

(* src/libgfx/src/gfx.c:37-49 *)
Definition hline16 (gs : surface) (x0 y x1 pxl : Z) : M S unit :=
  if (x0 >=? width gs) || (y >=? height gs) || (x1 <=? x0) then ret tt
  else
    let x1 := if x1 >? width gs then width gs else x1 in
    let p := u32 (pixels gs + 2 * x0 + 2 * u32 (y * stride gs)) in
    let p_end := u32 (p + 2 * x1 - 2 * x0) in
    loop (fun p =>
      if p <? p_end then
        store16 p pxl ;;
        ret (inl (u32 (p + 2)))
      else ret (inr tt)) p.

(** The inner loop of [putc16]: the row of pixels of the byte [bits]. *)
(* src/libgfx/src/gfx.c:64-67 putc16 *)
Definition putc_row (fg bg bits p : Z) : M S Z :=
  loop (fun '(x, bits, p) =>
    if x <? CH_WIDTH then
      store16 p (if negb (Z.land bits 0x80 =? 0) then fg else bg) ;;
      ret (inl (u32 (x + 1), u32 (Z.shiftl bits 1), u32 (p + 2)))
    else ret (inr p)) (0, bits, p).

(* src/libgfx/src/gfx.c:51-70 *)
Definition putc16 (gs : surface) (x y ch : Z) : M S unit :=
  if (x >=? width gs) || (u32 (x + CH_WIDTH) >? width gs) ||
     (y >=? height gs) || (u32 (y + CH_HEIGHT) >? height gs) then ret tt
  else
    let ch := u32 (Z.land ch 0xFF * CH_HEIGHT) in
    let fg := fgcolor gs in
    let bg := bgcolor gs in
    let p := u32 (pixels gs + 2 * x + 2 * u32 (y * stride gs)) in
    let skip := u32 (stride gs - CH_WIDTH) in
    loop (fun '(y, ch, p) =>
      if y <? CH_HEIGHT then
        let bits := vga_rom_16 ch in
        p <- putc_row fg bg bits p ;;
        ret (inl (u32 (y + 1), u32 (ch + 1), u32 (p + 2 * skip)))
      else ret (inr tt)) (0, ch, p).

(** The calls through the surface's pointers. *)
Definition call_plot (gs : surface) : Z -> Z -> Z -> M S unit :=
  match plot gs with Fn0 => plot0 gs | Fn16 => plot16 gs end.
Definition call_hline (gs : surface) : Z -> Z -> Z -> Z -> M S unit :=
  match hline gs with Fn0 => hline0 gs | Fn16 => hline16 gs end.

(* src/libgfx/inc/gfx/gfx.h:32-34 *)
Definition gfx_plot (gs : surface) (x y : Z) : M S unit := call_plot gs x y (fgcolor gs).

(* src/libgfx/inc/gfx/gfx.h:36-38 *)
Definition gfx_hline (gs : surface) (x0 y x1 : Z) : M S unit := call_hline gs x0 y x1 (fgcolor gs).

(* src/libgfx/inc/gfx/gfx.h:40-42 *)
Definition gfx_putc (gs : surface) (x y ch : Z) : M S unit :=
  match putc gs with Fn0 => putc0 gs x y ch | Fn16 => putc16 gs x y ch end.

(* src/libgfx/src/gfx.c:105-110 *)
Definition gfx_fill (gs : surface) (x0 y0 x1 y1 pxl : Z) : M S unit :=
  loop (fun y0 =>
    if y0 <? y1 then
      call_hline gs x0 y0 x1 pxl ;;
      ret (inl (u32 (y0 + 1)))
    else ret (inr tt)) y0.

(* src/libgfx/src/gfx.c:112-114 *)
Definition gfx_clear (gs : surface) (pxl : Z) : M S unit :=
  gfx_fill gs 0 0 (width gs) (height gs) pxl.

(* src/libgfx/src/gfx.c:116-121 *)
Definition gfx_puts (gs : surface) (x y s : Z) : M S unit :=
  loop (fun '(x, s) =>
    c <- load8 s ;;
    if negb (c =? 0) then
      gfx_putc gs x y c ;;
      ret (inl (u32 (x + CH_WIDTH), s + 1))
    else ret (inr tt)) (x, s).

(** [msg] is the address of the local array [char msg[128]]. *)
(* src/libgfx/src/gfx.c:123-130 *)
Definition gfx_printf (gs : surface) (msg x y : Z) (fmt : list Z) (ap : list va) : M S unit :=
  vsnprintf msg 128 fmt ap ;;
  gfx_puts gs x y msg.

(** The terminal; its [gs] is passed along, as it may be changed between calls. *)
(* src/libgfx/inc/gfx/gfx.h:54-60 txt_surface *)
Record txt_surface := { cw : Z; ch : Z; cx : Z; cy : Z }.

(* src/libgfx/src/txt.c:14-20 *)
Definition txt_init (gs : surface) : txt_surface :=
  {| cw := width gs / CH_WIDTH; ch := height gs / CH_HEIGHT; cx := 0; cy := 0 |}.

(* src/libgfx/src/txt.c:22-31 *)
Definition txt_goto (ts : txt_surface) (x y : Z) : txt_surface :=
  let x := if x >=? cw ts then u32 (cw ts - 1) else x in
  let x := if y >=? ch ts then u32 (ch ts - 1) else x in
  {| cw := cw ts; ch := ch ts; cx := x; cy := y |}.

(* src/libgfx/src/txt.c:35-41 txt_putc *)
Definition newline (ts : txt_surface) : txt_surface :=
  let y := u32 (cy ts + 1) in
  {| cw := cw ts; ch := ch ts; cx := 0; cy := if y >=? ch ts then 0 else y |}.

(* src/libgfx/src/txt.c:33-48 *)
Definition txt_putc (gs : surface) (ts : txt_surface) (c : Z) : M S txt_surface :=
  if (c =? 13) || (c =? 10) then ret (newline ts)
  else
    gfx_putc gs (u32 (cx ts * CH_WIDTH)) (u32 (cy ts * CH_HEIGHT)) c ;;
    let ts := {| cw := cw ts; ch := ch ts; cx := u32 (cx ts + 1); cy := cy ts |} in
    ret (if cx ts >=? cw ts then newline ts else ts).

(* src/libgfx/src/txt.c:50-54 *)
Definition txt_puts (gs : surface) (ts : txt_surface) (s : Z) : M S txt_surface :=
  loop (fun '(ts, s) =>
    c <- load8 s ;;
    if negb (c =? 0) then
      ts <- txt_putc gs ts c ;;
      ret (inl (ts, s + 1))
    else ret (inr ts)) (ts, s).

(* src/libgfx/src/txt.c:56-63 *)
Definition txt_printf (gs : surface) (ts : txt_surface) (msg : Z) (fmt : list Z) (ap : list va)
    : M S txt_surface :=
  vsnprintf msg 128 fmt ap ;;
  txt_puts gs ts msg.
End code.

(** ** Pixels *)

Definition pixel_at (gs : surface) (x y : Z) : Z := pixels gs + 2 * (x + y * stride gs).

(** The 16-bit value at [a]. *)
Definition half (m : mem) (a : Z) : Z := from_option le_val 0 (read_bytes m a 2).
Definition pixel (m : mem) (gs : surface) (x y : Z) : Z := half m (pixel_at gs x y).

Definition visible (gs : surface) (x y : Z) : Prop := 0 <= x < width gs /\ 0 <= y < height gs.

#[export] Instance visible_dec gs x y : Decision (visible gs x y).
Proof. unfold visible. apply _. Defined.

(** An RGB565 surface whose frame buffer is memory, below the top of the
    address space. *)
Definition surface_ok (gs : surface) (m : mem) : Prop :=
  plot gs = Fn16 /\ hline gs = Fn16 /\ putc gs = Fn16 /\
  0 <= pixels gs /\ pixels gs mod 2 = 0 /\
  0 <= width gs <= stride gs /\ 0 <= height gs /\ is_u32 (stride gs) /\
  pixels gs + 2 * (stride gs * height gs) < 2 ^ 32 /\
  mapped m (pixels gs) (2 * (stride gs * height gs)).

#[export] Instance fn_eq_dec : EqDecision fn.
Proof. solve_decision. Defined.
#[export] Instance surface_ok_dec gs m : Decision (surface_ok gs m).
Proof. unfold surface_ok. apply _. Defined.

(** [n] bytes from [a] on lie outside the frame buffer. *)
Definition outside (gs : surface) (a n : Z) : Prop :=
  a + n <= pixels gs \/ pixels gs + 2 * (stride gs * height gs) <= a.

(** A picture: the colours of some pixels. *)
Abbreviation picture := (Z -> Z -> option Z).
Definition blank : picture := fun _ _ => None.
Definition over (f g : picture) : picture :=
  fun x y => match f x y with Some c => Some c | None => g x y end.
Definition region (x0 y0 x1 y1 : Z) (g : Z -> Z -> Z) : picture := fun x y =>
  if decide (x0 <= x < x1 /\ y0 <= y < y1) then Some (g x y) else None.
Definition rect (x0 y0 x1 y1 c : Z) : picture := region x0 y0 x1 y1 (fun _ _ => c).

(** The picture [f] was drawn on the visible pixels, and nothing else changed. *)
Definition paints (gs : surface) (f : picture) (m m' : mem) : Prop :=
  (forall x y c, visible gs x y -> f x y = Some c -> pixel m' gs x y = u16 c) /\
  (forall a, (forall x y c, visible gs x y -> f x y = Some c ->
                ~ (pixel_at gs x y <= a < pixel_at gs x y + 2)) -> m' !! a = m !! a) /\
  (forall a n, mapped m a n -> mapped m' a n).

Lemma half_agree m m' a : (forall i, a <= i < a + 2 -> m' !! i = m !! i) -> half m' a = half m a.
Proof. intros H. unfold half. by rewrite (read_bytes_agree m). Qed.

Lemma half_write m a v : half (write_bytes m a (le_bytes 2 v)) a = u16 v.
Proof.
  unfold half. assert (bytes_at (write_bytes m a (le_bytes 2 v)) a (le_bytes 2 v)) as [_ H].
  { apply bytes_at_write. auto with bytes. }
  rewrite length_le_bytes in H. rewrite H. apply (le_val_bytes 2).
Qed.

Section surfaces.
Context (gs : surface) (m0 : mem) (Hgs : surface_ok gs m0).

Lemma row_bound x y : 0 <= x < stride gs -> 0 <= y < height gs ->
  0 <= y * stride gs /\ x + y * stride gs < stride gs * height gs.
Proof. nia. Qed.

Lemma pixel_at_range x y : visible gs x y ->
  pixels gs <= pixel_at gs x y /\ pixel_at gs x y + 2 <= pixels gs + 2 * (stride gs * height gs).
Proof.
  intros [Hx Hy]. destruct Hgs as (_ & _ & _ & H0 & _ & Hw & _).
  unfold pixel_at. pose proof (row_bound x y ltac:(lia) Hy). lia.
Qed.

Lemma pixel_at_disjoint x y x' y' : visible gs x y -> visible gs x' y' -> (x, y) <> (x', y') ->
  pixel_at gs x y + 2 <= pixel_at gs x' y' \/ pixel_at gs x' y' + 2 <= pixel_at gs x y.
Proof.
  intros [Hx Hy] [Hx' Hy'] Hne. destruct Hgs as (_ & _ & _ & _ & _ & Hw & _). unfold pixel_at.
  destruct (Z.lt_trichotomy y y') as [|[->|]]; [nia| |nia].
  assert (x <> x') by congruence. lia.
Qed.

(** The address the code computes for a pixel, on or beyond the end of a row. *)
Lemma pixel_address x y : 0 <= x <= width gs -> 0 <= y < height gs ->
  u32 (pixels gs + 2 * x + 2 * u32 (y * stride gs)) = pixel_at gs x y /\
  pixels gs <= pixel_at gs x y < 2 ^ 32.
Proof.
  intros Hx Hy. destruct Hgs as (_ & _ & _ & H0 & _ & Hw & Hh & Hs & Hb & _). unfold pixel_at.
  assert (0 <= y * stride gs /\ y * stride gs + stride gs <= stride gs * height gs) as [] by nia.
  rewrite (u32_small (y * stride gs)) by (unfold is_u32; lia).
  rewrite u32_small by (unfold is_u32; lia). lia.
Qed.

Lemma pixel_aligned x y : pixel_at gs x y mod 2 = 0.
Proof.
  destruct Hgs as (_ & _ & _ & _ & H & _). unfold pixel_at.
  rewrite Z.mul_comm, Z.mod_add by lia. done.
Qed.

Lemma pixel_mono m x y : visible gs x y -> surface_ok gs m -> mapped m (pixel_at gs x y) 2.
Proof.
  intros Hv Hok. pose proof (pixel_at_range x y Hv).
  destruct Hok as (_ & _ & _ & _ & _ & _ & _ & _ & _ & Hm). eapply mapped_sub; [exact Hm|lia..].
Qed.

(** *** Composing pictures *)

Lemma paints_ok f m m' : paints gs f m m' -> surface_ok gs m -> surface_ok gs m'.
Proof. unfold surface_ok. intros (_ & _ & H) ?. split_and!; try tauto. apply H. tauto. Qed.

Lemma paints_refl f m : (forall x y, visible gs x y -> f x y = None) -> paints gs f m m.
Proof. intros H. split; [|done]. intros x y c Hv E. rewrite H in E by done. done. Qed.

Lemma paints_ext f g m m' :
  paints gs f m m' -> (forall x y, visible gs x y -> g x y = f x y) -> paints gs g m m'.
Proof.
  intros (H1 & H2 & H3) E. split; [|split; [|done]].
  - intros x y c Hv Hg. apply H1; [done|]. by rewrite <- E.
  - intros a Ha. apply H2. intros x y c Hv Hf. apply (Ha x y c); [done|]. by rewrite E.
Qed.

Lemma paints_trans f g m1 m2 m3 :
  paints gs f m1 m2 -> paints gs g m2 m3 -> paints gs (over g f) m1 m3.
Proof.
  intros (F1 & F2 & F3) (G1 & G2 & G3). split; [|split; [|by auto]].
  - intros x y c Hv E. unfold over in E. destruct (g x y) as [c'|] eqn:Eg.
    { simplify_eq. by apply G1. }
    rewrite <- (F1 x y c Hv E). apply half_agree. intros i Hi. apply G2. intros x' y' c' Hv' E' Hi'.
    destruct (decide ((x, y) = (x', y'))) as [Exy|Exy]; [congruence|].
    pose proof (pixel_at_disjoint x y x' y' Hv Hv' Exy). lia.
  - intros a Ha. rewrite G2, F2; [done| |].
    + intros x y c Hv E. unfold over in Ha. specialize (Ha x y). rewrite E in Ha.
      destruct (g x y); by eapply Ha.
    + intros x y c Hv E. apply (Ha x y c Hv). unfold over. by rewrite E.
Qed.

Lemma paints_write m x y c : visible gs x y -> mapped m (pixel_at gs x y) 2 ->
  paints gs (rect x y (x + 1) (y + 1) c) m (write_bytes m (pixel_at gs x y) (le_bytes 2 c)).
Proof.
  intros Hv Hm. unfold rect, region. split; [|split].
  - intros x' y' c' Hv' E. case_decide; [|done]. simplify_eq.
    replace x' with x by lia. replace y' with y by lia. apply half_write.
  - intros a Ha. specialize (Ha x y c Hv). rewrite decide_True in Ha by lia.
    rewrite lookup_write_bytes, length_le_bytes, decide_False; [done|]. specialize (Ha eq_refl). lia.
  - intros a n. apply mapped_write.
Qed.

Lemma paints_at f m m' x y :
  visible gs x y -> paints gs f m m' -> f x y = None -> pixel m' gs x y = pixel m gs x y.
Proof.
  intros Hv (_ & H & _) E. apply half_agree. intros i Hi. apply H. intros x' y' c' Hv' E' Hi'.
  destruct (decide ((x, y) = (x', y'))) as [Exy|Exy]; [congruence|].
  pose proof (pixel_at_disjoint x y x' y' Hv Hv' Exy). lia.
Qed.

(** Bytes outside the frame buffer are never painted. *)
Lemma paints_frame f m m' :
  paints gs f m m' -> same_except m m' (pixels gs) (2 * (stride gs * height gs)).
Proof.
  intros (_ & H & _) b Hb. apply H. intros x y c Hv _. pose proof (pixel_at_range x y Hv). lia.
Qed.
End surfaces.

(** The pictures [f 0], [f 1], ... [f (n - 1)], one on top of the other. *)
Fixpoint stack (f : nat -> picture) (n : nat) : picture :=
  match n with O => blank | Datatypes.S n' => over (f n') (stack f n') end.

Lemma stack_cols x0 y0 y1 g n x y :
  stack (fun i => region (x0 + Z.of_nat i) y0 (x0 + Z.of_nat i + 1) y1 g) n x y =
  region x0 y0 (x0 + Z.of_nat n) y1 g x y.
Proof.
  induction n as [|n IH]; cbn [stack]; unfold over, region, blank in *.
  - rewrite decide_False by lia. done.
  - rewrite IH. repeat case_decide; (done || lia).
Qed.

Lemma stack_rows x0 x1 y0 g n x y :
  stack (fun i => region x0 (y0 + Z.of_nat i) x1 (y0 + Z.of_nat i + 1) g) n x y =
  region x0 y0 x1 (y0 + Z.of_nat n) g x y.
Proof.
  induction n as [|n IH]; cbn [stack]; unfold over, region, blank in *.
  - rewrite decide_False by lia. done.
  - rewrite IH. repeat case_decide; (done || lia).
Qed.

(** ** Drawing programs *)

Section drawing.
Context {S : Type} `{!HasMem S} (gs : surface).

(** [c] returns [a] with the picture [f] drawn on the surface. *)
Definition draws {A} (c : M S A) (a : A) (f : picture) : Prop := forall s,
  surface_ok gs (mem_of s) ->
  exists m, c s = Ok a (with_mem m s) /\ paints gs f (mem_of s) m.

Lemma draws_ret {A} (a : A) : draws (ret a) a blank.
Proof. intros s Hs. exists (mem_of s). rewrite with_mem_of. split; [done|by apply paints_refl]. Qed.

Lemma draws_ret_eq {A B} (a b : A) :
  a = b -> draws (ret (inl a)) (inl b : A + B) blank.
Proof. intros ->. apply draws_ret. Qed.

Lemma draws_bind {A B} (c : M S A) (k : A -> M S B) a b f g :
  draws c a f -> draws (k a) b g -> draws (bind c k) b (over g f).
Proof.
  intros Hc Hk s Hs. destruct (Hc s Hs) as (m & E & P).
  destruct (Hk (with_mem m s)) as (m' & E' & P').
  { rewrite mem_of_with. by eapply paints_ok. }
  rewrite mem_of_with in P'. exists m'. rewrite (bind_ok _ _ _ _ _ E), E', with_mem_with.
  split; [done|]. by eapply paints_trans.
Qed.

Lemma draws_ext {A} (c : M S A) a f g :
  draws c a f -> (forall x y, visible gs x y -> g x y = f x y) -> draws c a g.
Proof.
  intros H E s Hs. destruct (H s Hs) as (m & Em & P). exists m. split; [done|].
  by eapply paints_ext.
Qed.

(** A step of a loop: [c] and then the new locals. *)
Lemma draws_then {A B} (c : M S A) a (b : B) f : draws c a f -> draws (c ;; ret b) b f.
Proof.
  intros H. eapply draws_ext; [exact (draws_bind c _ a b f blank H (draws_ret b))|]. done.
Qed.

(** The loop rule: locals [xs i] at the [i]-th iteration, which draws [f i]. *)
Lemma draws_loop {X R} (body : X -> M S (X + R)) (n : nat) (xs : nat -> X) r f :
  (forall i, (i < n)%nat -> draws (body (xs i)) (inl (xs (Datatypes.S i))) (f i)) ->
  draws (body (xs n)) (inr r) blank -> Z.of_nat n < 2 ^ 33 ->
  draws (loop body (xs 0%nat)) r (stack f n).
Proof.
  intros Hstep Hend Hn s Hs.
  enough (forall j i m f0, (j + i = n)%nat -> paints gs f0 (mem_of s) m ->
    (forall x y, visible gs x y -> f0 x y = stack f i x y) ->
    exists m', runs body j (xs i) (with_mem m s) (Ok r (with_mem m' s)) /\ paints gs (stack f n) (mem_of s) m') as H.
  { destruct (H n 0%nat (mem_of s) blank) as (m' & R' & P); [lia|by apply paints_refl|done|].
    exists m'. split; [|done]. rewrite with_mem_of in R'. by eapply loop_runs. }
  induction j as [|j IH]; intros i m f0 Hji P Ef; assert (surface_ok gs (mem_of (with_mem m s))) as Hs'
    by (rewrite mem_of_with; by eapply paints_ok).
  - cbn in Hji. subst i. destruct (Hend _ Hs') as (m' & E & P'). rewrite mem_of_with in P'.
    rewrite with_mem_with in E. exists m'. split; [by apply runs_done|].
    eapply paints_ext; [eapply paints_trans; eassumption|]. intros x y Hv. cbn. by rewrite Ef.
  - destruct (Hstep i ltac:(lia) _ Hs') as (m' & E & P'). rewrite mem_of_with in P'.
    rewrite with_mem_with in E.
    destruct (IH (Datatypes.S i) m' (over (f i) f0)) as (m2 & R2 & P2); [lia| | |].
    + eapply paints_trans; eassumption.
    + intros x y Hv. cbn [stack]. unfold over. by rewrite Ef.
    + exists m2. split; [|done]. by eapply runs_step.
Qed.

Lemma draws_store x y c : visible gs x y ->
  draws (store16 (pixel_at gs x y) c) tt (rect x y (x + 1) (y + 1) c).
Proof.
  intros Hv s Hs. pose proof (pixel_mono gs _ Hs _ x y Hv Hs) as Hm.
  eexists. split; [apply (store_ok 2); [done|by eapply pixel_aligned]|].
  by eapply paints_write.
Qed.

Context (m0 : mem) (Hgs : surface_ok gs m0).

Lemma plot16_draws x y c : 0 <= x -> 0 <= y ->
  draws (plot16 gs x y c) tt (rect x y (x + 1) (y + 1) c).
Proof.
  intros Hx Hy. unfold plot16.
  destruct (Z.geb_spec x (width gs)); [|destruct (Z.geb_spec y (height gs))]; cbn [orb].
  1, 2: eapply draws_ext; [apply draws_ret|]; intros px py [? ?]; unfold rect, region;
    by rewrite decide_False by lia.
  assert (visible gs x y) as Hv by (unfold visible; lia).
  destruct (pixel_address gs m0 Hgs x y ltac:(lia) ltac:(lia)) as [E Hr].
  replace (u32 _) with (pixel_at gs x y); [by apply draws_store|].
  clear - E Hr Hgs Hv. unfold pixel_at in *. destruct Hgs as (_ & _ & _ & H0 & _ & Hw & Hh & Hs & Hb & _).
  destruct Hv. assert (0 <= y * stride gs /\ y * stride gs + stride gs <= stride gs * height gs) as [] by nia.
  rewrite (u32_small (y * stride gs)), (u32_small (x + _)), u32_small by (unfold is_u32; lia). done.
Qed.

Lemma hline16_draws x0 y x1 c : 0 <= x0 -> 0 <= y ->
  draws (hline16 gs x0 y x1 c) tt (rect x0 y x1 (y + 1) c).
Proof.
  intros Hx Hy. unfold hline16.
  destruct (Z.geb_spec x0 (width gs)); [|destruct (Z.geb_spec y (height gs)); [|destruct (Z.leb_spec x1 x0)]];
    cbn [orb].
  1, 2, 3: eapply draws_ext; [apply draws_ret|]; intros px py [? ?]; unfold rect, region;
    by rewrite decide_False by lia.
  set (x1' := if x1 >? width gs then width gs else x1).
  assert (x0 < x1' <= width gs /\ x1' <= x1 /\ (x1' = x1 \/ x1' = width gs)) as (G1 & G2 & G3).
  { unfold x1'. destruct (Z.gtb_spec x1 (width gs)); lia. }
  clearbody x1'.
  destruct (pixel_address gs m0 Hgs x0 y ltac:(lia) ltac:(lia)) as [-> Hr0].
  destruct (pixel_address gs m0 Hgs x1' y ltac:(lia) ltac:(lia)) as [_ Hr1].
  replace (u32 (pixel_at gs x0 y + 2 * x1' - 2 * x0)) with (pixel_at gs x1' y).
  2: { rewrite u32_small; unfold is_u32, pixel_at in *; [lia|].
       pose proof Hgs as (_ & _ & _ & ? & _). lia. }
  set (n := Z.to_nat (x1' - x0)).
  eapply draws_ext.
  - replace (pixel_at gs x0 y) with (pixel_at gs (x0 + Z.of_nat 0) y) by (f_equal; lia).
    apply (draws_loop _ n (fun i => pixel_at gs (x0 + Z.of_nat i) y) tt
             (fun i => rect (x0 + Z.of_nat i) y (x0 + Z.of_nat i + 1) (y + 1) c)).
    + intros i Hi. rewrite (proj2 (Z.ltb_lt _ _)) by (unfold pixel_at; lia).
      destruct (pixel_address gs m0 Hgs (x0 + Z.of_nat i + 1) y ltac:(lia) ltac:(lia)) as [_ Hr].
      replace (u32 (pixel_at gs (x0 + Z.of_nat i) y + 2))
        with (pixel_at gs (x0 + Z.of_nat (Datatypes.S i)) y).
      * apply (draws_then _ tt). apply draws_store. unfold visible. lia.
      * pose proof Hgs as (_ & _ & _ & ? & _). unfold pixel_at in *.
        rewrite u32_small by (unfold is_u32; lia). lia.
    + replace (x0 + Z.of_nat n) with x1' by lia. rewrite Z.ltb_irrefl. apply draws_ret.
    + pose proof Hgs as (_ & _ & _ & _ & _ & ? & _ & Hs & _). unfold is_u32 in Hs. lia.
  - intros x y' [? ?]. unfold rect. rewrite stack_cols. unfold region.
    replace (x0 + Z.of_nat n) with x1' by lia. repeat case_decide; (done || lia).
Qed.

Lemma gfx_fill_draws x0 y0 x1 y1 c : 0 <= x0 -> is_u32 y0 -> is_u32 y1 ->
  draws (gfx_fill gs x0 y0 x1 y1 c) tt (rect x0 y0 x1 y1 c).
Proof.
  intros Hx Hy0 Hy1. unfold gfx_fill, call_hline. pose proof Hgs as (_ & -> & _).
  set (n := Z.to_nat (y1 - y0)). unfold is_u32 in *.
  eapply draws_ext.
  - replace y0 with (y0 + Z.of_nat 0) at 1 by lia.
    apply (draws_loop _ n (fun i => y0 + Z.of_nat i) tt
             (fun i => rect x0 (y0 + Z.of_nat i) x1 (y0 + Z.of_nat i + 1) c)); [| |lia].
    + intros i Hi. rewrite (proj2 (Z.ltb_lt _ _)) by lia.
      replace (u32 (y0 + Z.of_nat i + 1)) with (y0 + Z.of_nat (Datatypes.S i))
        by (rewrite u32_small; unfold is_u32; lia).
      apply (draws_then _ tt). apply hline16_draws; lia.
    + rewrite (proj2 (Z.ltb_ge _ _)) by lia. apply draws_ret.
  - intros x y Hv. unfold rect. rewrite stack_rows. unfold region. repeat case_decide; (done || lia).
Qed.

(** *** Glyphs *)

Context (rom : Z -> Z) (Hrom : forall i, is_u8 (rom i)).

(** The glyph of [c] with its top left corner at [(x0, y0)]. *)
Definition glyph (x0 y0 c : Z) : picture :=
  region x0 y0 (x0 + 8) (y0 + 16) (fun x y =>
    if Z.testbit (rom (u8 c * 16 + (y - y0))) (7 - (x - x0)) then fgcolor gs else bgcolor gs).

Lemma land_bit7 b (i : Z) : 0 <= i < 8 ->
  negb (Z.land (u32 (Z.shiftl b i)) 0x80 =? 0) = Z.testbit b (7 - i).
Proof.
  intros Hi. assert (Z.land (u32 (Z.shiftl b i)) 0x80 = if Z.testbit b (7 - i) then 0x80 else 0) as ->;
    [|by destruct (Z.testbit b (7 - i))].
  apply Z.bits_inj'. intros j Hj. rewrite Z.land_spec. change 0x80 with (2 ^ 7).
  change (u32 ?x) with (x mod 2 ^ 32). rewrite Z.pow2_bits_eqb by lia.
  destruct (Z.eqb_spec 7 j) as [<-|].
  - rewrite andb_true_r, Z.mod_pow2_bits_low, Z.shiftl_spec by lia.
    destruct (Z.testbit b (7 - i)); [done|by rewrite Z.bits_0].
  - rewrite andb_false_r. destruct (Z.testbit b (7 - i)); [|by rewrite Z.bits_0].
    rewrite Z.pow2_bits_false by lia. done.
Qed.

Lemma shiftl_step b (i : nat) : u32 (Z.shiftl (u32 (Z.shiftl b (Z.of_nat i))) 1) =
  u32 (Z.shiftl b (Z.of_nat (Datatypes.S i))).
Proof.
  rewrite Nat2Z.inj_succ, !Z.shiftl_mul_pow2, Z.pow_succ_r by lia.
  unfold u32. rewrite Z.mul_mod_idemp_l by lia. f_equal. lia.
Qed.

Lemma putc_row_draws bits x0 y : is_u8 bits -> 0 <= x0 -> x0 + 8 <= width gs -> 0 <= y < height gs ->
  draws (putc_row (fgcolor gs) (bgcolor gs) bits (pixel_at gs x0 y)) (pixel_at gs (x0 + 8) y)
    (region x0 y (x0 + 8) (y + 1)
       (fun x _ => if Z.testbit bits (7 - (x - x0)) then fgcolor gs else bgcolor gs)).
Proof.
  intros Hb Hx Hw Hy. unfold putc_row, CH_WIDTH. eapply draws_ext.
  - eassert ((0, bits, pixel_at gs x0 y) = _) as ->.
    2: apply (draws_loop _ 8 (fun i => (Z.of_nat i, u32 (Z.shiftl bits (Z.of_nat i)),
                               pixel_at gs (x0 + Z.of_nat i) y)) (pixel_at gs (x0 + 8) y)
             (fun i => region (x0 + Z.of_nat i) y (x0 + Z.of_nat i + 1) (y + 1)
               (fun x _ => if Z.testbit bits (7 - (x - x0)) then fgcolor gs else bgcolor gs))).
    + cbn beta. rewrite Z.shiftl_0_r, u32_small by (unfold is_u8, is_u32 in *; lia). repeat f_equal; lia.
    + intros i Hi. cbn beta iota. rewrite (proj2 (Z.ltb_lt _ _)) by lia. rewrite shiftl_step.
      rewrite land_bit7 by lia.
      destruct (pixel_address gs m0 Hgs (x0 + Z.of_nat i + 1) y ltac:(lia) ltac:(lia)) as [_ Hr].
      destruct (pixel_address gs m0 Hgs (x0 + Z.of_nat i) y ltac:(lia) ltac:(lia)) as [_ Hr'].
      pose proof Hgs as (_ & _ & _ & ? & _).
      replace (u32 (pixel_at gs (x0 + Z.of_nat i) y + 2))
        with (pixel_at gs (x0 + Z.of_nat (Datatypes.S i)) y)
        by (unfold pixel_at in *; rewrite u32_small by (unfold is_u32; lia); lia).
      rewrite (u32_small (Z.of_nat i + 1)) by (unfold is_u32; lia).
      replace (Z.of_nat i + 1) with (Z.of_nat (Datatypes.S i)) by lia.
      apply (draws_then _ tt). eapply draws_ext; [apply draws_store; unfold visible; lia|].
      intros x y' _. unfold rect, region. case_decide; [|done].
      by replace (x - x0) with (Z.of_nat i) by lia.
    + apply draws_ret.
    + lia.
  - intros x y' _. by rewrite stack_cols.
Qed.

Lemma putc16_draws x y c : is_u32 x -> is_u32 y -> x + 8 <= width gs -> y + 16 <= height gs ->
  draws (putc16 rom gs x y c) tt (glyph x y c).
Proof.
  intros Hx Hy Hxw Hyh. pose proof Hgs as (_ & _ & _ & H0 & _ & Hw & Hh & Hs & Hb & _).
  unfold is_u32 in *. assert (1 * height gs <= stride gs * height gs) as Hh32
    by (apply Z.mul_le_mono_nonneg_r; lia).
  unfold putc16, CH_WIDTH, CH_HEIGHT.
  rewrite (u32_small (x + 8)), (u32_small (y + 16)) by (unfold is_u32; lia).
  destruct (Z.geb_spec x (width gs)), (Z.gtb_spec (x + 8) (width gs)), (Z.geb_spec y (height gs)),
    (Z.gtb_spec (y + 16) (height gs)); try lia. cbn [orb].
  destruct (pixel_address gs m0 Hgs x y ltac:(lia) ltac:(lia)) as [Ep Hr]. rewrite Ep.
  rewrite land_FF, (u32_small (_ * 16)) by (unfold is_u32; zarith). change (c mod 256) with (u8 c).
  rewrite (u32_small (stride gs - 8)) by (unfold is_u32; lia). eapply draws_ext.
  - eassert ((0, u8 c * 16, pixel_at gs x y) = _) as ->.
    2: apply (draws_loop _ 16 (fun i => (Z.of_nat i, u8 c * 16 + Z.of_nat i,
                               u32 (pixel_at gs x (y + Z.of_nat i)))) tt
             (fun i => region x (y + Z.of_nat i) (x + 8) (y + Z.of_nat i + 1)
               (fun px py => if Z.testbit (rom (u8 c * 16 + (py - y))) (7 - (px - x))
                             then fgcolor gs else bgcolor gs))).
    + cbn beta. rewrite u32_small by (unfold is_u32; rewrite Z.add_0_r; lia). repeat f_equal; lia.
    + intros i Hi. cbn beta iota. rewrite (proj2 (Z.ltb_lt _ _)) by lia.
      destruct (pixel_address gs m0 Hgs x (y + Z.of_nat i) ltac:(lia) ltac:(lia)) as [_ Hr1].
      rewrite (u32_small (pixel_at _ _ _)) by exact Hr1 || (unfold is_u32; lia).
      rewrite (u32_small (Z.of_nat i + 1)) by (unfold is_u32; lia).
      rewrite (u32_small (u8 c * 16 + Z.of_nat i + 1)) by (pose proof (u8_range c); unfold is_u32; lia).
      eapply draws_ext; [eapply draws_bind; [apply putc_row_draws; [apply Hrom|lia..]|]|].
      * apply draws_ret_eq. f_equal; [f_equal; lia|]. f_equal. unfold pixel_at. lia.
      * intros px py _. unfold over, blank, region. repeat case_decide; try done.
        by replace (py - y) with (Z.of_nat i) by lia.
    + apply draws_ret.
    + lia.
  - intros px py _. rewrite stack_rows. done.
Qed.

(** A character that does not fit on the surface is not drawn. *)
Lemma putc16_clipped x y c : width gs < u32 (x + 8) \/ height gs < u32 (y + 16) ->
  draws (putc16 rom gs x y c) tt blank.
Proof.
  intros H. unfold putc16, CH_WIDTH, CH_HEIGHT.
  destruct (Z.geb_spec x (width gs)), (Z.gtb_spec (u32 (x + 8)) (width gs)), (Z.geb_spec y (height gs)),
    (Z.gtb_spec (u32 (y + 16)) (height gs)); try lia; apply draws_ret.
Qed.

(** A string that fits on the surface, drawn from [(x, y)] on. *)
Fixpoint label (x y : Z) (l : list Z) : picture :=
  match l with [] => blank | c :: l' => over (label (x + 8) y l') (glyph x y c) end.

Lemma label_within x y l px py c : label x y l px py = Some c ->
  x <= px < x + 8 * Z.of_nat (length l) /\ y <= py < y + 16.
Proof.
  revert x c. induction l as [|d l IH]; intros x c H; cbn [label length] in *; [done|].
  unfold over in H. destruct (label (x + 8) y l px py) as [c'|] eqn:E.
  - apply IH in E. lia.
  - unfold glyph, region in H. case_decide; [|done]. lia.
Qed.
End drawing.

(** ** The terminal *)

(** What a terminal of [cols] by [rows] cells shows, and where its cursor is. *)
Record screen := { s_cx : Z; s_cy : Z; s_cell : Z -> Z -> option Z }.

(** A character is typed: line ends move the cursor to the start of the next
    row, anything else fills a cell; the row after the last one is the first. *)
Definition type_char (cols rows : Z) (t : screen) (c : Z) : screen :=
  let next y := if y + 1 =? rows then 0 else y + 1 in
  if (c =? 13) || (c =? 10) then {| s_cx := 0; s_cy := next (s_cy t); s_cell := s_cell t |}
  else
    let g := fun x y => if decide (x = s_cx t /\ y = s_cy t) then Some c else s_cell t x y in
    if s_cx t + 1 =? cols then {| s_cx := 0; s_cy := next (s_cy t); s_cell := g |}
    else {| s_cx := s_cx t + 1; s_cy := s_cy t; s_cell := g |}.

Definition type_string (cols rows : Z) (t : screen) (l : list Z) : screen :=
  fold_left (type_char cols rows) l t.

(** The terminal's cells are those of the surface and the cursor is on one. *)
Definition txt_ok (gs : surface) (ts : txt_surface) : Prop :=
  cw ts = width gs / 8 /\ ch ts = height gs / 16 /\ 0 <= cx ts < cw ts /\ 0 <= cy ts < ch ts.

#[export] Instance txt_ok_dec gs ts : Decision (txt_ok gs ts).
Proof. unfold txt_ok. apply _. Defined.

(** The screen [t] is on display: its cursor is [ts]'s, and the pixels of every
    cell with a known character are those of the character's glyph. *)
Definition shows (rom : Z -> Z) (gs : surface) (ts : txt_surface) (m : mem) (t : screen) : Prop :=
  txt_ok gs ts /\ cx ts = s_cx t /\ cy ts = s_cy t /\
  forall i j c x y v, 0 <= i < cw ts -> 0 <= j < ch ts -> s_cell t i j = Some c ->
    glyph gs rom (i * 8) (j * 16) c x y = Some v -> pixel m gs x y = u16 v.

Section terminal.
Context {S : Type} `{!HasMem S} (gs : surface) (m0 : mem) (Hgs : surface_ok gs m0).
Context (rom : Z -> Z) (Hrom : forall i, is_u8 (rom i)).

Definition cell_picture (ts : txt_surface) (c : Z) : picture :=
  if (c =? 13) || (c =? 10) then blank else glyph gs rom (cx ts * 8) (cy ts * 16) c.

Definition moved (ts : txt_surface) (c : Z) : txt_surface :=
  let t := type_char (cw ts) (ch ts) {| s_cx := cx ts; s_cy := cy ts; s_cell := blank |} c in
  {| cw := cw ts; ch := ch ts; cx := s_cx t; cy := s_cy t |}.

Lemma surface_size : 0 <= width gs < 2 ^ 32 /\ (0 < width gs -> 0 <= height gs < 2 ^ 32).
Proof.
  pose proof Hgs as (_ & _ & _ & ? & _ & ? & ? & ? & ? & _). unfold is_u32 in *. split; [lia|].
  intros Hw. assert (1 * height gs <= stride gs * height gs) by (apply Z.mul_le_mono_nonneg_r; lia). lia.
Qed.

Lemma gfx_puts_ok l : forall a x y (s : S),
  surface_ok gs (mem_of s) -> cstr_at (mem_of s) a l -> outside gs a (Z.of_nat (length l) + 1) ->
  0 <= x -> x + 8 * Z.of_nat (length l) <= width gs -> 0 <= y -> y + 16 <= height gs ->
  exists m, gfx_puts rom gs x y a s = Ok tt (with_mem m s) /\ paints gs (label gs rom x y l) (mem_of s) m.
Proof.
  intros a x y s Hs Hc Ho Hx Hw Hy Hh. unfold gfx_puts. name_body body. destruct surface_size as [Hsw Hsh].
  enough (exists m, runs body (length l) (x, a) s (Ok tt (with_mem m s)) /\ paints gs (label gs rom x y l) (mem_of s) m)
    as (m & R & P) by (exists m; split; [eapply loop_runs; [exact R|lia]|done]).
  revert a x s Hs Hc Ho Hx Hw. induction l as [|c l IH]; intros a x s Hs Hc Ho Hx Hw; cbn [length label] in *.
  - exists (mem_of s). split; [|by apply paints_refl]. rewrite with_mem_of. apply runs_done. unfold body.
    by step (load8_hd a [] s Hc).
  - pose proof (proj1 (cstr_at_cons _ _ _ _) Hc) as (_ & Hcz & _ & Hc').
    assert (gfx_putc rom gs x y c = putc16 rom gs x y c) as Ep.
    { unfold gfx_putc. pose proof Hgs as (_ & _ & -> & _). done. }
    destruct (putc16_draws gs m0 Hgs rom Hrom x y c ltac:(unfold is_u32; lia) ltac:(unfold is_u32; lia)
      ltac:(lia) ltac:(lia) s Hs) as (m1 & E1 & P1).
    assert (same_except (mem_of s) m1 (pixels gs) (2 * (stride gs * height gs))) as X1 by (by eapply paints_frame).
    destruct (IH (a + 1) (x + 8) (with_mem m1 s)) as (m & R & P); rewrite ?mem_of_with;
      [by eapply paints_ok| |unfold outside in *; lia|lia|lia|].
    { destruct Hc' as [Hb Hn]. split; [|done].
      apply bytes_at_lookup in Hb as [Hb Hb']. apply bytes_at_lookup. split; [done|].
      intros i Hi. rewrite X1; [by apply Hb'|]. rewrite length_app in Hi. cbn in Hi. unfold outside in Ho. lia. }
    rewrite mem_of_with, with_mem_with in *. exists m. split; [|by eapply paints_trans].
    eapply runs_step; [|exact R]. unfold body. step (load8_hd a (c :: l) s Hc). cbn [hd].
    rewrite (proj2 (Z.eqb_neq _ _) Hcz). cbn [negb]. rewrite Ep. step E1.
    rewrite u32_small by (unfold CH_WIDTH, is_u32; lia). done.
Qed.

Lemma newline_moved ts : txt_ok gs ts -> ch ts < 2 ^ 32 ->
  newline ts = {| cw := cw ts; ch := ch ts; cx := 0;
                  cy := if cy ts + 1 =? ch ts then 0 else cy ts + 1 |}.
Proof.
  intros (_ & _ & _ & Hy) Hh. unfold newline. rewrite u32_small by (unfold is_u32; lia).
  destruct (Z.geb_spec (cy ts + 1) (ch ts)), (Z.eqb_spec (cy ts + 1) (ch ts)); (done || lia).
Qed.

Lemma txt_putc_draws ts c : txt_ok gs ts ->
  draws (S := S) gs (txt_putc rom gs ts c) (moved ts c) (cell_picture ts c).
Proof.
  intros Hts. pose proof Hts as (Ew & Eh & Hx & Hy).
  assert (8 * cw ts <= width gs /\ 16 * ch ts <= height gs) as [Hw Hh] by (clear - Ew Eh; zarith).
  destruct surface_size as [Hw32 Hh32]. specialize (Hh32 ltac:(lia)).
  unfold txt_putc, moved, cell_picture, type_char. cbn [s_cx s_cy s_cell].
  destruct ((c =? 13) || (c =? 10)).
  { rewrite newline_moved by (done || lia). apply draws_ret. }
  unfold CH_WIDTH, CH_HEIGHT, gfx_putc. pose proof Hgs as (_ & _ & -> & _).
  rewrite (u32_small (cx ts * 8)), (u32_small (cy ts * 16)), (u32_small (cx ts + 1)) by (unfold is_u32; lia).
  eapply draws_ext; [eapply draws_bind; [apply (putc16_draws gs m0 Hgs rom Hrom); unfold is_u32; lia|]|].
  - match goal with |- draws _ (ret ?a) ?b _ => enough (a = b) as ->; [apply draws_ret|] end.
    cbn [cx cw cy ch]. destruct (Z.geb_spec (cx ts + 1) (cw ts)), (Z.eqb_spec (cx ts + 1) (cw ts)); try lia;
      [|done].
    unfold newline. cbn [cy ch cw]. rewrite (u32_small (cy ts + 1)) by (unfold is_u32; lia).
    destruct (Z.geb_spec (cy ts + 1) (ch ts)), (Z.eqb_spec (cy ts + 1) (ch ts)); (done || lia).
  - done.
Qed.

Lemma moved_ok ts c : txt_ok gs ts -> txt_ok gs (moved ts c).
Proof.
  intros (Ew & Eh & Hx & Hy). unfold moved, type_char. cbn [s_cx s_cy s_cell].
  destruct ((c =? 13) || (c =? 10)), (Z.eqb_spec (cx ts + 1) (cw ts)), (Z.eqb_spec (cy ts + 1) (ch ts));
    unfold txt_ok; cbn; lia.
Qed.

(** Typing a character refines [type_char]. *)
Lemma txt_putc_shows ts c t (s : S) : surface_ok gs (mem_of s) -> shows rom gs ts (mem_of s) t ->
  exists m, txt_putc rom gs ts c s = Ok (moved ts c) (with_mem m s) /\
    paints gs (cell_picture ts c) (mem_of s) m /\
    shows rom gs (moved ts c) m (type_char (cw ts) (ch ts) t c).
Proof.
  intros Hs (Hts & Hx & Hy & Hg). destruct (txt_putc_draws ts c Hts s Hs) as (m & E & P).
  exists m. split; [done|]. split; [done|]. split; [by apply moved_ok|].
  pose proof Hts as (Ew & Eh & Hxr & Hyr).
  assert (8 * cw ts <= width gs /\ 16 * ch ts <= height gs) as [Hw Hh] by (clear - Ew Eh; zarith).
  unfold moved, type_char, cell_picture in *. rewrite Hx, Hy in *. cbn [s_cx s_cy s_cell cw ch cx cy].
  destruct ((c =? 13) || (c =? 10)).
  { split; [done|]. split; [done|]. intros i j c' x y v Hi Hj Ec Ev.
    assert (visible gs x y) as Hv by (unfold glyph, region in Ev; case_decide; [|done]; unfold visible; lia).
    rewrite (paints_at gs m0 Hgs blank (mem_of s)); [by eapply Hg|done|done|done]. }
  split; [by destruct (s_cx t + 1 =? cw ts)|]. split; [by destruct (s_cx t + 1 =? cw ts)|]. intros i j c' x y v Hi Hj Ec Ev.
  assert (s_cell t i j = Some c' /\ (i, j) <> (s_cx t, s_cy t) \/ c' = c /\ i = s_cx t /\ j = s_cy t) as Hc.
  { destruct (s_cx t + 1 =? cw ts); cbn [s_cell] in Ec;
      (case_decide as Ed; [destruct Ed; simplify_eq; tauto|left; split; [done|]; intros [= -> ->]; by apply Ed]). }
  assert (visible gs x y /\ i * 8 <= x < i * 8 + 8 /\ j * 16 <= y < j * 16 + 16) as (Hv & Hxi & Hyj)
    by (unfold glyph, region in Ev; case_decide; [|done]; unfold visible; lia).
  destruct Hc as [[Ec' Hne]|(-> & -> & ->)].
  - rewrite (paints_at gs m0 Hgs _ _ _ _ _ Hv P); [by eapply Hg|].
    unfold glyph, region. rewrite decide_False; [done|]. intros [Hx' Hy']. apply Hne. f_equal; lia.
  - destruct P as (P & _). by apply P.
Qed.

Lemma txt_puts_ok l : forall a ts t (s : S),
  Z.of_nat (length l) < 2 ^ 33 -> surface_ok gs (mem_of s) -> cstr_at (mem_of s) a l ->
  outside gs a (Z.of_nat (length l) + 1) -> shows rom gs ts (mem_of s) t ->
  exists m ts', txt_puts rom gs ts a s = Ok ts' (with_mem m s) /\
    shows rom gs ts' m (type_string (cw ts) (ch ts) t l) /\ surface_ok gs m /\
    same_except (mem_of s) m (pixels gs) (2 * (stride gs * height gs)).
Proof.
  intros a ts t s Hl Hs Hc Ho Ht. unfold txt_puts.
  enough (exists m ts', runs (fun '(ts, s) =>
      c <- load8 s ;;
      if negb (c =? 0) then ts <- txt_putc rom gs ts c ;; ret (inl (ts, s + 1)) else ret (inr ts))
      (length l) (ts, a) s (Ok ts' (with_mem m s)) /\
    shows rom gs ts' m (type_string (cw ts) (ch ts) t l) /\ surface_ok gs m /\
    same_except (mem_of s) m (pixels gs) (2 * (stride gs * height gs))) as (m & ts' & R & H).
  { exists m, ts'. split; [|done]. by eapply loop_runs. }
  clear Hl. name_body body. revert a ts t s Hs Hc Ho Ht.
  induction l as [|c l IH]; intros a ts t s Hs Hc Ho Ht; cbn [length] in *.
  - exists (mem_of s), ts. split; [|done]. rewrite with_mem_of. apply runs_done. unfold body.
    by step (load8_hd a [] s Hc).
  - pose proof (proj1 (cstr_at_cons _ _ _ _) Hc) as (_ & Hcz & _ & _).
    destruct (txt_putc_shows ts c t s Hs Ht) as (m1 & E1 & P1 & T1).
    assert (same_except (mem_of s) m1 (pixels gs) (2 * (stride gs * height gs))) as X1
      by (by eapply paints_frame).
    destruct (IH (a + 1) (moved ts c) (type_char (cw ts) (ch ts) t c) (with_mem m1 s)) as (m & ts' & R & T & O & X);
      rewrite ?mem_of_with; [by eapply paints_ok| |unfold outside in *; lia|done|].
    { apply cstr_at_cons in Hc as (_ & _ & _ & [Hb Hn]). split; [|done].
      apply bytes_at_lookup in Hb as [Hb Hb']. apply bytes_at_lookup. split; [done|].
      intros i Hi. rewrite X1; [by apply Hb'|]. rewrite length_app in Hi. cbn in Hi. unfold outside in Ho. lia. }
    rewrite mem_of_with, with_mem_with in *. exists m, ts'. split; [|split; [exact T|split; [done|]]].
    + eapply runs_step; [|exact R]. unfold body. step (load8_hd a (c :: l) s Hc). cbn [hd].
      rewrite (proj2 (Z.eqb_neq _ _) Hcz). cbn [negb]. by step E1.
    + intros b Hb. by rewrite X, X1 by done.
Qed.
End terminal.

(** ** The properties *)

Section properties.
Context {S : Type} `{!HasMem S}.

(** C33: [gfx_fill] colours exactly the pixels of the rectangle that are on the
    surface, whatever the corners (rectangles that are empty, partly or wholly
    outside included), changes no other byte of memory (the padding at the end
    of the rows included) and terminates. *)
Theorem gfx_fill_rectangle gs x0 y0 x1 y1 c (s : S) :
  surface_ok gs (mem_of s) -> is_u32 x0 -> is_u32 y0 -> is_u32 x1 -> is_u32 y1 ->
  exists m, gfx_fill gs x0 y0 x1 y1 c s = Ok tt (with_mem m s) /\
    (forall x y, visible gs x y ->
       pixel m gs x y = if decide (x0 <= x < x1 /\ y0 <= y < y1) then u16 c else pixel (mem_of s) gs x y) /\
    (forall a, (forall x y, visible gs x y -> x0 <= x < x1 -> y0 <= y < y1 ->
                  ~ (pixel_at gs x y <= a < pixel_at gs x y + 2)) -> m !! a = mem_of s !! a).
Proof.
  intros Hgs Hx0 Hy0 Hx1 Hy1.
  destruct (gfx_fill_draws (S := S) gs (mem_of s) Hgs x0 y0 x1 y1 c) with (s := s) as (m & E & P);
    [unfold is_u32 in *; lia|done..|].
  exists m. split; [done|]. split.
  2: { destruct P as (_ & P & _). intros a Ha. apply P. intros x y c' Hv. unfold rect, region.
       case_decide; [|done]. intros _. apply Ha; [done|tauto..]. }
  intros x y Hv. case_decide as Hd.
  - destruct P as (P & _). apply P; [done|]. unfold rect, region. by rewrite decide_True.
  - eapply paints_at; [exact Hgs|exact Hv|exact P|]. unfold rect, region. by rewrite decide_False.
Qed.

(** C12: [txt_printf] types the text it formats (the first 127 bytes, up to a
    NUL) on the terminal: if the screen [t] is displayed, then afterwards the
    display is what typing that text on [t] gives, glyph by glyph, with the
    cursor on a cell of the surface; nothing outside the frame buffer and the
    local message buffer changes, and no access leaves them. *)
Theorem txt_printf_types rom gs ts t msg ds last ap txt (s : S) :
  surface_ok gs (mem_of s) -> (forall i, is_u8 (rom i)) -> shows rom gs ts (mem_of s) t ->
  well_formed ds last -> render ds last ap = Some txt ->
  Z.of_nat (length txt) < 2 ^ 31 -> Z.of_nat (length ds) < 2 ^ 32 ->
  0 <= msg -> msg + 128 <= 2 ^ 32 -> mapped (mem_of s) msg 128 -> outside gs msg 128 ->
  exists m ts', txt_printf rom gs ts msg (unparse ds last) ap s = Ok ts' (with_mem m s) /\
    shows rom gs ts' m (type_string (cw ts) (ch ts) t (printed txt)) /\
    (forall b, outside gs b 1 -> ~ (msg <= b < msg + 128) -> m !! b = mem_of s !! b).
Proof.
  intros Hgs Hrom (Hts & Hx & Hy & Hg) Hwf Hr Ht Hn Hm0 Hm1 Hm Ho.
  unfold txt_printf. step (vsnprintf_ok msg 128 ds last ap txt s Hwf Hr Ht Hn ltac:(lia) Hm0 Hm1 Hm).
  change (Z.to_nat (128 - 1)) with 127%nat. set (l := map u8 (take 127 txt)).
  assert (length l <= 127)%nat as Hl by (unfold l; rewrite length_map, length_take; lia).
  pose proof (same_except_write (mem_of s) msg (l ++ [0])) as X. rewrite length_app in X. cbn [length] in X.
  set (s1 := poke s msg (l ++ [0])). assert (mem_of s1 = write_bytes (mem_of s) msg (l ++ [0])) as Es1
    by apply mem_of_poke.
  assert (surface_ok gs (mem_of s1)) as Hgs1.
  { unfold surface_ok in *. rewrite Es1. split_and!; try tauto. apply mapped_write. tauto. }
  pose proof (length_until_nul l) as Hul.
  destruct (txt_puts_ok gs (mem_of s) Hgs rom Hrom (until_nul l) msg ts t s1) as (m & ts' & E & T & _ & X').
  - lia.
  - done.
  - rewrite Es1. apply cstr_until_nul, bytes_at_write. apply Forall_app.
    split; [apply map_u8_bytes|by repeat constructor].
  - unfold outside in *. lia.
  - split; [done|]. split; [done|]. split; [done|]. intros i j c x y v Hi Hj Ec Ev.
    rewrite <- (Hg i j c x y v Hi Hj Ec Ev). apply half_agree. intros b Hb. rewrite Es1. apply X.
    assert (visible gs x y) as Hv.
    { destruct Hts as (Ew & Eh & _). unfold glyph, region in Ev. case_decide; [|done].
      assert (8 * cw ts <= width gs /\ 16 * ch ts <= height gs) as [] by (clear - Ew Eh; zarith).
      unfold visible. lia. }
    pose proof (pixel_at_range gs _ Hgs x y Hv). unfold outside in Ho. lia.
  - exists m, ts'. unfold s1, poke in E. rewrite with_mem_with in E. split; [exact E|]. split; [exact T|].
    intros b Hb Hb'. rewrite X', Es1, X by (unfold outside in Hb; lia). done.
Qed.
End properties.

(** The display set up by the initialisation routines, its terminal empty. *)
Lemma display_ready rom gs m : mapped m FRAMEBUFFER_BASE (640 * 480 * 2) ->
  surface_ok (gfx_init_display gs) m /\
  shows rom (gfx_init_display gs) (txt_init (gfx_init_display gs)) m
    {| s_cx := 0; s_cy := 0; s_cell := fun _ _ => None |}.
Proof.
  intros Hm. unfold surface_ok, shows, txt_ok. cbn -[Z.mul Z.div]. split_and!; try done; try by_decide.
Qed.

Definition demo_surface : surface :=
  gfx_init {| width := 17; height := 33; stride := 18; pixels := 0x1000; pixfmt := PIXFMT_RGB565;
     fgcolor := 0xffff; bgcolor := 0x8410; reserved := 0;
     plot := Fn0; hline := Fn0; putc := Fn0; color := Fn0 |}.
Definition demo_memory : mem :=
  write_bytes (mem_lit 0x1000 (replicate (Z.to_nat (2 * (18 * 33))) 7)) 0x800 (replicate 128 9).
Definition demo_rom (i : Z) : Z := u8 (i * 37).

Lemma gfx_fill_rectangle_witness :
  exists m, gfx_fill demo_surface 3 5 400 7 0x12345 demo_memory = Ok tt m /\
    (forall x y, visible demo_surface x y ->
       pixel m demo_surface x y = if decide (3 <= x < 400 /\ 5 <= y < 7) then 0x2345
                                  else pixel demo_memory demo_surface x y) /\
    m !! (0x1000 + 2 * (17 + 5 * 18)) = Some 7.
Proof.
  destruct (gfx_fill_rectangle demo_surface 3 5 400 7 0x12345 demo_memory
    ltac:(by_decide) ltac:(by_decide) ltac:(by_decide) ltac:(by_decide) ltac:(by_decide)) as (m & E & P & F).
  exists m. split; [exact E|]. split; [exact P|].
  rewrite F by (intros x y [Hx Hy] _ _; unfold pixel_at; cbn in *; lia). by vm_compute.
Defined.

Lemma txt_printf_types_witness :
  exists m ts', txt_printf demo_rom demo_surface (txt_init demo_surface) 0x800 (str "pc=%08X n=%+5d;")
      [VaWord 0xBEEF; VaWord (-42)] demo_memory = Ok ts' m /\
    shows demo_rom demo_surface ts' m (type_string 2 2 {| s_cx := 0; s_cy := 0; s_cell := blank |}
      (str "pc=0000BEEF n=  -42;")) /\
    (forall b, outside demo_surface b 1 -> ~ (0x800 <= b < 0x800 + 128) -> m !! b = demo_memory !! b).
Proof.
  exact (txt_printf_types demo_rom demo_surface (txt_init demo_surface)
    {| s_cx := 0; s_cy := 0; s_cell := blank |} 0x800 demo (str ";") [VaWord 0xBEEF; VaWord (-42)]
    (str "pc=0000BEEF n=  -42;") demo_memory
    ltac:(by_decide) (fun i => u8_range (i * 37))
    ltac:(split; [by_decide|split; [reflexivity|split; [reflexivity|discriminate]]])
    ltac:(by_decide) ltac:(by vm_compute) ltac:(by vm_compute) ltac:(by vm_compute)
    ltac:(lia) ltac:(lia) ltac:(by_decide) ltac:(left; cbn; lia)).
Defined.

(** [txt_goto] below the last row keeps the row and overwrites the column: the
    column asked for, 5, becomes 29, the number of the last row of the
    display, and the cursor stays on row 100, off the screen. *)
Example txt_goto_row_kept gs :
  txt_goto (txt_init (gfx_init_display gs)) 5 100 = {| cw := 80; ch := 30; cx := 29; cy := 100 |}.
Proof. reflexivity. Qed.
