(* ===== verification/Monitor.v ===== *)
(** * The boot monitor (boot/console.c, boot/boot.c, boot/helpers.S)

    The bootloader's machine mode handler reads characters from the UART into a
    line buffer ([console_char]), cuts a finished line into words in place
    ([split_line], the loop of [console_line]), finds the command and calls it
    ([console_cmd]).  Memory is examined through [rd32safe] and [rd8safe],
    which point the trap vector at their own return, so that an address that
    traps reads as zero.

    The state is [monitor]: memory, console, received characters, CSRs and the
    two variables [cmdlen] and [STOP] with the frame pointer [EF].  The linker's
    choices are parameters: [cmdbuf] is the address of the line buffer and
    [lit l] the address of the string literal [l]. *)

From S2P Require Import Prelude Monad Mem LibcMem LibcStr Uart Printf Exception.

Record monitor := {
  b_mem : mem;
  b_uart : uart;
  b_rx : list Z;              (* received characters not yet read *)
  b_more : list (list Z);     (* characters that will have arrived by each next poll *)
  b_csr : gmap Z Z;
  b_uart_regs : list (Z * Z); (* UART event registers written *)
  b_cmdlen : Z;
  b_stop : Z;
  b_ef : Z;
  b_mret : option (Z * Z * Z * Z);  (* a0, a1, pc and sp of the [mret] into the program *)
}.

#[export] Program Instance monitor_HasMem : HasMem monitor :=
  {| mem_of := b_mem;
     with_mem m s := {| b_mem := m; b_uart := b_uart s; b_rx := b_rx s; b_more := b_more s; b_csr := b_csr s;
       b_uart_regs := b_uart_regs s; b_cmdlen := b_cmdlen s; b_stop := b_stop s; b_ef := b_ef s; b_mret := b_mret s |} |}.
Solve All Obligations with (intros; cbn; try by destruct s).

#[export] Program Instance monitor_HasUart : HasUart monitor :=
  {| uart_of := b_uart;
     with_uart u s := {| b_mem := b_mem s; b_uart := u; b_rx := b_rx s; b_more := b_more s; b_csr := b_csr s;
       b_uart_regs := b_uart_regs s; b_cmdlen := b_cmdlen s; b_stop := b_stop s; b_ef := b_ef s; b_mret := b_mret s |} |}.
Solve All Obligations with (intros; cbn; try by destruct s).

#[export] Instance monitor_MemUart : MemUart monitor.
Proof. done. Qed.

Definition with_csr (c : gmap Z Z) (s : monitor) : monitor :=
  {| b_mem := b_mem s; b_uart := b_uart s; b_rx := b_rx s; b_more := b_more s; b_csr := c;
     b_uart_regs := b_uart_regs s; b_cmdlen := b_cmdlen s; b_stop := b_stop s; b_ef := b_ef s; b_mret := b_mret s |}.
Definition with_cmdlen (n : Z) (s : monitor) : monitor :=
  {| b_mem := b_mem s; b_uart := b_uart s; b_rx := b_rx s; b_more := b_more s; b_csr := b_csr s;
     b_uart_regs := b_uart_regs s; b_cmdlen := n; b_stop := b_stop s; b_ef := b_ef s; b_mret := b_mret s |}.
Definition with_stop (n : Z) (s : monitor) : monitor :=
  {| b_mem := b_mem s; b_uart := b_uart s; b_rx := b_rx s; b_more := b_more s; b_csr := b_csr s;
     b_uart_regs := b_uart_regs s; b_cmdlen := b_cmdlen s; b_stop := n; b_ef := b_ef s; b_mret := b_mret s |}.
Definition with_ef (n : Z) (s : monitor) : monitor :=
  {| b_mem := b_mem s; b_uart := b_uart s; b_rx := b_rx s; b_more := b_more s; b_csr := b_csr s;
     b_uart_regs := b_uart_regs s; b_cmdlen := b_cmdlen s; b_stop := b_stop s; b_ef := n; b_mret := b_mret s |}.

Definition with_rx (l : list Z) (ls : list (list Z)) (s : monitor) : monitor :=
  {| b_mem := b_mem s; b_uart := b_uart s; b_rx := l; b_more := ls; b_csr := b_csr s;
     b_uart_regs := b_uart_regs s; b_cmdlen := b_cmdlen s; b_stop := b_stop s; b_ef := b_ef s; b_mret := b_mret s |}.
Definition with_uart_reg (r v : Z) (s : monitor) : monitor :=
  {| b_mem := b_mem s; b_uart := b_uart s; b_rx := b_rx s; b_more := b_more s; b_csr := b_csr s;
     b_uart_regs := b_uart_regs s ++ [(r, v)]; b_cmdlen := b_cmdlen s; b_stop := b_stop s;
     b_ef := b_ef s; b_mret := b_mret s |}.

Definition with_mret (r : Z * Z * Z * Z) (s : monitor) : monitor :=
  {| b_mem := b_mem s; b_uart := b_uart s; b_rx := b_rx s; b_more := b_more s; b_csr := b_csr s;
     b_uart_regs := b_uart_regs s; b_cmdlen := b_cmdlen s; b_stop := b_stop s; b_ef := b_ef s;
     b_mret := Some r |}.

(* src/hw/inc/hw/riscv.h:16-16 *)
Definition CSR_SSTATUS := 0x100.
(* src/hw/inc/hw/riscv.h:18-18 *)
Definition CSR_STVEC := 0x105.
(* src/hw/inc/hw/riscv.h:22-22 *)
Definition CSR_SSCRATCH := 0x140.
(* src/hw/inc/hw/riscv.h:23-23 *)
Definition CSR_SEPC := 0x141.
(* src/hw/inc/hw/riscv.h:24-24 *)
Definition CSR_SCAUSE := 0x142.
(* src/hw/inc/hw/riscv.h:25-25 *)
Definition CSR_STVAL := 0x143.
(* src/hw/inc/hw/riscv.h:26-26 *)
Definition CSR_SIP := 0x144.
(* src/hw/inc/hw/riscv.h:28-28 *)
Definition CSR_SATP := 0x180.
(* src/hw/inc/hw/riscv.h:36-36 *)
Definition CSR_MVENDORID := 0xF11.
(* src/hw/inc/hw/riscv.h:42-42 *)
Definition CSR_MSTATUS := 0x300.
(* src/hw/inc/hw/riscv.h:44-44 *)
Definition CSR_MEDELEG := 0x302.
(* src/hw/inc/hw/riscv.h:45-45 *)
Definition CSR_MIDELEG := 0x303.
(* src/hw/inc/hw/riscv.h:46-46 *)
Definition CSR_MIE := 0x304.
(* src/hw/inc/hw/riscv.h:47-47 *)
Definition CSR_MTVEC := 0x305.
(* src/hw/inc/hw/riscv.h:51-51 *)
Definition CSR_MSCRATCH := 0x340.
(* src/hw/inc/hw/riscv.h:52-52 *)
Definition CSR_MEPC := 0x341.
(* src/hw/inc/hw/riscv.h:53-53 *)
Definition CSR_MCAUSE := 0x342.
(* src/hw/inc/hw/riscv.h:54-54 *)
Definition CSR_MTVAL := 0x343.
(* src/hw/inc/hw/vexriscv.h:4-4 *)
Definition CSR_M_INTC_ENABLE := 0xBC0.

(* src/hw/inc/hw/intrinsics.h:23-24 *)
Definition csr_read (csr : Z) : M monitor Z := gets (fun s => default 0 (b_csr s !! csr)).
(* src/hw/inc/hw/intrinsics.h:26-27 *)
Definition csr_write (csr v : Z) : M monitor unit := modify (fun s => with_csr (<[csr := u32 v]> (b_csr s)) s).
(* src/hw/inc/hw/intrinsics.h:32-33 *)
Definition csr_set (csr bit : Z) : M monitor unit :=
  v <- csr_read csr ;; csr_write csr (Z.lor v bit).

(** A trap taken in machine mode at the load at [pc]: the status, exception
    pc, cause and value CSRs are the hardware's to set. *)
Definition load_trap (cause addr pc : Z) : M monitor unit :=
  v <- csr_read CSR_MSTATUS ;;
  let mie := Z.land (Z.shiftr v 3) 1 in
  csr_write CSR_MSTATUS
    (Z.lor (Z.land v 0xFFFFE777) (Z.lor (Z.shiftl mie 7) 0x1800)) ;;
  csr_write CSR_MEPC pc ;;
  csr_write CSR_MCAUSE cause ;;
  csr_write CSR_MTVAL addr.

(* src/boot/console.c:11-22 *)
Definition atoi (s : Z) : M monitor Z :=
  loop (fun '(n, s) =>
    c <- load8 s ;;
    if negb (c =? 0) then
      if (c >=? 48) && (c <=? 57) then
        (* n * 10 is signed; the sum is unsigned *)
        n10 <- int32 (n * 10) ;;
        ret (inl (s32 (n10 + (c - 48)), s + 1))
      else ret (inr n)
    else ret (inr n)) (0, s).

(* src/boot/console.c:28-41 atox *)
Definition hex_value (c : Z) : option Z :=
  if (97 <=? c) && (c <=? 102) then Some (c - 97 + 10)
  else if (65 <=? c) && (c <=? 70) then Some (c - 65 + 10)
  else if (48 <=? c) && (c <=? 57) then Some (c - 48)
  else None.

(* src/boot/console.c:24-45 *)
Definition atox (s : Z) : M monitor Z :=
  loop (fun '(n, s) =>
    c <- load8 s ;;
    if negb (c =? 0) then
      match hex_value c with
      | Some d => ret (inl (Z.lor (u32 (Z.shiftl n 4)) d, s + 1))
      | None => ret (inr n)
      end
    else ret (inr n)) (0, s).

Inductive command : Type := Do_help | Do_regs | Do_dw | Do_db | Do_stop | Do_cont.

(* src/boot/console.c:54-59 *)
Record console_cmd_t := { name : Z; args : Z; help : Z; fn : command }.

Section code.
(** The linker's addresses. *)
Variable cmdbuf : Z.
Variable lit : list Z -> Z.
Variables rd32fail rd8fail mach_exception_entry : Z.

(** The label the trap vector is set to follows the load, an instruction of
    four bytes. *)
(* src/boot/helpers.S:7-15 *)
Definition rd32safe (addr : Z) : M monitor Z :=
  csr_write CSR_MTVEC rd32fail ;;
  if addr mod 4 =? 0 then
    s <- get ;;
    match read_bytes (b_mem s) addr 4 with
    | Some l => ret (le_val l)
    | None => load_trap 5 addr (rd32fail - 4) ;; ret 0
    end
  else load_trap 4 addr (rd32fail - 4) ;; ret 0.

(* src/boot/helpers.S:17-25 *)
Definition rd8safe (addr : Z) : M monitor Z :=
  csr_write CSR_MTVEC rd8fail ;;
  s <- get ;;
  match b_mem s !! addr with
  | Some b => ret b
  | None => load_trap 5 addr (rd8fail - 4) ;; ret 0
  end.

Definition regs_row (fmt : list Z) (rs : list string) (csr : Z) : M monitor unit :=
  s <- get ;;
  vs <- ef_gets (b_ef s) rs ;;
  v <- csr_read csr ;;
  xprintf (fmt ++ nl) (vs ++ [VaWord v]).

(* src/boot/console.c:61-79 *)
Definition do_regs : M monitor unit :=
  regs_row (str "pc %08x ra %08x sp %08x gp %08x  sstatus  %08x") ["pc"; "ra"; "sp"; "gp"] CSR_SSTATUS ;;
  regs_row (str "tp %08x t0 %08x t1 %08x t2 %08x  scause   %08x") ["tp"; "t0"; "t1"; "t2"] CSR_SCAUSE ;;
  regs_row (str "fp %08x s1 %08x a0 %08x a1 %08x  stval    %08x") ["s0"; "s1"; "a0"; "a1"] CSR_STVAL ;;
  regs_row (str "a2 %08x a3 %08x a4 %08x a5 %08x  stvec    %08x") ["a2"; "a3"; "a4"; "a5"] CSR_STVEC ;;
  regs_row (str "a6 %08x a7 %08x s2 %08x s3 %08x  sepc     %08x") ["a6"; "a7"; "s2"; "s3"] CSR_SEPC ;;
  regs_row (str "s4 %08x s5 %08x s6 %08x s7 %08x  sscratch %08x") ["s4"; "s5"; "s6"; "s7"] CSR_SSCRATCH ;;
  regs_row (str "s8 %08x s9 %08x 10 %08x 11 %08x  satp     %08x") ["s8"; "s9"; "s10"; "s11"] CSR_SATP ;;
  regs_row (str "t3 %08x t4 %08x t5 %08x t6 %08x  sip      %08x") ["t3"; "t4"; "t5"; "t6"] CSR_SIP.

(* src/boot/console.c:83-99 *)
Definition do_dw (n addr count : Z) : M monitor unit :=
  let count := if n <? 2 then 1 else count in
  let count := if count >? 1024 then 1024 else count in
  n <- loop (fun '(n, addr) =>
    if n <? count then
      (if Z.land n 3 =? 0 then xprintf (nl ++ str "%08x:") [VaWord addr] else ret tt) ;;
      v <- rd32safe addr ;;
      xprintf (str " %08x") [VaWord v] ;;
      ret (inl (n + 1, u32 (addr + 4)))
    else ret (inr n)) (0, addr) ;;
  if Z.land n 3 =? 0 then xprintf nl [] else ret tt.

(** A row of [do_db]: [txt] is the array, one character per step. *)
(* src/boot/console.c:109-120 do_db *)
Definition db_row (addr count : Z) (txt : list Z) : M monitor (list Z) :=
  loop (fun '(i, txt) =>
    if i <? 16 then
      c <- (if i <? count then
              c <- rd8safe (u32 (addr + i)) ;;
              let c := Z.land c 0xFF in
              xprintf (str " %02x") [VaWord c] ;;
              ret (if (c <? 32) || (c >? 126) then 46 else c)
            else
              xprintf (str "   ") [] ;;
              ret 32) ;;
      ret (inl (i + 1, <[Z.to_nat i := u8 c]> txt))
    else ret (inr txt)) (0, txt).

(** [txt0] is what the uninitialised array holds. *)
(* src/boot/console.c:101-125 *)
Definition do_db (txt0 : list Z) (n addr count : Z) : M monitor unit :=
  if count <? 0 then ret tt
  else
    loop (fun '(addr, count, txt) =>
      if count >? 0 then
        xprintf (str "%08x:") [VaWord addr] ;;
        txt <- db_row addr count txt ;;
        xprintf (str "  %s" ++ nl) [VaStr (Some txt)] ;;
        ret (inl (u32 (addr + 16), count - 16, txt))
      else ret (inr tt)) (addr, count, <[16%nat := 0]> txt0).

(* src/boot/console.c:127-127 *)
Definition do_stop : M monitor unit := modify (with_stop 1).
(* src/boot/console.c:128-128 *)
Definition do_cont : M monitor unit := modify (with_stop 0).

(* src/boot/console.c:130-137 *)
Definition CMDS : list console_cmd_t :=
  [{| name := lit (str "help"); args := lit (str ""); help := lit (str "help"); fn := Do_help |};
   {| name := lit (str "regs"); args := lit (str ""); help := lit (str "dump registers"); fn := Do_regs |};
   {| name := lit (str "dw"); args := lit (str "xx"); help := lit (str "dump words <addr> <count>"); fn := Do_dw |};
   {| name := lit (str "db"); args := lit (str "xx"); help := lit (str "dump bytes <addr> <count>"); fn := Do_db |};
   {| name := lit (str "stop"); args := lit (str ""); help := lit (str "stop execution"); fn := Do_stop |};
   {| name := lit (str "cont"); args := lit (str ""); help := lit (str "continue execution"); fn := Do_cont |}].

Fixpoint for_cmds (cmds : list console_cmd_t) (f : console_cmd_t -> M monitor unit) : M monitor unit :=
  match cmds with
  | [] => ret tt
  | c :: cmds' => f c ;; for_cmds cmds' f
  end.

(* src/boot/console.c:139-143 *)
Definition do_help : M monitor unit :=
  for_cmds CMDS (fun cmd =>
    n <- c_string (name cmd) ;;
    h <- c_string (help cmd) ;;
    xprintf (str "%-16s %s" ++ nl) [VaStr (Some n); VaStr (Some h)]).

(** The call of [cmd->fn] with [argc] in front of the arguments. *)
(* src/boot/helpers.S:28-32 *)
Definition console_call_cmd (txt0 : list Z) (f : command) (a1 a2 a3 a4 argc : Z) : M monitor unit :=
  match f with
  | Do_help => do_help
  | Do_regs => do_regs
  | Do_dw => do_dw argc a1 a2
  | Do_db => do_db txt0 argc a1 (s32 a2)
  | Do_stop => do_stop
  | Do_cont => do_cont
  end.

(** The [n]-th word of the argument array is set from the [n]-th letter. *)
(* src/boot/console.c:155-170 console_cmd *)
Definition convert_args (cmd : console_cmd_t) (argv : list Z) (argc max : Z) : M monitor (option (list Z)) :=
  loop (fun '(n, argx) =>
    if n <? max then
      k <- load8 (args cmd + n) ;;
      let given := n <? argc in
      let arg := nth (Z.to_nat n) argv 0 in
      let set v := ret (inl (n + 1, <[Z.to_nat n := v]> argx)) in
      if k =? 120 then v <- (if given then atox arg else ret 0) ;; set v
      else if k =? 105 then v <- (if given then atoi arg else ret 0) ;; set (u32 v)
      else if k =? 115 then set (if given then arg else lit (str ""))
      else
        a <- c_string (args cmd) ;;
        xprintf (str "error: internal: bad args '%s'" ++ nl) [VaStr (Some a)] ;;
        ret (inr None)
    else ret (inr (Some argx))) (0, replicate 4 0).

(* src/boot/console.c:145-173 *)
Definition console_cmd (txt0 : list Z) (cmd : console_cmd_t) (argv : list Z) (argc : Z) : M monitor unit :=
  max <- strlen (args cmd) ;;
  if (argc >? max) || (argc >? 4) then xprintf (str "error: too many arguments" ++ nl) []
  else
    argx <- convert_args cmd argv argc max ;;
    match argx with
    | None => ret tt
    | Some argx =>
      let x i := nth i argx 0 in
      console_call_cmd txt0 (fn cmd) (x 0%nat) (x 1%nat) (x 2%nat) (x 3%nat) argc
    end.

(* src/boot/console.c:175-175 *)
Definition MAXTOK : Z := 16.

(** Spaces are overwritten; [inl] is the [goto done] of an impossible NUL. *)
(* src/boot/console.c:182-187 console_line *)
Definition skip_spaces (line : Z) : M monitor (Z + Z) :=
  loop (fun line =>
    c <- load8 line ;;
    if c =? 32 then
      c <- load8 line ;;
      if c =? 0 then ret (inr (inl line))
      else store8 line 0 ;; ret (inl (line + 1))
    else ret (inr (inr line))) line.

(** [inl]: the line ended, at the address given; [inr]: a space was found. *)
(* src/boot/console.c:189-198 console_line *)
Definition scan_word (line : Z) : M monitor (Z + Z) :=
  loop (fun line =>
    c <- load8 line ;;
    if negb (c =? 32) then
      c <- load8 line ;;
      if c =? 0 then ret (inr (inl line)) else ret (inl (line + 1))
    else ret (inr (inr line))) line.

(** One turn of the loop over the words. *)
(* src/boot/console.c:181-200 console_line *)
Definition split_turn : Z * list Z * Z -> M monitor (Z * list Z * Z + list Z * Z) :=
  fun '(line, token, toklen) =>
    if toklen <? MAXTOK then
      r <- skip_spaces line ;;
      match r with
      | inl _ => ret (inr (token, toklen))
      | inr line =>
        let token := <[Z.to_nat toklen := line]> token in
        r <- scan_word line ;;
        match r with
        | inl line =>
          if negb (nth (Z.to_nat toklen) token 0 =? line) then
            store8 line 0 ;; ret (inr (token, toklen + 1))
          else ret (inr (token, toklen))
        | inr line => ret (inl (line, token, toklen + 1))
        end
      end
    else ret (inr (token, toklen)).

(** The words of the line; [token] is the array, not initialised. *)
(* src/boot/console.c:178-201 console_line *)
Definition split_line (line : Z) (token : list Z) : M monitor (list Z * Z) :=
  loop split_turn (line, token, 0).

(** The first command of that name. *)
(* src/boot/console.c:203-208 console_line *)
Fixpoint find_cmd (cmds : list console_cmd_t) (tok : Z) : M monitor (option console_cmd_t) :=
  match cmds with
  | [] => ret None
  | c :: cmds' =>
    r <- strcmp (name c) tok ;;
    if r =? 0 then ret (Some c) else find_cmd cmds' tok
  end.

(* src/boot/console.c:177-213 *)
Definition console_line (txt0 token0 : list Z) (line : Z) : M monitor unit :=
  let* (token, toklen) := split_line line token0 in
  (if negb (toklen =? 0) then
     let tok0 := nth 0 token 0 in
     c <- find_cmd CMDS tok0 ;;
     match c with
     | Some cmd => console_cmd txt0 cmd (tl token) (toklen - 1)
     | None =>
       l <- c_string tok0 ;;
       xprintf (str "unknown command '%s'" ++ nl) [VaStr (Some l)]
     end
   else ret tt) ;;
  xputs (lit (str "monitor> ")).

(* src/boot/boot.c:29-60 *)
Definition console_char (txt0 token0 : list Z) (ch : Z) : M monitor unit :=
  s <- get ;;
  let cmdlen := b_cmdlen s in
  if (ch =? 13) || (ch =? 10) then
    xputs (lit [13; 10]) ;;
    store8 (cmdbuf + cmdlen) 0 ;;
    status <- csr_read CSR_MSTATUS ;;
    console_line txt0 token0 cmdbuf ;;
    csr_write CSR_MSTATUS status ;;
    csr_write CSR_MTVEC mach_exception_entry ;;
    modify (with_cmdlen 0)
  else if (ch =? 8) || (ch =? 127) then
    if cmdlen >? 0 then
      xputs (lit [8; 32; 8]) ;;
      modify (with_cmdlen (cmdlen - 1))
    else xputc 7
  else if (ch <? 32) || (ch >? 127) then ret tt
  else if cmdlen =? 128 - 1 then xputc 7
  else
    store8 (cmdbuf + cmdlen) ch ;;
    modify (with_cmdlen (cmdlen + 1)) ;;
    xputc ch.

(** The receiver: [RXEMPTY] is polled, [RX] is the head of the queue, which
    acknowledging the RX event removes. *)
(* src/boot/boot.c:23-23 uart_rd *)
Definition uart_rd_RXEMPTY : M monitor Z :=
  modify (fun s => with_rx (b_rx s ++ hd [] (b_more s)) (tl (b_more s)) s) ;;
  s <- get ;;
  ret (match b_rx s with [] => 1 | _ => 0 end).
Definition uart_rd_RX : M monitor Z := gets (fun s => hd 0 (b_rx s)).

(* src/hw/inc/hw/litex.h:18-18 *)
Definition LX_UART_EV_PENDING := 0x010.
(* src/hw/inc/hw/litex.h:19-19 *)
Definition LX_UART_EV_ENABLE := 0x014.
(* src/hw/inc/hw/litex.h:25-25 *)
Definition LX_UART_EVb_RX := 2.

(* src/boot/boot.c:24-24 *)
Definition uart_wr (r v : Z) : M monitor unit :=
  (if (r =? LX_UART_EV_PENDING) && negb (Z.land v LX_UART_EVb_RX =? 0)
   then modify (fun s => with_rx (tl (b_rx s)) (b_more s) s) else ret tt) ;;
  modify (with_uart_reg r v).

(** The characters that are there. *)
(* src/boot/boot.c:68-72 mach_exception_handler *)
Definition drain_rx (txt0 token0 : list Z) : M monitor unit :=
  loop (fun _ : unit =>
    e <- uart_rd_RXEMPTY ;;
    if e =? 0 then
      ch <- uart_rd_RX ;;
      uart_wr LX_UART_EV_PENDING LX_UART_EVb_RX ;;
      console_char txt0 token0 ch ;;
      ret (inl tt)
    else ret (inr tt)) tt.

(* src/boot/boot.c:62-81 *)
Definition mach_exception_handler (txt0 token0 : list Z) (ef : Z) : M monitor unit :=
  cause <- csr_read CSR_MCAUSE ;;
  if cause =? 0x8000000b then
    modify (with_ef ef) ;;
    loop (fun _ : unit =>
      drain_rx txt0 token0 ;;
      stop <- gets b_stop ;;
      if negb (stop =? 0) then ret (inl tt) else ret (inr tt)) tt
  else
    xprintf (nl ++ str "** MACHINE EXCEPTION **" ++ nl) [] ;;
    s <- get ;;
    let csr r := default 0 (b_csr s !! r) in
    xprint_m_exception
      {| mstatus := csr CSR_MSTATUS; mcause := csr CSR_MCAUSE; mtval := csr CSR_MTVAL |} ef ;;
    xprintf (nl ++ str "HALT" ++ nl) [] ;;
    spin.

(* src/boot/boot.c:20-20 *)
Definition SVC_ENTRY := 0x40000000 + 0x00008000.
(* src/boot/boot.c:84-84 *)
Definition INT_LIST := Z.lor (Z.lor (Z.shiftl 1 1) (Z.shiftl 1 5)) (Z.shiftl 1 9).
(* src/boot/boot.c:86-86 *)
Definition EXC_LIST := 0xFFFF.
(* src/hw/inc/hw/riscv.h:95-95 *)
Definition PRIV_S := 1.
(* src/hw/inc/hw/riscv.h:76-76 *)
Definition MSTATUS_MPP_SHIFT := 11.
(* src/hw/inc/hw/riscv.h:73-73 *)
Definition MSTATUS_MPIE := 0x80.
(* src/hw/inc/hw/riscv.h:64-64 *)
Definition CSR_PMPCFG (n : Z) := 0x3A0 + n.
(* src/hw/inc/hw/riscv.h:65-65 *)
Definition CSR_PMPADDR (n : Z) := 0x3B0 + n.
(* src/hw/inc/hw/riscv.h:148-148 *)
Definition PMP_CFG_A_TOR := Z.shiftl 1 3.
(* src/hw/inc/hw/riscv.h:151-151 *)
Definition PMP_CFG_X := Z.shiftl 1 2.
(* src/hw/inc/hw/riscv.h:152-152 *)
Definition PMP_CFG_W := Z.shiftl 1 1.
(* src/hw/inc/hw/riscv.h:153-153 *)
Definition PMP_CFG_R := 1.
(* src/hw/inc/hw/riscv.h:111-111 *)
Definition INTb_MACH_EXTERN := Z.shiftl 1 11.
(* src/hw/inc/hw/platform.h:38-38 *)
Definition UART0_IRQb := Z.shiftl 1 1.

(** [mret]: the loader's code ends and the program at [mepc] runs. *)
(* src/boot/entry.S:116-120 *)
Definition exit_mode_m {A} (a0 a1 pc sp : Z) : M monitor A :=
  csr_write CSR_MEPC pc ;;
  modify (with_mret (a0, a1, pc, sp)) ;;
  spin.

(* src/boot/boot.c:88-122 *)
Definition start {A} (hartid fdt : Z) : M monitor A :=
  xprintf (nl ++ str "** Frobozz Magic Bootloader v0.2 **" ++ nl ++ nl) [] ;;
  vendor <- csr_read CSR_MVENDORID ;;
  csr_write CSR_MTVEC mach_exception_entry ;;
  csr_write CSR_MSCRATCH SVC_ENTRY ;;
  (if vendor =? 0 then
     csr_write (CSR_PMPCFG 0) (Z.lor (Z.lor (Z.lor PMP_CFG_A_TOR PMP_CFG_X) PMP_CFG_W) PMP_CFG_R) ;;
     csr_write (CSR_PMPADDR 0) 0xFFFFFFFF
   else ret tt) ;;
  csr_set CSR_MIDELEG INT_LIST ;;
  csr_set CSR_MEDELEG EXC_LIST ;;
  csr_write CSR_MSTATUS (Z.lor (Z.shiftl PRIV_S MSTATUS_MPP_SHIFT) MSTATUS_MPIE) ;;
  xprintf (str "SVC ENTRY @0x%08x" ++ nl ++ nl) [VaWord SVC_ENTRY] ;;
  uart_wr LX_UART_EV_ENABLE LX_UART_EVb_RX ;;
  uart_wr LX_UART_EV_PENDING LX_UART_EVb_RX ;;
  csr_write CSR_M_INTC_ENABLE UART0_IRQb ;;
  csr_set CSR_MIE INTb_MACH_EXTERN ;;
  exit_mode_m hartid fdt SVC_ENTRY 0.
End code.
