(* ===== verification/MonitorLine.v ===== *)
(** * The monitor's line: editing and splitting

    Typing: [console_char] keeps the line in [cmdbuf] as the abstract editor
    [edit] does.  Splitting: [split_line] finds the words of the line,
    [words], and turns each into a C string in place. *)

From S2P Require Import Prelude Monad Mem LibcMem LibcStr Uart Printf Exception Monitor.

(** ** Editing *)

(** The line after one more character, and what is echoed. *)
Definition edit (l : list Z) (c : Z) : list Z :=
  if (c =? 8) || (c =? 127) then take (length l - 1) l
  else if (c <? 32) || (c >? 127) then l
  else if Z.of_nat (length l) =? 127 then l
  else l ++ [c].

Definition echo (l : list Z) (c : Z) : list Z :=
  if (c =? 8) || (c =? 127) then if 0 <? Z.of_nat (length l) then [8; 32; 8] else [7]
  else if (c <? 32) || (c >? 127) then []
  else if Z.of_nat (length l) =? 127 then [7]
  else [c].

Fixpoint echoes (l : list Z) (cs : list Z) : list Z :=
  match cs with [] => [] | c :: cs' => echo l c ++ echoes (edit l c) cs' end.

Section line.
Context (cmdbuf : Z) (lit : list Z -> Z) (rd32fail rd8fail mach_exception_entry : Z).
Context (txt0 token0 : list Z).

(** The literals the monitor passes by address. *)
Definition literals : list (list Z) :=
  [ [13; 10]; [8; 32; 8]; str "monitor> "; str ""; str "xx"; str "help"; str "regs"; str "dw";
    str "db"; str "stop"; str "cont"; str "dump registers"; str "dump words <addr> <count>";
    str "dump bytes <addr> <count>"; str "stop execution"; str "continue execution" ].

(** The literals are in memory, clear of the line buffer. *)
Definition rodata_ok (m : mem) : Prop :=
  Forall (fun l => cstr_at m (lit l) l /\
    (lit l + Z.of_nat (length l) + 1 <= cmdbuf \/ cmdbuf + 128 <= lit l)) literals.

(** The buffer holds the line [l]. *)
Definition line_ok (s : monitor) (l : list Z) : Prop :=
  mapped (b_mem s) cmdbuf 128 /\ bytes_at (b_mem s) cmdbuf l /\
  b_cmdlen s = Z.of_nat (length l) /\ (length l <= 127)%nat /\
  Forall (fun c => 32 <= c < 127) l.

#[export] Instance rodata_ok_dec m : Decision (rodata_ok m).
Proof. unfold rodata_ok. apply _. Defined.
#[export] Instance line_ok_dec s l : Decision (line_ok s l).
Proof. unfold line_ok. apply _. Defined.

Lemma rodata_cstr m l : rodata_ok m -> l ∈ literals -> cstr_at m (lit l) l.
Proof. intros H Hl. unfold rodata_ok in H. rewrite Forall_forall in H. by destruct (H l (proj1 (list_elem_of_In _ _) Hl)). Qed.

Lemma rodata_frame m m' a n : rodata_ok m -> same_except m m' a n -> cmdbuf <= a -> a + n <= cmdbuf + 128 ->
  rodata_ok m'.
Proof.
  intros H X Ha Hn. eapply Forall_impl; [|exact H]. intros l [[Hb Hz] Hd]. cbn in *. split; [|done].
  split; [|done]. apply bytes_at_lookup in Hb as [Hb Hl]. apply bytes_at_lookup. split; [done|].
  intros i Hi. rewrite length_app in Hi. cbn in Hi. rewrite X; [apply Hl; rewrite length_app; cbn; lia|lia].
Qed.

Lemma xputs_lit l (s : monitor) : rodata_ok (b_mem s) -> l ∈ literals ->
  xputs (lit l) s = Ok tt (emit (wire l) s).
Proof.
  intros H Hl. apply xputs_ok; [by apply rodata_cstr|].
  assert (Forall (fun l : list Z => (length l < 100)%nat) literals) as HF by by_decide.
  rewrite Forall_forall in HF. specialize (HF l (proj1 (list_elem_of_In _ _) Hl)). cbn in HF. lia.
Qed.

Abbreviation type_char := (console_char cmdbuf lit rd32fail rd8fail mach_exception_entry txt0 token0).

Fixpoint type_all (cs : list Z) : M monitor unit :=
  match cs with [] => ret tt | c :: cs' => type_char c ;; type_all cs' end.

Definition edited (s : monitor) (l : list Z) (c : Z) : monitor :=
  emit (wire (echo l c)) (with_cmdlen (Z.of_nat (length (edit l c)))
    (if (32 <=? c) && (c <? 127) && (Z.of_nat (length l) <? 127)
     then poke s (cmdbuf + Z.of_nat (length l)) [c] else s)).

Lemma edit_ok l c : (length l <= 127)%nat -> Forall (fun c => 32 <= c < 127) l ->
  (length (edit l c) <= 127)%nat /\ Forall (fun c => 32 <= c < 127) (edit l c).
Proof.
  intros Hl Hc. unfold edit. destruct (Z.eqb_spec c 8), (Z.eqb_spec c 127); cbn [orb];
    try (rewrite length_take; split; [lia|by apply Forall_take]).
  destruct (Z.ltb_spec c 32), (Z.gtb_spec c 127); cbn [orb]; try done.
  destruct (Z.eqb_spec (Z.of_nat (length l)) 127); [done|]. rewrite length_app. split; [cbn; lia|].
  apply Forall_app. split; [done|]. repeat constructor; lia.
Qed.

Lemma with_cmdlen_same (s : monitor) (l : list Z) : b_cmdlen s = Z.of_nat (length l) ->
  with_cmdlen (Z.of_nat (length l)) s = s.
Proof. intros <-. by destruct s. Qed.

Lemma console_char_edits c l (s : monitor) :
  c <> 13 -> c <> 10 -> rodata_ok (b_mem s) -> line_ok s l ->
  type_char c s = Ok tt (edited s l c).
Proof.
  intros H13 H10 Hro (Hm & Hb & Hn & Hl & Hc). unfold console_char.
  rewrite (bind_ok get _ s s s eq_refl), Hn.
  rewrite (proj2 (Z.eqb_neq _ _) H13), (proj2 (Z.eqb_neq _ _) H10). cbn [orb].
  unfold edited, edit, echo. change (128 - 1) with 127. destruct ((c =? 8) || (c =? 127)) eqn:Eb.
  - assert ((32 <=? c) && (c <? 127) = false) as ->.
    { apply orb_true_iff in Eb as [E|E]; apply Z.eqb_eq in E; subst c; done. }
    cbn [andb]. rewrite Z.gtb_ltb. destruct (Z.ltb_spec 0 (Z.of_nat (length l))) as [Hp|Hp].
    + step (xputs_lit [8; 32; 8] s Hro ltac:(by_decide)). unfold modify. f_equal.
      rewrite length_take. replace (Z.of_nat (length l) - 1)
        with (Z.of_nat ((length l - 1) `min` length l)%nat) by lia. by destruct s.
    + destruct l; [|cbn in Hp; lia]. rewrite (xputc_ok 7 s). pose proof (with_cmdlen_same s [] Hn) as E0.
      cbn [length take Nat.sub Z.of_nat] in *. by rewrite E0.
  - apply orb_false_iff in Eb as [E8 E127]. apply Z.eqb_neq in E8, E127.
    destruct (Z.ltb_spec c 32), (Z.gtb_spec c 127), (Z.leb_spec 32 c), (Z.ltb_spec c 127); try lia;
      cbn [orb andb].
    1, 2: rewrite with_cmdlen_same by done; unfold ret; by rewrite emit_nil.
    destruct (Z.eqb_spec (Z.of_nat (length l)) 127) as [Ef|Ef].
    + rewrite (proj2 (Z.ltb_ge _ _)) by lia. rewrite with_cmdlen_same by done. apply (xputc_ok 7 s).
    + rewrite (proj2 (Z.ltb_lt _ _)) by lia.
      rewrite (bind_ok _ _ _ _ _ (store8_ok (cmdbuf + Z.of_nat (length l)) c s
        ltac:(eapply mapped_sub; [exact Hm|lia..]))).
      rewrite u8_small by (unfold is_u8; lia).
      unfold modify, bind. rewrite xputc_ok. f_equal. rewrite length_app. cbn [length].
      replace (Z.of_nat (length l + 1)) with (Z.of_nat (length l) + 1) by lia.
      unfold wire. cbn [map concat]. by rewrite app_nil_r.
Qed.

Lemma edited_mem s l c :
  b_mem (edited s l c) = b_mem (if (32 <=? c) && (c <? 127) && (Z.of_nat (length l) <? 127)
     then poke s (cmdbuf + Z.of_nat (length l)) [c] else s).
Proof. done. Qed.

Lemma edited_line s l c : line_ok s l ->
  line_ok (edited s l c) (edit l c) /\ same_except (b_mem s) (b_mem (edited s l c)) cmdbuf 128.
Proof.
  clear lit rd32fail rd8fail mach_exception_entry txt0 token0.
  intros (Hm & Hb & Hn & Hl & Hc). destruct (edit_ok l c Hl Hc) as [Hel Hec].
  unfold line_ok. rewrite edited_mem. unfold edited at 1. cbn [b_cmdlen emit with_cmdlen uart_of with_uart].
  destruct ((32 <=? c) && (c <? 127) && (Z.of_nat (length l) <? 127)) eqn:E.
  - apply andb_true_iff in E as [E E3]. apply andb_true_iff in E as [E1 E2].
    apply Z.leb_le in E1. apply Z.ltb_lt in E2, E3.
    assert (edit l c = l ++ [c]) as Ee.
    { unfold edit. rewrite (proj2 (Z.eqb_neq c 8)), (proj2 (Z.eqb_neq c 127)) by lia.
      rewrite (proj2 (Z.ltb_ge c 32)) by lia. rewrite Z.gtb_ltb, (proj2 (Z.ltb_ge 127 c)) by lia.
      by rewrite (proj2 (Z.eqb_neq (Z.of_nat (length l)) 127)) by lia. }
    change (b_mem (poke s (cmdbuf + Z.of_nat (length l)) [c])) with
      (write_bytes (b_mem s) (cmdbuf + Z.of_nat (length l)) [c]). rewrite Ee in *. split; [split; [|split]|].
    + by apply mapped_write.
    + apply bytes_at_app. split; [apply bytes_at_write_other; [lia|done]|].
      apply bytes_at_write. repeat constructor; lia.
    + tauto.
    + intros b Hb'. apply same_except_write. cbn [length]. lia.
  - split; [|done]. split_and!; try done. unfold edit.
    destruct ((c =? 8) || (c =? 127)) eqn:E1.
    + rewrite <- (take_drop (length l - 1) l) in Hb. by apply bytes_at_app in Hb as [Hb _].
    + destruct ((c <? 32) || (c >? 127)) eqn:E2; [done|]. destruct (Z.eqb_spec (Z.of_nat (length l)) 127); [done|].
      exfalso. apply orb_false_iff in E1 as [E8 E127], E2 as [E32 E127'].
      apply Z.eqb_neq in E127. apply Z.ltb_ge in E32. rewrite Z.gtb_ltb in E127'. apply Z.ltb_ge in E127'.
      rewrite (proj2 (Z.leb_le 32 c)), (proj2 (Z.ltb_lt c 127)), (proj2 (Z.ltb_lt _ 127)) in E by lia. done.
Qed.

(** C35: typing any characters but line ends keeps the line in [cmdbuf] as the
    abstract editor does (backspace and delete remove, control characters are
    ignored, a full line takes no more), echoes what the editor echoes, and
    never writes outside the 128 bytes of the buffer, which always has room
    for the terminating NUL. *)
Theorem typing_edits cs l (s : monitor) :
  Forall (fun c => c <> 13 /\ c <> 10) cs -> rodata_ok (b_mem s) -> line_ok s l ->
  exists s', type_all cs s = Ok tt s' /\ line_ok s' (fold_left edit cs l) /\
    u_out (b_uart s') = u_out (b_uart s) ++ wire (echoes l cs) /\
    same_except (b_mem s) (b_mem s') cmdbuf 128 /\ b_csr s' = b_csr s /\ b_stop s' = b_stop s.
Proof.
  intros Hcs. revert l s. induction Hcs as [|c cs [H13 H10] Hcs IH]; intros l s Hro Hl; cbn [type_all fold_left echoes].
  { exists s. split; [done|]. cbn. by rewrite app_nil_r. }
  step (console_char_edits c l s H13 H10 Hro Hl).
  destruct (edited_line s l c Hl) as [Hl' X].
  destruct (IH (edit l c) (edited s l c)) as (s' & E & L & O & X' & C & St); [|done|].
  { eapply rodata_frame; [exact Hro|exact X|lia..]. }
  exists s'. split; [done|]. split; [done|]. split_and!.
  - rewrite O, wire_app, app_assoc. f_equal. unfold edited. by destruct (_ && _ && _).
  - intros b Hb. by rewrite X', X by done.
  - rewrite C. unfold edited. by destruct (_ && _ && _).
  - rewrite St. unfold edited. by destruct (_ && _ && _).
Qed.
End line.

(** ** Splitting *)

(** The leading spaces of a line, and its word up to a space. *)
Fixpoint lead (l : list Z) : nat :=
  match l with c :: l' => if c =? 32 then Datatypes.S (lead l') else 0%nat | [] => 0%nat end.
Fixpoint word_of (l : list Z) : list Z :=
  match l with c :: l' => if c =? 32 then [] else c :: word_of l' | [] => [] end.

(** The first [k] words of a line stored at [a], with their addresses. *)
Fixpoint tokens (k : nat) (a : Z) (l : list Z) : list (Z * list Z) :=
  match k with
  | O => []
  | S k' =>
    let r := drop (lead l) l in
    let t := a + Z.of_nat (lead l) in
    match r with
    | [] => []
    | _ => (t, word_of r) ::
           tokens k' (t + Z.of_nat (length (word_of r))) (drop (length (word_of r)) r)
    end
  end.

(** The words of a line (the first sixteen). *)
Fixpoint words_f (k : nat) (l : list Z) : list (list Z) :=
  match k with
  | O => []
  | S k' =>
    let r := drop (lead l) l in
    match r with [] => [] | _ => word_of r :: words_f k' (drop (length (word_of r)) r) end
  end.
Definition words (l : list Z) : list (list Z) := words_f 16 l.

Lemma tokens_words k a l : map snd (tokens k a l) = words_f k l.
Proof.
  revert a l. induction k as [|k IH]; intros a l; [done|]. cbn [tokens words_f].
  destruct (drop (lead l) l) eqn:E; [done|]. cbn [map snd]. by rewrite IH.
Qed.

Lemma lead_spec l : exists r, l = replicate (lead l) 32 ++ r /\ drop (lead l) l = r /\ hd 0 r <> 32.
Proof.
  induction l as [|c l (r & E & D & H)]; [by exists []|]. cbn [lead].
  destruct (Z.eqb_spec c 32) as [->|Hc].
  - exists r. cbn [replicate app drop]. by rewrite <- E.
  - by exists (c :: l).
Qed.

Lemma word_of_spec l : exists r, l = word_of l ++ r /\ drop (length (word_of l)) l = r /\
  (r = [] \/ hd 0 r = 32) /\ Forall (fun c => c <> 32) (word_of l).
Proof.
  induction l as [|c l (r & E & D & H & F)]; [exists []; split_and!; auto|]. cbn [word_of].
  destruct (Z.eqb_spec c 32) as [->|Hc].
  - exists (32 :: l). split_and!; auto.
  - exists r. cbn [app length drop]. rewrite <- E. split_and!; auto.
Qed.

Section split.
Lemma skip_blanks_ok n a c (s : monitor) :
  bytes_at (b_mem s) a (replicate n 32 ++ [c]) -> c <> 32 -> Z.of_nat n < 2 ^ 33 ->
  skip_spaces a s = Ok (inr (a + Z.of_nat n)) (poke s a (replicate n 0)).
Proof.
  intros Hb Hc Hn. unfold skip_spaces. apply (loop_runs _ n); [|done]. name_body body. clear Hn.
  revert a s Hb. induction n as [|n IH]; intros a s Hb; cbn [replicate app] in Hb.
  - rewrite poke_nil, Z.add_0_r. apply runs_done. unfold body. step (load8_ok a c s Hb).
    by rewrite (proj2 (Z.eqb_neq _ _) Hc).
  - apply bytes_at_cons in Hb as (H32 & Hl & Hb).
    assert (bytes_at (b_mem s) a [32]) as H1 by (apply bytes_at_cons; split_and!; [done|done|apply bytes_at_nil]).
    eapply runs_step.
    + unfold body. step (load8_ok a 32 s H1). cbn [Z.eqb Pos.eqb]. step (load8_ok a 32 s H1).
      cbn [Z.eqb Pos.eqb]. step (store8_ok a 0 s (bytes_at_mapped _ _ _ 1 H1 eq_refl)). done.
    + replace (a + Z.of_nat (Datatypes.S n)) with (a + 1 + Z.of_nat n) by lia.
      change (replicate (Datatypes.S n) 0) with ([0] ++ replicate n 0).
      rewrite <- poke_poke. apply IH. apply (bytes_at_write_other (b_mem s) a [0]); [cbn; lia|done].
Qed.

Lemma scan_word_ok w a c (s : monitor) :
  bytes_at (b_mem s) a (w ++ [c]) -> Forall (fun x => x <> 32) w -> Forall (fun x => x <> 0) w ->
  c = 32 \/ c = 0 -> Z.of_nat (length w) < 2 ^ 33 ->
  scan_word a s = Ok (if c =? 32 then inr (a + Z.of_nat (length w)) else inl (a + Z.of_nat (length w))) s.
Proof.
  intros Hb Hw Hz Hc Hn. unfold scan_word. apply (loop_runs _ (length w)); [|done]. name_body body. clear Hn.
  revert a Hb. induction w as [|x w IH]; intros a Hb; cbn [app length] in *.
  - rewrite Z.add_0_r. apply runs_done. unfold body. step (load8_ok a c s Hb).
    destruct Hc as [-> | ->]; cbn [Z.eqb negb Pos.eqb]; [done|]. by step (load8_ok a 0 s Hb).
  - apply Forall_cons_iff in Hw as [Hx Hw], Hz as [Hx0 Hz]. apply bytes_at_cons in Hb as (H8 & Hl & Hb).
    assert (bytes_at (b_mem s) a [x]) as H1 by (apply bytes_at_cons; split_and!; [done|done|apply bytes_at_nil]).
    eapply runs_step.
    + unfold body. step (load8_ok a x s H1). rewrite (proj2 (Z.eqb_neq _ _) Hx). cbn [negb].
      step (load8_ok a x s H1). by rewrite (proj2 (Z.eqb_neq _ _) Hx0).
    + replace (a + Z.of_nat (Datatypes.S (length w))) with (a + 1 + Z.of_nat (length w)) by lia. by apply IH.
Qed.

(** What [split_line] leaves: the addresses of the words in the array, and each
    word (but a sixteenth) a string. *)
Definition split_done (k toklen : nat) (a : Z) (l : list Z) (token token' : list Z) (m m' : mem) : Prop :=
  let ts := tokens k a l in
  length token' = 16%nat /\ take toklen token' = take toklen token /\
  (forall i t w, ts !! i = Some (t, w) -> token' !! (toklen + i)%nat = Some t) /\
  (forall i t w, ts !! i = Some (t, w) -> (i + 1 < k)%nat -> cstr_at m' t w) /\
  same_except m m' a (Z.of_nat (length l)) /\
  (l = [] \/ (0 < k)%nat /\ hd 0 l = 32 -> m' !! a = Some 0) /\
  (forall b n, mapped m b n -> mapped m' b n).

Lemma cstr_after m m' a b l n :
  cstr_at m a l -> same_except m m' b n -> a + Z.of_nat (length l) < b \/ b + n <= a -> cstr_at m' a l.
Proof.
  intros [Hb Hz] X Hd. split; [|done]. apply bytes_at_lookup in Hb as [Hb Hl]. apply bytes_at_lookup.
  split; [done|]. intros i Hi. rewrite length_app in Hi. cbn in Hi.
  rewrite X; [apply Hl; rewrite length_app; cbn; lia|lia].
Qed.

(** Trailing spaces: no word is left. *)
Lemma split_nothing k toklen a l token (s : monitor) :
  (toklen + Datatypes.S k = 16)%nat -> length token = 16%nat -> cstr_at (b_mem s) a l ->
  Z.of_nat (length l) < 2 ^ 32 -> drop (lead l) l = [] ->
  exists m' token', split_turn (a, token, Z.of_nat toklen) s =
      Ok (inr (token', Z.of_nat toklen)) (with_mem m' s) /\
    split_done (Datatypes.S k) toklen a l token token' (b_mem s) m'.
Proof.
  intros Hk Ht [Hb Hz] Hl Hd. destruct (lead_spec l) as (r & E & D & _). rewrite Hd in D. subst r.
  rewrite app_nil_r in E. assert (lead l = length l) as Hlead by (rewrite E at 2; by rewrite length_replicate).
  rewrite Hlead in E.
  pose (m' := write_bytes (b_mem s) a (replicate (length l) 0)). exists m', (<[toklen := a + Z.of_nat (length l)]> token).
  assert (mapped (b_mem s) a (Z.of_nat (length l) + 1)) as Hmap
    by (apply (bytes_at_mapped _ _ _ _ Hb); rewrite length_app; cbn; lia).
  assert (m' !! (a + Z.of_nat (length l)) = Some 0) as H0.
  { unfold m'. rewrite lookup_write_bytes, length_replicate, decide_False by lia.
    apply bytes_at_app in Hb as [_ Hb]. apply bytes_at_cons in Hb as (_ & H & _). exact H. }
  split.
  - unfold split_turn. rewrite (proj2 (Z.ltb_lt _ _)) by (unfold MAXTOK; lia).
    rewrite E in Hb. step (skip_blanks_ok (length l) a 0 s Hb ltac:(done) ltac:(lia)). cbv zeta.
    set (s1 := poke s a (replicate (length l) 0)).
    assert (bytes_at (b_mem s1) (a + Z.of_nat (length l)) ([] ++ [0])) as Hb1.
    { apply bytes_at_cons. split; [done|]. split; [exact H0|apply bytes_at_nil]. }
    step (scan_word_ok [] _ 0 s1 Hb1 ltac:(done) ltac:(done) ltac:(by right) ltac:(done)).
    cbn [Z.eqb length]. rewrite Nat2Z.id, Z.add_0_r, (nth_lookup_Some _ _ _ (a + Z.of_nat (length l))).
    + by rewrite Z.eqb_refl.
    + apply list_lookup_insert_eq. lia.
  - unfold split_done. cbn [tokens]. rewrite Hd. rewrite length_insert. split_and!; try done.
    + by rewrite take_insert_ge by lia.
    + intros b Hb'. apply same_except_write. rewrite length_replicate. lia.
    + intros [->|[_ Hh]].
      * cbn in H0. by rewrite Z.add_0_r in H0.
      * destruct l as [|c l]; [done|]. unfold m'. rewrite lookup_write_bytes, length_replicate, decide_True by (cbn; lia).
        by rewrite Z.sub_diag.
    + intros b n. apply mapped_write.
Qed.

Lemma tokens_nil k a : tokens k a [] = [].
Proof. by destruct k. Qed.

(** A word, and then the rest of the line. *)
Lemma split_cons k toklen a n w r token token' m m' :
  let l := replicate n 32 ++ w ++ r in
  let t := a + Z.of_nat n in
  cstr_at m a l -> w <> [] -> Forall (fun c => c <> 32) w -> r = [] \/ hd 0 r = 32 ->
  (toklen < length token)%nat ->
  split_done k (Datatypes.S toklen) (t + Z.of_nat (length w)) r (<[toklen := t]> token) token'
    (write_bytes m a (replicate n 0)) m' ->
  split_done (Datatypes.S k) toklen a l token token' m m' /\
  length (tokens (Datatypes.S k) a l) = Datatypes.S (length (tokens k (t + Z.of_nat (length w)) r)).
Proof.
  intros l t [Hb Hz] Hw Hw32 Hr Ht (D1 & D2 & D3 & D4 & D5 & D6 & D7).
  assert (tokens (Datatypes.S k) a l = (t, w) :: tokens k (t + Z.of_nat (length w)) r) as Et.
  { assert (lead l = n) as En.
    { unfold l. clear - Hw Hw32. induction n as [|n IH]; cbn; [|by rewrite IH].
      destruct w as [|c w]; [done|]. apply Forall_cons_iff in Hw32 as [Hc _]. cbn.
      by rewrite (proj2 (Z.eqb_neq _ _) Hc). }
    assert (word_of (w ++ r) = w) as Ew.
    { clear - Hw32 Hr. induction Hw32 as [|c w Hc _ IH]; cbn.
      - destruct r as [|c r]; [done|]. destruct Hr as [|Hr]; [done|]. cbn in *. by subst c.
      - by rewrite (proj2 (Z.eqb_neq _ _) Hc), IH. }
    cbn [tokens]. rewrite En. unfold l. rewrite drop_app_length' by (by rewrite length_replicate).
    rewrite Ew, drop_app_length. destruct w; [done|]. done. }
  rewrite Et. split; [|done].
  assert (length w <> 0)%nat as Hw0 by (by destruct w).
  assert (token' !! toklen = Some t) as Ht0.
  { rewrite <- (lookup_take_lt _ (Datatypes.S toklen)), D2, lookup_take_lt by lia.
    by apply list_lookup_insert_eq. }
  unfold split_done. rewrite Et. split_and!.
  - done.
  - replace (take toklen token') with (take toklen (take (Datatypes.S toklen) token'))
      by (rewrite take_take; f_equal; lia).
    rewrite D2, take_take, Nat.min_l by lia. by rewrite take_insert_ge.
  - intros [|i] t' w' E; cbn in E.
    + rewrite Nat.add_0_r. by simplify_eq.
    + rewrite <- (D3 i t' w' E). f_equal. lia.
  - intros [|i] t' w' E Hi; cbn in E; [|apply (D4 i t' w' E); lia]. simplify_eq.
    unfold l in Hb. rewrite <- !app_assoc in Hb. apply bytes_at_app in Hb as [_ Hb]. rewrite length_replicate in Hb.
    apply bytes_at_app in Hb as [Hb _]. split.
    + apply bytes_at_app. split.
      * apply bytes_at_lookup in Hb as [Hb Hl]. apply bytes_at_lookup. split; [done|]. intros i Hi'.
        rewrite D5 by lia. rewrite lookup_write_bytes, length_replicate, decide_False by lia. by apply Hl.
      * apply bytes_at_cons. split; [done|]. split; [|apply bytes_at_nil]. apply D6.
        destruct Hr; [by left|right; split; [lia|done]].
    + unfold l in Hz. apply Forall_app in Hz as [_ Hz]. by apply Forall_app in Hz as [Hz _].
  - intros b Hb'. unfold l in Hb'. rewrite !length_app, length_replicate in Hb'. rewrite D5 by lia.
    rewrite lookup_write_bytes, length_replicate, decide_False by lia. done.
  - intros [E|[_ E]].
    + exfalso. unfold l in E. destruct n, w; done.
    + destruct n as [|n].
      * destruct w as [|c w]; [done|]. apply Forall_cons_iff in Hw32 as [Hc _]. by cbn in E.
      * rewrite D5 by lia. rewrite lookup_write_bytes, length_replicate, decide_True by lia.
        by rewrite Z.sub_diag.
  - intros b n' H. by apply D7, mapped_write.
Qed.

Lemma split_runs k : forall toklen a l token (s : monitor),
  (toklen + k = 16)%nat -> length token = 16%nat -> cstr_at (b_mem s) a l ->
  Z.of_nat (length l) < 2 ^ 32 ->
  exists j m' token', (j <= k)%nat /\
    runs split_turn j (a, token, Z.of_nat toklen) s
      (Ok (token', Z.of_nat (toklen + length (tokens k a l))) (with_mem m' s)) /\
    split_done k toklen a l token token' (b_mem s) m'.
Proof.
  induction k as [|k IH]; intros toklen a l token s Hk Ht Hs Hl.
  { exists 0%nat, (b_mem s), token. split; [done|]. split.
    - apply runs_done. unfold split_turn. rewrite (proj2 (Z.ltb_ge _ _)) by (unfold MAXTOK; lia).
      cbn [tokens length]. rewrite Nat.add_0_r. by destruct s.
    - split_and!; try done. intros [->|[H _]]; [|lia]. destruct Hs as [Hb _].
      by apply bytes_at_cons in Hb as (_ & H & _). }
  destruct (lead_spec l) as (r & El & Dl & Hr). set (n := lead l) in *.
  destruct r as [|c r'] eqn:Er.
  { destruct (split_nothing k toklen a l token s Hk Ht Hs Hl Dl) as (m' & token' & E & D).
    exists 0%nat, m', token'. split; [lia|]. split; [|done]. cbn [tokens]. fold n. rewrite Dl. cbn [length].
    rewrite Nat.add_0_r. by apply runs_done. }
  rewrite <- Er in *. destruct (word_of_spec r) as (r2 & Ew & _ & Hr2 & Hw32). set (w := word_of r) in *.
  assert (w <> []) as Hw.
  { unfold w. rewrite Er. cbn. rewrite Er in Hr. cbn in Hr. by rewrite (proj2 (Z.eqb_neq _ _) Hr). }
  clearbody w. rewrite Ew in El. clear Dl Hr Er Ew. clearbody n. subst l. destruct Hs as [Hb Hz].
  assert (Forall (fun c => c <> 0) w) as Hwz.
  { apply Forall_app in Hz as [_ Hz]. by apply Forall_app in Hz as [Hz _]. }
  rewrite !length_app, length_replicate in Hl.
  set (t := a + Z.of_nat n). set (m1 := write_bytes (b_mem s) a (replicate n 0)).
  set (s1 := poke s a (replicate n 0)). change (b_mem s1) with m1.
  assert (skip_spaces a s = Ok (inr t) s1) as Eskip.
  { destruct w as [|cw w']; [done|]. apply (skip_blanks_ok n a cw); [|by apply Forall_cons_iff in Hw32 as [? _]|lia].
    replace (replicate n 32 ++ (cw :: w') ++ r2) with ((replicate n 32 ++ [cw]) ++ w' ++ r2) in Hb
      by (by rewrite <- app_assoc). rewrite <- app_assoc in Hb. by apply bytes_at_app in Hb as [Hb _]. }
  assert (bytes_at m1 t (w ++ r2 ++ [0])) as Hb1.
  { rewrite <- !app_assoc in Hb. apply bytes_at_app in Hb as [_ Hb]. rewrite length_replicate in Hb.
    apply bytes_at_write_other; [rewrite length_replicate; lia|done]. }
  assert (scan_word t s1 = Ok (if hd 0 (r2 ++ [0]) =? 32 then inr (t + Z.of_nat (length w))
                               else inl (t + Z.of_nat (length w))) s1) as Escan.
  { apply scan_word_ok; [|done|done|destruct r2 as [|x r2]; [by right|left; by destruct Hr2]|lia].
    apply bytes_at_app in Hb1 as [Hw1 Hr1]. apply bytes_at_app. split; [done|].
    destruct r2 as [|x r2]; [done|]. cbn [app hd] in *. apply bytes_at_cons in Hr1 as (? & ? & _).
    apply bytes_at_cons. split_and!; [done|done|apply bytes_at_nil]. }
  assert (toklen < length token)%nat as Hlt by lia.
  destruct Hr2 as [->|H32].
  - (* the last word *)
    cbn [app hd Z.eqb] in Escan. rewrite app_nil_r in *. rewrite ?app_nil_r in Hb, Hb1.
    assert (m1 !! (t + Z.of_nat (length w)) = Some 0) as H0.
    { apply bytes_at_app in Hb1 as [_ Hb1]. by apply bytes_at_cons in Hb1 as (_ & H & _). }
    pose proof (split_cons k toklen a n w [] token (<[toklen := t]> token) (b_mem s) m1) as Hc.
    cbv zeta in Hc. rewrite app_nil_r in Hc. destruct Hc as [Hd Hlen]; [by split|done|done|by left|done| |].
    { unfold split_done. rewrite tokens_nil, length_insert. split_and!; try done. }
    rewrite tokens_nil in Hlen. exists 0%nat, m1, (<[toklen := t]> token). split; [lia|]. split; [|done].
    apply runs_done. unfold split_turn. rewrite (proj2 (Z.ltb_lt _ _)) by (unfold MAXTOK; lia).
    step Eskip. cbv zeta. step Escan. rewrite Nat2Z.id.
    rewrite (nth_lookup_Some _ _ _ t) by (by apply list_lookup_insert_eq).
    assert (length w <> 0)%nat as Hw0 by (by destruct w). rewrite (proj2 (Z.eqb_neq t _)) by lia. cbn [negb].
    assert (bytes_at (b_mem s1) (t + Z.of_nat (length w)) [0]) as H0'.
    { apply bytes_at_cons. split_and!; [done|exact H0|apply bytes_at_nil]. }
    step (store8_ok (t + Z.of_nat (length w)) 0 s1 (bytes_at_mapped _ _ _ 1 H0' eq_refl)).
    rewrite poke_id by exact H0'. rewrite Hlen. cbn [length]. unfold ret. do 3 f_equal. lia.
  - destruct r2 as [|x r2']; [done|]. cbn in H32. subst x. cbn [app hd Z.eqb Pos.eqb] in Escan.
    destruct (IH (Datatypes.S toklen) (t + Z.of_nat (length w)) (32 :: r2') (<[toklen := t]> token) s1)
      as (j & m' & token' & Hj & R & D); [lia|by rewrite length_insert| |cbn [length] in *; lia|].
    { apply bytes_at_app in Hb1 as [_ Hb1]. split; [done|]. apply Forall_app in Hz as [_ Hz].
      by apply Forall_app in Hz as [_ Hz]. }
    destruct (split_cons k toklen a n w (32 :: r2') token token' (b_mem s) m') as [Hd Hlen];
      [by split|done|done|by right|done|done|].
    exists (Datatypes.S j), m', token'. split; [lia|]. split; [|done].
    eapply runs_step.
    + unfold split_turn. rewrite (proj2 (Z.ltb_lt _ _)) by (unfold MAXTOK; lia).
      step Eskip. cbv zeta. step Escan. rewrite Nat2Z.id.
      replace (Z.of_nat toklen + 1) with (Z.of_nat (Datatypes.S toklen)) by lia. done.
    + rewrite Hlen. rewrite Nat.add_succ_r, <- Nat.add_succ_l. unfold s1, poke in R.
      rewrite with_mem_with in R. exact R.
Qed.

(** [split_line] returns the words of the line. *)
Lemma split_line_ok k a l token (s : monitor) :
  k = 16%nat -> length token = 16%nat -> cstr_at (b_mem s) a l -> Z.of_nat (length l) < 2 ^ 32 ->
  exists m' token', split_line a token s =
      Ok (token', Z.of_nat (length (tokens k a l))) (with_mem m' s) /\
    split_done k 0 a l token token' (b_mem s) m'.
Proof.
  intros Hk Ht Hs Hl. destruct (split_runs k 0 a l token s Hk Ht Hs Hl) as (j & m' & token' & Hj & R & D).
  exists m', token'. split; [|exact D]. unfold split_line.
  apply (loop_runs _ j); [exact R|]. clear - Hj Hk. lia.
Qed.
End split.

(** A monitor with the line buffer at 0x1000, a frame at 0x1800 and the
    literals from 0x2000 on. *)
Fixpoint lit_from (a : Z) (ls : list (list Z)) (l : list Z) : Z :=
  match ls with [] => a | l' :: ls' => if decide (l = l') then a else lit_from (a + 32) ls' l end.
Definition demo_lit : list Z -> Z := lit_from 0x2000 literals.
Definition demo_mem (line : list Z) : mem :=
  fold_right (fun l m => write_bytes m (demo_lit l) (l ++ [0]))
    (write_bytes (mem_lit 0x1000 (line ++ replicate (128 - length line) 0)) 0x1800 (replicate 128 7)) literals.
Definition demo_monitor (line : list Z) (rx : list Z) (more : list (list Z)) : monitor :=
  {| b_mem := demo_mem line; b_uart := {| u_stalls := [2]; u_out := [] |}; b_rx := rx; b_more := more;
     b_csr := {[CSR_MSTATUS := 0x80]}; b_uart_regs := []; b_cmdlen := Z.of_nat (length line);
     b_stop := 0; b_ef := 0x1800; b_mret := None |}.

Lemma typing_edits_witness :
  exists s', type_all 0x1000 demo_lit 0 0 0 [] [] [100; 120; 8; 119] (demo_monitor [] [] []) = Ok tt s' /\
    line_ok 0x1000 s' [100; 119] /\
    u_out (b_uart s') = [] ++ wire [100; 120; 8; 32; 8; 119] /\
    same_except (demo_mem []) (b_mem s') 0x1000 128 /\
    b_csr s' = {[CSR_MSTATUS := 0x80]} /\ b_stop s' = 0.
Proof.
  apply (typing_edits 0x1000 demo_lit 0 0 0 [] [] [100; 120; 8; 119] [] (demo_monitor [] [] []));
    [repeat constructor; lia|by_decide|by_decide].
Defined.
