(* ===== verification/MonitorRun.v ===== *)
(** * The monitor's commands

    [run_words] is the command interpreter on the words of a line; executing a
    line is executing its words ([console_line_runs]).  Every command returns
    ([quiet]): it prints, it may move the trap vector, the status and the stop
    flag, and nothing else changes, whatever was typed. *)

From S2P Require Import Prelude Monad Mem LibcMem LibcStr Uart Printf Exception Monitor MonitorLine.

(** The value of a hexadecimal digit: its place among the digits. *)
Fixpoint place (c : Z) (digits : list Z) : option Z :=
  match digits with
  | [] => None
  | d :: digits' => if decide (c = d) then Some 0 else option_map (Z.add 1) (place c digits')
  end.
Definition digit_value (c : Z) : option Z :=
  match place c (str "0123456789abcdef") with
  | Some d => Some d
  | None => place c (str "0123456789ABCDEF")
  end.

Lemma place_in c ds d : place c ds = Some d -> c ∈ ds.
Proof.
  revert d. induction ds as [|e ds IH]; intros d; cbn [place]; [done|]. case_decide as E; [subst; set_solver|].
  destruct (place c ds); [|done]. intros _. apply list_elem_of_further. by eapply IH.
Qed.

Lemma hex_value_digit c : hex_value c = digit_value c.
Proof.
  destruct (decide (c ∈ seqZ 48 55)) as [Hc|Hc].
  { assert (Forall (fun c => hex_value c = digit_value c) (seqZ 48 55)) as H by by_decide.
    rewrite Forall_forall in H. by apply H, list_elem_of_In. }
  assert (Forall (fun e => e ∈ seqZ 48 55) (str "0123456789abcdef" ++ str "0123456789ABCDEF")) as Hd by by_decide.
  rewrite Forall_forall in Hd. unfold digit_value.
  destruct (place c (str "0123456789abcdef")) as [d|] eqn:E1; [apply place_in in E1; exfalso; apply Hc, Hd, list_elem_of_In, elem_of_app; by left|].
  destruct (place c (str "0123456789ABCDEF")) as [d|] eqn:E2; [apply place_in in E2; exfalso; apply Hc, Hd, list_elem_of_In, elem_of_app; by right|].
  rewrite elem_of_seqZ in Hc. unfold hex_value.
  rewrite !(proj2 (andb_false_iff _ _)) by (rewrite !Z.leb_gt; lia). done.
Qed.

(** The number a word stands for: its hexadecimal digits up to the first
    character that is none, modulo 2^32. *)
Fixpoint hexnum (n : Z) (w : list Z) : Z :=
  match w with
  | [] => n
  | c :: w' => match digit_value c with Some d => hexnum (u32 (16 * n) + d) w' | None => n end
  end.

(** Name, argument letters, help text and routine of each command. *)
Definition table : list (list Z * list Z * list Z * command) :=
  [(str "help", str "", str "help", Do_help);
   (str "regs", str "", str "dump registers", Do_regs);
   (str "dw", str "xx", str "dump words <addr> <count>", Do_dw);
   (str "db", str "xx", str "dump bytes <addr> <count>", Do_db);
   (str "stop", str "", str "stop execution", Do_stop);
   (str "cont", str "", str "continue execution", Do_cont)].

Fixpoint lookup_cmd (t : list (list Z * list Z * list Z * command)) (w : list Z) : option (list Z * command) :=
  match t with
  | [] => None
  | (n, a, _, f) :: t' => if decide (n = w) then Some (a, f) else lookup_cmd t' w
  end.

Lemma hex_value_range c d : hex_value c = Some d -> 0 <= d < 16.
Proof.
  unfold hex_value. destruct (Z.leb_spec 97 c), (Z.leb_spec c 102); cbn [andb]; try (intros [= <-]; lia).
  all: destruct (Z.leb_spec 65 c), (Z.leb_spec c 70); cbn [andb]; try (intros [= <-]; lia).
  all: destruct (Z.leb_spec 48 c), (Z.leb_spec c 57); cbn [andb]; try (intros [= <-]; lia); done.
Qed.

Lemma atox_ok w a (s : monitor) : cstr_at (b_mem s) a w -> Z.of_nat (length w) < 2 ^ 32 ->
  atox a s = Ok (hexnum 0 w) s.
Proof.
  intros Hw Hl. unfold atox. name_body body.
  enough (forall n, exists k, (k <= length w)%nat /\ runs body k (n, a) s (Ok (hexnum n w) s)) as H.
  { destruct (H 0) as (k & Hk & R). apply (loop_runs _ k); [exact R|lia]. }
  clear Hl. revert a Hw. induction w as [|c w IH]; intros a Hw n.
  - exists 0%nat. split; [done|]. apply runs_done. unfold body. by step (load8_hd a [] s Hw).
  - pose proof (proj1 (cstr_at_cons _ _ _ _) Hw) as (_ & Hc & _ & Hw'). cbn [hexnum length].
    rewrite <- hex_value_digit. destruct (hex_value c) as [d|] eqn:E.
    + destruct (IH (a + 1) Hw' (u32 (16 * n) + d)) as (k & Hk & R). exists (Datatypes.S k). split; [lia|].
      eapply runs_step; [|exact R]. unfold body. step (load8_hd a (c :: w) s Hw). cbn [hd].
      rewrite (proj2 (Z.eqb_neq _ _) Hc), E. cbn [negb]. unfold ret. do 4 f_equal.
      apply hex_value_range in E. rewrite Z.shiftl_mul_pow2 by lia. change (2 ^ 4) with 16.
      rewrite (Z.mul_comm n). apply (lor_low _ _ 4); [lia|done|]. change (2 ^ 4) with 16. zarith.
    + exists 0%nat. split; [lia|]. apply runs_done. unfold body. step (load8_hd a (c :: w) s Hw). cbn [hd].
      by rewrite (proj2 (Z.eqb_neq _ _) Hc), E.
Qed.

Lemma tokens_count k a l : (length (tokens k a l) <= k)%nat.
Proof.
  revert a l. induction k as [|k IH]; intros a l; cbn [tokens]; [done|].
  destruct (drop (lead l) l) eqn:E; cbn [length]; [lia|]. apply le_n_S, IH.
Qed.

Lemma word_of_length l : (length (word_of l) <= length l)%nat.
Proof. induction l as [|c l IH]; cbn [word_of]; [done|]. destruct (c =? 32); cbn [length]; lia. Qed.

Lemma tokens_length k a l i t w : tokens k a l !! i = Some (t, w) -> (length w <= length l)%nat.
Proof.
  revert a l i. induction k as [|k IH]; intros a l i; cbn [tokens]; [done|].
  pose proof (length_drop l (lead l)) as Hd. destruct (drop (lead l) l) as [|c r] eqn:E; [done|].
  destruct i as [|i]; cbn [lookup list_lookup].
  - intros H. assert (w = word_of (c :: r)) as -> by congruence. pose proof (word_of_length (c :: r)). lia.
  - intros Hi. apply IH in Hi. rewrite length_drop in Hi. lia.
Qed.

Section run.
Context (cmdbuf : Z) (lit : list Z -> Z) (rd32fail rd8fail mach_exception_entry : Z).
Context (txt0 token0 : list Z).

Abbreviation call_cmd := (console_call_cmd lit rd32fail rd8fail txt0).
Abbreviation rodata_ok := (rodata_ok cmdbuf lit).

(** A line, as its words. *)
Definition run_words (ws : list (list Z)) : M monitor unit :=
  match ws with
  | [] => ret tt
  | w :: ws' =>
    match lookup_cmd table w with
    | None => xprintf (str "unknown command '%s'" ++ nl) [VaStr (Some w)]
    | Some (sig, f) =>
      if (length sig <? length ws')%nat then xprintf (str "error: too many arguments" ++ nl) []
      else
        let x i := nth i (map (hexnum 0) ws') 0 in
        call_cmd f (x 0%nat) (x 1%nat) 0 0 (Z.of_nat (length ws'))
    end
  end.

Definition cmd_of (e : list Z * list Z * list Z * command) : console_cmd_t :=
  {| name := lit e.1.1.1; args := lit e.1.1.2; help := lit e.1.2; fn := e.2 |}.

Lemma CMDS_table : CMDS lit = map cmd_of table.
Proof. reflexivity. Qed.

Definition entry_ok (e : list Z * list Z * list Z * command) : Prop :=
  e.1.1.1 ∈ literals /\ e.1.1.2 ∈ literals /\ e.1.2 ∈ literals /\
  (length e.1.1.1 < 100)%nat /\ (length e.1.2 < 100)%nat /\ (e.1.1.2 = str "" \/ e.1.1.2 = str "xx").

Lemma table_ok : Forall entry_ok table.
Proof. unfold entry_ok. by_decide. Qed.

Definition find_entry (t : list (list Z * list Z * list Z * command)) (w : list Z) :=
  find (fun e => bool_decide (e.1.1.1 = w)) t.

Lemma find_cmd_ok t tok w (s : monitor) : Forall entry_ok t -> rodata_ok (b_mem s) ->
  cstr_at (b_mem s) tok w ->
  find_cmd (map cmd_of t) tok s = Ok (option_map cmd_of (find_entry t w)) s.
Proof.
  intros Ht Hro Hw. unfold find_entry.
  induction Ht as [|e t (Hn & _ & _ & Hlen & _) _ IH]; cbn [map find_cmd find]; [done|].
  assert (cstr_at (b_mem s) (lit e.1.1.1) e.1.1.1) as Hc by by eapply rodata_cstr.
  cbn [cmd_of name]. step (strcmp_ok _ _ _ _ s Hc Hw ltac:(lia)).
  pose proof (first_diff_str e.1.1.1 w) as Hfd.
  destruct Hc as [B1 N1], Hw as [B2 N2]. apply bytes_at_bytes, Forall_app in B1 as [B1 _], B2 as [B2 _].
  specialize (Hfd B1 B2). destruct (bool_decide_reflect (e.1.1.1 = w)) as [E|E].
  - by rewrite (proj2 (Z.eqb_eq _ 0)) by tauto.
  - by rewrite (proj2 (Z.eqb_neq _ 0)) by tauto.
Qed.

Lemma lookup_find t w : lookup_cmd t w = option_map (fun e => (e.1.1.2, e.2)) (find_entry t w).
Proof.
  unfold find_entry. induction t as [|[[[n a] h] f] t IH]; [done|]. cbn. rewrite IH. case_decide; case_bool_decide; tauto.
Qed.

(** The arguments after conversion. *)
Definition argx_of (ws : list (list Z)) : list Z :=
  [nth 0 (map (hexnum 0) ws) 0; nth 1 (map (hexnum 0) ws) 0; 0; 0].

Lemma convert_args_ok e argv ws (s : monitor) :
  entry_ok e -> rodata_ok (b_mem s) -> (length ws <= length e.1.1.2)%nat ->
  (forall n w, ws !! n = Some w -> cstr_at (b_mem s) (nth n argv 0) w /\ Z.of_nat (length w) < 2 ^ 32) ->
  convert_args lit (cmd_of e) argv (Z.of_nat (length ws)) (Z.of_nat (length e.1.1.2)) s =
  Ok (Some (argx_of ws)) s.
Proof.
  intros (_ & Hsig & _ & _ & _ & Hargs) Hro Hlen Hw.
  pose proof (rodata_cstr cmdbuf lit _ _ Hro Hsig) as Hc.
  unfold convert_args. cbn [cmd_of args]. destruct Hargs as [E|E]; rewrite E in *; name_body body.
  - change (length (str "")) with 0%nat in *. destruct ws; [|cbn in Hlen; lia]. apply (loop_runs _ 0); [|done]. by apply runs_done.
  - change (length (str "xx")) with 2%nat in *.
    assert (forall i : nat, (i < 2)%nat -> load8 (lit (str "xx") + Z.of_nat i) s = Ok 120 s) as Hx.
    { intros i Hi. assert (cstr_at (mem_of s) (lit (str "xx")) (str "xx")) as Hc' by exact Hc.
      rewrite (load8_nth _ _ i s Hc') by (change (length (str "xx")) with 2%nat; lia). by destruct i as [|[|i]]; [..|lia]. }
    assert (forall i v l, (i < 2)%nat -> v = nth i (map (hexnum 0) ws) 0 ->
      body (Z.of_nat i, l) s = Ok (inl (Z.of_nat i + 1, <[i := v]> l)) s) as Hstep.
    { intros i v l Hi ->. unfold body. rewrite (proj2 (Z.ltb_lt _ _)) by (cbn; lia).
      step (Hx i Hi). cbv zeta. change (120 =? 120) with true. cbv iota. rewrite Nat2Z.id.
      destruct (ws !! i) as [w|] eqn:Ei.
      - destruct (Hw i w Ei) as [Hcw Hlw]. pose proof (lookup_lt_Some _ _ _ Ei).
        rewrite (proj2 (Z.ltb_lt _ _)) by lia. step (atox_ok w _ s Hcw Hlw). unfold ret. repeat f_equal.
        symmetry. rewrite (nth_lookup_Some _ _ _ (hexnum 0 w)); [done|]. by rewrite list_lookup_fmap, Ei.
      - apply lookup_ge_None in Ei. rewrite (proj2 (Z.ltb_ge _ _)) by lia. rewrite bind_ret.
        rewrite nth_overflow by (rewrite length_map; lia). done. }
    apply (loop_runs _ 2); [|done].
    eapply runs_step; [exact (Hstep 0%nat _ _ ltac:(lia) eq_refl)|].
    eapply runs_step; [exact (Hstep 1%nat _ _ ltac:(lia) eq_refl)|].
    by apply runs_done.
Qed.

Lemma console_cmd_ok e argv ws (s : monitor) :
  entry_ok e -> rodata_ok (b_mem s) -> Z.of_nat (length ws) < 100 ->
  (forall n w, ws !! n = Some w -> (n < 2)%nat -> cstr_at (b_mem s) (nth n argv 0) w /\ Z.of_nat (length w) < 2 ^ 32) ->
  console_cmd lit rd32fail rd8fail txt0 (cmd_of e) argv (Z.of_nat (length ws)) s =
  (if (length e.1.1.2 <? length ws)%nat then xprintf (str "error: too many arguments" ++ nl) []
   else call_cmd e.2 (nth 0 (map (hexnum 0) ws) 0) (nth 1 (map (hexnum 0) ws) 0) 0 0 (Z.of_nat (length ws))) s.
Proof.
  intros He Hro Hlen Hw. pose proof He as (_ & Hsig & _ & _ & _ & Hargs).
  pose proof (rodata_cstr cmdbuf lit _ _ Hro Hsig) as Hc.
  assert (length e.1.1.2 <= 2)%nat as Hmax by (destruct Hargs as [-> | ->]; by_decide).
  unfold console_cmd. change (args (cmd_of e)) with (lit e.1.1.2). change (fn (cmd_of e)) with e.2.
  step (strlen_ok (lit e.1.1.2) e.1.1.2 s Hc ltac:(lia)).
  destruct (Nat.ltb_spec (length e.1.1.2) (length ws)) as [Hlt|Hge].
  - rewrite (proj2 (orb_true_iff _ _)); [done|]. left. rewrite Z.gtb_ltb. apply Z.ltb_lt. lia.
  - assert ((Z.of_nat (length ws) >? Z.of_nat (length e.1.1.2)) || (Z.of_nat (length ws) >? 4) = false) as ->.
    { rewrite orb_false_iff, !Z.gtb_ltb, !Z.ltb_ge. lia. }
    assert (forall n w, ws !! n = Some w -> cstr_at (b_mem s) (nth n argv 0) w /\ Z.of_nat (length w) < 2 ^ 32) as Hw'.
    { intros n w Hn. apply Hw; [done|]. apply lookup_lt_Some in Hn. lia. }
    by step (convert_args_ok e argv ws s He Hro Hge Hw').
Qed.

(** Executing a line is executing its words: a line of memory, clear of the
    literals, is split in place, the first word selects the command and the
    others are its numbers, and the prompt follows. *)
Lemma console_line_ok a l (s : monitor) :
  rodata_ok (b_mem s) -> cstr_at (b_mem s) a l -> cmdbuf <= a ->
  a + Z.of_nat (length l) <= cmdbuf + 128 -> length token0 = 16%nat ->
  exists m', console_line lit rd32fail rd8fail txt0 token0 a s =
      (run_words (words l) ;; xputs (lit (str "monitor> "))) (with_mem m' s) /\
    same_except (b_mem s) m' a (Z.of_nat (length l)) /\
    (forall b n, mapped (b_mem s) b n -> mapped m' b n) /\ rodata_ok m'.
Proof.
  intros Hro Hl Ha Hal Ht.
  destruct (split_line_ok 16 a l token0 s eq_refl Ht Hl ltac:(lia)) as (m' & token & E & D).
  destruct D as (D1 & _ & D3 & D4 & D5 & _ & D7). exists m'.
  assert (rodata_ok m') as Hro' by (eapply rodata_frame; [exact Hro|exact D5|lia..]).
  split; [|done]. unfold console_line. step E. set (s' := with_mem m' s).
  unfold words. rewrite <- (tokens_words 16 a l). clear E.
  assert (forall i t w, tokens 16 a l !! i = Some (t, w) -> Z.of_nat (length w) < 2 ^ 32) as Hwl.
  { intros i t w Ei. apply tokens_length in Ei. lia. }
  pose proof (tokens_count 16 a l) as Hcount.
  destruct (tokens 16 a l) as [|[t w] ts] eqn:Ets.
  { cbn [length map run_words]. done. }
  cbn [length] in *. rewrite (proj2 (Z.eqb_neq _ 0)) by lia. cbn [negb map snd run_words]. cbv zeta.
  assert (nth 0 token 0 = t) as -> by (apply nth_lookup_Some; by apply (D3 0%nat t w)).
  assert (cstr_at (b_mem s') t w) as Hw by (apply (D4 0%nat t w); [done|lia]).
  apply bind_cong. rewrite lookup_find. rewrite CMDS_table. step (find_cmd_ok table t w s' table_ok Hro' Hw).
  destruct (find_entry table w) as [e|] eqn:Ef; cbn [option_map].
  - assert (entry_ok e) as He by (eapply Forall_forall; [exact table_ok|]; by eapply find_some).
    replace (Z.of_nat (Datatypes.S (length ts)) - 1) with (Z.of_nat (length (map snd ts))) by (rewrite length_map; lia).
    apply console_cmd_ok; [done|done|rewrite length_map; lia|].
    intros n w' Hn H2. rewrite list_lookup_fmap in Hn. destruct (ts !! n) as [[t' w'']|] eqn:En; [|done].
    cbn in Hn. simplify_eq. pose proof (D3 (Datatypes.S n) t' w' En) as Ht'. split; [|by eapply (Hwl (Datatypes.S n))].
    rewrite (nth_lookup_Some _ _ _ t').
    + apply (D4 (Datatypes.S n) t' w'); [done|lia].
    + destruct token; [done|]. exact Ht'.
  - step (c_string_ok w t s' Hw (Hwl 0%nat t w eq_refl)). done.
Qed.
End run.

(** ** Commands return *)

(** What a trap at a load writes, with the vector the loads point elsewhere. *)
Definition trap_written : list Z := [CSR_MTVEC; CSR_MSTATUS; CSR_MEPC; CSR_MCAUSE; CSR_MTVAL].

(** From [s] to [s'] something was printed, the trap vector, the status,
    exception pc, cause and value CSRs or the stop flag may have changed, and
    nothing else. *)
Definition quiet (s s' : monitor) : Prop :=
  b_mem s' = b_mem s /\ b_rx s' = b_rx s /\ b_more s' = b_more s /\ b_uart_regs s' = b_uart_regs s /\
  b_cmdlen s' = b_cmdlen s /\ b_ef s' = b_ef s /\ b_mret s' = b_mret s /\
  (forall r, r ∉ trap_written -> b_csr s' !! r = b_csr s !! r) /\
  (exists out, u_out (b_uart s') = u_out (b_uart s) ++ out).

#[export] Instance quiet_refl : Reflexive quiet.
Proof. intros s. unfold quiet. split_and!; try done. exists []. by rewrite app_nil_r. Qed.

#[export] Instance quiet_trans : Transitive quiet.
Proof.
  intros s1 s2 s3 (A1 & A2 & A3 & A4 & A5 & A6 & A0 & A7 & o1 & A8) (B1 & B2 & B3 & B4 & B5 & B6 & B0 & B7 & o2 & B8).
  unfold quiet. split_and!; try congruence.
  - intros r Hr. by rewrite B7, A7.
  - exists (o1 ++ o2). by rewrite B8, A8, app_assoc.
Qed.

Lemma quiet_emit l s : quiet s (emit l s).
Proof. unfold quiet. split_and!; try done. by exists l. Qed.

Lemma quiet_csr r v s : r ∈ trap_written ->
  quiet s (with_csr (<[r := v]> (b_csr s)) s).
Proof.
  intros Hr. unfold quiet. split_and!; try done; [|exists []; by rewrite app_nil_r].
  intros r' Hr'. cbn. apply lookup_insert_ne. by intros ->.
Qed.

(** *** Memory dumps *)

(** The word [dw] shows at an address: zero where the load traps. *)
Definition word_shown (m : mem) (a : Z) : Z :=
  if a mod 4 =? 0 then from_option le_val 0 (read_bytes m a 4) else 0.

(** The text of a dump of [k] words from the [i]-th on: four to a line, each
    line led by its address. *)
Fixpoint dw_words (m : mem) (i : Z) (addr : Z) (k : nat) : list Z :=
  match k with
  | O => []
  | S k' => (if i mod 4 =? 0 then nl ++ hex_field 8 addr ++ str ":" else []) ++
            str " " ++ hex_field 8 (word_shown m addr) ++ dw_words m (i + 1) (u32 (addr + 4)) k'
  end.

Section dumps.
Context (rd32fail : Z).

Definition shows (out : list Z) (s s' : monitor) : Prop :=
  quiet s s' /\ u_out (b_uart s') = u_out (b_uart s) ++ out.

Lemma shows_trans o1 o2 s1 s2 s3 : shows o1 s1 s2 -> shows o2 s2 s3 -> shows (o1 ++ o2) s1 s3.
Proof.
  intros [Q1 E1] [Q2 E2]. split; [by transitivity s2|]. by rewrite E2, E1, app_assoc.
Qed.

Lemma shows_emit l s : shows l s (emit l s).
Proof. split; [apply quiet_emit|done]. Qed.

Lemma shows_nil s : shows [] s s.
Proof. split; [done|by rewrite app_nil_r]. Qed.

Lemma shows_mem o s s' : shows o s s' -> b_mem s' = b_mem s.
Proof. by intros [(E & _) _]. Qed.

Lemma load_trap_ok cause addr pc s : exists s', load_trap cause addr pc s = Ok tt s' /\ shows [] s s'.
Proof.
  eexists. split; [unfold load_trap, bind, csr_read, gets, csr_write, modify; reflexivity|].
  split; [|by rewrite app_nil_r].
  repeat (etransitivity; [|apply quiet_csr; set_solver]). done.
Qed.

Lemma rd32safe_ok addr s : exists s', rd32safe rd32fail addr s = Ok (word_shown (b_mem s) addr) s' /\ shows [] s s'.
Proof.
  unfold rd32safe, word_shown.
  set (s1 := with_csr (<[CSR_MTVEC := u32 rd32fail]> (b_csr s)) s).
  rewrite (bind_ok (csr_write CSR_MTVEC rd32fail) _ s tt s1) by done.
  assert (shows [] s s1) as H1 by (split; [apply quiet_csr; set_solver|by rewrite app_nil_r]).
  assert (forall c, exists s', (load_trap c addr (rd32fail - 4) ;; ret 0) s1 = Ok 0 s' /\ shows [] s s') as Htrap.
  { intros c. destruct (load_trap_ok c addr (rd32fail - 4) s1) as (s' & E & H). exists s'. step E. split; [done|].
    exact (shows_trans [] [] _ _ _ H1 H). }
  destruct (addr mod 4 =? 0); [|apply Htrap].
  rewrite (bind_ok get _ s1 s1 s1 eq_refl). change (b_mem s1) with (b_mem s).
  destruct (read_bytes (b_mem s) addr 4); [by exists s1|apply Htrap].
Qed.

Lemma dw_line addr (s : monitor) : xprintf (nl ++ str "%08x:") [VaWord addr] s =
  Ok tt (emit (wire (nl ++ hex_field 8 addr ++ str ":")) s).
Proof. apply (xprintf_hex 8 nl (str ":") addr s); [lia|by_decide..]. Qed.

Lemma dw_word v (s : monitor) : xprintf (str " %08x") [VaWord v] s =
  Ok tt (emit (wire (str " " ++ hex_field 8 v)) s).
Proof.
  rewrite <- (app_nil_r (hex_field 8 v)). apply (xprintf_hex 8 (str " ") [] v s); [lia|by_decide..].
Qed.

(** The dump of [n] argument words is printed, and [do_dw] returns. *)
Lemma do_dw_ok n addr count s : 0 <= count ->
  let k := Z.min 1024 (if n <? 2 then 1 else count) in
  exists s', do_dw rd32fail n addr count s = Ok tt s' /\
    shows (wire (dw_words (b_mem s) 0 addr (Z.to_nat k) ++ (if k mod 4 =? 0 then nl else []))) s s'.
Proof.
  intros Hc k. unfold do_dw. set (c1 := if n <? 2 then 1 else count).
  assert ((if c1 >? 1024 then 1024 else c1) = k) as ->.
  { unfold k. fold c1. rewrite Z.gtb_ltb. destruct (Z.ltb_spec 1024 c1); lia. }
  assert (0 <= k <= 1024) as Hk by (unfold k, c1; destruct (n <? 2); lia).
  match goal with |- context [loop ?f] => set (body := f) end.
  assert (forall j i addr s, 0 <= i -> i + Z.of_nat j = k -> exists s',
    runs body j (i, addr) s (Ok k s') /\ shows (wire (dw_words (b_mem s) i addr j)) s s') as Hrun.
  { clear Hk. induction j as [|j IH]; intros i ad st Hi0 Hi.
    - exists st. split; [|apply shows_nil]. apply runs_done. unfold body.
      replace i with k by lia. by rewrite Z.ltb_irrefl.
    - set (hd_txt := if i mod 4 =? 0 then nl ++ hex_field 8 ad ++ str ":" else []).
      assert ((if Z.land i 3 =? 0 then xprintf (nl ++ str "%08x:") [VaWord ad] else ret tt) st =
        Ok tt (emit (wire hd_txt) st)) as E1.
      { rewrite land_3. unfold hd_txt. destruct (i mod 4 =? 0); [apply dw_line|].
        unfold ret. by rewrite emit_nil. }
      set (s1 := emit (wire hd_txt) st).
      destruct (rd32safe_ok ad s1) as (s2 & E2 & H2). change (b_mem s1) with (b_mem st) in E2.
      pose proof (dw_word (word_shown (b_mem st) ad) s2) as E3.
      set (s3 := emit (wire (str " " ++ hex_field 8 (word_shown (b_mem st) ad))) s2) in *.
      destruct (IH (i + 1) (u32 (ad + 4)) s3) as (s' & R & H'); [lia|lia|].
      assert (b_mem s3 = b_mem st) as Em by exact (shows_mem _ _ _ H2).
      exists s'. split.
      + eapply runs_step; [|exact R]. unfold body. rewrite (proj2 (Z.ltb_lt _ _)) by lia.
        step E1. step E2. by step E3.
      + rewrite Em in H'. set (word_txt := str " " ++ hex_field 8 (word_shown (b_mem st) ad)) in *.
        replace (dw_words (b_mem st) i ad (Datatypes.S j))
          with (hd_txt ++ word_txt ++ dw_words (b_mem st) (i + 1) (u32 (ad + 4)) j)
          by (cbn [dw_words]; fold hd_txt; unfold word_txt; by rewrite <- app_assoc).
        rewrite (wire_app hd_txt), (wire_app word_txt).
        eapply shows_trans; [apply shows_emit|]. clearbody word_txt.
        pose proof (shows_trans _ _ _ _ _ (shows_emit (wire word_txt) s2) H') as H3.
        exact (shows_trans [] _ _ _ _ H2 H3). }
  destruct (Hrun (Z.to_nat k) 0 addr s) as (s1 & R & H1); [lia|lia|].
  step (loop_runs body (Z.to_nat k) (0, addr) s (Ok k s1) R ltac:(lia)). rewrite land_3, wire_app.
  destruct (k mod 4 =? 0).
  - exists (emit (wire nl) s1). split; [apply xprintf_plain; by_decide|].
    eapply shows_trans; [exact H1|apply shows_emit].
  - exists s1. split; [done|]. by rewrite app_nil_r.
Qed.
End dumps.

Section commands.
Context (cmdbuf : Z) (lit : list Z -> Z) (rd32fail rd8fail mach_exception_entry : Z).
Context (txt0 token0 : list Z) (Htxt : length txt0 = 17%nat).

(** The handler runs with the literals in place and a saved frame. *)
Definition env (s : monitor) : Prop :=
  rodata_ok cmdbuf lit (b_mem s) /\ mapped (b_mem s) (b_ef s) 128 /\ b_ef s mod 4 = 0.

#[export] Instance env_dec s : Decision (env s).
Proof. unfold env. apply _. Defined.

Lemma quiet_env s s' : quiet s s' -> env s -> env s'.
Proof. intros (E & _ & _ & _ & _ & E' & _) (? & ? & ?). unfold env. by rewrite E, E'. Qed.

Definition returns {A} (c : M monitor A) : Prop := forall s, env s ->
  exists a s', c s = Ok a s' /\ quiet s s'.

Lemma returns_ret {A} (a : A) : returns (ret a).
Proof. intros s Hs. exists a, s. done. Qed.

Lemma returns_bind {A B} (c : M monitor A) (k : A -> M monitor B) :
  returns c -> (forall a, returns (k a)) -> returns (bind c k).
Proof.
  intros Hc Hk s Hs. destruct (Hc s Hs) as (a & s1 & E1 & Q1).
  destruct (Hk a s1 (quiet_env _ _ Q1 Hs)) as (b & s2 & E2 & Q2).
  exists b, s2. rewrite (bind_ok _ _ _ _ _ E1). split; [done|]. by transitivity s1.
Qed.

Lemma returns_gets {A} (f : monitor -> A) : returns (gets f).
Proof. intros s Hs. by exists (f s), s. Qed.

Lemma returns_get {B} (k : monitor -> M monitor B) : (forall s, returns (k s)) -> returns (bind get k).
Proof. intros H s Hs. exact (H s s Hs). Qed.

Lemma returns_print l ap : (forall s : monitor, exists out, xprintf l ap s = Ok tt (emit out s)) ->
  returns (xprintf l ap).
Proof. intros H s Hs. destruct (H s) as [out E]. exists tt, (emit out s). split; [done|apply quiet_emit]. Qed.

Lemma returns_csr r v : r ∈ trap_written -> returns (csr_write r v).
Proof. intros Hr s Hs. exists tt, (with_csr (<[r := u32 v]> (b_csr s)) s). split; [done|by apply quiet_csr]. Qed.

(** The loop rule: an invariant and a measure. *)
Lemma returns_loop {X R} (body : X -> M monitor (X + R)) (I : X -> Prop) (m : X -> nat) :
  (forall x s, I x -> env s -> exists r s', body x s = Ok r s' /\ quiet s s' /\
     match r with inl x' => I x' /\ (m x' < m x)%nat | inr _ => True end) ->
  forall x, I x -> Z.of_nat (m x) < 2 ^ 33 -> returns (loop body x).
Proof.
  intros H x Ix Hm s Hs.
  enough (forall n x s, (m x <= n)%nat -> I x -> env s -> exists k r s', (k <= n)%nat /\
    runs body k x s (Ok r s') /\ quiet s s') as Hruns.
  { destruct (Hruns (m x) x s) as (k & r & s' & Hk & HR & Q); [lia|done|done|]. exists r, s'.
    split; [|done]. apply (loop_runs _ k); [done|lia]. }
  clear x Ix Hm s Hs. induction n as [|n IH]; intros x s Hn Ix Hs.
  - destruct (H x s Ix Hs) as ([x'|r] & s' & E & Q & P); [lia|]. exists 0%nat, r, s'.
    split; [done|]. split; [by apply runs_done|done].
  - destruct (H x s Ix Hs) as ([x'|r] & s' & E & Q & P).
    + destruct P as [Ix' Hm']. destruct (IH x' s') as (k & r & s2 & Hk & HR & Q2);
        [lia|done|by eapply quiet_env|]. exists (Datatypes.S k), r, s2. split; [lia|].
      split; [by eapply runs_step|by transitivity s'].
    + exists 0%nat, r, s'. split; [lia|]. split; [by apply runs_done|done].
Qed.

Lemma returns_trap cause addr pc : returns (load_trap cause addr pc).
Proof.
  unfold load_trap. apply returns_bind; [apply returns_gets|intros v].
  do 3 (apply returns_bind; [apply returns_csr; set_solver|intros _]). apply returns_csr; set_solver.
Qed.

Lemma returns_rd32 addr : returns (rd32safe rd32fail addr).
Proof.
  unfold rd32safe. apply returns_bind; [apply returns_csr; set_solver|intros _].
  destruct (addr mod 4 =? 0).
  - apply returns_get. intros s. destruct (read_bytes (b_mem s) addr 4).
    + apply returns_ret.
    + apply returns_bind; [apply returns_trap|intros; apply returns_ret].
  - apply returns_bind; [apply returns_trap|intros; apply returns_ret].
Qed.

Lemma returns_rd8 addr : returns (rd8safe rd8fail addr).
Proof.
  unfold rd8safe. apply returns_bind; [apply returns_csr; set_solver|intros _].
  apply returns_get. intros s. destruct (b_mem s !! addr); [apply returns_ret|].
  apply returns_bind; [apply returns_trap|intros; apply returns_ret].
Qed.

Lemma returns_plain l : plain l -> (length l <= 127)%nat -> returns (xprintf l []).
Proof. intros H1 H2. apply returns_print. intros s. eexists. by apply xprintf_plain. Qed.

Lemma returns_hex w pre post v :
  0 <= w <= 9 -> plain pre -> plain post -> (length pre <= 40)%nat -> (length post <= 40)%nat ->
  returns (xprintf (unparse [(pre, hexw w)] post) [VaWord v]).
Proof. intros. apply returns_print. intros s. eexists. by apply xprintf_hex. Qed.

(** *** Registers *)

Lemma ef_gets_ok rs ef (s : monitor) : Forall (fun r => r ∈ ef_order) rs ->
  mapped (b_mem s) ef 128 -> ef mod 4 = 0 ->
  exists ws, ef_gets ef rs s = Ok (map VaWord ws) s /\ length ws = length rs.
Proof.
  intros Hrs Hm Ha. induction Hrs as [|r rs Hr _ (ws & E & L)]; cbn [ef_gets]; [by exists []|].
  assert (0 <= index_of r ef_order < 32) as Hi.
  { clear - Hr. assert (forall l, r ∈ l -> 0 <= index_of r l < Z.of_nat (length l)) as H.
    { induction l as [|r' l IH]; intros H; [by apply list_elem_of_In in H|]. cbn [index_of length].
      case_decide; [lia|]. apply list_elem_of_In in H. destruct H as [|H]; [congruence|]. apply list_elem_of_In in H. specialize (IH H). lia. }
    apply (H _ Hr). }
  exists (word (b_mem s) (ef + 4 * index_of r ef_order) :: ws). unfold ef_get.
  rewrite (bind_ok _ _ _ _ _ (load32_ok (ef + 4 * index_of r ef_order) s
    ltac:(eapply mapped_sub; [exact Hm|lia..]) ltac:(zarith))).
  step E. cbn [map length]. by rewrite L.
Qed.

Lemma returns_row fmt ds rs csr :
  fmt ++ nl = unparse ds [10] -> Forall numeric ds -> length ds = Datatypes.S (length rs) ->
  (length ds <= 10)%nat -> Forall (fun r => r ∈ ef_order) rs -> returns (regs_row fmt rs csr).
Proof.
  intros Ef Hd Hl Hl' Hrs s Hs. destruct Hs as (_ & Hm & Ha). unfold regs_row.
  rewrite (bind_ok get _ s s s eq_refl).
  destruct (ef_gets_ok rs (b_ef s) s Hrs Hm Ha) as (ws & E & L). step E.
  set (v := default 0 (b_csr s !! csr)). rewrite (bind_ok (csr_read csr) _ s v s) by done.
  rewrite Ef. change [VaWord v] with (map VaWord [v]). rewrite <- map_app.
  destruct (numbers_printed ds [10] (ws ++ [v]) s) as [out E'];
    [done|by repeat constructor|cbn; lia|lia|rewrite length_app; cbn; lia|].
  exists tt, (emit out s). split; [done|apply quiet_emit].
Qed.

Fixpoint row_of (lits : list string) : list (list Z * directive) :=
  match lits with [] => [] | l :: lits' => (str l, hexw 8) :: row_of lits' end.

Lemma returns_regs : returns do_regs.
Proof.
  assert (forall lits rs fmt csr, fmt ++ nl = unparse (row_of lits) [10] ->
    bool_decide (Forall numeric (row_of lits) /\ length (row_of lits) = Datatypes.S (length rs) /\
      (length (row_of lits) <= 10)%nat /\ Forall (fun r => r ∈ ef_order) rs) = true ->
    returns (regs_row fmt rs csr)) as H.
  { intros lits rs fmt csr Ef Hb. apply bool_decide_eq_true in Hb as (? & ? & ? & ?). by eapply returns_row. }
  unfold do_regs. repeat (apply returns_bind; [|intros _]).
  - by apply (H ["pc "; " ra "; " sp "; " gp "; "  sstatus  "]).
  - by apply (H ["tp "; " t0 "; " t1 "; " t2 "; "  scause   "]).
  - by apply (H ["fp "; " s1 "; " a0 "; " a1 "; "  stval    "]).
  - by apply (H ["a2 "; " a3 "; " a4 "; " a5 "; "  stvec    "]).
  - by apply (H ["a6 "; " a7 "; " s2 "; " s3 "; "  sepc     "]).
  - by apply (H ["s4 "; " s5 "; " s6 "; " s7 "; "  sscratch "]).
  - by apply (H ["s8 "; " s9 "; " 10 "; " 11 "; "  satp     "]).
  - by apply (H ["t3 "; " t4 "; " t5 "; " t6 "; "  sip      "]).
Qed.

Lemma db_byte addr i count s : env s -> exists c s',
  (if i <? count then
     c <- rd8safe rd8fail (u32 (addr + i)) ;;
     let c := Z.land c 0xFF in
     xprintf (str " %02x") [VaWord c] ;;
     ret (if (c <? 32) || (c >? 126) then 46 else c)
   else xprintf (str "   ") [] ;; ret 32) s = Ok c s' /\ quiet s s'.
Proof.
  intros Hs. destruct (i <? count).
  - apply returns_bind; [apply returns_rd8| |done]. intros c.
    apply returns_bind; [|intros; apply returns_ret].
    change (str " %02x") with (unparse [(str " ", hexw 2)] []).
    apply returns_hex; [lia|by_decide..].
  - apply returns_bind; [apply returns_plain; by_decide|intros; apply returns_ret|done].
Qed.

Lemma db_numeric addr count txt s : env s -> exists txt' s',
  db_row rd8fail addr count txt s = Ok txt' s' /\ quiet s s' /\ length txt' = length txt.
Proof.
  intros Hs. unfold db_row. name_body body.
  enough (forall j i txt s, env s -> Z.of_nat j = 16 - i -> exists txt' s',
    runs body j (i, txt) s (Ok txt' s') /\ quiet s s' /\ length txt' = length txt) as Hrun.
  { destruct (Hrun 16%nat 0 txt s Hs ltac:(lia)) as (txt' & s' & R & H). exists txt', s'. split; [|done].
    apply (loop_runs _ 16); [exact R|lia]. }
  clear txt s Hs. induction j as [|j IH]; intros i txt s Hs Hi.
  - exists txt, s. split; [|done]. apply runs_done. unfold body. by rewrite (proj2 (Z.ltb_ge _ _)) by lia.
  - destruct (db_byte addr i count s Hs) as (c & s1 & E & Q).
    destruct (IH (i + 1) (<[Z.to_nat i := u8 c]> txt) s1) as (txt' & s2 & R & Q2 & L);
      [by eapply quiet_env|lia|].
    exists txt', s2. split; [|split; [by transitivity s1|by rewrite L, length_insert]].
    eapply runs_step; [|exact R]. unfold body. rewrite (proj2 (Z.ltb_lt _ _)) by lia. by step E.
Qed.

Lemma returns_db n addr count : -0x80000000 <= count < 0x80000000 -> returns (do_db rd8fail txt0 n addr count).
Proof.
  intros Hc. unfold do_db. destruct (count <? 0); [apply returns_ret|].
  apply (returns_loop _ (fun '(_, c, txt) => c < 0x80000000 /\ length txt = 17%nat) (fun '(_, c, _) => Z.to_nat c)).
  2: split; [lia|by rewrite length_insert].
  2: lia.
  intros [[ad c] txt] s [Hc' Hl] Hs. destruct (Z.gtb_spec c 0) as [Hp|Hp]; [|by exists (inr tt), s].
  change (str "%08x:") with (unparse [([], hexw 8)] (str ":")).
  destruct (returns_hex 8 [] (str ":") ad ltac:(lia) ltac:(by_decide) ltac:(by_decide) ltac:(by_decide)
    ltac:(by_decide) s Hs) as ([] & s1 & E1 & Q1). step E1.
  destruct (db_numeric ad c txt s1) as (txt' & s2 & E2 & Q2 & L2); [by eapply quiet_env|]. step E2.
  set (d := {| d_left := false; d_plus := false; d_space := false; d_alt := false; d_zero := false;
               d_width := 0; d_conv := CString |}).
  assert (exists out, xprintf (str "  %s" ++ nl) [VaStr (Some txt')] s2 = Ok tt (emit out s2)) as [out E3].
  { change (str "  %s" ++ nl) with (unparse [(str "  ", d)] nl).
    eapply xprintf_str; [by_decide|cbn; reflexivity| |cbn; lia].
    pose proof (length_until_nul txt'). unfold justify. rewrite !length_app. cbn [length from_option].
    cbn [d_left d_zero d_width d andb]. unfold spaces. rewrite ?length_app, ?length_replicate.
    change (length (str "  ")) with 2%nat. change (length nl) with 1%nat. cbn [length]. lia. }
  step E3. eexists _, (emit out s2). split; [reflexivity|]. split.
  - transitivity s1; [done|]. transitivity s2; [done|apply quiet_emit].
  - split; [split; [lia|by rewrite L2]|lia].
Qed.

Lemma returns_help : returns (do_help lit).
Proof.
  unfold do_help. rewrite (CMDS_table lit). pose proof table_ok as Ht.
  induction Ht as [|e t He _ IH]; cbn [map for_cmds]; [apply returns_ret|].
  apply returns_bind; [|intros _; exact IH]. intros s Hs.
  destruct He as (Hn & _ & Hh & Ln & Lh & _). pose proof Hs as (Hro & _ & _).
  step (c_string_ok e.1.1.1 (lit e.1.1.1) s ltac:(by eapply rodata_cstr) ltac:(lia)).
  step (c_string_ok e.1.2 (lit e.1.2) s ltac:(by eapply rodata_cstr) ltac:(lia)).
  set (d16 := {| d_left := true; d_plus := false; d_space := false; d_alt := false; d_zero := false;
                 d_width := 16; d_conv := CString |}).
  set (d0 := {| d_left := false; d_plus := false; d_space := false; d_alt := false; d_zero := false;
                d_width := 0; d_conv := CString |}).
  change (str "%-16s %s" ++ nl) with (unparse [([], d16); (str " ", d0)] nl).
  edestruct (xprintf_str [([], d16); (str " ", d0)] nl [VaStr (Some e.1.1.1); VaStr (Some e.1.2)]) as [out E];
    [by_decide|cbn [render render_directive d16 d0 d_conv option_map]; reflexivity| |cbn; lia|].
  2: exists tt, (emit out s); split; [exact E|apply quiet_emit].
  pose proof (length_until_nul e.1.1.1). pose proof (length_until_nul e.1.2).
  unfold justify, spaces. cbn [d_left d_width d16 d0 andb from_option].
  rewrite ?length_app, ?length_replicate. change (length (str " ")) with 1%nat.
  change (length nl) with 1%nat. cbn [length]. lia.
Qed.

Lemma hexnum_range w n : is_u32 n -> is_u32 (hexnum n w).
Proof.
  revert n. induction w as [|c w IH]; intros n Hn; cbn [hexnum]; [done|].
  rewrite <- hex_value_digit. destruct (hex_value c) as [d|] eqn:E; [|done]. apply hex_value_range in E. apply IH. zarith.
Qed.

Lemma returns_call f x1 x2 argc : 0 <= x2 -> returns (console_call_cmd lit rd32fail rd8fail txt0 f x1 x2 0 0 argc).
Proof.
  intros Hx. destruct f; cbn [console_call_cmd].
  - apply returns_help.
  - apply returns_regs.
  - intros s Hs. destruct (do_dw_ok rd32fail argc x1 x2 s Hx) as (s' & E & Q & _). by exists tt, s'.
  - apply returns_db. pose proof (s32_range x2). lia.
  - intros s Hs. exists tt, (with_stop 1 s). split; [done|]. unfold quiet. split_and!; try done. exists []. by rewrite app_nil_r.
  - intros s Hs. exists tt, (with_stop 0 s). split; [done|]. unfold quiet. split_and!; try done. exists []. by rewrite app_nil_r.
Qed.

Lemma returns_words ws : Forall (fun w => (length w <= 200)%nat) ws ->
  returns (run_words lit rd32fail rd8fail txt0 ws).
Proof.
  intros Hw. destruct ws as [|w ws]; cbn [run_words]; [apply returns_ret|].
  apply Forall_cons_iff in Hw as [Hw _]. destruct (lookup_cmd table w) as [[sig f]|].
  - destruct (length sig <? length ws)%nat; [apply returns_plain; by_decide|]. cbv zeta. apply returns_call.
    destruct (nth_in_or_default 1 (map (hexnum 0) ws) 0) as [Hin|E0]; [|lia].
    apply in_map_iff in Hin as (x & <- & _).
    pose proof (hexnum_range x 0 ltac:(unfold is_u32; lia)) as Hx. unfold is_u32 in Hx. lia.
  - apply returns_print. intros s.
    set (d0 := {| d_left := false; d_plus := false; d_space := false; d_alt := false; d_zero := false;
                  d_width := 0; d_conv := CString |}).
    change (str "unknown command '%s'" ++ nl) with (unparse [(str "unknown command '", d0)] (str "'" ++ nl)).
    eapply xprintf_str; [by_decide|cbn [render render_directive d0 d_conv option_map]; reflexivity| |cbn; lia].
    pose proof (length_until_nul w). unfold justify, spaces. cbn [d_left d_width d0 andb from_option].
    rewrite ?length_app, ?length_replicate. change (length (str "unknown command '")) with 17%nat.
    change (length (str "'")) with 1%nat. change (length nl) with 1%nat. cbn [length]. lia.
Qed.

Lemma words_short k l : Forall (fun w => (length w <= length l)%nat) (words_f k l).
Proof.
  rewrite <- (tokens_words k 0 l). apply Forall_map, Forall_lookup. intros i [t w] Hi. by eapply tokens_length.
Qed.

Lemma csr_write_ok r v s : csr_write r v s = Ok tt (with_csr (<[r := u32 v]> (b_csr s)) s).
Proof. done. Qed.

Context (Htok : length token0 = 16%nat).

Abbreviation type_char := (console_char cmdbuf lit rd32fail rd8fail mach_exception_entry txt0 token0).

(** After a line end: the line was executed. *)
Definition entered (s s' : monitor) : Prop :=
  line_ok cmdbuf s' [] /\ same_except (b_mem s) (b_mem s') cmdbuf 128 /\
  (forall b n, mapped (b_mem s) b n -> mapped (b_mem s') b n) /\
  rodata_ok cmdbuf lit (b_mem s') /\
  b_rx s' = b_rx s /\ b_more s' = b_more s /\ b_uart_regs s' = b_uart_regs s /\ b_ef s' = b_ef s /\
  b_csr s' !! CSR_MTVEC = Some (u32 mach_exception_entry) /\
  b_csr s' !! CSR_MSTATUS = Some (u32 (default 0 (b_csr s !! CSR_MSTATUS))) /\
  (forall r, r ∉ trap_written -> b_csr s' !! r = b_csr s !! r) /\
  (exists out, u_out (b_uart s') = u_out (b_uart s) ++ out ++ str "monitor> ").

Lemma console_enter_ok c l s : c = 13 \/ c = 10 -> env s -> line_ok cmdbuf s l ->
  exists s', type_char c s = Ok tt s' /\ entered s s'.
Proof.
  intros Hc (Hro & Hef & Ha) (Hm & Hb & Hn & Hl & Hch). unfold console_char.
  rewrite (bind_ok get _ s s s eq_refl). rewrite (proj2 (orb_true_iff _ _)) by (rewrite !Z.eqb_eq; tauto).
  step (xputs_lit cmdbuf lit [13; 10] s Hro ltac:(by_decide)). set (s1 := emit (wire [13; 10]) s).
  rewrite Hn. assert (mapped (mem_of s1) (cmdbuf + Z.of_nat (length l)) 1) as Hm1
    by (apply (mapped_sub _ _ _ _ _ Hm); lia).
  step (store8_ok (cmdbuf + Z.of_nat (length l)) 0 s1 Hm1).
  set (s2 := poke s1 (cmdbuf + Z.of_nat (length l)) [u8 0]).
  assert (b_mem s2 = write_bytes (b_mem s) (cmdbuf + Z.of_nat (length l)) [0]) as Em2 by done.
  set (status := default 0 (b_csr s !! CSR_MSTATUS)).
  rewrite (bind_ok (csr_read CSR_MSTATUS) _ s2 status s2) by done.
  assert (rodata_ok cmdbuf lit (b_mem s2)) as Hro2.
  { eapply rodata_frame; [exact Hro|rewrite Em2; apply same_except_write|lia|cbn; lia]. }
  assert (cstr_at (b_mem s2) cmdbuf l) as Hcs.
  { split; [|eapply Forall_impl; [|exact Hch]; cbn; lia]. rewrite Em2. apply bytes_at_app. split.
    - apply bytes_at_write_other; [lia|done].
    - apply bytes_at_write. repeat constructor; lia. }
  destruct (console_line_ok cmdbuf lit rd32fail rd8fail txt0 token0 cmdbuf l s2 Hro2 Hcs ltac:(lia) ltac:(lia) Htok)
    as (m' & E & X & Mm & Hro3).
  set (s3 := with_mem m' s2) in *.
  assert (same_except (b_mem s) m' cmdbuf 128) as X3.
  { intros b Hb'. rewrite X by lia. rewrite Em2. apply same_except_write. cbn [length]. lia. }
  assert (forall b n, mapped (b_mem s) b n -> mapped m' b n) as Mm3.
  { intros b n Hbn. apply Mm. rewrite Em2. by apply mapped_write. }
  assert (env s3) as Henv3 by (split; [exact Hro3|split; [apply Mm3; exact Hef|exact Ha]]).
  assert (returns (run_words lit rd32fail rd8fail txt0 (words l))) as Hret.
  { apply returns_words. eapply Forall_impl; [|apply words_short]. cbn. lia. }
  destruct (Hret s3 Henv3) as ([] & s4 & E4 & Q4). pose proof Q4 as (F1 & F2 & F3 & F4 & F5 & F6 & _ & F7 & out & F8).
  assert (rodata_ok cmdbuf lit (b_mem s4)) as Hro4 by (by rewrite F1).
  pose proof (xputs_lit cmdbuf lit (str "monitor> ") s4 Hro4 ltac:(by_decide)) as E5.
  rewrite (bind_ok _ _ _ _ _ (eq_trans E (eq_trans (bind_ok _ _ _ _ _ E4) E5))).
  set (s5 := emit (wire (str "monitor> ")) s4).
  assert (b_mem s5 = m' /\ b_csr s5 = b_csr s4 /\ b_rx s5 = b_rx s4 /\ b_more s5 = b_more s4 /\
    b_uart_regs s5 = b_uart_regs s4 /\ b_ef s5 = b_ef s4 /\
    u_out (b_uart s5) = u_out (b_uart s) ++ (wire [13; 10] ++ out) ++ str "monitor> ")
    as (G1 & G2 & G3 & G4 & G5 & G6 & G7).
  { split_and!; try done. unfold s5. cbn [emit with_uart monitor_HasUart b_uart uart_of sent u_out].
    rewrite F8. change (wire (str "monitor> ")) with (str "monitor> ").
    change (u_out (b_uart s3)) with (u_out (b_uart s) ++ wire [13; 10]). by rewrite <- !app_assoc. }
  clearbody s5. clear E E4 E5 Hret. step (csr_write_ok CSR_MSTATUS status s5).
  step (csr_write_ok CSR_MTVEC mach_exception_entry (with_csr (<[CSR_MSTATUS := u32 status]> (b_csr s5)) s5)). eexists. split; [reflexivity|].
  unfold entered, line_ok. cbn [b_mem b_cmdlen b_rx b_more b_uart_regs b_ef b_csr b_uart with_cmdlen with_csr length].
  rewrite G1, G2, G3, G4, G5, G6, G7.
  split_and!; try done.
  - by apply Mm3.
  - lia.
  - apply lookup_insert_eq.
  - rewrite lookup_insert_ne by done. apply lookup_insert_eq.
  - intros r Hr. rewrite !lookup_insert_ne by (intros <-; apply Hr; by_decide). by rewrite F7.
  - by exists (wire [13; 10] ++ out).
Qed.

(** ** The receive loop *)

Definition pending (s : monitor) : nat := (length (b_rx s) + length (concat (b_more s)))%nat.

(** What a character does to the line: a line end clears it. *)
Definition edit_line (l : list Z) (c : Z) : list Z :=
  if decide (c = 13 \/ c = 10) then [] else edit l c.

(** Any character at all. *)
Lemma console_char_any c l s : env s -> line_ok cmdbuf s l ->
  exists s', type_char c s = Ok tt s' /\ env s' /\ line_ok cmdbuf s' (edit_line l c) /\
    same_except (b_mem s) (b_mem s') cmdbuf 128 /\ b_rx s' = b_rx s /\ b_more s' = b_more s /\
    b_uart_regs s' = b_uart_regs s.
Proof.
  intros Hs Hl. unfold edit_line. destruct (decide (c = 13 \/ c = 10)) as [Hc|Hc].
  - destruct (console_enter_ok c l s Hc Hs Hl) as (s' & E & L & X & Mm & Hro & R1 & R2 & R3 & R4 & _).
    exists s'. split; [done|]. split; [|done]. split; [done|]. rewrite R4. destruct Hs as (_ & ? & ?).
    split; [by apply Mm|done].
  - pose proof Hs as (Hro & Hef & Ha).
    exists (edited cmdbuf s l c). split; [apply console_char_edits; (done || tauto)|].
    destruct (edited_line cmdbuf s l c Hl) as [Hl' X].
    assert (forall b n, mapped (b_mem s) b n -> mapped (b_mem (edited cmdbuf s l c)) b n) as Mm.
    { intros b n H. rewrite edited_mem. destruct (_ && _); [by apply mapped_write|done]. }
    split; [split; [|split]|].
    + eapply rodata_frame; [exact Hro|exact X|lia..].
    + apply Mm. unfold edited. destruct (_ && _); exact Hef.
    + unfold edited. destruct (_ && _); exact Ha.
    + split; [done|]. split; [done|]. unfold edited. by destruct (_ && _).
Qed.

(** The receiver moves on by itself: characters arrive, are taken and
    acknowledged; the rest of the monitor stays. *)
Definition receives (s s' : monitor) : Prop :=
  exists rx more regs, s' =
    {| b_mem := b_mem s; b_uart := b_uart s; b_rx := rx; b_more := more; b_csr := b_csr s;
       b_uart_regs := regs; b_cmdlen := b_cmdlen s; b_stop := b_stop s; b_ef := b_ef s;
       b_mret := b_mret s |}.

(** From [s] to [s'] the characters [cs], in this order, were each given to
    [console_char], and nothing else was done than to receive. *)
Inductive handled : list Z -> monitor -> monitor -> Prop :=
| handled_nil s s' : receives s s' -> handled [] s s'
| handled_cons c cs s s1 s2 s' :
    receives s s1 -> type_char c s1 = Ok tt s2 -> handled cs s2 s' -> handled (c :: cs) s s'.

(** The characters received until a poll finds none waiting: those waiting
    and those that arrive by the next poll and the ones after it; with what
    has not arrived by then. *)
Fixpoint received (rx : list Z) (more : list (list Z)) : list Z * list (list Z) :=
  match more with
  | [] => (rx, [])
  | l :: more' =>
    match rx ++ l with
    | [] => ([], more')
    | c :: rx' => let (cs, rest) := received rx' more' in (c :: cs, rest)
    end
  end.

Definition polled (s : monitor) : monitor := with_rx (b_rx s ++ hd [] (b_more s)) (tl (b_more s)) s.

Lemma pending_polled s : pending (polled s) = pending s.
Proof.
  unfold pending, polled. cbn [b_rx b_more with_rx]. rewrite length_app.
  destruct (b_more s) as [|l ls]; cbn [hd tl concat length]; [lia|]. rewrite length_app. lia.
Qed.

Lemma uart_rd_RXEMPTY_ok s :
  uart_rd_RXEMPTY s = Ok (match b_rx (polled s) with [] => 1 | _ => 0 end) (polled s).
Proof. done. Qed.

Lemma env_frame s s' : env s -> b_mem s' = b_mem s -> b_ef s' = b_ef s -> env s'.
Proof. intros (? & ? & ?) E1 E2. unfold env. by rewrite E1, E2. Qed.

Lemma line_frame s s' l : line_ok cmdbuf s l -> b_mem s' = b_mem s -> b_cmdlen s' = b_cmdlen s ->
  line_ok cmdbuf s' l.
Proof. intros ? E1 E2. unfold line_ok. by rewrite E1, E2. Qed.

(** How [received] follows the polls. *)
Lemma received_poll s : received (b_rx s) (b_more s) =
  match b_rx (polled s) with
  | [] => ([], b_more (polled s))
  | c :: rx => let (cs, rest) := received rx (b_more (polled s)) in (c :: cs, rest)
  end.
Proof.
  unfold polled. cbn [b_rx b_more with_rx]. destruct (b_more s) as [|l ls]; cbn [hd tl]; [|done].
  rewrite app_nil_r. by destruct (b_rx s).
Qed.

(** What a drained receiver leaves. *)
Definition drained (s : monitor) (l : list Z) (s' : monitor) : Prop :=
  let (cs, rest) := received (b_rx s) (b_more s) in
  handled cs s s' /\ line_ok cmdbuf s' (fold_left edit_line cs l) /\
  b_rx s' = [] /\ b_more s' = rest /\
  b_uart_regs s' = b_uart_regs s ++ replicate (length cs) (LX_UART_EV_PENDING, LX_UART_EVb_RX) /\
  same_except (b_mem s) (b_mem s') cmdbuf 128.

(** The state in which [console_char] is called with the character [c]. *)
Definition taken (rx : list Z) (s : monitor) : monitor :=
  with_uart_reg LX_UART_EV_PENDING LX_UART_EVb_RX (with_rx rx (b_more (polled s)) (polled s)).

Lemma uart_wr_ack c rx s : b_rx (polled s) = c :: rx ->
  uart_wr LX_UART_EV_PENDING LX_UART_EVb_RX (polled s) = Ok tt (taken rx s).
Proof.
  intros E. unfold uart_wr. change ((LX_UART_EV_PENDING =? LX_UART_EV_PENDING) &&
    negb (Z.land LX_UART_EVb_RX LX_UART_EVb_RX =? 0)) with true. cbv iota.
  unfold modify, bind, taken. by rewrite E.
Qed.

Lemma drained_empty s l : line_ok cmdbuf s l -> b_rx (polled s) = [] -> drained s l (polled s).
Proof.
  intros Hl E. unfold drained. rewrite received_poll, E. cbn [fold_left length replicate]. rewrite app_nil_r.
  split_and!; try done. constructor. by eexists _, _, _.
Qed.

Lemma drained_char c rx s s3 s' l : b_rx (polled s) = c :: rx -> type_char c (taken rx s) = Ok tt s3 ->
  b_rx s3 = rx -> b_more s3 = b_more (polled s) -> b_uart_regs s3 = b_uart_regs (taken rx s) ->
  same_except (b_mem s) (b_mem s3) cmdbuf 128 -> drained s3 (edit_line l c) s' -> drained s l s'.
Proof.
  intros E E3 R1 R2 R3 X H. unfold drained in *. rewrite received_poll, E. rewrite R1, R2 in H.
  destruct (received rx (b_more (polled s))) as [cs rest]. destruct H as (H1 & H2 & H3 & H4 & H5 & H6).
  split_and!; try done.
  - eapply handled_cons; [|exact E3|exact H1]. by eexists _, _, _.
  - rewrite H5, R3. cbn [length replicate taken with_uart_reg b_uart_regs]. by rewrite <- app_assoc.
  - intros b Hb. by rewrite H6, X.
Qed.

Lemma drain_rx_ok s l : env s -> line_ok cmdbuf s l -> Z.of_nat (pending s) < 2 ^ 33 ->
  exists s', drain_rx cmdbuf lit rd32fail rd8fail mach_exception_entry txt0 token0 s = Ok tt s' /\
    drained s l s'.
Proof.
  intros Hs Hl Hp. unfold drain_rx. name_body body.
  enough (forall n s l, (pending s <= n)%nat -> env s -> line_ok cmdbuf s l ->
    exists k s', (k <= n)%nat /\ runs body k tt s (Ok tt s') /\ drained s l s') as H.
  { destruct (H _ s l (le_n _) Hs Hl) as (k & s' & Hk & R & HH). exists s'. split; [|exact HH].
    apply (loop_runs _ k); [exact R|lia]. }
  clear s l Hs Hl Hp. induction n as [|n IH]; intros s l Hn Hs Hl.
  all: pose proof (uart_rd_RXEMPTY_ok s) as E1; pose proof (pending_polled s) as Hpp.
  all: destruct (b_rx (polled s)) as [|c rx] eqn:Erx.
  1, 3: exists 0%nat, (polled s); split; [lia|]; split; [|by apply drained_empty]; apply runs_done; unfold body;
        by step E1.
  { unfold pending in Hpp at 1. rewrite Erx in Hpp. cbn [length] in Hpp. lia. }
  destruct (console_char_any c l (taken rx s)) as (s3 & E3 & Hs3 & Hl3 & X3 & R1 & R2 & R3);
    [by apply (env_frame s)|by apply (line_frame s)|].
  destruct (IH s3 (edit_line l c)) as (k & s' & Hk & R & D); [|done|done|].
  { unfold pending. rewrite R1, R2. unfold pending in Hpp at 1. rewrite Erx in Hpp.
    cbn [taken b_rx b_more with_rx with_uart_reg length] in *. lia. }
  exists (Datatypes.S k), s'. split; [lia|]. split; [|by eapply drained_char].
  eapply runs_step; [|exact R]. unfold body. step E1. cbn [Z.eqb].
  rewrite (bind_ok uart_rd_RX _ (polled s) c (polled s)) by (unfold uart_rd_RX, gets; by rewrite Erx).
  step (uart_wr_ack c rx s Erx). by step E3.
Qed.
End commands.

(** ** The properties *)

Section properties.
Context (cmdbuf : Z) (lit : list Z -> Z) (rd32fail rd8fail mach_exception_entry : Z).
Context (txt0 token0 : list Z).

(** C10: executing a line is executing its words: [console_line] cuts the line
    into words in place (spaces, leading and trailing ones too, separate them),
    takes the first word as the command, converts the others to numbers (the
    hexadecimal digits up to the first character that is none, modulo 2^32),
    refuses unknown commands and surplus arguments, and prints the prompt; no
    byte outside the line changes before the command runs. *)
Theorem console_line_runs a l (s : monitor) :
  rodata_ok cmdbuf lit (b_mem s) -> cstr_at (b_mem s) a l -> cmdbuf <= a ->
  a + Z.of_nat (length l) <= cmdbuf + 128 -> length token0 = 16%nat ->
  exists m', console_line lit rd32fail rd8fail txt0 token0 a s =
      (run_words lit rd32fail rd8fail txt0 (words l) ;; xputs (lit (str "monitor> "))) (with_mem m' s) /\
    same_except (b_mem s) m' a (Z.of_nat (length l)) /\ rodata_ok cmdbuf lit m'.
Proof.
  intros Hro Hl Ha Hal Ht.
  destruct (console_line_ok cmdbuf lit rd32fail rd8fail txt0 token0 a l s Hro Hl Ha Hal Ht) as (m' & E & X & _ & R).
  by exists m'.
Qed.

(** [do_dw] prints [count] words, one without a count argument and at most
    1024, four to a line after the line's address, reading 0 where the load
    traps; it returns, and only the console, the trap vector and the trap CSRs
    change.  The final newline is printed exactly when the last line is full. *)
Theorem do_dw_dumps n addr count (s : monitor) : 0 <= count ->
  exists s', do_dw rd32fail n addr count s = Ok tt s' /\ quiet s s' /\
    let k := Z.min 1024 (if n <? 2 then 1 else count) in
    u_out (b_uart s') = u_out (b_uart s) ++
      wire (dw_words (b_mem s) 0 addr (Z.to_nat k) ++ (if k mod 4 =? 0 then nl else [])).
Proof.
  intros Hc. destruct (do_dw_ok rd32fail n addr count s Hc) as (s' & E & Q & O). by exists s'.
Qed.

(** C19: ending a line, whatever was typed, returns to an empty line and a
    prompt: the command runs to its end, the machine trap vector and the
    status register are what they were, and no byte outside the line buffer
    and no CSR but these two and those a trap at a dumped address writes
    (exception pc, cause and value) has changed. *)
Theorem console_enter c l (s : monitor) :
  length txt0 = 17%nat -> length token0 = 16%nat -> c = 13 \/ c = 10 ->
  env cmdbuf lit s -> line_ok cmdbuf s l ->
  exists s', console_char cmdbuf lit rd32fail rd8fail mach_exception_entry txt0 token0 c s = Ok tt s' /\
    line_ok cmdbuf s' [] /\ same_except (b_mem s) (b_mem s') cmdbuf 128 /\
    b_csr s' !! CSR_MTVEC = Some (u32 mach_exception_entry) /\
    b_csr s' !! CSR_MSTATUS = Some (u32 (default 0 (b_csr s !! CSR_MSTATUS))) /\
    (forall r, r ∉ trap_written -> b_csr s' !! r = b_csr s !! r) /\
    (exists out, u_out (b_uart s') = u_out (b_uart s) ++ out ++ str "monitor> ").
Proof.
  intros Htxt Htok Hc Hs Hl.
  destruct (console_enter_ok cmdbuf lit rd32fail rd8fail mach_exception_entry txt0 token0 Htxt Htok c l s Hc Hs Hl)
    as (s' & E & L & X & _ & _ & _ & _ & _ & _ & T & St & C & O).
  by exists s'.
Qed.

(** C20: the receive loop returns, having given every character received (those
    waiting and those that go on arriving, until a poll finds none) to
    [console_char], once each and in order, and having acknowledged each at the
    UART; nothing else happens in between.  The line it leaves is the one those
    characters edit, a line end clearing it, the receiver is empty, and nothing
    outside the line buffer is written. *)
Theorem drain_rx_returns l (s : monitor) :
  length txt0 = 17%nat -> length token0 = 16%nat ->
  env cmdbuf lit s -> line_ok cmdbuf s l -> Z.of_nat (pending s) < 2 ^ 33 ->
  exists s', drain_rx cmdbuf lit rd32fail rd8fail mach_exception_entry txt0 token0 s = Ok tt s' /\
    let (cs, rest) := received (b_rx s) (b_more s) in
    handled cmdbuf lit rd32fail rd8fail mach_exception_entry txt0 token0 cs s s' /\
    line_ok cmdbuf s' (fold_left edit_line cs l) /\
    b_rx s' = [] /\ b_more s' = rest /\
    b_uart_regs s' = b_uart_regs s ++ replicate (length cs) (LX_UART_EV_PENDING, LX_UART_EVb_RX) /\
    same_except (b_mem s) (b_mem s') cmdbuf 128.
Proof.
  intros Htxt Htok Hs Hl Hp.
  exact (drain_rx_ok cmdbuf lit rd32fail rd8fail mach_exception_entry txt0 token0 Htxt Htok s l Hs Hl Hp).
Qed.
End properties.

Lemma console_line_runs_witness :
  exists m', console_line demo_lit 0 0 [] (replicate 16 0) 0x1000 (demo_monitor (str " dw 1000  2") [] []) =
      (run_words demo_lit 0 0 [] [str "dw"; str "1000"; str "2"] ;; xputs (demo_lit (str "monitor> ")))
        (with_mem m' (demo_monitor (str " dw 1000  2") [] [])) /\
    same_except (demo_mem (str " dw 1000  2")) m' 0x1000 11 /\ rodata_ok 0x1000 demo_lit m'.
Proof.
  apply (console_line_runs 0x1000 demo_lit 0 0 [] (replicate 16 0) 0x1000 (str " dw 1000  2")
    (demo_monitor (str " dw 1000  2") [] [])); [by_decide|by_decide|lia|by_decide|done].
Defined.

Lemma do_dw_dumps_witness :
  exists s', do_dw 0 2 0x1800 5 (demo_monitor [] [] []) = Ok tt s' /\ quiet (demo_monitor [] [] []) s' /\
    u_out (b_uart s') = wire (nl ++ str "00001800: 07070707 07070707 07070707 07070707" ++ nl ++ str "00001810: 07070707").
Proof.
  destruct (do_dw_dumps 0 2 0x1800 5 (demo_monitor [] [] [])) as (s' & E & Q & O); [lia|].
  exists s'. split; [exact E|]. split; [exact Q|]. rewrite O. vm_compute. reflexivity.
Defined.

Lemma console_enter_witness :
  exists s', console_char 0x1000 demo_lit 0x30 0x40 0x50 (replicate 17 0) (replicate 16 0) 13
      (demo_monitor (str "db 1801 20") [] []) = Ok tt s' /\
    line_ok 0x1000 s' [] /\ same_except (demo_mem (str "db 1801 20")) (b_mem s') 0x1000 128 /\
    b_csr s' !! CSR_MTVEC = Some 0x50 /\ b_csr s' !! CSR_MSTATUS = Some 0x80 /\
    (forall r, r ∉ trap_written ->
       b_csr s' !! r = ({[CSR_MSTATUS := 0x80]} : gmap Z Z) !! r) /\
    (exists out, u_out (b_uart s') = [] ++ out ++ str "monitor> ").
Proof.
  apply (console_enter 0x1000 demo_lit 0x30 0x40 0x50 (replicate 17 0) (replicate 16 0) 13 (str "db 1801 20")
    (demo_monitor (str "db 1801 20") [] [])); [done|done|by left|by_decide|by_decide].
Defined.

Lemma drain_rx_returns_witness :
  exists s', drain_rx 0x1000 demo_lit 0x30 0x40 0x50 (replicate 17 0) (replicate 16 0)
      (demo_monitor [] (str "he") [str "lp"; [13; 120]; []]) = Ok tt s' /\
    handled 0x1000 demo_lit 0x30 0x40 0x50 (replicate 17 0) (replicate 16 0) (str "help" ++ [13; 120])
      (demo_monitor [] (str "he") [str "lp"; [13; 120]; []]) s' /\
    line_ok 0x1000 s' [120] /\ b_rx s' = [] /\ b_more s' = [] /\
    b_uart_regs s' = replicate 6 (0x10, 2) /\ same_except (demo_mem []) (b_mem s') 0x1000 128.
Proof.
  apply (drain_rx_returns 0x1000 demo_lit 0x30 0x40 0x50 (replicate 17 0) (replicate 16 0) []
    (demo_monitor [] (str "he") [str "lp"; [13; 120]; []])); [done|done|by_decide|by_decide|by_decide].
Defined.

(** [help] documents a hexadecimal address; written with [0x] it reads as 0. *)
Example atox_prefix : hexnum 0 (str "0x40000000") = 0.
Proof. reflexivity. Qed.
