(* ===== verification/Threads.v ===== *)
(** * Cooperative threads (example/ex10-threads-cooperative.c, hw/src/context-switch.S)

    The threads are a circular doubly linked list in memory; the running one is
    in the thread pointer.  [machine] is the state of the one processor: memory,
    console, the sixteen registers [context_switch] saves ([regs], in the order
    of [cframe_t]) and the allocator's variables.

    [context_switch] does not return to its caller: [Ok] is the machine at the
    address in the register [ra], with the registers of the thread switched to.
    [ret_to] is the address after the call, which is what the call leaves in
    [ra] and the switch saves for the thread switched from.

    [threads s l] is the invariant: [l] is the ring, the running thread first.
    A slice of execution is any change of the running thread's registers and of
    memory outside the thread structures and the free heap; [rotation] shows
    that the threads take turns. *)

From S2P Require Import Prelude Monad Mem Words LibcMem LibcStr Uart Printf.

Record machine := {
  t_mem : mem;
  t_uart : uart;
  regs : list Z;
  next_stack : Z;
  next_heap : Z;
  next_thread_id : Z;
}.

#[export] Program Instance machine_HasMem : HasMem machine :=
  {| mem_of := t_mem;
     with_mem m s := {| t_mem := m; t_uart := t_uart s; regs := regs s; next_stack := next_stack s;
       next_heap := next_heap s; next_thread_id := next_thread_id s |} |}.
Solve All Obligations with (intros; cbn; try by destruct s).

#[export] Program Instance machine_HasUart : HasUart machine :=
  {| uart_of := t_uart;
     with_uart u s := {| t_mem := t_mem s; t_uart := u; regs := regs s; next_stack := next_stack s;
       next_heap := next_heap s; next_thread_id := next_thread_id s |} |}.
Solve All Obligations with (intros; cbn; try by destruct s).

#[export] Instance machine_MemUart : MemUart machine.
Proof. done. Qed.

Definition with_regs (r : list Z) (s : machine) : machine :=
  {| t_mem := t_mem s; t_uart := t_uart s; regs := r; next_stack := next_stack s;
     next_heap := next_heap s; next_thread_id := next_thread_id s |}.
Definition with_stack (n : Z) (s : machine) : machine :=
  {| t_mem := t_mem s; t_uart := t_uart s; regs := regs s; next_stack := n;
     next_heap := next_heap s; next_thread_id := next_thread_id s |}.
Definition with_heap (n : Z) (s : machine) : machine :=
  {| t_mem := t_mem s; t_uart := t_uart s; regs := regs s; next_stack := next_stack s;
     next_heap := n; next_thread_id := next_thread_id s |}.
Definition with_thread_id (n : Z) (s : machine) : machine :=
  {| t_mem := t_mem s; t_uart := t_uart s; regs := regs s; next_stack := next_stack s;
     next_heap := next_heap s; next_thread_id := n |}.

(** The registers of [cframe_t], by index and by offset in [thread_t]. *)
(* src/hw/inc/hw/context.h:10-27 cframe *)
Definition cframe_regs : list string :=
  ["pc"; "sp"; "gp"; "tp"; "s0"; "s1"; "s2"; "s3"; "s4"; "s5"; "s6"; "s7"; "s8"; "s9"; "s10"; "s11"].
Definition R_TP : nat := 3.

(* src/example/ex10-threads-cooperative.c:39-39 *)
Definition THREAD_MAGIC := 0x5c95bec3.

(** Offsets in [thread_t]. *)
(* src/example/ex10-threads-cooperative.c:41-47 thread *)
Definition sizeof_thread_t := 80.
Definition T_MAGIC := 0.
Definition T_ID := 4.
Definition T_NEXT := 8.
Definition T_PREV := 12.
Definition T_CTXT := 16.
Definition C_PC := 0.
Definition C_SP := 4.
Definition C_TP := 12.
Definition C_S0 := 16.
Definition C_S1 := 20.
Definition C_S2 := 24.

(* src/hw/inc/hw/intrinsics.h:63-65 *)
Definition threadptr_get : M machine Z := gets (fun s => nth R_TP (regs s) 0).
(* src/hw/inc/hw/intrinsics.h:67-69 *)
Definition threadptr_set (p : Z) : M machine unit := modify (fun s => with_regs (<[R_TP := p]> (regs s)) s).

(* src/example/ex10-threads-cooperative.c:21-26 *)
Definition alloc_stack : M machine Z :=
  p <- gets next_stack ;;
  modify (fun s => with_stack (u32 (p - 8192)) s) ;;
  n <- gets next_stack ;;
  memset n 0xee 4096 ;;
  ret p.

(* src/example/ex10-threads-cooperative.c:28-34 *)
Definition alloc (sz : Z) : M machine Z :=
  let sz := Z.land (u32 (sz + 31)) (u32 (Z.lnot 31)) in
  ptr <- gets next_heap ;;
  memset ptr 0 sz ;;
  modify (fun s => with_heap (u32 (next_heap s + sz)) s) ;;
  ret ptr.

(** [sw] of the sixteen registers and [lw] of sixteen others. *)
(* src/hw/src/context-switch.S:7-46 *)
Definition context_switch (ret_to from to : Z) : M machine unit :=
  modify (fun s => with_regs (<[0%nat := ret_to]> (regs s)) s) ;;
  r <- gets regs ;;
  store_words from r ;;
  r <- load_words to 16 ;;
  modify (with_regs r).

Section threads.
Context (thread0 context_entry exit_ret yield_ret : Z).

(* src/example/ex10-threads-cooperative.c:58-60 *)
Definition thread_init : M machine unit := threadptr_set thread0.

(* src/example/ex10-threads-cooperative.c:62-87 *)
Definition thread_create (fn arg : Z) : M machine Z :=
  current <- threadptr_get ;;
  t <- alloc sizeof_thread_t ;;
  store32 (t + T_MAGIC) THREAD_MAGIC ;;
  id <- gets next_thread_id ;;
  modify (with_thread_id (u32 (id + 1))) ;;
  store32 (t + T_ID) id ;;
  store32 (t + T_NEXT) current ;;
  prev <- load32 (current + T_PREV) ;;
  store32 (t + T_PREV) prev ;;
  prev <- load32 (t + T_PREV) ;;
  store32 (prev + T_NEXT) t ;;
  next <- load32 (t + T_NEXT) ;;
  store32 (next + T_PREV) t ;;
  store32 (t + T_CTXT + C_TP) t ;;
  sp <- alloc_stack ;;
  store32 (t + T_CTXT + C_SP) sp ;;
  store32 (t + T_CTXT + C_S0) arg ;;
  store32 (t + T_CTXT + C_S1) 0 ;;
  store32 (t + T_CTXT + C_S2) fn ;;
  store32 (t + T_CTXT + C_PC) context_entry ;;
  i <- load32 (t + T_ID) ;;
  p <- load32 (t + T_CTXT + C_SP) ;;
  f <- load32 (t + T_CTXT + C_S2) ;;
  xprintf (str "[ created thread %p id=%u sp=%08x pc=%08x ]" ++ [10]) [VaWord t; VaWord i; VaWord p; VaWord f] ;;
  ret t.

(** A thread that is switched from here is never switched to again; lines
    110-111 are at [exit_ret]. *)
(* src/example/ex10-threads-cooperative.c:89-112 *)
Definition thread_exit (status : Z) : M machine unit :=
  current <- threadptr_get ;;
  next <- load32 (current + T_NEXT) ;;
  prev <- load32 (current + T_PREV) ;;
  id <- load32 (current + T_ID) ;;
  xprintf (str "[ thread %p id=%u exited status=%d ]" ++ [10]) [VaWord current; VaWord id; VaWord status] ;;
  if next =? current then
    xprintf (str "[ all threads have exited ]" ++ [10]) [] ;;
    spin
  else
    store32 (next + T_PREV) prev ;;
    store32 (prev + T_NEXT) next ;;
    store32 (current + T_PREV) 0 ;;
    store32 (current + T_NEXT) 0 ;;
    context_switch exit_ret (current + T_CTXT) (next + T_CTXT).

(* src/example/ex10-threads-cooperative.c:114-117 *)
Definition yield : M machine unit :=
  current <- threadptr_get ;;
  next <- load32 (current + T_NEXT) ;;
  context_switch yield_ret (current + T_CTXT) (next + T_CTXT).
End threads.

(** ** The ring *)

Definition nextp (m : mem) (t : Z) : Z := word m (t + T_NEXT).
Definition prevp (m : mem) (t : Z) : Z := word m (t + T_PREV).

(** Neighbours in [l] point at each other. *)
Fixpoint links (m : mem) (l : list Z) : Prop :=
  match l with
  | a :: l' => match l' with b :: _ => nextp m a = b /\ prevp m b = a /\ links m l' | [] => True end
  | [] => True
  end.

(** The thread structures: aligned, in memory, apart from each other. *)
Definition nodes (m : mem) (l : list Z) : Prop :=
  NoDup l /\ (forall a, a ∈ l -> a mod 4 = 0 /\ 0 <= a < 2 ^ 32 /\ mapped m a sizeof_thread_t) /\
  (forall a b, a ∈ l -> b ∈ l -> a <> b -> a + sizeof_thread_t <= b \/ b + sizeof_thread_t <= a).

Definition ring (m : mem) (l : list Z) : Prop :=
  nodes m l /\ match l with c :: ts => links m (c :: ts ++ [c]) | [] => False end.

(** The registers saved for the thread [t]. *)
Definition saved (m : mem) (t : Z) (ws : list Z) : Prop :=
  length ws = 16%nat /\ Forall is_u32 ws /\ words_at m (t + T_CTXT) ws.

(** The invariant: [l] is the ring of threads, the first one running, each of
    the others with registers saved that make it the running thread; the heap
    and the stacks to come are free memory, below the structures of no thread. *)
Definition threads (s : machine) (l : list Z) : Prop :=
  ring (t_mem s) l /\
  length (regs s) = 16%nat /\ Forall is_u32 (regs s) /\ nth R_TP (regs s) 0 = hd 0 l /\
  (forall t, t ∈ tl l -> exists ws, saved (t_mem s) t ws /\ nth R_TP ws 0 = t) /\
  next_heap s mod 32 = 0 /\ next_stack s mod 4096 = 0 /\ 0 <= next_heap s <= next_stack s /\ next_stack s < 2 ^ 32 /\
  mapped (t_mem s) (next_heap s) (next_stack s - next_heap s) /\
  (forall t, t ∈ l -> t + sizeof_thread_t <= next_heap s).

Lemma links_app m l1 a l2 : links m (l1 ++ a :: l2) <-> links m (l1 ++ [a]) /\ links m (a :: l2).
Proof.
  induction l1 as [|x l1 IH]; cbn [app links]; [tauto|].
  destruct l1 as [|y l1]; cbn [app] in *; rewrite IH; cbn [links]; tauto.
Qed.

(** The links of a list depend on the next pointers of all but its last thread
    and the previous pointers of all but its first. *)
Lemma links_ext m m' l p :
  (forall a, a ∈ l -> nextp m' a = nextp m a) ->
  (forall a, a ∈ tl (l ++ [p]) -> prevp m' a = prevp m a) -> links m (l ++ [p]) -> links m' (l ++ [p]).
Proof.
  induction l as [|a l IH]; [done|]. intros Hn Hp H. cbn [app tl] in *. destruct (l ++ [p]) as [|b l'] eqn:E.
  { by destruct l. }
  cbn [links tl] in *. destruct H as (H1 & H2 & H3). split_and!.
  - rewrite Hn; [done|left].
  - rewrite Hp; [done|left].
  - apply IH; [intros x Hx; apply Hn; by right|intros x Hx; apply Hp; by right|done].
Qed.

(** A store into one field of a thread structure. *)
Lemma field_write m l t u o v w :
  nodes m l -> t ∈ l -> u ∈ l -> 0 <= o <= 76 -> 0 <= w <= 76 -> o mod 4 = 0 -> w mod 4 = 0 ->
  word (write_bytes m (t + o) (le_bytes 4 v)) (u + w) =
  if decide (u = t /\ w = o) then u32 v else word m (u + w).
Proof.
  intros (_ & Ha & Hd) Ht Hu Ho Hw Ho4 Hw4. destruct (Ha t Ht) as (At & _), (Ha u Hu) as (Au & _).
  rewrite word_write by zarith. case_decide as E1; case_decide as E2; try done.
  - exfalso. apply E2. destruct (decide (u = t)) as [->|Hne]; [lia|].
    destruct (Hd u t Hu Ht Hne); unfold sizeof_thread_t in *; lia.
  - exfalso. lia.
Qed.

Lemma nodup_head (x : Z) l : NoDup (x :: l) -> x ∉ l.
Proof. by inversion 1. Qed.

Lemma nodes_mono m m' l : nodes m l -> (forall b n, mapped m b n -> mapped m' b n) -> nodes m' l.
Proof. intros (H1 & H2 & H3) Hm. split; [done|]. split; [|done]. intros a Ha. destruct (H2 a Ha) as (? & ? & ?). auto. Qed.

Lemma nodes_sub m l l' : nodes m l -> NoDup l' -> (forall a, a ∈ l' -> a ∈ l) -> nodes m l'.
Proof. intros (H1 & H2 & H3) Hn Hs. split; [done|]. split; [auto|]. intros a b Ha Hb. apply H3; auto. Qed.

Lemma node_mapped m l t o n : nodes m l -> t ∈ l -> 0 <= o -> o + n <= 80 -> mapped m (t + o) n.
Proof.
  intros (_ & H & _) Ht Ho Hn. destruct (H t Ht) as (_ & _ & Hm). eapply mapped_sub; [exact Hm|lia|].
  unfold sizeof_thread_t. lia.
Qed.

Lemma node_aligned m l t o : nodes m l -> t ∈ l -> o mod 4 = 0 -> (t + o) mod 4 = 0.
Proof. intros (_ & H & _) Ht Ho. destruct (H t Ht) as (Ha & _). zarith. Qed.

Lemma load_field l t o (s : machine) : nodes (t_mem s) l -> t ∈ l -> 0 <= o <= 76 -> o mod 4 = 0 ->
  load32 (t + o) s = Ok (word (t_mem s) (t + o)) s.
Proof.
  intros Hn Ht Ho Ho4.
  assert (mapped (mem_of s) (t + o) 4) as Hm by (eapply (node_mapped (t_mem s)); [exact Hn|done|lia..]).
  exact (load32_ok (t + o) s Hm (node_aligned _ _ _ _ Hn Ht Ho4)).
Qed.

Lemma store_field l t o v (s : machine) : nodes (t_mem s) l -> t ∈ l -> 0 <= o <= 76 -> o mod 4 = 0 ->
  store32 (t + o) v s = Ok tt (with_mem (write_bytes (t_mem s) (t + o) (le_bytes 4 v)) s).
Proof.
  intros Hn Ht Ho Ho4.
  assert (mapped (mem_of s) (t + o) 4) as Hm by (eapply (node_mapped (t_mem s)); [exact Hn|done|lia..]).
  exact (store_ok 4 (t + o) v s Hm (node_aligned _ _ _ _ Hn Ht Ho4)).
Qed.

(** Saved registers are not in the way of writes elsewhere. *)
Lemma saved_frame m m' t ws :
  saved m t ws -> (forall a, t + T_CTXT <= a < t + sizeof_thread_t -> m' !! a = m !! a) ->
  (forall b n, mapped m b n -> mapped m' b n) -> saved m' t ws.
Proof.
  intros (Hl & Hu & Hw) H Hm. split; [done|]. split; [done|]. intros i w Hi. destruct (Hw i w Hi) as [Hmp Hwd].
  split; [by apply Hm|]. rewrite <- Hwd. apply lookup_lt_Some in Hi. apply word_agree. intros a Ha. apply H.
  unfold T_CTXT, sizeof_thread_t in *. lia.
Qed.

(** *** Stores into several fields *)

(** Field stores [(t, o, v)], in order. *)
Definition put_fields (m : mem) (ws : list (Z * Z * Z)) : mem :=
  fold_left (fun m '(t, o, v) => write_bytes m (t + o) (le_bytes 4 v)) ws m.

(** The value they leave in a field, if one is stored there. *)
Definition latest (ws : list (Z * Z * Z)) (u w : Z) : option Z :=
  fold_left (fun acc '(t, o, v) => if decide (u = t /\ w = o) then Some (u32 v) else acc) ws None.

Definition fields_of (l : list Z) (ws : list (Z * Z * Z)) : Prop :=
  Forall (fun '(t, o, v) => t ∈ l /\ 0 <= o <= 76 /\ o mod 4 = 0) ws.

Lemma put_fields_mapped m ws b n : mapped m b n -> mapped (put_fields m ws) b n.
Proof.
  revert m. induction ws as [|[[t o] v] ws IH]; intros m H; [done|].
  change (mapped (put_fields (write_bytes m (t + o) (le_bytes 4 v)) ws) b n). by apply IH, mapped_write.
Qed.

Lemma put_fields_snoc m ws t o v :
  put_fields m (ws ++ [(t, o, v)]) = write_bytes (put_fields m ws) (t + o) (le_bytes 4 v).
Proof. unfold put_fields. by rewrite fold_left_app. Qed.

Lemma put_fields_word m l ws u w : nodes m l -> fields_of l ws -> u ∈ l -> 0 <= w <= 76 -> w mod 4 = 0 ->
  word (put_fields m ws) (u + w) = default (word m (u + w)) (latest ws u w).
Proof.
  intros Hn Hws Hu Hw Hw4. induction ws as [|[[t o] v] ws IH] using rev_ind; [done|].
  apply Forall_app in Hws as [Hws Ho]. apply Forall_cons_iff in Ho as [(Ht & Ho & Ho4) _].
  rewrite put_fields_snoc. unfold latest. rewrite fold_left_app. cbn [fold_left].
  rewrite (field_write _ l) by (done || (eapply nodes_mono; [exact Hn|intros; by apply put_fields_mapped])).
  case_decide; [done|]. by apply IH.
Qed.

Lemma put_fields_other m l ws a : fields_of l ws -> (forall t, t ∈ l -> ~ (t <= a < t + sizeof_thread_t)) ->
  put_fields m ws !! a = m !! a.
Proof.
  intros Hws Ha. induction ws as [|[[t o] v] ws IH] using rev_ind; [done|].
  apply Forall_app in Hws as [Hws Ho]. apply Forall_cons_iff in Ho as [(Ht & Ho & Ho4) _].
  rewrite put_fields_snoc, lookup_write_bytes, length_le_bytes, decide_False; [by apply IH|].
  specialize (Ha t Ht). unfold sizeof_thread_t in Ha. lia.
Qed.

Lemma put_fields_nodes m l ws : nodes m l -> nodes (put_fields m ws) l.
Proof. intros Hn. eapply nodes_mono; [exact Hn|]. intros. by apply put_fields_mapped. Qed.

Lemma store_put l ws t o v (s : machine) m : nodes m l -> t ∈ l -> 0 <= o <= 76 -> o mod 4 = 0 ->
  store32 (t + o) v (with_mem (put_fields m ws) s) = Ok tt (with_mem (put_fields m (ws ++ [(t, o, v)])) s).
Proof.
  intros Hn Ht Ho Ho4.
  rewrite (store_field l t o v (with_mem (put_fields m ws) s)); [|by apply put_fields_nodes|done..].
  by rewrite put_fields_snoc.
Qed.

Lemma load_put l ws u w (s : machine) m : nodes m l -> fields_of l ws -> u ∈ l -> 0 <= w <= 76 -> w mod 4 = 0 ->
  load32 (u + w) (with_mem (put_fields m ws) s) =
  Ok (default (word m (u + w)) (latest ws u w)) (with_mem (put_fields m ws) s).
Proof.
  intros Hn Hws Hu Hw Hw4.
  rewrite (load_field l u w (with_mem (put_fields m ws) s)); [|by apply put_fields_nodes|done..].
  cbn [t_mem with_mem machine_HasMem]. by rewrite (put_fields_word m l).
Qed.

(** Field stores to fields before [T_CTXT] leave saved registers alone. *)
Lemma put_fields_saved m l ws t v : nodes m l -> fields_of l ws -> Forall (fun '(_, o, _) => o < T_CTXT) ws ->
  t ∈ l -> saved m t v -> saved (put_fields m ws) t v.
Proof.
  intros Hn Hws Ho Ht (Lv & Uv & Wv). split; [done|]. split; [done|]. intros i x Hi.
  destruct (Wv i x Hi) as [Hm Hx]. split; [by apply put_fields_mapped|]. rewrite <- Hx.
  apply lookup_lt_Some in Hi. rewrite <- Z.add_assoc.
  rewrite (put_fields_word m l) by (done || unfold T_CTXT; zarith).
  enough (latest ws t (T_CTXT + 4 * Z.of_nat i) = None) as -> by done. clear - Ho.
  induction ws as [|[[u o] y] ws IH] using rev_ind; [done|].
  apply Forall_app in Ho as [Ho Ho']. apply Forall_cons_iff in Ho' as [Hu _].
  unfold latest. rewrite fold_left_app. cbn [fold_left]. rewrite decide_False by lia. by apply IH.
Qed.

Section switching.
Context (thread0 context_entry exit_ret yield_ret : Z).

(** [context_switch] stores the registers, the return address in front, and
    takes up the registers saved at [to]. *)
Lemma context_switch_ok ret_to from to ws (s : machine) :
  length (regs s) = 16%nat -> Forall is_u32 (regs s) -> is_u32 ret_to ->
  from mod 4 = 0 -> to mod 4 = 0 -> mapped (t_mem s) from 64 ->
  words_at (t_mem s) to ws -> length ws = 16%nat -> from + 64 <= to \/ to + 64 <= from ->
  exists m, context_switch ret_to from to s = Ok tt (with_regs ws (with_mem m s)) /\
    words_at m from (<[0%nat := ret_to]> (regs s)) /\ same_except (t_mem s) m from 64 /\
    (forall b n, mapped (t_mem s) b n -> mapped m b n).
Proof.
  intros Hl Hu Hr Hf Ht Hm Hw Hlw Hd. unfold context_switch.
  set (r := <[0%nat := ret_to]> (regs s)). set (s1 := with_regs r s).
  assert (length r = 16%nat) as Hlr by (unfold r; by rewrite length_insert).
  assert (Forall is_u32 r) as Hur by (unfold r; by apply Forall_insert).
  assert (modify (fun s => with_regs (<[0%nat := ret_to]> (regs s)) s) s = Ok tt s1) as E1 by done. step E1.
  rewrite (bind_ok (gets regs) _ s1 r s1) by done.
  destruct (store_words_at s1 from r Hur Hf) as (m & E2 & W & X & Mm); [by rewrite Hlr|].
  rewrite Hlr in X. step E2. change (mem_of s1) with (t_mem s) in *.
  assert (words_at m to ws) as Hw'.
  { intros i w Hi. destruct (Hw i w Hi) as [H1 H2]. split; [by apply Mm|]. rewrite <- H2.
    apply lookup_lt_Some in Hi. apply word_agree. intros a Ha. apply X. lia. }
  assert (load_words to 16 (with_mem m s1) = Ok ws (with_mem m s1)) as E3.
  { rewrite <- Hlw. apply load_words_at; [done|]. by rewrite mem_of_with. }
  step E3. exists m. split; [done|]. split; [done|]. split; [|done]. exact X.
Qed.

(** A thread that switches to itself goes on. *)
Lemma context_switch_self ret_to from (s : machine) :
  length (regs s) = 16%nat -> Forall is_u32 (regs s) -> is_u32 ret_to ->
  from mod 4 = 0 -> mapped (t_mem s) from 64 ->
  exists m, context_switch ret_to from from s =
      Ok tt (with_regs (<[0%nat := ret_to]> (regs s)) (with_mem m s)) /\
    words_at m from (<[0%nat := ret_to]> (regs s)) /\ same_except (t_mem s) m from 64 /\
    (forall b n, mapped (t_mem s) b n -> mapped m b n).
Proof.
  intros Hl Hu Hr Hf Hm. unfold context_switch.
  set (r := <[0%nat := ret_to]> (regs s)). set (s1 := with_regs r s).
  assert (length r = 16%nat) as Hlr by (unfold r; by rewrite length_insert).
  assert (Forall is_u32 r) as Hur by (unfold r; by apply Forall_insert).
  assert (modify (fun s => with_regs (<[0%nat := ret_to]> (regs s)) s) s = Ok tt s1) as E1 by done. step E1.
  rewrite (bind_ok (gets regs) _ s1 r s1) by done.
  destruct (store_words_at s1 from r Hur Hf) as (m & E2 & W & X & Mm); [by rewrite Hlr|].
  rewrite Hlr in X. step E2. change (mem_of s1) with (t_mem s) in *.
  assert (load_words from 16 (with_mem m s1) = Ok r (with_mem m s1)) as E3.
  { rewrite <- Hlr. apply load_words_at; [done|]. by rewrite mem_of_with. }
  step E3. by exists m.
Qed.

Lemma words_at_unique m a l1 l2 : words_at m a l1 -> words_at m a l2 -> length l1 = length l2 -> l1 = l2.
Proof.
  intros H1 H2 Hl. apply list_eq. intros i.
  destruct (l1 !! i) as [w1|] eqn:E1, (l2 !! i) as [w2|] eqn:E2; try done.
  - destruct (H1 i w1 E1) as [_ <-], (H2 i w2 E2) as [_ <-]. done.
  - apply lookup_lt_Some in E1. apply lookup_ge_None in E2. lia.
  - apply lookup_lt_Some in E2. apply lookup_ge_None in E1. lia.
Qed.

Lemma saved_unique m t w1 w2 : saved m t w1 -> saved m t w2 -> w1 = w2.
Proof. intros (L1 & _ & H1) (L2 & _ & H2). eapply words_at_unique; [done..|]. congruence. Qed.

(** Changes of memory that leave the ring alone. *)
Lemma ring_frame m m' c ts :
  ring m (c :: ts) ->
  (forall t o, t ∈ c :: ts -> o = T_NEXT \/ o = T_PREV -> word m' (t + o) = word m (t + o)) ->
  (forall b n, mapped m b n -> mapped m' b n) -> ring m' (c :: ts).
Proof.
  intros [Hn Hl] Hw Hm. split; [by eapply nodes_mono|].
  change (c :: ts ++ [c]) with ((c :: ts) ++ [c]) in *. eapply links_ext; [| |exact Hl].
  - intros a Ha. apply Hw; [done|by left].
  - intros a Ha. apply Hw; [|by right]. cbn [app tl] in Ha. apply elem_of_app in Ha as [Ha|Ha]; [by right|].
    apply list_elem_of_singleton in Ha as ->. left.
Qed.

(** Turning the ring. *)
Lemma ring_rotate m c ts : ring m (c :: ts) -> ring m (ts ++ [c]).
Proof.
  intros [Hn Hl]. destruct ts as [|n ts]; [done|]. cbn [app] in *. split.
  - eapply nodes_sub; [exact Hn| |].
    + destruct Hn as [Hn _]. change (n :: ts ++ [c]) with ((n :: ts) ++ [c]).
      apply NoDup_ListNoDup. eapply Permutation_NoDup; [apply Permutation_cons_append|].
      by apply NoDup_ListNoDup.
    + intros a Ha. change (n :: ts ++ [c]) with ((n :: ts) ++ [c]) in Ha. apply elem_of_app in Ha as [Ha|Ha].
      * by right.
      * apply list_elem_of_singleton in Ha as ->. left.
  - replace (n :: (ts ++ [c]) ++ [n]) with ((n :: ts) ++ [c; n]) by (cbn [app]; by rewrite <- app_assoc).
    apply links_app. cbn [links] in Hl.
    destruct Hl as (H1 & H2 & H3). split; [exact H3|]. by cbn [links].
Qed.

(** ** Yielding *)

Lemma yield_ok c ts (s : machine) : threads s (c :: ts) -> is_u32 yield_ret ->
  exists m r, yield yield_ret s = Ok tt (with_regs r (with_mem m s)) /\
    threads (with_regs r (with_mem m s)) (ts ++ [c]) /\
    saved m c (<[0%nat := yield_ret]> (regs s)) /\
    match ts with [] => r = <[0%nat := yield_ret]> (regs s) | n :: _ => saved (t_mem s) n r end /\
    (forall t ws, t ∈ ts -> saved (t_mem s) t ws -> saved m t ws) /\
    same_except (t_mem s) m (c + T_CTXT) 64.
Proof.
  intros (Hr & Hlr & Hur & Htp & Hsv & A1 & A2 & A3 & A4 & A5 & A6) Hy.
  pose proof Hr as [Hnodes Hlinks]. pose proof Hnodes as (Hnd & Hin & Hap).
  assert (c ∈ c :: ts) as Hc by left.
  unfold yield. rewrite (bind_ok threadptr_get _ s c s) by (unfold threadptr_get, gets; by rewrite Htp).
  assert (load32 (c + T_NEXT) s = Ok (nextp (t_mem s) c) s) as E1.
  { apply (load_field (c :: ts)); [done|done|unfold T_NEXT; lia|done]. }
  step E1.
  assert ((c + T_CTXT) mod 4 = 0) as Hca by (by eapply node_aligned).
  assert (mapped (t_mem s) (c + T_CTXT) 64) as Hcm by (eapply node_mapped; [exact Hnodes|done|unfold T_CTXT; lia..]).
  assert (nth R_TP (<[0%nat := yield_ret]> (regs s)) 0 = c) as Htp'.
  { cbn [hd] in Htp. rewrite <- Htp. by destruct (regs s). }
  assert (forall m, same_except (t_mem s) m (c + T_CTXT) 64 ->
    (forall b n, mapped (t_mem s) b n -> mapped m b n) -> ring m (c :: ts) /\
    (forall t ws, t ∈ ts -> saved (t_mem s) t ws -> saved m t ws)) as Hframe.
  { intros m X Mm. split.
    - eapply ring_frame; [exact Hr| |exact Mm]. intros t o Ht Ho. apply word_agree. intros a Ha. apply X.
      assert (o = 8 \/ o = 12) as Ho' by (unfold T_NEXT, T_PREV in Ho; lia).
      destruct (decide (t = c)) as [->|Hne]; [unfold T_CTXT; lia|].
      destruct (Hap t c Ht Hc Hne); unfold T_CTXT, sizeof_thread_t in *; lia.
    - intros t ws Ht Hs. eapply saved_frame; [exact Hs| |exact Mm]. intros a Ha. apply X.
      assert (t <> c) as Hne by (intros ->; by apply nodup_head in Hnd).
      destruct (Hap t c) as [?|?]; [by right|done|done|..]; unfold T_CTXT, sizeof_thread_t in *; lia. }
  destruct ts as [|n ts].
  - cbn [app links] in Hlinks. destruct Hlinks as (-> & _ & _).
    destruct (context_switch_self yield_ret (c + T_CTXT) s Hlr Hur Hy Hca Hcm) as (m & E & W & X & Mm).
    destruct (Hframe m X Mm) as [Hr' Hs']. exists m, (<[0%nat := yield_ret]> (regs s)).
    split; [exact E|]. split; [|split; [|done]].
    + unfold threads. cbn [regs with_regs t_mem with_mem machine_HasMem next_heap next_stack app tl hd].
      split_and!; try done; try lia.
      * by rewrite length_insert.
      * by apply Forall_insert.
      * intros t Ht. by apply not_elem_of_nil in Ht.
      * by apply Mm.
    + split; [by rewrite length_insert|]. split; [by apply Forall_insert|done].
  - cbn [app links] in Hlinks. destruct Hlinks as (-> & _ & _).
    destruct (Hsv n ltac:(left)) as (ws & Hws & Hwtp). pose proof Hws as (Lw & Uw & Ww).
    assert (n ∈ c :: n :: ts) as Hn by (right; left).
    assert (n <> c) as Hne by (intros ->; apply nodup_head in Hnd; apply Hnd; left).
    destruct (context_switch_ok yield_ret (c + T_CTXT) (n + T_CTXT) ws s Hlr Hur Hy Hca
      ltac:(by eapply node_aligned) Hcm Ww Lw) as (m & E & W & X & Mm).
    { destruct (Hap c n Hc Hn) as [?|?]; [done|..]; unfold T_CTXT, sizeof_thread_t in *; lia. }
    destruct (Hframe m X Mm) as [Hr' Hs']. exists m, ws.
    assert (saved m c (<[0%nat := yield_ret]> (regs s))) as Hsc
      by (split; [by rewrite length_insert|split; [by apply Forall_insert|done]]).
    split; [exact E|]. split; [|split; [exact Hsc|split; [exact Hws|split; [exact Hs'|exact X]]]].
    unfold threads. cbn [regs with_regs t_mem with_mem machine_HasMem next_heap next_stack app tl hd].
    split_and!; try done; try lia.
    + exact (ring_rotate m c (n :: ts) Hr').
    + intros t Ht. apply elem_of_app in Ht as [Ht|Ht].
      * destruct (Hsv t ltac:(by right)) as (wt & Hwt & Htt). exists wt. split; [|done]. apply Hs'; [by right|done].
      * apply list_elem_of_singleton in Ht as ->. by exists (<[0%nat := yield_ret]> (regs s)).
    + by apply Mm.
    + intros t Ht. apply A6. change (n :: ts ++ [c]) with ((n :: ts) ++ [c]) in Ht.
      apply elem_of_app in Ht as [Ht|Ht]; [by right|]. apply list_elem_of_singleton in Ht as ->. left.
Qed.

(** ** Taking turns *)

(** A stretch of execution of one thread: it computes its registers and writes
    memory. *)
Record slice := { s_regs : list Z -> list Z; s_mem : machine -> mem }.

(** It keeps its thread pointer and stays out of the thread structures. *)
Definition slice_ok (l : list Z) (f : slice) : Prop :=
  (forall w, length w = 16%nat -> Forall is_u32 w ->
     length (s_regs f w) = 16%nat /\ Forall is_u32 (s_regs f w) /\ nth R_TP (s_regs f w) 0 = nth R_TP w 0) /\
  (forall s, (forall t a, t ∈ l -> t <= a < t + sizeof_thread_t -> s_mem f s !! a = t_mem s !! a) /\
     (forall b n, mapped (t_mem s) b n -> mapped (s_mem f s) b n)).

Definition run_slice (f : slice) : M machine unit :=
  modify (fun s => with_regs (s_regs f (regs s)) (with_mem (s_mem f s) s)).

(** Each slice ends with a [yield]. *)
Fixpoint take_turns (fs : list slice) : M machine unit :=
  match fs with [] => ret tt | f :: fs' => run_slice f ;; yield yield_ret ;; take_turns fs' end.

(** [W] are the registers of the threads of the ring: the running one's in the
    processor, the others' saved. *)
Definition contexts (s : machine) (l : list Z) (W : list (list Z)) : Prop :=
  threads s l /\ length W = length l /\ regs s = hd [] W /\ Forall2 (saved (t_mem s)) (tl l) (tl W).

Lemma saved_all_mono m m' ts W : (forall t v, t ∈ ts -> saved m t v -> saved m' t v) ->
  Forall2 (saved m) ts W -> Forall2 (saved m') ts W.
Proof.
  intros Hk H. revert Hk. induction H as [|t v ts W Hv _ IH]; intros Hk; constructor.
  - apply Hk; [left|done].
  - apply IH. intros t' v' Ht'. apply Hk. by right.
Qed.

(** New registers, and memory changed outside the thread structures. *)
Lemma threads_frame c ts r m s :
  threads s (c :: ts) -> length r = 16%nat -> Forall is_u32 r -> nth R_TP r 0 = c ->
  (forall t a, t ∈ c :: ts -> t <= a < t + sizeof_thread_t -> m !! a = t_mem s !! a) ->
  (forall b n, mapped (t_mem s) b n -> mapped m b n) ->
  threads (with_regs r (with_mem m s)) (c :: ts) /\
  (forall t ws, t ∈ ts -> saved (t_mem s) t ws -> saved m t ws).
Proof.
  intros (Hr & _ & _ & _ & Hsv & A1 & A2 & A3 & A4 & A5 & A6) F1 F2 F3 Hm1 Hm2. cbn [hd tl] in *.
  assert (forall t ws, t ∈ ts -> saved (t_mem s) t ws -> saved m t ws) as Hk.
  { intros t v Ht Hv. eapply saved_frame; [exact Hv| |exact Hm2]. intros a Ha. apply (Hm1 t); [by right|].
    unfold T_CTXT in Ha. lia. }
  split; [|exact Hk].
  unfold threads. cbn [regs with_regs t_mem with_mem machine_HasMem next_heap next_stack tl hd].
  split_and!; try done; try lia.
  - eapply ring_frame; [exact Hr| |exact Hm2]. intros t o Ht Ho. apply word_agree. intros a Ha.
    apply (Hm1 t); [done|]. unfold T_NEXT, T_PREV, sizeof_thread_t in *. lia.
  - intros t Ht. destruct (Hsv t Ht) as (v & Hv & Htv). exists v. split; [by apply Hk|done].
  - by apply Hm2.
Qed.

Lemma run_slice_ok f c ts w ws s : contexts s (c :: ts) (w :: ws) -> slice_ok (c :: ts) f ->
  exists s', run_slice f s = Ok tt s' /\ contexts s' (c :: ts) (s_regs f w :: ws).
Proof.
  intros (Ht & Hlen & Hw & Hs) [Hf Hm]. destruct (Hm s) as [Hm1 Hm2]. cbn [hd tl] in *. subst w.
  pose proof Ht as (_ & Hlr & Hur & Htp & _). destruct (Hf (regs s) Hlr Hur) as (F1 & F2 & F3).
  destruct (threads_frame c ts (s_regs f (regs s)) (s_mem f s) s Ht F1 F2) as [T Hk]; [by rewrite F3|done..|].
  eexists. split; [reflexivity|]. split; [exact T|split; [done|split; [done|]]].
  exact (saved_all_mono _ _ _ _ Hk Hs).
Qed.

Lemma yield_turn c ts w ws s : is_u32 yield_ret -> contexts s (c :: ts) (w :: ws) ->
  exists s', yield yield_ret s = Ok tt s' /\ contexts s' (ts ++ [c]) (ws ++ [<[0%nat := yield_ret]> w]).
Proof.
  intros Hy (Ht & Hlen & Hw & Hs). cbn [hd tl] in *. subst w.
  destruct (yield_ok c ts s Ht Hy) as (m & r & E & T & Sc & Hr & Hk & _).
  eexists. split; [exact E|]. split; [exact T|]. cbn [length] in Hlen.
  split; [rewrite !length_app; cbn; lia|]. cbn [regs with_regs t_mem with_mem machine_HasMem].
  destruct Hs as [|n v ts ws Hv Hs]; cbn [app hd tl].
  - by split.
  - split; [eapply saved_unique; [exact Hr|exact Hv]|]. apply Forall2_app; [|by constructor; [exact Sc|constructor]].
    eapply saved_all_mono; [|exact Hs]. intros t v' Ht'. apply Hk. by right.
Qed.

Lemma slice_ok_mono l l' f : (forall t, t ∈ l' -> t ∈ l) -> slice_ok l f -> slice_ok l' f.
Proof. intros H [H1 H2]. split; [done|]. intros s. destruct (H2 s) as [H3 H4]. split; [|done]. intros t a Ht. apply H3. by apply H. Qed.

Definition after (f : slice) (w : list Z) : list Z := <[0%nat := yield_ret]> (s_regs f w).

Lemma take_turns_ok fs : is_u32 yield_ret -> forall l2 l1 W2 W1 s,
  contexts s (l2 ++ l1) (W2 ++ W1) -> length l2 = length fs -> length W2 = length fs ->
  Forall (slice_ok (l2 ++ l1)) fs ->
  exists s', take_turns fs s = Ok tt s' /\ contexts s' (l1 ++ l2) (W1 ++ zip_with after fs W2).
Proof.
  intros Hy. induction fs as [|f fs IH]; intros l2 l1 W2 W1 s Hc L2 LW Hf; cbn [take_turns].
  - destruct l2, W2; try done. rewrite !app_nil_r. by exists s.
  - destruct l2 as [|c l2], W2 as [|w W2]; try done. apply Forall_cons_iff in Hf as [Hf Hfs].
    cbn [app] in *. destruct (run_slice_ok f _ _ _ _ s Hc Hf) as (s1 & E1 & C1). step E1.
    destruct (yield_turn _ _ _ _ s1 Hy C1) as (s2 & E2 & C2). step E2. rewrite <- !app_assoc in C2.
    destruct (IH l2 (l1 ++ [c]) W2 (W1 ++ [after f w]) s2 C2) as (s3 & E3 & C3); [cbn in *; lia|cbn in *; lia| |].
    { eapply Forall_impl; [|exact Hfs]. intros g. apply slice_ok_mono. intros t Ht.
      rewrite app_assoc in Ht. apply elem_of_app in Ht as [Ht|Ht]; [by right|].
      apply list_elem_of_singleton in Ht as ->. left. }
    exists s3. split; [exact E3|]. rewrite <- !app_assoc in C3. exact C3.
Qed.

(** ** Leaving *)

Lemma ring_prev m c l p : ring m (c :: l ++ [p]) -> nextp m p = c /\ prevp m c = p.
Proof.
  intros [_ Hl]. replace (c :: (l ++ [p]) ++ [c]) with ((c :: l) ++ p :: [c]) in Hl
    by (cbn [app]; by rewrite <- app_assoc).
  apply links_app in Hl as [_ (H1 & H2 & _)]. done.
Qed.

(** The stores of [thread_exit] take the running thread out of the ring. *)
Lemma unlink_ring m c n ts :
  ring m (c :: n :: ts) ->
  let p := prevp m c in
  p ∈ n :: ts /\
  ring (put_fields m [(n, T_PREV, p); (p, T_NEXT, n); (c, T_PREV, 0); (c, T_NEXT, 0)]) (n :: ts).
Proof.
  intros Hr p. pose proof Hr as [Hn Hl]. pose proof Hn as (Hnd & Hin & _).
  destruct (exists_last (l := n :: ts)) as (l & q & E); [done|]. rewrite E in *.
  destruct (ring_prev m c l q Hr) as [_ Hq]. fold p in Hq. subst q. clearbody p.
  assert (c ∉ l ++ [p]) as Hc by (by apply nodup_head).
  assert (NoDup (l ++ [p])) as Hnd' by (by inversion Hnd).
  assert (p ∉ l) as Hp.
  { intros Hp. apply NoDup_ListNoDup in Hnd'. apply (NoDup_remove_2 _ _ _ Hnd'). rewrite app_nil_r.
    by apply list_elem_of_In. }
  assert (n ∈ l ++ [p]) as Hnl by (rewrite <- E; left).
  assert (p ∈ l ++ [p]) as Hpl by (apply elem_of_app; right; left).
  assert (forall t, t ∈ l ++ [p] -> t ∈ c :: l ++ [p]) as Hsub by (intros t Ht; by right).
  assert (c <> p /\ c <> n) as [Hcp Hcn] by (split; intros ->; by apply Hc).
  set (ws := [(n, T_PREV, p); (p, T_NEXT, n); (c, T_PREV, 0); (c, T_NEXT, 0)]).
  assert (fields_of (c :: l ++ [p]) ws) as Hws.
  { unfold ws. repeat constructor; unfold T_PREV, T_NEXT; try lia; auto; left. }
  assert (forall u w, u ∈ l ++ [p] -> 0 <= w <= 76 -> w mod 4 = 0 ->
    word (put_fields m ws) (u + w) = default (word m (u + w)) (latest ws u w)) as Hword.
  { intros u w Hu Hw Hw4. apply (put_fields_word m (c :: l ++ [p])); auto. }
  assert (is_u32 n /\ is_u32 p) as [Un Up] by (split; apply Hin; auto).
  split; [done|]. split.
  { apply put_fields_nodes. eapply nodes_sub; [exact Hn|done|auto]. }
  assert (E' : l ++ [p] = n :: ts) by (by rewrite E).
  assert (links (put_fields m ws) (l ++ p :: [n])) as Hlinks.
  2: { destruct (l ++ [p]) as [|n' l'] eqn:El; [by destruct l|]. simplify_eq.
       replace (n :: ts ++ [n]) with ((l ++ [p]) ++ [n]) by (by rewrite El). by rewrite <- app_assoc. }
  apply links_app. split.
  - eapply (links_ext m).
    + intros a Ha. unfold nextp. rewrite Hword by (first [apply elem_of_app; by left | unfold T_NEXT; lia | done]).
      assert (a <> p /\ a <> c) as [] by (split; intros ->; [done|apply Hc; apply elem_of_app; by left]).
      unfold latest, ws. cbn [fold_left]. rewrite !decide_False by (unfold T_NEXT, T_PREV; lia). done.
    + intros a Ha. assert (a ∈ l ++ [p] /\ a <> n) as [Ha' Han].
      { rewrite E' in *. cbn [tl] in Ha. split; [by right|]. intros ->. by apply nodup_head in Hnd'. }
      unfold prevp. rewrite Hword by (done || (unfold T_PREV; lia)).
      assert (a <> c) by (intros ->; done).
      unfold latest, ws. cbn [fold_left]. rewrite !decide_False by (unfold T_NEXT, T_PREV; lia). done.
    + replace (c :: (l ++ [p]) ++ [c]) with ((c :: l) ++ p :: [c]) in Hl by (cbn [app]; by rewrite <- app_assoc).
      apply links_app in Hl as [Hl _]. cbn [app links] in Hl. destruct (l ++ [p]) as [|x l'] eqn:El; [by destruct l|].
      by destruct Hl as (_ & _ & Hl).
  - cbn [links]. split; [|split; [|done]].
    + unfold nextp. rewrite Hword by (done || (unfold T_NEXT; lia)).
      unfold latest, ws. cbn [fold_left].
      do 2 (rewrite decide_False by (unfold T_NEXT, T_PREV; lia)). rewrite decide_True by done. by apply u32_small.
    + unfold prevp. rewrite Hword by (done || (unfold T_PREV; lia)).
      unfold latest, ws. cbn [fold_left].
      do 3 (rewrite decide_False by (unfold T_NEXT, T_PREV; lia)). rewrite decide_True by done. by apply u32_small.
Qed.

(** What the running thread reads when it leaves, and the message. *)
Lemma exit_message c i st (s : machine) : exists out,
  xprintf (str "[ thread %p id=%u exited status=%d ]" ++ [10]) [VaWord c; VaWord i; VaWord st] s =
  Ok tt (emit out s).
Proof.
  set (d c := {| d_left := false; d_plus := false; d_space := false; d_alt := false; d_zero := false;
                 d_width := 0; d_conv := c |}).
  change (str "[ thread %p id=%u exited status=%d ]" ++ [10]) with
    (unparse [(str "[ thread ", d CPointer); (str " id=", d CUnsigned); (str " exited status=", d CDecimal)]
       (str " ]" ++ [10])).
  apply (numbers_printed _ _ [c; i; st]); by_decide.
Qed.

Lemma exit_loads c ts (s : machine) : ring (t_mem s) (c :: ts) -> nth R_TP (regs s) 0 = c ->
  exists i, forall B (k : Z -> Z -> Z -> Z -> M machine B),
    (current <- threadptr_get ;; next <- load32 (current + T_NEXT) ;; prev <- load32 (current + T_PREV) ;;
     id <- load32 (current + T_ID) ;; k current next prev id) s =
    k c (nextp (t_mem s) c) (prevp (t_mem s) c) i s.
Proof.
  intros [Hn _] Htp. exists (word (t_mem s) (c + T_ID)). intros B k.
  rewrite (bind_ok threadptr_get _ s c s) by (unfold threadptr_get, gets; by rewrite Htp).
  assert (c ∈ c :: ts) as Hc by left.
  rewrite (bind_ok _ _ _ _ _ (load_field (c :: ts) c T_NEXT s Hn Hc ltac:(unfold T_NEXT; lia) eq_refl)).
  rewrite (bind_ok _ _ _ _ _ (load_field (c :: ts) c T_PREV s Hn Hc ltac:(unfold T_PREV; lia) eq_refl)).
  by rewrite (bind_ok _ _ _ _ _ (load_field (c :: ts) c T_ID s Hn Hc ltac:(unfold T_ID; lia) eq_refl)).
Qed.

Lemma thread_exit_ok status c n ts (s : machine) : threads s (c :: n :: ts) -> is_u32 exit_ret ->
  exists m r out, let s' := with_regs r (with_mem m (emit out s)) in
    thread_exit exit_ret status s = Ok tt s' /\ threads s' (n :: ts) /\ saved (t_mem s) n r /\
    (forall t ws, t ∈ n :: ts -> saved (t_mem s) t ws -> saved m t ws) /\
    (forall a, (forall t, t ∈ c :: n :: ts -> ~ (t <= a < t + sizeof_thread_t)) -> m !! a = t_mem s !! a) /\
    (forall b k, mapped (t_mem s) b k -> mapped m b k).
Proof.
  intros (Hr & Hlr & Hur & Htp & Hsv & A1 & A2 & A3 & A4 & A5 & A6) He. cbn [hd tl] in *.
  pose proof Hr as [Hnodes Hl]. pose proof Hnodes as (Hnd & Hin & Hap).
  assert (nextp (t_mem s) c = n) as En by (by destruct Hl as (? & _)).
  assert (c ∉ n :: ts) as Hcn by (by apply nodup_head).
  assert (c <> n) as Hne by (intros ->; apply Hcn; left).
  destruct (unlink_ring (t_mem s) c n ts Hr) as [Hp Hr']. set (p := prevp (t_mem s) c) in *.
  set (ws := [(n, T_PREV, p); (p, T_NEXT, n); (c, T_PREV, 0); (c, T_NEXT, 0)]) in *.
  assert (c ∈ c :: n :: ts /\ n ∈ c :: n :: ts /\ p ∈ c :: n :: ts) as (Ic & In_ & Ip)
    by (split; [left|split; [right; left|by right]]).
  assert (fields_of (c :: n :: ts) ws) as Hws.
  { unfold ws. repeat (apply Forall_cons; [split_and!; (done || (unfold T_NEXT, T_PREV; lia))|]). constructor. }
  destruct (exit_loads c (n :: ts) s Hr Htp) as (i & Eload). unfold thread_exit. rewrite Eload.
  destruct (exit_message c i status s) as (out & Eout). step Eout. rewrite En.
  rewrite (proj2 (Z.eqb_neq n c)) by congruence. fold p. set (s1 := emit out s).
  change (t_mem s) with (t_mem s1) in *.
  pose proof (store_put (c :: n :: ts) [] n T_PREV p s1 (t_mem s1) Hnodes In_ ltac:(unfold T_PREV; lia) eq_refl) as E1.
  pose proof (store_put (c :: n :: ts) [(n, T_PREV, p)] p T_NEXT n s1 (t_mem s1) Hnodes Ip ltac:(unfold T_NEXT; lia) eq_refl) as E2.
  pose proof (store_put (c :: n :: ts) [(n, T_PREV, p); (p, T_NEXT, n)] c T_PREV 0 s1 (t_mem s1) Hnodes Ic ltac:(unfold T_PREV; lia) eq_refl) as E3.
  pose proof (store_put (c :: n :: ts) [(n, T_PREV, p); (p, T_NEXT, n); (c, T_PREV, 0)] c T_NEXT 0 s1 (t_mem s1) Hnodes Ic ltac:(unfold T_NEXT; lia) eq_refl) as E4.
  change (with_mem (put_fields (t_mem s1) []) s1) with s1 in E1. cbn [app] in *. fold ws in E4.
  step E1. step E2. step E3. step E4. clear E1 E2 E3 E4 Eload Eout.
  set (m1 := put_fields (t_mem s1) ws) in *. set (s2 := with_mem m1 s1).
  assert (forall t v, t ∈ n :: ts -> saved (t_mem s1) t v -> saved m1 t v) as Hk.
  { intros t v Ht Hv. eapply put_fields_saved; [exact Hnodes|exact Hws| |by right|exact Hv]. by_decide. }
  destruct (Hsv n ltac:(left)) as (wn & Hwn & Htn).
  pose proof (Hk n wn ltac:(left) Hwn) as (Ln & Un & Wn).
  destruct (context_switch_ok exit_ret (c + T_CTXT) (n + T_CTXT) wn s2 Hlr Hur He
    ltac:(by eapply node_aligned) ltac:(by eapply node_aligned)) as (m & E & W & X & Mm); [|exact Wn|exact Ln| |].
  { eapply node_mapped; [by apply put_fields_nodes|exact Ic|unfold T_CTXT; lia..]. }
  { destruct (Hap c n Ic In_ Hne); unfold T_CTXT, sizeof_thread_t in *; lia. }
  change (t_mem s2) with m1 in *.
  assert (forall t, t ∈ n :: ts -> t + sizeof_thread_t <= c \/ c + sizeof_thread_t <= t) as Hap'.
  { intros t Ht. apply Hap; [by right|done|]. intros ->. done. }
  assert (forall t v, t ∈ n :: ts -> saved (t_mem s1) t v -> saved m t v) as Hk2.
  { intros t v Ht Hv. eapply saved_frame; [by apply Hk| |exact Mm]. intros a Ha. apply X.
    specialize (Hap' t Ht). unfold T_CTXT, sizeof_thread_t in *. lia. }
  exists m, wn, out. cbv zeta. split; [exact E|]. split; [|split; [exact Hwn|split; [exact Hk2|split]]].
  - unfold threads. cbn [regs with_regs t_mem with_mem machine_HasMem next_heap next_stack tl hd].
    change (next_heap (emit out s)) with (next_heap s). change (next_stack (emit out s)) with (next_stack s).
    split_and!; try done; try lia.
    + eapply ring_frame; [exact Hr'| |exact Mm]. intros t o Ht Ho. apply word_agree. intros a Ha. apply X.
      specialize (Hap' t Ht). unfold T_CTXT, T_NEXT, T_PREV, sizeof_thread_t in *. lia.
    + intros t Ht. destruct (Hsv t ltac:(by right)) as (v & Hv & Htv). exists v.
      split; [|done]. apply Hk2; [by right|done].
    + apply Mm, put_fields_mapped. exact A5.
    + intros t Ht. apply A6. by right.
  - intros a Ha. rewrite X by (specialize (Ha c Ic); unfold T_CTXT, sizeof_thread_t in *; lia).
    by apply (put_fields_other _ (c :: n :: ts)).
  - intros b k Hbk. by apply Mm, put_fields_mapped.
Qed.

Lemma thread_exit_last status c (s : machine) : threads s [c] ->
  exists out, thread_exit exit_ret status s = Halt (emit (out ++ wire (str "[ all threads have exited ]" ++ [10])) s).
Proof.
  intros (Hr & _ & _ & Htp & _). destruct (exit_loads c [] s Hr Htp) as (i & Eload). unfold thread_exit. rewrite Eload.
  destruct (exit_message c i status s) as (out & Eout). step Eout. destruct Hr as [_ (-> & _)].
  rewrite Z.eqb_refl. exists out.
  set (l := str "[ all threads have exited ]" ++ [10]).
  assert (xprintf l [] (emit out s) = Ok tt (emit (wire l) (emit out s))) as E.
  { unfold xprintf. pose proof (vxprintf_ok [] l [] l (emit out s)) as H.
    rewrite printed_short in H by by_decide. apply H; by_decide. }
  step E. by rewrite emit_emit.
Qed.

(** ** Creating *)

(** The stores of [thread_create] before and after the stack is set up. *)
Definition link_stores (t c p id : Z) : list (Z * Z * Z) :=
  [(t, T_MAGIC, THREAD_MAGIC); (t, T_ID, id); (t, T_NEXT, c); (t, T_PREV, p); (p, T_NEXT, t); (c, T_PREV, t);
   (t, T_CTXT + C_TP, t)].
Definition start_stores (t sp arg fn : Z) : list (Z * Z * Z) :=
  [(t, T_CTXT + C_SP, sp); (t, T_CTXT + C_S0, arg); (t, T_CTXT + C_S1, 0); (t, T_CTXT + C_S2, fn);
   (t, T_CTXT + C_PC, context_entry)].

(** The registers a new thread starts with. *)
Definition start_regs (t sp arg fn : Z) : list Z := [context_entry; sp; 0; t; arg; 0; fn; 0; 0; 0; 0; 0; 0; 0; 0; 0].

Lemma link_fields l t c p id : t ∈ l -> c ∈ l -> p ∈ l -> fields_of l (link_stores t c p id).
Proof.
  intros Ht Hc Hp. unfold link_stores. repeat (apply Forall_cons; [split_and!; (done || by_decide)|]). constructor.
Qed.

Lemma start_fields l t sp arg fn : t ∈ l -> fields_of l (start_stores t sp arg fn).
Proof.
  intros Ht. unfold start_stores. repeat (apply Forall_cons; [split_and!; (done || by_decide)|]). constructor.
Qed.

Ltac field_val :=
  unfold latest, link_stores, start_stores, T_MAGIC, T_ID, T_NEXT, T_PREV, T_CTXT, C_PC, C_SP, C_TP, C_S0, C_S1, C_S2;
  cbn [fold_left];
  repeat (first [rewrite decide_False by lia | rewrite decide_True by lia]); cbn [default from_option id].

(** The new thread is linked in before the running one. *)
Lemma link_ring m m' c ts t id :
  ring m (c :: ts) -> nodes m' (c :: ts ++ [t]) -> is_u32 t ->
  let p := prevp m c in
  (forall u w, u ∈ c :: ts ++ [t] -> w = T_NEXT \/ w = T_PREV ->
     word m' (u + w) = default (word m (u + w)) (latest (link_stores t c p id) u w)) ->
  ring m' (c :: ts ++ [t]).
Proof.
  intros [Hn Hl] Hn' Ut p Hw. split; [done|]. destruct (exists_last (l := c :: ts)) as (l & p' & E); [done|].
  pose proof Hn' as (Hnd' & Hin' & _). change (links m' (c :: (ts ++ [t]) ++ [c])).
  assert (c :: (ts ++ [t]) ++ [c] = l ++ p' :: [t; c]) as -> by
    (change (c :: (ts ++ [t]) ++ [c]) with (((c :: ts) ++ [t]) ++ [c]); rewrite E, <- !app_assoc; done).
  change (c :: ts ++ [t]) with ((c :: ts) ++ [t]) in *. change (c :: ts ++ [c]) with ((c :: ts) ++ [c]) in Hl.
  rewrite E in *. rewrite <- app_assoc in Hl. cbn [app] in Hl. apply links_app in Hl as [Hl (_ & Hq & _)].
  fold p in Hq. subst p'. clearbody p.
  assert (t ∉ l ++ [p]) as Ht.
  { apply NoDup_ListNoDup in Hnd'. intros H. apply (NoDup_remove_2 _ _ _ Hnd'). rewrite app_nil_r.
    by apply list_elem_of_In. }
  assert (NoDup (l ++ [p])) as Hnd by (destruct Hn as [H _]; exact H).
  assert (c ∈ l ++ [p]) as Hc by (rewrite <- E; left).
  assert (p ∈ l ++ [p]) as Hp by (apply elem_of_app; right; left).
  assert (p ∉ l) as Hpl.
  { apply NoDup_ListNoDup in Hnd. intros H. apply (NoDup_remove_2 _ _ _ Hnd). rewrite app_nil_r.
    by apply list_elem_of_In. }
  assert (forall u, u ∈ l ++ [p] -> u ∈ (l ++ [p]) ++ [t]) as Hsub by (intros; apply elem_of_app; by left).
  assert (t ∈ (l ++ [p]) ++ [t]) as Htl by (apply elem_of_app; right; left).
  assert (c <> t /\ p <> t) as [Hct Hpt] by (split; intros ->; done).
  assert (is_u32 c /\ is_u32 p) as [Uc Up] by (split; apply Hin'; auto).
  apply links_app. split; [eapply (links_ext m); [| |exact Hl]|cbn [links]; split_and!; [..|done]];
    unfold nextp, prevp.
  - intros a Ha. assert (a ∈ l ++ [p]) as Ha' by (apply elem_of_app; by left).
    assert (a <> p /\ a <> t) as [] by (split; intros ->; done).
    rewrite Hw by auto. by field_val.
  - intros a Ha. assert (a ∈ l ++ [p] /\ a <> c) as [Ha' Hac].
    { rewrite <- E in *. cbn [tl] in Ha. split; [by right|]. intros ->. by apply nodup_head in Hnd. }
    assert (a <> t) by (intros ->; done).
    rewrite Hw by auto. by field_val.
  - rewrite Hw by auto. field_val. by apply u32_small.
  - rewrite Hw by auto. field_val. by apply u32_small.
  - rewrite Hw by auto. field_val. by apply u32_small.
  - rewrite Hw by auto. field_val. by apply u32_small.
Qed.

Lemma start_saved m t sp arg fn c p id :
  is_u32 t -> is_u32 sp -> is_u32 arg -> is_u32 fn -> is_u32 context_entry -> c <> t -> p <> t ->
  mapped m t sizeof_thread_t ->
  (forall w, 0 <= w <= 76 -> w mod 4 = 0 -> word m (t + w) =
     default (default 0 (latest (link_stores t c p id) t w)) (latest (start_stores t sp arg fn) t w)) ->
  saved m t (start_regs t sp arg fn).
Proof.
  intros Ut Us Ua Uf Ue Hc Hp Hm Hw. split; [done|]. split.
  { repeat (apply Forall_cons; [done|]). constructor. }
  intros i v Hi. pose proof (lookup_lt_Some _ _ _ Hi) as Hlt. cbn [length start_regs] in Hlt.
  split; [eapply mapped_sub; [exact Hm|unfold T_CTXT, sizeof_thread_t; lia..]|].
  rewrite <- Z.add_assoc, Hw by (unfold T_CTXT; zarith).
  do 16 (destruct i as [|i]; [cbn in Hi; simplify_eq; field_val; (done || by apply u32_small)|]). lia.
Qed.

Lemma create_message t i sp fn (s : machine) : exists out,
  xprintf (str "[ created thread %p id=%u sp=%08x pc=%08x ]" ++ [10])
    [VaWord t; VaWord i; VaWord sp; VaWord fn] s = Ok tt (emit out s).
Proof.
  set (d c := {| d_left := false; d_plus := false; d_space := false; d_alt := false; d_zero := false;
                 d_width := 0; d_conv := c |}).
  set (x8 := {| d_left := false; d_plus := false; d_space := false; d_alt := false; d_zero := true;
                d_width := 8; d_conv := CHex false |}).
  change (str "[ created thread %p id=%u sp=%08x pc=%08x ]" ++ [10]) with
    (unparse [(str "[ created thread ", d CPointer); (str " id=", d CUnsigned); (str " sp=", x8); (str " pc=", x8)]
       (str " ]" ++ [10])).
  apply (numbers_printed _ _ [t; i; sp; fn]); by_decide.
Qed.

Lemma alloc_ok (s : machine) : 0 <= next_heap s -> next_heap s + 96 < 2 ^ 32 -> mapped (t_mem s) (next_heap s) 96 ->
  alloc sizeof_thread_t s =
  Ok (next_heap s) (with_heap (next_heap s + 96) (poke s (next_heap s) (replicate 96 0))).
Proof.
  intros H0 H1 Hm. unfold alloc. change (Z.land (u32 (sizeof_thread_t + 31)) (u32 (Z.lnot 31))) with 96. cbv zeta.
  rewrite (bind_ok (gets next_heap) _ s (next_heap s) s) by done.
  assert (mapped (mem_of s) (next_heap s) 96) as Hm' by exact Hm.
  step (memset_ok (next_heap s) 0 96 s ltac:(lia) Hm'). change (Z.to_nat 96) with 96%nat. change (u8 0) with 0.
  unfold modify, bind, ret. cbn [next_heap poke with_mem machine_HasMem mem_of t_mem].
  by rewrite u32_small by (unfold is_u32; lia).
Qed.

#[local] Strategy 100 [write_bytes replicate put_fields latest].

Lemma alloc_stack_ok (s : machine) : 8192 <= next_stack s < 2 ^ 32 -> mapped (t_mem s) (next_stack s - 8192) 4096 ->
  alloc_stack s =
  Ok (next_stack s) (with_stack (next_stack s - 8192)
    (with_mem (write_bytes (t_mem s) (next_stack s - 8192) (replicate (Z.to_nat 4096) 0xee)) s)).
Proof.
  intros H0 Hm. unfold alloc_stack. rewrite (bind_ok (gets next_stack) _ s (next_stack s) s) by done.
  rewrite u32_small by (unfold is_u32; lia). set (s1 := with_stack (next_stack s - 8192) s).
  rewrite (bind_ok (modify _) _ s tt s1) by done.
  rewrite (bind_ok (gets next_stack) _ s1 (next_stack s - 8192) s1) by done.
  assert (mapped (mem_of s1) (next_stack s - 8192) 4096) as Hm' by exact Hm.
  step (memset_ok (next_stack s - 8192) 0xee 4096 s1 ltac:(lia) Hm'). change (u8 0xee) with 0xee. reflexivity.
Qed.

(** The free memory the allocator zeroes takes a node more. *)
Lemma nodes_grow m m0 l t :
  nodes m l -> (forall b n, mapped m b n -> mapped m0 b n) -> 0 <= t < 2 ^ 32 -> t mod 4 = 0 ->
  mapped m t sizeof_thread_t -> (forall u, u ∈ l -> u + sizeof_thread_t <= t) -> nodes m0 (l ++ [t]).
Proof.
  intros (Hnd & Hin & Hap) Mm Ht Ht4 Hm Hb. split; [|split].
  - apply NoDup_ListNoDup. eapply Permutation_NoDup; [apply Permutation_cons_append|]. apply NoDup_ListNoDup.
    constructor; [|done]. intros H. specialize (Hb t H). unfold sizeof_thread_t in Hb. lia.
  - intros a Ha. apply elem_of_app in Ha as [Ha|Ha].
    + destruct (Hin a Ha) as (? & ? & ?). auto.
    + apply list_elem_of_singleton in Ha as ->. auto.
  - intros a b Ha Hb' Hne. apply elem_of_app in Ha as [Ha|Ha], Hb' as [Hb'|Hb']; [by apply Hap| | |];
      try (apply list_elem_of_singleton in Ha as ->); try (apply list_elem_of_singleton in Hb' as ->);
      [left; by apply Hb|right; by apply Hb|done].
Qed.

Lemma ring_prev_in m c ts : ring m (c :: ts) -> prevp m c ∈ c :: ts.
Proof.
  intros [_ Hl]. destruct (exists_last (l := c :: ts)) as (l & q & E); [done|].
  change (c :: ts ++ [c]) with ((c :: ts) ++ [c]) in Hl. rewrite E in *. rewrite <- app_assoc in Hl.
  apply links_app in Hl as [_ (_ & -> & _)]. apply elem_of_app. right. left.
Qed.

(** The common part of [thread_create] here and in the preemptive example: the
    new thread [t] is linked in, the stack above [low] is filled, and [st] are
    stores of its first registers. *)
Section creating.
Context (c : Z) (ts : list Z) (low : Z) (st : list (Z * Z * Z)) (s : machine).
Context (Hr : ring (t_mem s) (c :: ts)) (Htp : nth R_TP (regs s) 0 = c).
Context (Hheap : 0 <= next_heap s) (Hheap4 : next_heap s mod 32 = 0).
Context (Hroom : next_heap s + 96 <= low) (Hstack : low + 4096 <= next_stack s < 2 ^ 32).
Context (Hfree : mapped (t_mem s) (next_heap s) (next_stack s - next_heap s)).
Context (Hlow : forall t, t ∈ c :: ts -> t + sizeof_thread_t <= next_heap s).
Context (Hst : Forall (fun '(u, o, _) => u = next_heap s /\ T_CTXT <= o <= 76 /\ o mod 4 = 0) st).

Let t := next_heap s.
Let p := prevp (t_mem s) c.
Let L := (c :: ts) ++ [t].
Let m0 := write_bytes (t_mem s) t (replicate 96 0).
Let m1 := put_fields m0 (link_stores t c p (next_thread_id s)).
Let m2 := write_bytes m1 low (replicate (Z.to_nat 4096) 0xee).
Let m3 := put_fields m2 st.

Lemma create_nodes : nodes m0 L.
Proof.
  apply (nodes_grow (t_mem s)); [apply Hr|intros; by apply mapped_write|unfold t; lia|unfold t; zarith| |done].
  eapply mapped_sub; [exact Hfree|unfold t, sizeof_thread_t; lia..].
Qed.

Lemma create_in : c ∈ L /\ t ∈ L /\ p ∈ L.
Proof.
  split_and!; apply elem_of_app; [left; left|right; left|left]. exact (ring_prev_in _ _ _ Hr).
Qed.

Lemma create_apart : c <> t /\ p <> t.
Proof.
  split; intros E; pose proof (Hlow t) as H; unfold sizeof_thread_t in H; fold t in H;
    (assert (t ∈ c :: ts) as Hin; [|specialize (H Hin); lia]).
  - rewrite <- E. left.
  - rewrite <- E. exact (ring_prev_in _ _ _ Hr).
Qed.

Lemma create_old u w : u ∈ c :: ts -> 0 <= w <= 76 -> word m0 (u + w) = word (t_mem s) (u + w).
Proof.
  intros Hu Hw. apply word_agree. intros a Ha. specialize (Hlow u Hu). unfold sizeof_thread_t in Hlow.
  apply same_except_write. rewrite length_replicate. unfold t. lia.
Qed.

Lemma create_links u w : u ∈ L -> 0 <= w <= 76 -> w mod 4 = 0 ->
  word m2 (u + w) = default (word m0 (u + w)) (latest (link_stores t c p (next_thread_id s)) u w).
Proof.
  intros Hu Hw Hw4. destruct create_in as (Ic & It & Ip).
  transitivity (word m1 (u + w)).
  - apply word_agree. intros a Ha. apply same_except_write. rewrite length_replicate.
    assert (u + 80 <= t + 96); [|unfold t in *; lia]. apply elem_of_app in Hu as [Hu|Hu].
    + specialize (Hlow u Hu). unfold sizeof_thread_t in Hlow. unfold t. lia.
    + apply list_elem_of_singleton in Hu as ->. lia.
  - apply (put_fields_word m0 L); [exact create_nodes|by apply link_fields|done..].
Qed.

Lemma create_nodes2 : nodes m2 L.
Proof.
  eapply nodes_mono; [exact create_nodes|]. intros b n H. by apply mapped_write, put_fields_mapped.
Qed.

Lemma create_fields : fields_of L st.
Proof.
  destruct create_in as (_ & It & _). eapply Forall_impl; [|exact Hst].
  intros [[u o] v] (-> & Ho & Ho4). unfold T_CTXT in Ho. split; [exact It|lia].
Qed.

Lemma create_latest u w : u <> t \/ w < T_CTXT -> latest st u w = None.
Proof.
  intros Hu. induction st as [|[[u' o] v] st' IH] using rev_ind; [done|].
  apply Forall_app in Hst as [Hst1 Hst2]. apply Forall_cons_iff in Hst2 as [(E & Ho & _) _].
  unfold latest. rewrite fold_left_app. cbn [fold_left]. rewrite decide_False by (unfold t in Hu; lia). by apply IH.
Qed.

(** The run of [thread_create] up to the thread pointer of the new thread. *)
Lemma create_linked (k : Z -> M machine Z) :
  (current <- threadptr_get ;;
   t <- alloc sizeof_thread_t ;;
   store32 (t + T_MAGIC) THREAD_MAGIC ;;
   id <- gets next_thread_id ;;
   modify (with_thread_id (u32 (id + 1))) ;;
   store32 (t + T_ID) id ;;
   store32 (t + T_NEXT) current ;;
   prev <- load32 (current + T_PREV) ;;
   store32 (t + T_PREV) prev ;;
   prev <- load32 (t + T_PREV) ;;
   store32 (prev + T_NEXT) t ;;
   next <- load32 (t + T_NEXT) ;;
   store32 (next + T_PREV) t ;;
   store32 (t + T_CTXT + C_TP) t ;;
   k t) s =
  k t (with_thread_id (u32 (next_thread_id s + 1)) (with_heap (t + 96) (with_mem m1 s))).
Proof.
  destruct create_in as (Ic & It & Ip). destruct create_apart as [Hct Hpt].
  pose proof create_nodes as Hn.
  assert (is_u32 c /\ is_u32 p) as [Uc Up] by (destruct Hn as (_ & H & _); split; apply H; done).
  rewrite (bind_ok threadptr_get _ s c s) by (unfold threadptr_get, gets; by rewrite Htp).
  set (S1 := with_heap (t + 96) s). set (S2 := with_thread_id (u32 (next_thread_id s + 1)) S1).
  assert (alloc sizeof_thread_t s = Ok t (with_mem (put_fields m0 []) S1)) as E.
  { apply alloc_ok; [done|lia|]. eapply mapped_sub; [exact Hfree|lia..]. }
  step E. clear E. pose (id := next_thread_id s).
  step (store_put L [] t T_MAGIC THREAD_MAGIC S1 m0 Hn It ltac:(by_decide) eq_refl).
  set (w1 := [] ++ [(t, T_MAGIC, THREAD_MAGIC)]).
  rewrite (bind_ok (gets next_thread_id) _ _ id (with_mem (put_fields m0 w1) S1)) by done.
  rewrite (bind_ok (modify _) _ _ tt (with_mem (put_fields m0 w1) S2)) by done.
  step (store_put L w1 t T_ID id S2 m0 Hn It ltac:(by_decide) eq_refl). set (w2 := w1 ++ [(t, T_ID, id)]).
  step (store_put L w2 t T_NEXT c S2 m0 Hn It ltac:(by_decide) eq_refl). set (w3 := w2 ++ [(t, T_NEXT, c)]).
  assert (load32 (c + T_PREV) (with_mem (put_fields m0 w3) S2) = Ok p (with_mem (put_fields m0 w3) S2)) as E.
  { rewrite (load_put L w3 c T_PREV S2 m0 Hn) by (done || (by_decide) || (repeat (apply Forall_cons; [split_and!; (done || by_decide)|]); constructor)).
    f_equal. unfold w3, w2, w1. cbn [app]. unfold latest. cbn [fold_left].
    rewrite !decide_False by lia. cbn [default from_option id]. apply create_old; [left|by_decide]. }
  step E. clear E.
  step (store_put L w3 t T_PREV p S2 m0 Hn It ltac:(by_decide) eq_refl). set (w4 := w3 ++ [(t, T_PREV, p)]).
  assert (fields_of L w4) as F4.
  { repeat (apply Forall_cons; [split_and!; (done || by_decide)|]). constructor. }
  step (load_put L w4 t T_PREV S2 m0 Hn F4 It ltac:(by_decide) eq_refl).
  assert (default (word m0 (t + T_PREV)) (latest w4 t T_PREV) = p) as ->.
  { unfold w4, w3, w2, w1. cbn [app]. field_val. by apply u32_small. }
  step (store_put L w4 p T_NEXT t S2 m0 Hn Ip ltac:(by_decide) eq_refl). set (w5 := w4 ++ [(p, T_NEXT, t)]).
  assert (fields_of L w5) as F5.
  { repeat (apply Forall_cons; [split_and!; (done || by_decide)|]). constructor. }
  step (load_put L w5 t T_NEXT S2 m0 Hn F5 It ltac:(by_decide) eq_refl).
  assert (default (word m0 (t + T_NEXT)) (latest w5 t T_NEXT) = c) as ->.
  { unfold w5, w4, w3, w2, w1. cbn [app]. field_val. by apply u32_small. }
  step (store_put L w5 c T_PREV t S2 m0 Hn Ic ltac:(by_decide) eq_refl). set (w6 := w5 ++ [(c, T_PREV, t)]).
  rewrite <- !(Z.add_assoc t).
  step (store_put L w6 t (T_CTXT + C_TP) t S2 m0 Hn It ltac:(by_decide) eq_refl).
  reflexivity.
Qed.

Lemma create_word u w : u ∈ L -> 0 <= w <= 76 -> w mod 4 = 0 ->
  word m3 (u + w) = default (default (word m0 (u + w)) (latest (link_stores t c p (next_thread_id s)) u w))
    (latest st u w).
Proof.
  intros Hu Hw Hw4. unfold m3. rewrite (put_fields_word m2 L _ u w create_nodes2 create_fields Hu Hw Hw4).
  by rewrite create_links.
Qed.

Lemma create_mapped b n : mapped (t_mem s) b n -> mapped m3 b n.
Proof. intros H. by apply put_fields_mapped, mapped_write, put_fields_mapped, mapped_write. Qed.

Lemma create_ring : ring m3 ((c :: ts) ++ [t]).
Proof.
  destruct create_in as (Ic & It & Ip). pose proof create_apart as [Hct Hpt].
  apply (link_ring (t_mem s) m3 c ts t (next_thread_id s) Hr).
  - apply put_fields_nodes. exact create_nodes2.
  - unfold is_u32, t. lia.
  - intros u w Hu Hw. rewrite create_word by (done || (destruct Hw as [-> | ->]; by_decide)).
    rewrite create_latest by (right; destruct Hw as [-> | ->]; by_decide).
    cbn [default from_option id]. fold p. change (u ∈ (c :: ts) ++ [t]) in Hu. apply elem_of_app in Hu as [Hu|Hu].
    + rewrite create_old by (done || (destruct Hw as [-> | ->]; by_decide)). done.
    + apply list_elem_of_singleton in Hu as ->. destruct Hw as [-> | ->]; by field_val.
Qed.

Lemma create_kept u ws : u ∈ c :: ts -> saved (t_mem s) u ws -> saved m3 u ws.
Proof.
  intros Hu (Lw & Uw & Ww). destruct create_apart as [Hct Hpt].
  split; [done|]. split; [done|]. intros i x Hi. destruct (Ww i x Hi) as [Hm Hx].
  split; [by apply create_mapped|]. apply lookup_lt_Some in Hi. rewrite <- Hx, <- !Z.add_assoc.
  assert (u <> t) as Hut by (intros ->; specialize (Hlow t Hu); unfold sizeof_thread_t, t in Hlow; lia).
  rewrite create_word by (first [apply elem_of_app; by left | unfold T_CTXT; zarith]).
  rewrite create_latest by (by left).
  rewrite <- create_old by (done || (unfold T_CTXT; lia)).
  field_val. done.
Qed.

Lemma create_id : word m3 (t + T_ID) = u32 (next_thread_id s).
Proof.
  destruct create_in as (Ic & It & Ip). pose proof create_apart as [Hct Hpt].
  rewrite create_word by (done || by_decide). rewrite create_latest by (right; by_decide). by field_val.
Qed.
End creating.

Section starting.
Context (fn arg c : Z) (ts : list Z) (s : machine).
Context (Hr : ring (t_mem s) (c :: ts)) (Htp : nth R_TP (regs s) 0 = c).
Context (Hheap : 0 <= next_heap s) (Hheap4 : next_heap s mod 32 = 0).
Context (Hroom : next_heap s + 96 <= next_stack s - 8192) (Hstack : next_stack s < 2 ^ 32).
Context (Hfree : mapped (t_mem s) (next_heap s) (next_stack s - next_heap s)).
Context (Hlow : forall t, t ∈ c :: ts -> t + sizeof_thread_t <= next_heap s).

Let t := next_heap s.
Let sp := next_stack s.
Let p := prevp (t_mem s) c.
Let L := (c :: ts) ++ [t].
Let m0 := write_bytes (t_mem s) t (replicate 96 0).
Let m1 := put_fields m0 (link_stores t c p (next_thread_id s)).
Let m2 := write_bytes m1 (next_stack s - 8192) (replicate (Z.to_nat 4096) 0xee).
Let m3 := put_fields m2 (start_stores t sp arg fn).
Let s3 := with_thread_id (u32 (next_thread_id s + 1)) (with_stack (sp - 8192) (with_heap (t + 96) (with_mem m3 s))).

Lemma start_in_context :
  Forall (fun '(u, o, _) => u = next_heap s /\ T_CTXT <= o <= 76 /\ o mod 4 = 0) (start_stores t sp arg fn).
Proof. unfold start_stores. repeat (apply Forall_cons; [split_and!; (done || by_decide)|]). constructor. Qed.

Lemma start_room : next_stack s - 8192 + 4096 <= next_stack s < 2 ^ 32.
Proof. clear - Hstack. lia. Qed.

(** The run of [thread_create] up to its message. *)
Lemma create_runs :
  exists i a f, forall (k : Z -> Z -> Z -> Z -> M machine Z),
    (current <- threadptr_get ;;
     t <- alloc sizeof_thread_t ;;
     store32 (t + T_MAGIC) THREAD_MAGIC ;;
     id <- gets next_thread_id ;;
     modify (with_thread_id (u32 (id + 1))) ;;
     store32 (t + T_ID) id ;;
     store32 (t + T_NEXT) current ;;
     prev <- load32 (current + T_PREV) ;;
     store32 (t + T_PREV) prev ;;
     prev <- load32 (t + T_PREV) ;;
     store32 (prev + T_NEXT) t ;;
     next <- load32 (t + T_NEXT) ;;
     store32 (next + T_PREV) t ;;
     store32 (t + T_CTXT + C_TP) t ;;
     sp <- alloc_stack ;;
     store32 (t + T_CTXT + C_SP) sp ;;
     store32 (t + T_CTXT + C_S0) arg ;;
     store32 (t + T_CTXT + C_S1) 0 ;;
     store32 (t + T_CTXT + C_S2) fn ;;
     store32 (t + T_CTXT + C_PC) context_entry ;;
     i <- load32 (t + T_ID) ;;
     p <- load32 (t + T_CTXT + C_SP) ;;
     f <- load32 (t + T_CTXT + C_S2) ;;
     k t i p f) s = k t i a f s3.
Proof.
  destruct (create_in c ts s Hr) as (Ic & It & Ip).
  pose proof (create_nodes2 c ts (sp - 8192) s Hr Hheap Hheap4 Hroom start_room Hfree Hlow) as Hn2.
  do 3 eexists. intros k.
  rewrite (create_linked c ts (sp - 8192) s Hr Htp Hheap Hheap4 Hroom start_room Hfree Hlow).
  fold t p m0 m1. set (S2 := with_thread_id (u32 (next_thread_id s + 1)) (with_heap (t + 96) s)).
  change (with_thread_id _ _) with (with_mem m1 S2).
  set (S3 := with_stack (sp - 8192) S2).
  assert (alloc_stack (with_mem m1 S2) = Ok sp (with_mem (put_fields m2 []) S3)) as E.
  { apply alloc_stack_ok; [unfold t, sp in *; cbn; lia|]. apply put_fields_mapped, mapped_write.
    eapply mapped_sub; [exact Hfree|cbn; unfold t, sp in *; lia..]. }
  step E. clear E.
  rewrite <- !(Z.add_assoc t).
  step (store_put L [] t (T_CTXT + C_SP) sp S3 m2 Hn2 It ltac:(by_decide) eq_refl).
  set (v1 := [] ++ [(t, T_CTXT + C_SP, sp)]).
  step (store_put L v1 t (T_CTXT + C_S0) arg S3 m2 Hn2 It ltac:(by_decide) eq_refl).
  set (v2 := v1 ++ [(t, T_CTXT + C_S0, arg)]).
  step (store_put L v2 t (T_CTXT + C_S1) 0 S3 m2 Hn2 It ltac:(by_decide) eq_refl).
  set (v3 := v2 ++ [(t, T_CTXT + C_S1, 0)]).
  step (store_put L v3 t (T_CTXT + C_S2) fn S3 m2 Hn2 It ltac:(by_decide) eq_refl).
  set (v4 := v3 ++ [(t, T_CTXT + C_S2, fn)]).
  step (store_put L v4 t (T_CTXT + C_PC) context_entry S3 m2 Hn2 It ltac:(by_decide) eq_refl).
  change (v4 ++ [(t, T_CTXT + C_PC, context_entry)]) with (start_stores t sp arg fn).
  pose proof (start_fields L t sp arg fn It) as F.
  step (load_put L (start_stores t sp arg fn) t T_ID S3 m2 Hn2 F It ltac:(by_decide) eq_refl).
  step (load_put L (start_stores t sp arg fn) t (T_CTXT + C_SP) S3 m2 Hn2 F It ltac:(by_decide) eq_refl).
  step (load_put L (start_stores t sp arg fn) t (T_CTXT + C_S2) S3 m2 Hn2 F It ltac:(by_decide) eq_refl).
  reflexivity.
Qed.
Lemma create_started : is_u32 arg -> is_u32 fn -> is_u32 context_entry -> saved m3 t (start_regs t sp arg fn).
Proof.
  intros Ua Uf Ue. destruct (create_in c ts s Hr) as (Ic & It & Ip).
  destruct (create_apart c ts s Hr Hlow) as [Hct Hpt].
  apply (start_saved m3 t sp arg fn c p (next_thread_id s)); try done; try (unfold is_u32, t, sp in *; lia).
  - apply (create_mapped c (sp - 8192) _ s). eapply mapped_sub; [exact Hfree|unfold t, sizeof_thread_t; lia..].
  - intros w Hw Hw4. rewrite (create_word c ts (sp - 8192) _ s Hr Hheap Hheap4 Hroom start_room Hfree Hlow start_in_context) by done. do 2 f_equal.
    apply word_write_zeros; lia.
Qed.

End starting.

Lemma thread_create_ok fn arg c ts (s : machine) :
  threads s (c :: ts) -> next_heap s + 96 <= next_stack s - 8192 ->
  is_u32 fn -> is_u32 arg -> is_u32 context_entry ->
  let t := next_heap s in let sp := next_stack s in
  exists out m, let s' := with_thread_id (u32 (next_thread_id s + 1)) (with_stack (sp - 8192)
      (with_heap (t + 96) (with_mem m (emit out s)))) in
    thread_create context_entry fn arg s = Ok t s' /\ threads s' (c :: ts ++ [t]) /\
    saved m t (start_regs t sp arg fn) /\
    word m (t + T_ID) = u32 (next_thread_id s) /\
    (forall u ws, u ∈ ts -> saved (t_mem s) u ws -> saved m u ws).
Proof.
  intros (Hr & Hlr & Hur & Htp & Hsv & A1 & A2 & A3 & A4 & A5 & A6) Hroom Uf Ua Ue t sp. cbn [hd tl] in *.
  destruct A3 as [A3 A3'].
  destruct (create_runs fn arg c ts s Hr Htp A3 A1 Hroom A4 A5 A6) as (i & a & f & E).
  pose proof (create_ring c ts (sp - 8192) (start_stores t sp arg fn) s Hr A3 A1 Hroom (start_room s A4) A5 A6 (start_in_context fn arg s)) as Hring.
  pose proof (create_started fn arg c ts s Hr A3 A1 Hroom A4 A5 A6 Ua Uf Ue) as Hst.
  pose proof (create_kept c ts (sp - 8192) (start_stores t sp arg fn) s Hr A3 A1 Hroom (start_room s A4) A5 A6 (start_in_context fn arg s)) as Hk.
  pose proof (create_id c ts (sp - 8192) (start_stores t sp arg fn) s Hr A3 A1 Hroom (start_room s A4) A5 A6 (start_in_context fn arg s)) as Hid.
  pose proof (create_mapped c (sp - 8192) (start_stores t sp arg fn) s) as Mm. fold t sp in Hring, Hst, Hk, Hid, Mm, E.
  set (m3 := put_fields _ (start_stores _ _ _ _)) in *. clearbody m3.
  destruct (create_message t i a f (with_thread_id (u32 (next_thread_id s + 1))
    (with_stack (sp - 8192) (with_heap (t + 96) (with_mem m3 s))))) as (out & Eout).
  exists out, m3. cbv zeta. split; [|split; [|split; [exact Hst|split; [exact Hid|]]]].
  - unfold thread_create. rewrite E. step Eout. done.
  - unfold threads. cbn [regs with_thread_id with_stack with_heap t_mem with_mem machine_HasMem next_heap next_stack tl hd].
    change (c :: ts ++ [t]) with ((c :: ts) ++ [t]).
    clear E Eout Hid. split; [exact Hring|]. split; [exact Hlr|]. split; [exact Hur|]. split; [exact Htp|].
    split; [|split; [unfold t; zarith|split; [unfold sp; zarith|split; [unfold t, sp; lia|split; [unfold sp; lia|split]]]]].
    + intros u Hu. cbn [tl app] in Hu. apply elem_of_app in Hu as [Hu|Hu].
      * destruct (Hsv u Hu) as (v & Hv & Hvt). exists v. split; [|exact Hvt]. apply Hk; [by right|exact Hv].
      * apply list_elem_of_singleton in Hu as ->. exists (start_regs t sp arg fn). by split.
    + apply Mm. eapply mapped_sub; [exact A5|unfold t, sp; lia..].
    + intros u Hu. apply elem_of_app in Hu as [Hu|Hu].
      * specialize (A6 u Hu). unfold t. lia.
      * apply list_elem_of_singleton in Hu as ->. unfold sizeof_thread_t, t. lia.
  - intros u ws Hu. apply Hk. by right.
Qed.

(** *** What the operations do to the threads' registers *)

Lemma thread_create_contexts fn arg c ts w W (s : machine) :
  contexts s (c :: ts) (w :: W) -> next_heap s + 96 <= next_stack s - 8192 ->
  is_u32 fn -> is_u32 arg -> is_u32 context_entry ->
  exists s', thread_create context_entry fn arg s = Ok (next_heap s) s' /\
    contexts s' (c :: ts ++ [next_heap s]) (w :: W ++ [start_regs (next_heap s) (next_stack s) arg fn]) /\
    word (t_mem s') (next_heap s + T_ID) = u32 (next_thread_id s) /\
    next_thread_id s' = u32 (next_thread_id s + 1) /\
    next_heap s' = next_heap s + 96 /\ next_stack s' = next_stack s - 8192.
Proof.
  intros (Ht & Hl & Hw & Hs) Hroom Uf Ua Ue.
  destruct (thread_create_ok fn arg c ts s Ht Hroom Uf Ua Ue) as (out & m & E & T & St & Hid & Hk).
  eexists. split; [exact E|]. split; [|done]. split; [exact T|]. cbn [length hd tl] in *.
  split; [rewrite !length_app; cbn; lia|]. split; [exact Hw|]. apply Forall2_app; [|by constructor].
  exact (saved_all_mono _ m _ _ Hk Hs).
Qed.

Lemma thread_exit_contexts status c n ts w W (s : machine) :
  contexts s (c :: n :: ts) (w :: W) -> is_u32 exit_ret ->
  exists s', thread_exit exit_ret status s = Ok tt s' /\ contexts s' (n :: ts) W /\
    next_heap s' = next_heap s /\ next_stack s' = next_stack s /\
    (forall a, (forall t, t ∈ c :: n :: ts -> ~ (t <= a < t + sizeof_thread_t)) -> t_mem s' !! a = t_mem s !! a).
Proof.
  intros (Ht & Hl & Hw & Hs) He. cbn [length hd tl] in *.
  destruct (thread_exit_ok status c n ts s Ht He) as (m & r & out & E & T & Hr & Hk & Hm & _).
  eexists. split; [exact E|]. split; [|done]. split; [exact T|]. split; [cbn [length]; lia|].
  inversion Hs as [|t0 v ts0 W' Hv Hs' E1 E2]; subst. cbn [hd tl].
  split; [exact (saved_unique _ _ _ _ Hr Hv)|]. eapply saved_all_mono; [|exact Hs'].
  intros t u Hin. apply Hk. by right.
Qed.
End switching.

(** ** A machine with two threads *)

Definition two_links : list (Z * Z * Z) :=
  [(0x100, T_NEXT, 0x200); (0x100, T_PREV, 0x200); (0x200, T_NEXT, 0x100); (0x200, T_PREV, 0x100);
   (0x200, T_CTXT + C_TP, 0x200)].
Definition demo_free : mem := mem_lit 0 (replicate (Z.to_nat 0x4000) 0).
Definition regs_of (t : Z) : list Z := <[R_TP := t]> (replicate 16 0).
Definition two_threads : machine :=
  {| t_mem := put_fields demo_free two_links; t_uart := {| u_stalls := []; u_out := [] |}; regs := regs_of 0x100;
     next_stack := 0x4000; next_heap := 0x1000; next_thread_id := 2 |}.

Lemma demo_mapped a n : 0 <= a -> 0 <= n -> a + n <= 0x4000 -> mapped demo_free a n.
Proof.
  intros Ha Hn Hb. apply (mapped_sub demo_free 0 0x4000); [|lia..].
  apply mapped_mem_lit; [done|]. rewrite length_replicate. lia.
Qed.

Lemma elem_of_two (x a b : Z) : x ∈ [a; b] -> x = a \/ x = b.
Proof. intros H. apply list_elem_of_In in H. cbn in H. intuition auto. Qed.

Lemma two_nodes : nodes demo_free [0x100; 0x200].
Proof.
  split; [by_decide|]. split.
  - intros a Ha. apply elem_of_two in Ha as [-> | ->];
      (split; [done|split; [lia|apply demo_mapped; unfold sizeof_thread_t; lia]]).
  - intros a b Ha Hb Hne. apply elem_of_two in Ha, Hb. unfold sizeof_thread_t. lia.
Qed.

Lemma two_word u w : u ∈ [0x100; 0x200] -> 0 <= w <= 76 -> w mod 4 = 0 ->
  word (t_mem two_threads) (u + w) = default 0 (latest two_links u w).
Proof.
  intros Hu Hw Hw4. change (t_mem two_threads) with (put_fields demo_free two_links).
  rewrite (put_fields_word demo_free [0x100; 0x200]); [|exact two_nodes|by_decide|done..].
  f_equal. apply elem_of_two in Hu. apply word_write_zeros; lia.
Qed.

Lemma two_saved : saved (t_mem two_threads) 0x200 (regs_of 0x200).
Proof.
  split; [done|]. split; [by_decide|]. intros i w Hi. pose proof (lookup_lt_Some _ _ _ Hi) as Hlt.
  cbn in Hlt. split.
  - apply put_fields_mapped, demo_mapped; unfold T_CTXT; lia.
  - rewrite <- Z.add_assoc, two_word; [|by_decide|unfold T_CTXT; lia|unfold T_CTXT; zarith].
    do 16 (destruct i as [|i]; [by (cbn in Hi; simplify_eq)|]). lia.
Qed.

Lemma two_contexts : contexts two_threads [0x100; 0x200] [regs_of 0x100; regs_of 0x200].
Proof.
  split; [|split; [done|split; [done|by constructor; [exact two_saved|constructor]]]].
  unfold threads. split.
  { split; [apply put_fields_nodes, two_nodes|]. cbn [links app]. unfold nextp, prevp.
    rewrite !two_word by by_decide. split_and!; done. }
  split; [done|]. split; [by_decide|]. split; [done|]. split.
  { intros t Ht. cbn [tl] in Ht. apply list_elem_of_singleton in Ht as ->. exists (regs_of 0x200).
    by split; [exact two_saved|]. }
  cbn [next_heap next_stack two_threads]. split_and!; try lia; try done.
  - apply put_fields_mapped, demo_mapped; lia.
  - intros t Ht. apply elem_of_two in Ht. unfold sizeof_thread_t. lia.
Qed.

(** ** The theorems *)

(** C8: each thread gets its turn: when every slice of execution ends with [yield],
    as many slices as there are threads run one slice on each thread, in the
    order of the ring, with the registers the thread yielded with; at the end
    the first thread runs again. *)
Theorem turns_are_taken yield_ret fs l W (s : machine) :
  contexts s l W -> is_u32 yield_ret -> length fs = length l -> Forall (slice_ok l) fs ->
  exists s', take_turns yield_ret fs s = Ok tt s' /\ contexts s' l (zip_with (after yield_ret) fs W).
Proof.
  intros Hc Hy Hl Hf. pose proof Hc as (_ & HW & _).
  pose proof (take_turns_ok yield_ret fs Hy l [] W [] s) as H. rewrite !app_nil_r in H.
  apply H; [done..|lia|done].
Qed.

(** A slice that counts in [s0] and writes a byte of its stack. *)
Definition count : slice :=
  {| s_regs w := <[4%nat := u32 (nth 4 w 0 + 1)]> w; s_mem s := write_bytes (t_mem s) 0x3800 [7] |}.

Lemma turns_are_taken_witness :
  exists s', take_turns 0x8000 [count; count] two_threads = Ok tt s' /\
    contexts s' [0x100; 0x200]
      [[0x8000; 0; 0; 0x100; 1; 0; 0; 0; 0; 0; 0; 0; 0; 0; 0; 0];
       [0x8000; 0; 0; 0x200; 1; 0; 0; 0; 0; 0; 0; 0; 0; 0; 0; 0]].
Proof.
  assert (slice_ok [0x100; 0x200] count) as Hc.
  { split.
    - intros w Hl Hu. split; [by (cbn [s_regs count]; rewrite length_insert)|].
      split; [apply Forall_insert; [done|apply u32_range]|].
      do 16 (destruct w as [|? w]; [done|]). done.
    - intros m. split; [|intros; by apply mapped_write]. intros t a Ht Ha. apply same_except_write.
      apply elem_of_two in Ht. unfold sizeof_thread_t in Ha. cbn [length]. lia. }
  exact (turns_are_taken 0x8000 [count; count] _ _ two_threads two_contexts ltac:(by_decide) eq_refl
    ltac:(constructor; [exact Hc|constructor; [exact Hc|constructor]])).
Defined.

(** C17: [thread_create] puts the new thread into the ring, last in turn, with the
    registers that make [context_entry] call [fn (arg)] on the new stack; the
    other threads keep theirs, the ring stays well formed and the thread gets
    the next identifier. *)
Theorem thread_create_joins context_entry fn arg c ts w W (s : machine) :
  contexts s (c :: ts) (w :: W) -> next_heap s + 96 <= next_stack s - 8192 ->
  is_u32 fn -> is_u32 arg -> is_u32 context_entry ->
  let t := next_heap s in
  exists s', thread_create context_entry fn arg s = Ok t s' /\
    contexts s' (c :: ts ++ [t])
      (w :: W ++ [[context_entry; next_stack s; 0; t; arg; 0; fn; 0; 0; 0; 0; 0; 0; 0; 0; 0]]) /\
    word (t_mem s') (t + T_ID) = u32 (next_thread_id s) /\
    next_thread_id s' = u32 (next_thread_id s + 1) /\
    next_heap s' = t + 96 /\ next_stack s' = next_stack s - 8192.
Proof. intros. by apply thread_create_contexts. Qed.

Lemma thread_create_joins_witness :
  exists s', thread_create 0x9000 0xa000 5 two_threads = Ok 0x1000 s' /\
    contexts s' [0x100; 0x200; 0x1000]
      [regs_of 0x100; regs_of 0x200; [0x9000; 0x4000; 0; 0x1000; 5; 0; 0xa000; 0; 0; 0; 0; 0; 0; 0; 0; 0]] /\
    next_thread_id s' = 3.
Proof.
  destruct (thread_create_joins 0x9000 0xa000 5 _ _ _ _ two_threads two_contexts ltac:(by_decide) ltac:(by_decide)
    ltac:(by_decide) ltac:(by_decide)) as (s' & E & C & _ & I & _).
  exists s'. split; [exact E|]. split; [exact C|exact I].
Defined.

(** C24: [thread_exit] takes the running thread out of the ring and goes on with the
    next one's registers; the other threads keep theirs and memory outside the
    thread structures is not touched.  The last thread to exit says so and
    stops the machine. *)
Theorem thread_exit_leaves exit_ret status c ts w W (s : machine) :
  contexts s (c :: ts) (w :: W) -> is_u32 exit_ret ->
  match ts with
  | [] => exists out, thread_exit exit_ret status s =
      Halt (emit (out ++ wire (str "[ all threads have exited ]" ++ [10])) s)
  | _ :: _ => exists s', thread_exit exit_ret status s = Ok tt s' /\ contexts s' ts W /\
      (forall a, (forall t, t ∈ c :: ts -> ~ (t <= a < t + sizeof_thread_t)) -> t_mem s' !! a = t_mem s !! a)
  end.
Proof.
  intros Hc He. destruct ts as [|n ts].
  - destruct Hc as [Ht _]. by apply (thread_exit_last exit_ret status c).
  - destruct (thread_exit_contexts exit_ret status c n ts w W s Hc He) as (s' & E & C & _ & _ & M).
    by exists s'.
Qed.

Lemma thread_exit_leaves_witness :
  exists s', thread_exit 0x9100 0 two_threads = Ok tt s' /\ contexts s' [0x200] [regs_of 0x200].
Proof.
  destruct (thread_exit_leaves 0x9100 0 _ _ _ _ two_threads two_contexts ltac:(by_decide)) as (s' & E & C & _).
  exists s'. split; [exact E|exact C].
Defined.
