(* ===== verification/Preempt.v ===== *)
(** * Preemptive threads (example/ex11-threads-preemptive.c, hw/src/trap-entry-single-stack.S)

    The ring of threads, [context_switch] and the thread structures are those of
    [Threads]; here the timer interrupt switches.  [cpu] is the processor: the
    [machine] of [Threads] (memory, console, [ra sp gp tp s0-s11], allocator),
    the other general registers ([temps]: [t0-t6 a0-a7]), the program counter,
    the privilege mode and the supervisor CSRs.  [trap] and [sret] are what the
    hardware does on a trap and on return from it; [trap_entry], [trap_exit] and
    [exception_exit] are the assembly, instruction by instruction, and the C
    functions are called where it calls them.  [scratch] is whatever
    [interrupt_handler] leaves in the registers it need not preserve.

    C functions give [sp] back as they found it, so the stack frame of
    [interrupt_handler] is not modelled; [handler_ret] is the address in it after
    its call of [context_switch], from which it returns to [trap_exit].

    [tasks stack s l X] is the invariant: [l] is the ring, the first thread
    running, and [X] are the registers of the threads, all thirty-one and the
    program counter; those of a thread that is not running are split between
    its thread structure and the trap frame on its stack. *)

From S2P Require Import Prelude Monad Mem Words LibcMem LibcStr Uart Printf Exception Threads.

(** The two sets of registers that are not [machine]'s: [temps] by index. *)
(* src/hw/inc/hw/context.h:32-55 tframe *)
Definition tframe_regs : list string :=
  ["ra"; "t0"; "t1"; "t2"; "t3"; "t4"; "t5"; "t6"; "a0"; "a1"; "a2"; "a3"; "a4"; "a5"; "a6"; "a7"; "pc"; "sp"; "_1"; "_2"].
Definition sizeof_tframe_t := 80.
Definition F_RA := 0.
Definition F_A0 := 32.
Definition F_PC := 64.
Definition R_RA : nat := 0.
Definition R_SP : nat := 1.
Definition R_T0 : nat := 0.
Definition R_T1 : nat := 1.
Definition R_A0 : nat := 7.

Record cpu := {
  base : machine;
  temps : list Z;
  pc : Z;
  super : bool;
  csrs : gmap Z Z;
  timer_pending : Z;               (* what the timer's EV_PENDING reads *)
  io : list (Z * Z);               (* device writes, latest last *)
}.

Definition with_base (m : machine) (s : cpu) : cpu :=
  {| base := m; temps := temps s; pc := pc s; super := super s; csrs := csrs s;
     timer_pending := timer_pending s; io := io s |}.
Definition with_temps (l : list Z) (s : cpu) : cpu :=
  {| base := base s; temps := l; pc := pc s; super := super s; csrs := csrs s;
     timer_pending := timer_pending s; io := io s |}.
Definition with_csrs (c : gmap Z Z) (s : cpu) : cpu :=
  {| base := base s; temps := temps s; pc := pc s; super := super s; csrs := c;
     timer_pending := timer_pending s; io := io s |}.
Definition with_mode (p : Z) (b : bool) (s : cpu) : cpu :=
  {| base := base s; temps := temps s; pc := p; super := b; csrs := csrs s;
     timer_pending := timer_pending s; io := io s |}.
Definition with_io (l : list (Z * Z)) (s : cpu) : cpu :=
  {| base := base s; temps := temps s; pc := pc s; super := super s; csrs := csrs s;
     timer_pending := timer_pending s; io := l |}.

#[export] Program Instance cpu_HasMem : HasMem cpu :=
  {| mem_of s := t_mem (base s); with_mem m s := with_base (with_mem m (base s)) s |}.
Solve All Obligations with (intros; cbn; try by (destruct s as [[] ? ? ? ? ? ?])).

#[export] Program Instance cpu_HasUart : HasUart cpu :=
  {| uart_of s := t_uart (base s); with_uart u s := with_base (with_uart u (base s)) s |}.
Solve All Obligations with (intros; cbn; try by (destruct s as [[] ? ? ? ? ? ?])).

#[export] Instance cpu_MemUart : MemUart cpu.
Proof. done. Qed.

(** C code that touches the machine only. *)
Definition lift {A} (c : M machine A) : M cpu A := fun s =>
  match c (base s) with
  | Ok a m => Ok a (with_base m s)
  | Fault => Fault
  | Halt m => Halt (with_base m s)
  | NoFuel => NoFuel
  end.

(* src/hw/inc/hw/riscv.h:16-18 *)
Definition CSR_SSTATUS := 0x100.
Definition CSR_SIE := 0x104.
Definition CSR_STVEC := 0x105.
(* src/hw/inc/hw/riscv.h:23-24 *)
Definition CSR_SEPC := 0x141.
Definition CSR_SCAUSE := 0x142.
(* src/hw/inc/hw/riscv.h:84-84 *)
Definition SSTATUS_SPP := 0x00000100.
(* src/hw/inc/hw/riscv.h:86-87 *)
Definition SSTATUS_SPIE := 0x00000020.
Definition SSTATUS_SIE := 0x00000002.
(* src/hw/inc/hw/vexriscv.h:6-6 *)
Definition CSR_S_INTC_ENABLE := 0x9C0.

(** Interrupts enabled: bit 1 of [sstatus]; before the trap: bit 5; supervisor
    mode before the trap: bit 8. *)
Definition SIE := 1.
Definition SPIE := 5.
Definition SPP := 8.

Definition csr (c : Z) (s : cpu) : Z := default 0 (csrs s !! c).
Definition put_csr (c v : Z) (s : cpu) : cpu := with_csrs (<[c := v]> (csrs s)) s.

(* src/hw/inc/hw/intrinsics.h:26-27 *)
Definition csr_write (c v : Z) : M cpu unit := modify (put_csr c v).
(* src/hw/inc/hw/intrinsics.h:32-33 *)
Definition csr_set (c bit : Z) : M cpu unit := modify (fun s => put_csr c (Z.lor (csr c s) bit) s).
(* src/hw/inc/hw/intrinsics.h:35-36 *)
Definition csr_clr (c bit : Z) : M cpu unit := modify (fun s => put_csr c (Z.ldiff (csr c s) bit) s).
(* src/hw/inc/hw/intrinsics.h:39-41 *)
Definition irq_disable : M cpu unit := csr_clr CSR_SSTATUS SSTATUS_SIE.
(* src/hw/inc/hw/intrinsics.h:44-46 *)
Definition irq_enable : M cpu unit := csr_set CSR_SSTATUS SSTATUS_SIE.

(** ** What the hardware does *)

Definition put_bit (z i : Z) (b : bool) : Z := if b then Z.setbit z i else Z.clearbit z i.

(** A trap to supervisor mode. *)
Definition trap (cause : Z) : M cpu unit := modify (fun s =>
  let st := csr CSR_SSTATUS s in
  let st := put_bit (put_bit (put_bit st SPIE (Z.testbit st SIE)) SPP (super s)) SIE false in
  with_mode (csr CSR_STVEC s) true (put_csr CSR_SSTATUS st (put_csr CSR_SCAUSE cause (put_csr CSR_SEPC (pc s) s)))).

(** [sret]. *)
Definition sret : M cpu unit := modify (fun s =>
  let st := csr CSR_SSTATUS s in
  let st' := put_bit (put_bit (put_bit st SIE (Z.testbit st SPIE)) SPIE true) SPP false in
  with_mode (csr CSR_SEPC s) (Z.testbit st SPP) (put_csr CSR_SSTATUS st' s)).

Definition reg (i : nat) : M cpu Z := gets (fun s => nth i (regs (base s)) 0).
Definition set_reg (i : nat) (v : Z) : M cpu unit :=
  modify (fun s => with_base (with_regs (<[i := v]> (regs (base s))) (base s)) s).
Definition set_temp (i : nat) (v : Z) : M cpu unit := modify (fun s => with_temps (<[i := v]> (temps s)) s).

(** ** The timer *)

(* src/hw/inc/hw/platform.h:22-22 *)
Definition TIMER0_BASE := 0xF0002000.
(* src/hw/inc/hw/platform.h:32-37 *)
Definition TIMER0_IRQb := 1.
(* src/hw/inc/hw/riscv.h:111-112 *)
Definition INTb_SVC_EXTERN := Z.shiftl 1 9.
(* src/hw/inc/hw/litex.h:30-40 *)
Definition LX_TIMER_LOAD := 0x000.
Definition LX_TIMER_RELOAD := 0x004.
Definition LX_TIMER_EN := 0x008.
Definition LX_TIMER_EV_PENDING := 0x018.
Definition LX_TIMER_EV_ENABLE := 0x01C.
Definition LX_TIMER_EVb_ZERO := 1.

(* src/hw/inc/hw/platform.h:46-48 *)
Definition io_wr32 (a v : Z) : M cpu unit := modify (fun s => with_io (io s ++ [(a, v)]) s).
(* src/example/ex11-threads-preemptive.c:199-199 *)
Definition timer_wr (a v : Z) : M cpu unit := io_wr32 (TIMER0_BASE + a) v.

(* src/example/ex11-threads-preemptive.c:201-215 *)
Definition timer_init : M cpu unit :=
  csr_set CSR_S_INTC_ENABLE TIMER0_IRQb ;;
  csr_set CSR_SIE INTb_SVC_EXTERN ;;
  timer_wr LX_TIMER_EN 0 ;;
  timer_wr LX_TIMER_EV_PENDING LX_TIMER_EVb_ZERO ;;
  timer_wr LX_TIMER_LOAD 0 ;;
  timer_wr LX_TIMER_RELOAD (50000000 / 100) ;;
  timer_wr LX_TIMER_EN 1 ;;
  timer_wr LX_TIMER_EV_ENABLE LX_TIMER_EVb_ZERO.

(** ** The allocator and the threads *)

(* src/example/ex11-threads-preemptive.c:21-26 *)
Definition alloc_stack : M machine Z :=
  p <- gets next_stack ;;
  modify (fun s => with_stack (u32 (p - 4096)) s) ;;
  n <- gets next_stack ;;
  memset n 0xee 4096 ;;
  ret p.

(* src/example/ex11-threads-preemptive.c:28-34 *)
Definition alloc (sz : Z) : M machine Z :=
  let sz := Z.land (u32 (sz + 31)) (u32 (Z.lnot 31)) in
  ptr <- gets next_heap ;;
  memset ptr 0 sz ;;
  modify (fun s => with_heap (u32 (next_heap s + sz)) s) ;;
  ret ptr.

Section threads.
(** The addresses of [thread_exit], [trap_entry], [trap_exit] and of the
    instructions after the calls of [context_switch]. *)
Context (thread_exit_at trap_entry_at trap_exit_at handler_ret exit_ret : Z) (scratch : list Z).

(** [thread_create] between the interrupt accessors. *)
(* src/example/ex11-threads-preemptive.c:67-92 thread_create *)
Definition create_thread (fn arg : Z) : M machine Z :=
  current <- threadptr_get ;;
  t <- alloc sizeof_thread_t ;;
  store32 (t + T_MAGIC) THREAD_MAGIC ;;
  id <- gets next_thread_id ;;
  modify (with_thread_id (u32 (id + 1))) ;;
  store32 (t + T_ID) id ;;
  store32 (t + T_NEXT) current ;;
  prev <- load32 (current + T_PREV) ;;
  store32 (t + T_PREV) prev ;;
  prev <- load32 (t + T_PREV) ;;
  store32 (prev + T_NEXT) t ;;
  next <- load32 (t + T_NEXT) ;;
  store32 (next + T_PREV) t ;;
  store32 (t + T_CTXT + C_TP) t ;;
  sp <- alloc_stack ;;
  store32 (t + T_CTXT + C_SP) sp ;;
  store32 (t + T_CTXT + C_PC) trap_exit_at ;;
  sp <- load32 (t + T_CTXT + C_SP) ;;
  store32 (t + T_CTXT + C_SP) (sp - 32 * 4) ;;
  frame <- load32 (t + T_CTXT + C_SP) ;;
  memset frame 0 sizeof_tframe_t ;;
  store32 (frame + F_RA) thread_exit_at ;;
  store32 (frame + F_A0) arg ;;
  store32 (frame + F_PC) fn ;;
  i <- load32 (t + T_ID) ;;
  p <- load32 (t + T_CTXT + C_SP) ;;
  f <- load32 (frame + F_PC) ;;
  xprintf (str "[ created thread %p id=%u sp=%08x pc=%08x ]" ++ [10]) [VaWord t; VaWord i; VaWord p; VaWord f] ;;
  ret t.

(* src/example/ex11-threads-preemptive.c:64-96 *)
Definition thread_create (fn arg : Z) : M cpu Z :=
  irq_disable ;;
  t <- lift (create_thread fn arg) ;;
  irq_enable ;;
  ret t.

(** [thread_exit] after the interrupt accessors; lines 126-127 are at [exit_ret]. *)
(* src/example/ex11-threads-preemptive.c:106-124 thread_exit *)
Definition leave (status : Z) : M machine unit :=
  current <- threadptr_get ;;
  next <- load32 (current + T_NEXT) ;;
  prev <- load32 (current + T_PREV) ;;
  id <- load32 (current + T_ID) ;;
  xprintf (str "[ thread %p id=%u exited status=%d ]" ++ [10]) [VaWord current; VaWord id; VaWord status] ;;
  if next =? current then
    xprintf (str "[ all threads have exited ]" ++ [10]) [] ;;
    spin
  else
    store32 (next + T_PREV) prev ;;
    store32 (prev + T_NEXT) next ;;
    store32 (current + T_PREV) 0 ;;
    store32 (current + T_NEXT) 0 ;;
    context_switch exit_ret (current + T_CTXT) (next + T_CTXT).

(* src/example/ex11-threads-preemptive.c:98-128 *)
Definition thread_exit (status : Z) : M cpu unit :=
  irq_disable ;;
  csr_set CSR_SSTATUS (Z.lor SSTATUS_SPP SSTATUS_SPIE) ;;
  lift (leave status).

(** ** Interrupts *)

(* src/example/ex11-threads-preemptive.c:221-223 interrupt_handler *)
Definition next_thread : M machine unit :=
  current <- threadptr_get ;;
  next <- load32 (current + T_NEXT) ;;
  context_switch handler_ret (current + T_CTXT) (next + T_CTXT).

(* src/example/ex11-threads-preemptive.c:217-225 *)
Definition interrupt_handler : M cpu unit :=
  p <- gets timer_pending ;;
  if p =? 0 then ret tt
  else
    timer_wr LX_TIMER_EV_PENDING LX_TIMER_EVb_ZERO ;;
    lift next_thread.

(** Where the processor is after [context_switch] or [interrupt_handler]: at
    [trap_exit], or in the [interrupt_handler] of the thread it switched to,
    which returns there. *)
Definition to_trap_exit : M cpu unit :=
  ra <- reg R_RA ;;
  modify (with_temps scratch) ;;
  if ra =? trap_exit_at then ret tt
  else if ra =? handler_ret then set_reg R_RA trap_exit_at
  else fault.

(* src/hw/src/trap-entry-single-stack.S:63-90 *)
Definition trap_exit : M cpu unit :=
  sp <- reg R_SP ;;
  t0 <- load32 (sp + 0x40) ;;
  set_temp R_T0 t0 ;;
  csr_write CSR_SEPC t0 ;;
  ws <- load_words sp 16 ;;
  set_reg R_RA (hd 0 ws) ;;
  modify (with_temps (tl ws)) ;;
  set_reg R_SP (u32 (sp + 32 * 4)) ;;
  sret.

(* src/example/ex11-threads-preemptive.c:227-232 *)
Definition exception_handler (ef : Z) : M cpu unit :=
  c <- get ;;
  xprintf ([10] ++ str "** SUPERVISOR EXCEPTION **" ++ [10]) [] ;;
  xprint_s_exception {| sstatus := csr CSR_SSTATUS c; scause := csr CSR_SCAUSE c; stval := csr 0x143 c |} ef ;;
  xprintf ([10] ++ str "HALT" ++ [10]) [] ;;
  spin.

(* src/hw/src/trap-entry-single-stack.S:118-134 *)
Definition exception_exit : M cpu unit :=
  sp <- reg R_SP ;;
  ws <- load_words (sp + 0x48) 14 ;;
  r <- gets (fun s => regs (base s)) ;;
  modify (fun s => with_base (with_regs (take 2 r ++ ws) (base s)) s) ;;
  trap_exit.

(** The rest of the exception frame. *)
(* src/hw/src/trap-entry-single-stack.S:95-114 exception_entry *)
Definition save_rest : M cpu unit :=
  sp <- reg R_SP ;;
  set_temp R_T0 (u32 (sp + 32 * 4)) ;;
  store32 (sp + 0x44) (u32 (sp + 32 * 4)) ;;
  r <- gets (fun s => drop 2 (regs (base s))) ;;
  store_words (sp + 0x48) r ;;
  set_temp R_A0 sp.

(* src/hw/src/trap-entry-single-stack.S:92-115 *)
Definition exception_entry : M cpu unit :=
  save_rest ;;
  a0 <- gets (fun s => nth R_A0 (temps s) 0) ;;
  exception_handler a0 ;;
  exception_exit.

(** The trap frame. *)
(* src/hw/src/trap-entry-single-stack.S:30-53 trap_entry *)
Definition save_frame : M cpu unit :=
  sp <- reg R_SP ;;
  set_reg R_SP (u32 (sp - 32 * 4)) ;;
  sp <- reg R_SP ;;
  ra <- reg R_RA ;;
  tm <- gets temps ;;
  store_words sp (ra :: tm) ;;
  t0 <- gets (csr CSR_SEPC) ;;
  set_temp R_T0 t0 ;;
  store32 (sp + 0x40) t0.

(* src/hw/src/trap-entry-single-stack.S:29-60 *)
Definition trap_entry : M cpu unit :=
  save_frame ;;
  t1 <- gets (csr CSR_SCAUSE) ;;
  set_temp R_T1 t1 ;;
  if s32 t1 >=? 0 then exception_entry
  else
    set_reg R_RA trap_exit_at ;;
    interrupt_handler ;;
    to_trap_exit ;;
    trap_exit.

(** A trap is taken at the address in [stvec]. *)
Definition take_trap (cause : Z) : M cpu unit :=
  trap cause ;;
  a <- gets pc ;;
  if a =? trap_entry_at then trap_entry else fault.

(** An external interrupt. *)
Definition interrupt : M cpu unit := take_trap 0x80000009.

(** A thread returns from its function, or calls [thread_exit] itself. *)
Definition exit_to_next (status : Z) : M cpu unit :=
  thread_exit status ;;
  to_trap_exit ;;
  trap_exit.
End threads.

(** ** The invariant *)

(** The registers of a thread. *)
Record ctx := { x_regs : list Z; x_temps : list Z; x_pc : Z }.

Definition here (s : cpu) : ctx := {| x_regs := regs (base s); x_temps := temps s; x_pc := pc s |}.
Definition sp_of (x : ctx) : Z := nth R_SP (x_regs x) 0.

(** What the trap frame holds, and what [context_switch] saves. *)
Definition frame_of (x : ctx) : list Z := nth R_RA (x_regs x) 0 :: x_temps x ++ [x_pc x].
Definition switched (k : Z) (x : ctx) : list Z := <[R_RA := k]> (<[R_SP := sp_of x - 128]> (x_regs x)).

(** [stack t] is the end of the 4096 bytes of stack of the thread [t]: there is
    room for a trap frame. *)
Definition ctx_ok (stack : Z -> Z) (t : Z) (x : ctx) : Prop :=
  length (x_regs x) = 16%nat /\ Forall is_u32 (x_regs x) /\ length (x_temps x) = 15%nat /\
  Forall is_u32 (x_temps x) /\ is_u32 (x_pc x) /\ nth R_TP (x_regs x) 0 = t /\
  sp_of x mod 4 = 0 /\ stack t - 4096 + 128 <= sp_of x <= stack t.

Definition stacks (stack : Z -> Z) (s : machine) (l : list Z) : Prop :=
  (forall t, t ∈ l -> next_stack s <= stack t - 4096 /\ stack t < 2 ^ 32 /\ mapped (t_mem s) (stack t - 4096) 4096) /\
  (forall t u, t ∈ l -> u ∈ l -> t <> u -> stack t + 4096 <= stack u \/ stack u + 4096 <= stack t).

Section preemption.
Context (thread_exit_at trap_entry_at trap_exit_at handler_ret exit_ret : Z) (scratch : list Z).

Definition resumes (k : Z) : Prop := k = trap_exit_at \/ k = handler_ret.

Definition suspended (m : mem) (t : Z) (x : ctx) : Prop :=
  exists k, resumes k /\ saved m t (switched k x) /\ words_at m (sp_of x - 128) (frame_of x).

Definition tasks (stack : Z -> Z) (s : cpu) (l : list Z) (X : list ctx) : Prop :=
  threads (base s) l /\ Forall2 (ctx_ok stack) l X /\ stacks stack (base s) l /\
  hd_error X = Some (here s) /\ Forall2 (suspended (mem_of s)) (tl l) (tl X).

(** The trap vector is set, supervisor mode, interrupts are enabled. *)
Definition ready (s : cpu) : Prop :=
  csr CSR_STVEC s = trap_entry_at /\ super s = true /\ Z.testbit (csr CSR_SSTATUS s) SIE = true.
Lemma reg_ok i (s : cpu) v : nth i (regs (base s)) 0 = v -> reg i s = Ok v s.
Proof. unfold reg, gets. by intros ->. Qed.

Lemma set_reg_ok i v (s : cpu) r : <[i := v]> (regs (base s)) = r ->
  set_reg i v s = Ok tt (with_base (with_regs r (base s)) s).
Proof. unfold set_reg, modify. by intros ->. Qed.

Lemma lift_ok {A} (c : M machine A) a m (s : cpu) : c (base s) = Ok a m -> lift c s = Ok a (with_base m s).
Proof. unfold lift. by intros ->. Qed.

Lemma csr_put c d v (s : cpu) : csr c (put_csr d v s) = if decide (c = d) then v else csr c s.
Proof.
  unfold csr, put_csr, with_csrs. cbn [csrs]. case_decide as E.
  - by rewrite E, lookup_insert_eq.
  - by rewrite lookup_insert_ne.
Qed.

Lemma testbit_put_bit z i b j : 0 <= i -> 0 <= j ->
  Z.testbit (put_bit z i b) j = if decide (j = i) then b else Z.testbit z j.
Proof.
  intros Hi Hj. unfold put_bit. case_decide as E; destruct b.
  - subst. by apply Z.setbit_eq.
  - subst. apply Z.clearbit_eq.
  - apply Z.setbit_neq; lia.
  - apply Z.clearbit_neq; lia.
Qed.

(** ** Entry and exit *)

Lemma sret_ok (s : cpu) : exists s', sret s = Ok tt s' /\ base s' = base s /\ temps s' = temps s /\
  pc s' = csr CSR_SEPC s /\ csr CSR_STVEC s' = csr CSR_STVEC s /\ io s' = io s /\
  timer_pending s' = timer_pending s /\ super s' = Z.testbit (csr CSR_SSTATUS s) SPP /\
  Z.testbit (csr CSR_SSTATUS s') SIE = Z.testbit (csr CSR_SSTATUS s) SPIE.
Proof.
  set (st := put_bit (put_bit (put_bit (csr CSR_SSTATUS s) SIE (Z.testbit (csr CSR_SSTATUS s) SPIE)) SPIE true) SPP false).
  exists (with_mode (csr CSR_SEPC s) (Z.testbit (csr CSR_SSTATUS s) SPP) (put_csr CSR_SSTATUS st s)).
  do 4 (split; [done|]). split.
  { change (csr CSR_STVEC (put_csr CSR_SSTATUS st s) = csr CSR_STVEC s). by rewrite csr_put, decide_False. }
  do 3 (split; [done|]). change (Z.testbit (csr CSR_SSTATUS (put_csr CSR_SSTATUS st s)) SIE = Z.testbit (csr CSR_SSTATUS s) SPIE).
  rewrite csr_put, decide_True by done. unfold st. by rewrite !testbit_put_bit.
Qed.

Lemma trap_ok cause (s : cpu) : exists s', trap cause s = Ok tt s' /\ base s' = base s /\ temps s' = temps s /\
  pc s' = csr CSR_STVEC s /\ csr CSR_SEPC s' = pc s /\ csr CSR_SCAUSE s' = cause /\
  csr CSR_STVEC s' = csr CSR_STVEC s /\ io s' = io s /\ timer_pending s' = timer_pending s /\ super s' = true /\
  Z.testbit (csr CSR_SSTATUS s') SPP = super s /\
  Z.testbit (csr CSR_SSTATUS s') SPIE = Z.testbit (csr CSR_SSTATUS s) SIE.
Proof.
  set (st := put_bit (put_bit (put_bit (csr CSR_SSTATUS s) SPIE (Z.testbit (csr CSR_SSTATUS s) SIE)) SPP (super s)) SIE false).
  set (s1 := put_csr CSR_SSTATUS st (put_csr CSR_SCAUSE cause (put_csr CSR_SEPC (pc s) s))).
  exists (with_mode (csr CSR_STVEC s) true s1).
  assert (forall c, csr c (with_mode (csr CSR_STVEC s) true s1) = csr c s1) as E by done. rewrite !E. unfold s1.
  do 4 (split; [done|]). rewrite !csr_put. do 6 (split; [done|]).
  rewrite decide_True by done. unfold st. by rewrite !testbit_put_bit.
Qed.

Lemma reg_u32 (x : ctx) i : length (x_regs x) = 16%nat -> Forall is_u32 (x_regs x) -> (i < 16)%nat ->
  is_u32 (nth i (x_regs x) 0).
Proof. intros Hl Hu Hi. eapply Forall_nth; [exact Hu|]. by rewrite Hl. Qed.

(** The trap frame is on the stack, below [sp]. *)
Lemma save_frame_ok (s : cpu) (x : ctx) :
  regs (base s) = x_regs x -> temps s = x_temps x -> csr CSR_SEPC s = x_pc x ->
  length (x_regs x) = 16%nat -> Forall is_u32 (x_regs x) -> length (x_temps x) = 15%nat -> Forall is_u32 (x_temps x) ->
  is_u32 (x_pc x) -> sp_of x mod 4 = 0 -> 128 <= sp_of x -> mapped (mem_of s) (sp_of x - 128) 128 ->
  exists m, save_frame s = Ok tt (with_base (with_regs (<[R_SP := sp_of x - 128]> (x_regs x)) (with_mem m (base s)))
      (with_temps (<[R_T0 := x_pc x]> (temps s)) s)) /\
    words_at m (sp_of x - 128) (frame_of x) /\ same_except (mem_of s) m (sp_of x - 128) 128 /\
    (forall b n, mapped (mem_of s) b n -> mapped m b n).
Proof.
  intros Er Et Ep Hl Hu Hlt Hut Hup Ha Hsp Hm. unfold save_frame. set (a := sp_of x - 128) in *.
  assert (is_u32 a) as Ua.
  { assert (is_u32 (sp_of x)); [|unfold is_u32, a in *; lia].
    apply reg_u32; [done..|unfold R_SP; lia]. }
  rewrite (bind_ok (reg R_SP) _ s (sp_of x) s) by (unfold reg, gets, sp_of; by rewrite Er).
  change (32 * 4) with 128. fold a. rewrite u32_small by done.
  set (r := <[R_SP := a]> (x_regs x)). set (s1 := with_base (with_regs r (base s)) s).
  rewrite (bind_ok (set_reg R_SP a) _ s tt s1) by (unfold set_reg, modify, s1, r; by rewrite Er).
  rewrite (bind_ok (reg R_SP) _ s1 a s1).
  2:{ apply reg_ok. change (regs (base s1)) with r. unfold r.
      destruct (x_regs x) as [|? [|? ?]]; done. }
  set (ra := nth R_RA (x_regs x) 0).
  rewrite (bind_ok (reg R_RA) _ s1 ra s1).
  2:{ apply reg_ok. change (regs (base s1)) with r. unfold r, ra. by destruct (x_regs x) as [|? [|? ?]]. }
  rewrite (bind_ok (gets temps) _ s1 (x_temps x) s1) by (unfold gets; by rewrite <- Et).
  assert (is_u32 ra) as Ura by (apply reg_u32; [done..|unfold R_RA; lia]).
  assert (a mod 4 = 0) as Ha4 by (unfold a; zarith).
  destruct (store_words_at s1 a (ra :: x_temps x)) as (m & E & W & X & Mm);
    [by constructor|done| |].
  { eapply mapped_sub; [exact Hm|lia|]. cbn [length]. rewrite Hlt. lia. }
  step E. clear E. cbn [length] in X. rewrite Hlt in X. set (s2 := with_mem m s1).
  rewrite (bind_ok (gets (csr CSR_SEPC)) _ s2 (x_pc x) s2) by (unfold gets; by rewrite <- Ep).
  set (s3 := with_temps (<[R_T0 := x_pc x]> (temps s2)) s2).
  rewrite (bind_ok (set_temp R_T0 (x_pc x)) _ s2 tt s3) by done.
  assert (mapped (mem_of s3) (a + 64) 4) as Hm3.
  { apply Mm. eapply mapped_sub; [exact Hm|lia..]. }
  pose proof (store_ok 4 (a + 64) (x_pc x) s3 Hm3 ltac:(change (Z.of_nat 4) with 4; zarith)) as E.
  change (0x40) with 64. rewrite E. clear E.
  exists (write_bytes m (a + 64) (le_bytes 4 (x_pc x))). split; [done|]. split; [|split].
  - unfold frame_of. rewrite app_comm_cons. apply words_at_app. cbn [length]. rewrite Hlt. split.
    + eapply words_at_agree; [exact W| |intros; by apply mapped_write]. intros b Hb. cbn [length] in Hb.
      rewrite Hlt in Hb. apply same_except_write. lia.
    + change (a + 4 * Z.of_nat 16) with (a + 64). apply words_at_cons. split; [|split; [|by intros i w Hi]].
      * apply mapped_write. exact Hm3.
      * rewrite word_write by zarith. rewrite decide_True by done. by apply u32_small.
  - intros b Hb. rewrite same_except_write by (rewrite length_le_bytes; lia). apply X. lia.
  - intros b n Hb. by apply mapped_write, Mm.
Qed.

(** The trap frame is taken up again. *)
Lemma trap_left_ok (s : cpu) (x : ctx) k :
  regs (base s) = switched k x ->
  length (x_regs x) = 16%nat -> length (x_temps x) = 15%nat ->
  is_u32 (sp_of x) -> sp_of x mod 4 = 0 -> words_at (mem_of s) (sp_of x - 128) (frame_of x) ->
  exists s', trap_exit s = Ok tt s' /\ base s' = with_regs (x_regs x) (base s) /\ here s' = x /\
    csr CSR_STVEC s' = csr CSR_STVEC s /\ io s' = io s /\ timer_pending s' = timer_pending s /\
    super s' = Z.testbit (csr CSR_SSTATUS s) SPP /\
    Z.testbit (csr CSR_SSTATUS s') SIE = Z.testbit (csr CSR_SSTATUS s) SPIE.
Proof.
  intros Er Hl Hlt Usp Ha W. unfold trap_exit. set (a := sp_of x - 128) in *.
  assert (a mod 4 = 0) as Ha4 by (unfold a; zarith).
  rewrite (bind_ok (reg R_SP) _ s a s).
  2:{ apply reg_ok. rewrite Er. unfold switched. fold a. destruct (x_regs x) as [|? [|? ?]]; done. }
  pose proof W as W'. unfold frame_of in W'. rewrite app_comm_cons in W'. apply words_at_app in W' as [W1 W2].
  cbn [length] in W2. rewrite Hlt in W2. change (a + 4 * Z.of_nat 16) with (a + 64) in W2.
  apply words_at_cons in W2 as (M2 & E2 & _).
  assert (load32 (a + 0x40) s = Ok (x_pc x) s) as E by (rewrite load32_ok by (done || zarith); by rewrite E2).
  step E. clear E.
  set (s1 := with_temps (<[R_T0 := x_pc x]> (temps s)) s).
  rewrite (bind_ok (set_temp R_T0 (x_pc x)) _ s tt s1) by done.
  set (s2 := put_csr CSR_SEPC (x_pc x) s1).
  rewrite (bind_ok (csr_write CSR_SEPC (x_pc x)) _ s1 tt s2) by done.
  set (ws := nth R_RA (x_regs x) 0 :: x_temps x).
  assert (load_words a 16 s2 = Ok ws s2) as E.
  { replace 16%nat with (length ws) by (unfold ws; cbn [length]; by rewrite Hlt). apply load_words_at; [done|exact W1]. }
  step E. clear E. cbn [hd tl ws].
  set (s3 := with_base (with_regs (<[R_RA := nth R_RA (x_regs x) 0]> (regs (base s2))) (base s2)) s2).
  rewrite (bind_ok (set_reg R_RA _) _ s2 tt s3) by done.
  set (s4 := with_temps (x_temps x) s3). rewrite (bind_ok (modify _) _ s3 tt s4) by done.
  replace (u32 (a + 32 * 4)) with (sp_of x) by
    (replace (a + 32 * 4) with (sp_of x) by (unfold a; lia); symmetry; by apply u32_small).
  set (s5 := with_base (with_regs (x_regs x) (base s)) s4).
  rewrite (bind_ok (set_reg R_SP (sp_of x)) _ s4 tt s5).
  2:{ apply (set_reg_ok R_SP (sp_of x) s4 (x_regs x)).
      change (regs (base s4)) with (<[R_RA := nth R_RA (x_regs x) 0]> (regs (base s))). rewrite Er.
      unfold switched, sp_of, R_RA, R_SP. destruct (x_regs x) as [|? [|? ?]]; done. }
  assert (forall c, c <> CSR_SEPC -> csr c s5 = csr c s) as Ec.
  { intros c Hc. change (csr c s5) with (csr c s2). unfold s2. by rewrite csr_put, decide_False. }
  assert (csr CSR_SEPC s5 = x_pc x) as Epc.
  { change (csr CSR_SEPC s5) with (csr CSR_SEPC s2). unfold s2. by rewrite csr_put, decide_True. }
  destruct (sret_ok s5) as (s' & E & Eb & Et & Ep & Ev & Eio & Ei & Em & Es).
  rewrite Ec in Ev, Em, Es by done. rewrite Epc in Ep.
  exists s'. split; [exact E|]. split; [exact Eb|]. split; [|done].
  unfold here. rewrite Eb, Et, Ep. by destruct x.
Qed.
(** ** Switching *)

Lemma sp_u32 stack t x : ctx_ok stack t x -> is_u32 (sp_of x).
Proof. intros (Hl & Hu & _). apply reg_u32; [done..|unfold R_SP; lia]. Qed.

Lemma length_switched k x : length (switched k x) = length (x_regs x).
Proof. unfold switched. by rewrite !length_insert. Qed.

Lemma switched_u32 stack t k x : ctx_ok stack t x -> 0 <= stack t - 4096 -> is_u32 k -> Forall is_u32 (switched k x).
Proof.
  intros Hx Hs Hk. pose proof (sp_u32 _ _ _ Hx) as Hsp. destruct Hx as (Hl & Hu & _ & _ & _ & _ & _ & Hb).
  unfold switched. apply Forall_insert; [|done]. apply Forall_insert; [done|]. unfold is_u32 in *. lia.
Qed.

Lemma switched_tp k x : nth R_TP (switched k x) 0 = nth R_TP (x_regs x) 0.
Proof. unfold switched, R_RA, R_SP, R_TP. by destruct (x_regs x) as [|? [|? [|? [|? ?]]]]. Qed.

Lemma switched_again k k' x : <[R_RA := k]> (switched k' x) = switched k x.
Proof. unfold switched. by rewrite list_insert_insert_eq. Qed.

(** The trap frame of a suspended thread is not in the way of writes elsewhere. *)
Lemma suspended_frame m m' t x :
  length (x_temps x) = 15%nat -> (forall ws, saved m t ws -> saved m' t ws) ->
  (forall b, sp_of x - 128 <= b < sp_of x - 60 -> m' !! b = m !! b) ->
  (forall b n, mapped m b n -> mapped m' b n) -> suspended m t x -> suspended m' t x.
Proof.
  intros Hl Hs Ha Hm (k & Hk & Hsv & Hw). exists k. split; [done|]. split; [by apply Hs|].
  eapply words_at_agree; [exact Hw| |exact Hm]. intros b Hb. apply Ha. unfold frame_of in Hb. cbn [length] in Hb.
  rewrite length_app, Hl in Hb. cbn [length] in Hb. lia.
Qed.

Lemma suspended_all stack m m' ts X :
  Forall2 (ctx_ok stack) ts X -> Forall2 (suspended m) ts X ->
  (forall t x, t ∈ ts -> ctx_ok stack t x -> suspended m t x -> suspended m' t x) -> Forall2 (suspended m') ts X.
Proof.
  intros Hx Hs. induction Hx as [|t x ts X Hx _ IH]; intros H; inversion Hs; subst; constructor.
  - apply H; [left|done..].
  - apply IH; [done|]. intros u y Hu. apply H. by right.
Qed.

Lemma mapped_same_except m m' a k :
  same_except m m' a k -> mapped m' a k -> forall b n, mapped m b n -> mapped m' b n.
Proof.
  intros Hs Ha b n Hb. apply mapped_lookup. intros i Hi. destruct (decide (a <= i < a + k)) as [Hin|Hout].
  - by apply (proj1 (mapped_lookup m' a k)).
  - rewrite Hs by done. by apply (proj1 (mapped_lookup m b n)).
Qed.

(** The running thread's frame is on its stack: [interrupt_handler] suspends it
    and goes on as the next thread. *)
Lemma handler_switches stack s c ts x X m :
  tasks stack s (c :: ts) (x :: X) -> is_u32 handler_ret -> is_u32 trap_exit_at ->
  words_at m (sp_of x - 128) (frame_of x) -> same_except (mem_of s) m (sp_of x - 128) 128 ->
  (forall b n, mapped (mem_of s) b n -> mapped m b n) ->
  let b1 := with_regs (switched trap_exit_at x) (with_mem m (base s)) in
  exists m' k y Y, next_thread handler_ret b1 = Ok tt (with_regs (switched k y) (with_mem m' b1)) /\
    resumes k /\ X ++ [x] = y :: Y /\ words_at m' (sp_of y - 128) (frame_of y) /\
    threads (with_regs (switched k y) (with_mem m' b1)) (ts ++ [c]) /\
    Forall2 (suspended m') (tl (ts ++ [c])) Y /\ (forall b n, mapped (mem_of s) b n -> mapped m' b n).
Proof.
  intros (Ht & Hx & [Hstk Hdisj] & _ & Hs) Hhr Hte W Xm Mm b1. cbn [tl] in Hs.
  change (mem_of s) with (t_mem (base s)) in *.
  pose proof Ht as (_ & _ & _ & _ & _ & _ & _ & [Hh0 Hhs] & Hns & _ & Hlow).
  inversion Hx as [|? ? ? ? Hxc HX E1 E2]; subst.
  destruct (Hstk c ltac:(left)) as (Hcs & _ & _).
  pose proof Hxc as (Hl & Hu & Hlt & Hut & Hup & Htp & Ha & Hb).
  destruct (threads_frame c ts (switched trap_exit_at x) m (base s) Ht) as [T1 Hk1]; try done.
  { by rewrite length_switched. }
  { apply (switched_u32 stack c); [done|lia|done]. }
  { by rewrite switched_tp. }
  { intros t a Hin Hr. apply Xm. specialize (Hlow t Hin). lia. }
  fold b1 in T1.
  destruct (yield_ok handler_ret c ts b1 T1 Hhr) as (m' & r & E & T2 & Sc & Hr & Hk2 & X2).
  change (t_mem b1) with m in *. change (regs b1) with (switched trap_exit_at x) in *. rewrite switched_again in *.
  assert (forall a, next_stack (base s) <= a -> m' !! a = m !! a) as Hm2.
  { intros a Hge. apply X2. specialize (Hlow c ltac:(left)). unfold T_CTXT, sizeof_thread_t in *. lia. }
  assert (forall b n, mapped m b n -> mapped m' b n) as Mm2.
  { eapply mapped_same_except; [exact X2|]. destruct T2 as [[Hn _] _].
    eapply node_mapped; [exact Hn|apply elem_of_app; right; left|unfold T_CTXT; lia..]. }
  assert (words_at m' (sp_of x - 128) (frame_of x)) as Wx.
  { eapply words_at_agree; [exact W| |exact Mm2]. intros b Hbr. apply Hm2. lia. }
  assert (Forall2 (suspended m') ts X) as SX.
  { apply (suspended_all stack (t_mem (base s)) m' ts X HX Hs). intros t y Hin Hy Hsy.
    pose proof Hy as (_ & _ & Hyt & _ & _ & _ & _ & Hyb).
    destruct (Hstk t ltac:(by right)) as (Hts & _ & _).
    assert (c <> t) as Hne.
    { intros ->. destruct Ht as [[(Hnd & _) _] _]. by apply nodup_head in Hnd. }
    specialize (Hdisj c t ltac:(left) ltac:(by right) Hne).
    eapply suspended_frame; [done| | |by intros; apply Mm2, Mm|exact Hsy].
    - intros ws Hws. apply Hk2; [done|]. by apply Hk1.
    - intros b Hbr. rewrite Hm2 by lia. apply Xm. lia. }
  assert (forall b n, mapped (t_mem (base s)) b n -> mapped m' b n) as Mm3 by (intros; by apply Mm2, Mm).
  destruct ts as [|n ts].
  - inversion HX; subst. exists m', handler_ret, x, []. cbn [app tl] in *. split; [exact E|]. split; [by right|].
    split; [done|]. split; [exact Wx|]. split; [exact T2|]. split; [constructor|exact Mm3].
  - inversion SX as [|? y ? Y (k & Hk & Hsv & Wy) SY]; subst. exists m', k, y, (Y ++ [x]).
    assert (r = switched k y) as -> by (eapply saved_unique; [apply Hk2; [left|exact Hr]|exact Hsv]).
    split; [exact E|]. split; [exact Hk|]. split; [done|]. split; [exact Wy|]. split; [exact T2|].
    split; [|exact Mm3]. cbn [app tl]. apply Forall2_app; [exact SY|]. constructor; [|constructor].
    exists handler_ret. split; [by right|]. by split.
Qed.
(** Back from [context_switch] on the way to [sret]. *)
Lemma resume_ok stack t k y (s : cpu) :
  resumes k -> ctx_ok stack t y -> regs (base s) = switched k y ->
  words_at (mem_of s) (sp_of y - 128) (frame_of y) ->
  exists s', (to_trap_exit trap_exit_at handler_ret scratch ;; trap_exit) s = Ok tt s' /\
    base s' = with_regs (x_regs y) (base s) /\ here s' = y /\
    csr CSR_STVEC s' = csr CSR_STVEC s /\ io s' = io s /\ timer_pending s' = timer_pending s /\
    super s' = Z.testbit (csr CSR_SSTATUS s) SPP /\
    Z.testbit (csr CSR_SSTATUS s') SIE = Z.testbit (csr CSR_SSTATUS s) SPIE.
Proof.
  intros Hk Hy Er W. pose proof (sp_u32 _ _ _ Hy) as Usp. destruct Hy as (Hl & _ & Hlt & _ & _ & _ & Ha & _).
  set (s1 := with_base (with_regs (switched trap_exit_at y) (base s)) (with_temps scratch s)).
  assert (to_trap_exit trap_exit_at handler_ret scratch s = Ok tt s1) as E.
  { unfold to_trap_exit. rewrite (bind_ok (reg R_RA) _ s k s).
    2:{ apply reg_ok. rewrite Er. unfold switched, R_RA, R_SP. by destruct (x_regs y) as [|? [|? ?]]. }
    rewrite (bind_ok (modify _) _ s tt (with_temps scratch s)) by done.
    destruct (Z.eqb_spec k trap_exit_at) as [->|Hne].
    - unfold ret, s1. rewrite <- Er. by destruct s as [[? ? ? ? ? ?] ? ? ? ? ? ?].
    - destruct Hk as [Hk|Hk]; [done|]. rewrite Hk, Z.eqb_refl.
      apply (set_reg_ok R_RA trap_exit_at (with_temps scratch s) (switched trap_exit_at y)).
      change (regs (base (with_temps scratch s))) with (regs (base s)). rewrite Er. apply switched_again. }
  step E. destruct (trap_left_ok s1 y trap_exit_at eq_refl Hl Hlt Usp Ha W) as (s' & E' & Eb & H). exists s'.
  split; [exact E'|]. split; [rewrite Eb; done|exact H].
Qed.

(** The thread switched to has its registers back. *)
Lemma tasks_resumed stack l y Y t ts m (s s' : cpu) :
  l = t :: ts -> threads (with_regs (x_regs y) (with_mem m (base s))) l -> Forall2 (ctx_ok stack) l (y :: Y) ->
  stacks stack (base s) l -> (forall b n, mapped (mem_of s) b n -> mapped m b n) ->
  Forall2 (suspended m) ts Y -> base s' = with_regs (x_regs y) (with_mem m (base s)) -> here s' = y ->
  tasks stack s' l (y :: Y).
Proof.
  intros -> Ht Hx [Hs1 Hs2] Mm Hs Eb Eh. unfold tasks. change (mem_of s') with (t_mem (base s')). rewrite Eb, Eh.
  split; [exact Ht|]. split; [exact Hx|]. split; [|by split]. split; [|exact Hs2].
  intros u Hu. destruct (Hs1 u Hu) as (H1 & H2 & H3). split; [exact H1|]. split; [exact H2|]. by apply Mm.
Qed.

Lemma interrupt_ok stack s c ts x X :
  tasks stack s (c :: ts) (x :: X) -> ready s -> is_u32 handler_ret -> is_u32 trap_exit_at ->
  timer_pending s <> 0 ->
  exists s', interrupt trap_entry_at trap_exit_at handler_ret scratch s = Ok tt s' /\
    tasks stack s' (ts ++ [c]) (X ++ [x]) /\ ready s' /\ timer_pending s' = timer_pending s /\
    io s' = io s ++ [(TIMER0_BASE + LX_TIMER_EV_PENDING, LX_TIMER_EVb_ZERO)].
Proof.
  intros Ht (Rv & Rm & Rs) Hhr Hte Hp. pose proof Ht as (Hthr & Hx & Hstk & Hh & Hs).
  cbn [hd_error] in Hh. assert (x = here s) as Ex by congruence. clear Hh.
  apply Forall2_cons_iff in Hx as [Hxc HX].
  pose proof Hxc as (Hl & Hu & Hlt & Hut & Hup & Htp & Ha & Hb).
  pose proof Hthr as (_ & _ & _ & _ & _ & _ & _ & [Hh0 Hhs] & _). destruct (proj1 Hstk c ltac:(left)) as (Hcs & _ & Hcm).
  destruct (trap_ok 0x80000009 s) as (s1 & E1 & B1 & T1 & P1 & Sep & Sc & Sv & Sio & Sp & Sm & Spp & Spie).
  unfold interrupt, take_trap. step E1. rewrite (bind_ok (gets pc) _ s1 trap_entry_at s1) by (unfold gets; by rewrite P1, Rv).
  rewrite Z.eqb_refl. unfold trap_entry. clear E1.
  destruct (save_frame_ok s1 x) as (m & E & W & Xm & Mm); try done.
  { rewrite B1, Ex. done. } { rewrite T1, Ex. done. } { rewrite Sep, Ex. done. } { lia. }
  { change (mem_of s1) with (t_mem (base s1)). rewrite B1. eapply mapped_sub; [exact Hcm|lia..]. }
  change (mem_of s1) with (t_mem (base s1)) in *. rewrite B1 in *. step E. clear E.
  set (s2 := with_base _ _).
  rewrite (bind_ok (gets (csr CSR_SCAUSE)) _ s2 0x80000009 s2) by (unfold gets; f_equal; exact Sc).
  set (s3 := with_temps (<[R_T1 := 0x80000009]> (temps s2)) s2).
  rewrite (bind_ok (set_temp R_T1 _) _ s2 tt s3) by done.
  change (s32 0x80000009 >=? 0) with false. cbv iota.
  set (b1 := with_regs (switched trap_exit_at x) (with_mem m (base s))).
  rewrite (bind_ok (set_reg R_RA trap_exit_at) _ s3 tt (with_base b1 s3)) by (apply (set_reg_ok R_RA trap_exit_at s3); done).
  set (s4 := with_base b1 s3).
  destruct (handler_switches stack s c ts x X m Ht Hhr Hte W Xm Mm) as (m' & k & y & Y & E & Hk & EX & Wy & T' & SY & Mm').
  fold b1 in E, T'.
  set (io' := io s ++ [(TIMER0_BASE + LX_TIMER_EV_PENDING, LX_TIMER_EVb_ZERO)]).
  set (s5 := with_base (with_regs (switched k y) (with_mem m' b1)) (with_io io' s4)).
  assert (interrupt_handler handler_ret s4 = Ok tt s5) as E5.
  { unfold interrupt_handler. rewrite (bind_ok (gets timer_pending) _ s4 (timer_pending s) s4) by (unfold gets; f_equal; exact Sp).
    rewrite (proj2 (Z.eqb_neq _ _) Hp).
    rewrite (bind_ok (timer_wr _ _) _ s4 tt (with_io io' s4)).
    2:{ unfold timer_wr, io_wr32, modify, io'. do 2 f_equal. change (io s4) with (io s1). by rewrite Sio. }
    exact (lift_ok (next_thread handler_ret) tt _ (with_io io' s4) E). }
  step E5. clear E5 E.
  assert (Forall2 (ctx_ok stack) (ts ++ [c]) (y :: Y)) as HY.
  { rewrite <- EX. apply Forall2_app; [exact HX|]. by constructor; [|constructor]. }
  destruct (ts ++ [c]) as [|t l] eqn:El; [by destruct ts|].
  pose proof (proj1 (Forall2_cons_iff _ _ _ _ _) HY) as [Hy HY'].
  destruct (resume_ok stack t k y s5 Hk Hy eq_refl Wy) as (s' & E' & Eb & Eh & Ev & Eio & Ep & Em & Es).
  exists s'. split; [exact E'|]. rewrite EX. split.
  - eapply (tasks_resumed stack (t :: l) y Y t l m' s s'); [done| |exact HY| |exact Mm'|exact SY|exact Eb|exact Eh].
    + destruct Hy as (Yl & Yu & _ & _ & _ & Ytp & _).
      apply (threads_frame t l (x_regs y) m' _ T'); try done.
    + rewrite <- El. destruct Hstk as [H1 H2]. split.
      * intros u Hu'. apply H1. apply elem_of_app in Hu' as [Hu'|Hu']; [by right|].
        apply list_elem_of_singleton in Hu' as ->. left.
      * intros u v Hu' Hv'. apply H2.
        -- apply elem_of_app in Hu' as [Hu'|Hu']; [by right|]. apply list_elem_of_singleton in Hu' as ->. left.
        -- apply elem_of_app in Hv' as [Hv'|Hv']; [by right|]. apply list_elem_of_singleton in Hv' as ->. left.
  - change (csr CSR_STVEC s5) with (csr CSR_STVEC s1) in Ev. change (csr CSR_SSTATUS s5) with (csr CSR_SSTATUS s1) in *.
    rewrite Sv, Rv in Ev. rewrite Spp, Rm in Em. rewrite Spie, Rs in Es.
    split; [done|]. split; [rewrite Ep; exact Sp|exact Eio].
Qed.
(** ** Leaving *)

Lemma stacks_sub stack b l l' : stacks stack b l -> (forall t, t ∈ l' -> t ∈ l) -> stacks stack b l'.
Proof. intros [H1 H2] H. split; [auto|]. intros t u Ht Hu. apply H2; auto. Qed.

(** The accessors at the start of [thread_exit]. *)
Lemma exit_status (s : cpu) : exists s1,
  (forall B (k : M cpu B), (irq_disable ;; csr_set CSR_SSTATUS (Z.lor SSTATUS_SPP SSTATUS_SPIE) ;; k) s = k s1) /\
  base s1 = base s /\ csr CSR_STVEC s1 = csr CSR_STVEC s /\ io s1 = io s /\
  Z.testbit (csr CSR_SSTATUS s1) SPP = true /\ Z.testbit (csr CSR_SSTATUS s1) SPIE = true.
Proof.
  set (s0 := put_csr CSR_SSTATUS (Z.ldiff (csr CSR_SSTATUS s) SSTATUS_SIE) s).
  exists (put_csr CSR_SSTATUS (Z.lor (csr CSR_SSTATUS s0) (Z.lor SSTATUS_SPP SSTATUS_SPIE)) s0).
  split; [done|]. split; [done|]. split; [unfold s0; by rewrite !csr_put, !decide_False|]. split; [done|].
  rewrite csr_put, decide_True by done. rewrite !Z.lor_spec. change (Z.testbit SSTATUS_SPP SPP) with true.
  change (Z.testbit SSTATUS_SPIE SPIE) with true. by rewrite !orb_true_r.
Qed.

Lemma exit_ok status stack s c n ts x y Y :
  tasks stack s (c :: n :: ts) (x :: y :: Y) -> is_u32 exit_ret -> csr CSR_STVEC s = trap_entry_at ->
  exists s', exit_to_next trap_exit_at handler_ret exit_ret scratch status s = Ok tt s' /\
    tasks stack s' (n :: ts) (y :: Y) /\ ready s'.
Proof.
  intros (Ht & Hx & Hstk & _ & Hs) He Hv. cbn [tl] in Hs. change (mem_of s) with (t_mem (base s)) in *.
  apply Forall2_cons_iff in Hx as [Hxc HX]. pose proof (proj1 (Forall2_cons_iff _ _ _ _ _) HX) as [Hy HY].
  pose proof Ht as ([(Hnd & _) _] & _ & _ & _ & _ & _ & _ & [_ Hhs] & _ & _ & Hlow).
  destruct (thread_exit_ok exit_ret status c n ts (base s) Ht He) as (m & r & out & E & T & Hr & Hk & Hm & Mm).
  cbv zeta in E, T.
  destruct (exit_status s) as (s1 & Es & Eb & Ev & _ & Espp & Espie).
  unfold exit_to_next. rewrite (bind_ok (thread_exit exit_ret status) _ s tt
    (with_base (with_regs r (with_mem m (emit out (base s)))) s1)).
  2:{ unfold thread_exit. rewrite Es. apply lift_ok. rewrite Eb. exact E. }
  set (s2 := with_base _ s1).
  assert (forall a, next_stack (base s) <= a -> m !! a = t_mem (base s) !! a) as Hm2.
  { intros a Ha. apply Hm. intros t Hin Hr'. specialize (Hlow t Hin). lia. }
  assert (Forall2 (suspended m) (n :: ts) (y :: Y)) as HS.
  { apply (suspended_all stack (t_mem (base s)) m _ _ HX Hs). intros t z Hin Hz Hsz.
    pose proof Hz as (_ & _ & Hzt & _ & _ & _ & _ & Hzb). destruct (proj1 Hstk t ltac:(by right)) as (Hts & _ & _).
    eapply suspended_frame; [done|intros ws; by apply Hk| |exact Mm|exact Hsz]. intros b Hb. apply Hm2. lia. }
  apply Forall2_cons_iff in HS as [(k & Hk' & Hsv & W) HS].
  assert (r = switched k y) as ->.
  { apply Forall2_cons_iff in Hs as [(k0 & Hk0 & Hsv0 & _) _].
    assert (r = switched k0 y) as -> by exact (saved_unique _ _ _ _ Hr Hsv0).
    exact (saved_unique _ _ _ _ (Hk n _ ltac:(left) Hsv0) Hsv). }
  destruct (resume_ok stack n k y s2 Hk' Hy eq_refl W) as (s' & E' & Eb' & Eh & Ev' & _ & _ & Em & Es').
  exists s'. split; [exact E'|]. split.
  - change (base s2) with (with_regs (switched k y) (with_mem m (emit out (base s)))) in Eb'.
    pose proof Hy as (Yl & Yu & _ & _ & _ & Ytp & _).
    destruct (threads_frame n ts (x_regs y) m _ T Yl Yu Ytp ltac:(done) ltac:(done)) as [T' _].
    unfold tasks. change (mem_of s') with (t_mem (base s')). rewrite Eb', Eh.
    split; [exact T'|]. split; [exact HX|]. split; [|by split].
    destruct Hstk as [H1 H2]. split.
    + intros u Hu. destruct (H1 u ltac:(by right)) as (G1 & G2 & G3). split; [exact G1|]. split; [exact G2|]. by apply Mm.
    + intros u v Hu Hv'. apply H2; by right.
  - change (csr CSR_STVEC s2) with (csr CSR_STVEC s1) in Ev'. change (csr CSR_SSTATUS s2) with (csr CSR_SSTATUS s1) in *.
    unfold ready. rewrite Ev', Ev, Em, Es', Espp, Espie. done.
Qed.

Lemma exit_last status stack s c x :
  tasks stack s [c] [x] ->
  exists out s1, exit_to_next trap_exit_at handler_ret exit_ret scratch status s =
    Halt (with_base (emit (out ++ wire (str "[ all threads have exited ]" ++ [10])) (base s)) s1).
Proof.
  intros (Ht & _). destruct (thread_exit_last exit_ret status c (base s) Ht) as (out & E).
  destruct (exit_status s) as (s1 & Es & Eb & _). exists out, s1. unfold exit_to_next. apply bind_halt.
  unfold thread_exit. rewrite Es. unfold lift. rewrite Eb.
  change (leave exit_ret status (base s)) with (Threads.thread_exit exit_ret status (base s)). by rewrite E.
Qed.
(** ** Creating *)

(** The stores to the context of the new thread, the registers and the frame it
    is given. *)
Definition first_stores (t sp : Z) : list (Z * Z * Z) :=
  [(t, T_CTXT + C_SP, sp); (t, T_CTXT + C_PC, trap_exit_at); (t, T_CTXT + C_SP, sp - 32 * 4)].
Definition first_ctx (t sp fn arg : Z) : ctx :=
  {| x_regs := [thread_exit_at; sp; 0; t; 0; 0; 0; 0; 0; 0; 0; 0; 0; 0; 0; 0];
     x_temps := [0; 0; 0; 0; 0; 0; 0; arg; 0; 0; 0; 0; 0; 0; 0]; x_pc := fn |}.

#[local] Strategy 100 [write_bytes replicate put_fields latest].

Lemma stack_alloc_ok m (b : machine) : 4096 <= next_stack b < 2 ^ 32 -> mapped m (next_stack b - 4096) 4096 ->
  alloc_stack (with_mem m b) =
  Ok (next_stack b) (with_mem (write_bytes m (next_stack b - 4096) (replicate (Z.to_nat 4096) 0xee))
    (with_stack (next_stack b - 4096) b)).
Proof.
  set (s := with_mem m b). change (next_stack b) with (next_stack s). change m with (t_mem s).
  intros H0 Hm. unfold alloc_stack. rewrite (bind_ok (gets next_stack) _ s (next_stack s) s) by done.
  rewrite u32_small by (unfold is_u32; lia). set (s1 := with_stack (next_stack s - 4096) s).
  rewrite (bind_ok (modify _) _ s tt s1) by done.
  rewrite (bind_ok (gets next_stack) _ s1 (next_stack s - 4096) s1) by done.
  assert (mapped (mem_of s1) (next_stack s - 4096) 4096) as Hm' by exact Hm.
  step (memset_ok (next_stack s - 4096) 0xee 4096 s1 ltac:(lia) Hm'). change (u8 0xee) with 0xee. reflexivity.
Qed.

(** The stores to the trap frame of a new thread. *)
Definition frame_stores (m : mem) (f fn arg : Z) : mem :=
  write_bytes (write_bytes (write_bytes (write_bytes m f (replicate (Z.to_nat 80) 0))
    (f + F_RA) (le_bytes 4 thread_exit_at)) (f + F_A0) (le_bytes 4 arg)) (f + F_PC) (le_bytes 4 fn).

Lemma frame_stores_mapped m f fn arg b n : mapped m b n -> mapped (frame_stores m f fn arg) b n.
Proof. intros H. unfold frame_stores. by do 4 apply mapped_write. Qed.

(** The second half of [create_thread]: stack pointer, entry point and frame. *)
Lemma first_runs fn arg t sp L m2 (b : machine) :
  nodes m2 L -> t ∈ L -> is_u32 sp -> is_u32 (sp - 128) -> (sp - 128) mod 4 = 0 -> mapped m2 (sp - 128) 128 ->
  let m5 := frame_stores (put_fields m2 (first_stores t sp)) (sp - 128) fn arg in
  exists i a v, forall (k : Z -> Z -> Z -> Z -> M machine Z),
    (store32 (t + T_CTXT + C_SP) sp ;;
     store32 (t + T_CTXT + C_PC) trap_exit_at ;;
     sp <- load32 (t + T_CTXT + C_SP) ;;
     store32 (t + T_CTXT + C_SP) (sp - 32 * 4) ;;
     frame <- load32 (t + T_CTXT + C_SP) ;;
     memset frame 0 sizeof_tframe_t ;;
     store32 (frame + F_RA) thread_exit_at ;;
     store32 (frame + F_A0) arg ;;
     store32 (frame + F_PC) fn ;;
     i <- load32 (t + T_ID) ;;
     p <- load32 (t + T_CTXT + C_SP) ;;
     f <- load32 (frame + F_PC) ;;
     k t i p f) (with_mem m2 b) = k t i a v (with_mem m5 b).
Proof.
  intros Hn2 It Usp Uf Hf4 Mf0 m5. set (f := sp - 128) in *.
  do 3 eexists. intros k. rewrite <- !(Z.add_assoc t).
  change (with_mem m2 b) with (with_mem (put_fields m2 []) b).
  step (store_put L [] t (T_CTXT + C_SP) sp b m2 Hn2 It ltac:(by_decide) eq_refl).
  set (v1 := [] ++ [(t, T_CTXT + C_SP, sp)]).
  step (store_put L v1 t (T_CTXT + C_PC) trap_exit_at b m2 Hn2 It ltac:(by_decide) eq_refl).
  set (v2 := v1 ++ [(t, T_CTXT + C_PC, trap_exit_at)]).
  assert (fields_of L v2) as F2.
  { repeat (apply Forall_cons; [split_and!; (done || by_decide)|]). constructor. }
  step (load_put L v2 t (T_CTXT + C_SP) b m2 Hn2 F2 It ltac:(by_decide) eq_refl).
  assert (default (word m2 (t + (T_CTXT + C_SP))) (latest v2 t (T_CTXT + C_SP)) = sp) as ->.
  { unfold v2, v1. cbn [app]. unfold latest. cbn [fold_left]. rewrite decide_False by (unfold C_SP, C_PC; lia).
    rewrite decide_True by done. cbn [default from_option id]. by apply u32_small. }
  step (store_put L v2 t (T_CTXT + C_SP) (sp - 32 * 4) b m2 Hn2 It ltac:(by_decide) eq_refl).
  change (v2 ++ [(t, T_CTXT + C_SP, sp - 32 * 4)]) with (first_stores t sp).
  assert (fields_of L (first_stores t sp)) as F3.
  { repeat (apply Forall_cons; [split_and!; (done || by_decide)|]). constructor. }
  step (load_put L (first_stores t sp) t (T_CTXT + C_SP) b m2 Hn2 F3 It ltac:(by_decide) eq_refl).
  assert (default (word m2 (t + (T_CTXT + C_SP))) (latest (first_stores t sp) t (T_CTXT + C_SP)) = f) as ->.
  { unfold latest, first_stores. cbn [fold_left]. rewrite decide_True by done. by apply u32_small. }
  set (m3 := put_fields m2 (first_stores t sp)) in *.
  assert (forall a n, mapped m2 a n -> mapped m3 a n) as Mm3 by (intros; by apply put_fields_mapped).
  assert (nodes m3 L) as Hn3 by exact (nodes_mono _ _ _ Hn2 Mm3).
  assert (mapped m3 f 128) as Mf by exact (Mm3 _ _ Mf0). clearbody m3. clear Mm3 Hn2 Mf0 F2 F3. clear v1 v2.
  assert (mapped (mem_of (with_mem m3 b)) f 80) as Mf' by (rewrite mem_of_with; eapply mapped_sub; [exact Mf|lia..]).
  step (memset_ok f 0 80 (with_mem m3 b) ltac:(lia) Mf'). change (u8 0) with 0.
  unfold poke. rewrite mem_of_with, with_mem_with. unfold m5, frame_stores.
  set (m4 := write_bytes m3 f (replicate (Z.to_nat 80) 0)).
  assert (forall a n, mapped m3 a n -> mapped m4 a n) as Mm4 by (intros; by apply mapped_write).
  assert (nodes m4 L) as Hn4 by exact (nodes_mono _ _ _ Hn3 Mm4).
  assert (mapped m4 f 128) as Mf4 by exact (Mm4 _ _ Mf). clearbody m4. clear Mm4 Hn3 Mf Mf' m5 m3.
  assert (forall (m : mem) o v, (forall b n, mapped m4 b n -> mapped m b n) -> 0 <= o <= 76 -> o mod 4 = 0 ->
    store32 (f + o) v (with_mem m b) = Ok tt (with_mem (write_bytes m (f + o) (le_bytes 4 v)) b)) as Est.
  { intros m o v Hm Ho Ho4.
    assert (mapped (mem_of (with_mem m b)) (f + o) 4) as Hmo by (rewrite mem_of_with; apply Hm; eapply mapped_sub; [exact Mf4|lia..]).
    rewrite (store_ok 4 (f + o) v (with_mem m b) Hmo ltac:(change (Z.of_nat 4) with 4; clear - Hf4 Ho4; zarith)).
    unfold poke. by rewrite mem_of_with, with_mem_with. }
  step (Est m4 F_RA thread_exit_at ltac:(done) ltac:(by_decide) eq_refl).
  set (ma := write_bytes m4 (f + F_RA) (le_bytes 4 thread_exit_at)).
  step (Est ma F_A0 arg ltac:(intros; by apply mapped_write) ltac:(by_decide) eq_refl).
  set (mb := write_bytes ma (f + F_A0) (le_bytes 4 arg)).
  step (Est mb F_PC fn ltac:(intros; by do 2 apply mapped_write) ltac:(by_decide) eq_refl).
  set (mc := write_bytes mb (f + F_PC) (le_bytes 4 fn)).
  assert (forall a n, mapped m4 a n -> mapped mc a n) as Mmc by (intros; by do 3 apply mapped_write).
  assert (nodes (t_mem (with_mem mc b)) L) as Hnc by exact (nodes_mono m4 mc L Hn4 Mmc).
  step (load_field L t T_ID (with_mem mc b) Hnc It ltac:(by_decide) eq_refl).
  step (load_field L t (T_CTXT + C_SP) (with_mem mc b) Hnc It ltac:(by_decide) eq_refl).
  assert (mapped (mem_of (with_mem mc b)) (f + F_PC) 4) as Hmo.
  { rewrite mem_of_with. apply Mmc. eapply mapped_sub; [exact Mf4|clear; unfold F_PC; lia..]. }
  step (load32_ok (f + F_PC) (with_mem mc b) Hmo ltac:(unfold F_PC; clear - Hf4; zarith)).
  reflexivity.
Qed.

Section creating.
Context (fn arg c : Z) (ts : list Z) (s : machine).
Context (Hr : ring (t_mem s) (c :: ts)) (Htp : nth R_TP (regs s) 0 = c).
Context (Hheap : 0 <= next_heap s) (Hheap4 : next_heap s mod 32 = 0) (Hsp4 : next_stack s mod 4096 = 0).
Context (Hroom : next_heap s + 96 <= next_stack s - 4096) (Hstack : next_stack s < 2 ^ 32).
Context (Hfree : mapped (t_mem s) (next_heap s) (next_stack s - next_heap s)).
Context (Hlow : forall t, t ∈ c :: ts -> t + sizeof_thread_t <= next_heap s).
Context (Ufn : is_u32 fn) (Uarg : is_u32 arg) (Ute : is_u32 thread_exit_at) (Uxe : is_u32 trap_exit_at).

Let t := next_heap s.
Let sp := next_stack s.
Let p := prevp (t_mem s) c.
Let L := (c :: ts) ++ [t].
Let m0 := write_bytes (t_mem s) t (replicate 96 0).
Let m1 := put_fields m0 (link_stores t c p (next_thread_id s)).
Let m2 := write_bytes m1 (next_stack s - 4096) (replicate (Z.to_nat 4096) 0xee).
Let m3 := put_fields m2 (first_stores t sp).
Let f := sp - 128.
Let m5 := frame_stores m3 f fn arg.

Lemma first_in_context :
  Forall (fun '(u, o, _) => u = next_heap s /\ T_CTXT <= o <= 76 /\ o mod 4 = 0) (first_stores t sp).
Proof. unfold first_stores. repeat (apply Forall_cons; [split_and!; (done || by_decide)|]). constructor. Qed.

Lemma first_room : next_stack s - 4096 + 4096 <= next_stack s < 2 ^ 32.
Proof. clear - Hstack. lia. Qed.

Lemma first_sp : is_u32 (sp - 128) /\ f mod 4 = 0.
Proof. clear - Hroom Hheap Hstack Hsp4. unfold is_u32, f, sp. split; [lia|zarith]. Qed.

Lemma frame_mapped : mapped m3 f 128.
Proof.
  apply create_mapped. eapply mapped_sub; [exact Hfree|unfold f, sp; lia..].
Qed.

(** The run of [create_thread] up to its message. *)
Lemma create_thread_runs :
  exists i a v, forall (k : Z -> Z -> Z -> Z -> M machine Z),
    (current <- threadptr_get ;;
     t <- Threads.alloc sizeof_thread_t ;;
     store32 (t + T_MAGIC) THREAD_MAGIC ;;
     id <- gets next_thread_id ;;
     modify (with_thread_id (u32 (id + 1))) ;;
     store32 (t + T_ID) id ;;
     store32 (t + T_NEXT) current ;;
     prev <- load32 (current + T_PREV) ;;
     store32 (t + T_PREV) prev ;;
     prev <- load32 (t + T_PREV) ;;
     store32 (prev + T_NEXT) t ;;
     next <- load32 (t + T_NEXT) ;;
     store32 (next + T_PREV) t ;;
     store32 (t + T_CTXT + C_TP) t ;;
     sp <- alloc_stack ;;
     store32 (t + T_CTXT + C_SP) sp ;;
     store32 (t + T_CTXT + C_PC) trap_exit_at ;;
     sp <- load32 (t + T_CTXT + C_SP) ;;
     store32 (t + T_CTXT + C_SP) (sp - 32 * 4) ;;
     frame <- load32 (t + T_CTXT + C_SP) ;;
     memset frame 0 sizeof_tframe_t ;;
     store32 (frame + F_RA) thread_exit_at ;;
     store32 (frame + F_A0) arg ;;
     store32 (frame + F_PC) fn ;;
     i <- load32 (t + T_ID) ;;
     p <- load32 (t + T_CTXT + C_SP) ;;
     f <- load32 (frame + F_PC) ;;
     k t i p f) s = k t i a v (with_thread_id (u32 (next_thread_id s + 1)) (with_stack (sp - 4096)
       (with_heap (t + 96) (with_mem m5 s)))).
Proof.
  destruct (create_in c ts s Hr) as (Ic & It & Ip). destruct first_sp as [Uf Hf4].
  pose proof (create_nodes2 c ts (sp - 4096) s Hr Hheap Hheap4 Hroom first_room Hfree Hlow) as Hn2.
  assert (is_u32 sp) as Usp by (clear - Hroom Hheap Hstack; unfold is_u32, sp; lia).
  assert (mapped m2 f 128) as Mf.
  { apply mapped_write, put_fields_mapped, mapped_write. eapply mapped_sub; [exact Hfree|unfold f, sp; lia..]. }
  set (S3 := with_stack (sp - 4096) (with_thread_id (u32 (next_thread_id s + 1)) (with_heap (t + 96) s))).
  destruct (first_runs fn arg t sp L m2 S3 Hn2 It Usp Uf Hf4 Mf) as (i & a & v & E2).
  exists i, a, v. intros k.
  rewrite (create_linked c ts (sp - 4096) s Hr Htp Hheap Hheap4 Hroom first_room Hfree Hlow).
  fold t p m0 m1. set (S2 := with_thread_id (u32 (next_thread_id s + 1)) (with_heap (t + 96) s)).
  assert (alloc_stack (with_mem m1 S2) = Ok sp (with_mem m2 S3)) as E.
  { assert (mapped m1 (next_stack S2 - 4096) 4096) as Hm1.
    { apply put_fields_mapped, mapped_write. eapply mapped_sub; [exact Hfree|cbn; lia..]. }
    unfold m2. clear - Hm1 Hroom Hheap Hstack. clearbody m1.
    apply (stack_alloc_ok m1 S2); [|exact Hm1]. change (next_stack S2) with (next_stack s). lia. }
  change (with_thread_id _ (with_heap _ (with_mem m1 s))) with (with_mem m1 S2).
  step E. clear E. rewrite E2. reflexivity.
Qed.

Lemma created_below a : a < f -> m5 !! a = m3 !! a.
Proof.
  intros Ha. clear - Ha. clearbody m3. unfold m5, frame_stores, F_RA, F_A0, F_PC.
  rewrite !lookup_write_bytes, !length_le_bytes, length_replicate. rewrite !decide_False by lia. done.
Qed.

Lemma created_above a : sp <= a -> m5 !! a = t_mem s !! a.
Proof.
  intros Ha. transitivity (m3 !! a).
  { clear - Ha. clearbody m3. unfold m5, frame_stores, F_RA, F_A0, F_PC.
    rewrite !lookup_write_bytes, !length_le_bytes, length_replicate. rewrite !decide_False by (unfold f; lia). done. }
  destruct (create_in c ts s Hr) as (Ic & It & Ip).
  assert (forall u, u ∈ L -> ~ (u <= a < u + sizeof_thread_t)) as Hu.
  { intros u Hu. unfold sizeof_thread_t, sp in *. apply elem_of_app in Hu as [Hu|Hu].
    - specialize (Hlow u Hu). unfold sizeof_thread_t in Hlow. lia.
    - apply list_elem_of_singleton in Hu as ->. unfold t. lia. }
  unfold m3. rewrite (put_fields_other m2 L).
  2:{ exact (create_fields c ts (first_stores t sp) s Hr first_in_context). }
  2:{ exact Hu. }
  unfold m2. rewrite same_except_write by (rewrite length_replicate; unfold sp in Ha; lia).
  unfold m1. rewrite (put_fields_other m0 L); [|by apply link_fields|exact Hu].
  unfold m0. apply same_except_write. rewrite length_replicate. unfold sp, t in *. lia.
Qed.

Lemma created_mapped b n : mapped (t_mem s) b n -> mapped m5 b n.
Proof. intros H. apply frame_stores_mapped. exact (create_mapped c (sp - 4096) (first_stores t sp) s b n H). Qed.

Lemma mapped_m3 b n : mapped m3 b n -> mapped m5 b n.
Proof. apply frame_stores_mapped. Qed.

(** Nothing of the thread structures is on the stack. *)
Lemma node_below u : u ∈ L -> u + sizeof_thread_t <= f.
Proof.
  intros Hu. unfold f, sp. apply elem_of_app in Hu as [Hu|Hu].
  - specialize (Hlow u Hu). lia.
  - apply list_elem_of_singleton in Hu as ->. unfold t, sizeof_thread_t. lia.
Qed.

Lemma created_ring : ring m5 (c :: ts ++ [t]).
Proof.
  change (c :: ts ++ [t]) with ((c :: ts) ++ [t]).
  apply (ring_frame m3); [|intros u o Hu Ho|exact mapped_m3].
  - exact (create_ring c ts (sp - 4096) (first_stores t sp) s Hr Hheap Hheap4 Hroom first_room Hfree Hlow first_in_context).
  - apply word_agree. intros a Ha. apply created_below. pose proof (node_below u Hu) as Hb.
    unfold sizeof_thread_t, T_NEXT, T_PREV in *. lia.
Qed.

Lemma created_kept u ws : u ∈ c :: ts -> saved (t_mem s) u ws -> saved m5 u ws.
Proof.
  intros Hu Hs. apply (saved_frame m3); [|intros a Ha|exact mapped_m3].
  - exact (create_kept c ts (sp - 4096) (first_stores t sp) s Hr Hheap Hheap4 Hroom first_room Hfree Hlow first_in_context u ws Hu Hs).
  - apply created_below. assert (u ∈ L) as HuL by (apply elem_of_app; by left). pose proof (node_below u HuL). lia.
Qed.

Lemma created_id : word m5 (t + T_ID) = u32 (next_thread_id s).
Proof.
  rewrite <- (create_id c ts (sp - 4096) (first_stores t sp) s Hr Hheap Hheap4 Hroom first_room Hfree Hlow first_in_context).
  apply word_agree. intros a Ha. apply created_below. destruct (create_in c ts s Hr) as (_ & It & _).
  pose proof (node_below t It). unfold T_ID, sizeof_thread_t, t in *. lia.
Qed.

Lemma created_context : saved m5 t (switched trap_exit_at (first_ctx t sp fn arg)).
Proof.
  destruct (create_in c ts s Hr) as (Ic & It & Ip). destruct (create_apart c ts s Hr Hlow) as [Hct Hpt].
  destruct first_sp as [Uf _].
  assert (is_u32 t) as Ut by (clear - Hheap Hroom Hstack; unfold is_u32, t; lia).
  apply (saved_frame m3); [|intros a Ha|exact mapped_m3].
  2:{ apply created_below. pose proof (node_below t It). lia. }
  split; [done|]. split; [repeat (apply Forall_cons; [done|]); constructor|].
  intros i v Hi. pose proof (lookup_lt_Some _ _ _ Hi) as Hlt. cbn in Hlt. split.
  - apply create_mapped. eapply mapped_sub; [exact Hfree|unfold T_CTXT, t; lia..].
  - rewrite <- Z.add_assoc.
    rewrite (create_word c ts (sp - 4096) (first_stores t sp) s Hr Hheap Hheap4 Hroom first_room Hfree Hlow first_in_context)
      by (exact It || (unfold T_CTXT; zarith)).
    assert (word (write_bytes (t_mem s) (next_heap s) (replicate 96 0)) (t + (T_CTXT + 4 * Z.of_nat i)) = 0) as ->
      by (apply word_write_zeros; unfold T_CTXT, t; lia).
    clear - Hi Hlt Hct Hpt Ut Uf Uxe Ute.
    do 16 (destruct i as [|i];
      [cbn in Hi; simplify_eq; unfold latest, link_stores, first_stores, T_MAGIC, T_ID, T_NEXT, T_PREV, T_CTXT, C_PC, C_SP, C_TP;
       cbn [fold_left];
       repeat (first [rewrite decide_False by lia | rewrite decide_True by lia]); cbn [default from_option id];
       (done || by apply u32_small)|]). lia.
Qed.

Lemma created_frame : words_at m5 f (frame_of (first_ctx t sp fn arg)).
Proof.
  destruct first_sp as [_ Hf4]. pose proof frame_mapped as Mf.
  unfold m5, frame_stores. set (m4 := write_bytes m3 f (replicate (Z.to_nat 80) 0)).
  assert (words_at m4 f (replicate 20 0)) as W.
  { intros i w Hi. apply lookup_replicate in Hi as [-> Hi]. split.
    - apply mapped_write. eapply mapped_sub; [exact Mf|lia..].
    - apply word_write_zeros; lia. }
  clearbody m4. clear - W Hf4 Ufn Uarg Ute.
  apply (words_at_write m4 f _ 0 thread_exit_at) in W; [|done|done|cbn; lia].
  apply (words_at_write _ f _ 8 arg) in W; [|done|done|cbn; lia].
  apply (words_at_write _ f _ 16 fn) in W; [|done|done|cbn; lia].
  change (frame_of (first_ctx t sp fn arg)) with
    (take 17 (<[16%nat := fn]> (<[8%nat := arg]> (<[0%nat := thread_exit_at]> (replicate 20 0))))).
  intros i w Hi. apply W. rewrite lookup_take_Some in Hi. apply Hi.
Qed.
End creating.
Lemma create_thread_ok fn arg c ts (b : machine) :
  threads b (c :: ts) -> next_heap b + 96 <= next_stack b - 4096 ->
  is_u32 fn -> is_u32 arg -> is_u32 thread_exit_at -> is_u32 trap_exit_at ->
  let t := next_heap b in let sp := next_stack b in
  exists out m, let b' := with_thread_id (u32 (next_thread_id b + 1)) (with_stack (sp - 4096)
      (with_heap (t + 96) (with_mem m (emit out b)))) in
    create_thread thread_exit_at trap_exit_at fn arg b = Ok t b' /\ threads b' (c :: ts ++ [t]) /\
    suspended m t (first_ctx t sp fn arg) /\ word m (t + T_ID) = u32 (next_thread_id b) /\
    (forall u ws, u ∈ ts -> saved (t_mem b) u ws -> saved m u ws) /\
    (forall a, sp <= a -> m !! a = t_mem b !! a) /\ (forall a n, mapped (t_mem b) a n -> mapped m a n).
Proof.
  intros (Hr & Hlr & Hur & Htp & Hsv & A1 & A2 & A3 & A4 & A5 & A6) Hroom Uf Ua Ut Ux t sp. cbn [hd tl] in *.
  destruct A3 as [A3 A3'].
  destruct (create_thread_runs fn arg c ts b Hr Htp A3 A1 A2 Hroom A4 A5 A6) as (i & a & f & E).
  pose proof (created_ring fn arg c ts b Hr A3 A1 Hroom A4 A5 A6) as Hring.
  pose proof (created_context fn arg c ts b Hr A3 A1 A2 Hroom A4 A5 A6 Uf Ua Ut Ux) as Hst.
  pose proof (created_frame fn arg c b A3 A2 Hroom A4 A5 Uf Ua Ut) as Hfr.
  pose proof (created_kept fn arg c ts b Hr A3 A1 Hroom A4 A5 A6) as Hk.
  pose proof (created_id fn arg c ts b Hr A3 A1 Hroom A4 A5 A6) as Hid.
  pose proof (created_above fn arg c ts b Hr Hroom A6) as Hab.
  pose proof (created_mapped fn arg c b) as Mm. fold t sp in Hring, Hst, Hfr, Hk, Hid, Hab, Mm, E.
  set (m5 := frame_stores _ _ _ _) in *. clearbody m5.
  destruct (create_message t i a f (with_thread_id (u32 (next_thread_id b + 1))
    (with_stack (sp - 4096) (with_heap (t + 96) (with_mem m5 b))))) as (out & Eout).
  exists out, m5. cbv zeta. split; [|split; [|split; [|split; [exact Hid|split; [|by split]]]]].
  - unfold create_thread. rewrite (E (fun t i p f => _)). step Eout. done.
  - unfold threads. cbn [regs with_thread_id with_stack with_heap t_mem with_mem machine_HasMem next_heap next_stack tl hd].
    clear E Eout Hid. split; [exact Hring|]. split; [exact Hlr|]. split; [exact Hur|]. split; [exact Htp|].
    split; [|split; [unfold t; zarith|split; [unfold sp; zarith|split; [unfold t, sp; lia|split; [unfold sp; lia|split]]]]].
    + intros u Hu. cbn [tl app] in Hu. apply elem_of_app in Hu as [Hu|Hu].
      * destruct (Hsv u Hu) as (v & Hv & Hvt). exists v. split; [|exact Hvt]. apply Hk; [by right|exact Hv].
      * apply list_elem_of_singleton in Hu as ->. by eexists.
    + apply Mm. eapply mapped_sub; [exact A5|unfold t, sp; lia..].
    + intros u Hu. change (c :: ts ++ [t]) with ((c :: ts) ++ [t]) in Hu. apply elem_of_app in Hu as [Hu|Hu].
      * specialize (A6 u Hu). unfold t. lia.
      * apply list_elem_of_singleton in Hu as ->. unfold sizeof_thread_t, t. lia.
  - exists trap_exit_at. split; [by left|]. split; [exact Hst|exact Hfr].
  - intros u ws Hu. apply Hk. by right.
Qed.

(** The stacks, with that of a new thread. *)
Definition with_stack_of (t sp : Z) (stack : Z -> Z) : Z -> Z := fun u => if u =? t then sp else stack u.

Lemma create_ok fn arg stack s c ts x X :
  tasks stack s (c :: ts) (x :: X) -> next_heap (base s) + 96 <= next_stack (base s) - 4096 ->
  is_u32 fn -> is_u32 arg -> is_u32 thread_exit_at -> is_u32 trap_exit_at ->
  let t := next_heap (base s) in let sp := next_stack (base s) in
  exists s', thread_create thread_exit_at trap_exit_at fn arg s = Ok t s' /\
    tasks (with_stack_of t sp stack) s' (c :: ts ++ [t]) (x :: X ++ [first_ctx t sp fn arg]) /\
    csr CSR_STVEC s' = csr CSR_STVEC s /\ super s' = super s /\ Z.testbit (csr CSR_SSTATUS s') SIE = true /\
    word (mem_of s') (t + T_ID) = u32 (next_thread_id (base s)) /\
    next_heap (base s') = t + 96 /\ next_stack (base s') = sp - 4096 /\
    timer_pending s' = timer_pending s /\ io s' = io s.
Proof.
  intros (Ht & Hx & [Hs1 Hs2] & Hh & Hs) Hroom Uf Ua Ut Ux t sp. change (mem_of s) with (t_mem (base s)) in *.
  cbn [tl hd_error] in *. assert (x = here s) as Ex by congruence.
  pose proof Ht as (_ & _ & _ & _ & _ & _ & Hsp4 & [Hh0 Hhs] & Hns & _ & Hlow).
  destruct (create_thread_ok fn arg c ts (base s) Ht Hroom Uf Ua Ut Ux) as (out & m & E & T & Sn & Hid & Hk & Hab & Mm).
  fold t sp in E, T, Sn, Hid, Hab. cbv zeta in E, T.
  set (b' := with_thread_id _ _) in *.
  set (s0 := put_csr CSR_SSTATUS (Z.ldiff (csr CSR_SSTATUS s) SSTATUS_SIE) s).
  set (s' := put_csr CSR_SSTATUS (Z.lor (csr CSR_SSTATUS (with_base b' s0)) SSTATUS_SIE) (with_base b' s0)).
  assert (forall u, u ∈ c :: ts -> with_stack_of t sp stack u = stack u) as Hst.
  { intros u Hu. unfold with_stack_of. rewrite (proj2 (Z.eqb_neq u t)); [done|]. specialize (Hlow u Hu).
    unfold sizeof_thread_t, t in *. lia. }
  assert (with_stack_of t sp stack t = sp) as Hstt by (unfold with_stack_of; by rewrite Z.eqb_refl).
  exists s'. split.
  { unfold thread_create. rewrite (bind_ok irq_disable _ s tt s0) by done.
    assert (lift (create_thread thread_exit_at trap_exit_at fn arg) s0 = Ok t (with_base b' s0)) as El
      by (apply lift_ok; exact E).
    step El. done. }
  split; [|split; [|split; [done|split; [|split; [exact Hid|done]]]]].
  - unfold tasks. change (mem_of s') with m. change (base s') with b'. cbn [tl hd_error].
    split; [exact T|]. split; [|split; [|split; [done|]]].
    + change (c :: ts ++ [t]) with ((c :: ts) ++ [t]). rewrite app_comm_cons. apply Forall2_app.
      * clear - Hx Hst. induction Hx as [|u y us Y Hy _ IH]; constructor.
        -- unfold ctx_ok in *. rewrite Hst by left. exact Hy.
        -- apply IH. intros v Hv. apply Hst. by right.
      * constructor; [|constructor]. unfold ctx_ok. rewrite Hstt.
        assert (is_u32 t /\ is_u32 sp) as [Utt Usp] by (unfold is_u32, t, sp; lia).
        split; [done|]. split; [repeat (apply Forall_cons; [done|]); constructor|]. split; [done|].
        split; [repeat (apply Forall_cons; [done|]); constructor|]. split; [done|]. split; [done|].
        change (sp_of (first_ctx t sp fn arg)) with sp. split; [unfold sp; zarith|lia].
    + change (c :: ts ++ [t]) with ((c :: ts) ++ [t]). unfold stacks.
      change (next_stack b') with (sp - 4096). change (t_mem b') with m. split.
      * intros u Hu. apply elem_of_app in Hu as [Hu|Hu].
        -- rewrite Hst by done. destruct (Hs1 u Hu) as (H1 & H2 & H3). split; [unfold sp; lia|]. split; [done|]. by apply Mm.
        -- apply list_elem_of_singleton in Hu as ->. rewrite Hstt. split; [lia|]. split; [done|].
           apply Mm. destruct Ht as (_ & _ & _ & _ & _ & _ & _ & _ & _ & Hfree & _).
           eapply mapped_sub; [exact Hfree|unfold sp; lia..].
      * intros u v Hu Hv Hne. apply elem_of_app in Hu as [Hu|Hu], Hv as [Hv|Hv];
          try (apply list_elem_of_singleton in Hu as ->); try (apply list_elem_of_singleton in Hv as ->);
          rewrite ?Hstt, ?Hst by done; try done.
        -- by apply Hs2.
        -- destruct (Hs1 u Hu) as (H1 & _). right. unfold sp. lia.
        -- destruct (Hs1 v Hv) as (H1 & _). left. unfold sp. lia.
    + apply Forall2_app; [|by constructor].
      apply Forall2_cons_iff in Hx as [_ HX].
      apply (suspended_all stack (t_mem (base s)) m _ _ HX Hs). intros u y Hu Hy Hsy.
      destruct (Hs1 u ltac:(by right)) as (H1 & _). pose proof Hy as (_ & _ & Hyt & _ & _ & _ & _ & Hyb).
      eapply suspended_frame; [done|intros ws; by apply Hk| |exact Mm|exact Hsy].
      intros b Hb. apply Hab. unfold sp. lia.
  - change (csr CSR_STVEC s') with (csr CSR_STVEC (put_csr CSR_SSTATUS (Z.lor (csr CSR_SSTATUS (with_base b' s0)) SSTATUS_SIE) s0)).
    unfold s0. by rewrite !csr_put, !decide_False.
  - unfold s'. rewrite csr_put, decide_True, Z.lor_spec by done. apply orb_true_r.
Qed.
(** ** Time slices *)

(** A stretch of execution of the running thread: it computes its registers and
    writes memory. *)
Record slice := { f_ctx : ctx -> ctx; f_mem : cpu -> mem }.

(** It stays out of the thread structures and of the other threads' stacks. *)
Definition slice_ok (stack : Z -> Z) (l : list Z) (c : Z) (f : slice) : Prop :=
  (forall x, ctx_ok stack c x -> ctx_ok stack c (f_ctx f x)) /\
  (forall s, (forall t a, t ∈ l -> t <= a < t + sizeof_thread_t -> f_mem f s !! a = mem_of s !! a) /\
     (forall t a, t ∈ l -> t <> c -> stack t - 4096 <= a < stack t -> f_mem f s !! a = mem_of s !! a) /\
     (forall b n, mapped (mem_of s) b n -> mapped (f_mem f s) b n)).

Definition set_ctx (x : ctx) (s : cpu) : cpu :=
  with_mode (x_pc x) (super s) (with_temps (x_temps x) (with_base (with_regs (x_regs x) (base s)) s)).

Definition run_slice (f : slice) : M cpu unit :=
  modify (fun s => set_ctx (f_ctx f (here s)) (with_mem (f_mem f s) s)).

(** Each slice is ended by the timer interrupt. *)
Fixpoint time_slices (fs : list slice) : M cpu unit :=
  match fs with
  | [] => ret tt
  | f :: fs' => run_slice f ;; interrupt trap_entry_at trap_exit_at handler_ret scratch ;; time_slices fs'
  end.

Lemma slice_run_ok f stack c ts x X s :
  tasks stack s (c :: ts) (x :: X) -> slice_ok stack (c :: ts) c f ->
  exists s', run_slice f s = Ok tt s' /\ tasks stack s' (c :: ts) (f_ctx f x :: X) /\
    (ready s -> ready s') /\ timer_pending s' = timer_pending s /\ io s' = io s.
Proof.
  intros (Ht & Hx & [Hs1 Hs2] & Hh & Hs) [Hf Hm]. cbn [hd_error tl] in *. assert (x = here s) as Ex by congruence.
  destruct (Hm s) as (Hm1 & Hm2 & Hm3). apply Forall2_cons_iff in Hx as [Hxc HX].
  change (mem_of s) with (t_mem (base s)) in *.
  pose proof (Hf x Hxc) as Hxf. pose proof Hxf as (Fl & Fu & _ & _ & _ & Ftp & _).
  destruct (threads_frame c ts (x_regs (f_ctx f x)) (f_mem f s) (base s) Ht Fl Fu Ftp Hm1 Hm3) as [T Hk].
  eexists. split; [reflexivity|]. rewrite <- Ex. split; [|by split].
  unfold tasks. change (mem_of (set_ctx _ _)) with (f_mem f s).
  change (base (set_ctx (f_ctx f x) (with_mem (f_mem f s) s))) with (with_regs (x_regs (f_ctx f x)) (with_mem (f_mem f s) (base s))).
  cbn [tl hd_error].
  split; [exact T|]. split; [by constructor|]. split; [|split].
  - split; [|exact Hs2]. intros u Hu. destruct (Hs1 u Hu) as (H1 & H2 & H3). split; [exact H1|]. split; [exact H2|].
    by apply Hm3.
  - unfold here, set_ctx. cbn. by destruct (f_ctx f x).
  - apply (suspended_all stack (t_mem (base s)) (f_mem f s) _ _ HX Hs). intros u y Hu Hy Hsy.
    pose proof Hy as (_ & _ & Hyt & _ & _ & _ & _ & Hyb).
    eapply suspended_frame; [done|intros ws; by apply Hk| |exact Hm3|exact Hsy].
    intros b Hb. apply (Hm2 u); [by right| |lia]. intros ->.
    destruct Ht as [[(Hnd & _) _] _]. by apply nodup_head in Hnd.
Qed.

Lemma slice_mono stack l l' c f : (forall t, t ∈ l' -> t ∈ l) -> slice_ok stack l c f -> slice_ok stack l' c f.
Proof.
  intros H [H1 H2]. split; [done|]. intros s. destruct (H2 s) as (H3 & H4 & H5). split; [|split; [|done]].
  - intros t a Ht. apply H3. by apply H.
  - intros t a Ht. apply H4. by apply H.
Qed.

Lemma time_slices_ok stack fs : is_u32 handler_ret -> is_u32 trap_exit_at -> forall l2 l1 X2 X1 s,
  tasks stack s (l2 ++ l1) (X2 ++ X1) -> ready s -> timer_pending s <> 0 ->
  length X2 = length fs -> Forall2 (slice_ok stack (l2 ++ l1)) l2 fs ->
  exists s', time_slices fs s = Ok tt s' /\ tasks stack s' (l1 ++ l2) (X1 ++ zip_with f_ctx fs X2) /\ ready s'.
Proof.
  intros Hh Hx. induction fs as [|f fs IH]; intros l2 l1 X2 X1 s Ht Hr Hp LX Hf; cbn [time_slices].
  - inversion Hf; subst. destruct X2; [|done]. rewrite !app_nil_r. by exists s.
  - inversion Hf as [|c ? l2' ? Hfc Hfs]; subst. destruct X2 as [|x X2]; [done|]. cbn [app] in *.
    destruct (slice_run_ok f _ _ _ _ _ s Ht Hfc) as (s1 & E1 & C1 & R1 & P1 & _). step E1.
    rewrite <- P1 in Hp.
    destruct (interrupt_ok stack s1 c _ _ _ C1 (R1 Hr) Hh Hx Hp) as (s2 & E2 & C2 & R2 & P2 & _). step E2.
    rewrite <- P2 in Hp. rewrite <- !app_assoc in C2.
    destruct (IH l2' (l1 ++ [c]) X2 (X1 ++ [f_ctx f x]) s2 C2 R2 Hp) as (s3 & E3 & C3 & R3); [cbn in *; lia| |].
    { eapply Forall2_impl; [|exact Hfs]. intros u g. apply slice_mono. intros v Hv.
      rewrite app_assoc in Hv. apply elem_of_app in Hv as [Hv|Hv]; [by right|].
      apply list_elem_of_singleton in Hv as ->. left. }
    exists s3. split; [exact E3|]. split; [|exact R3]. rewrite <- !app_assoc in C3. exact C3.
Qed.

(** ** Exceptions *)

(** The words of [eframe_t]. *)
Definition eframe_words (x : ctx) : list Z := frame_of x ++ sp_of x :: drop 2 (x_regs x).

Lemma save_rest_ok (s : cpu) (x : ctx) a :
  a = sp_of x - 128 -> regs (base s) = <[R_SP := a]> (x_regs x) ->
  length (x_regs x) = 16%nat -> Forall is_u32 (x_regs x) -> length (x_temps x) = 15%nat ->
  sp_of x mod 4 = 0 -> 128 <= sp_of x -> words_at (mem_of s) a (frame_of x) -> mapped (mem_of s) a 128 ->
  exists m, save_rest s = Ok tt (with_temps (<[R_A0 := a]> (<[R_T0 := sp_of x]> (temps s))) (with_mem m s)) /\
    words_at m a (eframe_words x).
Proof.
  intros -> Er Hl Hu Hlt H4 Hsp W Hm. set (a := sp_of x - 128) in *. unfold save_rest.
  assert (a mod 4 = 0) as Ha4 by (unfold a; zarith).
  assert (is_u32 (sp_of x)) as Usp by (apply reg_u32; [done..|unfold R_SP; lia]).
  rewrite (bind_ok (reg R_SP) _ s a s) by (apply reg_ok; rewrite Er; destruct (x_regs x) as [|? [|? ?]]; done).
  replace (u32 (a + 32 * 4)) with (sp_of x) by
    (replace (a + 32 * 4) with (sp_of x) by (unfold a; lia); symmetry; by apply u32_small).
  set (s1 := with_temps (<[R_T0 := sp_of x]> (temps s)) s).
  rewrite (bind_ok (set_temp R_T0 _) _ s tt s1) by done.
  change (0x44) with 68. change (0x48) with 72.
  assert (mapped (mem_of s1) (a + 68) 4) as M1 by (eapply mapped_sub; [exact Hm|lia..]).
  pose proof (store_ok 4 (a + 68) (sp_of x) s1 M1 ltac:(change (Z.of_nat 4) with 4; zarith)) as E. step E. clear E.
  set (m1 := write_bytes (mem_of s1) (a + 68) (le_bytes 4 (sp_of x))).
  change (poke s1 _ _) with (with_mem m1 s1).
  rewrite (bind_ok (gets _) _ (with_mem m1 s1) (drop 2 (x_regs x)) (with_mem m1 s1)).
  2:{ unfold gets. f_equal. change (regs (base (with_mem m1 s1))) with (regs (base s)). rewrite Er.
      destruct (x_regs x) as [|? [|? ?]]; done. }
  assert (length (drop 2 (x_regs x)) = 14%nat) as Hd by (rewrite length_drop, Hl; done).
  destruct (store_words_at (with_mem m1 s1) (a + 72) (drop 2 (x_regs x))) as (m & E & Wd & Xd & Md).
  { by apply Forall_drop. } { zarith. }
  { rewrite mem_of_with, Hd. apply mapped_write. eapply mapped_sub; [exact Hm|lia..]. }
  rewrite mem_of_with in *. rewrite Hd in Xd. step E. rewrite with_mem_with. exists m. split; [done|].
  unfold eframe_words. apply words_at_app. assert (length (frame_of x) = 17%nat) as Hlf
    by (unfold frame_of; cbn [length]; rewrite length_app, Hlt; done).
  rewrite Hlf. change (a + 4 * Z.of_nat 17) with (a + 68). split; [|apply words_at_cons; split; [|split]].
  - eapply words_at_agree; [exact W| |intros; by apply Md, mapped_write]. intros b Hb. rewrite Hlf in Hb.
    rewrite Xd by lia. apply same_except_write. lia.
  - by apply Md, mapped_write.
  - rewrite (word_agree m1) by (intros i Hi; apply Xd; lia). unfold m1. rewrite word_write by zarith.
    rewrite decide_True by done. by apply u32_small.
  - replace (a + 68 + 4) with (a + 72) by lia. exact Wd.
Qed.

(** The frame, possibly another one by now, is taken up again. *)
Lemma exception_exit_ok (s : cpu) (x : ctx) :
  nth R_SP (regs (base s)) 0 = sp_of x - 128 -> length (regs (base s)) = 16%nat ->
  length (x_regs x) = 16%nat -> length (x_temps x) = 15%nat ->
  is_u32 (sp_of x) -> sp_of x mod 4 = 0 -> words_at (mem_of s) (sp_of x - 128) (eframe_words x) ->
  exists s', exception_exit s = Ok tt s' /\ here s' = x /\ mem_of s' = mem_of s.
Proof.
  intros Er Hl Hlx Hlt Usp H4 W. unfold exception_exit. set (a := sp_of x - 128) in *.
  rewrite (bind_ok (reg R_SP) _ s a s) by (by apply reg_ok).
  pose proof W as W'. unfold eframe_words in W'. apply words_at_app in W' as [W1 W2].
  assert (length (frame_of x) = 17%nat) as Hlf by (unfold frame_of; cbn [length]; rewrite length_app, Hlt; done).
  rewrite Hlf in W2. apply words_at_cons in W2 as (_ & _ & W2).
  replace (a + 4 * Z.of_nat 17 + 4) with (a + 0x48) in W2 by lia.
  assert (length (drop 2 (x_regs x)) = 14%nat) as Hd by (rewrite length_drop, Hlx; done).
  assert (load_words (a + 0x48) 14 s = Ok (drop 2 (x_regs x)) s) as E.
  { rewrite <- Hd. apply load_words_at; [unfold a; zarith|exact W2]. }
  step E. clear E. set (r := regs (base s)) in *.
  rewrite (bind_ok (gets _) _ s r s) by done.
  set (s1 := with_base (with_regs (take 2 r ++ drop 2 (x_regs x)) (base s)) s).
  rewrite (bind_ok (modify _) _ s tt s1) by done.
  assert (regs (base s1) = switched (nth R_RA r 0) x) as E1.
  { change (regs (base s1)) with (take 2 r ++ drop 2 (x_regs x)). unfold switched. fold a. clearbody a r. subst a.
    destruct r as [|? [|? ?]]; [done..|]. destruct (x_regs x) as [|? [|? ?]]; done. }
  destruct (trap_left_ok s1 x _ E1 Hlx Hlt Usp H4 W1) as (s' & E & Eb & Eh & _).
  exists s'. split; [exact E|]. split; [exact Eh|].
  change (mem_of s') with (t_mem (base s')). rewrite Eb. done.
Qed.

Lemma exception_ok cause (s : cpu) (x : ctx) :
  x = here s -> csr CSR_STVEC s = trap_entry_at -> s32 cause >= 0 ->
  length (x_regs x) = 16%nat -> Forall is_u32 (x_regs x) -> length (x_temps x) = 15%nat -> Forall is_u32 (x_temps x) ->
  is_u32 (x_pc x) -> sp_of x mod 4 = 0 -> 128 <= sp_of x -> mapped (mem_of s) (sp_of x - 128) 128 ->
  exists s1, take_trap trap_entry_at trap_exit_at handler_ret scratch cause s =
      (exception_handler (sp_of x - 128) ;; exception_exit) s1 /\
    nth R_SP (regs (base s1)) 0 = sp_of x - 128 /\ length (regs (base s1)) = 16%nat /\
    words_at (mem_of s1) (sp_of x - 128) (eframe_words x).
Proof.
  intros Ex Hv Hc Hl Hu Hlt Hut Hup H4 Hsp Hm.
  destruct (trap_ok cause s) as (s1 & E1 & B1 & T1 & P1 & Sep & Sc & Sv & _).
  unfold take_trap. step E1. rewrite (bind_ok (gets pc) _ s1 trap_entry_at s1) by (unfold gets; by rewrite P1, Hv).
  rewrite Z.eqb_refl. unfold trap_entry. clear E1.
  destruct (save_frame_ok s1 x) as (m & E & W & Xm & Mm); try done.
  { rewrite B1, Ex. done. } { rewrite T1, Ex. done. } { rewrite Sep, Ex. done. }
  { change (mem_of s1) with (t_mem (base s1)). by rewrite B1. }
  step E. clear E. set (s2 := with_base _ _).
  rewrite (bind_ok (gets (csr CSR_SCAUSE)) _ s2 cause s2) by (unfold gets; f_equal; exact Sc).
  set (s3 := with_temps (<[R_T1 := cause]> (temps s2)) s2).
  rewrite (bind_ok (set_temp R_T1 _) _ s2 tt s3) by done.
  rewrite (proj2 (Z.geb_le _ _)) by lia. unfold exception_entry. set (a := sp_of x - 128) in *.
  assert (mapped (mem_of s3) a 128) as M3.
  { change (mem_of s3) with m. apply Mm. change (mem_of s1) with (t_mem (base s1)). by rewrite B1. }
  destruct (save_rest_ok s3 x a eq_refl eq_refl Hl Hu Hlt H4 Hsp W M3) as (m' & E & W').
  step E. set (s4 := with_temps _ (with_mem m' s3)). exists s4. split; [|split; [|split; [|exact W']]].
  - rewrite (bind_ok (gets _) _ s4 a s4); [done|]. unfold gets. f_equal.
    change (temps s4) with (<[R_A0 := a]> (<[R_T0 := sp_of x]> (<[R_T1 := cause]> (<[R_T0 := x_pc x]> (temps s1))))).
    rewrite nth_lookup, list_lookup_insert_eq; [done|]. rewrite !length_insert, T1.
    rewrite Ex in Hlt. cbn [x_temps here] in Hlt. rewrite Hlt. unfold R_A0. lia.
  - change (regs (base s4)) with (<[R_SP := a]> (x_regs x)). destruct (x_regs x) as [|? [|? ?]]; done.
  - change (regs (base s4)) with (<[R_SP := a]> (x_regs x)). by rewrite length_insert.
Qed.
End preemption.

(** ** A machine that starts with one thread *)

Definition boot_links : list (Z * Z * Z) := [(0x100, T_NEXT, 0x100); (0x100, T_PREV, 0x100)].
Definition boot_free : mem := mem_lit 0 (replicate (Z.to_nat 0x5000) 0).
Definition boot_ctx : ctx :=
  {| x_regs := [0x8000; 0x5000; 0; 0x100; 0; 0; 0; 0; 0; 0; 0; 0; 0; 0; 0; 0]; x_temps := replicate 15 7; x_pc := 0x8100 |}.
Definition boot_cpu : cpu :=
  {| base := {| t_mem := put_fields boot_free boot_links; t_uart := {| u_stalls := []; u_out := [] |};
       regs := x_regs boot_ctx; next_stack := 0x4000; next_heap := 0x1000; next_thread_id := 1 |};
     temps := x_temps boot_ctx; pc := x_pc boot_ctx; super := true; csrs := {[ CSR_STVEC := 0x9000 ]};
     timer_pending := 1; io := [] |}.
Definition boot_stack (t : Z) : Z := 0x5000.

#[local] Strategy 100 [write_bytes replicate put_fields boot_free mem_lit].

Lemma boot_mapped a n : 0 <= a -> 0 <= n -> a + n <= 0x5000 -> mapped (mem_of boot_cpu) a n.
Proof.
  intros Ha Hn Hb. apply put_fields_mapped. apply (mapped_sub boot_free 0 0x5000); [|lia..].
  apply mapped_mem_lit; [done|]. rewrite length_replicate. lia.
Qed.

Lemma boot_nodes : nodes boot_free [0x100].
Proof.
  split; [by_decide|]. split.
  - intros a Ha. apply list_elem_of_singleton in Ha as ->. split; [done|]. split; [lia|].
    apply (mapped_sub boot_free 0 0x5000); [|unfold sizeof_thread_t; lia..].
    apply mapped_mem_lit; [done|]. rewrite length_replicate. lia.
  - intros a b Ha Hb Hne. apply list_elem_of_singleton in Ha as ->. by apply list_elem_of_singleton in Hb as ->.
Qed.

Lemma boot_tasks te th : tasks te th boot_stack boot_cpu [0x100] [boot_ctx].
Proof.
  assert (forall w, w = T_NEXT \/ w = T_PREV -> word (mem_of boot_cpu) (0x100 + w) = 0x100) as Hw.
  { intros w Hw. change (mem_of boot_cpu) with (put_fields boot_free boot_links).
    rewrite (put_fields_word boot_free [0x100]);
      [|exact boot_nodes|by_decide|left|destruct Hw as [-> | ->]; by_decide..].
    assert (latest boot_links 0x100 w = Some 0x100) as -> by (destruct Hw as [-> | ->]; by_decide). done. }
  unfold tasks. split; [|split; [|split; [|split; [done|constructor]]]].
  - unfold threads. split.
    { change (t_mem (base boot_cpu)) with (mem_of boot_cpu).
      split; [exact (put_fields_nodes boot_free [0x100] boot_links boot_nodes)|].
      cbn [links app]. unfold nextp, prevp. rewrite !Hw by auto. done. }
    split; [done|]. split; [by_decide|]. split; [done|]. split.
    { intros t Ht. by apply not_elem_of_nil in Ht. }
    cbn [base boot_cpu next_heap next_stack]. split_and!; try lia; try done.
    + apply boot_mapped; lia.
    + intros t Ht. apply list_elem_of_singleton in Ht as ->. unfold sizeof_thread_t. lia.
  - constructor; [|constructor]. unfold ctx_ok. change (sp_of boot_ctx) with 0x5000. unfold boot_stack.
    split; [done|]. split; [by_decide|]. split; [done|]. split; [by_decide|]. split_and!; (done || lia).
  - split.
    + intros t Ht. cbn [base boot_cpu next_stack]. unfold boot_stack. split; [lia|]. split; [lia|].
      apply boot_mapped; lia.
    + intros t u Ht Hu Hne. apply list_elem_of_singleton in Ht as ->. by apply list_elem_of_singleton in Hu as ->.
Qed.

(** It starts a second one. *)
Lemma boot_create : exists s1, thread_create 0x8200 0x9100 0xa000 5 boot_cpu = Ok 0x1000 s1 /\
  tasks 0x9100 0x9200 (with_stack_of 0x1000 0x4000 boot_stack) s1 [0x100; 0x1000]
    [boot_ctx; first_ctx 0x8200 0x1000 0x4000 0xa000 5] /\
  ready 0x9000 s1 /\ timer_pending s1 = 1.
Proof.
  destruct (create_ok 0x8200 0x9100 0x9200 0xa000 5 boot_stack boot_cpu 0x100 [] boot_ctx [] (boot_tasks _ _)
    ltac:(by_decide) ltac:(by_decide) ltac:(by_decide) ltac:(by_decide) ltac:(by_decide))
    as (s1 & E & T & Ev & Em & Ei & _ & _ & _ & Ep & _).
  exists s1. split; [exact E|]. split; [exact T|]. split; [|exact Ep]. split; [rewrite Ev; by_decide|by split].
Qed.

(** ** The theorems *)

(** C6: preemption is transparent and fair: when the timer interrupts as many time
    slices as there are threads, each thread runs one slice, in the order of the
    ring, on exactly the registers and program counter it was interrupted with,
    all thirty-one of them, whatever [interrupt_handler] leaves in the ones it
    need not preserve; at the end the first thread runs again, in supervisor
    mode with interrupts enabled. *)
Theorem preemption_transparent trap_entry_at trap_exit_at handler_ret scratch stack fs l X (s : cpu) :
  tasks trap_exit_at handler_ret stack s l X -> ready trap_entry_at s ->
  is_u32 handler_ret -> is_u32 trap_exit_at -> timer_pending s <> 0 ->
  Forall2 (slice_ok stack l) l fs ->
  exists s', time_slices trap_entry_at trap_exit_at handler_ret scratch fs s = Ok tt s' /\
    tasks trap_exit_at handler_ret stack s' l (zip_with f_ctx fs X) /\ ready trap_entry_at s'.
Proof.
  intros Ht Hr Hh Hx Hp Hf. pose proof Ht as (_ & HX & _).
  pose proof (time_slices_ok trap_entry_at trap_exit_at handler_ret scratch stack fs Hh Hx l [] X [] s) as H.
  rewrite !app_nil_r in H. apply H; [done..| |done].
  apply Forall2_length in Hf, HX. lia.
Qed.

(** A slice that counts in [a0] and moves on by one instruction. *)
Definition tick : slice :=
  {| f_ctx x := {| x_regs := x_regs x; x_temps := <[R_A0 := u32 (nth R_A0 (x_temps x) 0 + 1)]> (x_temps x);
       x_pc := u32 (x_pc x + 4) |};
     f_mem := mem_of |}.

Lemma tick_ok stack l c : slice_ok stack l c tick.
Proof.
  split; [|done]. intros x (H1 & H2 & H3 & H4 & H5 & H6 & H7). unfold ctx_ok. cbn [f_ctx tick x_regs x_temps x_pc].
  split; [done|]. split; [done|]. split; [by rewrite length_insert|]. split; [|split; [apply u32_range|done]].
  apply Forall_insert; [done|apply u32_range].
Qed.

Lemma preemption_transparent_witness :
  exists s1 s', thread_create 0x8200 0x9100 0xa000 5 boot_cpu = Ok 0x1000 s1 /\
    time_slices 0x9000 0x9100 0x9200 [] [tick; tick] s1 = Ok tt s' /\ here s' = f_ctx tick boot_ctx.
Proof.
  destruct boot_create as (s1 & E & T & R & P). exists s1.
  destruct (preemption_transparent 0x9000 0x9100 0x9200 [] _ [tick; tick] _ _ s1 T R ltac:(by_decide) ltac:(by_decide)
    ltac:(rewrite P; lia) ltac:(constructor; [apply tick_ok|constructor; [apply tick_ok|constructor]]))
    as (s' & E' & (_ & _ & _ & Hh & _) & _).
  exists s'. split; [exact E|]. split; [exact E'|]. exact (eq_sym (Some_inj _ _ Hh)).
Defined.

(** C18: a thread made by [thread_create] is last in turn; the trap frame on its new
    stack makes its first time slice start at [fn] with [arg] in [a0], the return
    address of [thread_exit] and an empty stack; the other threads keep their
    registers and interrupts are enabled on return. *)
Theorem thread_create_starts thread_exit_at trap_exit_at handler_ret fn arg stack (s : cpu) c ts x X :
  tasks trap_exit_at handler_ret stack s (c :: ts) (x :: X) ->
  next_heap (base s) + 96 <= next_stack (base s) - 4096 ->
  is_u32 fn -> is_u32 arg -> is_u32 thread_exit_at -> is_u32 trap_exit_at ->
  let t := next_heap (base s) in let sp := next_stack (base s) in
  exists s', thread_create thread_exit_at trap_exit_at fn arg s = Ok t s' /\
    tasks trap_exit_at handler_ret (with_stack_of t sp stack) s' (c :: ts ++ [t])
      (x :: X ++ [{| x_regs := [thread_exit_at; sp; 0; t; 0; 0; 0; 0; 0; 0; 0; 0; 0; 0; 0; 0];
                     x_temps := [0; 0; 0; 0; 0; 0; 0; arg; 0; 0; 0; 0; 0; 0; 0]; x_pc := fn |}]) /\
    Z.testbit (csr CSR_SSTATUS s') SIE = true /\
    word (mem_of s') (t + T_ID) = u32 (next_thread_id (base s)).
Proof.
  intros Ht Hroom Uf Ua Ut Ux t sp.
  destruct (create_ok thread_exit_at trap_exit_at handler_ret fn arg stack s c ts x X Ht Hroom Uf Ua Ut Ux)
    as (s' & E & T & _ & _ & Hi & Hid & _). by exists s'.
Qed.

Lemma thread_create_starts_witness :
  exists s1, thread_create 0x8200 0x9100 0xa000 5 boot_cpu = Ok 0x1000 s1 /\ here s1 = boot_ctx /\
    word (mem_of s1) 0x1004 = 1.
Proof.
  destruct (thread_create_starts 0x8200 0x9100 0x9200 0xa000 5 boot_stack boot_cpu 0x100 [] boot_ctx [] (boot_tasks _ _)
    ltac:(by_decide) ltac:(by_decide) ltac:(by_decide) ltac:(by_decide) ltac:(by_decide))
    as (s1 & E & (_ & _ & _ & Hh & _) & _ & Hid).
  exists s1. split; [exact E|]. split; [exact (eq_sym (Some_inj _ _ Hh))|exact Hid].
Defined.

(** A thread that exits is taken out of the ring and the processor goes on with
    the next thread, on the registers and program counter that one was suspended
    with, in supervisor mode with interrupts enabled, even when the exiting
    thread ran with interrupts disabled; the other threads keep their registers.
    The last one to exit says so and stops the machine. *)
Theorem thread_exit_resumes trap_entry_at trap_exit_at handler_ret exit_ret scratch status stack (s : cpu) c ts x X :
  tasks trap_exit_at handler_ret stack s (c :: ts) (x :: X) -> is_u32 exit_ret -> csr CSR_STVEC s = trap_entry_at ->
  let run := exit_to_next trap_exit_at handler_ret exit_ret scratch status s in
  match ts with
  | [] => exists out s1, run = Halt (with_base (emit (out ++ wire (str "[ all threads have exited ]" ++ [10])) (base s)) s1)
  | _ :: _ => exists s', run = Ok tt s' /\ tasks trap_exit_at handler_ret stack s' ts X /\ ready trap_entry_at s'
  end.
Proof.
  intros Ht He Hv run. destruct ts as [|n ts].
  - pose proof Ht as (_ & HX & _). apply Forall2_length in HX. destruct X; [|done].
    by apply (exit_last trap_exit_at handler_ret exit_ret scratch status stack s c x).
  - pose proof Ht as (_ & HX & _). apply Forall2_length in HX. destruct X as [|y Y]; [done|].
    by apply (exit_ok trap_entry_at trap_exit_at handler_ret exit_ret scratch status stack s c n ts x y Y).
Qed.

Lemma thread_exit_resumes_witness :
  exists s1 s', thread_create 0x8200 0x9100 0xa000 5 boot_cpu = Ok 0x1000 s1 /\
    exit_to_next 0x9100 0x9200 0x9300 [] 0 s1 = Ok tt s' /\ pc s' = 0xa000.
Proof.
  destruct boot_create as (s1 & E & T & R & P). exists s1.
  destruct (thread_exit_resumes 0x9000 0x9100 0x9200 0x9300 [] 0 _ s1 _ _ _ _ T ltac:(by_decide) (proj1 R))
    as (s' & E' & (_ & _ & _ & Hh & _) & _).
  exists s'. split; [exact E|]. split; [exact E'|].
  change (pc s') with (x_pc (here s')). by rewrite <- (Some_inj _ _ Hh).
Defined.

(** The trap entry passes [exception_handler] the address of a complete
    exception frame, the thirty-one registers and the program counter of the
    interrupted code; [exception_exit] makes any frame of that shape, changed by
    the handler or not, the registers again. *)
Theorem exception_frame_round_trip trap_entry_at trap_exit_at handler_ret scratch cause stack t (s : cpu) :
  ctx_ok stack t (here s) -> 0 <= stack t - 4096 -> mapped (mem_of s) (stack t - 4096) 4096 ->
  csr CSR_STVEC s = trap_entry_at -> s32 cause >= 0 ->
  let ef := sp_of (here s) - 128 in
  exists s1,
    take_trap trap_entry_at trap_exit_at handler_ret scratch cause s =
      (exception_handler ef ;; exception_exit) s1 /\
    words_at (mem_of s1) ef (eframe_words (here s)) /\
    (forall x m, words_at m ef (eframe_words x) -> sp_of x = sp_of (here s) ->
       length (x_regs x) = 16%nat -> length (x_temps x) = 15%nat ->
       exists s2, exception_exit (with_mem m s1) = Ok tt s2 /\ here s2 = x).
Proof.
  intros Hx H0 Hm Hv Hc ef. pose proof (sp_u32 stack t (here s) Hx) as Usp.
  pose proof Hx as (Hl & Hu & Hlt & Hut & Hup & _ & H4 & Hb).
  assert (mapped (mem_of s) (sp_of (here s) - 128) 128) as Mf by (eapply mapped_sub; [exact Hm|lia..]).
  destruct (exception_ok trap_entry_at trap_exit_at handler_ret scratch cause s (here s) eq_refl Hv Hc Hl Hu Hlt Hut Hup H4
    ltac:(lia) Mf) as (s1 & E & Esp & El & W).
  exists s1. split; [exact E|]. split; [exact W|]. intros x m Wx Ex Lx Lt. fold ef in Esp.
  unfold ef in Wx, Esp. rewrite <- Ex in Wx, Esp, Usp, H4.
  assert (words_at (mem_of (with_mem m s1)) (sp_of x - 128) (eframe_words x)) as Wx' by (rewrite mem_of_with; exact Wx).
  assert (regs (base (with_mem m s1)) = regs (base s1)) as Er by reflexivity. rewrite <- Er in Esp, El.
  destruct (exception_exit_ok (with_mem m s1) x Esp El Lx Lt Usp H4 Wx') as (s2 & E2 & Eh & _).
  exists s2. split; [exact E2|exact Eh].
Qed.

Lemma exception_frame_round_trip_witness :
  exists s1, take_trap 0x9000 0x9100 0x9200 [] 5 boot_cpu = (exception_handler 0x4f80 ;; exception_exit) s1 /\
    words_at (mem_of s1) 0x4f80 (eframe_words boot_ctx).
Proof.
  destruct (boot_tasks 0 0) as (_ & Hx & _). apply Forall2_cons_iff in Hx as [Hx _].
  destruct (exception_frame_round_trip 0x9000 0x9100 0x9200 [] 5 boot_stack 0x100 boot_cpu Hx ltac:(by_decide)
    ltac:(apply boot_mapped; unfold boot_stack; lia) ltac:(by_decide) ltac:(by_decide)) as (s1 & E & W & _).
  exists s1. split; [exact E|exact W].
Defined.
