(* ===== verification/Mandel.v ===== *)
(** * The Mandelbrot demos (example/ex10-..., example/ex11-..., misc/mandelbrot.c,
      misc/mandelbrot-fb.c, xos/usr/mandelbrot.c)

    What the threads of the examples run, and three programs of their own.  All
    iterate in thousandths on [int]; [orbit] is the same recurrence on integers
    without bounds, [escape_time] the first index at which it leaves the circle
    of radius two.  [iterate_ok] shows that the machine's integers never
    overflow for any point the programs ask for and that the loop finds that
    index; the programs then draw, or print, exactly the picture [mandel_color]
    or the text [mandel_text].  Surfaces and pictures are those of [Gfx]. *)

From S2P Require Import Prelude Monad Mem LibcStr Uart Printf Gfx.

(** ** The recurrence *)

Definition sq (x : Z) : Z := Z.quot (x * x) 1000.

Definition next_point (x0 y0 : Z) (p : Z * Z) : Z * Z :=
  let '(x, y) := p in (sq x - sq y + x0, Z.quot (2 * x * y) 1000 + y0).

Fixpoint orbit (x0 y0 : Z) (i : nat) : Z * Z :=
  match i with O => (0, 0) | Datatypes.S i' => next_point x0 y0 (orbit x0 y0 i') end.

Definition escaped (p : Z * Z) : bool := 4000 <? sq (fst p) + sq (snd p).

(** The first of [n] points from the [i]-th on that escapes. *)
Definition escape_from (x0 y0 : Z) (i n : nat) : option nat :=
  List.find (fun j => escaped (orbit x0 y0 j)) (seq i n).
Definition escape_time (x0 y0 : Z) (n : nat) : option nat := escape_from x0 y0 0 n.

(** ** The programs *)

(* src/example/ex11-threads-preemptive.c:133-136 *)
Definition colors : list Z :=
  [0x1111; 0x2222; 0x3333; 0x4444; 0x5555; 0x6666; 0x7777; 0x8888; 0x9999; 0xAAAA; 0xBBBB; 0xCCCC].

Section code.
Context {S : Type}.

(** The loop over [i]: the index at which it leaves, or none. *)
(* src/example/ex11-threads-preemptive.c:148-159 render *)
Definition iterate (limit x0 y0 : Z) : M S (option Z) :=
  loop (fun '(i, x, y) =>
    if i <? limit then
      xx <- int32 (x * x) ;;
      yy <- int32 (y * y) ;;
      let x2 := Z.quot xx 1000 in
      let y2 := Z.quot yy 1000 in
      r2 <- int32 (x2 + y2) ;;
      if r2 >? 4000 then ret (inr (Some i))
      else
        dx <- int32 (2 * x) ;;
        xy <- int32 (dx * y) ;;
        y <- int32 (Z.quot xy 1000 + y0) ;;
        d <- int32 (x2 - y2) ;;
        x <- int32 (d + x0) ;;
        i <- int32 (i + 1) ;;
        ret (inl (i, x, y))
    else ret (inr None)) (0, 0, 0).
End code.

(** Division of unsigned ints. *)
Definition udiv {S} (a b : Z) : M S Z := if b =? 0 then fault else ret (a / b).

Section drawing.
Context {S : Type} `{!HasMem S}.

(* src/example/ex11-threads-preemptive.c:152-161 render *)
Definition plot_point (limit : Z) (gs : surface) (x0 y0 px py : Z) : M S unit :=
  r <- iterate limit x0 y0 ;;
  match r with
  | Some i => gfx_plot (with_colors gs (nth (Z.to_nat (if i >? 11 then 11 else i)) colors 0) (bgcolor gs)) px py
  | None => gfx_plot (with_colors gs 0 (bgcolor gs)) px py
  end.

(** A row of [render]. *)
(* src/example/ex11-threads-preemptive.c:145-164 render *)
Definition render_row (gs : surface) (px0 px1 py : Z) : M S unit :=
  a <- int32 (1300 * py) ;;
  q <- udiv (u32 a) (height gs) ;;
  let y0 := s32 (u32 (650 - q)) in
  loop (fun px =>
    if u32 px <? px1 then
      a <- int32 (1750 * px) ;;
      q <- udiv (u32 a) (width gs) ;;
      let x0 := s32 (u32 (-1250 + q)) in
      plot_point 500 gs x0 y0 (u32 px) (u32 py) ;;
      px <- int32 (px + 1) ;;
      ret (inl px)
    else ret (inr tt)) (s32 px0).

(** [row_end] is what follows a row. *)
(* src/example/ex11-threads-preemptive.c:138-168 render *)
Definition render_rows (row_end : M S unit) (gs : surface) (px0 py0 px1 py1 : Z) : M S Z :=
  loop (fun py =>
    if u32 py <? py1 then
      render_row gs px0 px1 py ;;
      row_end ;;
      py <- int32 (py + 1) ;;
      ret (inl py)
    else ret (inr tt)) (s32 py0) ;;
  ret 2.

(** In the preemptive example and in the X/OS program. *)
(* src/xos/usr/mandelbrot.c:14-44 *)
Definition render (gs : surface) (px0 py0 px1 py1 : Z) : M S Z := render_rows (ret tt) gs px0 py0 px1 py1.

(** In the cooperative example: [yield] returns when it is this thread's turn again. *)
(* src/example/ex10-threads-cooperative.c:127-158 render *)
Definition render_yielding (yield : M S unit) (gs : surface) (px0 py0 px1 py1 : Z) : M S Z :=
  render_rows yield gs px0 py0 px1 py1.

(* src/libgfx/inc/gfx/gfx.h:70-72 *)
Definition C_GRAY25 : Z := 0x00404040.
Definition C_GRAY50 : Z := 0x00808080.
Definition C_GRAY75 : Z := 0x00C0C0C0.
(* src/libgfx/inc/gfx/gfx.h:75-75 *)
Definition C_BLUE : Z := 0x000000FF.

(** The font, and the addresses of the string literals. *)
Context (rom : Z -> Z) (lit : list Z -> Z).

(* src/example/ex11-threads-preemptive.c:170-175 *)
Definition t1 (gs : surface) : M S Z :=
  gfx_fill gs 0 0 320 240 (gfx_color gs C_WHITE) ;;
  gfx_puts rom gs 0 (240 - 16) (lit (str "Thread One")) ;;
  render gs 0 0 320 240.
(* src/example/ex11-threads-preemptive.c:176-181 *)
Definition t2 (gs : surface) : M S Z :=
  gfx_fill gs 320 240 640 480 (gfx_color gs C_GRAY75) ;;
  gfx_puts rom gs 320 (480 - 16) (lit (str "Thread Two")) ;;
  render gs 320 240 640 480.
(* src/example/ex11-threads-preemptive.c:182-187 *)
Definition t3 (gs : surface) : M S Z :=
  gfx_fill gs 320 0 640 240 (gfx_color gs C_GRAY25) ;;
  gfx_puts rom gs 320 (240 - 16) (lit (str "Thread Three")) ;;
  render gs 320 0 640 240.
(* src/example/ex11-threads-preemptive.c:188-193 *)
Definition t4 (gs : surface) : M S Z :=
  gfx_fill gs 0 240 320 480 (gfx_color gs C_GRAY50) ;;
  gfx_puts rom gs 0 (480 - 16) (lit (str "Thread Four")) ;;
  render gs 0 240 320 480.

(* src/misc/mandelbrot-fb.c:30-52 start *)
Definition fb_rows (gs : surface) : M S unit :=
  loop (fun py =>
    if py <? 480 then
      a <- int32 (2600 * py) ;;
      y0 <- int32 (1300 - Z.quot a 480) ;;
      loop (fun px =>
        if px <? 640 then
          a <- int32 (3500 * px) ;;
          x0 <- int32 (-2500 + Z.quot a 640) ;;
          plot_point 1000 gs x0 y0 (u32 px) (u32 py) ;;
          px <- int32 (px + 1) ;;
          ret (inl px)
        else ret (inr tt)) 0 ;;
      py <- int32 (py + 1) ;;
      ret (inl py)
    else ret (inr tt)) 0.

(** [gs] is what the local surface held before it is initialised. *)
(* src/misc/mandelbrot-fb.c:21-55 start *)
Definition fb_start `{!HasUart S} (gs : surface) : M S unit :=
  xputs (lit (str "Hello, Mandelbrot!" ++ [10])) ;;
  let gs := gfx_init_display gs in
  gfx_clear gs C_BLUE ;;
  gfx_puts rom gs 0 (u32 (height gs - 17)) (lit (str "Hello, Mandelbrot!")) ;;
  fb_rows gs ;;
  gfx_puts rom (with_colors gs 0xFFFF (bgcolor gs)) 0 (u32 (height gs - 16)) (lit (str "Hello, Mandelbrot!")).

(** [exit] is the system call. *)
(* src/xos/usr/mandelbrot.c:75-91 start *)
Definition xos_start `{!HasUart S} (exit : Z -> M S unit) (gs : surface) : M S unit :=
  xprintf (str "X/OS Example - Mandelbrot" ++ [10; 10]) [] ;;
  let gs := gfx_init {| width := 640; height := 480; stride := 640; pixels := 0x20000000;
    pixfmt := PIXFMT_RGB565; fgcolor := C_WHITE; bgcolor := C_BLUE; reserved := reserved gs;
    plot := plot gs; hline := hline gs; putc := putc gs; color := color gs |} in
  gfx_clear gs C_BLUE ;;
  render gs 0 0 640 480 ;;
  exit 0.
End drawing.

Section printing.
Context {S : Type} `{!HasMem S} `{!HasUart S}.

(* src/misc/mandelbrot.c:13-25 start *)
Definition print_point (maxiter x0 y0 : Z) : M S unit :=
  r <- iterate maxiter x0 y0 ;;
  match r with
  | Some i => xputc (if i >? 9 then 64 else i + 48)
  | None => xputc 32
  end.

(* src/misc/mandelbrot.c:6-31 start *)
Definition text_start : M S unit :=
  loop (fun y0 =>
    if y0 >? -1000 then
      loop (fun x0 =>
        if x0 <? 1000 then
          print_point 1000 x0 y0 ;;
          x0 <- int32 (x0 + 30) ;;
          ret (inl x0)
        else ret (inr tt)) (-2500) ;;
      xputc 10 ;;
      y0 <- int32 (y0 - 50) ;;
      ret (inl y0)
    else ret (inr tt)) 1000 ;;
  xprintf (str "Hello, Mandlebrot!" ++ [10]) [].
End printing.

(** ** The loop finds the escape time *)

Lemma sq_nonneg x : 0 <= sq x.
Proof. unfold sq. apply Z.quot_pos; nia. Qed.

(** A point that has not escaped is close to the origin. *)
Lemma not_escaped p : escaped p = false -> -2000 <= fst p <= 2000 /\ -2000 <= snd p <= 2000.
Proof.
  destruct p as [x y]. unfold escaped. cbn [fst snd]. rewrite Z.ltb_ge. intros H.
  pose proof (sq_nonneg x). pose proof (sq_nonneg y).
  assert (forall z, sq z <= 4000 -> -2000 <= z <= 2000) as Hz.
  { intros z Hz. unfold sq in Hz. rewrite Z.quot_div_nonneg in Hz by nia.
    assert (z * z < 4001 * 1000); [|nia]. clear - Hz. zarith. }
  split; apply Hz; lia.
Qed.

Definition near (x0 y0 : Z) : Prop := -2500 <= x0 <= 2500 /\ -2500 <= y0 <= 2500.

Lemma quot_bound a b c : 0 < c -> - b <= a <= b -> - (Z.quot b c) <= Z.quot a c <= Z.quot b c.
Proof.
  intros Hc Ha. split; [|apply Z.quot_le_mono; lia].
  rewrite <- Z.quot_opp_l by lia. apply Z.quot_le_mono; lia.
Qed.

(** What the loop computes of a point of the orbit fits. *)
Lemma point_fits p : -7000 <= fst p <= 7000 -> -11000 <= snd p <= 11000 ->
  is_s32 (fst p * fst p) /\ is_s32 (snd p * snd p) /\ is_s32 (sq (fst p) + sq (snd p)).
Proof.
  destruct p as [x y]. cbn [fst snd]. intros Hx Hy. pose proof (sq_nonneg x). pose proof (sq_nonneg y).
  assert (0 <= x * x <= 49000000 /\ 0 <= y * y <= 121000000) as [Hxx Hyy] by nia.
  assert (sq x <= Z.quot 49000000 1000 /\ sq y <= Z.quot 121000000 1000) as [Hx2 Hy2]
    by (split; apply Z.quot_le_mono; lia).
  change (Z.quot 49000000 1000) with 49000 in *. change (Z.quot 121000000 1000) with 121000 in *.
  unfold is_s32. lia.
Qed.

Lemma next_fits x0 y0 p : near x0 y0 -> escaped p = false ->
  let x := fst p in let y := snd p in
  is_s32 (2 * x) /\ is_s32 (2 * x * y) /\ is_s32 (Z.quot (2 * x * y) 1000 + y0) /\
  is_s32 (sq x - sq y) /\ is_s32 (sq x - sq y + x0) /\
  -7000 <= fst (next_point x0 y0 p) <= 7000 /\ -11000 <= snd (next_point x0 y0 p) <= 11000.
Proof.
  intros [Hx0 Hy0] He. destruct (not_escaped p He) as [Hx Hy]. destruct p as [x y].
  unfold escaped in He. cbn [fst snd next_point] in *. apply Z.ltb_ge in He.
  pose proof (sq_nonneg x). pose proof (sq_nonneg y). cbv zeta.
  assert (-8000000 <= 2 * x * y <= 8000000) as Hxy by nia.
  pose proof (quot_bound (2 * x * y) 8000000 1000 ltac:(lia) Hxy) as Hq.
  change (Z.quot 8000000 1000) with 8000 in Hq. unfold is_s32. lia.
Qed.

Section facts.
Context {S : Type}.

Lemma iterate_ok (limit : nat) x0 y0 (s : S) : near x0 y0 -> Z.of_nat limit <= 2 ^ 30 ->
  iterate (Z.of_nat limit) x0 y0 s = Ok (option_map Z.of_nat (escape_time x0 y0 limit)) s.
Proof.
  intros Hn Hl. unfold iterate. name_body body.
  enough (forall k i, (k + i = limit)%nat ->
    -7000 <= fst (orbit x0 y0 i) <= 7000 -> -11000 <= snd (orbit x0 y0 i) <= 11000 ->
    exists j, (j <= k)%nat /\ runs body j (Z.of_nat i, fst (orbit x0 y0 i), snd (orbit x0 y0 i)) s
      (Ok (option_map Z.of_nat (escape_from x0 y0 i k)) s)) as H.
  { destruct (H limit 0%nat) as (j & Hj & R); [lia|cbn; lia..|]. eapply loop_runs; [exact R|lia]. }
  induction k as [|k IH]; intros i Hi Hx Hy.
  - exists 0%nat. split; [lia|]. apply runs_done. unfold body. rewrite (proj2 (Z.ltb_ge _ _)) by lia. done.
  - destruct (point_fits (orbit x0 y0 i) Hx Hy) as (F1 & F2 & F3).
    assert (exists r, body (Z.of_nat i, fst (orbit x0 y0 i), snd (orbit x0 y0 i)) s = Ok r s /\
      r = if escaped (orbit x0 y0 i) then inr (Some (Z.of_nat i))
          else inl (Z.of_nat (Datatypes.S i), fst (orbit x0 y0 (Datatypes.S i)), snd (orbit x0 y0 (Datatypes.S i)))) as (r & E & Er).
    { eexists. split; [|reflexivity]. unfold body. rewrite (proj2 (Z.ltb_lt _ _)) by lia.
      rewrite (bind_ok _ _ _ _ _ (int32_ok _ s F1)), (bind_ok _ _ _ _ _ (int32_ok _ s F2)).
      cbv zeta. fold (sq (fst (orbit x0 y0 i))) (sq (snd (orbit x0 y0 i))).
      rewrite (bind_ok _ _ _ _ _ (int32_ok _ s F3)). rewrite Z.gtb_ltb. fold (escaped (orbit x0 y0 i)).
      destruct (escaped (orbit x0 y0 i)) eqn:Ee; [done|].
      destruct (next_fits x0 y0 _ Hn Ee) as (G1 & G2 & G3 & G4 & G5 & _).
      rewrite (bind_ok _ _ _ _ _ (int32_ok _ s G1)), (bind_ok _ _ _ _ _ (int32_ok _ s G2)),
        (bind_ok _ _ _ _ _ (int32_ok _ s G3)), (bind_ok _ _ _ _ _ (int32_ok _ s G4)),
        (bind_ok _ _ _ _ _ (int32_ok _ s G5)).
      rewrite (bind_ok _ _ _ _ _ (int32_ok (Z.of_nat i + 1) s ltac:(unfold is_s32; lia))).
      cbn [orbit]. destruct (orbit x0 y0 i) as [x y]. cbn [next_point fst snd].
      replace (Z.of_nat i + 1) with (Z.of_nat (Datatypes.S i)) by lia. done. }
    unfold escape_from. cbn [seq List.find]. destruct (escaped (orbit x0 y0 i)) eqn:Ee.
    + exists 0%nat. split; [lia|]. apply runs_done. by rewrite E, Er.
    + destruct (next_fits x0 y0 _ Hn Ee) as (_ & _ & _ & _ & _ & G6 & G7).
      destruct (IH (Datatypes.S i) ltac:(lia) G6 G7) as (j & Hj & R).
      exists (Datatypes.S j). split; [lia|]. eapply runs_step; [|exact R]. by rewrite E, Er.
Qed.
End facts.

(** ** The pictures *)

(** The colour of the point [(x0, y0)]. *)
Definition mandel_color (limit : nat) (x0 y0 : Z) : Z :=
  match escape_time x0 y0 limit with Some i => nth (Nat.min i 11) colors 0 | None => 0 end.

(** The point [render] computes for a pixel. *)
Definition point_x (gs : surface) (px : Z) : Z := -1250 + 1750 * px / width gs.
Definition point_y (gs : surface) (py : Z) : Z := 650 - 1300 * py / height gs.

Section pictures.
Context {S : Type} `{!HasMem S}.
Context (gs : surface) (m0 : mem) (Hgs : surface_ok gs m0).

(** Drawing does not depend on the colours of the surface. *)
Lemma draws_colors {A} fg bg (c : M S A) a f : draws (with_colors gs fg bg) c a f -> draws gs c a f.
Proof. intros H s Hs. exact (H s Hs). Qed.

Lemma draws_pure {A} (c : M S A) a : (forall s, c s = Ok a s) -> draws gs c a blank.
Proof. intros H s Hs. exists (mem_of s). rewrite H, with_mem_of. split; [done|by apply paints_refl]. Qed.

Lemma draws_after {A B} (c : M S A) (k : A -> M S B) a b f :
  (forall s, c s = Ok a s) -> draws gs (k a) b f -> draws gs (bind c k) b f.
Proof. intros Hc Hk s Hs. destruct (Hk s Hs) as (m & E & P). exists m. by rewrite (bind_ok _ _ _ _ _ (Hc s)). Qed.

Lemma surface_colors fg bg : surface_ok (with_colors gs fg bg) m0.
Proof. exact Hgs. Qed.

Lemma plot_point_draws limit x0 y0 px py : near x0 y0 -> Z.of_nat limit <= 2 ^ 30 -> 0 <= px -> 0 <= py ->
  draws gs (plot_point (Z.of_nat limit) gs x0 y0 px py) tt (rect px py (px + 1) (py + 1) (mandel_color limit x0 y0)).
Proof.
  intros Hn Hl Hx Hy. unfold plot_point. eapply draws_after; [intros s; by apply iterate_ok|].
  pose proof Hgs as (Hp & _). unfold mandel_color, gfx_plot, call_plot.
  destruct (escape_time x0 y0 limit) as [i|]; cbn [option_map with_colors fgcolor plot]; rewrite Hp.
  - replace (Z.to_nat (if Z.of_nat i >? 11 then 11 else Z.of_nat i)) with (Nat.min i 11)
      by (destruct (Z.gtb_spec (Z.of_nat i) 11); lia).
    eapply draws_colors. by apply (plot16_draws _ m0 (surface_colors _ _)).
  - eapply draws_colors. by apply (plot16_draws _ m0 (surface_colors _ _)).
Qed.

(** A loop over the pixels of a row, or over rows. *)
Lemma cols_loop (body : Z -> M S (Z + unit)) a b y g : a <= b -> b < 2 ^ 31 ->
  (forall x, a <= x < b -> draws gs (body x) (inl (x + 1)) (rect x y (x + 1) (y + 1) (g x y))) ->
  draws gs (body b) (inr tt) blank -> 0 <= a ->
  draws gs (loop body a) tt (region a y b (y + 1) g).
Proof.
  intros Hab Hb Hstep Hend Ha. set (n := Z.to_nat (b - a)).
  eapply draws_ext.
  - replace a with (a + Z.of_nat 0) at 1 by lia.
    apply (draws_loop _ body n (fun i => a + Z.of_nat i) tt (fun i => region (a + Z.of_nat i) y (a + Z.of_nat i + 1) (y + 1) g)); [| |lia].
    + intros i Hi. replace (a + Z.of_nat (Datatypes.S i)) with (a + Z.of_nat i + 1) by lia.
      eapply draws_ext; [apply Hstep; lia|]. intros px py _. unfold rect, region. case_decide; [|done].
      by replace px with (a + Z.of_nat i) by lia; replace py with y by lia.
    + by replace (a + Z.of_nat n) with b by lia.
  - intros px py _. rewrite stack_cols. unfold region. replace (a + Z.of_nat n) with b by lia. done.
Qed.

Lemma rows_loop (body : Z -> M S (Z + unit)) a b x0 x1 g : a <= b -> b < 2 ^ 31 ->
  (forall y, a <= y < b -> draws gs (body y) (inl (y + 1)) (region x0 y x1 (y + 1) g)) ->
  draws gs (body b) (inr tt) blank -> 0 <= a ->
  draws gs (loop body a) tt (region x0 a x1 b g).
Proof.
  intros Hab Hb Hstep Hend Ha. set (n := Z.to_nat (b - a)).
  eapply draws_ext.
  - replace a with (a + Z.of_nat 0) at 1 by lia.
    apply (draws_loop _ body n (fun i => a + Z.of_nat i) tt (fun i => region x0 (a + Z.of_nat i) x1 (a + Z.of_nat i + 1) g)); [| |lia].
    + intros i Hi. replace (a + Z.of_nat (Datatypes.S i)) with (a + Z.of_nat i + 1) by lia. apply Hstep. lia.
    + by replace (a + Z.of_nat n) with b by lia.
  - intros px py _. rewrite stack_rows. unfold region. replace (a + Z.of_nat n) with b by lia. done.
Qed.

Lemma udiv_ok a b (s : S) : b <> 0 -> udiv a b s = Ok (a / b) s.
Proof. intros H. unfold udiv. by rewrite (proj2 (Z.eqb_neq _ _) H). Qed.

Lemma s32_of_u32 z : is_s32 z -> s32 (u32 z) = z.
Proof. unfold is_s32, s32, u32. intros H. zarith. Qed.

(** A surface of a size the products of [render] have room for. *)
Definition renderable : Prop := 0 < width gs /\ 1750 * width gs < 2 ^ 31 /\ 0 < height gs /\ 1300 * height gs < 2 ^ 31.
Context (Hr : renderable).

Lemma points_near px py : 0 <= px < width gs -> 0 <= py < height gs -> near (point_x gs px) (point_y gs py).
Proof.
  destruct Hr as (Hw & _ & Hh & _). intros Hx Hy. unfold near, point_x, point_y.
  assert (0 <= 1750 * px / width gs < 1750) by (split; [apply Z.div_pos; lia|apply Z.div_lt_upper_bound; nia]).
  assert (0 <= 1300 * py / height gs < 1300) by (split; [apply Z.div_pos; lia|apply Z.div_lt_upper_bound; nia]).
  lia.
Qed.

Definition mandel_picture (limit : nat) : Z -> Z -> Z := fun px py => mandel_color limit (point_x gs px) (point_y gs py).

Lemma render_row_draws px0 px1 py : 0 <= px0 <= px1 -> px1 <= width gs -> 0 <= py < height gs ->
  draws gs (render_row gs px0 px1 py) tt (region px0 py px1 (py + 1) (mandel_picture 500)).
Proof.
  intros Hx Hx1 Hy. pose proof Hr as (Hw & Hww & Hh & Hhh). unfold render_row.
  eapply draws_after; [intros s; apply int32_ok; unfold is_s32; lia|].
  rewrite (u32_small (1300 * py)) by (unfold is_u32; lia).
  eapply draws_after; [intros s; apply udiv_ok; lia|].
  assert (forall px, 0 <= px < width gs -> near (point_x gs px) (point_y gs py)) as Hn by (intros; by apply points_near).
  change (650 - 1300 * py / height gs) with (point_y gs py). cbv zeta.
  assert (0 < width gs) as Hw0 by lia. destruct (Hn 0 ltac:(lia)) as [_ Hyy].
  rewrite (s32_of_u32 (point_y gs py)) by (unfold is_s32; lia).
  rewrite (s32_small px0) by (unfold is_s32; lia).
  apply cols_loop; [lia|lia| | |lia].
  - intros px Hpx. rewrite (u32_small px) by (unfold is_u32; lia). rewrite (proj2 (Z.ltb_lt _ _)) by lia.
    eapply draws_after; [intros s; apply int32_ok; unfold is_s32; lia|].
    rewrite (u32_small (1750 * px)) by (unfold is_u32; lia).
    eapply draws_after; [intros s; apply udiv_ok; lia|].
    change (-1250 + 1750 * px / width gs) with (point_x gs px). cbv zeta.
    pose proof (Hn px ltac:(lia)) as Hnp. destruct Hnp as [Hxx Hyy'].
    rewrite (s32_of_u32 (point_x gs px)) by (unfold is_s32; lia).
    rewrite (u32_small py) by (unfold is_u32; lia).
    eapply draws_ext.
    { eapply draws_bind; [apply (plot_point_draws 500); [by split|lia..]|].
      eapply draws_after; [intros s; apply int32_ok; unfold is_s32; lia|]. apply draws_ret. }
    done.
  - rewrite (u32_small px1) by (unfold is_u32; lia). rewrite Z.ltb_irrefl. apply draws_ret.
Qed.

Lemma render_draws px0 py0 px1 py1 : 0 <= px0 <= px1 -> px1 <= width gs -> 0 <= py0 <= py1 -> py1 <= height gs ->
  draws gs (render gs px0 py0 px1 py1) 2 (region px0 py0 px1 py1 (mandel_picture 500)).
Proof.
  intros Hx Hx1 Hy Hy1. pose proof Hr as (Hw & Hww & Hh & Hhh). unfold render, render_rows.
  rewrite (s32_small py0) by (unfold is_s32; lia).
  apply (draws_then _ _ tt). apply rows_loop; [lia|lia| | |lia].
  - intros py Hpy. rewrite (u32_small py) by (unfold is_u32; lia). rewrite (proj2 (Z.ltb_lt _ _)) by lia.
    eapply draws_ext.
    { eapply draws_bind; [apply render_row_draws; lia|]. eapply draws_after; [done|].
      eapply draws_after; [intros s; apply int32_ok; unfold is_s32; lia|]. apply draws_ret. }
    done.
  - rewrite (u32_small py1) by (unfold is_u32; lia). rewrite Z.ltb_irrefl. apply draws_ret.
Qed.
End pictures.

(** What a thread's fill and label leave of its quadrant is covered by what it
    renders. *)
Section quadrants.
Context {S : Type} `{!HasMem S}.
Context (gs : surface) (rom : Z -> Z) (Hrom : forall i, is_u8 (rom i)) (Hr : renderable gs).

Lemma thread_draws x0 y0 x1 y1 c ly a l (s : S) :
  surface_ok gs (mem_of s) -> 0 <= x0 <= x1 -> x1 <= width gs -> 0 <= y0 <= y1 -> y1 <= height gs ->
  cstr_at (mem_of s) a l -> outside gs a (Z.of_nat (length l) + 1) ->
  x0 + 8 * Z.of_nat (length l) <= x1 -> y0 <= ly -> ly + 16 <= y1 ->
  exists m, (gfx_fill gs x0 y0 x1 y1 c ;; gfx_puts rom gs x0 ly a ;; render gs x0 y0 x1 y1) s = Ok 2 (with_mem m s) /\
    paints gs (region x0 y0 x1 y1 (mandel_picture gs 500)) (mem_of s) m.
Proof.
  intros Hs Hx Hx1 Hy Hy1 Hc Ho Hl Hly Hly1. pose proof Hr as (Hw & Hww & Hh & Hhh).
  destruct (gfx_fill_draws gs (mem_of s) Hs x0 y0 x1 y1 c ltac:(lia) ltac:(unfold is_u32; lia) ltac:(unfold is_u32; lia) s Hs)
    as (m1 & E1 & P1). step E1.
  assert (same_except (mem_of s) m1 (pixels gs) (2 * (stride gs * height gs))) as X1 by (by eapply paints_frame).
  assert (surface_ok gs m1) as Hs1 by (by eapply paints_ok).
  destruct (gfx_puts_ok gs (mem_of s) Hs rom Hrom l a x0 ly (with_mem m1 s)) as (m2 & E2 & P2);
    rewrite ?mem_of_with; [done| |done|lia..|].
  { destruct Hc as [Hb Hn]. split; [|done].
    apply bytes_at_lookup in Hb as [Hb Hb']. apply bytes_at_lookup. split; [done|].
    intros i Hi. rewrite X1; [by apply Hb'|]. rewrite length_app in Hi. cbn in Hi. unfold outside in Ho. lia. }
  rewrite mem_of_with, with_mem_with in *. step E2.
  assert (surface_ok gs m2) as Hs2 by (by eapply paints_ok).
  destruct (render_draws gs (mem_of s) Hs Hr x0 y0 x1 y1 Hx Hx1 Hy Hy1 (with_mem m2 s)) as (m3 & E3 & P3);
    [by rewrite mem_of_with|].
  rewrite mem_of_with, with_mem_with in *. exists m3. split; [exact E3|].
  eapply paints_ext; [exact (paints_trans gs (mem_of s) Hs _ _ _ _ _ P1 (paints_trans gs (mem_of s) Hs _ _ _ _ _ P2 P3))|].
  intros px py _. unfold over, rect, region. case_decide as D; [done|].
  destruct (label gs rom x0 ly l px py) as [v|] eqn:E; [|done].
  apply label_within in E. exfalso. lia.
Qed.
End quadrants.

Section fb.
Context {S : Type} `{!HasMem S} (gs : surface) (m0 : mem) (Hgs : surface_ok gs m0).

(** The picture of the frame buffer program. *)
Definition fb_picture (px py : Z) : Z :=
  mandel_color 1000 (-2500 + 3500 * px / 640) (1300 - 2600 * py / 480).

Lemma fb_rows_draws : draws (S := S) gs (fb_rows gs) tt (region 0 0 640 480 fb_picture).
Proof.
  assert (forall px, 0 <= px < 640 -> 0 <= 3500 * px / 640 < 3500) as Hx by (intros; zarith).
  assert (forall py, 0 <= py < 480 -> 0 <= 2600 * py / 480 < 2600) as Hy by (intros; zarith).
  unfold fb_rows. apply rows_loop; [lia|lia| |apply draws_ret|lia].
  intros py Hpy. rewrite (proj2 (Z.ltb_lt _ _)) by lia. specialize (Hy py Hpy).
  eapply draws_after; [intros s; apply int32_ok; unfold is_s32; lia|].
  rewrite Z.quot_div_nonneg by lia.
  eapply draws_after; [intros s; apply int32_ok; unfold is_s32; lia|].
  eapply draws_ext.
  { eapply draws_bind; [apply (cols_loop gs _ 0 640 py fb_picture); [lia|lia| |apply draws_ret|lia]|].
    - intros px Hpx. rewrite (proj2 (Z.ltb_lt _ _)) by lia. specialize (Hx px Hpx).
      eapply draws_after; [intros s; apply int32_ok; unfold is_s32; lia|].
      rewrite Z.quot_div_nonneg by lia.
      eapply draws_after; [intros s; apply int32_ok; unfold is_s32; lia|].
      rewrite (u32_small px), (u32_small py) by (unfold is_u32; lia).
      eapply draws_ext.
      { eapply draws_bind; [apply (plot_point_draws gs m0 Hgs 1000); [unfold near; lia|lia..]|].
        eapply draws_after; [intros s; apply int32_ok; unfold is_s32; lia|]. apply draws_ret. }
      done.
    - eapply draws_after; [intros s; apply int32_ok; unfold is_s32; lia|]. apply draws_ret. }
  done.
Qed.
End fb.

(** ** The text *)

Definition point_char (r : option nat) : Z :=
  match r with Some i => if (9 <? i)%nat then 64 else 48 + Z.of_nat i | None => 32 end.

Definition mandel_row (j : nat) : list Z :=
  map (fun i => point_char (escape_time (-2500 + 30 * Z.of_nat i) (1000 - 50 * Z.of_nat j) 1000)) (seq 0 117) ++ [10].
Definition mandel_text : list Z := concat (map mandel_row (seq 0 40)) ++ str "Hello, Mandlebrot!" ++ [10].

Section text.
Context {S : Type} `{!HasMem S} `{!HasUart S} `{!MemUart S}.

#[local] Opaque escape_time.

(** A loop that prints [ls i] in its [i]-th iteration. *)
Lemma prints_loop {X} (body : X -> M S (X + unit)) (n : nat) (xs : nat -> X) (ls : nat -> list Z) (s : S) :
  (forall i s, (i < n)%nat -> body (xs i) s = Ok (inl (xs (Datatypes.S i))) (emit (wire (ls i)) s)) ->
  (forall s, body (xs n) s = Ok (inr tt) s) -> Z.of_nat n < 2 ^ 33 ->
  loop body (xs 0%nat) s = Ok tt (emit (wire (concat (map ls (seq 0 n)))) s).
Proof.
  intros Hstep Hend Hn. apply (loop_runs _ n); [|done].
  enough (forall k i s, (i + k = n)%nat -> runs body k (xs i) s (Ok tt (emit (wire (concat (map ls (seq i k)))) s))) as H
    by (by apply H).
  induction k as [|k IH]; intros i s' Hi; cbn [seq map concat].
  - change (wire []) with (@nil Z). rewrite emit_nil. replace i with n by lia. by apply runs_done.
  - eapply runs_step; [apply Hstep; lia|]. rewrite wire_app, <- emit_emit. apply IH. lia.
Qed.

Lemma print_point_ok x0 y0 (s : S) : near x0 y0 ->
  print_point 1000 x0 y0 s = Ok tt (emit (wire [point_char (escape_time x0 y0 1000)]) s).
Proof.
  intros Hn. unfold print_point. rewrite (bind_ok _ _ _ _ _ (iterate_ok 1000 x0 y0 s Hn ltac:(lia))).
  assert (forall c, xputc c s = Ok tt (emit (wire [c]) s)) as Hc
    by (intros c; rewrite xputc_ok; unfold wire; cbn [map concat]; by rewrite app_nil_r).
  destruct (escape_time x0 y0 1000) as [i|]; cbn [option_map point_char]; rewrite Hc; [|done].
  do 4 f_equal. destruct (Z.gtb_spec (Z.of_nat i) 9), (Nat.ltb_spec 9 i); lia.
Qed.

Lemma text_row_ok j (s : S) : (j < 40)%nat ->
  loop (fun x0 =>
    if x0 <? 1000 then
      print_point 1000 x0 (1000 - 50 * Z.of_nat j) ;;
      x0 <- int32 (x0 + 30) ;;
      ret (inl x0)
    else ret (inr tt)) (-2500) s =
  Ok tt (emit (wire (map (fun i => point_char (escape_time (-2500 + 30 * Z.of_nat i) (1000 - 50 * Z.of_nat j) 1000)) (seq 0 117))) s).
Proof.
  intros Hj. pose proof (prints_loop (fun x0 => if x0 <? 1000 then
      print_point 1000 x0 (1000 - 50 * Z.of_nat j) ;; x0 <- int32 (x0 + 30) ;; ret (inl x0) else ret (inr tt)) 117
    (fun i => -2500 + 30 * Z.of_nat i)
    (fun i => [point_char (escape_time (-2500 + 30 * Z.of_nat i) (1000 - 50 * Z.of_nat j) 1000)]) s) as H.
  rewrite <- flat_map_concat_map in H. etransitivity; [apply H; [intros i s' Hi|done|done]|].
  2: reflexivity.
  rewrite (proj2 (Z.ltb_lt _ _)) by lia. 
  rewrite (bind_ok _ _ _ _ _ (print_point_ok (-2500 + 30 * Z.of_nat i) (1000 - 50 * Z.of_nat j) s' ltac:(unfold near; lia))).
  rewrite (bind_ok _ _ _ _ _ (int32_ok (-2500 + 30 * Z.of_nat i + 30) _ ltac:(unfold is_s32; lia))).
  unfold ret. do 2 f_equal. lia.
Qed.

Lemma hello_ok (s : S) :
  xprintf (str "Hello, Mandlebrot!" ++ [10]) [] s = Ok tt (emit (wire (str "Hello, Mandlebrot!" ++ [10])) s).
Proof.
  set (l := str "Hello, Mandlebrot!" ++ [10]). unfold xprintf. pose proof (vxprintf_ok [] l [] l s) as H.
  rewrite printed_short in H by by_decide. apply H; by_decide.
Qed.

Lemma text_start_ok (s : S) : text_start s = Ok tt (emit (wire mandel_text) s).
Proof.
  unfold text_start. set (body := fun y0 : Z => _).
  assert (loop body 1000 s = Ok tt (emit (wire (concat (map mandel_row (seq 0 40)))) s)) as E.
  { apply (prints_loop body 40 (fun j => 1000 - 50 * Z.of_nat j) mandel_row s); [|done|done].
    intros j s' Hj. unfold body. rewrite Z.gtb_ltb, (proj2 (Z.ltb_lt _ _)) by lia.
    rewrite (bind_ok _ _ _ _ _ (text_row_ok j s' Hj)). rewrite (bind_ok _ _ _ _ _ (xputc_ok 10 _)), emit_emit.
    rewrite (bind_ok _ _ _ _ _ (int32_ok (1000 - 50 * Z.of_nat j - 50) _ ltac:(unfold is_s32; lia))). 
    change (wire1 10) with (wire [10]). rewrite <- wire_app.
    replace (1000 - 50 * Z.of_nat (Datatypes.S j)) with (1000 - 50 * Z.of_nat j - 50) by lia. reflexivity. }
  step E. clear E body. unfold mandel_text. rewrite wire_app, <- emit_emit. apply hello_ok.
Qed.
End text.

(** ** The theorems *)

(** C32: the text program prints, character by character, the picture of the
    recurrence on unbounded integers: no computation of the program overflows,
    every point of its 40 rows of 117 is one of the ten digits, [@] or a blank
    according to the first index at which the orbit leaves the circle, and it
    terminates whatever the transmitter's stalls. *)
Theorem text_start_prints {S} `{MemUart S} (s : S) : text_start s = Ok tt (emit (wire mandel_text) s).
Proof. apply text_start_ok. Qed.

Lemma text_start_prints_witness :
  text_start (mem_lit 0 [7], {| u_stalls := [4; 0; 9]; u_out := [] |}) =
  Ok tt (emit (wire mandel_text) (mem_lit 0 [7], {| u_stalls := [4; 0; 9]; u_out := [] |})).
Proof. apply (text_start_prints (S := mem * uart)). Defined.

(** Each of the four threads draws exactly its quadrant of the picture: every
    pixel of it gets the colour of its point on unbounded integers, whatever
    the thread's fill and label left there, no other pixel and no other byte of
    memory changes, and the thread returns 2. *)
Theorem quadrant_rendered {S} `{HasMem S} gs rom lit t x y name (s : S) :
  surface_ok gs (mem_of s) -> width gs = 640 -> height gs = 480 -> (forall i, is_u8 (rom i)) ->
  In (t, x, y, name) [(t1 rom lit gs, 0, 0, str "Thread One"); (t2 rom lit gs, 320, 240, str "Thread Two");
                      (t3 rom lit gs, 320, 0, str "Thread Three"); (t4 rom lit gs, 0, 240, str "Thread Four")] ->
  cstr_at (mem_of s) (lit name) name -> outside gs (lit name) (Z.of_nat (length name) + 1) ->
  exists m, t s = Ok 2 (with_mem m s) /\
    paints gs (region x y (x + 320) (y + 240) (fun px py =>
      mandel_color 500 (-1250 + 1750 * px / 640) (650 - 1300 * py / 480))) (mem_of s) m.
Proof.
  intros Hs Hw Hh Hrom Hin Hc Ho.
  assert (renderable gs) as Hr by (unfold renderable; lia).
  assert (forall x0 y0 c ly, 0 <= x0 -> x0 + 320 <= 640 -> 0 <= y0 -> y0 + 240 <= 480 ->
    8 * Z.of_nat (length name) <= 320 -> y0 <= ly -> ly + 16 <= y0 + 240 ->
    exists m, (gfx_fill gs x0 y0 (x0 + 320) (y0 + 240) c ;; gfx_puts rom gs x0 ly (lit name) ;;
      render gs x0 y0 (x0 + 320) (y0 + 240)) s = Ok 2 (with_mem m s) /\
      paints gs (region x0 y0 (x0 + 320) (y0 + 240) (fun px py =>
        mandel_color 500 (-1250 + 1750 * px / 640) (650 - 1300 * py / 480))) (mem_of s) m) as Ht.
  { intros x0 y0 c ly H1 H2 H3 H4 H5 H6 H7.
    destruct (thread_draws gs rom Hrom Hr x0 y0 (x0 + 320) (y0 + 240) c ly (lit name) name s) as (m & E & P);
      [done|lia|lia|lia|lia|done|done|lia|lia|lia|].
    exists m. split; [exact E|]. eapply paints_ext; [exact P|]. intros px py _. unfold region. case_decide; [|done].
    unfold mandel_picture, point_x, point_y. by rewrite Hw, Hh. }
  cbn [In] in Hin. destruct Hin as [Hin|[Hin|[Hin|[Hin|[]]]]]; injection Hin as <- <- <- <-;
    refine (Ht _ _ _ _ _ _ _ _ _ _ _); by_decide.
Qed.

(** The strings of the threads, and a display. *)
Definition demo_names : list Z := str "Thread One" ++ [0] ++ str "Thread Two" ++ [0].
Definition demo_lit (l : list Z) : Z := if decide (l = str "Thread One") then 0x100 else 0x10b.
Definition demo_display : surface :=
  gfx_init_display {| width := 0; height := 0; stride := 0; pixels := 0; pixfmt := 0; fgcolor := 0; bgcolor := 0;
    reserved := 0; plot := Fn0; hline := Fn0; putc := Fn0; color := Fn0 |}.
Definition demo_ram : mem :=
  write_bytes (mem_lit FRAMEBUFFER_BASE (replicate (Z.to_nat (2 * (640 * 480))) 0)) 0x100 demo_names.

Lemma quadrant_rendered_witness :
  exists m, t2 (fun i => u8 i) demo_lit demo_display demo_ram = Ok 2 m /\
    pixel m demo_display 320 240 = 0x0000 /\ pixel m demo_display 639 240 = 0x6666.
Proof.
  destruct (quadrant_rendered demo_display (fun i => u8 i) demo_lit (t2 (fun i => u8 i) demo_lit demo_display)
    320 240 (str "Thread Two") demo_ram) as (m & E & (P & _)).
  - unfold surface_ok. do 9 (split; [by_decide|]). apply mapped_write, mapped_mem_lit; [done|]. rewrite length_replicate, Z2Nat.id by lia. by_decide.
  - done.
  - done.
  - intros i. apply u8_range.
  - right. by left.
  - split; [|by_decide]. assert (bytes demo_names) as Hb by by_decide.
    pose proof (bytes_at_write (mem_lit FRAMEBUFFER_BASE (replicate (Z.to_nat (2 * (640 * 480))) 0)) 0x100 demo_names Hb) as H.
    unfold demo_names in H at 2. rewrite app_assoc in H. apply bytes_at_app in H as [_ H].
    assert (demo_lit (str "Thread Two") = 0x100 + Z.of_nat (length (str "Thread One" ++ [0]))) as -> by by_decide.
    exact H.
  - left. by_decide.
  - exists m. split; [exact E|]. split.
    + rewrite (P 320 240 (mandel_color 500 (-1250 + 1750 * 320 / 640) (650 - 1300 * 240 / 480))) by by_decide. by_decide.
    + rewrite (P 639 240 (mandel_color 500 (-1250 + 1750 * 639 / 640) (650 - 1300 * 240 / 480))) by by_decide. by_decide.
Defined.
