(* ===== verification/Client.v ===== *)
(** * The network boot client (tools/netboot.c)

    The host side of the boot protocol: [send_msg] sends one message and waits
    for the loader's status, up to five times; [send_file] sends a file in
    blocks.  The operating system is the class [Os]: what [read], [write],
    [poll], [open] and [close] return is up to it.

    The specification puts a network and a loader below it.  [BootNode] is what
    the client relies on from the loader; [net] is a network that may lose a
    message, lose its answer, or deliver the answer after the client has
    stopped waiting, as [fate] says for each message sent. *)

From S2P Require Import Prelude Monad Hw Mem LibcMem LibcStr Uart Printf Net Netboot.

(** ** The operating system *)

(** [os_read] is [None] where [read] returns -1. *)
Class Os (W : Type) := {
  os_write : Z -> list Z -> W -> Z * W;
  os_poll : Z -> Z -> W -> Z * W;
  os_read : Z -> Z -> W -> option (list Z) * W;
  os_open : list Z -> W -> Z * W;
  os_close : Z -> W -> W;
}.

(** The client: the file-scope [seq], what it has written to [stderr], and the
    operating system. *)
(* src/tools/netboot.c:62-62 seq *)
Record client (W : Type) := { seq : Z; err : list Z; os : W }.
Arguments seq {W}. Arguments err {W}. Arguments os {W}.

(* src/tools/netboot.h:35-44 netboot_msg_t *)
Record netboot_msg := { magic : Z; cmd : Z; mseq : Z; arg : Z; db : list Z }.

Definition msg_bytes (m : netboot_msg) : list Z :=
  le32 (magic m) ++ le32 (cmd m) ++ le32 (mseq m) ++ le32 (arg m) ++ db m.

(** The word at an offset of a received message. *)
Definition field (l : list Z) (o : nat) : Z := le_val (take 4 (drop o l)).

Section code.
Context {W : Type} `{!Os W}.

Definition sys {A} (f : W -> A * W) : M (client W) A := fun s =>
  let '(a, w) := f (os s) in Ok a {| seq := seq s; err := err s; os := w |}.

Definition fprintf (l : list Z) : M (client W) unit :=
  modify (fun s => {| seq := seq s; err := err s ++ l; os := os s |}).

Definition next_seq : M (client W) Z :=
  modify (fun s => {| seq := u32 (seq s + 1); err := err s; os := os s |}) ;; gets seq.

Definition with_mseq (q : Z) (m : netboot_msg) : netboot_msg :=
  {| magic := magic m; cmd := cmd m; mseq := q; arg := arg m; db := db m |}.

(** What the client makes of a datagram: its mark, and the result, if it is
    done. *)
(* src/tools/netboot.c:157-170 send_msg *)
Definition judge (q : Z) (r : option (list Z)) : Z * option Z :=
  match r with
  | Some l =>
    if (Z.of_nat (length l) <? NB_MSG_MIN) || negb (field l 0 =? NB_MAGIC) || negb (field l 4 =? NB_CMD_STATUS)
    then (88, None)
    else if negb (field l 8 =? q) then (83, None)
    else if negb (field l 12 =? NB_OK) then (69, Some (-1))
    else (46, Some 0)
  | None => (88, None)
  end.

(** One try; the structure [msg] points to comes back. *)
(* src/tools/netboot.c:142-171 send_msg *)
Definition send_try (s len : Z) : Z * netboot_msg -> M (client W) (Z * netboot_msg + Z * netboot_msg) :=
  fun '(retry, msg) =>
    if retry <? 5 then
      q <- next_seq ;;
      let msg := with_mseq q msg in
      r <- sys (os_write s (take (Z.to_nat len) (msg_bytes msg))) ;;
      if negb (u32 r =? len) then ret (inr (-1, msg))
      else
        p <- sys (os_poll s 250) ;;
        if negb (p =? 1) then fprintf [84] ;; ret (inl (retry + 1, msg))
        else
          r <- sys (os_read s 1040) ;;
          q <- gets seq ;;
          let '(mark, res) := judge q r in
          fprintf [mark] ;;
          match res with
          | Some v => ret (inr (v, msg))
          | None => ret (inl (retry + 1, msg))
          end
    else ret (inr (-1, msg)).

(* src/tools/netboot.c:140-173 *)
Definition send_msg (s : Z) (msg : netboot_msg) (len : Z) : M (client W) (Z * netboot_msg) :=
  loop (send_try s len) (0, msg).

(** The next block of the file. *)
(* src/tools/netboot.c:188-199 send_file *)
Definition send_block (s fd : Z) : Z * netboot_msg -> M (client W) (Z * netboot_msg + Z) :=
  fun '(addr, msg) =>
    r <- sys (os_read fd NB_DATA_MAX) ;;
    match r with
    | None => sys (fun w => (tt, os_close fd w)) ;; ret (inr (-1))
    | Some [] => sys (fun w => (tt, os_close fd w)) ;; ret (inr 0)
    | Some l =>
      let msg := {| magic := magic msg; cmd := cmd msg; mseq := mseq msg; arg := addr;
                    db := l ++ drop (length l) (db msg) |} in
      let len := Z.of_nat (length l) in
      let* (r, msg) := send_msg s msg (len + NB_MSG_MIN) in
      if negb (r =? 0) then sys (fun w => (tt, os_close fd w)) ;; ret (inr (-1))
      else ret (inl (u32 (addr + len), msg))
    end.

(** [seq0], [arg0] and [db0] are what the uninitialised [msg] holds. *)
(* src/tools/netboot.c:175-200 *)
Definition send_file (seq0 arg0 : Z) (db0 : list Z) (s : Z) (fn : list Z) (addr : Z) : M (client W) Z :=
  let msg := {| magic := NB_MAGIC; cmd := NB_CMD_WRITE; mseq := seq0; arg := arg0; db := db0 |} in
  fd <- sys (os_open fn) ;;
  if fd <? 0 then
    fprintf (str "error: cannot open '" ++ fn ++ str "'" ++ [10]) ;;
    ret (-1)
  else
    fprintf ([10] ++ str "[ sending '" ++ fn ++ str "' to 0x" ++ justify false true 8 [] (hex false addr) ++
             str " ]" ++ [10]) ;;
    loop (send_block s fd) (addr, msg).
End code.

(** ** The loader and the network *)

Definition status_msg (q : Z) : list Z := message NB_CMD_STATUS (le32 q) NB_OK [].

(** An IPv6 socket address: [port] in host order, the sixteen bytes of the
    address, the interface. *)
Record sockaddr := { sa_port : Z; sa_ip : list Z; sa_scope : Z }.

#[export] Instance sockaddr_eq_dec : EqDecision sockaddr.
Proof. solve_decision. Defined.

(** A loader with a memory, at an address of its link.  [receive ip port l] is
    what it makes of a datagram with the contents [l] that is sent to [ip] and
    [port] on the link, and the datagrams it sends back: the port each comes
    from, and its contents.  What WRITE asks for on its control port, it does,
    and says so from there. *)
Class BootNode (D : Type) := {
  node_ram : D -> mem;
  node_ip : D -> list Z;
  node_ok : D -> Prop;
  receive : list Z -> Z -> list Z -> D -> D * list (Z * list Z);
  serve_write d q addr db : node_ok d -> is_u32 q -> is_u32 addr -> bytes db -> (length db <= 1024)%nat ->
    mapped (node_ram d) addr (Z.of_nat (length db)) ->
    exists d', receive (node_ip d) NB_PORT_CTRL (message NB_CMD_WRITE (le32 q) addr db) d =
        (d', [(NB_PORT_CTRL, status_msg q)]) /\
      node_ram d' = write_bytes (node_ram d) addr db /\ node_ok d' /\ node_ip d' = node_ip d;
}.

(** What happens to a message: it does not arrive, its answer does not, its
    answer arrives too late, or all is well. *)
Inductive fate : Type := Lost | NoAnswer | Late | Answered.

(** [fates n] is the fate of message [n], [n_count] the number of messages sent;
    [n_queue] are the datagrams at the client's socket - the port of the node
    they come from, and the contents -, [n_late] those still under way when the
    client stops waiting.  [n_link] is the client's interface on the node's link,
    [n_conn] where each connected socket is connected to.  [n_files] are the
    files of the host: the pieces [read] returns; [n_clock] is its clock in
    milliseconds and [n_socks] the number of sockets it has opened. *)
Record net (D : Type) := {
  n_dev : D; n_queue : list (Z * list Z); n_late : list (Z * list Z); n_link : Z; n_conn : gmap Z sockaddr;
  n_count : nat; fates : nat -> fate;
  n_files : list (list Z * list (list Z)); n_open : list (list Z);
  n_clock : Z; n_socks : nat;
}.
Arguments n_link {D}. Arguments n_conn {D}.
Arguments n_dev {D}. Arguments n_queue {D}. Arguments n_late {D}. Arguments n_count {D}. Arguments fates {D}.
Arguments n_files {D}. Arguments n_open {D}. Arguments n_clock {D}. Arguments n_socks {D}.

Section network.
Context {D : Type} `{!BootNode D}.

(** The node's control port, for the client. *)
Definition node_addr (w : net D) : sockaddr :=
  {| sa_port := NB_PORT_CTRL; sa_ip := node_ip (n_dev w); sa_scope := n_link w |}.

(** A connected socket hears only its peer. *)
Definition hears (peer : option sockaddr) (w : net D) (m : Z * list Z) : Prop :=
  match peer with
  | None => True
  | Some p => p = {| sa_port := m.1; sa_ip := node_ip (n_dev w); sa_scope := n_link w |}
  end.

#[export] Instance hears_dec peer w m : Decision (hears peer w m).
Proof. destruct peer; cbn; apply _. Defined.

(** A message sent: the node would be [d] and answer this. *)
Definition arrive (d : D) (answers : list (Z * list Z)) (w : net D) : net D :=
  let put d q l := {| n_dev := d; n_queue := n_queue w ++ q; n_late := n_late w ++ l; n_link := n_link w;
    n_conn := n_conn w; n_count := S (n_count w);
    fates := fates w; n_files := n_files w; n_open := n_open w; n_clock := n_clock w; n_socks := n_socks w |} in
  match fates w (n_count w) with
  | Lost => put (n_dev w) [] []
  | NoAnswer => put d [] []
  | Late => put d [] answers
  | Answered => put d answers []
  end.

(** A message to [a] from a socket connected to [peer]; on another interface
    there is nobody. *)
Definition deliver_to (a : sockaddr) (peer : option sockaddr) (buf : list Z) (w : net D) : net D :=
  let '(d, answers) :=
    if decide (sa_scope a = n_link w) then receive (sa_ip a) (sa_port a) buf (n_dev w) else (n_dev w, []) in
  arrive d (filter (hears peer w) answers) w.

(** To the node, from a socket connected to it. *)
Definition deliver (buf : list Z) (w : net D) : net D := deliver_to (node_addr w) (Some (node_addr w)) buf w.

Lemma deliver_answers buf w d l : receive (node_ip (n_dev w)) NB_PORT_CTRL buf (n_dev w) = (d, [(NB_PORT_CTRL, l)]) ->
  deliver buf w = arrive d [(NB_PORT_CTRL, l)] w.
Proof.
  intros E. unfold deliver, deliver_to. rewrite decide_True by done. cbn [sa_ip sa_port node_addr]. rewrite E.
  by rewrite filter_cons, decide_True, filter_nil by done.
Qed.

Definition with_queue (q l : list (Z * list Z)) (w : net D) : net D :=
  {| n_dev := n_dev w; n_queue := q; n_late := l; n_link := n_link w; n_conn := n_conn w; n_count := n_count w; fates := fates w;
     n_files := n_files w; n_open := n_open w; n_clock := n_clock w; n_socks := n_socks w |}.

(** A wait of [t] milliseconds that finds nothing ends when the late answers
    are there. *)
Definition waited (t : Z) (w : net D) : net D :=
  {| n_dev := n_dev w; n_queue := n_late w; n_late := []; n_link := n_link w; n_conn := n_conn w; n_count := n_count w; fates := fates w;
     n_files := n_files w; n_open := n_open w; n_clock := n_clock w + t; n_socks := n_socks w |}.

Definition with_open (o : list (list Z)) (w : net D) : net D :=
  {| n_dev := n_dev w; n_queue := n_queue w; n_late := n_late w; n_link := n_link w; n_conn := n_conn w; n_count := n_count w; fates := fates w;
     n_files := n_files w; n_open := o; n_clock := n_clock w; n_socks := n_socks w |}.

Definition FILE_FD := 3.
Definition SOCK_FD := 4.

Fixpoint find_file (fs : list (list Z * list (list Z))) (fn : list Z) : option (list (list Z)) :=
  match fs with
  | [] => None
  | (n, l) :: fs' => if decide (n = fn) then Some l else find_file fs' fn
  end.

#[export] Instance net_os : Os (net D) := {|
  os_write fd buf w :=
    match n_conn w !! fd with Some a => (Z.of_nat (length buf), deliver_to a (Some a) buf w) | None => (-1, w) end;
  os_poll fd timeout w :=
    match n_queue w with [] => (0, waited timeout w) | _ :: _ => (1, w) end;
  os_read fd n w :=
    if fd =? FILE_FD then
      match n_open w with l :: o => (Some l, with_open o w) | [] => (Some [], w) end
    else
      match n_queue w with m :: q => (Some m.2, with_queue q (n_late w) w) | [] => (None, w) end;
  os_open fn w := match find_file (n_files w) fn with Some l => (FILE_FD, with_open l w) | None => (-1, w) end;
  os_close fd w := with_open [] w;
|}.

Lemma write_wired fd buf w : n_conn w !! fd = Some (node_addr w) ->
  os_write fd buf w = (Z.of_nat (length buf), deliver buf w).
Proof. intros E. unfold os_write, net_os. by rewrite E. Qed.
End network.

(** The loader's status, as it arrives. *)
Definition status_dg (q : Z) : Z * list Z := (NB_PORT_CTRL, status_msg q).

(** ** One turn of [send_msg] *)

Lemma field_at (a b c : list Z) o : o = length a -> length b = 4%nat -> field (a ++ b ++ c) o = le_val b.
Proof. intros -> Hb. unfold field. by rewrite drop_app_length, <- Hb, take_app_length. Qed.

Lemma judge_status q q' : is_u32 q' ->
  judge q (Some (status_msg q')) = if q' =? q then (46, Some 0) else (83, None).
Proof.
  intros Hq. unfold judge, status_msg. rewrite length_message by done. cbn [length Nat.add].
  change (Z.of_nat 16 <? NB_MSG_MIN) with false. unfold message.
  set (f1 := le32 NB_MAGIC). set (f2 := le32 NB_CMD_STATUS). set (f3 := le32 q'). set (f4 := le32 NB_OK).
  assert (field (f1 ++ f2 ++ f3 ++ f4 ++ []) 0 = le_val f1) as -> by exact (field_at [] f1 _ 0 eq_refl eq_refl).
  assert (field (f1 ++ f2 ++ f3 ++ f4 ++ []) 4 = le_val f2) as -> by exact (field_at f1 f2 _ 4 eq_refl eq_refl).
  assert (field (f1 ++ f2 ++ f3 ++ f4 ++ []) 8 = le_val f3) as -> by exact (field_at (f1 ++ f2) f3 _ 8 eq_refl eq_refl).
  assert (field (f1 ++ f2 ++ f3 ++ f4 ++ []) 12 = le_val f4) as -> by exact (field_at (f1 ++ f2 ++ f3) f4 [] 12 eq_refl eq_refl).
  change (le_val f1 =? NB_MAGIC) with true. change (le_val f2 =? NB_CMD_STATUS) with true. unfold f3.
  rewrite (le32_val q' Hq). change (le_val f4 =? NB_OK) with true. cbn [orb negb].
  by destruct (q' =? q).
Qed.

Definition write_msg (q addr : Z) (blk rest : list Z) : netboot_msg :=
  {| magic := NB_MAGIC; cmd := NB_CMD_WRITE; mseq := q; arg := addr; db := blk ++ rest |}.

Lemma take_msg q addr blk rest :
  take (16 + length blk) (msg_bytes (write_msg q addr blk rest)) = message NB_CMD_WRITE (le32 q) addr blk.
Proof.
  unfold msg_bytes, write_msg, message. cbn [magic cmd mseq arg db].
  rewrite !app_assoc. rewrite take_app_le by (rewrite !length_app; cbn; lia).
  apply take_ge. rewrite !length_app. cbn. lia.
Qed.

Section delivery.
Context {D : Type} `{!BootNode D} (sock : Z) (Hsock : sock <> FILE_FD).

Definition client_at (q : Z) (e : list Z) (w : net D) : client (net D) := {| seq := q; err := e; os := w |}.

(** What a try does, from what is at the socket after the message is sent. *)
Definition turn (retry addr : Z) (blk rest : list Z) (s : client (net D)) :
    (Z * netboot_msg + Z * netboot_msg) * client (net D) :=
  let q := u32 (seq s + 1) in
  let w := deliver (message NB_CMD_WRITE (le32 q) addr blk) (os s) in
  let m := write_msg q addr blk rest in
  match n_queue w with
  | [] => (inl (retry + 1, m), client_at q (err s ++ [84]) (waited 250 w))
  | l :: ls =>
    let '(mark, res) := judge q (Some l.2) in
    (match res with Some v => inr (v, m) | None => inl (retry + 1, m) end,
     client_at q (err s ++ [mark]) (with_queue ls (n_late w) w))
  end.

Definition wired (s : client (net D)) : Prop := n_conn (os s) !! sock = Some (node_addr (os s)).

Lemma send_turn retry q0 addr blk rest (s : client (net D)) : retry < 5 -> (length blk <= 1024)%nat -> wired s ->
  send_try sock (Z.of_nat (length blk) + NB_MSG_MIN) (retry, write_msg q0 addr blk rest) s =
  Ok (turn retry addr blk rest s).1 (turn retry addr blk rest s).2.
Proof.
  intros Hr Hb Hwired. unfold send_try. rewrite (proj2 (Z.ltb_lt _ _)) by done. set (q := u32 (seq s + 1)).
  rewrite (bind_ok next_seq _ s q (client_at q (err s) (os s))) by done. cbv zeta.
  change (with_mseq q (write_msg q0 addr blk rest)) with (write_msg q addr blk rest).
  replace (Z.to_nat (Z.of_nat (length blk) + NB_MSG_MIN)) with (16 + length blk)%nat by (unfold NB_MSG_MIN; lia).
  rewrite take_msg. set (msg := message _ _ _ _). set (w := deliver msg (os s)).
  assert (length msg = 16 + length blk)%nat as Lm by (by apply length_message).
  rewrite (bind_ok (sys _) _ _ (Z.of_nat (length msg)) (client_at q (err s) w))
    by (unfold sys; cbn [client_at os]; by rewrite write_wired).
  rewrite Lm, u32_small by (unfold is_u32; lia). rewrite (proj2 (Z.eqb_eq _ _)) by (unfold NB_MSG_MIN; lia).
  cbn [negb]. unfold turn. fold q msg w. unfold sys, bind at 1. cbn [client_at os os_poll net_os seq err].
  destruct (n_queue w) as [|l ls] eqn:Eq; [done|]. change (negb (1 =? 1)) with false. cbn iota.
  unfold sys, bind at 1. cbn [client_at os os_read net_os seq err]. rewrite (proj2 (Z.eqb_neq _ _) Hsock), Eq.
  unfold gets, bind at 1. cbn [seq]. destruct (judge q (Some l.2)) as [mark [v|]]; done.
Qed.

(** ** The invariant of a conversation *)

(** A status the loader may have sent since the conversation began with
    sequence number [q0], [n] messages ago. *)
Definition answer_to (q0 : Z) (n : nat) (l : Z * list Z) : Prop :=
  exists i, (1 <= i <= n)%nat /\ l = status_dg (u32 (q0 + Z.of_nat i)).

(** [n] messages into the conversation, nothing but answers is under way. *)
Record conversation (q0 : Z) (n : nat) (s : client (net D)) : Prop := {
  c_seq : seq s = u32 (q0 + Z.of_nat n);
  c_answers : Forall (answer_to q0 n) (n_queue (os s) ++ n_late (os s));
  c_node : node_ok (n_dev (os s));
  c_wired : wired s;
}.

(** While block [blk] is sent: the memory is as before or has the block, and it
    has the block when an answer younger than message [n0] is under way. *)
Record sending (q0 : Z) (n0 : nat) (m0 m1 : mem) (n : nat) (s : client (net D)) : Prop := {
  g_conv : conversation q0 n s;
  g_ram : node_ram (n_dev (os s)) = m0 \/ node_ram (n_dev (os s)) = m1;
  g_young : Forall (fun l => answer_to q0 n0 l \/ node_ram (n_dev (os s)) = m1) (n_queue (os s) ++ n_late (os s));
}.

Definition same_host (s s' : client (net D)) : Prop :=
  n_open (os s') = n_open (os s) /\ fates (os s') = fates (os s) /\ n_files (os s') = n_files (os s).

Lemma seq_unique q0 i j : (Z.of_nat i < 2 ^ 32) -> (Z.of_nat j < 2 ^ 32) ->
  u32 (q0 + Z.of_nat i) = u32 (q0 + Z.of_nat j) -> i = j.
Proof. zarith. Qed.

Lemma answer_mono q0 n n' l : (n <= n')%nat -> answer_to q0 n l -> answer_to q0 n' l.
Proof. intros Hn (i & Hi & ->). exists i. split; [lia|done]. Qed.

Lemma Forall_grown {A} (P : A -> Prop) a b l1 l2 :
  Forall P (a ++ b) -> Forall P l1 -> Forall P l2 -> Forall P ((a ++ l1) ++ (b ++ l2)).
Proof. rewrite !Forall_app. tauto. Qed.

Lemma status_inj a b : is_u32 a -> is_u32 b -> status_dg a = status_dg b -> a = b.
Proof.
  intros Ha Hb E. apply (f_equal snd) in E. cbn [snd status_dg] in E. pose proof (judge_status a a Ha) as H. rewrite E, (judge_status a b Hb), Z.eqb_refl in H.
  destruct (Z.eqb_spec b a); congruence.
Qed.

Section block.
Context (addr : Z) (blk : list Z) (m0 : mem) (q0 : Z) (n0 : nat).
Context (Haddr : is_u32 addr) (Hbytes : bytes blk) (Hlen : (length blk <= 1024)%nat)
  (Hmap : mapped m0 addr (Z.of_nat (length blk))).
Let m1 := write_bytes m0 addr blk.

(** The message, whatever becomes of it. *)
Lemma deliver_sending n s : sending q0 n0 m0 m1 n s -> (n0 <= n)%nat ->
  let q := u32 (seq s + 1) in let w := deliver (message NB_CMD_WRITE (le32 q) addr blk) (os s) in
  sending q0 n0 m0 m1 (S n) (client_at q (err s) w) /\ same_host s (client_at q (err s) w) /\
  n_count w = S (n_count (os s)) /\
  exists l1 l2, n_queue w = n_queue (os s) ++ l1 /\ n_late w = n_late (os s) ++ l2 /\
    l1 = (match fates (os s) (n_count (os s)) with Answered => [status_dg q] | _ => [] end) /\
    l2 = (match fates (os s) (n_count (os s)) with Late => [status_dg q] | _ => [] end).
Proof.
  intros [[Hseq Hans Hok Hwired] Hram Hyoung] Hn q w.
  assert (q = u32 (q0 + Z.of_nat (S n))) as Eq by (unfold q; rewrite Hseq; zarith).
  assert (is_u32 q) as Hq by apply u32_range.
  assert (answer_to q0 (S n) (status_dg q)) as Hnew by (exists (S n); split; [lia|by rewrite Eq]).
  assert (Forall (answer_to q0 (S n)) (n_queue (os s) ++ n_late (os s))) as Hans'
    by (eapply Forall_impl; [|exact Hans]; intros l; apply answer_mono; lia).
  assert (mapped (node_ram (n_dev (os s))) addr (Z.of_nat (length blk))) as Hm
    by (destruct Hram as [-> | ->]; [done|by apply mapped_write]).
  destruct (serve_write (n_dev (os s)) q addr blk Hok Hq Haddr Hbytes Hlen Hm) as (d & Es & Ed & Od & Ei).
  assert (node_ram d = m1) as Ed'.
  { rewrite Ed. destruct Hram as [-> | ->]; [done|]. by apply write_bytes_over. }
  unfold w. rewrite (deliver_answers _ _ _ _ Es). unfold arrive. cbn iota zeta.
  destruct (fates (os s) (n_count (os s))) eqn:Ef;
    (split; [split; [split|..]|split; [split; [|split]; reflexivity|split; [reflexivity|];
       eexists _, _; split; [reflexivity|split; [reflexivity|done]]]]);
    unfold wired, node_addr; cbn [client_at seq os n_queue n_late n_dev n_conn n_link]; rewrite ?Ei; try done; try (by right);
    try (rewrite !app_nil_r; done);
    apply Forall_grown; try done;
    first [apply List.Forall_nil | apply List.Forall_cons; [by (right || idtac)|apply List.Forall_nil] | idtac].
  all: eapply Forall_impl; [|exact Hyoung]; by right.
Qed.

(** A try that ends the loop has the block delivered. *)
Lemma turn_sending n retry rest s : sending q0 n0 m0 m1 n s -> (n0 <= n)%nat -> Z.of_nat (S n) < 2 ^ 32 ->
  let '(r, s') := turn retry addr blk rest s in
  sending q0 n0 m0 m1 (S n) s' /\ same_host s s' /\ n_count (os s') = S (n_count (os s)) /\
  match r with
  | inl (retry', m) => retry' = retry + 1 /\ exists q, m = write_msg q addr blk rest
  | inr (v, m) => v = 0 /\ node_ram (n_dev (os s')) = m1 /\ exists q, m = write_msg q addr blk rest
  end.
Proof.
  intros H Hn Hsmall. unfold turn. destruct (deliver_sending n s H Hn) as (Hs & Hh & Hc & _).
  set (q := u32 (seq s + 1)) in *. set (w := deliver _ _) in *.
  destruct Hs as [[Eq Hans Hok Hwired] Hram Hyoung]. cbn [client_at seq os] in *.
  destruct (n_queue w) as [|l ls] eqn:Ew; cbn [app] in *.
  - split; [split; [split|..]|]; cbn [client_at seq os with_queue waited n_queue n_late n_dev]; rewrite ?app_nil_r; try done.
    split; [done|]. split; [done|]. split; [done|]. by exists q.
  - apply Forall_cons_iff in Hans as [(i & Hi & ->) Hans]. apply Forall_cons_iff in Hyoung as [Hy Hyoung].
    cbn [snd status_dg]. rewrite judge_status by apply u32_range.
    assert (forall e, sending q0 n0 m0 m1 (S n) (client_at q e (with_queue ls (n_late w) w))) as Hs
      by (intros e; by split).
    destruct (Z.eqb_spec (u32 (q0 + Z.of_nat i)) q) as [E|E]; split; try apply Hs; (split; [done|]); (split; [done|]).
    + split; [done|]. split; [|by exists q]. destruct Hy as [(j & Hj & Ej)|Hy]; [|exact Hy]. exfalso.
      apply status_inj in Ej; [|apply u32_range..]. rewrite Eq in E. apply seq_unique in E; [|lia..].
      subst i. apply seq_unique in Ej; lia.
    + split; [done|]. by exists q.
Qed.

Lemma same_host_trans s1 s2 s3 : same_host s1 s2 -> same_host s2 s3 -> same_host s1 s3.
Proof. intros (A1 & A2 & A3) (B1 & B2 & B3). split; [congruence|]. split; congruence. Qed.

Lemma tries_ok rest k : forall j q s, (j + k = 5)%nat -> sending q0 n0 m0 m1 (n0 + j) s -> Z.of_nat (n0 + 5) < 2 ^ 32 ->
  exists i v q' s' n', (i <= k)%nat /\
    runs (send_try sock (Z.of_nat (length blk) + NB_MSG_MIN)) i (Z.of_nat j, write_msg q addr blk rest) s
      (Ok (v, write_msg q' addr blk rest) s') /\
    (n0 + j <= n' <= n0 + 5)%nat /\ sending q0 n0 m0 m1 n' s' /\ same_host s s' /\
    (v = 0 /\ node_ram (n_dev (os s')) = m1 \/ v = -1).
Proof.
  induction k as [|k IH]; intros j q s Hj H Hsmall.
  - exists 0%nat, (-1), q, s, (n0 + j)%nat. split; [done|]. split.
    { apply runs_done. unfold send_try. by rewrite (proj2 (Z.ltb_ge _ _)) by lia. }
    split; [lia|]. split; [done|]. split; [done|]. by right.
  - pose proof (turn_sending (n0 + j) (Z.of_nat j) rest s H ltac:(lia) ltac:(lia)) as Ht.
    pose proof (send_turn (Z.of_nat j) q addr blk rest s ltac:(lia) Hlen (c_wired _ _ _ (g_conv _ _ _ _ _ _ H))) as Et.
    destruct (turn (Z.of_nat j) addr blk rest s) as [[[r m]|[v m]] s']; cbn [fst snd] in Et;
      destruct Ht as (Hs & Hh & _ & Ht).
    + destruct Ht as (-> & q' & ->). replace (Z.of_nat j + 1) with (Z.of_nat (S j)) in Et by lia.
      replace (S (n0 + j)) with (n0 + S j)%nat in Hs by lia.
      destruct (IH (S j) q' s' ltac:(lia) Hs Hsmall) as (i & v & q2 & s2 & n2 & Hi & R & Hn2 & Hs2 & Hh2 & Hv).
      exists (S i), v, q2, s2, n2. split; [lia|]. split; [eapply runs_step; [exact Et|exact R]|]. split; [lia|].
      split; [done|]. split; [by eapply same_host_trans|done].
    + destruct Ht as (-> & Hm & q' & ->). exists 0%nat, 0, q', s', (S (n0 + j)). split; [lia|].
      split; [by apply runs_done|]. split; [lia|]. split; [done|]. split; [done|]. by left.
Qed.

Lemma sending_starts s : conversation q0 n0 s -> node_ram (n_dev (os s)) = m0 -> sending q0 n0 m0 m1 (n0 + 0) s.
Proof.
  clear Hlen. intros Hc Hr. replace (n0 + 0)%nat with n0 by lia. split; [done|by left|]. destruct Hc as [_ Ha _ _].
  eapply Forall_impl; [|exact Ha]. intros l Hl. by left.
Qed.

(** Whatever the network does, [send_msg] returns, with 0 only if the block is
    in memory. *)
Lemma send_msg_ok q rest s :
  conversation q0 n0 s -> node_ram (n_dev (os s)) = m0 -> Z.of_nat (n0 + 5) < 2 ^ 32 ->
  exists v q' s' n', send_msg sock (write_msg q addr blk rest) (Z.of_nat (length blk) + NB_MSG_MIN) s =
      Ok (v, write_msg q' addr blk rest) s' /\
    (n0 <= n' <= n0 + 5)%nat /\ conversation q0 n' s' /\ same_host s s' /\
    (v = 0 /\ node_ram (n_dev (os s')) = m1 \/
     v = -1 /\ (node_ram (n_dev (os s')) = m0 \/ node_ram (n_dev (os s')) = m1)).
Proof.
  intros Hc Hr Hsmall. pose proof (sending_starts s Hc Hr) as Hs.
  destruct (tries_ok rest 5 0 q s eq_refl Hs Hsmall) as (i & v & q' & s' & n' & Hi & R & Hn' & Hs' & Hh & Hv).
  exists v, q', s', n'. split; [by eapply loop_runs; [exact R|lia]|]. split; [lia|].
  split; [apply Hs'|]. split; [done|]. destruct Hv as [Hv|Hv]; [by left|right]. split; [done|apply Hs'].
Qed.

(** With an answer among the messages still to be tried and none late, the block
    is sent. *)
Definition quiet_net (s : client (net D)) : Prop :=
  n_queue (os s) = [] /\ n_late (os s) = [] /\ (forall i, fates (os s) i <> Late).

Lemma turn_quiet n retry rest s : sending q0 n0 m0 m1 n s -> (n0 <= n)%nat -> quiet_net s ->
  let '(r, s') := turn retry addr blk rest s in
  quiet_net s' /\
  match r with
  | inl _ => fates (os s) (n_count (os s)) <> Answered
  | inr (v, _) => v = 0
  end.
Proof.
  intros H Hn (Hq & Hl & Hf). unfold turn. destruct (deliver_sending n s H Hn) as (_ & Hh & _ & l1 & l2 & Q & L & -> & ->).
  set (q := u32 (seq s + 1)) in *. set (w := deliver _ _) in *. rewrite Hq in Q. rewrite Hl in L. cbn [app] in *.
  assert (fates w = fates (os s)) as Ef by apply Hh.
  pose proof (Hf (n_count (os s))) as Hfate.
  destruct (fates (os s) (n_count (os s))); rewrite Q; try done.
  1,2: (split; [|done]); unfold quiet_net; cbn [client_at os with_queue waited n_queue n_late fates]; by rewrite L, Ef.
  cbn [snd status_dg]. rewrite judge_status, Z.eqb_refl by apply u32_range. split; [|done].
  unfold quiet_net; cbn [client_at os with_queue waited n_queue n_late fates]. by rewrite L, Ef.
Qed.

Lemma tries_answered rest k : forall j q s, (j + k = 5)%nat -> sending q0 n0 m0 m1 (n0 + j) s -> Z.of_nat (n0 + 5) < 2 ^ 32 ->
  quiet_net s -> (exists i, (i < k)%nat /\ fates (os s) (n_count (os s) + i) = Answered) ->
  exists i q' s', (i <= k)%nat /\
    runs (send_try sock (Z.of_nat (length blk) + NB_MSG_MIN)) i (Z.of_nat j, write_msg q addr blk rest) s
      (Ok (0, write_msg q' addr blk rest) s') /\ quiet_net s'.
Proof.
  induction k as [|k IH]; intros j q s Hj H Hsmall Hq (i & Hi & Hf); [lia|].
  pose proof (turn_sending (n0 + j) (Z.of_nat j) rest s H ltac:(lia) ltac:(lia)) as Ht.
  pose proof (send_turn (Z.of_nat j) q addr blk rest s ltac:(lia) Hlen (c_wired _ _ _ (g_conv _ _ _ _ _ _ H))) as Et.
  pose proof (turn_quiet (n0 + j) (Z.of_nat j) rest s H ltac:(lia) Hq) as Hq'.
  destruct (turn (Z.of_nat j) addr blk rest s) as [[[r m]|[v m]] s']; cbn [fst snd] in Et;
    destruct Ht as (Hs & Hh & Hc & Ht); destruct Hq' as [Hq' Hr].
  - destruct Ht as (-> & q' & ->). replace (Z.of_nat j + 1) with (Z.of_nat (S j)) in Et by lia.
    replace (S (n0 + j)) with (n0 + S j)%nat in Hs by lia. destruct Hh as (_ & Ef & _).
    destruct i as [|i]; [rewrite Nat.add_0_r in Hf; done|].
    destruct (IH (S j) q' s' ltac:(lia) Hs Hsmall Hq') as (i' & q2 & s2 & Hi' & R & Hq2).
    { exists i. split; [lia|]. rewrite Ef, Hc. rewrite <- Hf. f_equal. lia. }
    exists (S i'), q2, s2. split; [lia|]. split; [by eapply runs_step|done].
  - destruct Ht as (-> & Hm & q' & ->). exists 0%nat, q', s'. split; [lia|]. split; [by apply runs_done|done].
Qed.

Lemma send_msg_answered q rest s :
  conversation q0 n0 s -> node_ram (n_dev (os s)) = m0 -> Z.of_nat (n0 + 5) < 2 ^ 32 ->
  quiet_net s -> (exists i, (i < 5)%nat /\ fates (os s) (n_count (os s) + i) = Answered) ->
  exists q' s', send_msg sock (write_msg q addr blk rest) (Z.of_nat (length blk) + NB_MSG_MIN) s =
      Ok (0, write_msg q' addr blk rest) s' /\ quiet_net s'.
Proof.
  intros Hc Hr Hsmall Hq Hf. pose proof (sending_starts s Hc Hr) as Hs.
  destruct (tries_answered rest 5 0 q s eq_refl Hs Hsmall Hq Hf) as (i & q' & s' & Hi & R & Hq').
  exists q', s'. split; [by eapply loop_runs; [exact R|lia]|done].
Qed.

(** One late answer is enough: from then on every answer is taken for the one
    before it, and each message fails although all of them are answered. *)
Lemma tries_behind rest k : forall j q s, (j + k = 5)%nat -> sending q0 n0 m0 m1 (n0 + j) s ->
  n_queue (os s) = [status_dg (seq s)] -> n_late (os s) = [] -> (forall i, fates (os s) i = Answered) ->
  exists q' s', runs (send_try sock (Z.of_nat (length blk) + NB_MSG_MIN)) k (Z.of_nat j, write_msg q addr blk rest) s
      (Ok (-1, write_msg q' addr blk rest) s') /\ n_queue (os s') = [status_dg (seq s')].
Proof.
  induction k as [|k IH]; intros j q s Hj H Hq Hl Hf.
  - exists q, s. split; [|done]. apply runs_done. unfold send_try. by rewrite (proj2 (Z.ltb_ge _ _)) by lia.
  - pose proof (send_turn (Z.of_nat j) q addr blk rest s ltac:(lia) Hlen (c_wired _ _ _ (g_conv _ _ _ _ _ _ H))) as Et.
    destruct (deliver_sending (n0 + j) s H ltac:(lia)) as (Hs & (_ & Ef & _) & Hc & l1 & l2 & Q & L & -> & ->).
    revert Et Hs Ef Hc Q L. unfold turn. set (q1 := u32 (seq s + 1)). set (w := deliver _ _). intros Et Hs Ef Hc Q L.
    rewrite Hf in Q, L. rewrite Hq in Q. rewrite Hl in L. cbn [app client_at os] in *. rewrite Q in Et.
    assert (is_u32 (seq s)) as Us by (destruct H as [[-> _ _ _] _ _]; apply u32_range).
    cbn [snd status_dg] in Et. rewrite judge_status in Et by done. rewrite (proj2 (Z.eqb_neq _ _)) in Et by (unfold q1; zarith).
    cbn [fst snd] in Et. replace (Z.of_nat j + 1) with (Z.of_nat (S j)) in Et by lia.
    set (s1 := client_at q1 _ (with_queue [status_dg q1] (n_late w) w)) in Et.
    destruct (IH (S j) q1 s1 ltac:(lia)) as (q2 & s2 & R & Q2); [|done|exact L|by intros i; cbn; rewrite Ef|].
    + destruct Hs as [[S1 A1 O1 C1] R1 Y1]. cbn [client_at os seq] in *. rewrite Q in A1, Y1. cbn [app] in *.
      apply Forall_cons_iff in A1 as [_ A1]. apply Forall_cons_iff in Y1 as [_ Y1].
      replace (n0 + S j)%nat with (S (n0 + j)) by lia. by split.
    + exists q2, s2. split; [|done]. eapply runs_step; [exact Et|exact R].
Qed.
End block.

(** ** Files *)

(** What [read] returns of a file until its end. *)
Definition pieces (l : list (list Z)) : Prop := Forall (fun b => (0 < length b <= 1024)%nat /\ bytes b) l.

Definition write_slot (q a : Z) (b : list Z) : netboot_msg :=
  {| magic := NB_MAGIC; cmd := NB_CMD_WRITE; mseq := q; arg := a; db := b |}.

Lemma block_msg addr q a b l :
  {| magic := magic (write_slot q a b); cmd := cmd (write_slot q a b); mseq := mseq (write_slot q a b);
     arg := addr; db := l ++ drop (length l) (db (write_slot q a b)) |} =
  write_msg q addr l (drop (length l) b).
Proof. done. Qed.

(** The blocks still to be sent, after [done] at [addr]. *)
Record progress (q0 : Z) (n : nat) (m0 : mem) (addr : Z) (sent : list Z) (chunks : list (list Z))
    (s : client (net D)) : Prop := {
  p_conv : conversation q0 n s;
  p_open : n_open (os s) = chunks;
  p_pieces : pieces chunks;
  p_ram : node_ram (n_dev (os s)) = write_bytes m0 addr sent;
  p_mapped : mapped m0 addr (Z.of_nat (length (sent ++ concat chunks)));
  p_addr : 0 <= addr /\ addr + Z.of_nat (length (sent ++ concat chunks)) < 2 ^ 32;
  p_count : Z.of_nat (n + 5 * length chunks) < 2 ^ 32;
}.

(** The state after a piece is read. *)
Definition read_piece (chunks : list (list Z)) (s : client (net D)) : client (net D) :=
  client_at (seq s) (err s) (with_open chunks (os s)).

Definition closed (s : client (net D)) : client (net D) := client_at (seq s) (err s) (with_open [] (os s)).

Lemma send_block_end addr m s : n_open (os s) = [] ->
  send_block sock FILE_FD (addr, m) s = Ok (inr 0) (closed s).
Proof. intros H. unfold send_block, sys, bind. cbn [os_read net_os]. by rewrite H. Qed.

Lemma send_block_next addr q a b l ls s v q' s' : n_open (os s) = l :: ls -> l <> [] ->
  send_msg sock (write_msg q addr l (drop (length l) b)) (Z.of_nat (length l) + NB_MSG_MIN)
    (read_piece ls s) = Ok (v, write_msg q' addr l (drop (length l) b)) s' ->
  send_block sock FILE_FD (addr, write_slot q a b) s =
  if v =? 0
  then Ok (inl (u32 (addr + Z.of_nat (length l)), write_slot q' addr (l ++ drop (length l) b))) s'
  else Ok (inr (-1)) (closed s').
Proof.
  intros H Hl E. unfold send_block. destruct l as [|c l]; [done|].
  assert (sys (os_read FILE_FD NB_DATA_MAX) s = Ok (Some (c :: l)) (read_piece ls s)) as Er.
  { unfold sys. cbn [os_read net_os]. by rewrite H. }
  step Er. cbv zeta. rewrite block_msg. step E. destruct (v =? 0); cbn [negb]; done.
Qed.

(** The memory after some of the file's blocks. *)
Definition partly (m0 : mem) (addr : Z) (data : list Z) (m : mem) : Prop :=
  exists pre post, data = pre ++ post /\ m = write_bytes m0 addr pre.

Lemma progress_next q0 n n' m0 addr sent l ls s s' :
  progress q0 n m0 addr sent (l :: ls) s -> conversation q0 n' s' -> same_host (read_piece ls s) s' ->
  node_ram (n_dev (os s')) = write_bytes (write_bytes m0 addr sent) (addr + Z.of_nat (length sent)) l ->
  (n' <= n + 5)%nat -> progress q0 n' m0 addr (sent ++ l) ls s'.
Proof.
  intros [C O P R Hm A N] C' (O' & _) R' Hn. cbn [concat] in *. rewrite app_assoc in *. split; try done.
  - by apply Forall_cons_iff in P as [_ P].
  - by rewrite R', write_bytes_app.
  - cbn [length] in N. lia.
Qed.

(** The files and what the network will do stay the same. *)
Definition steady (s s' : client (net D)) : Prop :=
  fates (os s') = fates (os s) /\ n_files (os s') = n_files (os s).

Lemma steady_trans s1 s2 s3 : steady s1 s2 -> steady s2 s3 -> steady s1 s3.
Proof. intros [A1 A2] [B1 B2]. split; congruence. Qed.

Lemma blocks_ok q0 m0 addr chunks : forall sent n q a b s,
  progress q0 n m0 addr sent chunks s ->
  exists v s' n' i, (i <= length chunks)%nat /\
    runs (send_block sock FILE_FD) i (addr + Z.of_nat (length sent), write_slot q a b) s (Ok v s') /\
    (n <= n' <= n + 5 * length chunks)%nat /\ conversation q0 n' s' /\ steady s s' /\
    (v = 0 /\ node_ram (n_dev (os s')) = write_bytes m0 addr (sent ++ concat chunks) \/
     v = -1 /\ partly m0 addr (sent ++ concat chunks) (node_ram (n_dev (os s')))).
Proof.
  induction chunks as [|l ls IH]; intros sent n q a b s Hp.
  - exists 0, (closed s), n, 0%nat. split; [done|]. pose proof Hp as [C O P R Hm A N]. split.
    { by apply runs_done, send_block_end. }
    split; [lia|]. split; [by destruct C|]. split; [by split|]. left. cbn [concat closed client_at os with_open n_dev]. by rewrite app_nil_r.
  - pose proof Hp as [C O P R Hm A N]. apply Forall_cons_iff in P as [[Hl Hb] P]. cbn [concat length] in *.
    rewrite !length_app, !Nat2Z.inj_add in A. rewrite !length_app, !Nat2Z.inj_add in Hm.
    assert (conversation q0 n (read_piece ls s)) as C1 by (by destruct C).
    set (m1 := write_bytes m0 addr sent) in *.
    assert (mapped m1 (addr + Z.of_nat (length sent)) (Z.of_nat (length l))) as Hm1
      by (apply mapped_write; eapply mapped_sub; [exact Hm|lia..]).
    destruct (send_msg_ok (addr + Z.of_nat (length sent)) l m1 q0 n ltac:(unfold is_u32; lia) Hb ltac:(lia) Hm1
      q (drop (length l) b) (read_piece ls s) C1 R ltac:(lia)) as (v & q' & s' & n' & E & Hn & C' & Hh & Hv).
    assert (l <> []) as Hl0 by (intros ->; cbn in Hl; lia).
    pose proof (send_block_next (addr + Z.of_nat (length sent)) q a b l ls s v q' s' O Hl0 E) as Eb.
    destruct Hv as [[-> Hv]|[-> Hv]]; cbn [Z.eqb] in Eb.
    + pose proof (progress_next q0 n n' m0 addr sent l ls s s' Hp C' Hh Hv ltac:(lia)) as Hp'.
      destruct (IH (sent ++ l) n' q' (addr + Z.of_nat (length sent)) (l ++ drop (length l) b) s' Hp')
        as (v & s2 & n2 & i & Hi & Rn & Hn2 & C2 & St2 & Hv2).
      exists v, s2, n2, (S i). split; [lia|]. split; [|split; [lia|split; [done|split; [|by rewrite <- app_assoc in Hv2]]]].
      2: { apply (steady_trans s s'); [|done]. split; apply Hh. }
      eapply runs_step; [exact Eb|]. rewrite u32_small by (unfold is_u32; lia).
      by rewrite length_app, Nat2Z.inj_add, Z.add_assoc in Rn.
    + exists (-1), (closed s'), n', 0%nat. split; [lia|]. split; [by apply runs_done|]. split; [lia|].
      split; [by destruct C'|]. split; [split; apply Hh|]. right. split; [done|]. cbn [closed client_at os with_open n_dev].
      destruct Hv as [-> | ->].
      * exists sent, (l ++ concat ls). done.
      * exists (sent ++ l), (concat ls). rewrite <- app_assoc. split; [done|]. unfold m1. by rewrite write_bytes_app.
Qed.

(** Among any five messages in a row one is answered in time. *)
Definition patient (s : client (net D)) : Prop :=
  forall i, exists j, (j < 5)%nat /\ fates (os s) (i + j) = Answered.

Lemma blocks_quiet q0 m0 addr chunks : forall sent n q a b s,
  progress q0 n m0 addr sent chunks s -> quiet_net s -> patient s ->
  exists s' i, (i <= length chunks)%nat /\
    runs (send_block sock FILE_FD) i (addr + Z.of_nat (length sent), write_slot q a b) s (Ok 0 s') /\
    node_ram (n_dev (os s')) = write_bytes m0 addr (sent ++ concat chunks) /\ quiet_net s'.
Proof.
  induction chunks as [|l ls IH]; intros sent n q a b s Hp Hq Hf.
  - exists (closed s), 0%nat. split; [done|]. pose proof Hp as [C O P R Hm A N]. split.
    { by apply runs_done, send_block_end. }
    split; [|exact Hq]. cbn [concat closed client_at os with_open n_dev]. by rewrite app_nil_r.
  - pose proof Hp as [C O P R Hm A N]. apply Forall_cons_iff in P as [[Hl Hb] P]. cbn [concat length] in *.
    rewrite !length_app, !Nat2Z.inj_add in A. rewrite !length_app, !Nat2Z.inj_add in Hm.
    assert (conversation q0 n (read_piece ls s)) as C1 by (by destruct C).
    set (m1 := write_bytes m0 addr sent) in *.
    assert (mapped m1 (addr + Z.of_nat (length sent)) (Z.of_nat (length l))) as Hm1
      by (apply mapped_write; eapply mapped_sub; [exact Hm|lia..]).
    destruct (send_msg_ok (addr + Z.of_nat (length sent)) l m1 q0 n ltac:(unfold is_u32; lia) Hb ltac:(lia) Hm1
      q (drop (length l) b) (read_piece ls s) C1 R ltac:(lia)) as (v & q' & s' & n' & E & Hn & C' & Hh & Hv).
    destruct (send_msg_answered (addr + Z.of_nat (length sent)) l m1 q0 n ltac:(unfold is_u32; lia) Hb ltac:(lia) Hm1
      q (drop (length l) b) (read_piece ls s) C1 R ltac:(lia) Hq (Hf _)) as (q2 & s2 & E2 & Hq').
    rewrite E in E2. injection E2 as -> -> ->.
    assert (l <> []) as Hl0 by (intros ->; cbn in Hl; lia).
    pose proof (send_block_next (addr + Z.of_nat (length sent)) q a b l ls s 0 q2 s2 O Hl0 E) as Eb.
    destruct Hv as [[_ Hv]|[? _]]; [|done].
    pose proof (progress_next q0 n n' m0 addr sent l ls s s2 Hp C' Hh Hv ltac:(lia)) as Hp'.
    destruct Hh as (_ & Ef & _).
    destruct (IH (sent ++ l) n' q2 (addr + Z.of_nat (length sent)) (l ++ drop (length l) b) s2 Hp' Hq')
      as (s3 & i & Hi & Rn & Hv2); [intros i; rewrite Ef; apply Hf|].
    exists s3, (S i). split; [lia|]. split; [|rewrite <- app_assoc in Hv2; exact Hv2].
    eapply runs_step; [exact Eb|]. rewrite u32_small by (unfold is_u32; lia).
    by rewrite length_app, Nat2Z.inj_add, Z.add_assoc in Rn.
Qed.

(** The state in which [send_file] starts its loop. *)
Definition opened (fn : list Z) (addr : Z) (chunks : list (list Z)) (s : client (net D)) : client (net D) :=
  client_at (seq s) (err s ++ [10] ++ str "[ sending '" ++ fn ++ str "' to 0x" ++
    justify false true 8 [] (hex false addr) ++ str " ]" ++ [10]) (with_open chunks (os s)).

Lemma send_file_opens seq0 arg0 db0 fn addr chunks s : find_file (n_files (os s)) fn = Some chunks ->
  send_file seq0 arg0 db0 sock fn addr s =
  loop (send_block sock FILE_FD) (addr, write_slot seq0 arg0 db0) (opened fn addr chunks s).
Proof.
  intros Hf. unfold send_file.
  assert (sys (os_open fn) s = Ok FILE_FD (client_at (seq s) (err s) (with_open chunks (os s)))) as E.
  { unfold sys. cbn [os_open net_os]. by rewrite Hf. }
  step E. done.
Qed.

(** A file that fits where it is sent, in a conversation with messages to spare. *)
Record sendable (q0 : Z) (n : nat) (fn : list Z) (addr : Z) (chunks : list (list Z)) (s : client (net D)) : Prop := {
  f_conv : conversation q0 n s;
  f_file : find_file (n_files (os s)) fn = Some chunks;
  f_pieces : pieces chunks;
  f_mapped : mapped (node_ram (n_dev (os s))) addr (Z.of_nat (length (concat chunks)));
  f_addr : 0 <= addr /\ addr + Z.of_nat (length (concat chunks)) < 2 ^ 32;
  f_count : Z.of_nat (n + 5 * length chunks) < 2 ^ 32;
}.

Lemma sendable_progress q0 n fn addr chunks s : sendable q0 n fn addr chunks s ->
  progress q0 n (node_ram (n_dev (os s))) addr [] chunks (opened fn addr chunks s).
Proof. intros [[C1 C2 C3 C4] F P Hm A N]. split; try done. Qed.

(** Over a network that may lose messages and answers and delay answers as it
    likes, [send_file] returns, and it returns 0 only if the loader's memory
    holds the whole file; when it gives up, the loader has stored a part of the
    file from its beginning, and nothing else. *)
Lemma send_file_delivers seq0 arg0 db0 q0 n fn addr chunks s :
  sendable q0 n fn addr chunks s ->
  exists v s' n', send_file seq0 arg0 db0 sock fn addr s = Ok v s' /\
    (n <= n' <= n + 5 * length chunks)%nat /\ conversation q0 n' s' /\ steady s s' /\
    let m := node_ram (n_dev (os s)) in let m' := node_ram (n_dev (os s')) in
    (v = 0 /\ m' = write_bytes m addr (concat chunks) \/ v = -1 /\ partly m addr (concat chunks) m').
Proof.
  intros H. pose proof (sendable_progress _ _ _ _ _ _ H) as Hp. pose proof (p_count _ _ _ _ _ _ _ Hp) as Hc.
  destruct (blocks_ok q0 _ addr chunks [] n seq0 arg0 db0 _ Hp) as (v & s' & n' & i & Hi & R & Hn & C & St & Hv).
  rewrite Z.add_0_r in R. exists v, s', n'. rewrite (send_file_opens _ _ _ _ _ chunks) by apply H.
  split; [eapply loop_runs; [exact R|lia]|]. split; [done|]. split; [done|]. split; [exact St|exact Hv].
Qed.

(** When no answer is late and among any five messages in a row one is
    answered, [send_file] succeeds. *)
Lemma send_file_succeeds seq0 arg0 db0 q0 n fn addr chunks s :
  sendable q0 n fn addr chunks s -> quiet_net s -> patient s ->
  exists s', send_file seq0 arg0 db0 sock fn addr s = Ok 0 s' /\
    node_ram (n_dev (os s')) = write_bytes (node_ram (n_dev (os s))) addr (concat chunks) /\ quiet_net s'.
Proof.
  intros H Hq Hf. pose proof (sendable_progress _ _ _ _ _ _ H) as Hp. pose proof (p_count _ _ _ _ _ _ _ Hp) as Hc.
  destruct (blocks_quiet q0 _ addr chunks [] n seq0 arg0 db0 _ Hp Hq Hf) as (s' & i & Hi & R & Hv).
  rewrite Z.add_0_r in R. exists s'. rewrite (send_file_opens _ _ _ _ _ chunks) by apply H.
  split; [eapply loop_runs; [exact R|lia]|]. done.
Qed.

(** C36: an answer that comes too late is never made up for: the next message
    fails although the loader answers all five tries in time, and the socket is
    left with a late answer again. *)
Theorem late_answer_persists q0 n addr blk rest q s :
  conversation q0 n s -> Z.of_nat (n + 5) < 2 ^ 32 -> is_u32 addr -> bytes blk -> (length blk <= 1024)%nat ->
  mapped (node_ram (n_dev (os s))) addr (Z.of_nat (length blk)) ->
  n_queue (os s) = [status_dg (seq s)] -> n_late (os s) = [] -> (forall i, fates (os s) i = Answered) ->
  exists q' s', send_msg sock (write_msg q addr blk rest) (Z.of_nat (length blk) + NB_MSG_MIN) s =
      Ok (-1, write_msg q' addr blk rest) s' /\ n_queue (os s') = [status_dg (seq s')].
Proof.
  intros C Hn Ha Hb Hl Hm Hq Hlate Hf.
  set (m0 := node_ram (n_dev (os s))) in *.
  assert (sending q0 n m0 (write_bytes m0 addr blk) (n + 0) s) as Hs by (by apply sending_starts).
  destruct (tries_behind addr blk _ q0 n Ha Hb Hl Hm rest 5 0 q s eq_refl Hs Hq Hlate Hf) as (q' & s' & R & Q).
  exists q', s'. split; [by eapply loop_runs; [exact R|lia]|done].
Qed.
End delivery.

(** ** Instances *)

(** A loader that is nothing but its memory. *)
Definition plain_receive (ip : list Z) (port : Z) (msg : list Z) (m : mem) : mem * list (Z * list Z) :=
  if decide (ip = replicate 16 1 /\ port = NB_PORT_CTRL) then
    let db := drop 16 msg in
    (write_bytes m (field msg 12) db, [(NB_PORT_CTRL, status_msg (field msg 8))])
  else (m, []).

#[export] Program Instance plain_node : BootNode mem :=
  {| node_ram := id; node_ip _ := replicate 16 1; node_ok _ := True; receive := plain_receive |}.
Next Obligation.
  intros m q addr db _ Hq Ha Hb Hl Hm. unfold plain_receive. rewrite decide_True by done. cbv zeta. unfold message.
  assert (field (le32 NB_MAGIC ++ le32 NB_CMD_WRITE ++ le32 q ++ le32 addr ++ db) 8 = q) as ->.
  { etransitivity; [exact (field_at (le32 NB_MAGIC ++ le32 NB_CMD_WRITE) (le32 q) (le32 addr ++ db) 8 eq_refl eq_refl)|].
    by apply le32_val. }
  assert (field (le32 NB_MAGIC ++ le32 NB_CMD_WRITE ++ le32 q ++ le32 addr ++ db) 12 = addr) as ->.
  { etransitivity; [exact (field_at (le32 NB_MAGIC ++ le32 NB_CMD_WRITE ++ le32 q) (le32 addr) db 12 eq_refl eq_refl)|].
    by apply le32_val. }
  by eexists.
Qed.

(** The answer to message 7 came after the client gave up on it. *)
Definition behind : client (net mem) :=
  client_at 7 [84] {| n_dev := mem_lit 0x40000000 (replicate 32 0); n_queue := [status_dg 7]; n_late := [];
    n_link := 2; n_conn := {[SOCK_FD := {| sa_port := NB_PORT_CTRL; sa_ip := replicate 16 1; sa_scope := 2 |}]}; n_count := 7; fates := fun _ => Answered; n_files := []; n_open := []; n_clock := 0; n_socks := 2 |}.

Lemma late_answer_persists_witness :
  exists q' s', send_msg SOCK_FD (write_msg 7 0x40000000 [1; 2; 3] []) 19 behind =
      Ok (-1, write_msg q' 0x40000000 [1; 2; 3] []) s' /\ n_queue (os s') = [status_dg (seq s')].
Proof.
  apply (late_answer_persists SOCK_FD ltac:(done) 0 7 0x40000000 [1; 2; 3] [] 7 behind);
    [|by_decide|by_decide|by_decide|by_decide|by_decide|done..].
  split; [done| |done|reflexivity]. constructor; [|constructor]. exists 7%nat. split; [lia|done].
Defined.
