(* ===== verification/Download.v ===== *)
(** * Downloading a program: the boot client and the loader together

    The loader's node, with the network stack and the Ethernet driver below it,
    is a [BootNode] for the client: the client's host puts a message into a UDP
    datagram for the address and port it is sent to and into a frame for that
    address, one round of the receive loop handles the frame, and the datagrams
    in the frames the node sends to the host and port of the client go back to
    it.  The client's theorems hold for it ([file_downloaded]). *)

From S2P Require Import Prelude Monad Hw Mem LibcMem LibcStr Uart Printf Net Netboot Client.

(** The frame that carries a message to a port of the network's addresses [dmac]
    and [dip]; [sport] and [chk] are the port and the checksum the host puts into
    the datagram. *)
Definition udp_frame (dmac dip : list Z) (port : Z) (sport chk msg : list Z) : frame6 :=
  frame_to dmac dip 17 (datagram sport port (be16 (8 + Z.of_nat (length msg)) ++ chk) msg []).

(** The Ethernet address for an address of the link: that of a multicast group
    (RFC 2464), or the node's if it is the node's. *)
Definition mac_for (ip : list Z) (s : node) : option (list Z) :=
  if decide (hd 0 ip = 0xFF) then Some ([0x33; 0x33] ++ drop 12 ip)
  else if decide (ip = ifc_ll_ip6 s) then Some (ifc_mac s) else None.

(** The MAC receives a frame. *)
Definition with_frame (f : frame6) (s : node) : node :=
  set_eth {| e_sram := e_sram (n_eth s); e_regs := e_regs (n_eth s); e_stalls := e_stalls (n_eth s);
    e_rx := e_rx (n_eth s) ++ [Frame 0 (concat (frame_fields f)) (54 + Z.of_nat (length (f_payload f)))];
    e_sent := e_sent (n_eth s) |} s.

(** The datagram in a frame, if it is from the node's address and for the port
    [sport] of the client: the port it comes from, and its contents. *)
Definition client_datagram (sport from frame : list Z) : option (Z * list Z) :=
  if decide (take 6 frame = peer_mac /\ take 16 (drop 22 frame) = from /\
             take 16 (drop 38 frame) = link_local peer_mac /\ take 2 (drop 56 frame) = sport)
  then match take 2 (drop 54 frame) with [a; b] => Some (a * 256 + b, drop 62 frame) | _ => None end
  else None.

(** Those among what was sent since. *)
Definition sent_since (sport : list Z) (s s' : node) : list (Z * list Z) :=
  omap (client_datagram sport (ifc_ll_ip6 s)) (drop (length (n_tx s)) (n_tx s')).

(** One round of the receive loop with this frame. *)
Definition handle_frame (garbage sport : list Z) (f : frame6) (s : node) : node * list (Z * list Z) :=
  match eth_handle_rx garbage (with_frame f s) with
  | Ok _ s' | Halt s' => (s', sent_since sport s s')
  | _ => (s, [])
  end.

Definition node_receive (garbage sport chk ip : list Z) (port : Z) (msg : list Z) (s : node) : node * list (Z * list Z) :=
  match mac_for ip s with
  | Some mac => handle_frame garbage sport (udp_frame mac ip port sport chk msg) s
  | None => (s, [])
  end.

(** The Ethernet address of all IPv6 nodes. *)
Definition all_nodes_mac : list Z := [0x33; 0x33; 0; 0; 0; 1].

Definition node_ready (s : node) : Prop :=
  interface_ok s /\ tx_ok s /\ buffer_ready s /\ e_rx (n_eth s) = [] /\ ifc_mac s <> all_nodes_mac.

Section node.
Context (garbage : list Z) (Hgarbage : length garbage = 1536%nat) (Hgb : bytes garbage).
Context (sport chk : list Z) (Hsport : length sport = 2%nat) (Hsb : bytes sport)
  (Hchk : length chk = 2%nat) (Hcb : bytes chk).

Lemma bytes_message cmd q addr db : bytes db -> bytes (message cmd (le32 q) addr db).
Proof.
  intros H. unfold message. rewrite !Forall_app. split_and!; try apply le_bytes_u8. exact H.
Qed.

Lemma udp_frame_ok dmac dip port msg :
  length dmac = 6%nat -> bytes dmac -> length dip = 16%nat -> bytes dip -> bytes msg ->
  frame_ok (udp_frame dmac dip port sport chk msg).
Proof.
  intros Lm Bm Li Bi Hb. split.
  - unfold udp_frame, frame_to, frame_fields.
    cbn [map f_dmac f_smac f_type f_bits f_iplen f_nh f_hop f_sip f_dip f_payload]. by rewrite Lm, Li.
  - unfold udp_frame, frame_to, frame_fields, datagram.
    cbn [concat f_dmac f_smac f_type f_bits f_iplen f_nh f_hop f_sip f_dip f_payload]. rewrite !Forall_app.
    split_and!; try done; try apply be16_bytes; try by_decide.
Qed.

(** A control message's frame. *)
Definition frame_for (msg : list Z) (s : node) : frame6 :=
  udp_frame (ifc_mac s) (link_local (ifc_mac s)) NB_PORT_CTRL sport chk msg.

Lemma node_receive_ctrl msg s : interface_ok s ->
  node_receive garbage sport chk (ifc_ll_ip6 s) NB_PORT_CTRL msg s = handle_frame garbage sport (frame_for msg s) s.
Proof.
  clear Hgarbage Hgb. intros (_ & _ & Hll & _). unfold node_receive, mac_for, frame_for. rewrite Hll.
  rewrite decide_False by done. by rewrite decide_True.
Qed.

Lemma frame_for_ok msg s : interface_ok s -> bytes msg ->
  frame_ok (frame_for msg s) /\ accepts s (frame_for msg s) = Some 0.
Proof.
  intros Hi Hb. pose proof (interface_addresses s Hi) as (Lm & Ll & Bm & Bl). destruct Hi as (_ & _ & Hll & _).
  rewrite Hll in Bl. split; [by apply udp_frame_ok|].
  unfold accepts, rx_mcast, ip6_for_us, frame_for, udp_frame, frame_to. cbn [f_type f_dmac f_dip].
  rewrite !decide_True by done. cbn [Z.eqb]. by rewrite bool_decide_true.
Qed.

Lemma udp_frame_message dmac dip port cmd q addr db :
  frame_ok (udp_frame dmac dip port sport chk (message cmd (le32 q) addr db)) ->
  (length db <= 1024)%nat -> is_u32 cmd -> is_u32 addr ->
  is_message (udp_frame dmac dip port sport chk (message cmd (le32 q) addr db)) sport port cmd (le32 q) addr db.
Proof.
  intros Hf Hl Hc Ha. split; try done. eexists _, []. split; [|reflexivity]. by rewrite length_app, Hchk.
Qed.

Lemma udp_frame_incoming dmac dip port msg s : let f := udp_frame dmac dip port sport chk msg in
  frame_ok f -> (length msg <= 1040)%nat -> buffer_ready s -> e_rx (n_eth s) = [] -> incoming f (with_frame f s) [].
Proof.
  clear Hgarbage Hgb. intros f Hf Hl Hbuf Hrx. split; [exact Hf| | |exact Hbuf].
  - unfold f, udp_frame, frame_to. cbn [f_payload]. rewrite length_datagram; [cbn [length]; lia|done|].
    by rewrite length_app, Hchk.
  - exists 0, []. split; [done|]. cbn [with_frame set_eth set_tx n_eth e_rx]. by rewrite Hrx, app_nil_r.
Qed.

Lemma take_drop_app (l1 l2 l3 : list Z) n k : length l1 = n -> length l2 = k -> take k (drop n (l1 ++ l2 ++ l3)) = l2.
Proof. intros <- <-. by rewrite drop_app_length, take_app_length. Qed.

(** A reply, read by the client's host. *)
Lemma reply_datagram s f c data : length (ifc_mac s) = 6%nat -> length (ifc_ll_ip6 s) = 16%nat ->
  f_smac f = peer_mac -> f_sip f = link_local peer_mac ->
  client_datagram sport (ifc_ll_ip6 s) (reply_frame s f sport c data) = Some (NB_PORT_CTRL, data).
Proof.
  intros H1 H2 H3 H4. unfold reply_frame, eth_ip6_header, udp_header. rewrite H3, H4. cbv zeta.
  set (len := Z.of_nat (length data) + 8). set (mid := [0x86; 0xDD] ++ [0x60; 0; 0; 0] ++ be16 len ++ [17; 255]).
  set (h := peer_mac ++ ifc_mac s ++ mid). set (ip := link_local peer_mac). set (u := be16 len ++ le16 c).
  assert (length h = 22%nat) as Lh by (unfold h, mid; rewrite !length_app, H1; done).
  match goal with |- client_datagram _ _ ?fr = _ => set (frame := fr);
    assert (frame = h ++ ifc_ll_ip6 s ++ ip ++ be16 NB_PORT_CTRL ++ sport ++ u ++ data) as Ef
      by (unfold frame, h, mid, u; by rewrite <- !app_assoc) end.
  clearbody frame. subst frame. unfold client_datagram. rewrite decide_True.
  - assert (take 2 (drop 54 (h ++ ifc_ll_ip6 s ++ ip ++ be16 NB_PORT_CTRL ++ sport ++ u ++ data)) = be16 NB_PORT_CTRL) as ->.
    { rewrite !(app_assoc h), !(app_assoc (h ++ _)). apply take_drop_app; [|done].
      rewrite !length_app, Lh, H2. done. }
    change (be16 NB_PORT_CTRL) with [u8 (NB_PORT_CTRL / 256); u8 NB_PORT_CTRL]. f_equal. f_equal.
    rewrite !app_assoc. apply drop_app_length'. rewrite !length_app, Lh, H2, Hsport. done.
  - split; [|split; [|split]].
    + unfold h. rewrite <- app_assoc. by rewrite take_app_length' by done.
    + by apply take_drop_app.
    + rewrite (app_assoc h). apply take_drop_app; [by rewrite length_app, Lh, H2|done].
    + rewrite (app_assoc h), (app_assoc (h ++ _)), (app_assoc ((h ++ _) ++ _)). apply take_drop_app; [|done].
      rewrite !length_app, Lh, H2. done.
Qed.

(** What the node sends in reply to the frame is all that it sends. *)
Lemma replied_answers s s' f data : interface_ok s ->
  f_smac f = peer_mac -> f_sip f = link_local peer_mac ->
  replied (with_frame f s) s' f sport data -> sent_since sport s s' = [(NB_PORT_CTRL, data)].
Proof.
  intros Hi Hm Hip (c & Htx & _). pose proof (interface_addresses s Hi) as (Lmac & Lll & _).
  unfold sent_since. rewrite Htx. change (n_tx (with_frame f s)) with (n_tx s). rewrite drop_app_length.
  change (reply_frame (with_frame f s) f sport c) with (reply_frame s f sport c). cbn [omap list_omap].
  by rewrite reply_datagram.
Qed.

Lemma node_serves s q addr db :
  node_ready s -> is_u32 q -> is_u32 addr -> bytes db -> (length db <= 1024)%nat ->
  mapped (n_mem s) addr (Z.of_nat (length db)) ->
  exists s', node_receive garbage sport chk (ifc_ll_ip6 s) NB_PORT_CTRL (message NB_CMD_WRITE (le32 q) addr db) s =
      (s', [(NB_PORT_CTRL, status_msg q)]) /\
    n_mem s' = write_bytes (n_mem s) addr db /\ node_ready s' /\ ifc_ll_ip6 s' = ifc_ll_ip6 s.
Proof.
  intros (Hi & Ht & Hb & Hrx & Hne) Hq Ha Bd Ld Hm. set (msg := message NB_CMD_WRITE (le32 q) addr db).
  assert (bytes msg) as Bm by (by apply bytes_message).
  assert (length msg <= 1040)%nat as Lm by (unfold msg; rewrite length_message by done; lia).
  destruct (frame_for_ok msg s Hi Bm) as [Hf Hacc].
  pose proof (udp_frame_incoming _ _ _ msg s Hf Lm Hb Hrx) as Hin.
  set (f := frame_for msg s) in *.
  destruct (write_served garbage Hgarbage Hgb f (with_frame f s) [] 0 sport (le32 q) addr db chk [] Hi Ht Hin Hacc
    (udp_frame_message _ _ _ _ q addr db Hf Ld ltac:(by_decide) Ha) eq_refl Hchk Hm)
    as (s' & E & M & _ & R & Q & _ & I & T & B & Mac).
  exists s'. split; [|split; [exact M|split]].
  - rewrite node_receive_ctrl by done. unfold handle_frame. fold f. rewrite E. f_equal. by apply (replied_answers s s' f).
  - split; [exact I|]. split; [exact T|]. split; [exact B|]. split; [exact Q|]. by rewrite Mac.
  - destruct Hi as (_ & _ & -> & _), I as (_ & _ & -> & _). by rewrite Mac.
Qed.

#[local] Instance node_bootnode : BootNode node := {|
  node_ram := n_mem;
  node_ip := ifc_ll_ip6;
  node_ok := node_ready;
  receive := node_receive garbage sport chk;
  serve_write := node_serves;
|}.

(** C7: downloading.  The boot client sends a file on a socket connected to the
    loader's control port, through its host's network to the loader - Ethernet
    driver, from the slot register and the frame memory on, IPv6 stack and boot
    protocol - while the
    network may lose messages and answers and delay answers.  The client
    returns; if it reports success, the node's memory holds the file at its
    address and is otherwise unchanged; if not, it holds a part of the file from
    its beginning; either way the node is ready for the next message.  When no
    answer is late and among any five messages in a row one is answered, the
    client succeeds. *)
Theorem file_downloaded seq0 arg0 db0 sock q0 n fn addr chunks (s : client (net node)) :
  sock <> FILE_FD -> sendable sock q0 n fn addr chunks s ->
  exists v s', send_file seq0 arg0 db0 sock fn addr s = Ok v s' /\
    let m := n_mem (n_dev (os s)) in let m' := n_mem (n_dev (os s')) in
    (v = 0 /\ m' = write_bytes m addr (concat chunks) \/ v = -1 /\ partly m addr (concat chunks) m') /\
    node_ready (n_dev (os s')) /\
    (quiet_net s -> patient s -> v = 0).
Proof.
  intros Hsock H.
  destruct (send_file_delivers sock Hsock seq0 arg0 db0 q0 n fn addr chunks s H) as (v & s' & n' & E & _ & C & _ & Hv).
  exists v, s'. split; [exact E|]. split; [exact Hv|]. split; [apply C|]. intros Hq Hp.
  destruct (send_file_succeeds sock Hsock seq0 arg0 db0 q0 n fn addr chunks s H Hq Hp) as (s2 & E2 & _).
  congruence.
Qed.
End node.

(** ** An instance *)

(** An idle node with 64 bytes of RAM, and a client with a file of two pieces for
    it; of the messages every third is lost and every third not answered. *)
Definition idle_node : node :=
  net_boot (replicate 1536 0)
    {| e_sram := replicate 4096 0; e_regs := ∅; e_stalls := [3; 5]; e_rx := []; e_sent := [] |}
    (mem_lit 0x40100000 (replicate 64 0)) {| u_stalls := [2]; u_out := [] |}.

Definition lossy (i : nat) : fate := match (i mod 3)%nat with 0%nat => Lost | 1%nat => NoAnswer | _ => Answered end.

Definition downloading : client (net node) :=
  client_at 1 [] {| n_dev := idle_node; n_queue := []; n_late := []; n_link := 2;
    n_conn := {[SOCK_FD := {| sa_port := NB_PORT_CTRL; sa_ip := link_local node_mac; sa_scope := 2 |}]}; n_count := 0; fates := lossy;
    n_files := [(str "a.bin", [[1; 2; 3; 4]; [5; 6]])]; n_open := []; n_clock := 0; n_socks := 2 |}.

Lemma garbage_bytes : bytes stack_garbage.
Proof. apply Forall_replicate. by_decide. Qed.

#[local] Instance demo_bootnode : BootNode node :=
  node_bootnode stack_garbage eq_refl garbage_bytes [0x30; 0x39] [0xBE; 0xEF] eq_refl ltac:(by_decide) eq_refl
    ltac:(by_decide).

Lemma lossy_patient i : lossy (i + (2 - i mod 3)) = Answered.
Proof.
  assert (exists k r, i = (r + k * 3)%nat /\ (r < 3)%nat) as (k & r & -> & Hr).
  { exists (i / 3)%nat, (i mod 3)%nat. split; [|by apply Nat.mod_upper_bound].
    rewrite (Nat.div_mod_eq i 3) at 1. lia. }
  rewrite Nat.Div0.mod_add, (Nat.mod_small r 3) by done.
  replace (r + k * 3 + (2 - r))%nat with (2 + k * 3)%nat by lia. unfold lossy. by rewrite Nat.Div0.mod_add.
Qed.

Lemma downloading_sendable : sendable SOCK_FD 1 0 (str "a.bin") 0x40100008 [[1; 2; 3; 4]; [5; 6]] downloading.
Proof.
  split; try done; try by_decide.
  split; [done|constructor| |reflexivity]. split; [by_decide|]. split; [by_decide|]. split; [|done].
  exists (replicate 1534 0). split; [done|]. split; [done|]. apply Forall_replicate. by_decide.
Qed.

Lemma file_downloaded_witness :
  exists s', send_file 0 0 (replicate 1024 0) SOCK_FD (str "a.bin") 0x40100008 downloading = Ok 0 s' /\
    n_mem (n_dev (os s')) = write_bytes (n_mem idle_node) 0x40100008 [1; 2; 3; 4; 5; 6].
Proof.
  destruct (file_downloaded stack_garbage eq_refl garbage_bytes [0x30; 0x39] [0xBE; 0xEF] eq_refl ltac:(by_decide)
    eq_refl ltac:(by_decide) 0 0 (replicate 1024 0) SOCK_FD 1 0 (str "a.bin") 0x40100008 [[1; 2; 3; 4]; [5; 6]]
    downloading ltac:(done) downloading_sendable) as (v & s' & E & Hv & _ & Hz).
  assert (v = 0) as ->.
  { apply Hz.
    - split; [done|]. split; [done|]. intros i. cbn. unfold lossy. by destruct (i mod 3)%nat as [|[|]].
    - intros i. exists (2 - i mod 3)%nat. split; [lia|apply lossy_patient]. }
  exists s'. split; [exact E|]. destruct Hv as [[_ Hv]|[Hv _]]; [|clear - Hv; lia]. etransitivity; [exact Hv|].
  f_equal.
Defined.
