(* ===== verification/Host.v ===== *)
(** * The boot client's program (tools/netboot.c)

    The rest of the client of Client.v: the argument parser, the search for the
    node on the local network, and [main], which sends the images and starts
    the first one.  What the host offers beyond [Os] - sockets, the clock, the
    conversions of its C library - is the class [Host]; the laws about
    descriptors are the class [Descriptors]. *)

From S2P Require Import Prelude Monad Hw Mem LibcMem LibcStr Uart Printf Net Netboot Client.

(** ** The host *)

#[local] Abbreviation nl := [10].

(** [os_now] is [None] when the clock cannot be read; [os_recvfrom] is [None]
    for -1; [os_strerror] is the text [perror] adds; [host_strtoul] is
    [strtoul(text, NULL, base)] of the host's library, 64 bits wide. *)
Class Host (W : Type) := {
  host_os :: Os W;
  os_socket : W -> Z * W;
  os_setsockopt : Z -> Z -> W -> Z * W;
  os_nonblock : Z -> W -> Z * W;
  os_connect : Z -> sockaddr -> W -> Z * W;
  os_bind : Z -> sockaddr -> W -> Z * W;
  os_sendto : Z -> list Z -> sockaddr -> W -> Z * W;
  os_recvfrom : Z -> Z -> Z -> W -> option (list Z * sockaddr) * W;
  os_now : W -> option Z * W;
  os_nametoindex : list Z -> W -> Z * W;
  os_ntop : list Z -> option (list Z);
  os_strerror : W -> list Z;
  host_strtoul : list Z -> Z -> Z;
}.

Definition SO_REUSEPORT := 15.
Definition SO_REUSEADDR := 2.

(* src/tools/netboot.c:202-205 image_t *)
Record image_t := { i_name : list Z; i_addr : Z }.
(* src/tools/netboot.c:207-207 *)
Definition IMGMAX := 8.

(** What [main] makes of its arguments. *)
(* src/tools/netboot.c:231-235 main *)
Record options := {
  do_exit : bool; ifname : list Z; nodename : list Z; images : list image_t;
}.
(* src/tools/netboot.c:231-235 main *)
Definition defaults : options :=
  {| do_exit := false; ifname := str "qemu0"; nodename := str "device"; images := [] |}.

(** [strchr(arg, '@')]: the text before the first [@] and behind it. *)
Fixpoint split_at_sign (l : list Z) : option (list Z * list Z) :=
  match l with
  | [] => None
  | c :: l' =>
    if c =? 64 then Some ([], l')
    else option_map (fun p => (c :: p.1, p.2)) (split_at_sign l')
  end.

(* src/tools/netboot.c:215-226 usage *)
Definition usage_text : list Z :=
  nl ++ str "usage:    netboot <option>* <image>+" ++ nl ++ nl ++
  str "option:   -i <interface-name>" ++ nl ++
  str "          -n <node-name>" ++ nl ++ nl ++
  str "image:    <filename>@<hex-load-address>" ++ nl ++ nl ++
  str "Send one or more images to <node-name> on <interface-name>." ++ nl ++
  str "Start execution at the address of the first image." ++ nl ++ nl.

Section code.
Context {W : Type} `{!Host W}.

(** [perror] *)
Definition perror (msg : list Z) : M (client W) unit :=
  s <- get ;; fprintf (msg ++ str ": " ++ os_strerror (os s) ++ nl).

Definition close (fd : Z) : M (client W) unit := sys (fun w => (tt, os_close fd w)).

(** [exit] ends the process: nothing comes after it, and the outcome of a run is
    [Halt] only there.  The host closes what is open. *)
Definition exit {A} (status : Z) : M (client W) A := spin.

(* src/tools/netboot.c:19-25 *)
Definition get_time_ms : M (client W) Z :=
  t <- sys os_now ;;
  match t with Some t => ret t | None => exit (-1) end.

(* src/tools/netboot.c:27-60 *)
Definition open_udp6_socket (addr : sockaddr) (con : bool) : M (client W) Z :=
  s <- sys os_socket ;;
  if s <? 0 then perror (str "open_udp6_socket: open socket") ;; ret (-1)
  else
    let fail msg := perror msg ;; close s ;; ret (-1) in
    r <- sys (os_setsockopt s SO_REUSEPORT) ;;
    if r <? 0 then fail (str "open_udp6_socket: SO_REUSEPORT")
    else
      r <- sys (os_setsockopt s SO_REUSEADDR) ;;
      if r <? 0 then fail (str "open_udp6_socket: SO_REUSEADDR")
      else
        r <- sys (os_nonblock s) ;;
        if r <? 0 then fail (str "open_ud6_socket: set O_NONBLOCK")
        else
          r <- sys (if con then os_connect s addr else os_bind s addr) ;;
          if r <? 0 then
            fail (if con then str "open_udp6_socket: connect" else str "open_udp6_socket: bind")
          else ret s.

(** ff02::1 *)
(* src/tools/netboot.c:75-80 open_node *)
Definition mcast_addr (idx : Z) : sockaddr :=
  {| sa_port := NB_PORT_QUERY; sa_ip := [0xFF; 0x02; 0; 0; 0; 0; 0; 0; 0; 0; 0; 0; 0; 0; 0; 1]; sa_scope := idx |}.

(** Is this the answer to the last query? *)
(* src/tools/netboot.c:116-123 open_node *)
Definition answers_query (q : Z) (l : list Z) : bool :=
  negb (Z.of_nat (length l) <? NB_MSG_MIN) &&
  (field l 0 =? NB_MAGIC) && (field l 4 =? NB_CMD_STATUS) && (field l 8 =? q).

(* src/tools/netboot.c:126-127 open_node *)
Definition located_text (name : list Z) (from : sockaddr) : list Z :=
  nl ++ str "[ located '" ++ name ++ str "' at " ++ from_option id (str "unknown") (os_ntop (sa_ip from)) ++
  str "/" ++ dec (u32 (sa_scope from)) ++ str " ]" ++ nl.

(** The query: [q] is its sequence number. *)
(* src/tools/netboot.c:82-92 open_node *)
Definition query_msg (q : Z) (name : list Z) : netboot_msg :=
  {| magic := NB_MAGIC; cmd := NB_CMD_QUERY; mseq := q; arg := 0;
     db := name ++ replicate (1024 - length name) 0 |}.

(** A query is due: the time of the next one, or the end with -1. *)
(* src/tools/netboot.c:97-105 open_node *)
Definition query_due (s idx msglen next now : Z) (name : list Z) : M (client W) (option Z) :=
  if now >=? next then
    q <- next_seq ;;
    r <- sys (os_sendto s (take (Z.to_nat msglen) (msg_bytes (query_msg q name))) (mcast_addr idx)) ;;
    if negb (u32 r =? msglen) then perror (str "write") ;; ret None
    else ret (Some (now + 500))
  else ret (Some next).

(** Wait for an answer until the next query is due. *)
(* src/tools/netboot.c:106-135 open_node *)
Definition query_wait (s timeout : Z) (name : list Z) : M (client W) (option Z) :=
  p <- sys (os_poll s timeout) ;;
  if negb (p =? 1) then ret None
  else
    r <- sys (os_recvfrom s 2048 1) ;;
    match r with
    | Some ((_ :: _) as l, from) =>
      q <- gets seq ;;
      if answers_query q l then
        fprintf (located_text name from) ;;
        s0 <- open_udp6_socket from true ;;
        if s0 >=? 0 then close s ;; ret (Some s0) else ret None
      else ret None
    | _ => ret None
    end.

(** One turn of the search. *)
(* src/tools/netboot.c:95-136 open_node *)
Definition search_turn (s idx : Z) (name : list Z) (next : Z) : M (client W) (Z + Z) :=
  now <- get_time_ms ;;
  next <- query_due s idx (Z.of_nat (length name) + NB_MSG_MIN) next now name ;;
  match next with
  | None => ret (inr (-1))
  | Some next =>
    r <- query_wait s (next - now) name ;;
    match r with Some s0 => ret (inr s0) | None => ret (inl next) end
  end.

(* src/tools/netboot.c:64-137 *)
Definition open_node (idx : Z) (name : list Z) : M (client W) Z :=
  s <- open_udp6_socket {| sa_port := 0; sa_ip := replicate 16 0; sa_scope := idx |} false ;;
  if s <? 0 then ret (-1)
  else
    let msglen := Z.of_nat (length name) in
    if msglen >? NB_MSG_MAX then ret (-1)
    else if msglen >? NB_DATA_MAX then fault (* memcpy past the end of msg *)
    else
      t <- get_time_ms ;;
      loop (search_turn s idx name) (t + 500).

(** ** The arguments *)

(** [consume]: the option's argument, or the message and the end. *)
(* src/tools/netboot.c:209-213 *)
Definition consume {A} (args : list (list Z)) (k : list Z -> list (list Z) -> M (client W) (A + (Z + options)))
    : M (client W) (A + (Z + options)) :=
  match args with
  | [] => fprintf (str "error: missing argument" ++ nl) ;; ret (inr (inl (-1)))
  | a :: args' => k a args'
  end.

(** One turn of the loop over the arguments; it ends with the exit status of the
    program or with the options. *)
(* src/tools/netboot.c:238-265 main *)
Definition parse_arg : list (list Z) * options -> M (client W) (list (list Z) * options + (Z + options)) :=
  fun '(args, o) =>
    match args with
    | [] => ret (inr (inr o))
    | a :: args' =>
      match split_at_sign a with
      | Some (name, tmp) =>
        if Z.of_nat (length (images o)) =? IMGMAX then
          fprintf (str "error: too many images" ++ nl) ;; ret (inr (inl (-1)))
        else
          ret (inl (args', {| do_exit := do_exit o; ifname := ifname o; nodename := nodename o;
            images := images o ++ [{| i_name := name; i_addr := u32 (host_strtoul tmp 16) |}] |}))
      | None =>
        if decide (a = str "-i") then
          consume args' (fun v args' =>
            ret (inl (args', {| do_exit := do_exit o; ifname := v; nodename := nodename o; images := images o |})))
        else if decide (a = str "-n") then
          consume args' (fun v args' =>
            ret (inl (args', {| do_exit := do_exit o; ifname := ifname o; nodename := v; images := images o |})))
        else if decide (a = str "-h") then fprintf usage_text ;; ret (inr (inl 0))
        else if decide (a = str "-x") then
          ret (inl (args', {| do_exit := true; ifname := ifname o; nodename := nodename o; images := images o |}))
        else fprintf (str "error: unknown argument '" ++ a ++ str "'" ++ nl) ;; ret (inr (inl (-1)))
      end
    end.

(* src/tools/netboot.c:237-265 main *)
Definition parse_args (args : list (list Z)) : M (client W) (Z + options) :=
  loop parse_arg (args, defaults).

(** ** main *)

(** The images from number [n] on; [stack] is what [send_file] finds in its
    uninitialised message. *)
(* src/tools/netboot.c:286-292 main *)
Fixpoint send_images (stack : nat -> Z * Z * list Z) (s : Z) (n : nat) (imgs : list image_t)
    : M (client W) bool :=
  match imgs with
  | [] => ret true
  | i :: imgs' =>
    let '(seq0, arg0, db0) := stack n in
    r <- send_file seq0 arg0 db0 s (i_name i) (i_addr i) ;;
    if negb (r =? 0) then fprintf (nl ++ str "[ send failure ]" ++ nl) ;; close s ;; ret false
    else send_images stack s (S n) imgs'
  end.

(** [db0] is what the uninitialised message holds. *)
(* src/tools/netboot.c:293-302 main *)
Definition start_image (db0 : list Z) (s addr : Z) : M (client W) unit :=
  fprintf (nl ++ str "[ start execution at 0x" ++ justify false true 8 [] (hex false addr) ++ str " ]" ++ nl) ;;
  q <- next_seq ;;
  send_msg s {| magic := NB_MAGIC; cmd := NB_CMD_EXEC; mseq := q; arg := addr; db := db0 |} NB_MSG_MIN ;;
  fprintf nl ;;
  close s.

(** Find the node, send everything and start it; again after a failure. *)
(* src/tools/netboot.c:280-305 main *)
Definition serve_nodes (stack : nat -> Z * Z * list Z) (idx : Z) (o : options) (first : image_t)
    : M (client W) Z :=
  loop (fun _ : unit =>
    s <- open_node idx (str "device") ;;
    if s <? 0 then ret (inr (-1))
    else
      ok <- send_images stack s 0 (images o) ;;
      if (ok : bool) then
        start_image (stack (length (images o))).2 s (i_addr first) ;;
        if do_exit o then ret (inr 0) else ret (inl tt)
      else ret (inl tt)) tt.

(** [args] are the arguments behind the name of the program.  When the interface
    is unknown, [argv[1]] is the null pointer behind the last argument. *)
(* src/tools/netboot.c:228-308 *)
Definition main (stack : nat -> Z * Z * list Z) (args : list (list Z)) : M (client W) Z :=
  p <- parse_args args ;;
  match p with
  | inl status => ret status
  | inr o =>
    match images o with
    | [] => fprintf (str "error: no files to send?" ++ nl) ;; ret (-1)
    | first :: _ =>
      idx <- sys (os_nametoindex (ifname o)) ;;
      if idx =? 0 then fault
      else
        fprintf (nl ++ str "[ netboot v0.1 ]" ++ nl) ;;
        fprintf (str "[ netifc '" ++ ifname o ++ str "' ]" ++ nl) ;;
        fprintf (str "[ nodename '" ++ nodename o ++ str "' ]" ++ nl) ;;
        serve_nodes stack idx o first
    end
  end.
End code.

(** ** The grammar of the arguments *)

(** What a user asks for, one thing after the other. *)
Inductive item :=
| Interface (name : list Z)
| Node (name : list Z)
| Once
| Image (name addr : list Z).

(** As words of the command line. *)
Definition item_words (i : item) : list (list Z) :=
  match i with
  | Interface n => [str "-i"; n]
  | Node n => [str "-n"; n]
  | Once => [str "-x"]
  | Image n a => [n ++ [64] ++ a]
  end.

(** The name of a file has no [@] in it. *)
Definition item_ok (i : item) : Prop :=
  match i with Image n _ => Forall (fun c => c <> 64) n | _ => True end.

Definition words_of (l : list item) : list (list Z) := concat (map item_words l).

Definition is_image (i : item) : Prop := match i with Image _ _ => True | _ => False end.

#[export] Instance is_image_dec i : Decision (is_image i).
Proof. destruct i; apply _. Defined.

#[export] Instance item_ok_dec i : Decision (item_ok i).
Proof. destruct i; apply _. Defined.

Section grammar.
Context {W : Type} `{!Host W}.

(** What an item does to the options: a later one overrides an earlier one, the
    images add up. *)
Definition item_option (o : options) (i : item) : options :=
  match i with
  | Interface n => {| do_exit := do_exit o; ifname := n; nodename := nodename o; images := images o |}
  | Node n => {| do_exit := do_exit o; ifname := ifname o; nodename := n; images := images o |}
  | Once => {| do_exit := true; ifname := ifname o; nodename := nodename o; images := images o |}
  | Image n a => {| do_exit := do_exit o; ifname := ifname o; nodename := nodename o;
      images := images o ++ [{| i_name := n; i_addr := u32 (host_strtoul a 16) |}] |}
  end.

Definition options_of (l : list item) : options := fold_left item_option l defaults.

Lemma split_at_sign_some l n a : split_at_sign l = Some (n, a) <-> l = n ++ [64] ++ a /\ Forall (fun c => c <> 64) n.
Proof.
  revert n. induction l as [|c l IH]; intros n; cbn [split_at_sign].
  - split; [done|]. intros [E _]. by destruct n.
  - destruct (Z.eqb_spec c 64) as [->|Hc].
    + split; [intros [= <- <-]; by split|]. intros [E Hn]. destruct n as [|c n]; cbn in E; [by simplify_eq|].
      apply Forall_cons_iff in Hn as [Hc _]. congruence.
    + destruct (split_at_sign l) as [[n' a']|]; cbn [option_map fst snd].
      * split.
        -- intros [= <- <-]. destruct (proj1 (IH n') eq_refl) as [-> Hn]. split; [done|by constructor].
        -- intros [E Hn]. destruct n as [|c' n]; cbn in E; [by simplify_eq|]. injection E as <- E.
           apply Forall_cons_iff in Hn as [_ Hn]. by injection (proj2 (IH n) (conj E Hn)) as -> ->.
      * split; [done|]. intros [E Hn]. destruct n as [|c' n]; cbn in E; [by simplify_eq|]. injection E as <- E.
        apply Forall_cons_iff in Hn as [_ Hn]. by discriminate (proj2 (IH n) (conj E Hn)).
Qed.

(** One item is read as it is written. *)
Lemma parse_item i rest o (s : client W) :
  item_ok i -> (is_image i -> (length (images o) < 8)%nat) ->
  parse_arg (item_words i ++ rest, o) s = Ok (inl (rest, item_option o i)) s.
Proof.
  intros Hok Hn. destruct i as [n|n| |n a]; cbn [item_words app parse_arg]; try done.
  rewrite (proj2 (split_at_sign_some (n ++ 64 :: a) n a) (conj eq_refl Hok)).
  specialize (Hn I). by rewrite (proj2 (Z.eqb_neq _ IMGMAX)) by (unfold IMGMAX; lia).
Qed.

Definition image_count (l : list item) : nat := length (filter is_image l).

Lemma parse_items l : forall rest o (s : client W) k r,
  Forall item_ok l -> (length (images o) + image_count l <= 8)%nat ->
  runs parse_arg k (rest, fold_left item_option l o) s r ->
  runs parse_arg (length l + k) (words_of l ++ rest, o) s r.
Proof.
  induction l as [|i l IH]; intros rest o s k r Hok Hn Hr; [done|].
  apply Forall_cons_iff in Hok as [Hi Hok]. unfold image_count in *. rewrite filter_cons in Hn.
  unfold words_of. cbn [map concat length Nat.add]. rewrite <- app_assoc. eapply runs_step.
  - apply parse_item; [done|]. intros Him. rewrite decide_True in Hn by done. cbn [length] in Hn. lia.
  - apply IH; [done| |exact Hr]. case_decide as Him; destruct i; cbn [item_option images length] in *; try done; try lia.
    rewrite length_app. cbn [length]. lia.
Qed.

(** The word [a], with [rest] behind it and [n] images before it, ends the
    program with a status and a message. *)
Inductive stops (n : nat) : list Z -> list (list Z) -> Z -> list Z -> Prop :=
| stops_images name addr rest : Forall (fun c => c <> 64) name -> n = 8%nat ->
    stops n (name ++ [64] ++ addr) rest (-1) (str "error: too many images" ++ nl)
| stops_missing a : a = str "-i" \/ a = str "-n" -> stops n a [] (-1) (str "error: missing argument" ++ nl)
| stops_help rest : stops n (str "-h") rest 0 usage_text
| stops_unknown a rest : Forall (fun c => c <> 64) a ->
    a <> str "-i" -> a <> str "-n" -> a <> str "-h" -> a <> str "-x" ->
    stops n a rest (-1) (str "error: unknown argument '" ++ a ++ str "'" ++ nl).

(** The client after printing [l]. *)
Definition said (l : list Z) (s : client W) : client W := {| seq := seq s; err := err s ++ l; os := os s |}.

Lemma fprintf_ok l (s : client W) : fprintf l s = Ok tt (said l s).
Proof. done. Qed.

(** What the loop makes of [args]: it reads the items [l], and then either there
    is nothing left or the next word ends the program. *)
Definition parsed (args : list (list Z)) (o : options) (s : client W) : Prop :=
  exists l rest k, args = words_of l ++ rest /\ Forall item_ok l /\ (k <= length args)%nat /\
    (length (images o) + image_count l <= 8)%nat /\
    match rest with
    | [] => runs parse_arg k (args, o) s (Ok (inr (fold_left item_option l o)) s)
    | a :: rest' => exists status msg, stops (length (images o) + image_count l) a rest' status msg /\
        runs parse_arg k (args, o) s (Ok (inl status) (said msg s))
    end.

Lemma parsed_item i args o s :
  item_ok i -> (is_image i -> (length (images o) < 8)%nat) ->
  parsed args (item_option o i) s -> parsed (item_words i ++ args) o s.
Proof.
  intros Hi Hn (l & rest & k & -> & Hl & Hk & Hc & Hr). exists (i :: l), rest, (S k).
  assert (length (images (item_option o i)) + image_count l = length (images o) + image_count (i :: l))%nat as Ec.
  { unfold image_count. rewrite filter_cons. destruct i; cbn [item_option images];
      (rewrite decide_True by done) || (rewrite decide_False by (intros [])); cbn [length]; try lia.
    rewrite length_app. cbn [length]. lia. }
  split; [unfold words_of; cbn [map concat]; by rewrite app_assoc|]. split; [by constructor|].
  split; [rewrite length_app; destruct i; cbn [item_words length]; lia|]. split; [lia|]. rewrite <- Ec.
  pose proof (parse_item i (words_of l ++ rest) o s Hi Hn) as E. destruct rest as [|a rest].
  - eapply runs_step; [exact E|exact Hr].
  - destruct Hr as (status & msg & Hs & Hr). exists status, msg. split; [done|]. eapply runs_step; [exact E|exact Hr].
Qed.

Lemma parsed_stop a rest o s status msg :
  (length (images o) <= 8)%nat -> stops (length (images o)) a rest status msg ->
  parse_arg (a :: rest, o) s = Ok (inr (inl status)) (said msg s) -> parsed (a :: rest) o s.
Proof.
  intros Hn Hs E. exists [], (a :: rest), 0%nat. split; [done|]. split; [constructor|]. split; [lia|].
  assert (length (images o) + image_count [] = length (images o))%nat as -> by (cbn; lia). split; [done|].
  exists status, msg. split; [done|]. by apply runs_done.
Qed.

Lemma split_at_sign_none l : split_at_sign l = None -> Forall (fun c => c <> 64) l.
Proof.
  induction l as [|c l IH]; cbn [split_at_sign]; [constructor|]. destruct (Z.eqb_spec c 64); [done|].
  intros H. constructor; [done|]. apply IH. by destruct (split_at_sign l).
Qed.

Lemma parse_total n : forall args o s,
  (length args <= n)%nat -> (length (images o) <= 8)%nat -> parsed args o s.
Proof.
  induction n as [|n IH]; intros args o s Hl Hn; destruct args as [|a args]; cbn [length] in Hl; try lia.
  1,2: exists [], [], 0%nat; (split; [done|]); (split; [constructor|]); (split; [done|]); (split; [cbn; lia|]);
    by apply runs_done.
  destruct (split_at_sign a) as [[name addr]|] eqn:Ea.
  - destruct (proj1 (split_at_sign_some _ _ _) Ea) as [-> Hname].
    destruct (decide (length (images o) = 8)%nat) as [H8|H8].
    + apply (parsed_stop _ _ _ _ (-1) (str "error: too many images" ++ nl)); [done|by constructor|].
      unfold parse_arg. rewrite Ea, H8. done.
    + apply (parsed_item (Image name addr)); [done|intros; lia|]. apply IH; [lia|].
      cbn [item_option images]. rewrite length_app. cbn [length]. lia.
  - pose proof (split_at_sign_none a Ea) as Hno.
    destruct (decide (a = str "-i")) as [->|Hi]; [|destruct (decide (a = str "-n")) as [->|Hnn];
      [|destruct (decide (a = str "-h")) as [->|Hh]; [|destruct (decide (a = str "-x")) as [->|Hx]]]].
    + destruct args as [|v args]; [by eapply parsed_stop; [done|apply stops_missing; left|]|].
      apply (parsed_item (Interface v)); [done|intros []|]. apply IH; cbn [length] in Hl; [lia|done].
    + destruct args as [|v args]; [by eapply parsed_stop; [done|apply stops_missing; right|]|].
      apply (parsed_item (Node v)); [done|intros []|]. apply IH; cbn [length] in Hl; [lia|done].
    + by eapply parsed_stop; [done|apply stops_help|].
    + apply (parsed_item Once); [done|intros []|]. apply IH; [lia|done].
    + eapply parsed_stop; [done|by apply stops_unknown|]. unfold parse_arg. rewrite Ea.
      by rewrite !decide_False by done.
Qed.
Lemma length_words l : (length l <= length (words_of l))%nat.
Proof.
  induction l as [|i l IH]; [done|]. unfold words_of in *. cbn [map concat]. rewrite length_app.
  destruct i; cbn [item_words length]; lia.
Qed.

Lemma parse_words l (s : client W) :
  Forall item_ok l -> (image_count l <= 8)%nat -> Z.of_nat (length l) < 2 ^ 31 ->
  parse_args (words_of l) s = Ok (inr (options_of l)) s.
Proof.
  intros Hl Hc Hn. unfold parse_args.
  assert (runs parse_arg 0 ([], fold_left item_option l defaults) s (Ok (inr (options_of l)) s)) as R by (by apply runs_done).
  apply (parse_items l [] defaults s 0) in R; [|done|done]. rewrite app_nil_r in R.
  eapply loop_runs; [exact R|lia].
Qed.

(** C25: the arguments.  The parser ends for every list of arguments.  It reads
    items - options and images, later options overriding earlier ones, at most
    eight images - until there is nothing left, and then returns the options
    they mean; or until a word that cannot be read, and then returns the exit
    status for the reason, after its message: a ninth image, an option without
    its argument, the request for help, an unknown word.  Every list of items is
    read back as the options it means. *)
Theorem parse_args_correct (args : list (list Z)) (s : client W) : Z.of_nat (length args) < 2 ^ 31 ->
  (exists l rest, args = words_of l ++ rest /\ Forall item_ok l /\ (image_count l <= 8)%nat /\
    match rest with
    | [] => parse_args args s = Ok (inr (options_of l)) s
    | a :: rest' => exists status msg, stops (image_count l) a rest' status msg /\
        parse_args args s = Ok (inl status) (said msg s)
    end) /\
  (forall l, args = words_of l -> Forall item_ok l -> (image_count l <= 8)%nat ->
    parse_args args s = Ok (inr (options_of l)) s).
Proof.
  intros Hn. split.
  - destruct (parse_total (length args) args defaults s (le_n _) ltac:(cbn; lia))
      as (l & rest & k & E & Hl & Hk & Hc & Hr).
    exists l, rest. split; [exact E|]. split; [exact Hl|]. split; [exact Hc|]. destruct rest as [|a rest].
    + eapply loop_runs; [exact Hr|lia].
    + destruct Hr as (status & msg & Hs & Hr). exists status, msg. split; [exact Hs|].
      eapply loop_runs; [exact Hr|lia].
  - intros l -> Hl Hc. apply parse_words; [exact Hl|exact Hc|]. pose proof (length_words l). lia.
Qed.

End grammar.

(** ** A local network *)

(** The multicast address of all nodes of a link, ff02::1. *)
Definition all_nodes_ip : list Z := [0xFF; 0x02] ++ replicate 13 0 ++ [1].

(** A node of the network: besides what the client relies on, it answers, from
    its control port, the queries for its name that all nodes get on the query
    port, and starts a program. *)
Class LanNode (D : Type) := {
  lan_boot :: BootNode D;
  node_started : D -> option Z;
  lan_query d q : node_ok d -> is_u32 q ->
    exists d' text, receive all_nodes_ip NB_PORT_QUERY (message NB_CMD_QUERY (le32 q) 0 Netboot.nodename) d =
        (d', [(NB_PORT_CTRL, message NB_CMD_STATUS (le32 q) NB_OK text)]) /\
      node_ram d' = node_ram d /\ node_ok d' /\ node_ip d' = node_ip d;
  lan_exec d q addr : node_ok d -> is_u32 q -> is_u32 addr ->
    exists d', receive (node_ip d) NB_PORT_CTRL (message NB_CMD_EXEC (le32 q) addr []) d =
        (d', [(NB_PORT_CTRL, status_msg q)]) /\
      node_ram d' = node_ram d /\ node_started d' = Some addr;
}.

Section lan.
Context {D : Type} {lan_node : LanNode D}.

(** The host on this network: [to_number] is its [strtoul], [ifindex] its table
    of interfaces.  What is sent goes to the address it is sent to, and what is
    received comes from the node's address and the port it was sent from.  A
    socket is new when it is opened, and one that is connected hears nothing of
    what was sent to another. *)
Context (to_number : list Z -> Z -> Z) (ifindex : list Z -> Z).

Definition new_socket (w : net D) : net D :=
  {| n_dev := n_dev w; n_queue := n_queue w; n_late := n_late w; n_link := n_link w; n_conn := n_conn w; n_count := n_count w; fates := fates w;
     n_files := n_files w; n_open := n_open w; n_clock := n_clock w; n_socks := S (n_socks w) |}.

Definition connected (fd : Z) (a : sockaddr) (w : net D) : net D :=
  {| n_dev := n_dev w; n_queue := []; n_late := []; n_link := n_link w; n_conn := <[fd := a]> (n_conn w);
     n_count := n_count w; fates := fates w; n_files := n_files w; n_open := n_open w; n_clock := n_clock w;
     n_socks := n_socks w |}.

#[local] Instance net_host : Host (net D) := {|
  host_os := net_os;
  os_socket w := (SOCK_FD + Z.of_nat (n_socks w), new_socket w);
  os_setsockopt _ _ w := (0, w);
  os_nonblock _ w := (0, w);
  os_connect fd a w := (0, connected fd a w);
  os_bind _ _ w := (0, w);
  os_sendto _ buf a w := (Z.of_nat (length buf), deliver_to a None buf w);
  os_recvfrom _ _ _ w :=
    match n_queue w with
    | [] => (None, w)
    | m :: q => (Some (m.2, {| sa_port := m.1; sa_ip := node_ip (n_dev w); sa_scope := n_link w |}), with_queue q (n_late w) w)
    end;
  os_now w := (Some (n_clock w), w);
  os_nametoindex n w := (ifindex n, w);
  os_ntop _ := None;
  os_strerror _ := [];
  host_strtoul := to_number;
|}.

(** ** Finding the node *)

Lemma query_bytes q : take (Z.to_nat (6 + NB_MSG_MIN)) (msg_bytes (query_msg q (str "device"))) =
  message NB_CMD_QUERY (le32 q) 0 Netboot.nodename.
Proof. reflexivity. Qed.

Lemma answers_query_status q text : is_u32 q ->
  answers_query q (message NB_CMD_STATUS (le32 q) NB_OK text) = true.
Proof.
  intros Hq. unfold answers_query. rewrite length_message by done.
  rewrite (proj2 (Z.ltb_ge _ _)) by (unfold NB_MSG_MIN; lia). unfold message.
  set (f1 := le32 NB_MAGIC). set (f2 := le32 NB_CMD_STATUS). set (f3 := le32 q). set (f4 := le32 NB_OK).
  assert (field (f1 ++ f2 ++ f3 ++ f4 ++ text) 0 = le_val f1) as -> by exact (field_at [] f1 _ 0 eq_refl eq_refl).
  assert (field (f1 ++ f2 ++ f3 ++ f4 ++ text) 4 = le_val f2) as -> by exact (field_at f1 f2 _ 4 eq_refl eq_refl).
  assert (field (f1 ++ f2 ++ f3 ++ f4 ++ text) 8 = le_val f3) as -> by exact (field_at (f1 ++ f2) f3 _ 8 eq_refl eq_refl).
  change (le_val f1 =? NB_MAGIC) with true. change (le_val f2 =? NB_CMD_STATUS) with true. unfold f3.
  by rewrite (le32_val q Hq), Z.eqb_refl.
Qed.

(** Requests may be lost, answers are not, and of five messages one arrives. *)
Definition lossy_net (s : client (net D)) : Prop := forall i, fates (os s) i = Lost \/ fates (os s) i = Answered.

(** The client between two conversations: nothing is under way. *)
Record idle (s : client (net D)) : Prop := {
  idle_seq : is_u32 (seq s);
  idle_queue : n_queue (os s) = [];
  idle_late : n_late (os s) = [];
  idle_ready : node_ok (n_dev (os s));
}.

Lemma open_socket_ok addr con (s : client (net D)) :
  open_udp6_socket addr con s =
  Ok (SOCK_FD + Z.of_nat (n_socks (os s)))
    (client_at (seq s) (err s) (let w := new_socket (os s) in if con then connected (SOCK_FD + Z.of_nat (n_socks (os s))) addr w else w)).
Proof.
  unfold open_udp6_socket. set (fd := SOCK_FD + Z.of_nat (n_socks (os s))).
  assert (0 <= fd) as Hfd by (unfold fd, SOCK_FD; lia).
  rewrite (bind_ok (sys os_socket) _ s fd (client_at (seq s) (err s) (new_socket (os s)))) by done.
  rewrite (proj2 (Z.ltb_ge fd 0)) by done. by destruct con.
Qed.

(** The state of a search: what a query that is lost changes. *)
Definition searching (s s' : client (net D)) : Prop :=
  idle s' /\ fates (os s') = fates (os s) /\ n_files (os s') = n_files (os s) /\
  n_dev (os s') = n_dev (os s) /\ n_link (os s') = n_link (os s) /\ n_conn (os s') = n_conn (os s).

Section search.
Context (fd idx : Z).

Lemma get_time_ok (s : client (net D)) : get_time_ms s = Ok (n_clock (os s)) s.
Proof. by destruct s. Qed.

(** Nothing is there, so the wait lasts until the next query is due. *)
Lemma query_wait_none t (s : client (net D)) : n_queue (os s) = [] ->
  query_wait fd t (str "device") s = Ok None (client_at (seq s) (err s) (waited t (os s))).
Proof.
  intros Hq. unfold query_wait.
  rewrite (bind_ok (sys (os_poll fd t)) _ s 0 (client_at (seq s) (err s) (waited t (os s)))); [done|].
  unfold sys. cbn [host_os net_host os_poll net_os]. by rewrite Hq.
Qed.

Lemma search_early (s : client (net D)) : idle s ->
  exists s', search_turn fd idx (str "device") (n_clock (os s) + 500) s = Ok (inl (n_clock (os s) + 500)) s' /\
    searching s s' /\ n_clock (os s') = n_clock (os s) + 500 /\ n_count (os s') = n_count (os s).
Proof.
  intros [I1 I2 I3 I4]. unfold search_turn. step (get_time_ok s). unfold query_due.
  rewrite Z.geb_leb, (proj2 (Z.leb_gt _ _)) by lia. rewrite bind_ret.
  step (query_wait_none (n_clock (os s) + 500 - n_clock (os s)) s I2). eexists. split; [reflexivity|].
  split; [|split; [cbn; lia|done]]. split; [by split|done].
Qed.

(** What sending a query does. *)
Lemma query_sent next (s : client (net D)) : next <= n_clock (os s) ->
  let q := u32 (seq s + 1) in
  query_due fd idx (6 + NB_MSG_MIN) next (n_clock (os s)) (str "device") s =
  Ok (Some (n_clock (os s) + 500)) (client_at q (err s)
    (deliver_to (mcast_addr idx) None (message NB_CMD_QUERY (le32 q) 0 Netboot.nodename) (os s))).
Proof.
  intros Hn q. unfold query_due. rewrite Z.geb_leb, (proj2 (Z.leb_le _ _)) by done.
  rewrite (bind_ok next_seq _ s q (client_at q (err s) (os s))) by done. rewrite query_bytes.
  set (msg := message _ _ _ _). assert (length msg = 22)%nat as Lm by (by apply length_message).
  set (w := deliver_to (mcast_addr idx) None msg (os s)).
  rewrite (bind_ok (sys _) _ _ (Z.of_nat (length msg)) (client_at q (err s) w)) by done. by rewrite Lm.
Qed.

Lemma search_lost next (s : client (net D)) :
  idle s -> next <= n_clock (os s) -> fates (os s) (n_count (os s)) = Lost ->
  exists next' s', search_turn fd idx (str "device") next s = Ok (inl next') s' /\
    searching s s' /\ next' <= n_clock (os s') /\ n_count (os s') = S (n_count (os s)).
Proof.
  intros [I1 I2 I3 I4] Hn Hf. unfold search_turn. step (get_time_ok s).
  change (Z.of_nat (length (str "device")) + NB_MSG_MIN) with (6 + NB_MSG_MIN).
  pose proof (query_sent next s Hn) as E. cbv zeta in E. step E. set (q := u32 (seq s + 1)) in *.
  set (msg := message _ _ _ _). set (w := deliver_to (mcast_addr idx) None msg (os s)).
  assert (n_queue w = [] /\ n_late w = [] /\ n_dev w = n_dev (os s) /\ n_clock w = n_clock (os s) /\
    n_count w = S (n_count (os s)) /\ fates w = fates (os s) /\ n_files w = n_files (os s) /\
    n_link w = n_link (os s) /\ n_conn w = n_conn (os s)) as (W1 & W2 & W3 & W4 & W5 & W6 & W7 & W8 & W9).
  { unfold w, deliver_to, arrive. destruct (if decide _ then _ else _) as [d answers]. rewrite Hf.
    cbn. by rewrite I2, I3. }
  step (query_wait_none (n_clock (os s) + 500 - n_clock (os s)) (client_at q (err s) w) W1).
  eexists _, _. split; [reflexivity|]. cbn [client_at os waited n_clock n_count]. split; [|split; [lia|done]].
  split; [split|]; cbn [client_at os seq waited n_queue n_late n_dev fates n_files n_link n_conn]; try done.
  - apply u32_range.
  - by rewrite W3.
Qed.

Lemma search_answered next (s : client (net D)) :
  idle s -> n_link (os s) = idx -> next <= n_clock (os s) -> fates (os s) (n_count (os s)) = Answered ->
  exists s0 s', search_turn fd idx (str "device") next s = Ok (inr s0) s' /\ SOCK_FD <= s0 /\ wired s0 s' /\
    idle s' /\ fates (os s') = fates (os s) /\ n_files (os s') = n_files (os s) /\
    node_ram (n_dev (os s')) = node_ram (n_dev (os s)).
Proof.
  intros [I1 I2 I3 I4] Hlink Hn Hf. unfold search_turn. step (get_time_ok s).
  change (Z.of_nat (length (str "device")) + NB_MSG_MIN) with (6 + NB_MSG_MIN).
  pose proof (query_sent next s Hn) as E. cbv zeta in E. step E. set (q := u32 (seq s + 1)) in *.
  destruct (lan_query (n_dev (os s)) q I4 (u32_range _)) as (d & text & Es & Er & Ho & Ei).
  set (msg := message NB_CMD_QUERY _ _ _) in *. set (w := deliver_to (mcast_addr idx) None msg (os s)).
  set (l := message NB_CMD_STATUS (le32 q) NB_OK text) in *.
  assert (n_queue w = [(NB_PORT_CTRL, l)] /\ n_late w = [] /\ n_dev w = d /\ fates w = fates (os s) /\
    n_files w = n_files (os s) /\ n_link w = n_link (os s)) as (W1 & W2 & W3 & W4 & W5 & W6).
  { unfold w, deliver_to. rewrite decide_True by done.
    change (sa_ip (mcast_addr idx)) with all_nodes_ip. change (sa_port (mcast_addr idx)) with NB_PORT_QUERY.
    rewrite Es, filter_cons, decide_True, filter_nil by done. unfold arrive. rewrite Hf. cbn. by rewrite I2, I3. }
  unfold query_wait.
  rewrite bind_assoc.
  rewrite (bind_ok (sys (os_poll fd _)) _ _ 1 (client_at q (err s) w)).
  2: { unfold sys. cbn [host_os net_host os_poll net_os client_at os]. by rewrite W1. }
  change (negb (1 =? 1)) with false. cbn iota. rewrite bind_assoc.
  rewrite (bind_ok (sys (os_recvfrom fd 2048 1)) _ _ (Some (l, node_addr w)) (client_at q (err s) (with_queue [] [] w))).
  2: { unfold sys. cbn [net_host os_recvfrom client_at os seq err]. by rewrite W1, W2. }
  assert (exists c l', l = c :: l') as (c & l' & El) by (unfold l, message; cbn; eauto). rewrite El.
  rewrite bind_assoc. unfold gets at 1, bind at 1. cbn [client_at seq]. rewrite <- El.
  unfold l. rewrite answers_query_status by apply u32_range. fold l.
  rewrite bind_assoc. unfold fprintf, modify, bind at 1. cbn [client_at seq err os].
  rewrite bind_assoc.
  set (s2 := {| seq := q; err := _; os := _ |}).
  step (open_socket_ok (node_addr w) true s2).
  rewrite Z.geb_leb, (proj2 (Z.leb_le _ _)) by (unfold SOCK_FD; lia).
  eexists _, _. split; [reflexivity|]. split; [unfold SOCK_FD; lia|]. split; [by apply lookup_insert_eq|].
  cbn. split; [|split; [done|split; [done|by rewrite W3]]].
  split; cbn; try done; [apply u32_range|by rewrite W3].
Qed.

(** A search ends with the node. *)
Lemma search_ok j : forall next (s : client (net D)),
  idle s -> n_link (os s) = idx -> next <= n_clock (os s) -> lossy_net s -> fates (os s) (n_count (os s) + j) = Answered ->
  exists k s0 s', (k <= j)%nat /\ runs (search_turn fd idx (str "device")) k next s (Ok s0 s') /\ SOCK_FD <= s0 /\ wired s0 s' /\
    idle s' /\ fates (os s') = fates (os s) /\ n_files (os s') = n_files (os s) /\
    node_ram (n_dev (os s')) = node_ram (n_dev (os s)).
Proof.
  induction j as [|j IH]; intros next s Hi Hk0 Hn Hl Hj.
  - rewrite Nat.add_0_r in Hj. destruct (search_answered next s Hi Hk0 Hn Hj) as (s0 & s' & E & H).
    exists 0%nat, s0, s'. split; [done|]. split; [by apply runs_done|exact H].
  - destruct (Hl (n_count (os s))) as [Hf|Hf].
    + destruct (search_lost next s Hi Hn Hf) as (next' & s1 & E & (I1 & F1 & N1 & D1 & L1 & _) & Hn1 & C1).
      destruct (IH next' s1 I1 ltac:(congruence) Hn1) as (k & s0 & s' & Hk & R & Hs & Hw & H).
      { intros i. rewrite F1. apply Hl. }
      { rewrite F1, C1, <- Hj. f_equal. lia. }
      exists (S k), s0, s'. split; [lia|]. split; [by eapply runs_step|]. split; [done|]. split; [done|].
      by rewrite <- F1, <- N1, <- D1.
    + destruct (search_answered next s Hi Hk0 Hn Hf) as (s0 & s' & E & H).
      exists 0%nat, s0, s'. split; [lia|]. split; [by apply runs_done|exact H].
Qed.
End search.

Lemma open_node_ok idx (s : client (net D)) :
  idle s -> n_link (os s) = idx -> lossy_net s -> patient s ->
  exists s0 s', open_node idx (str "device") s = Ok s0 s' /\ SOCK_FD <= s0 /\ wired s0 s' /\
    idle s' /\ fates (os s') = fates (os s) /\ n_files (os s') = n_files (os s) /\
    node_ram (n_dev (os s')) = node_ram (n_dev (os s)).
Proof.
  intros [I1 I2 I3 I4] Hlink Hl Hp. unfold open_node. set (addr := {| sa_port := 0; sa_ip := _; sa_scope := idx |}).
  set (fd := SOCK_FD + Z.of_nat (n_socks (os s))). set (s1 := client_at (seq s) (err s) (new_socket (os s))).
  assert (open_udp6_socket addr false s = Ok fd s1) as Eo by apply open_socket_ok. step Eo.
  rewrite (proj2 (Z.ltb_ge fd 0)) by (unfold fd, SOCK_FD; lia).
  change (Z.of_nat (length (str "device"))) with 6. change (6 >? NB_MSG_MAX) with false.
  change (6 >? NB_DATA_MAX) with false. cbn iota. step (get_time_ok s1).
  destruct (search_early fd idx s1) as (s2 & E2 & (J2 & F2 & N2 & D2 & L2 & _) & C2 & K2); [by split|].
  destruct (Hp (n_count (os s))) as (j & Hj & Hf).
  destruct (search_ok fd idx j (n_clock (os s1) + 500) s2 J2) as (k & s0 & s' & Hk & R & Hs & Hw & H).
  - by rewrite L2.
  - rewrite C2. lia.
  - intros i. rewrite F2. apply Hl.
  - rewrite F2, K2. exact Hf.
  - exists s0, s'. rewrite F2, N2, D2 in H. split; [|split; [done|split; [done|exact H]]].
    apply (loop_runs _ (S k)); [|lia]. by eapply runs_step.
Qed.

(** ** Sending the images *)

(** The contents of an image's file, and where it goes. *)
Definition image_data (fs : list (list Z * list (list Z))) (i : image_t) : list Z :=
  concat (from_option id [] (find_file fs (i_name i))).

Definition store_image (fs : list (list Z * list (list Z))) (m : mem) (i : image_t) : mem :=
  write_bytes m (i_addr i) (image_data fs i).

(** An image that can be sent: its file is there and fits in the node's memory. *)
Definition image_fits (fs : list (list Z * list (list Z))) (m : mem) (i : image_t) : Prop :=
  exists chunks, find_file fs (i_name i) = Some chunks /\ pieces chunks /\
    mapped m (i_addr i) (Z.of_nat (length (concat chunks))) /\
    0 <= i_addr i /\ i_addr i + Z.of_nat (length (concat chunks)) < 2 ^ 32.

Definition image_blocks (fs : list (list Z * list (list Z))) (i : image_t) : nat :=
  length (from_option id [] (find_file fs (i_name i))).

Definition total_blocks (fs : list (list Z * list (list Z))) (imgs : list image_t) : nat :=
  sum_list (map (image_blocks fs) imgs).

Section images.
Context (stack : nat -> Z * Z * list Z) (sock : Z) (Hsock : sock <> FILE_FD).

(** One image after the other, over any network: the client stops at the first
    that fails, and if none does the memory holds them all; with a patient
    network none fails. *)
Lemma send_images_ok q0 imgs : forall k n (s : client (net D)),
  conversation sock q0 n s -> Forall (image_fits (n_files (os s)) (node_ram (n_dev (os s)))) imgs ->
  Z.of_nat (n + 5 * total_blocks (n_files (os s)) imgs) < 2 ^ 32 ->
  exists b s' n', send_images stack sock k imgs s = Ok b s' /\ conversation sock q0 n' s' /\ steady s s' /\
    (b = true -> node_ram (n_dev (os s')) = fold_left (store_image (n_files (os s))) imgs (node_ram (n_dev (os s)))) /\
    (quiet_net s -> patient s -> b = true /\ quiet_net s').
Proof.
  induction imgs as [|i imgs IH]; intros k n s Hc Hfit Hn; cbn [send_images].
  { exists true, s, n. split; [done|]. split; [done|]. by split. }
  apply Forall_cons_iff in Hfit as [(chunks & Hf & Hp & Hm & Ha1 & Ha2) Hfit].
  destruct (stack k) as [[seq0 arg0] db0].
  unfold total_blocks in Hn. cbn [map sum_list] in Hn. fold (total_blocks (n_files (os s)) imgs) in Hn.
  unfold image_blocks in Hn. rewrite Hf in Hn. cbn [from_option id] in Hn.
  assert (sendable sock q0 n (i_name i) (i_addr i) chunks s) as Hsend by (split; try done; lia).
  destruct (send_file_delivers sock Hsock seq0 arg0 db0 q0 n (i_name i) (i_addr i) chunks s Hsend)
    as (v & s1 & n1 & E & Hn1 & C1 & [St1 St2] & Hv).
  change (@send_file (net D) net_os) with (@send_file (net D) (@host_os _ net_host)) in E. step E.
  destruct Hv as [[-> Hram]|[-> Hram]].
  - change (negb (0 =? 0)) with false. cbn iota.
    destruct (IH (S k) n1 s1 C1) as (b & s' & n' & E' & C' & [T1 T2] & Hb & Hq).
    { rewrite St2, Hram. eapply Forall_impl; [|exact Hfit]. intros i' (c' & F1 & F2 & F3 & F4).
      exists c'. split; [done|]. split; [done|]. split; [by apply mapped_write|done]. }
    { rewrite St2. lia. }
    exists b, s', n'. split; [done|]. split; [done|]. split; [split; congruence|]. split.
    + intros ->. rewrite Hb, St2, Hram by done. cbn [fold_left]. unfold store_image at 3, image_data. by rewrite Hf.
    + intros Q P. destruct (send_file_succeeds sock Hsock seq0 arg0 db0 q0 n (i_name i) (i_addr i) chunks s Hsend Q P)
        as (s2 & E2 & _ & Q2). change (@send_file (net D) net_os) with (@send_file (net D) (@host_os _ net_host)) in E2.
      rewrite E in E2. injection E2 as ->. apply Hq; [done|]. intros j. rewrite St1. apply P.
  - change (negb (-1 =? 0)) with true. cbn iota. unfold fprintf, modify, bind at 1.
    exists false. eexists _, n1. split; [reflexivity|]. split; [by destruct C1|]. split; [by split|].
    split; [done|]. intros Q P.
    destruct (send_file_succeeds sock Hsock seq0 arg0 db0 q0 n (i_name i) (i_addr i) chunks s Hsend Q P)
      as (s2 & E2 & _). change (@send_file (net D) net_os) with (@send_file (net D) (@host_os _ net_host)) in E2.
    rewrite E in E2. discriminate E2.
Qed.
End images.

(** ** Starting the program *)

Definition exec_msg (q addr : Z) (db0 : list Z) : netboot_msg :=
  {| magic := NB_MAGIC; cmd := NB_CMD_EXEC; mseq := q; arg := addr; db := db0 |}.

Lemma exec_bytes q addr db0 :
  take (Z.to_nat NB_MSG_MIN) (msg_bytes (exec_msg q addr db0)) = message NB_CMD_EXEC (le32 q) addr [].
Proof. unfold msg_bytes, message, exec_msg. cbn [magic cmd mseq arg db]. by rewrite app_nil_r. Qed.

Section exec.
Context (sock : Z) (Hsock : sock <> FILE_FD) (addr : Z) (Haddr : is_u32 addr) (db0 : list Z).

(** The client after the message is written. *)
Definition exec_written (s : client (net D)) : client (net D) :=
  let q := u32 (seq s + 1) in client_at q (err s) (deliver (message NB_CMD_EXEC (le32 q) addr []) (os s)).

Lemma exec_write retry q0 (s : client (net D)) : retry < 5 -> wired sock s ->
  send_try sock NB_MSG_MIN (retry, exec_msg q0 addr db0) s =
  (p <- sys (os_poll sock 250) ;;
   if negb (p =? 1) then fprintf [84] ;; ret (inl (retry + 1, exec_msg (u32 (seq s + 1)) addr db0))
   else
     r <- sys (os_read sock 1040) ;;
     q <- gets seq ;;
     let '(mark, res) := judge q r in
     fprintf [mark] ;;
     match res with
     | Some v => ret (inr (v, exec_msg (u32 (seq s + 1)) addr db0))
     | None => ret (inl (retry + 1, exec_msg (u32 (seq s + 1)) addr db0))
     end) (exec_written s).
Proof.
  intros Hr Hwired. unfold send_try. rewrite (proj2 (Z.ltb_lt _ _)) by done. set (q := u32 (seq s + 1)).
  rewrite (bind_ok next_seq _ s q (client_at q (err s) (os s))) by done. cbv zeta.
  change (with_mseq q (exec_msg q0 addr db0)) with (exec_msg q addr db0). rewrite exec_bytes.
  set (msg := message _ _ _ _). assert (length msg = 16)%nat as Lm by (by apply length_message).
  rewrite (bind_ok (sys _) _ _ (Z.of_nat (length msg)) (exec_written s)); [by rewrite Lm|].
  unfold sys. cbn [client_at os host_os net_host]. by rewrite write_wired.
Qed.

Lemma exec_lost retry q0 (s : client (net D)) :
  retry < 5 -> idle s -> wired sock s -> fates (os s) (n_count (os s)) = Lost ->
  exists s', send_try sock NB_MSG_MIN (retry, exec_msg q0 addr db0) s =
      Ok (inl (retry + 1, exec_msg (u32 (seq s + 1)) addr db0)) s' /\
    searching s s' /\ n_count (os s') = S (n_count (os s)).
Proof.
  intros Hr [I1 I2 I3 I4] Hwired Hf. rewrite exec_write by done.
  set (q := u32 (seq s + 1)). set (msg := message NB_CMD_EXEC (le32 q) addr []).
  set (w := deliver msg (os s)).
  assert (n_queue w = [] /\ n_late w = [] /\ n_dev w = n_dev (os s) /\ n_count w = S (n_count (os s)) /\
    fates w = fates (os s) /\ n_files w = n_files (os s) /\ n_link w = n_link (os s) /\ n_conn w = n_conn (os s))
    as (W1 & W2 & W3 & W4 & W5 & W6 & W7 & W8).
  { unfold w, deliver, deliver_to, arrive. destruct (if decide _ then _ else _) as [d answers]. rewrite Hf.
    cbn. by rewrite I2, I3. }
  rewrite (bind_ok (sys (os_poll sock 250)) _ _ 0 (client_at q (err s) (waited 250 w))).
  2: { unfold sys, exec_written. cbv zeta. fold q. fold msg. fold w. cbn [host_os net_host os_poll net_os client_at os]. by rewrite W1. }
  eexists. split; [reflexivity|]. split; [split; [split|]|]; cbn; try done; [apply u32_range|by rewrite W3].
Qed.

Lemma exec_answered retry q0 (s : client (net D)) :
  retry < 5 -> idle s -> wired sock s -> fates (os s) (n_count (os s)) = Answered ->
  exists s', send_try sock NB_MSG_MIN (retry, exec_msg q0 addr db0) s =
      Ok (inr (0, exec_msg (u32 (seq s + 1)) addr db0)) s' /\
    node_ram (n_dev (os s')) = node_ram (n_dev (os s)) /\ node_started (n_dev (os s')) = Some addr.
Proof.
  intros Hr [I1 I2 I3 I4] Hwired Hf. rewrite exec_write by done.
  set (q := u32 (seq s + 1)). set (msg := message NB_CMD_EXEC (le32 q) addr []).
  destruct (lan_exec (n_dev (os s)) q addr I4 (u32_range _) Haddr) as (d & Es & Er & Hd).
  set (w := deliver msg (os s)).
  assert (n_queue w = [status_dg q] /\ n_late w = [] /\ n_dev w = d) as (W1 & W2 & W3).
  { unfold w, msg. rewrite (deliver_answers _ _ _ _ Es). unfold arrive. rewrite Hf. cbn. by rewrite I2, I3. }
  rewrite (bind_ok (sys (os_poll sock 250)) _ _ 1 (client_at q (err s) w)).
  2: { unfold sys, exec_written. cbv zeta. fold q. fold msg. fold w. cbn [host_os net_host os_poll net_os client_at os]. by rewrite W1. }
  change (negb (1 =? 1)) with false. cbn iota.
  rewrite (bind_ok (sys (os_read sock 1040)) _ _ (Some (status_msg q)) (client_at q (err s) (with_queue [] [] w))).
  2: { unfold sys. cbn [host_os net_host os_read net_os client_at os seq err]. rewrite (proj2 (Z.eqb_neq _ _) Hsock). by rewrite W1, W2. }
  unfold gets, bind at 1. cbn [client_at seq]. rewrite judge_status, Z.eqb_refl by apply u32_range.
  eexists. split; [reflexivity|]. cbn. by rewrite W3.
Qed.

Lemma exec_tries j : forall retry q0 (s : client (net D)),
  retry + Z.of_nat j < 5 -> idle s -> wired sock s -> lossy_net s -> fates (os s) (n_count (os s) + j) = Answered ->
  exists i q s', (i <= j)%nat /\
    runs (send_try sock NB_MSG_MIN) i (retry, exec_msg q0 addr db0) s (Ok (0, exec_msg q addr db0) s') /\
    node_ram (n_dev (os s')) = node_ram (n_dev (os s)) /\ node_started (n_dev (os s')) = Some addr.
Proof.
  induction j as [|j IH]; intros retry q0 s Hr Hi Hw Hl Hj.
  - rewrite Nat.add_0_r in Hj. destruct (exec_answered retry q0 s ltac:(lia) Hi Hw Hj) as (s' & E & H).
    eexists 0%nat, _, s'. split; [done|]. split; [by apply runs_done|exact H].
  - destruct (Hl (n_count (os s))) as [Hf|Hf].
    + destruct (exec_lost retry q0 s ltac:(lia) Hi Hw Hf) as (s1 & E & (I1 & F1 & N1 & D1 & L1 & P1) & C1).
      destruct (IH (retry + 1) (u32 (seq s + 1)) s1) as (i & q & s' & Hi' & R & H); [lia|done| | | |].
      { unfold wired, node_addr. by rewrite P1, D1, L1. }
      { intros i. rewrite F1. apply Hl. }
      { rewrite F1, C1, <- Hj. f_equal. lia. }
      exists (S i), q, s'. split; [lia|]. split; [by eapply runs_step|]. by rewrite D1 in H.
    + destruct (exec_answered retry q0 s ltac:(lia) Hi Hw Hf) as (s' & E & H).
      eexists 0%nat, _, s'. split; [lia|]. split; [by apply runs_done|exact H].
Qed.
End exec.

Lemma start_image_ok db0 sock addr (s : client (net D)) :
  sock <> FILE_FD -> is_u32 addr -> idle s -> wired sock s -> lossy_net s -> patient s ->
  exists s', start_image db0 sock addr s = Ok tt s' /\
    node_ram (n_dev (os s')) = node_ram (n_dev (os s)) /\ node_started (n_dev (os s')) = Some addr.
Proof.
  intros Hsock Ha [I1 I2 I3 I4] Hw Hl Hp. unfold start_image, fprintf at 1, modify, bind at 1.
  set (s1 := {| seq := seq s; err := _; os := os s |}). set (q := u32 (seq s + 1)).
  set (s2 := client_at q (err s1) (os s)). rewrite (bind_ok next_seq _ s1 q s2) by done.
  destruct (Hp (n_count (os s))) as (j & Hj & Hf).
  destruct (exec_tries sock Hsock addr Ha db0 j 0 q s2) as (i & q' & s' & Hi & R & Hr & Hs);
    [lia|by split; [apply u32_range|..]|exact Hw|exact Hl|exact Hf|].
  assert (send_msg sock (exec_msg q addr db0) NB_MSG_MIN s2 = Ok (0, exec_msg q' addr db0) s') as E
    by (eapply loop_runs; [exact R|lia]).
  change (@send_msg (net D) net_os) with (@send_msg (net D) (@host_os _ net_host)) in E. unfold exec_msg in E.
  step E. eexists. split; [reflexivity|]. done.
Qed.

(** ** main *)

Lemma idle_conversation sock (s : client (net D)) : idle s -> wired sock s -> conversation sock (seq s) 0 s.
Proof.
  intros [I1 I2 I3 I4] Hw. split; [|by rewrite I2, I3; constructor|done|done].
  rewrite Z.add_0_r. symmetry. by apply u32_small.
Qed.

Lemma lossy_quiet (s : client (net D)) : idle s -> lossy_net s -> quiet_net s.
Proof.
  intros [I1 I2 I3 I4] Hl. split; [done|]. split; [done|]. intros i. by destruct (Hl i) as [-> | ->].
Qed.

Lemma conversation_idle sock q0 n (s : client (net D)) : conversation sock q0 n s -> quiet_net s -> idle s.
Proof. intros [C1 C2 C3 C4] (Q1 & Q2 & _). split; try done. rewrite C1. apply u32_range. Qed.

Section serve.
Context (stack : nat -> Z * Z * list Z) (idx : Z) (o : options) (first : image_t) (rest : list image_t).
Context (Hexit : do_exit o = true) (Himgs : images o = first :: rest).

Lemma serve_nodes_ok (s : client (net D)) :
  idle s -> n_link (os s) = idx -> lossy_net s -> patient s ->
  Forall (image_fits (n_files (os s)) (node_ram (n_dev (os s)))) (images o) ->
  Z.of_nat (5 * total_blocks (n_files (os s)) (images o)) < 2 ^ 32 ->
  exists s', serve_nodes stack idx o first s = Ok 0 s' /\
    node_ram (n_dev (os s')) = fold_left (store_image (n_files (os s))) (images o) (node_ram (n_dev (os s))) /\
    node_started (n_dev (os s')) = Some (i_addr first).
Proof.
  intros Hi Hk Hl Hp Hfit Hn.
  destruct (open_node_ok idx s Hi Hk Hl Hp) as (s0 & s1 & E1 & Hs0 & W1 & I1 & F1 & N1 & R1).
  assert (s0 <> FILE_FD) as Hsock by (unfold FILE_FD, SOCK_FD in *; lia).
  assert (lossy_net s1) as L1 by (intros i; rewrite F1; apply Hl).
  assert (patient s1) as P1 by (intros i; rewrite F1; apply Hp).
  destruct (send_images_ok stack s0 Hsock (seq s1) (images o) 0 0 s1 (idle_conversation s0 s1 I1 W1))
    as (b & s2 & n2 & E2 & C2 & [F2 N2] & Hb & Hq); [by rewrite N1, R1|rewrite N1; lia|].
  destruct (Hq (lossy_quiet s1 I1 L1) P1) as [-> Q2]. specialize (Hb eq_refl).
  assert (is_u32 (i_addr first)) as Ha.
  { rewrite Himgs in Hfit. apply Forall_cons_iff in Hfit as [(c & _ & _ & _ & H1 & H2) _]. unfold is_u32. lia. }
  destruct (start_image_ok (stack (length (images o))).2 s0 (i_addr first) s2 Hsock Ha)
    as (s3 & E3 & R3 & St3); [by eapply conversation_idle|by apply C2|intros i; rewrite F2; apply L1|intros i; rewrite F2; apply P1|].
  exists s3. split; [|split; [|done]].
  - unfold serve_nodes. apply (loop_runs _ 0); [|done]. apply runs_done. step E1.
    rewrite (proj2 (Z.ltb_ge s0 0)) by (unfold SOCK_FD in Hs0; lia). step E2. step E3. by rewrite Hexit.
  - by rewrite R3, Hb, N1, R1.
Qed.
End serve.

(** A command line with [-x] and at least one image, over a network that loses
    requests: [main] returns 0, the node's memory holds the images, and the node
    has started the first one. *)
Lemma main_ok stack l first rest (s : client (net D)) :
  Forall item_ok l -> (image_count l <= 8)%nat -> Z.of_nat (length l) < 2 ^ 31 ->
  let o := options_of l in
  do_exit o = true -> images o = first :: rest -> ifindex (ifname o) <> 0 -> n_link (os s) = ifindex (ifname o) ->
  idle s -> lossy_net s -> patient s ->
  Forall (image_fits (n_files (os s)) (node_ram (n_dev (os s)))) (images o) ->
  Z.of_nat (5 * total_blocks (n_files (os s)) (images o)) < 2 ^ 32 ->
  exists s', main stack (words_of l) s = Ok 0 s' /\
    node_ram (n_dev (os s')) = fold_left (store_image (n_files (os s))) (images o) (node_ram (n_dev (os s))) /\
    node_started (n_dev (os s')) = Some (i_addr first).
Proof.
  intros Hl Hc Hn o Hx Ho Hif Hlink Hi Hlossy Hp Hfit Hb. unfold main. step (parse_words l s Hl Hc Hn). fold o.
  rewrite Ho. rewrite (bind_ok (sys _) _ s (ifindex (ifname o)) s) by by destruct s.
  rewrite (proj2 (Z.eqb_neq _ _) Hif). do 3 (rewrite (bind_ok _ _ _ _ _ (fprintf_ok _ _))).
  set (s1 := said _ _). assert (idle s1) as Hi1 by (destruct Hi as [I1 I2 I3 I4]; split; [exact I1|exact I2|exact I3|exact I4]).
  destruct (serve_nodes_ok stack (ifindex (ifname o)) o first rest Hx Ho s1 Hi1 Hlink Hlossy Hp Hfit Hb)
    as (s' & E & H). exists s'. split; [exact E|]. rewrite <- Ho. exact H.
Qed.
End lan.

(** ** Descriptors *)

(** What [socket] and [open] do to the set of open descriptors. *)
Definition opened (s : Z) (D D' : gset Z) : Prop :=
  if s <? 0 then D' = D else (s ∉ D) /\ D' = {[s]} ∪ D.

(** A host with a set of open descriptors: [socket] and [open] add one, [close]
    takes one away, and nothing else changes them. *)
Class Descriptors (W : Type) `{!Host W} := {
  fds : W -> gset Z;
  fds_socket w : opened (os_socket w).1 (fds w) (fds (os_socket w).2);
  fds_open n w : opened (os_open n w).1 (fds w) (fds (os_open n w).2);
  fds_close s w : fds (os_close s w) = fds w ∖ {[s]};
  fds_setsockopt s o w : fds (os_setsockopt s o w).2 = fds w;
  fds_nonblock s w : fds (os_nonblock s w).2 = fds w;
  fds_connect s a w : fds (os_connect s a w).2 = fds w;
  fds_bind s a w : fds (os_bind s a w).2 = fds w;
  fds_sendto s l a w : fds (os_sendto s l a w).2 = fds w;
  fds_recvfrom s n f w : fds (os_recvfrom s n f w).2 = fds w;
  fds_write s l w : fds (os_write s l w).2 = fds w;
  fds_read s n w : fds (os_read s n w).2 = fds w;
  fds_poll s t w : fds (os_poll s t w).2 = fds w;
  fds_now w : fds (os_now w).2 = fds w;
  fds_nametoindex n w : fds (os_nametoindex n w).2 = fds w;
}.

Lemma opened_closed (s : Z) (D : gset Z) : s ∉ D -> ({[s]} ∪ D) ∖ {[s]} = D.
Proof. set_solver. Qed.

Section descriptors.
Context {W : Type} `{!Host W, !Descriptors W}.

(** What a program does to the descriptors, by what it returns. *)
Definition moves {A} (R : A -> gset Z -> gset Z -> Prop) (c : M (client W) A) : Prop :=
  forall s a s', c s = Ok a s' -> R a (fds (os s)) (fds (os s')).

Definition same {A} : A -> gset Z -> gset Z -> Prop := fun _ D D' => D' = D.
Definition closes {A} (s : Z) : A -> gset Z -> gset Z -> Prop := fun _ D D' => D' = D ∖ {[s]}.

Lemma moves_ret {A} (R : A -> gset Z -> gset Z -> Prop) a : (forall D, R a D D) -> moves R (ret a).
Proof. intros H s a' s' [= <- <-]. apply H. Qed.

Lemma moves_bind {A B} R1 R2 (R : B -> gset Z -> gset Z -> Prop) (c : M (client W) A) (k : A -> M (client W) B) :
  moves R1 c -> (forall a, moves (R2 a) (k a)) ->
  (forall a b D1 D2 D3, R1 a D1 D2 -> R2 a b D2 D3 -> R b D1 D3) -> moves R (bind c k).
Proof.
  intros Hc Hk HR s b s'. unfold bind. destruct (c s) as [a s1| | |] eqn:E; [|done..].
  intros E'. eapply HR; [exact (Hc _ _ _ E)|exact (Hk a _ _ _ E')].
Qed.

(** A first call that leaves the descriptors alone. *)
Lemma moves_after {A B} (R : B -> gset Z -> gset Z -> Prop) (c : M (client W) A) k :
  moves same c -> (forall a, moves R (k a)) -> moves R (bind c k).
Proof.
  intros Hc Hk. eapply (moves_bind same (fun _ => R)); [exact Hc|exact Hk|]. intros a b D1 D2 D3 ->. done.
Qed.

(** The body of a loop: a turn that goes on leaves the descriptors alone. *)
Definition goes_on {X B} (R : B -> gset Z -> gset Z -> Prop) (r : X + B) (D D' : gset Z) : Prop :=
  match r with inl _ => D' = D | inr b => R b D D' end.

Lemma moves_loop {X B} (R : B -> gset Z -> gset Z -> Prop) (body : X -> M (client W) (X + B)) x :
  (forall x, moves (goes_on R) (body x)) ->
  moves R (loop body x).
Proof.
  intros H. unfold loop. eapply moves_bind.
  - instantiate (1 := goes_on R).
    revert x. induction loop_bits as [|n IH]; intros x; cbn [iter2]; [apply H|].
    eapply moves_bind; [apply IH| |].
    + instantiate (1 := fun a r D D' => match a with inl _ => goes_on R r D D' | inr b => r = inr b /\ D' = D end).
      intros [x'|b]; [apply IH|]. by apply moves_ret.
    + intros [x'|b] [x''|b'] D1 D2 D3; cbn [goes_on]; [congruence|intros ->; done|intros _ [? _]; done|].
      intros HR [[= ->] ->]. exact HR.
  - instantiate (1 := fun a r D D' => match a with inl _ => False | inr b => r = b /\ D' = D end).
    intros [x'|b]; [by intros s a s'|by apply moves_ret].
  - by intros [x'|b] r D1 D2 D3 HR; [intros []|intros [-> ->]].
Qed.

Lemma moves_sys {A} (R : A -> gset Z -> gset Z -> Prop) (f : W -> A * W) :
  (forall w, R (f w).1 (fds w) (fds (f w).2)) -> moves R (sys f).
Proof.
  intros H s a s'. unfold sys. specialize (H (os s)). destruct (f (os s)) as [a0 w]. by intros [= <- <-].
Qed.

Lemma moves_fprintf l : moves same (fprintf l).
Proof. by intros s a s' [= _ <-]. Qed.

Lemma moves_next_seq : moves same next_seq.
Proof. by intros s a s' [= _ <-]. Qed.

Lemma moves_gets {A} (f : client W -> A) : moves same (gets f).
Proof. by intros s a s' [= _ <-]. Qed.

Lemma moves_perror l : moves same (perror l).
Proof. by intros s a s' [= _ <-]. Qed.

Lemma moves_close fd : moves (closes fd) (close fd).
Proof. apply moves_sys. intros w. apply fds_close. Qed.

Lemma moves_spin {A} R : moves R (spin : M (client W) A).
Proof. by intros s a s'. Qed.

Lemma moves_exit {A} R v : moves R (exit v : M (client W) A).
Proof. by intros s a s'. Qed.

Lemma moves_fault {A} R : moves R (fault : M (client W) A).
Proof. by intros s a s'. Qed.

(** Only calls that leave the descriptors alone. *)
Lemma same_after {A B} (c : M (client W) A) (k : A -> M (client W) B) :
  moves same c -> (forall a, moves same (k a)) -> moves same (bind c k).
Proof. apply moves_after. Qed.

Lemma same_ret {A} (a : A) : moves same (ret a).
Proof. by apply moves_ret. Qed.

Lemma same_sys {A} (f : W -> A * W) : (forall w, fds (f w).2 = fds w) -> moves same (sys f).
Proof. intros H. by apply moves_sys. Qed.

Create HintDb moves.
#[local] Hint Resolve same_ret moves_fprintf moves_next_seq moves_gets moves_perror moves_spin moves_exit moves_fault : moves.
#[local] Hint Resolve same_sys fds_setsockopt fds_nonblock fds_connect fds_bind fds_sendto fds_recvfrom fds_write
  fds_read fds_poll fds_now fds_nametoindex : moves.

Ltac same :=
  repeat (lazymatch goal with
  | |- moves same (bind _ _) => apply same_after
  | |- moves same (match ?x with _ => _ end) => destruct x
  | |- moves same _ => solve [auto with moves]
  | |- forall _, _ => intros ?
  end).

(** A socket that is made and then set up, or closed when that fails. *)
Definition kept_or_closed (s r : Z) (D D' : gset Z) : Prop := r = s /\ D' = D \/ r = -1 /\ D' = D ∖ {[s]}.

Lemma fail_closes s msg : moves (kept_or_closed s) (perror msg ;; close s ;; ret (-1)).
Proof.
  apply moves_after; [apply moves_perror|]. intros _. eapply moves_bind; [apply moves_close| |].
  - intros a. instantiate (1 := fun _ b D D' => b = -1 /\ D' = D). by intros st b st' [= <- <-].
  - intros a b D1 D2 D3 -> [-> ->]. by right.
Qed.

Lemma setup_moves s (c : M (client W) Z) msg k :
  moves same c -> moves (kept_or_closed s) k ->
  moves (kept_or_closed s) (r <- c ;; if r <? 0 then perror msg ;; close s ;; ret (-1) else k).
Proof.
  intros Hc Hk. apply moves_after; [exact Hc|]. intros r. destruct (r <? 0); [apply fail_closes|exact Hk].
Qed.

Lemma open_udp6_socket_moves addr con : moves opened (open_udp6_socket addr con).
Proof.
  eapply moves_bind; [apply moves_sys, fds_socket| |].
  - intros s. instantiate (1 := fun s r D D' => if s <? 0 then r = -1 /\ D' = D else kept_or_closed s r D D').
    cbv beta. destruct (s <? 0).
    { apply moves_after; [apply moves_perror|]. by intros _ st b st' [= <- <-]. }
    repeat (apply setup_moves; [auto with moves|]); [by destruct con; auto with moves|].
    intros st b st' [= <- <-]. by left.
  - intros s r D1 D2 D3. unfold opened. destruct (s <? 0) eqn:Es; [by intros -> [-> ->]|].
    intros [Hs ->] [[-> ->]|[-> ->]]; [by rewrite Es|]. cbn. by apply opened_closed.
Qed.

(** A loop of calls that leave the descriptors alone. *)
Lemma same_loop {X B} (body : X -> M (client W) (X + B)) x : (forall x, moves same (body x)) -> moves same (loop body x).
Proof. intros H. apply moves_loop. intros y st a st' E. apply H in E. by destruct a. Qed.

Lemma send_msg_moves s msg len : moves same (send_msg s msg len).
Proof. apply same_loop. intros [retry m]. unfold send_try. same. Qed.

#[local] Hint Resolve send_msg_moves : moves.

(** Close, and return [r]. *)
Lemma close_ret {A} s (r : A) : moves (closes s) (close s ;; ret r).
Proof.
  eapply moves_bind; [apply moves_close|intros x; exact (same_ret r)|]. by intros a b D1 D2 D3 -> ->.
Qed.

Lemma close_stop {X B} s (b : B) : moves (@goes_on X B (closes s)) (close s ;; ret (inr b)).
Proof. intros st r st' E. pose proof (close_ret s _ _ _ _ E) as H. injection E as <- <-. exact H. Qed.

Lemma same_goes_on {X B} (R : B -> gset Z -> gset Z -> Prop) (x : X) : moves (goes_on R) (ret (inl x)).
Proof. by intros st r st' [= <- <-]. Qed.

Lemma send_block_moves s fd x : moves (goes_on (closes fd)) (send_block s fd x).
Proof.
  destruct x as [a m]. unfold send_block. apply moves_after; [auto with moves|].
  intros [[|c l]|]; [apply (close_stop fd)| |apply (close_stop fd)].
  apply moves_after; [auto with moves|]. intros [r m']. destruct (negb (r =? 0)); [apply (close_stop fd)|].
  apply same_goes_on.
Qed.

Lemma send_file_moves seq0 arg0 db0 s fn addr : moves same (send_file seq0 arg0 db0 s fn addr).
Proof.
  unfold send_file. eapply moves_bind; [apply moves_sys, fds_open| |].
  - intros fd. instantiate (1 := fun fd _ D D' => if fd <? 0 then D' = D else D' = D ∖ {[fd]}). cbv beta.
    destruct (fd <? 0); [apply moves_after; [apply moves_fprintf|intros _; apply same_ret]|].
    apply moves_after; [apply moves_fprintf|intros _]. apply moves_loop. apply send_block_moves.
  - intros fd r D1 D2 D3. unfold opened. destruct (fd <? 0); [by intros -> ->|]. intros [Hs ->] ->. by apply opened_closed.
Qed.

(** ** Searching *)

Lemma get_time_moves : moves same get_time_ms.
Proof. unfold get_time_ms. same. Qed.

#[local] Hint Resolve get_time_moves : moves.

Lemma query_due_moves s idx len next now name : moves same (query_due s idx len next now name).
Proof. unfold query_due. same. Qed.

(** The query socket becomes the connected one. *)
Definition found (s : Z) (r : option Z) (D D' : gset Z) : Prop :=
  match r with Some s0 => 0 <= s0 /\ (s0 ∉ D) /\ D' = ({[s0]} ∪ D) ∖ {[s]} | None => D' = D end.

Lemma found_none s : moves (found s) (ret None).
Proof. by apply moves_ret. Qed.

Lemma query_wait_moves s t name : moves (found s) (query_wait s t name).
Proof.
  unfold query_wait. apply moves_after; [auto with moves|]. intros p. destruct (negb (p =? 1)); [apply found_none|].
  apply moves_after; [auto with moves|]. intros [[[|c l] from]|]; [apply found_none| |apply found_none].
  apply moves_after; [auto with moves|]. intros q. destruct (answers_query q (c :: l)); [|apply found_none].
  apply moves_after; [auto with moves|]. intros _. eapply moves_bind; [apply open_udp6_socket_moves| |].
  - intros s0. instantiate (1 := fun s0 r D D' => if s0 <? 0 then r = None /\ D' = D else r = Some s0 /\ D' = D ∖ {[s]}).
    cbv beta. rewrite Z.geb_leb, Z.leb_antisym. destruct (s0 <? 0); cbn [negb].
    + by intros st b st' [= <- <-].
    + intros st b st' E. pose proof (close_ret s _ _ _ _ E) as H. injection E as <- <-. by split.
  - intros s0 r D1 D2 D3. unfold opened. destruct (Z.ltb_spec s0 0); [by intros -> [-> ->]|].
    intros [Hs ->] [-> ->]. done.
Qed.

(** Up to one descriptor more, which is how [open_node] fails. *)
Definition one_more (D D' : gset Z) : Prop := D ⊆ D' /\ exists q : Z, D' ⊆ {[q]} ∪ D.

Definition searched (s s0 : Z) (D D' : gset Z) : Prop := if s0 <? 0 then D' = D else found s (Some s0) D D'.

Lemma search_turn_moves s idx name next : moves (goes_on (searched s)) (search_turn s idx name next).
Proof.
  unfold search_turn. apply moves_after; [auto with moves|]. intros now.
  apply moves_after; [apply query_due_moves|]. intros [n|]; [|by apply moves_ret].
  eapply moves_bind; [apply query_wait_moves| |].
  - intros [s0|]; [instantiate (1 := fun o r D D' => r = match o with Some s0 => inr s0 | None => inl n end /\ D' = D)|];
      by intros st r st' [= <- <-].
  - intros [s0|] r D1 D2 D3; unfold found; [|by intros -> [-> ->]].
    intros H [-> ->]. unfold goes_on, searched. by rewrite (proj2 (Z.ltb_ge s0 0)) by tauto.
Qed.

Definition node_opened (s : Z) (D D' : gset Z) : Prop :=
  if s <? 0 then one_more D D' else (s ∉ D) /\ D' = {[s]} ∪ D.

Lemma one_more_same D : one_more D D.
Proof. split; [done|]. exists 0. set_solver. Qed.

Lemma open_node_moves idx name : moves node_opened (open_node idx name).
Proof.
  unfold open_node. eapply moves_bind; [apply open_udp6_socket_moves| |].
  - intros s. instantiate (1 := fun s r D D' => if s <? 0 then r = -1 /\ D' = D else searched s r D D'). cbv beta.
    destruct (s <? 0); [by intros st r st' [= <- <-]|].
    destruct (_ >? NB_MSG_MAX); [by intros st r st' [= <- <-]|].
    destruct (_ >? NB_DATA_MAX); [apply moves_fault|].
    apply moves_after; [auto with moves|]. intros t. apply moves_loop. intros next. apply search_turn_moves.
  - intros s r D1 D2 D3. unfold opened, node_opened, searched.
    destruct (s <? 0); [intros -> [-> ->]; apply one_more_same|]. intros [Hs ->]. destruct (r <? 0).
    + intros ->. split; [set_solver|]. by exists s.
    + intros (_ & Hr & ->). set_solver.
Qed.

(** ** Arguments, images and [main] *)

Lemma parse_args_moves args : moves same (parse_args args).
Proof.
  apply same_loop. intros [[|a rest] o]; [apply same_ret|]. unfold parse_arg, consume. same.
Qed.

Lemma send_images_moves stack s imgs : forall n,
  moves (fun b D D' => if b : bool then D' = D else D' = D ∖ {[s]}) (send_images stack s n imgs).
Proof.
  induction imgs as [|i imgs IH]; intros n; cbn [send_images]; [by apply moves_ret|].
  destruct (stack n) as [[seq0 arg0] db0]. apply moves_after; [apply send_file_moves|]. intros r.
  destruct (negb (r =? 0)); [|apply IH]. apply moves_after; [auto with moves|]. intros _ st b st' E.
  pose proof (close_ret s _ _ _ _ E) as H. by injection E as <- <-.
Qed.

Lemma start_image_moves db0 s addr : moves (closes s) (start_image db0 s addr).
Proof.
  unfold start_image. repeat (apply moves_after; [auto with moves|intros ?]). apply moves_close.
Qed.

(** The exit status 0 leaves no descriptor behind. *)
Definition left_over (v : Z) (D D' : gset Z) : Prop := if v =? 0 then D' = D else one_more D D'.

Lemma serve_nodes_moves stack idx o first : moves left_over (serve_nodes stack idx o first).
Proof.
  apply moves_loop. intros []. eapply moves_bind; [apply open_node_moves| |].
  - intros s. instantiate (1 := fun s r D D' => if s <? 0 then r = inr (-1) /\ D' = D
      else (r = inl tt \/ r = inr 0) /\ D' = D ∖ {[s]}). cbv beta.
    destruct (s <? 0); [by intros st r st' [= <- <-]|].
    eapply moves_bind; [apply send_images_moves| |].
    + intros b. instantiate (1 := fun b r D D' => (r = inl tt \/ r = inr 0) /\ if b then D' = D ∖ {[s]} else D' = D).
      cbv beta. destruct b; [|by intros st r st' [= <- <-]; split; [left|]].
      eapply moves_bind; [apply start_image_moves| |].
      * intros a. instantiate (1 := fun _ r D D' => (r = inl tt \/ r = inr 0) /\ D' = D). cbv beta.
        destruct (do_exit o); intros st r st' [= <- <-]; (split; [by (left + right)|done]).
      * by intros a r D1 D2 D3 -> [Hr ->].
    + intros [] r D1 D2 D3; [by intros -> [Hr ->]|by intros -> [Hr ->]].
  - intros s r D1 D2 D3. unfold node_opened. destruct (s <? 0); [by intros H [-> ->]|].
    intros [Hs ->] [[-> | ->] ->]; by apply opened_closed.
Qed.

(** The message about an unknown interface names what is behind the last
    argument, the null pointer that ends [argv]. *)
Lemma main_unknown_interface stack l first rest (s : client W) :
  Forall item_ok l -> (image_count l <= 8)%nat -> Z.of_nat (length l) < 2 ^ 31 ->
  images (options_of l) = first :: rest -> (os_nametoindex (ifname (options_of l)) (os s)).1 = 0 ->
  main stack (words_of l) s = Fault.
Proof.
  intros Hl Hc Hn Hi Hx. unfold main. step (parse_words l s Hl Hc Hn). rewrite Hi.
  unfold bind at 1, sys at 1. by destruct (os_nametoindex _ _) as [idx w]; cbn in Hx; subst idx.
Qed.

(** C29: the client gives back what it takes.  For every host and every list of
    arguments: when [main] returns 0, exactly the descriptors that were open
    before are open, however often a search or a transfer failed on the way;
    when it returns with an error, none is lost and at most one is left over. *)
Theorem main_descriptors stack args (s : client W) :
  match main stack args s with
  | Ok v s' =>
    let D := fds (os s) in let D' := fds (os s') in
    if v =? 0 then D' = D else D ⊆ D' /\ exists q : Z, D' ⊆ {[q]} ∪ D
  | _ => True
  end.
Proof.
  assert (moves left_over (main stack args)) as H.
  { unfold main. apply moves_after; [apply parse_args_moves|]. intros [status|o].
    { apply moves_ret. intros D. unfold left_over. destruct (status =? 0); [done|apply one_more_same]. }
    destruct (images o) as [|first rest].
    { apply moves_after; [auto with moves|]. intros _. apply moves_ret. intros D. apply one_more_same. }
    apply moves_after; [auto with moves|]. intros idx. destruct (idx =? 0); [apply moves_fault|].
    do 3 (apply moves_after; [auto with moves|intros _]). apply serve_nodes_moves. }
  destruct (main stack args s) as [v s'| | |] eqn:E; [|done..]. exact (H _ _ _ E).
Qed.
End descriptors.

(** ** An instance *)

(** A host where every system call fails, with a [strtoul] for lower-case
    hexadecimal digits. *)
#[local] Instance dead_host : Host unit := {|
  host_os := {| os_write _ _ w := (-1, w); os_poll _ _ w := (-1, w); os_read _ _ w := (None, w);
    os_open _ w := (-1, w); os_close _ w := w |};
  os_socket w := (-1, w);
  os_setsockopt _ _ w := (-1, w);
  os_nonblock _ w := (-1, w);
  os_connect _ _ w := (-1, w);
  os_bind _ _ w := (-1, w);
  os_sendto _ _ _ w := (-1, w);
  os_recvfrom _ _ _ w := (None, w);
  os_now w := (None, w);
  os_nametoindex _ w := (0, w);
  os_ntop _ := None;
  os_strerror _ := str "Operation not permitted";
  host_strtoul l b := fold_left (fun v c => v * b + (if c <? 58 then c - 48 else c - 87)) l 0;
|}.

Lemma parse_args_correct_witness :
  let s := {| seq := 1; err := []; os := tt |} in
  parse_args (words_of [Interface (str "eth0"); Image (str "a.bin") (str "40100000"); Once]) s =
  Ok (inr {| do_exit := true; ifname := str "eth0"; nodename := str "device";
             images := [{| i_name := str "a.bin"; i_addr := 0x40100000 |}] |}) s.
Proof.
  refine (proj2 (parse_args_correct _ _ _) _ eq_refl _ _); [by_decide|by_decide|by_decide].
Defined.

(** A host with five descriptors besides the standard ones and the interface
    [eth0]; the node answers every message at once.  [d_last] is the sequence
    number of the last message, [d_file] what is left of the open file, [d_sent]
    everything sent; [d_sends] says whether [sendto] works. *)
Record desk := { d_open : gset Z; d_last : list Z; d_file : list Z; d_clock : Z; d_sends : bool; d_sent : list (list Z) }.

Definition new_fd (D : gset Z) : Z := default (-1) (head (filter (fun s => s ∉ D) [3; 4; 5; 6; 7])).

Definition with_fds (D : gset Z) (w : desk) : desk :=
  {| d_open := D; d_last := d_last w; d_file := d_file w; d_clock := d_clock w; d_sends := d_sends w; d_sent := d_sent w |}.

Definition desk_open (w : desk) : Z * desk :=
  let s := new_fd (d_open w) in (s, if s <? 0 then w else with_fds ({[s]} ∪ d_open w) w).

Definition desk_heard (buf : list Z) (w : desk) : desk :=
  {| d_open := d_open w; d_last := take 4 (drop 8 buf); d_file := d_file w; d_clock := d_clock w; d_sends := d_sends w;
     d_sent := d_sent w ++ [buf] |}.

Definition desk_answer (w : desk) : list Z := message NB_CMD_STATUS (d_last w) NB_OK [].

#[local] Instance desk_os : Os desk := {|
  os_write _ buf w := (Z.of_nat (length buf), desk_heard buf w);
  os_poll _ t w := match d_last w with
    | [] => (0, {| d_open := d_open w; d_last := []; d_file := d_file w; d_clock := d_clock w + t;
        d_sends := d_sends w; d_sent := d_sent w |})
    | _ => (1, w)
    end;
  os_read fd n w := if fd =? 3 then
      (Some (take (Z.to_nat n) (d_file w)), {| d_open := d_open w; d_last := d_last w; d_file := drop (Z.to_nat n) (d_file w);
         d_clock := d_clock w; d_sends := d_sends w; d_sent := d_sent w |})
    else (Some (take (Z.to_nat n) (desk_answer w)), w);
  os_open _ := desk_open;
  os_close fd w := with_fds (d_open w ∖ {[fd]}) w;
|}.

#[local] Instance desk_host : Host desk := {|
  host_os := desk_os;
  os_socket := desk_open;
  os_setsockopt _ _ w := (0, w);
  os_nonblock _ w := (0, w);
  os_connect _ _ w := (0, w);
  os_bind _ _ w := (0, w);
  os_sendto _ buf _ w := if d_sends w then (Z.of_nat (length buf), desk_heard buf w) else (-1, w);
  os_recvfrom _ _ _ w := (Some (desk_answer w, {| sa_port := 58571; sa_ip := replicate 16 1; sa_scope := 2 |}), w);
  os_now w := (Some (d_clock w), w);
  os_nametoindex n w := (if decide (n = str "eth0") then 2 else 0, w);
  os_ntop _ := Some (str "fe80::1");
  os_strerror _ := str "Network is unreachable";
  host_strtoul := @host_strtoul _ dead_host;
|}.

Lemma desk_opened w : opened (desk_open w).1 (d_open w) (d_open (desk_open w).2).
Proof.
  unfold desk_open, opened, new_fd. cbn [fst snd].
  destruct (filter _ [3; 4; 5; 6; 7]) as [|s l] eqn:E; [done|]. cbn [head default from_option id].
  assert (s ∈ filter (fun s => s ∉ d_open w) [3; 4; 5; 6; 7]) as Hs by (rewrite E; left).
  apply list_elem_of_filter in Hs as [Hs _]. destruct (s <? 0); done.
Qed.

#[local] Program Instance desk_descriptors : Descriptors desk := {| fds := d_open |}.
Solve Obligations with intros; first [apply desk_opened | cbn; repeat (case_match; try done); done].

Definition at_desk (sends : bool) : client desk :=
  {| seq := 1; err := []; os := {| d_open := list_to_set [0; 1; 2]; d_last := []; d_file := [1; 2; 3; 4];
     d_clock := 0; d_sends := sends; d_sent := [] |} |}.

Definition desk_words : list (list Z) := words_of [Interface (str "eth0"); Once; Image (str "a.bin") (str "40100000")].

Lemma main_descriptors_witness : exists s',
  main (fun _ => (0, 0, replicate 1024 0)) desk_words (at_desk true) = Ok 0 s' /\ d_open (os s') = list_to_set [0; 1; 2].
Proof.
  pose proof (main_descriptors (fun _ => (0, 0, replicate 1024 0)) desk_words (at_desk true)) as H.
  destruct (main _ desk_words (at_desk true)) as [v s'| | |] eqn:E.
  - assert (v = 0) as ->.
    { assert (match main (fun _ => (0, 0, replicate 1024 0)) desk_words (at_desk true) with
        | Ok v _ => v = 0 | _ => False end) as Hv by (vm_compute; reflexivity). by rewrite E in Hv. }
    exists s'. split; [done|exact H].
  - exfalso. vm_compute in E. discriminate E.
  - exfalso. vm_compute in E. discriminate E.
  - exfalso. vm_compute in E. discriminate E.
Defined.

(** The one descriptor is the query socket, which [open_node] does not close
    when the query cannot be sent. *)
Lemma open_node_leaks : exists s',
  open_node 2 (str "device") (at_desk false) = Ok (-1) s' /\
  d_open (os s') = {[3]} ∪ d_open (os (at_desk false)).
Proof. eexists. split; [vm_compute; reflexivity|vm_compute; reflexivity]. Qed.
