(* ===== verification/Deploy.v ===== *)
(** * Deploying: the whole boot client and the loader together

    The loader's node is a [LanNode] for the program of Host.v: it answers the
    query the client multicasts, stores what it is sent, and leaves for the
    first image when it is told to.  The client's theorem about [main] holds for
    it ([netboot_deploys]). *)

From S2P Require Import Prelude Monad Hw Mem LibcMem LibcStr Uart Printf Net Netboot Client Download Host.

(** ** The loader on the network *)

(** A query goes to all nodes: ff02::1 and its Ethernet address. *)
Definition query_frame (sport chk msg : list Z) : frame6 :=
  udp_frame all_nodes_mac all_nodes_ip NB_PORT_QUERY sport chk msg.

Lemma node_receive_query garbage sport chk msg s :
  node_receive garbage sport chk all_nodes_ip NB_PORT_QUERY msg s = handle_frame garbage sport (query_frame sport chk msg) s.
Proof. reflexivity. Qed.

(** The processor left machine mode for a program in supervisor mode: where it
    went. *)
Definition program_started (s : node) : option Z :=
  match reverse (n_hw s) with
  | Mret a0 a1 pc sp :: CsrWrite r v :: CsrWrite r' v' :: _ =>
    if decide ((a0, a1, sp, r, v, r', v') = (0, 0, 0, CSR_MEPC, pc, CSR_MSTATUS, 0x800)) then Some pc else None
  | _ => None
  end.

Section node.
Context (garbage : list Z) (Hgarbage : length garbage = 1536%nat) (Hgb : bytes garbage).
Context (sport chk : list Z) (Hsport : length sport = 2%nat) (Hsb : bytes sport)
  (Hchk : length chk = 2%nat) (Hcb : bytes chk).

Lemma node_queried s q : node_ready s -> is_u32 q ->
  exists s' text, node_receive garbage sport chk all_nodes_ip NB_PORT_QUERY
        (message NB_CMD_QUERY (le32 q) 0 Netboot.nodename) s =
      (s', [(NB_PORT_CTRL, message NB_CMD_STATUS (le32 q) NB_OK text)]) /\
    n_mem s' = n_mem s /\ node_ready s' /\ ifc_ll_ip6 s' = ifc_ll_ip6 s.
Proof.
  intros (Hi & Ht & Hb & Hrx & Hne) Hq. set (msg := message NB_CMD_QUERY (le32 q) 0 Netboot.nodename).
  assert (bytes msg) as Bm by (by apply bytes_message; by_decide).
  assert (length msg <= 1040)%nat as Lm by (unfold msg; rewrite length_message by done; by_decide).
  assert (frame_ok (query_frame sport chk msg)) as Hf.
  { apply (udp_frame_ok sport chk Hsb Hcb); [done|by_decide|done|by_decide|exact Bm]. }
  pose proof (udp_frame_incoming sport chk Hsport Hchk _ _ _ msg s Hf Lm Hb Hrx) as Hin.
  set (f := query_frame sport chk msg) in *.
  assert (accepts s f = Some 1) as Hacc.
  { unfold accepts, rx_mcast, ip6_for_us. cbn [f query_frame udp_frame frame_to f_type f_dmac f_dip].
    rewrite decide_True by done. rewrite decide_False by (intros He; by apply Hne).
    case_decide as Hd; [|by destruct Hd; right]. cbn [Z.eqb]. rewrite bool_decide_true; [done|by left]. }
  destruct (query_served garbage Hgarbage Hgb f (with_frame f s) [] 1 sport (le32 q) 0 chk [] Hi Ht Hin Hacc
    (udp_frame_message sport chk Hsport Hchk _ _ _ _ q 0 Netboot.nodename Hf ltac:(by_decide) ltac:(by_decide) ltac:(by_decide))
    eq_refl Hchk) as (s' & E & M & _ & R & Q & _ & I & T & B & Mac).
  exists s', name_text. split; [|split; [exact M|split]].
  - rewrite node_receive_query. unfold handle_frame. fold f. rewrite E. f_equal. by apply (replied_answers sport Hsport s s' f).
  - split; [exact I|]. split; [exact T|]. split; [exact B|]. split; [exact Q|]. by rewrite Mac.
  - destruct Hi as (_ & _ & -> & _), I as (_ & _ & -> & _). by rewrite Mac.
Qed.

Lemma node_executes s q addr : node_ready s -> is_u32 q -> is_u32 addr ->
  exists s', node_receive garbage sport chk (ifc_ll_ip6 s) NB_PORT_CTRL (message NB_CMD_EXEC (le32 q) addr []) s =
      (s', [(NB_PORT_CTRL, status_msg q)]) /\
    n_mem s' = n_mem s /\ program_started s' = Some addr.
Proof.
  intros (Hi & Ht & Hb & Hrx & _) Hq Ha. set (msg := message NB_CMD_EXEC (le32 q) addr []).
  assert (bytes msg) as Bm by (by apply bytes_message).
  assert (length msg <= 1040)%nat as Lm by (unfold msg; rewrite length_message by done; by_decide).
  destruct (frame_for_ok sport chk Hsb Hcb msg s Hi Bm) as [Hf Hacc].
  pose proof (udp_frame_incoming sport chk Hsport Hchk _ _ _ msg s Hf Lm Hb Hrx) as Hin.
  set (f := frame_for sport chk msg s) in *.
  destruct (exec_served garbage Hgarbage Hgb f (with_frame f s) [] 0 sport (le32 q) addr [] chk [] Hi Ht Hin Hacc
    (udp_frame_message sport chk Hsport Hchk _ _ _ _ q addr [] Hf ltac:(by_decide) ltac:(by_decide) Ha)
    eq_refl Hchk) as (s' & E & M & _ & _ & R & Hw).
  exists s'. split; [|split; [exact M|]].
  - rewrite (node_receive_ctrl garbage sport chk msg s Hi). unfold handle_frame. fold f. rewrite E. f_equal. by apply (replied_answers sport Hsport s s' f).
  - unfold program_started. rewrite Hw, reverse_app. cbn. by rewrite decide_True.
Qed.


#[local] Instance node_lan : LanNode node := {|
  lan_boot := node_bootnode garbage Hgarbage Hgb sport chk Hsport Hsb Hchk Hcb;
  node_started := program_started;
  lan_query := node_queried;
  lan_exec := node_executes;
|}.

(** The host: its [strtoul] and its interfaces. *)
Context (to_number : list Z -> Z -> Z) (ifindex : list Z -> Z).
#[local] Instance deploy_host : Host (net node) := net_host to_number ifindex.

(** C2: the boot client and the loader, from the command line to the program
    running.  The client is given [-x] and up to eight images whose files fit
    into the node's memory, and the interface of the node's link; what it sends
    reaches only the addresses and ports it is sent to, and the network may lose
    requests, but of five messages in a row one is answered.  Then the client
    ends with status 0: it has found the node by a query to all nodes of the
    link, connected to the port the answer came from, and sent the images in
    order; the node's memory holds exactly these images, a later
    one over an earlier one, and the node has left machine mode for a program in
    supervisor mode at the address of the first image. *)
Theorem netboot_deploys stack l first rest (s : client (net node)) :
  Forall item_ok l -> (image_count l <= 8)%nat -> Z.of_nat (length l) < 2 ^ 31 ->
  let o := options_of l in let fs := n_files (os s) in
  do_exit o = true -> images o = first :: rest -> ifindex (ifname o) <> 0 -> n_link (os s) = ifindex (ifname o) ->
  idle s -> lossy_net s -> patient s ->
  Forall (image_fits fs (n_mem (n_dev (os s)))) (images o) ->
  Z.of_nat (5 * total_blocks fs (images o)) < 2 ^ 32 ->
  exists s', main stack (words_of l) s = Ok 0 s' /\
    n_mem (n_dev (os s')) = fold_left (store_image fs) (images o) (n_mem (n_dev (os s))) /\
    program_started (n_dev (os s')) = Some (i_addr first).
Proof.
  intros Hl Hc Hn o fs Hx Ho Hif Hlink Hi Hlossy Hp Hfit Hb.
  exact (main_ok to_number ifindex stack l first rest s Hl Hc Hn Hx Ho Hif Hlink Hi Hlossy Hp Hfit Hb).
Qed.
End node.

(** ** An instance *)

(** The node of Download.v, a host with two files for it; every second message is
    lost. *)
Definition every_second (i : nat) : fate := if Nat.even i then Lost else Answered.

Definition hexadecimal (l : list Z) (b : Z) : Z :=
  fold_left (fun v c => v * b + (if c <? 58 then c - 48 else c - 87)) l 0.

Definition deploying : client (net node) :=
  client_at 1 [] {| n_dev := idle_node; n_queue := []; n_late := []; n_link := 2; n_conn := ∅; n_count := 0; fates := every_second;
    n_files := [(str "a.bin", [[1; 2; 3; 4]; [5; 6]]); (str "b.bin", [[7]])]; n_open := []; n_clock := 0; n_socks := 0 |}.

Definition deploy_items : list item :=
  [Once; Image (str "a.bin") (str "40100008"); Image (str "b.bin") (str "4010000a")].

Lemma every_second_patient i : every_second (i + (if Nat.even i then 1 else 0)) = Answered.
Proof.
  unfold every_second. destruct (Nat.even i) eqn:E; [|by rewrite Nat.add_0_r, E].
  by rewrite Nat.add_1_r, Nat.even_succ, <- Nat.negb_even, E.
Qed.

Lemma idle_node_ready : node_ready idle_node.
Proof.
  split; [by_decide|]. split; [by_decide|]. split; [|done].
  exists (replicate 1534 0). split; [done|]. split; [done|]. apply Forall_replicate. by_decide.
Qed.

Lemma deploying_fits m : mapped m 0x40100000 64 -> forall images,
  images = [{| i_name := str "a.bin"; i_addr := 0x40100008 |}; {| i_name := str "b.bin"; i_addr := 0x4010000A |}] ->
  Forall (image_fits (n_files (os deploying)) m) images.
Proof.
  intros Hm images ->. rewrite mapped_lookup in Hm.
  repeat constructor; eexists; (split; [reflexivity|]); (split; [by_decide|]); (split; [|by_decide]);
    apply mapped_lookup; intros i Hi; cbn in Hi.
  - replace (0x40100008 + i) with (0x40100000 + (i + 8)) by lia. apply Hm. lia.
  - replace (0x4010000A + i) with (0x40100000 + (i + 10)) by lia. apply Hm. lia.
Qed.

Lemma netboot_deploys_witness :
  let host := net_host (lan_node := node_lan stack_garbage eq_refl garbage_bytes [0x30; 0x39] [0xBE; 0xEF] eq_refl
    ltac:(by_decide) eq_refl ltac:(by_decide)) hexadecimal (fun n => 2) in
  exists s', @main _ host (fun _ => (0, 0, replicate 1024 0)) (words_of deploy_items) deploying = Ok 0 s' /\
    n_mem (n_dev (os s')) = write_bytes (write_bytes (n_mem idle_node) 0x40100008 [1; 2; 3; 4; 5; 6]) 0x4010000A [7] /\
    program_started (n_dev (os s')) = Some 0x40100008.
Proof.
  intros host.
  destruct (netboot_deploys stack_garbage eq_refl garbage_bytes [0x30; 0x39] [0xBE; 0xEF] eq_refl
    ltac:(by_decide) eq_refl ltac:(by_decide) hexadecimal (fun n => 2) (fun _ => (0, 0, replicate 1024 0))
    deploy_items {| i_name := str "a.bin"; i_addr := 0x40100008 |} [{| i_name := str "b.bin"; i_addr := 0x4010000A |}]
    deploying) as (s' & E & M & P).
  - by_decide.
  - by_decide.
  - by_decide.
  - reflexivity.
  - reflexivity.
  - done.
  - done.
  - split; [by_decide|done|done|exact idle_node_ready].
  - intros i. cbn. unfold every_second. destruct (Nat.even i); [by left|by right].
  - intros i. exists (if Nat.even i then 1 else 0)%nat. split; [by destruct (Nat.even i); lia|].
    apply every_second_patient.
  - apply deploying_fits; [by_decide|reflexivity].
  - by_decide.
  - exists s'. split; [exact E|]. split; [|exact P]. etransitivity; [exact M|]. reflexivity.
Defined.
