(* ===== verification/Protocol.v ===== *)
(** * What the boot client may send (tools/netboot.c)

    Whatever the host, the network and the node do - answers may be missing,
    late, forged or garbage -, everything the client sends is a well-formed
    message of the boot protocol.  [typed] is the type of the client's programs:
    they keep an invariant of the host that only well-formed messages keep. *)

From S2P Require Import Prelude Monad Hw Mem LibcMem LibcStr Uart Printf Net Netboot Client Host.

(** A message of the protocol from the client: one of three commands, at most
    1024 bytes of data, every field of its size. *)
Inductive wire_message : list Z -> Prop :=
| wire_intro cmd q addr db :
    cmd = NB_CMD_QUERY \/ cmd = NB_CMD_WRITE \/ cmd = NB_CMD_EXEC ->
    is_u32 q -> is_u32 addr -> bytes db -> (length db <= 1024)%nat ->
    (cmd = NB_CMD_EXEC -> db = []) -> (cmd = NB_CMD_QUERY -> addr = 0) ->
    wire_message (message cmd (le32 q) addr db).

Section protocol.
Context {W : Type} `{!Host W} (I : W -> Prop).

(** The host keeps [I] when a message is sent, and whatever else is called; what
    it reads are bytes, at most as many as there is room for. *)
Record guarded : Prop := {
  g_write fd buf w : wire_message buf -> I w -> I (os_write fd buf w).2;
  g_sendto fd buf a w : wire_message buf -> I w -> I (os_sendto fd buf a w).2;
  g_poll fd t w : I w -> I (os_poll fd t w).2;
  g_read fd n w : 0 <= n -> I w -> I (os_read fd n w).2 /\
    forall l, (os_read fd n w).1 = Some l -> bytes l /\ Z.of_nat (length l) <= n;
  g_recvfrom fd n f w : I w -> I (os_recvfrom fd n f w).2;
  g_open n w : I w -> I (os_open n w).2;
  g_close fd w : I w -> I (os_close fd w);
  g_socket w : I w -> I (os_socket w).2;
  g_setsockopt fd o w : I w -> I (os_setsockopt fd o w).2;
  g_nonblock fd w : I w -> I (os_nonblock fd w).2;
  g_connect fd a w : I w -> I (os_connect fd a w).2;
  g_bind fd a w : I w -> I (os_bind fd a w).2;
  g_now w : I w -> I (os_now w).2;
  g_nametoindex n w : I w -> I (os_nametoindex n w).2;
}.
Context (G : guarded).

Definition good (s : client W) : Prop := I (os s) /\ is_u32 (seq s).

(** [c] returns a [Q] or exits, and leaves a good state. *)
Definition typed {A} (Q : A -> Prop) (c : M (client W) A) : Prop :=
  forall s, good s -> match c s with Ok a s' => good s' /\ Q a | Halt s' => good s' | _ => True end.

Definition any {A} : A -> Prop := fun _ => True.

Lemma typed_ret {A} (Q : A -> Prop) a : Q a -> typed Q (ret a).
Proof. by intros H s Hs. Qed.

Lemma typed_bind {A B} (P : A -> Prop) (Q : B -> Prop) (c : M (client W) A) k :
  typed P c -> (forall a, P a -> typed Q (k a)) -> typed Q (bind c k).
Proof.
  intros Hc Hk s Hs. specialize (Hc s Hs). unfold bind. destruct (c s) as [a s1| | |]; [|done..].
  destruct Hc as [Hs1 Ha]. exact (Hk a Ha s1 Hs1).
Qed.

Lemma typed_any {A B} (Q : B -> Prop) (c : M (client W) A) k :
  typed any c -> (forall a, typed Q (k a)) -> typed Q (bind c k).
Proof. intros Hc Hk. eapply typed_bind; [exact Hc|]. intros a _. apply Hk. Qed.

(** A loop, with the type [J] of what its turns carry on. *)
Definition carries_on {X B} (J : X -> Prop) (Q : B -> Prop) (r : X + B) : Prop :=
  match r with inl x => J x | inr b => Q b end.

Lemma typed_loop {X B} (J : X -> Prop) (Q : B -> Prop) (body : X -> M (client W) (X + B)) x :
  (forall x, J x -> typed (carries_on J Q) (body x)) -> J x -> typed Q (loop body x).
Proof.
  intros Hb Hx. unfold loop. eapply (typed_bind (carries_on J Q)).
  - revert x Hx. induction loop_bits as [|n IH]; intros x Hx; cbn [iter2]; [by apply Hb|].
    eapply typed_bind; [by apply IH|]. intros [x'|b] Hr; [by apply IH|by apply typed_ret].
  - intros [x'|b] Hr; [by intros s Hs|by apply typed_ret].
Qed.

Lemma typed_sys {A} (Q : A -> Prop) (f : W -> A * W) : (forall w, I w -> I (f w).2 /\ Q (f w).1) -> typed Q (sys f).
Proof.
  intros H s [Hi Hs]. unfold sys. specialize (H (os s) Hi). destruct (f (os s)) as [a0 w].
  destruct H as [Hw Ha]. split; [split; [exact Hw|exact Hs]|exact Ha].
Qed.

Lemma sys_any {A} (f : W -> A * W) : (forall w, I w -> I (f w).2) -> typed any (sys f).
Proof. intros H. apply typed_sys. intros w Hw. split; [by apply H|done]. Qed.

Lemma typed_fprintf l : typed any (fprintf l).
Proof. intros s Hs. by split. Qed.

Lemma typed_perror l : typed any (perror l).
Proof. intros s Hs. by split. Qed.

Lemma typed_next_seq : typed is_u32 next_seq.
Proof. intros s [Hi _]. split; [split; [done|]|]; apply u32_range. Qed.

Lemma typed_gets {A} (f : client W -> A) : typed any (gets f).
Proof. by intros s Hs. Qed.

Lemma typed_exit {A} Q v : typed Q (exit v : M (client W) A).
Proof. by intros s Hs. Qed.

Lemma typed_fault {A} Q : typed Q (fault : M (client W) A).
Proof. by intros s Hs. Qed.

Lemma typed_close fd : typed any (close fd).
Proof. apply sys_any. intros w. apply (g_close G). Qed.

Create HintDb typed.
#[local] Hint Resolve typed_fprintf typed_perror typed_gets typed_exit typed_fault typed_close sys_any
  g_poll g_recvfrom g_open g_close g_socket g_setsockopt g_nonblock g_connect g_bind g_now g_nametoindex : typed.

(** ** Messages *)

(** What [send_msg] needs of the structure it is given: [len] bytes of it are a
    message. *)
Record sends (m : netboot_msg) (len : Z) : Prop := {
  s_magic : magic m = NB_MAGIC;
  s_cmd : cmd m = NB_CMD_WRITE \/ cmd m = NB_CMD_EXEC /\ len = NB_MSG_MIN;
  s_arg : is_u32 (arg m);
  s_db : exists data rest, db m = data ++ rest /\ bytes data /\ (length data <= 1024)%nat /\
    len = 16 + Z.of_nat (length data);
}.

Lemma take_message m data rest : magic m = NB_MAGIC -> db m = data ++ rest ->
  take (16 + length data) (msg_bytes m) = message (cmd m) (le32 (mseq m)) (arg m) data.
Proof.
  intros Hm Hd. unfold msg_bytes, message. rewrite Hm, Hd, !app_assoc.
  rewrite take_app_le by (rewrite !length_app; cbn; lia). apply take_ge. rewrite !length_app. cbn. lia.
Qed.

Lemma sends_message q m len : sends m len -> is_u32 q ->
  wire_message (take (Z.to_nat len) (msg_bytes (with_mseq q m))).
Proof.
  intros [Hm Hc Ha (data & rest & Hd & Hb & Hl & ->)] Hq.
  replace (Z.to_nat (16 + Z.of_nat (length data))) with (16 + length data)%nat by lia.
  rewrite (take_message (with_mseq q m) data rest Hm Hd). apply wire_intro; try done.
  - destruct Hc as [Hc|[Hc _]]; [right; left; exact Hc|right; right; exact Hc].
  - intros He. cbn [with_mseq cmd] in He. destruct Hc as [Hc|[_ Hlen]]; [by rewrite Hc in He|]. unfold NB_MSG_MIN in Hlen.
    by destruct data; [|cbn in Hlen; lia].
  - intros He. cbn [with_mseq cmd] in He. by destruct Hc as [Hc|[Hc _]]; rewrite Hc in He.
Qed.

Lemma sends_with_mseq q m len : sends m len -> sends (with_mseq q m) len.
Proof. by intros [H1 H2 H3 H4]. Qed.

(** The result of [send_msg]: 0 or -1, and the same message. *)
Definition same_message (m : netboot_msg) (p : Z * netboot_msg) : Prop :=
  (p.1 = 0 \/ p.1 = -1) /\ magic p.2 = magic m /\ cmd p.2 = cmd m.

Lemma judge_result q r mark v : judge q r = (mark, Some v) -> v = 0 \/ v = -1.
Proof.
  unfold judge. destruct r as [l|]; [|done].
  repeat (match goal with |- context [if ?x then _ else _] => destruct x end); intros [=]; subst; auto.
Qed.

Lemma send_msg_typed s m len : sends m len -> typed (same_message m) (send_msg s m len).
Proof.
  intros Hm. unfold send_msg.
  apply (typed_loop (fun p => sends p.2 len /\ magic p.2 = magic m /\ cmd p.2 = cmd m)); [|done].
  intros [retry m'] (Hm' & E1 & E2). cbn [snd] in *. unfold send_try.
  destruct (retry <? 5); [|apply typed_ret; split; [by right|done]].
  eapply typed_bind; [apply typed_next_seq|]. intros q Hq. cbv beta zeta.
  apply typed_any; [apply sys_any; intros w; apply (g_write G), (sends_message _ _ _ Hm' Hq)|]. intros r.
  destruct (negb _); [apply typed_ret; split; [by right|done]|].
  apply typed_any; [auto with typed|]. intros p.
  assert (sends (with_mseq q m') len /\ magic (with_mseq q m') = magic m /\ cmd (with_mseq q m') = cmd m) as H
    by (split; [by apply sends_with_mseq|done]).
  destruct (negb _); [apply typed_any; [auto with typed|]; intros _; by apply typed_ret|].
  apply typed_any; [apply sys_any; intros w Hw; by apply (g_read G)|]. intros rsp.
  apply typed_any; [auto with typed|]. intros q'. destruct (judge q' rsp) as [mark res] eqn:E.
  apply typed_any; [auto with typed|]. intros _. destruct res as [v|]; apply typed_ret; [|exact H].
  split; [by eapply judge_result|apply H].
Qed.

(** ** Files *)

Definition status (v : Z) : Prop := v = 0 \/ v = -1.

Definition writing (x : Z * netboot_msg) : Prop := is_u32 x.1 /\ magic x.2 = NB_MAGIC /\ cmd x.2 = NB_CMD_WRITE.

Lemma send_block_typed s fd x : writing x -> typed (carries_on writing status) (send_block s fd x).
Proof.
  destruct x as [a m]. intros (Ha & Hm & Hc). cbn [fst snd] in *. unfold send_block.
  assert (forall v, status v -> typed (carries_on writing status) (close fd ;; ret (inr v))) as Hclose
    by (intros v Hv; apply typed_any; [auto with typed|]; intros _; by apply typed_ret).
  eapply (typed_bind (fun r => forall l, r = Some l -> bytes l /\ Z.of_nat (length l) <= NB_DATA_MAX)).
  { apply typed_sys. intros w Hw. by apply (g_read G). }
  intros [l|] Hl; [|apply (Hclose (-1)); by right]. destruct (Hl l eq_refl) as [Hb Hn].
  destruct l as [|c l]; [apply (Hclose 0); by left|]. cbv zeta. set (l' := c :: l) in *. unfold NB_DATA_MAX in Hn.
  set (m' := {| magic := magic m; cmd := cmd m; mseq := mseq m; arg := a; db := _ |}).
  eapply typed_bind; [apply (send_msg_typed s m')|].
  { split; [exact Hm|by left|exact Ha|]. exists l', (drop (length l') (db m)). split; [done|]. split; [exact Hb|].
    split; [lia|]. unfold NB_MSG_MIN. lia. }
  intros [r m2] (_ & E1 & E2). cbn [snd] in *. destruct (negb (r =? 0)); [apply (Hclose (-1)); by right|].
  apply typed_ret. split; [apply u32_range|]. cbn [snd]. rewrite E1, E2. done.
Qed.

Lemma send_file_typed seq0 arg0 db0 s fn addr : is_u32 addr -> typed status (send_file seq0 arg0 db0 s fn addr).
Proof.
  intros Ha. unfold send_file. apply typed_any; [auto with typed|]. intros fd. destruct (fd <? 0).
  { apply typed_any; [auto with typed|]. intros _. apply typed_ret. by right. }
  apply typed_any; [auto with typed|]. intros _. apply (typed_loop writing); [apply send_block_typed|done].
Qed.

(** ** Searching *)

Lemma open_udp6_socket_typed addr con : typed any (open_udp6_socket addr con).
Proof.
  assert (forall s msg, typed any (perror msg ;; close s ;; ret (-1))) as Hfail.
  { intros s msg. apply typed_any; [auto with typed|]. intros _. apply typed_any; [auto with typed|]. intros _.
    by apply typed_ret. }
  unfold open_udp6_socket. apply typed_any; [auto with typed|]. intros s. destruct (s <? 0).
  { apply typed_any; [auto with typed|]. intros _. by apply typed_ret. }
  cbv zeta. do 3 (apply typed_any; [auto with typed|]; intros r; destruct (r <? 0); [apply Hfail|]; clear r).
  apply typed_any; [destruct con; auto with typed|]. intros r. destruct (r <? 0); [apply Hfail|by apply typed_ret].
Qed.

#[local] Hint Resolve open_udp6_socket_typed : typed.

Lemma get_time_typed : typed any get_time_ms.
Proof. apply typed_any; [auto with typed|]. intros [t|]; [by apply typed_ret|apply typed_exit]. Qed.

#[local] Hint Resolve get_time_typed : typed.

Section search.
Context (name : list Z) (Hname : bytes name) (Hlen : (length name <= 1024)%nat).

Lemma query_message q : is_u32 q ->
  wire_message (take (Z.to_nat (Z.of_nat (length name) + NB_MSG_MIN)) (msg_bytes (query_msg q name))).
Proof.
  intros Hq. replace (Z.to_nat (Z.of_nat (length name) + NB_MSG_MIN)) with (16 + length name)%nat by (unfold NB_MSG_MIN; lia).
  rewrite (take_message (query_msg q name) name (replicate (1024 - length name) 0)) by done.
  apply wire_intro; [by left|exact Hq|by_decide|exact Hname|exact Hlen|done|done].
Qed.

Lemma query_due_typed s idx next now :
  typed any (query_due s idx (Z.of_nat (length name) + NB_MSG_MIN) next now name).
Proof.
  unfold query_due. destruct (now >=? next); [|by apply typed_ret].
  eapply typed_bind; [apply typed_next_seq|]. intros q Hq.
  apply typed_any; [apply sys_any; intros w; apply (g_sendto G), (query_message q Hq)|]. intros r.
  destruct (negb _); [|by apply typed_ret]. apply typed_any; [auto with typed|]. intros _. by apply typed_ret.
Qed.

Lemma query_wait_typed s t : typed any (query_wait s t name).
Proof.
  unfold query_wait. apply typed_any; [auto with typed|]. intros p. destruct (negb _); [by apply typed_ret|].
  apply typed_any; [auto with typed|]. intros [[[|c l] from]|]; [by apply typed_ret| |by apply typed_ret].
  apply typed_any; [auto with typed|]. intros q. destruct (answers_query q _); [|by apply typed_ret].
  do 2 (apply typed_any; [auto with typed|]; intros ?). destruct (_ >=? 0); [|by apply typed_ret].
  apply typed_any; [auto with typed|]. intros _. by apply typed_ret.
Qed.

Lemma open_node_typed idx : typed any (open_node idx name).
Proof.
  unfold open_node. apply typed_any; [auto with typed|]. intros s. destruct (s <? 0); [by apply typed_ret|].
  destruct (_ >? NB_MSG_MAX); [by apply typed_ret|]. destruct (_ >? NB_DATA_MAX); [apply typed_fault|].
  apply typed_any; [auto with typed|]. intros t. apply (typed_loop any); [|done]. intros next _.
  unfold search_turn. apply typed_any; [auto with typed|]. intros now.
  apply typed_any; [apply query_due_typed|]. intros [n|]; [|by apply typed_ret].
  apply typed_any; [apply query_wait_typed|]. intros [s0|]; by apply typed_ret.
Qed.
End search.

(** ** Arguments, images and [main] *)

(** The addresses fit the machine of the node. *)
Definition options_typed (o : options) : Prop := Forall (fun i => is_u32 (i_addr i)) (images o).
Definition parsed_typed (p : Z + options) : Prop :=
  match p with inl v => status v | inr o => options_typed o end.

Lemma parse_args_typed args : typed parsed_typed (parse_args args).
Proof.
  unfold parse_args. apply (typed_loop (fun x => options_typed x.2)); [|constructor].
  assert (forall l v, status v ->
    typed (carries_on (fun x : list (list Z) * options => options_typed x.2) parsed_typed) (fprintf l ;; ret (inr (inl v)))) as Hstop.
  { intros l v Hv. apply typed_any; [auto with typed|]. intros _. by apply typed_ret. }
  intros [[|a rest] o] Ho; [by apply typed_ret|]. unfold parse_arg. cbn [snd] in Ho.
  destruct (split_at_sign a) as [[name tmp]|].
  { destruct (_ =? IMGMAX); [apply Hstop; by right|]. apply typed_ret. apply Forall_app. split; [exact Ho|].
    constructor; [apply u32_range|constructor]. }
  repeat case_decide; [destruct rest; [apply Hstop; by right|by apply typed_ret]..| | |].
  - apply Hstop. by left.
  - by apply typed_ret.
  - apply Hstop. by right.
Qed.

Lemma send_images_typed stack s imgs : Forall (fun i => is_u32 (i_addr i)) imgs ->
  forall n, typed any (send_images stack s n imgs).
Proof.
  induction 1 as [|i imgs Hi _ IH]; intros n; cbn [send_images]; [by apply typed_ret|].
  destruct (stack n) as [[seq0 arg0] db0]. eapply typed_bind; [by apply send_file_typed|]. intros r _.
  destruct (negb (r =? 0)); [|apply IH]. do 2 (apply typed_any; [auto with typed|]; intros _). by apply typed_ret.
Qed.

Lemma start_image_typed db0 s addr : is_u32 addr -> typed any (start_image db0 s addr).
Proof.
  intros Ha. unfold start_image. apply typed_any; [auto with typed|]. intros _.
  eapply typed_bind; [apply typed_next_seq|]. intros q _. eapply typed_bind.
  - apply send_msg_typed. split; [done|by right|exact Ha|]. exists [], db0.
    split; [done|]. split; [constructor|]. split; [cbn; lia|done].
  - intros r _. apply typed_any; [auto with typed|]. intros _. auto with typed.
Qed.

Lemma serve_nodes_typed stack idx o first : options_typed o -> is_u32 (i_addr first) ->
  typed status (serve_nodes stack idx o first).
Proof.
  intros Ho Hf. apply (typed_loop any); [|done]. intros [] _.
  apply typed_any; [apply open_node_typed; by_decide|]. intros s. destruct (s <? 0); [apply typed_ret; by right|].
  apply typed_any; [by apply send_images_typed|]. intros [|]; [|by apply typed_ret].
  apply typed_any; [by apply start_image_typed|]. intros _. destruct (do_exit o); apply typed_ret; [by left|done].
Qed.

(** C28: the client speaks the protocol.  Let [I] be any property of the world
    around the client that survives everything the host does, except that
    sending is only known to keep it when the bytes sent are a well-formed
    message: the magic number, one of the three commands, a 32-bit sequence
    number and argument, at most 1024 bytes of data, none behind EXEC.  Then
    [main] keeps [I], whatever its arguments and whatever the host, the network
    and the node answer; so it sends nothing but such messages.  The sequence
    number stays a 32-bit word and the status it returns is 0 or -1.  The same
    holds when it exits because the clock cannot be read. *)
Theorem main_typed stack args (s : client W) :
  I (os s) -> is_u32 (seq s) ->
  match main stack args s with
  | Ok v s' => I (os s') /\ is_u32 (seq s') /\ (v = 0 \/ v = -1)
  | Halt s' => I (os s') /\ is_u32 (seq s')
  | _ => True
  end.
Proof.
  intros Hi Hs.
  assert (typed status (main stack args)) as H.
  { unfold main. eapply typed_bind; [apply parse_args_typed|]. intros [v|o] Hp; [by apply typed_ret|].
    cbn in Hp. unfold options_typed in Hp. destruct (images o) as [|first rest] eqn:Ei.
    { apply typed_any; [auto with typed|]. intros _. apply typed_ret. by right. }
    apply typed_any; [auto with typed|]. intros idx. destruct (idx =? 0); [apply typed_fault|].
    do 3 (apply typed_any; [auto with typed|]; intros _). apply serve_nodes_typed; [unfold options_typed; by rewrite Ei|].
    by apply Forall_cons_iff in Hp as [? _]. }
  specialize (H s (conj Hi Hs)). destruct (main stack args s) as [v s'| |s'|]; [|done..].
  destruct H as [[H1 H2] H3]. by split.
Qed.
End protocol.

(** ** An instance *)

#[local] Existing Instance desk_host.

(** Everything sent was a message. *)
Definition all_messages (w : desk) : Prop := Forall wire_message (d_sent w) /\ bytes (d_last w) /\ bytes (d_file w).

Lemma wire_message_bytes buf : wire_message buf -> bytes buf.
Proof.
  intros [cmd q addr db _ _ _ Hb _ _ _]. unfold message. rewrite !Forall_app. split_and!; try apply le_bytes_u8. exact Hb.
Qed.

Lemma desk_heard_ok buf w : wire_message buf -> all_messages w -> all_messages (desk_heard buf w).
Proof.
  intros Hm (H1 & H2 & H3). split; [|split; [|exact H3]].
  - apply Forall_app. split; [exact H1|by constructor].
  - apply Forall_take, Forall_drop. by apply wire_message_bytes.
Qed.

Lemma desk_guarded : guarded all_messages.
Proof.
  split; intros; try done.
  - by apply desk_heard_ok.
  - cbn. destruct (d_sends w); [by apply desk_heard_ok|done].
  - cbn. destruct (d_last w) eqn:E; [|done]. destruct H as (H1 & H2 & H3). by split.
  - destruct H0 as (H1 & H2 & H3). assert (bytes (desk_answer w)) as Ha
      by (unfold desk_answer, message; rewrite !Forall_app; split_and!; try apply le_bytes_u8; [exact H2|constructor]).
    cbn. destruct (fd =? 3); (split; [split; [exact H1|split; [exact H2|]]|]); try exact H3;
      [by apply Forall_drop|intros l [= <-]..]; (split; [by apply Forall_take|rewrite length_take; lia]).
  - unfold desk_open. cbn. by destruct (_ <? 0).
  - unfold desk_open. cbn. by destruct (_ <? 0).
Qed.

Lemma main_typed_witness : exists s',
  main (fun _ => (0, 0, replicate 1024 0)) desk_words (at_desk true) = Ok 0 s' /\
  Forall wire_message (d_sent (os s')) /\ length (d_sent (os s')) = 3%nat.
Proof.
  pose proof (main_typed all_messages desk_guarded (fun _ => (0, 0, replicate 1024 0)) desk_words (at_desk true)
    ltac:(split; [constructor|by_decide]) ltac:(by_decide)) as H.
  destruct (main _ desk_words (at_desk true)) as [v s'| | |] eqn:E.
  - assert (v = 0 /\ length (d_sent (os s')) = 3%nat) as [-> Hl].
    { assert (match main (fun _ => (0, 0, replicate 1024 0)) desk_words (at_desk true) with
        | Ok v s' => v = 0 /\ length (d_sent (os s')) = 3%nat | _ => False end) as Hv by (vm_compute; by split).
      by rewrite E in Hv. }
    exists s'. split; [done|]. split; [apply H|exact Hl].
  - exfalso. vm_compute in E. discriminate E.
  - exfalso. vm_compute in E. discriminate E.
  - exfalso. vm_compute in E. discriminate E.
Defined.
