(* ===== verification/Devicetree.v ===== *)
(** * Dumping the device tree (misc/devicetree.c, hw/inc/hw/devicetree.h)

    A flattened device tree is a sequence of big-endian words and padded byte
    strings.  The specification is [tree]: a tree of nodes with properties,
    [flatten] the sequence of tokens it is stored as, [encode] their bytes.
    [fdt_walk] prints [show_tree], the indented listing of the tree.

    The linker's choice of the addresses of literals is the parameter [lit]. *)

From S2P Require Import Prelude Monad Mem LibcMem LibcStr Uart Printf Exception.

(* src/hw/inc/hw/devicetree.h:18-18 *)
Definition FDT_MAGIC := 0xd00dfeed.
(* src/hw/inc/hw/devicetree.h:20-20 *)
Definition FDT_PADDING := 0.
(* src/hw/inc/hw/devicetree.h:21-21 *)
Definition FDT_BEGIN_NODE := 1.
(* src/hw/inc/hw/devicetree.h:22-22 *)
Definition FDT_END_NODE := 2.
(* src/hw/inc/hw/devicetree.h:23-23 *)
Definition FDT_PROP := 3.
(* src/hw/inc/hw/devicetree.h:24-24 *)
Definition FDT_NOP := 4.
(* src/hw/inc/hw/devicetree.h:25-25 *)
Definition FDT_END := 9.

(** Offsets in the header. *)
(* src/hw/inc/hw/devicetree.h:5-16 fdt_header_t *)
Definition FDT_H_MAGIC := 0.
Definition FDT_H_STRUCT := 8.
Definition FDT_H_STRINGS := 12.
Definition FDT_H_VERSION := 20.
Definition FDT_H_SIZE_STRINGS := 32.
Definition FDT_H_SIZE_STRUCT := 36.

(* src/misc/devicetree.c:10-14 *)
Definition swap (n : Z) : Z :=
  Z.lor (Z.lor (Z.lor (Z.shiftr n 24) (u32 (Z.shiftl n 24))) (Z.land (Z.shiftr n 8) 0x0000FF00))
    (Z.land (u32 (Z.shiftl n 8)) 0x00FF0000).

Section code.
Context {S : Type} `{!HasMem S, !HasUart S}.
Context (lit : list Z -> Z).

(** The first match of a list of names. *)
Fixpoint one_of (s : Z) (names : list (list Z)) : M S Z :=
  match names with
  | [] => ret 0
  | n :: names' => r <- strcmp s (lit n) ;; if r =? 0 then ret 1 else one_of s names'
  end.

(** The case [b] falls through to the case [c]. *)
(* src/misc/devicetree.c:16-35 *)
Definition isstring (s : Z) : M S Z :=
  c <- load8 s ;;
  if c =? 98 then one_of s [str "bootargs"; str "compatible"]
  else if c =? 99 then one_of s [str "compatible"]
  else if c =? 100 then one_of s [str "device_type"]
  else if c =? 109 then one_of s [str "model"; str "mmu-type"]
  else if c =? 114 then one_of s [str "riscv.isa"]
  else ret 0.

(* src/misc/devicetree.c:37-41 *)
Definition xindent (count : Z) : M S unit :=
  loop (fun count =>
    if count >? 0 then xputs (lit (str "  ")) ;; ret (inl (count - 1)) else ret (inr tt)) count.

(* src/misc/devicetree.c:72-75 fdt_walk *)
Definition print_bytes (data len : Z) : M S unit :=
  loop (fun n =>
    if n <? len then
      b <- load8 (data + n) ;; xprintf (str " %02x") [VaWord b] ;; ret (inl (n + 1))
    else ret (inr tt)) 0 ;;
  xprintf nl [].

(* src/misc/devicetree.c:48-86 fdt_walk *)
Definition fdt_token (strtab : Z) : Z * Z -> M S (Z * Z + unit) := fun '(data, indent) =>
  w <- load32 data ;;
  let tok := swap w in
  let data := data + 4 in
  if (tok =? FDT_PADDING) || (tok =? FDT_NOP) then ret (inl (data, indent))
  else if tok =? FDT_BEGIN_NODE then
    len <- strlen data ;;
    let len := u32 (len + 1) in
    xindent indent ;;
    name <- c_string data ;;
    xprintf (str "NODE '%s'" ++ nl) [VaStr (Some name)] ;;
    ret (inl (data + 4 * Z.shiftr (u32 (len + 3)) 2, u32 (indent + 1)))
  else if tok =? FDT_END_NODE then ret (inl (data, u32 (indent - 1)))
  else if tok =? FDT_PROP then
    w <- load32 data ;;
    let len := swap w in
    w <- load32 (data + 4) ;;
    let name := swap w in
    let data := data + 8 in
    xindent indent ;;
    n <- c_string (strtab + name) ;;
    xprintf (str "PROP '%s' %u:") [VaStr (Some n); VaWord len] ;;
    r <- isstring (strtab + name) ;;
    (if negb (r =? 0) then
       v <- c_string data ;; xprintf (str " '%s'" ++ nl) [VaStr (Some v)]
     else print_bytes data len) ;;
    ret (inl (data + 4 * Z.shiftr (u32 (len + 3)) 2, indent))
  else if tok =? FDT_END then xprintf (str "END" ++ nl) [] ;; ret (inr tt)
  else
    w <- load32 (data - 4) ;;
    xprintf (str "HUH %08x" ++ nl) [VaWord (swap w)] ;; ret (inr tt).

(* src/misc/devicetree.c:43-88 *)
Definition fdt_walk (fdt : Z) : M S unit :=
  off <- load32 (fdt + FDT_H_STRUCT) ;;
  let data := u32 (fdt + swap off) in
  off <- load32 (fdt + FDT_H_STRINGS) ;;
  let strtab := u32 (fdt + swap off) in
  loop (fdt_token strtab) (data, 0).

(* src/misc/devicetree.c:90-106 *)
Definition start (fdt : Z) : M S unit :=
  let word o := w <- load32 (fdt + o) ;; ret (swap w) in
  xprintf (str "fdt         %p" ++ nl) [VaWord fdt] ;;
  w <- word FDT_H_MAGIC ;;
  xprintf (str "fdt.magic   %08x" ++ nl) [VaWord w] ;;
  w <- word FDT_H_VERSION ;;
  xprintf (str "fdt.version %08x" ++ nl) [VaWord w] ;;
  o <- word FDT_H_STRUCT ;; n <- word FDT_H_SIZE_STRUCT ;;
  xprintf (str "fdt.struct  %08x %08x" ++ nl) [VaWord o; VaWord n] ;;
  o <- word FDT_H_STRINGS ;; n <- word FDT_H_SIZE_STRINGS ;;
  xprintf (str "fdt.strings %08x %08x" ++ nl) [VaWord o; VaWord n] ;;
  fdt_walk fdt ;;
  loop (fun n =>
    if n <? 0x10009000 then
      x0 <- load32 n ;; x1 <- load32 (n + 4) ;; x2 <- load32 (n + 8) ;; x3 <- load32 (n + 12) ;;
      xprintf (str "%08x: %08x %08x %08x %08x" ++ nl) [VaWord n; VaWord x0; VaWord x1; VaWord x2; VaWord x3] ;;
      ret (inl (n + 0x1000))
    else ret (inr tt)) 0x10001000.
End code.

(** ** Trees *)

(** A property's name is its offset in the string table. *)
#[local] Set Warnings "-register-all".
Inductive tree := Node (name : list Z) (props : list (Z * list Z)) (children : list tree).

Inductive token := TPadding | TNop | TBegin (name : list Z) | TProp (name : Z) (value : list Z) | TEnd.

Fixpoint flatten (t : tree) : list token :=
  match t with
  | Node n ps ts => TBegin n :: map (fun p => TProp p.1 p.2) ps ++ concat (map flatten ts) ++ [TEnd]
  end.

Definition be32 (v : Z) : list Z := rev (le_bytes 4 v).
Definition pad (l : list Z) : list Z := l ++ replicate (Z.to_nat (- Z.of_nat (length l) mod 4)) 0.

Definition encode1 (t : token) : list Z :=
  match t with
  | TPadding => be32 FDT_PADDING
  | TNop => be32 FDT_NOP
  | TBegin n => be32 FDT_BEGIN_NODE ++ pad (n ++ [0])
  | TProp o v => be32 FDT_PROP ++ be32 (Z.of_nat (length v)) ++ be32 o ++ pad v
  | TEnd => be32 FDT_END_NODE
  end.

Definition encode (ts : list token) : list Z := concat (map encode1 ts) ++ be32 FDT_END.

(** What is printed; [names] reads the string table. *)
Section listing.
Context (names : Z -> list Z).

Definition string_names : list (list Z) :=
  [str "bootargs"; str "compatible"; str "device_type"; str "model"; str "mmu-type"; str "riscv.isa"].

Definition indent (d : nat) : list Z := concat (replicate d (str "  ")).

Definition show_byte (b : Z) : list Z := str " " ++ justify false true 2 [] (hex false b).

Definition show_value (n v : list Z) : list Z :=
  if decide (n ∈ string_names) then printed (str " '" ++ until_nul v ++ str "'" ++ nl)
  else concat (map show_byte v) ++ nl.

Definition show_begin (d : nat) (n : list Z) : list Z := indent d ++ printed (str "NODE '" ++ n ++ str "'" ++ nl).
Definition show_prop (d : nat) (o : Z) (v : list Z) : list Z :=
  indent d ++ printed (str "PROP '" ++ names o ++ str "' " ++ dec (Z.of_nat (length v)) ++ str ":") ++
  show_value (names o) v.

Definition show_token (d : nat) (t : token) : list Z :=
  match t with TBegin n => show_begin d n | TProp o v => show_prop d o v | _ => [] end.

Definition next_depth (d : nat) (t : token) : nat :=
  match t with TBegin _ => S d | TEnd => pred d | _ => d end.

(** Line by line, from depth [d] on. *)
Fixpoint listing (ts : list token) (d : nat) : list Z :=
  match ts with
  | [] => str "END" ++ nl
  | t :: ts => show_token d t ++ listing ts (next_depth d t)
  end.

Fixpoint show_tree (d : nat) (t : tree) : list Z :=
  match t with
  | Node n ps ts =>
    show_begin d n ++ concat (map (fun p => show_prop (S d) p.1 p.2) ps) ++ concat (map (show_tree (S d)) ts)
  end.

(** The listing without cuts: what a tree looks like whose lines fit. *)
Definition value_text (n v : list Z) : list Z :=
  if decide (n ∈ string_names) then str " '" ++ removelast v ++ str "'" ++ nl
  else concat (map show_byte v) ++ nl.

Definition node_text (d : nat) (n : list Z) : list Z := indent d ++ str "NODE '" ++ n ++ str "'" ++ nl.
Definition prop_text (d : nat) (o : Z) (v : list Z) : list Z :=
  indent d ++ str "PROP '" ++ names o ++ str "' " ++ dec (Z.of_nat (length v)) ++ str ":" ++ value_text (names o) v.

Fixpoint tree_text (d : nat) (t : tree) : list Z :=
  match t with
  | Node n ps ts =>
    node_text d n ++ concat (map (fun p => prop_text (S d) p.1 p.2) ps) ++ concat (map (tree_text (S d)) ts)
  end.

(** The 127 bytes a call of [xprintf] prints are enough for the line, and a
    string property holds one string, with its NUL at the end. *)
Definition text_char (c : Z) : Prop := 0 < c < 256.
Definition token_fits (t : token) : Prop :=
  match t with
  | TBegin n => Forall text_char n /\ (length n <= 119)%nat
  | TProp o v =>
    Z.of_nat (length v) < 2 ^ 32 /\ Forall text_char (names o) /\ (length (names o) + length (dec (Z.of_nat (length v))) <= 118)%nat /\
    (names o ∈ string_names -> Forall text_char (removelast v) /\ v = removelast v ++ [0] /\ (length v <= 124)%nat)
  | _ => True
  end.
End listing.

(** ** Words and padding *)

Lemma land_shifted x m k : 0 <= k -> Z.land x (Z.shiftl m k) = Z.shiftl (Z.land (Z.shiftr x k) m) k.
Proof.
  intros Hk. apply Z.bits_inj'. intros i Hi. rewrite Z.land_spec, !Z.shiftl_spec, Z.land_spec by done.
  destruct (decide (k <= i)).
  - rewrite Z.shiftr_spec by lia. by replace (i - k + k) with i by lia.
  - rewrite (Z.testbit_neg_r m), (Z.testbit_neg_r _ (i - k)) by lia. by rewrite !andb_false_r.
Qed.

Lemma swap_val a b c d : is_u8 a -> is_u8 b -> is_u8 c -> is_u8 d ->
  swap (a + 0x100 * b + 0x10000 * c + 0x1000000 * d) = d + 0x100 * c + 0x10000 * b + 0x1000000 * a.
Proof.
  unfold is_u8. intros Ha Hb Hc Hd. unfold swap. set (n := a + _ + _ + _).
  assert (Z.shiftr n 24 = d) as -> by (rewrite Z.shiftr_div_pow2 by done; unfold n; zarith).
  assert (u32 (Z.shiftl n 24) = 0x1000000 * a) as -> by (rewrite Z.shiftl_mul_pow2 by done; unfold n; zarith).
  change 0xFF00 with (Z.shiftl 0xFF 8). change 0xFF0000 with (Z.shiftl 0xFF 16). rewrite !land_shifted, !land_FF by done.
  assert (Z.shiftl (Z.shiftr (Z.shiftr n 8) 8 mod 0x100) 8 = 0x100 * c) as ->
    by (rewrite !Z.shiftr_div_pow2, Z.shiftl_mul_pow2 by done; unfold n; zarith).
  assert (Z.shiftl (Z.shiftr (u32 (Z.shiftl n 8)) 16 mod 0x100) 16 = 0x10000 * b) as ->
    by (rewrite Z.shiftr_div_pow2, !Z.shiftl_mul_pow2 by done; unfold n; zarith).
  assert (forall A B C D, Z.lor (Z.lor (Z.lor D A) C) B = Z.lor A (Z.lor B (Z.lor C D))) as ->
    by (intros; apply Z.bits_inj'; intros; rewrite !Z.lor_spec; btauto).
  rewrite (lor_low (0x100 * c) d 8), (lor_low (0x10000 * b) _ 16), (lor_low (0x1000000 * a) _ 24) by zarith. lia.
Qed.

Lemma be32_val v : is_u32 v -> swap (le_val (be32 v)) = v.
Proof.
  intros Hv. unfold be32. cbn [le_bytes rev app le_val].
  replace (u8 (v / 256 / 256 / 256) + 256 * (u8 (v / 256 / 256) + 256 * (u8 (v / 256) + 256 * (u8 v + 256 * 0))))
    with (u8 (v / 256 / 256 / 256) + 0x100 * u8 (v / 256 / 256) + 0x10000 * u8 (v / 256) + 0x1000000 * u8 v) by lia.
  rewrite swap_val by apply u8_range. zarith.
Qed.

Lemma length_pad l : Z.of_nat (length l) < 2 ^ 32 - 4 ->
  Z.of_nat (length (pad l)) = 4 * Z.shiftr (u32 (Z.of_nat (length l) + 3)) 2.
Proof.
  intros Hl. unfold pad. rewrite length_app, length_replicate, Z.shiftr_div_pow2 by done. zarith.
Qed.

Section walk.
Context {S : Type} `{!HasMem S, !HasUart S, !MemUart S}.
Context (lit : list Z -> Z).

(** A big-endian word at the cursor. *)
Lemma load_be v a l (s : S) : bytes_at (mem_of s) a (be32 v ++ l) -> a mod 4 = 0 -> is_u32 v ->
  exists w, load32 a s = Ok w s /\ swap w = v.
Proof.
  intros H Ha Hv. apply bytes_at_app in H as [H _]. exists (le_val (be32 v)). split; [|by apply be32_val].
  assert (mapped (mem_of s) a 4) as Hm by (by eapply bytes_at_mapped).
  by rewrite (load32_ok a s Hm Ha), (word_bytes_at _ _ _ H).
Qed.

(** The literals the program passes by address. *)
Definition dt_literals : list (list Z) := str "  " :: string_names.
Definition literals_at (m : mem) : Prop := Forall (fun l => cstr_at m (lit l) l) dt_literals.

Lemma literal_at m l : literals_at m -> l ∈ dt_literals -> cstr_at m (lit l) l.
Proof. intros H Hl. unfold literals_at in H. rewrite Forall_forall in H. apply H. by apply list_elem_of_In. Qed.

Lemma xindent_ok d (s : S) : literals_at (mem_of s) -> Z.of_nat d < 2 ^ 32 ->
  xindent lit (Z.of_nat d) s = Ok tt (emit (wire (indent d)) s).
Proof.
  intros Hl Hd. unfold xindent. name_body body. apply (loop_runs _ d); [|lia]. clear Hd.
  revert s Hl. induction d as [|d IH]; intros s Hl.
  - unfold indent. cbn [replicate concat]. change (wire []) with (@nil Z). rewrite emit_nil. by apply runs_done.
  - assert (xputs (lit (str "  ")) s = Ok tt (emit (wire (str "  ")) s)) as E
      by (apply xputs_ok; [apply literal_at; [done|left]|by_decide]).
    eapply runs_step.
    + unfold body. rewrite (proj2 (Z.gtb_lt _ _)) by lia. step E. unfold ret.
      replace (Z.of_nat (Datatypes.S d) - 1) with (Z.of_nat d) by lia. reflexivity.
    + unfold indent. cbn [replicate concat]. rewrite wire_app, <- emit_emit. apply IH. by rewrite mem_of_emit.
Qed.

(** A name is one of a list of literals. *)
Lemma one_of_ok a n names (s : S) : literals_at (mem_of s) -> cstr_at (mem_of s) a n -> Z.of_nat (length n) < 2 ^ 32 ->
  (forall l, l ∈ names -> l ∈ dt_literals) ->
  one_of lit a names s = Ok (if decide (n ∈ names) then 1 else 0) s.
Proof.
  intros Hl Hn Hlen. induction names as [|l names IH]; intros Hsub; [done|]. cbn [one_of].
  assert (cstr_at (mem_of s) (lit l) l) as Hc by (apply literal_at; [done|]; apply Hsub; left).
  rewrite (bind_ok _ _ _ _ _ (strcmp_ok a (lit l) n l s Hn Hc Hlen)).
  pose proof (cstr_at_bytes _ _ _ Hn) as Bn. pose proof (cstr_at_bytes _ _ _ Hc) as Bl.
  destruct Hn as [_ Hnz], Hc as [_ Hlz]. pose proof (first_diff_str n l Bn Bl Hnz Hlz) as Hd.
  destruct (Z.eqb_spec (first_diff (n ++ [0]) (l ++ [0])) 0) as [E|E].
  - apply Hd in E as ->. by rewrite decide_True by left.
  - rewrite IH by (intros l' Hl'; apply Hsub; by right).
    assert (n <> l) as Hne by (intros ->; by apply E, Hd).
    destruct (decide (n ∈ names)) as [Hin|Hin]; [by rewrite decide_True by (by right)|].
    rewrite decide_False; [done|]. intros H. by apply elem_of_cons in H as [H|H].
Qed.

(** The value of a property of this name is printed as a string. *)
Lemma isstring_ok a n (s : S) : literals_at (mem_of s) -> cstr_at (mem_of s) a n -> Z.of_nat (length n) < 2 ^ 32 ->
  isstring lit a s = Ok (if decide (n ∈ string_names) then 1 else 0) s.
Proof.
  intros Hl Hn Hlen.
  assert (forall c names, hd 0 n = c -> bool_decide (Forall (fun l => hd 0 l = c -> l ∈ names) string_names) = true ->
    bool_decide (Forall (fun l => l ∈ string_names) names) = true ->
    one_of lit a names s = Ok (if decide (n ∈ string_names) then 1 else 0) s) as Hsel.
  { intros c names Hc H1 H2. apply bool_decide_eq_true in H1, H2. rewrite Forall_forall in H1, H2.
    rewrite (one_of_ok a n names s Hl Hn Hlen).
    - rewrite (decide_ext (n ∈ names) (n ∈ string_names)); [done|].
      split; intros H; [apply H2|apply H1]; rewrite <- ?list_elem_of_In; done.
    - intros l Hin. right. apply H2. by apply list_elem_of_In. }
  unfold isstring. rewrite (bind_ok _ _ _ _ _ (load8_hd a n s Hn)).
  destruct (Z.eqb_spec (hd 0 n) 98) as [E|E1]; [by apply (Hsel 98)|].
  destruct (Z.eqb_spec (hd 0 n) 99) as [E|E2]; [by apply (Hsel 99)|].
  destruct (Z.eqb_spec (hd 0 n) 100) as [E|E3]; [by apply (Hsel 100)|].
  destruct (Z.eqb_spec (hd 0 n) 109) as [E|E4]; [by apply (Hsel 109)|].
  destruct (Z.eqb_spec (hd 0 n) 114) as [E|E5]; [by apply (Hsel 114)|].
  rewrite decide_False; [done|]. intros H.
  assert (Forall (fun l => hd 0 l ∈ [98; 99; 100; 109; 114]) string_names) as Hh by by_decide.
  rewrite Forall_forall in Hh. specialize (Hh n (proj1 (list_elem_of_In _ _) H)).
  apply list_elem_of_In in Hh. cbn [In] in Hh. lia.
Qed.

(** A byte of a value. *)
Lemma byte_printed b (s : S) : is_u8 b ->
  xprintf (str " %02x") [VaWord b] s = Ok tt (emit (wire (show_byte b)) s).
Proof.
  intros Hb. unfold show_byte. set (ds := [(str " ", {| d_left := false; d_plus := false; d_space := false; d_alt := false;
    d_zero := true; d_width := 2; d_conv := CHex false |})]).
  assert (is_u32 b) as Hb32 by (unfold is_u8, is_u32 in *; lia).
  assert (render ds [] [VaWord b] = Some (str " " ++ justify false true 2 [] (hex false b))) as Hr.
  { unfold ds. cbn [render render_directive d_conv d_alt d_left d_zero d_width andb app option_map].
    rewrite (u32_small b Hb32), app_nil_r. reflexivity. }
  pose proof (digits_length 16 b ltac:(lia) Hb32) as Hd.
  assert (length (hex false b) <= 20)%nat as Hh by (unfold hex; rewrite length_map; lia).
  pose proof (justify_short false true 2 [] (hex false b) ltac:(lia) ltac:(cbn; lia) Hh) as Hj.
  unfold xprintf. change (str " %02x") with (unparse ds []).
  rewrite (vxprintf_ok ds [] _ _ s ltac:(by_decide) Hr); [|rewrite length_app; change (length (str " ")) with 1%nat; lia|by_decide].
  rewrite printed_short; [done|rewrite length_app; change (length (str " ")) with 1%nat; lia|].
  apply Forall_app. split; [by_decide|]. unfold justify, zeros. cbn [app]. apply Forall_app. split.
  - apply Forall_replicate. lia.
  - eapply Forall_impl; [|by apply hex_chars]. cbn. lia.
Qed.

Lemma print_bytes_ok a v (s : S) : bytes_at (mem_of s) a v -> Z.of_nat (length v) < 2 ^ 32 ->
  print_bytes a (Z.of_nat (length v)) s =
  Ok tt (emit (wire (concat (map show_byte v) ++ nl)) s).
Proof.
  intros Hv Hl. unfold print_bytes. name_body body.
  assert (forall k v2 v1 s, v = v1 ++ v2 -> k = length v2 -> bytes_at (mem_of s) a v ->
    runs body k (Z.of_nat (length v1)) s
      (Ok tt (emit (wire (concat (map show_byte v2))) s))) as Hgo.
  { clear Hv s. induction k as [|k IH]; intros v2 v1 s E Hk Hv.
    - destruct v2; [|done]. cbn [map concat]. change (wire []) with (@nil Z). rewrite emit_nil. apply runs_done.
      unfold body. rewrite E, app_nil_r, (proj2 (Z.ltb_ge _ _)) by lia. done.
    - destruct v2 as [|b v2]; [done|]. injection Hk as Hk.
      assert (v !! length v1 = Some b) as Hb by (rewrite E; by apply list_lookup_middle).
      pose proof (bytes_at_bytes _ _ _ Hv) as Bv. rewrite Forall_lookup in Bv. specialize (Bv _ _ Hb).
      eapply runs_step.
      + unfold body. rewrite (proj2 (Z.ltb_lt _ _)) by (apply lookup_lt_Some in Hb; lia).
        step (load8_at a v (length v1) b s Hv Hb). step (byte_printed b s Bv). unfold ret.
        replace (Z.of_nat (length v1) + 1) with (Z.of_nat (length (v1 ++ [b]))) by (rewrite length_app; cbn; lia).
        reflexivity.
      + cbn [map concat]. rewrite (wire_app (show_byte b)), <- emit_emit. apply IH; [by rewrite <- app_assoc|done|].
        by rewrite mem_of_emit. }
  step (loop_runs _ _ _ _ _ (Hgo (length v) v [] s eq_refl eq_refl Hv) ltac:(lia)).
  assert (xprintf nl [] (emit (wire (concat (map show_byte v))) s) =
    Ok tt (emit (wire nl) (emit (wire (concat (map show_byte v))) s))) as E.
  { unfold xprintf. apply (vxprintf_ok [] nl [] nl); by_decide. }
  rewrite E, emit_emit. by rewrite (wire_app (concat _) nl).
Qed.

Definition plain (c : conversion) : directive :=
  {| d_left := false; d_plus := false; d_space := false; d_alt := false; d_zero := false; d_width := 0; d_conv := c |}.

Lemma justify_plain l : justify false false 0 [] l = l.
Proof. unfold justify, spaces. cbn [length]. by replace (Z.to_nat _) with 0%nat by lia. Qed.

(** A line with a name in it. *)
Lemma name_printed pre name post (s : S) : literal pre -> literal post -> (length pre + length post <= 100)%nat ->
  Z.of_nat (length name) < 2 ^ 30 ->
  xprintf (pre ++ [37; 115] ++ post) [VaStr (Some name)] s =
  Ok tt (emit (wire (printed (pre ++ until_nul name ++ post))) s).
Proof.
  intros Hp Hq Hl Hn. unfold xprintf.
  change (pre ++ [37; 115] ++ post) with (unparse [(pre, plain CString)] post).
  pose proof (length_until_nul name) as Hu.
  apply (vxprintf_ok [(pre, plain CString)] post _ (pre ++ until_nul name ++ post)).
  - split; [|exact Hq]. constructor; [|constructor]. split; [exact Hp|by_decide].
  - cbn [render render_directive plain d_conv d_left d_zero d_width andb option_map from_option].
    by rewrite justify_plain.
  - rewrite !length_app. lia.
  - cbn [length]. lia.
Qed.

Lemma prop_printed name len (s : S) : Z.of_nat (length name) < 2 ^ 30 -> is_u32 len ->
  xprintf (str "PROP '%s' %u:") [VaStr (Some name); VaWord len] s =
  Ok tt (emit (wire (printed (str "PROP '" ++ until_nul name ++ str "' " ++ dec len ++ str ":"))) s).
Proof.
  intros Hn Hlen. unfold xprintf.
  change (str "PROP '%s' %u:") with (unparse [(str "PROP '", plain CString); (str "' ", plain CUnsigned)] (str ":")).
  pose proof (length_until_nul name) as Hu. pose proof (digits_length 10 len ltac:(lia) Hlen) as Hd.
  rewrite (vxprintf_ok [(str "PROP '", plain CString); (str "' ", plain CUnsigned)] (str ":") _
    (str "PROP '" ++ until_nul name ++ str "' " ++ dec len ++ str ":")); [done|by_decide| |  |by_decide].
  - cbn [render render_directive plain d_conv d_left d_zero d_width andb option_map from_option sign_of].
    by rewrite !justify_plain, u32_small.
  - rewrite !length_app. unfold dec at 1. rewrite length_map.
    change (length (str "PROP '")) with 6%nat. change (length (str "' ")) with 2%nat. change (length (str ":")) with 1%nat. lia.
Qed.

(** ** Tokens *)

Context (names : Z -> list Z) (strtab : Z).

(** A token that can be stored and printed: names are C strings, a value that is
    printed as a string has an end. *)
Definition token_ok (m : mem) (t : token) : Prop :=
  match t with
  | TBegin n => Forall (fun c => c <> 0) n /\ Z.of_nat (length n) < 2 ^ 30
  | TProp o v => is_u32 o /\ Z.of_nat (length v) < 2 ^ 30 /\ cstr_at m (strtab + o) (names o) /\
      Z.of_nat (length (names o)) < 2 ^ 30 /\ (names o ∈ string_names -> 0 ∈ v)
  | _ => True
  end.

Definition depth_ok (d : nat) (t : token) : Prop := match t with TEnd => (0 < d)%nat | _ => True end.

Lemma length_be32 v : length (be32 v) = 4%nat.
Proof. done. Qed.

Lemma pad_aligned l : Z.of_nat (length (pad l)) mod 4 = 0.
Proof. unfold pad. rewrite length_app, length_replicate. zarith. Qed.

Lemma encode1_aligned t : Z.of_nat (length (encode1 t)) mod 4 = 0.
Proof.
  destruct t as [| |n|o v|]; try done; cbn [encode1]; rewrite !length_app, ?length_be32.
  - pose proof (pad_aligned (n ++ [0])). zarith.
  - pose proof (pad_aligned v). zarith.
Qed.

Lemma until_nul_none l : Forall (fun c => c <> 0) l -> until_nul l = l.
Proof. induction 1 as [|c l Hc _ IH]; [done|]. cbn [until_nul]. by rewrite (proj2 (Z.eqb_neq _ _) Hc), IH. Qed.

(** The value of a string property, as [%s] reads it. *)
Lemma until_nul_cstr m a v l : 0 ∈ v -> bytes_at m a (v ++ l) -> cstr_at m a (until_nul v).
Proof.
  intros H Hv. apply bytes_at_app in Hv as [Hv _]. revert a Hv. induction v as [|c v IH]; intros a Hv.
  { by apply not_elem_of_nil in H. }
  apply bytes_at_cons in Hv as (Hc & Hm & Hv). cbn [until_nul]. destruct (Z.eqb_spec c 0) as [->|Hne].
  - split; [|constructor]. apply bytes_at_cons. split; [done|]. split; [done|apply bytes_at_nil].
  - apply cstr_at_cons. split; [done|]. split; [done|]. split; [done|]. apply IH; [|done].
    by apply elem_of_cons in H as [H|H].
Qed.

(** The tokens without a line. *)
Lemma token_quiet tok l a d (s : S) : bytes_at (mem_of s) a (be32 tok ++ l) -> a mod 4 = 0 ->
  tok = FDT_PADDING \/ tok = FDT_NOP \/ tok = FDT_END_NODE ->
  fdt_token lit strtab (a, d) s = Ok (inl (a + 4, if tok =? FDT_END_NODE then u32 (d - 1) else d)) s.
Proof.
  intros H Ha Ht. assert (is_u32 tok) as Hu by (destruct Ht as [-> | [-> | ->]]; by_decide).
  destruct (load_be tok a l s H Ha Hu) as (w & E & Hw). unfold fdt_token. step E. rewrite Hw.
  by destruct Ht as [-> | [-> | ->]].
Qed.

Lemma token_begin n l a d (s : S) : literals_at (mem_of s) -> bytes_at (mem_of s) a (encode1 (TBegin n) ++ l) ->
  a mod 4 = 0 -> token_ok (mem_of s) (TBegin n) -> Z.of_nat (Datatypes.S d) < 2 ^ 32 ->
  fdt_token lit strtab (a, Z.of_nat d) s =
  Ok (inl (a + Z.of_nat (length (encode1 (TBegin n))), Z.of_nat (Datatypes.S d))) (emit (wire (show_begin d n)) s).
Proof.
  intros Hlit H Ha [Hn Hlen] Hd. cbn [encode1] in *. rewrite <- app_assoc in H.
  destruct (load_be FDT_BEGIN_NODE a _ s H Ha ltac:(by_decide)) as (w & E & Hw).
  apply bytes_at_app in H as [_ H]. rewrite length_be32 in H. change (Z.of_nat 4) with 4 in H.
  unfold pad in H. rewrite <- !app_assoc in H. apply bytes_at_app in H as [Hb H].
  assert (cstr_at (mem_of s) (a + 4) n) as Hc.
  { split; [|done]. apply bytes_at_app. split; [exact Hb|]. apply bytes_at_app in H as [H _]. exact H. }
  unfold fdt_token. step E. rewrite Hw. change ((FDT_BEGIN_NODE =? FDT_PADDING) || (FDT_BEGIN_NODE =? FDT_NOP)) with false.
  change (FDT_BEGIN_NODE =? FDT_BEGIN_NODE) with true. cbn iota.
  step (strlen_ok (a + 4) n s Hc ltac:(lia)). step (xindent_ok d s Hlit ltac:(lia)).
  set (s1 := emit _ s). assert (cstr_at (mem_of s1) (a + 4) n) as Hc1 by (unfold s1; by rewrite mem_of_emit).
  step (c_string_ok n (a + 4) s1 Hc1 ltac:(lia)).
  change (str "NODE '%s'" ++ nl) with (str "NODE '" ++ [37; 115] ++ str "'" ++ nl).
  step (name_printed (str "NODE '") n (str "'" ++ nl) s1 ltac:(by_decide) ltac:(by_decide) ltac:(by_decide) Hlen).
  unfold ret. rewrite until_nul_none by done. f_equal.
  - do 2 f_equal; [|rewrite u32_small by (unfold is_u32; lia); lia].
    rewrite length_app, length_be32. rewrite (u32_small (_ + 1)) by (unfold is_u32; lia).
    pose proof (length_pad (n ++ [0])) as Hp. rewrite length_app in *. cbn [length] in *. rewrite Nat2Z.inj_add in *.
    change (Z.of_nat 1) with 1 in *. rewrite Hp by lia. lia.
  - unfold s1, show_begin. by rewrite emit_emit, <- wire_app.
Qed.

(** The value, as [show_value] says. *)
Lemma value_printed n a v l (s : S) : bytes_at (mem_of s) a (v ++ l) -> Z.of_nat (length v) < 2 ^ 30 ->
  (n ∈ string_names -> 0 ∈ v) ->
  (if negb ((if decide (n ∈ string_names) then 1 else 0) =? 0)
   then v <- c_string a ;; xprintf (str " '%s'" ++ nl) [VaStr (Some v)]
   else print_bytes a (Z.of_nat (length v))) s = Ok tt (emit (wire (show_value n v)) s).
Proof.
  intros Hv Hlen H0. unfold show_value. destruct (decide (n ∈ string_names)) as [Hin|Hin].
  - change (negb (1 =? 0)) with true. cbn iota. pose proof (until_nul_cstr _ _ _ _ (H0 Hin) Hv) as Hc.
    pose proof (length_until_nul v) as Hu. step (c_string_ok (until_nul v) a s Hc ltac:(lia)).
    change (str " '%s'" ++ nl) with (str " '" ++ [37; 115] ++ str "'" ++ nl).
    rewrite (name_printed (str " '") (until_nul v) (str "'" ++ nl) s ltac:(by_decide) ltac:(by_decide) ltac:(by_decide)
      ltac:(lia)).
    rewrite (until_nul_none (until_nul v)); [reflexivity|apply Hc].
  - change (negb (0 =? 0)) with false. cbn iota. apply bytes_at_app in Hv as [Hv _].
    apply print_bytes_ok; [exact Hv|lia].
Qed.

Lemma token_prop o v l a d (s : S) : literals_at (mem_of s) -> bytes_at (mem_of s) a (encode1 (TProp o v) ++ l) ->
  a mod 4 = 0 -> token_ok (mem_of s) (TProp o v) -> Z.of_nat d < 2 ^ 32 ->
  fdt_token lit strtab (a, Z.of_nat d) s =
  Ok (inl (a + Z.of_nat (length (encode1 (TProp o v))), Z.of_nat d)) (emit (wire (show_prop names d o v)) s).
Proof.
  intros Hlit H Ha (Ho & Hlen & Hn & Hnl & H0) Hd. cbn [encode1] in *. rewrite <- !app_assoc in H.
  assert (is_u32 (Z.of_nat (length v))) as Hvu by (unfold is_u32; lia).
  destruct (load_be FDT_PROP a _ s H Ha ltac:(by_decide)) as (w & E & Hw).
  apply bytes_at_app in H as [_ H]. rewrite length_be32 in H. change (Z.of_nat 4) with 4 in H.
  destruct (load_be _ (a + 4) _ s H ltac:(zarith) Hvu) as (w1 & E1 & Hw1).
  apply bytes_at_app in H as [_ H]. rewrite length_be32 in H. change (Z.of_nat 4) with 4 in H.
  destruct (load_be o (a + 4 + 4) _ s H ltac:(zarith) Ho) as (w2 & E2 & Hw2).
  apply bytes_at_app in H as [_ H]. rewrite length_be32 in H. change (Z.of_nat 4) with 4 in H.
  unfold pad in H. rewrite <- app_assoc in H.
  unfold fdt_token. step E. rewrite Hw. change ((FDT_PROP =? FDT_PADDING) || (FDT_PROP =? FDT_NOP)) with false.
  change (FDT_PROP =? FDT_BEGIN_NODE) with false. change (FDT_PROP =? FDT_END_NODE) with false.
  change (FDT_PROP =? FDT_PROP) with true. cbn iota. step E1. step E2. rewrite Hw1, Hw2.
  step (xindent_ok d s Hlit ltac:(lia)). set (s1 := emit _ s).
  assert (mem_of s1 = mem_of s) as M1 by (unfold s1; by rewrite mem_of_emit). rewrite <- M1 in *.
  step (c_string_ok (names o) (strtab + o) s1 Hn ltac:(lia)).
  step (prop_printed (names o) (Z.of_nat (length v)) s1 Hnl Hvu). set (s2 := emit _ s1).
  assert (mem_of s2 = mem_of s1) as M2 by (unfold s2; by rewrite mem_of_emit). rewrite <- M2 in *.
  step (isstring_ok (strtab + o) (names o) s2 Hlit Hn ltac:(lia)).
  replace (a + 4 + 8) with (a + 4 + 4 + 4) by lia.
  rewrite (bind_ok _ _ _ _ _ (value_printed (names o) (a + 4 + 4 + 4) v _ s2 H Hlen H0)).
  unfold ret. f_equal.
  - do 2 f_equal. rewrite !length_app, !length_be32, !Nat2Z.inj_add, length_pad by lia. lia.
  - unfold s2, s1, show_prop. rewrite !emit_emit, <- !wire_app. rewrite (until_nul_none (names o)) by apply Hn.
    rewrite <- ?app_assoc. reflexivity.
Qed.

Fixpoint tokens_ok (m : mem) (ts : list token) (d : nat) : Prop :=
  match ts with
  | [] => True
  | t :: ts => token_ok m t /\ depth_ok d t /\ tokens_ok m ts (next_depth d t)
  end.

Lemma next_depth_le d t : (next_depth d t <= Datatypes.S d)%nat.
Proof. destruct t; cbn; lia. Qed.

Lemma token_step t l a d (s : S) : literals_at (mem_of s) -> bytes_at (mem_of s) a (encode1 t ++ l) ->
  a mod 4 = 0 -> token_ok (mem_of s) t -> depth_ok d t -> Z.of_nat (Datatypes.S d) < 2 ^ 32 ->
  fdt_token lit strtab (a, Z.of_nat d) s =
  Ok (inl (a + Z.of_nat (length (encode1 t)), Z.of_nat (next_depth d t))) (emit (wire (show_token names d t)) s).
Proof.
  intros Hlit H Ha Ht Hd Hs. destruct t as [| |n|o v|]; cbn [next_depth show_token].
  - rewrite (token_quiet FDT_PADDING l a _ s H Ha) by auto. change (wire []) with (@nil Z). by rewrite emit_nil.
  - rewrite (token_quiet FDT_NOP l a _ s H Ha) by auto. change (wire []) with (@nil Z). by rewrite emit_nil.
  - by apply (token_begin n l).
  - apply (token_prop o v l); (done || lia).
  - rewrite (token_quiet FDT_END_NODE l a _ s H Ha) by auto. change (wire []) with (@nil Z). rewrite emit_nil.
    change (FDT_END_NODE =? FDT_END_NODE) with true. cbn iota. cbn [depth_ok] in Hd. do 3 f_equal.
    unfold u32. rewrite Z.mod_small by lia. lia.
Qed.

(** The walk of the tokens. *)
Lemma walk_ok ts : forall a d (s : S), literals_at (mem_of s) -> bytes_at (mem_of s) a (encode ts) ->
  a mod 4 = 0 -> tokens_ok (mem_of s) ts d -> Z.of_nat (d + length ts) < 2 ^ 32 - 1 ->
  runs (fdt_token lit strtab) (length ts) (a, Z.of_nat d) s (Ok tt (emit (wire (listing names ts d)) s)).
Proof.
  induction ts as [|t ts IH]; intros a d s Hlit H Ha Ht Hd; cbn [length listing].
  - apply runs_done. unfold encode in H. cbn [map concat app] in H. rewrite <- (app_nil_r (be32 FDT_END)) in H.
    destruct (load_be FDT_END a _ s H Ha ltac:(by_decide)) as (w & E & Hw).
    unfold fdt_token. step E. rewrite Hw.
    change ((FDT_END =? FDT_PADDING) || (FDT_END =? FDT_NOP)) with false.
    change (FDT_END =? FDT_BEGIN_NODE) with false. change (FDT_END =? FDT_END_NODE) with false.
    change (FDT_END =? FDT_PROP) with false. change (FDT_END =? FDT_END) with true. cbn iota.
    assert (xprintf (str "END" ++ nl) [] s = Ok tt (emit (wire (str "END" ++ nl)) s)) as E2
      by (unfold xprintf; apply (vxprintf_ok [] (str "END" ++ nl) [] (str "END" ++ nl)); by_decide).
    by step E2.
  - destruct Ht as (Ht & Hdt & Hts). unfold encode in H. cbn [map concat] in H. rewrite <- app_assoc in H.
    cbn [length] in Hd. eapply runs_step; [apply (token_step t _ a d s Hlit H Ha Ht Hdt); lia|].
    rewrite wire_app, <- emit_emit. apply bytes_at_app in H as [_ H]. pose proof (next_depth_le d t).
    pose proof (encode1_aligned t).
    apply IH; rewrite ?mem_of_emit; [done|exact H|zarith|done|lia].
Qed.
End walk.

(** ** The listing of a tree *)

Lemma tree_induction (P : tree -> Prop) :
  (forall n ps ts, Forall P ts -> P (Node n ps ts)) -> forall t, P t.
Proof.
  intros H. fix IH 1. intros [n ps ts]. apply H. induction ts as [|t ts IHts]; constructor; [apply IH|exact IHts].
Qed.

Section trees.
Context (names : Z -> list Z) (strtab : Z).

Lemma listing_props ps rest d :
  listing names (map (fun p => TProp p.1 p.2) ps ++ rest) d =
  concat (map (fun p => show_prop names d p.1 p.2) ps) ++ listing names rest d.
Proof.
  induction ps as [|p ps IH]; [done|]. cbn [map app concat listing show_token next_depth]. by rewrite IH, app_assoc.
Qed.

Lemma flatten_listing t : forall d rest,
  listing names (flatten t ++ rest) d = show_tree names d t ++ listing names rest d.
Proof.
  induction t as [n ps ts IH] using tree_induction. intros d rest. cbn [flatten show_tree app].
  cbn [listing show_token next_depth]. rewrite <- !app_assoc, listing_props. do 2 f_equal.
  induction IH as [|t ts Ht _ IH]; [done|]. cbn [map concat]. rewrite <- !app_assoc, Ht. by rewrite IH, app_assoc.
Qed.

Lemma flatten_tokens_ok m t : forall d rest, Forall (token_ok names strtab m) (flatten t) ->
  tokens_ok names strtab m rest d -> tokens_ok names strtab m (flatten t ++ rest) d.
Proof.
  induction t as [n ps ts IH] using tree_induction. intros d rest H Hr. cbn [flatten app] in *.
  apply Forall_cons_iff in H as [Hn H]. apply Forall_app in H as [Hp H]. apply Forall_app in H as [Hc _].
  cbn [tokens_ok next_depth depth_ok]. split; [done|]. split; [done|]. rewrite <- !app_assoc.
  assert (tokens_ok names strtab m ([TEnd] ++ rest) (Datatypes.S d)) as He
    by (cbn [app tokens_ok token_ok depth_ok next_depth pred]; split; [done|split; [lia|done]]).
  assert (tokens_ok names strtab m (concat (map flatten ts) ++ [TEnd] ++ rest) (Datatypes.S d)) as Hts.
  { clear Hp. induction IH as [|t ts Ht _ IH]; [exact He|]. cbn [map concat] in *. apply Forall_app in Hc as [H1 H2].
    rewrite <- app_assoc. apply Ht; [done|]. by apply IH. }
  revert Hts. generalize (concat (map flatten ts) ++ [TEnd] ++ rest). clear - Hp. intros l Hl.
  induction ps as [|p ps IH]; [done|]. cbn [map app tokens_ok next_depth depth_ok] in *.
  apply Forall_cons_iff in Hp as [H1 H2]. auto.
Qed.

(** *** Lines that fit *)

Lemma until_nul_end l : Forall text_char l -> until_nul (l ++ [0]) = l.
Proof.
  induction 1 as [|c l Hc _ IH]; [done|]. unfold text_char in Hc. cbn [app until_nul].
  by rewrite (proj2 (Z.eqb_neq c 0)), IH by lia.
Qed.

Lemma removelast_length (v : list Z) : (length (removelast v) <= length v - 1)%nat.
Proof. induction v as [|c [|c' v] IH]; [done..|]. cbn [removelast length] in *. lia. Qed.

Lemma printed_fits pre l post : literal pre -> Forall text_char l -> Forall text_char post ->
  Forall text_char pre -> (length pre + length l + length post <= 127)%nat ->
  printed (pre ++ l ++ post) = pre ++ l ++ post.
Proof.
  intros _ Hl Hq Hp Hn. apply printed_short; [rewrite !length_app; lia|]. by rewrite !Forall_app.
Qed.

Lemma node_fits d n : token_fits names (TBegin n) -> show_begin d n = node_text d n.
Proof.
  intros [Hn Hl]. unfold show_begin, node_text. f_equal.
  apply printed_fits; [by_decide|done|by_decide..|]. change (length (str "NODE '")) with 6%nat.
  change (length (str "'" ++ nl)) with 2%nat. lia.
Qed.

Lemma prop_fits d o v : token_fits names (TProp o v) -> show_prop names d o v = prop_text names d o v.
Proof.
  intros (Hv32 & Hn & Hl & Hs). unfold show_prop, prop_text. f_equal. set (k := dec _) in *.
  assert (Forall text_char k) as Hk by (eapply List.Forall_impl; [|apply dec_chars; unfold is_u32; lia]; unfold text_char; cbn; lia).
  rewrite printed_fits; [| by_decide|done| |by_decide|].
  - rewrite <- !app_assoc. do 5 f_equal. unfold show_value, value_text. case_decide as E; [|done].
    destruct (Hs E) as (Hc & H0 & Hv). rewrite H0, until_nul_end by done. rewrite <- H0. pose proof (removelast_length v).
    apply printed_fits; [by_decide|done|by_decide..|]. change (length (str " '")) with 2%nat.
    change (length (str "'" ++ nl)) with 2%nat. lia.
  - rewrite !Forall_app. split_and!; [by_decide|done|by_decide].
  - rewrite !length_app. change (length (str "PROP '")) with 6%nat. change (length (str "' ")) with 2%nat.
    change (length (str ":")) with 1%nat. lia.
Qed.

Lemma tree_fits t : forall d, Forall (token_fits names) (flatten t) -> show_tree names d t = tree_text names d t.
Proof.
  induction t as [n ps ts IH] using tree_induction. intros d H. cbn [flatten show_tree tree_text] in *.
  apply Forall_cons_iff in H as [Hn H]. apply Forall_app in H as [Hp H]. apply Forall_app in H as [Hc _].
  rewrite node_fits by done. f_equal. f_equal.
  - f_equal. apply map_ext_in. intros p Hin. apply prop_fits. rewrite List.Forall_forall in Hp.
    apply (Hp (TProp p.1 p.2)). apply in_map_iff. by exists p.
  - induction IH as [|t ts Ht _ IH]; [done|]. cbn [map concat] in *. apply Forall_app in Hc as [H1 H2].
    by rewrite Ht, IH.
Qed.

(** C31: on a flattened device tree the walk ends and prints the tree: every node
    and every property once, in order, each on its line and indented by its
    depth, with the values of the known string properties as text up to their
    first NUL and the others as bytes; nothing but the console changes.  A call
    of [xprintf] prints at most 127 bytes, so a longer name or text is cut, and
    with it the quote and the end of its line.  Where every line fits and every
    string property holds a single string, the listing is the whole tree
    ([tree_text]), uncut. *)
Theorem fdt_walk_prints {S : Type} `{!HasMem S, !HasUart S, !MemUart S} (lit : list Z -> Z) fdt offs offt t (s : S) :
  let m := mem_of s in
  literals_at lit m -> fdt mod 4 = 0 -> is_u32 offs -> is_u32 offt -> offs mod 4 = 0 ->
  bytes_at m (fdt + FDT_H_STRUCT) (be32 offs) -> bytes_at m (fdt + FDT_H_STRINGS) (be32 offt) ->
  strtab = u32 (fdt + offt) -> bytes_at m (u32 (fdt + offs)) (encode (flatten t)) ->
  Forall (token_ok names strtab m) (flatten t) -> Z.of_nat (length (flatten t)) < 2 ^ 32 - 1 ->
  fdt_walk lit fdt s = Ok tt (emit (wire (show_tree names 0 t ++ str "END" ++ nl)) s) /\
  (Forall (token_fits names) (flatten t) -> show_tree names 0 t = tree_text names 0 t).
Proof.
  intros m Hlit Ha Hs Ht Has Hhs Hht Hst H Hok Hlen. split; [|by apply tree_fits]. unfold fdt_walk.
  rewrite <- (app_nil_r (be32 offs)) in Hhs. rewrite <- (app_nil_r (be32 offt)) in Hht.
  destruct (load_be offs (fdt + FDT_H_STRUCT) [] s Hhs ltac:(unfold FDT_H_STRUCT; zarith) Hs) as (w1 & E1 & W1).
  destruct (load_be offt (fdt + FDT_H_STRINGS) [] s Hht ltac:(unfold FDT_H_STRINGS; zarith) Ht) as (w2 & E2 & W2).
  step E1. step E2. rewrite W1, W2, <- Hst.
  pose proof (flatten_tokens_ok m t 0 [] Hok I) as Hto. rewrite app_nil_r in Hto.
  eapply (loop_runs _ (length (flatten t))); [|lia].
  pose proof (walk_ok lit names strtab (flatten t) (u32 (fdt + offs)) 0 s Hlit H ltac:(zarith) Hto ltac:(lia)) as R.
  pose proof (flatten_listing t 0 []) as El. rewrite app_nil_r in El. cbn [listing] in El. by rewrite El in R.
Qed.
End trees.


(** ** An instance *)

Definition demo_tree : tree :=
  Node [] [(0, str "virt" ++ [0])] [Node (str "cpu") [(6, [0; 0; 0; 1]); (6, [])] []; Node (str "uart@1") [] []].

Definition demo_names (o : Z) : list Z := if o =? 0 then str "model" else if o =? 6 then str "reg" else [].

(** Every literal has sixteen bytes at 0x100. *)
Definition demo_lit (l : list Z) : Z :=
  (fix at_ (a : Z) (ls : list (list Z)) := match ls with
   | [] => a
   | l' :: ls' => if decide (l = l') then a else at_ (a + 16) ls'
   end) 0x100 dt_literals.

Definition demo_fdt : list Z :=
  be32 FDT_MAGIC ++ be32 0x200 ++ be32 0x28 ++ be32 0x100 ++ be32 0 ++ be32 17 ++ be32 16 ++ be32 0 ++ be32 10 ++
  be32 (Z.of_nat (length (encode (flatten demo_tree)))) ++ encode (flatten demo_tree).

Definition demo_dt : mem * uart :=
  (write_bytes (write_bytes (mem_lit 0x100 (concat (map (fun l => l ++ replicate (16 - length l) 0) dt_literals)))
     0x1000 demo_fdt) 0x1100 (str "model" ++ [0] ++ str "reg" ++ [0]),
   {| u_stalls := [1]; u_out := [] |}).

Lemma fdt_walk_prints_witness :
  exists s', fdt_walk demo_lit 0x1000 demo_dt = Ok tt s' /\
    u_out s'.2 = wire (tree_text demo_names 0 demo_tree ++ str "END" ++ nl) /\
    tree_text demo_names 0 demo_tree =
      str "NODE ''" ++ nl ++ str "  PROP 'model' 5: 'virt'" ++ nl ++ str "  NODE 'cpu'" ++ nl ++
      str "    PROP 'reg' 4: 00 00 00 01" ++ nl ++ str "    PROP 'reg' 0:" ++ nl ++ str "  NODE 'uart@1'" ++ nl.
Proof.
  destruct (fdt_walk_prints demo_names 0x1100 demo_lit 0x1000 0x28 0x100 demo_tree demo_dt) as [E F]; try by_decide.
  { repeat (apply List.Forall_cons; [cbn [token_ok]; split_and?; by_decide|]). constructor. }
  eexists. split; [exact E|]. rewrite F.
  - split; vm_compute; reflexivity.
  - repeat (apply List.Forall_cons; [cbn [token_fits]; split_and?; by_decide|]). constructor.
Defined.
